(* ===== verification/_CoqProject ===== *)
-Q . S2P
Prelude.v
GoString.v
GoTime.v
GoFloat.v
GoFloatSign.v
GoDuration.v
Sha1.v
GoError.v
GoOutcome.v
GoStrconv.v
Limiter.v
CircuitBreaker.v
Allocator.v
GoJson.v
GoJsonText.v
JsonScan.v
GoTimeText.v
Symbols.v
Endpoints.v
EndpointRows.v
SchedulerModels.v
Planner.v
JobStore.v
Backfill.v
Worker.v
SchedulerQueries.v
Normalizers.v
Hardening.v
FilterSpec.v
Upsert.v
Repositories.v
Cvd.v
Writer.v
WriteRetry.v
Collector.v
ExchangeCommon.v
Binance.v
Okx.v
Bybit.v
Bitget.v
Gate.v
Mexc.v
Adapters.v
EventSides.v
GoUrl.v
RequestBuilder.v
Resp.v
RealtimeStore.v
RedisStore.v
RealtimeEvents.v
RealtimeStreams.v
Retention.v
RetentionStore.v
Rollup.v
RetentionEngine.v
PgNumeric.v
ApiQuery.v
ApiStore.v
ApiSchema.v
ApiSeries.v
ApiAdmin.v
PgText.v
ApiOverview.v
ApiJson.v
ApiHandlers.v
AggregateQuality.v
PgAggregate.v
GoMath.v
AggregateModels.v
Analytics.v
AggregateReads.v
AggregateWrites.v
AggregateSpec.v
AggregatePublish.v
Config.v
Monitoring.v
DataGaps.v
Metrics.v
Services.v
ApiService.v
