(* ===== verification/Prelude.v ===== *)
(** * Verification of the crypto-derivative aggregator services

    The repository is a set of Go services around one PostgreSQL database.  A scheduler plans
    collection jobs from policies; workers claim jobs, ask a circuit breaker and a rate limiter for
    permission, and execute them; a collector resolves the job's symbol, endpoint and exchange
    adapter, sends the request, normalises the answer, filters the rows and writes them; retention
    removes old rows; a realtime store and an HTTP API serve them.  This library models the path of
    a job from policy to stored row and proves what makes it correct.

    ** Parts and files

    Language and standard library: [GoString] (bytes, trimming, case, joining, decimal numbers),
    [GoTime], [GoTimeText] and [GoDuration] ([time.Time] as nanoseconds since year 1,
    [time.Duration] at 64 bits, civil dates, RFC 3339 text), [GoFloat], [GoFloatSign] and [GoMath]
    (binary64 through the Standard Library's SpecFloat, square root and logarithm), [GoStrconv]
    ([strconv]), [Sha1] ([crypto/sha1] and hex), [GoError] (error chains with [errors.Is] and
    [errors.As]), [GoOutcome] (results that may panic), [GoJson] and [GoJsonText] (values, struct
    decoding, [RawMessage], the scanner of JSON text), [JsonScan] (the fuel of that scanner), [GoUrl]
    ([net/url] and [net]).

    Rate limiting, [internal/ratelimit]: [Limiter] ([limiter.go]: two token buckets per key,
    [Configure], [reserve], the [Wait] loop), [CircuitBreaker] ([circuit_breaker.go]: closed, open
    and half-open circuits per key), [Allocator] ([allocator.go]: capacity by priority of work
    class).

    Reference data: [Symbols] ([internal/symbols]: market mappings and the symbol queries),
    [Endpoints] ([internal/endpoints]: endpoint lookups), [EndpointRows] (the rows they are scanned
    from).

    Scheduling, [internal/scheduler]: [SchedulerModels] ([models.go], [idempotency.go],
    [policies.go] and the runtime metadata of [worker.go]), [Planner] ([planner.go]: [RunAt] over
    the classes [PlannerStores] and [JobStore], with the laws [JobStoreLaws] of the latter),
    [JobStore] ([repository.go] and [recovery.go]: the job, dead-letter and run tables with their
    constraints, and the instance of the planner's interface), [Backfill] ([backfill.go]), [Worker]
    ([worker.go]: [process], [RunOnce], backoff, retry and dead letter), [SchedulerQueries]
    (policies and tier markets of [repository.go]).

    Exchanges, [internal/exchanges]: [ExchangeCommon] (payload access and the parts the adapters
    share), [Binance], [Okx], [Bybit], [Bitget], [Gate], [Mexc] (the normalisers of each adapter),
    [Adapters] (all six behind one interface, and where they panic), [EventSides] (their liquidation
    events as far as the table), [RequestBuilder] (requests from endpoint templates).

    Collecting: [Normalizers] ([internal/normalizers]: thirteen row types and their validators),
    [Hardening] ([internal/hardening]: error classification and the filter of results), [FilterSpec]
    (what the filter keeps, without its validators), [Upsert] and [Repositories]
    ([internal/repositories]: one transactional upsert, and each table, with its [CHECK] constraints,
    as an instance of it that obeys [TableLaws]), [Cvd] (the cumulative series of [advanced.go]),
    [Writer] ([internal/collectors/core/writer.go]), [WriteRetry] (a write that stopped and the
    attempts after it), [Collector] ([collector.go], [router.go],
    [multi_writer.go] and [internal/collectors/aggregate/executor.go]).

    Realtime, [internal/realtime]: [RealtimeStore] (keys, memory store, fallback), [Resp] and
    [RedisStore] (the wire format and the client against a server), [RealtimeEvents] (writer and
    resolver of latest events), [RealtimeStreams] (reconnecting streams, snapshot buffer).

    Retention, [internal/retention]: [Retention] ([specs.go], [planner.go], [partitions.go]: tables
    and their minimums, policy validation, the plan, partition names), [RetentionStore] ([sql.go],
    [store.go]: statements with placeholders evaluated on tables of rows and partitions), [Rollup]
    ([rollup.go]: the kline rollup, and the types of the parameters of its statement), [RetentionEngine] ([engine.go], [metrics.go]: the cleanup of an
    item and a whole run).

    API, [internal/api/derivatives]: [PgNumeric], [PgText] (NUMERIC text, ILIKE, shortest decimals),
    [ApiQuery] (list options), [ApiStore] (statements, driver values, [rows.Scan], pages),
    [ApiSchema] (column types), [ApiSeries], [ApiAdmin], [ApiOverview] (the list functions),
    [ApiJson] (encoding of the DTOs), [ApiHandlers] (paths, statuses and bodies).

    Aggregation, [internal/repositories] and [internal/aggregation]: [AggregateQuality],
    [PgAggregate] (SUM, AVG, MIN, MAX of NUMERIC), [AggregateModels], [Analytics] (candles, levels,
    volatility, divergence, flags), [AggregateReads], [AggregateWrites] (statements and upserts),
    [AggregateSpec] (the reference of the market figures and of the rows they are read from),
    [AggregatePublish] (what the job, the upserts and the API make of an aggregate).

    Configuration and monitoring: [Config] ([internal/config]), [Monitoring] (health reports, request
    log, collection runs of [internal/repositories]), [DataGaps] ([data_gaps.go]), [Metrics]
    ([internal/observability], and the text of the retention counters).

    Services, [cmd]: [Services] (the scheduler, collector and retention services from configuration to
    exit code, with [internal/database] and [internal/logger]), [ApiService] (the API service: its
    routes, dispatch, and the handlers of its own).

    ** Conventions

    A handler is a function from the state it acts on to the new state and the error it returns.
    What the code reads from outside (clock, context, random draws, environment, database failures,
    answers of interfaces) is an argument.  Code that is not of this repository is a class with
    documented laws or a parameter: the iteration order of Go maps ([MapOrder], a permutation), the
    order in which a server meets rows ([HeapOrder], [ScanOrder]; theorems about several requests or
    attempts take an order for each), URL parsing ([UrlLib]), a Redis server and its connection, with
    or without eviction of keys ([RedisServer]), JSON text that is only compared ([JsonText]), [md5]
    and the text of timestamps in PostgreSQL ([PgFunctions]).  SQL tables are lists of rows, or finite
    maps over their unique index where only upserts touch them; a statement is a function on the
    table, with the constraints that can refuse it.  lib/pq sends parameters without types: where a
    use decides whether PostgreSQL accepts the statement, its documented rule is written out (an
    operand of unknown type takes that of the other one; a parameter with a use that gives it no type
    is refused), in [AggregateReads] and [Rollup], or the type is an argument, in [DataGaps].  Indexing
    a Go slice past its end panics ([ExchangeCommon.index]).  The API, the aggregation
    and the monitoring use rows of typed columns, with numerics at their scale; the collecting side
    keeps the Go values.  64-bit arithmetic wraps ([wrap64]) where the source can overflow.

    Assumed throughout: floats are computed without fused multiply-add (amd64); times are UTC and at
    the precision of their column; the clock stands still within one realtime call; text is valid
    UTF-8 without NUL, compared byte by byte, and letters that change case are ASCII; [NUMERIC(p, s)]
    has at most 38 digits; a JSON object in the database has one member per key.

    ** What is proved

    - Planning: the cached loop plans what a cache-free reference plans, a second run in the same
      buckets inserts nothing (proved against the job store's interface and its laws), keys are
      injective, buckets partition time, what the planner writes into a job is read back, backfill
      terminates and plans exactly the aligned buckets of its range.
    - Jobs: identity and key uniqueness survive every interleaving of operations, a claim takes the
      most urgent due jobs and takes them once, recovery takes back exactly the stale ones, a
      failing job is dead-lettered with the last attempt of its budget, and sooner only by an
      unrecoverable error, a successful one is marked once, the backoff is the capped exponential.
    - Limits: token counts stay within their caps, circuits keep their invariant, trip at the
      threshold and recover, allocation is strictly by priority.
    - Requests and payloads: path values are escaped and stay distinct; whatever an exchange sends,
      the rows of an adapter are valid for their request; where adapters panic is exact.
    - Results: the filter keeps exactly the fit rows, is idempotent and independent of map order; what
      it keeps can be written, but for liquidation events of other sides than the table allows, as
      are all of four exchanges; a failed write followed by a successful one, at another time and in
      another map order, is one write, if the taker flows are in order; liquidation aggregates are the groups of the events; the CVD series is the running
      sum of ordered flows; executing a job has exactly the effects of its path.
    - Realtime: reads through primary and fallback return what was written and is not expired; RESP
      arrays are read back; a stored lifetime is honoured to half a second and at least one, and a
      server that evicts answers nothing in place of a value.
    - Retention: a plan keeps the days every table demands; a cleanup removes only rows before its
      cutoff whatever fails, and without faults all of them or its whole budget, oldest first; dry
      runs change nothing; a policy with a rollup fails on every run and deletes nothing, because
      PostgreSQL refuses the statement of the rollup; partition names denote calendar months and ISO weeks.
    - API: every list is a page of the matching rows in order with true totals, and without ties the
      pages are together the rows; every path answers with the right status and body, faults are
      reported, written events are served.
    - Aggregation: every aggregate job fails, because PostgreSQL refuses one statement of
      [BuildLatest]; its market figures before that are the reference ones of the newest fresh rows;
      an aggregate that is upserted is what the API serves; an interrupted analytics write can be
      repeated.
    - Monitoring: health reports implement a map from scope to last state; the gap detector is exact
      between the first and the last candle of a series and blind outside;
      the metrics text reads back as the counts of the tables.
    - Configuration: what validation guarantees, that the defaults pass it, and that the PostgreSQL
      address reads back as the configured values.
    - Services: validated settings are the ones in force; running the scheduler again adds no job; the
      limiter of a collector run is full and well formed, its breaker cannot open with the default
      settings, jobs that need an endpoint of an exchange that is not configured are never executed; every path is served by
      its most specific route.
    - Behaviours that deviate from the intent, stated as theorems or examples of their own: jitter
      that spends grants, sub-nanosecond admission, a late worker that reopens a finished job, dead
      letters that need a symbol, refusals that count as attempts, lookups that are never retried,
      CVD and aggregates that depend on the order and the split of deliveries, backfill keys that
      collide with realtime ones, issue keys that depend on map order, partition drops that ignore the interval of their policy, statements
      PostgreSQL refuses, single missing candles that are not reported, duplicate metric series.

    ** Bounds and fuel

    [Limiter.Wait] runs over a list of turns, one per iteration; it returns [Blocked] when the list
    ends.  The backfill loop has fuel [MaxJobs + 2] (one bucket before the start, the jobs, and the
    turn that leaves), proved enough.  The chunked delete has fuel [maxRows + 1], one per row of its
    budget and the turn that leaves, proved enough.  The JSON scanner and the RESP reader have fuel
    twice the input's length plus one, one for each byte and each level it opens, proved enough
    ([JsonScan.scan_value_total], [Resp.readRESP_total]); the
    nesting limit of 10000 and the allocation limit of 2^48 bytes are those of the Go runtime.  String
    scanners have their input's length as fuel.  Tables of the aggregation have fewer than 2^61 rows,
    tables the metrics count fewer than 2^40.  Backfill is for intervals below 292 years, whose
    nanoseconds fit 64 bits; budgets of the limiter are finite (a NaN would pass [Configure] and
    spoil the token counts), and weights below 2^53.

    ** Not modelled

    Where log lines go; HTTP itself, on either side: connections, listening, timeouts, headers and the
    access log; the [database/sql] package and its driver, which are a class; declarations of
    interfaces, imports and constructors that only store their arguments. *)

From stdpp Require Export base gmap sets list strings sorting.
From Stdlib Require Export ZArith Lia.

#[export] Set Default Goal Selector "!".
#[export] Set Warnings "-register-all,-clear-no-such-hyp".
#[global] Open Scope Z_scope.

(** ** Notations and result type *)

Declare Scope go_scope.
Delimit Scope go_scope with go.
#[global] Open Scope go_scope.

(** A Go call returning [(T, error)]: the value when [error == nil], the error otherwise. *)
Inductive result (E A : Type) : Type :=
| Ok (a : A)
| Err (e : E).
Arguments Ok {E A} a.
Arguments Err {E A} e.

(** [x, err := r; if err != nil { return ..., err }; k]. *)
Notation "'let!' x := r 'in' k" := (match r with Ok x => k | Err e => Err e end)
  (at level 10, x name, k at level 200) : go_scope.

Definition is_ok {E A} (r : result E A) : bool :=
  match r with Ok _ => true | Err _ => false end.

(** ** Machine integers

    Go's [int], [int64] and [time.Duration] are 64-bit two's complement on the
    platforms the services run on; [wrap64] is the wrap-around of their arithmetic. *)

Definition two63 : Z := 9223372036854775808.
Definition two64 : Z := 18446744073709551616.
Definition max_int64 : Z := two63 - 1.
Definition min_int64 : Z := - two63.

Definition wrap64 (z : Z) : Z := (z + two63) mod two64 - two63.
Definition int64_ok (z : Z) : Prop := min_int64 <= z <= max_int64.

#[export] Instance int64_ok_dec z : Decision (int64_ok z).
Proof. unfold int64_ok. apply _. Defined.

Lemma wrap64_ok z : int64_ok z -> wrap64 z = z.
Proof.
  unfold int64_ok, wrap64, min_int64, max_int64, two63, two64. intros H.
  rewrite Z.mod_small by lia. lia.
Qed.

Lemma wrap64_range z : int64_ok (wrap64 z).
Proof.
  unfold int64_ok, wrap64, min_int64, max_int64, two63, two64.
  pose proof (Z.mod_pos_bound (z + 9223372036854775808) 18446744073709551616). lia.
Qed.

(** ** Automation *)

Create HintDb golib.
Create Rewrite HintDb gorw.

#[export] Hint Resolve wrap64_range : golib.

(** Boolean guards of the code, turned into the propositions they decide. *)
Ltac bool_to_prop :=
  repeat match goal with
  | H : (_ && _)%bool = true |- _ => apply andb_true_iff in H as [??]
  | H : (_ && _)%bool = false |- _ => apply andb_false_iff in H
  | H : (_ || _)%bool = false |- _ => apply orb_false_iff in H as [??]
  | H : (_ || _)%bool = true |- _ => apply orb_true_iff in H
  | H : negb _ = true |- _ => apply negb_true_iff in H
  | H : negb _ = false |- _ => apply negb_false_iff in H
  | H : (_ <? _) = true |- _ => apply Z.ltb_lt in H
  | H : (_ <? _) = false |- _ => apply Z.ltb_ge in H
  | H : (_ <=? _) = true |- _ => apply Z.leb_le in H
  | H : (_ <=? _) = false |- _ => apply Z.leb_gt in H
  | H : (_ =? _) = true |- _ => apply Z.eqb_eq in H
  | H : (_ =? _) = false |- _ => apply Z.eqb_neq in H
  | H : (_ =? _)%string = true |- _ => apply String.eqb_eq in H
  | H : (_ =? _)%string = false |- _ => apply String.eqb_neq in H
  | H : bool_decide _ = true |- _ => apply bool_decide_eq_true in H
  | H : bool_decide _ = false |- _ => apply bool_decide_eq_false in H
  end.

(** Case analysis on every guard of a translated function body. *)
Ltac split_guards :=
  repeat (case_match; simplify_eq/=); bool_to_prop.

(** [divlia]: linear arithmetic with division and modulus by constants. *)
Ltac divlia := Z.to_euclidean_division_equations; lia.

(** [solve_guards]: split the guards and close the branches the code rules out. *)
Ltac solve_guards := split_guards; try done; try lia; eauto with golib.

(** ** Stable sorting

    [sort.SliceStable], [sort.Strings] and SQL's [ORDER BY] with a total key are
    modelled by insertion sort with a boolean order. *)
Section stable_sort.
Context {A : Type} (leb : A -> A -> bool).

Fixpoint sort_insert (x : A) (l : list A) : list A :=
  match l with
  | [] => [x]
  | y :: l' => if leb x y then x :: y :: l' else y :: sort_insert x l'
  end.

Fixpoint stable_sort (l : list A) : list A :=
  match l with
  | [] => []
  | x :: l' => sort_insert x (stable_sort l')
  end.

Lemma sort_insert_perm x l : sort_insert x l ≡ₚ x :: l.
Proof.
  induction l as [|y l IH]; simpl; [done|].
  destruct (leb x y); [done|]. rewrite IH. apply Permutation_swap.
Qed.

Lemma stable_sort_perm l : stable_sort l ≡ₚ l.
Proof. induction l as [|x l IH]; simpl; [done|]. by rewrite sort_insert_perm, IH. Qed.

Lemma elem_of_stable_sort x l : x ∈ stable_sort l <-> x ∈ l.
Proof. by rewrite stable_sort_perm. Qed.

Lemma length_stable_sort l : length (stable_sort l) = length l.
Proof. apply Permutation_length, stable_sort_perm. Qed.

Context (leb_total : forall x y, leb x y = false -> leb y x = true).
Context (leb_trans : forall x y z, leb x y = true -> leb y z = true -> leb x z = true).

Definition sorted_by (l : list A) : Prop := StronglySorted (fun x y => leb x y = true) l.

Lemma sort_insert_sorted x l : sorted_by l -> sorted_by (sort_insert x l).
Proof.
  induction 1 as [|y l Hl IH Hy]; simpl; [repeat constructor|].
  destruct (leb x y) eqn:E.
  - constructor; [by constructor|]. constructor; [done|].
    eapply Forall_impl; [done|]. eauto.
  - constructor; [done|]. apply Forall_forall. intros z Hz.
    rewrite sort_insert_perm in Hz. apply elem_of_cons in Hz as [->|Hz]; [auto|].
    rewrite Forall_forall in Hy. auto.
Qed.

Lemma stable_sort_sorted l : sorted_by (stable_sort l).
Proof. induction l; simpl; [constructor | by apply sort_insert_sorted]. Qed.

(** Stability: the elements of one equivalence class keep their order. *)
Lemma sort_insert_filter (P : A -> Prop) `{!forall x, Decision (P x)} x l :
  (forall y, P x -> P y -> leb x y = true) ->
  filter P (sort_insert x l) = filter P (x :: l).
Proof.
  intros HP. induction l as [|y l IH]; simpl; [done|].
  destruct (leb x y) eqn:E; [done|].
  rewrite (filter_cons _ y), IH, !filter_cons.
  repeat case_decide; try done.
  exfalso. assert (leb x y = true) by auto. congruence.
Qed.

Lemma stable_sort_stable (P : A -> Prop) `{!forall x, Decision (P x)} l :
  (forall x y, P x -> P y -> leb x y = true) ->
  filter P (stable_sort l) = filter P l.
Proof.
  intros HP. induction l as [|x l IH]; simpl; [done|].
  rewrite sort_insert_filter by auto. rewrite !filter_cons. by rewrite IH.
Qed.
End stable_sort.

(** ** Lists *)

Definition sum_Z (l : list Z) : Z := foldr Z.add 0 l.

Lemma sum_Z_app l k : sum_Z (l ++ k) = sum_Z l + sum_Z k.
Proof. induction l as [|x l IH]; simpl; [done|]. unfold sum_Z in *; simpl; lia. Qed.

#[export] Instance sum_Z_perm : Proper (Permutation ==> eq) sum_Z.
Proof. induction 1; unfold sum_Z in *; simpl; lia. Qed.

Lemma sum_Z_cons x l : sum_Z (x :: l) = x + sum_Z l.
Proof. done. Qed.

Lemma filter_none {A} (P : A -> Prop) `{!forall x, Decision (P x)} (l : list A) :
  Forall (fun x => ~ P x) l -> filter P l = [].
Proof. induction 1; [done|]. by rewrite filter_cons, decide_False. Qed.

Lemma filter_all {A} (P : A -> Prop) `{!forall x, Decision (P x)} (l : list A) :
  Forall P l -> filter P l = l.
Proof. induction 1; [done|]. rewrite filter_cons, decide_True by done. by f_equal. Qed.
