(* ===== verification/GoString.v ===== *)
(** * Go strings

    The part of Go's [strings] and [strconv] the services use.  A Go string is
    a byte sequence, here a [string] of [ascii] bytes.  [TrimSpace] strips the
    UTF-8 encodings of every Unicode white-space code point; [ToLower] and
    [ToUpper] are the ASCII mappings (the fast path Go takes on ASCII input:
    exchange names, data types, periods and symbols are ASCII identifiers). *)

From S2P Require Import Prelude.
From Stdlib Require Import Ascii.

#[local] Open Scope Z_scope.

Abbreviation bytes := (list ascii).
Abbreviation to_bytes := String.list_ascii_of_string.
Abbreviation of_bytes := String.string_of_list_ascii.

Definition byte_of_Z (z : Z) : ascii := ascii_of_N (Z.to_N z).
Definition Z_of_byte (c : ascii) : Z := Z.of_N (N_of_ascii c).

(** ** White space *)

(** [unicode.IsSpace], as UTF-8 byte sequences. *)
Definition unicode_space : list bytes :=
  let one z := [byte_of_Z z] in
  let two a b := [byte_of_Z a; byte_of_Z b] in
  let three a b c := [byte_of_Z a; byte_of_Z b; byte_of_Z c] in
  [ one 9; one 10; one 11; one 12; one 13; one 32;
    two 194 133; two 194 160; three 225 154 128;
    three 226 128 128; three 226 128 129; three 226 128 130; three 226 128 131;
    three 226 128 132; three 226 128 133; three 226 128 134; three 226 128 135;
    three 226 128 136; three 226 128 137; three 226 128 138; three 226 128 168;
    three 226 128 169; three 226 128 175; three 226 129 159; three 227 128 128 ].

(** [match_prefix p l]: what follows the prefix [p] of [l]. *)
Fixpoint match_prefix (p l : bytes) : option bytes :=
  match p, l with
  | [], _ => Some l
  | a :: p', b :: l' => if Ascii.eqb a b then match_prefix p' l' else None
  | _ :: _, [] => None
  end.

Fixpoint strip_one (pats : list bytes) (l : bytes) : option bytes :=
  match pats with
  | [] => None
  | p :: pats' => match match_prefix p l with Some l' => Some l' | None => strip_one pats' l end
  end.

Fixpoint strip_loop (fuel : nat) (pats : list bytes) (l : bytes) : bytes :=
  match fuel with
  | O => l
  | S n => match strip_one pats l with Some l' => strip_loop n pats l' | None => l end
  end.

(** Strip as long as one of the patterns is a prefix: [length l] rounds suffice
    because every pattern is non-empty. *)
Definition strip_all (pats : list bytes) (l : bytes) : bytes := strip_loop (length l) pats l.

Definition trim_left (l : bytes) : bytes := strip_all unicode_space l.
Definition trim_right (l : bytes) : bytes := rev (strip_all (map (@rev ascii) unicode_space) (rev l)).

Definition TrimSpace (s : string) : string := of_bytes (trim_right (trim_left (to_bytes s))).

(** ** Case *)

Definition lower_byte (c : ascii) : ascii :=
  let n := Z_of_byte c in if (65 <=? n) && (n <=? 90) then byte_of_Z (n + 32) else c.
Definition upper_byte (c : ascii) : ascii :=
  let n := Z_of_byte c in if (97 <=? n) && (n <=? 122) then byte_of_Z (n - 32) else c.

Definition ToLower (s : string) : string := of_bytes (map lower_byte (to_bytes s)).
Definition ToUpper (s : string) : string := of_bytes (map upper_byte (to_bytes s)).
Definition EqualFold (s t : string) : bool := (ToLower s =? ToLower t)%string.

(** [strings.ToLower(strings.TrimSpace(s))], the normalisation used all over the code. *)
Definition norm (s : string) : string := ToLower (TrimSpace s).

(** ** Searching and replacing *)

Fixpoint Contains (s sub : string) : bool :=
  String.prefix sub s ||
  match s with EmptyString => false | String _ s' => Contains s' sub end.

Definition HasPrefix (s p : string) : bool := String.prefix p s.

Definition TrimSuffix (s suf : string) : string :=
  match match_prefix (rev (to_bytes suf)) (rev (to_bytes s)) with
  | Some l => of_bytes (rev l)
  | None => s
  end.

(** [strings.ReplaceAll] for a non-empty [old]: leftmost, non-overlapping. *)
Fixpoint replace_loop (fuel : nat) (old new l : bytes) : bytes :=
  match fuel with
  | O => l
  | S n =>
    match match_prefix old l with
    | Some l' => new ++ replace_loop n old new l'
    | None => match l with [] => [] | c :: l' => c :: replace_loop n old new l' end
    end
  end.
Definition ReplaceAll (s old new : string) : string :=
  of_bytes (replace_loop (S (String.length s)) (to_bytes old) (to_bytes new) (to_bytes s)).

(** [strings.Split] by a one-byte separator. *)
Fixpoint split_bytes (sep : ascii) (l : bytes) : list bytes :=
  match l with
  | [] => [[]]
  | c :: l' =>
    if Ascii.eqb c sep then [] :: split_bytes sep l'
    else match split_bytes sep l' with
         | [] => [[c]]
         | x :: xs => (c :: x) :: xs
         end
  end.
Definition Split (s : string) (sep : ascii) : list string :=
  map String.string_of_list_ascii (split_bytes sep (to_bytes s)).

Fixpoint Join (parts : list string) (sep : string) : string :=
  match parts with
  | [] => ""
  | [p] => p
  | p :: ps => p +:+ sep +:+ Join ps sep
  end.

(** ** Integers *)

Definition digit (d : Z) : ascii := byte_of_Z (48 + d).

Fixpoint print_digits (fuel : nat) (n : Z) (acc : bytes) : bytes :=
  match fuel with
  | O => acc
  | S f =>
    let acc' := digit (n mod 10) :: acc in
    if n <? 10 then acc' else print_digits f (n / 10) acc'
  end.

(** Decimal digits of [n >= 0]; [Z.log2 n + 1] digits are enough. *)
Definition print_nat (n : Z) : bytes := print_digits (S (Z.to_nat (Z.log2 n))) n [].

(** [strconv.FormatInt(z, 10)], [strconv.Itoa] and [%d]. *)
Definition Itoa (z : Z) : string :=
  of_bytes (if z <? 0 then byte_of_Z 45 :: print_nat (- z) else print_nat z).

Definition digit_val (c : ascii) : option Z :=
  let n := Z_of_byte c - 48 in if (0 <=? n) && (n <=? 9) then Some n else None.

Fixpoint parse_digits (acc : Z) (l : bytes) : option Z :=
  match l with
  | [] => Some acc
  | c :: l' => match digit_val c with Some d => parse_digits (10 * acc + d) l' | None => None end
  end.

(** [strconv.ParseInt(s, 10, 64)] and [strconv.Atoi]: [None] is a syntax or range error. *)
Definition ParseInt (s : string) : option Z :=
  let '(neg, l) :=
    match to_bytes s with
    | c :: l' => if Ascii.eqb c (byte_of_Z 45) then (true, l')
                 else if Ascii.eqb c (byte_of_Z 43) then (false, l') else (false, c :: l')
    | [] => (false, [])
    end in
  match l with
  | [] => None
  | _ =>
    match parse_digits 0 l with
    | Some n => let v := if neg then - n else n in
                if bool_decide (int64_ok v) then Some v else None
    | None => None
    end
  end.

(** [fmt.Sprintf("%q", s)] for printable text: quotes, backslashes and control bytes escaped. *)
Definition quote_byte (c : ascii) : bytes :=
  let z := Z_of_byte c in
  let bs := byte_of_Z 92 in
  if (z =? 34) || (z =? 92) then [bs; c] else
  if z =? 10 then [bs; byte_of_Z 110] else
  if z =? 13 then [bs; byte_of_Z 114] else
  if z =? 9 then [bs; byte_of_Z 116] else
  [c].
Definition Quote (s : string) : string :=
  of_bytes ([byte_of_Z 34] ++ flat_map quote_byte (to_bytes s) ++ [byte_of_Z 34])%list.

(** [%02d] and [%04d] for values that fit. *)
Definition pad2 (n : Z) : string := of_bytes [digit (n / 10); digit (n mod 10)].
Definition pad4 (n : Z) : string :=
  of_bytes [digit (n / 1000); digit (n / 100 mod 10); digit (n / 10 mod 10); digit (n mod 10)].

(** ** Lemmas: bytes *)

Lemma of_to_bytes s : of_bytes (to_bytes s) = s.
Proof. apply String.string_of_list_ascii_of_string. Qed.
Lemma to_of_bytes l : to_bytes (of_bytes l) = l.
Proof. apply String.list_ascii_of_string_of_list_ascii. Qed.

Lemma of_bytes_inj l k : of_bytes l = of_bytes k -> l = k.
Proof. intros H. rewrite <- (to_of_bytes l), <- (to_of_bytes k). by rewrite H. Qed.
Lemma to_bytes_inj s t : to_bytes s = to_bytes t -> s = t.
Proof. intros H. rewrite <- (of_to_bytes s), <- (of_to_bytes t). by rewrite H. Qed.

Lemma to_bytes_app s t : to_bytes (s +:+ t) = (to_bytes s ++ to_bytes t)%list.
Proof. induction s as [|c s IH]; [done|]. simpl. by rewrite IH. Qed.

Lemma Z_of_byte_range c : 0 <= Z_of_byte c < 256.
Proof. unfold Z_of_byte. pose proof (N_ascii_bounded c). lia. Qed.
Lemma byte_of_Z_of_byte c : byte_of_Z (Z_of_byte c) = c.
Proof. unfold byte_of_Z, Z_of_byte. rewrite N2Z.id. apply ascii_N_embedding. Qed.
Lemma Z_of_byte_of_Z z : 0 <= z < 256 -> Z_of_byte (byte_of_Z z) = z.
Proof.
  intros H. unfold byte_of_Z, Z_of_byte. rewrite N_ascii_embedding by lia. lia.
Qed.

#[export] Hint Rewrite of_to_bytes to_of_bytes to_bytes_app : gorw.

(** ** Lemmas: stripping *)

Lemma match_prefix_Some p l l' : match_prefix p l = Some l' -> l = (p ++ l')%list.
Proof.
  revert l. induction p as [|a p IH]; intros [|b l]; simpl; try congruence.
  destruct (Ascii.eqb_spec a b); [|done]. intros ->%IH. by subst.
Qed.
Lemma match_prefix_app p l : match_prefix p (p ++ l) = Some l.
Proof. induction p; simpl; [done|]. by rewrite Ascii.eqb_refl. Qed.
Lemma match_prefix_mono p l k l' :
  match_prefix p l = Some l' -> match_prefix p (l ++ k) = Some (l' ++ k)%list.
Proof. intros ->%match_prefix_Some. rewrite <- app_assoc. apply match_prefix_app. Qed.

Section strip.
Context (pats : list bytes) (Hne : Forall (fun p => p <> []) pats).

Lemma strip_one_shorter l l' : strip_one pats l = Some l' -> (length l' < length l)%nat.
Proof.
  induction Hne as [|p ps Hp Hps IH]; simpl; [done|].
  destruct (match_prefix p l) eqn:E; [|exact (IH Hps)]. intros; simplify_eq.
  apply match_prefix_Some in E as ->. rewrite length_app. destruct p; [done|]. simpl. lia.
Qed.

Lemma strip_one_suffix l l' : strip_one pats l = Some l' -> exists p, l = (p ++ l')%list.
Proof.
  clear Hne. induction pats as [|p ps IH]; simpl; [done|].
  destruct (match_prefix p l) eqn:E; [|auto]. intros; simplify_eq.
  eauto using match_prefix_Some.
Qed.

Lemma strip_one_None_app l k : strip_one pats (l ++ k) = None -> strip_one pats l = None.
Proof.
  clear Hne. induction pats as [|p ps IH]; simpl; [done|].
  destruct (match_prefix p l) eqn:E; [by rewrite (match_prefix_mono _ _ k _ E)|].
  destruct (match_prefix p (l ++ k)); [done|auto].
Qed.

Lemma strip_loop_done fuel l : (length l <= fuel)%nat -> strip_one pats (strip_loop fuel pats l) = None.
Proof.
  revert l. induction fuel as [|n IH]; intros l Hl; simpl.
  - destruct l; simpl in Hl; [|lia]. destruct (strip_one pats []) eqn:E; [|done].
    apply strip_one_shorter in E. simpl in E. lia.
  - destruct (strip_one pats l) eqn:E; [|done]. apply IH.
    apply strip_one_shorter in E. lia.
Qed.

Lemma strip_all_done l : strip_one pats (strip_all pats l) = None.
Proof. by apply strip_loop_done. Qed.

Lemma strip_all_fix l : strip_one pats l = None -> strip_all pats l = l.
Proof. intros H. unfold strip_all. destruct l; simpl; [done|]. by rewrite H. Qed.

Lemma strip_all_suffix l : exists p, l = (p ++ strip_all pats l)%list.
Proof.
  unfold strip_all. generalize (length l) as n. clear Hne. intros n.
  revert l. induction n as [|n IH]; intros l; simpl; [by exists []|].
  destruct (strip_one pats l) eqn:E; [|by exists []].
  apply strip_one_suffix in E as [p ->]. destruct (IH l0) as [q Hq].
  exists (p ++ q)%list. rewrite <- app_assoc. by rewrite <- Hq.
Qed.
End strip.

Lemma unicode_space_ne : Forall (fun p : bytes => p <> []) unicode_space.
Proof. repeat constructor; done. Qed.
Lemma unicode_space_rev_ne : Forall (fun p : bytes => p <> []) (map (@rev ascii) unicode_space).
Proof. repeat constructor; done. Qed.

(** A right-trim keeps a left-trimmed string left-trimmed. *)
Lemma trim_right_prefix l : exists k, l = (trim_right l ++ k)%list.
Proof.
  unfold trim_right. destruct (strip_all_suffix (map (@rev ascii) unicode_space) (rev l)) as [p Hp].
  exists (rev p). rewrite <- rev_app_distr, <- Hp. by rewrite rev_involutive.
Qed.

Lemma trim_left_trim_right l :
  strip_one unicode_space l = None -> trim_left (trim_right l) = trim_right l.
Proof.
  intros H. apply strip_all_fix. destruct (trim_right_prefix l) as [k Hk].
  apply (strip_one_None_app _ _ k). by rewrite <- Hk.
Qed.

Lemma trim_right_idem l : trim_right (trim_right l) = trim_right l.
Proof.
  unfold trim_right. rewrite rev_involutive. f_equal.
  apply strip_all_fix, strip_all_done, unicode_space_rev_ne.
Qed.

Lemma TrimSpace_idem s : TrimSpace (TrimSpace s) = TrimSpace s.
Proof.
  unfold TrimSpace. rewrite to_of_bytes. f_equal.
  rewrite trim_left_trim_right; [apply trim_right_idem|].
  apply strip_all_done, unicode_space_ne.
Qed.

(** ** Lemmas: nothing to trim *)

Lemma strip_one_first pats c l :
  Forall (fun p => hd_error p <> Some c /\ p <> []) pats -> strip_one pats (c :: l) = None.
Proof.
  induction 1 as [|p ps [Hp Hne] _ IH]; [done|]. cbn [strip_one]. destruct p as [|a p]; [done|].
  cbn [match_prefix]. destruct (Ascii.eqb_spec a c) as [->|]; [by destruct Hp|done].
Qed.

(** Bytes that start no blank, from the left or from the right. *)
Definition solid (c : ascii) : bool :=
  forallb (fun p => match p with a :: _ => negb (Ascii.eqb a c) | [] => false end)
          (unicode_space ++ map (@rev ascii) unicode_space)%list.

Lemma solid_spec c : solid c = true ->
  Forall (fun p => hd_error p <> Some c /\ p <> []) unicode_space /\
  Forall (fun p => hd_error p <> Some c /\ p <> []) (map (@rev ascii) unicode_space).
Proof.
  unfold solid. rewrite forallb_app. intros [H1 H2]%andb_true_iff.
  split; [revert H1|revert H2]; rewrite forallb_forall, Forall_forall; intros H p Hp;
    apply list_elem_of_In, H in Hp; destruct p as [|a p]; try done; split; try done; cbn; intros [= ->];
    by rewrite Ascii.eqb_refl in Hp.
Qed.

Lemma TrimSpace_solid a mid z : solid a = true -> solid z = true ->
  TrimSpace (of_bytes (a :: mid ++ [z])%list) = of_bytes (a :: mid ++ [z])%list.
Proof.
  intros Ha Hz. unfold TrimSpace. rewrite to_of_bytes. f_equal.
  unfold trim_left, trim_right. rewrite (strip_all_fix unicode_space) by (apply strip_one_first, solid_spec; done).
  rewrite strip_all_fix.
  - apply rev_involutive.
  - rewrite app_comm_cons, rev_app_distr. cbn [rev app]. apply strip_one_first. by apply solid_spec.
Qed.

Lemma solid_digit d : 0 <= d < 10 -> solid (digit d) = true.
Proof.
  intros Hd. assert (d = 0 \/ d = 1 \/ d = 2 \/ d = 3 \/ d = 4 \/ d = 5 \/ d = 6 \/ d = 7 \/ d = 8 \/ d = 9) as Hc by lia.
  by repeat destruct Hc as [->|Hc]; [..|subst].
Qed.

Lemma prefix_app s t : String.prefix s (s +:+ t) = true.
Proof.
  induction s as [|c s IH]; [by destruct t|].
  change (String c s +:+ t) with (String c (s +:+ t)). cbn [String.prefix]. destruct (ascii_dec c c); [exact IH|done].
Qed.

(** ** Lemmas: case mapping *)

Lemma lower_byte_not_upper c : ~ 65 <= Z_of_byte (lower_byte c) <= 90.
Proof.
  unfold lower_byte. pose proof (Z_of_byte_range c).
  destruct (_ && _) eqn:E; bool_to_prop.
  - rewrite Z_of_byte_of_Z by lia. lia.
  - destruct E; bool_to_prop; lia.
Qed.

Lemma lower_byte_idem c : lower_byte (lower_byte c) = lower_byte c.
Proof.
  pose proof (lower_byte_not_upper c) as H. unfold lower_byte at 1.
  destruct (_ && _) eqn:E; [|done]. bool_to_prop. lia.
Qed.

Lemma ToLower_idem s : ToLower (ToLower s) = ToLower s.
Proof.
  unfold ToLower. rewrite to_of_bytes, map_map. f_equal. apply map_ext, lower_byte_idem.
Qed.

(** Lower-casing neither creates nor destroys a byte that is not a letter. *)
Definition not_letter (c : ascii) : Prop :=
  ~ 65 <= Z_of_byte c <= 90 /\ ~ 97 <= Z_of_byte c <= 122.

Lemma lower_byte_not_letter a c : not_letter a -> Ascii.eqb a (lower_byte c) = Ascii.eqb a c.
Proof.
  intros [Ha1 Ha2]. unfold lower_byte. destruct (_ && _) eqn:E; [|done]. bool_to_prop.
  destruct (Ascii.eqb_spec a (byte_of_Z (Z_of_byte c + 32))) as [E1|E1];
    destruct (Ascii.eqb_spec a c) as [E2|E2]; try done; exfalso.
  - rewrite E1, Z_of_byte_of_Z in Ha2 by lia. lia.
  - rewrite E2 in Ha1. lia.
Qed.

Lemma match_prefix_lower p l :
  Forall not_letter p -> match_prefix p (map lower_byte l) = map lower_byte <$> match_prefix p l.
Proof.
  intros Hp. revert l. induction Hp as [|a p Ha Hp IH]; intros [|b l]; simpl; try done.
  rewrite lower_byte_not_letter by done. by destruct (Ascii.eqb a b).
Qed.

Lemma strip_one_lower pats l :
  Forall (Forall not_letter) pats ->
  strip_one pats (map lower_byte l) = map lower_byte <$> strip_one pats l.
Proof.
  induction 1 as [|p ps Hp Hps IH]; simpl; [done|].
  rewrite match_prefix_lower by done. by destruct (match_prefix p l).
Qed.

Lemma strip_all_lower pats l :
  Forall (Forall not_letter) pats -> strip_all pats (map lower_byte l) = map lower_byte (strip_all pats l).
Proof.
  intros H. unfold strip_all. rewrite length_map. generalize (length l) as n. intros n.
  revert l. induction n as [|n IH]; intros l; simpl; [done|].
  rewrite strip_one_lower by done. by destruct (strip_one pats l); simpl.
Qed.

Lemma unicode_space_not_letter : Forall (Forall not_letter) unicode_space.
Proof. repeat constructor; vm_compute; intros [??]; congruence. Qed.
Lemma unicode_space_rev_not_letter : Forall (Forall not_letter) (map (@rev ascii) unicode_space).
Proof. repeat constructor; vm_compute; intros [??]; congruence. Qed.

Lemma TrimSpace_ToLower s : TrimSpace (ToLower s) = ToLower (TrimSpace s).
Proof.
  unfold TrimSpace, ToLower, trim_left, trim_right. rewrite !to_of_bytes.
  rewrite strip_all_lower by apply unicode_space_not_letter.
  rewrite <- map_rev, strip_all_lower by apply unicode_space_rev_not_letter.
  by rewrite map_rev.
Qed.

Lemma norm_idem s : norm (norm s) = norm s.
Proof.
  unfold norm. by rewrite TrimSpace_ToLower, TrimSpace_idem, ToLower_idem.
Qed.
Lemma TrimSpace_norm s : TrimSpace (norm s) = norm s.
Proof. unfold norm. by rewrite TrimSpace_ToLower, TrimSpace_idem. Qed.

#[export] Hint Rewrite TrimSpace_idem ToLower_idem norm_idem TrimSpace_norm : gorw.

(** ** Lemmas: numbers *)

Lemma digit_val_digit d : 0 <= d < 10 -> digit_val (digit d) = Some d.
Proof.
  intros H. unfold digit_val, digit. rewrite Z_of_byte_of_Z by lia.
  replace (48 + d - 48) with d by lia.
  destruct (Z.leb_spec 0 d), (Z.leb_spec d 9); simpl; [done | lia ..].
Qed.

Lemma digit_inj a b : 0 <= a < 10 -> 0 <= b < 10 -> digit a = digit b -> a = b.
Proof.
  intros Ha Hb E. apply digit_val_digit in Ha, Hb. rewrite E in Ha. congruence.
Qed.

Lemma parse_print_digits fuel n acc :
  0 <= n < 10 ^ Z.of_nat fuel -> (0 < fuel)%nat ->
  parse_digits 0 (print_digits fuel n acc) = parse_digits n acc.
Proof.
  revert n acc. induction fuel as [|f IH]; intros n acc Hn Hf; [lia|].
  cbn [print_digits]. destruct (Z.ltb_spec n 10).
  - rewrite Z.mod_small by lia. cbn [parse_digits]. rewrite digit_val_digit by lia.
    f_equal; lia.
  - rewrite Nat2Z.inj_succ, Z.pow_succ_r in Hn by lia.
    assert (0 < f)%nat.
    { destruct f; [|lia]. simpl in Hn. lia. }
    rewrite IH; [|split; [apply Z.div_pos; lia | apply Z.div_lt_upper_bound; lia] | done].
    cbn [parse_digits]. rewrite digit_val_digit by (apply Z.mod_pos_bound; lia).
    f_equal. rewrite (Z.div_mod n 10) at 3 by lia. lia.
Qed.

Lemma print_nat_fuel n : 0 <= n -> n < 10 ^ Z.of_nat (S (Z.to_nat (Z.log2 n))).
Proof.
  intros Hn. rewrite Nat2Z.inj_succ, Z2Nat.id by apply Z.log2_nonneg.
  destruct (Z.eq_dec n 0) as [->|]; [simpl; lia|].
  destruct (Z.log2_spec n) as [_ H]; [lia|]. eapply Z.lt_le_trans; [done|].
  apply Z.pow_le_mono_l. pose proof (Z.log2_nonneg n). lia.
Qed.

Lemma parse_print_nat n : 0 <= n -> parse_digits 0 (print_nat n) = Some n.
Proof.
  intros Hn. unfold print_nat. rewrite parse_print_digits; [done| |lia].
  split; [done | by apply print_nat_fuel].
Qed.

(** Every byte of a printed number is a digit, and there is at least one. *)
Definition is_digit (c : ascii) : Prop := is_Some (digit_val c).

Lemma print_digits_digits fuel n acc :
  0 <= n -> Forall is_digit acc -> Forall is_digit (print_digits fuel n acc).
Proof.
  revert n acc. induction fuel as [|f IH]; intros n acc Hn Hacc; cbn [print_digits]; [done|].
  assert (is_digit (digit (n mod 10))).
  { eexists. apply digit_val_digit, Z.mod_pos_bound. lia. }
  destruct (n <? 10); [by constructor|]. apply IH; [apply Z.div_pos; lia | by constructor].
Qed.
Lemma print_digits_length fuel n acc : (length acc <= length (print_digits fuel n acc))%nat.
Proof.
  revert n acc. induction fuel as [|f IH]; intros n acc; cbn [print_digits]; [done|].
  destruct (n <? 10); simpl; [lia|]. specialize (IH (n / 10) (digit (n mod 10) :: acc)).
  simpl in IH. lia.
Qed.

Lemma print_nat_digits n : 0 <= n -> Forall is_digit (print_nat n).
Proof. intros. by apply print_digits_digits. Qed.
Lemma print_nat_ne n : print_nat n <> [].
Proof.
  unfold print_nat. cbn [print_digits]. destruct (n <? 10); [done|].
  intros E. pose proof (print_digits_length (Z.to_nat (Z.log2 n)) (n / 10) [digit (n mod 10)]) as H.
  rewrite E in H. simpl in H. lia.
Qed.

(** A text without blank bytes is its own trimming. *)
Lemma TrimSpace_all_solid s : Forall (fun c => solid c = true) (to_bytes s) -> TrimSpace s = s.
Proof.
  intros H. rewrite <- (of_to_bytes s). set (l := to_bytes s) in *. clearbody l. clear s.
  destruct l as [|a l]; [done|]. inversion H as [|? ? Ha Hl]; subst.
  destruct l as [|z l _] using rev_ind.
  - unfold TrimSpace. rewrite to_of_bytes. f_equal. unfold trim_left, trim_right.
    rewrite (strip_all_fix unicode_space) by (apply strip_one_first, solid_spec; done).
    by rewrite strip_all_fix by (apply strip_one_first, solid_spec; done).
  - apply Forall_app in Hl as [_ Hz]. inversion Hz; subst. by apply TrimSpace_solid.
Qed.

Lemma is_digit_solid c : is_digit c -> solid c = true.
Proof.
  intros [d Hd]. unfold digit_val in Hd. case_match; [|done]. bool_to_prop.
  replace c with (digit (Z_of_byte c - 48)); [apply solid_digit; lia|].
  unfold digit. replace (48 + (Z_of_byte c - 48)) with (Z_of_byte c) by lia. apply byte_of_Z_of_byte.
Qed.

Lemma TrimSpace_Itoa z : TrimSpace (Itoa z) = Itoa z.
Proof.
  apply TrimSpace_all_solid. unfold Itoa. case_match; rewrite to_of_bytes; bool_to_prop.
  - constructor; [done|]. eapply Forall_impl; [apply print_nat_digits; lia|]. apply is_digit_solid.
  - eapply Forall_impl; [apply print_nat_digits; lia|]. apply is_digit_solid.
Qed.

Lemma is_digit_not_sign c z : is_digit c -> 0 <= z < 48 -> Ascii.eqb c (byte_of_Z z) = false.
Proof.
  intros [d Hd] Hz. destruct (Ascii.eqb_spec c (byte_of_Z z)) as [->|]; [|done].
  unfold digit_val in Hd. rewrite Z_of_byte_of_Z in Hd by lia.
  destruct (_ && _) eqn:E; [|done]. bool_to_prop. lia.
Qed.

Lemma ParseInt_Itoa z : int64_ok z -> ParseInt (Itoa z) = Some z.
Proof.
  intros Hz. unfold ParseInt, Itoa. rewrite to_of_bytes. destruct (Z.ltb_spec z 0).
  - rewrite Ascii.eqb_refl. pose proof (print_nat_ne (- z)) as Hne.
    destruct (print_nat (- z)) eqn:E; [done|]. rewrite <- E, parse_print_nat by lia.
    rewrite Z.opp_involutive. by rewrite bool_decide_eq_true_2.
  - pose proof (print_nat_digits z ltac:(lia)) as Hd. pose proof (print_nat_ne z).
    destruct (print_nat z) as [|c l] eqn:E; [done|].
    apply Forall_cons in Hd as [Hc _].
    rewrite !is_digit_not_sign by (done || lia). rewrite <- E, parse_print_nat by lia.
    by rewrite bool_decide_eq_true_2.
Qed.

Lemma ParseInt_range s z : ParseInt s = Some z -> int64_ok z.
Proof. unfold ParseInt. intros H. repeat (case_match; simplify_eq); by bool_to_prop. Qed.

Lemma Itoa_inj a b : int64_ok a -> int64_ok b -> Itoa a = Itoa b -> a = b.
Proof. intros Ha%ParseInt_Itoa Hb%ParseInt_Itoa E. rewrite E in Ha. congruence. Qed.

(** ** Lemmas: separators *)

Definition free_of (c : ascii) (s : string) : Prop := c ∉ to_bytes s.
#[export] Instance free_of_dec c s : Decision (free_of c s).
Proof. unfold free_of. apply _. Defined.

Lemma Itoa_free_of z c : ~ is_digit c -> c <> byte_of_Z 45 -> free_of c (Itoa z).
Proof.
  intros Hc Hm. unfold free_of, Itoa. rewrite to_of_bytes. destruct (Z.ltb_spec z 0).
  - apply not_elem_of_cons; split; [done|]. intros Hin.
    pose proof (print_nat_digits (- z) ltac:(lia)) as Hd. rewrite Forall_forall in Hd. auto.
  - intros Hin. pose proof (print_nat_digits z ltac:(lia)) as Hd. rewrite Forall_forall in Hd. auto.
Qed.

Lemma split_first_inj (c : ascii) (a b k l : bytes) :
  c ∉ a -> c ∉ b -> (a ++ c :: k)%list = (b ++ c :: l)%list -> a = b /\ k = l.
Proof.
  revert b. induction a as [|x a IH]; intros [|y b] Ha Hb E; simplify_eq/=; try done.
  - exfalso. apply Hb. constructor.
  - exfalso. apply Ha. constructor.
  - apply not_elem_of_cons in Ha as [_ Ha], Hb as [_ Hb].
    destruct (IH b Ha Hb) as [-> ->]; done.
Qed.

Lemma split_first_string_inj c (a b k l : string) :
  free_of c a -> free_of c b -> a +:+ String c k = b +:+ String c l -> a = b /\ k = l.
Proof.
  intros Ha Hb E. apply (f_equal to_bytes) in E. rewrite !to_bytes_app in E. simpl in E.
  apply split_first_inj in E as [E1 E2]; [|done..]. by apply to_bytes_inj in E1, E2.
Qed.

Lemma split_last_string_inj c (a b k l : string) :
  free_of c k -> free_of c l -> a +:+ String c k = b +:+ String c l -> a = b /\ k = l.
Proof.
  intros Ha Hb E. apply (f_equal to_bytes) in E. rewrite !to_bytes_app in E. simpl in E.
  apply (f_equal (@rev ascii)) in E. rewrite !rev_app_distr in E. simpl in E.
  rewrite <- !app_assoc in E. simpl in E.
  apply split_first_inj in E as [E1 E2]; [|by rewrite list_elem_of_In, <- in_rev, <- list_elem_of_In..].
  apply (f_equal (@rev ascii)) in E1, E2. rewrite !rev_involutive in E1, E2.
  by apply to_bytes_inj in E1, E2.
Qed.

(** ** Byte order of strings ([sort.Strings]) *)

Definition str_leb (a b : string) : bool := (a <=? b)%string.

Lemma str_leb_total a b : str_leb a b = false -> str_leb b a = true.
Proof. unfold str_leb. destruct (String.leb_total a b) as [H|H]; [by rewrite H|done]. Qed.

Lemma str_leb_antisym a b : str_leb a b = true -> str_leb b a = true -> a = b.
Proof. apply String.leb_antisym. Qed.

Lemma ascii_compare_N a b : Ascii.compare a b = N.compare (N_of_ascii a) (N_of_ascii b).
Proof. done. Qed.

Lemma str_leb_trans a b c : str_leb a b = true -> str_leb b c = true -> str_leb a c = true.
Proof.
  unfold str_leb, String.leb. revert b c.
  induction a as [|x a IH]; intros [|y b] [|z c]; simpl; try done.
  rewrite !ascii_compare_N.
  destruct (N.compare_spec (N_of_ascii x) (N_of_ascii y)) as [E1|L1|L1]; try done;
  destruct (N.compare_spec (N_of_ascii y) (N_of_ascii z)) as [E2|L2|L2]; try done;
  destruct (N.compare_spec (N_of_ascii x) (N_of_ascii z)) as [E3|L3|L3]; try done; try lia.
  apply IH.
Qed.

#[export] Hint Resolve str_leb_total str_leb_trans str_leb_antisym : golib.
