(* ===== verification/GoTime.v ===== *)
(** * Go time

    [time.Time] in UTC as nanoseconds since 0001-01-01T00:00:00Z (Go's zero
    time, so [IsZero] is [t = 0]) and [time.Duration] as 64-bit nanoseconds.
    The calendar is the proleptic Gregorian one of the [time] package. *)

From S2P Require Import Prelude GoString.

Abbreviation Time := Z (only parsing).
Abbreviation Duration := Z (only parsing).

Definition Millisecond : Duration := 1000000.
Definition Second : Duration := 1000000000.
Definition Minute : Duration := 60 * Second.
Definition Hour : Duration := 60 * Minute.
Definition Day : Duration := 24 * Hour.

(** Seconds from the zero time to the Unix epoch. *)
Definition unix_epoch : Z := 62135596800.

Definition IsZero (t : Time) : bool := t =? 0.
Definition Before (t u : Time) : bool := t <? u.
Definition After (t u : Time) : bool := u <? t.
Definition Add (t : Time) (d : Duration) : Time := t + d.

(** [t.Sub(u)] saturates at the range of [Duration]. *)
Definition Sub (t u : Time) : Duration := Z.max min_int64 (Z.min max_int64 (t - u)).

(** [t.Truncate(d)]: down to a multiple of [d] since the zero time. *)
Definition Truncate (t : Time) (d : Duration) : Time := if d <=? 0 then t else t - t mod d.

(** [time.Duration(n) * unit]: 64-bit multiplication. *)
Definition duration_of (n unit : Z) : Duration := wrap64 (n * unit).

(** [time.Unix(sec, 0)]: the seconds since year 1 are an [int64]. *)
Definition Unix (sec : Z) : Time := wrap64 (sec + unix_epoch) * Second.
Definition UnixMilli (ms : Z) : Time := ms * Millisecond + unix_epoch * Second.

(** ** Calendar *)

Definition leap (y : Z) : bool := (y mod 4 =? 0) && (negb (y mod 100 =? 0) || (y mod 400 =? 0)).

(** Days from 0001-01-01 to the first day of year [y]. *)
Definition days_before_year (y : Z) : Z :=
  365 * (y - 1) + (y - 1) / 4 - (y - 1) / 100 + (y - 1) / 400.

Definition days_before_month (lp : bool) (m : Z) : Z :=
  let l := if lp then 1 else 0 in
  if m <=? 1 then 0 else if m <=? 2 then 31 else
  (if m <=? 3 then 59 else if m <=? 4 then 90 else if m <=? 5 then 120 else
   if m <=? 6 then 151 else if m <=? 7 then 181 else if m <=? 8 then 212 else
   if m <=? 9 then 243 else if m <=? 10 then 273 else if m <=? 11 then 304 else 334) + l.

(** Day number of a date; as in [time.Date] the month is normalised and the day may be any number. *)
Definition days_of_date (y m d : Z) : Z :=
  let y' := y + (m - 1) / 12 in
  let m' := (m - 1) mod 12 + 1 in
  days_before_year y' + days_before_month (leap y') m' + (d - 1).

(** Year, and day of the year from 0, of a day number. *)
Definition year_yday (n : Z) : Z * Z :=
  let a := n / 146097 in let r := n mod 146097 in
  let b0 := r / 36524 in let b := b0 - b0 / 4 in let r := r - 36524 * b in
  let c := r / 1461 in let r := r - 1461 * c in
  let e0 := r / 365 in let e := e0 - e0 / 4 in let r := r - 365 * e in
  (400 * a + 100 * b + 4 * c + e + 1, r).

Definition month_day (lp : bool) (yd : Z) : Z * Z :=
  let l := if lp then 1 else 0 in
  if yd <? 31 then (1, yd + 1) else
  if yd <? 59 + l then (2, yd - 31 + 1) else
  if yd <? 90 + l then (3, yd - 59 - l + 1) else
  if yd <? 120 + l then (4, yd - 90 - l + 1) else
  if yd <? 151 + l then (5, yd - 120 - l + 1) else
  if yd <? 181 + l then (6, yd - 151 - l + 1) else
  if yd <? 212 + l then (7, yd - 181 - l + 1) else
  if yd <? 243 + l then (8, yd - 212 - l + 1) else
  if yd <? 273 + l then (9, yd - 243 - l + 1) else
  if yd <? 304 + l then (10, yd - 273 - l + 1) else
  if yd <? 334 + l then (11, yd - 304 - l + 1) else (12, yd - 334 - l + 1).

Definition date_of_days (n : Z) : Z * Z * Z :=
  let '(y, yd) := year_yday n in
  let '(m, d) := month_day (leap y) yd in
  (y, m, d).

(** Day number and second of the day. *)
Definition day_of (t : Time) : Z := t / Day.
Definition sec_of_day (t : Time) : Z := t mod Day / Second.

(** [time.Date(y, m, d, 0, 0, 0, 0, time.UTC)]. *)
Definition Date (y m d : Z) : Time := days_of_date y m d * Day.

(** [t.AddDate(y, m, d)]. *)
Definition AddDate (t : Time) (y m d : Z) : Time :=
  let '(ty, tm, td) := date_of_days (day_of t) in
  Date (ty + y) (tm + m) (td + d) + t mod Day.

(** [int(t.Weekday())], Sunday = 0; 0001-01-01 is a Monday. *)
Definition Weekday (t : Time) : Z := (day_of t + 1) mod 7.

(** ** Formatting *)

Definition fmt_year (y : Z) : string := if (0 <=? y) && (y <=? 9999) then pad4 y else Itoa y.

(** [t.UTC().Format(time.RFC3339)]. *)
Definition FormatRFC3339 (t : Time) : string :=
  let '(y, m, d) := date_of_days (day_of t) in
  let s := sec_of_day t in
  fmt_year y +:+ "-" +:+ pad2 m +:+ "-" +:+ pad2 d +:+ "T" +:+
  pad2 (s / 3600) +:+ ":" +:+ pad2 (s / 60 mod 60) +:+ ":" +:+ pad2 (s mod 60) +:+ "Z".

(** [t.UTC().Format("20060102T150405Z")]. *)
Definition FormatCompact (t : Time) : string :=
  let '(y, m, d) := date_of_days (day_of t) in
  let s := sec_of_day t in
  fmt_year y +:+ pad2 m +:+ pad2 d +:+ "T" +:+
  pad2 (s / 3600) +:+ pad2 (s / 60 mod 60) +:+ pad2 (s mod 60) +:+ "Z".

(** Years 0000 to 9999, the range the four-digit layouts cover. *)
Definition year4_ok (t : Time) : Prop := days_of_date 0 1 1 * Day <= t < days_of_date 10000 1 1 * Day.

(** ** Calendar lemmas *)

Lemma Day_pos : 0 < Day.
Proof. done. Qed.

Lemma year_yday_spec n y yd :
  year_yday n = (y, yd) ->
  n = days_before_year y + yd /\ 0 <= yd /\ yd < 365 + (if leap y then 1 else 0).
Proof.
  unfold year_yday, days_before_year, leap. intros E. injection E as <- <-.
  assert (0 <= n mod 146097 < 146097) by (apply Z.mod_pos_bound; lia).
  pose proof (Z.div_mod n 146097 ltac:(lia)) as Hn.
  remember (n / 146097) as a eqn:Ha. remember (n mod 146097) as r eqn:Hr. clear Ha Hr.
  remember (r / 36524 - r / 36524 / 4) as b eqn:Hb.
  assert (0 <= b <= 3 /\ 0 <= r - 36524 * b /\ (b < 3 -> r - 36524 * b < 36524)
          /\ r - 36524 * b < 36525) by divlia.
  clear Hb. remember (r - 36524 * b) as r1.
  remember (r1 / 1461) as c eqn:Hc.
  assert (0 <= c <= 24 /\ 0 <= r1 - 1461 * c < 1461 /\ (b < 3 -> c = 24 -> r1 - 1461 * c < 1460)) by divlia.
  clear Hc. remember (r1 - 1461 * c) as r2.
  remember (r2 / 365 - r2 / 365 / 4) as e eqn:He.
  assert (0 <= e <= 3 /\ 0 <= r2 - 365 * e < 366 /\ (e < 3 -> r2 - 365 * e < 365)) by divlia.
  clear He. remember (r2 - 365 * e) as r3.
  replace (400 * a + 100 * b + 4 * c + e + 1 - 1) with (400 * a + 100 * b + 4 * c + e) by lia.
  split; [divlia|]. split; [lia|].
  destruct (Z.eqb_spec ((400 * a + 100 * b + 4 * c + e + 1) mod 4) 0); simpl; [|divlia].
  destruct (Z.eqb_spec ((400 * a + 100 * b + 4 * c + e + 1) mod 100) 0); simpl; [|divlia].
  destruct (Z.eqb_spec ((400 * a + 100 * b + 4 * c + e + 1) mod 400) 0); simpl; divlia.
Qed.

Lemma month_day_spec lp yd m d :
  month_day lp yd = (m, d) -> 0 <= yd < 365 + (if lp then 1 else 0) ->
  1 <= m <= 12 /\ 1 <= d <= 31 /\ yd = days_before_month lp m + (d - 1).
Proof.
  unfold month_day, days_before_month. intros E Hyd.
  destruct lp; simpl in *; repeat case_match; simplify_eq; bool_to_prop; lia.
Qed.

(** The calendar round trip: a day number is the day number of its date. *)
Lemma days_of_date_of_days n y m d :
  date_of_days n = (y, m, d) -> 1 <= m <= 12 /\ 1 <= d <= 31 /\ days_of_date y m d = n.
Proof.
  unfold date_of_days, days_of_date.
  destruct (year_yday n) as [y' yd] eqn:E1. destruct (month_day (leap y') yd) as [m' d'] eqn:E2.
  intros; simplify_eq. apply year_yday_spec in E1 as (-> & Hyd).
  apply month_day_spec in E2 as (Hm & Hd & ->); [|lia].
  rewrite Z.div_small, Z.mod_small by lia. rewrite Z.add_0_r.
  replace (m - 1 + 1) with m by lia. lia.
Qed.

Lemma date_of_days_inj n n' : date_of_days n = date_of_days n' -> n = n'.
Proof.
  destruct (date_of_days n) as [[y m] d] eqn:E. intros E'. symmetry in E'.
  apply days_of_date_of_days in E as (_ & _ & <-), E' as (_ & _ & <-). done.
Qed.

Lemma time_split t : t = day_of t * Day + sec_of_day t * Second + t mod Second.
Proof.
  unfold day_of, sec_of_day. rewrite (Z.div_mod t Day) at 1 by done.
  rewrite (Z.div_mod (t mod Day) Second) at 1 by done.
  assert (t mod Day mod Second = t mod Second) as ->; [|lia].
  rewrite (Z.div_mod t Day) at 2 by done. unfold Day, Hour, Minute.
  replace (24 * (60 * (60 * Second)) * (t / (24 * (60 * (60 * Second)))))
    with ((86400 * (t / (24 * (60 * (60 * Second))))) * Second) by lia.
  rewrite Z.add_comm, Z.mod_add; [done|done].
Qed.

Lemma sec_of_day_range t : 0 <= sec_of_day t < 86400.
Proof.
  unfold sec_of_day. pose proof (Z.mod_pos_bound t Day Day_pos). unfold Day, Hour, Minute in *.
  split; [apply Z.div_pos; [lia|done]|]. apply Z.div_lt_upper_bound; [done|]. lia.
Qed.

(** [AddDate] by days alone is exact multiples of 24 hours in UTC. *)
Lemma AddDate_days t n : AddDate t 0 0 n = t + n * Day.
Proof.
  unfold AddDate. destruct (date_of_days (day_of t)) as [[y m] d] eqn:E.
  apply days_of_date_of_days in E as (Hm & Hd & E). rewrite !Z.add_0_r.
  unfold Date. assert (days_of_date y m (d + n) = day_of t + n) as ->.
  { rewrite <- E. unfold days_of_date. lia. }
  unfold day_of. rewrite (Z.div_mod t Day) at 3 by done. lia.
Qed.

Lemma Truncate_bounds t d : 0 < d -> Truncate t d <= t < Truncate t d + d.
Proof.
  intros Hd. unfold Truncate. destruct (Z.leb_spec d 0); [lia|].
  pose proof (Z.mod_pos_bound t d Hd). lia.
Qed.
Lemma Truncate_aligned t d : 0 < d -> (d | Truncate t d).
Proof.
  intros Hd. unfold Truncate. destruct (Z.leb_spec d 0); [lia|].
  exists (t / d). rewrite (Z.div_mod t d) at 1 by lia. lia.
Qed.
Lemma Truncate_unique t u d : 0 < d -> (d | u) -> u <= t < u + d -> Truncate t d = u.
Proof.
  intros Hd [q ->] Ht. unfold Truncate. destruct (Z.leb_spec d 0); [lia|].
  rewrite (Z.div_mod t d) at 1 by lia.
  assert (t / d = q) as ->; [|lia]. symmetry. apply (Z.div_unique t d q (t - q * d)); lia.
Qed.
Lemma Truncate_idem t d : Truncate (Truncate t d) d = Truncate t d.
Proof.
  destruct (Z.leb_spec d 0).
  - unfold Truncate. by destruct (Z.leb_spec d 0); [|lia].
  - apply Truncate_unique; [lia | by apply Truncate_aligned | lia].
Qed.

(** ** Formatting lemmas *)

Lemma append_inj_length (a b x y : string) :
  String.length a = String.length b -> a +:+ x = b +:+ y -> a = b /\ x = y.
Proof.
  revert b. induction a as [|c a IH]; intros [|c' b] Hl E; simpl in *; try done.
  injection E as -> E. destruct (IH b) as [-> ->]; [lia|done|done].
Qed.

Lemma pad2_inj n m : 0 <= n < 100 -> 0 <= m < 100 -> pad2 n = pad2 m -> n = m.
Proof.
  intros Hn Hm E. apply of_bytes_inj in E. injection E as E1 E2.
  apply digit_inj in E1; [|divlia..]. apply digit_inj in E2; [|divlia..]. divlia.
Qed.
Lemma pad4_inj n m : 0 <= n < 10000 -> 0 <= m < 10000 -> pad4 n = pad4 m -> n = m.
Proof.
  intros Hn Hm E. apply of_bytes_inj in E. injection E as E1 E2 E3 E4.
  apply digit_inj in E1, E2, E3, E4; [divlia | divlia..].
Qed.

Lemma days_before_year_mono y y' : y <= y' -> days_before_year y <= days_before_year y'.
Proof. unfold days_before_year. intros. divlia. Qed.

Lemma days_before_year_succ y :
  days_before_year (y + 1) = days_before_year y + 365 + (if leap y then 1 else 0).
Proof.
  unfold days_before_year, leap. replace (y + 1 - 1) with y by lia.
  destruct (Z.eqb_spec (y mod 4) 0); simpl; [|divlia].
  destruct (Z.eqb_spec (y mod 100) 0); simpl; [|divlia].
  destruct (Z.eqb_spec (y mod 400) 0); simpl; divlia.
Qed.

Lemma year_yday_of y yd :
  0 <= yd < 365 + (if leap y then 1 else 0) -> year_yday (days_before_year y + yd) = (y, yd).
Proof.
  intros Hyd. destruct (year_yday (days_before_year y + yd)) as [y' yd'] eqn:E.
  apply year_yday_spec in E as (E & Hlo & Hhi).
  pose proof (days_before_year_succ y). pose proof (days_before_year_succ y').
  assert (~ y < y') by (intros Hy; pose proof (days_before_year_mono (y + 1) y'); lia).
  assert (~ y' < y) by (intros Hy; pose proof (days_before_year_mono (y' + 1) y); lia).
  assert (y' = y) as -> by lia. f_equal. lia.
Qed.

(** The first day of a month is the first day of that month. *)
Lemma date_of_first y m : 1 <= m <= 12 -> date_of_days (days_of_date y m 1) = (y, m, 1).
Proof.
  intros Hm. unfold date_of_days, days_of_date. rewrite Z.div_small, Z.mod_small by lia.
  rewrite !Z.add_0_r. replace (m - 1 + 1) with m by lia.
  assert (m = 1 \/ m = 2 \/ m = 3 \/ m = 4 \/ m = 5 \/ m = 6 \/ m = 7 \/ m = 8 \/ m = 9 \/ m = 10 \/ m = 11 \/ m = 12)
    as Hin by lia. clear Hm.
  rewrite year_yday_of by (destruct (leap y); intuition (subst; done)).
  destruct (leap y); intuition (subst; done).
Qed.

Lemma day_of_Date y m d : day_of (Date y m d) = days_of_date y m d.
Proof. unfold day_of, Date. by apply Z.div_mul. Qed.

Lemma AddDate_month y m : 1 <= m <= 12 -> AddDate (Date y m 1) 0 1 0 = Date y (m + 1) 1.
Proof.
  intros Hm. unfold AddDate. rewrite day_of_Date, date_of_first, !Z.add_0_r by done.
  unfold Date at 2. rewrite Z.mod_mul by done. lia.
Qed.

Lemma year4_ok_year t y m d :
  year4_ok t -> date_of_days (day_of t) = (y, m, d) -> 0 <= y <= 9999.
Proof.
  unfold year4_ok. intros [Hlo Hhi] E.
  assert (days_of_date 0 1 1 <= day_of t < days_of_date 10000 1 1) as Hd.
  { unfold day_of. rewrite Z.mul_comm in Hlo, Hhi.
    split; [by apply Z.div_le_lower_bound | by apply Z.div_lt_upper_bound]. }
  unfold date_of_days in E. destruct (year_yday (day_of t)) as [y' yd] eqn:E1.
  destruct (month_day (leap y') yd); simplify_eq.
  apply year_yday_spec in E1 as (E1 & Hyd & Hyd').
  change (days_of_date 0 1 1) with (-366) in Hd. change (days_of_date 10000 1 1) with 3652059 in Hd.
  assert (~ y < 0) as Hneg.
  { intros Hy. pose proof (days_before_year_mono (y + 1) 0 ltac:(lia)) as Hm.
    rewrite days_before_year_succ in Hm. change (days_before_year 0) with (-366) in Hm. lia. }
  assert (~ 10000 <= y).
  { intros Hy. pose proof (days_before_year_mono 10000 y Hy) as Hm.
    change (days_before_year 10000) with 3652059 in Hm. lia. }
  lia.
Qed.

Lemma fmt_year_pad4 y : 0 <= y <= 9999 -> fmt_year y = pad4 y.
Proof.
  intros H. unfold fmt_year.
  destruct (Z.leb_spec 0 y), (Z.leb_spec y 9999); simpl; [done|lia..].
Qed.

(** Two instants with the same RFC 3339 text are in the same second. *)
Lemma FormatRFC3339_inj t u :
  year4_ok t -> year4_ok u -> FormatRFC3339 t = FormatRFC3339 u -> t / Second = u / Second.
Proof.
  intros Ht Hu. unfold FormatRFC3339.
  destruct (date_of_days (day_of t)) as [[y m] d] eqn:Et.
  destruct (date_of_days (day_of u)) as [[y' m'] d'] eqn:Eu.
  pose proof (year4_ok_year _ _ _ _ Ht Et). pose proof (year4_ok_year _ _ _ _ Hu Eu).
  pose proof (days_of_date_of_days _ _ _ _ Et) as (Hm & Hd & HEt).
  pose proof (days_of_date_of_days _ _ _ _ Eu) as (Hm' & Hd' & HEu).
  pose proof (sec_of_day_range t). pose proof (sec_of_day_range u).
  rewrite !fmt_year_pad4 by done.
  intros E. repeat (apply append_inj_length in E as [?E E]; [|done]).
  apply pad4_inj in E0; [|lia..]. apply pad2_inj in E2; [|lia..]. apply pad2_inj in E4; [|lia..].
  apply pad2_inj in E6; [|divlia..]. apply pad2_inj in E8; [|divlia..].
  apply pad2_inj in E10; [|divlia..].
  assert (sec_of_day t = sec_of_day u) as Hs by divlia.
  assert (day_of t = day_of u) as Hday by congruence.
  rewrite (time_split t), (time_split u), Hs, Hday.
  unfold Day, Hour, Minute. unfold Second. divlia.
Qed.

Lemma FormatRFC3339_length t : year4_ok t -> String.length (FormatRFC3339 t) = 20%nat.
Proof.
  intros Ht. unfold FormatRFC3339. destruct (date_of_days (day_of t)) as [[y m] d] eqn:Et.
  rewrite fmt_year_pad4 by eauto using year4_ok_year. done.
Qed.
