(* ===== verification/GoFloat.v ===== *)
(** * Go float64

    [float64] as IEEE 754 binary64, computed by the Standard Library's
    executable specification [SpecFloat] with a 53-bit mantissa and maximal
    exponent 1024, round to nearest even. *)

From S2P Require Import Prelude.
From Stdlib Require Export SpecFloat.

Abbreviation float64 := spec_float.

Definition prec64 : Z := 53.
Definition emax64 : Z := 1024.

Definition fadd : float64 -> float64 -> float64 := SFadd prec64 emax64.
Definition fsub : float64 -> float64 -> float64 := SFsub prec64 emax64.
Definition fmul : float64 -> float64 -> float64 := SFmul prec64 emax64.
Definition fdiv : float64 -> float64 -> float64 := SFdiv prec64 emax64.
Definition fabs : float64 -> float64 := SFabs.

(** The comparison operators of Go; every comparison with NaN is false. *)
Definition flt (x y : float64) : bool := SFltb x y.
Definition fgt (x y : float64) : bool := SFltb y x.
Definition fle (x y : float64) : bool := SFleb x y.
Definition fge (x y : float64) : bool := SFleb y x.
Definition feq (x y : float64) : bool := SFeqb x y.

(** [float64(n)] for an integer [n]: nearest even. *)
Definition f64_of_Z (n : Z) : float64 := binary_normalize prec64 emax64 n 0 false.

Definition f64_zero : float64 := S754_zero false.

(** A decimal literal [m * 10^e10], correctly rounded. *)
Definition f64_dec (m e10 : Z) : float64 :=
  match m with
  | Z0 => S754_zero false
  | _ =>
    if 0 <=? e10 then f64_of_Z (m * 10 ^ e10)
    else let '(q, e, l) := SFdiv_core_binary prec64 emax64 (Z.abs m) 0 (10 ^ (- e10)) 0 in
         binary_round_aux prec64 emax64 (m <? 0) q e l
  end.

(** Truncation toward zero of a finite float. *)
Definition f64_trunc (x : float64) : option Z :=
  match x with
  | S754_zero _ => Some 0
  | S754_finite s m e =>
    let a := if 0 <=? e then Zpos m * 2 ^ e else Zpos m / 2 ^ (- e) in
    Some (if s then - a else a)
  | _ => None
  end.

(** [int64(x)]: truncation; out of range (implementation-defined in Go) as
    amd64 computes it, the minimal integer. *)
Definition f64_to_int64 (x : float64) : Z :=
  match f64_trunc x with
  | Some z => if bool_decide (int64_ok z) then z else min_int64
  | None => min_int64
  end.

(** [math.Min] on non-NaN arguments. *)
Definition math_Min (x y : float64) : float64 := if flt x y then x else y.

(** [math.Pow(2, y)] for an integral [y]. *)
Definition math_Pow2 (y : float64) : float64 :=
  match f64_trunc y with
  | Some k => SFldexp prec64 emax64 (f64_of_Z 1) k
  | None => y
  end.

(** ** Comparison

    The order of non-NaN floats is the lexicographic order of an integer triple
    (class, exponent, mantissa), both zeros being equal. *)

Definition fkey (x : float64) : option (Z * Z * Z) :=
  match x with
  | S754_nan => None
  | S754_infinity true => Some (-2, 0, 0)
  | S754_finite true m e => Some (-1, - e, - Zpos m)
  | S754_zero _ => Some (0, 0, 0)
  | S754_finite false m e => Some (1, e, Zpos m)
  | S754_infinity false => Some (2, 0, 0)
  end.

Definition klt (k k' : Z * Z * Z) : Prop :=
  let '(a, b, c) := k in let '(a', b', c') := k' in
  a < a' \/ (a = a' /\ (b < b' \/ (b = b' /\ c < c'))).

Definition is_nan (x : float64) : bool := match x with S754_nan => true | _ => false end.

Lemma SFcompare_fkey x y kx ky :
  fkey x = Some kx -> fkey y = Some ky ->
  match SFcompare x y with
  | Some Lt => klt kx ky
  | Some Eq => kx = ky
  | Some Gt => klt ky kx
  | None => False
  end.
Proof.
  destruct x as [[]|[]| |[] m e], y as [[]|[]| |[] m' e']; intros; simplify_eq/=;
    try done; try lia; unfold klt.
  - destruct (Z.compare_spec e e'); [|lia..]. change (Pos.compare_cont Eq m m') with (m ?= m')%positive.
    destruct (Pos.compare_spec m m'); simpl; subst; [done|lia..].
  - destruct (Z.compare_spec e e'); [|lia..]. change (Pos.compare_cont Eq m m') with (m ?= m')%positive.
    destruct (Pos.compare_spec m m'); simpl; subst; [done|lia..].
Qed.

Lemma klt_irrefl k : ~ klt k k.
Proof. destruct k as [[a b] c]. unfold klt. lia. Qed.
Lemma klt_trans k1 k2 k3 : klt k1 k2 -> klt k2 k3 -> klt k1 k3.
Proof. destruct k1 as [[??]?], k2 as [[??]?], k3 as [[??]?]. unfold klt. lia. Qed.

Lemma klt_asym k1 k2 : klt k1 k2 -> klt k2 k1 -> False.
Proof. destruct k1 as [[??]?], k2 as [[??]?]. unfold klt. lia. Qed.

Lemma fkey_nan x : fkey x = None <-> is_nan x = true.
Proof. by destruct x as [|[]| |[]]. Qed.

Lemma flt_klt x y : flt x y = true <-> exists kx ky, fkey x = Some kx /\ fkey y = Some ky /\ klt kx ky.
Proof.
  unfold flt, SFltb. destruct (fkey x) as [kx|] eqn:Ex; [destruct (fkey y) as [ky|] eqn:Ey|].
  - pose proof (SFcompare_fkey x y kx ky Ex Ey) as H.
    destruct (SFcompare x y) as [[]|]; split; intros HH; try done.
    + destruct HH as (? & ? & ? & ? & Hk); simplify_eq. by apply klt_irrefl in Hk.
    + by exists kx, ky.
    + destruct HH as (? & ? & ? & ? & Hk); simplify_eq. exfalso; eapply klt_asym; eassumption.
  - apply fkey_nan in Ey. destruct y; try done. split; [by destruct x as [|[]| |[]] | by intros (? & ? & ? & ? & ?)].
  - apply fkey_nan in Ex. destruct x; try done. split; [done | by intros (? & ? & ? & ? & ?)].
Qed.

Lemma fle_klt x y :
  fle x y = true <-> exists kx ky, fkey x = Some kx /\ fkey y = Some ky /\ (klt kx ky \/ kx = ky).
Proof.
  unfold fle, SFleb. destruct (fkey x) as [kx|] eqn:Ex; [destruct (fkey y) as [ky|] eqn:Ey|].
  - pose proof (SFcompare_fkey x y kx ky Ex Ey) as H.
    destruct (SFcompare x y) as [[]|]; split; intros HH; try done; try (exists kx, ky; by auto).
    destruct HH as (? & ? & ? & ? & Hk); simplify_eq.
    destruct Hk as [Hk| ->]; [|by apply klt_irrefl in H]. exfalso; eapply klt_asym; eassumption.
  - apply fkey_nan in Ey. destruct y; try done. split; [by destruct x as [|[]| |[]] | by intros (? & ? & ? & ? & ?)].
  - apply fkey_nan in Ex. destruct x; try done. split; [done | by intros (? & ? & ? & ? & ?)].
Qed.

Lemma flt_irrefl x : flt x x = false.
Proof.
  destruct (flt x x) eqn:E; [|done]. apply flt_klt in E as (? & ? & ? & ? & Hk); simplify_eq.
  by apply klt_irrefl in Hk.
Qed.
Lemma fle_refl x : is_nan x = false -> fle x x = true.
Proof.
  intros Hx. apply fle_klt. destruct (fkey x) eqn:E; [eauto 10|].
  apply fkey_nan in E. congruence.
Qed.
Lemma flt_trans x y z : flt x y = true -> flt y z = true -> flt x z = true.
Proof. rewrite !flt_klt. intros (?&?&?&?&?) (?&?&?&?&?); simplify_eq. eauto 10 using klt_trans. Qed.
Lemma fle_trans x y z : fle x y = true -> fle y z = true -> fle x z = true.
Proof.
  rewrite !fle_klt. intros (?&?&?&?&[?| ->]) (?&?&?&?&[?| ->]); simplify_eq; eauto 10 using klt_trans.
Qed.
Lemma flt_fle x y : flt x y = true -> fle x y = true.
Proof. rewrite flt_klt, fle_klt. intros (kx & ky & ? & ? & ?). exists kx, ky. auto. Qed.
Lemma flt_false_fle x y : is_nan x = false -> is_nan y = false -> flt x y = false -> fle y x = true.
Proof.
  unfold flt, fle, SFltb, SFleb. intros Hx Hy.
  destruct (fkey x) as [kx|] eqn:Ex; [|apply fkey_nan in Ex; congruence].
  destruct (fkey y) as [ky|] eqn:Ey; [|apply fkey_nan in Ey; congruence].
  pose proof (SFcompare_fkey x y kx ky Ex Ey) as H1. pose proof (SFcompare_fkey y x ky kx Ey Ex) as H2.
  destruct (SFcompare x y) as [[]|], (SFcompare y x) as [[]|]; try done; intros _; exfalso; subst.
  - by apply klt_irrefl in H2.
  - exfalso; eapply klt_asym; eassumption.
Qed.
Lemma fle_not_flt x y : fle x y = true -> flt y x = false.
Proof.
  rewrite fle_klt. intros (kx & ky & Ex & Ey & Hk). destruct (flt y x) eqn:E; [|done].
  apply flt_klt in E as (? & ? & ? & ? & Hk'); simplify_eq.
  destruct Hk as [Hk| ->]; [|by apply klt_irrefl in Hk']. exfalso; eapply klt_asym; eassumption.
Qed.
Lemma flt_nan_l x y : flt x y = true -> is_nan x = false.
Proof. rewrite flt_klt. intros (?&?&E&_). destruct x; done. Qed.
Lemma flt_nan_r x y : flt x y = true -> is_nan y = false.
Proof. rewrite flt_klt. intros (?&?&_&E&_). destruct y; done. Qed.
Lemma fle_nan_l x y : fle x y = true -> is_nan x = false.
Proof. rewrite fle_klt. intros (?&?&E&_). destruct x; done. Qed.
Lemma fle_nan_r x y : fle x y = true -> is_nan y = false.
Proof. rewrite fle_klt. intros (?&?&_&E&_). destruct y; done. Qed.

(** ** Exact integers

    Integers below [2^53] are represented exactly, and scaling them by a power
    of two is exact. *)

Lemma digits2_log2 p : Zpos (digits2_pos p) = Z.log2 (Zpos p) + 1.
Proof.
  induction p as [p IH|p IH|]; simpl digits2_pos; [| |done].
  - rewrite Pos2Z.inj_succ, IH. change (Zpos p~1) with (Z.succ_double (Zpos p)).
    rewrite Z.succ_double_spec, Z.log2_succ_double by lia. lia.
  - rewrite Pos2Z.inj_succ, IH. change (Zpos p~0) with (Z.double (Zpos p)).
    rewrite Z.double_spec, Z.log2_double by lia. lia.
Qed.

Lemma iter_xO m k : Zpos (Pos.iter xO m k) = Zpos m * 2 ^ Zpos k.
Proof.
  induction k as [|k IH] using Pos.peano_ind.
  - simpl. lia.
  - rewrite Pos.iter_succ, Pos2Z.inj_succ, Z.pow_succ_r by lia.
    change (Zpos (Pos.iter xO m k)~0) with (2 * Zpos (Pos.iter xO m k)). lia.
Qed.

Lemma digits2_iter_xO m k : Zpos (digits2_pos (Pos.iter xO m k)) = Zpos (digits2_pos m) + Zpos k.
Proof.
  rewrite !digits2_log2, iter_xO, Z.log2_mul_pow2 by lia. lia.
Qed.

Lemma iter_pos_swap {A} (f : A -> A) n x : iter_pos f n (f x) = f (iter_pos f n x).
Proof.
  revert x. induction n as [n IH|n IH|]; intros x; simpl; [by rewrite !IH..|done].
Qed.

Lemma iter_pos_succ {A} (f : A -> A) n x : iter_pos f (Pos.succ n) x = iter_pos f n (f x).
Proof.
  revert x. induction n as [n IH|n IH|]; intros x; simpl; [|done|done].
  by rewrite !IH, <- iter_pos_swap.
Qed.

Lemma shr_iter_xO m k :
  iter_pos shr_1 k (Build_shr_record (Zpos (Pos.iter xO m k)) false false)
  = Build_shr_record (Zpos m) false false.
Proof.
  induction k as [|k IH] using Pos.peano_ind; [done|].
  rewrite iter_pos_succ, Pos.iter_succ. simpl. apply IH.
Qed.

(** A normalised mantissa is already rounded. *)
Lemma round_aux_canonical s m e :
  Zpos (digits2_pos m) = 53 -> -1074 <= e <= 971 ->
  binary_round_aux prec64 emax64 s (Zpos m) e loc_Exact = S754_finite s m e.
Proof.
  intros Hd He. unfold binary_round_aux, shr_fexp, fexp, emin. cbn [Zdigits2].
  rewrite Hd. unfold prec64, emax64.
  replace (Z.max (53 + e - 53) (3 - 1024 - 53) - e) with 0 by lia. simpl.
  rewrite Hd. replace (Z.max (53 + e - 53) (3 - 1024 - 53) - e) with 0 by lia. simpl.
  destruct (Z.leb_spec e (1024 - 53)); [done|lia].
Qed.

(** The normal form of an exact integer: [n * 2^(53-d)] at exponent [d - 53], [d] its bit length. *)
Definition norm_mant (n : positive) : positive :=
  match (53 - Zpos (digits2_pos n))%Z with Zpos k => Pos.iter xO n k | _ => n end.

Lemma norm_mant_spec n :
  Zpos (digits2_pos n) <= 53 ->
  Zpos (norm_mant n) = Zpos n * 2 ^ (53 - Zpos (digits2_pos n)) /\
  Zpos (digits2_pos (norm_mant n)) = 53.
Proof.
  intros Hd. unfold norm_mant. destruct (53 - Zpos (digits2_pos n)) as [|k|k] eqn:E; [|..|lia].
  - split; [simpl; lia|lia].
  - rewrite digits2_iter_xO, iter_xO. lia.
Qed.

Lemma digits2_bound n k : 0 <= k -> Zpos n < 2 ^ k -> Zpos (digits2_pos n) <= k.
Proof.
  intros Hk Hn. rewrite digits2_log2. apply Z.log2_lt_pow2 in Hn; lia.
Qed.

Lemma f64_of_Z_exact n :
  Zpos n < 2 ^ 53 ->
  f64_of_Z (Zpos n) = S754_finite false (norm_mant n) (Zpos (digits2_pos n) - 53).
Proof.
  intros Hn. apply digits2_bound in Hn; [|lia].
  pose proof (norm_mant_spec n Hn) as [_ Hd]. pose proof (Pos2Z.is_pos (digits2_pos n)).
  unfold f64_of_Z, binary_normalize, binary_round, shl_align, fexp, emin, prec64, emax64 in *.
  rewrite Z.add_0_r, Z.sub_0_r.
  replace (Z.max _ _) with (Zpos (digits2_pos n) - 53) by lia.
  unfold norm_mant in *.
  replace (53 - Zpos (digits2_pos n)) with (- (Zpos (digits2_pos n) - 53)) in * by lia.
  destruct (Zpos (digits2_pos n) - 53) as [|k|k] eqn:E; simpl in *; [|lia|].
  - by rewrite round_aux_canonical by lia.
  - by rewrite round_aux_canonical by lia.
Qed.

Lemma fmul_pow2_exact m e k :
  Zpos (digits2_pos m) = 53 -> -1074 <= e + k <= 971 ->
  fmul (S754_finite false m e) (S754_finite false (Pos.iter xO 1 52)%positive (k - 52))
  = S754_finite false m (e + k).
Proof.
  intros Hm He. unfold fmul, SFmul. simpl xorb.
  assert ((m * Pos.iter xO 1 52)%positive = Pos.iter xO m 52) as ->.
  { apply Pos2Z.inj. rewrite Pos2Z.inj_mul, !iter_xO. lia. }
  unfold binary_round_aux, shr_fexp at 1. cbn [Zdigits2]. rewrite digits2_iter_xO, Hm.
  unfold fexp at 1, emin, prec64, emax64.
  replace (Z.max _ _ - (e + (k - 52))) with 52 by lia.
  unfold shr, shr_record_of_loc. rewrite shr_iter_xO. cbn [shr_m loc_of_shr_record round_nearest_even].
  replace (e + (k - 52) + 52) with (e + k) by lia.
  pose proof (round_aux_canonical false m (e + k) Hm He) as H. unfold binary_round_aux in H.
  unfold shr_fexp in *. cbn [Zdigits2] in *. rewrite Hm in *.
  unfold fexp, emin, prec64, emax64 in *.
  replace (Z.max _ _ - (e + k)) with 0 in * by lia. simpl in *.
  destruct (Z.leb_spec (e + k) (1024 - 53)); [done|lia].
Qed.

Lemma math_Pow2_small k : 0 <= k <= 970 ->
  SFldexp prec64 emax64 (f64_of_Z 1) k = S754_finite false (Pos.iter xO 1 52)%positive (k - 52).
Proof.
  intros Hk. change (f64_of_Z 1) with (S754_finite false (Pos.iter xO 1 52)%positive (-52)).
  unfold SFldexp, binary_round, shl_align, fexp, emin, prec64, emax64.
  change (Zpos (digits2_pos (Pos.iter xO 1%positive 52%positive))) with 53.
  replace (Z.max _ _ - (-52 + k)) with 0 by lia.
  replace (-52 + k) with (k - 52) by lia. apply round_aux_canonical; [done|lia].
Qed.

Lemma f64_trunc_norm n e :
  Zpos n < 2 ^ 53 -> 0 <= e ->
  f64_trunc (S754_finite false (norm_mant n) (Zpos (digits2_pos n) - 53 + e)) = Some (Zpos n * 2 ^ e).
Proof.
  intros Hn He. apply digits2_bound in Hn; [|lia].
  pose proof (norm_mant_spec n Hn) as [Hm _]. simpl. rewrite Hm. f_equal.
  remember (53 - Zpos (digits2_pos n)) as j.
  replace (Zpos (digits2_pos n) - 53 + e) with (e - j) by lia.
  destruct (Z.leb_spec 0 (e - j)).
  - rewrite <- Z.mul_assoc, <- Z.pow_add_r by lia. f_equal. f_equal. lia.
  - replace (- (e - j)) with (j - e) by lia. replace j with (e + (j - e)) at 1 by lia.
    rewrite Z.pow_add_r, Z.mul_assoc by lia. apply Z.div_mul. apply Z.pow_nonzero; lia.
Qed.

Lemma f64_trunc_of_Z n : 0 <= n < 2 ^ 53 -> f64_trunc (f64_of_Z n) = Some n.
Proof.
  intros Hn. destruct n as [|n|]; [done| |lia]. rewrite f64_of_Z_exact by lia.
  pose proof (f64_trunc_norm n 0 ltac:(lia) ltac:(lia)) as H.
  rewrite Z.add_0_r in H. rewrite H. f_equal. lia.
Qed.

Lemma f64_scale_exact n k :
  0 < n < 2 ^ 53 -> 0 <= k <= 900 ->
  f64_trunc (fmul (f64_of_Z n) (math_Pow2 (f64_of_Z k))) = Some (n * 2 ^ k).
Proof.
  intros Hn Hk. destruct n as [|n|]; [lia| |lia].
  unfold math_Pow2. rewrite f64_trunc_of_Z by lia. rewrite math_Pow2_small by lia.
  rewrite f64_of_Z_exact by lia.
  pose proof (digits2_bound n 53 ltac:(lia) ltac:(lia)) as Hd. pose proof (Pos2Z.is_pos (digits2_pos n)).
  rewrite fmul_pow2_exact; [|by apply norm_mant_spec|lia]. apply f64_trunc_norm; lia.
Qed.

(** Comparison of exact integers is the comparison of the integers. *)
Lemma flt_finite_pos m e m' e' :
  flt (S754_finite false m e) (S754_finite false m' e') = true
  <-> e < e' \/ (e = e' /\ Zpos m < Zpos m').
Proof.
  rewrite flt_klt. cbn [fkey]. split.
  - intros (k & k' & E1 & E2 & Hk). injection E1 as <-. injection E2 as <-. unfold klt in Hk. lia.
  - intros H. eexists _, _. split; [done|]. split; [done|]. unfold klt. lia.
Qed.

Lemma norm_lt a b la lb :
  Z.log2 a = la -> Z.log2 b = lb -> 0 < a < 2 ^ 53 -> 0 < b < 2 ^ 53 ->
  (la + 1 - 53 < lb + 1 - 53 \/
   (la + 1 - 53 = lb + 1 - 53 /\ a * 2 ^ (53 - (la + 1)) < b * 2 ^ (53 - (lb + 1)))) <-> a < b.
Proof.
  intros <- <- Ha Hb.
  assert (Z.log2 a < 53) by (apply Z.log2_lt_pow2; lia).
  assert (Z.log2 b < 53) by (apply Z.log2_lt_pow2; lia).
  split.
  - intros [Hk|[Hk1 Hk2]]; [apply Z.log2_lt_cancel; lia|].
    replace (Z.log2 b) with (Z.log2 a) in Hk2 by lia.
    apply Z.mul_lt_mono_pos_r in Hk2; [done|]. apply Z.pow_pos_nonneg; lia.
  - intros Hlt. pose proof (Z.log2_le_mono a b ltac:(lia)).
    destruct (Z.eq_dec (Z.log2 a) (Z.log2 b)) as [E|]; [right|left; lia].
    split; [lia|]. rewrite E. apply Z.mul_lt_mono_pos_r; [apply Z.pow_pos_nonneg; lia | done].
Qed.

Lemma flt_of_Z a b : 0 <= a < 2 ^ 53 -> 0 <= b < 2 ^ 53 -> flt (f64_of_Z a) (f64_of_Z b) = (a <? b).
Proof.
  intros Ha Hb. destruct a as [|a|], b as [|b|]; try lia.
  - done.
  - rewrite f64_of_Z_exact by lia. done.
  - rewrite f64_of_Z_exact by lia. done.
  - rewrite !f64_of_Z_exact by lia. apply eq_true_iff_eq. rewrite flt_finite_pos, Z.ltb_lt.
    pose proof (norm_mant_spec a (digits2_bound a 53 ltac:(lia) ltac:(lia))) as [-> _].
    pose proof (norm_mant_spec b (digits2_bound b 53 ltac:(lia) ltac:(lia))) as [-> _].
    rewrite !digits2_log2. apply norm_lt; [done|done|lia|lia].
Qed.
