(* ===== verification/GoFloatSign.v ===== *)
(** * Valid and non-negative floats

    Rounding always yields a canonical mantissa, so the arithmetic of [GoFloat]
    stays inside the binary64 values ([fvalid]); sums, products, quotients and
    guarded differences of non-negative values stay non-negative. *)

From S2P Require Import Prelude GoFloat.

(** A binary64 value: canonical mantissa and exponent in range. *)
Definition fvalid (x : float64) : Prop := valid_binary prec64 emax64 x = true.

(** Not NaN, and the sign bit clear (or a zero of either sign). *)
Definition nonneg (x : float64) : bool :=
  match x with
  | S754_zero _ => true
  | S754_finite s _ _ | S754_infinity s => negb s
  | S754_nan => false
  end.

Definition is_inf (x : float64) : bool := match x with S754_infinity _ => true | _ => false end.

Lemma nonneg_fle x : nonneg x = fle f64_zero x.
Proof. by destruct x as [[]|[]| |[]]. Qed.

Lemma nonneg_not_nan x : nonneg x = true -> is_nan x = false.
Proof. by destruct x. Qed.

(** ** Shifting *)

Lemma zdigits_log2 m : 0 < m -> Zdigits2 m = Z.log2 m + 1.
Proof. destruct m; try lia. intros _. apply digits2_log2. Qed.

Lemma zdigits_nonneg m : 0 <= Zdigits2 m.
Proof. destruct m; simpl; lia. Qed.

Lemma zdigits_le m k : 0 <= m -> 0 <= k -> Zdigits2 m <= k <-> m < 2 ^ k.
Proof.
  intros Hm Hk. destruct (decide (m = 0)) as [->|].
  { simpl. pose proof (Z.pow_pos_nonneg 2 k). lia. }
  rewrite zdigits_log2 by lia. rewrite Z.log2_lt_pow2 by lia. lia.
Qed.

Lemma zdigits_ge m k : 0 < k -> 0 <= m -> k <= Zdigits2 m <-> 2 ^ (k - 1) <= m.
Proof.
  intros Hk Hm. pose proof (zdigits_le m (k - 1) Hm). lia.
Qed.

Lemma shr_1_m r : 0 <= shr_m r -> shr_m (shr_1 r) = shr_m r / 2.
Proof.
  destruct r as [m r s]; cbn [shr_m]. intros Hm. rewrite <- Z.div2_div.
  destruct m as [|[p|p|]|p]; cbn; try done; lia.
Qed.

Lemma iter_shr_m p r : 0 <= shr_m r -> shr_m (iter_pos shr_1 p r) = shr_m r / 2 ^ Zpos p.
Proof.
  revert r. induction p as [|p IH] using Pos.peano_ind; intros r Hr.
  { simpl. by apply shr_1_m. }
  rewrite iter_pos_succ, IH by (rewrite shr_1_m by done; apply Z.div_pos; lia).
  rewrite shr_1_m, Z.div_div by lia. f_equal. rewrite Pos2Z.inj_succ, Z.pow_succ_r; lia.
Qed.

Lemma shr_spec r e n : 0 <= shr_m r -> 0 <= n ->
  shr_m (fst (shr r e n)) = shr_m r / 2 ^ n /\ snd (shr r e n) = e + n.
Proof.
  intros Hr Hn. destruct n as [|p|p]; simpl shr; simpl; [|..|lia].
  - rewrite Z.div_1_r. lia.
  - rewrite iter_shr_m by done. done.
Qed.

Lemma shr_record_m m l : shr_m (shr_record_of_loc m l) = m.
Proof. by destruct l as [|[]]. Qed.

Lemma zdigits_div m n : 0 <= m -> 0 <= n -> Zdigits2 (m / 2 ^ n) = Z.max 0 (Zdigits2 m - n).
Proof.
  intros Hm Hn. destruct (decide (m = 0)) as [->|].
  { rewrite Z.div_0_l by lia. simpl. lia. }
  rewrite (zdigits_log2 m) by lia. rewrite <- Z.shiftr_div_pow2 by lia.
  destruct (decide (n <= Z.log2 m)).
  - assert (0 < m ≫ n).
    { rewrite Z.shiftr_div_pow2 by lia. apply Z.div_str_pos. split; [lia|].
      transitivity (2 ^ Z.log2 m); [apply Z.pow_le_mono_r; lia|]. apply Z.log2_spec. lia. }
    rewrite zdigits_log2 by done. rewrite Z.log2_shiftr by lia. lia.
  - assert (m ≫ n = 0) as ->; [|simpl; lia].
    rewrite Z.shiftr_div_pow2 by lia. apply Z.div_small. split; [lia|].
    apply Z.log2_lt_pow2; lia.
Qed.

(** ** Rounding yields a valid float of the requested sign *)

Definition fexp_lo (d : Z) : Z := Z.max (d - 53) (-1074).
Lemma fexp_eq d : fexp prec64 emax64 d = fexp_lo d.
Proof. done. Qed.

Lemma round_nearest_even_bounds m l : m <= round_nearest_even m l <= m + 1.
Proof. destruct l as [|[]]; simpl; try case_match; lia. Qed.

Lemma zdigits_succ m m' : 0 <= m -> m <= m' <= m + 1 ->
  Zdigits2 m <= Zdigits2 m' <= Zdigits2 m + 1.
Proof.
  intros Hm Hb. pose proof (zdigits_nonneg m).
  assert (m < 2 ^ Zdigits2 m) as Hlt by (apply zdigits_le; lia).
  split.
  - destruct (decide (Zdigits2 m = 0)); [pose proof (zdigits_nonneg m'); lia|].
    apply zdigits_ge; [lia..|]. transitivity m; [|lia]. apply zdigits_ge; lia.
  - apply zdigits_le; [lia..|]. rewrite Z.pow_add_r by lia. lia.
Qed.

(** The rounded mantissa either keeps its width or is the next power of two. *)
Lemma zdigits_carry m m' : 0 <= m -> m <= m' <= m + 1 ->
  Zdigits2 m' = Zdigits2 m + 1 -> m' = 2 ^ Zdigits2 m.
Proof.
  intros Hm Hb Hd. pose proof (zdigits_nonneg m).
  assert (m < 2 ^ Zdigits2 m) by (apply zdigits_le; lia).
  assert (2 ^ (Zdigits2 m + 1 - 1) <= m') as Hge by (apply zdigits_ge; lia).
  replace (Zdigits2 m + 1 - 1) with (Zdigits2 m) in Hge by lia. lia.
Qed.

Definition rounded (s : bool) (x : float64) : Prop :=
  fvalid x /\
  match x with
  | S754_zero _ => True
  | S754_finite s' _ _ | S754_infinity s' => s' = s
  | S754_nan => False
  end.

(** The mantissa and exponent [binary_round_aux] computes before the overflow test. *)
Definition round_result (s : bool) (m e : Z) : float64 :=
  match m with
  | Z0 => S754_zero s
  | Zpos p => if e <=? emax64 - prec64 then S754_finite s p e else S754_infinity s
  | Zneg _ => S754_nan
  end.

Lemma round_aux_value s m e l :
  0 <= m -> e <= fexp_lo (Zdigits2 m + e) ->
  let e2 := fexp_lo (Zdigits2 m + e) in
  exists r e3 m3,
    shr_fexp prec64 emax64 m e l = (r, e2) /\
    binary_round_aux prec64 emax64 s m e l = round_result s m3 e3 /\
    0 <= m3 /\ e2 <= e3 /\ fexp_lo (Zdigits2 m3 + e3) = e3 /\
    m3 * 2 ^ (e3 - e2) = round_nearest_even (shr_m r) (loc_of_shr_record r).
Proof.
  intros Hm He e2'. subst e2'. unfold binary_round_aux, shr_fexp at 1 2. rewrite fexp_eq.
  pose proof (shr_spec (shr_record_of_loc m l) e (fexp_lo (Zdigits2 m + e) - e)) as Hs.
  rewrite shr_record_m in Hs. specialize (Hs Hm ltac:(lia)).
  destruct (shr _ _ _) as [r1 e1]. cbn [fst snd] in Hs. destruct Hs as [Hr1 ->].
  pose proof (zdigits_div m (fexp_lo (Zdigits2 m + e) - e) Hm ltac:(lia)) as Hd1.
  assert (0 <= shr_m r1) as Hp1 by (rewrite Hr1; apply Z.div_pos; lia).
  rewrite <- Hr1 in Hd1.
  pose proof (round_nearest_even_bounds (shr_m r1) (loc_of_shr_record r1)) as Hb.
  exists r1. set (m2 := round_nearest_even _ _) in *. clearbody m2.
  pose proof (zdigits_succ _ m2 Hp1 Hb) as Hd2. pose proof (zdigits_carry _ m2 Hp1 Hb) as Hc.
  replace (e + (fexp_lo (Zdigits2 m + e) - e)) with (fexp_lo (Zdigits2 m + e)) by lia.
  set (e2 := fexp_lo (Zdigits2 m + e)) in *.
  pose proof (zdigits_nonneg m). pose proof (zdigits_nonneg m2).
  assert (0 <= fexp_lo (Zdigits2 m2 + e2) - e2 <= 1) as Hn by (unfold fexp_lo in *; lia).
  unfold shr_fexp. rewrite fexp_eq.
  pose proof (shr_spec (shr_record_of_loc m2 loc_Exact) e2 (fexp_lo (Zdigits2 m2 + e2) - e2)) as Hs.
  rewrite shr_record_m in Hs. specialize (Hs ltac:(lia) ltac:(lia)).
  destruct (shr _ _ _) as [r3 e3]. cbn [fst snd] in Hs. destruct Hs as [Hr3 ->].
  replace (e2 + (fexp_lo (Zdigits2 m2 + e2) - e2)) with (fexp_lo (Zdigits2 m2 + e2)) by lia.
  pose proof (zdigits_div m2 (fexp_lo (Zdigits2 m2 + e2) - e2) ltac:(lia) ltac:(lia)) as Hd3.
  rewrite <- Hr3 in Hd3. exists (fexp_lo (Zdigits2 m2 + e2)), (shr_m r3).
  assert (0 <= shr_m r3) as Hp3 by (rewrite Hr3; apply Z.div_pos; lia).
  split_and!; [done|done|done|lia|unfold fexp_lo in *; lia|].
  rewrite Hr3. destruct (decide (fexp_lo (Zdigits2 m2 + e2) - e2 = 0)) as [->|Hk].
  { rewrite Z.div_1_r. lia. }
  replace (fexp_lo (Zdigits2 m2 + e2) - e2) with 1 by lia.
  rewrite Hc by (unfold fexp_lo in *; lia).
  replace (Zdigits2 (shr_m r1)) with (Zdigits2 (shr_m r1) - 1 + 1) by lia.
  rewrite Z.pow_add_r by (unfold fexp_lo in *; lia). change (2 ^ 1) with 2.
  by rewrite Z.div_mul.
Qed.

Lemma round_aux_spec s m e l :
  0 <= m -> e <= fexp_lo (Zdigits2 m + e) ->
  rounded s (binary_round_aux prec64 emax64 s m e l).
Proof.
  intros Hm He.
  destruct (round_aux_value s m e l Hm He) as (r & e3 & m3 & _ & -> & Hm3 & _ & Hc & _).
  destruct m3 as [|p|p]; simpl; [done| |lia]. case_match; [|done].
  split; [|done]. unfold fvalid, valid_binary, bounded, canonical_mantissa.
  apply andb_true_iff. split; [|done]. apply Z.eqb_eq. by rewrite fexp_eq.
Qed.

Lemma rounded_nonneg x : rounded false x -> fvalid x /\ nonneg x = true.
Proof. intros [Hv Hs]. split; [done|]. destruct x; by subst. Qed.

Lemma fvalid_finite s m e :
  fvalid (S754_finite s m e) <-> fexp_lo (Zpos (digits2_pos m) + e) = e /\ e <= 971.
Proof.
  unfold fvalid, valid_binary, bounded, canonical_mantissa.
  rewrite andb_true_iff, Z.eqb_eq, Z.leb_le. by rewrite fexp_eq.
Qed.

Lemma binary_round_spec s m e : rounded s (binary_round prec64 emax64 s m e).
Proof.
  unfold binary_round, shl_align. rewrite fexp_eq.
  destruct (fexp_lo (Zpos (digits2_pos m) + e) - e) as [|d|d] eqn:E;
    apply round_aux_spec; try lia; cbn [Zdigits2]; try lia.
  rewrite digits2_iter_xO. unfold fexp_lo in *. lia.
Qed.

Lemma normalize_nonneg n e : 0 <= n -> rounded false (binary_normalize prec64 emax64 n e false).
Proof. destruct n; intros; simpl; [done|apply binary_round_spec|lia]. Qed.

Lemma f64_of_Z_nonneg n : 0 <= n -> fvalid (f64_of_Z n) /\ nonneg (f64_of_Z n) = true.
Proof. intros. by apply rounded_nonneg, normalize_nonneg. Qed.

Lemma shl_align_mant m e ez : ez <= e -> Zpos (fst (shl_align m e ez)) = Zpos m * 2 ^ (e - ez).
Proof.
  intros He. unfold shl_align. destruct (ez - e) as [|d|d] eqn:E; simpl; [|lia|].
  - replace (e - ez) with 0 by lia. simpl. lia.
  - rewrite iter_xO. do 2 f_equal. lia.
Qed.

(** ** Sums, differences, products, quotients *)

Lemma fadd_nonneg x y :
  fvalid x -> fvalid y -> nonneg x = true -> nonneg y = true ->
  fvalid (fadd x y) /\ nonneg (fadd x y) = true.
Proof.
  intros Hx Hy Nx Ny. destruct x as [[]|[]| |[]], y as [[]|[]| |[]]; try done.
  apply rounded_nonneg. unfold fadd, SFadd. apply normalize_nonneg. simpl. lia.
Qed.

(** Canonical floats compare as the integers they denote. *)
Lemma fle_mant m e m' e' ez :
  fvalid (S754_finite false m e) -> fvalid (S754_finite false m' e') ->
  ez <= e -> ez <= e' ->
  fle (S754_finite false m e) (S754_finite false m' e') = true ->
  Zpos m * 2 ^ (e - ez) <= Zpos m' * 2 ^ (e' - ez).
Proof.
  rewrite !fvalid_finite. intros [H1 _] [H2 _] L1 L2 Hle.
  unfold fle, SFleb, SFcompare in Hle. change (Pos.compare_cont Eq m m') with (Pos.compare m m') in Hle.
  destruct (Z.compare_spec e e') as [->|Hlt|Hgt]; [..|done].
  - apply Z.mul_le_mono_nonneg_r; [apply Z.pow_nonneg; lia|].
    destruct (Pos.compare_spec m m'); try done; lia.
  - assert (Zpos m < 2 ^ 53) by (apply (zdigits_le (Zpos m)); [lia..|]; cbn [Zdigits2];
      unfold fexp_lo in H1; lia).
    assert (2 ^ (53 - 1) <= Zpos m') by (apply (zdigits_ge (Zpos m') 53); [lia..|];
      cbn [Zdigits2]; unfold fexp_lo in *; lia).
    replace (e' - ez) with (1 + (e - ez) + (e' - e - 1)) by lia.
    rewrite !Z.pow_add_r by lia.
    assert (0 < 2 ^ (e - ez)) by (apply Z.pow_pos_nonneg; lia).
    assert (0 < 2 ^ (e' - e - 1)) by (apply Z.pow_pos_nonneg; lia).
    apply Z.le_trans with (2 ^ 53 * 2 ^ (e - ez)); [nia|].
    replace (2 ^ 53) with (2 ^ (53 - 1) * 2) by lia.
    apply Z.le_trans with (Zpos m' * 2 * 2 ^ (e - ez)); [nia|].
    change (2 ^ 1) with 2. nia.
Qed.

Lemma fsub_nonneg x y :
  fvalid x -> fvalid y -> nonneg y = true -> is_inf y = false -> fge x y = true ->
  fvalid (fsub x y) /\ nonneg (fsub x y) = true.
Proof.
  unfold fge. intros Hx Hy Ny Iy Hge.
  destruct x as [[]|[]| |[] m e], y as [[]|[]| |[] m' e']; try done.
  apply rounded_nonneg. unfold fsub, SFsub. apply normalize_nonneg. simpl cond_Zopp.
  rewrite !shl_align_mant by lia.
  pose proof (fle_mant m' e' m e (Z.min e e') Hy Hx ltac:(lia) ltac:(lia) Hge). lia.
Qed.

Lemma zdigits_mul a b : 0 < a -> 0 < b -> Zdigits2 a + Zdigits2 b - 1 <= Zdigits2 (a * b).
Proof.
  intros. rewrite !zdigits_log2 by lia. pose proof (Z.log2_mul_below a b). lia.
Qed.

Lemma fmul_nonneg x y :
  fvalid x -> fvalid y -> nonneg x = true -> nonneg y = true ->
  is_inf x = false -> is_inf y = false ->
  fvalid (fmul x y) /\ nonneg (fmul x y) = true.
Proof.
  intros Hx Hy Nx Ny Ix Iy. destruct x as [[]|[]| |[] m e], y as [[]|[]| |[] m' e']; try done.
  apply rounded_nonneg. unfold fmul, SFmul. simpl xorb. apply round_aux_spec; [lia|].
  apply fvalid_finite in Hx as [Hx _], Hy as [Hy _].
  pose proof (zdigits_mul (Zpos m) (Zpos m')) as Hd. cbn [Zdigits2] in Hd.
  change (Zdigits2 (Zpos (m * m'))) with (Zdigits2 (Zpos m * Zpos m')).
  simpl Z.mul in *. unfold fexp_lo in *. lia.
Qed.

(** The quotient the division of mantissas computes, before it is rounded. *)
Lemma fdiv_core_bound m e m' e' :
  let '(q, e1, _) := SFdiv_core_binary prec64 emax64 (Zpos m) e (Zpos m') e' in
  0 <= q /\ e1 <= fexp_lo (Zdigits2 q + e1) /\ Zdigits2 q + e1 <= Zdigits2 (Zpos m) + (e - e').
Proof.
  unfold SFdiv_core_binary. rewrite fexp_eq. set (e1 := Z.min _ _). cbn [Zdigits2] in e1.
  assert (0 <= e - e' - e1) as Hs by lia.
  assert (match e - e' - e1 with Z0 => Zpos m | Zpos _ => Zpos m ≪ (e - e' - e1) | Zneg _ => 0 end
          = Zpos m * 2 ^ (e - e' - e1)) as ->.
  { destruct (e - e' - e1) eqn:E; [lia|by rewrite Z.shiftl_mul_pow2 by lia|lia]. }
  pose proof (Z_div_mod (Zpos m * 2 ^ (e - e' - e1)) (Zpos m') ltac:(lia)) as Hdm.
  destruct (Z.div_eucl _ _) as [q r]. destruct Hdm as [Hq Hr].
  assert (0 < 2 ^ (e - e' - e1)) by (apply Z.pow_pos_nonneg; lia).
  assert (0 <= q) as Hq0 by nia.
  set (d := Zpos (digits2_pos m) + (e - e' - e1) - Zpos (digits2_pos m')).
  assert (d <= Zdigits2 q) as Hd.
  { destruct (decide (d <= 0)); [pose proof (zdigits_nonneg q); lia|].
    apply zdigits_ge; [lia..|].
    assert (2 ^ (Zpos (digits2_pos m) - 1) <= Zpos m) by (apply (zdigits_ge (Zpos m)); simpl; lia).
    assert (Zpos m' < 2 ^ Zpos (digits2_pos m')) by (apply (zdigits_le (Zpos m')); simpl; lia).
    apply Z.lt_succ_r. apply (Z.mul_lt_mono_pos_r (Zpos m')); [lia|].
    apply Z.le_lt_trans with (Zpos m * 2 ^ (e - e' - e1)); [|nia].
    apply Z.le_trans with (2 ^ (d - 1) * 2 ^ Zpos (digits2_pos m')).
    { apply Z.mul_le_mono_nonneg_l; [apply Z.pow_nonneg|]; lia. }
    rewrite <- Z.pow_add_r by lia.
    replace (d - 1 + Zpos (digits2_pos m')) with (Zpos (digits2_pos m) - 1 + (e - e' - e1)) by lia.
    rewrite Z.pow_add_r by lia. apply Z.mul_le_mono_nonneg_r; lia. }
  split_and!; [done|unfold d, e1, fexp_lo in *; lia|].
  assert (Zdigits2 q <= Zdigits2 (Zpos m) + (e - e' - e1)); [|lia].
  apply zdigits_le; [done|pose proof (zdigits_nonneg (Zpos m)); lia|].
  assert (Zpos m < 2 ^ Zdigits2 (Zpos m)) by (apply zdigits_le; [lia|apply zdigits_nonneg|lia]).
  pose proof (zdigits_nonneg (Zpos m)). rewrite Z.pow_add_r by lia. nia.
Qed.

Lemma fdiv_nonneg x y :
  fvalid x -> fvalid y -> nonneg x = true -> fgt y f64_zero = true ->
  is_inf x = false ->
  fvalid (fdiv x y) /\ nonneg (fdiv x y) = true.
Proof.
  unfold fgt. intros Hx Hy Nx Py Ix.
  destruct x as [[]|[]| |[] m e], y as [[]|[]| |[] m' e']; try done.
  apply rounded_nonneg. unfold fdiv, SFdiv. pose proof (fdiv_core_bound m e m' e') as H.
  destruct (SFdiv_core_binary _ _ _ _ _ _) as [[q e1] l]. destruct H as (H1 & H2 & _). by apply round_aux_spec.
Qed.

(** ** Rounding is bounded by representable values *)

Lemma fle_mant_lt m e m' e' ez :
  fexp_lo (Zpos (digits2_pos m) + e) = e -> fexp_lo (Zpos (digits2_pos m') + e') = e' ->
  ez <= e -> e < e' -> Zpos m * 2 ^ (e - ez) < Zpos m' * 2 ^ (e' - ez).
Proof.
  intros H1 H2 Hez Hlt.
  assert (Zpos m < 2 ^ 53) by (apply (zdigits_le (Zpos m)); [lia..|]; cbn [Zdigits2];
    unfold fexp_lo in H1; lia).
  assert (2 ^ (53 - 1) <= Zpos m') by (apply (zdigits_ge (Zpos m') 53); [lia..|];
    cbn [Zdigits2]; unfold fexp_lo in *; lia).
  replace (e' - ez) with (1 + (e - ez) + (e' - e - 1)) by lia.
  rewrite !Z.pow_add_r by lia.
  assert (0 < 2 ^ (e - ez)) by (apply Z.pow_pos_nonneg; lia).
  assert (0 < 2 ^ (e' - e - 1)) by (apply Z.pow_pos_nonneg; lia).
  apply Z.lt_le_trans with (2 ^ 53 * 2 ^ (e - ez)); [nia|].
  replace (2 ^ 53) with (2 ^ (53 - 1) * 2) by lia.
  apply Z.le_trans with (Zpos m' * 2 * 2 ^ (e - ez)); [nia|].
  change (2 ^ 1) with 2. nia.
Qed.

Lemma fle_of_mant m e m' e' ez :
  fexp_lo (Zpos (digits2_pos m) + e) = e -> fexp_lo (Zpos (digits2_pos m') + e') = e' ->
  ez <= e -> ez <= e' -> Zpos m * 2 ^ (e - ez) <= Zpos m' * 2 ^ (e' - ez) ->
  e <= e' /\ fle (S754_finite false m e) (S754_finite false m' e') = true.
Proof.
  intros H1 H2 L1 L2 Hle. unfold fle, SFleb, SFcompare.
  change (Pos.compare_cont Eq m m') with (Pos.compare m m').
  destruct (Z.compare_spec e e') as [->|Hlt|Hgt].
  - split; [done|]. assert (Zpos m <= Zpos m').
    { apply (Z.mul_le_mono_pos_r _ _ (2 ^ (e' - ez))); [apply Z.pow_pos_nonneg; lia|done]. }
    destruct (Pos.compare_spec m m'); try done; lia.
  - split; [lia|done].
  - pose proof (fle_mant_lt m' e' m e ez H2 H1 L2 Hgt). lia.
Qed.

Lemma shr_exact m p : (2 ^ Zpos p | m) -> 0 <= m ->
  iter_pos shr_1 p (Build_shr_record m false false) = Build_shr_record (m / 2 ^ Zpos p) false false.
Proof.
  intros [q ->] Hm. rewrite Z.div_mul by lia.
  assert (0 < 2 ^ Zpos p) by (apply Z.pow_pos_nonneg; lia).
  destruct q as [|q|q]; [| |lia].
  - clear. induction p as [|p IH] using Pos.peano_ind; [done|]. by rewrite iter_pos_succ.
  - rewrite <- iter_xO. apply shr_iter_xO.
Qed.

(** Rounding an integer to nearest never goes past its ceiling. *)
Lemma round_ceiling m e n :
  0 <= m -> 0 <= n ->
  let r := fst (shr (shr_record_of_loc m loc_Exact) e n) in
  forall N, m <= N * 2 ^ n -> round_nearest_even (shr_m r) (loc_of_shr_record r) <= N.
Proof.
  intros Hm Hn r N HN. pose proof (shr_spec (shr_record_of_loc m loc_Exact) e n Hm Hn) as [Hr _].
  fold r in Hr. rewrite shr_record_m in Hr.
  assert (0 < 2 ^ n) by (apply Z.pow_pos_nonneg; lia).
  destruct (decide (m mod 2 ^ n = 0)) as [Hd|Hd].
  - assert (loc_of_shr_record r = loc_Exact) as ->.
    { unfold r, shr. destruct n as [|p|p]; [done| |lia]. simpl shr_record_of_loc.
      simpl fst. rewrite shr_exact; [done|by apply Z.mod_divide; [lia|]|done]. }
    simpl. rewrite Hr. apply Z.div_le_upper_bound; lia.
  - pose proof (round_nearest_even_bounds (shr_m r) (loc_of_shr_record r)).
    pose proof (Z.div_mod m (2 ^ n) ltac:(lia)). pose proof (Z.mod_pos_bound m (2 ^ n)).
    assert (m / 2 ^ n < N) by nia. lia.
Qed.

Lemma fexp_lo_mono a b : a <= b -> fexp_lo a <= fexp_lo b.
Proof. unfold fexp_lo. lia. Qed.

Lemma zdigits_mono a b : 0 <= a <= b -> Zdigits2 a <= Zdigits2 b.
Proof.
  intros H. apply zdigits_le; [lia|apply zdigits_nonneg|].
  apply Z.le_lt_trans with b; [lia|]. apply zdigits_le; [lia|apply zdigits_nonneg|lia].
Qed.

Lemma zdigits_shift a k : 0 < a -> 0 <= k -> Zdigits2 (a * 2 ^ k) = Zdigits2 a + k.
Proof.
  intros Ha Hk. assert (0 < 2 ^ k) by (apply Z.pow_pos_nonneg; lia).
  rewrite !zdigits_log2 by nia. rewrite Z.log2_mul_pow2; lia.
Qed.

(** A value [n * 2^ez] not above the float [m * 2^e] is rounded to one not above it. *)
Lemma round_aux_le n ez m e :
  fvalid (S754_finite false m e) -> 0 <= n -> ez <= e -> ez <= fexp_lo (Zdigits2 n + ez) ->
  n <= Zpos m * 2 ^ (e - ez) ->
  fle (binary_round_aux prec64 emax64 false n ez loc_Exact) (S754_finite false m e) = true.
Proof.
  intros Hv Hn Hez Hfe Hle. apply fvalid_finite in Hv as [Hc Hmax].
  assert (fexp_lo (Zdigits2 n + ez) <= e) as He2.
  { rewrite <- Hc. apply fexp_lo_mono. pose proof (zdigits_mono _ _ (conj Hn Hle)) as Hd.
    rewrite zdigits_shift in Hd by lia. cbn [Zdigits2] in Hd. lia. }
  destruct (round_aux_value false n ez loc_Exact Hn Hfe) as (r & e3 & m3 & Hr & -> & Hm3 & He3 & Hc3 & Hv3).
  set (e2 := fexp_lo (Zdigits2 n + ez)) in *.
  assert (m3 * 2 ^ (e3 - e2) <= Zpos m * 2 ^ (e - e2)) as Hmm.
  { rewrite Hv3. unfold shr_fexp in Hr. rewrite fexp_eq in Hr. fold e2 in Hr.
    pose proof (round_ceiling n ez (e2 - ez) Hn ltac:(lia)) as Hrc. rewrite Hr in Hrc. cbn [fst] in Hrc.
    apply Hrc. rewrite <- Z.mul_assoc, <- Z.pow_add_r by lia.
    by replace (e - e2 + (e2 - ez)) with (e - ez) by lia. }
  destruct m3 as [|p|p]; [done| |lia]. simpl.
  destruct (fle_of_mant p e3 m e e2 Hc3 Hc He3 He2 Hmm) as [Hle3 Hf].
  destruct (Z.leb_spec e3 (emax64 - prec64)); [done|]. unfold emax64, prec64 in *. lia.
Qed.

Lemma fsub_le x y :
  fvalid x -> fvalid y -> nonneg y = true -> is_inf y = false -> fge x y = true ->
  fle (fsub x y) x = true.
Proof.
  unfold fge. intros Hx Hy Ny Iy Hge.
  destruct x as [[]|[]| |[] m e], y as [[]|[]| |[] m' e']; try done.
  1, 2: by apply fle_refl.
  - unfold fsub, SFsub. simpl cond_Zopp. rewrite !shl_align_mant by lia.
    pose proof (fle_mant m' e' m e (Z.min e e') Hy Hx ltac:(lia) ltac:(lia) Hge) as Hm.
    assert (0 < 2 ^ (e' - Z.min e e')) by (apply Z.pow_pos_nonneg; lia).
    destruct (Zpos m * _ - Zpos m' * _) as [|n|n] eqn:E; [done| |lia]. simpl binary_normalize.
    unfold binary_round, shl_align. rewrite fexp_eq.
    set (ez := Z.min e e') in *.
    destruct (fexp_lo (Zpos (digits2_pos n) + ez) - ez) as [|d|d] eqn:Ed.
    1, 2: apply round_aux_le; [done|lia|lia|cbn [Zdigits2]; lia|nia].
    apply round_aux_le; [done|lia|lia| |].
    + cbn [Zdigits2]. rewrite digits2_iter_xO. unfold fexp_lo in *. lia.
    + rewrite iter_xO. replace (e - fexp_lo _) with (e - ez + Zpos d) by lia.
      rewrite Z.pow_add_r by lia. assert (0 < 2 ^ Zpos d) by (apply Z.pow_pos_nonneg; lia). nia.
Qed.

Lemma fmul_pos x y :
  fvalid x -> fvalid y -> flt f64_zero x = true -> flt f64_zero y = true ->
  fvalid (fmul x y) /\ nonneg (fmul x y) = true.
Proof.
  intros Hx Hy Px Py. destruct x as [[]|[]| |[]], y as [[]|[]| |[]]; try done.
  by apply fmul_nonneg.
Qed.

Lemma f64_of_Z_finite n : 0 <= n < 2 ^ 53 -> is_inf (f64_of_Z n) = false.
Proof. intros Hn. destruct n; [done| |lia]. by rewrite f64_of_Z_exact by lia. Qed.

Lemma f64_of_Z_le a b : 0 <= a <= b -> b < 2 ^ 53 -> fle (f64_of_Z a) (f64_of_Z b) = true.
Proof.
  intros Hab Hb. apply flt_false_fle.
  - by apply nonneg_not_nan, f64_of_Z_nonneg; lia.
  - by apply nonneg_not_nan, f64_of_Z_nonneg; lia.
  - rewrite flt_of_Z by lia. apply Z.ltb_ge. lia.
Qed.

#[export] Hint Resolve fadd_nonneg fsub_nonneg fmul_pos nonneg_not_nan : golib.
