(* ===== verification/GoDuration.v ===== *)
(** * Durations as numbers ([time.Duration])

    [Seconds], [Round] and the conversion of scaled durations through binary64, with what their
    callers need: whole seconds convert exactly, and scaling by a power of two is exact until it
    leaves the range of an [int64], from where the conversion gives the least [int64] (amd64). *)

From Stdlib Require Import SpecFloat.
From S2P Require Import Prelude GoTime GoFloat GoFloatSign.

(** [time.Duration.Seconds]. *)
Definition Seconds (d : Duration) : float64 :=
  fadd (f64_of_Z (Z.quot d Second)) (fdiv (f64_of_Z (Z.rem d Second)) (f64_of_Z 1000000000)).

(** [d.Round(m)] for [0 < m]: half away from zero, the extremes of the type on overflow. *)
Definition Round (d m : Duration) : Duration :=
  let r := Z.rem d m in
  if d <? 0 then
    let r := - r in
    if r + r <? m then d + r else
    let d1 := wrap64 (d - m + r) in if d1 <? d then d1 else min_int64
  else
    if r + r <? m then d - r else
    let d1 := wrap64 (d + m - r) in if d <? d1 then d1 else max_int64.

(** ** Lemmas *)

Lemma Seconds_ok d : 0 <= d -> fvalid (Seconds d) /\ nonneg (Seconds d) = true.
Proof.
  intros Hd. unfold Seconds. rewrite Z.quot_div_nonneg, Z.rem_mod_nonneg by (unfold Second; lia).
  pose proof (Z.mod_pos_bound d Second ltac:(unfold Second; lia)) as Hm. unfold Second in *.
  destruct (f64_of_Z_nonneg (d / 1000000000)) as [? ?]; [apply Z.div_pos; lia|].
  destruct (f64_of_Z_nonneg (d mod 1000000000)) as [? ?]; [lia|].
  destruct (fdiv_nonneg (f64_of_Z (d mod 1000000000)) (f64_of_Z 1000000000)); try done.
  { apply f64_of_Z_finite. lia. }
  by apply fadd_nonneg.
Qed.

(** Whole seconds survive the conversion. *)
Lemma Seconds_whole n : 0 <= n < 2 ^ 53 -> f64_to_int64 (Seconds (n * Second)) = n.
Proof.
  intros Hn. unfold Seconds. rewrite Z.quot_mul, Z.rem_mul by done.
  change (fdiv (f64_of_Z 0) (f64_of_Z 1000000000)) with (S754_zero false).
  assert (fadd (f64_of_Z n) (S754_zero false) = f64_of_Z n) as ->.
  { destruct n as [|n|]; [done| |lia]. by rewrite f64_of_Z_exact by lia. }
  unfold f64_to_int64. rewrite f64_trunc_of_Z by done.
  rewrite bool_decide_eq_true_2; [done|]. unfold int64_ok, min_int64, max_int64, two63. lia.
Qed.

(** Rounding to seconds: a multiple of a second, at most half a second away. *)
Lemma Round_seconds d : 0 <= d <= max_int64 - Second ->
  exists n, Round d Second = n * Second /\ 0 <= n < 2 ^ 53 /\ d - Second / 2 <= n * Second <= d + Second / 2.
Proof.
  intros Hd. unfold Round. destruct (Z.ltb_spec d 0); [lia|]. rewrite Z.rem_mod_nonneg by (unfold Second; lia).
  pose proof (Z.mod_pos_bound d Second ltac:(done)) as Hm. pose proof (Z.div_mod d Second ltac:(done)) as E.
  assert (0 <= d / Second < 2 ^ 53 - 1) as Hq.
  { split; [apply Z.div_pos; unfold Second; lia|]. apply Z.div_lt_upper_bound; [done|]. unfold max_int64, two63, Second in *. lia. }
  change (Second / 2) with 500000000. unfold Second in *. set (r := d mod 1000000000) in *. set (q := d / 1000000000) in *.
  destruct (Z.ltb_spec (r + r) 1000000000); [exists q; lia|].
  rewrite wrap64_ok by (unfold int64_ok, min_int64, max_int64, two63 in *; lia).
  destruct (Z.ltb_spec d (d + 1000000000 - r)); [|lia]. exists (q + 1). lia.
Qed.

(** ** Scaling by a power of two *)

Lemma round_aux_overflow m e : Zpos (digits2_pos m) = 53 -> 971 < e ->
  binary_round_aux prec64 emax64 false (Zpos m) e loc_Exact = S754_infinity false.
Proof.
  intros Hm He. unfold binary_round_aux, shr_fexp. cbn [Zdigits2]. rewrite Hm.
  unfold fexp, emin, prec64, emax64 in *. replace (Z.max _ _ - e) with 0 by lia. simpl.
  rewrite Hm. replace (Z.max _ _ - e) with 0 by lia. simpl. destruct (Z.leb_spec e (1024 - 53)); [lia|done].
Qed.

Lemma math_Pow2_any k : 0 <= k ->
  SFldexp prec64 emax64 (f64_of_Z 1) k
  = if k <=? 1023 then S754_finite false (Pos.iter xO 1 52)%positive (k - 52) else S754_infinity false.
Proof.
  intros Hk. change (f64_of_Z 1) with (S754_finite false (Pos.iter xO 1 52)%positive (-52)).
  unfold SFldexp, binary_round, shl_align, fexp, emin, prec64, emax64.
  change (Zpos (digits2_pos (Pos.iter xO 1%positive 52%positive))) with 53.
  replace (Z.max _ _ - (-52 + k)) with 0 by lia. replace (-52 + k) with (k - 52) by lia.
  destruct (Z.leb_spec k 1023); [apply round_aux_canonical; [done|lia]|]. apply round_aux_overflow; [done|lia].
Qed.

Lemma fmul_pow2_overflow m e k :
  Zpos (digits2_pos m) = 53 -> 971 < e + k ->
  fmul (S754_finite false m e) (S754_finite false (Pos.iter xO 1 52)%positive (k - 52)) = S754_infinity false.
Proof.
  intros Hm He. unfold fmul, SFmul. simpl xorb.
  assert ((m * Pos.iter xO 1 52)%positive = Pos.iter xO m 52) as ->.
  { apply Pos2Z.inj. rewrite Pos2Z.inj_mul, !iter_xO. lia. }
  unfold binary_round_aux, shr_fexp at 1. cbn [Zdigits2]. rewrite digits2_iter_xO, Hm.
  unfold fexp at 1, emin, prec64, emax64. replace (Z.max _ _ - (e + (k - 52))) with 52 by lia.
  unfold shr, shr_record_of_loc. rewrite shr_iter_xO. cbn [shr_m loc_of_shr_record round_nearest_even].
  replace (e + (k - 52) + 52) with (e + k) by lia.
  pose proof (round_aux_overflow m (e + k) Hm He) as H. unfold binary_round_aux in H.
  unfold shr_fexp in *. cbn [Zdigits2] in *. rewrite Hm in *. unfold fexp, emin, prec64, emax64 in *.
  replace (Z.max _ _ - (e + k)) with 0 in * by lia. simpl in *.
  destruct (Z.leb_spec (e + k) (1024 - 53)); [lia|done].
Qed.

(** [int64(float64(n) * math.Pow(2, float64(k)))]: exact, or the least integer once it is too large. *)
Lemma scale_int64 n k : 0 < n < 2 ^ 53 -> 0 <= k < 2 ^ 53 ->
  f64_to_int64 (fmul (f64_of_Z n) (math_Pow2 (f64_of_Z k))) = if n * 2 ^ k <=? max_int64 then n * 2 ^ k else min_int64.
Proof.
  intros Hn Hk. destruct n as [|n|]; [lia| |lia]. assert (max_int64 < 2 ^ 63) as Hmax by done.
  assert (900 < k -> max_int64 < Zpos n * 2 ^ k) as Hbig.
  { intros Hb. apply Z.lt_le_trans with (2 ^ 63); [done|]. transitivity (2 ^ k); [apply Z.pow_le_mono_r; lia|].
    pose proof (Z.pow_pos_nonneg 2 k ltac:(lia) ltac:(lia)). nia. }
  unfold f64_to_int64. destruct (Z.le_gt_cases k 900) as [Hs|Hs].
  - rewrite f64_scale_exact by lia. pose proof (Z.pow_pos_nonneg 2 k ltac:(lia) ltac:(lia)).
    assert (0 < Zpos n * 2 ^ k) by nia. destruct (Z.leb_spec (Zpos n * 2 ^ k) max_int64);
      [rewrite bool_decide_eq_true_2|rewrite bool_decide_eq_false_2]; unfold int64_ok, min_int64, two63; (done || lia).
  - specialize (Hbig Hs). destruct (Z.leb_spec (Zpos n * 2 ^ k) max_int64); [lia|].
    pose proof (digits2_bound n 53 ltac:(lia) ltac:(lia)) as Hd. pose proof (Pos2Z.is_pos (digits2_pos n)).
    unfold math_Pow2. rewrite f64_trunc_of_Z, math_Pow2_any, f64_of_Z_exact by lia.
    destruct (Z.leb_spec k 1023); [|done].
    destruct (Z.le_gt_cases (Zpos (digits2_pos n) - 53 + k) 971).
    + rewrite fmul_pow2_exact; [|by apply norm_mant_spec|lia]. rewrite f64_trunc_norm by lia.
      rewrite bool_decide_eq_false_2; [done|]. unfold int64_ok. lia.
    + rewrite fmul_pow2_overflow; [done|by apply norm_mant_spec|lia].
Qed.
