(* ===== verification/Sha1.v ===== *)
(** * SHA-1

    [crypto/sha1.Sum] and [hex.EncodeToString], as the services use them for
    retry jitter and for content-derived keys.  Words are 32-bit, kept in [Z]
    with the wrap-around of their additions written out. *)

From Stdlib Require Import Ascii.
From S2P Require Import Prelude GoString.

Definition two32 : Z := 4294967296.
Definition add32 (a b : Z) : Z := (a + b) mod two32.
Definition rotl32 (n x : Z) : Z := Z.lor (Z.shiftl x n mod two32) (Z.shiftr x (32 - n)).
Definition not32 (x : Z) : Z := two32 - 1 - x.

Record sha_state := ShaState { sa : Z; sb : Z; sc : Z; sd : Z; se : Z }.

Definition sha_init : sha_state :=
  ShaState 0x67452301 0xEFCDAB89 0x98BADCFE 0x10325476 0xC3D2E1F0.

(** Big-endian 32-bit words of a byte list. *)
Fixpoint be_words (l : list Z) : list Z :=
  match l with
  | a :: b :: c :: d :: l' => (a * 16777216 + b * 65536 + c * 256 + d) :: be_words l'
  | _ => []
  end.

Definition be_bytes (n : nat) (z : Z) : list Z :=
  map (fun i => Z.shiftr z (8 * Z.of_nat i) mod 256) (rev (seq 0 n)).

(** Padding: 0x80, zeros up to 56 mod 64, and the bit length on eight bytes. *)
Definition sha_pad (msg : list Z) : list Z :=
  let n := Z.of_nat (length msg) in
  (msg ++ [128] ++ repeat 0 (Z.to_nat ((55 - n) mod 64)) ++ be_bytes 8 (8 * n))%list.

(** Message schedule: the words so far, latest first, extended by [n] words. *)
Fixpoint schedule (n : nat) (w : list Z) : list Z :=
  match n with
  | O => w
  | S n' =>
    let g i := nth i w 0 in
    schedule n' (rotl32 1 (Z.lxor (Z.lxor (g 2%nat) (g 7%nat)) (Z.lxor (g 13%nat) (g 15%nat))) :: w)
  end.

Definition sha_f (t b c d : Z) : Z * Z :=
  if t <? 20 then (Z.lor (Z.land b c) (Z.land (not32 b) d), 0x5A827999) else
  if t <? 40 then (Z.lxor (Z.lxor b c) d, 0x6ED9EBA1) else
  if t <? 60 then (Z.lor (Z.lor (Z.land b c) (Z.land b d)) (Z.land c d), 0x8F1BBCDC) else
  (Z.lxor (Z.lxor b c) d, 0xCA62C1D6).

Fixpoint sha_rounds (t : Z) (w : list Z) (s : sha_state) : sha_state :=
  match w with
  | [] => s
  | wt :: w' =>
    let '(f, k) := sha_f t (sb s) (sc s) (sd s) in
    let tmp := add32 (add32 (add32 (rotl32 5 (sa s)) f) (add32 (se s) k)) wt in
    sha_rounds (t + 1) w' (ShaState tmp (sa s) (rotl32 30 (sb s)) (sc s) (sd s))
  end.

Definition sha_block (s : sha_state) (block : list Z) : sha_state :=
  let w := rev (schedule 64 (rev (be_words block))) in
  let s' := sha_rounds 0 w s in
  ShaState (add32 (sa s) (sa s')) (add32 (sb s) (sb s')) (add32 (sc s) (sc s'))
           (add32 (sd s) (sd s')) (add32 (se s) (se s')).

Fixpoint sha_blocks (fuel : nat) (msg : list Z) (s : sha_state) : sha_state :=
  match fuel, msg with
  | S n, _ :: _ => sha_blocks n (drop 64 msg) (sha_block s (take 64 msg))
  | _, _ => s
  end.

(** [sha1.Sum]: 20 bytes. *)
Definition sha1_Sum (s : string) : list Z :=
  let msg := sha_pad (map Z_of_byte (to_bytes s)) in
  let st := sha_blocks (length msg) msg sha_init in
  (be_bytes 4 (sa st) ++ be_bytes 4 (sb st) ++ be_bytes 4 (sc st)
   ++ be_bytes 4 (sd st) ++ be_bytes 4 (se st))%list.

Definition hex_digit (n : Z) : ascii := byte_of_Z (if n <? 10 then 48 + n else 87 + n).

(** [hex.EncodeToString]. *)
Definition hex_EncodeToString (l : list Z) : string :=
  of_bytes (flat_map (fun b => [hex_digit (b / 16); hex_digit (b mod 16)]) l).

(** FIPS 180 test vectors: one block, two blocks, the empty message. *)
Example sha1_abc :
  hex_EncodeToString (sha1_Sum "abc") = "a9993e364706816aba3e25717850c26c9cd0d89d".
Proof. vm_compute. reflexivity. Qed.
Example sha1_two_blocks :
  hex_EncodeToString (sha1_Sum "abcdbcdecdefdefgefghfghighijhijkijkljklmklmnlmnomnopnopq")
  = "84983e441c3bd26ebaae4aa1f95129e5e54670f1".
Proof. vm_compute. reflexivity. Qed.
Example sha1_empty :
  hex_EncodeToString (sha1_Sum "") = "da39a3ee5e6b4b0d3255bfef95601890afd80709".
Proof. vm_compute. reflexivity. Qed.

Lemma sha1_Sum_length s : length (sha1_Sum s) = 20%nat.
Proof. unfold sha1_Sum. rewrite !length_app. done. Qed.

Lemma sha1_Sum_bytes s : Forall (fun b => 0 <= b < 256) (sha1_Sum s).
Proof.
  unfold sha1_Sum. repeat (apply Forall_app; split); unfold be_bytes;
    apply Forall_forall; intros b Hb; apply list_elem_of_fmap in Hb as (i & -> & _);
    apply Z.mod_pos_bound; lia.
Qed.

Lemma hex_EncodeToString_ne l : l <> [] -> hex_EncodeToString l <> "".
Proof. by destruct l. Qed.
