(* ===== verification/GoError.v ===== *)
(** * Go error values

    An [error] is a chain: plain errors, package-level sentinels compared by
    identity, [fmt.Errorf] with one [%w], [context]'s two errors, [net.Error]s
    and the scheduler's [ExecutionError].  [Error], [errors.Is] and [errors.As]
    walk the chain the way the standard library does. *)

From S2P Require Import Prelude GoString.

(** [ratelimit.FailureKind] and [hardening.ErrorType] are string types. *)
Abbreviation FailureKind := string (only parsing).

Inductive error : Type :=
| ErrorString (msg : string)
| Sentinel (name msg : string)
| WrapError (prefix : string) (inner : error) (suffix : string)
| DeadlineExceeded
| Canceled
| NetError (timeout : bool) (msg : string)
| ExecutionError (kind : FailureKind) (recoverable : bool) (inner : option error).

(** The sentinels of the services. *)
Definition ErrSymbolNotFound : error := Sentinel "ErrSymbolNotFound" "symbol not found".
Definition ErrEndpointUnavailable : error := Sentinel "ErrEndpointUnavailable" "endpoint unavailable".
Definition ErrEndpointInactive : error := Sentinel "ErrEndpointInactive" "endpoint is inactive".
Definition ErrUnsupportedDataType : error := Sentinel "ErrUnsupportedDataType" "unsupported data type".
Definition ErrExchangeResponse : error := Sentinel "ErrExchangeResponse" "exchange response error".
Definition ErrNoExecutor : error := Sentinel "ErrNoExecutor" "no executor for data type".
Definition ErrNotFound : error := Sentinel "ErrNotFound" "not found".

(** [err.Error()]. *)
Fixpoint Error (e : error) : string :=
  match e with
  | ErrorString m | Sentinel _ m | NetError _ m => m
  | WrapError p i s => p +:+ Error i +:+ s
  | DeadlineExceeded => "context deadline exceeded"
  | Canceled => "context canceled"
  | ExecutionError k _ None => k
  | ExecutionError _ _ (Some i) => Error i
  end.

Definition Unwrap (e : error) : option error :=
  match e with
  | WrapError _ i _ => Some i
  | ExecutionError _ _ i => i
  | _ => None
  end.

(** The errors of the chain, outermost first. *)
Fixpoint chain (e : error) : list error :=
  e :: match e with
       | WrapError _ i _ => chain i
       | ExecutionError _ _ (Some i) => chain i
       | _ => []
       end.

(** Identity with a comparable target: a sentinel or one of [context]'s errors. *)
Definition same_error (target e : error) : bool :=
  match target, e with
  | DeadlineExceeded, DeadlineExceeded => true
  | Canceled, Canceled => true
  | Sentinel n _, Sentinel n' _ => (n =? n')%string
  | _, _ => false
  end.

(** [errors.Is(err, target)]. *)
Definition errors_Is (e target : error) : bool := existsb (same_error target) (chain e).

(** [errors.As(err, &execErr)]: the first [ExecutionError] of the chain. *)
Definition as_execution_error (e : error) : option (FailureKind * bool) :=
  head (omap (fun x => match x with ExecutionError k r _ => Some (k, r) | _ => None end) (chain e)).

(** [errors.As(err, &netErr)]: the first [net.Error]; [context.DeadlineExceeded] is
    one too, with [Timeout() == true]. *)
Definition as_net_error (e : error) : option bool :=
  head (omap (fun x => match x with
                       | NetError t _ => Some t
                       | DeadlineExceeded => Some true
                       | _ => None
                       end) (chain e)).

Lemma chain_unwrap e i : Unwrap e = Some i -> chain e = e :: chain i.
Proof. destruct e; simpl; intros; simplify_eq; done. Qed.

(** Wrapping never hides an error from [errors.Is]. *)
Lemma errors_Is_unwrap e i t : Unwrap e = Some i -> errors_Is i t = true -> errors_Is e t = true.
Proof.
  intros Hu Hi. unfold errors_Is in *. rewrite (chain_unwrap _ _ Hu). simpl.
  rewrite Hi. apply orb_true_r.
Qed.

Lemma as_execution_error_here k r i : as_execution_error (ExecutionError k r i) = Some (k, r).
Proof. done. Qed.
