(* ===== verification/GoOutcome.v ===== *)
(** * Calls that may panic

    A Go call that can also panic (an index out of range, a nil pointer): its outcome, the monad of
    outcomes, and what follows from an outcome about the steps of a sequence. *)

From S2P Require Import Prelude GoError.

(** ** Outcomes

    A call returns a value, returns an error, or panics on an index out of range or a nil
    pointer (nothing in the services recovers). *)
Inductive outcome (A : Type) : Type :=
| Value (a : A)
| Fail (e : error)
| Panic.
Arguments Value {A}. Arguments Fail {A}. Arguments Panic {A}.

#[export] Instance outcome_ret : MRet outcome := fun A a => Value a.
#[export] Instance outcome_bind : MBind outcome := fun A B k m =>
  match m with Value a => k a | Fail e => Fail e | Panic => Panic end.

Lemma bind_Value {A B} (k : A -> outcome B) m b : m ≫= k = Value b -> exists a, m = Value a /\ k a = Value b.
Proof. destruct m; try done. by eexists. Qed.
Lemma bind_Panic {A B} (k : A -> outcome B) m : m ≫= k = Panic -> m = Panic \/ exists a, m = Value a /\ k a = Panic.
Proof. destruct m; try done; eauto. Qed.
Lemma Value_bind {A B} (k : A -> outcome B) a : Value a ≫= k = k a.
Proof. done. Qed.

(** Peel the binds of a hypothesis that says a computation returned a value. *)
Ltac inv_value :=
  repeat match goal with
  | H : (_ ≫= _) = Value _ |- _ => let x := fresh "x" in apply bind_Value in H as [x [? H]]
  | H : mret _ = Value _ |- _ => injection H as H; try subst
  | H : Value _ = Value _ |- _ => injection H as H; try subst
  | H : Fail _ = Value _ |- _ => discriminate H
  | H : Panic = Value _ |- _ => discriminate H
  | H : (match ?l with [] => _ | _ :: _ => _ end) = Value _ |- _ => destruct l eqn:?
  | H : (let '(_, _) := ?p in _) = Value _ |- _ => destruct p eqn:?
  | H : (match ?o with Some _ => _ | None => _ end) = Value _ |- _ => destruct o eqn:?
  | H : (if ?b then _ else _) = Value _ |- _ => destruct b eqn:?
  end.

(** The same for one that says it panicked. *)
Ltac inv_panic :=
  repeat match goal with
  | H : (_ ≫= _) = Panic |- _ => let x := fresh "x" in apply bind_Panic in H as [H|[x [? H]]]
  | H : Fail _ = Panic |- _ => discriminate H
  | H : Value _ = Panic |- _ => discriminate H
  | H : mret _ = Panic |- _ => discriminate H
  | H : (if ?b then _ else _) = Panic |- _ => destruct b eqn:?
  end.

Lemma mapM_Value {A B} (f : B -> outcome A) items rs :
  mapM f items = Value rs -> Forall2 (fun i r => f i = Value r) items rs.
Proof.
  revert rs. induction items as [|i l IH]; simpl; intros rs Hr; inv_value; [constructor|].
  constructor; [done|]. by apply IH.
Qed.

Lemma bind_no_panic {A B} (m : outcome A) (k : A -> outcome B) : m <> Panic -> (forall a, k a <> Panic) -> m ≫= k <> Panic.
Proof. intros Hm Hk [?|[a [_ Ha]]]%bind_Panic; [done|]. by apply (Hk a). Qed.
Lemma value_no_panic {A} (a : A) : Value a <> Panic.
Proof. done. Qed.
Lemma fail_no_panic {A} e : @Fail A e <> Panic.
Proof. done. Qed.
Lemma ret_no_panic {A} (a : A) : (mret a : outcome A) <> Panic.
Proof. done. Qed.
Lemma if_no_panic {A} (b : bool) (m k : outcome A) : m <> Panic -> k <> Panic -> (if b then m else k) <> Panic.
Proof. by destruct b. Qed.

(** A loop panics exactly when one of its turns does, when no turn returns an error. *)
Lemma mapM_Panic {A B} (f : B -> outcome A) l :
  (forall i e, f i <> Fail e) -> mapM f l = Panic <-> Exists (fun i => f i = Panic) l.
Proof.
  intros Hf. rewrite Exists_exists. induction l as [|i l IH]; simpl; [by split; [|intros (?&?%not_elem_of_nil&?)]|].
  setoid_rewrite elem_of_cons. destruct (f i) as [a|e|] eqn:E.
  - transitivity (mapM f l = Panic); [by simpl; destruct (mapM f l)|]. rewrite IH. split.
    + intros (x & Hx & Hp). eauto.
    + intros (x & [->|Hx] & Hp); [congruence|eauto].
  - by destruct (Hf i e).
  - split; [|done]. eauto.
Qed.
