(* ===== verification/GoStrconv.v ===== *)
(** * Numbers from text ([strconv])

    [strconv.ParseFloat(s, 64)] with its value and its error (on a range error the value is an
    infinity and the error is set), and the errors of [strconv.ParseInt]. *)

From Stdlib Require Import Ascii.
From S2P Require Import Prelude GoString GoFloat GoFloatSign GoError.

(** ** Scanning *)

Definition byte_is (c : ascii) (z : Z) : bool := Z_of_byte c =? z.

(** An optional sign: whether it is a minus, and the rest. *)
Definition scan_sign (l : bytes) : bool * bytes :=
  match l with
  | c :: l' => if byte_is c 45 then (true, l') else if byte_is c 43 then (false, l') else (false, l)
  | [] => (false, [])
  end.

Definition hex_val (c : ascii) : option Z :=
  let z := Z_of_byte (lower_byte c) in
  if (48 <=? z) && (z <=? 57) then Some (z - 48) else
  if (97 <=? z) && (z <=? 102) then Some (z - 87) else None.

(** Digits of a base, with at most one point and with underscores passed over: the mantissa, the
    number of digits after the point, whether there was a digit, and the rest. *)
Record mantissa := MkMantissa { mt_value : Z; mt_frac : Z; mt_point : bool; mt_digits : bool; mt_rest : bytes }.

Fixpoint scan_mantissa (base : Z) (val : ascii -> option Z) (m frac : Z) (point digits : bool) (l : bytes) : mantissa :=
  match l with
  | [] => MkMantissa m frac point digits []
  | c :: l' =>
    if byte_is c 95 then scan_mantissa base val m frac point digits l' else
    if byte_is c 46 then
      if point then MkMantissa m frac point digits l else scan_mantissa base val m frac true digits l'
    else
      match val c with
      | Some d => scan_mantissa base val (base * m + d) (if point then frac + 1 else frac) point true l'
      | None => MkMantissa m frac point digits l
      end
  end.

(** The digits of an exponent; it stops growing at ten thousand. *)
Fixpoint scan_exponent (e : Z) (digits : bool) (l : bytes) : Z * bool * bytes :=
  match l with
  | [] => (e, digits, [])
  | c :: l' =>
    if byte_is c 95 then scan_exponent e digits l' else
    match digit_val c with
    | Some d => scan_exponent (if e <? 10000 then 10 * e + d else e) true l'
    | None => (e, digits, l)
    end
  end.

(** An exponent marked by the given lower-case letter: its value and the rest; [None] when the mark
    has no digits after it. *)
Definition scan_exp_part (mark : Z) (l : bytes) : option (option Z * bytes) :=
  match l with
  | c :: l' =>
    if byte_is (lower_byte c) mark then
      let '(neg, l1) := scan_sign l' in
      match l1 with
      | d :: _ =>
        match digit_val d with
        | None => None
        | Some _ => let '(e, _, rest) := scan_exponent 0 false l1 in Some (Some (if neg then - e else e), rest)
        end
      | [] => None
      end
    else Some (None, l)
  | [] => Some (None, [])
  end.

(** [underscoreOK]: underscores only between digits, or between a base prefix and a digit.  The
    state is the last thing seen: [^] the beginning, [0] a digit, [_] an underscore, [!] other. *)
Fixpoint underscores_ok (hex : bool) (last : Z) (l : bytes) : bool :=
  match l with
  | [] => negb (last =? 95)
  | c :: l' =>
    if bool_decide (is_Some (digit_val c)) || (hex && bool_decide (is_Some (hex_val c))) then underscores_ok hex 48 l' else
    if byte_is c 95 then if last =? 48 then underscores_ok hex 95 l' else false else
    if last =? 95 then false else underscores_ok hex 33 l'
  end.

Definition underscoreOK (l : bytes) : bool :=
  let l := snd (scan_sign l) in
  match l with
  | c0 :: c1 :: l' =>
    if byte_is c0 48 && (byte_is (lower_byte c1) 98 || byte_is (lower_byte c1) 111 || byte_is (lower_byte c1) 120)
    then underscores_ok (byte_is (lower_byte c1) 120) 48 l'
    else underscores_ok false 94 l
  | _ => underscores_ok false 94 l
  end.

(** ** [ParseFloat] *)

Definition fneg (s : bool) (x : float64) : float64 := if s then SFopp x else x.

(** [m * 2^e], correctly rounded, for a natural [m]. *)
Definition f64_scaled (m e : Z) : float64 := binary_normalize prec64 emax64 m e false.

Definition special (l : bytes) : option float64 :=
  let '(s, l') := scan_sign l in
  let word := ToLower (of_bytes l') in
  if (word =? "inf")%string || (word =? "infinity")%string then Some (S754_infinity s) else
  if (ToLower (of_bytes l) =? "nan")%string then Some S754_nan else None.

(** The absolute value a number denotes; [None] is a syntax error. *)
Definition parse_magnitude (l : bytes) : option float64 :=
  let hex := match l with c0 :: c1 :: _ :: _ => byte_is c0 48 && byte_is (lower_byte c1) 120 | _ => false end in
  if hex then
    let mt := scan_mantissa 16 hex_val 0 0 false false (drop 2 l) in
    if negb (mt_digits mt) then None else
    match scan_exp_part 112 (mt_rest mt) with
    | Some (Some e, []) => Some (f64_scaled (mt_value mt) (e - 4 * mt_frac mt))
    | _ => None
    end
  else
    let mt := scan_mantissa 10 digit_val 0 0 false false l in
    if negb (mt_digits mt) then None else
    match scan_exp_part 101 (mt_rest mt) with
    | Some (e, []) => Some (f64_dec (mt_value mt) (default 0 e - mt_frac mt))
    | _ => None
    end.

Definition num_error (fn s what : string) : error :=
  ErrorString ("strconv." +:+ fn +:+ ": parsing " +:+ Quote s +:+ ": " +:+ what).

Definition ParseFloat (s : string) : float64 * option error :=
  let l := to_bytes s in
  let syntax := (f64_zero, Some (num_error "ParseFloat" s "invalid syntax")) in
  match special l with
  | Some x => (x, None)
  | None =>
    let '(neg, l') := scan_sign l in
    match parse_magnitude l' with
    | None => syntax
    | Some x =>
      if existsb (fun c => byte_is c 95) l && negb (underscoreOK l) then syntax else
      (fneg neg x, if is_inf x then Some (num_error "ParseFloat" s "value out of range") else None)
    end
  end.

(** The errors of [strconv.ParseInt(s, 10, 64)] and [strconv.Atoi(s)] when they fail. *)
Definition int_error (fn s : string) : error :=
  let l := snd (scan_sign (to_bytes s)) in
  num_error fn s
    (if negb (bool_decide (l = [])) && bool_decide (is_Some (parse_digits 0 l)) then "value out of range" else "invalid syntax").
Definition ParseInt_error : string -> error := int_error "ParseInt".
Definition Atoi_error : string -> error := int_error "Atoi".

Example parse_float_1 : ParseFloat "1.5" = (f64_dec 15 (-1), None).
Proof. reflexivity. Qed.
Example parse_float_2 : fst (ParseFloat "-2.5e-3") = f64_dec (-25) (-4).
Proof. vm_compute. reflexivity. Qed.
Example parse_float_3 : fst (ParseFloat "0x1p-2") = f64_dec 25 (-2).
Proof. vm_compute. reflexivity. Qed.
Example parse_float_4 : fst (ParseFloat "1e400") = S754_infinity false /\ snd (ParseFloat "1e400") <> None.
Proof. split; [vm_compute; reflexivity|]. by vm_compute. Qed.
Example parse_float_5 : map (fun s => bool_decide (snd (ParseFloat s) = None)) ["1_000"; "_1"; "1__0"; "1."; "."; "1e"; "0x_1p0"; ".5"; "+Inf"; "nan"; "-nan"; "1 "]
  = [true; false; false; true; false; false; true; true; true; true; false; false].
Proof. vm_compute. reflexivity. Qed.
