(* ===== verification/Limiter.v ===== *)
(** * Rate limiter ([internal/ratelimit/limiter.go])

    A token bucket per exchange with a per-second and a per-minute budget, and
    the blocking [Wait] loop around it.  The clock, the random source and the
    context are inputs of every call: [now], a drawn number, and whether the
    context is done when the timer is waited on. *)

From S2P Require Import Prelude GoString GoTime GoFloat GoFloatSign GoDuration GoError.

(** ** Data *)

Record Key := MkKey { key_Exchange : string; key_Endpoint : string; key_DataType : string }.

(** [Key.String]. *)
Definition Key_String (k : Key) : string :=
  Join [norm (key_Exchange k); TrimSpace (key_Endpoint k); TrimSpace (key_DataType k)] ":".

Record Budget := MkBudget {
  RequestsPerSecond : float64;
  RequestsPerMinute : float64;
  Burst : Z;
  JitterMin : Duration;
  JitterMax : Duration
}.

Record bucket := MkBucket {
  budget : Budget;
  secondTokens : float64;
  minuteTokens : float64;
  lastRefill : Time
}.

(** The limiter's state: one bucket per configured exchange. *)
Definition Limiter : Type := gmap string bucket.

Definition NewLimiter : Limiter := ∅.

(** ** Bucket *)

Definition minFloat (a b : float64) : float64 := if flt a b then a else b.
Definition maxFloat (a b : float64) : float64 := if fgt a b then a else b.
Definition maxDuration (a b : Duration) : Duration := if a >? b then a else b.

Definition newBucket (b : Budget) (now : Time) : bucket :=
  let burst := f64_of_Z (Burst b) in
  MkBucket b burst (maxFloat (RequestsPerMinute b) burst) now.

Definition delayFor (missing refillPerSecond : float64) : Duration :=
  if fle missing f64_zero || fle refillPerSecond f64_zero then 0
  else f64_to_int64 (fmul (fdiv missing refillPerSecond) (f64_of_Z Second)).

Definition refill (b : bucket) (now : Time) : bucket :=
  if Before now (lastRefill b) then
    MkBucket (budget b) (secondTokens b) (minuteTokens b) now
  else
    let elapsed := Seconds (Sub now (lastRefill b)) in
    if fle elapsed f64_zero then b
    else
      let burst := f64_of_Z (Burst (budget b)) in
      let minuteBurst := maxFloat (RequestsPerMinute (budget b)) burst in
      MkBucket (budget b)
        (minFloat burst (fadd (secondTokens b) (fmul elapsed (RequestsPerSecond (budget b)))))
        (minFloat minuteBurst
           (fadd (minuteTokens b) (fmul elapsed (fdiv (RequestsPerMinute (budget b)) (f64_of_Z 60)))))
        now.

(** [if weight > b.budget.Burst { b.budget.Burst = weight }]. *)
Definition widen (b : bucket) (weight : Z) : bucket :=
  if weight >? Burst (budget b) then
    MkBucket
      (MkBudget (RequestsPerSecond (budget b)) (RequestsPerMinute (budget b)) weight
         (JitterMin (budget b)) (JitterMax (budget b)))
      (secondTokens b) (minuteTokens b) (lastRefill b)
  else b.

(** [bucket.reserve]: the new bucket and the delay. *)
Definition bucket_reserve (b : bucket) (now : Time) (weight : Z) : bucket * Duration :=
  let b := refill (widen b weight) now in
  let needed := f64_of_Z weight in
  if fge (secondTokens b) needed && fge (minuteTokens b) needed then
    (MkBucket (budget b) (fsub (secondTokens b) needed) (fsub (minuteTokens b) needed) (lastRefill b), 0)
  else
    let secondDelay := delayFor (fsub needed (secondTokens b)) (RequestsPerSecond (budget b)) in
    let minuteDelay := delayFor (fsub needed (minuteTokens b))
                         (fdiv (RequestsPerMinute (budget b)) (f64_of_Z 60)) in
    (b, maxDuration secondDelay minuteDelay).

(** ** Limiter *)

(** The budget [Configure] stores, with its defaults filled in. *)
Definition configure_budget (b : Budget) : Budget :=
  let rpm := if fle (RequestsPerMinute b) f64_zero
             then fmul (RequestsPerSecond b) (f64_of_Z 60) else RequestsPerMinute b in
  let burst := if Burst b <=? 0 then Z.max 1 (f64_to_int64 (RequestsPerSecond b)) else Burst b in
  let jmax := if JitterMax b <? JitterMin b then JitterMin b else JitterMax b in
  MkBudget (RequestsPerSecond b) rpm burst (JitterMin b) jmax.

Definition Configure (l : Limiter) (now : Time) (exchange : string) (b : Budget) : Limiter * option error :=
  let exchange := norm exchange in
  if (exchange =? "")%string then (l, Some (ErrorString "exchange is required")) else
  if fle (RequestsPerSecond b) f64_zero then
    (l, Some (ErrorString "requests per second must be greater than 0")) else
  (<[exchange := newBucket (configure_budget b) now]> l, None).

(** The jitter of a zero delay: [JitterMin] plus a draw below the span
    ([rand.Int63n(span)], any value in range: [draw mod span]). *)
Definition jitter_of (b : Budget) (delay : Duration) (draw : Z) : Duration :=
  if (delay =? 0) && (0 <? JitterMax b) then
    let span := wrap64 (JitterMax b - JitterMin b) in
    if 0 <? span then wrap64 (JitterMin b + draw mod span) else JitterMin b
  else 0.

(** [Limiter.reserve]. *)
Definition reserve (l : Limiter) (now : Time) (draw : Z) (exchange : string) (weight : Z)
    : Limiter * result error (Duration * Duration) :=
  match l !! exchange with
  | None => (l, Err (ErrorString ("rate limit budget for " +:+ exchange +:+ " is not configured")))
  | Some b =>
    let '(b', delay) := bucket_reserve b now weight in
    (<[exchange := b']> l, Ok (delay, jitter_of (budget b') delay draw))
  end.

(** One turn of the [Wait] loop: the clock and random draw the reserve sees, and
    the context's error when it is done before the timer fires. *)
Record turn := MkTurn { turn_now : Time; turn_draw : Z; turn_done : option error }.

Inductive wait_outcome :=
| WaitReturned (err : option error)
| WaitBlocked.

Fixpoint wait_loop (turns : list turn) (l : Limiter) (exchange : string) (weight : Z)
    : Limiter * wait_outcome :=
  match turns with
  | [] => (l, WaitBlocked)
  | t :: turns' =>
    let '(l', r) := reserve l (turn_now t) (turn_draw t) exchange weight in
    match r with
    | Err e => (l', WaitReturned (Some e))
    | Ok (delay, jitter) =>
      if wrap64 (delay + jitter) <=? 0 then (l', WaitReturned None)
      else match turn_done t with
           | Some e => (l', WaitReturned (Some e))
           | None => wait_loop turns' l' exchange weight
           end
    end
  end.

(** [Limiter.Wait] over the turns observed so far. *)
Definition Wait (l : Limiter) (turns : list turn) (key : Key) (weight : Z) : Limiter * wait_outcome :=
  let weight := if weight <=? 0 then 1 else weight in
  let exchange := norm (key_Exchange key) in
  if (exchange =? "")%string then (l, WaitReturned (Some (ErrorString "exchange is required")))
  else wait_loop turns l exchange weight.

(** ** Invariant *)

(** A usable budget: positive rates that are finite binary64 values, and a burst
    that [float64] represents exactly. *)
Definition budget_ok (b : Budget) : Prop :=
  fvalid (RequestsPerSecond b) /\ flt f64_zero (RequestsPerSecond b) = true /\
  fvalid (RequestsPerMinute b) /\ nonneg (RequestsPerMinute b) = true /\
  is_inf (RequestsPerMinute b) = false /\
  flt f64_zero (fdiv (RequestsPerMinute b) (f64_of_Z 60)) = true /\
  0 < Burst b < 2 ^ 53.

(** A token count between zero and its cap. *)
Definition tokens_ok (cap tokens : float64) : Prop :=
  fvalid tokens /\ nonneg tokens = true /\ fle tokens cap = true.

Definition second_cap (b : Budget) : float64 := f64_of_Z (Burst b).
Definition minute_cap (b : Budget) : float64 := maxFloat (RequestsPerMinute b) (f64_of_Z (Burst b)).

Definition bucket_ok (b : bucket) : Prop :=
  budget_ok (budget b) /\
  tokens_ok (second_cap (budget b)) (secondTokens b) /\
  tokens_ok (minute_cap (budget b)) (minuteTokens b).

Definition limiter_ok (l : Limiter) : Prop := map_Forall (fun _ b => bucket_ok b) l.

(** The limiter's steps: what [Configure], and each turn of [Wait], does to it. *)
Inductive limiter_step : Limiter -> Limiter -> Prop :=
| step_configure l now exchange b :
    budget_ok (configure_budget b) ->
    limiter_step l (fst (Configure l now exchange b))
| step_wait l turns key weight :
    weight < 2 ^ 53 ->
    limiter_step l (fst (Wait l turns key weight)).

Lemma second_cap_ok b : budget_ok b -> fvalid (second_cap b) /\ nonneg (second_cap b) = true.
Proof. intros (_ & _ & _ & _ & _ & _ & H). apply f64_of_Z_nonneg. lia. Qed.

Lemma maxFloat_ok x y :
  fvalid x -> fvalid y -> nonneg x = true -> nonneg y = true ->
  fvalid (maxFloat x y) /\ nonneg (maxFloat x y) = true /\
  fle x (maxFloat x y) = true /\ fle y (maxFloat x y) = true.
Proof.
  intros. unfold maxFloat, fgt. destruct (SFltb y x) eqn:E; split_and!; try done.
  - apply fle_refl; auto with golib.
  - by apply flt_fle.
  - apply flt_false_fle; auto with golib.
  - apply fle_refl; auto with golib.
Qed.

Lemma minute_cap_ok b : budget_ok b ->
  fvalid (minute_cap b) /\ nonneg (minute_cap b) = true /\
  fle (RequestsPerMinute b) (minute_cap b) = true /\ fle (second_cap b) (minute_cap b) = true.
Proof.
  intros Hb. pose proof (second_cap_ok b Hb) as [??]. destruct Hb as (_ & _ & ? & ? & _).
  by apply maxFloat_ok.
Qed.

Lemma minFloat_tokens cap x :
  fvalid cap -> nonneg cap = true -> fvalid x -> nonneg x = true -> tokens_ok cap (minFloat cap x).
Proof.
  intros. unfold minFloat, tokens_ok. destruct (flt cap x) eqn:E; split_and!; try done.
  - apply fle_refl; auto with golib.
  - apply flt_false_fle; auto with golib.
Qed.

Lemma tokens_ok_mono cap cap' t : fle cap cap' = true -> tokens_ok cap t -> tokens_ok cap' t.
Proof. intros Hc (? & ? & ?). split_and!; try done. by eapply fle_trans. Qed.

Lemma newBucket_ok b now : budget_ok b -> bucket_ok (newBucket b now).
Proof.
  intros Hb. pose proof (second_cap_ok b Hb) as [??].
  pose proof (minute_cap_ok b Hb) as (? & ? & _). unfold bucket_ok, tokens_ok. simpl.
  split_and!; try done; apply fle_refl; auto with golib.
Qed.

Lemma widen_ok b weight : weight < 2 ^ 53 -> bucket_ok b -> bucket_ok (widen b weight).
Proof.
  intros Hw (Hb & Hs & Hm). unfold widen. rewrite Z.gtb_ltb.
  destruct (Z.ltb_spec (Burst (budget b)) weight); [|done].
  pose proof Hb as (? & ? & Hv & Hn & ? & ? & ?).
  assert (fle (second_cap (budget b)) (f64_of_Z weight) = true) as Hle by (apply f64_of_Z_le; lia).
  unfold bucket_ok, budget_ok. simpl. split; [split_and!; done || lia|]. split.
  - by eapply tokens_ok_mono.
  - eapply tokens_ok_mono; [|done]. unfold minute_cap. cbn [RequestsPerMinute Burst].
    destruct (f64_of_Z_nonneg weight) as [Hwv Hwn]; [lia|].
    destruct (maxFloat_ok _ _ Hv Hwv Hn Hwn) as (_ & _ & Hm1 & Hm2).
    unfold maxFloat at 1. destruct (fgt _ _); [done|]. by eapply fle_trans.
Qed.

Lemma refill_ok b now : bucket_ok b -> bucket_ok (refill b now).
Proof.
  intros (Hb & Hs & Hm). unfold refill. case_match eqn:Eb; [done|]. unfold Before in Eb. bool_to_prop.
  destruct (Seconds_ok (Sub now (lastRefill b))) as [Hev Hen].
  { unfold Sub, min_int64, max_int64, two63. lia. }
  set (el := Seconds _) in *. case_match eqn:El; [done|].
  assert (flt f64_zero el = true) as Hpos.
  { destruct (flt f64_zero el) eqn:E; [done|].
    assert (fle el f64_zero = true) by (apply flt_false_fle; auto with golib). congruence. }
  pose proof (second_cap_ok _ Hb) as [??]. pose proof (minute_cap_ok _ Hb) as (? & ? & _).
  pose proof Hb as (Hrv & Hrp & Hmv & Hmn & Hmi & Hdp & _).
  destruct (fdiv_nonneg (RequestsPerMinute (budget b)) (f64_of_Z 60)) as [Hdv _]; try done.
  destruct Hs as (Hsv & Hsn & _), Hm as (Hmtv & Hmtn & _).
  destruct (fmul_pos _ _ Hev Hrv Hpos Hrp). destruct (fmul_pos _ _ Hev Hdv Hpos Hdp).
  destruct (fadd_nonneg (secondTokens b) (fmul el (RequestsPerSecond (budget b)))); try done.
  destruct (fadd_nonneg (minuteTokens b) (fmul el (fdiv (RequestsPerMinute (budget b)) (f64_of_Z 60)))); try done.
  split; [done|]. split; by apply minFloat_tokens.
Qed.

Lemma tokens_ok_sub cap t n :
  tokens_ok cap t -> 0 <= n < 2 ^ 53 -> fge t (f64_of_Z n) = true -> tokens_ok cap (fsub t (f64_of_Z n)).
Proof.
  intros (Hv & Hn & Hc) Hr Hge. destruct (f64_of_Z_nonneg n) as [? ?]; [lia|].
  pose proof (f64_of_Z_finite n Hr).
  destruct (fsub_nonneg t (f64_of_Z n)); try done. split_and!; try done.
  eapply fle_trans; [by apply fsub_le|done].
Qed.

Lemma bucket_reserve_ok b now weight :
  0 < weight < 2 ^ 53 -> bucket_ok b -> bucket_ok (fst (bucket_reserve b now weight)).
Proof.
  intros Hw Hb. pose proof (refill_ok _ now (widen_ok _ weight ltac:(lia) Hb)) as Hr.
  unfold bucket_reserve. case_match eqn:E; [|done]. bool_to_prop.
  destruct Hr as (? & ? & ?). split_and!; simpl; try done; apply tokens_ok_sub; done || lia.
Qed.

Lemma reserve_ok l now draw exchange weight :
  0 < weight < 2 ^ 53 -> limiter_ok l -> limiter_ok (fst (reserve l now draw exchange weight)).
Proof.
  intros Hw Hl. unfold reserve. destruct (l !! exchange) as [b|] eqn:Eb; [|done].
  pose proof (bucket_reserve_ok b now weight Hw (Hl _ _ Eb)) as Hok.
  destruct (bucket_reserve b now weight) as [b' d]. by apply map_Forall_insert_2.
Qed.

Lemma wait_loop_ok turns l exchange weight :
  0 < weight < 2 ^ 53 -> limiter_ok l -> limiter_ok (fst (wait_loop turns l exchange weight)).
Proof.
  intros Hw. revert l. induction turns as [|t turns IH]; intros l Hl; simpl; [done|].
  pose proof (reserve_ok l (turn_now t) (turn_draw t) exchange weight Hw Hl) as Hr.
  destruct (reserve _ _ _ _ _) as [l' [[d j]|e]]; [|done]. simpl in Hr.
  repeat case_match; auto.
Qed.

(** C33: whatever sequence of [Configure] and [Wait] calls a limiter goes through, every
    bucket's second tokens stay between 0 and the burst and its minute tokens between 0 and
    the larger of the minute budget and the burst: the limiter never holds more credit than
    it was configured with, never goes into debt, and no rounding of the refill or of the
    deduction breaks this. *)
Theorem limiter_tokens_bounded l : rtc limiter_step NewLimiter l -> limiter_ok l.
Proof.
  intros Hr. apply (rtc_ind_r limiter_ok NewLimiter) in Hr; [done|apply map_Forall_empty|].
  intros l1 l2 _ Hs Hl. destruct Hs as [l1 now exchange b Hb|l1 turns key weight Hw].
  - unfold Configure. repeat case_match; simpl; try done.
    apply map_Forall_insert_2; [by apply newBucket_ok|done].
  - unfold Wait. case_match; [done|]. apply wait_loop_ok; [|done]. split_guards; lia.
Qed.

(** The budget of the collector service for one exchange: 10 requests per second, 600 per
    minute, jitter up to 100 ms. *)
Definition demo_budget (jmin jmax : Duration) : Budget :=
  MkBudget (f64_of_Z 10) (f64_of_Z 600) 0 jmin jmax.

Definition demo_now : Time := Unix 1700000000.
Definition demo_key : Key := MkKey " Binance" "ticker" "ticker".

(** Witness of [limiter_tokens_bounded]: configure, then one call that is granted. *)
Lemma limiter_tokens_bounded_witness :
  limiter_ok (fst (Wait (fst (Configure NewLimiter demo_now "BINANCE " (demo_budget 0 0)))
                     [MkTurn demo_now 0 None] demo_key 3)).
Proof.
  apply limiter_tokens_bounded. eapply rtc_l; [|apply rtc_once].
  - apply (step_configure NewLimiter demo_now "BINANCE " (demo_budget 0 0)).
    unfold budget_ok, fvalid. split_and!; vm_compute; reflexivity.
  - apply step_wait. lia.
Defined.

Lemma widen_budget b weight :
  JitterMin (budget (widen b weight)) = JitterMin (budget b) /\
  JitterMax (budget (widen b weight)) = JitterMax (budget b).
Proof. unfold widen. by case_match. Qed.

Lemma refill_budget b now : budget (refill b now) = budget b.
Proof. unfold refill. by repeat case_match. Qed.

(** The bucket after a granted reservation of [weight]. *)
Definition granted (b : bucket) (now : Time) (weight : Z) : bucket :=
  let r := refill (widen b weight) now in
  MkBucket (budget r) (fsub (secondTokens r) (f64_of_Z weight))
    (fsub (minuteTokens r) (f64_of_Z weight)) (lastRefill r).

(** Both budgets cover [weight] at [now]. *)
Definition covered (b : bucket) (now : Time) (weight : Z) : bool :=
  let r := refill (widen b weight) now in
  fge (secondTokens r) (f64_of_Z weight) && fge (minuteTokens r) (f64_of_Z weight).

Lemma bucket_reserve_covered b now weight :
  covered b now weight = true -> bucket_reserve b now weight = (granted b now weight, 0).
Proof. intros H. unfold bucket_reserve, granted. unfold covered in H. by rewrite H. Qed.

(** without jitter, [Wait] returns at its first turn as soon as both budgets cover the
    weight, having deducted exactly the weight from both. *)
Theorem Wait_no_jitter_admits l b t turns key weight :
  l !! norm (key_Exchange key) = Some b -> norm (key_Exchange key) <> "" ->
  0 < weight -> JitterMax (budget b) <= 0 -> covered b (turn_now t) weight = true ->
  Wait l (t :: turns) key weight
  = (<[norm (key_Exchange key) := granted b (turn_now t) weight]> l, WaitReturned None).
Proof.
  intros Hl Hne Hw Hj Hc. unfold Wait. rewrite (proj2 (Z.leb_gt _ _)) by lia.
  rewrite (proj2 (String.eqb_neq _ _) Hne). simpl. unfold reserve. rewrite Hl.
  rewrite bucket_reserve_covered by done. unfold jitter_of.
  destruct (widen_budget b weight) as [_ Hjm].
  cbn [granted budget]. rewrite refill_budget, Hjm.
  rewrite (proj2 (Z.ltb_ge _ _)) by lia. done.
Qed.

Lemma Wait_no_jitter_admits_witness :
  snd (Wait (fst (Configure NewLimiter demo_now "BINANCE" (demo_budget 0 0)))
         [MkTurn demo_now 0 None] demo_key 3) = WaitReturned None.
Proof.
  rewrite (Wait_no_jitter_admits _ (newBucket (configure_budget (demo_budget 0 0)) demo_now));
    [done | vm_compute; reflexivity | vm_compute; discriminate | lia | vm_compute; discriminate
    | vm_compute; reflexivity].
Defined.

(** with jitter the loop re-reserves after the jitter timer: a turn whose reservation was
    granted, with a positive jitter drawn, deducts the weight from both budgets, does not
    return, and goes on to reserve again.  [Wait] therefore only returns nil on a turn that
    draws no jitter, and every turn before it has spent tokens no request was sent for. *)
Theorem Wait_jitter_spends_grant l b t turns key weight :
  l !! norm (key_Exchange key) = Some b -> norm (key_Exchange key) <> "" ->
  0 < weight -> covered b (turn_now t) weight = true -> turn_done t = None ->
  0 < jitter_of (budget b) 0 (turn_draw t) <= max_int64 ->
  Wait l (t :: turns) key weight
  = Wait (<[norm (key_Exchange key) := granted b (turn_now t) weight]> l) turns key weight.
Proof.
  intros Hl Hne Hw Hc Hd Hj. unfold Wait. rewrite (proj2 (Z.leb_gt _ _)) by lia.
  rewrite (proj2 (String.eqb_neq _ _) Hne). simpl. unfold reserve. rewrite Hl.
  rewrite bucket_reserve_covered by done.
  assert (jitter_of (budget (granted b (turn_now t) weight)) 0 (turn_draw t)
          = jitter_of (budget b) 0 (turn_draw t)) as ->.
  { unfold jitter_of. destruct (widen_budget b weight) as [H1 H2].
    cbn [granted budget]. by rewrite refill_budget, H1, H2. }
  rewrite Z.add_0_l, wrap64_ok by (unfold int64_ok, min_int64, two63 in *; lia).
  rewrite (proj2 (Z.leb_gt _ _)) by lia. by rewrite Hd.
Qed.

(** Three turns of one call under the collector's budget (100 ms jitter): all ten tokens of
    the burst but one are gone and the call is still waiting. *)
Lemma Wait_jitter_spends_grant_witness :
  snd (Wait (fst (Configure NewLimiter demo_now "binance" (demo_budget 0 (100 * Millisecond))))
         [MkTurn demo_now 7 None; MkTurn demo_now 9 None; MkTurn demo_now 5 None] demo_key 3)
  = WaitBlocked.
Proof.
  rewrite (Wait_jitter_spends_grant _
    (newBucket (configure_budget (demo_budget 0 (100 * Millisecond))) demo_now));
    [| vm_compute; reflexivity | vm_compute; discriminate | lia | vm_compute; reflexivity
     | vm_compute; reflexivity | split; vm_compute; (reflexivity || discriminate)].
  vm_compute. reflexivity.
Defined.

(** Repeated reservations on one bucket at one instant. *)
Fixpoint reserve_times (n : nat) (b : bucket) (now : Time) (weight : Z) : bucket * list Duration :=
  match n with
  | O => (b, [])
  | S n' =>
    let '(b', d) := bucket_reserve b now weight in
    let '(b'', ds) := reserve_times n' b' now weight in
    (b'', d :: ds)
  end.

Definition thirty_rps : bucket :=
  fst (bucket_reserve
         (newBucket (configure_budget (MkBudget (f64_of_Z 30) f64_zero 1 0 0)) demo_now) demo_now 1).

(** The bucket 33333333 ns after its only token was taken: 0.99999999 tokens. *)
Definition almost_full : bucket := refill thirty_rps (demo_now + 33333333).

(** when the missing fraction of a token is worth less than a nanosecond, the delay
    truncates to zero and the request is admitted without a token: with 30 requests per
    second and burst 1, 33333333 ns after the first request any number of further requests is
    admitted at that instant and the bucket keeps its 0.99999999 tokens. *)
Theorem reserve_truncated_delay_admits n :
  reserve_times n almost_full (demo_now + 33333333) 1 = (almost_full, repeat 0 n) /\
  covered almost_full (demo_now + 33333333) 1 = false.
Proof.
  split; [|vm_compute; reflexivity].
  assert (bucket_reserve almost_full (demo_now + 33333333) 1 = (almost_full, 0)) as H
    by (vm_compute; reflexivity).
  induction n as [|n IH]; [done|]. cbn [reserve_times]. by rewrite H, IH.
Qed.
