(* ===== verification/CircuitBreaker.v ===== *)
(** * Circuit breaker ([internal/ratelimit/circuit_breaker.go])

    One circuit per key text.  The mutex makes every method atomic, so the state
    is passed explicitly; the clock and the context's error are inputs. *)

From S2P Require Import Prelude GoString GoTime GoError Limiter.

(** ** Data *)

Inductive CircuitState := CircuitClosed | CircuitOpen | CircuitHalfOpen.

#[export] Instance CircuitState_eq_dec : EqDecision CircuitState.
Proof. solve_decision. Defined.

Definition FailureRateLimited : FailureKind := "rate_limited".
Definition FailureServerError : FailureKind := "server_error".
Definition FailureTimeout : FailureKind := "timeout".
Definition FailureNetworkError : FailureKind := "network_error".
Definition FailureBadRequest : FailureKind := "bad_request".
Definition FailureUnauthorized : FailureKind := "unauthorized".
Definition FailureNotFound : FailureKind := "not_found".
Definition FailureInvalidSymbol : FailureKind := "invalid_symbol".
Definition FailureInvalidResponse : FailureKind := "invalid_response".
Definition FailureNormalizerError : FailureKind := "normalizer_error".
Definition FailureUnknown : FailureKind := "unknown".
Definition FailureParse : FailureKind := FailureInvalidResponse.

Record CircuitSettings := MkCircuitSettings {
  FailureThreshold : Z;
  Cooldown : Duration;
  HalfOpenMaxPasses : Z
}.

Record circuit := MkCircuit {
  state : CircuitState;
  failures : Z;
  lastFailure : FailureKind;
  openUntil : Time;
  halfOpenPasses : Z
}.

Record CircuitBreaker := MkCircuitBreaker {
  settings : CircuitSettings;
  states : gmap string circuit
}.

(** ** Operations *)

Definition NewCircuitBreaker (s : CircuitSettings) : CircuitBreaker :=
  MkCircuitBreaker
    (MkCircuitSettings
       (if FailureThreshold s <=? 0 then 5 else FailureThreshold s)
       (if Cooldown s <=? 0 then 30 * Second else Cooldown s)
       (if HalfOpenMaxPasses s <=? 0 then 1 else HalfOpenMaxPasses s))
    ∅.

Definition fresh_circuit : circuit := MkCircuit CircuitClosed 0 "" 0 0.

(** [stateFor]: the circuit of the key, created closed when missing. *)
Definition stateFor (b : CircuitBreaker) (key : Key) : circuit :=
  default fresh_circuit (states b !! Key_String key).

(** Writing through the pointer [stateFor] returns. *)
Definition store (b : CircuitBreaker) (key : Key) (c : circuit) : CircuitBreaker :=
  MkCircuitBreaker (settings b) (<[Key_String key := c]> (states b)).

Definition open_error (key : Key) (until : Time) : error :=
  ErrorString ("circuit open for " +:+ Key_String key +:+ " until " +:+ FormatRFC3339 until).

(** [Allow]: [ctx_err] is [ctx.Err()] when the context is already done. *)
Definition Allow (b : CircuitBreaker) (ctx_err : option error) (now : Time) (key : Key)
    : CircuitBreaker * (CircuitState * option error) :=
  match ctx_err with
  | Some e => (b, (CircuitOpen, Some e))
  | None =>
    let c := stateFor b key in
    match state c with
    | CircuitOpen =>
      if Before now (openUntil c) then
        (store b key c, (CircuitOpen, Some (open_error key (openUntil c))))
      else
        (store b key (MkCircuit CircuitHalfOpen (failures c) (lastFailure c) (openUntil c) 0),
         (CircuitHalfOpen, None))
    | s => (store b key c, (s, None))
    end
  end.

Definition RecordSuccess (b : CircuitBreaker) (key : Key) : CircuitBreaker :=
  let c := stateFor b key in
  match state c with
  | CircuitHalfOpen =>
    let passes := wrap64 (halfOpenPasses c + 1) in
    if HalfOpenMaxPasses (settings b) <=? passes then
      store b key (MkCircuit CircuitClosed 0 "" 0 passes)
    else
      store b key (MkCircuit CircuitHalfOpen (failures c) (lastFailure c) (openUntil c) passes)
  | s => store b key (MkCircuit s 0 "" (openUntil c) (halfOpenPasses c))
  end.

Definition RecordFailure (b : CircuitBreaker) (now : Time) (key : Key) (kind : FailureKind) : CircuitBreaker :=
  let c := stateFor b key in
  let n := wrap64 (failures c + 1) in
  if bool_decide (state c = CircuitHalfOpen) || (FailureThreshold (settings b) <=? n) then
    store b key (MkCircuit CircuitOpen n kind (Add now (Cooldown (settings b))) 0)
  else
    store b key (MkCircuit (state c) n kind (openUntil c) (halfOpenPasses c)).

Definition State (b : CircuitBreaker) (key : Key) : CircuitBreaker * CircuitState :=
  (store b key (stateFor b key), state (stateFor b key)).

(** ** Call sequences *)

Inductive breaker_op :=
| OpAllow (ctx_err : option error) (now : Time) (key : Key)
| OpSuccess (key : Key)
| OpFailure (now : Time) (key : Key) (kind : FailureKind)
| OpState (key : Key).

Definition run_op (b : CircuitBreaker) (op : breaker_op) : CircuitBreaker :=
  match op with
  | OpAllow e now key => fst (Allow b e now key)
  | OpSuccess key => RecordSuccess b key
  | OpFailure now key kind => RecordFailure b now key kind
  | OpState key => fst (State b key)
  end.

Definition run_ops (b : CircuitBreaker) (ops : list breaker_op) : CircuitBreaker := foldl run_op b ops.

Definition op_key (op : breaker_op) : Key :=
  match op with OpAllow _ _ k | OpSuccess k | OpFailure _ k _ | OpState k => k end.

(** ** Invariant *)

Definition settings_ok (s : CircuitSettings) : Prop :=
  0 < FailureThreshold s <= max_int64 /\ 0 < Cooldown s /\ 0 < HalfOpenMaxPasses s <= max_int64.

(** Closed: fewer failures than the threshold.  Half-open: fewer passes than it takes to
    close.  Open: the end of the cooldown is set. *)
Definition circuit_ok (s : CircuitSettings) (c : circuit) : Prop :=
  match state c with
  | CircuitClosed => 0 <= failures c < FailureThreshold s
  | CircuitHalfOpen => 0 <= halfOpenPasses c < HalfOpenMaxPasses s
  | CircuitOpen => True
  end.

Definition breaker_ok (b : CircuitBreaker) : Prop :=
  settings_ok (settings b) /\ map_Forall (fun _ c => circuit_ok (settings b) c) (states b).

Lemma NewCircuitBreaker_ok s :
  FailureThreshold s <= max_int64 -> HalfOpenMaxPasses s <= max_int64 ->
  breaker_ok (NewCircuitBreaker s).
Proof.
  intros. split; [|apply map_Forall_empty]. unfold settings_ok. simpl.
  unfold max_int64, two63, Second in *. repeat case_match; bool_to_prop; lia.
Qed.

Lemma stateFor_ok b key : breaker_ok b -> circuit_ok (settings b) (stateFor b key).
Proof.
  intros [(Ht & _) Hm]. unfold stateFor. destruct (states b !! Key_String key) eqn:E; [by eapply Hm|].
  unfold circuit_ok. simpl. lia.
Qed.

Lemma store_ok b key c : breaker_ok b -> circuit_ok (settings b) c -> breaker_ok (store b key c).
Proof. intros [Hs Hm] Hc. split; [done|]. by apply map_Forall_insert_2. Qed.

#[export] Hint Resolve stateFor_ok store_ok : golib.

Lemma run_op_settings b op : settings (run_op b op) = settings b.
Proof. destruct op; simpl; unfold Allow, RecordSuccess, RecordFailure; repeat case_match; done. Qed.

Lemma run_op_ok b op : breaker_ok b -> breaker_ok (run_op b op).
Proof.
  intros Hb. pose proof Hb as [(Ht & _ & Hp) _].
  destruct op as [e now key|key|now key kind|key]; simpl;
    pose proof (stateFor_ok b key Hb) as Hc.
  - unfold Allow. repeat case_match; simpl; auto with golib.
    apply store_ok; [done|]. unfold circuit_ok. simpl. lia.
  - unfold RecordSuccess. unfold circuit_ok in Hc.
    destruct (state (stateFor b key)) eqn:E.
    + apply store_ok; [done|]. unfold circuit_ok. simpl. lia.
    + by apply store_ok.
    + assert (wrap64 (halfOpenPasses (stateFor b key) + 1) = halfOpenPasses (stateFor b key) + 1) as ->.
      { apply wrap64_ok. unfold int64_ok, min_int64, two63. lia. }
      case_match; bool_to_prop; apply store_ok; try done; unfold circuit_ok; simpl; lia.
  - unfold RecordFailure. case_match eqn:E; apply store_ok; try done.
    bool_to_prop. unfold circuit_ok in *. simpl. destruct (state (stateFor b key)); try done.
    rewrite wrap64_ok in * by (unfold int64_ok, min_int64, two63 in *; lia). lia.
  - by apply store_ok.
Qed.

Lemma run_ops_ok b ops : breaker_ok b -> breaker_ok (run_ops b ops).
Proof. revert b. induction ops as [|op ops IH]; intros b Hb; simpl; [done|]. by apply IH, run_op_ok. Qed.

Lemma run_ops_settings b ops : settings (run_ops b ops) = settings b.
Proof.
  revert b. induction ops as [|op ops IH]; intros b; simpl; [done|].
  by rewrite IH, run_op_settings.
Qed.

Lemma stateFor_store b key key' c :
  stateFor (store b key c) key' = if decide (Key_String key' = Key_String key) then c else stateFor b key'.
Proof.
  unfold stateFor, store. simpl. case_decide as E.
  - rewrite E. by rewrite lookup_insert_eq.
  - by rewrite lookup_insert_ne.
Qed.

Lemma run_op_frame b op key :
  Key_String key <> Key_String (op_key op) -> stateFor (run_op b op) key = stateFor b key.
Proof.
  intros Hne. destruct op; simpl in *; unfold Allow, RecordSuccess, RecordFailure, State;
    repeat case_match; simpl; try done; rewrite stateFor_store, decide_False; done.
Qed.

(** whatever calls are made and in whatever order, a closed circuit has seen fewer
    failures than the threshold, a half-open one fewer passes than it takes to close it, and
    calls for one key text never change the circuit of another. *)
Theorem breaker_invariant s ops :
  FailureThreshold s <= max_int64 -> HalfOpenMaxPasses s <= max_int64 ->
  breaker_ok (run_ops (NewCircuitBreaker s) ops) /\
  (forall op key, Key_String key <> Key_String (op_key op) ->
     stateFor (run_ops (NewCircuitBreaker s) (ops ++ [op])) key
     = stateFor (run_ops (NewCircuitBreaker s) ops) key).
Proof.
  intros Ht Hp. split; [by apply run_ops_ok, NewCircuitBreaker_ok|].
  intros op key Hne. unfold run_ops. rewrite foldl_app. by apply run_op_frame.
Qed.

Definition demo_settings : CircuitSettings := MkCircuitSettings 2 (10 * Millisecond) 1.

Lemma breaker_invariant_witness :
  breaker_ok (run_ops (NewCircuitBreaker demo_settings)
                [OpFailure demo_now demo_key FailureServerError;
                 OpFailure demo_now demo_key FailureRateLimited]).
Proof. apply (breaker_invariant demo_settings); vm_compute; discriminate. Defined.

(** ** Behaviour *)

(** [n] failures in a row for one key, at the given times. *)
Definition failing (key : Key) (kind : FailureKind) (times : list Time) : list breaker_op :=
  map (fun now => OpFailure now key kind) times.

Lemma RecordFailure_closed b now key kind :
  state (stateFor b key) = CircuitClosed ->
  0 <= failures (stateFor b key) < max_int64 ->
  failures (stateFor b key) + 1 < FailureThreshold (settings b) ->
  stateFor (RecordFailure b now key kind) key
  = MkCircuit CircuitClosed (failures (stateFor b key) + 1) kind
      (openUntil (stateFor b key)) (halfOpenPasses (stateFor b key)).
Proof.
  intros Hs Hf Ht. unfold RecordFailure.
  rewrite wrap64_ok by (unfold int64_ok, min_int64, two63; lia).
  rewrite Hs, (proj2 (Z.leb_gt _ _)) by lia. simpl. by rewrite stateFor_store, decide_True.
Qed.

Lemma failing_closed b key kind times :
  breaker_ok b -> state (stateFor b key) = CircuitClosed ->
  failures (stateFor b key) + Z.of_nat (length times) < FailureThreshold (settings b) ->
  state (stateFor (run_ops b (failing key kind times)) key) = CircuitClosed /\
  failures (stateFor (run_ops b (failing key kind times)) key)
  = failures (stateFor b key) + Z.of_nat (length times).
Proof.
  revert b. induction times as [|now times IH]; intros b Hb Hs Hn; simpl in *; [split; [done|lia]|].
  pose proof (stateFor_ok b key Hb) as Hc. unfold circuit_ok in Hc. rewrite Hs in Hc.
  pose proof Hb as [(Ht & _) _].
  pose proof (RecordFailure_closed b now key kind Hs ltac:(lia) ltac:(lia)) as Hr.
  specialize (IH (RecordFailure b now key kind)).
  pose proof (run_op_settings b (OpFailure now key kind)) as Hset. simpl in Hset.
  rewrite Hr, Hset in IH. simpl in IH.
  destruct IH as [IH1 IH2]; [by apply (run_op_ok b (OpFailure now key kind))|done|lia|].
  split; [done|]. rewrite IH2. lia.
Qed.

(** the breaker trips exactly at the threshold: from a closed circuit with no failure
    counted, any shorter run of failures leaves it closed, and the failure that reaches the
    threshold opens it until the cooldown after that failure. *)
Theorem breaker_trips_at_threshold b key kind times now :
  breaker_ok b -> state (stateFor b key) = CircuitClosed -> failures (stateFor b key) = 0 ->
  Z.of_nat (length times) + 1 = FailureThreshold (settings b) ->
  (forall k, (k <= length times)%nat ->
     state (stateFor (run_ops b (failing key kind (take k times))) key) = CircuitClosed) /\
  let c := stateFor (run_ops b (failing key kind (times ++ [now]))) key in
  state c = CircuitOpen /\ openUntil c = Add now (Cooldown (settings b)) /\ lastFailure c = kind.
Proof.
  intros Hb Hs Hf Hn. split.
  - intros k Hk. apply failing_closed; [done..|]. rewrite length_take. lia.
  - unfold failing, run_ops. rewrite map_app, foldl_app. simpl. fold (failing key kind times).
    pose proof (failing_closed b key kind times Hb Hs ltac:(lia)) as [Hs' Hf'].
    set (b' := run_ops b (failing key kind times)) in *.
    assert (settings b' = settings b) as Hset by apply run_ops_settings.
    change (foldl run_op b (failing key kind times)) with b'. unfold RecordFailure.
    rewrite Hf', Hset, wrap64_ok by (destruct Hb as [(? & _) _]; unfold int64_ok, min_int64, two63; lia).
    rewrite (proj2 (Z.leb_le _ _)), orb_true_r by lia. by rewrite stateFor_store, decide_True.
Qed.

Lemma breaker_trips_at_threshold_witness :
  state (stateFor (run_ops (NewCircuitBreaker demo_settings)
           (failing demo_key FailureServerError ([demo_now] ++ [demo_now]))) demo_key) = CircuitOpen.
Proof.
  apply (breaker_trips_at_threshold (NewCircuitBreaker demo_settings) demo_key FailureServerError
           [demo_now] demo_now); [|done..].
  apply NewCircuitBreaker_ok; vm_compute; discriminate.
Defined.

Lemma successes_half_open b key n :
  breaker_ok b -> state (stateFor b key) = CircuitHalfOpen ->
  halfOpenPasses (stateFor b key) + Z.of_nat n < HalfOpenMaxPasses (settings b) ->
  let c := stateFor (run_ops b (repeat (OpSuccess key) n)) key in
  state c = CircuitHalfOpen /\ halfOpenPasses c = halfOpenPasses (stateFor b key) + Z.of_nat n.
Proof.
  revert b. induction n as [|n IH]; intros b Hb Hs Hn; [simpl; split; [done|lia]|].
  cbn [repeat run_ops foldl run_op]. pose proof (stateFor_ok b key Hb) as Hc.
  unfold circuit_ok in Hc. rewrite Hs in Hc. pose proof Hb as [(_ & _ & Hp) _].
  assert (stateFor (RecordSuccess b key) key
          = MkCircuit CircuitHalfOpen (failures (stateFor b key)) (lastFailure (stateFor b key))
              (openUntil (stateFor b key)) (halfOpenPasses (stateFor b key) + 1)) as Hr.
  { unfold RecordSuccess. rewrite Hs, wrap64_ok by (unfold int64_ok, min_int64, two63; lia).
    rewrite (proj2 (Z.leb_gt _ _)) by lia. by rewrite stateFor_store, decide_True. }
  pose proof (run_op_settings b (OpSuccess key)) as Hset. simpl in Hset.
  specialize (IH (RecordSuccess b key) (run_op_ok b (OpSuccess key) Hb)).
  rewrite Hr, Hset in IH. simpl in IH. destruct IH as [IH1 IH2]; [done|lia|].
  unfold run_ops in *. split; [done|]. rewrite IH2. lia.
Qed.

(** C29: the open state and its two exits.  Before the end of the cooldown [Allow] refuses and
    changes nothing; from then on it admits and half-opens the circuit; from there any failure
    re-opens it for a full cooldown, while [HalfOpenMaxPasses] successes in a row, and no
    fewer, close it with its failure count back at zero. *)
Theorem breaker_recovers b key now kind later :
  breaker_ok b -> state (stateFor b key) = CircuitOpen ->
  let until := openUntil (stateFor b key) in
  (now < until ->
     snd (Allow b None now key) = (CircuitOpen, Some (open_error key until)) /\
     stateFor (fst (Allow b None now key)) key = stateFor b key) /\
  (until <= now ->
     let h := fst (Allow b None now key) in
     snd (Allow b None now key) = (CircuitHalfOpen, None) /\
     (state (stateFor (RecordFailure h later key kind) key) = CircuitOpen /\
      openUntil (stateFor (RecordFailure h later key kind) key) = Add later (Cooldown (settings b))) /\
     (forall n, Z.of_nat n < HalfOpenMaxPasses (settings b) ->
        state (stateFor (run_ops h (repeat (OpSuccess key) n)) key) = CircuitHalfOpen) /\
     (forall n, Z.of_nat n + 1 = HalfOpenMaxPasses (settings b) ->
        let c := stateFor (run_ops h (repeat (OpSuccess key) n ++ [OpSuccess key])) key in
        state c = CircuitClosed /\ failures c = 0)).
Proof.
  intros Hb Hs until. unfold Allow. rewrite Hs. split; intros Hnow.
  { unfold Before, until in *. rewrite (proj2 (Z.ltb_lt _ _)) by done.
    split; [done|]. cbn [fst]. by rewrite stateFor_store, decide_True. }
  unfold Before, until in *. rewrite (proj2 (Z.ltb_ge _ _)) by done. cbn [fst snd].
  set (h := store b key (MkCircuit CircuitHalfOpen _ _ _ 0)).
  assert (breaker_ok h) as Hh.
  { apply store_ok; [done|]. unfold circuit_ok. simpl. destruct Hb as [(_ & _ & ?) _]. lia. }
  assert (stateFor h key = MkCircuit CircuitHalfOpen (failures (stateFor b key))
            (lastFailure (stateFor b key)) (openUntil (stateFor b key)) 0) as Hsh.
  { unfold h. by rewrite stateFor_store, decide_True. }
  split; [done|]. split; [|split].
  - unfold RecordFailure. rewrite Hsh. simpl. by rewrite stateFor_store, decide_True.
  - intros n Hn. apply successes_half_open; [done| |]; rewrite Hsh; [done|simpl; lia].
  - intros n Hn. unfold run_ops. rewrite foldl_app. fold (run_ops h (repeat (OpSuccess key) n)).
    pose proof (successes_half_open h key n Hh) as Hx. rewrite Hsh in Hx. simpl in Hx.
    destruct Hx as [Hx1 Hx2]; [done|lia|]. simpl. unfold RecordSuccess.
    rewrite Hx1, Hx2, run_ops_settings, wrap64_ok
      by (destruct Hb as [(_ & _ & ?) _]; unfold int64_ok, min_int64, two63; lia).
    rewrite (proj2 (Z.leb_le _ _)) by (simpl; lia). by rewrite stateFor_store, decide_True.
Qed.

Lemma breaker_recovers_witness :
  let b := run_ops (NewCircuitBreaker demo_settings)
             (failing demo_key FailureServerError [demo_now; demo_now]) in
  snd (Allow b None (demo_now + 15 * Millisecond) demo_key) = (CircuitHalfOpen, None).
Proof.
  intros b. eapply (breaker_recovers b demo_key (demo_now + 15 * Millisecond) FailureTimeout demo_now).
  - apply run_ops_ok, NewCircuitBreaker_ok; vm_compute; discriminate.
  - vm_compute. reflexivity.
  - vm_compute. discriminate.
Defined.
