(* ===== verification/Allocator.v ===== *)
(** * Budget allocator ([internal/ratelimit/allocator.go])

    Splits each exchange's request capacity over work classes in strict priority
    order. *)

From S2P Require Import Prelude GoString.

(** ** Data *)

Abbreviation WorkClass := string (only parsing).
Definition WorkWatchlistRealtime : WorkClass := "watchlist_realtime".
Definition WorkTop100OneMinute : WorkClass := "top100_1m".
Definition WorkAllCoreFiveMinute : WorkClass := "all_5m_core".
Definition WorkHistoricalBackfill : WorkClass := "historical_backfill".
Definition WorkDebugRetry : WorkClass := "debug_retry".

Record AllocationRequest := MkRequest { req_Exchange : string; req_Class : WorkClass; Demand : Z }.
Record Allocation := MkAllocation { al_Exchange : string; al_Class : WorkClass; Granted : Z }.

(** [BudgetAllocator.CapacityByExchange]; a missing key reads as 0. *)
Definition BudgetAllocator : Type := gmap string Z.
Definition capacity_of (a : BudgetAllocator) (exchange : string) : Z := default 0 (a !! exchange).

Definition workClassPriority (class : WorkClass) : Z :=
  if (class =? WorkWatchlistRealtime)%string then 1 else
  if (class =? WorkTop100OneMinute)%string then 2 else
  if (class =? WorkAllCoreFiveMinute)%string then 3 else
  if (class =? WorkHistoricalBackfill)%string then 4 else
  if (class =? WorkDebugRetry)%string then 5 else 99.

(** ** Allocation *)

(** One turn of the grouping loop. *)
Definition group_request (grouped : gmap string (list AllocationRequest)) (req : AllocationRequest)
    : gmap string (list AllocationRequest) :=
  if Demand req <=? 0 then grouped else
  let exchange := norm (req_Exchange req) in
  if (exchange =? "")%string then grouped else
  let req := MkRequest exchange (req_Class req) (Demand req) in
  <[exchange := default [] (grouped !! exchange) ++ [req]]> grouped.

Definition group (requests : list AllocationRequest) : gmap string (list AllocationRequest) :=
  foldl group_request ∅ requests.

(** The granting loop of one exchange. *)
Fixpoint grant_loop (exchange : string) (capacity : Z) (requests : list AllocationRequest) : list Allocation :=
  match requests with
  | [] => []
  | req :: rest =>
    if capacity <=? 0 then [] else
    let granted := if Demand req >? capacity then capacity else Demand req in
    MkAllocation exchange (req_Class req) granted :: grant_loop exchange (capacity - granted) rest
  end.

Definition priority_leb (r1 r2 : AllocationRequest) : bool :=
  workClassPriority (req_Class r1) <=? workClassPriority (req_Class r2).

Definition allocate_exchange (a : BudgetAllocator) (grouped : gmap string (list AllocationRequest))
    (exchange : string) : list Allocation :=
  let capacity := capacity_of a exchange in
  if capacity <=? 0 then [] else
  grant_loop exchange capacity (stable_sort priority_leb (default [] (grouped !! exchange))).

(** [Allocate], given the order [keys] in which Go's map iteration yields the exchanges. *)
Definition Allocate_keys (a : BudgetAllocator) (requests : list AllocationRequest) (keys : list string)
    : list Allocation :=
  flat_map (allocate_exchange a (group requests)) (stable_sort str_leb keys).

Definition Allocate (a : BudgetAllocator) (requests : list AllocationRequest) : list Allocation :=
  Allocate_keys a requests (map fst (map_to_list (group requests))).

(** ** What the allocation is about *)

(** The requests that count for an exchange. *)
Definition accepted (e : string) (r : AllocationRequest) : bool :=
  (0 <? Demand r) && (norm (req_Exchange r) =? e)%string && negb (e =? "")%string.

Definition demand_upto (requests : list AllocationRequest) (e : string) (p : Z) : Z :=
  sum_Z (map Demand (filter (fun r => accepted e r = true /\ workClassPriority (req_Class r) <= p) requests)).

Definition granted_upto (al : list Allocation) (e : string) (p : Z) : Z :=
  sum_Z (map Granted (filter (fun x => al_Exchange x = e /\ workClassPriority (al_Class x) <= p) al)).

Definition requests_of (requests : list AllocationRequest) (e : string) : list AllocationRequest :=
  map (fun r => MkRequest e (req_Class r) (Demand r)) (filter (fun r => accepted e r = true) requests).

Lemma group_foldl g requests e :
  default [] (foldl group_request g requests !! e) = (default [] (g !! e) ++ requests_of requests e)%list.
Proof.
  revert g. induction requests as [|r requests IH]; intros g; simpl; [by rewrite app_nil_r|].
  rewrite IH. unfold requests_of at 2. rewrite filter_cons.
  unfold group_request. case_decide as Ha.
  - unfold accepted in Ha. bool_to_prop. subst e.
    rewrite (proj2 (Z.leb_gt (Demand r) 0)) by lia. rewrite (proj2 (String.eqb_neq _ _)) by done.
    cbn [map]. rewrite lookup_insert_eq. simpl. by rewrite <- app_assoc.
  - destruct (Z.leb_spec (Demand r) 0); [done|].
    destruct (String.eqb_spec (norm (req_Exchange r)) ""); [done|].
    rewrite lookup_insert_ne; [done|]. intros He. apply Ha. unfold accepted.
    rewrite He, String.eqb_refl, (proj2 (Z.ltb_lt _ _)) by lia. subst e.
    by rewrite (proj2 (String.eqb_neq _ _)).
Qed.

Lemma group_lookup requests e : default [] (group requests !! e) = requests_of requests e.
Proof. unfold group. by rewrite group_foldl. Qed.

Lemma demand_requests_of requests e p :
  demand_upto requests e p
  = sum_Z (map Demand (filter (fun r => workClassPriority (req_Class r) <= p) (requests_of requests e))).
Proof.
  unfold demand_upto, requests_of. induction requests as [|r requests IH]; simpl; [done|].
  rewrite !filter_cons. destruct (decide (accepted e r = true)) as [E|E].
  - cbn [map]. rewrite filter_cons. cbn [req_Class].
    destruct (decide (workClassPriority (req_Class r) <= p)).
    + rewrite decide_True by done. cbn [map sum_Z foldr Demand]. unfold sum_Z in *. lia.
    + by rewrite decide_False by (intros [_ ?]; lia).
  - by rewrite decide_False by (by intros [? _]).
Qed.

Lemma requests_of_pos requests e : Forall (fun r => 0 < Demand r) (requests_of requests e).
Proof.
  apply Forall_forall. intros r Hr. apply list_elem_of_fmap in Hr as (r' & -> & Hr').
  apply list_elem_of_filter in Hr' as [Ha _]. unfold accepted in Ha. bool_to_prop. simpl. lia.
Qed.

Lemma grant_loop_exchange e cap l : Forall (fun x => al_Exchange x = e) (grant_loop e cap l).
Proof.
  revert cap. induction l as [|r l IH]; intros cap; simpl; [done|]. case_match; [done|]. by constructor.
Qed.

Lemma priority_leb_total x y : priority_leb x y = false -> priority_leb y x = true.
Proof. unfold priority_leb. intros. bool_to_prop. apply Z.leb_le. lia. Qed.
Lemma priority_leb_trans x y z : priority_leb x y = true -> priority_leb y z = true -> priority_leb x z = true.
Proof. unfold priority_leb. intros. bool_to_prop. apply Z.leb_le. lia. Qed.

Lemma sum_pos p l : Forall (fun r => 0 < Demand r) l ->
  0 <= sum_Z (map Demand (filter (fun r => workClassPriority (req_Class r) <= p) l)).
Proof.
  induction 1 as [|r l Hr Hl IH]; [done|]. rewrite filter_cons. case_decide; [|done].
  cbn [map]. rewrite sum_Z_cons. lia.
Qed.

(** The granting loop serves any priority level as fully as the capacity allows. *)
Lemma grant_loop_upto e p cap l :
  0 <= cap -> Forall (fun r => 0 < Demand r) l -> sorted_by priority_leb l ->
  granted_upto (grant_loop e cap l) e p
  = Z.min cap (sum_Z (map Demand (filter (fun r => workClassPriority (req_Class r) <= p) l))).
Proof.
  intros Hc Hd Hs. unfold granted_upto. revert cap Hc.
  induction Hs as [|r l Hs IH Hr]; intros cap Hc; [simpl; unfold sum_Z; simpl; lia|].
  apply Forall_cons in Hd as [Hd Hl]. cbn [grant_loop]. rewrite filter_cons.
  assert (0 <= sum_Z (map Demand (filter (fun r0 => workClassPriority (req_Class r0) <= p) l))) as Hpos
    by (by apply sum_pos).
  destruct (Z.leb_spec cap 0).
  { case_decide; cbn [map]; rewrite ?sum_Z_cons; cbn; lia. }
  rewrite Z.gtb_ltb. set (g := if cap <? Demand r then cap else Demand r).
  assert (0 < g <= cap /\ g = Z.min (Demand r) cap) as [Hg Hgm]
    by (unfold g; destruct (Z.ltb_spec cap (Demand r)); lia).
  rewrite filter_cons. cbn [al_Exchange al_Class].
  specialize (IH Hl (cap - g) ltac:(lia)).
  destruct (decide (workClassPriority (req_Class r) <= p)) as [Hp|Hp].
  - rewrite decide_True by done. cbn [map Granted]. rewrite !sum_Z_cons, IH. lia.
  - rewrite decide_False by (intros [_ ?]; done). rewrite IH.
    assert (filter (fun r0 => workClassPriority (req_Class r0) <= p) l = []) as ->.
    { apply filter_none. apply Forall_forall. intros x Hx. rewrite Forall_forall in Hr.
      specialize (Hr x Hx). unfold priority_leb in Hr. bool_to_prop. lia. }
    cbn. lia.
Qed.

Lemma filter_perm_sum p (l k : list AllocationRequest) : l ≡ₚ k ->
  sum_Z (map Demand (filter (fun r => workClassPriority (req_Class r) <= p) l))
  = sum_Z (map Demand (filter (fun r => workClassPriority (req_Class r) <= p) k)).
Proof.
  induction 1 as [|x l k H IH|x y l|? ? ? ? IH1 ? IH2]; simpl; try done.
  - rewrite !filter_cons. case_decide; [|done]. cbn [map]. rewrite !sum_Z_cons. lia.
  - rewrite !filter_cons. repeat case_decide; cbn [map]; rewrite ?sum_Z_cons; lia.
  - by rewrite IH1.
Qed.

Lemma allocate_exchange_upto a requests e p :
  granted_upto (allocate_exchange a (group requests) e) e p
  = Z.min (Z.max 0 (capacity_of a e)) (demand_upto requests e p).
Proof.
  unfold allocate_exchange. pose proof (requests_of_pos requests e) as Hpos.
  assert (0 <= demand_upto requests e p) by (rewrite demand_requests_of; by apply sum_pos).
  destruct (Z.leb_spec (capacity_of a e) 0); [cbn; lia|].
  rewrite grant_loop_upto; [|lia| |].
  - rewrite (filter_perm_sum p _ _ (stable_sort_perm _ _)), group_lookup, <- demand_requests_of.
    rewrite Z.max_r by lia. done.
  - rewrite stable_sort_perm. by rewrite group_lookup.
  - apply stable_sort_sorted; eauto using priority_leb_total, priority_leb_trans.
Qed.

Lemma granted_upto_app x y e p : granted_upto (x ++ y) e p = granted_upto x e p + granted_upto y e p.
Proof. unfold granted_upto. by rewrite filter_app, map_app, sum_Z_app. Qed.

Lemma granted_upto_other a g e e' p : e <> e' -> granted_upto (allocate_exchange a g e) e' p = 0.
Proof.
  intros Hne. unfold granted_upto. assert (filter _ (allocate_exchange a g e) = []) as ->; [|done].
  apply filter_none. unfold allocate_exchange. case_match; [constructor|].
  eapply Forall_impl; [apply grant_loop_exchange|]. intros x Hx [? _]. congruence.
Qed.

Lemma granted_upto_keys a g keys e p :
  NoDup keys ->
  granted_upto (flat_map (allocate_exchange a g) keys) e p
  = if decide (e ∈ keys) then granted_upto (allocate_exchange a g e) e p else 0.
Proof.
  induction 1 as [|k keys Hk Hnd IH]; simpl; [done|]. rewrite granted_upto_app, IH.
  destruct (decide (k = e)) as [->|Hne].
  - rewrite (decide_False (P := e ∈ keys)) by done. rewrite decide_True by (left; done). lia.
  - rewrite granted_upto_other by done. destruct (decide (e ∈ keys)).
    + rewrite decide_True by (by right). lia.
    + rewrite decide_False by (rewrite elem_of_cons; intros [?|?]; congruence). lia.
Qed.

Lemma group_keys_NoDup requests : NoDup (map fst (map_to_list (group requests))).
Proof. apply NoDup_fst_map_to_list. Qed.

Lemma group_keys_missing requests e p :
  e ∉ map fst (map_to_list (group requests)) -> demand_upto requests e p = 0.
Proof.
  intros He. rewrite demand_requests_of, <- group_lookup.
  destruct (group requests !! e) as [l|] eqn:E; [|done].
  exfalso. apply He. apply list_elem_of_fmap. exists (e, l). split; [done|]. by apply elem_of_map_to_list.
Qed.

(** strict priority.  For every exchange and every priority level [p], the requests of
    level [p] or more urgent receive together exactly the smaller of the exchange's capacity
    and their total demand: nothing is granted to a less urgent class while a more urgent one
    is short, no capacity is left unused while there is demand, and the capacity is never
    exceeded. *)
Theorem Allocate_strict_priority a requests e p :
  granted_upto (Allocate a requests) e p
  = Z.min (Z.max 0 (capacity_of a e)) (demand_upto requests e p).
Proof.
  unfold Allocate, Allocate_keys. rewrite granted_upto_keys.
  2: { rewrite stable_sort_perm. apply group_keys_NoDup. }
  case_decide as He; [apply allocate_exchange_upto|].
  rewrite elem_of_stable_sort in He. rewrite (group_keys_missing _ _ _ He). lia.
Qed.

#[export] Instance str_leb_AntiSymm : AntiSymm (=) (fun x y => str_leb x y = true).
Proof. intros x y. apply str_leb_antisym. Qed.

(** the result does not depend on the iteration order of Go's map: whatever order the
    exchanges are visited in, the allocations are the same list. *)
Theorem Allocate_order_independent a requests keys :
  keys ≡ₚ map fst (map_to_list (group requests)) ->
  Allocate_keys a requests keys = Allocate a requests.
Proof.
  intros Hp. unfold Allocate, Allocate_keys. f_equal.
  apply (StronglySorted_unique (fun x y => str_leb x y = true)).
  - apply stable_sort_sorted; eauto with golib.
  - apply stable_sort_sorted; eauto with golib.
  - by rewrite !stable_sort_perm.
Qed.

Definition demo_requests : list AllocationRequest :=
  [ MkRequest "okx" WorkDebugRetry 2;
    MkRequest "binance" WorkHistoricalBackfill 5;
    MkRequest " Binance" WorkWatchlistRealtime 3;
    MkRequest "binance" WorkTop100OneMinute 3 ].
Definition demo_capacity : BudgetAllocator := {[ "binance" := 5; "okx" := 1 ]}.

Lemma Allocate_order_independent_witness :
  Allocate_keys demo_capacity demo_requests ["okx"; "binance"] =
  [ MkAllocation "binance" WorkWatchlistRealtime 3;
    MkAllocation "binance" WorkTop100OneMinute 2;
    MkAllocation "okx" WorkDebugRetry 1 ].
Proof.
  rewrite (Allocate_order_independent demo_capacity demo_requests ["okx"; "binance"]);
    [vm_compute; reflexivity|].
  assert (map fst (map_to_list (group demo_requests)) = ["okx"; "binance"] \/
          map fst (map_to_list (group demo_requests)) = ["binance"; "okx"]) as [-> | ->];
    [vm_compute; auto | done | constructor].
Defined.
