(* ===== verification/GoJson.v ===== *)
(** * JSON values ([encoding/json])

    [json.RawMessage] as the services use it: empty, text that is not JSON, or a
    value.  A number literal is an integer ([JInt]) or carries a fraction or an
    exponent ([JFloat], with the binary64 value the literal denotes, infinite when it is out of
    range, which every decoder refuses).  The texts of the decoder's errors are not modelled: one
    error, [json_error], stands for all of them.
    [json.Unmarshal] into a struct visits the members in order, matches names
    without regard to case, leaves the field alone on [null], and reports a member of
    the wrong type as an error at the end. *)

From S2P Require Import Prelude GoString GoFloat GoFloatSign GoError.

Inductive json : Type :=
| JNull
| JBool (b : bool)
| JInt (z : Z)
| JFloat (f : float64)
| JString (s : string)
| JArray (l : list json)
| JObject (l : list (string * json)).

Inductive RawMessage : Type :=
| RawEmpty
| RawInvalid (text : string)
| RawJson (v : json).

Definition json_error : error := ErrorString "json: cannot unmarshal value".

Definition raw_is_empty (r : RawMessage) : bool := match r with RawEmpty => true | _ => false end.

(** [json.Marshal] of a [map[string]any]: members in key order. *)
Definition json_map (l : list (string * json)) : json :=
  JObject (stable_sort (fun x y => str_leb (fst x) (fst y)) l).

(** Whether [json.Marshal] accepts a float. *)
Definition marshalable (f : float64) : bool :=
  match f with S754_nan | S754_infinity _ => false | _ => true end.

(** ** Decoding one member into a field: [None] is a type error, [Some None] leaves the
    field alone. *)
Definition dec_int (v : json) : option (option Z) :=
  match v with
  | JNull => Some None
  | JInt z => if bool_decide (int64_ok z) then Some (Some z) else None
  | _ => None
  end.

Definition dec_float (v : json) : option (option float64) :=
  match v with
  | JNull => Some None
  | JInt z => let f := f64_of_Z z in if is_inf f then None else Some (Some f)
  | JFloat f => if is_inf f then None else Some (Some f)
  | _ => None
  end.

Definition dec_string (v : json) : option (option string) :=
  match v with
  | JNull => Some None
  | JString s => Some (Some s)
  | _ => None
  end.

Definition dec_bool (v : json) : option (option bool) :=
  match v with
  | JNull => Some None
  | JBool b => Some (Some b)
  | _ => None
  end.

(** A field of a struct [A]: its JSON name and how a member updates it. *)
Record field (A : Type) := MkField { field_name : string; field_set : json -> A -> option A }.
Arguments MkField {A}. Arguments field_name {A}. Arguments field_set {A}.

(** A field from a decoder and a setter. *)
Definition fld {A B} (name : string) (dec : json -> option (option B)) (set : B -> A -> A) : field A :=
  MkField name (fun v a =>
    match dec v with
    | None => None
    | Some None => Some a
    | Some (Some b) => Some (set b a)
    end).

(** One member: the field of that name takes it; members of no field are skipped. *)
Definition dec_member {A} (fields : list (field A)) (st : A * bool) (m : string * json) : A * bool :=
  match find (fun f => EqualFold (field_name f) (fst m)) fields with
  | None => st
  | Some f => match field_set f (snd m) (fst st) with
              | Some a => (a, snd st)
              | None => (fst st, false)
              end
  end.

(** [json.Unmarshal] of a value into a struct: the struct as far as it was filled, and
    whether the error is nil. *)
Definition unmarshal_struct {A} (fields : list (field A)) (v : json) (a : A) : A * bool :=
  match v with
  | JNull => (a, true)
  | JObject l => foldl (dec_member fields) (a, true) l
  | _ => (a, false)
  end.

(** [meta, _ := v.(map[string]any)] and [meta[name].(string)]: the last member of that
    exact name, when it is a string. *)
Definition member (v : json) (name : string) : option json :=
  match v with
  | JObject l => snd <$> last (filter (fun m => fst m = name) l)
  | _ => None
  end.

Definition member_string (v : json) (name : string) : string :=
  match member v name with Some (JString s) => s | _ => "" end.
