(* ===== verification/GoJsonText.v ===== *)
(** * JSON text ([encoding/json])

    The text of a [json.RawMessage]: the grammar [json.Unmarshal] checks before it decodes, with
    string escapes, the replacement of invalid UTF-8 and the nesting limit; then decoding into
    slices, arrays of [any] and structs whose errors end the caller, and [json.Marshal] of what was
    decoded.  The integer literal [-0] is read as [0]. *)

From Stdlib Require Import Ascii.
From S2P Require Import Prelude GoString GoFloat GoFloatSign GoError GoStrconv GoJson.

(** ** UTF-8 *)

Definition byte_in (c : ascii) (lo hi : Z) : bool := (lo <=? Z_of_byte c) && (Z_of_byte c <=? hi).

(** The valid sequence of two or more bytes at the head, and what follows it. *)
Definition utf8_sequence (l : bytes) : option (bytes * bytes) :=
  let cont c := byte_in c 128 191 in
  match l with
  | a :: b :: l2 =>
    if byte_in a 194 223 && cont b then Some ([a; b], l2) else
    match l2 with
    | c :: l3 =>
      if cont c && ((byte_is a 224 && byte_in b 160 191) || (byte_in a 225 236 && cont b)
                    || (byte_is a 237 && byte_in b 128 159) || (byte_in a 238 239 && cont b))
      then Some ([a; b; c], l3) else
      match l3 with
      | d :: l4 =>
        if cont c && cont d && ((byte_is a 240 && byte_in b 144 191) || (byte_in a 241 243 && cont b)
                                || (byte_is a 244 && byte_in b 128 143))
        then Some ([a; b; c; d], l4) else None
      | [] => None
      end
    | [] => None
    end
  | _ => None
  end.

(** [utf8.AppendRune]; a surrogate is written as U+FFFD. *)
Definition utf8_encode (r : Z) : bytes :=
  let r := if (55296 <=? r) && (r <=? 57343) then 65533 else r in
  map byte_of_Z
    (if r <? 128 then [r] else
     if r <? 2048 then [192 + r / 64; 128 + r mod 64] else
     if r <? 65536 then [224 + r / 4096; 128 + r / 64 mod 64; 128 + r mod 64] else
     [240 + r / 262144; 128 + r / 4096 mod 64; 128 + r / 64 mod 64; 128 + r mod 64]).

(** ** Scanning *)

Fixpoint skip_ws (l : bytes) : bytes :=
  match l with
  | c :: l' => if byte_is c 32 || byte_is c 9 || byte_is c 10 || byte_is c 13 then skip_ws l' else l
  | [] => []
  end.

(** Four hexadecimal digits. *)
Definition hex4 (l : bytes) : option (Z * bytes) :=
  match l with
  | a :: b :: c :: d :: l' =>
    match hex_val a, hex_val b, hex_val c, hex_val d with
    | Some a, Some b, Some c, Some d => Some (((a * 16 + b) * 16 + c) * 16 + d, l')
    | _, _, _, _ => None
    end
  | _ => None
  end.

(** The second half of a surrogate pair whose first half is [r]. *)
Definition surrogate_pair (r : Z) (l : bytes) : option (Z * bytes) :=
  match l with
  | bs :: u :: l' =>
    if byte_is bs 92 && byte_is u 117 then
      match hex4 l' with
      | Some (r2, l'') =>
        if (55296 <=? r) && (r <? 56320) && (56320 <=? r2) && (r2 <? 57344)
        then Some (65536 + (r - 55296) * 1024 + (r2 - 56320), l'') else None
      | None => None
      end
    else None
  | _ => None
  end.

(** The escape after a backslash: the bytes it stands for and the rest. *)
Definition scan_escape (l : bytes) : option (bytes * bytes) :=
  match l with
  | c :: l' =>
    let z := Z_of_byte c in
    if (z =? 34) || (z =? 92) || (z =? 47) then Some ([c], l') else
    if z =? 98 then Some ([byte_of_Z 8], l') else if z =? 102 then Some ([byte_of_Z 12], l') else
    if z =? 110 then Some ([byte_of_Z 10], l') else if z =? 114 then Some ([byte_of_Z 13], l') else
    if z =? 116 then Some ([byte_of_Z 9], l') else
    if z =? 117 then
      match hex4 l' with
      | Some (r, l'') =>
        match surrogate_pair r l'' with
        | Some (r2, rest) => Some (utf8_encode r2, rest)
        | None => Some (utf8_encode r, l'')
        end
      | None => None
      end
    else None
  | [] => None
  end.

(** The body of a string after its opening quote: its value and what follows the closing quote. *)
Fixpoint scan_string (n : nat) (l : bytes) : option (bytes * bytes) :=
  match n with
  | O => None
  | S n =>
    match l with
    | [] => None
    | c :: l' =>
      if byte_is c 34 then Some ([], l') else
      if byte_is c 92 then
        match scan_escape l' with
        | Some (b, rest) => (fun r => (b ++ fst r, snd r)%list) <$> scan_string n rest
        | None => None
        end
      else if Z_of_byte c <? 32 then None
      else if Z_of_byte c <? 128 then (fun r => (c :: fst r, snd r)) <$> scan_string n l'
      else match utf8_sequence l with
           | Some (b, rest) => (fun r => (b ++ fst r, snd r)%list) <$> scan_string n rest
           | None => (fun r => (utf8_encode 65533 ++ fst r, snd r)%list) <$> scan_string n l'
           end
    end
  end.

Fixpoint span_digits (l : bytes) : bytes * bytes :=
  match l with
  | c :: l' => if bool_decide (is_Some (digit_val c)) then let '(d, r) := span_digits l' in (c :: d, r) else ([], l)
  | [] => ([], [])
  end.

(** A number literal: whether it is an integer, its text and the rest. *)
Definition scan_number (l : bytes) : option (bool * bytes * bytes) :=
  let '(sign, l1) := match l with c :: l' => if byte_is c 45 then ([c], l') else ([], l) | [] => ([], []) end in
  let '(int, l2) := match l1 with c :: l' => if byte_is c 48 then ([c], l') else span_digits l1 | [] => ([], []) end in
  if bool_decide (int = []) then None else
  let frac := match l2 with
              | c :: l' => if byte_is c 46 then
                             let '(d, r) := span_digits l' in if bool_decide (d = []) then None else Some (c :: d, r)
                           else Some ([], l2)
              | [] => Some ([], [])
              end in
  match frac with
  | None => None
  | Some (frac, l3) =>
    let exp := match l3 with
               | c :: l' =>
                 if byte_is (lower_byte c) 101 then
                   let '(s, l'') := match l' with
                                    | x :: r => if byte_is x 45 || byte_is x 43 then ([x], r) else ([], l')
                                    | [] => ([], [])
                                    end in
                   let '(d, r) := span_digits l'' in
                   if bool_decide (d = []) then None else Some (c :: s ++ d, r)%list
                 else Some ([], l3)
               | [] => Some ([], [])
               end in
    match exp with
    | None => None
    | Some (exp, rest) =>
      Some (bool_decide (frac = []) && bool_decide (exp = []), sign ++ int ++ frac ++ exp, rest)%list
    end
  end.

Definition number_value (int : bool) (lit : bytes) : json :=
  if int then
    match lit with
    | c :: l' => if byte_is c 45 then JInt (- default 0 (parse_digits 0 l')) else JInt (default 0 (parse_digits 0 lit))
    | [] => JInt 0
    end
  else JFloat (fst (ParseFloat (of_bytes lit))).

(** ** Values

    [n] is fuel: a value, a member or an element each consume input, so twice the length is enough;
    [d] is the nesting depth, at most ten thousand. *)
Definition max_nesting : Z := 10000.

Fixpoint scan_value (n : nat) (d : Z) (l : bytes) {struct n} : option (json * bytes) :=
  match n with
  | O => None
  | S n =>
    let l := skip_ws l in
    match l with
    | [] => None
    | c :: l' =>
      if byte_is c 123 then
        if max_nesting <? d + 1 then None else
        match skip_ws l' with
        | e :: rest => if byte_is e 125 then Some (JObject [], rest)
                       else (fun r => (JObject (fst r), snd r)) <$> scan_members n (d + 1) l'
        | [] => None
        end
      else if byte_is c 91 then
        if max_nesting <? d + 1 then None else
        match skip_ws l' with
        | e :: rest => if byte_is e 93 then Some (JArray [], rest)
                       else (fun r => (JArray (fst r), snd r)) <$> scan_elements n (d + 1) l'
        | [] => None
        end
      else if byte_is c 34 then (fun r => (JString (of_bytes (fst r)), snd r)) <$> scan_string (length l') l'
      else match match_prefix (to_bytes "true") l, match_prefix (to_bytes "false") l, match_prefix (to_bytes "null") l with
           | Some r, _, _ => Some (JBool true, r)
           | _, Some r, _ => Some (JBool false, r)
           | _, _, Some r => Some (JNull, r)
           | _, _, _ => (fun r => (number_value (fst (fst r)) (snd (fst r)), snd r)) <$> scan_number l
           end
    end
  end
with scan_members (n : nat) (d : Z) (l : bytes) {struct n} : option (list (string * json) * bytes) :=
  match n with
  | O => None
  | S n =>
    match skip_ws l with
    | q :: l1 =>
      if negb (byte_is q 34) then None else
      match scan_string (length l1) l1 with
      | Some (k, l2) =>
        match skip_ws l2 with
        | c :: l3 =>
          if negb (byte_is c 58) then None else
          match scan_value n d l3 with
          | Some (v, l4) =>
            match skip_ws l4 with
            | e :: l5 =>
              if byte_is e 125 then Some ([(of_bytes k, v)], l5) else
              if byte_is e 44 then (fun r => ((of_bytes k, v) :: fst r, snd r)) <$> scan_members n d l5 else None
            | [] => None
            end
          | None => None
          end
        | [] => None
        end
      | None => None
      end
    | [] => None
    end
  end
with scan_elements (n : nat) (d : Z) (l : bytes) {struct n} : option (list json * bytes) :=
  match n with
  | O => None
  | S n =>
    match scan_value n d l with
    | Some (v, l1) =>
      match skip_ws l1 with
      | e :: l2 =>
        if byte_is e 93 then Some ([v], l2) else
        if byte_is e 44 then (fun r => (v :: fst r, snd r)) <$> scan_elements n d l2 else None
      | [] => None
      end
    | None => None
    end
  end.

(** The message a byte slice holds. *)
Definition raw_of_bytes (body : string) : RawMessage :=
  let l := to_bytes body in
  if bool_decide (l = []) then RawEmpty else
  match scan_value (S (2 * length l)) 0 l with
  | Some (v, rest) => if bool_decide (skip_ws rest = []) then RawJson v else RawInvalid body
  | None => RawInvalid body
  end.

(** ** Decoding

    Every caller gives up on an error, so a decoder here returns the value of a fully successful
    [json.Unmarshal] or nothing. *)

(** [json.Unmarshal(raw, &x)]. *)
Definition Unmarshal {A} (dec : json -> option A) (raw : RawMessage) : option A :=
  match raw with RawJson v => dec v | _ => None end.

(** A fresh variable or element: [null] leaves the zero value. *)
Definition fresh {A} (zero : A) (dec : json -> option (option A)) (v : json) : option A :=
  default zero <$> dec v.

(** A member of a struct: the members of that name are decoded in turn into the same field. *)
Definition member_of {A} (zero : A) (dec : json -> option (option A)) (name : string) (v : json) : option A :=
  match v with
  | JNull => Some zero
  | JObject l =>
    foldl (fun acc m => match acc with
                        | None => None
                        | Some a => if EqualFold name (fst m) then default a <$> dec (snd m) else Some a
                        end) (Some zero) l
  | _ => None
  end.

Definition str_field (name : string) (v : json) : option string := member_of "" dec_string name v.
Definition int_field (name : string) (v : json) : option Z := member_of 0 dec_int name v.
Definition float_field (name : string) (v : json) : option float64 := member_of f64_zero dec_float name v.
Definition bool_field (name : string) (v : json) : option bool := member_of false dec_bool name v.

(** A [*int] field: [null] makes it nil. *)
Definition dec_int_ptr (v : json) : option (option (option Z)) :=
  match v with JNull => Some (Some None) | _ => option_map (option_map Some) (dec_int v) end.
Definition int_ptr_field (name : string) (v : json) : option (option Z) := member_of None dec_int_ptr name v.

(** A [json.RawMessage] field takes any value, [null] included. *)
Definition dec_raw (v : json) : option (option RawMessage) := Some (Some (RawJson v)).
Definition raw_field (name : string) (v : json) : option RawMessage := member_of RawEmpty dec_raw name v.

(** Every element, or nothing. *)
Fixpoint all_some {A} (l : list (option A)) : option (list A) :=
  match l with
  | [] => Some []
  | None :: _ => None
  | Some a :: l' => (fun r => a :: r) <$> all_some l'
  end.

(** A slice: [null] is the nil slice. *)
Definition dec_slice {A} (elem : json -> option A) (v : json) : option (option (list A)) :=
  match v with
  | JNull => Some None
  | JArray l => Some <$> all_some (map elem l)
  | _ => None
  end.
Definition slice {A} (elem : json -> option A) : json -> option (list A) := fresh [] (dec_slice elem).
Definition slice_field {A} (elem : json -> option A) (name : string) (v : json) : option (list A) :=
  member_of [] (dec_slice elem) name v.

(** [[][]string] and [[][]float64]. *)
Definition str_elem : json -> option string := fresh "" dec_string.
Definition float_elem : json -> option float64 := fresh f64_zero dec_float.
Definition int_elem : json -> option Z := fresh 0 dec_int.
Definition str_rows_field (name : string) (v : json) : option (list (list string)) := slice_field (slice str_elem) name v.
Definition float_rows_field (name : string) (v : json) : option (list (list float64)) := slice_field (slice float_elem) name v.

(** ** [any] *)

Inductive any : Type :=
| ANil
| ABool (b : bool)
| AFloat (f : float64)
| AInt (z : Z)
| AString (s : string)
| ASlice (l : list any)
| AMap (l : list (string * any)).

(** Assignment into a map that is kept in order of first insertion. *)
Fixpoint assoc_set {A} (k : string) (v : A) (l : list (string * A)) : list (string * A) :=
  match l with
  | [] => [(k, v)]
  | (k', v') :: l' => if (k =? k')%string then (k, v) :: l' else (k', v') :: assoc_set k v l'
  end.

(** [json.Unmarshal] into an [any]: every number is a [float64]. *)
Fixpoint dec_any (v : json) : option any :=
  match v with
  | JNull => Some ANil
  | JBool b => Some (ABool b)
  | JInt _ | JFloat _ => AFloat <$> fresh f64_zero dec_float v
  | JString s => Some (AString s)
  | JArray l => ASlice <$> all_some (map dec_any l)
  | JObject l =>
    (fun r => AMap (foldl (fun acc m => assoc_set (fst m) (snd m) acc) [] r)) <$>
    all_some (map (fun m => (fun a => (fst m, a)) <$> dec_any (snd m)) l)
  end.

(** An array [[n]any]: missing elements are nil, extra ones are skipped. *)
Definition array_any (n : nat) (v : json) : option (list any) :=
  match v with
  | JNull => Some (repeat ANil n)
  | JArray l => (fun r => (r ++ repeat ANil (n - length r))%list) <$> all_some (map dec_any (take n l))
  | _ => None
  end.

(** [json.Marshal] of a float: small integers print without a point. *)
Definition marshal_float (f : float64) : option json :=
  if negb (marshalable f) then None else
  match f64_trunc f with
  | Some z => if (Z.abs z <=? 2 ^ 53) && feq f (f64_of_Z z) then Some (JInt z) else Some (JFloat f)
  | None => Some (JFloat f)
  end.

Fixpoint marshal_any (a : any) : option json :=
  match a with
  | ANil => Some JNull
  | ABool b => Some (JBool b)
  | AFloat f => marshal_float f
  | AInt z => Some (JInt z)
  | AString s => Some (JString s)
  | ASlice l => JArray <$> all_some (map marshal_any l)
  | AMap l => json_map <$> all_some (map (fun m => (fun v => (fst m, v)) <$> marshal_any (snd m)) l)
  end.

(** The elements of an [[n]any] are always [n]. *)
Lemma all_some_length {A} (l : list (option A)) r : all_some l = Some r -> length r = length l.
Proof.
  revert r. induction l as [|[a|] l IH]; intros r; simpl; [by intros [= <-]| |done].
  destruct (all_some l); simpl; [|done]. intros [= <-]. simpl. by rewrite (IH _ eq_refl).
Qed.

Lemma array_any_length n v r : array_any n v = Some r -> length r = n.
Proof.
  unfold array_any. destruct v; try done; [intros [= <-]; apply repeat_length|].
  destruct (all_some _) as [k|] eqn:E; simpl; [|done]. intros [= <-].
  apply all_some_length in E. rewrite length_map, length_take in E.
  rewrite length_app, repeat_length. lia.
Qed.

(** ** Examples; apostrophes stand for quotes *)

Definition quoted (s : string) : string :=
  of_bytes (map (fun c => if byte_is c 39 then byte_of_Z 34 else c) (to_bytes s)).

Example scan_1 : raw_of_bytes (quoted "{'a': [1, -2.5, 'x\u0041\ud83d\ude00', true, null, {}]} ")
  = RawJson (JObject [("a", JArray [JInt 1; JFloat (f64_dec (-25) (-1));
      JString (of_bytes (map byte_of_Z [120; 65; 240; 159; 152; 128])); JBool true; JNull; JObject []])]).
Proof. vm_compute. reflexivity. Qed.
Example scan_2 : map (fun s => match raw_of_bytes (quoted s) with RawInvalid _ => true | _ => false end)
    ["01"; "1."; "[1,]"; "{'a':1,}"; "'a"; "nul"; "1 2"; "-"; "[1"; "0.5e-3"; "[]"]
  = [true; true; true; true; true; true; true; true; true; false; false].
Proof. vm_compute. reflexivity. Qed.
