(* ===== verification/JsonScan.v ===== *)
(** * Fuel of the JSON scanner

    The scanner of [GoJsonText] recurses on fuel.  Here: whatever it reads, it returns a shorter rest,
    and more fuel than twice the length of its input plus one never changes its answer, so that a
    refusal is always one of the grammar or of the nesting limit. *)

From Stdlib Require Import Ascii.
From S2P Require Import Prelude GoString GoFloat GoError GoStrconv GoJson GoJsonText.

(** ** Every scanner consumes input *)

(** Split the tests and matches of a scanner's equation. *)
Ltac scan_cases H :=
  repeat (simplify_eq/=; match type of H with
  | context [match ?x with _ => _ end] => destruct x eqn:?
  end); simplify_eq/=.

Lemma skip_ws_len l : (length (skip_ws l) <= length l)%nat.
Proof. induction l as [|c l IH]; cbn [skip_ws]; [done|]. case_match; cbn [length]; lia. Qed.

Lemma skip_ws_cons l c r : skip_ws l = c :: r -> (length r < length l)%nat.
Proof. intros E. pose proof (skip_ws_len l) as H. rewrite E in H. cbn [length] in H. lia. Qed.

Lemma hex4_len l z r : hex4 l = Some (z, r) -> (length r < length l)%nat.
Proof. unfold hex4. intros H. scan_cases H. lia. Qed.

Lemma surrogate_pair_len z l z' r : surrogate_pair z l = Some (z', r) -> (length r < length l)%nat.
Proof. unfold surrogate_pair. intros H. scan_cases H. apply hex4_len in Heqo. lia. Qed.

Lemma scan_escape_len l b r : scan_escape l = Some (b, r) -> (length r < length l)%nat.
Proof.
  unfold scan_escape. intros H. destruct l as [|c l]; [done|]. cbn [length]. cbv zeta in H.
  repeat match type of H with (if ?b then _ else _) = _ => destruct b; [by simplify_eq; lia|] end.
  destruct (_ =? 117); [|done]. destruct (hex4 l) as [[z l2]|] eqn:E1; [|done]. apply hex4_len in E1.
  destruct (surrogate_pair z l2) as [[z2 l3]|] eqn:E2; simplify_eq; [apply surrogate_pair_len in E2|]; lia.
Qed.

Lemma utf8_sequence_len l b r : utf8_sequence l = Some (b, r) -> (length r < length l)%nat.
Proof. unfold utf8_sequence. intros H. scan_cases H; lia. Qed.

Lemma scan_string_len n l v r : scan_string n l = Some (v, r) -> (length r < length l)%nat.
Proof.
  revert l v r. induction n as [|n IH]; intros [|c l] v r; cbn [scan_string]; try done.
  destruct (byte_is c 34); [intros [= <- <-]; cbn; lia|].
  assert (forall k f, (length k < length (c :: l))%nat ->
            (fun x => (f (fst x), snd x)) <$> scan_string n k = Some (v, r) -> (length r < length (c :: l))%nat) as Hrec.
  { intros k f Hk ([v' r'] & E & [= -> ->])%fmap_Some. apply IH in E. lia. }
  destruct (byte_is c 92).
  - destruct (scan_escape l) as [[b k]|] eqn:E; [|done]. apply Hrec. apply scan_escape_len in E. cbn [length]. lia.
  - destruct (_ <? 32); [done|]. destruct (_ <? 128); [apply Hrec; cbn [length]; lia|].
    destruct (utf8_sequence _) as [[b k]|] eqn:E; apply Hrec; [|cbn [length]; lia]. by apply utf8_sequence_len in E.
Qed.

Lemma span_digits_len l d r : span_digits l = (d, r) -> (length r + length d = length l)%nat.
Proof.
  revert d r. induction l as [|c l IH]; intros d r; cbn [span_digits]; [by intros [= <- <-]|].
  case_bool_decide; [|by intros [= <- <-]]. destruct (span_digits l) as [d' r'] eqn:E. intros [= <- <-].
  cbn [length]. rewrite <- (IH d' r' eq_refl). lia.
Qed.

Lemma nonempty_len {A} (l : list A) : l <> [] -> (0 < length l)%nat.
Proof. destruct l; [done|]. cbn. lia. Qed.

Lemma scan_number_len l b v r : scan_number l = Some (b, v, r) -> (length r < length l)%nat.
Proof.
  unfold scan_number. intros H.
  destruct (match l with [] => _ | _ => _ end) as [sign l1] eqn:E1 in H.
  assert (length l1 <= length l)%nat as H1 by (scan_cases E1; cbn; lia).
  destruct (match l1 with [] => _ | _ => _ end) as [int l2] eqn:E2 in H.
  case_bool_decide as Hi; [done|]. apply nonempty_len in Hi.
  assert (length l2 < length l1)%nat as H2.
  { destruct l1 as [|c l1']; [by simplify_eq|]. destruct (byte_is c 48); [simplify_eq; cbn; lia|].
    apply span_digits_len in E2. lia. }
  destruct (match l2 with [] => _ | _ => _ end) as [[frac l3]|] eqn:E3 in H; [|done].
  assert (length l3 <= length l2)%nat as H3.
  { destruct l2 as [|c l2']; [by simplify_eq|]. destruct (byte_is c 46); [|by simplify_eq].
    destruct (span_digits l2') as [d r'] eqn:E. apply span_digits_len in E.
    destruct (bool_decide _) in E3; simplify_eq. cbn [length]. lia. }
  destruct (match l3 with [] => _ | _ => _ end) as [[exp rest]|] eqn:E4 in H; [|done]. simplify_eq.
  assert (length r <= length l3)%nat; [|lia].
  destruct l3 as [|c l3']; [by simplify_eq|]. destruct (byte_is _ 101); [|by simplify_eq].
  destruct (match l3' with [] => _ | _ => _ end) as [s l4] eqn:E5 in E4.
  assert (length l4 <= length l3')%nat by (scan_cases E5; cbn; lia).
  destruct (span_digits l4) as [d r'] eqn:E. apply span_digits_len in E.
  destruct (bool_decide _) in E4; simplify_eq. cbn [length]. lia.
Qed.

Lemma match_prefix_len p l r : match_prefix p l = Some r -> (length r + length p = length l)%nat.
Proof.
  revert l. induction p as [|a p IH]; intros l; cbn [match_prefix length].
  - intros [= ->]. lia.
  - destruct l as [|b l]; [done|]. destruct (Ascii.eqb a b); [|done]. intros H%IH. cbn [length]. lia.
Qed.

(** ** Values *)

Lemma scan_shrinks n :
  (forall d l v r, scan_value n d l = Some (v, r) -> (length r < length l)%nat) /\
  (forall d l v r, scan_members n d l = Some (v, r) -> (length r < length l)%nat) /\
  (forall d l v r, scan_elements n d l = Some (v, r) -> (length r < length l)%nat).
Proof.
  induction n as [|n (IHv & IHm & IHe)]; [done|]. split_and!; intros d l v r.
  - cbn [scan_value]. pose proof (skip_ws_len l) as Hw. destruct (skip_ws l) as [|c k]; [done|]. cbn [length] in Hw.
    destruct (byte_is c 123); [|destruct (byte_is c 91)].
    + destruct (_ <? _); [done|]. destruct (skip_ws k) as [|e rest] eqn:Es; [done|]. apply skip_ws_cons in Es.
      destruct (byte_is e 125); [intros [= <- <-]; lia|]. intros ([v' r'] & E%IHm & [= -> ->])%fmap_Some. cbn [snd]. lia.
    + destruct (_ <? _); [done|]. destruct (skip_ws k) as [|e rest] eqn:Es; [done|]. apply skip_ws_cons in Es.
      destruct (byte_is e 93); [intros [= <- <-]; lia|]. intros ([v' r'] & E%IHe & [= -> ->])%fmap_Some. cbn [snd]. lia.
    + destruct (byte_is c 34); [intros ([v' r'] & E%scan_string_len & [= -> ->])%fmap_Some; cbn [snd]; lia|].
      destruct (match_prefix _ (c :: k)) as [r'|] eqn:E1; [apply match_prefix_len in E1; intros [= <- <-]; cbn in E1; lia|].
      destruct (match_prefix (to_bytes "false") (c :: k)) as [r'|] eqn:E2;
        [apply match_prefix_len in E2; intros [= <- <-]; cbn in E2; lia|].
      destruct (match_prefix (to_bytes "null") (c :: k)) as [r'|] eqn:E3;
        [apply match_prefix_len in E3; intros [= <- <-]; cbn in E3; lia|].
      intros ([[b v'] r'] & E%scan_number_len & [= -> ->])%fmap_Some. cbn [snd length] in *. lia.
  - cbn [scan_members]. destruct (skip_ws l) as [|q l1] eqn:E1; [done|]. apply skip_ws_cons in E1.
    destruct (negb _); [done|]. destruct (scan_string _ l1) as [[k l2]|] eqn:E2; [|done]. apply scan_string_len in E2.
    destruct (skip_ws l2) as [|c l3] eqn:E3; [done|]. apply skip_ws_cons in E3. destruct (negb _); [done|].
    destruct (scan_value n d l3) as [[v' l4]|] eqn:E4; [|done]. apply IHv in E4.
    destruct (skip_ws l4) as [|e l5] eqn:E5; [done|]. apply skip_ws_cons in E5.
    destruct (byte_is e 125); [intros [= <- <-]; lia|]. destruct (byte_is e 44); [|done].
    intros ([v2 r2] & E%IHm & [= -> ->])%fmap_Some. cbn [snd]. lia.
  - cbn [scan_elements]. destruct (scan_value n d l) as [[v' l1]|] eqn:E1; [|done]. apply IHv in E1.
    destruct (skip_ws l1) as [|e l2] eqn:E2; [done|]. apply skip_ws_cons in E2.
    destruct (byte_is e 93); [intros [= <- <-]; lia|]. destruct (byte_is e 44); [|done].
    intros ([v2 r2] & E%IHe & [= -> ->])%fmap_Some. cbn [snd]. lia.
Qed.

(** Fuel beyond the bound of each scanner changes nothing: a value of [k] bytes needs [2 * k + 1], a
    list of members or elements one more. *)
Lemma scan_more n :
  (forall m d l, (2 * length l < n <= m)%nat -> scan_value m d l = scan_value n d l) /\
  (forall m d l, (2 * length l < n <= m)%nat -> scan_members m d l = scan_members n d l) /\
  (forall m d l, (2 * length l + 1 < n <= m)%nat -> scan_elements m d l = scan_elements n d l).
Proof.
  induction n as [|n (IHv & IHm & IHe)]; [split_and!; intros; lia|].
  split_and!; intros [|m] d l Hn; [lia| |lia| |lia|].
  - cbn [scan_value]. pose proof (skip_ws_len l) as Hw. destruct (skip_ws l) as [|c k]; [done|]. cbn [length] in Hw.
    destruct (byte_is c 123); [|destruct (byte_is c 91)]; [by rewrite (IHm m) by lia|by rewrite (IHe m) by lia|done].
  - cbn [scan_members]. destruct (skip_ws l) as [|q l1] eqn:E1; [done|]. apply skip_ws_cons in E1.
    destruct (negb _); [done|]. destruct (scan_string _ l1) as [[k l2]|] eqn:E2; [|done]. apply scan_string_len in E2.
    destruct (skip_ws l2) as [|c l3] eqn:E3; [done|]. apply skip_ws_cons in E3. destruct (negb _); [done|].
    rewrite (IHv m) by lia. destruct (scan_value n d l3) as [[v' l4]|] eqn:E4; [|done]. apply (scan_shrinks n) in E4.
    destruct (skip_ws l4) as [|e l5] eqn:E5; [done|]. apply skip_ws_cons in E5. by rewrite (IHm m) by lia.
  - cbn [scan_elements]. rewrite (IHv m) by lia. destruct (scan_value n d l) as [[v' l1]|] eqn:E1; [|done].
    apply (scan_shrinks n) in E1. destruct (skip_ws l1) as [|e l2] eqn:E2; [done|]. apply skip_ws_cons in E2.
    by rewrite (IHe m) by lia.
Qed.

(** The scanner returns for every input: no amount of fuel beyond the one [raw_of_bytes] gives changes
    what it answers, and a value that was read leaves a proper suffix's length of the input. *)
Theorem scan_value_total l d m :
  (2 * length l < m)%nat -> scan_value m d l = scan_value (S (2 * length l)) d l /\
  (forall v r, scan_value m d l = Some (v, r) -> (length r < length l)%nat).
Proof.
  intros Hm. split; [|intros v r; apply scan_shrinks]. apply (scan_more (S (2 * length l))). lia.
Qed.
