(* ===== verification/GoTimeText.v ===== *)
(** * Times as text ([time.RFC3339], [time.RFC3339Nano])

    [Time.MarshalJSON] prints RFC 3339 with the nanoseconds that are not zero and refuses years of
    more than four digits; [Time.UnmarshalJSON] and [time.Parse(time.RFC3339, s)] read it back.  The
    parser is the layout parser of the package with its tolerances: an hour of one digit, a comma
    before the fraction, more than nine digits of fraction, offsets up to 24:60.  Instants are in
    UTC; the zone a text was written in is not kept. *)

From Stdlib Require Import Ascii.
From S2P Require Import Prelude GoString GoTime GoFloat GoError GoStrconv GoJson.

(** ** Printing *)

Fixpoint drop_zeros (l : bytes) : bytes :=
  match l with
  | c :: l' => if byte_is c 48 then drop_zeros l' else l
  | [] => []
  end.

(** The [k] low decimal digits of [n]. *)
Fixpoint digits_of (k : nat) (n : Z) : bytes :=
  match k with O => [] | S k => (digits_of k (n / 10) ++ [digit (n mod 10)])%list end.

Definition fraction (nanos : Z) : bytes :=
  match rev (drop_zeros (rev (digits_of 9 nanos))) with [] => [] | l => byte_of_Z 46 :: l end.

(** [t.UTC().Format(time.RFC3339Nano)]. *)
Definition FormatRFC3339Nano (t : Time) : string :=
  let '(y, m, d) := date_of_days (day_of t) in
  let s := sec_of_day t in
  fmt_year y +:+ "-" +:+ pad2 m +:+ "-" +:+ pad2 d +:+ "T" +:+
  pad2 (s / 3600) +:+ ":" +:+ pad2 (s / 60 mod 60) +:+ ":" +:+ pad2 (s mod 60) +:+ of_bytes (fraction (t mod Second)) +:+ "Z".

(** ** Parsing *)

Definition literal (z : Z) (l : bytes) : option bytes :=
  match l with c :: l' => if byte_is c z then Some l' else None | [] => None end.

(** [getnum]: two digits, or one when [fixed] is false and no second digit follows. *)
Definition getnum (fixed : bool) (l : bytes) : option (Z * bytes) :=
  match l with
  | a :: l1 =>
    match digit_val a with
    | None => None
    | Some x =>
      match l1 with
      | b :: l2 => match digit_val b with Some y => Some (10 * x + y, l2) | None => if fixed then None else Some (x, l1) end
      | [] => if fixed then None else Some (x, l1)
      end
    end
  | [] => None
  end.

Definition in_range (lo hi : Z) (r : Z * bytes) : option (Z * bytes) :=
  if (lo <=? fst r) && (fst r <=? hi) then Some r else None.

Fixpoint span (l : bytes) : bytes * bytes :=
  match l with
  | c :: l' => match digit_val c with Some _ => let '(d, r) := span l' in (c :: d, r) | None => ([], l) end
  | [] => ([], [])
  end.

(** A fraction after the seconds, in nanoseconds: the first nine digits count. *)
Definition get_fraction (l : bytes) : Z * bytes :=
  match l with
  | c :: l' =>
    if byte_is c 46 || byte_is c 44 then
      match span l' with
      | ([], _) => (0, l)
      | (ds, rest) => let ds := take 9 ds in (default 0 (parse_digits 0 ds) * 10 ^ (9 - Z.of_nat (length ds)), rest)
      end
    else (0, l)
  | [] => (0, l)
  end.

(** The offset of the zone, in seconds, with nothing after it. *)
Definition get_zone (l : bytes) : option Z :=
  match l with
  | [c] => if byte_is c 90 then Some 0 else None
  | [sign; a; b; colon; c; d] =>
    '(hr, _) ← getnum true [a; b];
    '(mm, _) ← getnum true [c; d];
    let offset := (hr * 60 + mm) * 60 in
    if negb (byte_is colon 58) || (24 <? hr) || (60 <? mm) then None else
    if byte_is sign 43 then Some offset else if byte_is sign 45 then Some (- offset) else None
  | _ => None
  end.

Definition daysIn (m y : Z) : Z :=
  if m =? 2 then (if leap y then 29 else 28) else
  if (m =? 4) || (m =? 6) || (m =? 9) || (m =? 11) then 30 else 31.

(** [time.Parse(time.RFC3339, s)], as an instant. *)
Definition ParseRFC3339 (s : string) : option Time :=
  '(y1, l) ← getnum true (to_bytes s);
  '(y2, l) ← getnum true l;
  let year := 100 * y1 + y2 in
  l ← literal 45 l;
  '(month, l) ← getnum true l ≫= in_range 1 12;
  l ← literal 45 l;
  '(day, l) ← getnum true l;
  l ← literal 84 l;
  '(hour, l) ← getnum false l ≫= in_range 0 23;
  l ← literal 58 l;
  '(min, l) ← getnum true l ≫= in_range 0 59;
  l ← literal 58 l;
  '(sec, l) ← getnum true l ≫= in_range 0 59;
  let '(nsec, l) := get_fraction l in
  offset ← get_zone l;
  if (1 <=? day) && (day <=? daysIn month year)
  then Some (Date year month day + (((hour * 60 + min) * 60 + sec) - offset) * Second + nsec) else None.

(** ** JSON *)

(** [Time.MarshalJSON]. *)
Definition marshal_time (t : Time) : option json :=
  let '(y, _, _) := date_of_days (day_of t) in
  if (0 <=? y) && (y <=? 9999) then Some (JString (FormatRFC3339Nano t)) else None.

(** [Time.UnmarshalJSON]; escapes inside the text are taken as already resolved. *)
Definition dec_time (v : json) : option (option Time) :=
  match v with
  | JNull => Some None
  | JString s => Some <$> ParseRFC3339 s
  | _ => None
  end.

(** ** Lemmas *)

Lemma getnum_pad2 fixed n l : 0 <= n < 100 -> getnum fixed (to_bytes (pad2 n) ++ l) = Some (n, l).
Proof.
  intros Hn. unfold pad2. rewrite to_of_bytes. cbn [app getnum]. rewrite !digit_val_digit by divlia.
  do 2 f_equal. divlia.
Qed.

Lemma pad4_pad2 n : 0 <= n < 10000 -> pad4 n = pad2 (n / 100) +:+ pad2 (n mod 100).
Proof.
  intros Hn. apply to_bytes_inj. rewrite to_bytes_app. unfold pad4, pad2. rewrite !to_of_bytes. cbn [app].
  replace (n / 1000) with (n / 100 / 10) by (rewrite Z.div_div by lia; done).
  replace (n / 10 mod 10) with (n mod 100 / 10) by divlia. by replace (n mod 10) with (n mod 100 mod 10) by divlia.
Qed.

Lemma literal_byte z c l : Z_of_byte c = z -> literal z (c :: l) = Some l.
Proof. intros <-. unfold literal, byte_is. by rewrite Z.eqb_refl. Qed.

Lemma in_range_ok lo hi n (l : bytes) : lo <= n <= hi -> in_range lo hi (n, l) = Some (n, l).
Proof. intros Hn. unfold in_range. cbn [fst]. destruct (Z.leb_spec lo n), (Z.leb_spec n hi); (done || lia). Qed.

Lemma parse_digits_app l k acc : parse_digits acc (l ++ k) = parse_digits acc l ≫= fun a => parse_digits a k.
Proof.
  revert acc. induction l as [|c l IH]; intros acc; [done|]. cbn [app parse_digits].
  destruct (digit_val c); [apply IH|done].
Qed.

Lemma digits_of_spec k n acc : parse_digits acc (digits_of k n) = Some (acc * 10 ^ Z.of_nat k + n mod 10 ^ Z.of_nat k).
Proof.
  revert n acc. induction k as [|k IH]; intros n acc; cbn [digits_of parse_digits].
  - f_equal. change (10 ^ Z.of_nat 0) with 1. rewrite Z.mod_1_r. lia.
  - rewrite parse_digits_app, IH. cbn [mbind option_bind parse_digits]. rewrite digit_val_digit by divlia.
    f_equal. rewrite Nat2Z.inj_succ, Z.pow_succ_r by lia.
    rewrite (Z.rem_mul_r n 10 (10 ^ Z.of_nat k)) by lia. lia.
Qed.

Lemma digits_of_digits k n : Forall is_digit (digits_of k n).
Proof.
  revert n. induction k as [|k IH]; intros n; cbn [digits_of]; [done|].
  apply Forall_app_2; [apply IH|]. constructor; [|done]. exists (n mod 10). apply digit_val_digit. divlia.
Qed.

Lemma digits_of_length k n : length (digits_of k n) = k.
Proof. revert n. induction k as [|k IH]; intros n; cbn [digits_of]; [done|]. rewrite length_app, IH. simpl. lia. Qed.

(** Trailing zeros carry no value. *)
Lemma drop_zeros_spec l : exists j, l = (repeat (byte_of_Z 48) j ++ drop_zeros l)%list.
Proof.
  induction l as [|c l [j IH]]; [by exists 0%nat|]. cbn [drop_zeros]. destruct (byte_is c 48) eqn:E.
  - exists (S j). cbn [repeat app]. rewrite <- IH. f_equal. unfold byte_is in E. apply Z.eqb_eq in E.
    by rewrite <- E, byte_of_Z_of_byte.
  - by exists 0%nat.
Qed.

Lemma parse_zeros j acc : parse_digits acc (repeat (byte_of_Z 48) j) = Some (acc * 10 ^ Z.of_nat j).
Proof.
  revert acc. induction j as [|j IH]; intros acc; cbn [repeat parse_digits]; [f_equal; simpl; lia|].
  change (digit_val (byte_of_Z 48)) with (Some 0). cbv iota. rewrite IH. f_equal.
  rewrite Nat2Z.inj_succ, Z.pow_succ_r by lia. lia.
Qed.

Lemma fraction_digits n : 0 <= n < Second ->
  exists ds j, digits_of 9 n = (ds ++ repeat (byte_of_Z 48) j)%list /\
    fraction n = match ds with [] => [] | _ => byte_of_Z 46 :: ds end /\
    Forall is_digit ds /\ (length ds <= 9)%nat /\
    exists v, parse_digits 0 ds = Some v /\ v * 10 ^ (9 - Z.of_nat (length ds)) = n.
Proof.
  intros Hn. destruct (drop_zeros_spec (rev (digits_of 9 n))) as [j Hj].
  set (ds := rev (drop_zeros (rev (digits_of 9 n)))).
  assert (digits_of 9 n = ds ++ repeat (byte_of_Z 48) j)%list as E.
  { rewrite <- (rev_involutive (digits_of 9 n)), Hj, rev_app_distr, rev_repeat at 1. done. }
  pose proof (digits_of_length 9 n) as Hl. pose proof (digits_of_digits 9 n) as Hd. pose proof (digits_of_spec 9 n 0) as Hv.
  rewrite E in Hl, Hd, Hv. rewrite length_app, repeat_length in Hl. apply Forall_app in Hd as [Hd _].
  exists ds, j. split_and!; [done|unfold fraction; fold ds; by destruct ds|done|lia|].
  rewrite parse_digits_app in Hv. destruct (parse_digits 0 ds) as [v|]; [|done]. exists v. split; [done|].
  cbn [mbind option_bind] in Hv. rewrite parse_zeros in Hv. injection Hv as Hv.
  replace (9 - Z.of_nat (length ds)) with (Z.of_nat j) by lia. rewrite Hv.
  rewrite Z.mod_small; [done|]. unfold Second in Hn. simpl. lia.
Qed.

Lemma span_app ds c l : Forall is_digit ds -> digit_val c = None -> span (ds ++ c :: l) = (ds, c :: l).
Proof.
  intros Hd Hc. induction Hd as [|d ds [v Hv] Hds IH]; cbn [app span]; [by rewrite Hc|]. by rewrite Hv, IH.
Qed.

Lemma get_fraction_ok n z l : 0 <= n < Second -> digit_val z = None -> byte_is z 46 || byte_is z 44 = false ->
  get_fraction (fraction n ++ z :: l) = (n, z :: l).
Proof.
  intros Hn Hz Hs. destruct (fraction_digits n Hn) as (ds & j & _ & -> & Hd & Hl & v & Hv & En).
  destruct ds as [|d ds].
  - injection Hv as <-. cbn [app get_fraction]. rewrite Hs. f_equal. lia.
  - cbn [app get_fraction]. change (byte_is (byte_of_Z 46) 46) with true. cbn [orb].
    rewrite (app_comm_cons ds), (span_app (d :: ds)) by done. cbv zeta.
    rewrite take_ge by done. rewrite Hv. f_equal. exact En.
Qed.

Lemma daysIn_ok n y m d : date_of_days n = (y, m, d) -> 1 <= d <= daysIn m y.
Proof.
  unfold date_of_days. destruct (year_yday n) as [y' yd] eqn:E1. apply year_yday_spec in E1 as (_ & Hyd).
  destruct (month_day (leap y') yd) as [m' d'] eqn:E2. intros; simplify_eq. unfold month_day in E2. unfold daysIn.
  destruct (leap y); repeat case_match; simplify_eq; bool_to_prop; lia.
Qed.

(** Reading the printed text, with any fraction, gives the date, the second and the fraction. *)
Lemma parse_printed t n : year4_ok t -> 0 <= n < Second ->
  (let '(y, m, d) := date_of_days (day_of t) in
   let s := sec_of_day t in
   ParseRFC3339 (fmt_year y +:+ "-" +:+ pad2 m +:+ "-" +:+ pad2 d +:+ "T" +:+ pad2 (s / 3600) +:+ ":" +:+
                 pad2 (s / 60 mod 60) +:+ ":" +:+ pad2 (s mod 60) +:+ of_bytes (fraction n) +:+ "Z"))
  = Some (day_of t * Day + sec_of_day t * Second + n).
Proof.
  intros Ht Hn. destruct (date_of_days (day_of t)) as [[y m] d] eqn:E. cbv zeta.
  pose proof (year4_ok_year _ _ _ _ Ht E) as Hy. pose proof (daysIn_ok _ _ _ _ E) as Hd.
  pose proof (days_of_date_of_days _ _ _ _ E) as (Hm & Hd31 & Ed). pose proof (sec_of_day_range t) as Hs.
  rewrite fmt_year_pad4, pad4_pad2 by lia. unfold ParseRFC3339. rewrite !to_bytes_app, <- !app_assoc, to_of_bytes.
  rewrite getnum_pad2 by divlia. cbn [mbind option_bind]. rewrite getnum_pad2 by divlia. cbn [mbind option_bind].
  replace (100 * (y / 100) + y mod 100) with y by divlia.
  change (to_bytes "-") with ["-"%char]. change (to_bytes "T") with ["T"%char]. change (to_bytes ":") with [":"%char].
  change (to_bytes "Z") with ["Z"%char].
  do 6 (cbn [app]; rewrite ?literal_byte by done; cbn [mbind option_bind];
        rewrite ?getnum_pad2 by divlia; cbn [mbind option_bind]; rewrite ?in_range_ok by divlia; cbn [mbind option_bind]).
  rewrite get_fraction_ok by done. cbn [get_zone]. change (byte_is _ 90) with true. cbn [mbind option_bind].
  destruct (Z.leb_spec 1 d), (Z.leb_spec d (daysIn m y)); try lia. cbn [andb]. f_equal. unfold Date. rewrite Ed.
  assert ((sec_of_day t / 3600 * 60 + sec_of_day t / 60 mod 60) * 60 + sec_of_day t mod 60 = sec_of_day t) as -> by divlia.
  lia.
Qed.

(** A time printed with its nanoseconds is read back exactly. *)
Lemma ParseRFC3339_Nano t : year4_ok t -> ParseRFC3339 (FormatRFC3339Nano t) = Some t.
Proof.
  intros Ht. assert (0 <= t mod Second < Second) as Hn by (apply Z.mod_pos_bound; done).
  pose proof (parse_printed t _ Ht Hn) as H. unfold FormatRFC3339Nano.
  destruct (date_of_days (day_of t)) as [[y m] d]. cbv zeta in *. rewrite H. f_equal. symmetry. apply time_split.
Qed.

(** The layout without a fraction keeps the second. *)
Lemma ParseRFC3339_seconds t : year4_ok t -> ParseRFC3339 (FormatRFC3339 t) = Some (Truncate t Second).
Proof.
  intros Ht. pose proof (parse_printed t 0 Ht ltac:(done)) as H. unfold FormatRFC3339.
  destruct (date_of_days (day_of t)) as [[y m] d]. cbv zeta in *. change (of_bytes (fraction 0) +:+ "Z") with "Z" in H.
  rewrite H. f_equal. unfold Truncate. change (Second <=? 0) with false. cbv iota. pose proof (time_split t). lia.
Qed.

Lemma marshal_time_ok t : year4_ok t -> marshal_time t = Some (JString (FormatRFC3339Nano t)).
Proof.
  intros Ht. unfold marshal_time. destruct (date_of_days (day_of t)) as [[y m] d] eqn:E.
  pose proof (year4_ok_year _ _ _ _ Ht E). destruct (Z.leb_spec 0 y), (Z.leb_spec y 9999); (done || lia).
Qed.

Lemma zero_year4 : year4_ok 0.
Proof. vm_compute. by split. Qed.

(** ** Examples *)

Example parse_time_1 : map ParseRFC3339
    ["2026-05-25T12:00:00Z"; "2026-05-25T12:00:00.25+02:30"; "2026-05-25T9:00:00,5Z"; "2024-02-29T00:00:00-24:60"]
  = [Some (Date 2026 5 25 + 12 * Hour); Some (Date 2026 5 25 + 9 * Hour + 30 * Minute + 250 * Millisecond);
     Some (Date 2026 5 25 + 9 * Hour + 500 * Millisecond); Some (Date 2024 3 1 + Hour)].
Proof. vm_compute. reflexivity. Qed.
Example parse_time_2 : map ParseRFC3339
    ["2026-05-25"; "2026-5-25T12:00:00Z"; "2026-02-29T00:00:00Z"; "2026-05-25T24:00:00Z"; "2026-05-25T12:00:00"; "2026-05-25 12:00:00Z"]
  = repeat None 6.
Proof. vm_compute. reflexivity. Qed.
Example format_time_1 : map FormatRFC3339Nano [0; Date 2026 5 25 + 120; Date 2026 5 25 + 250 * Millisecond]
  = ["0001-01-01T00:00:00Z"; "2026-05-25T00:00:00.00000012Z"; "2026-05-25T00:00:00.25Z"].
Proof. vm_compute. reflexivity. Qed.
