(* ===== verification/Symbols.v ===== *)
(** * Symbols and their exchange markets ([internal/symbols])

    The [symbols] table as a list of rows, the parsing of its [markets] column, and
    the queries of the repository. *)

From S2P Require Import Prelude GoString GoError GoJson.

(** ** Data *)

Record MarketMapping := MkMarket {
  mm_Exchange : string; mm_MarketType : string; mm_SourceSymbol : string; mm_Status : string }.

Record Symbol := MkSymbol {
  sym_ID : Z; sym_Symbol : string; sym_BaseAsset : string; sym_QuoteAsset : string;
  sym_MarketType : string; sym_CmcRank : Z; sym_IsActive : bool; sym_Markets : list MarketMapping }.

Record SymbolMarket := MkSymbolMarket {
  sm_SymbolID : Z; sm_CanonicalSymbol : string; sm_Exchange : string; sm_MarketType : string;
  sm_SourceSymbol : string; sm_Status : string }.

#[export] Instance MarketMapping_eq_dec : EqDecision MarketMapping.
Proof. solve_decision. Defined.

(** ** Market mappings *)

Definition NormalizeMarketStatus (status : string) : string := norm status.
Definition NormalizedExchange (m : MarketMapping) : string := norm (mm_Exchange m).

Definition active_statuses : list string := ["active"; "live"; "normal"; "trading"].
Definition IsActive (m : MarketMapping) : bool := bool_decide (norm (mm_Status m) ∈ active_statuses).

Definition market_fields : list (field MarketMapping) :=
  [ fld "exchange" dec_string (fun s m => MkMarket s (mm_MarketType m) (mm_SourceSymbol m) (mm_Status m));
    fld "market_type" dec_string (fun s m => MkMarket (mm_Exchange m) s (mm_SourceSymbol m) (mm_Status m));
    fld "source_symbol" dec_string (fun s m => MkMarket (mm_Exchange m) (mm_MarketType m) s (mm_Status m));
    fld "status" dec_string (fun s m => MkMarket (mm_Exchange m) (mm_MarketType m) (mm_SourceSymbol m) s) ].

Definition zero_market : MarketMapping := MkMarket "" "" "" "".

(** [json.Unmarshal] into [[]MarketMapping]. *)
Definition unmarshal_markets (v : json) : option (list MarketMapping) :=
  match v with
  | JArray l =>
    let ds := map (fun x => unmarshal_struct market_fields x zero_market) l in
    if forallb snd ds then Some (map fst ds) else None
  | _ => None
  end.


Definition normalize_market (m : MarketMapping) : MarketMapping :=
  MkMarket (norm (mm_Exchange m)) (TrimSpace (mm_MarketType m)) (TrimSpace (mm_SourceSymbol m))
    (NormalizeMarketStatus (mm_Status m)).

Definition ParseMarketMappings (raw : RawMessage) : result error (list MarketMapping) :=
  match raw with
  | RawEmpty | RawJson JNull => Ok []
  | RawInvalid _ => Err (WrapError "parse symbols.markets: " json_error "")
  | RawJson v =>
    match unmarshal_markets v with
    | None => Err (WrapError "parse symbols.markets: " json_error "")
    | Some mappings =>
      Ok (map normalize_market (filter (fun m => TrimSpace (mm_SourceSymbol m) <> "") mappings))
    end
  end.

Definition SupportedExchangeSet (exchanges : list string) : gset string :=
  list_to_set (filter (fun e => e <> "") (map norm exchanges)).

Definition ActiveSymbolMarkets (symbol : Symbol) (supported : gset string) : list SymbolMarket :=
  map (fun m => MkSymbolMarket (sym_ID symbol) (sym_Symbol symbol) (NormalizedExchange m)
                  (TrimSpace (mm_MarketType m)) (TrimSpace (mm_SourceSymbol m)) (TrimSpace (mm_Status m)))
    (filter (fun m => NormalizedExchange m ∈ supported /\ IsActive m = true /\
                      TrimSpace (mm_SourceSymbol m) <> "") (sym_Markets symbol)).

(** ** The [symbols] table *)

Record symbol_row := MkSymbolRow {
  row_id : Z; row_symbol : string; row_base_asset : option string; row_quote_asset : option string;
  row_market_type : option string; row_cmc_rank : option Z; row_is_active : bool;
  row_is_watchlist : bool; row_markets : RawMessage }.

(** [scanSymbol]: NULL columns read as zero values. *)
Definition scanSymbol (r : symbol_row) : result error Symbol :=
  let! markets := ParseMarketMappings (row_markets r) in
  Ok (MkSymbol (row_id r) (row_symbol r) (default "" (row_base_asset r))
          (default "" (row_quote_asset r)) (default "" (row_market_type r))
          (default 0 (row_cmc_rank r)) (row_is_active r) markets).

(** [ORDER BY cmc_rank ASC NULLS LAST, symbol ASC]. *)
Definition rank_leb (a b : symbol_row) : bool :=
  match row_cmc_rank a, row_cmc_rank b with
  | Some x, Some y => (x <? y) || (x =? y) && str_leb (row_symbol a) (row_symbol b)
  | Some _, None => true
  | None, Some _ => false
  | None, None => str_leb (row_symbol a) (row_symbol b)
  end.

(** [querySymbols] on the rows a query yields: the first bad row fails the query. *)
Fixpoint querySymbols (rows : list symbol_row) : result error (list Symbol) :=
  match rows with
  | [] => Ok []
  | r :: rows' => let! s := scanSymbol r in let! rest := querySymbols rows' in Ok (s :: rest)
  end.

Definition active_rows (t : list symbol_row) : list symbol_row :=
  stable_sort rank_leb (filter (fun r => row_is_active r = true) t).

Definition ListActiveSymbols (t : list symbol_row) : result error (list Symbol) :=
  querySymbols (active_rows t).

(** Keep the active markets of one exchange; a symbol with none is dropped. *)
Definition with_exchange_markets (exchange : string) (s : Symbol) : option Symbol :=
  let markets := filter (fun m => NormalizedExchange m = exchange /\ IsActive m = true) (sym_Markets s) in
  if decide (markets = []) then None
  else Some (MkSymbol (sym_ID s) (sym_Symbol s) (sym_BaseAsset s) (sym_QuoteAsset s)
               (sym_MarketType s) (sym_CmcRank s) (sym_IsActive s) markets).

Definition ListSymbolsByExchange (t : list symbol_row) (exchange : string) : result error (list Symbol) :=
  let exchange := norm exchange in
  if (exchange =? "")%string then Err (ErrorString "exchange is required") else
  let! active := ListActiveSymbols t in
  Ok (omap (with_exchange_markets exchange) active).

Definition ListTopSymbols (t : list symbol_row) (limit : Z) : result error (list Symbol) :=
  if limit <? 1 then Err (ErrorString "limit must be greater than 0")
  else querySymbols (take (Z.to_nat limit) (active_rows t)).

(** [has_column]: whether [columnExists] finds [symbols.is_watchlist]. *)
Definition ListWatchlistSymbols (t : list symbol_row) (has_column : bool) : result error (list Symbol) :=
  if has_column then querySymbols (filter (fun r => row_is_watchlist r = true) (active_rows t)) else Ok [].

Definition GetSymbolByID (t : list symbol_row) (id : Z) : result error Symbol :=
  let! symbols := querySymbols (take 1 (filter (fun r => row_id r = id) t)) in
  match symbols with
  | [] => Err ErrSymbolNotFound
  | s :: _ => Ok s
  end.

Definition ListActiveSymbolMarkets (t : list symbol_row) (supportedExchanges : list string)
    : result error (list SymbolMarket) :=
  let! symbols := ListActiveSymbols t in
  let supported := SupportedExchangeSet supportedExchanges in
  Ok (flat_map (fun s => ActiveSymbolMarkets s supported) symbols).

(** ** Properties *)

(** A mapping as [ParseMarketMappings] leaves it. *)
Definition market_normal (m : MarketMapping) : Prop :=
  normalize_market m = m /\ mm_SourceSymbol m <> "".

Lemma normalize_market_normal m :
  TrimSpace (mm_SourceSymbol m) <> "" -> market_normal (normalize_market m).
Proof.
  intros H. split; [|done]. unfold normalize_market, NormalizeMarketStatus. simpl.
  by rewrite !TrimSpace_idem, !norm_idem.
Qed.

Lemma ParseMarketMappings_normal raw ms :
  ParseMarketMappings raw = Ok ms -> Forall market_normal ms.
Proof.
  intros H. unfold ParseMarketMappings in H.
  repeat case_match; simplify_eq; try done.
  all: apply Forall_forall; intros m Hm; apply list_elem_of_fmap in Hm as (m' & -> & Hm');
    apply list_elem_of_filter in Hm' as [? _]; by apply normalize_market_normal.
Qed.

Lemma querySymbols_Forall (P : Symbol -> Prop) rows ss :
  (forall r s, r ∈ rows -> scanSymbol r = Ok s -> P s) -> querySymbols rows = Ok ss -> Forall P ss.
Proof.
  revert ss. induction rows as [|r rows IH]; intros ss HP H; simpl in H; [by simplify_eq|].
  destruct (scanSymbol r) as [s|] eqn:E; simpl in H; [|done].
  destruct (querySymbols rows) as [rest|]; simpl in H; [|done]. simplify_eq/=.
  constructor; [eapply HP; [by left|done]|]. apply IH; [|done]. intros. eapply HP; [by right|done].
Qed.

(** the markets a query returns for an exchange are usable: every symbol is active, has at
    least one market, and each of its markets is on that exchange, in an active status and
    carries a trimmed, non-empty source symbol. *)
Theorem ListSymbolsByExchange_sound t exchange ss :
  ListSymbolsByExchange t exchange = Ok ss ->
  Forall (fun s =>
    sym_IsActive s = true /\ sym_Markets s <> [] /\
    Forall (fun m => mm_Exchange m = norm exchange /\ IsActive m = true /\
                     TrimSpace (mm_SourceSymbol m) = mm_SourceSymbol m /\ mm_SourceSymbol m <> "")
      (sym_Markets s)) ss.
Proof.
  unfold ListSymbolsByExchange. case_match; [done|]. intros H'.
  destruct (ListActiveSymbols t) as [active|] eqn:E; simpl in H'; [|done]. simplify_eq/=.
  assert (Forall (fun s => sym_IsActive s = true /\ Forall market_normal (sym_Markets s)) active) as Hall.
  { eapply querySymbols_Forall; [|exact E]. intros r s Hr Hs.
    unfold active_rows in Hr. rewrite elem_of_stable_sort in Hr.
    apply list_elem_of_filter in Hr as [Ha _]. unfold scanSymbol in Hs.
    destruct (ParseMarketMappings (row_markets r)) eqn:Ep; simpl in Hs; [|done]. simplify_eq/=.
    split; [done|]. by eapply ParseMarketMappings_normal. }
  apply Forall_forall. intros s Hs. apply list_elem_of_omap in Hs as (s' & Hs' & Hw).
  rewrite Forall_forall in Hall. destruct (Hall s' Hs') as [Ha Hm].
  unfold with_exchange_markets in Hw. case_decide as Hne; [done|]. simplify_eq/=.
  split; [done|]. split; [done|]. apply Forall_forall. intros m Hin.
  apply list_elem_of_filter in Hin as [[He Hact] Hin]. rewrite Forall_forall in Hm.
  destruct (Hm m Hin) as [Hn Hsrc]. unfold NormalizedExchange in He.
  unfold normalize_market in Hn. destruct m as [e mt src st]; simpl in *. injection Hn as H1 H2 H3 H4.
  split_and!; try done. congruence.
Qed.

Definition demo_symbols : list symbol_row :=
  [ MkSymbolRow 2 "ETHUSDT" None None None (Some 2) true false
      (RawJson (JArray [JObject [("exchange", JString " Binance"); ("source_symbol", JString "ETHUSDT ");
                                 ("status", JString "TRADING")]]));
    MkSymbolRow 1 "BTCUSDT" None None None (Some 1) true true
      (RawJson (JArray [JObject [("exchange", JString "okx"); ("source_symbol", JString "BTC-USDT-SWAP");
                                 ("status", JString "live")];
                        JObject [("exchange", JString "binance"); ("source_symbol", JString "BTCUSDT");
                                 ("status", JString "active")]])) ].

Lemma ListSymbolsByExchange_sound_witness :
  match ListSymbolsByExchange demo_symbols "BINANCE" with
  | Ok ss => Forall (fun s => sym_IsActive s = true /\ sym_Markets s <> [] /\
      Forall (fun m => mm_Exchange m = norm "BINANCE" /\ IsActive m = true /\
                       TrimSpace (mm_SourceSymbol m) = mm_SourceSymbol m /\ mm_SourceSymbol m <> "")
        (sym_Markets s)) ss /\ length ss = 2%nat
  | Err _ => False
  end.
Proof.
  destruct (ListSymbolsByExchange demo_symbols "BINANCE") as [ss|e] eqn:E.
  - split; [by apply (ListSymbolsByExchange_sound demo_symbols "BINANCE")|].
    vm_compute in E. by injection E as <-.
  - vm_compute in E. discriminate.
Defined.
