(* ===== verification/Endpoints.v ===== *)
(** * Exchange API endpoints ([internal/endpoints])

    The [exchange_api_endpoints] table as a list of rows and its three lookups. *)

From S2P Require Import Prelude GoString GoTime GoFloat GoError GoJson.

Record Endpoint := MkEndpoint {
  ep_ID : Z; ep_Exchange : string; ep_MarketType : string; ep_DataType : string; ep_Name : string;
  ep_Method : string; ep_BaseURL : string; ep_Path : string;
  ep_ParamsTemplate : RawMessage; ep_HeadersTemplate : RawMessage; ep_ResponseFormat : string;
  ep_IsBatchSupported : bool; ep_BatchParamName : string; ep_MaxBatchSize : Z;
  ep_RateLimitPerSecond : float64; ep_RateLimitPerMinute : Z; ep_RequestWeight : Z;
  ep_MinIntervalSeconds : float64; ep_TimeoutMS : Z; ep_IsActive : bool; ep_Notes : string }.

(** [endpoints.Endpoint{Name: "internal", RequestWeight: 1, TimeoutMS: 10000}]. *)
Definition internal_endpoint : Endpoint :=
  MkEndpoint 0 "" "" "" "internal" "" "" "" RawEmpty RawEmpty "" false "" 0 f64_zero 0 1 f64_zero 10000 false "".

(** [ORDER BY market_type ASC, name ASC]. *)
Definition endpoint_leb (a b : Endpoint) : bool :=
  if (ep_MarketType a =? ep_MarketType b)%string then str_leb (ep_Name a) (ep_Name b)
  else str_leb (ep_MarketType a) (ep_MarketType b).

Definition ListActiveByExchangeDataType (t : list Endpoint) (exchange dataType : string)
    : result error (list Endpoint) :=
  let exchange := norm exchange in
  let dataType := TrimSpace dataType in
  if (exchange =? "")%string || (dataType =? "")%string then
    Err (ErrorString "exchange and data_type are required")
  else
    Ok (stable_sort endpoint_leb
          (filter (fun e => ep_Exchange e = exchange /\ ep_DataType e = dataType /\ ep_IsActive e = true) t)).

Definition unavailable (what : string) : error := WrapError "" ErrEndpointUnavailable (": " +:+ what).

(** [Repository.get]. *)
Definition get (t : list Endpoint) (exchange marketType dataType name : string) : option Endpoint :=
  find (fun e => (ep_Exchange e =? exchange)%string && (ep_MarketType e =? marketType)%string &&
                 (ep_DataType e =? dataType)%string && (ep_Name e =? name)%string) t.

Definition ResolveActive (t : list Endpoint) (exchange marketType dataType name : string) : result error Endpoint :=
  let exchange := norm exchange in
  let marketType := TrimSpace marketType in
  let dataType := TrimSpace dataType in
  let name := TrimSpace name in
  if (exchange =? "")%string || (marketType =? "")%string || (dataType =? "")%string || (name =? "")%string then
    Err (ErrorString "exchange, market_type, data_type, and name are required")
  else
    let what := exchange +:+ "/" +:+ marketType +:+ "/" +:+ dataType +:+ "/" +:+ name in
    match get t exchange marketType dataType name with
    | None => Err (unavailable (what +:+ " is not seeded"))
    | Some e => if ep_IsActive e then Ok e
                else Err (unavailable (what +:+ " is inactive: " +:+ ep_Notes e))
    end.

Definition GetByID (t : list Endpoint) (id : Z) : result error Endpoint :=
  match find (fun e => ep_ID e =? id) t with
  | None => Err (unavailable ("endpoint id " +:+ Itoa id +:+ " is not seeded"))
  | Some e => if ep_IsActive e then Ok e
              else Err (unavailable ("endpoint id " +:+ Itoa id +:+ " is inactive: " +:+ ep_Notes e))
  end.

(** ** Properties *)

Lemma ListActive_sound t exchange dataType es :
  ListActiveByExchangeDataType t exchange dataType = Ok es ->
  Forall (fun e => e ∈ t /\ ep_Exchange e = norm exchange /\ ep_DataType e = TrimSpace dataType /\
                   ep_IsActive e = true) es.
Proof.
  unfold ListActiveByExchangeDataType. case_match; [done|]. intros [= <-].
  apply Forall_forall. intros e He. rewrite elem_of_stable_sort in He.
  apply list_elem_of_filter in He as [(? & ? & ?) ?]. done.
Qed.

Lemma GetByID_active t id e : GetByID t id = Ok e -> e ∈ t /\ ep_ID e = id /\ ep_IsActive e = true.
Proof.
  unfold GetByID. destruct (find _ t) as [e'|] eqn:E; [|done]. case_match; [|done].
  intros [= ->]. apply find_some in E as [Hin Hid]. bool_to_prop.
  split_and!; [by apply list_elem_of_In|done|done].
Qed.

(** Every refusal of a lookup by id carries [ErrEndpointUnavailable]. *)
Lemma GetByID_refusal t id e : GetByID t id = Err e -> errors_Is e ErrEndpointUnavailable = true.
Proof. unfold GetByID. repeat case_match; intros; simplify_eq; done. Qed.
