(* ===== verification/EndpointRows.v ===== *)
(** * Rows of [exchange_api_endpoints] ([scanEndpoint] of [internal/endpoints/repository.go])

    [Endpoints] looks endpoints up in a list of endpoints.  The table itself has NULLs, which the scan
    reads as zero values.  Proved: querying the rows and scanning what is found is looking up in the
    scanned table, for each of the three queries. *)

From S2P Require Import Prelude GoString GoTime GoFloat GoError GoJson Endpoints.

(** The columns a query may find NULL are options. *)
Record endpoint_row := MkEndpointRow {
  er_id : Z; er_exchange : string; er_market_type : string; er_data_type : string; er_name : string;
  er_method : string; er_base_url : string; er_path : string;
  er_params_template : RawMessage; er_headers_template : RawMessage; er_response_format : string;
  er_is_batch_supported : bool; er_batch_param_name : option string; er_max_batch_size : Z;
  er_rate_limit_per_second : option float64; er_rate_limit_per_minute : option Z; er_request_weight : Z;
  er_min_interval_seconds : float64; er_timeout_ms : Z; er_is_active : bool; er_notes : option string }.

Definition scanEndpoint (r : endpoint_row) : Endpoint :=
  MkEndpoint (er_id r) (er_exchange r) (er_market_type r) (er_data_type r) (er_name r) (er_method r) (er_base_url r) (er_path r)
    (er_params_template r) (er_headers_template r) (er_response_format r) (er_is_batch_supported r)
    (default "" (er_batch_param_name r)) (er_max_batch_size r) (default f64_zero (er_rate_limit_per_second r))
    (default 0 (er_rate_limit_per_minute r)) (er_request_weight r) (er_min_interval_seconds r) (er_timeout_ms r)
    (er_is_active r) (default "" (er_notes r)).

(** [Repository.query]: the rows of the statement scanned in order, or the failure of the statement, or
    the failure that ends the iteration over its rows. *)
Definition query (fault iteration : option error) (rows : list endpoint_row) : result error (list Endpoint) :=
  match fault, iteration with
  | Some e, _ => Err (WrapError "query endpoints: " e "")
  | None, Some e => Err (WrapError "iterate endpoints: " e "")
  | None, None => Ok (map scanEndpoint rows)
  end.

Definition row_leb (a b : endpoint_row) : bool :=
  if (er_market_type a =? er_market_type b)%string then str_leb (er_name a) (er_name b)
  else str_leb (er_market_type a) (er_market_type b).

(** The statements, on the rows. *)
Definition select_active (t : list endpoint_row) (exchange dataType : string) : list endpoint_row :=
  stable_sort row_leb (filter (fun r => er_exchange r = exchange /\ er_data_type r = dataType /\ er_is_active r = true) t).
Definition select_named (t : list endpoint_row) (exchange marketType dataType name : string) : list endpoint_row :=
  take 1 (filter (fun r => er_exchange r = exchange /\ er_market_type r = marketType /\ er_data_type r = dataType /\ er_name r = name) t).
Definition select_id (t : list endpoint_row) (id : Z) : list endpoint_row := take 1 (filter (fun r => er_id r = id) t).

Section list_lemmas.
Context {A B : Type} (f : A -> B).

Lemma map_sort_insert (lea : A -> A -> bool) (leb : B -> B -> bool) x l :
  (forall a b, leb (f a) (f b) = lea a b) -> map f (sort_insert lea x l) = sort_insert leb (f x) (map f l).
Proof. intros Hf. induction l as [|y l IH]; cbn [sort_insert map]; [done|]. rewrite Hf. destruct (lea x y); cbn; by rewrite ?IH. Qed.

Lemma map_stable_sort (lea : A -> A -> bool) (leb : B -> B -> bool) l :
  (forall a b, leb (f a) (f b) = lea a b) -> map f (stable_sort lea l) = stable_sort leb (map f l).
Proof. intros Hf. induction l as [|y l IH]; cbn; [done|]. by rewrite (map_sort_insert lea leb), IH. Qed.

Lemma map_filter_through (P : A -> Prop) (Q : B -> Prop) `{!forall x, Decision (P x), !forall y, Decision (Q y)} l :
  (forall a, P a <-> Q (f a)) -> map f (filter P l) = filter Q (map f l).
Proof.
  intros Hf. induction l as [|a l IH]; cbn [map]; [done|]. destruct (decide (P a)) as [Ha|Ha].
  - rewrite !filter_cons_True by (rewrite <- ?Hf; done). cbn [map]. by rewrite IH.
  - rewrite !filter_cons_False by (rewrite <- ?Hf; done). done.
Qed.

Lemma first_filter_find (P : A -> Prop) `{!forall x, Decision (P x)} (p : B -> bool) l :
  (forall a, P a <-> p (f a) = true) -> hd_error (map f (take 1 (filter P l))) = find p (map f l).
Proof.
  intros Hf. induction l as [|a l IH]; [done|]. cbn [map find]. destruct (p (f a)) eqn:E.
  - by rewrite filter_cons_True by (by apply Hf).
  - rewrite filter_cons_False by (rewrite Hf; congruence). exact IH.
Qed.
End list_lemmas.

(** ** The lookups over the rows are those over the scanned table *)

Theorem queries_scan (t : list endpoint_row) :
  (forall exchange dataType, norm exchange <> "" -> TrimSpace dataType <> "" ->
     query None None (select_active t (norm exchange) (TrimSpace dataType))
     = ListActiveByExchangeDataType (map scanEndpoint t) exchange dataType) /\
  (forall exchange marketType dataType name,
     hd_error (map scanEndpoint (select_named t exchange marketType dataType name))
     = Endpoints.get (map scanEndpoint t) exchange marketType dataType name) /\
  (forall id, GetByID (map scanEndpoint t) id =
     match map scanEndpoint (select_id t id) with
     | [] => Err (unavailable ("endpoint id " +:+ Itoa id +:+ " is not seeded"))
     | e :: _ => if ep_IsActive e then Ok e
                 else Err (unavailable ("endpoint id " +:+ Itoa id +:+ " is inactive: " +:+ ep_Notes e))
     end).
Proof.
  split_and!.
  - intros exchange dataType He Hd. unfold query, ListActiveByExchangeDataType, select_active.
    rewrite (proj2 (String.eqb_neq _ _) He), (proj2 (String.eqb_neq _ _) Hd). cbn [orb]. f_equal.
    rewrite (map_stable_sort scanEndpoint row_leb endpoint_leb) by done. f_equal. by apply map_filter_through.
  - intros exchange marketType dataType name. apply first_filter_find. intros r. cbn [scanEndpoint ep_Exchange ep_MarketType ep_DataType ep_Name].
    rewrite !andb_true_iff, !String.eqb_eq. tauto.
  - intros id. unfold GetByID, select_id.
    rewrite <- (first_filter_find scanEndpoint (fun r => er_id r = id)) by (intros r; symmetry; apply Z.eqb_eq).
    by destruct (map scanEndpoint _).
Qed.
