(* ===== verification/SchedulerModels.v ===== *)
(** * Scheduler data ([internal/scheduler]: models, idempotency, policies, job metadata)

    Policies, jobs, idempotency keys, scheduling buckets and the runtime metadata a
    job carries from the planner to the worker. *)

From Stdlib Require Import Ascii.
From S2P Require Import Prelude GoString GoTime GoFloat GoError GoJson Endpoints.

(** ** Data *)

Definition TierAll : string := "all".
Definition TierTop100 : string := "top100".
Definition TierWatchlist : string := "watchlist".

Inductive JobStatus :=
| JobStatusPending | JobStatusRunning | JobStatusSucceeded
| JobStatusFailed | JobStatusDeadLetter | JobStatusCancelled.

#[export] Instance JobStatus_eq_dec : EqDecision JobStatus.
Proof. solve_decision. Defined.

Record Policy := MkPolicy {
  pol_ID : Z; pol_Exchange : string; pol_MarketType : string; pol_DataType : string;
  pol_Tier : string; pol_Period : string; pol_IntervalSeconds : Z; pol_BatchSize : Z;
  pol_Priority : Z; pol_Enabled : bool; pol_MaxRetry : Z; pol_StaleAfterSeconds : Z }.

Record Job := MkJob {
  job_ID : Z; job_Exchange : string; job_DataType : string; job_Tier : string;
  job_SymbolID : Z; job_SourceSymbol : string; job_Period : string; job_IdempotencyKey : string;
  job_Status : JobStatus; job_Priority : Z; job_ScheduledAt : Time;
  job_StartedAt : option Time; job_FinishedAt : option Time;
  job_RetryCount : Z; job_MaxRetry : Z; job_ErrorMessage : string; job_Metadata : RawMessage;
  job_JobMode : string; job_ParentGapID : Z; job_BackfillCheckpoint : RawMessage }.

Record PlanResult := MkPlanResult {
  AttemptedJobs : Z; InsertedJobs : Z; Skipped : gmap string Z; Reasons : gmap string string }.

Definition NewPlanResult : PlanResult := MkPlanResult 0 0 ∅ ∅.

(** [PlanResult.Skip]: counts the key, keeps the first reason. *)
Definition Skip (r : PlanResult) (key reason : string) : PlanResult :=
  MkPlanResult (AttemptedJobs r) (InsertedJobs r)
    (<[key := default 0 (Skipped r !! key) + 1]> (Skipped r))
    (match Reasons r !! key with Some _ => Reasons r | None => <[key := reason]> (Reasons r) end).

(** ** Idempotency keys and buckets *)

Definition IdempotencyKey (exchange dataType : string) (symbolID : Z) (sourceSymbol period : string)
    (scheduledBucket : Time) : string :=
  norm exchange +:+ ":" +:+ TrimSpace dataType +:+ ":" +:+ Itoa symbolID +:+ ":" +:+
  TrimSpace sourceSymbol +:+ ":" +:+ TrimSpace period +:+ ":" +:+ FormatRFC3339 scheduledBucket.

(** [time.Duration(intervalSeconds) * time.Second] wraps at 64 bits. *)
Definition ScheduledBucket (at_ : Time) (intervalSeconds : Z) : Time :=
  if intervalSeconds <=? 0 then at_
  else Truncate at_ (duration_of intervalSeconds Second).

(** ** Tiers and endpoint data types *)

Definition SymbolLimitForTier (tier : string) : Z :=
  if (norm tier =? TierTop100)%string then 100 else 0.

Definition EndpointDataType (dataType : string) : string * bool :=
  let t := TrimSpace dataType in
  if (t =? "orderbook_imbalance")%string then ("orderbook", true) else
  if (t =? "liquidation_aggregate")%string then ("liquidation", true) else
  if (t =? "aggregated_snapshot")%string then ("", false) else
  (dataType, true).

(** [ensureJSON]. *)
Definition ensureJSON (raw : RawMessage) : RawMessage :=
  match raw with RawEmpty => RawJson (JObject []) | r => r end.

(** ** Runtime metadata *)

Record RuntimeMetadata := MkRuntimeMetadata {
  rm_EndpointID : Z; rm_EndpointName : string; rm_EndpointDataType : string;
  rm_RequiresEndpoint : bool; rm_RequestWeight : Z; rm_TimeoutMS : Z;
  rm_RateLimitPerSecond : float64; rm_RateLimitPerMinute : Z }.

Definition runtime_fields : list (field RuntimeMetadata) :=
  [ fld "endpoint_id" dec_int (fun v m => MkRuntimeMetadata v (rm_EndpointName m) (rm_EndpointDataType m)
      (rm_RequiresEndpoint m) (rm_RequestWeight m) (rm_TimeoutMS m) (rm_RateLimitPerSecond m) (rm_RateLimitPerMinute m));
    fld "endpoint_name" dec_string (fun v m => MkRuntimeMetadata (rm_EndpointID m) v (rm_EndpointDataType m)
      (rm_RequiresEndpoint m) (rm_RequestWeight m) (rm_TimeoutMS m) (rm_RateLimitPerSecond m) (rm_RateLimitPerMinute m));
    fld "endpoint_data_type" dec_string (fun v m => MkRuntimeMetadata (rm_EndpointID m) (rm_EndpointName m) v
      (rm_RequiresEndpoint m) (rm_RequestWeight m) (rm_TimeoutMS m) (rm_RateLimitPerSecond m) (rm_RateLimitPerMinute m));
    fld "requires_endpoint" dec_bool (fun v m => MkRuntimeMetadata (rm_EndpointID m) (rm_EndpointName m)
      (rm_EndpointDataType m) v (rm_RequestWeight m) (rm_TimeoutMS m) (rm_RateLimitPerSecond m) (rm_RateLimitPerMinute m));
    fld "request_weight" dec_int (fun v m => MkRuntimeMetadata (rm_EndpointID m) (rm_EndpointName m)
      (rm_EndpointDataType m) (rm_RequiresEndpoint m) v (rm_TimeoutMS m) (rm_RateLimitPerSecond m) (rm_RateLimitPerMinute m));
    fld "timeout_ms" dec_int (fun v m => MkRuntimeMetadata (rm_EndpointID m) (rm_EndpointName m)
      (rm_EndpointDataType m) (rm_RequiresEndpoint m) (rm_RequestWeight m) v (rm_RateLimitPerSecond m) (rm_RateLimitPerMinute m));
    fld "rate_limit_per_second" dec_float (fun v m => MkRuntimeMetadata (rm_EndpointID m) (rm_EndpointName m)
      (rm_EndpointDataType m) (rm_RequiresEndpoint m) (rm_RequestWeight m) (rm_TimeoutMS m) v (rm_RateLimitPerMinute m));
    fld "rate_limit_per_minute" dec_int (fun v m => MkRuntimeMetadata (rm_EndpointID m) (rm_EndpointName m)
      (rm_EndpointDataType m) (rm_RequiresEndpoint m) (rm_RequestWeight m) (rm_TimeoutMS m) (rm_RateLimitPerSecond m) v) ].

Definition default_metadata (name : string) : RuntimeMetadata :=
  MkRuntimeMetadata 0 name "" true 1 10000 f64_zero 0.

Definition RuntimeMetadataFromJob (job : Job) : RuntimeMetadata :=
  match job_Metadata job with
  | RawEmpty => default_metadata "internal"
  | RawInvalid _ => default_metadata "invalid_metadata"
  | RawJson v =>
    let '(m, ok) := unmarshal_struct runtime_fields v (default_metadata "internal") in
    if negb ok then default_metadata "invalid_metadata" else
    MkRuntimeMetadata (rm_EndpointID m)
      (if (rm_EndpointName m =? "")%string then "internal" else rm_EndpointName m)
      (rm_EndpointDataType m) (rm_RequiresEndpoint m)
      (if rm_RequestWeight m <=? 0 then 1 else rm_RequestWeight m)
      (if rm_TimeoutMS m <=? 0 then 10000 else rm_TimeoutMS m)
      (rm_RateLimitPerSecond m) (rm_RateLimitPerMinute m)
  end.

(** ** Lemmas *)

Lemma length_string_app (a b : string) :
  String.length (a +:+ b) = (String.length a + String.length b)%nat.
Proof. induction a as [|c a IH]; [done|]. simpl. by rewrite IH. Qed.

Lemma append_inj_length_r (a b x y : string) :
  String.length x = String.length y -> a +:+ x = b +:+ y -> a = b /\ x = y.
Proof.
  intros Hl E. apply append_inj_length; [|done].
  apply (f_equal String.length) in E. rewrite !length_string_app in E. lia.
Qed.

Lemma append_assoc3 (a b c : string) : (a +:+ b) +:+ c = a +:+ b +:+ c.
Proof. induction a as [|x a IH]; [done|]. exact (f_equal (String x) IH). Qed.

Definition colon : ascii := byte_of_Z 58.

Lemma Itoa_colon z : free_of colon (Itoa z).
Proof. apply Itoa_free_of; [|done]. intros [d Hd]. vm_compute in Hd. discriminate. Qed.

(** C35: the idempotency key identifies the work: when the data type and the period contain no
    colon (nor does the exchange), two equal keys have the same normalised exchange, data type,
    symbol, source symbol and period, and buckets in the same second.  The source symbol may
    contain anything. *)
Theorem IdempotencyKey_injective e d i s p t e' d' i' s' p' t' :
  free_of colon (norm e) -> free_of colon (norm e') ->
  free_of colon (TrimSpace d) -> free_of colon (TrimSpace d') ->
  free_of colon (TrimSpace p) -> free_of colon (TrimSpace p') ->
  int64_ok i -> int64_ok i' -> year4_ok t -> year4_ok t' ->
  IdempotencyKey e d i s p t = IdempotencyKey e' d' i' s' p' t' ->
  norm e = norm e' /\ TrimSpace d = TrimSpace d' /\ i = i' /\ TrimSpace s = TrimSpace s' /\
  TrimSpace p = TrimSpace p' /\ t / Second = t' / Second.
Proof.
  intros He He' Hd Hd' Hp Hp' Hi Hi' Ht Ht' E. unfold IdempotencyKey in E.
  apply split_first_string_inj in E as [-> E]; [|done..].
  apply split_first_string_inj in E as [-> E]; [|done..].
  apply split_first_string_inj in E as [Ei E]; [|apply Itoa_colon..].
  apply Itoa_inj in Ei as ->; [|done..].
  rewrite <- !append_assoc3 in E.
  apply append_inj_length_r in E as [E Et]; [|by rewrite !FormatRFC3339_length].
  apply FormatRFC3339_inj in Et; [|done..].
  apply append_inj_length_r in E as [E _]; [|done].
  rewrite !append_assoc3 in E. apply split_last_string_inj in E as [Es Ep]; [|done..]. done.
Qed.

Definition demo_bucket : Time := Date 2024 5 6 + 7 * Hour.

Lemma IdempotencyKey_injective_witness :
  IdempotencyKey " Binance" "klines" 7 "BTC:USDT" "1m" demo_bucket
  = "binance:klines:7:BTC:USDT:1m:2024-05-06T07:00:00Z" /\
  demo_bucket / Second = (demo_bucket + 1) / Second.
Proof.
  split; [vm_compute; reflexivity|].
  eapply (IdempotencyKey_injective " Binance" "klines" 7 "BTC:USDT" "1m" demo_bucket
           "binance" "klines" 7 "BTC:USDT" "1m" (demo_bucket + 1));
    try (apply (bool_decide_eq_true_1 _); vm_compute; reflexivity);
    try (split; vm_compute; (reflexivity || discriminate)); vm_compute; reflexivity.
Defined.

(** scheduling buckets partition time: for an interval of at most 292 years, the bucket of
    an instant is the only multiple of the interval in [(at - interval, at]]; two instants share
    a bucket exactly when no multiple of the interval separates them, and taking the bucket of a
    bucket changes nothing. *)
Theorem ScheduledBucket_partition at_ n :
  0 < n <= max_int64 / Second ->
  let step := n * Second in
  ScheduledBucket at_ n <= at_ < ScheduledBucket at_ n + step /\
  (step | ScheduledBucket at_ n) /\
  (forall u, (step | u) -> u <= at_ < u + step -> u = ScheduledBucket at_ n) /\
  ScheduledBucket (ScheduledBucket at_ n) n = ScheduledBucket at_ n.
Proof.
  intros Hn step. assert (duration_of n Second = step) as Hd.
  { apply wrap64_ok. unfold int64_ok, min_int64, max_int64, two63, Second in *. divlia. }
  unfold ScheduledBucket. rewrite (proj2 (Z.leb_gt n 0)) by lia. rewrite Hd.
  assert (0 < step) by (unfold step, Second; lia).
  split_and!; try apply Truncate_bounds; try done.
  - by apply Truncate_aligned.
  - intros u Hu Hb. symmetry. by apply Truncate_unique.
  - apply Truncate_idem.
Qed.

Lemma ScheduledBucket_partition_witness :
  ScheduledBucket (demo_bucket + 59 * Second + 7) 60 = demo_bucket.
Proof.
  symmetry.
  refine (proj1 (proj2 (proj2 (ScheduledBucket_partition (demo_bucket + 59 * Second + 7) 60 _))) _ _ _).
  - split; vm_compute; (reflexivity || discriminate).
  - exists (demo_bucket / (60 * Second)). vm_compute. reflexivity.
  - split; vm_compute; (reflexivity || discriminate).
Defined.

(** Weight, timeout and endpoint name of any job are usable, whatever its metadata holds. *)
Lemma RuntimeMetadataFromJob_ok job :
  let m := RuntimeMetadataFromJob job in
  0 < rm_RequestWeight m /\ 0 < rm_TimeoutMS m /\ rm_EndpointName m <> "".
Proof.
  unfold RuntimeMetadataFromJob. destruct (job_Metadata job) as [|?|v]; [done..|].
  destruct (unmarshal_struct _ _ _) as [m ok]. destruct ok; simpl; [|done].
  split_and!; repeat case_match; bool_to_prop; try done; lia.
Qed.
