(* ===== verification/Planner.v ===== *)
(** * Planner ([internal/scheduler/planner.go])

    One planning run: policies to jobs, with the endpoint and symbol caches of
    the run.  The stores are interfaces in the source and type classes here. *)

From S2P Require Import Prelude GoString GoTime GoFloat GoError GoJson Symbols Endpoints SchedulerModels.

(** ** Interfaces *)

(** [PolicyStore], [EndpointStore] and [SymbolTierStore], as they answer during one run. *)
Class PlannerStores := {
  ListActivePolicies : result error (list Policy);
  ListActiveEndpoints : string -> string -> result error (list Endpoint);
  ListSymbolMarkets : string -> string -> Z -> result error (list SymbolMarket)
}.

(** [JobStore]: a store with state [St]. *)
Class JobStore (St : Type) := {
  InsertJobs : St -> list Job -> St * result error Z;
  stored_keys : St -> gset string
}.

(** What the planner relies on: a successful insert adds exactly the jobs whose key is new and
    says how many it added; a failed one changes nothing. *)
Class JobStoreLaws (St : Type) `{JobStore St} := {
  insert_ok_keys s js s' n : InsertJobs s js = (s', Ok n) ->
    stored_keys s' = stored_keys s ∪ list_to_set (map job_IdempotencyKey js);
  insert_ok_count s js s' n : InsertJobs s js = (s', Ok n) ->
    n = Z.of_nat (size (list_to_set (map job_IdempotencyKey js) ∖ stored_keys s : gset string));
  insert_err_same s js s' e : InsertJobs s js = (s', Err e) -> s' = s
}.

(** ** One run *)

Definition policyKey (p : Policy) : string :=
  pol_Exchange p +:+ ":" +:+ pol_MarketType p +:+ ":" +:+ pol_DataType p +:+ ":" +:+
  pol_Tier p +:+ ":" +:+ pol_Period p.

Definition plannerMetadata (p : Policy) (ep : Endpoint) (endpointDataType : string) (requiresEndpoint : bool)
    : RawMessage :=
  let base := [ ("policy_id", JInt (pol_ID p)); ("market_type", JString (pol_MarketType p));
                ("requires_endpoint", JBool requiresEndpoint) ] in
  if requiresEndpoint then
    if marshalable (ep_RateLimitPerSecond ep) then
      RawJson (json_map (base ++
        [ ("endpoint_id", JInt (ep_ID ep)); ("endpoint_name", JString (ep_Name ep));
          ("endpoint_data_type", JString endpointDataType);
          ("request_weight", JInt (ep_RequestWeight ep)); ("timeout_ms", JInt (ep_TimeoutMS ep));
          ("rate_limit_per_second", JFloat (ep_RateLimitPerSecond ep));
          ("rate_limit_per_minute", JInt (ep_RateLimitPerMinute ep)) ]))
    else RawJson (JObject [])
  else RawJson (json_map base).

(** The job of one symbol market under a policy. *)
Definition plan_job (p : Policy) (bucket : Time) (metadata : RawMessage) (sm : SymbolMarket) : Job :=
  MkJob 0 (pol_Exchange p) (pol_DataType p) (pol_Tier p) (sm_SymbolID sm) (sm_SourceSymbol sm) (pol_Period p)
    (IdempotencyKey (pol_Exchange p) (pol_DataType p) (sm_SymbolID sm) (sm_SourceSymbol sm) (pol_Period p) bucket)
    JobStatusPending (pol_Priority p) bucket None None 0 (pol_MaxRetry p) "" metadata "" 0 RawEmpty.

Record plan_state := MkPlanState {
  ps_result : PlanResult;
  ps_jobs : list Job;
  ps_endpoints : gmap string (list Endpoint);
  ps_symbols : gmap string (list SymbolMarket)
}.

Definition endpoint_cache_key (p : Policy) (endpointDataType : string) : string :=
  pol_Exchange p +:+ ":" +:+ endpointDataType.

Definition symbol_cache_key (p : Policy) : string :=
  pol_Tier p +:+ ":" +:+ pol_Exchange p +:+ ":" +:+ Itoa (SymbolLimitForTier (pol_Tier p)).

(** The inner loop over the symbol markets of one policy. *)
Definition plan_market (p : Policy) (bucket : Time) (metadata : RawMessage)
    (acc : PlanResult * list Job) (sm : SymbolMarket) : PlanResult * list Job :=
  let '(r, jobs) := acc in
  if (TrimSpace (sm_SourceSymbol sm) =? "")%string then
    (Skip r (policyKey p) "symbol missing source_symbol", jobs)
  else (r, (jobs ++ [plan_job p bucket metadata sm])%list).

Section run.
Context `{PlannerStores}.

(** The endpoints of a policy through the cache: a missing (or nil) entry is queried. *)
Definition policy_endpoints (st : plan_state) (p : Policy) (endpointDataType : string)
    : result error (plan_state * list Endpoint) :=
  let key := endpoint_cache_key p endpointDataType in
  match ps_endpoints st !! key with
  | Some (e :: es) => Ok (st, e :: es)
  | _ =>
    let! es := ListActiveEndpoints (pol_Exchange p) endpointDataType in
    Ok (MkPlanState (ps_result st) (ps_jobs st) (<[key := es]> (ps_endpoints st)) (ps_symbols st), es)
  end.

Definition policy_symbols (st : plan_state) (p : Policy) : result error (plan_state * list SymbolMarket) :=
  let key := symbol_cache_key p in
  match ps_symbols st !! key with
  | Some sms => Ok (st, sms)
  | None =>
    let! sms := ListSymbolMarkets (pol_Tier p) (pol_Exchange p) (SymbolLimitForTier (pol_Tier p)) in
    Ok (MkPlanState (ps_result st) (ps_jobs st) (ps_endpoints st) (<[key := sms]> (ps_symbols st)), sms)
  end.

Definition skip_policy (st : plan_state) (p : Policy) (reason : string) : plan_state :=
  MkPlanState (Skip (ps_result st) (policyKey p) reason) (ps_jobs st) (ps_endpoints st) (ps_symbols st).

(** The part of the loop body after the endpoints are known. *)
Definition plan_symbols (st : plan_state) (now : Time) (p : Policy) (ep : Endpoint)
    (endpointDataType : string) (requiresEndpoint : bool) : plan_state * option error :=
  match policy_symbols st p with
  | Err e => (st, Some e)
  | Ok (st, []) => (skip_policy st p "no symbols in tier for exchange", None)
  | Ok (st, sms) =>
    let bucket := ScheduledBucket now (pol_IntervalSeconds p) in
    let metadata := plannerMetadata p ep endpointDataType requiresEndpoint in
    let '(r, jobs) := foldl (plan_market p bucket metadata) (ps_result st, ps_jobs st) sms in
    (MkPlanState r jobs (ps_endpoints st) (ps_symbols st), None)
  end.

(** One turn of the loop over policies. *)
Definition plan_policy (st : plan_state) (now : Time) (p : Policy) : plan_state * option error :=
  if negb (pol_Enabled p) || (pol_IntervalSeconds p <=? 0) then
    (skip_policy st p "policy disabled or interval invalid", None)
  else
    let '(endpointDataType, requiresEndpoint) := EndpointDataType (pol_DataType p) in
    if requiresEndpoint then
      match policy_endpoints st p endpointDataType with
      | Err e => (st, Some e)
      | Ok (st, []) => (skip_policy st p "no active endpoint for data type", None)
      | Ok (st, ep :: _) => plan_symbols st now p ep endpointDataType true
      end
    else plan_symbols st now p internal_endpoint endpointDataType false.

Fixpoint plan_loop (st : plan_state) (now : Time) (policies : list Policy) : plan_state * option error :=
  match policies with
  | [] => (st, None)
  | p :: rest =>
    match plan_policy st now p with
    | (st', None) => plan_loop st' now rest
    | r => r
    end
  end.

Definition plan_init : plan_state := MkPlanState NewPlanResult [] ∅ ∅.

Definition with_attempted (r : PlanResult) (n : Z) : PlanResult :=
  MkPlanResult n (InsertedJobs r) (Skipped r) (Reasons r).
Definition with_inserted (r : PlanResult) (n : Z) : PlanResult :=
  MkPlanResult (AttemptedJobs r) n (Skipped r) (Reasons r).

(** [Planner.RunAt]. *)
Definition RunAt {St} `{!JobStore St} (s : St) (now : Time) : St * (PlanResult * option error) :=
  match ListActivePolicies with
  | Err e => (s, (NewPlanResult, Some e))
  | Ok policies =>
    match plan_loop plan_init now policies with
    | (st, Some e) => (s, (ps_result st, Some e))
    | (st, None) =>
      let r := with_attempted (ps_result st) (Z.of_nat (length (ps_jobs st))) in
      match ps_jobs st with
      | [] => (s, (r, None))
      | jobs =>
        match InsertJobs s jobs with
        | (s', Err e) => (s', (r, Some e))
        | (s', Ok n) => (s', (with_inserted r n, None))
        end
      end
    end
  end.

(** ** Reference: what a run plans, without caches *)

Definition market_jobs (now : Time) (p : Policy) (ep : Endpoint) (dt : string) (req : bool)
    (sms : list SymbolMarket) : list Job :=
  map (plan_job p (ScheduledBucket now (pol_IntervalSeconds p)) (plannerMetadata p ep dt req))
    (filter (fun sm => TrimSpace (sm_SourceSymbol sm) <> "") sms).

Definition policy_jobs (now : Time) (p : Policy) : result error (list Job) :=
  if negb (pol_Enabled p) || (pol_IntervalSeconds p <=? 0) then Ok [] else
  let '(dt, req) := EndpointDataType (pol_DataType p) in
  let! eps := (if req then ListActiveEndpoints (pol_Exchange p) dt else Ok [internal_endpoint]) in
  match eps with
  | [] => Ok []
  | ep :: _ =>
    let! sms := ListSymbolMarkets (pol_Tier p) (pol_Exchange p) (SymbolLimitForTier (pol_Tier p)) in
    Ok (market_jobs now p ep dt req sms)
  end.

Fixpoint all_jobs (now : Time) (policies : list Policy) : result error (list Job) :=
  match policies with
  | [] => Ok []
  | p :: rest => let! js := policy_jobs now p in let! more := all_jobs now rest in Ok (js ++ more)%list
  end.

(** ** Properties *)

(** Policies whose cache keys cannot be confused. *)
Definition cacheable (p : Policy) : Prop := free_of colon (pol_Exchange p) /\ free_of colon (pol_Tier p).

(** Cached answers are the answers the stores would give. *)
Definition caches_ok (st : plan_state) : Prop :=
  (forall p dt es, cacheable p -> ps_endpoints st !! endpoint_cache_key p dt = Some es ->
     ListActiveEndpoints (pol_Exchange p) dt = Ok es) /\
  (forall p sms, cacheable p -> ps_symbols st !! symbol_cache_key p = Some sms ->
     ListSymbolMarkets (pol_Tier p) (pol_Exchange p) (SymbolLimitForTier (pol_Tier p)) = Ok sms).

Lemma endpoint_cache_key_inj p q dt dt' :
  cacheable p -> cacheable q -> endpoint_cache_key p dt = endpoint_cache_key q dt' ->
  pol_Exchange p = pol_Exchange q /\ dt = dt'.
Proof. intros [Hp _] [Hq _] E. by apply split_first_string_inj in E. Qed.

Lemma symbol_cache_key_inj p q :
  cacheable p -> cacheable q -> symbol_cache_key p = symbol_cache_key q ->
  pol_Tier p = pol_Tier q /\ pol_Exchange p = pol_Exchange q.
Proof.
  intros [Hp Hp'] [Hq Hq'] E. unfold symbol_cache_key in E.
  apply split_first_string_inj in E as [Ht E]; [|done..].
  apply split_first_string_inj in E as [He _]; done.
Qed.

Lemma policy_endpoints_spec st p dt :
  caches_ok st -> cacheable p ->
  match policy_endpoints st p dt with
  | Ok (st', es) => ListActiveEndpoints (pol_Exchange p) dt = Ok es /\ caches_ok st' /\
                    ps_jobs st' = ps_jobs st /\ ps_result st' = ps_result st
  | Err e => ListActiveEndpoints (pol_Exchange p) dt = Err e
  end.
Proof.
  intros [He Hs] Hp. unfold policy_endpoints.
  assert (forall es, ListActiveEndpoints (pol_Exchange p) dt = Ok es ->
    caches_ok (MkPlanState (ps_result st) (ps_jobs st)
                 (<[endpoint_cache_key p dt := es]> (ps_endpoints st)) (ps_symbols st))) as Hins.
  { intros es Hes. split; simpl; [|done]. intros q dt' es' Hq Hl.
    destruct (decide (endpoint_cache_key p dt = endpoint_cache_key q dt')) as [E|E].
    - rewrite E, lookup_insert_eq in Hl. simplify_eq.
      by destruct (endpoint_cache_key_inj p q dt dt' Hp Hq E) as [<- <-].
    - rewrite lookup_insert_ne in Hl by done. by apply He. }
  destruct (ps_endpoints st !! endpoint_cache_key p dt) as [[|e es]|] eqn:El.
  2: { split_and!; [by apply He|done..]. }
  all: destruct (ListActiveEndpoints (pol_Exchange p) dt) eqn:Eq; [|done]; auto.
Qed.

Lemma policy_symbols_spec st p :
  caches_ok st -> cacheable p ->
  match policy_symbols st p with
  | Ok (st', sms) =>
    ListSymbolMarkets (pol_Tier p) (pol_Exchange p) (SymbolLimitForTier (pol_Tier p)) = Ok sms /\
    caches_ok st' /\ ps_jobs st' = ps_jobs st /\ ps_result st' = ps_result st
  | Err e => ListSymbolMarkets (pol_Tier p) (pol_Exchange p) (SymbolLimitForTier (pol_Tier p)) = Err e
  end.
Proof.
  intros [He Hs] Hp. unfold policy_symbols.
  destruct (ps_symbols st !! symbol_cache_key p) as [sms|] eqn:El.
  { split_and!; [by apply Hs|done..]. }
  destruct (ListSymbolMarkets _ _ _) as [sms|] eqn:Eq; [|done]. split_and!; try done.
  split; simpl; [done|]. intros q sms' Hq Hl.
  destruct (decide (symbol_cache_key p = symbol_cache_key q)) as [E|E].
  - rewrite E, lookup_insert_eq in Hl. simplify_eq.
    by destruct (symbol_cache_key_inj p q Hp Hq E) as [<- <-].
  - rewrite lookup_insert_ne in Hl by done. by apply Hs.
Qed.

Lemma plan_market_jobs p bucket md sms r jobs :
  snd (foldl (plan_market p bucket md) (r, jobs) sms)
  = (jobs ++ map (plan_job p bucket md) (filter (fun sm => TrimSpace (sm_SourceSymbol sm) <> "") sms))%list.
Proof.
  revert r jobs. induction sms as [|sm sms IH]; intros r jobs; simpl; [by rewrite app_nil_r|].
  rewrite filter_cons. destruct (String.eqb_spec (TrimSpace (sm_SourceSymbol sm)) "") as [E|E]; rewrite IH.
  - by rewrite decide_False by auto.
  - rewrite decide_True by done. simpl. by rewrite <- app_assoc.
Qed.

Lemma plan_symbols_spec st now p ep dt req :
  caches_ok st -> cacheable p ->
  match ListSymbolMarkets (pol_Tier p) (pol_Exchange p) (SymbolLimitForTier (pol_Tier p)),
        plan_symbols st now p ep dt req with
  | Err e, (st', r) => r = Some e
  | Ok sms, (st', r) => r = None /\ caches_ok st' /\
      ps_jobs st' = (ps_jobs st ++ market_jobs now p ep dt req sms)%list
  end.
Proof.
  intros Hc Hp. pose proof (policy_symbols_spec st p Hc Hp) as Hs. unfold plan_symbols.
  destruct (policy_symbols st p) as [[st' sms]|e]; [|by rewrite Hs].
  destruct Hs as (-> & Hc' & Hj & Hr). destruct sms as [|sm sms]; simpl.
  { split_and!; [done..|]. by rewrite Hj, app_nil_r. }
  pose proof (plan_market_jobs p (ScheduledBucket now (pol_IntervalSeconds p))
                (plannerMetadata p ep dt req) (sm :: sms) (ps_result st') (ps_jobs st')) as Hm.
  simpl in Hm. destruct (foldl _ _ sms) as [r jobs]. simpl in Hm. rewrite Hm.
  split_and!; [done..|]. by rewrite Hj.
Qed.

Lemma plan_policy_spec st now p :
  caches_ok st -> cacheable p ->
  match policy_jobs now p, plan_policy st now p with
  | Err e, (st', r) => r = Some e
  | Ok js, (st', r) => r = None /\ caches_ok st' /\ ps_jobs st' = (ps_jobs st ++ js)%list
  end.
Proof.
  intros Hc Hp. unfold policy_jobs, plan_policy.
  destruct (negb (pol_Enabled p) || (pol_IntervalSeconds p <=? 0)).
  { split_and!; [done..|]. by rewrite app_nil_r. }
  destruct (EndpointDataType (pol_DataType p)) as [dt req]. destruct req.
  - pose proof (policy_endpoints_spec st p dt Hc Hp) as He.
    destruct (policy_endpoints st p dt) as [[st' es]|e]; [|by rewrite He].
    destruct He as (-> & Hc' & Hj & Hr). destruct es as [|ep es].
    { split_and!; [done..|]. simpl. by rewrite Hj, app_nil_r. }
    pose proof (plan_symbols_spec st' now p ep dt true Hc' Hp) as Hs.
    destruct (plan_symbols _ _ _ _ _ _) as [st'' r].
    destruct (ListSymbolMarkets _ _ _); [|done]. by rewrite Hj in Hs.
  - pose proof (plan_symbols_spec st now p internal_endpoint dt false Hc Hp) as Hs.
    destruct (plan_symbols _ _ _ _ _ _) as [st'' r]. by destruct (ListSymbolMarkets _ _ _).
Qed.

Lemma plan_loop_spec st now policies :
  caches_ok st -> Forall cacheable policies ->
  match all_jobs now policies, plan_loop st now policies with
  | Err e, (st', r) => r = Some e
  | Ok js, (st', r) => r = None /\ ps_jobs st' = (ps_jobs st ++ js)%list
  end.
Proof.
  intros Hc Hf. revert st Hc. induction Hf as [|p policies Hp Hf IH]; intros st Hc; simpl.
  { split; [done|]. by rewrite app_nil_r. }
  pose proof (plan_policy_spec st now p Hc Hp) as Hpp.
  destruct (policy_jobs now p) as [js|e], (plan_policy st now p) as [st' r]; [|by subst].
  destruct Hpp as (-> & Hc' & Hj). specialize (IH st' Hc').
  destruct (all_jobs now policies) as [more|e'], (plan_loop st' now policies) as [st'' r'].
  - destruct IH as [-> Hj']. split; [done|]. by rewrite Hj', Hj, <- app_assoc.
  - by subst.
Qed.

(** Planning itself never touches the inserted count. *)
Lemma plan_market_inserted p bucket md sms r jobs :
  InsertedJobs (fst (foldl (plan_market p bucket md) (r, jobs) sms)) = InsertedJobs r.
Proof.
  revert r jobs. induction sms as [|sm sms IH]; intros r jobs; simpl; [done|].
  case_match; by rewrite IH.
Qed.

Lemma plan_symbols_inserted st now p ep dt req :
  InsertedJobs (ps_result (fst (plan_symbols st now p ep dt req))) = InsertedJobs (ps_result st).
Proof.
  unfold plan_symbols, policy_symbols.
  assert (forall st' sms, ps_result st' = ps_result st ->
    InsertedJobs (ps_result (fst (match sms with
      | [] => (skip_policy st' p "no symbols in tier for exchange", None)
      | _ => let '(r, jobs) := foldl (plan_market p (ScheduledBucket now (pol_IntervalSeconds p))
                (plannerMetadata p ep dt req)) (ps_result st', ps_jobs st') sms in
             (MkPlanState r jobs (ps_endpoints st') (ps_symbols st'), @None error)
      end))) = InsertedJobs (ps_result st)) as Hx.
  { intros st' [|sm sms] Hr; [simpl; by rewrite Hr|].
    pose proof (plan_market_inserted p (ScheduledBucket now (pol_IntervalSeconds p))
                (plannerMetadata p ep dt req) (sm :: sms) (ps_result st') (ps_jobs st')) as Hm.
    destruct (foldl _ _ _) as [r jobs]. simpl in *. by rewrite Hm, Hr. }
  destruct (ps_symbols st !! symbol_cache_key p) as [sms|].
  - apply (Hx st sms). done.
  - destruct (ListSymbolMarkets _ _ _) as [sms|]; [|done]. by apply (Hx _ sms).
Qed.

Lemma plan_policy_inserted st now p :
  InsertedJobs (ps_result (fst (plan_policy st now p))) = InsertedJobs (ps_result st).
Proof.
  unfold plan_policy. case_match; [done|]. destruct (EndpointDataType _) as [dt req].
  destruct req; [|apply plan_symbols_inserted]. unfold policy_endpoints.
  destruct (ps_endpoints st !! _) as [[|ep es]|]; [|apply plan_symbols_inserted|].
  all: destruct (ListActiveEndpoints _ _) as [[|ep' es']|]; [done| |done];
    by rewrite plan_symbols_inserted.
Qed.

Lemma plan_loop_inserted st now policies :
  InsertedJobs (ps_result (fst (plan_loop st now policies))) = InsertedJobs (ps_result st).
Proof.
  revert st. induction policies as [|p policies IH]; intros st; simpl; [done|].
  pose proof (plan_policy_inserted st now p) as Hp.
  destruct (plan_policy st now p) as [st' [e|]]; simpl in *; [done|]. by rewrite IH.
Qed.

Lemma caches_ok_init : caches_ok plan_init.
Proof. split; simpl; intros; by simplify_map_eq. Qed.

End run.

Section theorems.
Context `{PlannerStores} {St : Type} `{JobStore St}.

(** A run, in terms of the jobs of the reference. *)
Lemma RunAt_eq (s : St) now policies :
  ListActivePolicies = Ok policies -> Forall cacheable policies ->
  exists r, InsertedJobs r = 0 /\
  RunAt s now = match all_jobs now policies with
                | Err e => (s, (r, Some e))
                | Ok js =>
                  let r := with_attempted r (Z.of_nat (length js)) in
                  match js with
                  | [] => (s, (r, None))
                  | _ => match InsertJobs s js with
                         | (s', Err e) => (s', (r, Some e))
                         | (s', Ok n) => (s', (with_inserted r n, None))
                         end
                  end
                end.
Proof.
  intros Hl Hc. unfold RunAt. rewrite Hl. exists (ps_result (fst (plan_loop plan_init now policies))).
  split; [by rewrite plan_loop_inserted|].
  pose proof (plan_loop_spec plan_init now policies caches_ok_init Hc) as Hp.
  destruct (all_jobs now policies) as [js|e], (plan_loop plan_init now policies) as [st r]; [|by subst].
  destruct Hp as [-> Hj]. simpl in Hj. rewrite Hj. by destruct js.
Qed.

(** C3: a planning run is the uncached reference.  When no exchange or tier name contains a
    colon, the endpoint and symbol caches never mix up two policies: the run attempts exactly
    the jobs of [all_jobs] (each enabled policy with an active endpoint and each of its markets
    that has a source symbol, in policy order) and hands them to the job store in one call; if
    any store query fails, the run reports that error and inserts nothing. *)
Theorem RunAt_reference (s : St) now policies :
  ListActivePolicies = Ok policies -> Forall cacheable policies ->
  match all_jobs now policies with
  | Err e => fst (RunAt s now) = s /\ snd (snd (RunAt s now)) = Some e
  | Ok js =>
    AttemptedJobs (fst (snd (RunAt s now))) = Z.of_nat (length js) /\
    match js with
    | [] => fst (RunAt s now) = s /\ snd (snd (RunAt s now)) = None
    | _ => fst (RunAt s now) = fst (InsertJobs s js) /\
           match snd (InsertJobs s js) with
           | Ok n => InsertedJobs (fst (snd (RunAt s now))) = n /\ snd (snd (RunAt s now)) = None
           | Err e => snd (snd (RunAt s now)) = Some e
           end
    end
  end.
Proof.
  intros Hl Hc. destruct (RunAt_eq s now policies Hl Hc) as (r & _ & ->).
  destruct (all_jobs now policies) as [[|j js]|e]; [done| |done].
  destruct (InsertJobs s (j :: js)) as [s' [n|e]]; done.
Qed.

Lemma all_jobs_bucket now now' policies :
  Forall (fun p => ScheduledBucket now (pol_IntervalSeconds p)
                   = ScheduledBucket now' (pol_IntervalSeconds p)) policies ->
  all_jobs now policies = all_jobs now' policies.
Proof.
  induction 1 as [|p policies Hp Hf IH]; simpl; [done|]. rewrite IH.
  assert (policy_jobs now p = policy_jobs now' p) as ->; [|done].
  unfold policy_jobs, market_jobs. by rewrite Hp.
Qed.

Section reruns.
Context `{!JobStoreLaws St} (policies : list Policy) (Hl : ListActivePolicies = Ok policies) (Hc : Forall cacheable policies).

(** A run that succeeds leaves the keys of its jobs in the store. *)
Lemma RunAt_stores (s : St) now :
  snd (snd (RunAt s now)) = None ->
  exists js, all_jobs now policies = Ok js /\ AttemptedJobs (fst (snd (RunAt s now))) = Z.of_nat (length js) /\
    list_to_set (map job_IdempotencyKey js) ⊆ stored_keys (fst (RunAt s now)).
Proof.
  destruct (RunAt_eq s now policies Hl Hc) as (r & _ & ->). destruct (all_jobs now policies) as [[|j js]|e]; [..|done].
  - exists []. set_solver.
  - destruct (InsertJobs s (j :: js)) as [s' [n|e]] eqn:E; [|done]. intros _. exists (j :: js).
    split_and!; [done..|]. cbn [fst]. rewrite (insert_ok_keys _ _ _ _ E). apply union_subseteq_r.
Qed.

(** A run whose jobs are all in the store already inserts none. *)
Lemma RunAt_known (s : St) now js :
  all_jobs now policies = Ok js -> list_to_set (map job_IdempotencyKey js) ⊆ stored_keys s ->
  forall s2 r2, RunAt s now = (s2, (r2, None)) ->
  InsertedJobs r2 = 0 /\ AttemptedJobs r2 = Z.of_nat (length js) /\ stored_keys s2 = stored_keys s.
Proof.
  intros Ej Hsub s2 r2. destruct (RunAt_eq s now policies Hl Hc) as (r & Hr & ->). rewrite Ej.
  destruct js as [|j js]; [by intros [= <- <-]|].
  destruct (InsertJobs s (j :: js)) as [s' [n|e]] eqn:E; [|done]. intros [= <- <-]. split_and!; [|done|].
  - cbn. by rewrite (insert_ok_count _ _ _ _ E), (subseteq_empty_difference_L _ _ Hsub), size_empty.
  - by rewrite (insert_ok_keys _ _ _ _ E), (comm_L (∪)), subseteq_union_1_L.
Qed.
End reruns.

(** planning is idempotent within a bucket.  After a run that succeeds, a second run while
    every policy is still in the same bucket attempts the same jobs, inserts none of them and
    leaves the stored keys as they are; proved from what the job store promises. *)
Theorem RunAt_idempotent `{!JobStoreLaws St} (s : St) now now' policies :
  ListActivePolicies = Ok policies -> Forall cacheable policies ->
  Forall (fun p => ScheduledBucket now (pol_IntervalSeconds p)
                   = ScheduledBucket now' (pol_IntervalSeconds p)) policies ->
  snd (snd (RunAt s now)) = None ->
  forall s2 r2, RunAt (fst (RunAt s now)) now' = (s2, (r2, None)) ->
  InsertedJobs r2 = 0 /\ AttemptedJobs r2 = AttemptedJobs (fst (snd (RunAt s now))) /\
  stored_keys s2 = stored_keys (fst (RunAt s now)).
Proof.
  intros Hl Hc Hb Hok s2 r2 E2. destruct (RunAt_stores policies Hl Hc s now Hok) as (js & Ej & Ha & Hk).
  rewrite Ha. refine (RunAt_known policies Hl Hc _ now' js _ Hk s2 r2 E2). by rewrite <- (all_jobs_bucket now now' policies Hb).
Qed.

End theorems.

(** ** Metadata round trip *)

(** An endpoint as the table holds it: integers in range, a finite rate. *)
Definition endpoint_ok (ep : Endpoint) : Prop :=
  int64_ok (ep_ID ep) /\ ep_Name ep <> "" /\ 0 < ep_RequestWeight ep <= max_int64 /\
  0 < ep_TimeoutMS ep <= max_int64 /\ int64_ok (ep_RateLimitPerMinute ep) /\
  marshalable (ep_RateLimitPerSecond ep) = true.

Lemma dec_int_ok z : int64_ok z -> dec_int (JInt z) = Some (Some z).
Proof. intros Hz. unfold dec_int. by rewrite bool_decide_eq_true_2. Qed.

Lemma dec_float_ok f : marshalable f = true -> dec_float (JFloat f) = Some (Some f).
Proof. by destruct f. Qed.

(** what the planner writes into a job's metadata is what the worker and the collector
    read back: the endpoint's id, name, data type, weight, timeout and both rates survive the
    trip through JSON unchanged. *)
Theorem planner_metadata_roundtrip p ep dt bucket sm :
  endpoint_ok ep ->
  RuntimeMetadataFromJob (plan_job p bucket (plannerMetadata p ep dt true) sm)
  = MkRuntimeMetadata (ep_ID ep) (ep_Name ep) dt true (ep_RequestWeight ep) (ep_TimeoutMS ep)
      (ep_RateLimitPerSecond ep) (ep_RateLimitPerMinute ep).
Proof.
  intros (Hid & Hn & Hw & Ht & Hm & Hf). unfold RuntimeMetadataFromJob, plan_job, plannerMetadata.
  cbn [job_Metadata]. rewrite Hf.
  assert (int64_ok (ep_RequestWeight ep) /\ int64_ok (ep_TimeoutMS ep)) as [Hw' Ht']
    by (unfold int64_ok, min_int64, two63; lia).
  unfold json_map, unmarshal_struct.
  set (l := stable_sort _ _). vm_compute in l.
  assert (foldl (dec_member runtime_fields) (default_metadata "internal", true) l
          = (MkRuntimeMetadata (ep_ID ep) (ep_Name ep) dt true (ep_RequestWeight ep) (ep_TimeoutMS ep)
               (ep_RateLimitPerSecond ep) (ep_RateLimitPerMinute ep), true)) as ->.
  { unfold l. cbv -[dec_int dec_float f64_zero]. rewrite dec_float_ok by exact Hf. by rewrite !dec_int_ok. }
  cbn. rewrite (proj2 (String.eqb_neq _ _) Hn).
  by rewrite (proj2 (Z.leb_gt (ep_RequestWeight ep) 0)), (proj2 (Z.leb_gt (ep_TimeoutMS ep) 0)) by lia.
Qed.
