(* ===== verification/JobStore.v ===== *)
(** * Job store ([internal/scheduler]: repository.go, recovery.go)

    The scheduler's tables and every statement the repository runs on them, as
    functions of the database state.  Each method is one transaction or one
    statement, so it is atomic.  [now] is the database's [now()]. *)

From S2P Require Import Prelude GoString GoTime GoFloat GoError GoJson Symbols Endpoints SchedulerModels Planner.

(** ** Tables *)

(** A row of [derivative_collection_jobs]; [option] columns are nullable. *)
Record job_row := MkJobRow {
  jr_id : Z; jr_exchange : string; jr_data_type : string; jr_tier : string; jr_symbol_id : option Z;
  jr_source_symbol : string; jr_period : option string; jr_idempotency_key : string;
  jr_status : JobStatus; jr_priority : Z; jr_scheduled_at : Time; jr_started_at : option Time;
  jr_finished_at : option Time; jr_retry_count : Z; jr_max_retry : Z; jr_error_message : option string;
  jr_metadata : json; jr_job_mode : string; jr_parent_gap_id : option Z; jr_checkpoint : json;
  jr_last_error_type : option string; jr_next_retry_at : option Time }.

(** A row of [failed_collection_jobs]. *)
Record failed_row := MkFailedRow {
  fr_job_id : Z; fr_idempotency_key : string; fr_exchange : string; fr_data_type : string; fr_tier : string;
  fr_symbol_id : Z; fr_source_symbol : string; fr_period : option string; fr_retry_count : Z;
  fr_error_type : string; fr_error_message : string; fr_endpoint_id : option Z; fr_payload : RawMessage }.

(** A row of [data_collection_runs], the columns recovery reads or writes. *)
Record run_row := MkRunRow {
  rr_status : JobStatus; rr_started_at : Time; rr_finished_at : option Time; rr_metadata : json }.

(** The tables, the ids of the tables they reference, and the id sequence. *)
Record scheduler_db := MkDB {
  db_jobs : list job_row; db_next_id : Z; db_failed : list failed_row; db_runs : list run_row;
  db_symbol_ids : gset Z; db_gap_ids : gset Z; db_endpoint_ids : gset Z }.

Definition set_jobs (db : scheduler_db) (l : list job_row) : scheduler_db :=
  MkDB l (db_next_id db) (db_failed db) (db_runs db) (db_symbol_ids db) (db_gap_ids db) (db_endpoint_ids db).

(** SQL's [NULLIF(s, '')] and [NULLIF(n, 0)]. *)
Definition nullif_str (s : string) : option string := if (s =? "")%string then None else Some s.
Definition nullif_zero (n : Z) : option Z := if n =? 0 then None else Some n.

(** ** Reading rows *)

Definition scanJob (r : job_row) : Job :=
  MkJob (jr_id r) (jr_exchange r) (jr_data_type r) (jr_tier r) (default 0 (jr_symbol_id r))
    (jr_source_symbol r) (default "" (jr_period r)) (jr_idempotency_key r) (jr_status r) (jr_priority r)
    (jr_scheduled_at r) (jr_started_at r) (jr_finished_at r) (jr_retry_count r) (jr_max_retry r)
    (default "" (jr_error_message r)) (RawJson (jr_metadata r)) (jr_job_mode r)
    (default 0 (jr_parent_gap_id r)) (RawJson (jr_checkpoint r)).

(** ** Insert *)

(** The value a [json] parameter has as JSONB; text that is not JSON is an error. *)
Definition jsonb (raw : RawMessage) : option json :=
  match ensureJSON raw with RawJson v => Some v | _ => None end.

(** The table's CHECK constraints and foreign keys on a new job. *)
Definition job_checks (job : Job) : bool :=
  (job_Exchange job =? ToLower (job_Exchange job))%string &&
  (0 <=? job_RetryCount job) && (0 <=? job_MaxRetry job).
Definition job_references (db : scheduler_db) (job : Job) : bool :=
  bool_decide (job_SymbolID job ∈ db_symbol_ids db) &&
  match nullif_zero (job_ParentGapID job) with
  | None => true
  | Some g => bool_decide (g ∈ db_gap_ids db)
  end.

Definition new_row (id : Z) (job : Job) (metadata checkpoint : json) : job_row :=
  MkJobRow id (job_Exchange job) (job_DataType job) (job_Tier job) (Some (job_SymbolID job))
    (job_SourceSymbol job) (nullif_str (job_Period job)) (job_IdempotencyKey job)
    JobStatusPending (job_Priority job) (job_ScheduledAt job) None None
    (job_RetryCount job) (job_MaxRetry job) None metadata
    (default "realtime" (nullif_str (job_JobMode job))) (nullif_zero (job_ParentGapID job)) checkpoint
    None None.

Definition has_key (db : scheduler_db) (key : string) : bool :=
  bool_decide (key ∈ map jr_idempotency_key (db_jobs db)).

Definition insert_error (job : Job) : error :=
  WrapError ("insert job " +:+ job_IdempotencyKey job +:+ ": ") (ErrorString "constraint violation") "".

(** One [INSERT ... ON CONFLICT (idempotency_key) DO NOTHING]: the new state and the rows
    affected.  The id sequence advances on a conflict too. *)
Definition insert_job (db : scheduler_db) (job : Job) : result error (scheduler_db * Z) :=
  match jsonb (job_Metadata job), jsonb (job_BackfillCheckpoint job) with
  | Some metadata, Some checkpoint =>
    if negb (job_checks job) then Err (insert_error job) else
    let bump rows := MkDB rows (db_next_id db + 1) (db_failed db) (db_runs db)
                       (db_symbol_ids db) (db_gap_ids db) (db_endpoint_ids db) in
    if has_key db (job_IdempotencyKey job) then Ok (bump (db_jobs db), 0) else
    if negb (job_references db job) then Err (insert_error job) else
    Ok (bump (db_jobs db ++ [new_row (db_next_id db) job metadata checkpoint])%list, 1)
  | _, _ => Err (insert_error job)
  end.

Fixpoint insert_loop (db : scheduler_db) (jobs : list Job) (inserted : Z) : result error (scheduler_db * Z) :=
  match jobs with
  | [] => Ok (db, inserted)
  | job :: rest =>
    match insert_job db job with
    | Err e => Err e
    | Ok (db', n) => insert_loop db' rest (inserted + n)
    end
  end.

(** [InsertJobs]: one transaction, rolled back on the first error. *)
Definition repo_InsertJobs (db : scheduler_db) (jobs : list Job) : scheduler_db * result error Z :=
  match insert_loop db jobs 0 with
  | Ok (db', n) => (db', Ok n)
  | Err e => (db, Err e)
  end.

(** ** Claim *)

(** [ORDER BY priority ASC, scheduled_at ASC, id ASC]. *)
Definition claim_leb (a b : job_row) : bool :=
  if jr_priority a <? jr_priority b then true else
  if jr_priority b <? jr_priority a then false else
  if jr_scheduled_at a <? jr_scheduled_at b then true else
  if jr_scheduled_at b <? jr_scheduled_at a then false else
  jr_id a <=? jr_id b.

(** Rows a claim may take: pending, due, and not locked by another transaction. *)
Definition claimable (now : Time) (locked : gset Z) (r : job_row) : bool :=
  bool_decide (jr_status r = JobStatusPending) && (jr_scheduled_at r <=? now) &&
  negb (bool_decide (jr_id r ∈ locked)).

Definition selected (db : scheduler_db) (now : Time) (locked : gset Z) (limit : Z) : list job_row :=
  take (Z.to_nat limit)
    (stable_sort claim_leb (filter (fun r => claimable now locked r = true) (db_jobs db))).

Definition start_row (now : Time) (r : job_row) : job_row :=
  MkJobRow (jr_id r) (jr_exchange r) (jr_data_type r) (jr_tier r) (jr_symbol_id r) (jr_source_symbol r)
    (jr_period r) (jr_idempotency_key r) JobStatusRunning (jr_priority r) (jr_scheduled_at r) (Some now)
    (jr_finished_at r) (jr_retry_count r) (jr_max_retry r) (jr_error_message r) (jr_metadata r)
    (jr_job_mode r) (jr_parent_gap_id r) (jr_checkpoint r) (jr_last_error_type r) (jr_next_retry_at r).

(** [UPDATE ... SET f WHERE p]. *)
Definition update_where (db : scheduler_db) (p : job_row -> bool) (f : job_row -> job_row) : scheduler_db :=
  set_jobs db (map (fun r => if p r then f r else r) (db_jobs db)).

Definition ClaimPendingJobs (db : scheduler_db) (now : Time) (locked : gset Z) (limit : Z)
    : scheduler_db * result error (list Job) :=
  if limit <? 1 then (db, Err (ErrorString "limit must be greater than 0")) else
  let sel := selected db now locked limit in
  (update_where db (fun r => bool_decide (jr_id r ∈ map jr_id sel)) (start_row now),
   Ok (map (fun r => scanJob (start_row now r)) sel)).

(** ** Completion, failure, retry *)

Definition finish_row (now : Time) (status : JobStatus) (message : string) (r : job_row) : job_row :=
  MkJobRow (jr_id r) (jr_exchange r) (jr_data_type r) (jr_tier r) (jr_symbol_id r) (jr_source_symbol r)
    (jr_period r) (jr_idempotency_key r) status (jr_priority r) (jr_scheduled_at r) (jr_started_at r)
    (Some now) (jr_retry_count r) (jr_max_retry r) (nullif_str message) (jr_metadata r)
    (jr_job_mode r) (jr_parent_gap_id r) (jr_checkpoint r) (jr_last_error_type r) None.

(** [updateJobTerminal]. *)
Definition updateJobTerminal (db : scheduler_db) (now : Time) (jobID : Z) (status : JobStatus) (message : string)
    : scheduler_db :=
  update_where db (fun r => jr_id r =? jobID) (finish_row now status message).

Definition MarkJobSucceeded (db : scheduler_db) (now : Time) (jobID : Z) : scheduler_db :=
  updateJobTerminal db now jobID JobStatusSucceeded "".

Record JobFailure := MkJobFailure {
  jf_Kind : FailureKind; jf_Message : string; jf_EndpointID : Z; jf_Payload : RawMessage }.

Definition fail_row (now : Time) (status : JobStatus) (message kind : string) (r : job_row) : job_row :=
  MkJobRow (jr_id r) (jr_exchange r) (jr_data_type r) (jr_tier r) (jr_symbol_id r) (jr_source_symbol r)
    (jr_period r) (jr_idempotency_key r) status (jr_priority r) (jr_scheduled_at r) (jr_started_at r)
    (Some now) (jr_retry_count r + 1) (jr_max_retry r) (Some message) (jr_metadata r)
    (jr_job_mode r) (jr_parent_gap_id r) (jr_checkpoint r) (nullif_str kind) (jr_next_retry_at r).

Definition defaultFailureKind (kind : FailureKind) : string :=
  let value := TrimSpace kind in if (value =? "")%string then "unknown" else value.

(** The dead-letter row; the symbol id is inserted as it is, the endpoint id with [NULLIF]. *)
Definition dead_letter_row (job : Job) (f : JobFailure) : failed_row :=
  MkFailedRow (job_ID job) (job_IdempotencyKey job) (job_Exchange job) (job_DataType job) (job_Tier job)
    (job_SymbolID job) (job_SourceSymbol job) (nullif_str (job_Period job)) (job_RetryCount job + 1)
    (defaultFailureKind (jf_Kind f)) (jf_Message f) (nullif_zero (jf_EndpointID f)) (ensureJSON (jf_Payload f)).

(** CHECK constraints and foreign keys of [failed_collection_jobs]. *)
Definition failed_ok (db : scheduler_db) (r : failed_row) : bool :=
  (fr_exchange r =? ToLower (fr_exchange r))%string && (0 <=? fr_retry_count r) &&
  bool_decide (fr_job_id r ∈ map jr_id (db_jobs db)) &&
  bool_decide (fr_symbol_id r ∈ db_symbol_ids db) &&
  match fr_endpoint_id r with None => true | Some e => bool_decide (e ∈ db_endpoint_ids db) end &&
  match fr_payload r with RawInvalid _ => false | _ => true end.

(** The two unique indexes of [failed_collection_jobs]. *)
Definition failed_conflict (db : scheduler_db) (r : failed_row) : bool :=
  bool_decide (fr_job_id r ∈ map fr_job_id (db_failed db)) ||
  bool_decide (fr_idempotency_key r ∈ map fr_idempotency_key (db_failed db)).

Definition add_failed (db : scheduler_db) (r : failed_row) : scheduler_db :=
  MkDB (db_jobs db) (db_next_id db) (db_failed db ++ [r]) (db_runs db)
    (db_symbol_ids db) (db_gap_ids db) (db_endpoint_ids db).

(** [MarkJobFailedDetailed]: one transaction. *)
Definition MarkJobFailedDetailed (db : scheduler_db) (now : Time) (job : Job) (f : JobFailure) (deadLetter : bool)
    : scheduler_db * option error :=
  let status := if deadLetter then JobStatusDeadLetter else JobStatusFailed in
  let f := if (jf_Message f =? "")%string
           then MkJobFailure (jf_Kind f) (jf_Kind f) (jf_EndpointID f) (jf_Payload f) else f in
  let db' := update_where db (fun r => jr_id r =? job_ID job) (fail_row now status (jf_Message f) (jf_Kind f)) in
  if deadLetter then
    let row := dead_letter_row job f in
    if failed_conflict db' row then (db', None) else
    if failed_ok db' row then (add_failed db' row, None)
    else (db, Some (WrapError "dead-letter job: " (ErrorString "constraint violation") ""))
  else (db', None).

(** [MarkJobFailed]. *)
Definition MarkJobFailed (db : scheduler_db) (now : Time) (job : Job) (message : string) (deadLetter : bool)
    : scheduler_db * option error :=
  MarkJobFailedDetailed db now job
    (MkJobFailure "" message (rm_EndpointID (RuntimeMetadataFromJob job)) (ensureJSON (job_Metadata job))) deadLetter.

Definition retry_row (now nextRun : Time) (message : string) (r : job_row) : job_row :=
  MkJobRow (jr_id r) (jr_exchange r) (jr_data_type r) (jr_tier r) (jr_symbol_id r) (jr_source_symbol r)
    (jr_period r) (jr_idempotency_key r) JobStatusPending (jr_priority r) nextRun (jr_started_at r)
    (Some now) (jr_retry_count r + 1) (jr_max_retry r) (Some message) (jr_metadata r)
    (jr_job_mode r) (jr_parent_gap_id r) (jr_checkpoint r)
    (Some (match jr_last_error_type r with
           | None => "unknown"
           | Some t => if (t =? "")%string then "unknown" else t
           end)) (Some nextRun).

Definition RetryJobLater (db : scheduler_db) (now : Time) (job : Job) (nextRun : Time) (message : string)
    : scheduler_db :=
  update_where db (fun r => jr_id r =? job_ID job) (retry_row now nextRun message).

(** ** Recovery *)

Definition recoveryMetadata (reason : string) (cutoff : Time) : json :=
  json_map [("recovery", json_map [("reason", JString reason); ("cutoff", JString (FormatRFC3339 cutoff))])].

(** JSONB's [||]. *)
Definition jsonb_concat (a b : json) : json :=
  let elems v := match v with JArray l => l | v => [v] end in
  match a, b with
  | JObject l, JObject k => JObject (filter (fun m => fst m ∉ map fst k) l ++ k)
  | _, _ => JArray (elems a ++ elems b)
  end.

Definition stale (cutoff : Time) (r : job_row) : bool :=
  bool_decide (jr_status r = JobStatusRunning) &&
  match jr_started_at r with Some t => t <? cutoff | None => false end.

Definition recover_row (now cutoff : Time) (r : job_row) : job_row :=
  MkJobRow (jr_id r) (jr_exchange r) (jr_data_type r) (jr_tier r) (jr_symbol_id r) (jr_source_symbol r)
    (jr_period r) (jr_idempotency_key r) JobStatusPending (jr_priority r) (Z.min now (jr_scheduled_at r))
    (jr_started_at r) (jr_finished_at r) (jr_retry_count r + 1) (jr_max_retry r)
    (Some "interrupted during restart recovery")
    (jsonb_concat (jr_metadata r) (recoveryMetadata "running_job_timeout" cutoff))
    (jr_job_mode r) (jr_parent_gap_id r) (jr_checkpoint r) (Some "network_error") (Some now).

Definition stale_run (cutoff : Time) (r : run_row) : bool :=
  bool_decide (rr_status r = JobStatusRunning) && (rr_started_at r <? cutoff).

Definition recover_run (now cutoff : Time) (r : run_row) : run_row :=
  MkRunRow JobStatusFailed (rr_started_at r) (Some now)
    (jsonb_concat (rr_metadata r) (recoveryMetadata "service_restart_interrupted" cutoff)).

(** [RecoverInterrupted]: the new state and the two counts of [RecoveryResult]. *)
Definition RecoverInterrupted (db : scheduler_db) (now : Time) (runningJobTimeout : Duration)
    : scheduler_db * (Z * Z) :=
  let timeout := if runningJobTimeout <=? 0 then 15 * Minute else runningJobTimeout in
  let cutoff := now - timeout in
  let db' := update_where db (stale cutoff) (recover_row now cutoff) in
  (MkDB (db_jobs db') (db_next_id db) (db_failed db)
     (map (fun r => if stale_run cutoff r then recover_run now cutoff r else r) (db_runs db))
     (db_symbol_ids db) (db_gap_ids db) (db_endpoint_ids db),
   (Z.of_nat (length (filter (fun r => stale cutoff r = true) (db_jobs db))),
    Z.of_nat (length (filter (fun r => stale_run cutoff r = true) (db_runs db))))).

(** ** The store the planner uses *)

Definition keys (db : scheduler_db) : gset string := list_to_set (map jr_idempotency_key (db_jobs db)).

#[export] Instance repo_JobStore : JobStore scheduler_db := {
  InsertJobs := repo_InsertJobs;
  stored_keys := keys
}.

Lemma has_key_keys db key : has_key db key = bool_decide (key ∈ keys db).
Proof.
  unfold has_key, keys. apply bool_decide_ext. by rewrite elem_of_list_to_set.
Qed.

Lemma insert_job_spec db job db' n :
  insert_job db job = Ok (db', n) ->
  keys db' = keys db ∪ {[job_IdempotencyKey job]} /\
  n = (if bool_decide (job_IdempotencyKey job ∈ keys db) then 0 else 1).
Proof.
  unfold insert_job. destruct (jsonb (job_Metadata job)), (jsonb (job_BackfillCheckpoint job)); try done.
  case_match; [done|]. rewrite has_key_keys. case_bool_decide as Hk; [|case_match; [done|]];
    intros [= <- <-]; (split; [|done]).
  - change (keys _) with (keys db) at 1. set_solver.
  - unfold keys. simpl. rewrite map_app, list_to_set_app_L. simpl. set_solver.
Qed.

Lemma size_new_key (k : string) (ks s : gset string) :
  k ∉ s -> size (({[k]} ∪ ks) ∖ s) = S (size (ks ∖ (s ∪ {[k]}))).
Proof.
  intros Hk. replace (({[k]} ∪ ks) ∖ s) with ({[k]} ∪ ks ∖ (s ∪ {[k]})).
  - rewrite size_union by set_solver. rewrite size_singleton. done.
  - apply set_eq. intros x. destruct (decide (x = k)); set_solver.
Qed.

Lemma insert_loop_spec db jobs k db' n :
  insert_loop db jobs k = Ok (db', n) ->
  keys db' = keys db ∪ list_to_set (map job_IdempotencyKey jobs) /\
  n = k + Z.of_nat (size (list_to_set (map job_IdempotencyKey jobs) ∖ keys db : gset string)).
Proof.
  revert db k. induction jobs as [|job jobs IH]; intros db k E; simpl in *.
  { simplify_eq. split; [set_solver|].
    replace (∅ ∖ keys db') with (∅ : gset string) by set_solver. rewrite size_empty. lia. }
  destruct (insert_job db job) as [[db1 m]|] eqn:E1; [|done].
  apply insert_job_spec in E1 as [Hk ->]. apply IH in E as [-> ->]. clear IH. rewrite Hk. clear Hk.
  split; [set_solver|]. case_bool_decide as Hin.
  - replace (keys db ∪ {[job_IdempotencyKey job]}) with (keys db) by set_solver.
    replace (({[job_IdempotencyKey job]} ∪ list_to_set (map job_IdempotencyKey jobs)) ∖ keys db)
      with (list_to_set (map job_IdempotencyKey jobs) ∖ keys db : gset string) by set_solver. lia.
  - rewrite size_new_key by done. lia.
Qed.

(** The repository keeps the promise the planner was verified against. *)
#[export] Instance repo_JobStoreLaws : JobStoreLaws scheduler_db.
Proof.
  split; simpl; unfold repo_InsertJobs; intros s js s' x E;
    destruct (insert_loop s js 0) as [[db n]|] eqn:El; simplify_eq; try done;
    apply insert_loop_spec in El as [Hk Hn]; [done|lia].
Qed.

(** ** Table invariant *)

Definition row_ok (next : Z) (r : job_row) : Prop :=
  jr_id r < next /\ 0 <= jr_retry_count r /\ 0 <= jr_max_retry r.

(** Unique ids below the sequence, unique keys, no negative counter; at most one dead letter
    per job and per key. *)
Definition db_ok (db : scheduler_db) : Prop :=
  NoDup (map jr_id (db_jobs db)) /\ NoDup (map jr_idempotency_key (db_jobs db)) /\
  Forall (row_ok (db_next_id db)) (db_jobs db) /\
  NoDup (map fr_job_id (db_failed db)) /\ NoDup (map fr_idempotency_key (db_failed db)).

(** Everything the services do to the tables. *)
Inductive db_step : scheduler_db -> scheduler_db -> Prop :=
| db_insert db jobs : db_step db (fst (repo_InsertJobs db jobs))
| db_claim db now locked limit : db_step db (fst (ClaimPendingJobs db now locked limit))
| db_succeed db now id : db_step db (MarkJobSucceeded db now id)
| db_fail db now job f dead : db_step db (fst (MarkJobFailedDetailed db now job f dead))
| db_retry db now job next msg : db_step db (RetryJobLater db now job next msg)
| db_recover db now timeout : db_step db (fst (RecoverInterrupted db now timeout)).

Lemma update_where_ids db p f :
  (forall r, jr_id (f r) = jr_id r) ->
  map jr_id (db_jobs (update_where db p f)) = map jr_id (db_jobs db).
Proof.
  intros Hf. simpl. rewrite map_map. apply map_ext. intros r. by destruct (p r).
Qed.

Lemma update_where_ok db p f :
  db_ok db ->
  (forall r, jr_id (f r) = jr_id r /\ jr_idempotency_key (f r) = jr_idempotency_key r /\
             jr_max_retry (f r) = jr_max_retry r /\ jr_retry_count r <= jr_retry_count (f r)) ->
  db_ok (update_where db p f).
Proof.
  intros (H1 & H2 & H3 & H4 & H5) Hf. unfold db_ok.
  rewrite update_where_ids by (intros r; apply Hf). split_and!; try done.
  - simpl. rewrite map_map. erewrite map_ext; [done|]. intros r. simpl. destruct (p r); [|done]. apply Hf.
  - simpl. apply Forall_map. eapply Forall_impl; [done|]. intros r (Ha & Hb & Hc). simpl.
    destruct (p r); [|done]. destruct (Hf r) as (E1 & E2 & E3 & E4). unfold row_ok.
    rewrite E1, E3. split_and!; lia.
Qed.

Lemma insert_job_ok db job db' n : insert_job db job = Ok (db', n) -> db_ok db -> db_ok db'.
Proof.
  unfold insert_job. destruct (jsonb (job_Metadata job)) as [md|], (jsonb (job_BackfillCheckpoint job)) as [cp|]; try done.
  destruct (job_checks job) eqn:Hc; [|done]. simpl.
  destruct (has_key db (job_IdempotencyKey job)) eqn:Hk; [|case_match; [done|]];
    intros [= <- <-] (H1 & H2 & H3 & H4 & H5); unfold db_ok; simpl; split_and!; try done.
  - eapply Forall_impl; [done|]. intros r (? & ? & ?). unfold row_ok. split_and!; lia.
  - rewrite map_app. apply NoDup_app. split_and!; [done| |apply NoDup_singleton].
    intros x Hx. simpl. rewrite list_elem_of_singleton. intros ->.
    apply list_elem_of_fmap in Hx as (r & E & Hr). rewrite Forall_forall in H3.
    destruct (H3 r Hr) as [? _]. lia.
  - rewrite map_app. apply NoDup_app. split_and!; [done| |apply NoDup_singleton].
    intros x Hx. simpl. rewrite list_elem_of_singleton. intros ->.
    unfold has_key in Hk. bool_to_prop. done.
  - apply Forall_app. split.
    + eapply Forall_impl; [done|]. intros r (? & ? & ?). unfold row_ok. split_and!; lia.
    + unfold job_checks in Hc. bool_to_prop. constructor; [|done]. unfold row_ok. simpl. lia.
Qed.

Lemma insert_loop_ok db jobs k db' n : insert_loop db jobs k = Ok (db', n) -> db_ok db -> db_ok db'.
Proof.
  revert db k. induction jobs as [|job jobs IH]; intros db k E Hok; simpl in *; [by simplify_eq|].
  destruct (insert_job db job) as [[db1 m]|] eqn:E1; [|done]. eapply IH; [done|]. by eapply insert_job_ok.
Qed.

Lemma add_failed_ok db r : db_ok db -> failed_conflict db r = false -> db_ok (add_failed db r).
Proof.
  intros (H1 & H2 & H3 & H4 & H5) Hc. unfold failed_conflict in Hc. bool_to_prop.
  unfold db_ok. simpl. rewrite !map_app. split_and!; try done.
  - apply NoDup_app. split_and!; [done| |apply NoDup_singleton].
    intros x Hx. simpl. rewrite list_elem_of_singleton. by intros ->.
  - apply NoDup_app. split_and!; [done| |apply NoDup_singleton].
    intros x Hx. simpl. rewrite list_elem_of_singleton. by intros ->.
Qed.

Lemma db_step_ok db db' : db_step db db' -> db_ok db -> db_ok db'.
Proof.
  intros Hs Hok. destruct Hs; simpl.
  - unfold repo_InsertJobs. destruct (insert_loop db jobs 0) as [[db1 n]|] eqn:E; [|done].
    simpl. by eapply insert_loop_ok.
  - unfold ClaimPendingJobs. case_match; [done|]. simpl. apply update_where_ok; [done|].
    intros r. simpl. split_and!; done || lia.
  - apply update_where_ok; [done|]. intros r. simpl. split_and!; done || lia.
  - unfold MarkJobFailedDetailed.
    set (db' := update_where _ _ _). assert (db_ok db') as Hok'.
    { apply update_where_ok; [done|]. intros r. simpl. split_and!; done || lia. }
    destruct dead; [|done]. destruct (failed_conflict db' _) eqn:E; [done|].
    destruct (failed_ok db' _); [|done]. by apply add_failed_ok.
  - apply update_where_ok; [done|]. intros r. simpl. split_and!; done || lia.
  - pose proof (update_where_ok db (stale (now - (if timeout <=? 0 then 15 * Minute else timeout)))
      (recover_row now (now - (if timeout <=? 0 then 15 * Minute else timeout))) Hok) as H.
    destruct H as (? & ? & ? & ? & ?); [intros r; simpl; split_and!; done || lia|].
    unfold db_ok. simpl. by split_and!.
Qed.

Definition empty_db (symbols gaps endpoints : gset Z) : scheduler_db := MkDB [] 1 [] [] symbols gaps endpoints.

(** C2: through any interleaving of inserts, claims, completions, failures, retries and
    recoveries, by any number of services, job ids and idempotency keys stay unique, retry
    counters never go negative, and no job or key is dead-lettered twice. *)
Theorem job_table_invariant symbols gaps endpoints db :
  rtc db_step (empty_db symbols gaps endpoints) db -> db_ok db.
Proof.
  intros Hr. apply (rtc_ind_r db_ok (empty_db symbols gaps endpoints)) in Hr; [done| |].
  - unfold db_ok. simpl. split_and!; constructor.
  - intros db1 db2 _ Hs Hok. by eapply db_step_ok.
Qed.

(** ** Demo data *)

Definition demo_policy : Policy :=
  MkPolicy 1 "binance" "usdt_perpetual" "klines" "watchlist" "1m" 60 50 10 true 3 180.
Definition demo_endpoint : Endpoint :=
  MkEndpoint 5 "binance" "usdt_perpetual" "klines" "kline" "GET" "https://fapi.binance.com" "/fapi/v1/klines"
    RawEmpty RawEmpty "json" false "" 0 (f64_of_Z 10) 600 1 f64_zero 10000 true "".
Definition demo_market : SymbolMarket := MkSymbolMarket 7 "BTCUSDT" "binance" "usdt_perpetual" "BTCUSDT" "active".

Definition demo_stores : PlannerStores := {|
  ListActivePolicies := Ok [demo_policy];
  ListActiveEndpoints := fun _ _ => Ok [demo_endpoint];
  ListSymbolMarkets := fun _ _ _ => Ok [demo_market; MkSymbolMarket 8 "ETHUSDT" "binance" "" " " "active"]
|}.

Definition demo_db : scheduler_db := empty_db {[7; 8]} ∅ {[5]}.
Definition demo_time : Time := demo_bucket + 12 * Second.

Lemma job_table_invariant_witness :
  db_ok (fst (@RunAt demo_stores scheduler_db repo_JobStore demo_db demo_time)).
Proof.
  apply (job_table_invariant {[7; 8]} ∅ {[5]}). apply rtc_once.
  pose (jobs := match @all_jobs demo_stores demo_time [demo_policy] with Ok js => js | Err _ => [] end).
  replace (fst _) with (fst (repo_InsertJobs demo_db jobs)) by (vm_compute; reflexivity).
  apply db_insert.
Defined.

Lemma demo_cacheable : Forall cacheable [demo_policy].
Proof.
  constructor; [|constructor]. split; apply (bool_decide_eq_true_1 _); vm_compute; reflexivity.
Qed.

Lemma RunAt_reference_witness :
  AttemptedJobs (fst (snd (@RunAt demo_stores scheduler_db repo_JobStore demo_db demo_time))) = 1.
Proof.
  pose proof (@RunAt_reference demo_stores scheduler_db repo_JobStore demo_db demo_time [demo_policy]
                eq_refl demo_cacheable) as H.
  destruct (@all_jobs demo_stores demo_time [demo_policy]) as [js|e] eqn:E.
  - destruct H as [-> _]. vm_compute in E. injection E as <-. reflexivity.
  - vm_compute in E. discriminate.
Defined.

Lemma RunAt_idempotent_witness :
  let db1 := fst (@RunAt demo_stores scheduler_db repo_JobStore demo_db demo_time) in
  InsertedJobs (fst (snd (@RunAt demo_stores scheduler_db repo_JobStore db1 (demo_time + 40 * Second)))) = 0.
Proof.
  intros db1.
  destruct (@RunAt demo_stores scheduler_db repo_JobStore db1 (demo_time + 40 * Second)) as [s2 [r2 e2]] eqn:E.
  assert (e2 = None) as -> by (vm_compute in E; congruence).
  apply (@RunAt_idempotent demo_stores scheduler_db repo_JobStore repo_JobStoreLaws
           demo_db demo_time (demo_time + 40 * Second) [demo_policy]) with (s2 := s2);
    [reflexivity|exact demo_cacheable| |vm_compute; reflexivity|exact E].
  constructor; [vm_compute; reflexivity|constructor].
Defined.

Lemma planner_metadata_roundtrip_witness :
  rm_EndpointID (RuntimeMetadataFromJob
    (plan_job demo_policy demo_bucket (plannerMetadata demo_policy demo_endpoint "klines" true) demo_market)) = 5.
Proof.
  rewrite (planner_metadata_roundtrip demo_policy demo_endpoint "klines" demo_bucket demo_market); [reflexivity|].
  repeat split; vm_compute; (reflexivity || discriminate).
Defined.

(** ** Claiming *)

Lemma claim_leb_total a b : claim_leb a b = false -> claim_leb b a = true.
Proof. unfold claim_leb. repeat case_match; bool_to_prop; intros; try done; lia || (apply Z.leb_le; bool_to_prop; lia). Qed.

Lemma claim_leb_trans a b c : claim_leb a b = true -> claim_leb b c = true -> claim_leb a c = true.
Proof.
  unfold claim_leb. intros H1 H2.
  repeat match goal with
  | H : context [if ?x <? ?y then _ else _] |- _ => destruct (Z.ltb_spec x y)
  | |- context [if ?x <? ?y then _ else _] => destruct (Z.ltb_spec x y)
  end; bool_to_prop; try done; try lia; apply Z.leb_le; lia.
Qed.

Lemma elem_of_selected db now locked limit r :
  r ∈ selected db now locked limit -> r ∈ db_jobs db /\ claimable now locked r = true.
Proof.
  unfold selected. intros Hr. apply elem_of_take in Hr as (i & Hi & _).
  apply list_elem_of_lookup_2 in Hi. rewrite elem_of_stable_sort in Hi.
  apply list_elem_of_filter in Hi as [? ?]. done.
Qed.

Lemma NoDup_map_inj {A B} (f : A -> B) (l : list A) x y :
  NoDup (map f l) -> x ∈ l -> y ∈ l -> f x = f y -> x = y.
Proof.
  induction l as [|z l IH]; intros Hnd Hx Hy E; [by apply not_elem_of_nil in Hx|].
  cbn in Hnd. apply NoDup_cons in Hnd as [Hz Hnd].
  apply elem_of_cons in Hx as [->|Hx]; apply elem_of_cons in Hy as [->|Hy]; try done.
  - exfalso. apply Hz. rewrite E. by apply list_elem_of_fmap_2.
  - exfalso. apply Hz. rewrite <- E. by apply list_elem_of_fmap_2.
  - by apply IH.
Qed.

(** A row that is still claimable after the sorted prefix was taken comes after all of it. *)
Lemma take_sorted_le {A} (leb : A -> A -> bool) n (l : list A) x y :
  StronglySorted (fun a b => leb a b = true) l -> x ∈ take n l -> y ∈ l -> y ∉ take n l -> leb x y = true.
Proof.
  intros Hs Hx Hy Hn. rewrite <- (take_drop n l) in Hs, Hy.
  apply elem_of_app in Hy as [Hy|Hy]; [done|].
  by apply (StronglySorted_app_1_elem_of _ _ _ x y Hs).
Qed.

Lemma claim_eq db now locked limit db' jobs :
  ClaimPendingJobs db now locked limit = (db', Ok jobs) ->
  1 <= limit /\
  db' = update_where db (fun r => bool_decide (jr_id r ∈ map jr_id (selected db now locked limit))) (start_row now) /\
  jobs = map (fun r => scanJob (start_row now r)) (selected db now locked limit) /\
  map job_ID jobs = map jr_id (selected db now locked limit).
Proof.
  unfold ClaimPendingJobs. case_match eqn:E; [done|]. bool_to_prop. intros [= <- <-].
  split_and!; try done. by rewrite map_map.
Qed.

Lemma claimed_row db now locked limit db' jobs j :
  ClaimPendingJobs db now locked limit = (db', Ok jobs) -> j ∈ jobs ->
  exists r, r ∈ selected db now locked limit /\ j = scanJob (start_row now r).
Proof.
  intros E Hj. apply claim_eq in E as (_ & _ & -> & _). apply list_elem_of_fmap in Hj as (r & -> & Hr).
  by exists r.
Qed.

Lemma selected_limit db now locked limit r :
  r ∈ db_jobs db -> claimable now locked r = true -> r ∉ selected db now locked limit ->
  1 <= limit -> Z.of_nat (length (selected db now locked limit)) = limit.
Proof.
  unfold selected. intros Hr Hc Hn Hl.
  set (l := stable_sort _ _) in *. assert (r ∈ l) as Hrl.
  { unfold l. rewrite elem_of_stable_sort. by apply list_elem_of_filter. }
  destruct (decide (length l <= Z.to_nat limit)%nat) as [Hle|Hgt].
  - rewrite take_ge in Hn by done. done.
  - rewrite length_take. lia.
Qed.

(** Urgency of rows, and the rows a claim may take, as the query states them. *)
Definition as_urgent (a b : job_row) : Prop :=
  jr_priority a < jr_priority b \/
  (jr_priority a = jr_priority b /\
   (jr_scheduled_at a < jr_scheduled_at b \/ (jr_scheduled_at a = jr_scheduled_at b /\ jr_id a <= jr_id b))).
Definition is_due (now : Time) (locked : gset Z) (r : job_row) : Prop :=
  jr_status r = JobStatusPending /\ jr_scheduled_at r <= now /\ jr_id r ∉ locked.

Lemma claim_leb_urgent a b : claim_leb a b = true -> as_urgent a b.
Proof. unfold claim_leb, as_urgent. repeat case_match; bool_to_prop; intros; bool_to_prop; try done; lia. Qed.

Lemma claimable_due now locked r : claimable now locked r = true <-> is_due now locked r.
Proof.
  unfold claimable, is_due. rewrite !andb_true_iff, negb_true_iff, bool_decide_eq_true, bool_decide_eq_false, Z.leb_le.
  tauto.
Qed.

(** C5: a claim takes the right jobs and takes them once.  Every claimed job was pending, due and
    unlocked, and is now running with its start time set; no more than the limit are taken; every
    claimable job left behind sorts after all claimed ones (priority, then due time, then id), and
    one is left behind only if the limit was reached; and a later claim, or a concurrent one that
    skips the locked rows, never returns any of them again. *)
Theorem claim_takes_due_jobs_once db now locked limit db' jobs :
  ClaimPendingJobs db now locked limit = (db', Ok jobs) ->
  Forall (fun j => job_Status j = JobStatusRunning /\ job_StartedAt j = Some now /\
            exists r, r ∈ db_jobs db /\ jr_id r = job_ID j /\ is_due now locked r) jobs /\
  Z.of_nat (length jobs) <= limit /\
  (forall r, r ∈ db_jobs db -> is_due now locked r -> jr_id r ∉ map job_ID jobs ->
     Z.of_nat (length jobs) = limit /\
     Forall (fun j => exists rj, rj ∈ db_jobs db /\ jr_id rj = job_ID j /\ as_urgent rj r) jobs) /\
  (forall now' locked' limit' db'' jobs',
     ClaimPendingJobs db' now' locked' limit' = (db'', Ok jobs') \/
     ClaimPendingJobs db now' (locked' ∪ list_to_set (map job_ID jobs)) limit' = (db'', Ok jobs') ->
     Forall (fun j => job_ID j ∉ map job_ID jobs) jobs').
Proof.
  intros E. pose proof (claim_eq _ _ _ _ _ _ E) as (Hl & Hdb & Hjobs & Hids). split_and!.
  - apply Forall_forall. intros j Hj. destruct (claimed_row _ _ _ _ _ _ _ E Hj) as (r & Hr & ->).
    apply elem_of_selected in Hr as [? ?]. split_and!; try done. exists r. by rewrite <- claimable_due.
  - rewrite Hjobs, length_map. unfold selected. rewrite length_take. lia.
  - intros r Hr Hc%claimable_due Hn. rewrite Hids in Hn.
    assert (r ∉ selected db now locked limit) as Hns by (intros H; apply Hn; by apply list_elem_of_fmap_2).
    split; [rewrite Hjobs, length_map; by eapply selected_limit|].
    apply Forall_forall. intros j Hj. destruct (claimed_row _ _ _ _ _ _ _ E Hj) as (rj & Hrj & ->).
    exists rj. split_and!; [by apply elem_of_selected in Hrj as [? _]|done|]. apply claim_leb_urgent.
    eapply take_sorted_le; [|exact Hrj| |exact Hns].
    + apply stable_sort_sorted; eauto using claim_leb_total, claim_leb_trans.
    + rewrite elem_of_stable_sort. by apply list_elem_of_filter.
  - intros now' locked' limit' db'' jobs' E'. rewrite Hids. apply Forall_forall. intros j Hj.
    destruct E' as [E'|E']; destruct (claimed_row _ _ _ _ _ _ _ E' Hj) as (r & Hr & ->);
      apply elem_of_selected in Hr as [Hr Hc]; simpl.
    + subst db'. apply list_elem_of_fmap in Hr as (r0 & -> & Hr0).
      case_bool_decide as Hb; [|done]. by vm_compute in Hc.
    + unfold claimable in Hc. bool_to_prop. rewrite Hids in *. set_solver.
Qed.

(** A database after one planning run, and a claim of it. *)
Definition demo_planned : scheduler_db := fst (@RunAt demo_stores scheduler_db repo_JobStore demo_db demo_time).

Lemma claim_takes_due_jobs_once_witness :
  Forall (fun j => job_Status j = JobStatusRunning)
    (match snd (ClaimPendingJobs demo_planned demo_time ∅ 10) with Ok js => js | Err _ => [] end).
Proof.
  destruct (ClaimPendingJobs demo_planned demo_time ∅ 10) as [db' [jobs|e]] eqn:E; [|constructor].
  eapply Forall_impl; [exact (proj1 (claim_takes_due_jobs_once demo_planned demo_time ∅ 10 db' jobs E))|].
  intros j Hj. apply Hj.
Defined.

(** ** Recovery *)

(** recovery takes back every job a dead worker left behind and nothing else.  With a positive
    timeout no job that has been running longer than the timeout is left running; such a job
    becomes pending, due at once, with one more attempt counted; every other row is untouched; and
    the reported count is the number of jobs taken back. *)
Theorem recovery_takes_back_stale_jobs db now timeout db' n m :
  0 < timeout -> RecoverInterrupted db now timeout = (db', (n, m)) ->
  Forall (fun r => jr_status r = JobStatusRunning ->
            match jr_started_at r with Some t => now - timeout <= t | None => True end) (db_jobs db') /\
  Forall2 (fun r r' => r' = r \/
             stale (now - timeout) r = true /\ jr_status r' = JobStatusPending /\
             jr_scheduled_at r' <= now /\ jr_retry_count r' = jr_retry_count r + 1 /\ jr_id r' = jr_id r)
    (db_jobs db) (db_jobs db') /\
  n = Z.of_nat (length (filter (fun r => stale (now - timeout) r = true) (db_jobs db))).
Proof.
  intros Ht. unfold RecoverInterrupted. rewrite (proj2 (Z.leb_gt timeout 0)) by lia.
  intros [= <- <- <-]. simpl. split_and!; [| |done].
  - apply Forall_map, Forall_true. intros r. simpl. destruct (stale (now - timeout) r) eqn:E; [done|].
    intros Hs. unfold stale in E. rewrite Hs, bool_decide_eq_true_2 in E by done. simpl in E.
    destruct (jr_started_at r); [|done]. by bool_to_prop.
  - apply Forall2_fmap_r. apply Forall_Forall2_diag, Forall_true. intros r. unfold compose.
    destruct (stale (now - timeout) r) eqn:E; [|by left]. right. split; [done|].
    cbn [recover_row jr_status jr_scheduled_at jr_retry_count jr_id]. split_and!; done || lia.
Qed.

Lemma recovery_takes_back_stale_jobs_witness :
  let db1 := fst (ClaimPendingJobs demo_planned demo_time ∅ 10) in
  fst (snd (RecoverInterrupted db1 (demo_time + 16 * Minute) (15 * Minute))) = 1.
Proof.
  intros db1. destruct (RecoverInterrupted db1 (demo_time + 16 * Minute) (15 * Minute)) as [db' [n m]] eqn:E.
  rewrite (proj2 (proj2 (recovery_takes_back_stale_jobs db1 (demo_time + 16 * Minute) (15 * Minute) db' n m
                           ltac:(vm_compute; reflexivity) E))).
  vm_compute. reflexivity.
Defined.

(** ** Where the statements do not guard the status *)

(** The only job of the demo database, as a worker that claimed it holds it. *)
Definition demo_claimed : list Job :=
  match snd (ClaimPendingJobs demo_planned demo_time ∅ 10) with Ok js => js | Err _ => [] end.

(** A slow worker A claims the job; after the timeout the job is recovered, worker B claims it
    again and succeeds; then A reports its own failure. *)
Definition stale_worker_run : scheduler_db :=
  let a := fst (ClaimPendingJobs demo_planned demo_time ∅ 10) in
  let rec := fst (RecoverInterrupted a (demo_time + 16 * Minute) (15 * Minute)) in
  let b := fst (ClaimPendingJobs rec (demo_time + 16 * Minute) ∅ 10) in
  let done_b := MarkJobSucceeded b (demo_time + 17 * Minute) 1 in
  foldl (fun db j => RetryJobLater db (demo_time + 18 * Minute) j (demo_time + 19 * Minute) "timeout")
    done_b demo_claimed.

(** [RetryJobLater] and [MarkJobFailedDetailed] update a job whatever its status: a worker that
    was presumed dead can put a job that another worker completed back to pending, where the next
    claim runs it again. *)
Theorem stale_worker_reopens_succeeded_job :
  map jr_status (db_jobs stale_worker_run) = [JobStatusPending] /\
  map job_ID (match snd (ClaimPendingJobs stale_worker_run (demo_time + 20 * Minute) ∅ 10) with
              | Ok js => js | Err _ => [] end) = [1].
Proof. split; vm_compute; reflexivity. Qed.

(** a job whose symbol was deleted (its [symbol_id] is NULL and reads as 0) can never be
    dead-lettered: the dead-letter row violates its foreign key, the transaction rolls back and the
    job stays as it was. *)
Theorem dead_letter_needs_symbol db now job f :
  job_SymbolID job = 0 -> 0 ∉ db_symbol_ids db ->
  job_ID job ∉ map fr_job_id (db_failed db) ->
  job_IdempotencyKey job ∉ map fr_idempotency_key (db_failed db) ->
  fst (MarkJobFailedDetailed db now job f true) = db /\ snd (MarkJobFailedDetailed db now job f true) <> None.
Proof.
  intros Hs Hn Hj Hk. unfold MarkJobFailedDetailed. set (db' := update_where _ _ _).
  destruct (failed_conflict db' _) eqn:Ec.
  - exfalso. unfold failed_conflict in Ec. simpl in Ec. bool_to_prop. destruct Ec; bool_to_prop; done.
  - destruct (failed_ok db' _) eqn:Eo; [|done].
    exfalso. unfold failed_ok in Eo. simpl in Eo. bool_to_prop. by rewrite Hs in *.
Qed.

Lemma dead_letter_needs_symbol_witness :
  snd (MarkJobFailedDetailed demo_planned demo_time
         (MkJob 1 "binance" "klines" "watchlist" 0 "BTCUSDT" "1m" "k" JobStatusRunning 10 demo_bucket
            None None 2 3 "" RawEmpty "realtime" 0 RawEmpty)
         (MkJobFailure "not_found" "symbol not found" 0 RawEmpty) true) <> None.
Proof.
  apply dead_letter_needs_symbol; [reflexivity | | |]; apply (bool_decide_eq_true_1 _); vm_compute; reflexivity.
Defined.
