(* ===== verification/Backfill.v ===== *)
(** * Backfill planning ([internal/scheduler/backfill.go])

    One job per bucket of a time range, up to a maximum. *)

From S2P Require Import Prelude GoString GoTime GoFloat GoError GoJson Symbols Endpoints SchedulerModels Planner JobStore.

Definition JobModeBackfill : string := "backfill".

Record BackfillRequest := MkBackfillRequest {
  bf_Exchange : string; bf_DataType : string; bf_Tier : string; bf_SymbolID : Z; bf_SourceSymbol : string;
  bf_Period : string; bf_Start : Time; bf_End : Time; bf_IntervalSeconds : Z; bf_Priority : Z; bf_MaxRetry : Z;
  bf_EndpointMetadata : RuntimeMetadata; bf_ParentGapID : Z; bf_MaxJobs : Z;
  bf_RealtimeLag : Duration; bf_RealtimeLagPauseAfter : Duration }.

(** The request with the defaults of its priority, retries and job limit filled in. *)
Definition with_defaults (r : BackfillRequest) : BackfillRequest :=
  MkBackfillRequest (bf_Exchange r) (bf_DataType r) (bf_Tier r) (bf_SymbolID r) (bf_SourceSymbol r)
    (bf_Period r) (bf_Start r) (bf_End r) (bf_IntervalSeconds r)
    (if bf_Priority r <=? 0 then 1000 else bf_Priority r)
    (if bf_MaxRetry r <=? 0 then 3 else bf_MaxRetry r)
    (bf_EndpointMetadata r) (bf_ParentGapID r)
    (if bf_MaxJobs r <=? 0 then 1000 else bf_MaxJobs r)
    (bf_RealtimeLag r) (bf_RealtimeLagPauseAfter r).

(** [backfillMetadata]: the checkpoint and the metadata of a bucket. *)
Definition checkpoint_map (r : BackfillRequest) (bucket : Time) : json :=
  json_map [ ("bucket", JString (FormatRFC3339 bucket));
             ("start_time", JString (FormatRFC3339 (bf_Start r)));
             ("end_time", JString (FormatRFC3339 (bf_End r)));
             ("parent_gap_id", JInt (bf_ParentGapID r)) ].

Definition backfillMetadata (r : BackfillRequest) (bucket : Time) : RawMessage * RawMessage :=
  let e := bf_EndpointMetadata r in
  (RawJson (checkpoint_map r bucket),
   RawJson (json_map
     [ ("mode", JString JobModeBackfill); ("requires_endpoint", JBool (rm_RequiresEndpoint e));
       ("endpoint_id", JInt (rm_EndpointID e)); ("endpoint_name", JString (rm_EndpointName e));
       ("endpoint_data_type", JString (rm_EndpointDataType e));
       ("request_weight", JInt (rm_RequestWeight e)); ("timeout_ms", JInt (rm_TimeoutMS e));
       ("backfill", checkpoint_map r bucket);
       ("start_time", JString (FormatRFC3339 bucket));
       ("end_time", JString (FormatRFC3339 (Add bucket (duration_of (bf_IntervalSeconds r) Second)))) ])).

Definition backfill_job (r : BackfillRequest) (bucket : Time) : Job :=
  let '(checkpoint, metadata) := backfillMetadata r bucket in
  MkJob 0 (bf_Exchange r) (bf_DataType r) (bf_Tier r) (bf_SymbolID r) (bf_SourceSymbol r) (bf_Period r)
    (IdempotencyKey (bf_Exchange r) (bf_DataType r) (bf_SymbolID r) (bf_SourceSymbol r) (bf_Period r) bucket)
    JobStatusPending (bf_Priority r) bucket None None 0 (bf_MaxRetry r) "" metadata
    JobModeBackfill (bf_ParentGapID r) checkpoint.

(** The loop over buckets; [n] jobs are planned already, [None] is fuel exhausted. *)
Fixpoint backfill_loop (fuel : nat) (r : BackfillRequest) (step : Duration) (bucket : Time) (n : Z)
    : option (list Job) :=
  match fuel with
  | O => None
  | S fuel' =>
    if negb (Before bucket (bf_End r)) then Some [] else
    if Before bucket (bf_Start r) then backfill_loop fuel' r step (Add bucket step) n else
    if bf_MaxJobs r <=? n then Some [] else
    cons (backfill_job r bucket) <$> backfill_loop fuel' r step (Add bucket step) (n + 1)
  end.

(** At most one bucket before the start, [MaxJobs] jobs and the turn that leaves the loop. *)
Definition backfill_fuel (r : BackfillRequest) : nat := (Z.to_nat (bf_MaxJobs r) + 2)%nat.

Definition PlanBackfillJobs (req : BackfillRequest) : option (result error (list Job)) :=
  if (0 <? bf_RealtimeLagPauseAfter req) && (bf_RealtimeLagPauseAfter req <? bf_RealtimeLag req) then Some (Ok []) else
  if bf_IntervalSeconds req <=? 0 then Some (Err (ErrorString "interval_seconds must be greater than 0")) else
  if IsZero (bf_Start req) || IsZero (bf_End req) || negb (Before (bf_Start req) (bf_End req)) then
    Some (Err (ErrorString "valid backfill start/end are required")) else
  if (bf_SymbolID req <=? 0) || (bf_SourceSymbol req =? "")%string then
    Some (Err (ErrorString "symbol_id and source_symbol are required")) else
  let r := with_defaults req in
  let step := duration_of (bf_IntervalSeconds r) Second in
  Ok <$> backfill_loop (backfill_fuel r) r step (ScheduledBucket (bf_Start r) (bf_IntervalSeconds r)) 0.

(** ** Properties *)

(** A request that passes every guard, with an interval of at most 292 years. *)
Definition request_ok (req : BackfillRequest) : Prop :=
  (bf_RealtimeLagPauseAfter req <= 0 \/ bf_RealtimeLag req <= bf_RealtimeLagPauseAfter req) /\
  0 < bf_IntervalSeconds req <= max_int64 / Second /\
  bf_Start req <> 0 /\ bf_End req <> 0 /\ bf_Start req < bf_End req /\
  0 < bf_SymbolID req /\ bf_SourceSymbol req <> "".

(** The first bucket at or after the start, and the number of buckets before the end. *)
Definition first_bucket (req : BackfillRequest) : Time :=
  let step := bf_IntervalSeconds req * Second in
  (bf_Start req + step - 1) / step * step.
Definition bucket_count (req : BackfillRequest) : Z :=
  let step := bf_IntervalSeconds req * Second in
  Z.max 0 ((bf_End req - first_bucket req + step - 1) / step).

(** [n] times from [b] on, [step] apart. *)
Definition times_from (b : Time) (step : Duration) (n : Z) : list Time :=
  map (fun i => b + Z.of_nat i * step) (seq 0 (Z.to_nat n)).

Lemma times_from_cons b step n : 0 < n -> times_from b step n = b :: times_from (b + step) step (n - 1).
Proof.
  intros Hn. unfold times_from. replace (Z.to_nat n) with (S (Z.to_nat (n - 1))) by lia.
  cbn [seq map]. f_equal; [lia|]. rewrite <- seq_shift, map_map. apply map_ext. intros i. lia.
Qed.

Lemma times_from_zero b step n : n <= 0 -> times_from b step n = [].
Proof. intros Hn. unfold times_from. by replace (Z.to_nat n) with 0%nat by lia. Qed.

Lemma backfill_loop_spec r step fuel b n k :
  0 < step -> bf_Start r <= b -> 0 <= k -> 0 <= n <= bf_MaxJobs r ->
  (forall i, 0 <= i -> b + i * step < bf_End r <-> i < k) ->
  (Z.to_nat (Z.min k (bf_MaxJobs r - n)) < fuel)%nat ->
  backfill_loop fuel r step b n
  = Some (map (backfill_job r) (times_from b step (Z.min k (bf_MaxJobs r - n)))).
Proof.
  intros Hs. revert b n k. induction fuel as [|fuel IH]; intros b n k Hb Hk Hn Hi Hf; [lia|].
  cbn [backfill_loop]. unfold Before. pose proof (Hi 0 ltac:(lia)) as H0.
  destruct (Z.ltb_spec b (bf_End r)); cbn [negb]; [|by rewrite times_from_zero by lia].
  rewrite (proj2 (Z.ltb_ge b (bf_Start r))) by lia.
  destruct (Z.leb_spec (bf_MaxJobs r) n); [by rewrite times_from_zero by lia|].
  unfold Add. rewrite (IH (b + step) (n + 1) (k - 1)); [|lia..| |lia].
  2: { intros i Hi0. specialize (Hi (i + 1) ltac:(lia)).
       replace (b + (i + 1) * step) with (b + step + i * step) in Hi by lia. lia. }
  rewrite (times_from_cons b) by lia. cbn [map fmap option_fmap option_map].
  by replace (Z.min k (bf_MaxJobs r - n) - 1) with (Z.min (k - 1) (bf_MaxJobs r - (n + 1))) by lia.
Qed.

Lemma first_bucket_spec req :
  0 < bf_IntervalSeconds req ->
  let step := bf_IntervalSeconds req * Second in
  (step | first_bucket req) /\ bf_Start req <= first_bucket req < bf_Start req + step /\
  (forall i, 0 <= i -> first_bucket req + i * step < bf_End req <-> i < bucket_count req).
Proof.
  intros Hn step. assert (0 < step) as Hs by (unfold step, Second; lia).
  unfold bucket_count, first_bucket. fold step.
  set (q := (bf_Start req + step - 1) / step).
  pose proof (Z.div_mod (bf_Start req + step - 1) step ltac:(lia)) as Hd.
  pose proof (Z.mod_pos_bound (bf_Start req + step - 1) step Hs). fold q in Hd.
  split; [by exists q|]. split; [nia|]. intros i Hi.
  set (x := bf_End req - q * step + step - 1).
  pose proof (Z.div_mod x step ltac:(lia)). pose proof (Z.mod_pos_bound x step Hs).
  assert (i < x / step <-> i * step < bf_End req - q * step) by (unfold x in *; nia).
  lia.
Qed.

Lemma with_defaults_max req : 0 < bf_MaxJobs (with_defaults req).
Proof. simpl. case_match; bool_to_prop; lia. Qed.

(** C32: backfill planning terminates and plans exactly the right buckets.  For a request that
    passes the guards the loop ends within its fuel and yields one job for each of the first
    [MaxJobs] (1000 by default) interval-aligned instants in [[Start, End)], in order, scheduled at
    that instant and keyed by it; no bucket is skipped, repeated or misaligned. *)
Theorem PlanBackfillJobs_exact req :
  request_ok req ->
  let step := bf_IntervalSeconds req * Second in
  let n := Z.min (bucket_count req) (bf_MaxJobs (with_defaults req)) in
  PlanBackfillJobs req
  = Some (Ok (map (backfill_job (with_defaults req)) (times_from (first_bucket req) step n))) /\
  (step | first_bucket req) /\ bf_Start req <= first_bucket req < bf_Start req + step /\
  (forall i, 0 <= i -> first_bucket req + i * step < bf_End req <-> i < bucket_count req).
Proof.
  intros (Hlag & Hint & Hs0 & He0 & Hse & Hsym & Hsrc) step n.
  pose proof (first_bucket_spec req ltac:(lia)) as (Hdiv & Hb & Hcount). fold step in Hdiv, Hb, Hcount.
  split; [|done]. unfold PlanBackfillJobs, IsZero, Before.
  destruct ((0 <? bf_RealtimeLagPauseAfter req) && _) eqn:E; [bool_to_prop; lia|clear E].
  rewrite (proj2 (Z.leb_gt _ _)) by lia.
  rewrite (proj2 (Z.eqb_neq _ _) Hs0), (proj2 (Z.eqb_neq _ _) He0), (proj2 (Z.ltb_lt _ _) Hse).
  rewrite (proj2 (Z.leb_gt (bf_SymbolID req) _)), (proj2 (String.eqb_neq _ _) Hsrc) by lia. cbn [orb negb].
  assert (duration_of (bf_IntervalSeconds (with_defaults req)) Second = step) as Hd.
  { apply wrap64_ok. unfold int64_ok, min_int64, max_int64, two63, Second in *. simpl. divlia. }
  pose proof (with_defaults_max req) as Hmax. set (r := with_defaults req) in *.
  assert (0 < step) as Hstep by (unfold step, Second; lia).
  unfold ScheduledBucket. rewrite (proj2 (Z.leb_gt (bf_IntervalSeconds r) 0)) by (simpl; lia). rewrite Hd.
  pose proof (Truncate_bounds (bf_Start r) step Hstep) as Ht.
  pose proof (Truncate_aligned (bf_Start r) step Hstep) as [a Ha].
  destruct Hdiv as [q Hq]. change (bf_Start r) with (bf_Start req) in *.
  assert (backfill_loop (Z.to_nat (bf_MaxJobs r) + 1) r step (first_bucket req) 0
          = Some (map (backfill_job r) (times_from (first_bucket req) step n))) as Hloop.
  { unfold n. rewrite <- (Z.sub_0_r (bf_MaxJobs r)) at 2.
    apply backfill_loop_spec; try done; unfold bucket_count; simpl in *; lia. }
  unfold backfill_fuel. rewrite Ha in *.
  destruct (decide (a * step = first_bucket req)) as [Heq|Hne].
  - rewrite Heq in *. unfold n. rewrite <- (Z.sub_0_r (bf_MaxJobs r)) at 2.
    rewrite (backfill_loop_spec r step _ _ 0 (bucket_count req)); [done|..]; try done;
      unfold bucket_count; simpl in *; lia.
  - assert (first_bucket req = a * step + step) as Hf.
    { rewrite Hq in Hne, Hb |- *. assert (q <> a) by congruence.
      assert (a <= q) by nia. assert (q < a + 2) by nia. replace q with (a + 1) by lia. lia. }
    replace (Z.to_nat (bf_MaxJobs r) + 2)%nat with (S (Z.to_nat (bf_MaxJobs r) + 1)) by lia.
    cbn [backfill_loop]. unfold Before, Add. change (bf_Start r) with (bf_Start req).
    change (bf_End r) with (bf_End req).
    rewrite (proj2 (Z.ltb_lt (a * step) (bf_End req))), (proj2 (Z.ltb_lt (a * step) (bf_Start req))) by lia.
    cbn [negb]. rewrite <- Hf, Hloop. done.
Qed.

Definition demo_request : BackfillRequest :=
  MkBackfillRequest "binance" "klines" "all" 7 "BTCUSDT" "1m" (Date 2024 5 6 + 30 * Second)
    (Date 2024 5 6 + 5 * Minute) 60 0 0 (default_metadata "kline") 3 0 0 0.

Lemma PlanBackfillJobs_exact_witness :
  exists js, PlanBackfillJobs demo_request = Some (Ok js) /\ length js = 4%nat.
Proof.
  pose proof (PlanBackfillJobs_exact demo_request) as H. cbv zeta in H.
  destruct H as [H _]; [|rewrite H; eexists; split; [reflexivity|vm_compute; reflexivity]].
  unfold request_ok. split; [left; vm_compute; discriminate|].
  repeat split; vm_compute; (reflexivity || discriminate).
Defined.

(** Retry defaults: every planned job is pending, has not been tried and may be retried. *)
Lemma backfill_job_fields req b :
  let j := backfill_job (with_defaults req) b in
  job_Status j = JobStatusPending /\ job_RetryCount j = 0 /\ 0 < job_MaxRetry j /\ 0 < job_Priority j /\
  job_ScheduledAt j = b /\ job_JobMode j = JobModeBackfill.
Proof. simpl. split_and!; try done; case_match; bool_to_prop; lia. Qed.

Lemma insert_known_key db job metadata checkpoint :
  jsonb (job_Metadata job) = Some metadata -> jsonb (job_BackfillCheckpoint job) = Some checkpoint ->
  job_checks job = true -> has_key db (job_IdempotencyKey job) = true ->
  exists db', insert_job db job = Ok (db', 0) /\ db_jobs db' = db_jobs db.
Proof. intros Hm Hc Hk Hh. unfold insert_job. rewrite Hm, Hc, Hk, Hh. by eexists. Qed.

Lemma insert_known_keys db r buckets k :
  bf_Exchange r = ToLower (bf_Exchange r) -> 0 <= bf_MaxRetry r ->
  Forall (fun b => has_key db (job_IdempotencyKey (backfill_job r b)) = true) buckets ->
  exists db', insert_loop db (map (backfill_job r) buckets) k = Ok (db', k) /\ db_jobs db' = db_jobs db.
Proof.
  intros Hl Hr Hf. revert db Hf. induction buckets as [|b rest IH]; intros db Hf; [by exists db|].
  apply Forall_cons in Hf as [Hb Hf]. cbn [map insert_loop].
  destruct (insert_known_key db (backfill_job r b) _ _ eq_refl eq_refl) as (db1 & -> & E1).
  - unfold job_checks. simpl. rewrite <- Hl, String.eqb_refl. simpl. by apply Z.leb_le.
  - done.
  - rewrite Z.add_0_r. destruct (IH db1) as (db2 & -> & E2).
    + eapply Forall_impl; [exact Hf|]. intros b' Hb'. unfold has_key in *. by rewrite E1.
    + exists db2. by rewrite E2.
Qed.

Lemma backfill_loop_jobs fuel r step b n jobs :
  backfill_loop fuel r step b n = Some jobs -> exists buckets, jobs = map (backfill_job r) buckets.
Proof.
  revert b n jobs. induction fuel as [|fuel IH]; intros b n jobs; cbn [backfill_loop]; [done|].
  destruct (negb (Before b (bf_End r))); [intros [= <-]; by exists []|].
  destruct (Before b (bf_Start r)); [apply IH|].
  destruct (bf_MaxJobs r <=? n); [intros [= <-]; by exists []|].
  destruct (backfill_loop fuel r step (Add b step) (n + 1)) as [js|] eqn:E; [|done].
  intros [= <-]. destruct (IH _ _ _ E) as (bs & ->). by exists (b :: bs).
Qed.

Lemma PlanBackfillJobs_jobs req jobs :
  PlanBackfillJobs req = Some (Ok jobs) -> exists buckets, jobs = map (backfill_job (with_defaults req)) buckets.
Proof.
  unfold PlanBackfillJobs. destruct (_ && _); [intros [= <-]; by exists []|].
  destruct (bf_IntervalSeconds req <=? 0); [done|]. destruct (_ || _ || _); [done|]. destruct (_ || _); [done|].
  cbv zeta. destruct (backfill_loop _ _ _ _ _) as [js|] eqn:E; [|done]. intros [= <-]. by eapply backfill_loop_jobs.
Qed.

(** a bucket that was ever scheduled cannot be backfilled.  A backfill job has the key of the
    realtime job of the same series and bucket; when the job table holds a row for each bucket of
    the request, in whatever state, a dead letter included, inserting the backfill jobs adds no
    row and reports none inserted. *)
Theorem backfill_skips_known_buckets db req jobs :
  bf_Exchange req = ToLower (bf_Exchange req) -> PlanBackfillJobs req = Some (Ok jobs) ->
  Forall (fun j => has_key db (job_IdempotencyKey j) = true) jobs ->
  snd (repo_InsertJobs db jobs) = Ok 0 /\ db_jobs (fst (repo_InsertJobs db jobs)) = db_jobs db /\
  (forall p md sm b,
     pol_Exchange p = bf_Exchange req -> pol_DataType p = bf_DataType req -> sm_SymbolID sm = bf_SymbolID req ->
     sm_SourceSymbol sm = bf_SourceSymbol req -> pol_Period p = bf_Period req ->
     job_IdempotencyKey (plan_job p b md sm) = job_IdempotencyKey (backfill_job (with_defaults req) b)).
Proof.
  intros Hl Hp Hf. destruct (PlanBackfillJobs_jobs req jobs Hp) as (buckets & ->). rewrite Forall_map in Hf.
  destruct (insert_known_keys db (with_defaults req) buckets 0) as (db' & E & Ej).
  - done.
  - simpl. case_match; bool_to_prop; lia.
  - done.
  - unfold repo_InsertJobs. rewrite E. split_and!; [done|done|]. intros p md sm b H1 H2 H3 H4 H5.
    simpl. by rewrite H1, H2, H3, H4, H5.
Qed.

(** A table that already holds a dead letter for each bucket of the sample request. *)
Definition attempted_db : scheduler_db :=
  match PlanBackfillJobs demo_request with
  | Some (Ok jobs) =>
    MkDB (map (fun j => fail_row 0 JobStatusDeadLetter "failed" "server_error" (new_row 1 j (JObject []) (JObject []))) jobs)
      5 [] [] ∅ ∅ ∅
  | _ => MkDB [] 1 [] [] ∅ ∅ ∅
  end.

Lemma backfill_skips_known_buckets_witness :
  exists jobs, PlanBackfillJobs demo_request = Some (Ok jobs) /\ length jobs = 4%nat /\
    snd (repo_InsertJobs attempted_db jobs) = Ok 0.
Proof.
  eexists. split; [vm_compute; reflexivity|]. split; [reflexivity|].
  refine (proj1 (backfill_skips_known_buckets attempted_db demo_request _ eq_refl _ _)).
  - vm_compute. reflexivity.
  - repeat constructor; vm_compute; reflexivity.
Defined.
