(* ===== verification/Worker.v ===== *)
(** * Worker ([internal/scheduler/worker.go])

    One claimed job through the breaker, the limiter and the executor to success,
    retry or dead letter.  The executor is an interface in the source: its outcome is part
    of the job's environment, with the clocks, the context and the limiter's turns. *)

From S2P Require Import Prelude GoString GoTime GoFloat GoError GoJson Sha1 Limiter CircuitBreaker.
From S2P Require Import SchedulerModels Planner JobStore.

(** ** Data *)

Record RetryPolicy := MkRetryPolicy { rp_Base : Duration; rp_Max : Duration; rp_JitterMax : Duration }.

Record Worker := MkWorker {
  w_BatchSize : Z;
  w_Backoff : option (Job -> Duration);
  w_Retry : RetryPolicy;
  w_OnProgress : bool;        (** a progress callback is set *)
  w_Detailed : bool           (** the store implements [DetailedFailureJobStore] *)
}.

(** What the worker acts on: the job tables, the breaker and limiter (nil when absent) and
    the calls made to [OnProgress]. *)
Record worker_state := MkWS {
  ws_db : scheduler_db;
  ws_breaker : option CircuitBreaker;
  ws_limiter : option Limiter;
  ws_progress : list (Z * JobStatus)
}.

Record job_env := MkEnv {
  env_ctx : option error;       (** [ctx.Err()] at [Allow] *)
  env_allow_now : Time;         (** the breaker's clock at [Allow] *)
  env_turns : list turn;        (** the turns of [Limiter.Wait] *)
  env_exec : option error;      (** what [Executor.Execute] returns *)
  env_fail_now : Time;          (** the breaker's clock at [RecordFailure] *)
  env_now : Time;               (** [w.now()] *)
  env_db_now : Time             (** the database's [now()] *)
}.

Inductive outcome :=
| Returned (err : option error)
| Blocked.

Definition set_db (st : worker_state) (db : scheduler_db) : worker_state :=
  MkWS db (ws_breaker st) (ws_limiter st) (ws_progress st).

(** ** Backoff *)

(** [deterministicJitter]. *)
Definition deterministicJitter (job : Job) (max : Duration) : Duration :=
  if max <=? 0 then 0 else
  let seed := Join [job_IdempotencyKey job; Itoa (job_ID job); Itoa (job_RetryCount job)] "|" in
  let sum := sha1_Sum seed in
  let byte i := nth i sum 0 in
  let value := Z.lor (Z.lor (Z.lor (Z.shiftl (byte 0%nat) 24) (Z.shiftl (byte 1%nat) 16))
                        (Z.shiftl (byte 2%nat) 8)) (byte 3%nat) in
  let value := if value <? 0 then wrap64 (- value) else value in
  Z.rem value max.

Definition backoff (w : Worker) (job : Job) : Duration :=
  match w_Backoff w with
  | Some f => f job
  | None =>
    let base := if rp_Base (w_Retry w) <=? 0 then 30 * Second else rp_Base (w_Retry w) in
    let max := if rp_Max (w_Retry w) <=? 0 then 15 * Minute else rp_Max (w_Retry w) in
    let jitterMax := if rp_JitterMax (w_Retry w) <? 0 then 0 else rp_JitterMax (w_Retry w) in
    let attempt := wrap64 (job_RetryCount job + 1) in
    let attempt := if attempt <? 1 then 1 else attempt in
    let exponent := math_Min (f64_of_Z (attempt - 1)) (f64_of_Z 10) in
    let delay := f64_to_int64 (fmul (f64_of_Z base) (math_Pow2 exponent)) in
    let delay := if delay >? max then max else delay in
    wrap64 (delay + deterministicJitter job jitterMax)
  end.

(** ** Failure handling *)

Definition classifyExecutionError (err : error) : FailureKind * bool :=
  match as_execution_error err with
  | Some kr => kr
  | None => if errors_Is err DeadlineExceeded then (FailureTimeout, true) else (FailureServerError, true)
  end.

Definition NewExecutionError (kind : FailureKind) (recoverable : bool) (err : option error) : error :=
  ExecutionError kind recoverable (Some (default (ErrorString kind) err)).

(** [json.Marshal] of [RuntimeMetadata], in field order. *)
Definition metadata_json (m : RuntimeMetadata) : json :=
  JObject [ ("endpoint_id", JInt (rm_EndpointID m)); ("endpoint_name", JString (rm_EndpointName m));
            ("endpoint_data_type", JString (rm_EndpointDataType m));
            ("requires_endpoint", JBool (rm_RequiresEndpoint m));
            ("request_weight", JInt (rm_RequestWeight m)); ("timeout_ms", JInt (rm_TimeoutMS m));
            ("rate_limit_per_second", JFloat (rm_RateLimitPerSecond m));
            ("rate_limit_per_minute", JInt (rm_RateLimitPerMinute m)) ].

Definition safeFailurePayload (job : Job) (err : error) (kind : FailureKind) : RawMessage :=
  if marshalable (rm_RateLimitPerSecond (RuntimeMetadataFromJob job)) then
    RawJson (json_map
      [ ("job", json_map
           [ ("id", JInt (job_ID job)); ("exchange", JString (job_Exchange job));
             ("data_type", JString (job_DataType job)); ("tier", JString (job_Tier job));
             ("symbol_id", JInt (job_SymbolID job)); ("source_symbol", JString (job_SourceSymbol job));
             ("period", JString (job_Period job)); ("idempotency_key", JString (job_IdempotencyKey job));
             ("retry_count", JInt (job_RetryCount job)); ("max_retry", JInt (job_MaxRetry job)) ]);
        ("error", json_map [ ("type", JString kind); ("message", JString (Error err)) ]);
        ("metadata", metadata_json (RuntimeMetadataFromJob job)) ])
  else RawEmpty.

(** [deadLetter := !recoverable || job.RetryCount+1 >= job.MaxRetry]. *)
Definition dead_letter_due (job : Job) (recoverable : bool) : bool :=
  negb recoverable || (job_MaxRetry job <=? wrap64 (job_RetryCount job + 1)).

Definition retryOrDeadLetter (w : Worker) (st : worker_state) (env : job_env) (job : Job) (err : error)
    (recoverable : bool) : worker_state * option error :=
  let '(kind, _) := classifyExecutionError err in
  let failure := MkJobFailure kind (Error err) (rm_EndpointID (RuntimeMetadataFromJob job))
                   (safeFailurePayload job err kind) in
  if dead_letter_due job recoverable then
    let '(db, e) := if w_Detailed w
                    then MarkJobFailedDetailed (ws_db st) (env_db_now env) job failure true
                    else MarkJobFailed (ws_db st) (env_db_now env) job (Error err) true in
    (set_db st db, e)
  else
    let nextRun := Add (env_now env) (backoff w job) in
    (set_db st (RetryJobLater (ws_db st) (env_db_now env) job nextRun (Error err)), None).

(** ** Processing one job *)

Definition progress (w : Worker) (st : worker_state) (job : Job) (status : JobStatus) : worker_state :=
  if w_OnProgress w
  then MkWS (ws_db st) (ws_breaker st) (ws_limiter st) (ws_progress st ++ [(job_ID job, status)])
  else st.

(** [Breaker.Allow], when a breaker is set. *)
Definition breaker_allow (st : worker_state) (env : job_env) (key : Key) : worker_state * option error :=
  match ws_breaker st with
  | None => (st, None)
  | Some b =>
    let '(b', (_, e)) := Allow b (env_ctx env) (env_allow_now env) key in
    (MkWS (ws_db st) (Some b') (ws_limiter st) (ws_progress st), e)
  end.

(** [Limiter.Wait], when a limiter is set and the job needs an endpoint. *)
Definition limiter_wait (st : worker_state) (env : job_env) (key : Key) (m : RuntimeMetadata)
    : worker_state * outcome :=
  match ws_limiter st with
  | Some l =>
    if rm_RequiresEndpoint m then
      let '(l', o) := Wait l (env_turns env) key (rm_RequestWeight m) in
      (MkWS (ws_db st) (ws_breaker st) (Some l') (ws_progress st),
       match o with WaitReturned e => Returned e | WaitBlocked => Blocked end)
    else (st, Returned None)
  | None => (st, Returned None)
  end.

Definition breaker_record (st : worker_state) (f : CircuitBreaker -> CircuitBreaker) : worker_state :=
  MkWS (ws_db st) (f <$> ws_breaker st) (ws_limiter st) (ws_progress st).

(** The part of [process] from the executor on. *)
Definition execute_job (w : Worker) (st : worker_state) (env : job_env) (key : Key) (job : Job)
    : worker_state * option error :=
  let st := progress w st job JobStatusRunning in
  match env_exec env with
  | Some err =>
    let '(kind, recoverable) := classifyExecutionError err in
    let st := breaker_record st (fun b => RecordFailure b (env_fail_now env) key kind) in
    retryOrDeadLetter w st env job err recoverable
  | None =>
    let st := breaker_record st (fun b => RecordSuccess b key) in
    let st := set_db st (MarkJobSucceeded (ws_db st) (env_db_now env) (job_ID job)) in
    (progress w st job JobStatusSucceeded, None)
  end.

Definition job_key (job : Job) : Key :=
  MkKey (job_Exchange job) (rm_EndpointName (RuntimeMetadataFromJob job)) (job_DataType job).

Definition process (w : Worker) (st : worker_state) (env : job_env) (job : Job) : worker_state * outcome :=
  let metadata := RuntimeMetadataFromJob job in
  let key := job_key job in
  match breaker_allow st env key with
  | (st, Some err) =>
    let '(st, e) := retryOrDeadLetter w st env job err true in (st, Returned e)
  | (st, None) =>
    match limiter_wait st env key metadata with
    | (st, Blocked) => (st, Blocked)
    | (st, Returned (Some err)) =>
      let '(st, e) := retryOrDeadLetter w st env job err true in (st, Returned e)
    | (st, Returned None) =>
      let '(st, e) := execute_job w st env key job in (st, Returned e)
    end
  end.

(** ** A batch *)

Fixpoint run_jobs (w : Worker) (st : worker_state) (envs : Job -> job_env) (jobs : list Job) (processed : Z)
    : worker_state * (Z * outcome) :=
  match jobs with
  | [] => (st, (processed, Returned None))
  | job :: rest =>
    match process w st (envs job) job with
    | (st', Returned None) => run_jobs w st' envs rest (processed + 1)
    | (st', o) => (st', (processed, o))
    end
  end.

(** [RunOnce]: the new state, the processed count and how it ended. *)
Definition RunOnce (w : Worker) (st : worker_state) (db_now : Time) (locked : gset Z) (envs : Job -> job_env)
    : worker_state * (Z * outcome) :=
  let batchSize := if w_BatchSize w <=? 0 then 10 else w_BatchSize w in
  match ClaimPendingJobs (ws_db st) db_now locked batchSize with
  | (db, Err e) => (set_db st db, (0, Returned (Some e)))
  | (db, Ok jobs) => run_jobs w (set_db st db) envs jobs 0
  end.

(** ** Backoff: exact value *)

Lemma deterministicJitter_bounds job max :
  0 < max -> 0 <= deterministicJitter job max < max.
Proof.
  intros Hm. unfold deterministicJitter. rewrite (proj2 (Z.leb_gt max 0)) by lia.
  set (seed := Join _ _). pose proof (sha1_Sum_bytes seed) as Hb.
  assert (forall i, 0 <= nth i (sha1_Sum seed) 0) as Hn.
  { intros i. destruct (nth_in_or_default i (sha1_Sum seed) 0) as [Hi| ->]; [|lia].
    rewrite Forall_forall in Hb. by apply Hb, list_elem_of_In. }
  set (v := Z.lor _ _). assert (0 <= v) as Hv.
  { unfold v. rewrite !Z.lor_nonneg, !Z.shiftl_nonneg. auto. }
  rewrite (proj2 (Z.ltb_ge v 0)) by lia. rewrite Z.rem_mod_nonneg by lia. apply Z.mod_pos_bound. lia.
Qed.

Lemma math_Min_of_Z a b : 0 <= a < 2 ^ 53 -> 0 <= b < 2 ^ 53 ->
  math_Min (f64_of_Z a) (f64_of_Z b) = f64_of_Z (Z.min a b).
Proof.
  intros Ha Hb. unfold math_Min. rewrite flt_of_Z by done.
  destruct (Z.ltb_spec a b); f_equal; lia.
Qed.

(** C34: the default backoff is exponential, capped and jittered, exactly: for a base delay below
    52 days and any retry count, it is the smaller of the cap and [Base * 2^min(retries, 10)], plus
    a jitter that depends only on the job and is at least 0 and below [JitterMax].  The
    computation goes through floating point and back without any loss. *)
Theorem backoff_exact w job :
  w_Backoff w = None ->
  0 < rp_Base (w_Retry w) < 2 ^ 52 -> 0 < rp_Max (w_Retry w) < 2 ^ 61 -> 0 < rp_JitterMax (w_Retry w) < 2 ^ 61 ->
  0 <= job_RetryCount job < 2 ^ 31 ->
  exists jitter, 0 <= jitter < rp_JitterMax (w_Retry w) /\
    backoff w job = Z.min (rp_Base (w_Retry w) * 2 ^ Z.min (job_RetryCount job) 10) (rp_Max (w_Retry w)) + jitter.
Proof.
  intros Hn Hb Hm Hj Hr. exists (deterministicJitter job (rp_JitterMax (w_Retry w))).
  pose proof (deterministicJitter_bounds job (rp_JitterMax (w_Retry w)) ltac:(lia)) as Hd. split; [done|].
  unfold backoff. rewrite Hn.
  rewrite (proj2 (Z.leb_gt (rp_Base _) 0)), (proj2 (Z.leb_gt (rp_Max _) 0)), (proj2 (Z.ltb_ge (rp_JitterMax _) 0)) by lia.
  rewrite (wrap64_ok (job_RetryCount job + 1)) by (unfold int64_ok, min_int64, max_int64, two63; lia).
  rewrite (proj2 (Z.ltb_ge (job_RetryCount job + 1) 1)) by lia.
  replace (job_RetryCount job + 1 - 1) with (job_RetryCount job) by lia.
  rewrite math_Min_of_Z by lia. unfold f64_to_int64. rewrite f64_scale_exact by lia.
  set (k := Z.min (job_RetryCount job) 10). set (base := rp_Base (w_Retry w)) in *.
  assert (2 ^ k <= 2 ^ 10) by (apply Z.pow_le_mono_r; lia).
  assert (0 < 2 ^ k) by (apply Z.pow_pos_nonneg; lia).
  assert (0 <= base * 2 ^ k < 2 ^ 62) by nia.
  rewrite bool_decide_eq_true_2 by (unfold int64_ok, min_int64, max_int64, two63; lia).
  rewrite Z.gtb_ltb. destruct (Z.ltb_spec (rp_Max (w_Retry w)) (base * 2 ^ k));
    rewrite wrap64_ok by (unfold int64_ok, min_int64, max_int64, two63; lia); lia.
Qed.

Definition demo_worker : Worker :=
  MkWorker 10 None (MkRetryPolicy (5 * Second) (2 * Minute) (3 * Second)) true true.
Definition demo_job (retries : Z) : Job :=
  MkJob 1 "binance" "klines" "watchlist" 7 "BTCUSDT" "1m" "binance:klines:7" JobStatusRunning 10 demo_bucket
    None None retries 3 "" RawEmpty "realtime" 0 RawEmpty.

Lemma backoff_exact_witness :
  exists jitter, 0 <= jitter < 3 * Second /\ backoff demo_worker (demo_job 4) = 80 * Second + jitter.
Proof.
  apply (backoff_exact demo_worker (demo_job 4)); [reflexivity|..]; split; vm_compute; (reflexivity || discriminate).
Defined.

(** ** Attempts until a dead letter *)

Definition row_of (db : scheduler_db) (id : Z) : option job_row := find (fun r => jr_id r =? id) (db_jobs db).

(** One attempt at a pending job: it is claimed and processed. *)
Definition attempt (w : Worker) (st : worker_state) (id : Z) (env : job_env) : worker_state * outcome :=
  match row_of (ws_db st) id with
  | Some r =>
    if decide (jr_status r = JobStatusPending) then
      process w (set_db st (update_where (ws_db st) (fun r => jr_id r =? id) (start_row (env_db_now env))))
        env (scanJob (start_row (env_db_now env) r))
    else (st, Returned None)
  | None => (st, Returned None)
  end.

Fixpoint attempts (w : Worker) (st : worker_state) (id : Z) (envs : list job_env) : worker_state :=
  match envs with
  | [] => st
  | env :: rest => attempts w (fst (attempt w st id env)) id rest
  end.

(** The job can be dead-lettered: what the dead-letter row references exists. *)
Definition row_deliverable (db : scheduler_db) (r : job_row) : Prop :=
  jr_exchange r = ToLower (jr_exchange r) /\ 0 <= jr_retry_count r /\ jr_max_retry r < 2 ^ 31 /\
  (exists s, jr_symbol_id r = Some s /\ s ∈ db_symbol_ids db) /\
  (let e := rm_EndpointID (RuntimeMetadataFromJob (scanJob r)) in e = 0 \/ e ∈ db_endpoint_ids db).

Lemma find_update db id f p r :
  (forall x, jr_id (f x) = jr_id x) -> row_of db id = Some r -> p = (fun r => jr_id r =? id) ->
  row_of (update_where db p f) id = Some (f r).
Proof.
  intros Hf Hr ->. unfold row_of in *. simpl. induction (db_jobs db) as [|x l IH]; simpl in *; [done|].
  destruct (Z.eqb_spec (jr_id x) id) as [E|E].
  - simplify_eq. rewrite Hf, Z.eqb_refl. done.
  - rewrite (proj2 (Z.eqb_neq _ _) E). by apply IH.
Qed.

Lemma row_of_elem db id r : row_of db id = Some r -> id ∈ map jr_id (db_jobs db).
Proof.
  intros H. apply find_some in H as [Hin E]. bool_to_prop. subst. apply list_elem_of_fmap_2.
  by apply list_elem_of_In.
Qed.

(** The job, or another job with its key, is in the dead-letter table. *)
Definition in_dead_letters (db : scheduler_db) (r : job_row) : Prop :=
  jr_id r ∈ map fr_job_id (db_failed db) \/ jr_idempotency_key r ∈ map fr_idempotency_key (db_failed db).

(** What a failed attempt leaves: one more attempt counted, and either the job waits for another
    one it is still allowed, which takes a recoverable failure ([rec]), or it is dead-lettered, for an
    unrecoverable failure or with its last attempt. *)
Definition after_failure (rec : bool) (r : job_row) (db' : scheduler_db) (id : Z) : Prop :=
  exists r', row_of db' id = Some r' /\ row_deliverable db' r' /\
    jr_max_retry r' = jr_max_retry r /\ jr_retry_count r' = jr_retry_count r + 1 /\
    (jr_status r' = JobStatusPending /\ jr_retry_count r + 1 < jr_max_retry r /\ rec = true \/
     jr_status r' = JobStatusDeadLetter /\ in_dead_letters db' r' /\ (rec = false \/ jr_max_retry r <= jr_retry_count r + 1)).

Lemma dead_letter_row_of db now job f id r :
  row_of db id = Some r -> jr_id r = id -> row_deliverable db r ->
  job_ID job = id -> job_IdempotencyKey job = jr_idempotency_key r ->
  job_Exchange job = jr_exchange r -> job_SymbolID job = default 0 (jr_symbol_id r) ->
  job_RetryCount job = jr_retry_count r ->
  jf_EndpointID f = rm_EndpointID (RuntimeMetadataFromJob (scanJob r)) ->
  (forall t, jf_Payload f <> RawInvalid t) ->
  let db' := fst (MarkJobFailedDetailed db now job f true) in
  exists r', row_of db' id = Some r' /\ row_deliverable db' r' /\
    jr_max_retry r' = jr_max_retry r /\ jr_retry_count r' = jr_retry_count r + 1 /\
    jr_status r' = JobStatusDeadLetter /\ in_dead_letters db' r'.
Proof.
  intros Hr Hid Hdel Hji Hjk Hje Hjs Hjr Hfe Hfp.
  pose proof Hdel as (Hx & Hc & Hm & (s & Hs & Hsym) & Hep).
  unfold MarkJobFailedDetailed. set (f' := if (jf_Message f =? "")%string then _ else f).
  set (fr := fail_row now JobStatusDeadLetter (jf_Message f') (jf_Kind f')).
  set (db' := update_where _ _ _).
  assert (row_of db' id = Some (fr r)) as Hr' by (apply find_update; [done|done|by rewrite Hji]).
  assert (jf_EndpointID f' = jf_EndpointID f /\ jf_Payload f' = jf_Payload f) as [He' Hp']
    by (unfold f'; by case_match).
  assert (row_deliverable db' (fr r)) as Hdel'.
  { split_and!; simpl; try done; try lia. by exists s. }
  destruct (failed_conflict db' (dead_letter_row job f')) eqn:Ec.
  - exists (fr r). split_and!; try done. unfold failed_conflict in Ec. simpl in Ec.
    rewrite Hji, Hjk in Ec. unfold in_dead_letters. simpl. rewrite Hid.
    bool_to_prop. destruct Ec; bool_to_prop; auto.
  - destruct (failed_ok db' (dead_letter_row job f')) eqn:Eo.
    + exists (fr r). split_and!; try done. left. simpl. rewrite map_app, Hid, elem_of_app. right.
      simpl. rewrite Hji. by apply list_elem_of_singleton.
    + exfalso. unfold failed_ok in Eo. cbn [dead_letter_row fr_exchange fr_retry_count fr_job_id
        fr_symbol_id fr_endpoint_id fr_payload] in Eo.
      rewrite Hje, <- Hx, String.eqb_refl, Hjs, Hs, Hji, Hjr, He', Hp', Hfe in Eo. cbn [default] in Eo.
      rewrite (proj2 (Z.leb_le _ _)) in Eo by lia.
      rewrite !bool_decide_eq_true_2 in Eo; [|done|by eapply row_of_elem].
      unfold nullif_zero in Eo. cbn [andb] in Eo.
      assert (forall b, b && match ensureJSON (jf_Payload f) with RawInvalid _ => false | _ => true end = b) as Hpay.
      { intros b. destruct (jf_Payload f) eqn:Ef; [by rewrite andb_true_r| |by rewrite andb_true_r].
        exfalso. by eapply Hfp. }
      rewrite Hpay in Eo. destruct (Z.eqb_spec (rm_EndpointID (RuntimeMetadataFromJob (scanJob r))) 0); [done|].
      destruct Hep as [?|Hep]; [done|]. by rewrite bool_decide_eq_true_2 in Eo.
Qed.

Lemma retryOrDeadLetter_row w st env r id now err rec :
  row_of (ws_db st) id = Some (start_row now r) -> jr_id r = id -> row_deliverable (ws_db st) (start_row now r) ->
  0 <= jr_retry_count r < 2 ^ 31 ->
  let res := retryOrDeadLetter w st env (scanJob (start_row now r)) err rec in
  ws_limiter (fst res) = ws_limiter st /\ ws_breaker (fst res) = ws_breaker st /\
  after_failure rec r (ws_db (fst res)) id.
Proof.
  intros Hr Hid Hdel Hrange. unfold retryOrDeadLetter.
  destruct (classifyExecutionError err) as [kind k']. destruct (dead_letter_due _ rec) eqn:Ed.
  - assert (rec = false \/ jr_max_retry r <= jr_retry_count r + 1) as Hdue.
    { unfold dead_letter_due in Ed. apply orb_true_iff in Ed as [Ed|Ed]; [left; by destruct rec|right].
      rewrite wrap64_ok in Ed by (simpl; unfold int64_ok, min_int64, max_int64, two63; lia). by bool_to_prop. }
    set (job := scanJob (start_row now r)).
    assert (forall f, jf_EndpointID f = rm_EndpointID (RuntimeMetadataFromJob (scanJob (start_row now r))) ->
      (forall t, jf_Payload f <> RawInvalid t) ->
      after_failure rec r (fst (MarkJobFailedDetailed (ws_db st) (env_db_now env) job f true)) id) as Hdl.
    { intros f Hf1 Hf2.
      destruct (dead_letter_row_of (ws_db st) (env_db_now env) job f id (start_row now r)) as (r' & ? & ? & ? & ? & ? & ?);
        try done. exists r'. split_and!; try done. right. by split_and!. }
    destruct (w_Detailed w).
    + pose proof (Hdl (MkJobFailure kind (Error err) (rm_EndpointID (RuntimeMetadataFromJob job))
                        (safeFailurePayload job err kind)) eq_refl) as Hx.
      destruct (MarkJobFailedDetailed _ _ _ _ _) as [db' e]. split; [done|]. split; [done|]. apply Hx.
      intros t. simpl. unfold safeFailurePayload. by case_match.
    + unfold MarkJobFailed.
      pose proof (Hdl (MkJobFailure "" (Error err) (rm_EndpointID (RuntimeMetadataFromJob job))
                         (ensureJSON (job_Metadata job))) eq_refl) as Hx.
      destruct (MarkJobFailedDetailed _ _ _ _ _) as [db' e]. split; [done|]. split; [done|]. by apply Hx.
  - split; [done|]. split; [done|]. simpl. unfold dead_letter_due in Ed. apply orb_false_iff in Ed as [Er Ed].
    rewrite wrap64_ok in Ed by (simpl; unfold int64_ok, min_int64, max_int64, two63; lia).
    simpl in Ed. bool_to_prop.
    exists (retry_row (env_db_now env) (Add (env_now env) (backoff w (scanJob (start_row now r)))) (Error err) (start_row now r)).
    split_and!.
    + apply find_update; [done|done|]. simpl. by rewrite Hid.
    + destruct Hdel as (? & ? & ? & ? & ?). split_and!; simpl in *; try done; lia.
    + done.
    + done.
    + left. split; [done|]. split; [lia|]. by destruct rec.
Qed.

Lemma breaker_allow_frame st env key :
  ws_db (fst (breaker_allow st env key)) = ws_db st /\ ws_limiter (fst (breaker_allow st env key)) = ws_limiter st /\
  (ws_breaker st = None -> ws_breaker (fst (breaker_allow st env key)) = None /\ snd (breaker_allow st env key) = None).
Proof.
  unfold breaker_allow. destruct (ws_breaker st) as [b|] eqn:E; [|done]. by destruct (Allow _ _ _ _) as [? [? ?]].
Qed.

(** Whether a failure of this attempt's executor may be retried. *)
Definition recoverable (env : job_env) : bool :=
  match env_exec env with Some err => snd (classifyExecutionError err) | None => true end.

(** A wait that comes to an end: its context is done at the last turn, if it was not granted before. *)
Definition wait_ends (turns : list turn) : Prop := exists t e, last turns = Some t /\ turn_done t = Some e.

Lemma wait_loop_ends turns l x weight : wait_ends turns -> snd (wait_loop turns l x weight) <> WaitBlocked.
Proof.
  intros (t & e & Hl & Hd). revert l. induction turns as [|u turns IH]; intros l; [done|]. cbn [wait_loop].
  destruct (reserve _ _ _ _ _) as [l' [[d j]|err]]; [|done]. destruct (_ <=? 0); [done|].
  destruct turns as [|v turns]; [cbn in Hl; simplify_eq; by rewrite Hd|]. destruct (turn_done u); [done|]. by apply IH.
Qed.

Lemma limiter_wait_frame st env key m :
  ws_db (fst (limiter_wait st env key m)) = ws_db st /\ ws_breaker (fst (limiter_wait st env key m)) = ws_breaker st /\
  (ws_limiter st = None -> ws_limiter (fst (limiter_wait st env key m)) = None) /\
  (ws_limiter st = None \/ wait_ends (env_turns env) -> snd (limiter_wait st env key m) <> Blocked).
Proof.
  unfold limiter_wait. destruct (ws_limiter st) as [l|] eqn:E; [|by split_and!].
  destruct (rm_RequiresEndpoint m); [|by split_and!]. unfold Wait. destruct (_ =? "")%string; [by split_and!|].
  pose proof (wait_loop_ends (env_turns env) l (norm (key_Exchange key)) (if rm_RequestWeight m <=? 0 then 1 else rm_RequestWeight m)) as Hw.
  destruct (wait_loop _ _ _ _) as [l' [e|]]; cbn [fst snd] in *; split_and!; try done. intros [?|Hx]; [done|]. by destruct (Hw Hx).
Qed.

(** The job tables do not change before the outcome of the attempt is recorded; the failure is the
    executor's, or one of the breaker or the limiter, which may be retried. *)
Lemma process_failure w st env job :
  ws_limiter st = None \/ wait_ends (env_turns env) -> is_Some (env_exec env) ->
  exists st' err rec, ws_db st' = ws_db st /\ (ws_limiter st = None -> ws_limiter st' = None) /\
    (ws_breaker st = None -> ws_breaker st' = None /\ (ws_limiter st = None -> rec = recoverable env)) /\
    (rec = false -> recoverable env = false) /\
    (snd (breaker_allow st env (job_key job)) <> None -> rec = true) /\
    fst (process w st env job) = fst (retryOrDeadLetter w st' env job err rec).
Proof.
  intros Hl [err He]. unfold process.
  pose proof (breaker_allow_frame st env (job_key job)) as (H1 & H2 & H3).
  destruct (breaker_allow st env (job_key job)) as [st1 [e|]] eqn:Ea; cbn [fst snd] in *.
  { exists st1, e, true. split_and!; try done; [by rewrite H2|intros Hb; by destruct (H3 Hb)|by destruct (retryOrDeadLetter _ _ _ _ _ _)]. }
  pose proof (limiter_wait_frame st1 env (job_key job) (RuntimeMetadataFromJob job)) as (W1 & W2 & W3 & W4).
  rewrite H2 in W3, W4. specialize (W4 Hl).
  assert (ws_limiter st = None -> snd (limiter_wait st1 env (job_key job) (RuntimeMetadataFromJob job)) = Returned None) as W5
    by (intros Hn; unfold limiter_wait; by rewrite H2, Hn).
  destruct (limiter_wait st1 env _ _) as [st2 [[e|]|]]; cbn [fst snd] in *; [| |done].
  { exists st2, e, true. split_and!; try done; [congruence|..|by destruct (retryOrDeadLetter _ _ _ _ _ _)].
    intros Hb. destruct (H3 Hb) as [Hb1 _]. split; [congruence|]. intros Hn. by specialize (W5 Hn). }
  unfold execute_job. rewrite He. destruct (classifyExecutionError err) as [kind rec] eqn:Ec.
  assert (recoverable env = rec) as Hrec by (unfold recoverable; by rewrite He, Ec).
  set (st3 := breaker_record _ _). exists st3, err, rec. split_and!.
  - unfold st3, progress. case_match; cbn; congruence.
  - intros Hn. unfold st3, progress. case_match; cbn; by apply W3.
  - intros Hb. split; [|done]. destruct (H3 Hb) as [Hb1 _]. unfold st3, progress. rewrite <- W2 in Hb1. case_match; cbn; by rewrite Hb1.
  - by rewrite Hrec.
  - done.
  - by destruct (retryOrDeadLetter _ _ _ _ _ _).
Qed.

Lemma attempt_failure w st id env r :
  ws_limiter st = None \/ wait_ends (env_turns env) -> is_Some (env_exec env) ->
  row_of (ws_db st) id = Some r -> jr_status r = JobStatusPending -> row_deliverable (ws_db st) r ->
  jr_retry_count r < 2 ^ 31 ->
  let st' := fst (attempt w st id env) in
  exists rec, (ws_limiter st = None -> ws_limiter st' = None) /\
    (ws_breaker st = None -> ws_breaker st' = None /\ (ws_limiter st = None -> rec = recoverable env)) /\ (rec = false -> recoverable env = false) /\
    (snd (breaker_allow st env (job_key (scanJob r))) <> None -> rec = true) /\
    after_failure rec r (ws_db st') id.
Proof.
  intros Hl He Hr Hp Hdel Hrange. unfold attempt. rewrite Hr, decide_True by done.
  set (st1 := set_db st _).
  assert (jr_id r = id) as Hid by (apply find_some in Hr as [_ E]; by bool_to_prop).
  destruct (process_failure w st1 env (scanJob (start_row (env_db_now env) r)) Hl He)
    as (st2 & err & rec & Hdb & Hl2 & Hb2 & Hrec & Hallow & ->).
  pose proof Hdel as (_ & Hc & _ & _ & _).
  destruct (retryOrDeadLetter_row w st2 env r id (env_db_now env) err rec) as (Hla & Hba & Haf); [| |..]; try done.
  - rewrite Hdb. by apply find_update.
  - rewrite Hdb. destruct Hdel as (? & ? & ? & ? & ?). split_and!; done.
  - exists rec. split_and!; [intros Hn; rewrite Hla; by apply Hl2| |done| |].
    + intros Hb. rewrite Hba. by apply Hb2.
    + intros Ha. apply Hallow. intros Hn. apply Ha. revert Hn. unfold breaker_allow, st1. cbn [set_db ws_breaker].
      change (job_key (scanJob (start_row _ r))) with (job_key (scanJob r)).
      destruct (ws_breaker st); [|done]. by destruct (Allow _ _ _ _) as [? [? ?]].
    + exact Haf.
Qed.

Lemma attempts_dead w st id r envs :
  row_of (ws_db st) id = Some r -> jr_status r = JobStatusDeadLetter -> attempts w st id envs = st.
Proof.
  intros Hr Hd. induction envs as [|env envs IH]; [done|]. cbn [attempts].
  assert (fst (attempt w st id env) = st) as ->; [|done]. unfold attempt. by rewrite Hr, decide_False by congruence.
Qed.

(** The attempts a job has left, at least one. *)
Definition attempts_left (r : job_row) : Z := Z.max 1 (jr_max_retry r - jr_retry_count r).

(** C1: retries.  A pending job whose every attempt fails (the executor errs, or the circuit breaker or
    the limiter refuses it first, in a wait that ends) waits for its next attempt or is dead-lettered, and
    is then in the dead-letter table and never attempted again.  It is dead-lettered with the last attempt
    it has left, never later, whatever the errors; and sooner only by an attempt whose error is
    unrecoverable.  Where neither breaker nor limiter stands before the executor, the first unrecoverable
    error does dead-letter it. *)
Theorem failing_job_is_dead_lettered w st id r envs :
  Forall (fun env => is_Some (env_exec env) /\ (ws_limiter st = None \/ wait_ends (env_turns env))) envs ->
  row_of (ws_db st) id = Some r -> jr_status r = JobStatusPending -> row_deliverable (ws_db st) r ->
  jr_retry_count r < 2 ^ 31 ->
  let st' := attempts w st id envs in
  exists r' k, row_of (ws_db st') id = Some r' /\ jr_retry_count r' = jr_retry_count r + Z.of_nat k /\
    (k <= length envs)%nat /\ Z.of_nat k <= attempts_left r /\
    (jr_status r' = JobStatusPending /\ k = length envs /\ (envs <> [] -> Z.of_nat k < attempts_left r) /\
       (ws_breaker st = None -> ws_limiter st = None -> Forall (fun env => recoverable env = true) envs) \/
     jr_status r' = JobStatusDeadLetter /\ in_dead_letters (ws_db st') r' /\ (0 < k)%nat /\
       (Z.of_nat k < attempts_left r -> exists env, envs !! (k - 1)%nat = Some env /\ recoverable env = false) /\
       (ws_breaker st = None -> ws_limiter st = None -> Forall (fun env => recoverable env = true) (take (k - 1) envs))).
Proof.
  cbv zeta. revert st r. induction envs as [|env envs IH]; intros st r Hf Hr Hp Hdel Hrange.
  { exists r, 0%nat. split_and!; [done|lia|done|unfold attempts_left; lia|]. left. split_and!; try done. }
  apply Forall_cons in Hf as [[He Hl] Hf]. cbn [attempts].
  destruct (attempt_failure w st id env r Hl He Hr Hp Hdel Hrange)
    as (rec & Hl' & Hb' & Hrec & _ & (r' & Hr' & Hdel' & Hmax & Hcnt & Hst)).
  destruct Hst as [(Hpend & Hlt & Hrt)|(Hdead & Hin & Hwhy)].
  - pose proof Hdel as (_ & _ & Hm31 & _).
    destruct (IH (fst (attempt w st id env)) r') as (r'' & k & H1 & H2 & H3 & H4 & H5); try done; [|lia|].
    { eapply Forall_impl; [exact Hf|]. intros e [? [?|?]]; auto. }
    assert (attempts_left r = attempts_left r' + 1) as Hleft by (unfold attempts_left; lia).
    exists r'', (S k). split_and!; [done|lia|cbn; lia|lia|].
    destruct H5 as [(Hs & Hk & Hk' & Hb)|(Hs & Hd & Hpos & Hk' & Hb)]; [left|right].
    + split_and!; [done|cbn; lia| |].
      * intros _. destruct envs; [cbn in Hk; subst; unfold attempts_left in *; lia|]. specialize (Hk' ltac:(done)). lia.
      * intros Hn Hm. destruct (Hb' Hn) as [Hn' Hre]. specialize (Hre Hm). specialize (Hl' Hm). constructor; [congruence|]. by apply Hb.
    + destruct k as [|k].
      { lia. }
      split_and!; [done|done|lia| |].
      * intros Hk. destruct Hk' as (e & He' & Hu); [lia|]. exists e. split; [|done].
        replace (S (S k) - 1)%nat with (S k) by lia. cbn. by replace (S k - 1)%nat with k in He' by lia.
      * intros Hn Hm. destruct (Hb' Hn) as [Hn' Hre]. specialize (Hre Hm). specialize (Hl' Hm). replace (S (S k) - 1)%nat with (S (S k - 1)) by lia. cbn [take].
        constructor; [congruence|]. by apply Hb.
  - rewrite (attempts_dead w _ id r' envs Hr' Hdead). exists r', 1%nat.
    split_and!; [done|lia|cbn; lia|unfold attempts_left; lia|]. right. split_and!; [done|done|lia| |].
    + intros Hk. exists env. split; [done|]. apply Hrec. destruct Hwhy as [?|Hm]; [done|]. exfalso. unfold attempts_left in Hk. lia.
    + intros _ _. constructor.
Qed.

Definition demo_env (err : option error) : job_env :=
  MkEnv None demo_time [] err demo_time demo_time demo_time.

Lemma failing_job_is_dead_lettered_witness :
  exists r', row_of (ws_db (attempts demo_worker (MkWS demo_planned None None []) 1
      [demo_env (Some DeadlineExceeded); demo_env (Some (ErrorString "boom")); demo_env (Some DeadlineExceeded)])) 1
    = Some r' /\ jr_status r' = JobStatusDeadLetter.
Proof.
  destruct (row_of demo_planned 1) as [r|] eqn:E; [|vm_compute in E; discriminate].
  assert (row_deliverable demo_planned r /\ jr_status r = JobStatusPending /\ jr_retry_count r < 2 ^ 31 /\ attempts_left r = 3)
    as (Hd & Hp & Hc & Hl).
  { vm_compute in E. injection E as <-. split_and!; try (vm_compute; reflexivity). unfold row_deliverable. split_and!.
    - vm_compute. reflexivity.
    - vm_compute. discriminate.
    - vm_compute. reflexivity.
    - exists 7. split; [reflexivity|]. apply (bool_decide_eq_true_1 _). vm_compute. reflexivity.
    - right. apply (bool_decide_eq_true_1 _). vm_compute. reflexivity. }
  destruct (failing_job_is_dead_lettered demo_worker (MkWS demo_planned None None []) 1 r
    [demo_env (Some DeadlineExceeded); demo_env (Some (ErrorString "boom")); demo_env (Some DeadlineExceeded)])
    as (r' & k & H1 & H2 & H3 & H4 & H5); [|exact E|exact Hp|exact Hd|exact Hc|].
  - repeat (constructor; [split; [eexists; reflexivity|left; reflexivity]|]). constructor.
  - exists r'. split; [exact H1|]. destruct H5 as [(_ & Hk & Hlt & _)|(Hs & _)]; [exfalso|exact Hs].
    specialize (Hlt ltac:(discriminate)). rewrite Hl, Hk in Hlt. discriminate Hlt.
Defined.

(** the happy path.  A job the breaker admits, that needs no limiter turn, and whose executor
    returns nil ends up succeeded with its finish time set and no error, the breaker is told of the
    success and of nothing else, and progress is reported as running then succeeded. *)
Theorem process_success w st env job r b :
  ws_breaker st = Some b -> ws_limiter st = None -> env_exec env = None ->
  snd (snd (Allow b (env_ctx env) (env_allow_now env) (job_key job))) = None ->
  row_of (ws_db st) (job_ID job) = Some r ->
  let res := process w st env job in
  snd res = Returned None /\
  row_of (ws_db (fst res)) (job_ID job) = Some (finish_row (env_db_now env) JobStatusSucceeded "" r) /\
  ws_breaker (fst res)
  = Some (RecordSuccess (fst (Allow b (env_ctx env) (env_allow_now env) (job_key job))) (job_key job)) /\
  (w_OnProgress w = true ->
   ws_progress (fst res)
   = (ws_progress st ++ [(job_ID job, JobStatusRunning); (job_ID job, JobStatusSucceeded)])%list).
Proof.
  intros Hb Hl He Ha Hr. unfold process, breaker_allow. rewrite Hb.
  destruct (Allow b (env_ctx env) (env_allow_now env) (job_key job)) as [b' [s e]]. simpl in Ha. subst e.
  unfold limiter_wait, execute_job. cbn [ws_limiter]. rewrite Hl, He. unfold progress.
  destruct (w_OnProgress w); cbn; split_and!; try done; try (by apply find_update).
  intros _. by rewrite <- app_assoc.
Qed.

Lemma process_success_witness :
  snd (process demo_worker (MkWS demo_planned (Some (NewCircuitBreaker demo_settings)) None [])
         (demo_env None) (demo_job 0)) = Returned None.
Proof.
  destruct (row_of demo_planned 1) as [r|] eqn:E; [|vm_compute in E; discriminate].
  exact (proj1 (process_success demo_worker (MkWS demo_planned (Some (NewCircuitBreaker demo_settings)) None [])
    (demo_env None) (demo_job 0) r (NewCircuitBreaker demo_settings) eq_refl eq_refl eq_refl eq_refl E)).
Defined.

(** a refusal by the circuit breaker counts as an attempt.  While the circuit of a job's key is
    open the executor is never consulted (the state after the attempt is the same whatever it would
    have returned), yet the attempt is counted like a failure, and a job on its last attempt is
    dead-lettered without having been sent. *)
Theorem open_circuit_counts_as_attempt w st env env' id r b :
  ws_breaker st = Some b -> ws_limiter st = None ->
  env' = MkEnv None (env_allow_now env) (env_turns env) (Some Canceled)
           (env_fail_now env) (env_now env) (env_db_now env) ->
  env_ctx env = None ->
  row_of (ws_db st) id = Some r -> jr_status r = JobStatusPending -> row_deliverable (ws_db st) r ->
  jr_retry_count r < 2 ^ 31 ->
  state (stateFor b (job_key (scanJob r))) = CircuitOpen ->
  env_allow_now env < openUntil (stateFor b (job_key (scanJob r))) ->
  fst (attempt w st id env) = fst (attempt w st id env') /\
  after_failure true r (ws_db (fst (attempt w st id env))) id.
Proof.
  intros Hb Hl -> Hctx Hr Hp Hdel Hrange Hopen Hnow.
  set (env' := MkEnv _ _ _ _ _ _ _).
  assert (fst (attempt w st id env) = fst (attempt w st id env')) as Heq.
  { unfold attempt. rewrite Hr, !decide_True by done. unfold process, breaker_allow. cbn [set_db ws_breaker].
    rewrite Hb, Hctx. cbn [env_ctx env_allow_now env'].
    change (job_key (scanJob (start_row _ r))) with (job_key (scanJob r)).
    unfold Allow. rewrite Hopen. unfold Before. rewrite (proj2 (Z.ltb_lt _ _) Hnow). done. }
  split; [done|]. rewrite Heq.
  destruct (attempt_failure w st id env' r (or_introl Hl) ltac:(by eexists) Hr Hp Hdel Hrange) as (rec & _ & _ & _ & Ha & Haf).
  rewrite Ha in Haf; [done|]. unfold breaker_allow. rewrite Hb. cbn [env' env_ctx env_allow_now]. unfold Allow. rewrite Hopen.
  unfold Before. by rewrite (proj2 (Z.ltb_lt _ _) Hnow).
Qed.

Lemma open_circuit_counts_as_attempt_witness :
  let b := run_ops (NewCircuitBreaker demo_settings)
             (failing (MkKey "binance" "kline" "klines") FailureServerError [demo_time; demo_time]) in
  fst (attempt demo_worker (MkWS demo_planned (Some b) None []) 1 (demo_env None))
  = fst (attempt demo_worker (MkWS demo_planned (Some b) None []) 1 (demo_env (Some Canceled))).
Proof.
  intros b. destruct (row_of demo_planned 1) as [r|] eqn:E; [|vm_compute in E; discriminate].
  apply (open_circuit_counts_as_attempt demo_worker (MkWS demo_planned (Some b) None [])
    (demo_env None) (demo_env (Some Canceled)) 1 r b eq_refl eq_refl eq_refl eq_refl E).
  - vm_compute in E. injection E as <-. reflexivity.
  - vm_compute in E. injection E as <-. unfold row_deliverable. split_and!.
    + vm_compute. reflexivity.
    + vm_compute. discriminate.
    + vm_compute. reflexivity.
    + exists 7. split; [reflexivity|]. apply (bool_decide_eq_true_1 _). vm_compute. reflexivity.
    + right. apply (bool_decide_eq_true_1 _). vm_compute. reflexivity.
  - vm_compute in E. injection E as <-. vm_compute. reflexivity.
  - vm_compute in E. injection E as <-. vm_compute. reflexivity.
  - vm_compute in E. injection E as <-. vm_compute. reflexivity.
Defined.
