(* ===== verification/SchedulerQueries.v ===== *)
(** * Scheduler queries ([internal/scheduler/repository.go]: policies and tiers)

    The policy list and the symbol markets of a tier, as the planner reads them. *)

From S2P Require Import Prelude GoString GoTime GoFloat GoError GoJson Symbols Endpoints SchedulerModels Planner.

(** ** Policies *)

(** A row of [derivative_collection_policies]. *)
Record policy_row := MkPolicyRow {
  pr_id : Z; pr_exchange : string; pr_market_type : string; pr_data_type : string; pr_tier : string;
  pr_period : option string; pr_interval_seconds : Z; pr_batch_size : Z; pr_priority : Z; pr_enabled : bool;
  pr_max_retry : Z; pr_stale_after : option Z }.

Definition scanPolicy (r : policy_row) : Policy :=
  MkPolicy (pr_id r) (pr_exchange r) (pr_market_type r) (pr_data_type r) (pr_tier r) (default "" (pr_period r))
    (pr_interval_seconds r) (pr_batch_size r) (pr_priority r) (pr_enabled r) (pr_max_retry r)
    (default 0 (pr_stale_after r)).

(** [ORDER BY priority ASC, interval_seconds ASC, exchange ASC, data_type ASC]. *)
Definition policy_leb (a b : policy_row) : bool :=
  if pr_priority a <? pr_priority b then true else
  if pr_priority b <? pr_priority a then false else
  if pr_interval_seconds a <? pr_interval_seconds b then true else
  if pr_interval_seconds b <? pr_interval_seconds a then false else
  if (pr_exchange a =? pr_exchange b)%string then str_leb (pr_data_type a) (pr_data_type b)
  else str_leb (pr_exchange a) (pr_exchange b).

Definition repo_ListActivePolicies (t : list policy_row) : result error (list Policy) :=
  Ok (map scanPolicy (stable_sort policy_leb (filter (fun r => pr_enabled r = true) t))).

(** ** Tiers *)

(** A row of [symbol_collection_tiers]. *)
Record tier_row := MkTierRow { tr_symbol_id : Z; tr_tier : string; tr_is_active : bool }.

Definition watchlistSymbolIDs (t : list tier_row) : gset Z :=
  list_to_set (map tr_symbol_id (filter (fun r => tr_tier r = "watchlist" /\ tr_is_active r = true) t)).

Definition filterSymbolsByID (input : list Symbol) (ids : gset Z) : list Symbol :=
  if decide (ids = ∅) then [] else filter (fun s => sym_ID s ∈ ids) input.

(** The first usable market of a symbol on the exchange. *)
Definition tier_market (exchange : string) (s : Symbol) : option SymbolMarket :=
  match find (fun m => IsActive m && (NormalizedExchange m =? exchange)%string
                       && negb (TrimSpace (mm_SourceSymbol m) =? "")%string) (sym_Markets s) with
  | None => None
  | Some m => Some (MkSymbolMarket (sym_ID s) (sym_Symbol s) exchange (TrimSpace (mm_MarketType m))
                      (TrimSpace (mm_SourceSymbol m)) (TrimSpace (mm_Status m)))
  end.

(** The loop over symbols: [n] results so far; stops when a positive limit is reached. *)
Fixpoint tier_loop (exchange : string) (limit : Z) (n : Z) (ss : list Symbol) : list SymbolMarket :=
  match ss with
  | [] => []
  | s :: rest =>
    let found := option_list (tier_market exchange s) in
    let n' := n + Z.of_nat (length found) in
    (found ++ (if (0 <? limit) && (limit <=? n') then [] else tier_loop exchange limit n' rest))%list
  end.

Definition ListSymbolMarketsByTier (symbols : list symbol_row) (tiers : list tier_row)
    (tier exchange : string) (limit : Z) : result error (list SymbolMarket) :=
  let tier := norm tier in
  let exchange := norm exchange in
  if (tier =? "")%string || (exchange =? "")%string then Err (ErrorString "tier and exchange are required") else
  let! active := ListSymbolsByExchange symbols exchange in
  let active := if (tier =? TierWatchlist)%string
                then filterSymbolsByID active (watchlistSymbolIDs tiers) else active in
  let limit := if (tier =? TierTop100)%string && (limit =? 0) then 100 else limit in
  Ok (tier_loop exchange limit 0 active).

(** The database as the planner's stores. *)
Definition repo_stores (policies : list policy_row) (eps : list Endpoint) (symbols : list symbol_row)
    (tiers : list tier_row) : PlannerStores := {|
  ListActivePolicies := repo_ListActivePolicies policies;
  ListActiveEndpoints := ListActiveByExchangeDataType eps;
  ListSymbolMarkets := ListSymbolMarketsByTier symbols tiers
|}.

(** ** Properties *)

(** The loop is a bounded prefix of the symbols that have a usable market. *)
Lemma tier_loop_prefix exchange limit n ss :
  0 <= n -> (0 < limit -> n < limit) ->
  tier_loop exchange limit n ss
  = if 0 <? limit then take (Z.to_nat (limit - n)) (omap (tier_market exchange) ss)
    else omap (tier_market exchange) ss.
Proof.
  revert n. induction ss as [|s ss IH]; intros n Hn Hl; simpl.
  { by destruct (0 <? limit); rewrite ?take_nil. }
  change (list_omap _ _ (tier_market exchange) ss) with (omap (tier_market exchange) ss).
  destruct (Z.ltb_spec 0 limit) as [Hpos|Hneg]; cbn [andb].
  - destruct (tier_market exchange s) as [sm|]; cbn [option_list length app].
    + change (Z.of_nat (length (option_list (Some sm)))) with 1.
      replace (Z.to_nat (limit - n)) with (S (Z.to_nat (limit - (n + 1)))) by lia. cbn [take]. f_equal.
      destruct (Z.leb_spec limit (n + 1)); [by replace (Z.to_nat (limit - (n + 1))) with 0%nat by lia|].
      by rewrite IH by lia.
    + change (Z.of_nat (length (option_list None))) with 0. rewrite Z.add_0_r.
      rewrite (proj2 (Z.leb_gt limit n)) by lia. by rewrite IH by lia.
  - destruct (tier_market exchange s) as [sm|]; cbn [option_list length app].
    + by rewrite IH by lia.
    + by rewrite IH by lia.
Qed.

Lemma tier_market_ok exchange s sm : tier_market exchange s = Some sm ->
  sm_SymbolID sm = sym_ID s /\ sm_Exchange sm = exchange /\ sm_SourceSymbol sm <> "" /\
  TrimSpace (sm_SourceSymbol sm) = sm_SourceSymbol sm.
Proof.
  unfold tier_market. destruct (find _ _) as [m|] eqn:E; [|done]. intros [= <-].
  apply find_some in E as [_ E]. bool_to_prop. simpl. split_and!; try done. apply TrimSpace_idem.
Qed.

(** the markets of a tier.  A top-100 query returns at most 100 markets, and they are those of
    the first 100 symbols by market-cap rank that have a usable market on the exchange; a
    watchlist query returns only watchlisted symbols, and none at all when the watchlist is empty;
    every market returned has a trimmed, non-empty source symbol on that exchange, so the planner
    never skips one for a missing symbol. *)
Theorem tier_markets_spec symbols tiers tier exchange limit sms :
  ListSymbolMarketsByTier symbols tiers tier exchange limit = Ok sms ->
  (exists active, ListSymbolsByExchange symbols exchange = Ok active /\
     (norm tier = TierTop100 -> limit = 0 \/ limit = SymbolLimitForTier tier ->
        sms = take 100 (omap (tier_market (norm exchange)) active)) /\
     (norm tier = TierAll -> limit <= 0 -> sms = omap (tier_market (norm exchange)) active)) /\
  (norm tier = TierWatchlist -> Forall (fun sm => sm_SymbolID sm ∈ watchlistSymbolIDs tiers) sms) /\
  Forall (fun sm => sm_Exchange sm = norm exchange /\ TrimSpace (sm_SourceSymbol sm) <> "") sms.
Proof.
  unfold ListSymbolMarketsByTier. case_match; [done|].
  assert (ListSymbolsByExchange symbols (norm exchange) = ListSymbolsByExchange symbols exchange) as Hn.
  { unfold ListSymbolsByExchange. by rewrite norm_idem. }
  rewrite Hn. destruct (ListSymbolsByExchange symbols exchange) as [active|] eqn:E; [|done]. intros [= <-].
  set (limit' := if _ && _ then 100 else limit).
  assert (forall sm, sm ∈ tier_loop (norm exchange) limit' 0
      (if (norm tier =? TierWatchlist)%string then filterSymbolsByID active (watchlistSymbolIDs tiers) else active) ->
      exists s, s ∈ (if (norm tier =? TierWatchlist)%string
                     then filterSymbolsByID active (watchlistSymbolIDs tiers) else active) /\
                tier_market (norm exchange) s = Some sm) as Hin.
  { intros sm Hsm. rewrite tier_loop_prefix in Hsm by lia. apply list_elem_of_omap.
    destruct (0 <? limit'); [|done]. by apply elem_of_take in Hsm as (i & Hi%list_elem_of_lookup_2 & _). }
  split_and!.
  - exists active. split; [done|]. split; intros Ht Hlim; unfold limit'; rewrite Ht; cbn -[tier_loop].
    + assert (SymbolLimitForTier tier = 100) as H100 by (unfold SymbolLimitForTier; by rewrite Ht).
      rewrite H100 in Hlim. destruct Hlim as [-> | ->]; simpl; by rewrite tier_loop_prefix by lia.
    + rewrite tier_loop_prefix by lia. by rewrite (proj2 (Z.ltb_ge 0 limit)) by lia.
  - intros Ht. apply Forall_forall. intros sm Hsm. destruct (Hin sm Hsm) as (s & Hs & Hm).
    apply tier_market_ok in Hm as (-> & _). rewrite Ht in Hs. simpl in Hs.
    unfold filterSymbolsByID in Hs. case_decide; [by apply not_elem_of_nil in Hs|].
    by apply list_elem_of_filter in Hs as [? _].
  - apply Forall_forall. intros sm Hsm. destruct (Hin sm Hsm) as (s & Hs & Hm).
    apply tier_market_ok in Hm as (_ & -> & Hne & Htr). split; [done|]. by rewrite Htr.
Qed.

Lemma tier_markets_spec_witness :
  match ListSymbolMarketsByTier demo_symbols [] "top100" "Binance" 0 with
  | Ok sms => Forall (fun sm => sm_Exchange sm = norm "Binance" /\ TrimSpace (sm_SourceSymbol sm) <> "") sms
              /\ map sm_SymbolID sms = [1; 2]
  | Err _ => False
  end.
Proof.
  destruct (ListSymbolMarketsByTier demo_symbols [] "top100" "Binance" 0) as [sms|e] eqn:E.
  - split; [exact (proj2 (proj2 (tier_markets_spec demo_symbols [] "top100" "Binance" 0 sms E)))|].
    vm_compute in E. by injection E as <-.
  - vm_compute in E. discriminate.
Defined.
