(* ===== verification/Normalizers.v ===== *)
(** * Normalised results ([internal/normalizers])

    The thirteen result types of the collectors and their validators.  Several validators range
    over a Go map; the order of the iteration is a parameter ([MapOrder]). *)

From Stdlib Require Import Ascii.
From S2P Require Import Prelude GoString GoTime GoFloat GoError GoJson.

(** The order in which [range] visits a map: any permutation of its entries. *)
Class MapOrder := {
  iterate : forall A, list A -> list A;
  iterate_perm : forall A (l : list A), iterate A l ≡ₚ l
}.
Arguments iterate {_ A}.
(** Entries as they are written. *)
Definition forward_order : MapOrder := {| iterate _ l := l; iterate_perm _ l := reflexivity l |}.

(** ** Data *)

Record SourceMeta := MkSourceMeta {
  src_SymbolID : Z; src_Exchange : string; src_SourceSymbol : string; src_SourceEndpointID : Z;
  src_RawData : RawMessage }.

Record NormalizedMarketSnapshot := MkMarketSnapshot {
  ms_Meta : SourceMeta; ms_SnapshotTime : Time; ms_LastPrice : option float64; ms_MarkPrice : option float64;
  ms_IndexPrice : option float64; ms_BidPrice : option float64; ms_AskPrice : option float64;
  ms_Volume24h : option float64; ms_QuoteVolume24h : option float64; ms_PriceChangePercent24h : option float64;
  ms_OpenInterest : option float64; ms_FundingRate : option float64 }.

Record NormalizedKline := MkKline {
  kl_Meta : SourceMeta; kl_Interval : string; kl_OpenTime : Time; kl_CloseTime : Time; kl_OpenPrice : float64;
  kl_HighPrice : float64; kl_LowPrice : float64; kl_ClosePrice : float64; kl_Volume : option float64;
  kl_QuoteVolume : option float64; kl_TradeCount : option Z; kl_TakerBuyVolume : option float64;
  kl_TakerBuyQuoteVolume : option float64; kl_IsClosed : bool }.

Record NormalizedOpenInterest := MkOpenInterest {
  oi_Meta : SourceMeta; oi_SnapshotTime : Time; oi_Period : string; oi_OpenInterest : float64;
  oi_OpenInterestValue : option float64 }.

Record NormalizedFundingSnapshot := MkFundingSnapshot {
  fs_Meta : SourceMeta; fs_SnapshotTime : Time; fs_FundingRate : float64; fs_NextFundingTime : Time;
  fs_MarkPrice : option float64; fs_IndexPrice : option float64 }.

Record NormalizedFundingHistory := MkFundingHistory {
  fh_Meta : SourceMeta; fh_FundingTime : Time; fh_FundingRate : float64; fh_RealizedRate : option float64;
  fh_MarkPrice : option float64 }.

Record NormalizedLongShortRatio := MkLongShortRatio {
  ls_Meta : SourceMeta; ls_Period : string; ls_SnapshotTime : Time; ls_LongRatio : option float64;
  ls_ShortRatio : option float64; ls_LongAccountRatio : option float64; ls_ShortAccountRatio : option float64;
  ls_LongPositionRatio : option float64; ls_ShortPositionRatio : option float64;
  ls_TopTraderLongRatio : option float64; ls_TopTraderShortRatio : option float64;
  ls_LongShortRatio : option float64 }.

Record NormalizedTakerFlow := MkTakerFlow {
  tf_Meta : SourceMeta; tf_Period : string; tf_SnapshotTime : Time; tf_TakerBuyVolume : option float64;
  tf_TakerSellVolume : option float64; tf_TakerBuyQuoteVolume : option float64;
  tf_TakerSellQuoteVolume : option float64; tf_BuySellDelta : option float64;
  tf_BuySellDeltaQuote : option float64; tf_BuySellRatio : option float64 }.

Record NormalizedCVD := MkCVD {
  cv_Meta : SourceMeta; cv_Period : string; cv_SnapshotTime : Time; cv_CVDValue : option float64;
  cv_CVDDelta : option float64; cv_CVDChange : option float64; cv_CVDChangePercent : option float64;
  cv_BuyVolume : option float64; cv_SellVolume : option float64 }.

Record NormalizedLiquidationEvent := MkLiquidationEvent {
  le_Meta : SourceMeta; le_EventKey : string; le_EventTime : Time; le_Side : string; le_Price : option float64;
  le_Quantity : option float64; le_Notional : option float64; le_USDValue : option float64;
  le_OrderID : string; le_TradeID : string }.

Record NormalizedLiquidationAggregate := MkLiquidationAggregate {
  la_Meta : SourceMeta; la_Period : string; la_BucketTime : Time; la_LongLiquidationCount : Z;
  la_ShortLiquidationCount : Z; la_LongLiquidationNotional : float64; la_ShortLiquidationNotional : float64;
  la_TotalLiquidationNotional : float64; la_LongLiquidationUSD : float64; la_ShortLiquidationUSD : float64;
  la_TotalLiquidationUSD : float64; la_LargestLiquidationUSD : float64 }.

Record NormalizedBasisPremium := MkBasisPremium {
  bp_Meta : SourceMeta; bp_SnapshotTime : Time; bp_FuturesPrice : option float64;
  bp_MarkPrice : option float64; bp_IndexPrice : option float64; bp_SpotPrice : option float64;
  bp_Basis : option float64; bp_BasisValue : option float64; bp_BasisPercent : option float64;
  bp_AnnualizedBasisPercent : option float64; bp_PremiumIndex : option float64;
  bp_FundingRate : option float64 }.

Record NormalizedOrderbookImbalance := MkOrderbookImbalance {
  ob_Meta : SourceMeta; ob_SnapshotTime : Time; ob_DepthLevels : Z; ob_MidPrice : option float64;
  ob_SpreadBPS : option float64; ob_SpreadPercent : option float64; ob_BidNotional : option float64;
  ob_AskNotional : option float64; ob_BidDepthUSD : option float64; ob_AskDepthUSD : option float64;
  ob_BidDepth1PctUSD : option float64; ob_AskDepth1PctUSD : option float64;
  ob_BidDepth2PctUSD : option float64; ob_AskDepth2PctUSD : option float64;
  ob_BidDepth5PctUSD : option float64; ob_AskDepth5PctUSD : option float64; ob_ImbalanceRatio : option float64;
  ob_ImbalancePercent : option float64 }.

Record NormalizedExchangeDivergence := MkExchangeDivergence {
  ed_Meta : SourceMeta; ed_DataType : string; ed_SnapshotTime : Time; ed_ReferenceExchange : string;
  ed_ComparedExchange : string; ed_ReferenceValue : option float64; ed_ComparedValue : option float64;
  ed_DivergenceAbs : option float64; ed_DivergenceBPS : option float64; ed_PriceMin : option float64;
  ed_PriceMax : option float64; ed_PriceSpreadPercent : option float64; ed_OIMin : option float64;
  ed_OIMax : option float64; ed_OISpreadPercent : option float64; ed_FundingMin : option float64;
  ed_FundingMax : option float64; ed_FundingSpread : option float64; ed_VolumeMin : option float64;
  ed_VolumeMax : option float64; ed_VolumeSpreadPercent : option float64; ed_StrongestExchange : string;
  ed_WeakestExchange : string; ed_RawByExchange : RawMessage }.

Record NormalizedResult := MkNormalizedResult {
  nr_MarketSnapshots : list NormalizedMarketSnapshot;
  nr_Klines : list NormalizedKline;
  nr_OpenInterest : list NormalizedOpenInterest;
  nr_FundingSnapshots : list NormalizedFundingSnapshot;
  nr_FundingHistory : list NormalizedFundingHistory;
  nr_LongShortRatios : list NormalizedLongShortRatio;
  nr_TakerFlows : list NormalizedTakerFlow;
  nr_CVDSnapshots : list NormalizedCVD;
  nr_LiquidationEvents : list NormalizedLiquidationEvent;
  nr_LiquidationAggregates : list NormalizedLiquidationAggregate;
  nr_BasisPremiums : list NormalizedBasisPremium;
  nr_OrderbookImbalances : list NormalizedOrderbookImbalance;
  nr_ExchangeDivergences : list NormalizedExchangeDivergence }.

Definition empty_result : NormalizedResult := MkNormalizedResult [] [] [] [] [] [] [] [] [] [] [] [] [].

(** ** Text of numbers *)

(** Division rounded to nearest, ties to even. *)
Definition div_even (a b : Z) : Z :=
  let q := a / b in
  let r := a mod b in
  if 2 * r <? b then q else if b <? 2 * r then q + 1 else if Z.even q then q else q + 1.

(** The digits of [n] on at least [k] places. *)
Definition digits_padded (k : nat) (n : Z) : bytes :=
  let l := print_nat n in (repeat (digit 0) (k - length l) ++ l)%list.

(** [fmt.Sprintf("%.<prec>f", x)]. *)
Definition format_fixed (prec : nat) (x : float64) : string :=
  let body (s : bool) (n : Z) :=
    let l := digits_padded (S prec) n in
    let k := (length l - prec)%nat in
    (if s then "-" else "") +:+ of_bytes (take k l) +:+
    (if (prec =? 0)%nat then "" else "." +:+ of_bytes (drop k l)) in
  match x with
  | S754_nan => "NaN"
  | S754_infinity s => if s then "-Inf" else "+Inf"
  | S754_zero s => body s 0
  | S754_finite s m e =>
    body s (if 0 <=? e then Zpos m * 2 ^ e * 10 ^ Z.of_nat prec
            else div_even (Zpos m * 10 ^ Z.of_nat prec) (2 ^ (- e)))
  end.

(** ** Field validators: [None] is a nil error *)

Definition ValidateSource (meta : SourceMeta) : option error :=
  if src_SymbolID meta <=? 0 then Some (ErrorString "missing symbol_id") else
  if (TrimSpace (src_Exchange meta) =? "")%string then Some (ErrorString "missing exchange") else
  if (TrimSpace (src_SourceSymbol meta) =? "")%string then Some (ErrorString "missing source_symbol") else
  None.

Definition ValidateTimestamp (name : string) (value : Time) : option error :=
  if IsZero value then Some (ErrorString ("missing " +:+ name)) else None.

Definition ValidateNonNegative (name : string) (value : float64) : option error :=
  if flt value f64_zero then Some (ErrorString (name +:+ " must be non-negative")) else None.

Definition ValidateOptionalNonNegative (name : string) (value : option float64) : option error :=
  match value with None => None | Some v => ValidateNonNegative name v end.

Definition ValidateFundingRate (value min max : float64) : option error :=
  if flt value min || fgt value max then
    Some (ErrorString ("funding rate " +:+ format_fixed 6 value +:+ " outside bounds [" +:+
                       format_fixed 6 min +:+ "," +:+ format_fixed 6 max +:+ "]"))
  else None.

(** [periodPattern]: a number and a unit letter, or a unit word and a number. *)
Definition all_digits (l : bytes) : bool :=
  negb (bool_decide (l = [])) && forallb (fun c => bool_decide (is_Some (digit_val c))) l.
Definition unit_letter (c : ascii) : bool :=
  bool_decide (c ∈ to_bytes "smhdwM").
Definition period_match (s : string) : bool :=
  let l := to_bytes s in
  match rev l with
  | c :: r => unit_letter c && all_digits (rev r)
  | [] => false
  end ||
  existsb (fun w => match match_prefix (to_bytes w) l with
                    | Some rest => all_digits rest
                    | None => false
                    end) ["Min"; "Hour"; "Day"; "Week"; "Month"].

Definition ValidatePeriod (period : string) : option error :=
  let period := TrimSpace period in
  if (period =? "")%string then None else
  if negb (period_match period) then Some (ErrorString ("malformed period " +:+ Quote period)) else None.

(** [if err := c1; err != nil { return err } ...]: the first error. *)
Definition first_error (cs : list (option error)) : option error :=
  head (omap id cs).

Section validators.
Context `{MapOrder}.

(** [for name, value := range checks] with an early return. *)
Definition check_map (check : string -> option float64 -> option error) (l : list (string * option float64))
    : option error :=
  first_error (map (fun nv => check (fst nv) (snd nv)) (iterate l)).

Definition optionals (l : list (string * option float64)) : option error := check_map ValidateOptionalNonNegative l.
Definition required (l : list (string * float64)) : option error :=
  optionals (map (fun nv => (fst nv, Some (snd nv))) l).

Definition ValidateMarketSnapshot (x : NormalizedMarketSnapshot) : option error :=
  first_error
    [ ValidateSource (ms_Meta x); ValidateTimestamp "snapshot_time" (ms_SnapshotTime x);
      optionals [ ("last_price", ms_LastPrice x); ("mark_price", ms_MarkPrice x);
                  ("index_price", ms_IndexPrice x); ("bid_price", ms_BidPrice x);
                  ("ask_price", ms_AskPrice x); ("volume_24h", ms_Volume24h x);
                  ("quote_volume_24h", ms_QuoteVolume24h x); ("open_interest", ms_OpenInterest x) ];
      match ms_FundingRate x with
      | Some f => ValidateFundingRate f (f64_of_Z (-1)) (f64_of_Z 1)
      | None => None
      end ].

Definition ValidateKline (x : NormalizedKline) : option error :=
  first_error
    [ ValidateSource (kl_Meta x); ValidatePeriod (kl_Interval x);
      ValidateTimestamp "open_time" (kl_OpenTime x); ValidateTimestamp "close_time" (kl_CloseTime x);
      required [ ("open_price", kl_OpenPrice x); ("high_price", kl_HighPrice x);
                 ("low_price", kl_LowPrice x); ("close_price", kl_ClosePrice x) ];
      optionals [ ("volume", kl_Volume x); ("quote_volume", kl_QuoteVolume x);
                  ("taker_buy_volume", kl_TakerBuyVolume x);
                  ("taker_buy_quote_volume", kl_TakerBuyQuoteVolume x) ] ].

Definition ValidateOpenInterest (x : NormalizedOpenInterest) (history : bool) : option error :=
  first_error
    ([ ValidateSource (oi_Meta x) ] ++
     (if history then
        [ ValidatePeriod (oi_Period x);
          if (TrimSpace (oi_Period x) =? "")%string then Some (ErrorString "missing period") else None ]
      else []) ++
     [ ValidateTimestamp "snapshot_time" (oi_SnapshotTime x);
       ValidateNonNegative "open_interest" (oi_OpenInterest x);
       ValidateOptionalNonNegative "open_interest_value" (oi_OpenInterestValue x) ])%list.

Definition ValidateFundingSnapshot (x : NormalizedFundingSnapshot) : option error :=
  first_error
    [ ValidateSource (fs_Meta x); ValidateTimestamp "snapshot_time" (fs_SnapshotTime x);
      ValidateFundingRate (fs_FundingRate x) (f64_of_Z (-1)) (f64_of_Z 1);
      ValidateOptionalNonNegative "mark_price" (fs_MarkPrice x);
      ValidateOptionalNonNegative "index_price" (fs_IndexPrice x) ].

Definition ValidateFundingHistory (x : NormalizedFundingHistory) : option error :=
  first_error
    [ ValidateSource (fh_Meta x); ValidateTimestamp "funding_time" (fh_FundingTime x);
      ValidateFundingRate (fh_FundingRate x) (f64_of_Z (-1)) (f64_of_Z 1);
      ValidateOptionalNonNegative "mark_price" (fh_MarkPrice x) ].

Definition ValidateLongShortRatio (x : NormalizedLongShortRatio) : option error :=
  first_error
    [ ValidateSource (ls_Meta x); ValidateTimestamp "snapshot_time" (ls_SnapshotTime x);
      ValidatePeriod (ls_Period x) ].

Definition ValidateTakerFlow (x : NormalizedTakerFlow) : option error :=
  first_error
    [ ValidateSource (tf_Meta x); ValidateTimestamp "snapshot_time" (tf_SnapshotTime x);
      ValidatePeriod (tf_Period x);
      optionals [ ("taker_buy_volume", tf_TakerBuyVolume x); ("taker_sell_volume", tf_TakerSellVolume x);
                  ("taker_buy_quote_volume", tf_TakerBuyQuoteVolume x);
                  ("taker_sell_quote_volume", tf_TakerSellQuoteVolume x) ] ].

Definition ValidateCVD (x : NormalizedCVD) : option error :=
  first_error
    [ ValidateSource (cv_Meta x); ValidateTimestamp "snapshot_time" (cv_SnapshotTime x);
      ValidatePeriod (cv_Period x) ].

Definition ValidateLiquidationEvent (x : NormalizedLiquidationEvent) : option error :=
  first_error
    [ ValidateSource (le_Meta x);
      if (TrimSpace (le_EventKey x) =? "")%string then Some (ErrorString "missing event_key") else None;
      ValidateTimestamp "event_time" (le_EventTime x);
      if (TrimSpace (le_Side x) =? "")%string then Some (ErrorString "missing liquidation side") else None;
      ValidateOptionalNonNegative "price" (le_Price x);
      ValidateOptionalNonNegative "quantity" (le_Quantity x);
      ValidateOptionalNonNegative "notional" (le_Notional x);
      ValidateOptionalNonNegative "usd_value" (le_USDValue x) ].

Definition ValidateLiquidationAggregate (x : NormalizedLiquidationAggregate) : option error :=
  first_error
    [ ValidateSource (la_Meta x); ValidateTimestamp "bucket_time" (la_BucketTime x);
      ValidatePeriod (la_Period x);
      required [ ("long_liquidation_notional", la_LongLiquidationNotional x);
                 ("short_liquidation_notional", la_ShortLiquidationNotional x);
                 ("total_liquidation_notional", la_TotalLiquidationNotional x);
                 ("long_liquidation_usd", la_LongLiquidationUSD x);
                 ("short_liquidation_usd", la_ShortLiquidationUSD x);
                 ("total_liquidation_usd", la_TotalLiquidationUSD x);
                 ("largest_liquidation_usd", la_LargestLiquidationUSD x) ] ].

Definition ValidateBasisPremium (x : NormalizedBasisPremium) : option error :=
  first_error
    [ ValidateSource (bp_Meta x); ValidateTimestamp "snapshot_time" (bp_SnapshotTime x);
      optionals [ ("futures_price", bp_FuturesPrice x); ("mark_price", bp_MarkPrice x);
                  ("index_price", bp_IndexPrice x); ("spot_price", bp_SpotPrice x) ] ].

Definition ValidateOrderbookImbalance (x : NormalizedOrderbookImbalance) : option error :=
  first_error
    [ ValidateSource (ob_Meta x); ValidateTimestamp "snapshot_time" (ob_SnapshotTime x);
      if ob_DepthLevels x <=? 0 then Some (ErrorString "depth_levels must be greater than 0") else None;
      optionals [ ("mid_price", ob_MidPrice x); ("bid_notional", ob_BidNotional x);
                  ("ask_notional", ob_AskNotional x); ("bid_depth_usd", ob_BidDepthUSD x);
                  ("ask_depth_usd", ob_AskDepthUSD x); ("bid_depth_1pct_usd", ob_BidDepth1PctUSD x);
                  ("ask_depth_1pct_usd", ob_AskDepth1PctUSD x); ("bid_depth_2pct_usd", ob_BidDepth2PctUSD x);
                  ("ask_depth_2pct_usd", ob_AskDepth2PctUSD x); ("bid_depth_5pct_usd", ob_BidDepth5PctUSD x);
                  ("ask_depth_5pct_usd", ob_AskDepth5PctUSD x) ] ].

Definition ValidateExchangeDivergence (x : NormalizedExchangeDivergence) : option error :=
  first_error
    [ ValidateSource (ed_Meta x); ValidateTimestamp "snapshot_time" (ed_SnapshotTime x);
      if (TrimSpace (ed_DataType x) =? "")%string then Some (ErrorString "missing data_type") else None ].

End validators.

(** ** Lemmas *)

Lemma first_error_None cs : first_error cs = None <-> Forall (fun e => e = None) cs.
Proof.
  unfold first_error. induction cs as [|[e|] cs IH]; simpl.
  - done.
  - split; [done|]. intros Hf. by inversion Hf.
  - rewrite Forall_cons, IH. naive_solver.
Qed.

Lemma check_map_None (O : MapOrder) check l :
  check_map check l = None <-> Forall (fun nv => check (fst nv) (snd nv) = None) l.
Proof.
  unfold check_map. rewrite first_error_None, Forall_map. by rewrite (iterate_perm _ l).
Qed.
