(* ===== verification/Hardening.v ===== *)
(** * Hardening ([internal/hardening]): error classification and result filtering

    Classification of HTTP statuses and errors into retryable and final, and the filter that
    splits a normalised result into rows fit to be written and quality issues. *)

From Stdlib Require Import Ascii.
From S2P Require Import Prelude GoString GoTime GoFloat GoError GoJson Sha1 SchedulerModels Normalizers.

(** ** Error classification ([errors.go]) *)

Inductive ErrorType :=
| ErrorRateLimited | ErrorServerError | ErrorTimeout | ErrorNetwork | ErrorBadRequest | ErrorUnauthorized
| ErrorNotFound | ErrorInvalidSymbol | ErrorInvalidResponse | ErrorNormalizer | ErrorUnknown.

Definition error_type_text (t : ErrorType) : string :=
  match t with
  | ErrorRateLimited => "rate_limited" | ErrorServerError => "server_error" | ErrorTimeout => "timeout"
  | ErrorNetwork => "network_error" | ErrorBadRequest => "bad_request" | ErrorUnauthorized => "unauthorized"
  | ErrorNotFound => "not_found" | ErrorInvalidSymbol => "invalid_symbol"
  | ErrorInvalidResponse => "invalid_response" | ErrorNormalizer => "normalizer_error" | ErrorUnknown => "unknown"
  end.

Record Classification := MkClassification { cl_Type : ErrorType; cl_Recoverable : bool; cl_RateLimited : bool }.

Definition looksLikeInvalidSymbol (body : string) : bool :=
  let text := ToLower body in
  Contains text "invalid symbol" || Contains text "unknown symbol" ||
  Contains text "instrument_id" || Contains text "symbol invalid".

Definition ClassifyHTTPStatus (statusCode : Z) (body : string) : Classification :=
  if statusCode =? 429 then MkClassification ErrorRateLimited true true else
  if (statusCode =? 401) || (statusCode =? 403) then MkClassification ErrorUnauthorized false false else
  if statusCode =? 404 then MkClassification ErrorNotFound false false else
  if statusCode =? 400 then
    if looksLikeInvalidSymbol body then MkClassification ErrorInvalidSymbol false false
    else MkClassification ErrorBadRequest false false else
  if 500 <=? statusCode then MkClassification ErrorServerError true false else
  if 400 <=? statusCode then MkClassification ErrorBadRequest false false else
  MkClassification ErrorUnknown false false.

Definition ClassifyError (err : option error) : Classification :=
  match err with
  | None => MkClassification ErrorUnknown false false
  | Some e =>
    if errors_Is e DeadlineExceeded || errors_Is e Canceled then MkClassification ErrorTimeout true false else
    match as_net_error e with
    | Some true => MkClassification ErrorTimeout true false
    | Some false => MkClassification ErrorNetwork true false
    | None =>
      let message := ToLower (Error e) in
      if Contains message "rate limit" || Contains message "too many requests" then
        MkClassification ErrorRateLimited true true else
      if Contains message "invalid symbol" || Contains message "unknown symbol" then
        MkClassification ErrorInvalidSymbol false false else
      if Contains message "unauthorized" || Contains message "forbidden" then
        MkClassification ErrorUnauthorized false false else
      if Contains message "not found" then MkClassification ErrorNotFound false false else
      if Contains message "unresolved request placeholder" || Contains message "malformed template" then
        MkClassification ErrorBadRequest false false else
      if Contains message "normalize" || Contains message "normalizer" then
        MkClassification ErrorNormalizer false false else
      if Contains message "parse" || Contains message "invalid response" then
        MkClassification ErrorInvalidResponse false false else
      MkClassification ErrorUnknown true false
    end
  end.

(** ** Result filtering ([validation.go]) *)

Record ValidationConfig := MkValidationConfig {
  MaxFutureSkew : Duration; FundingMin : float64; FundingMax : float64 }.

Definition DefaultValidationConfig : ValidationConfig :=
  MkValidationConfig (2 * Minute) (f64_dec (-5) (-2)) (f64_dec 5 (-2)).

Record QualityIssue := MkQualityIssue {
  qi_IssueKey : string; qi_Severity : string; qi_Exchange : string; qi_DataType : string; qi_SymbolID : Z;
  qi_SourceSymbol : string; qi_IssueType : string; qi_Details : RawMessage; qi_ObservedAt : Time;
  qi_JobID : Z; qi_EndpointID : Z }.

Definition floatToken (value : option float64) : string :=
  match value with None => "" | Some v => format_fixed 18 v end.

(** [t.Format(time.RFC3339Nano)]: the fraction without trailing zeros. *)
Definition FormatRFC3339Nano (t : Time) : string :=
  let nanos := t mod Second in
  let base := TrimSuffix (FormatRFC3339 t) "Z" in
  if nanos =? 0 then base +:+ "Z" else
  let frac := rev (strip_all [[digit 0]] (rev (digits_padded 9 nanos))) in
  base +:+ "." +:+ of_bytes frac +:+ "Z".

Definition LiquidationEventKey (item : NormalizedLiquidationEvent) : string :=
  "liq:" +:+ hex_EncodeToString (sha1_Sum (Join
    [ norm (src_Exchange (le_Meta item)); TrimSpace (src_SourceSymbol (le_Meta item)); norm (le_Side item);
      floatToken (le_Price item); floatToken (le_Quantity item); FormatRFC3339Nano (le_EventTime item) ] "|")).

Definition validateSourceAndTime (meta : SourceMeta) (at_ : Time) (job : Job) (now : Time) (cfg : ValidationConfig)
    : option error :=
  match ValidateSource meta with
  | Some e => Some e
  | None =>
    if negb (TrimSpace (job_SourceSymbol job) =? "")%string &&
       negb (TrimSpace (src_SourceSymbol meta) =? TrimSpace (job_SourceSymbol job))%string then
      Some (ErrorString ("source_symbol " +:+ Quote (src_SourceSymbol meta) +:+
                         " does not match job source_symbol " +:+ Quote (job_SourceSymbol job))) else
    if IsZero at_ then Some (ErrorString "missing timestamp") else
    if After at_ (Add now (MaxFutureSkew cfg)) then
      Some (ErrorString ("timestamp " +:+ FormatRFC3339 at_ +:+ " is too far in the future")) else
    None
  end.

Definition validateInterval (interval : string) (job : Job) : option error :=
  if (TrimSpace (job_Period job) =? "")%string then None else
  if negb (TrimSpace interval =? TrimSpace (job_Period job))%string then
    Some (ErrorString ("interval " +:+ Quote interval +:+ " does not match job period " +:+ Quote (job_Period job)))
  else None.

Definition validateFunding (value : float64) (cfg : ValidationConfig) : option error :=
  if flt value (FundingMin cfg) || fgt value (FundingMax cfg) then
    Some (ErrorString ("funding rate " +:+ format_fixed 6 value +:+ " outside sanity bounds [" +:+
                       format_fixed 6 (FundingMin cfg) +:+ "," +:+ format_fixed 6 (FundingMax cfg) +:+ "]"))
  else None.

Definition validateFundingOptional (value : option float64) (cfg : ValidationConfig) : option error :=
  match value with None => None | Some v => validateFunding v cfg end.

Definition qualityIssue (dataType issueType : string) (err : error) (meta : SourceMeta) (job : Job) (now : Time)
    : QualityIssue :=
  MkQualityIssue
    (hex_EncodeToString (sha1_Sum (issueType +:+ "|" +:+ src_Exchange meta +:+ "|" +:+ Itoa (src_SymbolID meta)
       +:+ "|" +:+ src_SourceSymbol meta +:+ "|" +:+ dataType +:+ "|" +:+ Error err)))
    "warning" (norm (src_Exchange meta)) dataType (src_SymbolID meta) (TrimSpace (src_SourceSymbol meta)) issueType
    (RawJson (json_map [ ("error", JString (Error err)); ("job_id", JInt (job_ID job));
                         ("idempotency_key", JString (job_IdempotencyKey job)) ]))
    now (job_ID job) (rm_EndpointID (RuntimeMetadataFromJob job)).

(** The checks of one item in order, each with the issue type its failure is reported under;
    the first failure. *)
Fixpoint first_failure (checks : list (string * option error)) : option (string * error) :=
  match checks with
  | [] => None
  | (t, Some e) :: _ => Some (t, e)
  | (_, None) :: rest => first_failure rest
  end.

(** One of the filtering loops: [prep] is what the loop does to an item first. *)
Fixpoint filter_loop {A} (prep : A -> A) (meta : A -> SourceMeta) (checks : A -> list (string * option error))
    (issue : string -> error -> SourceMeta -> QualityIssue) (items : list A) : list A * list QualityIssue :=
  match items with
  | [] => ([], [])
  | x :: rest =>
    let x := prep x in
    let '(valid, issues) := filter_loop prep meta checks issue rest in
    match first_failure (checks x) with
    | Some (t, e) => (valid, issue t e (meta x) :: issues)
    | None => (x :: valid, issues)
    end
  end.

(** A missing liquidation event key is derived from the event. *)
Definition with_event_key (x : NormalizedLiquidationEvent) : NormalizedLiquidationEvent :=
  if (TrimSpace (le_EventKey x) =? "")%string
  then MkLiquidationEvent (le_Meta x) (LiquidationEventKey x) (le_EventTime x) (le_Side x) (le_Price x)
         (le_Quantity x) (le_Notional x) (le_USDValue x) (le_OrderID x) (le_TradeID x)
  else x.

(** The configuration with its defaults filled in. *)
Definition effective_config (cfg : ValidationConfig) : ValidationConfig :=
  let skew := if MaxFutureSkew cfg <=? 0 then MaxFutureSkew DefaultValidationConfig else MaxFutureSkew cfg in
  if feq (FundingMin cfg) f64_zero && feq (FundingMax cfg) f64_zero
  then MkValidationConfig skew (FundingMin DefaultValidationConfig) (FundingMax DefaultValidationConfig)
  else MkValidationConfig skew (FundingMin cfg) (FundingMax cfg).

Section filters.
Context `{MapOrder} (dataType : string) (job : Job) (now : Time) (cfg : ValidationConfig).

Definition source_time (t : string) (meta : SourceMeta) (at_ : Time) : string * option error :=
  (t, validateSourceAndTime meta at_ job now cfg).
Definition interval_check (p : string) : string * option error := ("interval_mismatch", validateInterval p job).

Definition checks_snapshot (x : NormalizedMarketSnapshot) :=
  [ source_time "market_snapshot_invalid" (ms_Meta x) (ms_SnapshotTime x);
    ("funding_out_of_range", validateFundingOptional (ms_FundingRate x) cfg);
    ("market_snapshot_invalid", ValidateMarketSnapshot x) ].
Definition checks_kline (x : NormalizedKline) :=
  [ source_time "kline_invalid" (kl_Meta x) (kl_OpenTime x); interval_check (kl_Interval x);
    ("kline_invalid", ValidateKline x) ].
Definition checks_open_interest (x : NormalizedOpenInterest) :=
  [ source_time "open_interest_invalid" (oi_Meta x) (oi_SnapshotTime x);
    ("open_interest_invalid", ValidateOpenInterest x (dataType =? "open_interest_history")%string) ].
Definition checks_funding (x : NormalizedFundingSnapshot) :=
  [ source_time "funding_invalid" (fs_Meta x) (fs_SnapshotTime x);
    ("funding_out_of_range", validateFunding (fs_FundingRate x) cfg);
    ("funding_invalid", ValidateFundingSnapshot x) ].
Definition checks_funding_history (x : NormalizedFundingHistory) :=
  [ source_time "funding_history_invalid" (fh_Meta x) (fh_FundingTime x);
    ("funding_out_of_range", validateFunding (fh_FundingRate x) cfg);
    ("funding_history_invalid", ValidateFundingHistory x) ].
Definition checks_taker (x : NormalizedTakerFlow) :=
  [ source_time "taker_flow_invalid" (tf_Meta x) (tf_SnapshotTime x); interval_check (tf_Period x);
    ("taker_flow_invalid", ValidateTakerFlow x) ].
Definition checks_cvd (x : NormalizedCVD) :=
  [ source_time "cvd_invalid" (cv_Meta x) (cv_SnapshotTime x); interval_check (cv_Period x);
    ("cvd_invalid", ValidateCVD x) ].
Definition checks_event (x : NormalizedLiquidationEvent) :=
  [ source_time "liquidation_event_invalid" (le_Meta x) (le_EventTime x);
    ("liquidation_event_invalid", ValidateLiquidationEvent x) ].
Definition checks_aggregate (x : NormalizedLiquidationAggregate) :=
  [ source_time "liquidation_aggregate_invalid" (la_Meta x) (la_BucketTime x); interval_check (la_Period x);
    ("liquidation_aggregate_invalid", ValidateLiquidationAggregate x) ].
Definition checks_long_short (x : NormalizedLongShortRatio) :=
  [ source_time "long_short_ratio_invalid" (ls_Meta x) (ls_SnapshotTime x); interval_check (ls_Period x);
    ("long_short_ratio_invalid", ValidateLongShortRatio x) ].
Definition checks_basis (x : NormalizedBasisPremium) :=
  [ source_time "basis_invalid" (bp_Meta x) (bp_SnapshotTime x);
    ("funding_out_of_range", validateFundingOptional (bp_FundingRate x) cfg);
    ("basis_invalid", ValidateBasisPremium x) ].
Definition checks_orderbook (x : NormalizedOrderbookImbalance) :=
  [ source_time "orderbook_imbalance_invalid" (ob_Meta x) (ob_SnapshotTime x);
    ("orderbook_imbalance_invalid", ValidateOrderbookImbalance x) ].
Definition checks_divergence (x : NormalizedExchangeDivergence) :=
  [ source_time "exchange_divergence_invalid" (ed_Meta x) (ed_SnapshotTime x);
    ("exchange_divergence_invalid", ValidateExchangeDivergence x) ].

Definition issue_of (t : string) (e : error) (meta : SourceMeta) : QualityIssue :=
  qualityIssue dataType t e meta job now.

(** The thirteen loops. *)
Definition filter_result (r : NormalizedResult) : NormalizedResult * list QualityIssue :=
  let '(v1, i1) := filter_loop id ms_Meta checks_snapshot issue_of (nr_MarketSnapshots r) in
  let '(v2, i2) := filter_loop id kl_Meta checks_kline issue_of (nr_Klines r) in
  let '(v3, i3) := filter_loop id oi_Meta checks_open_interest issue_of (nr_OpenInterest r) in
  let '(v4, i4) := filter_loop id fs_Meta checks_funding issue_of (nr_FundingSnapshots r) in
  let '(v5, i5) := filter_loop id fh_Meta checks_funding_history issue_of (nr_FundingHistory r) in
  let '(v6, i6) := filter_loop id tf_Meta checks_taker issue_of (nr_TakerFlows r) in
  let '(v7, i7) := filter_loop id cv_Meta checks_cvd issue_of (nr_CVDSnapshots r) in
  let '(v8, i8) := filter_loop with_event_key le_Meta checks_event issue_of (nr_LiquidationEvents r) in
  let '(v9, i9) := filter_loop id la_Meta checks_aggregate issue_of (nr_LiquidationAggregates r) in
  let '(v10, i10) := filter_loop id ls_Meta checks_long_short issue_of (nr_LongShortRatios r) in
  let '(v11, i11) := filter_loop id bp_Meta checks_basis issue_of (nr_BasisPremiums r) in
  let '(v12, i12) := filter_loop id ob_Meta checks_orderbook issue_of (nr_OrderbookImbalances r) in
  let '(v13, i13) := filter_loop id ed_Meta checks_divergence issue_of (nr_ExchangeDivergences r) in
  (MkNormalizedResult v1 v2 v3 v4 v5 v10 v6 v7 v8 v9 v11 v12 v13,
   i1 ++ i2 ++ i3 ++ i4 ++ i5 ++ i6 ++ i7 ++ i8 ++ i9 ++ i10 ++ i11 ++ i12 ++ i13)%list.

End filters.

(** [FilterNormalizedResult]; [wall] is [time.Now()], used when [now] is the zero time. *)
Definition FilterNormalizedResult `{MapOrder} (dataType : string) (r : NormalizedResult) (job : Job) (now wall : Time)
    (cfg : ValidationConfig) : NormalizedResult * list QualityIssue :=
  filter_result dataType job (if IsZero now then wall else now) (effective_config cfg) r.

(** ** Classification: properties *)

(** retry decisions.  An HTTP status is retried exactly when it is 429 or a server error, and
    counted as rate limiting exactly when it is 429; an error with a context deadline, a
    cancellation or a network error anywhere in its chain is always retried, whatever its text
    says. *)
Theorem classification_retries status body e :
  (cl_Recoverable (ClassifyHTTPStatus status body) = true <-> status = 429 \/ 500 <= status) /\
  (cl_RateLimited (ClassifyHTTPStatus status body) = true <-> status = 429) /\
  (errors_Is e DeadlineExceeded = true \/ errors_Is e Canceled = true \/ is_Some (as_net_error e) ->
   cl_Recoverable (ClassifyError (Some e)) = true /\
   (cl_Type (ClassifyError (Some e)) = ErrorTimeout \/ cl_Type (ClassifyError (Some e)) = ErrorNetwork)).
Proof.
  split_and!.
  - unfold ClassifyHTTPStatus. repeat case_match; bool_to_prop; simpl; (split; [intros; simplify_eq; lia|]);
      intros; try done; lia.
  - unfold ClassifyHTTPStatus. repeat case_match; bool_to_prop; simpl; (split; [intros; simplify_eq; lia|]);
      intros; try done; lia.
  - intros He. unfold ClassifyError. destruct (errors_Is e DeadlineExceeded || errors_Is e Canceled) eqn:E.
    { simpl. auto. }
    bool_to_prop. destruct He as [?|[?|[t Ht]]]; try congruence. rewrite Ht. destruct t; simpl; auto.
Qed.

Lemma classification_retries_witness :
  cl_Recoverable (ClassifyError (Some (WrapError "unauthorized: " (WrapError "" DeadlineExceeded ": not found") ""))) = true.
Proof.
  apply (classification_retries 0 "" (WrapError "unauthorized: " (WrapError "" DeadlineExceeded ": not found") "")).
  left. reflexivity.
Defined.

(** ** Filtering: generic lemmas *)

Definition passes {A} (checks : A -> list (string * option error)) (x : A) : bool :=
  match first_failure (checks x) with None => true | Some _ => false end.

Lemma first_failure_cons t e rest : first_failure ((t, e) :: rest) = None <-> e = None /\ first_failure rest = None.
Proof. simpl. destruct e; split; [done|by intros [? _]|done|by intros [_ ?]]. Qed.

Section loops.
Context {A : Type} (prep : A -> A) (meta : A -> SourceMeta) (checks : A -> list (string * option error))
  (issue : string -> error -> SourceMeta -> QualityIssue).

Lemma filter_loop_valid items :
  fst (filter_loop prep meta checks issue items) = filter (fun x => passes checks x = true) (map prep items).
Proof.
  induction items as [|x items IH]; [done|]. cbn [filter_loop map]. rewrite filter_cons.
  destruct (filter_loop prep meta checks issue items) as [v i]. simpl in IH. subst v.
  destruct (first_failure (checks (prep x))) as [[t e]|] eqn:E.
  - rewrite decide_False; [done|]. unfold passes. by rewrite E.
  - rewrite decide_True; [done|]. unfold passes. by rewrite E.
Qed.

Lemma filter_loop_count items :
  (length (fst (filter_loop prep meta checks issue items)) + length (snd (filter_loop prep meta checks issue items)))%nat
  = length items.
Proof.
  induction items as [|x items IH]; [done|]. cbn [filter_loop].
  destruct (filter_loop prep meta checks issue items) as [v i].
  destruct (first_failure (checks (prep x))) as [[t e]|]; simpl in *; lia.
Qed.

Lemma filter_loop_kept (P : A -> Prop) items :
  (forall x, first_failure (checks x) = None -> P x) ->
  Forall P (fst (filter_loop prep meta checks issue items)).
Proof.
  intros HP. rewrite filter_loop_valid. apply Forall_forall. intros x Hx.
  apply list_elem_of_filter in Hx as [Hp _]. apply HP. unfold passes in Hp. by case_match.
Qed.

Lemma filter_loop_idem items :
  (forall x, prep (prep x) = prep x) ->
  filter_loop prep meta checks issue (fst (filter_loop prep meta checks issue items))
  = (fst (filter_loop prep meta checks issue items), []).
Proof.
  intros Hp. rewrite filter_loop_valid.
  induction (map prep items) as [|y l IH] eqn:El in items |- *; [done|].
  destruct items as [|x items]; simplify_eq/=. specialize (IH items eq_refl).
  rewrite filter_cons. case_decide as Hc; [|done].
  cbn [filter_loop]. rewrite IH, Hp. unfold passes in Hc. by destruct (first_failure (checks (prep x))).
Qed.
End loops.

Lemma with_event_key_idem x : with_event_key (with_event_key x) = with_event_key x.
Proof.
  unfold with_event_key. destruct (String.eqb_spec (TrimSpace (le_EventKey x)) "") as [E|E].
  - cbn [le_EventKey]. case_match; done.
  - by rewrite (proj2 (String.eqb_neq _ _) E).
Qed.

(** Rows of a result, with the source and the time they are judged by. *)
Definition result_rows (r : NormalizedResult) : list (SourceMeta * Time) :=
  (map (fun x => (ms_Meta x, ms_SnapshotTime x)) (nr_MarketSnapshots r) ++
   map (fun x => (kl_Meta x, kl_OpenTime x)) (nr_Klines r) ++
   map (fun x => (oi_Meta x, oi_SnapshotTime x)) (nr_OpenInterest r) ++
   map (fun x => (fs_Meta x, fs_SnapshotTime x)) (nr_FundingSnapshots r) ++
   map (fun x => (fh_Meta x, fh_FundingTime x)) (nr_FundingHistory r) ++
   map (fun x => (ls_Meta x, ls_SnapshotTime x)) (nr_LongShortRatios r) ++
   map (fun x => (tf_Meta x, tf_SnapshotTime x)) (nr_TakerFlows r) ++
   map (fun x => (cv_Meta x, cv_SnapshotTime x)) (nr_CVDSnapshots r) ++
   map (fun x => (le_Meta x, le_EventTime x)) (nr_LiquidationEvents r) ++
   map (fun x => (la_Meta x, la_BucketTime x)) (nr_LiquidationAggregates r) ++
   map (fun x => (bp_Meta x, bp_SnapshotTime x)) (nr_BasisPremiums r) ++
   map (fun x => (ob_Meta x, ob_SnapshotTime x)) (nr_OrderbookImbalances r) ++
   map (fun x => (ed_Meta x, ed_SnapshotTime x)) (nr_ExchangeDivergences r))%list.

(** [filter_result], loop by loop. *)
Lemma filter_result_eq `{MapOrder} dataType job now cfg r :
  filter_result dataType job now cfg r =
  (MkNormalizedResult
     (fst (filter_loop id ms_Meta (checks_snapshot job now cfg) (issue_of dataType job now) (nr_MarketSnapshots r)))
     (fst (filter_loop id kl_Meta (checks_kline job now cfg) (issue_of dataType job now) (nr_Klines r)))
     (fst (filter_loop id oi_Meta (checks_open_interest dataType job now cfg) (issue_of dataType job now) (nr_OpenInterest r)))
     (fst (filter_loop id fs_Meta (checks_funding job now cfg) (issue_of dataType job now) (nr_FundingSnapshots r)))
     (fst (filter_loop id fh_Meta (checks_funding_history job now cfg) (issue_of dataType job now) (nr_FundingHistory r)))
     (fst (filter_loop id ls_Meta (checks_long_short job now cfg) (issue_of dataType job now) (nr_LongShortRatios r)))
     (fst (filter_loop id tf_Meta (checks_taker job now cfg) (issue_of dataType job now) (nr_TakerFlows r)))
     (fst (filter_loop id cv_Meta (checks_cvd job now cfg) (issue_of dataType job now) (nr_CVDSnapshots r)))
     (fst (filter_loop with_event_key le_Meta (checks_event job now cfg) (issue_of dataType job now) (nr_LiquidationEvents r)))
     (fst (filter_loop id la_Meta (checks_aggregate job now cfg) (issue_of dataType job now) (nr_LiquidationAggregates r)))
     (fst (filter_loop id bp_Meta (checks_basis job now cfg) (issue_of dataType job now) (nr_BasisPremiums r)))
     (fst (filter_loop id ob_Meta (checks_orderbook job now cfg) (issue_of dataType job now) (nr_OrderbookImbalances r)))
     (fst (filter_loop id ed_Meta (checks_divergence job now cfg) (issue_of dataType job now) (nr_ExchangeDivergences r))),
   snd (filter_loop id ms_Meta (checks_snapshot job now cfg) (issue_of dataType job now) (nr_MarketSnapshots r)) ++
   snd (filter_loop id kl_Meta (checks_kline job now cfg) (issue_of dataType job now) (nr_Klines r)) ++
   snd (filter_loop id oi_Meta (checks_open_interest dataType job now cfg) (issue_of dataType job now) (nr_OpenInterest r)) ++
   snd (filter_loop id fs_Meta (checks_funding job now cfg) (issue_of dataType job now) (nr_FundingSnapshots r)) ++
   snd (filter_loop id fh_Meta (checks_funding_history job now cfg) (issue_of dataType job now) (nr_FundingHistory r)) ++
   snd (filter_loop id tf_Meta (checks_taker job now cfg) (issue_of dataType job now) (nr_TakerFlows r)) ++
   snd (filter_loop id cv_Meta (checks_cvd job now cfg) (issue_of dataType job now) (nr_CVDSnapshots r)) ++
   snd (filter_loop with_event_key le_Meta (checks_event job now cfg) (issue_of dataType job now) (nr_LiquidationEvents r)) ++
   snd (filter_loop id la_Meta (checks_aggregate job now cfg) (issue_of dataType job now) (nr_LiquidationAggregates r)) ++
   snd (filter_loop id ls_Meta (checks_long_short job now cfg) (issue_of dataType job now) (nr_LongShortRatios r)) ++
   snd (filter_loop id bp_Meta (checks_basis job now cfg) (issue_of dataType job now) (nr_BasisPremiums r)) ++
   snd (filter_loop id ob_Meta (checks_orderbook job now cfg) (issue_of dataType job now) (nr_OrderbookImbalances r)) ++
   snd (filter_loop id ed_Meta (checks_divergence job now cfg) (issue_of dataType job now) (nr_ExchangeDivergences r)))%list.
Proof.
  unfold filter_result.
  by destruct (filter_loop id ms_Meta (checks_snapshot job now cfg) (issue_of dataType job now) (nr_MarketSnapshots r)),
    (filter_loop id kl_Meta (checks_kline job now cfg) (issue_of dataType job now) (nr_Klines r)),
    (filter_loop id oi_Meta (checks_open_interest dataType job now cfg) (issue_of dataType job now) (nr_OpenInterest r)),
    (filter_loop id fs_Meta (checks_funding job now cfg) (issue_of dataType job now) (nr_FundingSnapshots r)),
    (filter_loop id fh_Meta (checks_funding_history job now cfg) (issue_of dataType job now) (nr_FundingHistory r)),
    (filter_loop id tf_Meta (checks_taker job now cfg) (issue_of dataType job now) (nr_TakerFlows r)),
    (filter_loop id cv_Meta (checks_cvd job now cfg) (issue_of dataType job now) (nr_CVDSnapshots r)),
    (filter_loop with_event_key le_Meta (checks_event job now cfg) (issue_of dataType job now) (nr_LiquidationEvents r)),
    (filter_loop id la_Meta (checks_aggregate job now cfg) (issue_of dataType job now) (nr_LiquidationAggregates r)),
    (filter_loop id ls_Meta (checks_long_short job now cfg) (issue_of dataType job now) (nr_LongShortRatios r)),
    (filter_loop id bp_Meta (checks_basis job now cfg) (issue_of dataType job now) (nr_BasisPremiums r)),
    (filter_loop id ob_Meta (checks_orderbook job now cfg) (issue_of dataType job now) (nr_OrderbookImbalances r)),
    (filter_loop id ed_Meta (checks_divergence job now cfg) (issue_of dataType job now) (nr_ExchangeDivergences r)).
Qed.

Lemma effective_config_idem cfg : effective_config (effective_config cfg) = effective_config cfg.
Proof.
  unfold effective_config.
  assert ((2 * Minute <=? 0) = false) as H2 by done.
  destruct (MaxFutureSkew cfg <=? 0) eqn:Es;
    destruct (feq (FundingMin cfg) f64_zero && feq (FundingMax cfg) f64_zero) eqn:Ef;
    cbn [MaxFutureSkew FundingMin FundingMax DefaultValidationConfig]; rewrite ?H2, ?Es, ?Ef;
    try (rewrite (_ : feq (f64_dec (-5) (-2)) f64_zero && _ = false) by (vm_compute; done)); done.
Qed.

(** ** Map order *)

Lemma optionals_order (O1 O2 : MapOrder) l : @optionals O1 l = None <-> @optionals O2 l = None.
Proof. unfold optionals. by rewrite !check_map_None. Qed.

Lemma first_failure_iff cs ds :
  Forall2 (fun c d => snd c = None <-> snd d = None) cs ds -> first_failure cs = None <-> first_failure ds = None.
Proof.
  induction 1 as [|[t e] [u f] cs ds Hh Ht IH]; [done|]. rewrite !first_failure_cons, IH. simpl in Hh. tauto.
Qed.

Lemma first_error_iff cs ds :
  Forall2 (fun c d => c = None <-> d = None) cs ds -> first_error cs = None <-> first_error ds = None.
Proof.
  intros Hf. rewrite !first_error_None. induction Hf as [|c d cs ds Hh Ht IH]; [done|].
  rewrite !Forall_cons, IH. tauto.
Qed.

Lemma passes_iff {A} (c d : A -> list (string * option error)) x :
  (first_failure (c x) = None <-> first_failure (d x) = None) -> passes c x = passes d x.
Proof.
  unfold passes. destruct (first_failure (c x)), (first_failure (d x)); intros Hi; try done.
  - by pose proof (proj2 Hi eq_refl).
  - by pose proof (proj1 Hi eq_refl).
Qed.

Section order.
Context (O1 O2 : MapOrder) (dataType : string) (job : Job) (now : Time) (cfg : ValidationConfig).

Ltac same_checks :=
  intros; apply passes_iff, first_failure_iff;
  repeat (apply Forall2_cons; split; [simpl; try done|]); try apply Forall2_nil; try done;
  apply first_error_iff; repeat (apply Forall2_cons; split; [first [apply optionals_order | done]|]);
  apply Forall2_nil; done.

Lemma checks_snapshot_order x :
  passes (@checks_snapshot O1 job now cfg) x = passes (@checks_snapshot O2 job now cfg) x.
Proof. same_checks. Qed.
Lemma checks_kline_order x : passes (@checks_kline O1 job now cfg) x = passes (@checks_kline O2 job now cfg) x.
Proof. same_checks. Qed.
Lemma checks_taker_order x : passes (@checks_taker O1 job now cfg) x = passes (@checks_taker O2 job now cfg) x.
Proof. same_checks. Qed.
Lemma checks_aggregate_order x :
  passes (@checks_aggregate O1 job now cfg) x = passes (@checks_aggregate O2 job now cfg) x.
Proof. same_checks. Qed.
Lemma checks_basis_order x : passes (@checks_basis O1 job now cfg) x = passes (@checks_basis O2 job now cfg) x.
Proof. same_checks. Qed.
Lemma checks_orderbook_order x :
  passes (@checks_orderbook O1 job now cfg) x = passes (@checks_orderbook O2 job now cfg) x.
Proof. same_checks. Qed.
End order.

(** ** Filtering: properties *)

Ltac result_fields :=
  cbn [nr_MarketSnapshots nr_Klines nr_OpenInterest nr_FundingSnapshots nr_FundingHistory nr_LongShortRatios
       nr_TakerFlows nr_CVDSnapshots nr_LiquidationEvents nr_LiquidationAggregates nr_BasisPremiums
       nr_OrderbookImbalances nr_ExchangeDivergences].

(** Every row is kept or reported. *)
Lemma result_rows_conserved `{MapOrder} dataType job now cfg r :
  (length (result_rows (fst (filter_result dataType job now cfg r))) +
   length (snd (filter_result dataType job now cfg r)))%nat = length (result_rows r).
Proof.
  rewrite filter_result_eq. unfold result_rows. cbn [fst snd]. result_fields. rewrite !length_app, !length_map.
  repeat match goal with
  | |- context [fst (filter_loop ?p ?m ?c ?i ?l)] =>
    let E := fresh "E" in pose proof (filter_loop_count p m c i l) as E; revert E;
    generalize (length (fst (filter_loop p m c i l))), (length (snd (filter_loop p m c i l)));
    intros ?n ?k E
  end. lia.
Qed.

Lemma loop_order {A} prep meta (c d : A -> list (string * option error)) issue issue' items :
  (forall x, passes c x = passes d x) ->
  fst (filter_loop prep meta c issue items) = fst (filter_loop prep meta d issue' items).
Proof.
  intros Hp. rewrite !filter_loop_valid. apply list_filter_iff. intros x. by rewrite Hp.
Qed.

(** the rows kept do not depend on the order in which the validators visit their maps, and the
    filter is idempotent: filtering what was kept, in whatever map order, keeps every row
    unchanged and reports no issue. *)
Theorem filter_stable (O1 O2 : MapOrder) dataType r job now wall cfg :
  let kept := fst (@FilterNormalizedResult O1 dataType r job now wall cfg) in
  fst (@FilterNormalizedResult O2 dataType r job now wall cfg) = kept /\
  @FilterNormalizedResult O2 dataType kept job now wall cfg = (kept, []).
Proof.
  unfold FilterNormalizedResult. cbv zeta. set (clock := if IsZero now then wall else now).
  assert (fst (@filter_result O2 dataType job clock (effective_config cfg) r)
          = fst (@filter_result O1 dataType job clock (effective_config cfg) r)) as E.
  { rewrite !filter_result_eq. cbn [fst]. f_equal; apply loop_order; intros x; try done;
      first [apply checks_snapshot_order|apply checks_kline_order|apply checks_taker_order
            |apply checks_aggregate_order|apply checks_basis_order|apply checks_orderbook_order]. }
  split; [exact E|]. rewrite <- E, (@filter_result_eq O2 _ _ _ _ r). cbn [fst]. rewrite filter_result_eq.
  result_fields. rewrite !filter_loop_idem by (try done; apply with_event_key_idem). done.
Qed.

(** The map order that visits entries backwards. *)
Definition backward_order : MapOrder := {| iterate _ l := rev l; iterate_perm _ l := Permutation_sym (Permutation_rev l) |}.

Definition sample_meta : SourceMeta := MkSourceMeta 7 "binance" "BTCUSDT" 3 RawEmpty.
Definition zero_job : Job := MkJob 0 "" "" "" 0 "" "" "" JobStatusRunning 0 0 None None 0 0 "" RawEmpty "" 0 RawEmpty.
Definition negative_snapshot : NormalizedMarketSnapshot :=
  MkMarketSnapshot sample_meta Second (Some (f64_of_Z (-1))) (Some (f64_of_Z (-2))) None None None None None None
    None None.

(** the report of a row with two bad fields is not a function of the row.  The same snapshot,
    with a negative last price and a negative mark price, filtered in two map orders, is reported
    under two different issue keys, so that the key, by which stored issues are merged, does not
    merge repeated reports of the same row. *)
Theorem issue_key_depends_on_map_order job now :
  let run (O : MapOrder) :=
    snd (@filter_result O "market_snapshot" job now DefaultValidationConfig
           (MkNormalizedResult [negative_snapshot] [] [] [] [] [] [] [] [] [] [] [] [])) in
  TrimSpace (job_SourceSymbol job) = "" -> Second <= now ->
  map qi_IssueKey (run forward_order) <> map qi_IssueKey (run backward_order) /\
  length (run forward_order) = 1%nat /\ length (run backward_order) = 1%nat.
Proof.
  intros run Hj Hn.
  assert (validateSourceAndTime sample_meta Second job now DefaultValidationConfig = None) as Hv.
  { unfold validateSourceAndTime. rewrite Hj. change (ValidateSource sample_meta) with (@None error).
    change (IsZero Second) with false. unfold After, Add. cbn [MaxFutureSkew DefaultValidationConfig negb andb].
    rewrite (proj2 (Z.ltb_ge _ _)); [done|]. unfold Minute. unfold Second in *. lia. }
  unfold run. rewrite !filter_result_eq. result_fields. cbn [filter_loop snd app]. unfold checks_snapshot, source_time, id.
  change (ms_Meta negative_snapshot) with sample_meta. change (ms_SnapshotTime negative_snapshot) with Second.
  rewrite Hv. split_and!; [|done|done]. vm_compute. congruence.
Qed.

Lemma issue_key_depends_on_map_order_witness :
  exists job now, map qi_IssueKey (snd (@filter_result forward_order "market_snapshot" job now DefaultValidationConfig
      (MkNormalizedResult [negative_snapshot] [] [] [] [] [] [] [] [] [] [] [] []))) <>
    map qi_IssueKey (snd (@filter_result backward_order "market_snapshot" job now DefaultValidationConfig
      (MkNormalizedResult [negative_snapshot] [] [] [] [] [] [] [] [] [] [] [] []))).
Proof.
  exists zero_job, Minute. exact (proj1 (issue_key_depends_on_map_order zero_job Minute eq_refl ltac:(vm_compute; congruence))).
Defined.

Definition nan_funding : NormalizedFundingSnapshot := MkFundingSnapshot sample_meta Second S754_nan 0 (Some S754_nan) None.

(** A NaN passes every numeric check: a funding snapshot whose rate and mark price are NaN is
    kept, with no issue, whatever the bounds. *)
Theorem nan_passes_filter (O : MapOrder) job now cfg :
  TrimSpace (job_SourceSymbol job) = "" -> Second <= now + MaxFutureSkew cfg ->
  filter_result "funding_rate" job now cfg (MkNormalizedResult [] [] [] [nan_funding] [] [] [] [] [] [] [] [] [])
  = (MkNormalizedResult [] [] [] [nan_funding] [] [] [] [] [] [] [] [] [], []).
Proof.
  intros Hj Hn. rewrite filter_result_eq. result_fields. cbn [filter_loop snd fst app]. unfold checks_funding, source_time, id.
  change (fs_Meta nan_funding) with sample_meta. change (fs_SnapshotTime nan_funding) with Second.
  assert (validateSourceAndTime sample_meta Second job now cfg = None) as Hv.
  { unfold validateSourceAndTime. rewrite Hj. change (ValidateSource sample_meta) with (@None error).
    change (IsZero Second) with false. unfold After, Add. cbn [negb andb].
    by rewrite (proj2 (Z.ltb_ge _ _)). }
  rewrite Hv. cbn [first_failure]. unfold validateFunding. cbn [fs_FundingRate nan_funding].
  assert (flt S754_nan (FundingMin cfg) || fgt S754_nan (FundingMax cfg) = false) as -> by (by destruct (FundingMax cfg)).
  done.
Qed.

Lemma nan_passes_filter_witness :
  let r := MkNormalizedResult [] [] [] [nan_funding] [] [] [] [] [] [] [] [] [] in
  @filter_result forward_order "funding_rate" zero_job Minute DefaultValidationConfig r = (r, []).
Proof. exact (nan_passes_filter forward_order zero_job Minute DefaultValidationConfig eq_refl ltac:(vm_compute; congruence)). Defined.
