(* ===== verification/FilterSpec.v ===== *)
(** * What the filter keeps

    A specification of the rows fit to be written, stated without the validators of
    [internal/normalizers/validation.go] and the loops of [internal/hardening/validation.go], and
    the theorem that the filter keeps exactly those rows. *)

From Stdlib Require Import Ascii.
From S2P Require Import Prelude GoString GoTime GoFloat GoError GoJson SchedulerModels Normalizers Hardening.

(** *** What is fit to be written

    A specification of the rows that does not mention the validators: for each type the identity
    of the row, its time, its period and the numbers that may not be negative. *)

Section fit.
Context (job : Job) (now : Time) (cfg : ValidationConfig).

(** The row names its symbol and exchange, and the source symbol of the job when that has one; its
    time is set and at most the skew ahead of the clock. *)
Definition fit_source (m : SourceMeta) (t : Time) : Prop :=
  0 < src_SymbolID m /\ TrimSpace (src_Exchange m) <> "" /\ TrimSpace (src_SourceSymbol m) <> "" /\
  (TrimSpace (job_SourceSymbol job) = "" \/ TrimSpace (src_SourceSymbol m) = TrimSpace (job_SourceSymbol job)) /\
  t <> 0 /\ t <= now + MaxFutureSkew cfg.

(** Not below zero, where there is a number ([NaN] is not below zero). *)
Definition not_negative (o : option float64) : Prop :=
  match o with Some v => flt v f64_zero = false | None => True end.
Definition amounts (l : list (option float64)) : Prop := Forall not_negative l.

(** A rate within the configured bounds, and within [-1, 1]. *)
Definition fit_rate (v : float64) : Prop :=
  flt v (FundingMin cfg) = false /\ fgt v (FundingMax cfg) = false.
Definition unit_rate (v : float64) : Prop := flt v (f64_of_Z (-1)) = false /\ fgt v (f64_of_Z 1) = false.
Definition fit_rate_opt (o : option float64) : Prop := match o with Some v => fit_rate v | None => True end.
Definition unit_rate_opt (o : option float64) : Prop := match o with Some v => unit_rate v | None => True end.

(** The period of the job, when it has one. *)
Definition job_period (p : string) : Prop := TrimSpace (job_Period job) = "" \/ TrimSpace p = TrimSpace (job_Period job).

(** No period, or digits and a unit letter, or a unit word and digits. *)
Definition digits_only (l : bytes) : Prop := l <> [] /\ Forall (fun c => is_Some (digit_val c)) l.
Definition proper_period (p : string) : Prop :=
  TrimSpace p = "" \/
  (exists ds u, to_bytes (TrimSpace p) = (ds ++ [u])%list /\ digits_only ds /\ u ∈ to_bytes "smhdwM") \/
  (exists w ds, w ∈ ["Min"; "Hour"; "Day"; "Week"; "Month"] /\ to_bytes (TrimSpace p) = (to_bytes w ++ ds)%list /\ digits_only ds).

Definition fit_snapshot (x : NormalizedMarketSnapshot) : Prop :=
  fit_source (ms_Meta x) (ms_SnapshotTime x) /\ fit_rate_opt (ms_FundingRate x) /\ unit_rate_opt (ms_FundingRate x) /\
  amounts [ms_LastPrice x; ms_MarkPrice x; ms_IndexPrice x; ms_BidPrice x; ms_AskPrice x; ms_Volume24h x;
    ms_QuoteVolume24h x; ms_OpenInterest x].
Definition fit_kline (x : NormalizedKline) : Prop :=
  fit_source (kl_Meta x) (kl_OpenTime x) /\ job_period (kl_Interval x) /\ proper_period (kl_Interval x) /\
  kl_CloseTime x <> 0 /\
  amounts [Some (kl_OpenPrice x); Some (kl_HighPrice x); Some (kl_LowPrice x); Some (kl_ClosePrice x)] /\
  amounts [kl_Volume x; kl_QuoteVolume x; kl_TakerBuyVolume x; kl_TakerBuyQuoteVolume x].
Definition fit_open_interest (history : bool) (x : NormalizedOpenInterest) : Prop :=
  fit_source (oi_Meta x) (oi_SnapshotTime x) /\
  (history = true -> TrimSpace (oi_Period x) <> "" /\ proper_period (oi_Period x)) /\
  not_negative (Some (oi_OpenInterest x)) /\ not_negative (oi_OpenInterestValue x).
Definition fit_funding (x : NormalizedFundingSnapshot) : Prop :=
  fit_source (fs_Meta x) (fs_SnapshotTime x) /\ fit_rate (fs_FundingRate x) /\ unit_rate (fs_FundingRate x) /\
  not_negative (fs_MarkPrice x) /\ not_negative (fs_IndexPrice x).
Definition fit_funding_history (x : NormalizedFundingHistory) : Prop :=
  fit_source (fh_Meta x) (fh_FundingTime x) /\ fit_rate (fh_FundingRate x) /\ unit_rate (fh_FundingRate x) /\
  not_negative (fh_MarkPrice x).
Definition fit_long_short (x : NormalizedLongShortRatio) : Prop :=
  fit_source (ls_Meta x) (ls_SnapshotTime x) /\ job_period (ls_Period x) /\ proper_period (ls_Period x).
Definition fit_taker (x : NormalizedTakerFlow) : Prop :=
  fit_source (tf_Meta x) (tf_SnapshotTime x) /\ job_period (tf_Period x) /\ proper_period (tf_Period x) /\
  amounts [tf_TakerBuyVolume x; tf_TakerSellVolume x; tf_TakerBuyQuoteVolume x; tf_TakerSellQuoteVolume x].
Definition fit_cvd (x : NormalizedCVD) : Prop :=
  fit_source (cv_Meta x) (cv_SnapshotTime x) /\ job_period (cv_Period x) /\ proper_period (cv_Period x).
Definition fit_event (x : NormalizedLiquidationEvent) : Prop :=
  fit_source (le_Meta x) (le_EventTime x) /\ TrimSpace (le_EventKey x) <> "" /\ TrimSpace (le_Side x) <> "" /\
  not_negative (le_Price x) /\ not_negative (le_Quantity x) /\ not_negative (le_Notional x) /\
  not_negative (le_USDValue x).
Definition fit_aggregate (x : NormalizedLiquidationAggregate) : Prop :=
  fit_source (la_Meta x) (la_BucketTime x) /\ job_period (la_Period x) /\ proper_period (la_Period x) /\
  amounts [Some (la_LongLiquidationNotional x); Some (la_ShortLiquidationNotional x);
    Some (la_TotalLiquidationNotional x); Some (la_LongLiquidationUSD x); Some (la_ShortLiquidationUSD x);
    Some (la_TotalLiquidationUSD x); Some (la_LargestLiquidationUSD x)].
Definition fit_basis (x : NormalizedBasisPremium) : Prop :=
  fit_source (bp_Meta x) (bp_SnapshotTime x) /\ fit_rate_opt (bp_FundingRate x) /\
  amounts [bp_FuturesPrice x; bp_MarkPrice x; bp_IndexPrice x; bp_SpotPrice x].
Definition fit_orderbook (x : NormalizedOrderbookImbalance) : Prop :=
  fit_source (ob_Meta x) (ob_SnapshotTime x) /\ 0 < ob_DepthLevels x /\
  amounts [ob_MidPrice x; ob_BidNotional x; ob_AskNotional x; ob_BidDepthUSD x; ob_AskDepthUSD x;
    ob_BidDepth1PctUSD x; ob_AskDepth1PctUSD x; ob_BidDepth2PctUSD x; ob_AskDepth2PctUSD x; ob_BidDepth5PctUSD x;
    ob_AskDepth5PctUSD x].
Definition fit_divergence (x : NormalizedExchangeDivergence) : Prop :=
  fit_source (ed_Meta x) (ed_SnapshotTime x) /\ TrimSpace (ed_DataType x) <> "".
End fit.

(** *** The validators decide it *)

Lemma some_none {A} (b : bool) (a : A) : (if b then Some a else None) = None <-> b = false.
Proof. by destruct b. Qed.

Lemma ValidateSource_None m :
  ValidateSource m = None <-> 0 < src_SymbolID m /\ TrimSpace (src_Exchange m) <> "" /\ TrimSpace (src_SourceSymbol m) <> "".
Proof.
  unfold ValidateSource. destruct (Z.leb_spec (src_SymbolID m) 0); [split; [done|lia]|].
  destruct (String.eqb_spec (TrimSpace (src_Exchange m)) ""); [by split; [|intros (_ & ? & _)]|].
  destruct (String.eqb_spec (TrimSpace (src_SourceSymbol m)) ""); [by split; [|intros (_ & _ & ?)]|]. done.
Qed.

Lemma ValidateTimestamp_None n t : ValidateTimestamp n t = None <-> t <> 0.
Proof. unfold ValidateTimestamp, IsZero. by rewrite some_none, Z.eqb_neq. Qed.

Lemma source_time_None job now cfg m t : validateSourceAndTime m t job now cfg = None <-> fit_source job now cfg m t.
Proof.
  unfold validateSourceAndTime, fit_source, IsZero, After, Add.
  pose proof (ValidateSource_None m) as Hs. destruct (ValidateSource m).
  { split; [done|]. intros (? & ? & ? & _). by destruct Hs as [_ ->]. }
  destruct Hs as [(? & ? & ?) _]; [done|].
  destruct (String.eqb_spec (TrimSpace (job_SourceSymbol job)) ""),
    (String.eqb_spec (TrimSpace (src_SourceSymbol m)) (TrimSpace (job_SourceSymbol job))),
    (Z.eqb_spec t 0), (Z.ltb_spec (now + MaxFutureSkew cfg) t); simpl; (split; [try done|]); naive_solver lia.
Qed.

Lemma validateInterval_None p job : validateInterval p job = None <-> job_period job p.
Proof.
  unfold validateInterval, job_period. destruct (String.eqb_spec (TrimSpace (job_Period job)) ""); [naive_solver|].
  rewrite some_none, negb_false_iff, String.eqb_eq. naive_solver.
Qed.

Lemma rate_None (v a b : float64) (e : error) :
  (if flt v a || fgt v b then Some e else None) = None <-> flt v a = false /\ fgt v b = false.
Proof. by rewrite some_none, orb_false_iff. Qed.

Lemma validateFunding_None v cfg : validateFunding v cfg = None <-> fit_rate cfg v.
Proof. apply rate_None. Qed.
Lemma ValidateFundingRate_None v : ValidateFundingRate v (f64_of_Z (-1)) (f64_of_Z 1) = None <-> unit_rate v.
Proof. apply rate_None. Qed.
Lemma validateFundingOptional_None o cfg : validateFundingOptional o cfg = None <-> fit_rate_opt cfg o.
Proof. destruct o; [apply validateFunding_None|done]. Qed.

Lemma ValidateFundingRate_opt o :
  match o with Some f => ValidateFundingRate f (f64_of_Z (-1)) (f64_of_Z 1) | None => None end = None
  <-> unit_rate_opt o.
Proof. destruct o; [apply ValidateFundingRate_None|done]. Qed.

Lemma ValidateNonNegative_None n v : ValidateNonNegative n v = None <-> not_negative (Some v).
Proof. apply some_none. Qed.

Lemma first_failure_nil : first_failure [] = None <-> True.
Proof. done. Qed.

Lemma optional_None n o : ValidateOptionalNonNegative n o = None <-> not_negative o.
Proof. destruct o; [apply some_none|done]. Qed.

Lemma optionals_amounts `{MapOrder} l : optionals l = None <-> amounts (map snd l).
Proof.
  unfold optionals, amounts. rewrite check_map_None, Forall_map.
  apply Forall_iff. intros [n o]. apply optional_None.
Qed.

Lemma required_amounts `{MapOrder} l : required l = None <-> amounts (map (fun nv => Some (snd nv)) l).
Proof. unfold required. by rewrite optionals_amounts, map_map. Qed.

Lemma all_digits_spec l : all_digits l = true <-> digits_only l.
Proof.
  unfold all_digits, digits_only. rewrite andb_true_iff, negb_true_iff, bool_decide_eq_false, forallb_forall, Forall_forall.
  split; intros [? Hd]; (split; [done|]); intros c Hc; [eapply bool_decide_eq_true, Hd|apply bool_decide_eq_true, Hd];
    by apply list_elem_of_In.
Qed.

Lemma match_prefix_spec p l rest : match_prefix p l = Some rest <-> l = (p ++ rest)%list.
Proof. split; [apply match_prefix_Some|intros ->; apply match_prefix_app]. Qed.

Lemma existsb_elem {A} (f : A -> bool) l : existsb f l = true <-> exists x, x ∈ l /\ f x = true.
Proof. rewrite existsb_exists. by setoid_rewrite list_elem_of_In. Qed.

Lemma ValidatePeriod_None p : ValidatePeriod p = None <-> proper_period p.
Proof.
  unfold ValidatePeriod, proper_period. destruct (String.eqb_spec (TrimSpace p) "") as [->|Hn]; [naive_solver|].
  rewrite some_none, negb_false_iff. unfold period_match. rewrite orb_true_iff, existsb_elem.
  set (l := to_bytes (TrimSpace p)). split.
  - intros [Hl|(w & Hw & Hd)]; right; [left|right].
    + destruct (rev l) as [|u r] eqn:E; [done|]. apply andb_true_iff in Hl as [Hu%bool_decide_eq_true Hd%all_digits_spec].
      exists (rev r), u. split_and!; [|done|done]. by rewrite <- (rev_involutive l), E.
    + destruct (match_prefix _ _) as [ds|] eqn:E; [|done]. apply match_prefix_spec in E. apply all_digits_spec in Hd. eauto.
  - intros [?|[(ds & u & E & Hd & Hu)|(w & ds & Hw & E & Hd)]]; [done|left|right].
    + rewrite E, rev_app_distr. simpl. rewrite rev_involutive. apply andb_true_iff.
      split; [by apply bool_decide_eq_true|by apply all_digits_spec].
    + exists w. split; [done|]. by rewrite (proj2 (match_prefix_spec _ _ _) E), (proj2 (all_digits_spec _) Hd).
Qed.


Section decided.
Context `{MapOrder} (job : Job) (now : Time) (cfg : ValidationConfig).

(** Each list of checks passes exactly the fit rows. *)
Ltac decided :=
  rewrite ?first_failure_cons, ?first_failure_nil, ?first_error_None, ?Forall_cons, ?Forall_nil;
  rewrite ?some_none, ?source_time_None, ?validateInterval_None, ?validateFundingOptional_None, ?validateFunding_None,
    ?ValidateFundingRate_None, ?ValidateSource_None, ?ValidateTimestamp_None, ?ValidatePeriod_None,
    ?ValidateFundingRate_opt, ?optionals_amounts, ?required_amounts, ?optional_None, ?ValidateNonNegative_None, ?String.eqb_neq, ?Z.leb_gt, ?String.eqb_eq;
  cbn [map snd]; unfold fit_source; try tauto.

Lemma snapshot_fit x : first_failure (checks_snapshot job now cfg x) = None <-> fit_snapshot job now cfg x.
Proof.
  unfold checks_snapshot, source_time, ValidateMarketSnapshot, fit_snapshot. decided.
Qed.
Lemma kline_fit x : first_failure (checks_kline job now cfg x) = None <-> fit_kline job now cfg x.
Proof. unfold checks_kline, source_time, interval_check, ValidateKline, fit_kline. decided. Qed.
Lemma open_interest_fit dataType x :
  first_failure (checks_open_interest dataType job now cfg x) = None
  <-> fit_open_interest job now cfg (dataType =? "open_interest_history")%string x.
Proof.
  unfold checks_open_interest, source_time, ValidateOpenInterest, fit_open_interest.
  destruct (dataType =? "open_interest_history")%string; cbn [app]; decided.
  all: assert (false <> true) by done; tauto.
Qed.
Lemma funding_fit x : first_failure (checks_funding job now cfg x) = None <-> fit_funding job now cfg x.
Proof. unfold checks_funding, source_time, ValidateFundingSnapshot, fit_funding. decided. Qed.
Lemma funding_history_fit x :
  first_failure (checks_funding_history job now cfg x) = None <-> fit_funding_history job now cfg x.
Proof. unfold checks_funding_history, source_time, ValidateFundingHistory, fit_funding_history. decided. Qed.
Lemma long_short_fit x : first_failure (checks_long_short job now cfg x) = None <-> fit_long_short job now cfg x.
Proof. unfold checks_long_short, source_time, interval_check, ValidateLongShortRatio, fit_long_short. decided. Qed.
Lemma taker_fit x : first_failure (checks_taker job now cfg x) = None <-> fit_taker job now cfg x.
Proof. unfold checks_taker, source_time, interval_check, ValidateTakerFlow, fit_taker. decided. Qed.
Lemma cvd_fit x : first_failure (checks_cvd job now cfg x) = None <-> fit_cvd job now cfg x.
Proof. unfold checks_cvd, source_time, interval_check, ValidateCVD, fit_cvd. decided. Qed.
Lemma event_fit x : first_failure (checks_event job now cfg x) = None <-> fit_event job now cfg x.
Proof. unfold checks_event, source_time, ValidateLiquidationEvent, fit_event. decided. Qed.
Lemma aggregate_fit x : first_failure (checks_aggregate job now cfg x) = None <-> fit_aggregate job now cfg x.
Proof. unfold checks_aggregate, source_time, interval_check, ValidateLiquidationAggregate, fit_aggregate. decided. Qed.
Lemma basis_fit x : first_failure (checks_basis job now cfg x) = None <-> fit_basis job now cfg x.
Proof. unfold checks_basis, source_time, ValidateBasisPremium, fit_basis. decided. Qed.
Lemma orderbook_fit x : first_failure (checks_orderbook job now cfg x) = None <-> fit_orderbook job now cfg x.
Proof. unfold checks_orderbook, source_time, ValidateOrderbookImbalance, fit_orderbook. decided. Qed.
Lemma divergence_fit x : first_failure (checks_divergence job now cfg x) = None <-> fit_divergence job now cfg x.
Proof. unfold checks_divergence, source_time, ValidateExchangeDivergence, fit_divergence. decided. Qed.
End decided.

(** ** The rows kept *)

(** [kept] is what remains of [items] without the rows that are not fit, in their order. *)
Inductive keeps {A} (fit : A -> Prop) : list A -> list A -> Prop :=
| keeps_nil : keeps fit [] []
| keeps_fit x items kept : fit x -> keeps fit items kept -> keeps fit (x :: items) (x :: kept)
| keeps_unfit x items kept : ~ fit x -> keeps fit items kept -> keeps fit (x :: items) kept.

Lemma loop_keeps {A} prep meta (checks : A -> list (string * option error)) issue (fit : A -> Prop) items :
  (forall x, first_failure (checks x) = None <-> fit x) ->
  keeps fit (map prep items) (fst (filter_loop prep meta checks issue items)).
Proof.
  intros Hf. induction items as [|x items IH]; [apply keeps_nil|]. cbn [filter_loop map].
  destruct (filter_loop prep meta checks issue items) as [v i]. simpl in IH.
  specialize (Hf (prep x)). destruct (first_failure (checks (prep x))) as [[t e]|]; simpl.
  - apply keeps_unfit; [|done]. intros Hx. by apply Hf in Hx.
  - apply keeps_fit; [|done]. by apply Hf.
Qed.

Lemma loop_keeps_id {A} meta (checks : A -> list (string * option error)) issue (fit : A -> Prop) items :
  (forall x, first_failure (checks x) = None <-> fit x) -> keeps fit items (fst (filter_loop id meta checks issue items)).
Proof. intros Hf. rewrite <- (map_id items) at 1. by apply loop_keeps. Qed.

(** An event without a key is given one made from what it says. *)
Definition keyed (x : NormalizedLiquidationEvent) : NormalizedLiquidationEvent :=
  MkLiquidationEvent (le_Meta x)
    (if (TrimSpace (le_EventKey x) =? "")%string then LiquidationEventKey x else le_EventKey x)
    (le_EventTime x) (le_Side x) (le_Price x) (le_Quantity x) (le_Notional x) (le_USDValue x) (le_OrderID x) (le_TradeID x).

Lemma with_event_key_keyed x : with_event_key x = keyed x.
Proof. unfold with_event_key, keyed. destruct x; cbn. by case_match. Qed.

(** C30: the filter keeps exactly the rows that are fit to be written.  For every type, what it
    keeps are the fit rows of the result in their order, where fit is specified without the
    validators: a row that names a symbol, an exchange and the source symbol of the job, with a
    time that is set and at most the configured skew ahead of the clock; the period of the job,
    well formed; funding rates inside the configured bounds and inside [-1, 1]; and no price,
    volume, open interest or notional below zero; candles with both times, order books with a
    positive depth, events with a side and a key, which is made when it is missing.  Every row
    that is not kept is reported as one quality issue.  Unset bounds and skew are the defaults. *)
Theorem filter_exact `{MapOrder} dataType r job now wall cfg :
  let clock := if IsZero now then wall else now in
  let c := effective_config cfg in
  let '(valid, issues) := FilterNormalizedResult dataType r job now wall cfg in
  (keeps (fit_snapshot job clock c) (nr_MarketSnapshots r) (nr_MarketSnapshots valid) /\
   keeps (fit_kline job clock c) (nr_Klines r) (nr_Klines valid) /\
   keeps (fit_open_interest job clock c (dataType =? "open_interest_history")%string) (nr_OpenInterest r)
     (nr_OpenInterest valid) /\
   keeps (fit_funding job clock c) (nr_FundingSnapshots r) (nr_FundingSnapshots valid) /\
   keeps (fit_funding_history job clock c) (nr_FundingHistory r) (nr_FundingHistory valid) /\
   keeps (fit_long_short job clock c) (nr_LongShortRatios r) (nr_LongShortRatios valid) /\
   keeps (fit_taker job clock c) (nr_TakerFlows r) (nr_TakerFlows valid) /\
   keeps (fit_cvd job clock c) (nr_CVDSnapshots r) (nr_CVDSnapshots valid) /\
   keeps (fit_event job clock c) (map keyed (nr_LiquidationEvents r)) (nr_LiquidationEvents valid) /\
   keeps (fit_aggregate job clock c) (nr_LiquidationAggregates r) (nr_LiquidationAggregates valid) /\
   keeps (fit_basis job clock c) (nr_BasisPremiums r) (nr_BasisPremiums valid) /\
   keeps (fit_orderbook job clock c) (nr_OrderbookImbalances r) (nr_OrderbookImbalances valid) /\
   keeps (fit_divergence job clock c) (nr_ExchangeDivergences r) (nr_ExchangeDivergences valid)) /\
  (length (result_rows valid) + length issues)%nat = length (result_rows r).
Proof.
  unfold FilterNormalizedResult. cbv zeta. set (clock := if IsZero now then wall else now).
  pose proof (result_rows_conserved dataType job clock (effective_config cfg) r) as Hc.
  rewrite filter_result_eq in Hc |- *. split; [|exact Hc]. clear Hc. result_fields.
  rewrite <- (map_ext _ _ with_event_key_keyed).
  split_and!; first [apply loop_keeps_id|apply loop_keeps]; intros x;
    first [apply snapshot_fit|apply kline_fit|apply open_interest_fit|apply funding_fit|apply funding_history_fit
          |apply long_short_fit|apply taker_fit|apply cvd_fit|apply event_fit|apply aggregate_fit|apply basis_fit
          |apply orderbook_fit|apply divergence_fit].
Qed.
