(* ===== verification/Upsert.v ===== *)
(** * Transactional upserts ([internal/repositories])

    The loop that the repositories of [internal/repositories] share: open a transaction, validate
    and write the items one statement at a time with [INSERT ... ON CONFLICT (key) DO UPDATE],
    commit.  A table is a finite map from the columns of its unique index to a row.  What may go
    wrong in the database is an input ([Faults]). *)

From S2P Require Import Prelude GoString GoTime GoError.

(** Failures of one transaction: of [BeginTx], of the n-th [ExecContext] (with its
    [RowsAffected]) and of [Commit].  What the database refuses by its own types and keys (a number
    that does not fit its column, an unknown symbol) is such a failure; what it refuses by the
    [CHECK] constraints of its tables follows from the row, and [fault_check] is the error the
    driver then returns. *)
Record Faults := MkFaults {
  fault_begin : option error;
  fault_exec : nat -> option error;
  fault_rows : nat -> option error;
  fault_commit : option error;
  fault_check : error }.

Definition no_faults : Faults :=
  MkFaults None (fun _ => None) (fun _ => None) None (ErrorString "new row violates check constraint").

(** A table as its upsert sees it: labels of its error messages, the validator of an item, the
    row an item is written as (none when the item is passed over), the [CHECK] constraints of the
    table, which PostgreSQL evaluates on the proposed row before it looks for a conflict, and what
    [DO UPDATE SET] makes of an existing row and a new one. *)
Record table_ops (I K R : Type) := MkTable {
  t_begin : string; t_upsert : string; t_commit : string;
  t_validate : I -> option error;
  t_row : I -> option (K * R);
  t_check : R -> bool;
  t_merge : R -> R -> R }.
Arguments MkTable {I K R}.
Arguments t_begin {I K R}. Arguments t_upsert {I K R}. Arguments t_commit {I K R}.
Arguments t_validate {I K R}. Arguments t_row {I K R}. Arguments t_check {I K R}. Arguments t_merge {I K R}.

(** What the updates of all tables have in common: a row written over its own copy is unchanged, and
    of several writes over a row only the last counts. *)
Class TableLaws {I K R} (T : table_ops I K R) : Prop := {
  merge_same x k r : t_row T x = Some (k, r) -> t_merge T r r = r;
  merge_absorb a b c : t_merge T (t_merge T a b) c = t_merge T a c
}.

Section upsert.
Context {I K R : Type} `{Countable K} (T : table_ops I K R).

(** One statement. *)
Definition put (tbl : gmap K R) (kr : K * R) : gmap K R :=
  let '(k, r) := kr in
  <[ k := match tbl !! k with Some old => t_merge T old r | None => r end ]> tbl.

Fixpoint upsert_loop (f : Faults) (n : nat) (items : list I) (tbl : gmap K R) (count : Z)
    : result error (gmap K R * Z) :=
  match items with
  | [] => Ok (tbl, count)
  | x :: rest =>
    match t_validate T x with
    | Some e => Err e
    | None =>
      match t_row T x with
      | None => upsert_loop f n rest tbl count
      | Some kr =>
        match fault_exec f n with
        | Some e => Err (WrapError (t_upsert T +:+ ": ") e "")
        | None =>
          if negb (t_check T (snd kr)) then Err (WrapError (t_upsert T +:+ ": ") (fault_check f) "") else
          match fault_rows f n with
          | Some e => Err e
          | None => upsert_loop f (S n) rest (put tbl kr) (count + 1)
          end
        end
      end
    end
  end.

(** The whole upsert: the table after it, and its result.  A failed transaction is rolled back. *)
Definition upsert (f : Faults) (items : list I) (tbl : gmap K R) : gmap K R * result error Z :=
  match items with
  | [] => (tbl, Ok 0)
  | _ =>
    match fault_begin f with
    | Some e => (tbl, Err (WrapError (t_begin T +:+ ": ") e ""))
    | None =>
      match upsert_loop f 0 items tbl 0 with
      | Err e => (tbl, Err e)
      | Ok (tbl', count) =>
        match fault_commit f with
        | Some e => (tbl, Err (WrapError (t_commit T +:+ ": ") e ""))
        | None => (tbl', Ok count)
        end
      end
    end
  end.

(** ** Lemmas *)

Definition rows_of (items : list I) : list (K * R) := omap (t_row T) items.
Definition put_all (tbl : gmap K R) (rows : list (K * R)) : gmap K R := fold_left put rows tbl.

(** An item passes the validator and the constraints of the table. *)
Definition accepted (x : I) : Prop :=
  t_validate T x = None /\ forall kr, t_row T x = Some kr -> t_check T (snd kr) = true.

Lemma upsert_loop_ok f n items tbl count tbl' c :
  upsert_loop f n items tbl count = Ok (tbl', c) ->
  Forall accepted items /\
  tbl' = put_all tbl (rows_of items) /\ c = count + Z.of_nat (length (rows_of items)).
Proof.
  revert n tbl count. induction items as [|x rest IH]; intros n tbl count; simpl.
  { intros [= <- <-]. split_and!; [done|done|lia]. }
  destruct (t_validate T x) eqn:Ev; [done|].
  destruct (t_row T x) as [kr|] eqn:Er.
  - destruct (fault_exec f n); [done|]. destruct (t_check T (snd kr)) eqn:Ec; [|done]. simpl.
    destruct (fault_rows f n); [done|]. intros (Hf & -> & ->)%IH. simpl. split_and!; [|done|lia].
    constructor; [|done]. split; [done|]. intros kr' ?. by simplify_eq.
  - intros (Hf & -> & ->)%IH. split_and!; [|done|lia]. constructor; [|done]. split; [done|]. intros kr' ?. by simplify_eq.
Qed.

Lemma upsert_loop_no_faults n items tbl count :
  Forall accepted items ->
  upsert_loop no_faults n items tbl count
  = Ok (put_all tbl (rows_of items), count + Z.of_nat (length (rows_of items))).
Proof.
  intros Hf. revert n tbl count. induction Hf as [|x rest [Hx Hc] Hf IH]; intros n tbl count; simpl.
  { by rewrite Z.add_0_r. }
  rewrite Hx. destruct (t_row T x) as [kr|] eqn:Er; simpl; [rewrite (Hc kr eq_refl); simpl|]; rewrite IH; [|done].
  do 2 f_equal. simpl. lia.
Qed.

(** All or nothing: an upsert that fails leaves the table as it was; one that succeeds has
    validated every item and written every row in order, and counts them. *)
Lemma upsert_atomic f items tbl :
  match upsert f items tbl with
  | (tbl', Err _) => tbl' = tbl
  | (tbl', Ok c) =>
    Forall accepted items /\
    tbl' = put_all tbl (rows_of items) /\ c = Z.of_nat (length (rows_of items))
  end.
Proof.
  unfold upsert. destruct items as [|x rest]; [done|].
  destruct (fault_begin f); [done|].
  destruct (upsert_loop f 0 (x :: rest) tbl 0) as [[tbl' c]|e] eqn:E; [|done].
  destruct (fault_commit f); [done|]. apply upsert_loop_ok in E as (? & ? & ?). by split_and!.
Qed.

Lemma upsert_no_faults items tbl :
  Forall accepted items ->
  upsert no_faults items tbl = (put_all tbl (rows_of items), Ok (Z.of_nat (length (rows_of items)))).
Proof.
  intros Hf. unfold upsert. destruct items as [|x rest]; [done|]. simpl fault_begin.
  by rewrite upsert_loop_no_faults.
Qed.

(** A row that a constraint refuses fails the whole upsert. *)
Lemma upsert_loop_refused n items tbl count :
  Forall (fun x => t_validate T x = None) items ->
  Exists (fun x => exists kr, t_row T x = Some kr /\ t_check T (snd kr) = false) items ->
  upsert_loop no_faults n items tbl count = Err (WrapError (t_upsert T +:+ ": ") (fault_check no_faults) "").
Proof.
  intros Hv He. revert n tbl count. induction items as [|x rest IH]; intros n tbl count; [by apply Exists_nil in He|].
  apply Forall_cons in Hv as [Hx Hv]. cbn [upsert_loop]. rewrite Hx.
  apply Exists_cons in He as [(kr & -> & Hc)|He]; [cbn [fault_exec no_faults]; by rewrite Hc|].
  destruct (t_row T x) as [kr|]; [|by apply IH]. cbn [fault_exec fault_rows no_faults].
  destruct (t_check T (snd kr)); [by apply IH|done].
Qed.

Lemma upsert_refused items tbl :
  Forall (fun x => t_validate T x = None) items ->
  Exists (fun x => exists kr, t_row T x = Some kr /\ t_check T (snd kr) = false) items ->
  upsert no_faults items tbl = (tbl, Err (WrapError (t_upsert T +:+ ": ") (fault_check no_faults) "")).
Proof.
  intros Hv He. unfold upsert. destruct items as [|x rest]; [by apply Exists_nil in He|]. cbn [fault_begin no_faults].
  by rewrite upsert_loop_refused.
Qed.

(** The rows written under one key. *)
Definition at_key (k : K) (rows : list (K * R)) : list R :=
  map snd (filter (fun kr => fst kr = k) rows).

Context `{!TableLaws T}.

Lemma put_lookup tbl k r k' :
  put tbl (k, r) !! k' = if decide (k = k') then Some (match tbl !! k with Some o => t_merge T o r | None => r end)
                        else tbl !! k'.
Proof. unfold put. case_decide; simplify_eq; [by rewrite lookup_insert_eq|by rewrite lookup_insert_ne]. Qed.

Lemma rows_of_same items : Forall (fun kr => t_merge T (snd kr) (snd kr) = snd kr) (rows_of items).
Proof.
  apply Forall_forall. intros [k r] (x & _ & Hx)%list_elem_of_omap. by eapply merge_same.
Qed.

(** The row under a key after a batch: the first row there (stored or written), updated with the
    last one written. *)
Lemma put_all_lookup rows tbl k :
  Forall (fun kr => t_merge T (snd kr) (snd kr) = snd kr) rows ->
  put_all tbl rows !! k =
  match last (at_key k rows) with
  | None => tbl !! k
  | Some r => Some (t_merge T (default r (head (option_list (tbl !! k) ++ at_key k rows))) r)
  end.
Proof.
  revert tbl. induction rows as [|[k' r'] rows IH] using rev_ind; intros tbl Hs; [done|].
  apply Forall_app in Hs as [Hs Hr]. rewrite Forall_singleton in Hr. simpl in Hr.
  unfold put_all in *. rewrite fold_left_app. cbn [fold_left]. rewrite put_lookup.
  unfold at_key in *. rewrite filter_app, map_app, filter_cons, filter_nil. simpl fst.
  case_decide as Hk; simpl.
  - subst k'. rewrite last_snoc, IH by done. clear IH.
    set (l := map snd (filter (fun kr : K * R => kr.1 = k) rows)).
    destruct (last l) as [x|] eqn:El.
    + rewrite merge_absorb. do 2 f_equal. destruct (tbl !! k) as [o|]; [done|].
      destruct l as [|y l]; [done|]. done.
    + apply last_None in El. rewrite El. destruct (tbl !! k) as [o|]; simpl; [done|].
      by rewrite Hr.
  - by rewrite app_nil_r, IH.
Qed.

(** Writing a batch again changes nothing. *)
Lemma put_all_idem items tbl :
  put_all (put_all tbl (rows_of items)) (rows_of items) = put_all tbl (rows_of items).
Proof.
  apply map_eq. intros k. pose proof (rows_of_same items) as Hs.
  rewrite (put_all_lookup _ (put_all tbl _)) by done.
  destruct (last (at_key k (rows_of items))) as [r|] eqn:El; [|done].
  rewrite !put_all_lookup, El by done. simpl. by rewrite merge_absorb.
Qed.

(** A batch delivered twice, by whatever faults the second delivery suffers, leaves the table as
    the first delivery left it. *)
Lemma upsert_redelivery f g items tbl tbl' c :
  upsert f items tbl = (tbl', Ok c) -> fst (upsert g items tbl') = tbl'.
Proof.
  intros E. pose proof (upsert_atomic f items tbl) as Ha. rewrite E in Ha. destruct Ha as (_ & -> & _).
  pose proof (upsert_atomic g items (put_all tbl (rows_of items))) as Hb.
  destruct (upsert g items (put_all tbl (rows_of items))) as [tbl'' [c'|e]]; [|done].
  destruct Hb as (_ & -> & _). apply put_all_idem.
Qed.

End upsert.
