(* ===== verification/Repositories.v ===== *)
(** * Repositories of collected data ([internal/repositories])

    The tables written by the collectors, each as the transactional upsert of [Upsert] over the
    columns of its unique index.  A row is the item as written: the endpoint id of an item is not
    stored, and empty raw data is stored as an empty object.  The [CHECK] constraints of
    [migrations/000003] to [000005] are those of the tables here.  Column types are not modelled:
    numbers and times are stored as given. *)

From S2P Require Import Prelude GoString GoTime GoFloat GoError GoJson SchedulerModels Normalizers Hardening Upsert.

Definition stored (m : SourceMeta) : SourceMeta :=
  MkSourceMeta (src_SymbolID m) (src_Exchange m) (src_SourceSymbol m) 0 (ensureJSON (src_RawData m)).

Abbreviation point_key := (Z * string * Time)%type (only parsing).
Abbreviation series_key := (Z * string * string * Time)%type (only parsing).

Definition point (m : SourceMeta) (t : Time) : point_key := (src_SymbolID m, src_Exchange m, t).
Definition series (m : SourceMeta) (period : string) (t : Time) : series_key :=
  (src_SymbolID m, src_Exchange m, period, t).

(** ** Derived fields *)

Definition firstFloat (values : list (option float64)) : option float64 := head (omap id values).

Definition fillTakerFlowDeltas (x : NormalizedTakerFlow) : NormalizedTakerFlow :=
  let delta := match tf_BuySellDelta x, tf_TakerBuyVolume x, tf_TakerSellVolume x with
               | None, Some b, Some s => Some (fsub b s)
               | d, _, _ => d
               end in
  let quote := match tf_BuySellDeltaQuote x, tf_TakerBuyQuoteVolume x, tf_TakerSellQuoteVolume x with
               | None, Some b, Some s => Some (fsub b s)
               | d, _, _ => d
               end in
  let ratio := match tf_BuySellRatio x, tf_TakerSellVolume x, tf_TakerBuyVolume x with
               | None, Some s, Some b => if negb (feq s f64_zero) then Some (fdiv b s) else None
               | d, _, _ => d
               end in
  MkTakerFlow (tf_Meta x) (tf_Period x) (tf_SnapshotTime x) (tf_TakerBuyVolume x) (tf_TakerSellVolume x)
    (tf_TakerBuyQuoteVolume x) (tf_TakerSellQuoteVolume x) delta quote ratio.

Definition fillLiquidationUSD (x : NormalizedLiquidationAggregate) : NormalizedLiquidationAggregate :=
  let long := if feq (la_LongLiquidationUSD x) f64_zero then la_LongLiquidationNotional x else la_LongLiquidationUSD x in
  let short := if feq (la_ShortLiquidationUSD x) f64_zero then la_ShortLiquidationNotional x
               else la_ShortLiquidationUSD x in
  let total := if feq (la_TotalLiquidationUSD x) f64_zero then fadd long short else la_TotalLiquidationUSD x in
  let notional := if feq (la_TotalLiquidationNotional x) f64_zero
                  then fadd (la_LongLiquidationNotional x) (la_ShortLiquidationNotional x)
                  else la_TotalLiquidationNotional x in
  MkLiquidationAggregate (la_Meta x) (la_Period x) (la_BucketTime x) (la_LongLiquidationCount x)
    (la_ShortLiquidationCount x) (la_LongLiquidationNotional x) (la_ShortLiquidationNotional x) notional long short
    total (la_LargestLiquidationUSD x).

Definition fillBasisValues (x : NormalizedBasisPremium) : NormalizedBasisPremium :=
  let value := match bp_BasisValue x with None => bp_Basis x | v => v end in
  let basis := match bp_Basis x with None => value | b => b end in
  let '(value, basis) :=
    match value, bp_FuturesPrice x, bp_IndexPrice x with
    | None, Some f, Some i => (Some (fsub f i), Some (fsub f i))
    | _, _, _ => (value, basis)
    end in
  let percent :=
    match bp_BasisPercent x, value, bp_IndexPrice x with
    | None, Some v, Some i => if negb (feq i f64_zero) then Some (fmul (fdiv v i) (f64_of_Z 100)) else None
    | p, _, _ => p
    end in
  MkBasisPremium (bp_Meta x) (bp_SnapshotTime x) (bp_FuturesPrice x) (bp_MarkPrice x) (bp_IndexPrice x)
    (bp_SpotPrice x) basis value percent (bp_AnnualizedBasisPercent x) (bp_PremiumIndex x) (bp_FundingRate x).

Definition liquidationUSD (x : NormalizedLiquidationEvent) : float64 :=
  match le_USDValue x, le_Notional x, le_Price x, le_Quantity x with
  | Some v, _, _, _ => v
  | None, Some n, _, _ => n
  | None, None, Some p, Some q => fmul p q
  | _, _, _, _ => f64_zero
  end.

(** [NewAdvancedRepository]: the smallest liquidation worth a row. *)
Definition liquidation_min_usd (configured : float64) : float64 :=
  if fle configured f64_zero then f64_of_Z 1000 else configured.

(** ** Constraints *)

(** [CHECK (exchange = lower(exchange))]. *)
Definition is_lower (s : string) : bool := (s =? ToLower s)%string.
Definition lower_exchange (m : SourceMeta) : bool := is_lower (src_Exchange m).

(** [CHECK (side IN (...))] of [liquidation_events]. *)
Definition allowed_side (s : string) : bool :=
  existsb (String.eqb s) ["buy"; "sell"; "long"; "short"; "unknown"].

(** [CHECK (severity IN (...))] of [data_quality_issues]. *)
Definition allowed_severity (s : string) : bool := existsb (String.eqb s) ["info"; "warning"; "error"; "critical"].

(** ** Tables *)

Section tables.
Context `{MapOrder}.

Definition overwrite {R} (old new : R) : R := new.

Definition market_snapshots : table_ops NormalizedMarketSnapshot point_key NormalizedMarketSnapshot :=
  MkTable "begin market snapshot upsert" "upsert market snapshot" "commit market snapshot upsert"
    ValidateMarketSnapshot
    (fun x => Some (point (ms_Meta x) (ms_SnapshotTime x),
       MkMarketSnapshot (stored (ms_Meta x)) (ms_SnapshotTime x) (ms_LastPrice x) (ms_MarkPrice x) (ms_IndexPrice x)
         (ms_BidPrice x) (ms_AskPrice x) (ms_Volume24h x) (ms_QuoteVolume24h x) (ms_PriceChangePercent24h x)
         (ms_OpenInterest x) (ms_FundingRate x)))
    (fun x => lower_exchange (ms_Meta x)) overwrite.

(** An existing candle keeps its source symbol and its open price; its raw data is updated. *)
Definition klines : table_ops NormalizedKline series_key NormalizedKline :=
  MkTable "begin kline upsert" "upsert kline" "commit kline upsert" ValidateKline
    (fun x => Some (series (kl_Meta x) (kl_Interval x) (kl_OpenTime x),
       MkKline (stored (kl_Meta x)) (kl_Interval x) (kl_OpenTime x) (kl_CloseTime x) (kl_OpenPrice x) (kl_HighPrice x)
         (kl_LowPrice x) (kl_ClosePrice x) (kl_Volume x) (kl_QuoteVolume x) (kl_TradeCount x) (kl_TakerBuyVolume x)
         (kl_TakerBuyQuoteVolume x) (kl_IsClosed x)))
    (fun x => lower_exchange (kl_Meta x))
    (fun o n =>
       MkKline (MkSourceMeta (src_SymbolID (kl_Meta o)) (src_Exchange (kl_Meta o)) (src_SourceSymbol (kl_Meta o))
                  (src_SourceEndpointID (kl_Meta o)) (src_RawData (kl_Meta n)))
         (kl_Interval o) (kl_OpenTime o) (kl_CloseTime n) (kl_OpenPrice o) (kl_HighPrice n) (kl_LowPrice n)
         (kl_ClosePrice n) (kl_Volume n) (kl_QuoteVolume n) (kl_TradeCount n) (kl_TakerBuyVolume n)
         (kl_TakerBuyQuoteVolume n) (kl_IsClosed n)).

Definition open_interest_snapshots : table_ops NormalizedOpenInterest point_key NormalizedOpenInterest :=
  MkTable "begin open interest upsert" "upsert open interest" "commit open interest upsert"
    (fun x => ValidateOpenInterest x false)
    (fun x => Some (point (oi_Meta x) (oi_SnapshotTime x),
       MkOpenInterest (stored (oi_Meta x)) (oi_SnapshotTime x) "" (oi_OpenInterest x) (oi_OpenInterestValue x)))
    (fun x => lower_exchange (oi_Meta x)) overwrite.

Definition open_interest_history : table_ops NormalizedOpenInterest series_key NormalizedOpenInterest :=
  MkTable "begin open interest upsert" "upsert open interest" "commit open interest upsert"
    (fun x => ValidateOpenInterest x true)
    (fun x => Some (series (oi_Meta x) (oi_Period x) (oi_SnapshotTime x),
       MkOpenInterest (stored (oi_Meta x)) (oi_SnapshotTime x) (oi_Period x) (oi_OpenInterest x) (oi_OpenInterestValue x)))
    (fun x => lower_exchange (oi_Meta x)) overwrite.

Definition funding_snapshots : table_ops NormalizedFundingSnapshot point_key NormalizedFundingSnapshot :=
  MkTable "begin funding snapshot upsert" "upsert funding snapshot" "commit funding snapshot upsert"
    ValidateFundingSnapshot
    (fun x => Some (point (fs_Meta x) (fs_SnapshotTime x),
       MkFundingSnapshot (stored (fs_Meta x)) (fs_SnapshotTime x) (fs_FundingRate x) (fs_NextFundingTime x)
         (fs_MarkPrice x) (fs_IndexPrice x)))
    (fun x => lower_exchange (fs_Meta x)) overwrite.

Definition funding_history : table_ops NormalizedFundingHistory point_key NormalizedFundingHistory :=
  MkTable "begin funding history upsert" "upsert funding history" "commit funding history upsert"
    ValidateFundingHistory
    (fun x => Some (point (fh_Meta x) (fh_FundingTime x),
       MkFundingHistory (stored (fh_Meta x)) (fh_FundingTime x) (fh_FundingRate x) (fh_RealizedRate x) (fh_MarkPrice x)))
    (fun x => lower_exchange (fh_Meta x)) overwrite.

Definition long_short_ratios : table_ops NormalizedLongShortRatio series_key NormalizedLongShortRatio :=
  MkTable "begin long/short upsert" "upsert long/short ratio" "commit long/short upsert" ValidateLongShortRatio
    (fun x => Some (series (ls_Meta x) (ls_Period x) (ls_SnapshotTime x),
       MkLongShortRatio (stored (ls_Meta x)) (ls_Period x) (ls_SnapshotTime x) (ls_LongRatio x) (ls_ShortRatio x)
         (ls_LongAccountRatio x) (ls_ShortAccountRatio x) (ls_LongPositionRatio x) (ls_ShortPositionRatio x)
         (ls_TopTraderLongRatio x) (ls_TopTraderShortRatio x) (ls_LongShortRatio x)))
    (fun x => lower_exchange (ls_Meta x)) overwrite.

Definition taker_flows : table_ops NormalizedTakerFlow series_key NormalizedTakerFlow :=
  MkTable "begin taker flow upsert" "upsert taker flow" "commit taker flow upsert" ValidateTakerFlow
    (fun x => let x := fillTakerFlowDeltas x in
       Some (series (tf_Meta x) (tf_Period x) (tf_SnapshotTime x),
       MkTakerFlow (stored (tf_Meta x)) (tf_Period x) (tf_SnapshotTime x) (tf_TakerBuyVolume x) (tf_TakerSellVolume x)
         (tf_TakerBuyQuoteVolume x) (tf_TakerSellQuoteVolume x) (tf_BuySellDelta x) (tf_BuySellDeltaQuote x)
         (tf_BuySellRatio x)))
    (fun x => lower_exchange (tf_Meta x)) overwrite.

Definition cvd_snapshots : table_ops NormalizedCVD series_key NormalizedCVD :=
  MkTable "begin cvd upsert" "upsert cvd" "commit cvd upsert" ValidateCVD
    (fun x => Some (series (cv_Meta x) (cv_Period x) (cv_SnapshotTime x),
       MkCVD (stored (cv_Meta x)) (cv_Period x) (cv_SnapshotTime x) (cv_CVDValue x) (cv_CVDDelta x) (cv_CVDChange x)
         (cv_CVDChangePercent x) (cv_BuyVolume x) (cv_SellVolume x)))
    (fun x => lower_exchange (cv_Meta x)) overwrite.

(** Small liquidations get no row; an existing event keeps what identifies it. *)
Definition liquidation_events (minUSD : float64)
    : table_ops NormalizedLiquidationEvent string NormalizedLiquidationEvent :=
  MkTable "begin liquidation events upsert" "upsert liquidation event" "commit liquidation events upsert"
    ValidateLiquidationEvent
    (fun x => if flt (liquidationUSD x) minUSD then None else
       Some (le_EventKey x,
       MkLiquidationEvent (stored (le_Meta x)) (le_EventKey x) (le_EventTime x) (le_Side x) (le_Price x) (le_Quantity x)
         (le_Notional x) (Some (liquidationUSD x)) (le_OrderID x) (le_TradeID x)))
    (fun x => lower_exchange (le_Meta x) && allowed_side (le_Side x))
    (fun o n =>
       MkLiquidationEvent (MkSourceMeta (src_SymbolID (le_Meta o)) (src_Exchange (le_Meta o))
           (src_SourceSymbol (le_Meta o)) (src_SourceEndpointID (le_Meta o)) (src_RawData (le_Meta n)))
         (le_EventKey o) (le_EventTime o) (le_Side o) (le_Price n) (le_Quantity n) (le_Notional n) (le_USDValue n)
         (le_OrderID o) (le_TradeID o)).

Definition liquidation_aggregates
    : table_ops NormalizedLiquidationAggregate series_key NormalizedLiquidationAggregate :=
  MkTable "begin liquidation aggregate upsert" "upsert liquidation aggregate" "commit liquidation aggregate upsert"
    ValidateLiquidationAggregate
    (fun x => let x := fillLiquidationUSD x in
       Some (series (la_Meta x) (la_Period x) (la_BucketTime x),
       MkLiquidationAggregate (stored (la_Meta x)) (la_Period x) (la_BucketTime x) (la_LongLiquidationCount x)
         (la_ShortLiquidationCount x) (la_LongLiquidationNotional x) (la_ShortLiquidationNotional x)
         (la_TotalLiquidationNotional x) (la_LongLiquidationUSD x) (la_ShortLiquidationUSD x) (la_TotalLiquidationUSD x)
         (la_LargestLiquidationUSD x)))
    (fun x => lower_exchange (la_Meta x)) overwrite.

Definition basis_premiums : table_ops NormalizedBasisPremium point_key NormalizedBasisPremium :=
  MkTable "begin basis upsert" "upsert basis premium" "commit basis upsert" ValidateBasisPremium
    (fun x => let x := fillBasisValues x in
       Some (point (bp_Meta x) (bp_SnapshotTime x),
       MkBasisPremium (stored (bp_Meta x)) (bp_SnapshotTime x) (bp_FuturesPrice x) (bp_MarkPrice x) (bp_IndexPrice x)
         (bp_SpotPrice x) (bp_Basis x) (bp_BasisValue x) (bp_BasisPercent x) (bp_AnnualizedBasisPercent x)
         (bp_PremiumIndex x) (bp_FundingRate x)))
    (fun x => lower_exchange (bp_Meta x)) overwrite.

Definition orderbook_imbalances : table_ops NormalizedOrderbookImbalance (Z * string * Time * Z) NormalizedOrderbookImbalance :=
  MkTable "begin orderbook imbalance upsert" "upsert orderbook imbalance" "commit orderbook imbalance upsert"
    ValidateOrderbookImbalance
    (fun x => Some ((src_SymbolID (ob_Meta x), src_Exchange (ob_Meta x), ob_SnapshotTime x, ob_DepthLevels x),
       MkOrderbookImbalance (stored (ob_Meta x)) (ob_SnapshotTime x) (ob_DepthLevels x) (ob_MidPrice x) (ob_SpreadBPS x)
         (ob_SpreadPercent x) (ob_BidNotional x) (ob_AskNotional x) (ob_BidDepthUSD x) (ob_AskDepthUSD x)
         (ob_BidDepth1PctUSD x) (ob_AskDepth1PctUSD x) (ob_BidDepth2PctUSD x) (ob_AskDepth2PctUSD x)
         (ob_BidDepth5PctUSD x) (ob_AskDepth5PctUSD x) (ob_ImbalanceRatio x) (ob_ImbalancePercent x)))
    (fun x => lower_exchange (ob_Meta x) && (0 <? ob_DepthLevels x)) overwrite.

(** The row has no exchange and no source symbol; unnamed exchanges are [aggregate]. *)
Definition or_aggregate (s : string) : string := if (s =? "")%string then "aggregate" else s.

Definition exchange_divergences
    : table_ops NormalizedExchangeDivergence (Z * string * string * string * Time) NormalizedExchangeDivergence :=
  MkTable "begin exchange divergence upsert" "upsert exchange divergence" "commit exchange divergence upsert"
    ValidateExchangeDivergence
    (fun x =>
       let ref := or_aggregate (ed_ReferenceExchange x) in
       let cmp := or_aggregate (ed_ComparedExchange x) in
       Some ((src_SymbolID (ed_Meta x), ed_DataType x, ref, cmp, ed_SnapshotTime x),
       MkExchangeDivergence (MkSourceMeta (src_SymbolID (ed_Meta x)) "" "" 0 (ensureJSON (src_RawData (ed_Meta x))))
         (ed_DataType x) (ed_SnapshotTime x) ref cmp (ed_ReferenceValue x) (ed_ComparedValue x) (ed_DivergenceAbs x)
         (ed_DivergenceBPS x) (ed_PriceMin x) (ed_PriceMax x) (ed_PriceSpreadPercent x) (ed_OIMin x) (ed_OIMax x)
         (ed_OISpreadPercent x) (ed_FundingMin x) (ed_FundingMax x) (ed_FundingSpread x) (ed_VolumeMin x)
         (ed_VolumeMax x) (ed_VolumeSpreadPercent x) (ed_StrongestExchange x) (ed_WeakestExchange x)
         (ensureJSON (ed_RawByExchange x))))
    (fun x => is_lower (ed_ReferenceExchange x) && is_lower (ed_ComparedExchange x)) overwrite.

End tables.

(** *** Quality issues *)

Inductive IssueStatus := IssueOpen | IssueResolved | IssueOther (s : string).

Record IssueRow := MkIssueRow {
  ir_Issue : QualityIssue; ir_Status : IssueStatus; ir_FirstSeen : Time; ir_LastSeen : Time }.

(** A repeated issue keeps its first sighting and what identifies it; a resolved one is
    reopened. *)
Definition quality_issues (wall : Time) : table_ops QualityIssue string IssueRow :=
  MkTable "begin data quality upsert" "upsert data quality issue" "commit data quality upsert"
    (fun _ => None)
    (fun q =>
       let at_ := if IsZero (qi_ObservedAt q) then wall else qi_ObservedAt q in
       Some (qi_IssueKey q,
         MkIssueRow (MkQualityIssue (qi_IssueKey q) (if (qi_Severity q =? "")%string then "warning" else qi_Severity q)
           (qi_Exchange q) (qi_DataType q) (qi_SymbolID q) (qi_SourceSymbol q) (qi_IssueType q)
           (ensureJSON (qi_Details q)) at_ (qi_JobID q) (qi_EndpointID q)) IssueOpen at_ at_))
    (fun r => is_lower (qi_Exchange (ir_Issue r)) && allowed_severity (qi_Severity (ir_Issue r)))
    (fun o n =>
       MkIssueRow (MkQualityIssue (qi_IssueKey (ir_Issue o)) (qi_Severity (ir_Issue n)) (qi_Exchange (ir_Issue o))
           (qi_DataType (ir_Issue o)) (qi_SymbolID (ir_Issue o)) (qi_SourceSymbol (ir_Issue o))
           (qi_IssueType (ir_Issue o)) (qi_Details (ir_Issue n)) (qi_ObservedAt (ir_Issue n)) (qi_JobID (ir_Issue n))
           (qi_EndpointID (ir_Issue n)))
         (match ir_Status o with IssueResolved => IssueOpen | s => s end) (ir_FirstSeen o) (ir_LastSeen n)).

#[export] Instance market_snapshots_laws `{MapOrder} : TableLaws market_snapshots.
Proof. by split. Qed.
#[export] Instance klines_laws `{MapOrder} : TableLaws klines.
Proof. split; [|done]. intros [] k r [= <- <-]. done. Qed.
#[export] Instance open_interest_snapshots_laws : TableLaws open_interest_snapshots.
Proof. by split. Qed.
#[export] Instance open_interest_history_laws : TableLaws open_interest_history.
Proof. by split. Qed.
#[export] Instance funding_snapshots_laws : TableLaws funding_snapshots.
Proof. by split. Qed.
#[export] Instance funding_history_laws : TableLaws funding_history.
Proof. by split. Qed.
#[export] Instance long_short_ratios_laws : TableLaws long_short_ratios.
Proof. by split. Qed.
#[export] Instance taker_flows_laws `{MapOrder} : TableLaws taker_flows.
Proof. by split. Qed.
#[export] Instance cvd_snapshots_laws : TableLaws cvd_snapshots.
Proof. by split. Qed.
#[export] Instance liquidation_events_laws minUSD : TableLaws (liquidation_events minUSD).
Proof. split; [|done]. intros x k r. simpl. case_match; [done|]. by intros [= <- <-]. Qed.
#[export] Instance liquidation_aggregates_laws `{MapOrder} : TableLaws liquidation_aggregates.
Proof. by split. Qed.
#[export] Instance basis_premiums_laws `{MapOrder} : TableLaws basis_premiums.
Proof. by split. Qed.
#[export] Instance orderbook_imbalances_laws `{MapOrder} : TableLaws orderbook_imbalances.
Proof. by split. Qed.
#[export] Instance exchange_divergences_laws : TableLaws exchange_divergences.
Proof. by split. Qed.
#[export] Instance quality_issues_laws wall : TableLaws (quality_issues wall).
Proof.
  split; [by intros x k r [= <- <-]|]. intros a b c. simpl. by destruct (ir_Status a).
Qed.
