(* ===== verification/Cvd.v ===== *)
(** * Cumulative volume delta ([internal/repositories/advanced.go])

    The CVD series derived from taker flows: each flow's change is added to the newest stored
    value before it, one transaction per flow. *)

From S2P Require Import Prelude GoString GoTime GoFloat GoError GoJson SchedulerModels Normalizers Hardening Upsert.
From S2P Require Import Repositories.

Abbreviation cvd_table := (gmap (Z * string * string * Time) NormalizedCVD) (only parsing).

(** The newest row of a series before a time. *)
Definition newest_step (sym : Z) (ex per : string) (before : Time) (k : Z * string * string * Time) (r : NormalizedCVD)
    (acc : option (Time * NormalizedCVD)) : option (Time * NormalizedCVD) :=
  let '(s, e, p, t) := k in
  if (s =? sym) && (e =? ex)%string && (p =? per)%string && (t <? before) then
    match acc with
    | Some (t', _) => if t' <? t then Some (t, r) else acc
    | None => Some (t, r)
    end
  else acc.

Definition newest_before (tbl : cvd_table) (sym : Z) (ex per : string) (before : Time)
    : option (Time * NormalizedCVD) :=
  map_fold (newest_step sym ex per before) None tbl.

(** [previousCVD]: no row and a NULL value both count as zero. *)
Definition previousCVD (query : option error) (tbl : cvd_table) (sym : Z) (ex per : string) (before : Time)
    : result error float64 :=
  match query with
  | Some e => Err (WrapError "query previous cvd: " e "")
  | None =>
    Ok (match newest_before tbl sym ex per before with
        | Some (_, r) => default f64_zero (cv_CVDValue r)
        | None => f64_zero
        end)
  end.

Definition flow_change (flow : NormalizedTakerFlow) : option float64 :=
  let flow := fillTakerFlowDeltas flow in firstFloat [tf_BuySellDeltaQuote flow; tf_BuySellDelta flow].

Definition flow_cvd (flow : NormalizedTakerFlow) (previous change : float64) : NormalizedCVD :=
  let percent := if negb (feq previous f64_zero) then fmul (fdiv change previous) (f64_of_Z 100) else f64_zero in
  MkCVD (tf_Meta flow) (tf_Period flow) (tf_SnapshotTime flow) (Some (fadd previous change)) (Some change) (Some change)
    (Some percent) (tf_TakerBuyVolume flow) (tf_TakerSellVolume flow).

(** [UpsertCVDFromTakerFlows]: the table after it and its result; [query] and [fault] are the
    database's failures for the n-th flow. *)
Fixpoint cvd_loop (query : nat -> option error) (fault : nat -> Faults) (n : nat) (flows : list NormalizedTakerFlow)
    (tbl : cvd_table) (count : Z) : cvd_table * result error Z :=
  match flows with
  | [] => (tbl, Ok count)
  | flow :: rest =>
    match flow_change flow with
    | None => cvd_loop query fault (S n) rest tbl count
    | Some change =>
      match previousCVD (query n) tbl (src_SymbolID (tf_Meta flow)) (src_Exchange (tf_Meta flow)) (tf_Period flow)
              (tf_SnapshotTime flow) with
      | Err e => (tbl, Err e)
      | Ok previous =>
        let '(tbl, r) := upsert cvd_snapshots (fault n) [flow_cvd flow previous change] tbl in
        match r with
        | Err e => (tbl, Err e)
        | Ok inserted => cvd_loop query fault (S n) rest tbl (count + inserted)
        end
      end
    end
  end.

Definition UpsertCVDFromTakerFlows (query : nat -> option error) (fault : nat -> Faults)
    (flows : list NormalizedTakerFlow) (tbl : cvd_table) : cvd_table * result error Z :=
  cvd_loop query fault 0 flows tbl 0.

(** ** The newest row *)

Section series_lemmas.
Context (sym : Z) (ex per : string).

Definition is_newest (tbl : cvd_table) (before : Time) (o : option (Time * NormalizedCVD)) : Prop :=
  match o with
  | None => forall t, t < before -> tbl !! (sym, ex, per, t) = None
  | Some (t, r) => t < before /\ tbl !! (sym, ex, per, t) = Some r /\
                   forall t', t' < before -> is_Some (tbl !! (sym, ex, per, t')) -> t' <= t
  end.

Lemma newest_before_spec tbl before : is_newest tbl before (newest_before tbl sym ex per before).
Proof.
  unfold newest_before. apply (map_fold_weak_ind (fun o tbl => is_newest tbl before o)).
  { simpl. intros t _. apply lookup_empty. }
  intros [[[s e] p] t] r m acc Hm IH. unfold newest_step.
  destruct ((s =? sym) && (e =? ex)%string && (p =? per)%string && (t <? before)) eqn:E.
  - apply andb_true_iff in E as [[[E1 E2]%andb_true_iff E3]%andb_true_iff E4].
    apply Z.eqb_eq in E1. apply String.eqb_eq in E2, E3. apply Z.ltb_lt in E4. subst s e p.
    destruct acc as [[t0 r0]|]; simpl in *.
    + destruct IH as (H1 & H2 & H3). destruct (Z.ltb_spec t0 t) as [Hlt|Hge]; simpl.
      * split_and!; [done|by rewrite lookup_insert_eq|]. intros t' Ht' Hs. destruct (decide (t = t')) as [->|Hn]; [lia|].
        rewrite lookup_insert_ne in Hs by congruence. specialize (H3 t' Ht' Hs). lia.
      * assert (t <> t0) by (intros ->; congruence).
        split_and!; [done|by rewrite lookup_insert_ne by congruence|]. intros t' Ht' Hs.
        destruct (decide (t = t')) as [->|Hn]; [lia|]. rewrite lookup_insert_ne in Hs by congruence. by apply H3.
    + split_and!; [done|by rewrite lookup_insert_eq|]. intros t' Ht' Hs. destruct (decide (t = t')) as [->|Hn]; [lia|].
      rewrite lookup_insert_ne, IH in Hs by (congruence || lia). by destruct Hs.
  - assert (forall t', t' < before -> <[(s, e, p, t):=r]> m !! (sym, ex, per, t') = m !! (sym, ex, per, t')) as Hsame.
    { intros t' Ht'. apply lookup_insert_ne. intros [= -> -> -> ->].
      rewrite Z.eqb_refl, !String.eqb_refl, (proj2 (Z.ltb_lt t' before)) in E by done. done. }
    destruct acc as [[t0 r0]|]; simpl in *.
    + destruct IH as (H1 & H2 & H3). split_and!; [done|by rewrite Hsame|]. intros t' Ht' Hs. rewrite Hsame in Hs by done. eauto.
    + intros t' Ht'. rewrite Hsame by done. eauto.
Qed.

Lemma newest_before_unique tbl before t r :
  t < before -> tbl !! (sym, ex, per, t) = Some r ->
  (forall t', t < t' < before -> tbl !! (sym, ex, per, t') = None) ->
  newest_before tbl sym ex per before = Some (t, r).
Proof.
  intros Ht Hr Hn. pose proof (newest_before_spec tbl before) as Hs.
  destruct (newest_before tbl sym ex per before) as [[t0 r0]|]; simpl in Hs.
  - destruct Hs as (H1 & H2 & H3). specialize (H3 t Ht ltac:(by eexists)).
    destruct (decide (t = t0)) as [->|]; [by simplify_eq|]. rewrite Hn in H2 by lia. done.
  - rewrite Hs in Hr by done. done.
Qed.
End series_lemmas.

(** ** Running sums *)

Definition flow_key (f : NormalizedTakerFlow) : Z * string * string * Time :=
  series (tf_Meta f) (tf_Period f) (tf_SnapshotTime f).

(** The series value at each flow: the sum so far. *)
Fixpoint running (acc : float64) (l : list (NormalizedTakerFlow * float64))
    : list (NormalizedTakerFlow * float64) :=
  match l with
  | [] => []
  | (f, c) :: rest => (f, fadd acc c) :: running (fadd acc c) rest
  end.

Definition flow_ok (sym : Z) (ex per : string) (fc : NormalizedTakerFlow * float64) : Prop :=
  let '(f, c) := fc in
  src_SymbolID (tf_Meta f) = sym /\ src_Exchange (tf_Meta f) = ex /\ tf_Period f = per /\
  flow_change f = Some c /\ ValidateSource (tf_Meta f) = None /\ tf_SnapshotTime f <> 0 /\ ValidatePeriod per = None /\
  is_lower ex = true.

Definition earlier (a b : NormalizedTakerFlow * float64) : Prop := tf_SnapshotTime (fst a) < tf_SnapshotTime (fst b).

(** No row of the series lies between the flows, except at the time of a flow. *)
Definition no_rows_between (sym : Z) (ex per : string) (tbl : cvd_table) (l : list (NormalizedTakerFlow * float64))
    : Prop :=
  forall t, is_Some (tbl !! (sym, ex, per, t)) ->
    (forall x, x ∈ l -> t < tf_SnapshotTime (fst x)) \/ (exists x, x ∈ l /\ t = tf_SnapshotTime (fst x)) \/
    (forall x, x ∈ l -> tf_SnapshotTime (fst x) < t).

Lemma cvd_upsert_one sym ex per f c prev tbl :
  flow_ok sym ex per (f, c) ->
  upsert cvd_snapshots no_faults [flow_cvd f prev c] tbl =
  (<[ (sym, ex, per, tf_SnapshotTime f) :=
        MkCVD (stored (tf_Meta f)) per (tf_SnapshotTime f) (Some (fadd prev c)) (Some c) (Some c)
          (cv_CVDChangePercent (flow_cvd f prev c)) (tf_TakerBuyVolume f) (tf_TakerSellVolume f) ]> tbl, Ok 1).
Proof.
  intros (<- & <- & <- & _ & Hs & Ht & Hp & Hl). rewrite upsert_no_faults.
  - unfold rows_of, put_all, put. simpl. unfold overwrite, series, flow_cvd. cbn.
    by destruct (tbl !! _).
  - constructor; [|done]. split; [|by intros kr [= <-]]. simpl. unfold ValidateCVD, first_error, ValidateTimestamp. cbn [flow_cvd cv_Meta cv_SnapshotTime cv_Period].
    rewrite Hs, Hp. unfold IsZero. by rewrite (proj2 (Z.eqb_neq _ _) Ht).
Qed.

Lemma no_rows_between_tail sym ex per tbl f c rest r :
  Forall (earlier (f, c)) rest -> no_rows_between sym ex per tbl ((f, c) :: rest) ->
  no_rows_between sym ex per (<[(sym, ex, per, tf_SnapshotTime f) := r]> tbl) rest.
Proof.
  intros He Hn t Ht. rewrite Forall_forall in He.
  destruct (decide (t = tf_SnapshotTime f)) as [->|Hne]; [left; intros x Hx; by apply He|].
  rewrite lookup_insert_ne in Ht by congruence.
  destruct (Hn t Ht) as [Hl|[(x & Hx & ->)|Hg]].
  - left. intros x Hx. apply Hl. by right.
  - right; left. apply elem_of_cons in Hx as [->|Hx]; [done|]. eauto.
  - right; right. intros x Hx. apply Hg. by right.
Qed.

Lemma previous_after_insert sym ex per tbl f c g rest r :
  StronglySorted earlier ((f, c) :: g :: rest) -> no_rows_between sym ex per tbl ((f, c) :: g :: rest) ->
  newest_before (<[(sym, ex, per, tf_SnapshotTime f) := r]> tbl) sym ex per (tf_SnapshotTime (fst g))
  = Some (tf_SnapshotTime f, r).
Proof.
  intros Hso Hn. apply StronglySorted_inv in Hso as [Hso Hf].
  apply StronglySorted_inv in Hso as [_ Hg]. rewrite Forall_forall in Hf, Hg.
  pose proof (Hf g ltac:(by left)) as Hfg. unfold earlier in Hfg. simpl in Hfg.
  apply newest_before_unique; [done|by rewrite lookup_insert_eq|].
  intros t [Hlo Hhi]. rewrite lookup_insert_ne by (intros [=]; lia).
  destruct (tbl !! (sym, ex, per, t)) as [row|] eqn:E; [exfalso|done].
  destruct (Hn t ltac:(by rewrite E)) as [Hl|[(x & Hx & ->)|Hgt]].
  - specialize (Hl (f, c) ltac:(by left)). simpl in Hl. lia.
  - apply elem_of_cons in Hx as [->|Hx]; [simpl in *; lia|].
    apply elem_of_cons in Hx as [->|Hx]; [lia|]. specialize (Hg x Hx). unfold earlier in Hg. lia.
  - specialize (Hgt g ltac:(right; by left)). lia.
Qed.

Lemma cvd_loop_running sym ex per l n tbl count base :
  Forall (flow_ok sym ex per) l -> StronglySorted earlier l -> no_rows_between sym ex per tbl l ->
  (forall x, head l = Some x ->
     previousCVD None tbl sym ex per (tf_SnapshotTime (fst x)) = Ok base) ->
  exists tbl', cvd_loop (fun _ => None) (fun _ => no_faults) n (map fst l) tbl count
               = (tbl', Ok (count + Z.of_nat (length l))) /\
    Forall (fun fv => exists row, tbl' !! flow_key (fst fv) = Some row /\ cv_CVDValue row = Some (snd fv)) (running base l) /\
    (forall k, (forall x, x ∈ l -> flow_key (fst x) <> k) -> tbl' !! k = tbl !! k).
Proof.
  revert n tbl count base. induction l as [|[f c] rest IH]; intros n tbl count base Hok Hso Hn Hb.
  { exists tbl. simpl. rewrite Z.add_0_r. done. }
  apply Forall_cons in Hok as [Hf Hok]. pose proof Hf as (H1 & H2 & H3 & Hc & _).
  cbn [map fst cvd_loop]. rewrite Hc, H1, H2, H3.
  pose proof (Hb (f, c) eq_refl) as Hp. cbn [fst] in Hp. rewrite Hp, (cvd_upsert_one sym ex per f c base tbl Hf).
  set (row := MkCVD _ _ _ _ _ _ _ _ _). set (tbl1 := <[_ := row]> tbl).
  pose proof Hso as [Hso' He]%StronglySorted_inv.
  destruct (IH (S n) tbl1 (count + 1) (fadd base c)) as (tbl' & E & Hall & Hoth).
  - done.
  - done.
  - by eapply no_rows_between_tail.
  - intros x Hx. destruct rest as [|g rest]; [done|]. injection Hx as ->. unfold previousCVD, tbl1.
    rewrite (previous_after_insert sym ex per tbl f c x rest row Hso Hn). done.
  - exists tbl'. split_and!; [by rewrite E; do 2 f_equal; simpl length; lia| |].
    + cbn [running]. constructor; [|done]. exists row. split; [|done]. cbn [fst].
      rewrite Hoth; [unfold flow_key, series; rewrite H1, H2, H3; apply lookup_insert_eq|].
      intros x Hx. rewrite Forall_forall in He. specialize (He x Hx). unfold earlier in He. simpl in He.
      unfold flow_key, series. intros [=]. lia.
    + intros k Hk. rewrite Hoth by (intros x Hx; apply Hk; by right).
      apply lookup_insert_ne. intros <-. apply (Hk (f, c)); [by left|]. unfold flow_key, series. simpl. by rewrite H1, H2, H3.
Qed.

(** ** Interrupted deliveries *)

Lemma newest_before_ext sym ex per tbl tbl' before :
  (forall t, t < before -> tbl !! (sym, ex, per, t) = tbl' !! (sym, ex, per, t)) ->
  newest_before tbl sym ex per before = newest_before tbl' sym ex per before.
Proof.
  intros Hs. pose proof (newest_before_spec sym ex per tbl before) as H1.
  destruct (newest_before tbl sym ex per before) as [[t r]|]; simpl in H1; symmetry.
  - destruct H1 as (Ht & Hr & Hn). apply newest_before_unique; [done|by rewrite <- Hs|].
    intros t' [Hlo Hhi]. rewrite <- Hs by done. destruct (tbl !! (sym, ex, per, t')) eqn:E; [|done].
    specialize (Hn t' Hhi ltac:(by rewrite E)). lia.
  - pose proof (newest_before_spec sym ex per tbl' before) as H2.
    destruct (newest_before tbl' sym ex per before) as [[t r]|]; simpl in H2; [|done].
    destruct H2 as (Ht & Hr & _). by rewrite <- Hs, H1 in Hr.
Qed.

(** The rows of a series, from the value before it. *)
Definition cvd_row (f : NormalizedTakerFlow) (previous change : float64) : NormalizedCVD :=
  MkCVD (stored (tf_Meta f)) (tf_Period f) (tf_SnapshotTime f) (Some (fadd previous change)) (Some change) (Some change)
    (cv_CVDChangePercent (flow_cvd f previous change)) (tf_TakerBuyVolume f) (tf_TakerSellVolume f).

Fixpoint cvd_rows (base : float64) (l : list (NormalizedTakerFlow * float64))
    : list (Z * string * string * Time * NormalizedCVD) :=
  match l with
  | [] => []
  | (f, c) :: rest => (flow_key f, cvd_row f base c) :: cvd_rows (fadd base c) rest
  end.

(** Flows of one series, oldest first and well formed, that no stored row of the series comes
    between, and the newest value stored before them. *)
Record series_ready (sym : Z) (ex per : string) (tbl : cvd_table) (l : list (NormalizedTakerFlow * float64))
    (base : float64) : Prop := {
  sr_flows : Forall (flow_ok sym ex per) l;
  sr_sorted : StronglySorted earlier l;
  sr_between : no_rows_between sym ex per tbl l;
  sr_base : forall x, head l = Some x -> previousCVD None tbl sym ex per (tf_SnapshotTime (fst x)) = Ok base }.

Lemma put_cvd (tbl : cvd_table) k r : put cvd_snapshots tbl (k, r) = <[k := r]> tbl.
Proof. unfold put. by destruct (tbl !! k). Qed.

Lemma put_all_cons {I K R} `{Countable K} (T : table_ops I K R) tbl kr rows :
  put_all T tbl (kr :: rows) = put_all T (put T tbl kr) rows.
Proof. done. Qed.

Lemma put_all_cvd_other (rows : list (Z * string * string * Time * NormalizedCVD)) (tbl : cvd_table) k :
  (forall kr, kr ∈ rows -> fst kr <> k) -> put_all cvd_snapshots tbl rows !! k = tbl !! k.
Proof.
  revert tbl. induction rows as [|[k' r] rows IH]; intros tbl Hk; [done|]. rewrite put_all_cons, IH, put_cvd.
  - apply lookup_insert_ne, (Hk (k', r)). by left.
  - intros kr Hkr. apply Hk. by right.
Qed.

Lemma cvd_rows_key base l kr : kr ∈ cvd_rows base l -> exists x, x ∈ l /\ fst kr = flow_key (fst x).
Proof.
  revert base. induction l as [|[f c] l IH]; intros base; [by intros ?%elem_of_nil|]. cbn [cvd_rows].
  intros [->|Hk]%elem_of_cons; [exists (f, c); split; [by left|done]|].
  destruct (IH _ Hk) as (x & Hx & E). exists x. split; [by right|done].
Qed.

Lemma flow_key_series sym ex per f c : flow_ok sym ex per (f, c) -> flow_key f = (sym, ex, per, tf_SnapshotTime f).
Proof. by intros (<- & <- & <- & _). Qed.

Lemma cvd_upsert_any sym ex per fl f c prev tbl :
  flow_ok sym ex per (f, c) ->
  upsert cvd_snapshots fl [flow_cvd f prev c] tbl = (<[flow_key f := cvd_row f prev c]> tbl, Ok 1) \/
  exists e, upsert cvd_snapshots fl [flow_cvd f prev c] tbl = (tbl, Err e).
Proof.
  intros Hf. pose proof (upsert_atomic cvd_snapshots fl [flow_cvd f prev c] tbl) as Ha.
  destruct (upsert cvd_snapshots fl [flow_cvd f prev c] tbl) as [t [n|e]]; [left|right; subst t; eauto].
  destruct Ha as (_ & -> & ->). f_equal. unfold rows_of. cbn [omap list_omap t_row cvd_snapshots]. rewrite put_all_cons, put_cvd. done.
Qed.

Lemma ready_rest sym ex per tbl f c rest base r :
  cv_CVDValue r = Some (fadd base c) ->
  series_ready sym ex per tbl ((f, c) :: rest) base ->
  series_ready sym ex per (<[flow_key f := r]> tbl) rest (fadd base c).
Proof.
  intros Hv [Hok Hso Hn _]. apply Forall_cons in Hok as [Hf Hok]. pose proof Hso as [Hso' He]%StronglySorted_inv.
  rewrite (flow_key_series _ _ _ _ _ Hf). split; [done|done|by eapply no_rows_between_tail|].
  intros x Hx. destruct rest as [|g rest]; [done|]. injection Hx as ->. unfold previousCVD.
  rewrite (previous_after_insert sym ex per tbl f c x rest r Hso Hn). by rewrite Hv.
Qed.

(** Whatever fails, a delivery writes the rows of the series up to some point; one that succeeds
    writes all of them. *)
Lemma cvd_loop_any sym ex per q fl l n tbl count base :
  series_ready sym ex per tbl l base ->
  exists m, fst (cvd_loop q fl n (map fst l) tbl count) = put_all cvd_snapshots tbl (take m (cvd_rows base l)) /\
    (forall c, snd (cvd_loop q fl n (map fst l) tbl count) = Ok c -> take m (cvd_rows base l) = cvd_rows base l).
Proof.
  revert n tbl count base. induction l as [|[f c] rest IH]; intros n tbl count base Hr.
  { by exists 0%nat. }
  pose proof (sr_flows _ _ _ _ _ _ Hr) as [Hf _]%Forall_cons. pose proof Hf as (H1 & H2 & H3 & Hc & _).
  pose proof (sr_base _ _ _ _ _ _ Hr _ eq_refl) as Hp. cbn [fst] in Hp.
  cbn [map fst cvd_loop]. rewrite Hc, H1, H2, H3.
  destruct (q n) as [e|]; [by exists 0%nat|]. rewrite Hp.
  destruct (cvd_upsert_any sym ex per (fl n) f c base tbl Hf) as [->|[e ->]]; [|by exists 0%nat].
  destruct (IH (S n) (<[flow_key f := cvd_row f base c]> tbl) (count + 1) (fadd base c)) as (m & Hm & Hall).
  { by eapply ready_rest. }
  exists (S m). cbn [cvd_rows take]. rewrite put_all_cons, put_cvd. split; [exact Hm|].
  intros k Hk. by rewrite (Hall k Hk).
Qed.

(** A row of the series, written by an interrupted delivery, does not change what the next one
    starts from. *)
Lemma ready_put sym ex per tbl l base kr :
  series_ready sym ex per tbl l base -> kr ∈ cvd_rows base l ->
  series_ready sym ex per (put cvd_snapshots tbl kr) l base.
Proof.
  intros [Hok Hso Hn Hb] Hkr. destruct kr as [k r]. rewrite put_cvd.
  apply cvd_rows_key in Hkr as ([f c] & Hx & Hk). rewrite Forall_forall in Hok. cbn [fst] in Hk.
  rewrite (flow_key_series _ _ _ _ _ (Hok _ Hx)) in Hk. subst k.
  split; [by apply Forall_forall|done| |].
  - intros t Ht. destruct (decide (t = tf_SnapshotTime f)) as [->|Hne]; [right; left; by exists (f, c)|].
    rewrite lookup_insert_ne in Ht by congruence. by apply Hn.
  - intros x Hh. rewrite <- (Hb x Hh). unfold previousCVD. rewrite (newest_before_ext _ _ _ _ tbl); [done|].
    intros t Ht. apply lookup_insert_ne. intros [= <-]. destruct l as [|z l]; [done|]. injection Hh as ->.
    apply elem_of_cons in Hx as [<-|Hx]; [simpl in Ht; lia|]. apply StronglySorted_inv in Hso as [_ He].
    rewrite Forall_forall in He. specialize (He _ Hx). unfold earlier in He. simpl in He. lia.
Qed.

(** ** Properties *)

(** CVD of taker flows in time order.  When the flows of one series come oldest first, are
    well formed and no other stored row of the series lies between them, the stored series is the
    running sum of their changes from the newest value stored before them, one row per flow, and
    nothing else in the table changes; rows left by an earlier delivery of the same flows do not
    matter, so that a repeated delivery recomputes the same values. *)
Theorem cvd_running_sum sym ex per l tbl base :
  Forall (flow_ok sym ex per) l -> StronglySorted earlier l -> no_rows_between sym ex per tbl l ->
  (forall x, head l = Some x -> previousCVD None tbl sym ex per (tf_SnapshotTime (fst x)) = Ok base) ->
  exists tbl', UpsertCVDFromTakerFlows (fun _ => None) (fun _ => no_faults) (map fst l) tbl
               = (tbl', Ok (Z.of_nat (length l))) /\
    Forall (fun fv => exists row, tbl' !! flow_key (fst fv) = Some row /\ cv_CVDValue row = Some (snd fv)) (running base l) /\
    (forall k, (forall x, x ∈ l -> flow_key (fst x) <> k) -> tbl' !! k = tbl !! k).
Proof. intros H1 H2 H3 H4. unfold UpsertCVDFromTakerFlows. by apply (cvd_loop_running sym ex per l 0 tbl 0 base). Qed.

Definition sample_flow (t : Time) (delta : Z) : NormalizedTakerFlow :=
  MkTakerFlow sample_meta "5m" t None None None None (Some (f64_of_Z delta)) None None.

Lemma cvd_running_sum_witness :
  exists tbl', UpsertCVDFromTakerFlows (fun _ => None) (fun _ => no_faults) [sample_flow 100 5; sample_flow 200 7] ∅
               = (tbl', Ok 2) /\
    (exists row, tbl' !! (7, "binance", "5m", 200) = Some row /\ cv_CVDValue row = Some (f64_of_Z 12)).
Proof.
  destruct (cvd_running_sum 7 "binance" "5m" [(sample_flow 100 5, f64_of_Z 5); (sample_flow 200 7, f64_of_Z 7)] ∅ f64_zero)
    as (tbl' & E & Hall & _).
  - repeat constructor; done.
  - repeat constructor; done.
  - intros t [? Ht]. by rewrite lookup_empty in Ht.
  - intros x [= <-]. done.
  - exists tbl'. split; [exact E|]. apply Forall_cons in Hall as [_ Hall]. apply Forall_cons in Hall as [(row & Hr & Hv) _].
    exists row. split; [exact Hr|]. rewrite Hv. vm_compute. reflexivity.
Defined.

(** flows newest first, the order in which some exchanges list them and which no adapter
    changes, are not accumulated: on an empty table a change of 5 followed by one of 7, delivered
    newest first, is stored as 7 at the later time instead of 12, without an error.  A second
    delivery of the same flows stores 12. *)
Theorem cvd_newest_first :
  let flows := [sample_flow 200 7; sample_flow 100 5] in
  let run := UpsertCVDFromTakerFlows (fun _ => None) (fun _ => no_faults) flows in
  let later (tbl : cvd_table) := tbl !! (7, "binance", "5m", 200) ≫= cv_CVDValue in
  snd (run ∅) = Ok 2 /\ later (fst (run ∅)) = Some (f64_of_Z 7) /\
  later (fst (run (fst (run ∅)))) = Some (f64_of_Z 12).
Proof. vm_compute. done. Qed.
