(* ===== verification/Writer.v ===== *)
(** * Writing results ([internal/collectors/core/writer.go])

    The database tables the collectors write to, the derived rows, and [RepositoryWriter.Write]:
    filter the result, report the issues, upsert what was kept and what is derived from it, one
    transaction per table, stopping at the first error. *)

From Stdlib Require Import Ascii.
From S2P Require Import Prelude GoString GoTime GoFloat GoFloatSign GoError GoJson SchedulerModels Normalizers.
From S2P Require Import Hardening Upsert Repositories Cvd.

(** ** The database *)

Record Db := MkDb {
  db_Issues : (gmap string IssueRow);
  db_MarketSnapshots : (gmap point_key NormalizedMarketSnapshot);
  db_Klines : (gmap series_key NormalizedKline);
  db_OpenInterest : (gmap point_key NormalizedOpenInterest);
  db_OpenInterestHistory : (gmap series_key NormalizedOpenInterest);
  db_Funding : (gmap point_key NormalizedFundingSnapshot);
  db_FundingHistory : (gmap point_key NormalizedFundingHistory);
  db_LongShort : (gmap series_key NormalizedLongShortRatio);
  db_TakerFlows : (gmap series_key NormalizedTakerFlow);
  db_CVD : (gmap series_key NormalizedCVD);
  db_LiquidationEvents : (gmap string NormalizedLiquidationEvent);
  db_LiquidationAggregates : (gmap series_key NormalizedLiquidationAggregate);
  db_Basis : (gmap point_key NormalizedBasisPremium);
  db_Orderbook : (gmap (Z * string * Time * Z) NormalizedOrderbookImbalance);
  db_Divergence : (gmap (Z * string * string * string * Time) NormalizedExchangeDivergence) }.

Definition empty_db : Db := MkDb ∅ ∅ ∅ ∅ ∅ ∅ ∅ ∅ ∅ ∅ ∅ ∅ ∅ ∅ ∅.

Definition set_Issues (d : Db) (t : gmap string IssueRow) : Db :=
  MkDb t (db_MarketSnapshots d) (db_Klines d) (db_OpenInterest d) (db_OpenInterestHistory d) (db_Funding d)
    (db_FundingHistory d) (db_LongShort d) (db_TakerFlows d) (db_CVD d) (db_LiquidationEvents d)
    (db_LiquidationAggregates d) (db_Basis d) (db_Orderbook d) (db_Divergence d).
Definition set_MarketSnapshots (d : Db) (t : gmap point_key NormalizedMarketSnapshot) : Db :=
  MkDb (db_Issues d) t (db_Klines d) (db_OpenInterest d) (db_OpenInterestHistory d) (db_Funding d)
    (db_FundingHistory d) (db_LongShort d) (db_TakerFlows d) (db_CVD d) (db_LiquidationEvents d)
    (db_LiquidationAggregates d) (db_Basis d) (db_Orderbook d) (db_Divergence d).
Definition set_Klines (d : Db) (t : gmap series_key NormalizedKline) : Db :=
  MkDb (db_Issues d) (db_MarketSnapshots d) t (db_OpenInterest d) (db_OpenInterestHistory d) (db_Funding d)
    (db_FundingHistory d) (db_LongShort d) (db_TakerFlows d) (db_CVD d) (db_LiquidationEvents d)
    (db_LiquidationAggregates d) (db_Basis d) (db_Orderbook d) (db_Divergence d).
Definition set_OpenInterest (d : Db) (t : gmap point_key NormalizedOpenInterest) : Db :=
  MkDb (db_Issues d) (db_MarketSnapshots d) (db_Klines d) t (db_OpenInterestHistory d) (db_Funding d)
    (db_FundingHistory d) (db_LongShort d) (db_TakerFlows d) (db_CVD d) (db_LiquidationEvents d)
    (db_LiquidationAggregates d) (db_Basis d) (db_Orderbook d) (db_Divergence d).
Definition set_OpenInterestHistory (d : Db) (t : gmap series_key NormalizedOpenInterest) : Db :=
  MkDb (db_Issues d) (db_MarketSnapshots d) (db_Klines d) (db_OpenInterest d) t (db_Funding d)
    (db_FundingHistory d) (db_LongShort d) (db_TakerFlows d) (db_CVD d) (db_LiquidationEvents d)
    (db_LiquidationAggregates d) (db_Basis d) (db_Orderbook d) (db_Divergence d).
Definition set_Funding (d : Db) (t : gmap point_key NormalizedFundingSnapshot) : Db :=
  MkDb (db_Issues d) (db_MarketSnapshots d) (db_Klines d) (db_OpenInterest d) (db_OpenInterestHistory d) t
    (db_FundingHistory d) (db_LongShort d) (db_TakerFlows d) (db_CVD d) (db_LiquidationEvents d)
    (db_LiquidationAggregates d) (db_Basis d) (db_Orderbook d) (db_Divergence d).
Definition set_FundingHistory (d : Db) (t : gmap point_key NormalizedFundingHistory) : Db :=
  MkDb (db_Issues d) (db_MarketSnapshots d) (db_Klines d) (db_OpenInterest d) (db_OpenInterestHistory d)
    (db_Funding d) t (db_LongShort d) (db_TakerFlows d) (db_CVD d) (db_LiquidationEvents d)
    (db_LiquidationAggregates d) (db_Basis d) (db_Orderbook d) (db_Divergence d).
Definition set_LongShort (d : Db) (t : gmap series_key NormalizedLongShortRatio) : Db :=
  MkDb (db_Issues d) (db_MarketSnapshots d) (db_Klines d) (db_OpenInterest d) (db_OpenInterestHistory d)
    (db_Funding d) (db_FundingHistory d) t (db_TakerFlows d) (db_CVD d) (db_LiquidationEvents d)
    (db_LiquidationAggregates d) (db_Basis d) (db_Orderbook d) (db_Divergence d).
Definition set_TakerFlows (d : Db) (t : gmap series_key NormalizedTakerFlow) : Db :=
  MkDb (db_Issues d) (db_MarketSnapshots d) (db_Klines d) (db_OpenInterest d) (db_OpenInterestHistory d)
    (db_Funding d) (db_FundingHistory d) (db_LongShort d) t (db_CVD d) (db_LiquidationEvents d)
    (db_LiquidationAggregates d) (db_Basis d) (db_Orderbook d) (db_Divergence d).
Definition set_CVD (d : Db) (t : gmap series_key NormalizedCVD) : Db :=
  MkDb (db_Issues d) (db_MarketSnapshots d) (db_Klines d) (db_OpenInterest d) (db_OpenInterestHistory d)
    (db_Funding d) (db_FundingHistory d) (db_LongShort d) (db_TakerFlows d) t (db_LiquidationEvents d)
    (db_LiquidationAggregates d) (db_Basis d) (db_Orderbook d) (db_Divergence d).
Definition set_LiquidationEvents (d : Db) (t : gmap string NormalizedLiquidationEvent) : Db :=
  MkDb (db_Issues d) (db_MarketSnapshots d) (db_Klines d) (db_OpenInterest d) (db_OpenInterestHistory d)
    (db_Funding d) (db_FundingHistory d) (db_LongShort d) (db_TakerFlows d) (db_CVD d) t
    (db_LiquidationAggregates d) (db_Basis d) (db_Orderbook d) (db_Divergence d).
Definition set_LiquidationAggregates (d : Db) (t : gmap series_key NormalizedLiquidationAggregate) : Db :=
  MkDb (db_Issues d) (db_MarketSnapshots d) (db_Klines d) (db_OpenInterest d) (db_OpenInterestHistory d)
    (db_Funding d) (db_FundingHistory d) (db_LongShort d) (db_TakerFlows d) (db_CVD d)
    (db_LiquidationEvents d) t (db_Basis d) (db_Orderbook d) (db_Divergence d).
Definition set_Basis (d : Db) (t : gmap point_key NormalizedBasisPremium) : Db :=
  MkDb (db_Issues d) (db_MarketSnapshots d) (db_Klines d) (db_OpenInterest d) (db_OpenInterestHistory d)
    (db_Funding d) (db_FundingHistory d) (db_LongShort d) (db_TakerFlows d) (db_CVD d)
    (db_LiquidationEvents d) (db_LiquidationAggregates d) t (db_Orderbook d) (db_Divergence d).
Definition set_Orderbook (d : Db) (t : gmap (Z * string * Time * Z) NormalizedOrderbookImbalance) : Db :=
  MkDb (db_Issues d) (db_MarketSnapshots d) (db_Klines d) (db_OpenInterest d) (db_OpenInterestHistory d)
    (db_Funding d) (db_FundingHistory d) (db_LongShort d) (db_TakerFlows d) (db_CVD d)
    (db_LiquidationEvents d) (db_LiquidationAggregates d) (db_Basis d) t (db_Divergence d).
Definition set_Divergence (d : Db) (t : gmap (Z * string * string * string * Time) NormalizedExchangeDivergence) : Db :=
  MkDb (db_Issues d) (db_MarketSnapshots d) (db_Klines d) (db_OpenInterest d) (db_OpenInterestHistory d)
    (db_Funding d) (db_FundingHistory d) (db_LongShort d) (db_TakerFlows d) (db_CVD d)
    (db_LiquidationEvents d) (db_LiquidationAggregates d) (db_Basis d) (db_Orderbook d) t.

(** ** Derived rows *)

Definition deriveOpenInterest (snapshots : list NormalizedMarketSnapshot) : list NormalizedOpenInterest :=
  omap (fun s => match ms_OpenInterest s with
                 | None => None
                 | Some v => Some (MkOpenInterest (ms_Meta s) (ms_SnapshotTime s) "" v None)
                 end) snapshots.

Definition deriveFunding (snapshots : list NormalizedMarketSnapshot) : list NormalizedFundingSnapshot :=
  omap (fun s => match ms_FundingRate s with
                 | None => None
                 | Some v => Some (MkFundingSnapshot (ms_Meta s) (ms_SnapshotTime s) v 0 (ms_MarkPrice s) (ms_IndexPrice s))
                 end) snapshots.

Definition liquidationPeriod (job : Job) : string :=
  if negb (TrimSpace (job_Period job) =? "")%string then TrimSpace (job_Period job) else
  if EqualFold (job_Tier job) TierAll then "5m" else "1m".

Definition liquidationBucketSize (period : string) : Duration :=
  if (norm period =? "5m")%string then 5 * Minute else Minute.

Definition eventUSD (event : NormalizedLiquidationEvent) : float64 :=
  match le_USDValue event, le_Notional event, le_Price event, le_Quantity event with
  | Some v, _, _, _ => v
  | None, Some n, _, _ => n
  | None, None, Some p, Some q => fmul p q
  | _, _, _, _ => f64_zero
  end.

(** Sides of a liquidation: sells close longs; anything that is not one counts as short. *)
Definition is_long_side (side : string) : bool :=
  let side := norm side in (side =? "sell")%string || (side =? "long")%string.

Definition new_aggregate (event : NormalizedLiquidationEvent) (period : string) (bucketTime : Time)
    : NormalizedLiquidationAggregate :=
  MkLiquidationAggregate (le_Meta event) period bucketTime 0 0 f64_zero f64_zero f64_zero f64_zero f64_zero f64_zero
    f64_zero.

Definition add_event (a : NormalizedLiquidationAggregate) (event : NormalizedLiquidationEvent)
    : NormalizedLiquidationAggregate :=
  let usd := eventUSD event in
  let long := is_long_side (le_Side event) in
  MkLiquidationAggregate (la_Meta a) (la_Period a) (la_BucketTime a)
    (if long then la_LongLiquidationCount a + 1 else la_LongLiquidationCount a)
    (if long then la_ShortLiquidationCount a else la_ShortLiquidationCount a + 1)
    (if long then fadd (la_LongLiquidationNotional a) usd else la_LongLiquidationNotional a)
    (if long then la_ShortLiquidationNotional a else fadd (la_ShortLiquidationNotional a) usd)
    (fadd (la_TotalLiquidationNotional a) usd)
    (if long then fadd (la_LongLiquidationUSD a) usd else la_LongLiquidationUSD a)
    (if long then la_ShortLiquidationUSD a else fadd (la_ShortLiquidationUSD a) usd)
    (fadd (la_TotalLiquidationUSD a) usd)
    (if fgt usd (la_LargestLiquidationUSD a) then usd else la_LargestLiquidationUSD a).

Definition bucket_event (period : string) (size : Duration) (buckets : gmap Time NormalizedLiquidationAggregate)
    (event : NormalizedLiquidationEvent) : gmap Time NormalizedLiquidationAggregate :=
  if IsZero (le_EventTime event) || (src_SymbolID (le_Meta event) =? 0) then buckets else
  let bucketTime := Truncate (le_EventTime event) size in
  let aggregate := match buckets !! bucketTime with Some a => a | None => new_aggregate event period bucketTime end in
  <[ bucketTime := add_event aggregate event ]> buckets.

Definition liquidation_buckets (period : string) (events : list NormalizedLiquidationEvent)
    : gmap Time NormalizedLiquidationAggregate :=
  fold_left (bucket_event period (liquidationBucketSize period)) events ∅.

(** The aggregates come out in the order of the map iteration. *)
Definition deriveLiquidationAggregates `{MapOrder} (job : Job) (events : list NormalizedLiquidationEvent)
    : list NormalizedLiquidationAggregate :=
  map snd (iterate (map_to_list (liquidation_buckets (liquidationPeriod job) events))).

(** ** Write *)

(** The repositories a writer has, and its settings. *)
Record RepositoryWriter := MkWriter {
  has_MarketSnapshot : bool; has_Kline : bool; has_OpenInterest : bool; has_Funding : bool; has_Advanced : bool;
  has_Quality : bool; w_LiquidationMinUSD : float64; w_Validation : ValidationConfig }.

(** The transactions of one [Write], each with its own failures. *)
Record WriteFaults := MkWriteFaults {
  wf_tx : nat -> Faults; wf_cvd_query : nat -> option error; wf_cvd_tx : nat -> Faults }.

Definition no_write_faults : WriteFaults := MkWriteFaults (fun _ => no_faults) (fun _ => None) (fun _ => no_faults).

Definition validation (w : RepositoryWriter) : ValidationConfig := effective_config (w_Validation w).

(** [if guard { if _, err := upsert(...); err != nil { return err } }; k]. *)
Definition step {A} (guard : bool) (up : Db -> Db * result error A) (k : Db -> Db * option error) (d : Db)
    : Db * option error :=
  if guard then
    let '(d, r) := up d in
    match r with Err e => (d, Some e) | Ok _ => k d end
  else k d.

(** An upsert into one table of the database. *)
Definition into {I K R} `{Countable K} (get : Db -> gmap K R) (set : Db -> gmap K R -> Db) (T : table_ops I K R)
    (f : Faults) (items : list I) (d : Db) : Db * result error Z :=
  let '(t, r) := upsert T f items (get d) in (set d t, r).

Definition some_rows {A} (l : list A) : bool := match l with [] => false | _ => true end.

(** [RepositoryWriter.Write]: the database after it, and the error it returns.  [now] is the
    writer's clock, [wall] is [time.Now()]. *)
Definition Write `{MapOrder} (w : RepositoryWriter) (f : WriteFaults) (dataType : string) (result : NormalizedResult)
    (job : Job) (now wall : Time) (d : Db) : Db * option error :=
  let '(r, issues) := FilterNormalizedResult dataType result job now wall (validation w) in
  let history := (dataType =? "open_interest_history")%string in
  let oi := has_OpenInterest w in
  let fu := has_Funding w in
  let adv := has_Advanced w in
  let derived_oi := deriveOpenInterest (nr_MarketSnapshots r) in
  let derived_fu := deriveFunding (nr_MarketSnapshots r) in
  let derived_la := deriveLiquidationAggregates job (nr_LiquidationEvents r) in
  let tx := wf_tx f in
  (step (some_rows issues && has_Quality w) (into db_Issues set_Issues (quality_issues wall) (tx 0%nat) issues) $
   step (has_MarketSnapshot w && some_rows (nr_MarketSnapshots r))
     (into db_MarketSnapshots set_MarketSnapshots market_snapshots (tx 1%nat) (nr_MarketSnapshots r)) $
   step (has_Kline w && some_rows (nr_Klines r)) (into db_Klines set_Klines klines (tx 2%nat) (nr_Klines r)) $
   step (oi && some_rows (nr_OpenInterest r) && history)
     (into db_OpenInterestHistory set_OpenInterestHistory open_interest_history (tx 3%nat) (nr_OpenInterest r)) $
   step (oi && some_rows (nr_OpenInterest r) && negb history)
     (into db_OpenInterest set_OpenInterest open_interest_snapshots (tx 4%nat) (nr_OpenInterest r)) $
   step (oi && (dataType =? "open_interest")%string && some_rows derived_oi)
     (into db_OpenInterest set_OpenInterest open_interest_snapshots (tx 5%nat) derived_oi) $
   step (fu && some_rows (nr_FundingSnapshots r))
     (into db_Funding set_Funding funding_snapshots (tx 6%nat) (nr_FundingSnapshots r)) $
   step (fu && some_rows (nr_FundingHistory r))
     (into db_FundingHistory set_FundingHistory funding_history (tx 7%nat) (nr_FundingHistory r)) $
   step (fu && (dataType =? "funding")%string && some_rows derived_fu)
     (into db_Funding set_Funding funding_snapshots (tx 8%nat) derived_fu) $
   step (adv && some_rows (nr_LongShortRatios r))
     (into db_LongShort set_LongShort long_short_ratios (tx 9%nat) (nr_LongShortRatios r)) $
   step (adv && some_rows (nr_TakerFlows r))
     (into db_TakerFlows set_TakerFlows taker_flows (tx 10%nat) (nr_TakerFlows r)) $
   step (adv && some_rows (nr_TakerFlows r))
     (fun d => let '(t, e) := UpsertCVDFromTakerFlows (wf_cvd_query f) (wf_cvd_tx f) (nr_TakerFlows r) (db_CVD d) in
               (set_CVD d t, e)) $
   step (adv && some_rows (nr_CVDSnapshots r)) (into db_CVD set_CVD cvd_snapshots (tx 11%nat) (nr_CVDSnapshots r)) $
   step (adv && some_rows (nr_LiquidationEvents r))
     (into db_LiquidationEvents set_LiquidationEvents (liquidation_events (w_LiquidationMinUSD w)) (tx 12%nat)
        (nr_LiquidationEvents r)) $
   step (adv && some_rows (nr_LiquidationEvents r) && some_rows derived_la)
     (into db_LiquidationAggregates set_LiquidationAggregates liquidation_aggregates (tx 13%nat) derived_la) $
   step (adv && some_rows (nr_LiquidationAggregates r))
     (into db_LiquidationAggregates set_LiquidationAggregates liquidation_aggregates (tx 14%nat)
        (nr_LiquidationAggregates r)) $
   step (adv && some_rows (nr_BasisPremiums r)) (into db_Basis set_Basis basis_premiums (tx 15%nat) (nr_BasisPremiums r)) $
   step (adv && some_rows (nr_OrderbookImbalances r))
     (into db_Orderbook set_Orderbook orderbook_imbalances (tx 16%nat) (nr_OrderbookImbalances r)) $
   step (adv && some_rows (nr_ExchangeDivergences r))
     (into db_Divergence set_Divergence exchange_divergences (tx 17%nat) (nr_ExchangeDivergences r)) $
   (fun d => (d, None))) d.

(** ** The buckets are the groups of the events *)

(** Reference: the events of a bucket, and the aggregate of a group of events in order. *)
Definition counted (e : NormalizedLiquidationEvent) : bool :=
  negb (IsZero (le_EventTime e) || (src_SymbolID (le_Meta e) =? 0)).

Definition bucket_of (size : Duration) (e : NormalizedLiquidationEvent) : Time := Truncate (le_EventTime e) size.

Definition in_bucket (size : Duration) (b : Time) (events : list NormalizedLiquidationEvent)
    : list NormalizedLiquidationEvent :=
  filter (fun e => counted e = true /\ bucket_of size e = b) events.

Definition largest (l : list float64) : float64 := fold_left (fun m x => if fgt x m then x else m) l f64_zero.
Definition total (l : list float64) : float64 := fold_left fadd l f64_zero.

Definition aggregate_of (period : string) (b : Time) (group : list NormalizedLiquidationEvent)
    : option NormalizedLiquidationAggregate :=
  match group with
  | [] => None
  | e :: _ =>
    let longs := filter (fun e => is_long_side (le_Side e) = true) group in
    let shorts := filter (fun e => is_long_side (le_Side e) = false) group in
    Some (MkLiquidationAggregate (le_Meta e) period b (Z.of_nat (length longs)) (Z.of_nat (length shorts))
      (total (map eventUSD longs)) (total (map eventUSD shorts)) (total (map eventUSD group))
      (total (map eventUSD longs)) (total (map eventUSD shorts)) (total (map eventUSD group))
      (largest (map eventUSD group)))
  end.

Lemma fold_snoc {A B} (f : A -> B -> A) l x a : fold_left f (l ++ [x]) a = f (fold_left f l a) x.
Proof. by rewrite fold_left_app. Qed.

Lemma aggregate_of_snoc period b e group x a :
  aggregate_of period b (e :: group) = Some a ->
  aggregate_of period b (e :: group ++ [x]) = Some (add_event a x).
Proof.
  intros [= <-]. unfold aggregate_of, add_event, total, largest.
  cbn [la_Meta la_Period la_BucketTime la_LongLiquidationCount la_ShortLiquidationCount la_LongLiquidationNotional
       la_ShortLiquidationNotional la_TotalLiquidationNotional la_LongLiquidationUSD la_ShortLiquidationUSD
       la_TotalLiquidationUSD la_LargestLiquidationUSD].
  change (e :: group ++ [x]) with ((e :: group) ++ [x]). set (l := e :: group).
  rewrite !filter_app, !filter_cons, !filter_nil, !map_app. simpl (map eventUSD [x]). rewrite !fold_snoc.
  destruct (is_long_side (le_Side x)) eqn:Ex.
  - rewrite decide_True, decide_False by done. simpl (map eventUSD [x]). rewrite !fold_snoc, !app_nil_r, !length_app.
    do 2 f_equal; simpl length; lia.
  - rewrite decide_False, decide_True by done. simpl (map eventUSD [x]). rewrite !fold_snoc, !app_nil_r, !length_app.
    do 2 f_equal; simpl length; lia.
Qed.

Lemma aggregate_of_first period b e :
  aggregate_of period b [e] = Some (add_event (new_aggregate e period b) e).
Proof.
  unfold aggregate_of, add_event, new_aggregate, total, largest. cbn [la_Meta la_Period la_BucketTime].
  rewrite !filter_cons, !filter_nil. destruct (is_long_side (le_Side e)) eqn:Ex.
  - rewrite decide_True, decide_False by done. done.
  - rewrite decide_False, decide_True by done. done.
Qed.

Lemma bucket_fold_lookup period size events b :
  fold_left (bucket_event period size) events ∅ !! b = aggregate_of period b (in_bucket size b events).
Proof.
  induction events as [|x events IH] using rev_ind; [done|].
  rewrite fold_snoc. unfold bucket_event at 1. unfold in_bucket in *. rewrite filter_app, filter_cons, filter_nil.
  destruct (IsZero (le_EventTime x) || (src_SymbolID (le_Meta x) =? 0)) eqn:Ez.
  { rewrite IH, decide_False, app_nil_r; [done|]. unfold counted. rewrite Ez. by intros [? _]. }
  destruct (decide (bucket_of size x = b)) as [<-|Hb].
  - rewrite lookup_insert_eq, decide_True by (unfold counted; rewrite Ez; done). fold (bucket_of size x). rewrite IH.
    destruct (filter _ events) as [|e group] eqn:Eg.
    + symmetry. exact (aggregate_of_first period _ x).
    + destruct (aggregate_of period (bucket_of size x) (e :: group)) as [a|] eqn:Ea; [|done].
      symmetry. by apply aggregate_of_snoc.
  - rewrite lookup_insert_ne by done. rewrite decide_False by (intros [_ ?]; done). by rewrite app_nil_r, IH.
Qed.

Definition event_count (a : NormalizedLiquidationAggregate) : Z := la_LongLiquidationCount a + la_ShortLiquidationCount a.
Definition count_all (m : gmap Time NormalizedLiquidationAggregate) : Z :=
  sum_Z (map (fun kv => event_count (snd kv)) (map_to_list m)).

Lemma count_all_insert m b a :
  count_all (<[b := a]> m) = event_count a + count_all (delete b m).
Proof.
  unfold count_all. rewrite <- insert_delete_eq, map_to_list_insert by apply lookup_delete_eq. done.
Qed.

Lemma count_all_delete m b :
  count_all m = match m !! b with Some a => event_count a | None => 0 end + count_all (delete b m).
Proof.
  destruct (m !! b) as [a|] eqn:E.
  - rewrite <- (insert_id m b a E) at 1. by rewrite count_all_insert.
  - by rewrite delete_id.
Qed.

Lemma event_count_add a e : event_count (add_event a e) = event_count a + 1.
Proof. unfold event_count, add_event. simpl. destruct (is_long_side (le_Side e)); lia. Qed.

Lemma count_all_buckets period size events :
  count_all (fold_left (bucket_event period size) events ∅)
  = Z.of_nat (length (filter (fun e => counted e = true) events)).
Proof.
  induction events as [|x events IH] using rev_ind; [done|].
  rewrite fold_snoc, filter_app, filter_cons, filter_nil, length_app. unfold bucket_event at 1.
  destruct (IsZero (le_EventTime x) || (src_SymbolID (le_Meta x) =? 0)) eqn:Ez.
  { rewrite decide_False by (unfold counted; rewrite Ez; done). simpl. rewrite Nat.add_0_r. exact IH. }
  rewrite decide_True by (unfold counted; rewrite Ez; done). rewrite count_all_insert, event_count_add.
  set (m := fold_left (bucket_event period size) events ∅) in *. simpl length.
  rewrite Nat2Z.inj_add, <- IH, (count_all_delete m (Truncate (le_EventTime x) size)).
  destruct (m !! Truncate (le_EventTime x) size); [lia|]. unfold event_count, new_aggregate. simpl. lia.
Qed.

(** liquidation aggregates are the groups of the events.  For every map order, the aggregates
    derived from a batch are exactly one per non-empty bucket, at distinct bucket times; each has
    the counts, sums and maximum of the events of its bucket, split by side; and their counts add
    up to the number of events that have a time and a symbol. *)
Theorem deriveLiquidationAggregates_spec `{MapOrder} job events :
  let period := liquidationPeriod job in
  let size := liquidationBucketSize period in
  let l := deriveLiquidationAggregates job events in
  (forall a, a ∈ l <-> exists b, aggregate_of period b (in_bucket size b events) = Some a) /\
  NoDup (map la_BucketTime l) /\
  sum_Z (map event_count l) = Z.of_nat (length (filter (fun e => counted e = true) events)).
Proof.
  intros period size l.
  assert (l ≡ₚ map snd (map_to_list (liquidation_buckets period events))) as Hl.
  { unfold l, deriveLiquidationAggregates. by rewrite iterate_perm. }
  assert (forall b a, liquidation_buckets period events !! b = Some a ->
            aggregate_of period b (in_bucket size b events) = Some a) as Hb.
  { intros b a Ha. unfold liquidation_buckets in Ha. by rewrite bucket_fold_lookup in Ha. }
  split_and!.
  - intros a. rewrite Hl. rewrite list_elem_of_fmap. split.
    + intros ([b a'] & -> & Hin%elem_of_map_to_list). eauto.
    + intros (b & Ha). exists (b, a). split; [done|]. apply elem_of_map_to_list.
      unfold liquidation_buckets. by rewrite bucket_fold_lookup.
  - rewrite Hl, map_map.
    rewrite (map_ext_in _ fst); [apply NoDup_fst_map_to_list|].
    intros [b a] Hin%list_elem_of_In%elem_of_map_to_list%Hb. simpl in *. unfold aggregate_of in Hin.
    destruct (in_bucket size b events); [done|]. by injection Hin as <-.
  - rewrite Hl, map_map. apply count_all_buckets.
Qed.

(** ** What the filter keeps can be written *)

Definition fgood (x : float64) : Prop := fvalid x /\ flt x f64_zero = false.

Lemma fgood_cases x : fgood x <-> fvalid x /\ (x = S754_nan \/ nonneg x = true).
Proof. unfold fgood. destruct x as [[]|[]| |[]]; naive_solver. Qed.

Lemma fgood_add x y : fgood x -> fgood y -> fgood (fadd x y).
Proof.
  rewrite !fgood_cases. intros [Vx [->|Nx]] [Vy [->|Ny]].
  - split; [done|]. by left.
  - split; [done|]. by left.
  - destruct x as [[]|[]| |[]]; split; try done; by left.
  - destruct (fadd_nonneg x y); auto.
Qed.

Lemma fgood_mul x y : fgood x -> fgood y -> fgood (fmul x y).
Proof.
  rewrite !fgood_cases. intros [Vx [->|Nx]] [Vy [->|Ny]].
  - split; [done|]. by left.
  - split; [done|]. by left.
  - destruct x as [[]|[]| |[]]; split; try done; by left.
  - destruct (is_inf x) eqn:Ix; [|destruct (is_inf y) eqn:Iy].
    + destruct x as [[]|[]| |[]], y as [[]|[]| |[]]; split; auto; done.
    + destruct x as [[]|[]| |[]], y as [[]|[]| |[]]; split; auto; done.
    + destruct (fmul_nonneg x y); auto.
Qed.

Lemma fgood_zero : fgood f64_zero.
Proof. done. Qed.
#[local] Hint Resolve fgood_add fgood_mul fgood_zero : golib.

Definition opt_valid (o : option float64) : Prop := match o with Some v => fvalid v | None => True end.

(** An event as it comes from an exchange: its numbers are floats, its time is not within the
    first minutes of year 1. *)
Definition event_sane (e : NormalizedLiquidationEvent) : Prop :=
  opt_valid (le_Price e) /\ opt_valid (le_Quantity e) /\ opt_valid (le_Notional e) /\ opt_valid (le_USDValue e) /\
  5 * Minute <= le_EventTime e.

Lemma optional_good n o : opt_valid o -> ValidateOptionalNonNegative n o = None -> forall v, o = Some v -> fgood v.
Proof.
  intros Hv Hn v ->. simpl in *. unfold ValidateNonNegative in Hn. split; [done|]. by destruct (flt v f64_zero).
Qed.

Lemma eventUSD_good e :
  event_sane e -> ValidateLiquidationEvent e = None -> fgood (eventUSD e).
Proof.
  intros (Hp & Hq & Hn & Hu & _) Hv. apply first_error_None in Hv.
  repeat (apply Forall_cons in Hv as [? Hv]).
  pose proof (optional_good _ _ Hp H3). pose proof (optional_good _ _ Hq H4).
  pose proof (optional_good _ _ Hn H5). pose proof (optional_good _ _ Hu H6).
  unfold eventUSD. destruct (le_USDValue e), (le_Notional e), (le_Price e), (le_Quantity e); eauto with golib.
Qed.

(** The numbers of an aggregate. *)
Definition aggregate_good (a : NormalizedLiquidationAggregate) : Prop :=
  Forall fgood [la_LongLiquidationNotional a; la_ShortLiquidationNotional a; la_TotalLiquidationNotional a;
    la_LongLiquidationUSD a; la_ShortLiquidationUSD a; la_TotalLiquidationUSD a; la_LargestLiquidationUSD a].

Lemma fold_good (f : float64 -> float64 -> float64) l acc :
  (forall x y, fgood x -> fgood y -> fgood (f x y)) -> fgood acc -> Forall fgood l -> fgood (fold_left f l acc).
Proof. intros Hf Ha Hl. revert acc Ha. induction Hl as [|x l Hx Hl IH]; intros acc Ha; simpl; auto. Qed.

Lemma total_good l : Forall fgood l -> fgood (total l).
Proof. apply fold_good; auto with golib. Qed.

Lemma largest_good l : Forall fgood l -> fgood (largest l).
Proof. apply fold_good; [|done]. intros x y Hx Hy. by destruct (fgt y x). Qed.

Lemma filter_good (P : NormalizedLiquidationEvent -> Prop) `{!forall x, Decision (P x)} group :
  Forall (fun e => fgood (eventUSD e)) group -> Forall fgood (map eventUSD (filter P group)).
Proof.
  intros Hg. apply Forall_map, Forall_forall. intros x [_ Hx]%list_elem_of_filter. rewrite Forall_forall in Hg. auto.
Qed.

Lemma required_good `{MapOrder} l : Forall (fun nv => fgood (snd nv)) l -> required l = None.
Proof.
  intros Hg. unfold required, optionals. apply check_map_None. apply Forall_map. eapply Forall_impl; [exact Hg|].
  intros [n v] [_ Hv]. simpl in *. unfold ValidateNonNegative. by rewrite Hv.
Qed.

Lemma Truncate_pos t d : 0 < d -> d <= t -> 0 < Truncate t d.
Proof.
  intros Hd Ht. unfold Truncate. rewrite (proj2 (Z.leb_gt d 0)) by done.
  pose proof (Z.mod_pos_bound t d Hd). lia.
Qed.

Lemma bucket_size_bounds p : 0 < liquidationBucketSize p <= 5 * Minute.
Proof. unfold liquidationBucketSize. case_match; unfold Minute, Second; lia. Qed.

Lemma derived_aggregate_valid `{MapOrder} job events a :
  ValidatePeriod (liquidationPeriod job) = None ->
  Forall (fun e => event_sane e /\ ValidateLiquidationEvent e = None) events ->
  a ∈ deriveLiquidationAggregates job events -> ValidateLiquidationAggregate a = None.
Proof.
  intros Hp Hev Ha. unfold deriveLiquidationAggregates in Ha. rewrite iterate_perm in Ha.
  apply list_elem_of_fmap in Ha as ([b a'] & -> & Hin%elem_of_map_to_list).
  unfold liquidation_buckets in Hin. rewrite bucket_fold_lookup in Hin. simpl.
  set (size := liquidationBucketSize (liquidationPeriod job)) in *.
  assert (Forall (fun e => (event_sane e /\ ValidateLiquidationEvent e = None) /\ bucket_of size e = b)
            (in_bucket size b events)) as Hg.
  { apply Forall_forall. intros e [[_ Hb] He]%list_elem_of_filter. rewrite Forall_forall in Hev. auto. }
  destruct (in_bucket size b events) as [|e group] eqn:Eg; [done|]. injection Hin as <-.
  assert (Forall (fun e => fgood (eventUSD e)) (e :: group)) as Hgood.
  { eapply Forall_impl; [exact Hg|]. intros x [[Hs Hv] _]. by apply eventUSD_good. }
  apply Forall_cons in Hg as [[[(_ & _ & _ & _ & Ht) Hv] Hb] _].
  apply first_error_None in Hv. apply Forall_cons in Hv as [Hsrc _].
  apply first_error_None. repeat constructor; cbn [la_Meta la_BucketTime la_Period].
  - exact Hsrc.
  - unfold ValidateTimestamp, IsZero. rewrite (proj2 (Z.eqb_neq b 0)); [done|]. rewrite <- Hb. unfold bucket_of.
    pose proof (bucket_size_bounds (liquidationPeriod job)) as Hsz. fold size in Hsz.
    pose proof (Truncate_pos (le_EventTime e) size). lia.
  - exact Hp.
  - apply required_good. pose proof (filter_good (fun e => is_long_side (le_Side e) = true) _ Hgood).
    pose proof (filter_good (fun e => is_long_side (le_Side e) = false) _ Hgood).
    assert (Forall fgood (map eventUSD (e :: group))) by (by apply Forall_map).
    repeat constructor; cbn [snd la_LongLiquidationNotional la_ShortLiquidationNotional la_TotalLiquidationNotional
      la_LongLiquidationUSD la_ShortLiquidationUSD la_TotalLiquidationUSD la_LargestLiquidationUSD];
      first [apply total_good | apply largest_good]; done.
Qed.

Lemma first_failure_all cs : first_failure cs = None <-> Forall (fun c => snd c = None) cs.
Proof.
  induction cs as [|[t e] cs IH]; [done|]. rewrite first_failure_cons, Forall_cons, IH. done.
Qed.

Lemma optionals_None `{MapOrder} l n v : optionals l = None -> (n, v) ∈ l -> ValidateOptionalNonNegative n v = None.
Proof.
  intros Ho Hin. unfold optionals in Ho. rewrite check_map_None, Forall_forall in Ho. exact (Ho _ Hin).
Qed.

Lemma derived_oi_valid `{MapOrder} snapshots :
  Forall (fun s => ValidateMarketSnapshot s = None) snapshots ->
  Forall (fun x => ValidateOpenInterest x false = None) (deriveOpenInterest snapshots).
Proof.
  intros Hs. apply Forall_forall. intros x (s & Hin & Hx)%list_elem_of_omap. rewrite Forall_forall in Hs.
  specialize (Hs s Hin). apply first_error_None in Hs. do 3 (apply Forall_cons in Hs as [? Hs]).
  destruct (ms_OpenInterest s) as [v|] eqn:Ev; [|done]. injection Hx as <-.
  apply first_error_None. repeat constructor; [done|done|].
  apply (optionals_None _ "open_interest" (Some v)) in H2; [exact H2|]. rewrite <- Ev. set_solver.
Qed.

Lemma derived_funding_valid `{MapOrder} snapshots :
  Forall (fun s => ValidateMarketSnapshot s = None) snapshots ->
  Forall (fun x => ValidateFundingSnapshot x = None) (deriveFunding snapshots).
Proof.
  intros Hs. apply Forall_forall. intros x (s & Hin & Hx)%list_elem_of_omap. rewrite Forall_forall in Hs.
  specialize (Hs s Hin). apply first_error_None in Hs. do 4 (apply Forall_cons in Hs as [? Hs]).
  destruct (ms_FundingRate s) as [v|] eqn:Ev; [|done]. injection Hx as <-.
  apply first_error_None. repeat constructor; [done|done|done|..];
    cbn [fs_MarkPrice fs_IndexPrice].
  - apply (optionals_None _ "mark_price" (ms_MarkPrice s)) in H2; [exact H2|]. set_solver.
  - apply (optionals_None _ "index_price" (ms_IndexPrice s)) in H2; [exact H2|]. set_solver.
Qed.

Lemma cvd_loop_total `{MapOrder} flows n tbl count :
  Forall (fun x => ValidateTakerFlow x = None /\ lower_exchange (tf_Meta x) = true) flows ->
  exists tbl' c, cvd_loop (fun _ => None) (fun _ => no_faults) n flows tbl count = (tbl', Ok c).
Proof.
  intros Hf. revert n tbl count. induction Hf as [|x flows [Hx Hl] Hf IH]; intros n tbl count; [by eexists _, _|].
  cbn [cvd_loop]. destruct (flow_change x) as [c|]; [|apply IH]. unfold previousCVD.
  set (prev := match newest_before _ _ _ _ _ with Some _ => _ | None => _ end).
  rewrite upsert_no_faults; [apply IH|]. constructor; [|done]. split; [|by intros kr [= <-]]. simpl.
  apply first_error_None in Hx. apply first_error_None. do 3 (apply Forall_cons in Hx as [? Hx]).
  by repeat constructor.
Qed.

Lemma step_ok {A} guard (up : Db -> Db * result error A) k d :
  (guard = true -> forall d, exists d' c, up d = (d', Ok c)) -> (forall d', snd (k d') = None) ->
  snd (step guard up k d) = None.
Proof.
  intros Hu Hk. unfold step. destruct guard; [|apply Hk]. destruct (Hu eq_refl d) as (d' & c & ->). apply Hk.
Qed.

Lemma into_ok {I K R} `{Countable K} get set (T : table_ops I K R) items :
  Forall (accepted T) items ->
  forall d, exists d' c, into get set T no_faults items d = (d', Ok c).
Proof. intros Hf d. unfold into. rewrite upsert_no_faults by done. by eexists _, _. Qed.

(** What holds of the result of a step that succeeds and of what follows it. *)
Lemma step_through {A B} (P : Db * option error -> Prop) (keep : Db -> B) guard (up : Db -> Db * result error A) k d :
  (guard = true -> exists d' c, up d = (d', Ok c) /\ keep d' = keep d) ->
  (forall d', keep d' = keep d -> P (k d')) -> P (step guard up k d).
Proof.
  intros Hu Hk. unfold step. destruct guard; [|by apply Hk]. destruct (Hu eq_refl) as (d' & c & -> & E). by apply Hk.
Qed.

Lemma into_keeps {B} (keep : Db -> B) {I K R} `{Countable K} get set (T : table_ops I K R) items d :
  Forall (accepted T) items -> (forall d t, keep (set d t) = keep d) ->
  exists d' c, into get set T no_faults items d = (d', Ok c) /\ keep d' = keep d.
Proof. intros Hf Hk. unfold into. rewrite upsert_no_faults by done. eexists _, _. by split; [|apply Hk]. Qed.

Lemma kept_validated {A} prep meta (checks : A -> list (string * option error)) issue items (V : A -> option error) :
  (forall x, exists t, (t, V x) ∈ checks x) ->
  Forall (fun x => V x = None) (fst (filter_loop prep meta checks issue items)).
Proof.
  intros Hc. apply filter_loop_kept. intros x Hx. rewrite first_failure_all, Forall_forall in Hx.
  destruct (Hc x) as [t Ht]. exact (Hx _ Ht).
Qed.

Ltac validated :=
  solve [apply kept_validated; intros x; eexists; simpl; repeat (first [left; reflexivity | right])].

(** The rows that may be written: valid, and with the exchange in lower case. *)
Lemma kept_lower {A} prep meta (checks : A -> list (string * option error)) issue items (V : A -> option error) :
  (forall x, exists t, (t, V x) ∈ checks x) -> (forall x, meta (prep x) = meta x) ->
  Forall (fun x => lower_exchange (meta x) = true) items ->
  Forall (fun x => V x = None /\ lower_exchange (meta x) = true) (fst (filter_loop prep meta checks issue items)).
Proof.
  intros Hc Hm Hl. apply Forall_and. split; [by apply kept_validated|].
  rewrite filter_loop_valid. apply Forall_forall. intros x [_ Hx]%list_elem_of_filter.
  apply list_elem_of_fmap in Hx as (y & -> & Hy). rewrite Hm. rewrite Forall_forall in Hl. auto.
Qed.

Lemma accept {I K R} `{Countable K} (T : table_ops I K R) (P : I -> Prop) items :
  (forall x, P x -> accepted T x) -> Forall P items -> Forall (accepted T) items.
Proof. intros Hp Hf. eapply Forall_impl; eauto. Qed.

Lemma filter_loop_issues {A} prep meta (checks : A -> list (string * option error)) issue items (P : QualityIssue -> Prop) :
  (forall t e m, P (issue t e m)) -> Forall P (snd (filter_loop prep meta checks issue items)).
Proof.
  intros Hp. induction items as [|x items IH]; [done|]. cbn [filter_loop].
  destruct (filter_loop prep meta checks issue items) as [v i]. simpl in IH.
  destruct (first_failure (checks (prep x))) as [[t e]|]; simpl; [by constructor|done].
Qed.

Lemma issue_accepted dataType job now wall t e m : accepted (quality_issues wall) (issue_of dataType job now t e m).
Proof.
  split; [done|]. intros kr [= <-].
  cbn [snd ir_Issue qi_Exchange qi_Severity issue_of qualityIssue t_check quality_issues]. unfold is_lower, norm.
  by rewrite ToLower_idem, String.eqb_refl.
Qed.

Lemma event_key_meta x : le_Meta (with_event_key x) = le_Meta x.
Proof. unfold with_event_key. by case_match. Qed.

(** The exchanges of a result are named in lower case, also where two are compared. *)
Definition lower_names (r : NormalizedResult) : Prop :=
  Forall (fun mt => lower_exchange (fst mt) = true) (result_rows r) /\
  Forall (fun x => is_lower (ed_ReferenceExchange x) = true /\ is_lower (ed_ComparedExchange x) = true)
    (nr_ExchangeDivergences r).

(** The events worth a row whose side the table does not allow. *)
Definition refused_event (w : RepositoryWriter) (e : NormalizedLiquidationEvent) : bool :=
  negb (flt (liquidationUSD e) (w_LiquidationMinUSD w)) && negb (allowed_side (le_Side e)).

Lemma event_accepted w e :
  ValidateLiquidationEvent e = None -> lower_exchange (le_Meta e) = true -> refused_event w e = false ->
  accepted (liquidation_events (w_LiquidationMinUSD w)) e.
Proof.
  intros Hv Hl Hr. split; [exact Hv|]. unfold refused_event in Hr. cbn [t_row liquidation_events].
  destruct (flt (liquidationUSD e) (w_LiquidationMinUSD w)); [done|]. cbn in Hr. apply negb_false_iff in Hr.
  intros kr [= <-]. cbn [snd t_check liquidation_events le_Meta le_Side]. apply andb_true_iff. by split.
Qed.

Lemma event_refused w e :
  refused_event w e = true ->
  exists kr, t_row (liquidation_events (w_LiquidationMinUSD w)) e = Some kr /\
    t_check (liquidation_events (w_LiquidationMinUSD w)) (snd kr) = false.
Proof.
  unfold refused_event. intros [Hm Hs]%andb_true_iff. apply negb_true_iff in Hm, Hs. cbn [t_row liquidation_events]. rewrite Hm.
  eexists. split; [done|]. cbn [snd t_check liquidation_events le_Side]. by rewrite Hs, andb_false_r.
Qed.

Lemma kept_events `{MapOrder} job now cfg issue events :
  Forall event_sane events -> Forall (fun e => lower_exchange (le_Meta e) = true) events ->
  Forall (fun e => event_sane e /\ ValidateLiquidationEvent e = None /\ lower_exchange (le_Meta e) = true)
    (fst (filter_loop with_event_key le_Meta (checks_event job now cfg) issue events)).
Proof.
  intros Hs Hl. apply Forall_and. split.
  - rewrite filter_loop_valid. apply Forall_forall. intros x [_ Hx]%list_elem_of_filter.
    apply list_elem_of_fmap in Hx as (e & -> & He). rewrite Forall_forall in Hs. specialize (Hs e He).
    unfold with_event_key. by case_match.
  - apply kept_lower; [|apply event_key_meta|done]. intros x; eexists; simpl; repeat (first [left; reflexivity | right]).
Qed.

Lemma derived_lower `{MapOrder} job events a :
  Forall (fun e => lower_exchange (le_Meta e) = true) events ->
  a ∈ deriveLiquidationAggregates job events -> lower_exchange (la_Meta a) = true.
Proof.
  intros Hl Ha. apply deriveLiquidationAggregates_spec in Ha as (b & Hb). unfold aggregate_of in Hb.
  destruct (in_bucket _ b events) as [|e group] eqn:E; [done|]. injection Hb as <-. cbn [la_Meta].
  assert (e ∈ in_bucket (liquidationBucketSize (liquidationPeriod job)) b events) as He by (rewrite E; by left).
  apply list_elem_of_filter in He as [_ He]. rewrite Forall_forall in Hl. auto.
Qed.

Lemma or_aggregate_lower s : is_lower s = true -> is_lower (or_aggregate s) = true.
Proof. unfold or_aggregate. by destruct (s =? "")%string. Qed.

Lemma fillBasisValues_meta x : bp_Meta (fillBasisValues x) = bp_Meta x.
Proof. unfold fillBasisValues. by case_match. Qed.

(** Everything [Write] upserts but the liquidation events is accepted, and they are when none of
    them is refused. *)
Section total.
Context `{MapOrder} (w : RepositoryWriter) (dataType : string) (result : NormalizedResult) (job : Job) (now wall : Time).
Hypothesis (Hp : ValidatePeriod (liquidationPeriod job) = None)
  (Hev : Forall event_sane (nr_LiquidationEvents result)) (Hlow : lower_names result).

Let clock := if IsZero now then wall else now.
Let cfg := effective_config (validation w).
Let valid := fst (FilterNormalizedResult dataType result job now wall (validation w)).

Record writable : Prop := {
  wr_issues : Forall (accepted (quality_issues wall)) (snd (FilterNormalizedResult dataType result job now wall (validation w)));
  wr_snapshots : Forall (accepted market_snapshots) (nr_MarketSnapshots valid);
  wr_klines : Forall (accepted klines) (nr_Klines valid);
  wr_history : (dataType =? "open_interest_history")%string = true -> Forall (accepted open_interest_history) (nr_OpenInterest valid);
  wr_oi : (dataType =? "open_interest_history")%string = false -> Forall (accepted open_interest_snapshots) (nr_OpenInterest valid);
  wr_derived_oi : Forall (accepted open_interest_snapshots) (deriveOpenInterest (nr_MarketSnapshots valid));
  wr_funding : Forall (accepted funding_snapshots) (nr_FundingSnapshots valid);
  wr_funding_history : Forall (accepted funding_history) (nr_FundingHistory valid);
  wr_derived_funding : Forall (accepted funding_snapshots) (deriveFunding (nr_MarketSnapshots valid));
  wr_long_short : Forall (accepted long_short_ratios) (nr_LongShortRatios valid);
  wr_taker : Forall (accepted taker_flows) (nr_TakerFlows valid);
  wr_flows : Forall (fun x => ValidateTakerFlow x = None /\ lower_exchange (tf_Meta x) = true) (nr_TakerFlows valid);
  wr_cvd : Forall (accepted cvd_snapshots) (nr_CVDSnapshots valid);
  wr_events : Forall (fun e => ValidateLiquidationEvent e = None /\ lower_exchange (le_Meta e) = true) (nr_LiquidationEvents valid);
  wr_derived : Forall (accepted liquidation_aggregates) (deriveLiquidationAggregates job (nr_LiquidationEvents valid));
  wr_aggregates : Forall (accepted liquidation_aggregates) (nr_LiquidationAggregates valid);
  wr_basis : Forall (accepted basis_premiums) (nr_BasisPremiums valid);
  wr_orderbook : Forall (accepted orderbook_imbalances) (nr_OrderbookImbalances valid);
  wr_divergence : Forall (accepted exchange_divergences) (nr_ExchangeDivergences valid) }.

Ltac in_checks := intros x; eexists; simpl; repeat (first [left; reflexivity | right]).
Ltac kept_rows :=
  lazymatch goal with |- Forall (accepted ?T) (fst (filter_loop ?p ?m _ _ _)) =>
    apply (accept T (fun x => t_validate T x = None /\ lower_exchange (m x) = true));
    [intros x [Hv Hl]; split; [exact Hv|intros kr [= <-]; exact Hl]|apply kept_lower; [in_checks|done|done]]
  end.

Lemma Write_writable : writable.
Proof.
  destruct Hlow as [Hm Hd]. unfold result_rows in Hm. rewrite !Forall_app, !Forall_map in Hm. cbn [fst] in Hm.
  destruct Hm as (M1 & M2 & M3 & M4 & M5 & M6 & M7 & M8 & M9 & M10 & M11 & M12 & M13).
  pose proof (kept_events job clock cfg (issue_of dataType job clock) _ Hev M9) as Hk.
  assert (Forall (fun s => ValidateMarketSnapshot s = None /\ lower_exchange (ms_Meta s) = true)
    (fst (filter_loop id ms_Meta (checks_snapshot job clock cfg) (issue_of dataType job clock) (nr_MarketSnapshots result))))
    as Hms by (apply kept_lower; [in_checks|done|done]).
  assert (forall b, (dataType =? "open_interest_history")%string = b ->
    Forall (fun x => ValidateOpenInterest x b = None /\ lower_exchange (oi_Meta x) = true)
    (fst (filter_loop id oi_Meta (checks_open_interest dataType job clock cfg) (issue_of dataType job clock)
       (nr_OpenInterest result)))) as Hoi by (intros b <-; apply kept_lower; [in_checks|done|done]).
  pose proof Hms as Hms'. apply Forall_and in Hms' as [Hmv Hml].
  split; unfold valid, FilterNormalizedResult; rewrite filter_result_eq; cbn [fst snd]; result_fields.
  - rewrite !Forall_app. split_and!; apply filter_loop_issues; intros; apply issue_accepted.
  - eapply accept; [|exact Hms]. intros x [Hv Hl]. split; [exact Hv|by intros kr [= <-]].
  - kept_rows.
  - intros Hh. eapply accept; [|exact (Hoi _ Hh)]. intros x [Hv Hl]. split; [exact Hv|by intros kr [= <-]].
  - intros Hh. eapply accept; [|exact (Hoi _ Hh)]. intros x [Hv Hl]. split; [exact Hv|by intros kr [= <-]].
  - pose proof (derived_oi_valid _ Hmv) as Hdv. rewrite Forall_forall in Hdv |- *. intros x Hx. split; [by apply Hdv|].
    intros kr [= <-]. apply list_elem_of_omap in Hx as (s & Hs & E). rewrite Forall_forall in Hml. specialize (Hml s Hs).
    destruct (ms_OpenInterest s); [|done]. by injection E as <-.
  - kept_rows.
  - kept_rows.
  - pose proof (derived_funding_valid _ Hmv) as Hdv. rewrite Forall_forall in Hdv |- *. intros x Hx. split; [by apply Hdv|].
    intros kr [= <-]. apply list_elem_of_omap in Hx as (s & Hs & E). rewrite Forall_forall in Hml. specialize (Hml s Hs).
    destruct (ms_FundingRate s); [|done]. by injection E as <-.
  - kept_rows.
  - kept_rows.
  - apply kept_lower; [in_checks|done|done].
  - kept_rows.
  - eapply Forall_impl; [exact Hk|]. by intros e (_ & ? & ?).
  - apply Forall_forall. intros a Ha. split.
    + eapply derived_aggregate_valid; [exact Hp| |exact Ha]. eapply Forall_impl; [exact Hk|]. by intros e (? & ? & _).
    + intros kr [= <-]. cbn [snd t_check liquidation_aggregates la_Meta]. change (lower_exchange (la_Meta a) = true).
      eapply derived_lower; [|exact Ha]. eapply Forall_impl; [exact Hk|]. by intros e (_ & _ & ?).
  - kept_rows.
  - apply (accept _ (fun x => ValidateBasisPremium x = None /\ lower_exchange (bp_Meta x) = true));
      [|apply kept_lower; [in_checks|done|done]]. intros x [Hv Hl]. split; [exact Hv|].
    intros kr [= <-]. cbn [snd t_check basis_premiums bp_Meta]. by rewrite fillBasisValues_meta.
  - apply (accept _ (fun x => ValidateOrderbookImbalance x = None /\ lower_exchange (ob_Meta x) = true));
      [|apply kept_lower; [in_checks|done|done]]. intros x [Hv Hl]. split; [exact Hv|].
    intros kr [= <-]. cbn [snd t_check orderbook_imbalances ob_Meta ob_DepthLevels]. apply andb_true_iff. split; [exact Hl|].
    apply first_error_None in Hv. do 2 (apply Forall_cons in Hv as [_ Hv]). apply Forall_cons in Hv as [Hv _].
    destruct (Z.leb_spec (ob_DepthLevels x) 0); [done|]. by apply Z.ltb_lt.
  - rewrite filter_loop_valid. apply Forall_forall. intros x [Hps Hx]%list_elem_of_filter. rewrite map_id in Hx.
    rewrite Forall_forall in Hd. destruct (Hd x Hx) as [Hr Hc]. split.
    + unfold passes in Hps. case_match eqn:E; [done|]. by apply first_failure_all, Forall_cons in E as [_ [? _]%Forall_cons].
    + intros kr [= <-]. cbn [snd t_check exchange_divergences ed_ReferenceExchange ed_ComparedExchange].
      apply andb_true_iff. split; by apply or_aggregate_lower.
Qed.
End total.

(** C6: exactly when a result can be written.  When the database does not fail, the exchanges are
    named in lower case, the job's liquidation period is well formed and the liquidation events
    carry proper numbers and times, then, whatever rows the exchange delivered and in whatever map
    order, no row that passes the filter is refused by a repository's own validation or by a
    [CHECK] constraint of its table, and neither are the rows derived from it - but for the
    liquidation events: the table allows the sides [buy], [sell], [long], [short] and [unknown]
    only, so that [Write] fails, with the error of that constraint and without storing an event,
    exactly when some kept event worth a row has another side ([BUY] and [SELL], say). *)
Theorem Write_total `{MapOrder} w dataType result job now wall d :
  ValidatePeriod (liquidationPeriod job) = None ->
  Forall event_sane (nr_LiquidationEvents result) -> lower_names result ->
  let kept := fst (FilterNormalizedResult dataType result job now wall (validation w)) in
  let refused := has_Advanced w && existsb (refused_event w) (nr_LiquidationEvents kept) in
  let res := Write w no_write_faults dataType result job now wall d in
  snd res = (if refused then Some (WrapError "upsert liquidation event: " (fault_check no_faults) "") else None) /\
  (refused = true -> db_LiquidationEvents (fst res) = db_LiquidationEvents d).
Proof.
  intros Hp Hev Hlow kept. pose proof (Write_writable w dataType result job now wall Hp Hev Hlow) as [].
  unfold Write. unfold kept in *. clear kept.
  destruct (FilterNormalizedResult dataType result job now wall (validation w)) as [r issues]. cbn [fst snd] in *. cbv zeta.
  set (refused := has_Advanced w && existsb (refused_event w) (nr_LiquidationEvents r)).
  cbn [wf_tx no_write_faults wf_cvd_query wf_cvd_tx].
  set (P := fun res : Db * option error => snd res = (if refused then Some (WrapError "upsert liquidation event: " (fault_check no_faults) "") else None)
    /\ (refused = true -> db_LiquidationEvents (fst res) = db_LiquidationEvents d)).
  match goal with |- snd ?b = _ /\ _ => change (P b) end.
  do 13 (try (apply (step_through P db_LiquidationEvents); [intros Hg|intros ?d ?E])).
  all: try (apply into_keeps; [done|by intros []]).
  - apply into_keeps; [|by intros []]. apply wr_history0. by apply andb_true_iff in Hg as [_ Hg].
  - apply into_keeps; [|by intros []]. apply wr_oi0. by apply andb_true_iff in Hg as [_ Hg%negb_true_iff].
  - match goal with |- context [db_CVD ?x] => destruct (cvd_loop_total _ 0 (db_CVD x) 0 wr_flows0) as (tbl & c & E') end.
    unfold UpsertCVDFromTakerFlows. rewrite E'. eexists _, _. by split.
  - destruct refused eqn:Er.
    + apply andb_true_iff in Er as [Ha Hx]. rewrite Ha. apply existsb_exists in Hx as (e & He & Hre).
      unfold step at 1, into at 1. rewrite upsert_refused.
      * replace (some_rows _) with true by (destruct (nr_LiquidationEvents r); done). split; [done|].
        intros _. cbn [andb fst set_LiquidationEvents db_LiquidationEvents]. congruence.
      * eapply Forall_impl; [exact wr_events0|]. by intros ? [? _].
      * apply Exists_exists. exists e. split; [by apply list_elem_of_In|by apply event_refused].
    + split; [|done]. repeat (apply step_ok; [intros Hg; apply into_ok|intros ?d]); try done.
      apply andb_true_iff in Hg as [Ha _]. unfold refused in Er. rewrite Ha in Er.
      rewrite Forall_forall in wr_events0 |- *. intros e He. destruct (wr_events0 e He). apply event_accepted; [done|done|].
      destruct (refused_event w e) eqn:Ee; [|done]. rewrite <- Er. symmetry. apply existsb_exists. exists e.
      split; [by apply list_elem_of_In|done].
Qed.
Definition sample_event (t : Time) (side : string) (usd : Z) : NormalizedLiquidationEvent :=
  MkLiquidationEvent sample_meta "" t side None None None (Some (f64_of_Z usd)) "" "".
Definition events_result (l : list NormalizedLiquidationEvent) : NormalizedResult :=
  MkNormalizedResult [] [] [] [] [] [] [] [] l [] [] [] [].
Definition full_writer : RepositoryWriter :=
  MkWriter true true true true true true (f64_of_Z 1000) DefaultValidationConfig.

Lemma Write_total_witness :
  snd (@Write forward_order full_writer no_write_faults "liquidation" (events_result [sample_event Hour "sell" 5000])
         zero_job (2 * Hour) 0 empty_db) = None /\
  snd (@Write forward_order full_writer no_write_faults "liquidation" (events_result [sample_event Hour "SELL" 5000])
         zero_job (2 * Hour) 0 empty_db)
  = Some (WrapError "upsert liquidation event: " (fault_check no_faults) "").
Proof.
  pose proof (fun side Hs Hl => proj1 (@Write_total forward_order full_writer "liquidation"
    (events_result [sample_event Hour side 5000]) zero_job (2 * Hour) 0 empty_db
    ltac:(vm_compute; reflexivity) Hs Hl)) as H.
  assert (forall side, Forall event_sane (nr_LiquidationEvents (events_result [sample_event Hour side 5000]))) as Hs.
  { intros side. constructor; [|constructor]. vm_compute. repeat split; congruence. }
  assert (forall side, lower_names (events_result [sample_event Hour side 5000])) as Hl.
  { intros side. split; [|constructor]. constructor; [|constructor]. vm_compute. reflexivity. }
  split; rewrite (H _ (Hs _) (Hl _)); vm_compute; reflexivity.
Defined.

(** the aggregate of a bucket is that of the last batch, not of the bucket.  Two batches whose
    events fall into the same minute, one long and one short liquidation, each written without an
    error, leave one aggregate row that counts only the second event, while both events are
    stored. *)
Theorem aggregate_overwritten :
  let write (d : Db) (e : NormalizedLiquidationEvent) :=
    @Write forward_order full_writer no_write_faults "liquidation" (events_result [e]) zero_job (2 * Hour) 0 d in
  let first := write empty_db (sample_event Hour "sell" 5000) in
  let second := write (fst first) (sample_event (Hour + Second) "buy" 7000) in
  snd first = None /\ snd second = None /\
  length (map_to_list (db_LiquidationEvents (fst second))) = 2%nat /\
  map (fun a => (la_LongLiquidationCount (snd a), la_ShortLiquidationCount (snd a)))
    (map_to_list (db_LiquidationAggregates (fst second))) = [(0, 1)].
Proof. vm_compute. done. Qed.

(** A candle width the writer does not know.  A liquidation job whose period is [1h] is
    bucketed by the minute: two events of the same hour, ten minutes apart, become two rows that
    both claim the period [1h]. *)
Theorem hourly_liquidations_bucketed_by_minute (O : MapOrder) job :
  TrimSpace (job_Period job) = "1h" ->
  let l := deriveLiquidationAggregates job [sample_event Hour "buy" 1; sample_event (Hour + 10 * Minute) "buy" 1] in
  length l = 2%nat /\ Forall (fun a => la_Period a = "1h" /\ la_ShortLiquidationCount a = 1) l.
Proof.
  intros Hj. assert (liquidationPeriod job = "1h") as Hp by (unfold liquidationPeriod; by rewrite Hj).
  cbv zeta. unfold deriveLiquidationAggregates. rewrite Hp, Forall_map, length_map, iterate_perm.
  split; [vm_compute; reflexivity|].
  set (l := map_to_list _). vm_compute in l. subst l. repeat constructor.
Qed.

Lemma hourly_liquidations_witness :
  let job := MkJob 0 "" "" "" 0 "" "1h" "" JobStatusRunning 0 0 None None 0 0 "" RawEmpty "" 0 RawEmpty in
  length (@deriveLiquidationAggregates forward_order job
            [sample_event Hour "buy" 1; sample_event (Hour + 10 * Minute) "buy" 1]) = 2%nat.
Proof. intros job. exact (proj1 (hourly_liquidations_bucketed_by_minute forward_order job eq_refl)). Defined.
