(* ===== verification/WriteRetry.v ===== *)
(** * Repeated writes ([internal/collectors/core/writer.go])

    A [Write] that fails after some of its transactions is repeated later: by another attempt of the
    job, at another time of the clock and in another order of the maps.  Each table is seen as
    the updates a write makes to it, one after the other; those an interrupted attempt has made
    are absorbed by the attempt that completes.  The table of quality issues, in which every
    attempt reports what it saw at its time, is left out ([data]). *)

From Stdlib Require Import Ascii.
From S2P Require Import Prelude GoString GoTime GoFloat GoError GoJson SchedulerModels Normalizers.
From S2P Require Import Hardening FilterSpec Upsert Repositories Cvd Writer.

(** One attempt: its order of the maps, the failures of its database and its clocks. *)
Record Attempt := MkAttempt { at_order : MapOrder; at_faults : WriteFaults; at_now : Time; at_wall : Time }.

Definition attempt (a : Attempt) (w : RepositoryWriter) (dataType : string) (result : NormalizedResult) (job : Job) (d : Db)
    : Db * option error :=
  @Write (at_order a) w (at_faults a) dataType result job (at_now a) (at_wall a) d.

Definition kept_by (a : Attempt) (w : RepositoryWriter) (dataType : string) (result : NormalizedResult) (job : Job)
    : NormalizedResult :=
  fst (@FilterNormalizedResult (at_order a) dataType result job (at_now a) (at_wall a) (validation w)).

(** The tables but that of the quality issues. *)
Definition data (d : Db) : Db := set_Issues d ∅.

(** ** The rows kept depend neither on the order of the maps nor on the clock *)

(** No row of the result is further ahead of the clock of the attempt than the skew. *)
Definition timely (a : Attempt) (w : RepositoryWriter) (result : NormalizedResult) : Prop :=
  let clock := if IsZero (at_now a) then at_wall a else at_now a in
  Forall (fun mt => snd mt <= clock + MaxFutureSkew (effective_config (validation w))) (result_rows result).

Lemma loop_same {A} prep meta (c d : A -> list (string * option error)) issue issue' items :
  Forall (fun x => first_failure (c (prep x)) = None <-> first_failure (d (prep x)) = None) items ->
  fst (filter_loop prep meta c issue items) = fst (filter_loop prep meta d issue' items).
Proof.
  induction 1 as [|x items Hx Hf IH]; [done|]. cbn [filter_loop].
  destruct (filter_loop prep meta c issue items), (filter_loop prep meta d issue' items). simpl in IH. subst.
  destruct (first_failure (c (prep x))) as [[]|], (first_failure (d (prep x))) as [[]|]; try done; naive_solver.
Qed.

Lemma fit_source_later job now now' cfg m t :
  t <= now + MaxFutureSkew cfg -> t <= now' + MaxFutureSkew cfg -> fit_source job now cfg m t <-> fit_source job now' cfg m t.
Proof. unfold fit_source. tauto. Qed.

Lemma kept_same a b w dataType result job :
  timely a w result -> timely b w result -> kept_by a w dataType result job = kept_by b w dataType result job.
Proof.
  unfold timely, kept_by, FilterNormalizedResult. cbv zeta. set (cfg := effective_config (validation w)).
  set (n1 := if IsZero (at_now a) then _ else _). set (n2 := if IsZero (at_now b) then _ else _).
  unfold result_rows. rewrite !Forall_app, !Forall_map. cbn [snd].
  intros (A1 & A2 & A3 & A4 & A5 & A6 & A7 & A8 & A9 & A10 & A11 & A12 & A13)
    (B1 & B2 & B3 & B4 & B5 & B6 & B7 & B8 & B9 & B10 & B11 & B12 & B13).
  rewrite !filter_result_eq. cbn [fst]. f_equal; apply loop_same.
  all: lazymatch goal with |- Forall _ ?l =>
    match goal with H1 : Forall _ l, H2 : Forall _ l |- _ =>
      let H := fresh in pose proof (conj H1 H2) as H; rewrite <- Forall_and in H; eapply Forall_impl; [exact H|] end end.
  all: intros x [H1 H2]; cbn beta in *; unfold id.
  all: try (assert (le_EventTime (with_event_key x) = le_EventTime x /\ le_Meta (with_event_key x) = le_Meta x) as [Et Em]
      by (unfold with_event_key; by case_match); rewrite <- Et in H1, H2).
  all: rewrite ?snapshot_fit, ?kline_fit, ?open_interest_fit, ?funding_fit, ?funding_history_fit, ?long_short_fit,
    ?taker_fit, ?cvd_fit, ?event_fit, ?aggregate_fit, ?basis_fit, ?orderbook_fit, ?divergence_fit.
  all: unfold fit_snapshot, fit_kline, fit_open_interest, fit_funding, fit_funding_history, fit_long_short, fit_taker,
    fit_cvd, fit_event, fit_aggregate, fit_basis, fit_orderbook, fit_divergence.
  all: by rewrite (fit_source_later job n1 n2 cfg _ _ H1 H2).
Qed.

(** ** Updates of tables *)

(** The effect of a successful upsert. *)
Definition effect {I K R} `{Countable K} (guard : bool) (get : Db -> gmap K R) (set : Db -> gmap K R -> Db)
    (T : table_ops I K R) (items : list I) (d : Db) : Db :=
  set d (if guard then put_all T (get d) (rows_of T items) else get d).

(** One row of a CVD series, and several. *)
Definition cvd_row_effect (kr : Z * string * string * Time * NormalizedCVD) (d : Db) : Db :=
  set_CVD d (put cvd_snapshots (db_CVD d) kr).
Definition cvd_block (rows : list (Z * string * string * Time * NormalizedCVD)) (d : Db) : Db :=
  set_CVD d (put_all cvd_snapshots (db_CVD d) rows).

Definition run (us : list (Db -> Db)) (d : Db) : Db := fold_left (fun d u => u d) us d.

(** Some of the updates, up to the first failure. *)
Inductive prefix : list (Db -> Db) -> Db -> Db -> Prop :=
| prefix_stop us d : prefix us d d
| prefix_go u us d d' : prefix us (u d) d' -> prefix (u :: us) d d'.

Lemma effects_run_app us vs d : run (us ++ vs) d = run vs (run us d).
Proof. unfold run. by rewrite fold_left_app. Qed.

Lemma effects_prefix_app us vs d d' : prefix vs (run us d) d' -> prefix (us ++ vs) d d'.
Proof. revert d. induction us as [|u us IH]; intros d Hp; [exact Hp|]. apply prefix_go, IH, Hp. Qed.

Lemma prefix_take us vs d m : prefix (us ++ vs) d (run (take m us) d).
Proof.
  revert d m. induction us as [|u us IH]; intros d [|m]; [apply prefix_stop..|]. cbn [take app]. apply prefix_go, IH.
Qed.

Lemma run_rows rows d : run (map cvd_row_effect rows) d = cvd_block rows d.
Proof.
  revert d. induction rows as [|kr rows IH]; intros d; [by destruct d|]. cbn [map]. unfold run. cbn [fold_left].
  fold (run (map cvd_row_effect rows) (cvd_row_effect kr d)). rewrite IH. by destruct d.
Qed.

Lemma absorbed us d d' :
  (forall u, u ∈ us -> forall d, run us (u d) = run us d) -> forall vs, vs ⊆ us -> prefix vs d d' -> run us d' = run us d.
Proof.
  intros Hu vs Hs Hp. induction Hp as [|u vs d d' Hp IH]; [done|].
  rewrite IH by set_solver. apply Hu. set_solver.
Qed.

(** A table of the database that is not that of the issues. *)
Record data_table {A} (get : Db -> A) (set : Db -> A -> Db) : Prop := {
  set_get : forall d, set d (get d) = d;
  get_data : forall d, get (data d) = get d;
  set_data : forall d t, data (set d t) = set (data d) t }.

Section performs.
Context (ok : Db -> Prop).

(** From a state of the invariant, a function makes some of the updates, and all of them when it
    succeeds. *)
Definition performs (us : list (Db -> Db)) (k : Db -> Db * option error) : Prop :=
  forall d, ok d -> prefix us (data d) (data (fst (k d))) /\
    (snd (k d) = None -> data (fst (k d)) = run us (data d)).

Lemma performs_end : performs [] (fun d => (d, None)).
Proof. intros d _. split; [apply prefix_stop|done]. Qed.

Lemma step_performs {I K R} `{Countable K} (e : Db -> Db) guard get set (T : table_ops I K R) f items k us :
  data_table get set -> (forall d, e d = effect guard get set T items d) ->
  (guard = true -> forall d t, ok d -> ok (set d t)) -> performs us k ->
  performs (e :: us) (step guard (into get set T f items) k).
Proof.
  intros [Hsg Hgd Hsd] He Hok Hk d Hd. unfold step, into, run. cbn [fold_left]. fold (run us (e (data d))).
  rewrite He. unfold effect. rewrite Hgd.
  destruct guard.
  - pose proof (upsert_atomic T f items (get d)) as Ha. destruct (upsert T f items (get d)) as [t [c|err]].
    + destruct Ha as (_ & -> & _). destruct (Hk (set d (put_all T (get d) (rows_of T items)))) as [Hp Hr]; [by apply Hok|].
      rewrite Hsd in Hp, Hr. split; [|exact Hr]. apply prefix_go. by rewrite He; unfold effect; rewrite Hgd.
    + subst t. rewrite Hsg. split; [apply prefix_stop|done].
  - destruct (Hk d Hd) as [Hp Hr].
    assert (set (data d) (get d) = data d) as E by (by rewrite <- (Hgd d), Hsg). rewrite E. split; [|exact Hr].
    apply prefix_go. rewrite He. unfold effect. by rewrite Hgd, E.
Qed.

(** The first step, into the table of the issues, is not seen. *)
Lemma issues_perform {I} guard (T : table_ops I string IssueRow) f items k us :
  (forall d t, ok d -> ok (set_Issues d t)) -> performs us k ->
  performs us (step guard (into db_Issues set_Issues T f items) k).
Proof.
  intros Hok Hk d Hd. unfold step, into. destruct guard; [|by apply Hk].
  destruct (upsert T f items (db_Issues d)) as [t [c|e]].
  - destruct (Hk (set_Issues d t)) as [Hp Hr]; [by apply Hok|]. done.
  - split; [apply prefix_stop|done].
Qed.
End performs.

(** ** The updates of a write *)

Section updates.
Context (w : RepositoryWriter) (dataType : string) (job : Job) (kept : NormalizedResult).
Context (sym : Z) (ex per : string) (l : list (NormalizedTakerFlow * float64)) (base : float64).

(** The aggregates derived from the events, in some order. *)
Definition derived_aggregates : list NormalizedLiquidationAggregate :=
  @deriveLiquidationAggregates forward_order job (nr_LiquidationEvents kept).

Definition flow_rows : list (Z * string * string * Time * NormalizedCVD) :=
  if has_Advanced w then cvd_rows base l else [].

Definition before_cvd : list (Db -> Db) :=
  let history := (dataType =? "open_interest_history")%string in
  let oi := has_OpenInterest w in
  let fu := has_Funding w in
  let derived_oi := deriveOpenInterest (nr_MarketSnapshots kept) in
  let derived_fu := deriveFunding (nr_MarketSnapshots kept) in
  let O := forward_order in
  [ effect (has_MarketSnapshot w && some_rows (nr_MarketSnapshots kept)) db_MarketSnapshots set_MarketSnapshots
      (@market_snapshots O) (nr_MarketSnapshots kept);
    effect (has_Kline w && some_rows (nr_Klines kept)) db_Klines set_Klines (@klines O) (nr_Klines kept);
    effect (oi && some_rows (nr_OpenInterest kept) && history) db_OpenInterestHistory set_OpenInterestHistory
      open_interest_history (nr_OpenInterest kept);
    effect (oi && some_rows (nr_OpenInterest kept) && negb history) db_OpenInterest set_OpenInterest
      open_interest_snapshots (nr_OpenInterest kept);
    effect (oi && (dataType =? "open_interest")%string && some_rows derived_oi) db_OpenInterest set_OpenInterest
      open_interest_snapshots derived_oi;
    effect (fu && some_rows (nr_FundingSnapshots kept)) db_Funding set_Funding funding_snapshots (nr_FundingSnapshots kept);
    effect (fu && some_rows (nr_FundingHistory kept)) db_FundingHistory set_FundingHistory funding_history
      (nr_FundingHistory kept);
    effect (fu && (dataType =? "funding")%string && some_rows derived_fu) db_Funding set_Funding funding_snapshots
      derived_fu;
    effect (has_Advanced w && some_rows (nr_LongShortRatios kept)) db_LongShort set_LongShort long_short_ratios
      (nr_LongShortRatios kept);
    effect (has_Advanced w && some_rows (nr_TakerFlows kept)) db_TakerFlows set_TakerFlows (@taker_flows O)
      (nr_TakerFlows kept) ].

Definition after_cvd : list (Db -> Db) :=
  let adv := has_Advanced w in
  let O := forward_order in
  [ effect (adv && some_rows (nr_CVDSnapshots kept)) db_CVD set_CVD cvd_snapshots (nr_CVDSnapshots kept);
    effect (adv && some_rows (nr_LiquidationEvents kept)) db_LiquidationEvents set_LiquidationEvents
      (liquidation_events (w_LiquidationMinUSD w)) (nr_LiquidationEvents kept);
    effect (adv && some_rows (nr_LiquidationEvents kept) && some_rows derived_aggregates) db_LiquidationAggregates
      set_LiquidationAggregates (@liquidation_aggregates O) derived_aggregates;
    effect (adv && some_rows (nr_LiquidationAggregates kept)) db_LiquidationAggregates set_LiquidationAggregates
      (@liquidation_aggregates O) (nr_LiquidationAggregates kept);
    effect (adv && some_rows (nr_BasisPremiums kept)) db_Basis set_Basis (@basis_premiums O) (nr_BasisPremiums kept);
    effect (adv && some_rows (nr_OrderbookImbalances kept)) db_Orderbook set_Orderbook (@orderbook_imbalances O)
      (nr_OrderbookImbalances kept);
    effect (adv && some_rows (nr_ExchangeDivergences kept)) db_Divergence set_Divergence exchange_divergences
      (nr_ExchangeDivergences kept) ].

Definition write_effects : list (Db -> Db) := before_cvd ++ map cvd_row_effect flow_rows ++ after_cvd.

(** The taker flows kept are a series in order, and no CVD rows come with them. *)
Definition flows_ready (d : Db) : Prop := series_ready sym ex per (db_CVD d) l base.
Hypothesis (Hflows : map fst l = nr_TakerFlows kept) (Halone : l = [] \/ nr_CVDSnapshots kept = []).

Lemma ready_nil tbl : series_ready sym ex per tbl [] base.
Proof. split; [apply Forall_nil_2|apply SSorted_nil| |done]. intros t _. left. by intros x ?%elem_of_nil. Qed.

Lemma ready_put_all tbl rows :
  (forall kr, kr ∈ rows -> kr ∈ cvd_rows base l) -> series_ready sym ex per tbl l base ->
  series_ready sym ex per (put_all cvd_snapshots tbl rows) l base.
Proof.
  revert tbl. induction rows as [|kr rows IH]; intros tbl Hin Hr; [done|]. rewrite put_all_cons. apply IH.
  - intros ? ?. apply Hin. by right.
  - apply ready_put; [done|]. apply Hin. by left.
Qed.

Lemma no_flow_rows : has_Advanced w && some_rows (nr_TakerFlows kept) = false -> flow_rows = [].
Proof.
  unfold flow_rows. destruct (has_Advanced w); [|done]. rewrite <- Hflows. by destruct l.
Qed.

Lemma flows_perform us q fl k :
  performs flows_ready us k ->
  performs flows_ready (map cvd_row_effect flow_rows ++ us)
    (step (has_Advanced w && some_rows (nr_TakerFlows kept))
       (fun d => let '(t, e) := UpsertCVDFromTakerFlows q fl (nr_TakerFlows kept) (db_CVD d) in (set_CVD d t, e)) k).
Proof.
  intros Hk d Hd. unfold step. destruct (has_Advanced w && some_rows (nr_TakerFlows kept)) eqn:Eg;
    [|rewrite no_flow_rows by done; by apply Hk].
  apply andb_true_iff in Eg as [Ea _]. assert (flow_rows = cvd_rows base l) as -> by (unfold flow_rows; by rewrite Ea).
  destruct (cvd_loop_any sym ex per q fl l 0 (db_CVD d) 0 base Hd) as (m & Hm & Hall).
  unfold UpsertCVDFromTakerFlows. rewrite <- Hflows.
  destruct (cvd_loop q fl 0 (map fst l) (db_CVD d) 0) as [t r]. cbn [fst snd] in Hm, Hall.
  assert (forall rows, run (map cvd_row_effect rows) (data d) = data (set_CVD d (put_all cvd_snapshots (db_CVD d) rows))) as Hrun.
  { intros rows. rewrite run_rows. by destruct d. }
  destruct r as [c|e]; subst t.
  - rewrite (Hall c eq_refl). destruct (Hk (set_CVD d (put_all cvd_snapshots (db_CVD d) (cvd_rows base l)))) as [Hp Hr].
    { apply ready_put_all; [done|exact Hd]. }
    rewrite effects_run_app, Hrun. split; [|exact Hr]. apply effects_prefix_app. by rewrite Hrun.
  - split; [|done]. cbn [fst]. rewrite <- Hrun, <- firstn_map. apply prefix_take.
Qed.

(** Derived aggregates come in any order, one for each bucket. *)
Lemma put_all_permuted {I K R} `{Countable K} (T : table_ops I K R) tbl rows rows' :
  NoDup (map fst rows) -> rows ≡ₚ rows' -> put_all T tbl rows = put_all T tbl rows'.
Proof.
  intros Hn Hp. revert tbl. induction Hp as [|kr rows rows' Hp IH|[k r] [k' r'] rows|rows1 rows2 rows3 H1 IH1 H2 IH2]; intros tbl.
  - done.
  - cbn [map] in Hn. apply NoDup_cons in Hn as [_ Hn]. rewrite !put_all_cons. by apply IH.
  - cbn [map fst] in Hn. apply NoDup_cons in Hn as [Hk _]. rewrite !put_all_cons. f_equal.
    assert (k <> k') by set_solver. unfold put. rewrite !lookup_insert_ne by done. by rewrite insert_insert_ne.
  - rewrite IH1 by done. apply IH2. by rewrite <- H1.
Qed.

Lemma rows_of_permuted {I K R} `{Countable K} (T : table_ops I K R) items items' :
  items ≡ₚ items' -> rows_of T items ≡ₚ rows_of T items'.
Proof. intros Hp. unfold rows_of. by rewrite Hp. Qed.

Lemma derived_permuted (O : MapOrder) :
  @deriveLiquidationAggregates O job (nr_LiquidationEvents kept) ≡ₚ derived_aggregates.
Proof. unfold derived_aggregates, deriveLiquidationAggregates. by rewrite !iterate_perm. Qed.

Lemma derived_keys (O : MapOrder) :
  NoDup (map fst (rows_of (@liquidation_aggregates O) (@deriveLiquidationAggregates O job (nr_LiquidationEvents kept)))).
Proof.
  destruct (@deriveLiquidationAggregates_spec O job (nr_LiquidationEvents kept)) as (_ & Hn & _).
  set (items := deriveLiquidationAggregates job (nr_LiquidationEvents kept)) in *. clearbody items.
  apply (NoDup_fmap_1 (fun k : Z * string * string * Time => snd k)).
  replace (_ <$> _) with (map la_BucketTime items); [done|].
  clear Hn. unfold rows_of. induction items as [|a items IH]; [done|]. cbn. by rewrite IH.
Qed.

Lemma derived_effect (O : MapOrder) (adv : bool) d :
  effect (adv && some_rows (nr_LiquidationEvents kept) && some_rows derived_aggregates) db_LiquidationAggregates
    set_LiquidationAggregates (@liquidation_aggregates forward_order) derived_aggregates d =
  effect (adv && some_rows (nr_LiquidationEvents kept) && some_rows (@deriveLiquidationAggregates O job (nr_LiquidationEvents kept)))
    db_LiquidationAggregates set_LiquidationAggregates (@liquidation_aggregates O)
    (@deriveLiquidationAggregates O job (nr_LiquidationEvents kept)) d.
Proof.
  pose proof (derived_permuted O) as Hp. unfold effect. f_equal.
  replace (some_rows (@deriveLiquidationAggregates O _ _)) with (some_rows derived_aggregates).
  - destruct (_ && _); [|done]. symmetry.
    rewrite (put_all_permuted _ _ _ _ (derived_keys O) (rows_of_permuted _ _ _ Hp)). done.
  - destruct (@deriveLiquidationAggregates O job _), derived_aggregates; try done;
      by apply Permutation_length in Hp.
Qed.

Lemma write_performs (O : MapOrder) f result now wall :
  fst (FilterNormalizedResult dataType result job now wall (validation w)) = kept ->
  performs flows_ready write_effects (Write w f dataType result job now wall).
Proof.
  intros E. unfold Write. destruct (FilterNormalizedResult dataType result job now wall (validation w)) as [r issues].
  cbn [fst] in E. subst r. cbv zeta. unfold write_effects, before_cvd, after_cvd.
  apply issues_perform; [by intros []|]. cbn [app].
  do 10 (apply step_performs; [by split; intros []|done|by intros _ []|]).
  apply flows_perform. apply step_performs; [by split; intros []|done| |].
  { intros Hg d t Hd. destruct Halone as [El|E]; [unfold flows_ready; rewrite El; apply ready_nil|]. by rewrite E, andb_false_r in Hg. }
  apply step_performs; [by split; intros []|done|by intros _ []|].
  apply step_performs; [by split; intros []|apply derived_effect|by intros _ []|].
  do 4 (apply step_performs; [by split; intros []|done|by intros _ []|]).
  exact (performs_end flows_ready).
Qed.

(** *** Absorption *)

Lemma over_lookup {I K R} `{Countable K} (T : table_ops I K R) tbl (rows : list (K * R)) k :
  (forall o n, t_merge T o n = n) ->
  put_all T tbl rows !! k = match last (at_key k rows) with Some r => Some r | None => tbl !! k end.
Proof.
  intros Hover. rewrite put_all_lookup.
  - destruct (last (at_key k rows)); [by rewrite Hover|done].
  - split; intros; by rewrite ?Hover.
  - apply Forall_forall. intros kr _. apply Hover.
Qed.

(** Rows written under the keys of a later batch are overwritten by it. *)
Lemma over_absorb {I K R} `{Countable K} (T : table_ops I K R) tbl (rows later : list (K * R)) :
  (forall o n, t_merge T o n = n) -> map fst rows ⊆ map fst later ->
  put_all T (put_all T tbl rows) later = put_all T tbl later.
Proof.
  intros Hover Hs. apply map_eq. intros k. rewrite !(over_lookup T _ _ _ Hover).
  destruct (last (at_key k later)) eqn:E; [done|]. apply last_None in E.
  destruct (last (at_key k rows)) as [r|] eqn:E'; [exfalso|done].
  apply last_Some_elem_of in E'. unfold at_key in E, E'. apply list_elem_of_fmap in E' as ([k' r'] & -> & Hin).
  apply list_elem_of_filter in Hin as [Hk Hin]. cbn [fst] in Hk. subst k'.
  assert (k ∈ map fst later) as Hl by (apply Hs, list_elem_of_fmap; by exists (k, r')).
  apply list_elem_of_fmap in Hl as ([k2 r2] & Ek & Hin2). cbn [fst] in Ek. subst k2.
  assert ((k, r2) ∈ filter (fun kr : K * R => kr.1 = k) later) as Hf by (by apply list_elem_of_filter).
  destruct (filter _ later); [by apply elem_of_nil in Hf|done].
Qed.

Lemma put_all_app {I K R} `{Countable K} (T : table_ops I K R) t (a b : list (K * R)) :
  put_all T t (a ++ b) = put_all T (put_all T t a) b.
Proof. unfold put_all. by rewrite fold_left_app. Qed.

Definition batch {I K R} `{Countable K} (T : table_ops I K R) (g : bool) (items : list I) (t : gmap K R) : gmap K R :=
  if g then put_all T t (rows_of T items) else t.

Lemma batch_twice {I K R} `{Countable K} (T : table_ops I K R) `{!TableLaws T} (g : bool) items t :
  batch T g items (batch T g items t) = batch T g items t.
Proof. unfold batch. destruct g; [by apply put_all_idem|done]. Qed.

(** Of two batches into one table, the second one written first is absorbed when rows are overwritten. *)
Lemma batch_second {I K R} `{Countable K} (T : table_ops I K R) `{!TableLaws T} (g h : bool) items items' t :
  (forall o n, t_merge T o n = n) ->
  batch T h items (batch T g items' (batch T h items t)) = batch T h items (batch T g items' t).
Proof.
  intros Hover. unfold batch. destruct g, h; try done; [|by apply put_all_idem].
  rewrite <- !(put_all_app T _ (rows_of T items') (rows_of T items)). apply over_absorb; [done|]. rewrite map_app. set_solver.
Qed.

Lemma batch_after {I K R} `{Countable K} (T : table_ops I K R) (g : bool) items (rows : list (K * R)) t :
  (forall o n, t_merge T o n = n) ->
  batch T g items (put_all T (batch T g items t) rows) = batch T g items (put_all T t rows).
Proof.
  intros Hover. unfold batch. destruct g; [|done].
  rewrite <- !(put_all_app T _ rows (rows_of T items)). apply over_absorb; [done|]. rewrite map_app. set_solver.
Qed.

Ltac run_effects :=
  cbv [run fold_left app before_cvd after_cvd effect cvd_block cvd_row_effect set_Issues set_MarketSnapshots set_Klines set_OpenInterest
    set_OpenInterestHistory set_Funding
    set_FundingHistory set_LongShort set_TakerFlows set_CVD set_LiquidationEvents set_LiquidationAggregates
    set_Basis set_Orderbook set_Divergence
    db_Issues db_MarketSnapshots db_Klines db_OpenInterest db_OpenInterestHistory db_Funding
    db_FundingHistory db_LongShort db_TakerFlows db_CVD db_LiquidationEvents db_LiquidationAggregates
    db_Basis db_Orderbook db_Divergence];
  repeat lazymatch goal with |- context [if ?g then put_all ?T ?t (rows_of ?T ?items) else ?t] =>
    change (if g then put_all T t (rows_of T items) else t) with (batch T g items t) end.

Lemma run_write_effects d : run write_effects d = run (before_cvd ++ [cvd_block flow_rows] ++ after_cvd) d.
Proof. unfold write_effects. rewrite !effects_run_app, run_rows. done. Qed.

Lemma write_effects_absorbed u d : u ∈ write_effects -> run write_effects (u d) = run write_effects d.
Proof.
  intros Hu. rewrite !run_write_effects. unfold write_effects in Hu. apply elem_of_app in Hu as [Hu|[Hu|Hu]%elem_of_app].
  - unfold before_cvd in Hu. cbv zeta in Hu.
    repeat (apply elem_of_cons in Hu as [->|Hu]); [..|by apply elem_of_nil in Hu]; destruct d; run_effects; f_equal;
      rewrite ?(batch_twice _); try done; by apply (batch_second _).
  - apply list_elem_of_fmap in Hu as (kr & -> & Hkr). destruct d; run_effects; f_equal. f_equal.
    change (put cvd_snapshots ?t kr) with (put_all cvd_snapshots t [kr]). apply over_absorb; [done|].
    intros k Hk. apply list_elem_of_singleton in Hk as ->. apply list_elem_of_fmap. by exists kr.
  - unfold after_cvd in Hu. cbv zeta in Hu.
    repeat (apply elem_of_cons in Hu as [->|Hu]); [..|by apply elem_of_nil in Hu]; destruct d; run_effects; f_equal;
      rewrite ?(batch_twice _); try done; first [by apply (batch_second _) | by apply batch_after].
Qed.

Lemma write_effects_ready u d : u ∈ write_effects -> flows_ready d -> flows_ready (u d).
Proof.
  unfold flows_ready. intros Hu Hd. unfold write_effects in Hu. apply elem_of_app in Hu as [Hu|[Hu|Hu]%elem_of_app].
  - unfold before_cvd in Hu. cbv zeta in Hu.
    repeat (apply elem_of_cons in Hu as [->|Hu]); [..|by apply elem_of_nil in Hu]; by destruct d.
  - apply list_elem_of_fmap in Hu as (kr & -> & Hkr). unfold cvd_row_effect.
    change (series_ready sym ex per (put cvd_snapshots (db_CVD d) kr) l base). apply ready_put; [done|].
    unfold flow_rows in Hkr. destruct (has_Advanced w); [done|by apply elem_of_nil in Hkr].
  - unfold after_cvd in Hu. cbv zeta in Hu.
    repeat (apply elem_of_cons in Hu as [->|Hu]); [..|by apply elem_of_nil in Hu]; try by destruct d.
    destruct Halone as [El|E]; [rewrite El; apply ready_nil|]. rewrite E, andb_false_r. by destruct d.
Qed.

Lemma prefix_ready vs d d' : vs ⊆ write_effects -> prefix vs d d' -> flows_ready d -> flows_ready d'.
Proof.
  intros Hs Hp. induction Hp as [|u vs d d' Hp IH]; [done|]. intros Hd. apply IH; [set_solver|].
  apply write_effects_ready; [set_solver|done].
Qed.

End updates.

(** ** Retries *)

(** The taker flows that are kept have nothing to go wrong in: there are none, or they are one
    series in time order, each with a change, and no row of the series, stored or in the result,
    comes between them. *)
Definition flows_in_order (kept : NormalizedResult) (d : Db) : Prop :=
  exists sym ex per l base, map fst l = nr_TakerFlows kept /\ series_ready sym ex per (db_CVD d) l base /\
    (l = [] \/ nr_CVDSnapshots kept = []).

Lemma no_flows_in_order kept d : nr_TakerFlows kept = [] -> flows_in_order kept d.
Proof. intros E. exists 0, "", "", [], f64_zero. split; [done|]. split; [apply ready_nil|by left]. Qed.

(** C4: writing is safe to repeat.  An attempt that stops at any database failure (or none),
    followed by another one that succeeds - with its own failures of the database before it, at
    another time of the clock and with the maps visited in another order - leaves every table but
    that of the quality issues exactly as a single successful attempt does, whatever was in the
    tables before: no partial write survives, none is counted twice, whatever types of rows the
    result holds.  The conditions: no row of the result is ahead of one of the clocks by more than
    the skew, and the taker flows kept, from which the CVD series is accumulated, are a series in
    time order with no other row of it in between. *)
Theorem Write_retry w dataType result job d (once failing again : Attempt) :
  timely once w result -> timely failing w result -> timely again w result ->
  flows_in_order (kept_by once w dataType result job) d ->
  let partial := fst (attempt failing w dataType result job d) in
  snd (attempt once w dataType result job d) = None ->
  snd (attempt again w dataType result job partial) = None ->
  data (fst (attempt again w dataType result job partial)) = data (fst (attempt once w dataType result job d)).
Proof.
  intros T1 T2 T3 (sym & ex & per & l & base & Hl & Hready & Halone) partial Ho Ha.
  set (kept := kept_by once w dataType result job) in *.
  pose proof (kept_same failing once w dataType result job T2 T1) as E2.
  pose proof (kept_same again once w dataType result job T3 T1) as E3.
  pose proof (fun a H => write_performs w dataType job kept sym ex per l base Hl Halone (at_order a) (at_faults a) result
    (at_now a) (at_wall a) H) as Hw.
  destruct (Hw once eq_refl d Hready) as [_ R1]. specialize (R1 Ho).
  destruct (Hw failing E2 d Hready) as [P2 _].
  assert (flows_ready sym ex per l base (data partial)) as Hp.
  { eapply prefix_ready; [exact Hl|exact Halone| |exact P2|exact Hready]. done. }
  destruct (Hw again E3 partial) as [_ R3]; [exact Hp|]. specialize (R3 Ha).
  unfold attempt in *. rewrite R1, R3. eapply absorbed; [|reflexivity|exact P2].
  intros u Hu d'. by eapply write_effects_absorbed.
Qed.

(** A delivery of two taker flows and a liquidation that breaks off at the second row of the series. *)
Definition sample_delivery : NormalizedResult :=
  MkNormalizedResult [] [] [] [] [] [] [sample_flow 100 5; sample_flow 200 7] [] [sample_event Hour "sell" 5000] [] [] [] [].
Definition broken : WriteFaults :=
  MkWriteFaults (fun _ => no_faults) (fun k => if (k =? 1)%nat then Some DeadlineExceeded else None) (fun _ => no_faults).
Definition at_time (O : MapOrder) (f : WriteFaults) (now : Time) : Attempt := MkAttempt O f now 0.

Lemma Write_retry_witness :
  let once := at_time forward_order no_write_faults (2 * Hour) in
  let failing := at_time backward_order broken (2 * Hour) in
  let again := at_time backward_order no_write_faults (3 * Hour) in
  let run a d := attempt a full_writer "taker_flow" sample_delivery zero_job d in
  snd (run failing empty_db) <> None /\
  data (fst (run again (fst (run failing empty_db)))) = data (fst (run once empty_db)).
Proof.
  intros once failing again run. split; [vm_compute; congruence|].
  apply (Write_retry full_writer "taker_flow" sample_delivery zero_job empty_db once failing again).
  - repeat constructor; vm_compute; congruence.
  - repeat constructor; vm_compute; congruence.
  - repeat constructor; vm_compute; congruence.
  - exists 7, "binance", "5m", [(sample_flow 100 5, f64_of_Z 5); (sample_flow 200 7, f64_of_Z 7)], f64_zero.
    split; [vm_compute; reflexivity|]. split; [|right; vm_compute; reflexivity].
    split.
    + apply Forall_cons. split; [done|]. apply Forall_cons. split; [done|]. by apply Forall_nil.
    + apply SSorted_cons; [apply SSorted_cons; [apply SSorted_nil|by apply Forall_nil]|]. apply Forall_cons. by split; [|apply Forall_nil].
    + intros t [? Ht]. cbn [db_CVD empty_db] in Ht. by rewrite lookup_empty in Ht.
    + by intros x [= <-].
  - vm_compute. reflexivity.
  - vm_compute. reflexivity.
Defined.
