(* ===== verification/Collector.v ===== *)
(** * The collector ([internal/collectors/core/collector.go], [router.go], [multi_writer.go])

    Executing one job: load its symbol, resolve its endpoint and adapter, send the request, log
    it, classify the answer, normalise and write it, and report the collector's health at each
    exit.  The symbol loader, the endpoint resolver, the adapter and the writer are interfaces of
    the collector and parameters here; so is the store the writer acts on. *)

From S2P Require Import Prelude GoString GoTime GoFloat GoError GoJson CircuitBreaker Symbols Endpoints SchedulerModels.
From S2P Require Import Worker Normalizers Hardening.

(** ** Interfaces *)

Record Request := MkRequest { req_URL : string; req_Path : string }.
Record ExchangeResponse := MkResponse {
  resp_StatusCode : Z; resp_Body : string; resp_CapturedAt : Time; resp_SourceEndpointID : Z }.

Record ExchangeAdapter := MkAdapter {
  BuildRequest : Endpoint -> Job -> Symbol -> result error Request;
  AdapterExecute : Request -> result error ExchangeResponse;
  Normalize : string -> ExchangeResponse -> Job -> Symbol -> result error NormalizedResult }.

(** [ResultWriter] over a store. *)
Definition ResultWriter (S : Type) : Type := string -> NormalizedResult -> Job -> S -> S * option error.

Record RequestLog := MkRequestLog {
  rl_Exchange : string; rl_EndpointID : Z; rl_DataType : string; rl_SourceSymbol : string; rl_RequestURL : string;
  rl_RequestPath : string; rl_StatusCode : option Z; rl_ErrorType : string; rl_DurationMS : Z; rl_RetryCount : Z;
  rl_RateLimited : bool; rl_CapturedAt : Time; rl_Metadata : RawMessage }.

Record CollectorHealth := MkHealth {
  ch_ServiceName : string; ch_InstanceID : string; ch_Exchange : string; ch_DataType : string; ch_Status : string;
  ch_HeartbeatAt : Time; ch_LastSuccessAt : Time; ch_LastErrorAt : Time; ch_ErrorMessage : string;
  ch_Metrics : RawMessage }.

Record Collector (S : Type) := MkCollector {
  c_GetByID : Z -> result error Endpoint;
  c_ResolveActive : string -> string -> string -> string -> result error Endpoint;
  c_GetSymbolByID : Z -> result error Symbol;
  c_Adapter : string -> result error ExchangeAdapter;
  c_Writer : ResultWriter S;
  c_Logs : bool;       (** a request logger is set *)
  c_Health : bool;     (** a health reporter is set *)
  c_Service : string; c_Instance : string }.
Arguments c_GetByID {S}. Arguments c_ResolveActive {S}. Arguments c_GetSymbolByID {S}. Arguments c_Adapter {S}.
Arguments c_Writer {S}. Arguments c_Logs {S}. Arguments c_Health {S}. Arguments c_Service {S}. Arguments c_Instance {S}.

(** What executing a job changes: the writer's store, the request log and the health reports. *)
Record world (S : Type) := MkWorld { w_store : S; w_logs : list RequestLog; w_health : list CollectorHealth }.
Arguments MkWorld {S}. Arguments w_store {S}. Arguments w_logs {S}. Arguments w_health {S}.

(** The clock at each reading: at the start, before and after the request, when it is logged, and
    at the final health report. *)
Record clock := MkClock { at_now : Time; at_start : Time; at_done : Time; at_log : Time; at_report : Time }.

(** ** Error classification *)

Definition failureKind (t : ErrorType) : FailureKind :=
  match t with
  | ErrorRateLimited => FailureRateLimited
  | ErrorServerError => FailureServerError
  | ErrorTimeout => FailureTimeout
  | ErrorNetwork => FailureNetworkError
  | ErrorBadRequest => FailureBadRequest
  | ErrorUnauthorized => FailureUnauthorized
  | ErrorNotFound => FailureNotFound
  | ErrorInvalidSymbol => FailureInvalidSymbol
  | ErrorInvalidResponse => FailureInvalidResponse
  | ErrorNormalizer => FailureNormalizerError
  | ErrorUnknown => FailureUnknown
  end.

Definition classifyCollectorError (err : error) : error :=
  if errors_Is err DeadlineExceeded then NewExecutionError FailureTimeout true (Some err) else
  if errors_Is err ErrEndpointUnavailable || errors_Is err ErrEndpointInactive || errors_Is err ErrUnsupportedDataType
  then NewExecutionError FailureBadRequest false (Some err) else
  let c := ClassifyError (Some err) in
  NewExecutionError (failureKind (cl_Type c)) (cl_Recoverable c) (Some err).

Definition classifyErrorType (err : error) : string :=
  match as_execution_error err with
  | Some (kind, _) => kind
  | None => if errors_Is err DeadlineExceeded then FailureTimeout else error_type_text (cl_Type (ClassifyError (Some err)))
  end.

(** ** Execution *)

Section collector.
Context {S : Type} (c : Collector S).

Definition service : string := if (c_Service c =? "")%string then "collector-service" else c_Service c.
Definition instance : string := if (c_Instance c =? "")%string then "default" else c_Instance c.

Definition reportHealth (w : world S) (job : Job) (status message : string) (at_ : Time) : world S :=
  if negb (c_Health c) then w else
  let healthy := (status =? "healthy")%string in
  MkWorld (w_store w) (w_logs w)
    (w_health w ++ [MkHealth service instance (job_Exchange job) (job_DataType job) status at_
       (if healthy then at_ else 0)
       (if healthy then 0 else if negb (message =? "")%string then at_ else 0) message RawEmpty]).

Definition logRequest (w : world S) (endpoint : Endpoint) (job : Job) (req : Request)
    (resp : result error ExchangeResponse) (durationMS : Z) (at_ : Time) : world S :=
  if negb (c_Logs c) then w else
  let statusCode := match resp with Ok r => Some (resp_StatusCode r) | Err _ => None end in
  let errorType := match resp with
                   | Err e => classifyErrorType e
                   | Ok r => if 400 <=? resp_StatusCode r
                             then error_type_text (cl_Type (ClassifyHTTPStatus (resp_StatusCode r) (resp_Body r))) else ""
                   end in
  let limited := match resp with Ok r => resp_StatusCode r =? 429 | Err _ => false end in
  MkWorld (w_store w)
    (w_logs w ++ [MkRequestLog (job_Exchange job) (ep_ID endpoint) (job_DataType job) (job_SourceSymbol job)
       (req_URL req) (req_Path req) statusCode errorType durationMS (job_RetryCount job) limited at_ (job_Metadata job)])
    (w_health w).

Definition endpointForJob (job : Job) : result error Endpoint :=
  let m := RuntimeMetadataFromJob job in
  if 0 <? rm_EndpointID m then c_GetByID c (rm_EndpointID m) else
  if (rm_EndpointName m =? "")%string || (rm_EndpointDataType m =? "")%string then
    Err (ErrorString "job metadata missing endpoint identity") else
  let marketType := match job_Metadata job with RawJson v => member_string v "market_type" | _ => "" end in
  if (marketType =? "")%string then Err (ErrorString "job metadata missing market_type") else
  c_ResolveActive c (job_Exchange job) marketType (rm_EndpointDataType m) (rm_EndpointName m).

Definition parse_failure (err : error) : option error := Some (NewExecutionError FailureParse false (Some err)).

Definition status_error (code : Z) : error := ErrorString ("exchange returned status " +:+ Itoa code).

(** [Collector.Execute]: the world after it and the error it returns. *)
Definition Execute (w : world S) (t : clock) (job : Job) : world S * option error :=
  match c_GetSymbolByID c (job_SymbolID job) with
  | Err e => (reportHealth w job "unhealthy" (Error e) (at_now t), parse_failure e)
  | Ok symbol =>
    if (job_SourceSymbol job =? "")%string then
      let e := ErrorString "missing source_symbol" in
      (reportHealth w job "unhealthy" (Error e) (at_now t), parse_failure e) else
    match endpointForJob job with
    | Err e => (reportHealth w job "degraded" (Error e) (at_now t), parse_failure e)
    | Ok endpoint =>
      match c_Adapter c (job_Exchange job) with
      | Err e => (reportHealth w job "unhealthy" (Error e) (at_now t), parse_failure e)
      | Ok adapter =>
        match BuildRequest adapter endpoint job symbol with
        | Err e => (reportHealth w job "degraded" (Error e) (at_now t), Some (classifyCollectorError e))
        | Ok req =>
          let resp := AdapterExecute adapter req in
          let durationMS := Z.quot (Sub (at_done t) (at_start t)) Millisecond in
          let w := logRequest w endpoint job req resp durationMS (at_log t) in
          match resp with
          | Err e => (reportHealth w job "degraded" (Error e) (at_report t), Some (classifyCollectorError e))
          | Ok r =>
            let code := resp_StatusCode r in
            let cl := ClassifyHTTPStatus code (resp_Body r) in
            if (code =? 429) || (500 <=? code) then
              (reportHealth w job "degraded" (Error (status_error code)) (at_report t),
               Some (NewExecutionError (failureKind (cl_Type cl)) (cl_Recoverable cl) (Some (status_error code)))) else
            if 400 <=? code then
              (reportHealth w job "unhealthy" (Error (status_error code)) (at_report t),
               Some (NewExecutionError (failureKind (cl_Type cl)) (cl_Recoverable cl) (Some (status_error code)))) else
            match Normalize adapter (job_DataType job) r job symbol with
            | Err e => (reportHealth w job "unhealthy" (Error e) (at_report t), Some (classifyCollectorError e))
            | Ok result =>
              let '(store, err) := c_Writer c (job_DataType job) result job (w_store w) in
              let w := MkWorld store (w_logs w) (w_health w) in
              match err with
              | Some e => (reportHealth w job "unhealthy" (Error e) (at_report t),
                           Some (NewExecutionError FailureServerError true (Some e)))
              | None => (reportHealth w job "healthy" "" (at_report t), None)
              end
            end
          end
        end
      end
    end
  end.

End collector.

(** [MultiWriter.Write]: every writer in turn, up to the first error; a nil writer is skipped. *)
Fixpoint MultiWriter_Write {S : Type} (ws : list (option (ResultWriter S))) (dataType : string) (result : NormalizedResult)
    (job : Job) (s : S) : S * option error :=
  match ws with
  | [] => (s, None)
  | None :: rest => MultiWriter_Write rest dataType result job s
  | Some w :: rest =>
    let '(s, err) := w dataType result job s in
    match err with
    | Some e => (s, Some e)
    | None => MultiWriter_Write rest dataType result job s
    end
  end.

(** [DataTypeExecutor.Execute]: the executor of the data type, else the catch-all. *)
Definition DataTypeExecutor_Execute {W : Type} (r : gmap string (W -> Job -> W * option error)) (w : W) (job : Job)
    : W * option error :=
  match r !! job_DataType job with
  | Some executor => executor w job
  | None =>
    match r !! "*" with
    | Some executor => executor w job
    | None => (w, Some (NewExecutionError "parse" false (Some ErrNoExecutor)))
    end
  end.

(** ** The aggregate executor ([internal/collectors/aggregate/executor.go]) *)

(** The aggregation store over a database [D]: building and storing a snapshot ([Snapshot] with
    its exchange count), and analytics when the store has them. *)
Record AggregateStore (D Snap Analytics : Type) := MkAggregateStore {
  as_BuildLatest : D -> Z -> Time -> result error Snap;
  as_ExchangeCount : Snap -> Z;
  as_Upsert : D -> Snap -> D * option error;
  as_Analytics : option ((D -> Z -> Time -> result error Analytics) * (D -> Analytics -> D * option error)) }.
Arguments as_BuildLatest {D Snap Analytics}. Arguments as_ExchangeCount {D Snap Analytics}.
Arguments as_Upsert {D Snap Analytics}. Arguments as_Analytics {D Snap Analytics}.

Section aggregate.
Context {D Snap Analytics : Type} (store : AggregateStore D Snap Analytics) (health : bool) (svc inst : string).

Definition agg_report (w : D * list CollectorHealth) (job : Job) (status message : string) (at_ : Time)
    : D * list CollectorHealth :=
  if negb health then w else
  let healthy := (status =? "healthy")%string in
  (fst w, snd w ++ [MkHealth (if (svc =? "")%string then "collector-service" else svc)
                      (if (inst =? "")%string then "default" else inst) "aggregate" (job_DataType job) status at_
                      (if healthy then at_ else 0) (if healthy then 0 else at_) message
                      (RawJson (json_map [("symbol_id", JInt (job_SymbolID job))]))])%list.

Definition agg_degraded (w : D * list CollectorHealth) (job : Job) (e : error) (at_ : Time)
    : (D * list CollectorHealth) * option error :=
  (agg_report w job "degraded" (Error e) at_, Some (NewExecutionError FailureServerError true (Some e))).

Definition AggregateExecute (w : D * list CollectorHealth) (now report_at : Time) (job : Job)
    : (D * list CollectorHealth) * option error :=
  if job_SymbolID job <=? 0 then
    (w, Some (NewExecutionError FailureParse false (Some (ErrorString "missing symbol_id")))) else
  let snapshotTime := if IsZero (job_ScheduledAt job) then now else job_ScheduledAt job in
  match as_BuildLatest store (fst w) (job_SymbolID job) snapshotTime with
  | Err e => agg_degraded w job e report_at
  | Ok snapshot =>
    if as_ExchangeCount store snapshot =? 0 then
      agg_degraded w job (ErrorString ("no exchange snapshots available for symbol_id " +:+ Itoa (job_SymbolID job)))
        report_at else
    let '(d, err) := as_Upsert store (fst w) snapshot in
    let w := (d, snd w) in
    match err with
    | Some e => agg_degraded w job e report_at
    | None =>
      match as_Analytics store with
      | None => (agg_report w job "healthy" "" report_at, None)
      | Some (build, put) =>
        match build (fst w) (job_SymbolID job) snapshotTime with
        | Err e => agg_degraded w job e report_at
        | Ok analytics =>
          let '(d, err) := put (fst w) analytics in
          let w := (d, snd w) in
          match err with
          | Some e => agg_degraded w job e report_at
          | None => (agg_report w job "healthy" "" report_at, None)
          end
        end
      end
    end
  end.
End aggregate.

(** ** Properties *)

(** The request a job leads to, and the result its answer is normalised to. *)
Definition requested {S} (c : Collector S) (job : Job) : option (Symbol * ExchangeAdapter * Request) :=
  match c_GetSymbolByID c (job_SymbolID job), endpointForJob c job, c_Adapter c (job_Exchange job) with
  | Ok symbol, Ok endpoint, Ok adapter =>
    if (job_SourceSymbol job =? "")%string then None else
    match BuildRequest adapter endpoint job symbol with
    | Ok req => Some (symbol, adapter, req)
    | Err _ => None
    end
  | _, _, _ => None
  end.

Definition fetched {S} (c : Collector S) (job : Job) : option NormalizedResult :=
  match requested c job with
  | Some (symbol, adapter, req) =>
    match AdapterExecute adapter req with
    | Ok r =>
      if 400 <=? resp_StatusCode r then None else
      match Normalize adapter (job_DataType job) r job symbol with Ok result => Some result | Err _ => None end
    | Err _ => None
    end
  | None => None
  end.

Lemma reportHealth_store {S} (c : Collector S) w job s m t : w_store (reportHealth c w job s m t) = w_store w.
Proof. unfold reportHealth. by destruct (c_Health c). Qed.
Lemma reportHealth_logs {S} (c : Collector S) w job s m t : w_logs (reportHealth c w job s m t) = w_logs w.
Proof. unfold reportHealth. by destruct (c_Health c). Qed.
Lemma logRequest_store {S} (c : Collector S) w e job q r d t : w_store (logRequest c w e job q r d t) = w_store w.
Proof. unfold logRequest. by destruct (c_Logs c). Qed.
Lemma logRequest_health {S} (c : Collector S) w e job q r d t : w_health (logRequest c w e job q r d t) = w_health w.
Proof. unfold logRequest. by destruct (c_Logs c). Qed.
Lemma logRequest_logs {S} (c : Collector S) w e job q r d t :
  length (w_logs (logRequest c w e job q r d t)) = (length (w_logs w) + (if c_Logs c then 1 else 0))%nat.
Proof. unfold logRequest. destruct (c_Logs c); simpl; rewrite ?length_app; simpl; lia. Qed.
Lemma reportHealth_health {S} (c : Collector S) w job s m t :
  c_Health c = true ->
  exists h, w_health (reportHealth c w job s m t) = (w_health w ++ [h])%list /\ ch_Status h = s.
Proof. intros Hc. unfold reportHealth. rewrite Hc. simpl. eauto. Qed.

Lemma classified k b e : is_Some (as_execution_error (NewExecutionError k b e)).
Proof. by eexists. Qed.
Lemma collector_error_classified e : is_Some (as_execution_error (classifyCollectorError e)).
Proof. unfold classifyCollectorError. repeat case_match; apply classified. Qed.

(** The outcome of a job, against what was requested and fetched. *)
Definition execute_ok {S} (c : Collector S) (w : world S) (job : Job) (out : world S * option error) : Prop :=
  let '(w', err) := out in
  w_store w' = match fetched c job with
               | Some r => fst (c_Writer c (job_DataType job) r job (w_store w))
               | None => w_store w
               end /\
  (err = None <-> exists r, fetched c job = Some r /\ snd (c_Writer c (job_DataType job) r job (w_store w)) = None) /\
  length (w_logs w') = (length (w_logs w) + (if c_Logs c && bool_decide (is_Some (requested c job)) then 1 else 0))%nat /\
  (c_Health c = true ->
   exists h, w_health w' = (w_health w ++ [h])%list /\ (ch_Status h = "healthy" <-> err = None)) /\
  (forall e, err = Some e -> is_Some (as_execution_error e)).

(** A failing exit with nothing written. *)
Lemma execute_failed {S} (c : Collector S) w w1 job s m t e :
  fetched c job = None -> s <> "healthy" -> is_Some (as_execution_error e) -> w_store w1 = w_store w ->
  w_health w1 = w_health w ->
  length (w_logs w1) = (length (w_logs w) + (if c_Logs c && bool_decide (is_Some (requested c job)) then 1 else 0))%nat ->
  execute_ok c w job (reportHealth c w1 job s m t, Some e).
Proof.
  intros Hf Hs He Hst Hh Hl. unfold execute_ok. rewrite Hf, reportHealth_store, reportHealth_logs. split_and!.
  - done.
  - split; [done|]. by intros (? & ? & _).
  - done.
  - intros Hc. destruct (reportHealth_health c w1 job s m t Hc) as (h & E & Eh). exists h. rewrite E, Hh. split; [done|].
    split; [congruence|done].
  - by intros ? [= <-].
Qed.

(** An exit after the result was handed to the writer. *)
Lemma execute_written {S} (c : Collector S) w w1 job r s m t store err err' :
  fetched c job = Some r -> c_Writer c (job_DataType job) r job (w_store w) = (store, err) ->
  (s = "healthy" <-> err = None) -> (err = None <-> err' = None) -> (forall e, err' = Some e -> is_Some (as_execution_error e)) ->
  w_store w1 = store -> w_health w1 = w_health w ->
  length (w_logs w1) = (length (w_logs w) + (if c_Logs c && bool_decide (is_Some (requested c job)) then 1 else 0))%nat ->
  execute_ok c w job (reportHealth c w1 job s m t, err').
Proof.
  intros Hf Hw Hs He He' Hst Hh Hl. unfold execute_ok. rewrite Hf, reportHealth_store, reportHealth_logs, Hw. split_and!.
  - done.
  - rewrite <- He. split; [eexists; by rewrite Hw|]. intros (? & [= <-] & E). by rewrite Hw in E.
  - done.
  - intros Hc. destruct (reportHealth_health c w1 job s m t Hc) as (h & E & Eh). exists h. rewrite E, Hh. split; [done|].
    rewrite Eh, Hs. done.
  - done.
Qed.

Ltac failed := apply execute_failed; auto using classified, collector_error_classified, logRequest_store, logRequest_health.

(** C28: what executing a job does, on every path.  The store is touched only when a request was
    built, answered with a status below 400 and normalised, and then exactly by the writer; the
    job succeeds exactly when, moreover, the writer did; a request is logged once if it was built
    and never otherwise; exactly one health report is made, and it says healthy exactly when the
    job succeeded; and every error carries a failure kind and a retry decision for the worker. *)
Theorem Execute_spec {S} (c : Collector S) w t job : execute_ok c w job (Execute c w t job).
Proof.
  unfold Execute, parse_failure.
  destruct (c_GetSymbolByID c (job_SymbolID job)) as [symbol|e] eqn:E1.
  2: { assert (requested c job = None) as Hr by (unfold requested; by rewrite E1).
       failed; unfold fetched; rewrite Hr; rewrite ?andb_false_r; try done; lia. }
  destruct (job_SourceSymbol job =? "")%string eqn:E2.
  { assert (requested c job = None) as Hr by (unfold requested; rewrite E1, E2; by repeat case_match).
    failed; unfold fetched; rewrite Hr; rewrite ?andb_false_r; try done; lia. }
  destruct (endpointForJob c job) as [endpoint|e] eqn:E3.
  2: { assert (requested c job = None) as Hr by (unfold requested; by rewrite E1, E3).
       failed; unfold fetched; rewrite Hr; rewrite ?andb_false_r; try done; lia. }
  destruct (c_Adapter c (job_Exchange job)) as [adapter|e] eqn:E4.
  2: { assert (requested c job = None) as Hr by (unfold requested; by rewrite E1, E3, E4).
       failed; unfold fetched; rewrite Hr; rewrite ?andb_false_r; try done; lia. }
  destruct (BuildRequest adapter endpoint job symbol) as [req|e] eqn:E5.
  2: { assert (requested c job = None) as Hr by (unfold requested; by rewrite E1, E3, E4, E2, E5).
       failed; unfold fetched; rewrite Hr; rewrite ?andb_false_r; try done; lia. }
  assert (requested c job = Some (symbol, adapter, req)) as Hr by (unfold requested; by rewrite E1, E3, E4, E2, E5).
  cbv zeta. set (w1 := logRequest c w endpoint job req _ _ _).
  assert (length (w_logs w1) = (length (w_logs w) + (if c_Logs c && bool_decide (is_Some (requested c job)) then 1 else 0))%nat)
    as Hl by (rewrite Hr, bool_decide_eq_true_2, andb_true_r by done; apply logRequest_logs).
  assert (w_store w1 = w_store w) as Hst by apply logRequest_store.
  assert (w_health w1 = w_health w) as Hwh by apply logRequest_health.
  destruct (AdapterExecute adapter req) as [r|e] eqn:E6.
  2: { failed. unfold fetched. by rewrite Hr, E6. }
  destruct (400 <=? resp_StatusCode r) eqn:E8.
  { assert (fetched c job = None) by (unfold fetched; by rewrite Hr, E6, E8).
    destruct ((resp_StatusCode r =? 429) || (500 <=? resp_StatusCode r)); failed. }
  pose proof (proj1 (Z.leb_gt _ _) E8) as E7.
  rewrite (proj2 (Z.eqb_neq (resp_StatusCode r) 429)), (proj2 (Z.leb_gt 500 (resp_StatusCode r))) by lia. cbn [orb].
  destruct (Normalize adapter (job_DataType job) r job symbol) as [result|e] eqn:E9.
  2: { failed. unfold fetched. by rewrite Hr, E6, E8, E9. }
  assert (fetched c job = Some result) as Hf by (unfold fetched; by rewrite Hr, E6, E8, E9).
  rewrite Hst. destruct (c_Writer c (job_DataType job) result job (w_store w)) as [store [e|]] eqn:E10;
    (eapply execute_written; [exact Hf|exact E10|..]; try done).
  intros ? [= <-]. apply classified.
Qed.

(** answers are retried as their status says.  When the exchange answers with a status of 400
    or more, the job's error tells the worker to try again exactly for 429 and the server errors;
    every other such status sends the job to the dead letters at once, whatever its retry
    budget. *)
Theorem answer_decides_retry {S} (c : Collector S) w t job symbol adapter req r e :
  requested c job = Some (symbol, adapter, req) -> AdapterExecute adapter req = Ok r -> 400 <= resp_StatusCode r ->
  snd (Execute c w t job) = Some e ->
  snd (classifyExecutionError e) = bool_decide (resp_StatusCode r = 429 \/ 500 <= resp_StatusCode r) /\
  (snd (classifyExecutionError e) = false -> dead_letter_due job (snd (classifyExecutionError e)) = true).
Proof.
  intros Hr Hx Hs He. split; [|by intros ->]. revert He.
  unfold requested in Hr. unfold Execute.
  destruct (c_GetSymbolByID c (job_SymbolID job)) as [symbol'|]; [|done].
  destruct (endpointForJob c job) as [endpoint|]; [|done].
  destruct (c_Adapter c (job_Exchange job)) as [adapter'|]; [|done].
  destruct (job_SourceSymbol job =? "")%string; [done|].
  destruct (BuildRequest adapter' endpoint job symbol') as [req'|]; [|done]. injection Hr as -> -> ->.
  rewrite Hx. cbv zeta. set (cl := ClassifyHTTPStatus _ _).
  assert (cl_Recoverable cl = bool_decide (resp_StatusCode r = 429 \/ 500 <= resp_StatusCode r)) as Hc.
  { unfold cl, ClassifyHTTPStatus. symmetry.
    repeat match goal with |- context [if ?b then _ else _] => destruct b eqn:? end; bool_to_prop; simpl;
      first [apply bool_decide_eq_true_2; lia | apply bool_decide_eq_false_2; lia]. }
  rewrite (proj2 (Z.leb_le 400 _)) by done.
  destruct ((resp_StatusCode r =? 429) || (500 <=? resp_StatusCode r)); simpl; by intros [= <-].
Qed.

Definition ok_symbol : Symbol := MkSymbol 7 "BTC" "BTC" "USDT" "" 1 true [].
Definition ok_endpoint : Endpoint := internal_endpoint.
Definition demo_adapter (code : Z) : ExchangeAdapter :=
  MkAdapter (fun _ _ _ => Ok (MkRequest "https://x/y" "/y")) (fun _ => Ok (MkResponse code "" 0 0))
    (fun _ _ _ _ => Ok empty_result).
Definition demo_collector (lookup : result error Symbol) (code : Z) : Collector nat :=
  MkCollector nat (fun _ => Ok ok_endpoint) (fun _ _ _ _ => Ok ok_endpoint) (fun _ => lookup) (fun _ => Ok (demo_adapter code))
    (fun _ _ _ n => (S n, None)) true true "" "".
Definition endpoint_job : Job :=
  MkJob 1 "binance" "ticker" "all" 7 "BTCUSDT" "" "k" JobStatusRunning 0 0 None None 0 5 ""
    (RawJson (JObject [("endpoint_id", JInt 3)])) "" 0 RawEmpty.

Lemma answer_decides_retry_witness :
  exists e, snd (Execute (demo_collector (Ok ok_symbol) 404) (MkWorld 0%nat [] []) (MkClock 0 0 0 0 0) endpoint_job) = Some e /\
            dead_letter_due endpoint_job (snd (classifyExecutionError e)) = true.
Proof.
  eexists. split; [vm_compute; reflexivity|].
  eapply (answer_decides_retry (demo_collector (Ok ok_symbol) 404) (MkWorld 0%nat [] []) (MkClock 0 0 0 0 0) endpoint_job
            ok_symbol (demo_adapter 404)); [vm_compute; reflexivity..|vm_compute; congruence|vm_compute; reflexivity|].
  vm_compute. reflexivity.
Defined.

(** a failed lookup is final.  Any error of the symbol loader, a timeout of the database
    included, makes the worker send the job to the dead letters on its first attempt: the
    collector marks it as not recoverable, with the kind of a malformed response, although the
    same error from the exchange is retried. *)
Theorem lookup_failure_is_final {S} (c : Collector S) w t job err :
  c_GetSymbolByID c (job_SymbolID job) = Err err ->
  exists e, snd (Execute c w t job) = Some e /\ classifyExecutionError e = (FailureInvalidResponse, false) /\
            errors_Is e DeadlineExceeded = errors_Is err DeadlineExceeded /\
            dead_letter_due job (snd (classifyExecutionError e)) = true /\
            (errors_Is err DeadlineExceeded = true -> snd (classifyExecutionError (classifyCollectorError err)) = true).
Proof.
  intros E. unfold Execute. rewrite E. eexists. split_and!; [reflexivity|done|done|done|].
  intros Hd. unfold classifyCollectorError. by rewrite Hd.
Qed.

Lemma lookup_failure_is_final_witness :
  exists e, snd (Execute (demo_collector (Err (WrapError "query: " DeadlineExceeded "")) 200) (MkWorld 0%nat [] [])
                   (MkClock 0 0 0 0 0) endpoint_job) = Some e /\
            dead_letter_due endpoint_job (snd (classifyExecutionError e)) = true.
Proof.
  destruct (lookup_failure_is_final (demo_collector (Err (WrapError "query: " DeadlineExceeded "")) 200)
              (MkWorld 0%nat [] []) (MkClock 0 0 0 0 0) endpoint_job (WrapError "query: " DeadlineExceeded "") eq_refl)
    as (e & He & _ & _ & Hd & _).
  exists e. split; [exact He|exact Hd].
Defined.
