(* ===== verification/ExchangeCommon.v ===== *)
(** * What the exchange adapters share ([internal/exchanges/common])

    [parse.go], [market_snapshot.go], [types.go], and the parts of the normalisers that the six
    adapters repeat word for word: rows kept when they validate, order-book figures, and the
    five-minute bucket of liquidations. *)

From S2P Require Import Prelude GoString GoTime GoFloat GoFloatSign GoError GoOutcome GoStrconv GoJson GoJsonText.
From S2P Require Import Symbols SchedulerModels Normalizers Collector.

(** ** Parsing ([parse.go]) *)

(** [%T] of the values [json.Unmarshal] makes. *)
Definition type_name (a : any) : string :=
  match a with
  | ANil => "<nil>" | ABool _ => "bool" | AFloat _ => "float64" | AInt _ => "int64" | AString _ => "string"
  | ASlice _ => "[]interface {}" | AMap _ => "map[string]interface {}"
  end.

(** [RawMessage(value)]: what [json.Marshal] makes of the value, nil when it fails. *)
Definition RawMessage_of (v : option json) : RawMessage :=
  match v with Some j => RawJson j | None => RawEmpty end.

(** [ParseFloat]: the value is meaningful beside an error, an infinity when out of range. *)
Definition ParseFloat (value : any) : float64 * option error :=
  match value with
  | AString s =>
    let s := TrimSpace s in
    if (s =? "")%string then (f64_zero, Some (ErrorString "empty numeric string")) else GoStrconv.ParseFloat s
  | AFloat f => (f, None)
  | AInt z => (f64_of_Z z, None)
  | _ => (f64_zero, Some (ErrorString ("unsupported numeric type " +:+ type_name value)))
  end.

Definition FloatPtr (value : any) : result error (option float64) :=
  match value with
  | ANil => Ok None
  | _ =>
    if match value with AString s => (TrimSpace s =? "")%string | _ => false end then Ok None else
    match ParseFloat value with
    | (_, Some e) => Err e
    | (f, None) => Ok (Some f)
    end
  end.

Definition OptionalFloat (value : string) : result error (option float64) :=
  let value := TrimSpace value in
  if (value =? "")%string then Ok None else
  match GoStrconv.ParseFloat value with
  | (_, Some e) => Err e
  | (f, None) => Ok (Some f)
  end.

(** An integer unit of time read from a value. *)
Definition time_of (unit_name : string) (at_ : Z -> Time) (value : any) : Time * option error :=
  match value with
  | AString s =>
    match ParseInt (TrimSpace s) with
    | Some z => (at_ z, None)
    | None => (0, Some (ParseInt_error (TrimSpace s)))
    end
  | AFloat f => (at_ (f64_to_int64 f), None)
  | AInt z => (at_ z, None)
  | _ => (0, Some (ErrorString ("unsupported " +:+ unit_name +:+ " type " +:+ type_name value)))
  end.

Definition MillisToTime (value : any) : Time * option error := time_of "millis" UnixMilli value.
Definition SecondsToTime (value : any) : Time * option error := time_of "seconds" Unix value.

Definition MustTime (r : Time * option error) : Time := match r with (_, Some _) => 0 | (t, None) => t end.

(** ** The helpers each adapter repeats *)

Definition parseFloatSafe (v : any) : float64 := fst (ParseFloat v).
Definition floatPtrSafe (v : any) : option float64 := match FloatPtr v with Ok f => f | Err _ => None end.
Definition intPtr (v : float64) : option Z := Some (f64_to_int64 v).

(** [k[i]]: an index past the end panics. *)
Definition index {A} (k : list A) (i : nat) : outcome A := match k !! i with Some v => Value v | None => Panic end.

(** The notional of a side of the book, over levels whose entries read as numbers by [num]: one turn
    of the loop, and the loop. *)
Definition level_notional {A} (num : A -> float64) (total : float64) (lvl : list A) : outcome float64 :=
  if (length lvl <? 2)%nat then Value total else
  price ← index lvl 0; size ← index lvl 1;
  mret (fadd total (fmul (num price) (num size))).
Fixpoint notional_loop {A} (num : A -> float64) (total : float64) (levels : list (list A)) : outcome float64 :=
  match levels with
  | [] => Value total
  | lvl :: rest => total ← level_notional num total lvl; notional_loop num total rest
  end.
Definition calcOBNotional {A} (num : A -> float64) (levels : list (list A)) : outcome float64 :=
  notional_loop num f64_zero levels.

Definition str_num (s : string) : float64 := parseFloatSafe (AString s).

(** [json.Unmarshal(raw, &x)] with the error wrapped and returned. *)
Definition parse {A} (what : string) (dec : json -> option A) (raw : RawMessage) : outcome A :=
  match Unmarshal dec raw with
  | Some a => Value a
  | None => Fail (WrapError (what +:+ ": ") json_error "")
  end.

(** The cases of [switch dataType]. *)
Definition one_of (dataType : string) (cases : list string) : bool := bool_decide (dataType ∈ cases).

(** [f != 0]; NaN differs from zero. *)
Definition fne0 (f : float64) : bool := negb (feq f f64_zero).

(** The error an exchange reports: [fmt.Errorf("%w: ...", ErrExchangeResponse, ...)]. *)
Definition exchange_error (text : string) : error := WrapError "" ErrExchangeResponse (": " +:+ text).

(** [ratio = buyVol / sellVol], nil when there were no sales. *)
Definition flow_ratio (buyVol sellVol : float64) : option float64 :=
  if fne0 sellVol then Some (fdiv buyVol sellVol) else None.

(** The long/short ratio when both sides are checked. *)
Definition guarded_ratio (long short : option float64) : option float64 :=
  match long, short with
  | Some l, Some s => if fne0 s then Some (fdiv l s) else None
  | _, _ => None
  end.

(** ... and when only the short side is: a nil long side is dereferenced. *)
Definition unguarded_ratio (long short : option float64) : outcome (option float64) :=
  match short with
  | Some s =>
    if fne0 s then match long with Some l => Value (Some (fdiv l s)) | None => Panic end else Value None
  | None => Value None
  end.

(** ** Rows *)
Section rows.
Context `{MapOrder} (exchange : string) (resp : ExchangeResponse) (job : Job) (symbol : Symbol).

Definition body : RawMessage := raw_of_bytes (resp_Body resp).

Definition source_meta (raw : RawMessage) : SourceMeta :=
  MkSourceMeta (sym_ID symbol) exchange (job_SourceSymbol job) (resp_SourceEndpointID resp) raw.

(** [if err := validate(row); err != nil { continue }; result = append(result, row)]. *)
Definition keep_valid {A} (validate : A -> option error) (rows : list A) : list A :=
  filter (fun r => validate r = None) rows.

(** [if err := validate(row); err != nil { return ..., err }]. *)
Definition checked {A} (validate : A -> option error) (row : A) : outcome A :=
  match validate row with Some e => Fail e | None => Value row end.

(** ** [MarketSnapshot] *)

Record MarketSnapshotInput := MkSnapshotInput {
  in_SnapshotTime : Time; in_LastPrice : any; in_MarkPrice : any; in_IndexPrice : any; in_BidPrice : any;
  in_AskPrice : any; in_Volume24h : any; in_QuoteVolume24h : any; in_PriceChangePercent24h : any;
  in_OpenInterest : any; in_FundingRate : any; in_RawData : RawMessage }.

Definition named_float (name : string) (v : any) : outcome (option float64) :=
  match FloatPtr v with Ok f => Value f | Err e => Fail (WrapError (name +:+ ": ") e "") end.

Definition MarketSnapshot (input : MarketSnapshotInput) : outcome NormalizedMarketSnapshot :=
  if IsZero (in_SnapshotTime input) then Fail (ErrorString "missing snapshot_time") else
  lastPrice ← named_float "last_price" (in_LastPrice input);
  markPrice ← named_float "mark_price" (in_MarkPrice input);
  indexPrice ← named_float "index_price" (in_IndexPrice input);
  bidPrice ← named_float "bid_price" (in_BidPrice input);
  askPrice ← named_float "ask_price" (in_AskPrice input);
  volume ← named_float "volume_24h" (in_Volume24h input);
  quoteVolume ← named_float "quote_volume_24h" (in_QuoteVolume24h input);
  priceChange ← named_float "price_change_percent_24h" (in_PriceChangePercent24h input);
  openInterest ← named_float "open_interest" (in_OpenInterest input);
  fundingRate ← named_float "funding_rate" (in_FundingRate input);
  let rawData := if raw_is_empty (in_RawData input) then body else in_RawData input in
  checked ValidateMarketSnapshot
    (MkMarketSnapshot (source_meta rawData) (in_SnapshotTime input) lastPrice markPrice indexPrice bidPrice
       askPrice volume quoteVolume priceChange openInterest fundingRate).

Definition snapshot_result (input : MarketSnapshotInput) : outcome NormalizedResult :=
  s ← MarketSnapshot input; mret (MkNormalizedResult [s] [] [] [] [] [] [] [] [] [] [] [] []).

(** ** Order books *)

(** [levels[0][0]]. *)
Definition level0 {A} (num : A -> float64) (levels : list (list A)) : outcome float64 :=
  level ← index levels 0; x ← index level 0; mret (num x).

Definition nonempty {A} (l : list A) : bool := match l with [] => false | _ => true end.

Definition mid_price {A} (num : A -> float64) (bids asks : list (list A)) : outcome (option float64) :=
  if nonempty bids && nonempty asks then
    bestBid ← level0 num bids; bestAsk ← level0 num asks;
    mret (if fgt bestAsk f64_zero then Some (fdiv (fadd bestBid bestAsk) (f64_of_Z 2)) else None)
  else mret None.

Definition spread_bps {A} (num : A -> float64) (bids asks : list (list A)) (mid : option float64)
    : outcome (option float64) :=
  match mid with
  | Some m =>
    if fgt m f64_zero then
      bestBid ← level0 num bids; bestAsk ← level0 num asks;
      mret (Some (fmul (fdiv (fsub bestAsk bestBid) m) (f64_of_Z 10000)))
    else mret None
  | None => mret None
  end.

Definition imbalance (bidNotional askNotional : float64) : option float64 :=
  if fgt (fadd bidNotional askNotional) f64_zero
  then Some (fdiv (fsub bidNotional askNotional) (fadd bidNotional askNotional)) else None.

(** The row of a book, after [json.Unmarshal]. *)
Definition orderbook_result {A} (num : A -> float64) (snapshotTime : Time) (raw : RawMessage) (bids asks : list (list A))
    : outcome NormalizedResult :=
  bidNotional ← calcOBNotional num bids;
  askNotional ← calcOBNotional num asks;
  midPrice ← mid_price num bids asks;
  spreadBPS ← spread_bps num bids asks midPrice;
  obi ← checked ValidateOrderbookImbalance
    (MkOrderbookImbalance (source_meta raw) snapshotTime 10 midPrice spreadBPS None (Some bidNotional)
       (Some askNotional) None None None None None None None None (imbalance bidNotional askNotional) None);
  mret (MkNormalizedResult [] [] [] [] [] [] [] [] [] [] [] [obi] []).

(** ** Liquidations *)

(** What one item of a payload becomes. *)
Record liquidation := MkLiquidation { lq_event : NormalizedLiquidationEvent; lq_notional : float64; lq_long : bool }.

Definition notional_of (price qty : option float64) : float64 :=
  match price, qty with Some p, Some q => fmul p q | _, _ => f64_zero end.

Definition liquidation_event (raw : RawMessage) (key : string) (eventTime : Time) (side : string)
    (price qty : option float64) (notional : float64) : NormalizedLiquidationEvent :=
  MkLiquidationEvent (source_meta raw) key eventTime side price qty (Some notional) (Some notional) "" "".

(** A fresh bucket. *)
Definition new_bucket (bucketTime : Time) : NormalizedLiquidationAggregate :=
  MkLiquidationAggregate (MkSourceMeta (sym_ID symbol) exchange (job_SourceSymbol job) 0 RawEmpty) "5m" bucketTime
    0 0 f64_zero f64_zero f64_zero f64_zero f64_zero f64_zero f64_zero.

Definition add_liquidation (notional : float64) (long : bool) (a : NormalizedLiquidationAggregate)
    : NormalizedLiquidationAggregate :=
  MkLiquidationAggregate (la_Meta a) (la_Period a) (la_BucketTime a)
    (if long then la_LongLiquidationCount a + 1 else la_LongLiquidationCount a)
    (if long then la_ShortLiquidationCount a else la_ShortLiquidationCount a + 1)
    (if long then fadd (la_LongLiquidationNotional a) notional else la_LongLiquidationNotional a)
    (if long then la_ShortLiquidationNotional a else fadd (la_ShortLiquidationNotional a) notional)
    (fadd (la_TotalLiquidationNotional a) notional)
    (if long then fadd (la_LongLiquidationUSD a) notional else la_LongLiquidationUSD a)
    (if long then la_ShortLiquidationUSD a else fadd (la_ShortLiquidationUSD a) notional)
    (fadd (la_TotalLiquidationUSD a) notional)
    (if fgt notional (la_LargestLiquidationUSD a) then notional else la_LargestLiquidationUSD a).

Definition bucket_time : Time := Truncate (resp_CapturedAt resp) (5 * Minute).

(** One turn of the loop over the items: the events so far and [bucketMap]. *)
Definition liquidation_step (st : list NormalizedLiquidationEvent * gmap string NormalizedLiquidationAggregate)
    (x : liquidation) : list NormalizedLiquidationEvent * gmap string NormalizedLiquidationAggregate :=
  match ValidateLiquidationEvent (lq_event x) with
  | Some _ => st
  | None =>
    let key := FormatRFC3339 bucket_time in
    let agg := default (new_bucket bucket_time) (snd st !! key) in
    ((fst st ++ [lq_event x])%list, <[key := add_liquidation (lq_notional x) (lq_long x) agg]> (snd st))
  end.

(** [agg.SourceEndpointID = resp.SourceEndpointID; agg.RawData = resp.Body]. *)
Definition complete_bucket (a : NormalizedLiquidationAggregate) : NormalizedLiquidationAggregate :=
  MkLiquidationAggregate
    (MkSourceMeta (src_SymbolID (la_Meta a)) (src_Exchange (la_Meta a)) (src_SourceSymbol (la_Meta a))
       (resp_SourceEndpointID resp) body)
    (la_Period a) (la_BucketTime a) (la_LongLiquidationCount a) (la_ShortLiquidationCount a)
    (la_LongLiquidationNotional a) (la_ShortLiquidationNotional a) (la_TotalLiquidationNotional a)
    (la_LongLiquidationUSD a) (la_ShortLiquidationUSD a) (la_TotalLiquidationUSD a) (la_LargestLiquidationUSD a).

(** The loop and the tail of every [normalizeLiquidation]; only one adapter validates its
    aggregates ([check]). *)
Definition liquidation_result (check : bool) (items : list liquidation) : NormalizedResult :=
  let '(events, bucketMap) := foldl liquidation_step ([], ∅) items in
  let aggs := map complete_bucket (map snd (iterate (map_to_list bucketMap))) in
  MkNormalizedResult [] [] [] [] [] [] [] [] events
    (if check then keep_valid ValidateLiquidationAggregate aggs else aggs) [] [] [].
End rows.

(** ** What a normalised result promises *)
Section promises.
Context `{MapOrder} (exchange : string) (resp : ExchangeResponse) (job : Job) (symbol : Symbol).

(** The row says where it comes from. *)
Definition meta_ok (m : SourceMeta) : Prop :=
  src_SymbolID m = sym_ID symbol /\ src_Exchange m = exchange /\
  src_SourceSymbol m = job_SourceSymbol job /\ src_SourceEndpointID m = resp_SourceEndpointID resp.

Definition rows_ok {A} (meta : A -> SourceMeta) (validate : A -> option error) (l : list A) : Prop :=
  Forall (fun r => meta_ok (meta r) /\ validate r = None) l.

(** The ordered sum of the notionals of events. *)
Definition event_total (events : list NormalizedLiquidationEvent) : float64 :=
  foldl (fun total e => fadd total (default f64_zero (le_Notional e))) f64_zero events.

(** Liquidation events come with exactly one bucket, of the five minutes of the capture, which counts
    every one of them once and totals their notionals. *)
Definition bucket_covers (x : NormalizedResult) : Prop :=
  match nr_LiquidationAggregates x with
  | [] => nr_LiquidationEvents x = []
  | [a] => nr_LiquidationEvents x <> [] /\ la_BucketTime a = bucket_time resp /\
      la_LongLiquidationCount a + la_ShortLiquidationCount a = Z.of_nat (length (nr_LiquidationEvents x)) /\
      la_TotalLiquidationNotional a = event_total (nr_LiquidationEvents x)
  | _ => False
  end.

Record normalized_ok (x : NormalizedResult) : Prop := MkNormalizedOk {
  no_snapshots : rows_ok ms_Meta ValidateMarketSnapshot (nr_MarketSnapshots x);
  no_klines : rows_ok kl_Meta ValidateKline (nr_Klines x);
  no_open_interest : rows_ok oi_Meta (fun r => ValidateOpenInterest r false) (nr_OpenInterest x);
  no_ratios : rows_ok ls_Meta ValidateLongShortRatio (nr_LongShortRatios x);
  no_flows : rows_ok tf_Meta ValidateTakerFlow (nr_TakerFlows x);
  no_events : rows_ok le_Meta ValidateLiquidationEvent (nr_LiquidationEvents x);
  no_aggregates : rows_ok la_Meta ValidateLiquidationAggregate (nr_LiquidationAggregates x);
  no_basis : rows_ok bp_Meta ValidateBasisPremium (nr_BasisPremiums x);
  no_books : rows_ok ob_Meta ValidateOrderbookImbalance (nr_OrderbookImbalances x);
  no_buckets : bucket_covers x;
  no_others : nr_FundingSnapshots x = [] /\ nr_FundingHistory x = [] /\ nr_CVDSnapshots x = [] /\
    nr_ExchangeDivergences x = [] }.
End promises.

(** ** Lemmas: validators *)

Lemma first_error_app cs ds : first_error (cs ++ ds) = None <-> first_error cs = None /\ first_error ds = None.
Proof. rewrite !first_error_None. apply Forall_app. Qed.

Lemma history_valid oi : ValidateOpenInterest oi true = None -> ValidateOpenInterest oi false = None.
Proof. unfold ValidateOpenInterest. rewrite !first_error_app. tauto. Qed.

(** Neither negative nor refused: zero, positive or NaN. *)
Definition notneg (x : float64) : Prop := flt x f64_zero = false.

Lemma notneg_cases x : notneg x <-> is_nan x = true \/ nonneg x = true.
Proof.
  unfold notneg. destruct x as [[]|[]| |[] m e]; vm_compute; (split; [|intros [?|?]]); auto; done.
Qed.

Lemma fadd_notneg x y : notneg x -> notneg y -> notneg (fadd x y).
Proof.
  rewrite !notneg_cases. destruct x as [[]|[]| |[] m e], y as [[]|[]| |[] m' e']; simpl; intros [?|?] [?|?]; try done; auto.
  right. apply rounded_nonneg, binary_round_spec.
Qed.

Section promise_lemmas.
Context `{MapOrder} (exchange : string) (resp : ExchangeResponse) (job : Job) (symbol : Symbol).
Abbreviation ok := (normalized_ok exchange resp job symbol).
Abbreviation rows := (rows_ok exchange resp job symbol).

Lemma required_None l : required l = None <-> Forall (fun nv => notneg (snd nv)) l.
Proof.
  unfold required, optionals. rewrite check_map_None, Forall_map. apply Forall_iff. intros [n v].
  unfold notneg. simpl. unfold ValidateNonNegative. by destruct (flt v f64_zero).
Qed.

(** The rows kept by a loop are valid and carry the source their builder wrote. *)
Lemma keep_valid_meta {A} (meta : A -> SourceMeta) validate l :
  Forall (fun r => exists raw, meta r = source_meta exchange resp job symbol raw) l ->
  rows meta validate (keep_valid validate l).
Proof.
  rewrite Forall_forall. intros Hm. apply Forall_forall. intros r [Hv Hr]%list_elem_of_filter.
  destruct (Hm r Hr) as [raw ->]. by split.
Qed.

Lemma keep_valid_rows {A B} (meta : A -> SourceMeta) validate (row : B -> A) items :
  (forall i, exists raw, meta (row i) = source_meta exchange resp job symbol raw) ->
  rows meta validate (keep_valid validate (map row items)).
Proof. intros Hm. by apply keep_valid_meta, Forall_map, Forall_true. Qed.

Lemma keep_valid_mapM {A B} (meta : A -> SourceMeta) validate (row : B -> outcome A) items rs :
  (forall i r, row i = Value r -> exists raw, meta r = source_meta exchange resp job symbol raw) ->
  mapM row items = Value rs -> rows meta validate (keep_valid validate rs).
Proof.
  intros Hm Hr%mapM_Value. apply keep_valid_meta, Forall_forall.
  intros r [k Hk]%list_elem_of_lookup. destruct (Forall2_lookup_r _ _ _ _ _ Hr Hk) as (i & _ & Hi). eauto.
Qed.

Lemma checked_Value {A} (validate : A -> option error) r r' : checked validate r = Value r' -> r' = r /\ validate r = None.
Proof. unfold checked. destruct (validate r); [done|]. by intros [= ->]. Qed.

Lemma checked_row {A} (meta : A -> SourceMeta) validate r r' raw :
  checked validate r = Value r' -> meta r = source_meta exchange resp job symbol raw -> rows meta validate [r'].
Proof. intros [-> Hv]%checked_Value Hm. constructor; [|constructor]. by rewrite Hm. Qed.

Lemma empty_rows {A} (meta : A -> SourceMeta) validate : rows meta validate [].
Proof. constructor. Qed.

Lemma snapshot_result_ok input x :
  snapshot_result exchange resp job symbol input = Value x -> ok x.
Proof.
  intros Hx. unfold snapshot_result in Hx. apply bind_Value in Hx as [s [Hs Hx]]. inv_value.
  split; simpl; auto using empty_rows; [|exact eq_refl]. unfold MarketSnapshot in Hs.
  destruct (IsZero _); [done|]. inv_value. eapply checked_row; [exact Hs|done].
Qed.

Lemma orderbook_result_ok {A} (num : A -> float64) t raw bids asks x :
  orderbook_result exchange resp job symbol num t raw bids asks = Value x -> ok x.
Proof.
  intros Hx. unfold orderbook_result in Hx. inv_value.
  split; simpl; auto using empty_rows; [|exact eq_refl]. eapply checked_row; [eassumption|done].
Qed.

(** ** Lemmas: liquidations *)

Definition valid_liquidations (items : list liquidation) : list liquidation :=
  filter (fun x => ValidateLiquidationEvent (lq_event x) = None) items.

Definition bucket_of (l : list liquidation) : NormalizedLiquidationAggregate :=
  foldl (fun a x => add_liquidation (lq_notional x) (lq_long x) a) (new_bucket exchange job symbol (bucket_time resp)) l.

(** The map holds the one bucket as soon as there is an event. *)
Definition bucket_map (l : list liquidation) : gmap string NormalizedLiquidationAggregate :=
  if nonempty l then {[ FormatRFC3339 (bucket_time resp) := bucket_of l ]} else ∅.

Lemma liquidation_fold items :
  foldl (liquidation_step exchange resp job symbol) ([], ∅) items
  = (map lq_event (valid_liquidations items), bucket_map (valid_liquidations items)).
Proof.
  induction items as [|x l IH] using rev_ind; [done|]. rewrite foldl_snoc, IH.
  unfold valid_liquidations, liquidation_step. rewrite filter_app, filter_cons, filter_nil. simpl.
  destruct (ValidateLiquidationEvent (lq_event x)) eqn:E; simpl; [by rewrite app_nil_r|].
  set (v := filter _ l). rewrite map_app. f_equal.
  unfold bucket_map, bucket_of. rewrite foldl_snoc.
  destruct v as [|y v]; simpl; [by rewrite lookup_empty|].
  by rewrite lookup_singleton_eq, insert_singleton_eq.
Qed.

Lemma iterate_singleton {A} (a : A) : iterate [a] = [a].
Proof. apply Permutation_length_1_inv, symmetry, iterate_perm. Qed.
Lemma iterate_nil {A} : iterate (@nil A) = [].
Proof. apply Permutation_nil, symmetry, iterate_perm. Qed.

(** What a liquidation payload becomes: the valid events in order, and one bucket over them. *)
Lemma liquidation_result_eq check items :
  let v := valid_liquidations items in
  let aggs := if nonempty v then [complete_bucket resp (bucket_of v)] else [] in
  liquidation_result exchange resp job symbol check items
  = MkNormalizedResult [] [] [] [] [] [] [] [] (map lq_event v)
      (if check then keep_valid ValidateLiquidationAggregate aggs else aggs) [] [] [].
Proof.
  simpl. unfold liquidation_result. rewrite liquidation_fold. unfold bucket_map.
  destruct (nonempty _).
  - by rewrite map_to_list_singleton, iterate_singleton.
  - by rewrite map_to_list_empty, iterate_nil.
Qed.

(** Invariants of the bucket: fixed identity, counts that add up, sums of non-negative amounts. *)
Definition bucket_amounts (a : NormalizedLiquidationAggregate) : list float64 :=
  [ la_LongLiquidationNotional a; la_ShortLiquidationNotional a; la_TotalLiquidationNotional a; la_LongLiquidationUSD a;
    la_ShortLiquidationUSD a; la_TotalLiquidationUSD a; la_LargestLiquidationUSD a ].

Lemma add_liquidation_amounts n long a :
  notneg n -> Forall notneg (bucket_amounts a) -> Forall notneg (bucket_amounts (add_liquidation n long a)).
Proof.
  intros Hn Ha. unfold bucket_amounts in *. rewrite !Forall_cons in *.
  destruct Ha as (?&?&?&?&?&?&?&_). destruct long; simpl; destruct (fgt n _);
    repeat split; auto using fadd_notneg; constructor.
Qed.

Lemma bucket_of_snoc l x :
  bucket_of (l ++ [x]) = add_liquidation (lq_notional x) (lq_long x) (bucket_of l).
Proof. unfold bucket_of. by rewrite foldl_snoc. Qed.

Lemma bucket_of_amounts l :
  Forall (fun x => notneg (lq_notional x)) l -> Forall notneg (bucket_amounts (bucket_of l)).
Proof.
  induction l as [|x l IH] using rev_ind.
  - intros _. repeat constructor; vm_compute; done.
  - rewrite Forall_app, Forall_singleton. intros [Hl Hx]. rewrite bucket_of_snoc.
    apply add_liquidation_amounts; [exact Hx|exact (IH Hl)].
Qed.

Lemma bucket_of_identity l :
  la_Meta (bucket_of l) = MkSourceMeta (sym_ID symbol) exchange (job_SourceSymbol job) 0 RawEmpty /\
  la_Period (bucket_of l) = "5m" /\ la_BucketTime (bucket_of l) = bucket_time resp.
Proof. induction l as [|x l IH] using rev_ind; [done|]. by rewrite bucket_of_snoc. Qed.

Lemma bucket_of_count_sum l :
  la_LongLiquidationCount (bucket_of l) + la_ShortLiquidationCount (bucket_of l) = Z.of_nat (length l).
Proof.
  induction l as [|x l IH] using rev_ind; [done|]. rewrite bucket_of_snoc, length_app. simpl.
  destruct (lq_long x); simpl; lia.
Qed.

(** The loop built each event with the notional it adds to the bucket. *)
Definition built (x : liquidation) : Prop :=
  exists raw key t side price qty,
    lq_event x = liquidation_event exchange resp job symbol raw key t side price qty (lq_notional x).

Lemma built_valid x : built x -> ValidateLiquidationEvent (lq_event x) = None ->
  notneg (lq_notional x) /\ ValidateSource (source_meta exchange resp job symbol RawEmpty) = None.
Proof.
  intros (raw & key & t & side & price & qty & ->) Hv. unfold ValidateLiquidationEvent in Hv.
  rewrite first_error_None, !Forall_cons in Hv. destruct Hv as (Hs & _ & _ & _ & _ & _ & Hn & _).
  split; [|exact Hs]. cbn in Hn. unfold ValidateNonNegative in Hn. unfold notneg. by destruct (flt _ _).
Qed.

Lemma bucket_of_total l : Forall built l -> la_TotalLiquidationNotional (bucket_of l) = event_total (map lq_event l).
Proof.
  induction l as [|x l IH] using rev_ind; [done|]. rewrite Forall_app, Forall_singleton. intros [Hl Hx].
  unfold event_total in *. rewrite bucket_of_snoc, map_app, foldl_app. simpl. rewrite <- IH by done.
  by destruct Hx as (?&?&?&?&?&?&->).
Qed.

Lemma bucket_time_ok : 5 * Minute <= resp_CapturedAt resp -> IsZero (bucket_time resp) = false.
Proof.
  intros Hc. apply Z.eqb_neq. unfold bucket_time.
  pose proof (Truncate_bounds (resp_CapturedAt resp) (5 * Minute) ltac:(unfold Minute, Second; lia)).
  unfold Minute, Second in *. lia.
Qed.

Lemma bucket_valid v x :
  5 * Minute <= resp_CapturedAt resp -> x ∈ v ->
  Forall (fun x => built x /\ ValidateLiquidationEvent (lq_event x) = None) v ->
  ValidateLiquidationAggregate (complete_bucket resp (bucket_of v)) = None.
Proof.
  intros Hc Hx Hv. pose proof (bucket_of_identity v) as (Hm & Hp & Ht).
  assert (Forall (fun x => notneg (lq_notional x)) v) as Hn%bucket_of_amounts.
  { eapply Forall_impl; [exact Hv|]. intros y [Hb He]. by apply (built_valid y). }
  rewrite Forall_forall in Hv. destruct (Hv x Hx) as [Hb He]. destruct (built_valid x Hb He) as [_ Hs].
  unfold bucket_amounts in Hn. rewrite !Forall_cons in Hn. destruct Hn as (?&?&?&?&?&?&?&_).
  unfold ValidateLiquidationAggregate. apply first_error_None. rewrite !Forall_cons. repeat split; [..|constructor].
  - simpl. by rewrite Hm.
  - simpl. rewrite Ht. unfold ValidateTimestamp. by rewrite bucket_time_ok.
  - simpl. by rewrite Hp.
  - apply required_None. rewrite !Forall_cons. repeat split; auto; constructor.
Qed.

Lemma liquidation_result_ok check items :
  5 * Minute <= resp_CapturedAt resp -> Forall built items ->
  ok (liquidation_result exchange resp job symbol check items).
Proof.
  intros Hc Hb. rewrite liquidation_result_eq. set (v := valid_liquidations items).
  assert (Forall (fun x => built x /\ ValidateLiquidationEvent (lq_event x) = None) v) as Hv.
  { apply Forall_forall. intros x [He Hx]%list_elem_of_filter. split; [|done]. by eapply Forall_forall in Hb. }
  assert (rows la_Meta ValidateLiquidationAggregate
            (if nonempty v then [complete_bucket resp (bucket_of v)] else [])) as Ha.
  { destruct v as [|x v'] eqn:E; [constructor|]. rewrite <- E in *. rewrite E at 1. simpl. constructor; [|constructor]. split.
    - simpl. by destruct (bucket_of_identity v) as (-> & _ & _).
    - apply (bucket_valid v x); [done| |done]. rewrite E. left. }
  assert ((if check then keep_valid ValidateLiquidationAggregate
             (if nonempty v then [complete_bucket resp (bucket_of v)] else [])
           else if nonempty v then [complete_bucket resp (bucket_of v)] else [])
          = if nonempty v then [complete_bucket resp (bucket_of v)] else []) as ->.
  { destruct check; [|done]. apply filter_all. eapply Forall_impl; [exact Ha|]. by intros r [_ Hr]. }
  split; simpl; auto using empty_rows.
  - apply Forall_map. eapply Forall_impl; [exact Hv|]. simpl. intros x [(?&?&?&?&?&?&->) He]. done.
  - unfold bucket_covers. simpl. pose proof (bucket_of_identity v) as (_ & _ & Ht).
    pose proof (bucket_of_count_sum v). assert (Forall built v) as Hbv%bucket_of_total by (eapply Forall_impl; [exact Hv|naive_solver]).
    clearbody v. assert (v = [] \/ (nonempty v = true /\ map lq_event v <> [])) as [->|[-> Hne]]
      by (destruct v; [by left|by right]); [done|].
    by rewrite length_map.
Qed.
End promise_lemmas.

(** ** Lemmas: panics *)

(** Both sides have a level and the best of one of them is empty. *)
Definition malformed_book {A} (bids asks : list (list A)) : bool :=
  match bids, asks with
  | b :: _, a :: _ => negb (nonempty b) || negb (nonempty a)
  | _, _ => false
  end.

Lemma named_float_no_panic name v : named_float name v <> Panic.
Proof. unfold named_float. by destruct (FloatPtr v). Qed.
Lemma checked_no_panic {A} (validate : A -> option error) r : checked validate r <> Panic.
Proof. unfold checked. by destruct (validate r). Qed.
Lemma parse_no_panic {A} what (dec : json -> option A) raw : parse what dec raw <> Panic.
Proof. unfold parse. by destruct (Unmarshal dec raw). Qed.
Lemma unguarded_ratio_panic long short :
  unguarded_ratio long short = Panic <-> long = None /\ exists s, short = Some s /\ fne0 s = true.
Proof.
  unfold unguarded_ratio. destruct short as [s|]; [|by split; [|intros (_ & ? & ? & _)]].
  destruct (fne0 s) eqn:E; [|by split; [|intros (_ & ? & [= <-] & ?); congruence]].
  destruct long; split; try done; [by intros [? _]|by eauto].
Qed.

Lemma unguarded_ratio_no_fail long short e : unguarded_ratio long short <> Fail e.
Proof. unfold unguarded_ratio. destruct short as [s|]; [destruct (fne0 s); [destruct long|]|]; done. Qed.

Lemma index_lt {A} (k : list A) i : (i < length k)%nat -> exists v, index k i = Value v.
Proof. intros Hi. apply lookup_lt_is_Some_2 in Hi as [v Hv]. exists v. unfold index. by rewrite Hv. Qed.

Lemma calcOBNotional_value {A} (num : A -> float64) levels : exists total, calcOBNotional num levels = Value total.
Proof.
  unfold calcOBNotional. generalize f64_zero. induction levels as [|lvl levels IH]; intros total; [by eexists|].
  cbn [notional_loop]. unfold level_notional. destruct (Nat.ltb_spec (length lvl) 2); [apply IH|].
  destruct (index_lt lvl 0) as [a ->]; [lia|]. destruct (index_lt lvl 1) as [b ->]; [lia|]. apply IH.
Qed.

Lemma mapM_no_panic {A B} (f : A -> outcome B) l : Forall (fun x => f x <> Panic) l -> mapM f l <> Panic.
Proof.
  induction 1 as [|x l Hx Hl IH]; [done|]. cbn [mapM]. apply bind_no_panic; [done|]. intros y.
  apply bind_no_panic; [done|]. intros ys. apply ret_no_panic.
Qed.

Lemma parsed_no_panic {A B} what (dec : json -> option A) raw (k : A -> outcome B) :
  (forall v a, dec v = Some a -> k a <> Panic) -> parse what dec raw ≫= k <> Panic.
Proof.
  intros Hk. unfold parse. destruct (Unmarshal dec raw) as [a|] eqn:E; [|by intros [=]].
  unfold Unmarshal in E. destruct raw; try done. by eapply Hk.
Qed.

(** The loops over indexed rows of known lengths. *)
Lemma parsed_rows_no_panic {A B} what (dec : json -> option (list A)) raw (P : A -> Prop) (row : A -> outcome B) C (k : list B -> C) :
  (forall v rows, dec v = Some rows -> Forall P rows) -> (forall x, P x -> row x <> Panic) ->
  (rows ← parse what dec raw; rs ← mapM row rows; mret (k rs)) <> Panic.
Proof.
  intros Hd Hr. apply parsed_no_panic. intros v rows Hv. apply bind_no_panic; [|intros; apply ret_no_panic].
  apply mapM_no_panic. eapply Forall_impl; [by eapply Hd|done].
Qed.

Lemma filtered_no_panic {A B} (P : A -> Prop) `{!forall x, Decision (P x)} (row : A -> outcome B) rows :
  (forall x, P x -> row x <> Panic) -> mapM row (filter P rows) <> Panic.
Proof. intros Hr. apply mapM_no_panic, Forall_forall. intros x [Hx _]%list_elem_of_filter. auto. Qed.

(** Index an element within the length. *)
Ltac indexed :=
  repeat match goal with |- context [index ?k ?i] =>
    let v := fresh "v" in let H := fresh "H" in destruct (index_lt k i) as [v H]; [lia|]; rewrite H; clear H; simpl
  end.

Lemma all_some_Forall {A} (P : A -> Prop) l r :
  all_some l = Some r -> Forall (fun o => forall a, o = Some a -> P a) l -> Forall P r.
Proof.
  revert r. induction l as [|[a|] l IH]; intros r Hr Hl; [by injection Hr as <-| |done].
  cbn [all_some] in Hr. destruct (all_some l) as [r'|]; [|done]. injection Hr as <-.
  apply Forall_cons in Hl as [Ha Hl]. constructor; [by apply Ha|by apply IH].
Qed.

Lemma slice_arrays n v rows : slice (array_any n) v = Some rows -> Forall (fun k => length k = n) rows.
Proof.
  unfold slice, fresh, dec_slice. destruct v; try done; [intros [= <-]; constructor|].
  destruct (all_some _) as [r|] eqn:E; [|done]. intros [= <-]. eapply all_some_Forall; [exact E|].
  apply Forall_map, Forall_forall. intros x _ a. apply array_any_length.
Qed.

Create HintDb nopanic.
#[export] Hint Resolve named_float_no_panic checked_no_panic parse_no_panic value_no_panic fail_no_panic ret_no_panic
  if_no_panic bind_no_panic : nopanic.

Section panics.
Context `{MapOrder} (exchange : string) (resp : ExchangeResponse) (job : Job) (symbol : Symbol).

Lemma snapshot_no_panic input : snapshot_result exchange resp job symbol input <> Panic.
Proof.
  unfold snapshot_result. apply bind_no_panic; [|intros; apply ret_no_panic]. unfold MarketSnapshot.
  apply if_no_panic; [apply fail_no_panic|].
  repeat (apply bind_no_panic; [apply named_float_no_panic|intros]). apply checked_no_panic.
Qed.

Lemma orderbook_result_panic {A} (num : A -> float64) t raw bids asks :
  orderbook_result exchange resp job symbol num t raw bids asks = Panic <-> malformed_book bids asks = true.
Proof.
  unfold orderbook_result. destruct (calcOBNotional_value num bids) as [bn ->], (calcOBNotional_value num asks) as [an ->].
  rewrite !Value_bind.
  destruct bids as [|[|b bs] bids], asks as [|[|a as_] asks]; simpl;
    (split; [|done]); try done; intros Hp; exfalso; revert Hp.
  all: repeat (apply bind_no_panic; [|intros]); eauto with nopanic.
  destruct (fgt _ _); simpl; [|eauto with nopanic]. eauto 10 with nopanic.
Qed.

End panics.

#[export] Hint Resolve snapshot_no_panic : nopanic.

(** ** Adapters ([adapter.go], [types.go]) *)

Definition NormalizerFunc : Type := string -> ExchangeResponse -> Job -> Symbol -> outcome NormalizedResult.

Record BaseAdapter := MkBaseAdapter { ExchangeName : string; Normalizer : option NormalizerFunc }.

Definition Exchange (a : BaseAdapter) : string := ToLower (TrimSpace (ExchangeName a)).

Definition BaseAdapter_Normalize (a : BaseAdapter) (dataType : string) (resp : ExchangeResponse) (job : Job) (symbol : Symbol)
    : outcome NormalizedResult :=
  match Normalizer a with
  | None => Fail ErrUnsupportedDataType
  | Some f => f dataType resp job symbol
  end.

(** The data types whose normalisers index or dereference without a check. *)
Definition unguarded_types : list string := ["orderbook"; "orderbook_imbalance"; "long_short_ratio"].

(** What the collector relies on of a normaliser: every row it returns says where it comes from and
    passes its validator (the response was captured later than the first minutes of year one), it
    returns nothing for a type it does not list, and it panics only where it does not check. *)
Class NormalizerLaws `{MapOrder} (exchange : string) (supported : list string) (f : NormalizerFunc) : Prop := {
  law_rows dt resp job symbol x :
    5 * Minute <= resp_CapturedAt resp -> f dt resp job symbol = Value x -> normalized_ok exchange resp job symbol x;
  law_supported dt resp job symbol x : f dt resp job symbol = Value x -> dt ∈ supported;
  law_panic dt resp job symbol : f dt resp job symbol = Panic -> dt ∈ unguarded_types }.

(** ** Automation for the adapters *)

Create HintDb adapters.

Lemma one_of_incl dt cases supported : one_of dt cases = true -> forallb (fun c => one_of c supported) cases = true -> dt ∈ supported.
Proof.
  unfold one_of. rewrite bool_decide_eq_true, forallb_forall. intros Hd Hs.
  specialize (Hs dt). rewrite bool_decide_eq_true in Hs. apply Hs. by apply list_elem_of_In.
Qed.

(** The rows of a result, list by list. *)
Ltac solve_rows :=
  solve [ apply empty_rows | eapply keep_valid_rows; intros; eexists; reflexivity
        | eapply keep_valid_mapM; [|eassumption]; eauto with adapters
        | eapply checked_row; [eassumption | reflexivity] | exact eq_refl | auto ].

(** A normaliser that returned a value returned good rows. *)
Tactic Notation "solve_normalizer" reference(f) :=
  intros; unfold f in *; cbv zeta in *; inv_value;
  first [ eapply snapshot_result_ok; eassumption
        | eapply orderbook_result_ok; eassumption
        | eapply liquidation_result_ok; [assumption|apply Forall_map, Forall_true; intros; repeat eexists]
        | split; simpl; solve_rows ].

(** A row says where it comes from; a loop over rows that are long enough does not panic. *)
Tactic Notation "row_meta" reference(f) := unfold f; intros; inv_value; by eexists.
Tactic Notation "rows_no_panic" reference(f) reference(row) :=
  unfold f; apply parsed_no_panic; intros; apply bind_no_panic; [|intros; apply ret_no_panic];
  apply filtered_no_panic; unfold row; intros; simpl in *; indexed; done.
Tactic Notation "arrays_no_panic" reference(f) reference(row) :=
  unfold f; eapply parsed_rows_no_panic; [apply slice_arrays|unfold row; intros; simpl in *; indexed; done].

(** The cases of [switch dataType], each with the lemma of its normaliser. *)
Tactic Notation "by_cases" reference(f) tactic3(lem) :=
  let Hv := fresh "Hv" in intros Hv; unfold f in Hv; inv_value; by lem.
Tactic Notation "solve_supported" reference(f) :=
  let Hv := fresh "Hv" in intros Hv; unfold f in Hv; inv_value;
  match goal with E : one_of _ _ = true |- _ => apply (one_of_incl _ _ _ E); reflexivity end.
Ltac head_of t := lazymatch t with ?f _ => head_of f | _ => t end.
(** Outside the unguarded cases no step panics. *)
Ltac no_panic :=
  first [solve [eauto with nopanic] | match goal with |- ?t <> Panic => let h := head_of t in unfold h end | idtac]; cbv zeta;
  repeat first
    [ apply parse_no_panic | apply snapshot_no_panic | apply checked_no_panic | apply ret_no_panic | apply fail_no_panic
    | apply value_no_panic | solve [eauto with nopanic] | apply bind_no_panic; [|intros] | apply if_no_panic | case_match ].
Tactic Notation "solve_panics" reference(f) :=
  let Hp := fresh "Hp" in intros Hp; unfold f in Hp; inv_panic;
  first [ match goal with E : one_of _ _ = true |- _ => apply (one_of_incl _ _ _ E); reflexivity end
        | match goal with Hp : ?m = Panic |- _ => exfalso; revert Hp; change (m <> Panic); no_panic end ].
