(* ===== verification/Binance.v ===== *)
(** * The Binance adapter ([internal/exchanges/binance/adapter.go]) *)

From S2P Require Import Prelude GoString GoTime GoFloat GoError GoOutcome GoJson GoJsonText.
From S2P Require Import Symbols SchedulerModels Normalizers Collector ExchangeCommon.

(** ** Payloads *)

Record errorEnvelope := MkErrorEnvelope { env_Code : option Z; env_Msg : string }.
Definition dec_errorEnvelope (v : json) : option errorEnvelope :=
  code ← int_ptr_field "code" v; msg ← str_field "msg" v; mret (MkErrorEnvelope code msg).

Record tickerResponse := MkTicker {
  tk_Symbol : string; tk_LastPrice : string; tk_MarkPrice : string; tk_IndexPrice : string; tk_BidPrice : string;
  tk_AskPrice : string; tk_Volume : string; tk_QuoteVolume : string; tk_PriceChangePercent : string;
  tk_OpenInterest : string; tk_FundingRate : string; tk_CloseTime : Z; tk_Time : Z }.
Definition dec_tickerResponse (v : json) : option tickerResponse :=
  symbol ← str_field "symbol" v; lastPrice ← str_field "lastPrice" v; markPrice ← str_field "markPrice" v;
  indexPrice ← str_field "indexPrice" v; bidPrice ← str_field "bidPrice" v; askPrice ← str_field "askPrice" v;
  volume ← str_field "volume" v; quoteVolume ← str_field "quoteVolume" v;
  change ← str_field "priceChangePercent" v; oi ← str_field "openInterest" v;
  funding ← str_field "lastFundingRate" v; closeTime ← int_field "closeTime" v; time ← int_field "time" v;
  mret (MkTicker symbol lastPrice markPrice indexPrice bidPrice askPrice volume quoteVolume change oi funding closeTime time).

(** [klineItem = [12]any]. *)
Definition dec_klines : json -> option (list (list any)) := slice (array_any 12).

Record openInterestResponse := MkOI { or_Symbol : string; or_OpenInterest : string; or_Time : Z }.
Definition dec_openInterest (v : json) : option openInterestResponse :=
  symbol ← str_field "symbol" v; oi ← str_field "openInterest" v; time ← int_field "time" v; mret (MkOI symbol oi time).

Record longShortRatioItem := MkRatio {
  lr_Symbol : string; lr_LongShortRatio : string; lr_LongAccount : string; lr_ShortAccount : string; lr_Timestamp : Z }.
Definition dec_longShortRatio (v : json) : option longShortRatioItem :=
  symbol ← str_field "symbol" v; ratio ← str_field "longShortRatio" v; long ← str_field "longAccount" v;
  short ← str_field "shortAccount" v; ts ← int_field "timestamp" v; mret (MkRatio symbol ratio long short ts).
Definition enc_longShortRatio (i : longShortRatioItem) : json :=
  JObject [("symbol", JString (lr_Symbol i)); ("longShortRatio", JString (lr_LongShortRatio i));
           ("longAccount", JString (lr_LongAccount i)); ("shortAccount", JString (lr_ShortAccount i));
           ("timestamp", JInt (lr_Timestamp i))].

Record takerFlowItem := MkFlow {
  fl_Symbol : string; fl_BuySellRatio : string; fl_BuyVol : string; fl_SellVol : string; fl_Timestamp : Z }.
Definition dec_takerFlow (v : json) : option takerFlowItem :=
  symbol ← str_field "symbol" v; ratio ← str_field "buySellRatio" v; buy ← str_field "buyVol" v;
  sell ← str_field "sellVol" v; ts ← int_field "timestamp" v; mret (MkFlow symbol ratio buy sell ts).
Definition enc_takerFlow (i : takerFlowItem) : json :=
  JObject [("symbol", JString (fl_Symbol i)); ("buySellRatio", JString (fl_BuySellRatio i));
           ("buyVol", JString (fl_BuyVol i)); ("sellVol", JString (fl_SellVol i)); ("timestamp", JInt (fl_Timestamp i))].

Record basisItem := MkBasis {
  bi_Pair : string; bi_ContractType : string; bi_FuturesPrice : string; bi_IndexPrice : string; bi_Basis : string;
  bi_BasisRate : string; bi_Timestamp : Z }.
Definition dec_basis (v : json) : option basisItem :=
  pair ← str_field "pair" v; ct ← str_field "contractType" v; fp ← str_field "futuresPrice" v;
  ip ← str_field "indexPrice" v; b ← str_field "basis" v; br ← str_field "basisRate" v;
  ts ← int_field "timestamp" v; mret (MkBasis pair ct fp ip b br ts).
Definition enc_basis (i : basisItem) : json :=
  JObject [("pair", JString (bi_Pair i)); ("contractType", JString (bi_ContractType i));
           ("futuresPrice", JString (bi_FuturesPrice i)); ("indexPrice", JString (bi_IndexPrice i));
           ("basis", JString (bi_Basis i)); ("basisRate", JString (bi_BasisRate i)); ("timestamp", JInt (bi_Timestamp i))].

Record orderbookResponse := MkBook {
  bk_LastUpdateId : Z; bk_Bids : list (list string); bk_Asks : list (list string) }.
Definition dec_orderbook (v : json) : option orderbookResponse :=
  id ← int_field "lastUpdateId" v; bids ← str_rows_field "bids" v; asks ← str_rows_field "asks" v; mret (MkBook id bids asks).

Record liquidationItem := MkLiq {
  li_Symbol : string; li_Price : string; li_OrigQty : string; li_ExecutedQty : string; li_AveragePrice : string;
  li_Status : string; li_Time : Z; li_Side : string }.
Definition dec_liquidation (v : json) : option liquidationItem :=
  symbol ← str_field "symbol" v; price ← str_field "price" v; qty ← str_field "origQty" v;
  exec ← str_field "executedQty" v; avg ← str_field "averagePrice" v; status ← str_field "status" v;
  time ← int_field "time" v; side ← str_field "side" v; mret (MkLiq symbol price qty exec avg status time side).
Definition enc_liquidation (i : liquidationItem) : json :=
  JObject [("symbol", JString (li_Symbol i)); ("price", JString (li_Price i)); ("origQty", JString (li_OrigQty i));
           ("executedQty", JString (li_ExecutedQty i)); ("averagePrice", JString (li_AveragePrice i));
           ("status", JString (li_Status i)); ("time", JInt (li_Time i)); ("side", JString (li_Side i))].

Section normalizers.
Context `{MapOrder} (resp : ExchangeResponse) (job : Job) (symbol : Symbol).
Abbreviation meta := (source_meta "binance" resp job symbol).

Definition normalizeTicker : outcome NormalizedResult :=
  match Unmarshal dec_errorEnvelope (body resp) with
  | Some (MkErrorEnvelope (Some code) msg) =>
    Fail (exchange_error ("binance code=" +:+ Itoa code +:+ " msg=" +:+ msg))
  | _ =>
    ticker ← parse "parse binance ticker" dec_tickerResponse (body resp);
    let t0 := resp_CapturedAt resp in
    let t1 := if 0 <? tk_CloseTime ticker then MustTime (MillisToTime (AInt (tk_CloseTime ticker))) else t0 in
    let snapshotTime := if 0 <? tk_Time ticker then MustTime (MillisToTime (AInt (tk_Time ticker))) else t1 in
    snapshot_result "binance" resp job symbol
      (MkSnapshotInput snapshotTime (AString (tk_LastPrice ticker)) (AString (tk_MarkPrice ticker))
         (AString (tk_IndexPrice ticker)) (AString (tk_BidPrice ticker)) (AString (tk_AskPrice ticker))
         (AString (tk_Volume ticker)) (AString (tk_QuoteVolume ticker)) (AString (tk_PriceChangePercent ticker))
         (AString (tk_OpenInterest ticker)) (AString (tk_FundingRate ticker)) RawEmpty)
  end.

Definition kline_row (k : list any) : outcome NormalizedKline :=
  k0 ← index k 0; k6 ← index k 6; k8 ← index k 8;
  let openTime := fst (MillisToTime k0) in
  let closeTime := fst (MillisToTime k6) in
  let trades := fst (ParseFloat k8) in
  isClosed ← (if (11 <? length k)%nat
              then k11 ← index k 11; mret (match k11 with ABool confirm => confirm | _ => true end)
              else mret true);
  k1 ← index k 1; k2 ← index k 2; k3 ← index k 3; k4 ← index k 4; k5 ← index k 5; k7 ← index k 7; k9 ← index k 9;
  k10 ← index k 10;
  mret (MkKline (meta (RawMessage_of (marshal_any (ASlice k)))) (job_Period job) openTime closeTime
    (parseFloatSafe k1) (parseFloatSafe k2) (parseFloatSafe k3) (parseFloatSafe k4)
    (floatPtrSafe k5) (floatPtrSafe k7) (intPtr trades) (floatPtrSafe k9) (floatPtrSafe k10) isClosed).

Definition normalizeKline : outcome NormalizedResult :=
  klines ← parse "parse binance klines" dec_klines (body resp);
  rows ← mapM kline_row klines;
  mret (MkNormalizedResult [] (keep_valid ValidateKline rows) [] [] [] [] [] [] [] [] [] [] []).

Definition normalizeOpenInterest : outcome NormalizedResult :=
  oi ← parse "parse binance open interest" dec_openInterest (body resp);
  let snapshotTime := if 0 <? or_Time oi then MustTime (MillisToTime (AInt (or_Time oi))) else resp_CapturedAt resp in
  oiItem ← checked (fun x => ValidateOpenInterest x false)
    (MkOpenInterest (meta (body resp)) snapshotTime "" (parseFloatSafe (AString (or_OpenInterest oi))) None);
  mret (MkNormalizedResult [] [] [oiItem] [] [] [] [] [] [] [] [] [] []).

Definition ratio_row (item : longShortRatioItem) : NormalizedLongShortRatio :=
  MkLongShortRatio (meta (RawJson (enc_longShortRatio item))) (job_Period job)
    (MustTime (MillisToTime (AInt (lr_Timestamp item)))) None None (floatPtrSafe (AString (lr_LongAccount item)))
    (floatPtrSafe (AString (lr_ShortAccount item))) None None None None (floatPtrSafe (AString (lr_LongShortRatio item))).

Definition normalizeLongShortRatio : outcome NormalizedResult :=
  items ← parse "parse binance long/short ratio" (slice dec_longShortRatio) (body resp);
  mret (MkNormalizedResult [] [] [] [] [] (keep_valid ValidateLongShortRatio (map ratio_row items)) [] [] [] [] [] [] []).

Definition flow_row (item : takerFlowItem) : NormalizedTakerFlow :=
  let buyVol := fst (ParseFloat (AString (fl_BuyVol item))) in
  let sellVol := fst (ParseFloat (AString (fl_SellVol item))) in
  MkTakerFlow (meta (RawJson (enc_takerFlow item))) (job_Period job) (MustTime (MillisToTime (AInt (fl_Timestamp item))))
    (floatPtrSafe (AString (fl_BuyVol item))) (floatPtrSafe (AString (fl_SellVol item))) None None
    (Some (fsub buyVol sellVol)) None (flow_ratio buyVol sellVol).

Definition normalizeTakerFlow : outcome NormalizedResult :=
  items ← parse "parse binance taker flow" (slice dec_takerFlow) (body resp);
  mret (MkNormalizedResult [] [] [] [] [] [] (keep_valid ValidateTakerFlow (map flow_row items)) [] [] [] [] [] []).

Definition basis_row (item : basisItem) : NormalizedBasisPremium :=
  let basisRate := floatPtrSafe (AString (bi_BasisRate item)) in
  let annualized := (fun r => fmul (fmul r (f64_of_Z 365)) (f64_of_Z 100)) <$> basisRate in
  MkBasisPremium (meta (RawJson (enc_basis item))) (MustTime (MillisToTime (AInt (bi_Timestamp item))))
    (floatPtrSafe (AString (bi_FuturesPrice item))) None (floatPtrSafe (AString (bi_IndexPrice item))) None
    (floatPtrSafe (AString (bi_Basis item))) None basisRate annualized None None.

Definition normalizeBasis : outcome NormalizedResult :=
  items ← parse "parse binance basis" (slice dec_basis) (body resp);
  mret (MkNormalizedResult [] [] [] [] [] [] [] [] [] [] (keep_valid ValidateBasisPremium (map basis_row items)) [] []).

Definition normalizeOrderbook : outcome NormalizedResult :=
  ob ← parse "parse binance orderbook" dec_orderbook (body resp);
  orderbook_result "binance" resp job symbol str_num (resp_CapturedAt resp) (body resp) (bk_Bids ob) (bk_Asks ob).

Definition liquidation_of (item : liquidationItem) : liquidation :=
  let price := floatPtrSafe (AString (li_Price item)) in
  let qty := floatPtrSafe (AString (li_OrigQty item)) in
  let notional := notional_of price qty in
  MkLiquidation
    (liquidation_event "binance" resp job symbol (RawJson (enc_liquidation item))
       (li_Symbol item +:+ "-" +:+ li_Side item +:+ "-" +:+ Itoa (li_Time item))
       (MustTime (MillisToTime (AInt (li_Time item)))) (li_Side item) price qty notional)
    notional ((li_Side item =? "SELL") || (li_Side item =? "LONG"))%string.

Definition normalizeLiquidation : outcome NormalizedResult :=
  items ← parse "parse binance liquidation" (slice dec_liquidation) (body resp);
  mret (liquidation_result "binance" resp job symbol false (map liquidation_of items)).
End normalizers.

Definition Normalize `{MapOrder} : NormalizerFunc := fun dataType resp job symbol =>
  if one_of dataType ["ticker"; "mark_price"; "index_price"; "funding"] then normalizeTicker resp job symbol else
  if one_of dataType ["kline"] then normalizeKline resp job symbol else
  if one_of dataType ["open_interest"] then normalizeOpenInterest resp job symbol else
  if one_of dataType ["long_short_ratio"] then normalizeLongShortRatio resp job symbol else
  if one_of dataType ["taker_flow"] then normalizeTakerFlow resp job symbol else
  if one_of dataType ["basis"] then normalizeBasis resp job symbol else
  if one_of dataType ["orderbook"; "orderbook_imbalance"] then normalizeOrderbook resp job symbol else
  if one_of dataType ["liquidation"] then normalizeLiquidation resp job symbol else
  Fail ErrUnsupportedDataType.

Definition NewAdapter `{MapOrder} : BaseAdapter := MkBaseAdapter "binance" (Some Normalize).

Definition supported : list string :=
  ["ticker"; "mark_price"; "index_price"; "funding"; "kline"; "open_interest"; "long_short_ratio"; "taker_flow"; "basis";
   "orderbook"; "orderbook_imbalance"; "liquidation"].

(** ** The laws *)
Section laws.
Context `{MapOrder} (resp : ExchangeResponse) (job : Job) (symbol : Symbol).
Abbreviation ok := (normalized_ok "binance" resp job symbol).

Lemma binance_ticker_ok x : normalizeTicker resp job symbol = Value x -> ok x.
Proof.
  unfold normalizeTicker. destruct (Unmarshal _ _) as [[[c|] m]|]; [done|..];
    intros Hx; inv_value; eapply snapshot_result_ok; exact Hx.
Qed.
Lemma binance_kline_row k r : kline_row resp job symbol k = Value r ->
  exists raw, kl_Meta r = source_meta "binance" resp job symbol raw.
Proof. row_meta kline_row. Qed.
#[local] Hint Resolve binance_kline_row : adapters.
Lemma binance_kline_no_panic : normalizeKline resp job symbol <> Panic.
Proof.
  unfold normalizeKline. eapply parsed_rows_no_panic; [apply slice_arrays|]. intros k Hk. unfold kline_row.
  simpl in *. indexed. rewrite Hk. simpl. indexed. done.
Qed.
Lemma binance_kline_ok x : normalizeKline resp job symbol = Value x -> ok x.
Proof. solve_normalizer normalizeKline. Qed.
Lemma binance_open_interest_ok x : normalizeOpenInterest resp job symbol = Value x -> ok x.
Proof. solve_normalizer normalizeOpenInterest. Qed.
Lemma binance_ratio_ok x : normalizeLongShortRatio resp job symbol = Value x -> ok x.
Proof. solve_normalizer normalizeLongShortRatio. Qed.
Lemma binance_flow_ok x : normalizeTakerFlow resp job symbol = Value x -> ok x.
Proof. solve_normalizer normalizeTakerFlow. Qed.
Lemma binance_basis_ok x : normalizeBasis resp job symbol = Value x -> ok x.
Proof. solve_normalizer normalizeBasis. Qed.
Lemma binance_orderbook_ok x : normalizeOrderbook resp job symbol = Value x -> ok x.
Proof. solve_normalizer normalizeOrderbook. Qed.
Lemma binance_liquidation_ok x :
  5 * Minute <= resp_CapturedAt resp -> normalizeLiquidation resp job symbol = Value x -> ok x.
Proof. solve_normalizer normalizeLiquidation. Qed.
End laws.

#[export] Hint Resolve binance_ticker_ok binance_kline_ok binance_open_interest_ok binance_ratio_ok binance_flow_ok
  binance_basis_ok binance_orderbook_ok binance_liquidation_ok : adapters.
#[export] Hint Resolve binance_kline_no_panic : nopanic.

#[export] Instance binance_laws `{MapOrder} : NormalizerLaws "binance" supported Normalize.
Proof.
  split; intros dt resp job symbol.
  - intros x Hc. by_cases Normalize (eauto with adapters).
  - intros x. solve_supported Normalize.
  - solve_panics Normalize.
Qed.
