(* ===== verification/Okx.v ===== *)
(** * The OKX adapter ([internal/exchanges/okx/adapter.go]) *)

From S2P Require Import Prelude GoString GoTime GoFloat GoError GoOutcome GoJson GoJsonText.
From S2P Require Import Symbols SchedulerModels Normalizers Collector ExchangeCommon.

(** ** Payloads *)

Record envelope := MkEnvelope { env_Code : string; env_Msg : string; env_Data : RawMessage }.
Definition dec_envelope (v : json) : option envelope :=
  code ← str_field "code" v; msg ← str_field "msg" v; data ← raw_field "data" v; mret (MkEnvelope code msg data).

Record tickerRecord := MkTicker {
  tk_InstID : string; tk_Last : string; tk_BidPx : string; tk_AskPx : string; tk_Vol24h : string; tk_VolCcy24h : string;
  tk_Change24h : string; tk_MarkPx : string; tk_IndexPx : string; tk_FundingRate : string; tk_OpenInterest : string;
  tk_Timestamp : string }.
Definition dec_tickerRecord (v : json) : option tickerRecord :=
  inst ← str_field "instId" v; last ← str_field "last" v; bid ← str_field "bidPx" v; ask ← str_field "askPx" v;
  vol ← str_field "vol24h" v; volCcy ← str_field "volCcy24h" v; change ← str_field "change24h" v;
  mark ← str_field "markPx" v; idx ← str_field "idxPx" v; funding ← str_field "fundingRate" v; oi ← str_field "oi" v;
  ts ← str_field "ts" v; mret (MkTicker inst last bid ask vol volCcy change mark idx funding oi ts).
Definition enc_tickerRecord (t : tickerRecord) : json :=
  JObject [("instId", JString (tk_InstID t)); ("last", JString (tk_Last t)); ("bidPx", JString (tk_BidPx t));
           ("askPx", JString (tk_AskPx t)); ("vol24h", JString (tk_Vol24h t)); ("volCcy24h", JString (tk_VolCcy24h t));
           ("change24h", JString (tk_Change24h t)); ("markPx", JString (tk_MarkPx t)); ("idxPx", JString (tk_IndexPx t));
           ("fundingRate", JString (tk_FundingRate t)); ("oi", JString (tk_OpenInterest t)); ("ts", JString (tk_Timestamp t))].

(** [klineItem = [9]any], [longShortRatioItem] and [takerVolumeItem = [3]any]. *)
Definition dec_klines : json -> option (list (list any)) := slice (array_any 9).
Definition dec_triples : json -> option (list (list any)) := slice (array_any 3).

Record openInterestRecord := MkOI { or_OI : string; or_OICcy : string; or_TS : string }.
Definition dec_openInterest (v : json) : option openInterestRecord :=
  oi ← str_field "oi" v; ccy ← str_field "oiCcy" v; ts ← str_field "ts" v; mret (MkOI oi ccy ts).
Definition enc_openInterest (o : openInterestRecord) : json :=
  JObject [("oi", JString (or_OI o)); ("oiCcy", JString (or_OICcy o)); ("ts", JString (or_TS o))].

Record orderbookRecord := MkBook { bk_Asks : list (list string); bk_Bids : list (list string); bk_TS : string }.
Definition dec_orderbook (v : json) : option orderbookRecord :=
  asks ← str_rows_field "asks" v; bids ← str_rows_field "bids" v; ts ← str_field "ts" v; mret (MkBook asks bids ts).

Record liquidationRecord := MkLiq {
  li_InstID : string; li_PosSide : string; li_BkPx : string; li_Sz : string; li_TS : string }.
Definition dec_liquidation (v : json) : option liquidationRecord :=
  inst ← str_field "instId" v; side ← str_field "posSide" v; px ← str_field "bkPx" v; sz ← str_field "sz" v;
  ts ← str_field "ts" v; mret (MkLiq inst side px sz ts).
Definition enc_liquidation (i : liquidationRecord) : json :=
  JObject [("instId", JString (li_InstID i)); ("posSide", JString (li_PosSide i)); ("bkPx", JString (li_BkPx i));
           ("sz", JString (li_Sz i)); ("ts", JString (li_TS i))].

Section normalizers.
Context `{MapOrder} (data : RawMessage) (resp : ExchangeResponse) (job : Job) (symbol : Symbol).
Abbreviation meta := (source_meta "okx" resp job symbol).

Definition normalizeTicker : outcome NormalizedResult :=
  records ← parse "parse okx ticker" (slice dec_tickerRecord) data;
  match records with
  | [] => Fail (ErrorString "okx ticker data is empty")
  | item :: _ =>
    match MillisToTime (AString (tk_Timestamp item)) with
    | (_, Some err) => Fail (WrapError "parse okx timestamp: " err "")
    | (snapshotTime, None) =>
      snapshot_result "okx" resp job symbol
        (MkSnapshotInput snapshotTime (AString (tk_Last item)) (AString (tk_MarkPx item)) (AString (tk_IndexPx item))
           (AString (tk_BidPx item)) (AString (tk_AskPx item)) (AString (tk_Vol24h item)) (AString (tk_VolCcy24h item))
           (AString (tk_Change24h item)) (AString (tk_OpenInterest item)) (AString (tk_FundingRate item))
           (RawJson (enc_tickerRecord item)))
    end
  end.

Definition confirmed (k : list any) : outcome bool :=
  if (8 <? length k)%nat then
    k8 ← index k 8;
    mret match k8 with
         | AFloat confirm => feq confirm (f64_of_Z 1)
         | AString confirm => (confirm =? "1")%string
         | _ => true
         end
  else mret true.

Definition kline_row (k : list any) : outcome NormalizedKline :=
  k0 ← index k 0;
  let openTime := MustTime (MillisToTime k0) in
  let closeTime := openTime in
  isClosed ← confirmed k;
  k1 ← index k 1; k2 ← index k 2; k3 ← index k 3; k4 ← index k 4; k5 ← index k 5; k7 ← index k 7;
  mret (MkKline (meta (RawMessage_of (marshal_any (ASlice k)))) (job_Period job) openTime closeTime
    (parseFloatSafe k1) (parseFloatSafe k2) (parseFloatSafe k3) (parseFloatSafe k4)
    (floatPtrSafe k5) (floatPtrSafe k7) None None None isClosed).

Definition normalizeKline : outcome NormalizedResult :=
  klines ← parse "parse okx klines" dec_klines data;
  rows ← mapM kline_row klines;
  mret (MkNormalizedResult [] (keep_valid ValidateKline rows) [] [] [] [] [] [] [] [] [] [] []).

Definition normalizeOpenInterest : outcome NormalizedResult :=
  records ← parse "parse okx open interest" (slice dec_openInterest) data;
  match records with
  | [] => Fail (ErrorString "okx open interest data is empty")
  | item :: _ =>
    oiItem ← checked (fun x => ValidateOpenInterest x false)
      (MkOpenInterest (meta (RawJson (enc_openInterest item))) (MustTime (MillisToTime (AString (or_TS item)))) ""
         (parseFloatSafe (AString (or_OI item))) None);
    mret (MkNormalizedResult [] [] [oiItem] [] [] [] [] [] [] [] [] [] [])
  end.

Definition ratio_row (item : list any) : outcome NormalizedLongShortRatio :=
  i0 ← index item 0; i1 ← index item 1; i2 ← index item 2;
  let longRatio := floatPtrSafe i1 in
  let shortRatio := floatPtrSafe i2 in
  mret (MkLongShortRatio (meta (RawMessage_of (marshal_any (ASlice item)))) (job_Period job)
    (MustTime (MillisToTime i0)) longRatio shortRatio None None None None None None (guarded_ratio longRatio shortRatio)).

Definition normalizeLongShortRatio : outcome NormalizedResult :=
  items ← parse "parse okx long/short ratio" dec_triples data;
  rows ← mapM ratio_row items;
  mret (MkNormalizedResult [] [] [] [] [] (keep_valid ValidateLongShortRatio rows) [] [] [] [] [] [] []).

Definition flow_row (item : list any) : outcome NormalizedTakerFlow :=
  i0 ← index item 0; i1 ← index item 1; i2 ← index item 2;
  let sellVol := fst (ParseFloat i1) in
  let buyVol := fst (ParseFloat i2) in
  mret (MkTakerFlow (meta (RawMessage_of (marshal_any (ASlice item)))) (job_Period job) (MustTime (MillisToTime i0))
    (floatPtrSafe i2) (floatPtrSafe i1) None None (Some (fsub buyVol sellVol)) None (flow_ratio buyVol sellVol)).

Definition normalizeTakerFlow : outcome NormalizedResult :=
  items ← parse "parse okx taker flow" dec_triples data;
  rows ← mapM flow_row items;
  mret (MkNormalizedResult [] [] [] [] [] [] (keep_valid ValidateTakerFlow rows) [] [] [] [] [] []).

Definition normalizeOrderbook : outcome NormalizedResult :=
  records ← parse "parse okx orderbook" (slice dec_orderbook) data;
  match records with
  | [] => Fail (ErrorString "okx orderbook data is empty")
  | ob :: _ =>
    let snapshotTime := if (bk_TS ob =? "")%string then resp_CapturedAt resp else MustTime (MillisToTime (AString (bk_TS ob))) in
    orderbook_result "okx" resp job symbol str_num snapshotTime (body resp) (bk_Bids ob) (bk_Asks ob)
  end.

Definition liquidation_of (item : liquidationRecord) : liquidation :=
  let price := floatPtrSafe (AString (li_BkPx item)) in
  let qty := floatPtrSafe (AString (li_Sz item)) in
  let notional := notional_of price qty in
  let side := if (li_PosSide item =? "long")%string then "SELL" else "BUY" in
  MkLiquidation
    (liquidation_event "okx" resp job symbol (RawJson (enc_liquidation item))
       (li_InstID item +:+ "-" +:+ side +:+ "-" +:+ li_TS item)
       (MustTime (MillisToTime (AString (li_TS item)))) side price qty notional)
    notional (side =? "SELL")%string.

Definition normalizeLiquidation : outcome NormalizedResult :=
  items ← parse "parse okx liquidation" (slice dec_liquidation) data;
  mret (liquidation_result "okx" resp job symbol true (map liquidation_of items)).
End normalizers.

Definition Normalize `{MapOrder} : NormalizerFunc := fun dataType resp job symbol =>
  payload ← parse "parse okx response" dec_envelope (body resp);
  if negb (env_Code payload =? "")%string && negb (env_Code payload =? "0")%string then
    Fail (exchange_error ("okx code=" +:+ env_Code payload +:+ " msg=" +:+ env_Msg payload))
  else if raw_is_empty (env_Data payload) then Fail (ErrorString "okx response data is empty") else
  if one_of dataType ["ticker"; "mark_price"; "funding"] then normalizeTicker (env_Data payload) resp job symbol else
  if one_of dataType ["kline"] then normalizeKline (env_Data payload) resp job symbol else
  if one_of dataType ["open_interest"] then normalizeOpenInterest (env_Data payload) resp job symbol else
  if one_of dataType ["long_short_ratio"] then normalizeLongShortRatio (env_Data payload) resp job symbol else
  if one_of dataType ["taker_flow"] then normalizeTakerFlow (env_Data payload) resp job symbol else
  if one_of dataType ["orderbook"; "orderbook_imbalance"] then normalizeOrderbook (env_Data payload) resp job symbol else
  if one_of dataType ["liquidation"] then normalizeLiquidation (env_Data payload) resp job symbol else
  Fail ErrUnsupportedDataType.

Definition NewAdapter `{MapOrder} : BaseAdapter := MkBaseAdapter "okx" (Some Normalize).

Definition supported : list string :=
  ["ticker"; "mark_price"; "funding"; "kline"; "open_interest"; "long_short_ratio"; "taker_flow";
   "orderbook"; "orderbook_imbalance"; "liquidation"].

(** ** The laws *)
Section laws.
Context `{MapOrder} (data : RawMessage) (resp : ExchangeResponse) (job : Job) (symbol : Symbol).
Abbreviation ok := (normalized_ok "okx" resp job symbol).

Lemma okx_kline_row k r : kline_row resp job symbol k = Value r ->
  exists raw, kl_Meta r = source_meta "okx" resp job symbol raw.
Proof. row_meta kline_row. Qed.
Lemma okx_ratio_row k r : ratio_row resp job symbol k = Value r ->
  exists raw, ls_Meta r = source_meta "okx" resp job symbol raw.
Proof. row_meta ratio_row. Qed.
Lemma okx_flow_row k r : flow_row resp job symbol k = Value r ->
  exists raw, tf_Meta r = source_meta "okx" resp job symbol raw.
Proof. row_meta flow_row. Qed.
#[local] Hint Resolve okx_kline_row okx_ratio_row okx_flow_row : adapters.
Lemma okx_kline_no_panic : normalizeKline data resp job symbol <> Panic.
Proof.
  unfold normalizeKline. eapply parsed_rows_no_panic; [apply slice_arrays|]. intros k Hk. unfold kline_row, confirmed.
  simpl in *. indexed. rewrite Hk. simpl. indexed. done.
Qed.
Lemma okx_ratio_no_panic : normalizeLongShortRatio data resp job symbol <> Panic.
Proof. arrays_no_panic normalizeLongShortRatio ratio_row. Qed.
Lemma okx_flow_no_panic : normalizeTakerFlow data resp job symbol <> Panic.
Proof. arrays_no_panic normalizeTakerFlow flow_row. Qed.

Lemma okx_ticker_ok x : normalizeTicker data resp job symbol = Value x -> ok x.
Proof. solve_normalizer normalizeTicker. Qed.
Lemma okx_kline_ok x : normalizeKline data resp job symbol = Value x -> ok x.
Proof. solve_normalizer normalizeKline. Qed.
Lemma okx_open_interest_ok x : normalizeOpenInterest data resp job symbol = Value x -> ok x.
Proof. solve_normalizer normalizeOpenInterest. Qed.
Lemma okx_ratio_ok x : normalizeLongShortRatio data resp job symbol = Value x -> ok x.
Proof. solve_normalizer normalizeLongShortRatio. Qed.
Lemma okx_flow_ok x : normalizeTakerFlow data resp job symbol = Value x -> ok x.
Proof. solve_normalizer normalizeTakerFlow. Qed.
Lemma okx_orderbook_ok x : normalizeOrderbook data resp job symbol = Value x -> ok x.
Proof. solve_normalizer normalizeOrderbook. Qed.
Lemma okx_liquidation_ok x :
  5 * Minute <= resp_CapturedAt resp -> normalizeLiquidation data resp job symbol = Value x -> ok x.
Proof. solve_normalizer normalizeLiquidation. Qed.
End laws.

#[export] Hint Resolve okx_ticker_ok okx_kline_ok okx_open_interest_ok okx_ratio_ok okx_flow_ok okx_orderbook_ok
  okx_liquidation_ok : adapters.
#[export] Hint Resolve okx_kline_no_panic okx_ratio_no_panic okx_flow_no_panic : nopanic.

#[export] Instance okx_laws `{MapOrder} : NormalizerLaws "okx" supported Normalize.
Proof.
  split; intros dt resp job symbol.
  - intros x Hc. by_cases Normalize (eauto with adapters).
  - intros x. solve_supported Normalize.
  - solve_panics Normalize.
Qed.
