(* ===== verification/Bybit.v ===== *)
(** * The Bybit adapter ([internal/exchanges/bybit/adapter.go]) *)

From S2P Require Import Prelude GoString GoTime GoFloat GoError GoOutcome GoJson GoJsonText.
From S2P Require Import Symbols SchedulerModels Normalizers Collector ExchangeCommon.

(** ** Payloads *)

Record baseEnvelope := MkEnvelope { env_RetCode : Z; env_RetMsg : string; env_Result : RawMessage; env_Time : Z }.
Definition dec_baseEnvelope (v : json) : option baseEnvelope :=
  code ← int_field "retCode" v; msg ← str_field "retMsg" v; result ← raw_field "result" v; time ← int_field "time" v;
  mret (MkEnvelope code msg result time).

Record tickerRecord := MkTicker {
  tk_Symbol : string; tk_LastPrice : string; tk_MarkPrice : string; tk_IndexPrice : string; tk_Bid1Price : string;
  tk_Ask1Price : string; tk_Volume24h : string; tk_Turnover24h : string; tk_Price24hPcnt : string;
  tk_OpenInterest : string; tk_FundingRate : string; tk_NextFundingTime : string }.
Definition dec_tickerRecord (v : json) : option tickerRecord :=
  symbol ← str_field "symbol" v; last ← str_field "lastPrice" v; mark ← str_field "markPrice" v;
  index ← str_field "indexPrice" v; bid ← str_field "bid1Price" v; ask ← str_field "ask1Price" v;
  vol ← str_field "volume24h" v; turnover ← str_field "turnover24h" v; pcnt ← str_field "price24hPcnt" v;
  oi ← str_field "openInterest" v; funding ← str_field "fundingRate" v; next ← str_field "nextFundingTime" v;
  mret (MkTicker symbol last mark index bid ask vol turnover pcnt oi funding next).
Definition enc_tickerRecord (t : tickerRecord) : json :=
  JObject [("symbol", JString (tk_Symbol t)); ("lastPrice", JString (tk_LastPrice t)); ("markPrice", JString (tk_MarkPrice t));
           ("indexPrice", JString (tk_IndexPrice t)); ("bid1Price", JString (tk_Bid1Price t));
           ("ask1Price", JString (tk_Ask1Price t)); ("volume24h", JString (tk_Volume24h t));
           ("turnover24h", JString (tk_Turnover24h t)); ("price24hPcnt", JString (tk_Price24hPcnt t));
           ("openInterest", JString (tk_OpenInterest t)); ("fundingRate", JString (tk_FundingRate t));
           ("nextFundingTime", JString (tk_NextFundingTime t))].

(** The [list] member of [tickerResult], [klineResult], [oiResult], [lsRatioResult] and [liquidationResult]. *)
Definition dec_list {A} (elem : json -> option A) (v : json) : option (list A) := slice_field elem "list" v.
Definition dec_klineResult (v : json) : option (list (list string)) := str_rows_field "list" v.

Record oiRecord := MkOI { or_OpenInterest : string; or_Timestamp : string }.
Definition dec_oiRecord (v : json) : option oiRecord :=
  oi ← str_field "openInterest" v; ts ← str_field "timestamp" v; mret (MkOI oi ts).
Definition enc_oiRecord (o : oiRecord) : json :=
  JObject [("openInterest", JString (or_OpenInterest o)); ("timestamp", JString (or_Timestamp o))].

Record lsRatioRecord := MkRatio { lr_Symbol : string; lr_BuyRatio : string; lr_SellRatio : string; lr_Timestamp : string }.
Definition dec_lsRatioRecord (v : json) : option lsRatioRecord :=
  symbol ← str_field "symbol" v; buy ← str_field "buyRatio" v; sell ← str_field "sellRatio" v;
  ts ← str_field "timestamp" v; mret (MkRatio symbol buy sell ts).
Definition enc_lsRatioRecord (i : lsRatioRecord) : json :=
  JObject [("symbol", JString (lr_Symbol i)); ("buyRatio", JString (lr_BuyRatio i));
           ("sellRatio", JString (lr_SellRatio i)); ("timestamp", JString (lr_Timestamp i))].

Record obResult := MkBook { bk_Asks : list (list string); bk_Bids : list (list string); bk_Ts : string }.
Definition dec_obResult (v : json) : option obResult :=
  asks ← str_rows_field "a" v; bids ← str_rows_field "b" v; ts ← str_field "ts" v; mret (MkBook asks bids ts).

Record liquidationRecord := MkLiq {
  li_Symbol : string; li_Side : string; li_Price : string; li_Size : string; li_Timestamp : string }.
Definition dec_liquidation (v : json) : option liquidationRecord :=
  symbol ← str_field "symbol" v; side ← str_field "side" v; price ← str_field "price" v; size ← str_field "size" v;
  ts ← str_field "timestamp" v; mret (MkLiq symbol side price size ts).
Definition enc_liquidation (i : liquidationRecord) : json :=
  JObject [("symbol", JString (li_Symbol i)); ("side", JString (li_Side i)); ("price", JString (li_Price i));
           ("size", JString (li_Size i)); ("timestamp", JString (li_Timestamp i))].

Definition parseBaseEnvelope (body : RawMessage) : outcome baseEnvelope :=
  env ← parse "parse bybit response" dec_baseEnvelope body;
  if negb (env_RetCode env =? 0) then
    Fail (exchange_error ("bybit code=" +:+ Itoa (env_RetCode env) +:+ " msg=" +:+ env_RetMsg env))
  else Value env.

Section normalizers.
Context `{MapOrder} (resp : ExchangeResponse) (job : Job) (symbol : Symbol).
Abbreviation meta := (source_meta "bybit" resp job symbol).

Definition normalizeTicker : outcome NormalizedResult :=
  env ← parseBaseEnvelope (body resp);
  result ← parse "parse bybit ticker" (dec_list dec_tickerRecord) (env_Result env);
  match result with
  | [] => Fail (ErrorString "bybit ticker list is empty")
  | item :: _ =>
    match MillisToTime (AInt (env_Time env)) with
    | (_, Some err) => Fail (WrapError "parse bybit timestamp: " err "")
    | (snapshotTime, None) =>
      snapshot_result "bybit" resp job symbol
        (MkSnapshotInput snapshotTime (AString (tk_LastPrice item)) (AString (tk_MarkPrice item))
           (AString (tk_IndexPrice item)) (AString (tk_Bid1Price item)) (AString (tk_Ask1Price item))
           (AString (tk_Volume24h item)) (AString (tk_Turnover24h item)) (AString (tk_Price24hPcnt item))
           (AString (tk_OpenInterest item)) (AString (tk_FundingRate item)) (RawJson (enc_tickerRecord item)))
    end
  end.

Definition kline_row (k : list string) : outcome NormalizedKline :=
  k0 ← index k 0;
  let openTime := fst (MillisToTime (AString k0)) in
  k1 ← index k 1; k2 ← index k 2; k3 ← index k 3; k4 ← index k 4; k5 ← index k 5; k6 ← index k 6;
  mret (MkKline (meta (RawJson (JArray (map JString k)))) (job_Period job) openTime openTime
    (parseFloatSafe (AString k1)) (parseFloatSafe (AString k2)) (parseFloatSafe (AString k3)) (parseFloatSafe (AString k4))
    (floatPtrSafe (AString k5)) (floatPtrSafe (AString k6)) None None None true).

Definition normalizeKline : outcome NormalizedResult :=
  env ← parseBaseEnvelope (body resp);
  result ← parse "parse bybit klines" dec_klineResult (env_Result env);
  let items := filter (fun k => (7 <= length k)%nat) result in
  rows ← mapM kline_row items;
  mret (MkNormalizedResult [] (keep_valid ValidateKline rows) [] [] [] [] [] [] [] [] [] [] []).

Definition normalizeOpenInterest : outcome NormalizedResult :=
  env ← parseBaseEnvelope (body resp);
  result ← parse "parse bybit open interest" (dec_list dec_oiRecord) (env_Result env);
  match result with
  | [] => Value empty_result
  | item :: _ =>
    let snapshotTime := if (or_Timestamp item =? "")%string then resp_CapturedAt resp
                        else MustTime (MillisToTime (AString (or_Timestamp item))) in
    oiItem ← checked (fun x => ValidateOpenInterest x false)
      (MkOpenInterest (meta (RawJson (enc_oiRecord item))) snapshotTime ""
         (parseFloatSafe (AString (or_OpenInterest item))) None);
    mret (MkNormalizedResult [] [] [oiItem] [] [] [] [] [] [] [] [] [] [])
  end.

(** The ratio divides by the sell side after checking only that side. *)
Definition ratio_row (item : lsRatioRecord) : outcome NormalizedLongShortRatio :=
  let buyRatio := floatPtrSafe (AString (lr_BuyRatio item)) in
  let sellRatio := floatPtrSafe (AString (lr_SellRatio item)) in
  lsRatio ← unguarded_ratio buyRatio sellRatio;
  mret (MkLongShortRatio (meta (RawJson (enc_lsRatioRecord item))) (job_Period job)
    (MustTime (MillisToTime (AString (lr_Timestamp item)))) None None buyRatio sellRatio None None None None lsRatio).

Definition normalizeLongShortRatio : outcome NormalizedResult :=
  env ← parseBaseEnvelope (body resp);
  result ← parse "parse bybit long/short ratio" (dec_list dec_lsRatioRecord) (env_Result env);
  rows ← mapM ratio_row result;
  mret (MkNormalizedResult [] [] [] [] [] (keep_valid ValidateLongShortRatio rows) [] [] [] [] [] [] []).

Definition normalizeOrderbook : outcome NormalizedResult :=
  env ← parseBaseEnvelope (body resp);
  ob ← parse "parse bybit orderbook" dec_obResult (env_Result env);
  orderbook_result "bybit" resp job symbol str_num (resp_CapturedAt resp) (body resp) (bk_Bids ob) (bk_Asks ob).

Definition liquidation_of (item : liquidationRecord) : liquidation :=
  let price := floatPtrSafe (AString (li_Price item)) in
  let size := floatPtrSafe (AString (li_Size item)) in
  let notional := notional_of price size in
  let sideUpper := ToUpper (li_Side item) in
  MkLiquidation
    (liquidation_event "bybit" resp job symbol (RawJson (enc_liquidation item))
       (li_Symbol item +:+ "-" +:+ sideUpper +:+ "-" +:+ li_Timestamp item)
       (MustTime (MillisToTime (AString (li_Timestamp item)))) sideUpper price size notional)
    notional ((sideUpper =? "SELL") || (sideUpper =? "LONG"))%string.

Definition normalizeLiquidation : outcome NormalizedResult :=
  env ← parseBaseEnvelope (body resp);
  items ← parse "parse bybit liquidation" (dec_list dec_liquidation) (env_Result env);
  mret (liquidation_result "bybit" resp job symbol false (map liquidation_of items)).
End normalizers.

Definition Normalize `{MapOrder} : NormalizerFunc := fun dataType resp job symbol =>
  if one_of dataType ["ticker"; "mark_price"; "index_price"; "funding"] then normalizeTicker resp job symbol else
  if one_of dataType ["kline"] then normalizeKline resp job symbol else
  if one_of dataType ["open_interest"] then normalizeOpenInterest resp job symbol else
  if one_of dataType ["long_short_ratio"] then normalizeLongShortRatio resp job symbol else
  if one_of dataType ["orderbook"; "orderbook_imbalance"] then normalizeOrderbook resp job symbol else
  if one_of dataType ["liquidation"] then normalizeLiquidation resp job symbol else
  Fail ErrUnsupportedDataType.

Definition NewAdapter `{MapOrder} : BaseAdapter := MkBaseAdapter "bybit" (Some Normalize).

Definition supported : list string :=
  ["ticker"; "mark_price"; "index_price"; "funding"; "kline"; "open_interest"; "long_short_ratio";
   "orderbook"; "orderbook_imbalance"; "liquidation"].

(** ** The laws *)
Section laws.
Context `{MapOrder} (resp : ExchangeResponse) (job : Job) (symbol : Symbol).
Abbreviation ok := (normalized_ok "bybit" resp job symbol).

Lemma bybit_ticker_ok x : normalizeTicker resp job symbol = Value x -> ok x.
Proof. solve_normalizer normalizeTicker. Qed.
Lemma bybit_envelope_no_panic raw : parseBaseEnvelope raw <> Panic.
Proof. no_panic. Qed.
Lemma bybit_kline_row k r : kline_row resp job symbol k = Value r ->
  exists raw, kl_Meta r = source_meta "bybit" resp job symbol raw.
Proof. row_meta kline_row. Qed.
#[local] Hint Resolve bybit_kline_row : adapters.
Lemma bybit_kline_no_panic : normalizeKline resp job symbol <> Panic.
Proof.
  unfold normalizeKline. apply bind_no_panic; [apply bybit_envelope_no_panic|intros env].
  apply parsed_no_panic. intros v rows _. cbv zeta. apply bind_no_panic; [|intros; apply ret_no_panic].
  apply filtered_no_panic. intros k Hk. unfold kline_row. indexed. done.
Qed.
Lemma bybit_kline_ok x : normalizeKline resp job symbol = Value x -> ok x.
Proof. solve_normalizer normalizeKline. Qed.
Lemma bybit_open_interest_ok x : normalizeOpenInterest resp job symbol = Value x -> ok x.
Proof. solve_normalizer normalizeOpenInterest. Qed.
Lemma bybit_ratio_row item r : ratio_row resp job symbol item = Value r ->
  exists raw, ls_Meta r = source_meta "bybit" resp job symbol raw.
Proof. unfold ratio_row. intros. inv_value. by eexists. Qed.
Lemma bybit_ratio_ok x : normalizeLongShortRatio resp job symbol = Value x -> ok x.
Proof.
  intros Hx. unfold normalizeLongShortRatio in Hx. inv_value. split; simpl; try solve_rows.
  eapply keep_valid_mapM; [|eassumption]. eauto using bybit_ratio_row.
Qed.
Lemma bybit_orderbook_ok x : normalizeOrderbook resp job symbol = Value x -> ok x.
Proof. solve_normalizer normalizeOrderbook. Qed.
Lemma bybit_liquidation_ok x :
  5 * Minute <= resp_CapturedAt resp -> normalizeLiquidation resp job symbol = Value x -> ok x.
Proof. solve_normalizer normalizeLiquidation. Qed.
End laws.

#[export] Hint Resolve bybit_ticker_ok bybit_kline_ok bybit_open_interest_ok bybit_ratio_ok bybit_orderbook_ok
  bybit_liquidation_ok : adapters.
#[export] Hint Resolve bybit_envelope_no_panic bybit_kline_no_panic : nopanic.

#[export] Instance bybit_laws `{MapOrder} : NormalizerLaws "bybit" supported Normalize.
Proof.
  split; intros dt resp job symbol.
  - intros x Hc. by_cases Normalize (eauto with adapters).
  - intros x. solve_supported Normalize.
  - solve_panics Normalize.
Qed.
