(* ===== verification/Bitget.v ===== *)
(** * The Bitget adapter ([internal/exchanges/bitget/adapter.go]) *)

From S2P Require Import Prelude GoString GoTime GoFloat GoError GoOutcome GoJson GoJsonText.
From S2P Require Import Symbols SchedulerModels Normalizers Collector ExchangeCommon.

(** ** Payloads *)

Record envelope := MkEnvelope { env_Code : string; env_Msg : string; env_RequestTime : Z; env_Data : RawMessage }.
Definition dec_envelope (v : json) : option envelope :=
  code ← str_field "code" v; msg ← str_field "msg" v; time ← int_field "requestTime" v; data ← raw_field "data" v;
  mret (MkEnvelope code msg time data).

Record tickerRecord := MkTicker {
  tk_Symbol : string; tk_LastPrice : string; tk_MarkPrice : string; tk_IndexPrice : string; tk_BidPrice : string;
  tk_AskPrice : string; tk_BaseVolume : string; tk_QuoteVolume : string; tk_Change24h : string;
  tk_OpenInterest : string; tk_FundingRate : string }.
Definition dec_tickerRecord (v : json) : option tickerRecord :=
  symbol ← str_field "symbol" v; last ← str_field "lastPr" v; mark ← str_field "markPrice" v;
  index ← str_field "indexPrice" v; bid ← str_field "bidPr" v; ask ← str_field "askPr" v;
  base ← str_field "baseVolume" v; quote ← str_field "quoteVolume" v; change ← str_field "change24h" v;
  oi ← str_field "openInterest" v; funding ← str_field "fundingRate" v;
  mret (MkTicker symbol last mark index bid ask base quote change oi funding).
Definition enc_tickerRecord (t : tickerRecord) : json :=
  JObject [("symbol", JString (tk_Symbol t)); ("lastPr", JString (tk_LastPrice t)); ("markPrice", JString (tk_MarkPrice t));
           ("indexPrice", JString (tk_IndexPrice t)); ("bidPr", JString (tk_BidPrice t)); ("askPr", JString (tk_AskPrice t));
           ("baseVolume", JString (tk_BaseVolume t)); ("quoteVolume", JString (tk_QuoteVolume t));
           ("change24h", JString (tk_Change24h t)); ("openInterest", JString (tk_OpenInterest t));
           ("fundingRate", JString (tk_FundingRate t))].

(** [klineItem = [7]any]. *)
Definition dec_klines : json -> option (list (list any)) := slice (array_any 7).

Record openInterestRecord := MkOI { or_OpenInterest : string; or_Symbol : string; or_Ts : string }.
Definition dec_openInterest (v : json) : option openInterestRecord :=
  oi ← str_field "openInterest" v; symbol ← str_field "symbol" v; ts ← str_field "ts" v; mret (MkOI oi symbol ts).
Definition enc_openInterest (o : openInterestRecord) : json :=
  JObject [("openInterest", JString (or_OpenInterest o)); ("symbol", JString (or_Symbol o)); ("ts", JString (or_Ts o))].

Record longShortRatioRecord := MkRatio { lr_LongRatio : string; lr_ShortRatio : string; lr_Ts : string }.
Definition dec_longShortRatio (v : json) : option longShortRatioRecord :=
  long ← str_field "longRatio" v; short ← str_field "shortRatio" v; ts ← str_field "ts" v; mret (MkRatio long short ts).
Definition enc_longShortRatio (i : longShortRatioRecord) : json :=
  JObject [("longRatio", JString (lr_LongRatio i)); ("shortRatio", JString (lr_ShortRatio i)); ("ts", JString (lr_Ts i))].

Record orderbookRecord := MkBook { bk_Asks : list (list string); bk_Bids : list (list string) }.
Definition dec_orderbook (v : json) : option orderbookRecord :=
  asks ← str_rows_field "asks" v; bids ← str_rows_field "bids" v; mret (MkBook asks bids).

(** The opening of every normaliser: the envelope and its code. *)
Definition payload_of (body : RawMessage) : outcome envelope :=
  payload ← parse "parse bitget response" dec_envelope body;
  if negb (env_Code payload =? "")%string && negb (env_Code payload =? "00000")%string then
    Fail (exchange_error ("bitget code=" +:+ env_Code payload +:+ " msg=" +:+ env_Msg payload))
  else Value payload.

Definition firstTicker (raw : RawMessage) : outcome tickerRecord :=
  match Unmarshal (slice dec_tickerRecord) raw with
  | Some (item :: _) => Value item
  | _ =>
    item ← parse "parse bitget ticker" dec_tickerRecord raw;
    if (tk_Symbol item =? "")%string then Fail (ErrorString "bitget response data is empty") else Value item
  end.

(** [snapshotTime := resp.CapturedAt], replaced by a timestamp that parses. *)
Definition timestamp_or (captured : Time) (ts : string) : Time :=
  if (ts =? "")%string then captured else
  match MillisToTime (AString ts) with (t, None) => t | (_, Some _) => captured end.

Section normalizers.
Context `{MapOrder} (resp : ExchangeResponse) (job : Job) (symbol : Symbol).
Abbreviation meta := (source_meta "bitget" resp job symbol).

Definition normalizeTicker : outcome NormalizedResult :=
  payload ← payload_of (body resp);
  item ← firstTicker (env_Data payload);
  match MillisToTime (AInt (env_RequestTime payload)) with
  | (_, Some err) => Fail (WrapError "parse bitget timestamp: " err "")
  | (snapshotTime, None) =>
    snapshot_result "bitget" resp job symbol
      (MkSnapshotInput snapshotTime (AString (tk_LastPrice item)) (AString (tk_MarkPrice item))
         (AString (tk_IndexPrice item)) (AString (tk_BidPrice item)) (AString (tk_AskPrice item))
         (AString (tk_BaseVolume item)) (AString (tk_QuoteVolume item)) (AString (tk_Change24h item))
         (AString (tk_OpenInterest item)) (AString (tk_FundingRate item)) (RawJson (enc_tickerRecord item)))
  end.

Definition kline_row (k : list any) : outcome NormalizedKline :=
  k0 ← index k 0;
  let openTime := fst (MillisToTime k0) in
  let closeTime := fst (MillisToTime k0) in
  k1 ← index k 1; k2 ← index k 2; k3 ← index k 3; k4 ← index k 4; k5 ← index k 5; k6 ← index k 6;
  mret (MkKline (meta (RawMessage_of (marshal_any (ASlice k)))) (job_Period job) openTime closeTime
    (parseFloatSafe k1) (parseFloatSafe k2) (parseFloatSafe k3) (parseFloatSafe k4)
    (floatPtrSafe k5) (floatPtrSafe k6) None None None true).

Definition normalizeKline : outcome NormalizedResult :=
  payload ← payload_of (body resp);
  klines ← parse "parse bitget klines" dec_klines (env_Data payload);
  rows ← mapM kline_row klines;
  mret (MkNormalizedResult [] (keep_valid ValidateKline rows) [] [] [] [] [] [] [] [] [] [] []).

Definition normalizeOpenInterest : outcome NormalizedResult :=
  payload ← payload_of (body resp);
  items ← parse "parse bitget open interest" (slice dec_openInterest) (env_Data payload);
  match items with
  | [] => Fail (ErrorString "bitget open interest data is empty")
  | item :: _ =>
    oiItem ← checked (fun x => ValidateOpenInterest x false)
      (MkOpenInterest (meta (RawJson (enc_openInterest item))) (timestamp_or (resp_CapturedAt resp) (or_Ts item)) ""
         (parseFloatSafe (AString (or_OpenInterest item))) None);
    mret (MkNormalizedResult [] [] [oiItem] [] [] [] [] [] [] [] [] [] [])
  end.

(** The ratio divides by the short side after checking only that side. *)
Definition ratio_row (item : longShortRatioRecord) : outcome NormalizedLongShortRatio :=
  let longRatio := floatPtrSafe (AString (lr_LongRatio item)) in
  let shortRatio := floatPtrSafe (AString (lr_ShortRatio item)) in
  lsRatio ← unguarded_ratio longRatio shortRatio;
  mret (MkLongShortRatio (meta (RawJson (enc_longShortRatio item))) (job_Period job)
    (timestamp_or (resp_CapturedAt resp) (lr_Ts item)) None None longRatio shortRatio None None None None lsRatio).

Definition normalizeLongShortRatio : outcome NormalizedResult :=
  payload ← payload_of (body resp);
  items ← parse "parse bitget long/short ratio" (slice dec_longShortRatio) (env_Data payload);
  rows ← mapM ratio_row items;
  mret (MkNormalizedResult [] [] [] [] [] (keep_valid ValidateLongShortRatio rows) [] [] [] [] [] [] []).

Definition normalizeOrderbook : outcome NormalizedResult :=
  payload ← payload_of (body resp);
  items ← parse "parse bitget orderbook" (slice dec_orderbook) (env_Data payload);
  match items with
  | [] => Fail (ErrorString "bitget orderbook data is empty")
  | ob :: _ =>
    orderbook_result "bitget" resp job symbol str_num (resp_CapturedAt resp) (body resp) (bk_Bids ob) (bk_Asks ob)
  end.
End normalizers.

Definition Normalize `{MapOrder} : NormalizerFunc := fun dataType resp job symbol =>
  if one_of dataType ["ticker"; "mark_price"; "index_price"; "funding"] then normalizeTicker resp job symbol else
  if one_of dataType ["kline"] then normalizeKline resp job symbol else
  if one_of dataType ["open_interest"] then normalizeOpenInterest resp job symbol else
  if one_of dataType ["long_short_ratio"] then normalizeLongShortRatio resp job symbol else
  if one_of dataType ["orderbook"; "orderbook_imbalance"] then normalizeOrderbook resp job symbol else
  Fail ErrUnsupportedDataType.

Definition NewAdapter `{MapOrder} : BaseAdapter := MkBaseAdapter "bitget" (Some Normalize).

Definition supported : list string :=
  ["ticker"; "mark_price"; "index_price"; "funding"; "kline"; "open_interest"; "long_short_ratio"; "orderbook";
   "orderbook_imbalance"].

(** ** The laws *)
Section laws.
Context `{MapOrder} (resp : ExchangeResponse) (job : Job) (symbol : Symbol).
Abbreviation ok := (normalized_ok "bitget" resp job symbol).

Lemma bitget_ticker_ok x : normalizeTicker resp job symbol = Value x -> ok x.
Proof. solve_normalizer normalizeTicker. Qed.
Lemma bitget_payload_no_panic raw : payload_of raw <> Panic.
Proof. no_panic. Qed.
Lemma bitget_kline_row k r : kline_row resp job symbol k = Value r ->
  exists raw, kl_Meta r = source_meta "bitget" resp job symbol raw.
Proof. row_meta kline_row. Qed.
#[local] Hint Resolve bitget_kline_row : adapters.
Lemma bitget_kline_no_panic : normalizeKline resp job symbol <> Panic.
Proof.
  unfold normalizeKline. apply bind_no_panic; [apply bitget_payload_no_panic|intros payload].
  eapply parsed_rows_no_panic; [apply slice_arrays|]. intros k Hk. unfold kline_row. simpl in *. indexed. done.
Qed.
Lemma bitget_kline_ok x : normalizeKline resp job symbol = Value x -> ok x.
Proof. solve_normalizer normalizeKline. Qed.
Lemma bitget_open_interest_ok x : normalizeOpenInterest resp job symbol = Value x -> ok x.
Proof. solve_normalizer normalizeOpenInterest. Qed.
Lemma bitget_ratio_row item r : ratio_row resp job symbol item = Value r ->
  exists raw, ls_Meta r = source_meta "bitget" resp job symbol raw.
Proof. unfold ratio_row. intros. inv_value. by eexists. Qed.
Lemma bitget_ratio_ok x : normalizeLongShortRatio resp job symbol = Value x -> ok x.
Proof.
  intros Hx. unfold normalizeLongShortRatio in Hx. inv_value. split; simpl; try solve_rows.
  eapply keep_valid_mapM; [|eassumption]. eauto using bitget_ratio_row.
Qed.
Lemma bitget_orderbook_ok x : normalizeOrderbook resp job symbol = Value x -> ok x.
Proof. solve_normalizer normalizeOrderbook. Qed.
Lemma bitget_first_no_panic raw : firstTicker raw <> Panic.
Proof. no_panic. Qed.
End laws.

#[export] Hint Resolve bitget_ticker_ok bitget_kline_ok bitget_open_interest_ok bitget_ratio_ok bitget_orderbook_ok : adapters.
#[export] Hint Resolve bitget_payload_no_panic bitget_first_no_panic bitget_kline_no_panic : nopanic.

#[export] Instance bitget_laws `{MapOrder} : NormalizerLaws "bitget" supported Normalize.
Proof.
  split; intros dt resp job symbol.
  - intros x Hc. by_cases Normalize (eauto with adapters).
  - intros x. solve_supported Normalize.
  - solve_panics Normalize.
Qed.
