(* ===== verification/Gate.v ===== *)
(** * The Gate adapter ([internal/exchanges/gate/adapter.go]) *)

From S2P Require Import Prelude GoString GoTime GoFloat GoError GoOutcome GoJson GoJsonText.
From S2P Require Import Symbols SchedulerModels Normalizers Collector ExchangeCommon.

(** ** Payloads *)

Record errorEnvelope := MkErrorEnvelope { env_Label : string; env_Message : string }.
Definition dec_errorEnvelope (v : json) : option errorEnvelope :=
  label ← str_field "label" v; message ← str_field "message" v; mret (MkErrorEnvelope label message).

Record tickerRecord := MkTicker {
  tk_Contract : string; tk_Last : string; tk_MarkPrice : string; tk_IndexPrice : string; tk_BidPrice : string;
  tk_AskPrice : string; tk_VolumeBase24h : string; tk_VolumeQuote24h : string; tk_ChangePercentage : string;
  tk_OpenInterest : string; tk_FundingRate : string }.
Definition dec_tickerRecord (v : json) : option tickerRecord :=
  contract ← str_field "contract" v; last ← str_field "last" v; mark ← str_field "mark_price" v;
  index ← str_field "index_price" v; bid ← str_field "highest_bid" v; ask ← str_field "lowest_ask" v;
  base ← str_field "volume_24h_base" v; quote ← str_field "volume_24h_quote" v;
  change ← str_field "change_percentage" v; oi ← str_field "total_size" v; funding ← str_field "funding_rate" v;
  mret (MkTicker contract last mark index bid ask base quote change oi funding).
Definition enc_tickerRecord (t : tickerRecord) : json :=
  JObject [("contract", JString (tk_Contract t)); ("last", JString (tk_Last t)); ("mark_price", JString (tk_MarkPrice t));
           ("index_price", JString (tk_IndexPrice t)); ("highest_bid", JString (tk_BidPrice t));
           ("lowest_ask", JString (tk_AskPrice t)); ("volume_24h_base", JString (tk_VolumeBase24h t));
           ("volume_24h_quote", JString (tk_VolumeQuote24h t)); ("change_percentage", JString (tk_ChangePercentage t));
           ("total_size", JString (tk_OpenInterest t)); ("funding_rate", JString (tk_FundingRate t))].

(** [[][]any]: each row as long as the payload makes it. *)
Definition dec_rows : json -> option (list (list any)) := slice (slice dec_any).

Record orderbookResponse := MkBook { bk_ID : Z; bk_Asks : list (list string); bk_Bids : list (list string) }.
Definition dec_orderbook (v : json) : option orderbookResponse :=
  id ← int_field "id" v; asks ← str_rows_field "asks" v; bids ← str_rows_field "bids" v; mret (MkBook id asks bids).

Record liquidationItem := MkLiq {
  li_Contract : string; li_Size : float64; li_Price : string; li_Left : float64; li_Time : Z }.
Definition dec_liquidation (v : json) : option liquidationItem :=
  contract ← str_field "contract" v; size ← float_field "size" v; price ← str_field "price" v;
  left ← float_field "left" v; time ← int_field "time" v; mret (MkLiq contract size price left time).
Definition enc_liquidation (i : liquidationItem) : option json :=
  size ← marshal_float (li_Size i); left ← marshal_float (li_Left i);
  mret (JObject [("contract", JString (li_Contract i)); ("size", size); ("price", JString (li_Price i)); ("left", left);
                 ("time", JInt (li_Time i))]).

Section normalizers.
Context `{MapOrder} (resp : ExchangeResponse) (job : Job) (symbol : Symbol).
Abbreviation meta := (source_meta "gate" resp job symbol).
Abbreviation raw_row row := (RawMessage_of (marshal_any (ASlice row))).

(** [if len(row) < n { continue }]. *)
Definition at_least (n : nat) (rows : list (list any)) : list (list any) := filter (fun row => (n <= length row)%nat) rows.

Definition normalizeTicker : outcome NormalizedResult :=
  match Unmarshal dec_errorEnvelope (body resp) with
  | Some (MkErrorEnvelope (String _ _ as label) message) =>
    Fail (exchange_error ("gate label=" +:+ label +:+ " msg=" +:+ message))
  | _ =>
    items ← parse "parse gate ticker" (slice dec_tickerRecord) (body resp);
    match items with
    | [] => Fail (ErrorString "gate response data is empty")
    | item :: _ =>
      snapshot_result "gate" resp job symbol
        (MkSnapshotInput (resp_CapturedAt resp) (AString (tk_Last item)) (AString (tk_MarkPrice item))
           (AString (tk_IndexPrice item)) (AString (tk_BidPrice item)) (AString (tk_AskPrice item))
           (AString (tk_VolumeBase24h item)) (AString (tk_VolumeQuote24h item)) (AString (tk_ChangePercentage item))
           (AString (tk_OpenInterest item)) (AString (tk_FundingRate item)) (RawJson (enc_tickerRecord item)))
    end
  end.

Definition kline_row (row : list any) : outcome NormalizedKline :=
  r0 ← index row 0;
  let openTime := MustTime (SecondsToTime r0) in
  let closeTime := openTime in
  r5 ← index row 5; r3 ← index row 3; r4 ← index row 4; r2 ← index row 2; r1 ← index row 1;
  mret (MkKline (meta (raw_row row)) (job_Period job) openTime closeTime
    (parseFloatSafe r5) (parseFloatSafe r3) (parseFloatSafe r4) (parseFloatSafe r2)
    (floatPtrSafe r1) None None None None true).

Definition normalizeKline : outcome NormalizedResult :=
  rows ← parse "parse gate klines" dec_rows (body resp);
  klines ← mapM kline_row (at_least 6 rows);
  mret (MkNormalizedResult [] (keep_valid ValidateKline klines) [] [] [] [] [] [] [] [] [] [] []).

Definition open_interest_row (row : list any) : outcome NormalizedOpenInterest :=
  r0 ← index row 0; r1 ← index row 1;
  mret (MkOpenInterest (meta (raw_row row)) (MustTime (SecondsToTime r0)) (job_Period job) (parseFloatSafe r1) None).

Definition normalizeOpenInterest : outcome NormalizedResult :=
  rows ← parse "parse gate open interest" dec_rows (body resp);
  items ← mapM open_interest_row (at_least 2 rows);
  mret (MkNormalizedResult [] [] (keep_valid (fun x => ValidateOpenInterest x true) items) [] [] [] [] [] [] [] [] [] []).

Definition ratio_row (row : list any) : outcome NormalizedLongShortRatio :=
  r0 ← index row 0; r3 ← index row 3; r4 ← index row 4;
  let longRatio := floatPtrSafe r3 in
  let shortRatio := floatPtrSafe r4 in
  mret (MkLongShortRatio (meta (raw_row row)) (job_Period job) (MustTime (SecondsToTime r0)) None None longRatio shortRatio
    None None None None (guarded_ratio longRatio shortRatio)).

Definition normalizeLongShortRatio : outcome NormalizedResult :=
  rows ← parse "parse gate long/short ratio" dec_rows (body resp);
  items ← mapM ratio_row (at_least 5 rows);
  mret (MkNormalizedResult [] [] [] [] [] (keep_valid ValidateLongShortRatio items) [] [] [] [] [] [] []).

Definition flow_row (row : list any) : outcome NormalizedTakerFlow :=
  r0 ← index row 0; r5 ← index row 5; r6 ← index row 6;
  let buyVol := parseFloatSafe r5 in
  let sellVol := parseFloatSafe r6 in
  mret (MkTakerFlow (meta (raw_row row)) (job_Period job) (MustTime (SecondsToTime r0))
    (floatPtrSafe r5) (floatPtrSafe r6) None None (Some (fsub buyVol sellVol)) None (flow_ratio buyVol sellVol)).

Definition normalizeTakerFlow : outcome NormalizedResult :=
  rows ← parse "parse gate taker flow" dec_rows (body resp);
  items ← mapM flow_row (at_least 7 rows);
  mret (MkNormalizedResult [] [] [] [] [] [] (keep_valid ValidateTakerFlow items) [] [] [] [] [] []).

Definition normalizeOrderbook : outcome NormalizedResult :=
  ob ← parse "parse gate orderbook" dec_orderbook (body resp);
  orderbook_result "gate" resp job symbol str_num (resp_CapturedAt resp) (body resp) (bk_Bids ob) (bk_Asks ob).

Definition liquidation_of (item : liquidationItem) : liquidation :=
  let price := floatPtrSafe (AString (li_Price item)) in
  let qty := Some (if flt (li_Size item) f64_zero then SFopp (li_Size item) else li_Size item) in
  let notional := notional_of price qty in
  let side := if fgt (li_Size item) f64_zero then "SELL" else "BUY" in
  MkLiquidation
    (liquidation_event "gate" resp job symbol (RawMessage_of (enc_liquidation item))
       (li_Contract item +:+ "-" +:+ side +:+ "-" +:+ Itoa (li_Time item))
       (Unix (li_Time item)) side price qty notional)
    notional (side =? "SELL")%string.

Definition normalizeLiquidation : outcome NormalizedResult :=
  items ← parse "parse gate liquidation" (slice dec_liquidation) (body resp);
  mret (liquidation_result "gate" resp job symbol false (map liquidation_of items)).

Definition basis_row (row : list any) : outcome NormalizedBasisPremium :=
  r0 ← index row 0; r2 ← index row 2;
  mret (MkBasisPremium (meta (raw_row row)) (MustTime (SecondsToTime r0)) None None None None (floatPtrSafe r2)
    None None None None None).

Definition normalizeBasis : outcome NormalizedResult :=
  rows ← parse "parse gate basis" dec_rows (body resp);
  items ← mapM basis_row (at_least 3 rows);
  mret (MkNormalizedResult [] [] [] [] [] [] [] [] [] [] (keep_valid ValidateBasisPremium items) [] []).
End normalizers.

Definition Normalize `{MapOrder} : NormalizerFunc := fun dataType resp job symbol =>
  if one_of dataType ["ticker"; "mark_price"; "index_price"; "funding"] then normalizeTicker resp job symbol else
  if one_of dataType ["kline"] then normalizeKline resp job symbol else
  if one_of dataType ["open_interest"] then normalizeOpenInterest resp job symbol else
  if one_of dataType ["long_short_ratio"] then normalizeLongShortRatio resp job symbol else
  if one_of dataType ["taker_flow"] then normalizeTakerFlow resp job symbol else
  if one_of dataType ["orderbook"; "orderbook_imbalance"] then normalizeOrderbook resp job symbol else
  if one_of dataType ["liquidation"] then normalizeLiquidation resp job symbol else
  if one_of dataType ["basis"] then normalizeBasis resp job symbol else
  Fail ErrUnsupportedDataType.

Definition NewAdapter `{MapOrder} : BaseAdapter := MkBaseAdapter "gate" (Some Normalize).

Definition supported : list string :=
  ["ticker"; "mark_price"; "index_price"; "funding"; "kline"; "open_interest"; "long_short_ratio"; "taker_flow"; "orderbook";
   "orderbook_imbalance"; "liquidation"; "basis"].

(** ** The laws *)
Section laws.
Context `{MapOrder} (resp : ExchangeResponse) (job : Job) (symbol : Symbol).
Abbreviation ok := (normalized_ok "gate" resp job symbol).

(** Every row says where it comes from, and no row that is long enough panics. *)
Lemma gate_kline_row row r : kline_row resp job symbol row = Value r ->
  exists raw, kl_Meta r = source_meta "gate" resp job symbol raw.
Proof. row_meta kline_row. Qed.
Lemma gate_open_interest_row row r : open_interest_row resp job symbol row = Value r ->
  exists raw, oi_Meta r = source_meta "gate" resp job symbol raw.
Proof. row_meta open_interest_row. Qed.
Lemma gate_ratio_row row r : ratio_row resp job symbol row = Value r ->
  exists raw, ls_Meta r = source_meta "gate" resp job symbol raw.
Proof. row_meta ratio_row. Qed.
Lemma gate_flow_row row r : flow_row resp job symbol row = Value r ->
  exists raw, tf_Meta r = source_meta "gate" resp job symbol raw.
Proof. row_meta flow_row. Qed.
Lemma gate_basis_row row r : basis_row resp job symbol row = Value r ->
  exists raw, bp_Meta r = source_meta "gate" resp job symbol raw.
Proof. row_meta basis_row. Qed.
#[local] Hint Resolve gate_kline_row gate_open_interest_row gate_ratio_row gate_flow_row gate_basis_row : adapters.

Lemma gate_kline_no_panic : normalizeKline resp job symbol <> Panic.
Proof. rows_no_panic normalizeKline kline_row. Qed.
Lemma gate_open_interest_no_panic : normalizeOpenInterest resp job symbol <> Panic.
Proof. rows_no_panic normalizeOpenInterest open_interest_row. Qed.
Lemma gate_ratio_no_panic : normalizeLongShortRatio resp job symbol <> Panic.
Proof. rows_no_panic normalizeLongShortRatio ratio_row. Qed.
Lemma gate_flow_no_panic : normalizeTakerFlow resp job symbol <> Panic.
Proof. rows_no_panic normalizeTakerFlow flow_row. Qed.
Lemma gate_basis_no_panic : normalizeBasis resp job symbol <> Panic.
Proof. rows_no_panic normalizeBasis basis_row. Qed.

Lemma gate_ticker_ok x : normalizeTicker resp job symbol = Value x -> ok x.
Proof.
  unfold normalizeTicker. destruct (Unmarshal _ _) as [[[|c l] m]|]; [|done|];
    intros Hx; inv_value; eapply snapshot_result_ok; exact Hx.
Qed.
Lemma gate_kline_ok x : normalizeKline resp job symbol = Value x -> ok x.
Proof. solve_normalizer normalizeKline. Qed.
Lemma gate_open_interest_ok x : normalizeOpenInterest resp job symbol = Value x -> ok x.
Proof.
  intros Hx. unfold normalizeOpenInterest in Hx. inv_value. split; simpl; try solve_rows.
  eapply Forall_impl; [eapply (keep_valid_mapM "gate" resp job symbol oi_Meta); [|eassumption]; eauto with adapters|]. simpl.
  intros r [Hm Hv]. auto using history_valid.
Qed.
Lemma gate_ratio_ok x : normalizeLongShortRatio resp job symbol = Value x -> ok x.
Proof. solve_normalizer normalizeLongShortRatio. Qed.
Lemma gate_flow_ok x : normalizeTakerFlow resp job symbol = Value x -> ok x.
Proof. solve_normalizer normalizeTakerFlow. Qed.
Lemma gate_orderbook_ok x : normalizeOrderbook resp job symbol = Value x -> ok x.
Proof. solve_normalizer normalizeOrderbook. Qed.
Lemma gate_liquidation_ok x :
  5 * Minute <= resp_CapturedAt resp -> normalizeLiquidation resp job symbol = Value x -> ok x.
Proof. solve_normalizer normalizeLiquidation. Qed.
Lemma gate_basis_ok x : normalizeBasis resp job symbol = Value x -> ok x.
Proof. solve_normalizer normalizeBasis. Qed.
End laws.

#[export] Hint Resolve gate_ticker_ok gate_kline_ok gate_open_interest_ok gate_ratio_ok gate_flow_ok gate_orderbook_ok
  gate_liquidation_ok gate_basis_ok : adapters.
#[export] Hint Resolve gate_kline_no_panic gate_open_interest_no_panic gate_ratio_no_panic gate_flow_no_panic
  gate_basis_no_panic : nopanic.

#[export] Instance gate_laws `{MapOrder} : NormalizerLaws "gate" supported Normalize.
Proof.
  split; intros dt resp job symbol.
  - intros x Hc. by_cases Normalize (eauto with adapters).
  - intros x. solve_supported Normalize.
  - solve_panics Normalize.
Qed.
