(* ===== verification/Mexc.v ===== *)
(** * The MEXC adapter ([internal/exchanges/mexc/adapter.go]) *)

From S2P Require Import Prelude GoString GoTime GoFloat GoError GoOutcome GoJson GoJsonText.
From S2P Require Import Symbols SchedulerModels Normalizers Collector ExchangeCommon.

(** ** Payloads *)

Record envelope := MkEnvelope { env_Success : bool; env_Code : Z; env_Message : string; env_Data : RawMessage }.
Definition dec_envelope (v : json) : option envelope :=
  success ← bool_field "success" v; code ← int_field "code" v; message ← str_field "message" v;
  data ← raw_field "data" v; mret (MkEnvelope success code message data).

Record tickerRecord := MkTicker {
  tk_Symbol : string; tk_LastPrice : float64; tk_BidPrice : float64; tk_AskPrice : float64; tk_Volume24h : float64;
  tk_QuoteVolume : float64; tk_OpenInterest : float64; tk_IndexPrice : float64; tk_MarkPrice : float64;
  tk_FundingRate : float64; tk_Timestamp : Z }.
Definition dec_tickerRecord (v : json) : option tickerRecord :=
  symbol ← str_field "symbol" v; last ← float_field "lastPrice" v; bid ← float_field "bid1" v; ask ← float_field "ask1" v;
  vol ← float_field "volume24" v; quote ← float_field "amount24" v; oi ← float_field "holdVol" v;
  index ← float_field "indexPrice" v; mark ← float_field "fairPrice" v; funding ← float_field "fundingRate" v;
  ts ← int_field "timestamp" v; mret (MkTicker symbol last bid ask vol quote oi index mark funding ts).
Definition enc_tickerRecord (t : tickerRecord) : option json :=
  last ← marshal_float (tk_LastPrice t); bid ← marshal_float (tk_BidPrice t); ask ← marshal_float (tk_AskPrice t);
  vol ← marshal_float (tk_Volume24h t); quote ← marshal_float (tk_QuoteVolume t); oi ← marshal_float (tk_OpenInterest t);
  index ← marshal_float (tk_IndexPrice t); mark ← marshal_float (tk_MarkPrice t); funding ← marshal_float (tk_FundingRate t);
  mret (JObject [("symbol", JString (tk_Symbol t)); ("lastPrice", last); ("bid1", bid); ("ask1", ask); ("volume24", vol);
                 ("amount24", quote); ("holdVol", oi); ("indexPrice", index); ("fairPrice", mark); ("fundingRate", funding);
                 ("timestamp", JInt (tk_Timestamp t))]).

Record klineData := MkKlineData {
  kd_Time : list Z; kd_Open : list float64; kd_High : list float64; kd_Low : list float64; kd_Close : list float64;
  kd_Vol : list float64 }.
Definition dec_klineData (v : json) : option klineData :=
  time ← slice_field int_elem "time" v; open ← slice_field float_elem "open" v; high ← slice_field float_elem "high" v;
  low ← slice_field float_elem "low" v; close ← slice_field float_elem "close" v; vol ← slice_field float_elem "vol" v;
  mret (MkKlineData time open high low close vol).

Record orderbookData := MkBook { bk_Asks : list (list float64); bk_Bids : list (list float64) }.
Definition dec_orderbook (v : json) : option orderbookData :=
  asks ← float_rows_field "asks" v; bids ← float_rows_field "bids" v; mret (MkBook asks bids).
Definition enc_side (levels : list (list float64)) : option json :=
  JArray <$> all_some (map (fun l => JArray <$> all_some (map marshal_float l)) levels).
Definition enc_orderbook (ob : orderbookData) : option json :=
  asks ← enc_side (bk_Asks ob); bids ← enc_side (bk_Bids ob); mret (JObject [("asks", asks); ("bids", bids)]).

Record liquidationItem := MkLiq {
  li_Symbol : string; li_Price : float64; li_Qty : float64; li_Side : string; li_Time : Z }.
Definition dec_liquidation (v : json) : option liquidationItem :=
  symbol ← str_field "symbol" v; price ← float_field "price" v; qty ← float_field "qty" v; side ← str_field "side" v;
  time ← int_field "time" v; mret (MkLiq symbol price qty side time).
Definition enc_liquidation (i : liquidationItem) : option json :=
  price ← marshal_float (li_Price i); qty ← marshal_float (li_Qty i);
  mret (JObject [("symbol", JString (li_Symbol i)); ("price", price); ("qty", qty); ("side", JString (li_Side i));
                 ("time", JInt (li_Time i))]).
(** [liquidationData]. *)
Definition dec_liquidationData (v : json) : option (list liquidationItem) := slice_field dec_liquidation "items" v.

(** The opening of every normaliser: the envelope and its flag. *)
Definition payload_of (body : RawMessage) : outcome envelope :=
  payload ← parse "parse mexc response" dec_envelope body;
  if negb (env_Success payload) then
    Fail (exchange_error ("mexc code=" +:+ Itoa (env_Code payload) +:+ " msg=" +:+ env_Message payload))
  else Value payload.

Definition firstTicker (raw : RawMessage) : outcome tickerRecord :=
  match Unmarshal (slice dec_tickerRecord) raw with
  | Some (item :: _) => Value item
  | _ =>
    item ← parse "parse mexc ticker" dec_tickerRecord raw;
    if (tk_Symbol item =? "")%string then Fail (ErrorString "mexc response data is empty") else Value item
  end.

Definition floatPtr (v : float64) : option float64 := Some v.

Section normalizers.
Context `{MapOrder} (resp : ExchangeResponse) (job : Job) (symbol : Symbol).
Abbreviation meta := (source_meta "mexc" resp job symbol).

Definition normalizeTicker : outcome NormalizedResult :=
  payload ← payload_of (body resp);
  item ← firstTicker (env_Data payload);
  match MillisToTime (AInt (tk_Timestamp item)) with
  | (_, Some err) => Fail (WrapError "parse mexc timestamp: " err "")
  | (snapshotTime, None) =>
    snapshot_result "mexc" resp job symbol
      (MkSnapshotInput snapshotTime (AFloat (tk_LastPrice item)) (AFloat (tk_MarkPrice item)) (AFloat (tk_IndexPrice item))
         (AFloat (tk_BidPrice item)) (AFloat (tk_AskPrice item)) (AFloat (tk_Volume24h item)) (AFloat (tk_QuoteVolume item))
         ANil (AFloat (tk_OpenInterest item)) (AFloat (tk_FundingRate item)) (RawMessage_of (enc_tickerRecord item)))
  end.

Definition normalizeOpenInterest : outcome NormalizedResult :=
  payload ← payload_of (body resp);
  item ← firstTicker (env_Data payload);
  let snapshotTime := if 0 <? tk_Timestamp item then MustTime (MillisToTime (AInt (tk_Timestamp item))) else resp_CapturedAt resp in
  oiItem ← checked (fun x => ValidateOpenInterest x false)
    (MkOpenInterest (meta (RawMessage_of (enc_tickerRecord item))) snapshotTime "" (tk_OpenInterest item) None);
  mret (MkNormalizedResult [] [] [oiItem] [] [] [] [] [] [] [] [] [] []).

(** The map [json.Marshal] writes in key order. *)
Definition enc_kline (t : Z) (o h l c v : float64) : option json :=
  o' ← marshal_float o; h' ← marshal_float h; l' ← marshal_float l; c' ← marshal_float c; v' ← marshal_float v;
  mret (json_map [("time", JInt t); ("open", o'); ("high", h'); ("low", l'); ("close", c'); ("vol", v')]).

(** [i] is an index of every one of the parallel arrays. *)
Definition complete_at (kd : klineData) (i : nat) : bool :=
  (i <? length (kd_Open kd))%nat && (i <? length (kd_High kd))%nat && (i <? length (kd_Low kd))%nat &&
  (i <? length (kd_Close kd))%nat && (i <? length (kd_Vol kd))%nat.

Definition kline_at (kd : klineData) (i : nat) : outcome NormalizedKline :=
  t ← index (kd_Time kd) i;
  let openTime := Unix t in
  let closeTime := Add openTime Minute in
  o ← index (kd_Open kd) i; h ← index (kd_High kd) i; l ← index (kd_Low kd) i; c ← index (kd_Close kd) i;
  v ← index (kd_Vol kd) i;
  mret (MkKline (meta (RawMessage_of (enc_kline t o h l c v))) (job_Period job) openTime closeTime o h l c
          (floatPtr v) None None None None true).

Definition normalizeKline : outcome NormalizedResult :=
  payload ← payload_of (body resp);
  kd ← parse "parse mexc kline" dec_klineData (env_Data payload);
  rows ← mapM (kline_at kd) (filter (fun i => complete_at kd i = true) (seq 0 (length (kd_Time kd))));
  mret (MkNormalizedResult [] (keep_valid ValidateKline rows) [] [] [] [] [] [] [] [] [] [] []).

Definition normalizeOrderbook : outcome NormalizedResult :=
  payload ← payload_of (body resp);
  ob ← parse "parse mexc orderbook" dec_orderbook (env_Data payload);
  orderbook_result "mexc" resp job symbol id (resp_CapturedAt resp) (RawMessage_of (enc_orderbook ob)) (bk_Bids ob) (bk_Asks ob).

Definition liquidation_of (item : liquidationItem) : liquidation :=
  let price := floatPtr (li_Price item) in
  let qty := floatPtr (li_Qty item) in
  let notional := notional_of price qty in
  let side := if (li_Side item =? "LONG")%string then "SELL" else "BUY" in
  MkLiquidation
    (liquidation_event "mexc" resp job symbol (RawMessage_of (enc_liquidation item))
       (li_Symbol item +:+ "-" +:+ li_Side item +:+ "-" +:+ Itoa (li_Time item))
       (Unix (li_Time item)) side price qty notional)
    notional (side =? "SELL")%string.

Definition normalizeLiquidation : outcome NormalizedResult :=
  payload ← payload_of (body resp);
  ld ← parse "parse mexc liquidation" dec_liquidationData (env_Data payload);
  mret (liquidation_result "mexc" resp job symbol false (map liquidation_of ld)).
End normalizers.

Definition Normalize `{MapOrder} : NormalizerFunc := fun dataType resp job symbol =>
  if one_of dataType ["ticker"; "mark_price"; "index_price"; "funding"] then normalizeTicker resp job symbol else
  if one_of dataType ["open_interest"] then normalizeOpenInterest resp job symbol else
  if one_of dataType ["kline"] then normalizeKline resp job symbol else
  if one_of dataType ["orderbook"; "orderbook_imbalance"] then normalizeOrderbook resp job symbol else
  if one_of dataType ["liquidation"] then normalizeLiquidation resp job symbol else
  Fail ErrUnsupportedDataType.

Definition NewAdapter `{MapOrder} : BaseAdapter := MkBaseAdapter "mexc" (Some Normalize).

Definition supported : list string :=
  ["ticker"; "mark_price"; "index_price"; "funding"; "open_interest"; "kline"; "orderbook"; "orderbook_imbalance"; "liquidation"].

(** ** The laws *)
Section laws.
Context `{MapOrder} (resp : ExchangeResponse) (job : Job) (symbol : Symbol).
Abbreviation ok := (normalized_ok "mexc" resp job symbol).

Lemma mexc_ticker_ok x : normalizeTicker resp job symbol = Value x -> ok x.
Proof. solve_normalizer normalizeTicker. Qed.
Lemma mexc_open_interest_ok x : normalizeOpenInterest resp job symbol = Value x -> ok x.
Proof. solve_normalizer normalizeOpenInterest. Qed.
Lemma mexc_kline_row kd i r : kline_at resp job symbol kd i = Value r ->
  exists raw, kl_Meta r = source_meta "mexc" resp job symbol raw.
Proof. row_meta kline_at. Qed.
#[local] Hint Resolve mexc_kline_row : adapters.
Lemma mexc_payload_no_panic raw : payload_of raw <> Panic.
Proof. no_panic. Qed.
Lemma mexc_kline_no_panic : normalizeKline resp job symbol <> Panic.
Proof.
  unfold normalizeKline. apply bind_no_panic; [apply mexc_payload_no_panic|intros payload].
  apply parsed_no_panic. intros v kd _. apply bind_no_panic; [|intros; apply ret_no_panic].
  apply mapM_no_panic, Forall_forall. intros i [Hc Hi]%list_elem_of_filter. apply elem_of_seq in Hi.
  unfold complete_at in Hc. rewrite !andb_true_iff, !Nat.ltb_lt in Hc. unfold kline_at. indexed. done.
Qed.
Lemma mexc_kline_ok x : normalizeKline resp job symbol = Value x -> ok x.
Proof. solve_normalizer normalizeKline. Qed.
Lemma mexc_orderbook_ok x : normalizeOrderbook resp job symbol = Value x -> ok x.
Proof. solve_normalizer normalizeOrderbook. Qed.
Lemma mexc_liquidation_ok x :
  5 * Minute <= resp_CapturedAt resp -> normalizeLiquidation resp job symbol = Value x -> ok x.
Proof. solve_normalizer normalizeLiquidation. Qed.
Lemma mexc_first_no_panic raw : firstTicker raw <> Panic.
Proof. no_panic. Qed.
End laws.

#[export] Hint Resolve mexc_ticker_ok mexc_kline_ok mexc_open_interest_ok mexc_orderbook_ok mexc_liquidation_ok : adapters.
#[export] Hint Resolve mexc_payload_no_panic mexc_first_no_panic mexc_kline_no_panic : nopanic.

#[export] Instance mexc_laws `{MapOrder} : NormalizerLaws "mexc" supported Normalize.
Proof.
  split; intros dt resp job symbol.
  - intros x Hc. by_cases Normalize (eauto with adapters).
  - intros x. solve_supported Normalize.
  - solve_panics Normalize.
Qed.
