(* ===== verification/Adapters.v ===== *)
(** * The adapter registry ([internal/exchanges/all/registry.go])

    The six adapters behind their interface: what the collector gets when it asks for an exchange,
    what every normaliser promises, and where they panic. *)

From S2P Require Import Prelude GoString GoTime GoFloat GoFloatSign GoError GoOutcome GoJson GoJsonText.
From S2P Require Import Symbols SchedulerModels Normalizers Hardening Collector ExchangeCommon.
From S2P Require Import Binance Okx Bybit Bitget Gate Mexc.

Section registry.
Context `{MapOrder}.

Definition Registry : Type := gmap string BaseAdapter.

(** The entries of the map literal. *)
Definition adapters : list (string * BaseAdapter) :=
    [("binance", Binance.NewAdapter); ("okx", Okx.NewAdapter); ("bybit", Bybit.NewAdapter);
     ("bitget", Bitget.NewAdapter); ("gate", Gate.NewAdapter); ("mexc", Mexc.NewAdapter)].

Definition NewRegistry : Registry := list_to_map adapters.

Definition Get (r : Registry) (exchange : string) : result error BaseAdapter :=
  let exchange := ToLower (TrimSpace exchange) in
  match r !! exchange with
  | Some adapter => Ok adapter
  | None => Err (ErrorString ("exchange adapter " +:+ Quote exchange +:+ " is not registered"))
  end.

Definition Exchanges (r : Registry) : list string := iterate (map fst (map_to_list r)).
End registry.

(** ** What the registry gives *)

Definition exchange_names : list string := ["binance"; "okx"; "bybit"; "bitget"; "gate"; "mexc"].

(** The data types of each adapter's switch. *)
Definition supported_by (exchange : string) : list string :=
  if (exchange =? "binance")%string then Binance.supported else if (exchange =? "okx")%string then Okx.supported else
  if (exchange =? "bybit")%string then Bybit.supported else if (exchange =? "bitget")%string then Bitget.supported else
  if (exchange =? "gate")%string then Gate.supported else if (exchange =? "mexc")%string then Mexc.supported else [].

Section lookup.
Context `{MapOrder}.

Lemma Get_adapters exchange a : Get NewRegistry exchange = Ok a -> (norm exchange, a) ∈ adapters.
Proof.
  unfold Get. change (ToLower (TrimSpace exchange)) with (norm exchange).
  destruct (NewRegistry !! norm exchange) as [b|] eqn:E; [|done]. intros [= ->]. by apply elem_of_list_to_map_2 in E.
Qed.

(** An adapter of the registry is named after its exchange and obeys the laws of a normaliser. *)
Lemma Get_laws exchange a :
  Get NewRegistry exchange = Ok a ->
  norm exchange ∈ exchange_names /\
  exists f, a = MkBaseAdapter (norm exchange) (Some f) /\ NormalizerLaws (norm exchange) (supported_by (norm exchange)) f.
Proof.
  intros E%Get_adapters. unfold adapters in E.
  assert (forall n f, n ∈ exchange_names -> NormalizerLaws n (supported_by n) f -> (norm exchange, a) = (n, MkBaseAdapter n (Some f)) ->
            norm exchange ∈ exchange_names /\
            exists g, a = MkBaseAdapter (norm exchange) (Some g) /\
              NormalizerLaws (norm exchange) (supported_by (norm exchange)) g) as Hcase.
  { intros n f Hn L [= -> ->]. eauto. }
  rewrite !elem_of_cons, elem_of_nil in E.
  destruct E as [E|[E|[E|[E|[E|[E|[]]]]]]]; (eapply Hcase; [|..|exact E]; [unfold exchange_names; set_solver|apply _]).
Qed.

Lemma Get_entry exchange a : (norm exchange, a) ∈ adapters -> Get NewRegistry exchange = Ok a.
Proof.
  intros He. unfold Get. change (ToLower (TrimSpace exchange)) with (norm exchange).
  assert (NewRegistry !! norm exchange = Some a) as ->; [|done].
  apply (elem_of_list_to_map_1 (M := gmap string)); [|done]. change (adapters.*1) with exchange_names.
  apply (bool_decide_unpack _). vm_compute. done.
Qed.

(** C36: every row an adapter of the registry returns, whatever the payload, carries the symbol, the
    exchange, the source symbol and the endpoint of its request and passes the validator of its
    type; liquidation events come with exactly one bucket, which counts each of them once and
    totals their notionals. *)
Theorem adapter_rows_valid exchange a dataType resp job symbol x :
  Get NewRegistry exchange = Ok a -> 5 * Minute <= resp_CapturedAt resp ->
  BaseAdapter_Normalize a dataType resp job symbol = Value x ->
  normalized_ok (norm exchange) resp job symbol x.
Proof.
  intros (_ & f & -> & L)%Get_laws Hc Hx. eapply law_rows; [exact Hc|exact Hx].
Qed.

End lookup.

(** ** Payloads for the witnesses *)

#[local] Existing Instance forward_order.

Definition demo_response (text : string) : ExchangeResponse :=
  MkResponse 200 (quoted text) (UnixMilli 1779710400000) 7.
Definition demo_symbol : Symbol := MkSymbol 123 "0G" "0G" "USDT" "perpetual" 1 true [].
Definition demo_job : Job :=
  MkJob 1 "binance" "ticker" "all" 123 "0GUSDT" "5m" "k" JobStatusRunning 1 0 None None 0 3 "" RawEmpty "realtime" 0 RawEmpty.

Definition demo_ticker : string :=
  "{'symbol':'0GUSDT','lastPrice':'1.23','bidPrice':'1.22','askPrice':'1.24','volume':'100','quoteVolume':'123','priceChangePercent':'1.5','closeTime':1779710400000}".

Example binance_ticker_test :
  match Binance.Normalize "ticker" (demo_response demo_ticker) demo_job demo_symbol with
  | Value x => map (fun s => (src_Exchange (ms_Meta s), src_SourceSymbol (ms_Meta s), ms_LastPrice s)) (nr_MarketSnapshots x)
  | _ => []
  end = [("binance", "0GUSDT", Some (f64_dec 123 (-2)))].
Proof. vm_compute. reflexivity. Qed.

Definition demo_bybit : string :=
  "{'retCode':0,'retMsg':'OK','time':1779710400000,'result':{'list':[{'symbol':'0GUSDT','lastPrice':'1.23','bid1Price':'1.22','ask1Price':'1.24','volume24h':'100','turnover24h':'123','price24hPcnt':'0.015'}]}}".

Example bybit_ticker_test :
  match Bybit.Normalize "ticker" (demo_response demo_bybit) demo_job demo_symbol with
  | Value x => map (fun s => (src_Exchange (ms_Meta s), ms_AskPrice s)) (nr_MarketSnapshots x)
  | _ => []
  end = [("bybit", Some (f64_dec 124 (-2)))].
Proof. vm_compute. reflexivity. Qed.

(** Two good levels and an empty one, as each exchange wraps a book. *)
Definition empty_level_book (exchange : string) : string :=
  let book := "{'bids':[['1.22','5']],'asks':[[]]}" in
  if (exchange =? "okx")%string then "{'code':'0','data':[" +:+ book +:+ "]}" else
  if (exchange =? "bitget")%string then "{'code':'00000','data':[" +:+ book +:+ "]}" else
  if (exchange =? "bybit")%string then "{'result':{'b':[['1.22','5']],'a':[[]]}}" else
  if (exchange =? "mexc")%string then "{'success':true,'data':{'bids':[[1.22,5]],'asks':[[]]}}" else book.

Section panics.
Context `{MapOrder}.

(** A side that is missing where the other is not zero. *)
Definition lacks_long (long short : string) : Prop :=
  floatPtrSafe (AString long) = None /\ exists s, floatPtrSafe (AString short) = Some s /\ fne0 s = true.

(** *** The data an answer holds, and what makes a normaliser panic on it *)

(** The part of an answer that holds the data, once its envelope is read and its code is good. *)
Definition accepted_data (exchange : string) (resp : ExchangeResponse) : option RawMessage :=
  let raw := body resp in
  if (exchange =? "okx")%string then
    payload ← Unmarshal Okx.dec_envelope raw;
    if (Okx.env_Code payload =? "")%string || (Okx.env_Code payload =? "0")%string then Some (Okx.env_Data payload) else None
  else if (exchange =? "bybit")%string then
    payload ← Unmarshal Bybit.dec_baseEnvelope raw; if Bybit.env_RetCode payload =? 0 then Some (Bybit.env_Result payload) else None
  else if (exchange =? "bitget")%string then
    payload ← Unmarshal Bitget.dec_envelope raw;
    if (Bitget.env_Code payload =? "")%string || (Bitget.env_Code payload =? "00000")%string then Some (Bitget.env_Data payload)
    else None
  else if (exchange =? "mexc")%string then
    payload ← Unmarshal Mexc.dec_envelope raw; if Mexc.env_Success payload then Some (Mexc.env_Data payload) else None
  else Some raw.

(** The lengths of the levels of a book, bids and asks. *)
Definition sizes {A} (bids asks : list (list A)) : list nat * list nat := (map length bids, map length asks).

Definition book_of (exchange : string) (resp : ExchangeResponse) : option (list nat * list nat) :=
  data ← accepted_data exchange resp;
  if (exchange =? "okx")%string then
    records ← Unmarshal (slice Okx.dec_orderbook) data; ob ← head records; Some (sizes (Okx.bk_Bids ob) (Okx.bk_Asks ob))
  else if (exchange =? "bitget")%string then
    items ← Unmarshal (slice Bitget.dec_orderbook) data; ob ← head items; Some (sizes (Bitget.bk_Bids ob) (Bitget.bk_Asks ob))
  else if (exchange =? "bybit")%string then
    ob ← Unmarshal Bybit.dec_obResult data; Some (sizes (Bybit.bk_Bids ob) (Bybit.bk_Asks ob))
  else if (exchange =? "gate")%string then
    ob ← Unmarshal Gate.dec_orderbook data; Some (sizes (Gate.bk_Bids ob) (Gate.bk_Asks ob))
  else if (exchange =? "mexc")%string then
    ob ← Unmarshal Mexc.dec_orderbook data; Some (sizes (Mexc.bk_Bids ob) (Mexc.bk_Asks ob))
  else ob ← Unmarshal Binance.dec_orderbook data; Some (sizes (Binance.bk_Bids ob) (Binance.bk_Asks ob)).

(** Both sides have a level and the best one of some side is an empty array. *)
Definition empty_best (book : list nat * list nat) : Prop :=
  match book with (b :: _, a :: _) => b = 0%nat \/ a = 0%nat | _ => False end.

(** A ratio whose long side is missing where the short side is not zero: the two exchanges that
    check the divisor only. *)
Definition ratio_gap (exchange : string) (resp : ExchangeResponse) : Prop :=
  exists data, accepted_data exchange resp = Some data /\
  ((exchange = "bybit" /\ exists items, Unmarshal (Bybit.dec_list Bybit.dec_lsRatioRecord) data = Some items /\
      Exists (fun i => lacks_long (Bybit.lr_BuyRatio i) (Bybit.lr_SellRatio i)) items) \/
   (exchange = "bitget" /\ exists items, Unmarshal (slice Bitget.dec_longShortRatio) data = Some items /\
      Exists (fun i => lacks_long (Bitget.lr_LongRatio i) (Bitget.lr_ShortRatio i)) items)).

Lemma parse_panic {A B} what (dec : json -> option A) raw (k : A -> outcome B) :
  (parse what dec raw ≫= k) = Panic <-> exists a, Unmarshal dec raw = Some a /\ k a = Panic.
Proof. unfold parse. destruct (Unmarshal dec raw); cbn; naive_solver. Qed.

Lemma empty_best_sizes {A} (bids asks : list (list A)) : empty_best (sizes bids asks) <-> malformed_book bids asks = true.
Proof.
  destruct bids as [|[|b bs] bids], asks as [|[|a as_] asks]; cbn; split; try done; try (intros [?|?]; done); auto.
Qed.

Lemma book_panic {A} exchange resp job symbol (num : A -> float64) t raw bids asks :
  orderbook_result exchange resp job symbol num t raw bids asks = Panic <-> empty_best (sizes bids asks).
Proof. by rewrite orderbook_result_panic, empty_best_sizes. Qed.

(** The ratio loops panic exactly when some item does. *)
Lemma ratio_loop {A B C} (row : A -> outcome B) (long short : A -> string) (k : list B -> C) items :
  (forall i, exists f, row i = (r ← unguarded_ratio (floatPtrSafe (AString (long i))) (floatPtrSafe (AString (short i))); mret (f r))) ->
  (rows ← mapM row items; mret (k rows)) = Panic <-> Exists (fun i => lacks_long (long i) (short i)) items.
Proof.
  intros Hrow.
  assert (forall i, row i = Panic <-> lacks_long (long i) (short i)) as Hp.
  { intros i. destruct (Hrow i) as [f ->]. unfold lacks_long. rewrite <- unguarded_ratio_panic. by destruct (unguarded_ratio _ _). }
  assert (forall i e, row i <> Fail e) as Hf.
  { intros i e. destruct (Hrow i) as [f ->]. destruct (unguarded_ratio _ _) as [|e'|] eqn:E; [done| |done].
    by apply unguarded_ratio_no_fail in E. }
  transitivity (mapM row items = Panic); [by destruct (mapM row items)|].
  rewrite (mapM_Panic _ _ Hf), !Exists_exists. by setoid_rewrite Hp.
Qed.

(** *** Where each exchange panics *)
Section exchanges.
Context (resp : ExchangeResponse) (job : Job) (symbol : Symbol).

(** The data types of a book. *)
Definition books : list string := ["orderbook"; "orderbook_imbalance"].

Definition book_panics (exchange : string) : Prop := exists book, book_of exchange resp = Some book /\ empty_best book.

Lemma no_book e : Fail (A := NormalizedResult) e = Panic <-> exists book : list nat * list nat, None = Some book /\ empty_best book.
Proof. split; [done|]. by intros (? & ? & _). Qed.
Lemma one_book o (book : list nat * list nat) :
  (o = Panic :> outcome NormalizedResult <-> empty_best book) ->
  o = Panic <-> exists book', Some book = Some book' /\ empty_best book'.
Proof. intros ->. split; [by exists book|]. by intros (? & [= <-] & ?). Qed.

Ltac book_cases := unfold book_panics, book_of, accepted_data, parse; simpl;
  repeat match goal with
  | |- context [Unmarshal ?dec ?raw] => destruct (Unmarshal dec raw); cbn [mbind outcome_bind option_bind]
  | |- context [(?c =? ?d)%string] => destruct (c =? d)%string; simpl
  | |- context [?z =? 0] => destruct (z =? 0); simpl
  | |- context [if Mexc.env_Success ?p then _ else _] => destruct (Mexc.env_Success p); simpl
  | |- context [match ?l with [] => _ | _ => _ end] => is_var l; destruct l; simpl
  end; first [apply no_book | apply one_book, book_panic].

Lemma binance_book : Binance.normalizeOrderbook resp job symbol = Panic <-> book_panics "binance".
Proof. unfold Binance.normalizeOrderbook. book_cases. Qed.
Lemma gate_book : Gate.normalizeOrderbook resp job symbol = Panic <-> book_panics "gate".
Proof. unfold Gate.normalizeOrderbook. book_cases. Qed.
Lemma bybit_book : Bybit.normalizeOrderbook resp job symbol = Panic <-> book_panics "bybit".
Proof. unfold Bybit.normalizeOrderbook, Bybit.parseBaseEnvelope. book_cases. Qed.
Lemma bitget_book : Bitget.normalizeOrderbook resp job symbol = Panic <-> book_panics "bitget".
Proof. unfold Bitget.normalizeOrderbook, Bitget.payload_of. book_cases. Qed.
Lemma mexc_book : Mexc.normalizeOrderbook resp job symbol = Panic <-> book_panics "mexc".
Proof. unfold Mexc.normalizeOrderbook, Mexc.payload_of. book_cases. Qed.
Lemma okx_book dataType :
  dataType ∈ books -> Okx.Normalize dataType resp job symbol = Panic <-> book_panics "okx".
Proof.
  intros Hd. unfold books in Hd. unfold Okx.Normalize, Okx.normalizeOrderbook.
  assert (one_of dataType ["orderbook"; "orderbook_imbalance"] = true) as -> by (by apply bool_decide_eq_true).
  unfold one_of. repeat rewrite (bool_decide_eq_false_2 (dataType ∈ _)) by (set_unfold in Hd; set_solver).
  unfold book_panics, book_of, accepted_data, parse; simpl.
  destruct (Unmarshal Okx.dec_envelope (body resp)) as [p|]; cbn [mbind outcome_bind option_bind]; [|apply no_book].
  generalize (Okx.env_Data p). intros d. assert (raw_is_empty d = true -> d = RawEmpty) as He by by destruct d.
  destruct (Okx.env_Code p =? "")%string, (Okx.env_Code p =? "0")%string; simpl; try apply no_book;
    (destruct (raw_is_empty d); [rewrite (He eq_refl); apply no_book|clear He; book_cases]).
Qed.

(** *** The ratios *)

Lemma bybit_ratio : Bybit.normalizeLongShortRatio resp job symbol = Panic <-> ratio_gap "bybit" resp.
Proof.
  unfold Bybit.normalizeLongShortRatio, Bybit.parseBaseEnvelope, ratio_gap, accepted_data, parse; simpl.
  destruct (Unmarshal _ (body resp)) as [p|]; simpl; [|naive_solver].
  destruct (Bybit.env_RetCode p =? 0); simpl; [|naive_solver].
  destruct (Unmarshal _ (Bybit.env_Result p)) as [items|] eqn:E; simpl.
  - rewrite (ratio_loop _ Bybit.lr_BuyRatio Bybit.lr_SellRatio) by (intros; by eexists). naive_solver.
  - naive_solver.
Qed.
Lemma bitget_ratio : Bitget.normalizeLongShortRatio resp job symbol = Panic <-> ratio_gap "bitget" resp.
Proof.
  unfold Bitget.normalizeLongShortRatio, Bitget.payload_of, ratio_gap, accepted_data, parse; simpl.
  destruct (Unmarshal _ (body resp)) as [p|]; simpl; [|naive_solver].
  destruct (Bitget.env_Code p =? "")%string, (Bitget.env_Code p =? "00000")%string; simpl; try naive_solver;
    (destruct (Unmarshal _ (Bitget.env_Data p)) as [items|] eqn:E; simpl;
     [rewrite (ratio_loop _ Bitget.lr_LongRatio Bitget.lr_ShortRatio) by (intros; by eexists)|]; naive_solver).
Qed.

(** The other four never do. *)
Lemma no_gap exchange o :
  exchange <> "bybit" -> exchange <> "bitget" -> o <> Panic -> o = Panic :> outcome NormalizedResult <-> ratio_gap exchange resp.
Proof. intros ? ? ?. split; [done|]. by intros (? & _ & [[? _]|[? _]]). Qed.

Lemma binance_ratio_no_panic : Binance.normalizeLongShortRatio resp job symbol <> Panic.
Proof. unfold Binance.normalizeLongShortRatio, parse. by destruct (Unmarshal _ _). Qed.

Lemma okx_ratio_type_no_panic : Okx.Normalize "long_short_ratio" resp job symbol <> Panic.
Proof.
  unfold Okx.Normalize, parse. destruct (Unmarshal Okx.dec_envelope (body resp)) as [p|]; [|done].
  repeat match goal with |- context [one_of ?d ?c] => let b := eval vm_compute in (one_of d c) in change (one_of d c) with b end.
  simpl. repeat case_match; try done. apply okx_ratio_no_panic.
Qed.

(** An adapter panics where its books and its ratios do. *)
Lemma panics_of exchange supported f dataType :
  NormalizerLaws exchange supported f ->
  (forall dt, dt ∈ books -> f dt resp job symbol = Panic <-> book_panics exchange) ->
  (f "long_short_ratio" resp job symbol = Panic <-> ratio_gap exchange resp) ->
  f dataType resp job symbol = Panic <->
  (dataType ∈ books /\ book_panics exchange) \/ (dataType = "long_short_ratio" /\ ratio_gap exchange resp).
Proof.
  intros L Hb Hr. split.
  - intros Hp. pose proof (law_panic _ _ _ _ Hp) as Hd. unfold unguarded_types in Hd.
    assert (dataType ∈ books \/ dataType = "long_short_ratio") as [Hd'| ->] by (unfold books; set_solver).
    + left. split; [done|]. by apply (Hb _ Hd').
    + right. split; [done|]. by apply Hr.
  - intros [[Hd Hp]|[-> Hp]]; [by apply Hb|by apply Hr].
Qed.
End exchanges.

Lemma in_books {P : string -> Prop} : P "orderbook" -> P "orderbook_imbalance" -> forall dt, dt ∈ books -> P dt.
Proof. intros ? ? dt [->|[->|[]%elem_of_nil]%elem_of_cons]%elem_of_cons; done. Qed.

(** C37: an adapter of the registry panics, whatever the payload, exactly in two cases: on a book
    whose two sides have levels and whose first level of some side is an empty array, for all six
    exchanges; and, for Bybit and Bitget, on a ratio list with an item whose long side is missing
    while its short side is not zero.  Every other index and dereference is guarded. *)
Theorem adapter_panics exchange a dataType resp job symbol :
  Get NewRegistry exchange = Ok a ->
  BaseAdapter_Normalize a dataType resp job symbol = Panic <->
  (dataType ∈ books /\ exists book, book_of (norm exchange) resp = Some book /\ empty_best book) \/
  (dataType = "long_short_ratio" /\ ratio_gap (norm exchange) resp).
Proof.
  intros Ha%Get_adapters. generalize dependent (norm exchange). intros n Ha.
  unfold adapters in Ha. rewrite !elem_of_cons, elem_of_nil in Ha.
  destruct Ha as [[= -> ->]|[[= -> ->]|[[= -> ->]|[[= -> ->]|[[= -> ->]|[[= -> ->]|[]]]]]]];
    (eapply panics_of; [apply _|apply in_books|]).
  - exact (binance_book resp job symbol).
  - exact (binance_book resp job symbol).
  - apply no_gap; [done..|]. exact (binance_ratio_no_panic resp job symbol).
  - apply okx_book. left.
  - apply okx_book. right; left.
  - apply no_gap; [done..|]. exact (okx_ratio_type_no_panic resp job symbol).
  - exact (bybit_book resp job symbol).
  - exact (bybit_book resp job symbol).
  - exact (bybit_ratio resp job symbol).
  - exact (bitget_book resp job symbol).
  - exact (bitget_book resp job symbol).
  - exact (bitget_ratio resp job symbol).
  - exact (gate_book resp job symbol).
  - exact (gate_book resp job symbol).
  - apply no_gap; [done..|]. exact (gate_ratio_no_panic resp job symbol).
  - exact (mexc_book resp job symbol).
  - exact (mexc_book resp job symbol).
  - by apply no_gap.
Qed.

(** Bitget has the same gap. *)
Example bitget_ratio_panics job symbol :
  Bitget.Normalize "long_short_ratio" (demo_response "{'code':'00000','data':[{'longRatio':'','shortRatio':'0.4'}]}") job symbol
  = Panic.
Proof. vm_compute. reflexivity. Qed.
Example bybit_ratio_panics_demo job symbol :
  Bybit.Normalize "long_short_ratio" (demo_response "{'result':{'list':[{'buyRatio':'','sellRatio':'0.4'}]}}") job symbol
  = Panic.
Proof. vm_compute. reflexivity. Qed.
(** OKX and Gate check both sides. *)
Example okx_ratio_returns job symbol :
  exists x, Okx.Normalize "long_short_ratio" (demo_response "{'code':'0','data':[['1779710400000','','0.4']]}") job symbol = Value x.
Proof. by eexists. Qed.
End panics.

(** ** Data types *)

(** Payloads every exchange accepts for its lists and for its objects. *)
Definition list_payload (exchange : string) : string :=
  if (exchange =? "okx")%string then "{'data':[]}" else if (exchange =? "bybit")%string then "{'result':{'list':[]}}" else
  if (exchange =? "bitget")%string then "{'data':[]}" else if (exchange =? "mexc")%string then "{'success':true,'data':{}}" else "[]".
Definition object_payload (exchange : string) : string :=
  if (exchange =? "okx")%string then "{'data':[{'ts':'1'}]}" else
  if (exchange =? "bybit")%string then "{'time':1,'result':{'list':[{}]}}" else
  if (exchange =? "bitget")%string then "{'requestTime':1,'data':[{}]}" else
  if (exchange =? "gate")%string then "[{}]" else
  if (exchange =? "mexc")%string then "{'success':true,'data':{'symbol':'X','timestamp':1}}" else "{}".

Definition accepts `{MapOrder} (a : BaseAdapter) (dt payload : string) : bool :=
  match BaseAdapter_Normalize a dt (demo_response payload) demo_job demo_symbol with Value _ => true | _ => false end.

(** The data types of the seeded collection policies ([aggregated_snapshot] needs no exchange). *)
Definition seeded_types : list string :=
  ["ticker"; "mark_price"; "open_interest"; "funding"; "funding_history"; "kline"; "long_short_ratio"; "taker_flow"; "basis";
   "orderbook_imbalance"; "liquidation_aggregate"].
Definition unserved (exchange : string) : list string := filter (fun dt => dt ∉ supported_by exchange) seeded_types.

Definition payloads (exchange : string) : list string := [list_payload exchange; object_payload exchange; "{}"].

Lemma supported_accepted :
  forallb (fun na => forallb (fun dt => existsb (accepts (snd na) dt) (payloads (fst na))) (supported_by (fst na))) adapters = true.
Proof. vm_compute. reflexivity. Qed.

(** an adapter returns rows exactly for the data types of its switch.  The seeded policies ask
    every exchange for eleven types; two of them, [funding_history] and [liquidation_aggregate], are
    served by no adapter, and [long_short_ratio], [taker_flow] and [basis] only by some, so the jobs
    of those policies are planned, sent and fail for every possible answer. *)
Theorem adapter_data_types :
  (forall (O : MapOrder) exchange a dt resp job symbol x,
     Get NewRegistry exchange = Ok a -> BaseAdapter_Normalize a dt resp job symbol = Value x ->
     dt ∈ supported_by (norm exchange)) /\
  (forall exchange a dt, (exchange, a) ∈ adapters -> dt ∈ supported_by exchange ->
     exists payload, payload ∈ payloads exchange /\ accepts a dt payload = true) /\
  map (fun n => (n, unserved n)) exchange_names
  = [ ("binance", ["funding_history"; "liquidation_aggregate"]);
      ("okx", ["funding_history"; "basis"; "liquidation_aggregate"]);
      ("bybit", ["funding_history"; "taker_flow"; "basis"; "liquidation_aggregate"]);
      ("bitget", ["funding_history"; "taker_flow"; "basis"; "liquidation_aggregate"]);
      ("gate", ["funding_history"; "liquidation_aggregate"]);
      ("mexc", ["funding_history"; "long_short_ratio"; "taker_flow"; "basis"; "liquidation_aggregate"]) ].
Proof.
  split_and!; [| |vm_compute; reflexivity].
  - intros O exchange a dt resp job symbol x (_ & f & -> & L)%Get_laws Hx. eapply law_supported; exact Hx.
  - intros exchange a dt Ha Hd. pose proof supported_accepted as Hs.
    rewrite forallb_forall in Hs. specialize (Hs _ (proj1 (list_elem_of_In _ _) Ha)). cbn [fst snd] in Hs.
    rewrite forallb_forall in Hs. specialize (Hs _ (proj1 (list_elem_of_In _ _) Hd)).
    apply existsb_exists in Hs as (p & Hp & Hv). exists p. by rewrite list_elem_of_In.
Qed.

Lemma adapter_rows_valid_witness :
  Get NewRegistry " Binance " = Ok Binance.NewAdapter /\
  exists x, BaseAdapter_Normalize Binance.NewAdapter "ticker" (demo_response demo_ticker) demo_job demo_symbol = Value x /\
    length (nr_MarketSnapshots x) = 1%nat /\
    normalized_ok "binance" (demo_response demo_ticker) demo_job demo_symbol x.
Proof.
  assert (Get NewRegistry " Binance " = Ok Binance.NewAdapter) as Hg by (apply Get_entry; left).
  split; [exact Hg|]. eexists. split; [vm_compute; reflexivity|]. split; [reflexivity|].
  apply (adapter_rows_valid " Binance " Binance.NewAdapter "ticker" (demo_response demo_ticker) demo_job demo_symbol);
    [exact Hg|vm_compute; discriminate|vm_compute; reflexivity].
Defined.

Lemma adapter_panics_witness :
  Get NewRegistry "OKX" = Ok Okx.NewAdapter /\
  BaseAdapter_Normalize Okx.NewAdapter "orderbook" (demo_response (empty_level_book "okx")) demo_job demo_symbol = Panic /\
  BaseAdapter_Normalize Okx.NewAdapter "kline" (demo_response "{'code':'0','data':[['1','2'],[]]}") demo_job demo_symbol <> Panic.
Proof.
  assert (Get NewRegistry "OKX" = Ok Okx.NewAdapter) as Ho by (apply Get_entry; right; left). split; [exact Ho|]. split.
  - apply (adapter_panics "OKX" Okx.NewAdapter "orderbook" (demo_response (empty_level_book "okx")) demo_job demo_symbol Ho).
    left. split; [left|]. exists ([2%nat], [0%nat]). split; [vm_compute; reflexivity|by right].
  - intros Hp. apply (adapter_panics "OKX" Okx.NewAdapter "kline" _ demo_job demo_symbol Ho) in Hp as [[Hd _]|[Hd _]];
      [|discriminate Hd]. revert Hd. apply (bool_decide_unpack _). vm_compute. exact I.
Defined.

Lemma adapter_data_types_witness :
  ("gate", Gate.NewAdapter) ∈ adapters /\ "basis" ∈ supported_by "gate" /\
  exists payload, payload ∈ payloads "gate" /\ accepts Gate.NewAdapter "basis" payload = true.
Proof.
  assert (("gate", Gate.NewAdapter) ∈ adapters) as Hg by (do 4 right; left).
  assert ("basis" ∈ supported_by "gate") as Hb by (do 11 right; left).
  split; [exact Hg|]. split; [exact Hb|]. exact (proj1 (proj2 adapter_data_types) "gate" Gate.NewAdapter "basis" Hg Hb).
Defined.
