(* ===== verification/EventSides.v ===== *)
(** * The sides of liquidation events, from the adapters to the table

    [normalizeLiquidation] of four adapters ([internal/exchanges/{okx,bybit,gate,mexc}]) names the
    side of an event in upper case; the table [liquidation_events]
    ([migrations/000004_advanced_derivative_tables.sql]) allows five names in lower case.  This file
    follows such an event through [RepositoryWriter.Write]. *)

From S2P Require Import Prelude GoString GoTime GoFloat GoError GoOutcome GoJson GoJsonText.
From S2P Require Import Symbols SchedulerModels Normalizers Hardening Upsert Repositories Cvd Writer.
From S2P Require Import Collector ExchangeCommon Binance Okx Bybit Bitget Gate Mexc Adapters.

(** The adapters that write sides in upper case. *)
Definition upper_sided : list string := ["okx"; "bybit"; "gate"; "mexc"].

(** The table takes no event of the list. *)
Definition sides_refused (events : list NormalizedLiquidationEvent) : Prop :=
  Forall (fun e => allowed_side (le_Side e) = false) events.

(** ** What the adapters send *)

Lemma upper_refused s : allowed_side (ToUpper s) = false.
Proof.
  unfold allowed_side, ToUpper. destruct s as [|c s]; [done|]. cbn [to_bytes map of_bytes existsb orb].
  destruct c as [[] [] [] [] [] [] [] []]; cbv [String.eqb]; done.
Qed.

Section sides.
Context `{MapOrder} (resp : ExchangeResponse) (job : Job) (symbol : Symbol).

Lemma liquidation_result_sides exchange check items :
  Forall (fun i => allowed_side (le_Side (lq_event i)) = false) items ->
  sides_refused (nr_LiquidationEvents (liquidation_result exchange resp job symbol check items)).
Proof.
  intros Hi. rewrite liquidation_result_eq. apply Forall_map, Forall_forall. intros i [_ Hin]%list_elem_of_filter.
  rewrite Forall_forall in Hi. by apply Hi.
Qed.

Lemma snapshot_result_sides exchange input x :
  snapshot_result exchange resp job symbol input = Value x -> sides_refused (nr_LiquidationEvents x).
Proof. unfold snapshot_result. intros Hx. inv_value. constructor. Qed.

Lemma orderbook_result_sides {A} exchange (num : A -> float64) t raw bids asks x :
  orderbook_result exchange resp job symbol num t raw bids asks = Value x -> sides_refused (nr_LiquidationEvents x).
Proof. unfold orderbook_result. intros Hx. inv_value. constructor. Qed.

(** Every case of a switch: rows without events, or items whose side is one of two literals or in upper case. *)
Ltac sides_of := cbv zeta in *; inv_value;
  first [ eapply snapshot_result_sides; eassumption | eapply orderbook_result_sides; eassumption
        | apply liquidation_result_sides, Forall_map, Forall_true; intros; simpl; try apply upper_refused; by case_match
        | repeat (case_match; inv_value; try done); eapply snapshot_result_sides; eassumption
        | constructor ].

Tactic Notation "switch_sides" reference(normalize) :=
  let Hx := fresh "Hx" in intros Hx; unfold normalize in Hx; inv_value;
  match goal with E : ?t = Value ?x |- sides_refused (nr_LiquidationEvents ?x) => let h := head_of t in unfold h in E; sides_of end.

Lemma okx_sides dt x : Okx.Normalize dt resp job symbol = Value x -> sides_refused (nr_LiquidationEvents x).
Proof. switch_sides Okx.Normalize. Qed.
Lemma bybit_sides dt x : Bybit.Normalize dt resp job symbol = Value x -> sides_refused (nr_LiquidationEvents x).
Proof. switch_sides Bybit.Normalize. Qed.
Lemma gate_sides dt x : Gate.Normalize dt resp job symbol = Value x -> sides_refused (nr_LiquidationEvents x).
Proof. switch_sides Gate.Normalize. Qed.
Lemma mexc_sides dt x : Mexc.Normalize dt resp job symbol = Value x -> sides_refused (nr_LiquidationEvents x).
Proof. switch_sides Mexc.Normalize. Qed.
End sides.

Lemma upper_sided_events `{MapOrder} exchange a dt resp job symbol x :
  Get NewRegistry exchange = Ok a -> norm exchange ∈ upper_sided ->
  BaseAdapter_Normalize a dt resp job symbol = Value x -> sides_refused (nr_LiquidationEvents x).
Proof.
  intros Ha%Get_adapters. generalize (norm exchange) Ha. clear Ha. intros n Ha Hn. unfold adapters in Ha. rewrite !elem_of_cons, elem_of_nil in Ha.
  destruct Ha as [[= -> ->]|[[= -> ->]|[[= -> ->]|[[= -> ->]|[[= -> ->]|[[= -> ->]|[]]]]]]];
    try (exfalso; revert Hn; apply (bool_decide_unpack _); vm_compute; exact I).
  - apply okx_sides.
  - apply bybit_sides.
  - apply gate_sides.
  - apply mexc_sides.
Qed.

(** ** What the writer makes of them *)

(** A table takes none of the rows: whatever fails, it stays as it is; and a row that is due makes
    the upsert fail. *)
Lemma upsert_none {I K R} `{Countable K} (T : table_ops I K R) f items tbl :
  Forall (fun x => forall kr, t_row T x = Some kr -> t_check T (snd kr) = false) items ->
  fst (upsert T f items tbl) = tbl /\
  (Exists (fun x => is_Some (t_row T x)) items -> exists e, snd (upsert T f items tbl) = Err e).
Proof.
  intros Hc. pose proof (upsert_atomic T f items tbl) as Ha.
  destruct (upsert T f items tbl) as [tbl' [c|e]]; [|by subst; eauto]. destruct Ha as (Hacc & -> & _).
  assert (Forall (fun x => t_row T x = None) items) as Hn.
  { rewrite Forall_forall in Hc, Hacc |- *. intros x Hx. destruct (t_row T x) as [kr|] eqn:E; [|done].
    specialize (Hc x Hx kr E). destruct (Hacc x Hx) as [_ Hk]. specialize (Hk kr E). congruence. }
  split.
  - cbn [fst]. assert (rows_of T items = []) as ->; [|done]. unfold rows_of. clear -Hn. induction Hn as [|x l E _ IH]; [done|].
    simpl. by rewrite E.
  - intros (x & Hx & [kr E])%Exists_exists. rewrite Forall_forall in Hn. by rewrite Hn in E.
Qed.

(** The events of the result stay refused through the filter, which changes their keys only. *)
Lemma filter_sides `{MapOrder} dt r job now wall c :
  sides_refused (nr_LiquidationEvents r) ->
  sides_refused (nr_LiquidationEvents (fst (FilterNormalizedResult dt r job now wall c))).
Proof.
  intros Hr. unfold FilterNormalizedResult. rewrite filter_result_eq. cbn [fst nr_LiquidationEvents]. rewrite filter_loop_valid.
  apply Forall_forall. intros e [_ He]%list_elem_of_filter. apply list_elem_of_fmap in He as (e' & -> & He).
  unfold sides_refused in Hr. rewrite Forall_forall in Hr. specialize (Hr e' He). unfold with_event_key. by case_match.
Qed.

(** A step that writes another table: it fails, or goes on with the events as they were. *)
Lemma step_any {A B} (Q : option error -> Prop) (keep : Db -> B) (b : B) guard (up : Db -> Db * result error A) k d :
  (forall e, Q (Some e)) -> keep d = b -> (forall d, keep (fst (up d)) = keep d) ->
  (forall d', keep d' = b -> keep (fst (k d')) = b /\ Q (snd (k d'))) ->
  keep (fst (step guard up k d)) = b /\ Q (snd (step guard up k d)).
Proof.
  intros HQ Hd Hu Hk. unfold step. destruct guard; [|by apply Hk]. specialize (Hu d).
  destruct (up d) as [d' [c|e]]; cbn [fst snd] in *; [apply Hk; congruence|split; [congruence|apply HQ]].
Qed.

Lemma into_other {B} (keep : Db -> B) {I K R} `{Countable K} get set (T : table_ops I K R) f items d :
  (forall d t, keep (set d t) = keep d) -> keep (fst (into get set T f items d)) = keep d.
Proof. intros Hk. unfold into. destruct (upsert T f items (get d)). apply Hk. Qed.

(** The events a writer must store: kept by the filter and not below its minimum. *)
Definition due (w : RepositoryWriter) (events : list NormalizedLiquidationEvent) : bool :=
  existsb (fun e => negb (flt (liquidationUSD e) (w_LiquidationMinUSD w))) events.

Lemma due_rows w events :
  due w events = true -> Exists (fun e => is_Some (t_row (liquidation_events (w_LiquidationMinUSD w)) e)) events.
Proof.
  intros (e & He & Hm)%existsb_exists. apply Exists_exists. exists e. split; [by apply list_elem_of_In|].
  apply negb_true_iff in Hm. cbn [t_row liquidation_events]. rewrite Hm. by eexists.
Qed.

Lemma table_refuses w events :
  sides_refused events ->
  Forall (fun e => forall kr, t_row (liquidation_events (w_LiquidationMinUSD w)) e = Some kr ->
            t_check (liquidation_events (w_LiquidationMinUSD w)) (snd kr) = false) events.
Proof.
  intros Hs. eapply Forall_impl; [exact Hs|]. intros e He kr. cbn [t_row liquidation_events].
  destruct (flt (liquidationUSD e) (w_LiquidationMinUSD w)); [done|]. intros [= <-].
  cbn [snd t_check liquidation_events le_Side]. by rewrite He, andb_false_r.
Qed.

Lemma step_fails {A} (up : Db -> Db * result error A) k d d' e : up d = (d', Err e) -> step true up k d = (d', Some e).
Proof. intros E. unfold step. by rewrite E. Qed.

Lemma events_fail w f events d :
  sides_refused events -> due w events = true ->
  exists d' e, into db_LiquidationEvents set_LiquidationEvents (liquidation_events (w_LiquidationMinUSD w)) f events d = (d', Err e) /\
    db_LiquidationAggregates d' = db_LiquidationAggregates d.
Proof.
  intros Hs Hdue. unfold into.
  destruct (upsert_none _ f _ (db_LiquidationEvents d) (table_refuses w _ Hs)) as [_ Hu].
  destruct (Hu (due_rows w _ Hdue)) as [e He]. destruct (upsert _ _ _ _) as [t' r']. cbn [snd] in He. subst r'.
  eexists _, _. by split.
Qed.

(** C7: no liquidation of OKX, Bybit, Gate or MEXC is ever stored.  Whatever the exchange answers,
    the events their adapters return have a side in upper case, the [CHECK] of the table allows only
    lower case, and nothing between changes the side: writing the result leaves the table of events
    as it was, whatever else fails, and as soon as one of the events passes the filter and is not
    below the writer's minimum the write returns an error and leaves the table of liquidation
    aggregates as it was, too. *)
Theorem liquidations_never_stored `{MapOrder} exchange a dataType resp job symbol x w f now wall d :
  Get NewRegistry exchange = Ok a -> norm exchange ∈ upper_sided ->
  BaseAdapter_Normalize a dataType resp job symbol = Value x ->
  let kept := nr_LiquidationEvents (fst (FilterNormalizedResult dataType x job now wall (validation w))) in
  let res := Write w f dataType x job now wall d in
  db_LiquidationEvents (fst res) = db_LiquidationEvents d /\
  (has_Advanced w = true -> due w kept = true ->
   (exists e, snd res = Some e) /\ db_LiquidationAggregates (fst res) = db_LiquidationAggregates d).
Proof.
  intros Ha Hn Hx kept. pose proof (upper_sided_events _ _ _ _ _ _ _ Ha Hn Hx) as Hs.
  apply (filter_sides dataType x job now wall (validation w)) in Hs. fold kept in Hs. unfold Write. unfold kept in *. clear kept Hx.
  destruct (FilterNormalizedResult dataType x job now wall (validation w)) as [r issues]. cbn [fst snd] in *. cbv zeta.
  split; [|intros Hadv Hdue].
  - match goal with |- db_LiquidationEvents (fst ?b) = ?e => cut (db_LiquidationEvents (fst b) = e /\ True); [by intros [? _]|] end.
    repeat (apply (step_any (fun _ => True) db_LiquidationEvents); [done|try done; congruence| |intros ?d ?E]);
      [..|by split]; try (intros; apply into_other; done); intros ?d.
    + by destruct (UpsertCVDFromTakerFlows _ _ _ _).
    + unfold into. match goal with |- context [upsert _ _ _ ?t] =>
        pose proof (upsert_none _ (wf_tx f 12%nat) _ t (table_refuses w _ Hs)) as [Hu _] end.
      destruct (upsert _ _ _ _). exact Hu.
  - match goal with |- (exists e, snd ?b = _) /\ _ = ?a =>
      cut (db_LiquidationAggregates (fst b) = a /\ (fun o => exists e, o = Some e) (snd b)); [by intros [? ?]|] end.
    do 13 try (apply (step_any (fun o => exists e, o = Some e) db_LiquidationAggregates); [eauto|try done; congruence| |intros ?d ?E]);
      try (intros; apply into_other; done).
    + intros ?d. by destruct (UpsertCVDFromTakerFlows _ _ _ _).
    + rewrite Hadv. replace (some_rows _) with true by (destruct (nr_LiquidationEvents r); done). cbn [andb].
      match goal with |- context [step true (into db_LiquidationEvents _ _ _ _) _ ?d] =>
        destruct (events_fail w (wf_tx f 12%nat) _ d Hs Hdue) as (d' & e & Hi & El) end.
      erewrite (step_fails _ _ _ _ _ Hi). split; [cbn [fst]; congruence|exists e; reflexivity].
Qed.

(** A liquidation of OKX, worth a million dollars, of a long position. *)
Definition okx_liquidation : string :=
  "{'code':'0','data':[{'instId':'BTC-USDT-SWAP','posSide':'long','bkPx':'50000','sz':'20','ts':'1779710400000'}]}".

Lemma liquidations_never_stored_witness :
  exists x, BaseAdapter_Normalize (@Okx.NewAdapter forward_order) "liquidation" (demo_response okx_liquidation) demo_job demo_symbol = Value x /\
  map le_Side (nr_LiquidationEvents x) = ["SELL"] /\
  let res := @Write forward_order full_writer no_write_faults "liquidation" x demo_job (UnixMilli 1779710400000) 0 empty_db in
  db_LiquidationEvents (fst res) = ∅ /\ exists e, snd res = Some e.
Proof.
  assert (Get (@NewRegistry forward_order) "okx" = Ok (@Okx.NewAdapter forward_order)) as Hg by (apply Get_entry; right; left).
  eexists. split; [vm_compute; reflexivity|]. split; [vm_compute; reflexivity|].
  destruct (@liquidations_never_stored forward_order "okx" (@Okx.NewAdapter forward_order) "liquidation" (demo_response okx_liquidation)
    demo_job demo_symbol _ full_writer no_write_faults (UnixMilli 1779710400000) 0 empty_db Hg
    ltac:(left) ltac:(vm_compute; reflexivity)) as [He Hd].
  split; [exact He|]. apply Hd; vm_compute; reflexivity.
Defined.
