(* ===== verification/GoUrl.v ===== *)
(** * Addresses ([net/url], [net])

    Percent-encoding of the parts of a URL, query encoding, [url.URL.String] for URLs with a scheme,
    a user, a host, a path and a query, [net.JoinHostPort], and a reader that takes such a URL apart
    again.  Every part is escaped by a set of bytes that stand for themselves; one lemma each says
    that decoding inverts the escape ([pct_decode_escape]) and that the escape writes no separator
    ([escape_free]). *)

From Stdlib Require Import Ascii.
From S2P Require Import Prelude GoString.

(** ** Escaping *)

Definition hex_digit (d : Z) : ascii := byte_of_Z (if d <? 10 then 48 + d else 55 + d).

Definition alphanum (c : ascii) : bool :=
  let z := Z_of_byte c in
  ((97 <=? z) && (z <=? 122)) || ((65 <=? z) && (z <=? 90)) || ((48 <=? z) && (z <=? 57)).

Definition unreserved (c : ascii) : bool := alphanum c || bool_decide (c ∈ to_bytes "-_.~").

Definition percent (c : ascii) : bytes :=
  let z := Z_of_byte c in [byte_of_Z 37; hex_digit (z / 16); hex_digit (z mod 16)].

(** [escape]: a byte stands for itself where its part of the URL allows it. *)
Definition escape_byte (keep : ascii -> bool) (c : ascii) : bytes := if keep c then [c] else percent c.
Definition escape (keep : ascii -> bool) (l : bytes) : bytes := flat_map (escape_byte keep) l.

(** The bytes that stand for themselves in a path segment ([encodePathSegment]), in a path
    ([encodePath]), in a user name or password ([encodeUserPassword]) and in a host ([encodeHost]). *)
Definition segment_keep (c : ascii) : bool := unreserved c || bool_decide (c ∈ to_bytes "$&+:=@").
Definition path_keep (c : ascii) : bool := unreserved c || bool_decide (c ∈ to_bytes "$&+,/:;=@").
Definition user_keep (c : ascii) : bool := unreserved c || bool_decide (c ∈ to_bytes "$&+,;=").
Definition host_keep (c : ascii) : bool :=
  unreserved c || bool_decide (c ∈ byte_of_Z 34 :: to_bytes "!$&'()*+,;=:[]<>").

Definition PathEscape (s : string) : string := of_bytes (escape segment_keep (to_bytes s)).

(** In a query a space is a plus. *)
Definition query_byte (c : ascii) : bytes :=
  if unreserved c then [c] else if Z_of_byte c =? 32 then [byte_of_Z 43] else percent c.
Definition QueryEscape (s : string) : string := of_bytes (flat_map query_byte (to_bytes s)).

(** [url.Values.Encode] for single values: sorted by key. *)
Definition Encode (values : list (string * string)) : string :=
  Join (map (fun kv => QueryEscape (fst kv) +:+ "=" +:+ QueryEscape (snd kv))
          (stable_sort (fun x y => str_leb (fst x) (fst y)) values)) "&".

(** ** Printing *)

(** A [url.URL] without opaque part, raw path and fragment; the user information is a name and
    perhaps a password. *)
Record URL_parts := MkURL {
  u_Scheme : string; u_User : option (string * option string); u_Host : string; u_Path : string; u_RawQuery : string }.

(** [Userinfo.String]. *)
Definition Userinfo_String (username : string) (password : option string) : bytes :=
  if (username =? "")%string && (default "" password =? "")%string then [] else
  escape user_keep (to_bytes username) ++
  match password with None => [] | Some p => byte_of_Z 58 :: escape user_keep (to_bytes p) end.

(** [URL.EscapedPath] of a URL without a raw path. *)
Definition EscapedPath (path : string) : bytes :=
  if (path =? "*")%string then to_bytes path else escape path_keep (to_bytes path).

(** [URL.String] of a URL with a scheme and a host. *)
Definition URL_String (u : URL_parts) : string :=
  let path := EscapedPath (u_Path u) in
  of_bytes
    (to_bytes (u_Scheme u) ++ to_bytes "://" ++
     match u_User u with None => [] | Some (n, p) => Userinfo_String n p ++ [byte_of_Z 64] end ++
     escape host_keep (to_bytes (u_Host u)) ++
     match path with [] => [] | c :: _ => if Z_of_byte c =? 47 then path else byte_of_Z 47 :: path end ++
     (if (u_RawQuery u =? "")%string then [] else byte_of_Z 63 :: to_bytes (u_RawQuery u))).

(** [net.JoinHostPort]. *)
Definition JoinHostPort (host port : string) : string :=
  if bool_decide (byte_of_Z 58 ∈ to_bytes host) then "[" +:+ host +:+ "]:" +:+ port else host +:+ ":" +:+ port.

(** ** Reading *)

Definition unhex (c : ascii) : Z := let z := Z_of_byte c in if z <=? 57 then z - 48 else z - 55.

(** [unescape] for what [escape] writes. *)
Fixpoint pct_decode (l : bytes) : bytes :=
  match l with
  | c :: l' =>
    if Z_of_byte c =? 37 then
      match l' with a :: b :: l'' => byte_of_Z (16 * unhex a + unhex b) :: pct_decode l'' | _ => l end
    else c :: pct_decode l'
  | [] => []
  end.

(** [QueryUnescape]: a plus is a space. *)
Definition plus_space (c : ascii) : ascii := if Z_of_byte c =? 43 then byte_of_Z 32 else c.
Definition query_decode (l : bytes) : bytes := pct_decode (map plus_space l).

(** [strings.Cut] at a byte, and the cut at its last occurrence. *)
Fixpoint cut (c : ascii) (l : bytes) : bytes * option bytes :=
  match l with
  | [] => ([], None)
  | b :: l' => if Ascii.eqb b c then ([], Some l') else let '(x, y) := cut c l' in (b :: x, y)
  end.
Definition cut_last (c : ascii) (l : bytes) : option (bytes * bytes) :=
  match cut c (rev l) with (x, Some y) => Some (rev y, rev x) | _ => None end.

(** [net.SplitHostPort] on a host and port, brackets removed. *)
Definition SplitHostPort (l : bytes) : option (bytes * bytes) :=
  match cut_last (byte_of_Z 58) l with
  | Some (h, p) =>
    match h with
    | c :: h' => if Z_of_byte c =? 91 then Some (removelast h', p) else Some (h, p)
    | [] => Some ([], p)
    end
  | None => None
  end.

Lemma pct_decode_percent c l : pct_decode (percent c ++ l) = c :: pct_decode l.
Proof. destruct c as [[] [] [] [] [] [] [] []]; reflexivity. Qed.

Lemma pct_decode_escape keep l : keep (byte_of_Z 37) = false -> pct_decode (escape keep l) = l.
Proof.
  intros Hk. induction l as [|c l IH]; [done|]. unfold escape. cbn [flat_map]. fold (escape keep l).
  unfold escape_byte. destruct (keep c) eqn:E.
  - cbn [app pct_decode]. destruct (Z.eqb_spec (Z_of_byte c) 37) as [Ec|].
    + rewrite <-(byte_of_Z_of_byte c), Ec, Hk in E. done.
    + by rewrite IH.
  - by rewrite pct_decode_percent, IH.
Qed.

Lemma percent_alphanum c b : b ∈ percent c -> alphanum b = true \/ b = byte_of_Z 37.
Proof.
  assert (forallb (fun x => alphanum x || Ascii.eqb x (byte_of_Z 37)) (percent c) = true) as H
    by (destruct c as [[] [] [] [] [] [] [] []]; reflexivity).
  rewrite forallb_forall in H. intros Hb%list_elem_of_In%H. apply orb_true_iff in Hb as [?|Hb%Ascii.eqb_eq]; auto.
Qed.

(** An escape writes only kept bytes, percent signs and hexadecimal digits. *)
Lemma escape_free keep b l : keep b = false -> alphanum b = false -> b <> byte_of_Z 37 -> b ∉ escape keep l.
Proof.
  intros Hk Ha Hp. induction l as [|c l IH]; [apply not_elem_of_nil|]. unfold escape. cbn [flat_map].
  rewrite elem_of_app. intros [Hb|Hb]; [|by apply IH]. unfold escape_byte in Hb. destruct (keep c) eqn:E.
  - apply list_elem_of_singleton in Hb as ->. congruence.
  - destruct (percent_alphanum c b Hb); congruence.
Qed.

Lemma escape_id keep l : Forall (fun c => keep c = true) l -> escape keep l = l.
Proof.
  induction 1 as [|c l Hc _ IH]; [done|]. unfold escape in *. cbn [flat_map]. unfold escape_byte at 1. by rewrite Hc, IH.
Qed.

Lemma escape_nil keep l : escape keep l = [] -> l = [].
Proof.
  destruct l as [|c l]; [done|]. unfold escape. cbn [flat_map]. unfold escape_byte at 1. by destruct (keep c).
Qed.

(** Escapes of path segments determine them. *)
Lemma PathEscape_inj s t : PathEscape s = PathEscape t -> s = t.
Proof.
  intros E%of_bytes_inj%(f_equal pct_decode). rewrite !pct_decode_escape in E by done. by apply to_bytes_inj.
Qed.

Lemma query_decode_byte c l : query_decode (query_byte c ++ l) = c :: query_decode l.
Proof. destruct c as [[] [] [] [] [] [] [] []]; reflexivity. Qed.
Lemma query_decode_escape s : query_decode (to_bytes (QueryEscape s)) = to_bytes s.
Proof.
  unfold QueryEscape. rewrite to_of_bytes. induction (to_bytes s) as [|c l IH]; [done|]. cbn [flat_map].
  by rewrite query_decode_byte, IH.
Qed.

Lemma cut_here c a b : c ∉ a -> cut c (a ++ c :: b) = (a, Some b).
Proof.
  induction a as [|x a IH]; intros H; cbn [app cut].
  - by rewrite Ascii.eqb_refl.
  - rewrite not_elem_of_cons in H. destruct H as [Hx Ha]. destruct (Ascii.eqb_spec x c); [congruence|]. by rewrite IH.
Qed.
Lemma cut_nowhere c a : c ∉ a -> cut c a = (a, None).
Proof.
  induction a as [|x a IH]; intros H; cbn [app cut]; [done|].
  rewrite not_elem_of_cons in H. destruct H as [Hx Ha]. destruct (Ascii.eqb_spec x c); [congruence|]. by rewrite IH.
Qed.
Lemma cut_last_here c a b : c ∉ b -> cut_last c (a ++ c :: b) = Some (a, b).
Proof.
  intros H. unfold cut_last. rewrite rev_app_distr. cbn [rev]. rewrite <-app_assoc. cbn [app].
  rewrite cut_here; [by rewrite !rev_involutive|]. rewrite list_elem_of_In, <-in_rev, <-list_elem_of_In. done.
Qed.

Create HintDb url.
#[export] Hint Resolve escape_free : url.
