(* ===== verification/RequestBuilder.v ===== *)
(** * Requests from endpoint templates ([internal/exchanges/common/request_builder.go])

    Placeholders from a job and its metadata, their substitution in paths, queries and headers, and
    the request.  [net/url]'s parsing and reference resolution and [http.NewRequest] are a
    parameter ([UrlLib]); escaping and query encoding are those of [GoUrl]. *)

From Stdlib Require Import Ascii.
From S2P Require Import Prelude GoString GoTime GoFloat GoFloatSign GoError GoJson GoJsonText GoUrl.
From S2P Require Import Symbols Endpoints SchedulerModels Normalizers Hardening Backfill.
From S2P Require Import Collector.

(** ** Headers *)

(** [textproto.CanonicalMIMEHeaderKey]: capitals after hyphens, unless a byte is not a token byte. *)
Definition header_byte (c : ascii) : bool :=
  let z := Z_of_byte c in
  ((97 <=? z) && (z <=? 122)) || ((65 <=? z) && (z <=? 90)) || ((48 <=? z) && (z <=? 57)) ||
  bool_decide (c ∈ to_bytes "!#$%&'*+-.^_`|~").
Fixpoint canonical_bytes (upper : bool) (l : bytes) : bytes :=
  match l with
  | [] => []
  | c :: l' => (if upper then upper_byte c else lower_byte c) :: canonical_bytes (Z_of_byte c =? 45) l'
  end.
Definition CanonicalHeaderKey (s : string) : string :=
  if forallb header_byte (to_bytes s) then of_bytes (canonical_bytes true (to_bytes s)) else s.

(** ** Placeholders *)

Record RequestPlaceholders := MkPlaceholders {
  ph_SourceSymbol : string; ph_BaseAsset : string; ph_QuoteAsset : string; ph_Period : string; ph_StartTime : string;
  ph_EndTime : string; ph_Limit : string }.

(** [strings.TrimRight] with a one-byte cut set. *)
Definition TrimRight (s : string) (c : ascii) : string :=
  of_bytes (rev (strip_all [[c]] (rev (to_bytes s)))).

Definition stringify (value : any) : string :=
  match value with
  | AString s => TrimSpace s
  | AFloat f => TrimRight (TrimRight (format_fixed 6 f) (digit 0)) (byte_of_Z 46)
  | AInt z => Itoa z
  | _ => ""
  end.

(** [json.Unmarshal] into [map[string]any]. *)
Definition dec_map (v : json) : option (list (string * any)) :=
  match v with
  | JNull => Some []
  | JObject _ => match dec_any v with Some (AMap l) => Some l | _ => None end
  | _ => None
  end.

(** [metadata[key]]: nil when absent. *)
Definition map_get (l : list (string * any)) (key : string) : any :=
  match find (fun kv => (fst kv =? key)%string) l with Some kv => snd kv | None => ANil end.

Definition placeholdersFromJob (job : Job) (symbol : Symbol) : RequestPlaceholders :=
  let '(start, end_, limit) :=
    match Unmarshal dec_map (job_Metadata job) with
    | Some metadata =>
      let limit := stringify (map_get metadata "limit") in
      (stringify (map_get metadata "start_time"), stringify (map_get metadata "end_time"),
       if (limit =? "")%string then "100" else limit)
    | None => ("", "", "100")
    end in
  MkPlaceholders (TrimSpace (job_SourceSymbol job)) (TrimSpace (sym_BaseAsset symbol)) (TrimSpace (sym_QuoteAsset symbol))
    (TrimSpace (job_Period job)) start end_ limit.

(** ** Substitution *)

Definition replacements (p : RequestPlaceholders) : list (string * string) :=
  [ ("{{source_symbol}}", ph_SourceSymbol p); ("{{base_asset}}", ph_BaseAsset p); ("{{quote_asset}}", ph_QuoteAsset p);
    ("{{period}}", ph_Period p); ("{{start_time}}", ph_StartTime p); ("{{end_time}}", ph_EndTime p);
    ("{{limit}}", ph_Limit p) ].

Section templates.
Context `{MapOrder}.

Definition replaceTemplate (value : string) (p : RequestPlaceholders) : result error string :=
  let result := foldl (fun s r => ReplaceAll s (fst r) (snd r)) value (iterate (replacements p)) in
  if Contains result "{{" || Contains result "}}"
  then Err (ErrorString ("unresolved request placeholder in " +:+ Quote value)) else Ok result.

Definition replacePathTemplate (value : string) (p : RequestPlaceholders) : result error string :=
  replaceTemplate value
    (MkPlaceholders (PathEscape (ph_SourceSymbol p)) (PathEscape (ph_BaseAsset p)) (PathEscape (ph_QuoteAsset p))
       (PathEscape (ph_Period p)) (PathEscape (ph_StartTime p)) (PathEscape (ph_EndTime p)) (PathEscape (ph_Limit p))).

(** [json.Unmarshal] into [map[string]string]. *)
Definition dec_str_map (v : json) : option (list (string * string)) :=
  match v with
  | JNull => Some []
  | JObject l =>
    (fun r => foldl (fun acc m => assoc_set (fst m) (snd m) acc) [] r) <$>
    all_some (map (fun m => (fun s => (fst m, s)) <$> str_elem (snd m)) l)
  | _ => None
  end.

(** [for key, rawValue := range template]: the assignments made, in order. *)
Fixpoint fill (p : RequestPlaceholders) (l : list (string * string)) : result error (list (string * string)) :=
  match l with
  | [] => Ok []
  | (key, rawValue) :: l' =>
    let! value := replaceTemplate rawValue p in
    let! rest := fill p l' in
    Ok (if (TrimSpace value =? "")%string then rest else (key, value) :: rest)
  end.

Definition from_template (what : string) (raw : RawMessage) (p : RequestPlaceholders) : result error (list (string * string)) :=
  if raw_is_empty raw then Ok [] else
  match Unmarshal dec_str_map raw with
  | None => Err (WrapError ("parse " +:+ what +:+ ": ") json_error "")
  | Some template => fill p (iterate template)
  end.

Definition buildQuery (raw : RawMessage) (p : RequestPlaceholders) : result error (list (string * string)) :=
  from_template "params_template" raw p.
Definition buildHeaders (raw : RawMessage) (p : RequestPlaceholders) : result error (list (string * string)) :=
  from_template "headers_template" raw p.
End templates.

(** ** The request *)

(** [net/url] and [net/http]. *)
Class UrlLib := {
  URL : Type;
  url_Parse : string -> result error URL;
  ResolveReference : URL -> URL -> URL;
  with_RawQuery : URL -> string -> URL;
  url_String : URL -> string;
  NewRequest_error : string -> string -> option error }.

Record HttpRequest := MkHttpRequest {
  hr_Method : string; hr_URL : string; hr_Header : list (string * string);
  hr_timeout : Duration; hr_endpoint_id : Z; hr_endpoint_name : string; hr_data_type : string }.

(** [req.Header.Set] over the assignments of [buildHeaders]. *)
Definition set_headers (l : list (string * string)) : list (string * string) :=
  foldl (fun acc kv => assoc_set (CanonicalHeaderKey (fst kv)) (snd kv) acc) [] l.

Definition BuildRequest `{MapOrder} `{UrlLib} (endpoint : Endpoint) (job : Job) (symbol : Symbol) : result error HttpRequest :=
  if negb (ep_IsActive endpoint) then
    Err (WrapError "" ErrEndpointInactive (": " +:+ ep_Exchange endpoint +:+ "/" +:+ ep_MarketType endpoint +:+ "/" +:+
           ep_DataType endpoint +:+ "/" +:+ ep_Name endpoint))
  else if (TrimSpace (job_SourceSymbol job) =? "")%string then Err (ErrorString "job source_symbol is required") else
  let p := placeholdersFromJob job symbol in
  let! path := replacePathTemplate (ep_Path endpoint) p in
  match url_Parse (ep_BaseURL endpoint) with
  | Err err => Err (WrapError "parse endpoint base_url: " err "")
  | Ok baseURL =>
    match url_Parse path with
    | Err err => Err (WrapError "parse endpoint path: " err "")
    | Ok pathURL =>
      let fullURL := ResolveReference baseURL pathURL in
      let! query := buildQuery (ep_ParamsTemplate endpoint) p in
      let url := url_String (with_RawQuery fullURL (Encode query)) in
      match NewRequest_error (ep_Method endpoint) url with
      | Some err => Err (WrapError "build request: " err "")
      | None =>
        let! headers := buildHeaders (ep_HeadersTemplate endpoint) p in
        Ok (MkHttpRequest (ep_Method endpoint) url (set_headers headers)
              (duration_of (ep_TimeoutMS endpoint) Millisecond) (ep_ID endpoint) (ep_Name endpoint) (ep_DataType endpoint))
      end
    end
  end.

(** ** Sending it ([adapter.go])

    [do] is [client.Do] within the timeout it is given: an error, or the status and what reading the
    body gives. *)
Definition request_timeout (req : HttpRequest) : Duration := if hr_timeout req <=? 0 then 10 * Second else hr_timeout req.

Definition BaseAdapter_Execute (ctx_err : option error) (do_ : Duration -> HttpRequest -> result error (Z * result error string))
    (now : Time) (req : HttpRequest) : result error ExchangeResponse :=
  match ctx_err with
  | Some err => Err err
  | None =>
    match do_ (request_timeout req) req with
    | Err err => Err (WrapError "execute exchange request: " err "")
    | Ok (_, Err err) => Err (WrapError "read exchange response: " err "")
    | Ok (status, Ok body) => Ok (MkResponse status body now (hr_endpoint_id req))
    end
  end.

(** ** Replacing in bytes *)

Section replace.
Context (old new : bytes) (Hne : old <> []).

Lemma replace_fuel n m l : (length l < n)%nat -> (length l < m)%nat -> replace_loop n old new l = replace_loop m old new l.
Proof.
  revert m l. induction n as [|n IH]; intros [|m] l Hn Hm; try lia. simpl.
  destruct (match_prefix old l) as [l'|] eqn:E.
  - apply match_prefix_Some in E as ->. rewrite length_app in Hn, Hm. f_equal.
    destruct old; [done|]. simpl in *. apply IH; lia.
  - destruct l as [|c l]; [done|]. simpl in *. f_equal. apply IH; lia.
Qed.

Definition rep (l : bytes) : bytes := replace_loop (S (length l)) old new l.

Lemma rep_match l : rep (old ++ l) = (new ++ rep l)%list.
Proof.
  unfold rep at 1. cbn [replace_loop]. rewrite match_prefix_app. f_equal. unfold rep. apply replace_fuel; rewrite ?length_app; [|lia].
  destruct old; [done|]. simpl. lia.
Qed.

Lemma rep_step c l : match_prefix old (c :: l) = None -> rep (c :: l) = c :: rep l.
Proof. intros E. unfold rep at 1. cbn [replace_loop]. by rewrite E. Qed.

(** A stretch without the first byte of the pattern is copied. *)
Lemma rep_skip a l r : head old = Some a -> a ∉ l -> rep (l ++ r) = (l ++ rep r)%list.
Proof.
  clear Hne. intros Ha. induction l as [|c l IH]; simpl; [done|]. rewrite not_elem_of_cons. intros [Hc Hl].
  rewrite rep_step; [by rewrite IH|]. destruct old as [|b o]; simpl in *; [done|]. simplify_eq.
  by destruct (Ascii.eqb_spec a c).
Qed.
End replace.

(** ** Templates as texts and holes *)

Inductive segment := Text (s : string) | Hole (name : string).

Definition lb : ascii := byte_of_Z 123.
Definition rb : ascii := byte_of_Z 125.
Definition brace_free (s : string) : Prop := (lb ∉ to_bytes s) /\ (rb ∉ to_bytes s).

Lemma lb_rb : lb <> rb.
Proof. by vm_compute. Qed.

Definition hole_text (name : string) : string := "{{" +:+ name +:+ "}}".
Definition render_one (g : segment) : string := match g with Text s => s | Hole n => hole_text n end.
Definition render (l : list segment) : string := foldr (fun g s => (render_one g +:+ s)%string) "" l.

(** Replace the holes of a name. *)
Definition put (name value : string) (g : segment) : segment :=
  match g with Hole n => if (n =? name)%string then Text value else g | _ => g end.

Definition wf_segment (g : segment) : Prop := match g with Text s | Hole s => brace_free s end.

Lemma hole_bytes n : to_bytes (hole_text n) = (lb :: lb :: to_bytes n ++ [rb; rb])%list.
Proof. unfold hole_text. by rewrite !to_bytes_app. Qed.

(** A hole of another name is copied. *)
Lemma rep_other n m new r :
  brace_free n -> brace_free m -> n <> m ->
  rep (to_bytes (hole_text n)) new (to_bytes (hole_text m) ++ r) = (to_bytes (hole_text m) ++ rep (to_bytes (hole_text n)) new r)%list.
Proof.
  intros [Hn1 Hn2] [Hm1 Hm2] Hnm. rewrite !hole_bytes. cbn [app].
  rewrite rep_step; [rewrite rep_step; [f_equal; f_equal|]|].
  - apply (rep_skip _ _ lb); [done|]. rewrite elem_of_app. intros [?|Hin]; [done|].
    repeat (apply elem_of_cons in Hin as [Hin|Hin]; [by apply lb_rb|]). by apply not_elem_of_nil in Hin.
  - cbn [match_prefix]. rewrite Ascii.eqb_refl. destruct (to_bytes m) as [|c l] eqn:E; cbn [match_prefix app].
    + by destruct (Ascii.eqb_spec lb rb).
    + destruct (Ascii.eqb_spec lb c) as [<-|]; [|done]. exfalso. apply Hm1. left.
  - cbn [match_prefix]. rewrite !Ascii.eqb_refl. destruct (match_prefix _ _) as [l'|] eqn:E; [|done].
    exfalso. apply match_prefix_Some in E. rewrite <- !app_assoc in E. cbn [app] in E.
    apply split_first_inj in E as [E _]; [|done..]. by apply to_bytes_inj in E.
Qed.

Lemma rep_render n new l :
  brace_free n -> Forall wf_segment l ->
  rep (to_bytes (hole_text n)) (to_bytes new) (to_bytes (render l)) = to_bytes (render (map (put n new) l)).
Proof.
  intros Hn Hl. assert (to_bytes (hole_text n) <> []) as Hne by (rewrite hole_bytes; done).
  induction Hl as [|g l Hg Hl IH]; [unfold rep; by rewrite hole_bytes|].
  cbn [render foldr map]. fold (render l). rewrite !to_bytes_app. destruct g as [s|m]; cbn [render_one put].
  - destruct Hg as [Hs _]. rewrite (rep_skip _ _ lb); [by rewrite IH|by rewrite hole_bytes|done].
  - destruct (String.eqb_spec m n) as [->|Hmn]; cbn [render_one].
    + rewrite rep_match by done. by rewrite IH.
    + rewrite rep_other by done. by rewrite IH.
Qed.

Lemma ReplaceAll_render n new l :
  brace_free n -> Forall wf_segment l -> ReplaceAll (render l) (hole_text n) new = render (map (put n new) l).
Proof.
  intros Hn Hl. unfold ReplaceAll. apply to_bytes_inj. rewrite to_of_bytes, <- rep_render by done.
  unfold rep. do 2 f_equal. by induction (render l); simpl; f_equal.
Qed.

(** ** Substitution is simultaneous *)

(** The placeholder names with their values. *)
Definition named (p : RequestPlaceholders) : list (string * string) :=
  [ ("source_symbol", ph_SourceSymbol p); ("base_asset", ph_BaseAsset p); ("quote_asset", ph_QuoteAsset p);
    ("period", ph_Period p); ("start_time", ph_StartTime p); ("end_time", ph_EndTime p); ("limit", ph_Limit p) ].

(** The value of a hole. *)
Definition value_of (p : RequestPlaceholders) (name : string) : option string :=
  snd <$> find (fun kv => (fst kv =? name)%string) (named p).

(** The reference: every hole replaced at once. *)
Fixpoint substitute (p : RequestPlaceholders) (l : list segment) : option string :=
  match l with
  | [] => Some ""
  | g :: l' =>
    match match g with Text s => Some s | Hole n => value_of p n end, substitute p l' with
    | Some s, Some r => Some (s +:+ r)
    | _, _ => None
    end
  end.

(** A template whose texts and names have no brace, and whose holes take values without braces. *)
Definition safe_segment (p : RequestPlaceholders) (g : segment) : Prop :=
  wf_segment g /\ match g with Hole n => forall v, value_of p n = Some v -> brace_free v | Text _ => True end.

Lemma replacements_named p : replacements p = map (fun kv => (hole_text (fst kv), snd kv)) (named p).
Proof. done. Qed.

Lemma named_names p : NoDup (map fst (named p)).
Proof. apply (bool_decide_unpack _). vm_compute. done. Qed.

Lemma named_brace_free p : Forall (fun kv => brace_free (fst kv)) (named p).
Proof. unfold brace_free. repeat constructor; cbn [fst]; apply (bool_decide_unpack _); vm_compute; done. Qed.

Lemma value_of_named p n v : value_of p n = Some v <-> (n, v) ∈ named p.
Proof.
  unfold value_of. pose proof (named_names p) as Hnd. induction (named p) as [|[k w] l IH]; cbn [find map fst] in *.
  - split; [done|]. by intros ?%not_elem_of_nil.
  - apply NoDup_cons in Hnd as [Hk Hnd]. rewrite elem_of_cons. destruct (String.eqb_spec k n) as [->|Hkn].
    + cbn. split; [intros [= ->]; by left|]. intros [[= ->]|Hin]; [done|]. exfalso. apply Hk.
      change n with (fst (n, v)). by apply list_elem_of_fmap_2.
    + rewrite IH by done. split; [by right|]. intros [[= -> ->]|?]; done.
Qed.

(** All replacements of a list, hole by hole. *)
Definition put_all (rs : list (string * string)) (g : segment) : segment := foldl (fun g kv => put (fst kv) (snd kv) g) g rs.

Lemma put_all_text rs s : put_all rs (Text s) = Text s.
Proof. induction rs; done. Qed.

Lemma put_all_hole rs n :
  NoDup (map fst rs) ->
  (forall v, (n, v) ∈ rs -> put_all rs (Hole n) = Text v) /\ ((forall v, (n, v) ∉ rs) -> put_all rs (Hole n) = Hole n).
Proof.
  induction rs as [|[k w] rs IH]; intros Hnd; [split; [by intros ? ?%not_elem_of_nil|done]|].
  cbn [map fst] in Hnd. apply NoDup_cons in Hnd as [Hk Hnd]. destruct (IH Hnd) as [IH1 IH2].
  cbn [put_all foldl put fst snd]. fold (put_all rs). destruct (String.eqb_spec n k) as [->|Hnk].
  - fold (put_all rs (Text w)). rewrite put_all_text. split.
    + intros v [[= <-]|Hin]%elem_of_cons; [done|]. exfalso. apply Hk.
      change k with (fst (k, v)). by apply list_elem_of_fmap_2.
    + intros Hno. exfalso. apply (Hno w). left.
  - split.
    + intros v [[= -> ->]|Hin]%elem_of_cons; [done|]. by apply IH1.
    + intros Hno. apply IH2. intros v Hin. apply (Hno v). by right.
Qed.

Lemma put_all_wf rs g : wf_segment g ->
  (match g with Hole n => forall v, (n, v) ∈ rs -> brace_free v | Text _ => True end) -> wf_segment (put_all rs g).
Proof.
  revert g. induction rs as [|[k w] rs IH]; intros g Hg Hv; [done|]. cbn [put_all foldl fst snd].
  apply IH; destruct g as [s|n]; cbn [put]; try done; destruct (String.eqb_spec n k) as [->|]; cbn; try done.
  - apply (Hv w). left.
  - intros v Hin. apply (Hv v). by right.
Qed.

Lemma fold_render rs l :
  Forall (fun kv => brace_free (fst kv)) rs ->
  Forall (fun g => wf_segment g /\ match g with Hole n => forall v, (n, v) ∈ rs -> brace_free v | Text _ => True end) l ->
  foldl (fun s r => ReplaceAll s (fst r) (snd r)) (render l) (map (fun kv => (hole_text (fst kv), snd kv)) rs)
  = render (map (put_all rs) l).
Proof.
  revert l. induction rs as [|[k w] rs IH]; intros l Hrs Hl.
  - cbn. f_equal. induction l; [done|]. cbn [map]. by rewrite <- IHl by by inversion Hl.
  - apply Forall_cons in Hrs as [Hk Hrs]. cbn [map foldl fst snd].
    rewrite ReplaceAll_render; [|done|eapply Forall_impl; [exact Hl|naive_solver]].
    rewrite IH; [by rewrite map_map|done|]. apply Forall_map. eapply Forall_impl; [exact Hl|].
    intros [s|n] [Hw Hv]; cbn [put]; [done|]. destruct (String.eqb_spec n k) as [->|]; cbn.
    + split; [apply (Hv w); left|done].
    + split; [done|]. intros v Hin. apply (Hv v). by right.
Qed.

Lemma Contains_absent c s t : c ∉ to_bytes s -> Contains s (String c t) = false.
Proof.
  induction s as [|d s IH]; [done|]. cbn [String.list_ascii_of_string]. rewrite not_elem_of_cons. intros [Hd Hs].
  cbn [Contains String.prefix]. destruct (ascii_dec c d) as [->|]; [done|]. by apply IH.
Qed.

Lemma Contains_mid a s t : Contains (a +:+ s +:+ t) s = true.
Proof.
  induction a as [|c a IH].
  - change ("" +:+ s +:+ t) with (s +:+ t). generalize (prefix_app s t). destruct (s +:+ t); cbn [Contains]; by intros ->.
  - change (String c a +:+ s +:+ t) with (String c (a +:+ s +:+ t)). cbn [Contains]. rewrite IH. apply orb_true_r.
Qed.

Lemma brace_free_app s t : brace_free s -> brace_free t -> brace_free (s +:+ t).
Proof. unfold brace_free. rewrite to_bytes_app, !not_elem_of_app. tauto. Qed.

Section spec.
Context `{MapOrder} (p : RequestPlaceholders).

Lemma put_all_value rs n : rs ≡ₚ named p ->
  put_all rs (Hole n) = match value_of p n with Some v => Text v | None => Hole n end.
Proof.
  intros Hp. assert (NoDup (map fst rs)) as Hnd by (rewrite Hp; apply named_names).
  destruct (put_all_hole rs n Hnd) as [H1 H2]. destruct (value_of p n) as [v|] eqn:E.
  - apply H1. rewrite Hp. by apply value_of_named.
  - apply H2. intros v. rewrite Hp, <- value_of_named. congruence.
Qed.

Lemma substitute_render rs l : rs ≡ₚ named p -> Forall (safe_segment p) l ->
  match substitute p l with
  | Some r => render (map (put_all rs) l) = r /\ brace_free r
  | None => Contains (render (map (put_all rs) l)) "{{" = true
  end.
Proof.
  intros Hp. induction 1 as [|g l Hg Hl IH].
  - split; [done|]. split; apply not_elem_of_nil.
  - cbn [map render foldr substitute]. fold (render (map (put_all rs) l)).
    assert (forall s, Contains (render (map (put_all rs) l)) "{{" = true ->
              Contains (s +:+ render (map (put_all rs) l)) "{{" = true) as Hc.
    { intros s Hr. induction s as [|c s IHs]; [done|].
      change (String c s +:+ ?x) with (String c (s +:+ x)). cbn [Contains]. rewrite IHs. apply orb_true_r. }
    destruct g as [s|n]; destruct Hg as [Hw Hv].
    + rewrite put_all_text. cbn [render_one]. destruct (substitute p l) as [r|]; [|by apply Hc].
      destruct IH as [-> Hr]. split; [done|]. by apply brace_free_app.
    + rewrite (put_all_value rs n Hp). destruct (value_of p n) as [v|]; cbn [render_one].
      * destruct (substitute p l) as [r|]; [|by apply Hc]. destruct IH as [-> Hr]. split; [done|].
        apply brace_free_app; auto.
      * exact (Contains_mid "" "{{" ((n +:+ "}}") +:+ render (map (put_all rs) l))).
Qed.

Lemma replaceTemplate_substitute l : Forall (safe_segment p) l ->
  replaceTemplate (render l) p
  = match substitute p l with
    | Some r => Ok r
    | None => Err (ErrorString ("unresolved request placeholder in " +:+ Quote (render l)))
    end.
Proof.
  intros Hl. unfold replaceTemplate. rewrite replacements_named.
  assert (exists rs, rs ≡ₚ named p /\ iterate (map (fun kv => (hole_text (fst kv), snd kv)) (named p))
                     = map (fun kv => (hole_text (fst kv), snd kv)) rs) as (rs & Hp & ->).
  { pose proof (iterate_perm _ (map (fun kv => (hole_text (fst kv), snd kv)) (named p))) as Hi.
    apply Permutation_map_inv in Hi as (rs & -> & Hr). exists rs. split; [by symmetry|done]. }
  rewrite fold_render.
  - pose proof (substitute_render rs l Hp Hl) as Hs. destruct (substitute p l) as [r|].
    + destruct Hs as [-> [H1 H2]]. by rewrite (Contains_absent lb), (Contains_absent rb).
    + by rewrite Hs.
  - rewrite Hp. apply named_brace_free.
  - eapply Forall_impl; [exact Hl|]. intros [s|n] [Hw Hv]; (split; [done|]); [done|].
    intros v Hin. apply Hv, value_of_named. by rewrite <- Hp.
Qed.

(** substituting the seven placeholders one after the other, in whatever order the map yields
    them, is the simultaneous substitution of a template's holes, as long as its texts, its names and
    the values of its holes have no braces; a hole of an unknown name is reported as unresolved. *)
Theorem template_substitution l :
  Forall (safe_segment p) l ->
  replaceTemplate (render l) p
  = match substitute p l with
    | Some r => Ok r
    | None => Err (ErrorString ("unresolved request placeholder in " +:+ Quote (render l)))
    end.
Proof. apply replaceTemplate_substitute. Qed.
End spec.

(** ** Paths *)

Definition path_escaped (p : RequestPlaceholders) : RequestPlaceholders :=
  MkPlaceholders (PathEscape (ph_SourceSymbol p)) (PathEscape (ph_BaseAsset p)) (PathEscape (ph_QuoteAsset p))
    (PathEscape (ph_Period p)) (PathEscape (ph_StartTime p)) (PathEscape (ph_EndTime p)) (PathEscape (ph_Limit p)).

(** Bytes that would end a segment or open a query, a fragment or a placeholder. *)
Definition structural : bytes := (lb :: rb :: to_bytes "/?#;, ")%list.

Lemma structural_escaped :
  Forall (fun b => segment_keep b = false /\ alphanum b = false /\ b <> byte_of_Z 37) structural.
Proof. repeat (apply Forall_cons; split; [split_and!; [reflexivity|reflexivity|discriminate]|]). constructor. Qed.

Lemma PathEscape_plain s : Forall (fun b => b ∉ structural) (to_bytes (PathEscape s)).
Proof.
  unfold PathEscape. rewrite to_of_bytes. apply Forall_forall. intros b Hb Hs.
  pose proof structural_escaped as HF. rewrite Forall_forall in HF. destruct (HF b Hs) as (? & ? & ?).
  by eapply escape_free in Hb.
Qed.

Lemma PathEscape_brace_free s : brace_free (PathEscape s).
Proof.
  pose proof (PathEscape_plain s) as Hp. rewrite Forall_forall in Hp.
  split; intros Hin; apply (Hp _ Hin); unfold structural; [left|right; left].
Qed.

Lemma value_of_escaped p n : value_of (path_escaped p) n = PathEscape <$> value_of p n.
Proof.
  unfold value_of. cbn [named path_escaped find fst].
  repeat (match goal with |- context [(?k =? n)%string] => destruct (String.eqb_spec k n); [done|] end). done.
Qed.

Section paths.
Context `{MapOrder}.

(** C38: in a path every placeholder, whatever the job carries, becomes the escape of its value: the
    result is the simultaneous substitution whose inserted bytes hold no separator, query or fragment
    mark, so a symbol can neither add segments nor open a query, and different values give different
    insertions. *)
Theorem path_substitution p l :
  Forall wf_segment l ->
  replacePathTemplate (render l) p
  = match substitute (path_escaped p) l with
    | Some r => Ok r
    | None => Err (ErrorString ("unresolved request placeholder in " +:+ Quote (render l)))
    end /\
  (forall n v, value_of (path_escaped p) n = Some v -> Forall (fun b => b ∉ structural) (to_bytes v)) /\
  (forall q n v, value_of (path_escaped p) n = Some v -> value_of (path_escaped q) n = Some v -> value_of p n = value_of q n).
Proof.
  intros Hl. split_and!.
  - unfold replacePathTemplate. fold (path_escaped p). apply replaceTemplate_substitute.
    eapply Forall_impl; [exact Hl|]. intros [s|n] Hg; (split; [done|]); [done|].
    intros v. rewrite value_of_escaped. destruct (value_of p n); cbn; [|done]. intros [= <-]. apply PathEscape_brace_free.
  - intros n v. rewrite value_of_escaped. destruct (value_of p n); cbn; [|done]. intros [= <-]. apply PathEscape_plain.
  - intros q n v. rewrite !value_of_escaped. destruct (value_of p n) as [a|], (value_of q n) as [b|]; cbn; try done.
    intros [= <-] [= E]. f_equal. by apply PathEscape_inj.
Qed.
End paths.

(** ** Numbers in metadata *)

Lemma print_digits_app fuel n acc : print_digits fuel n acc = (print_digits fuel n [] ++ acc)%list.
Proof.
  revert n acc. induction fuel as [|f IH]; intros n acc; [done|]. cbn [print_digits].
  destruct (n <? 10); [done|]. rewrite (IH _ (_ :: acc)), (IH _ [_]), <- app_assoc. done.
Qed.

Lemma print_digits_fuel f g n : (0 < f)%nat -> (0 < g)%nat -> 0 <= n < 10 ^ Z.of_nat f -> n < 10 ^ Z.of_nat g ->
  print_digits f n [] = print_digits g n [].
Proof.
  revert g n. induction f as [|f IH]; intros [|g] n Hf Hg Hn Hm; try lia. cbn [print_digits].
  destruct (Z.ltb_spec n 10); [done|].
  rewrite Nat2Z.inj_succ, Z.pow_succ_r in Hn, Hm by lia.
  rewrite (print_digits_app f), (print_digits_app g). f_equal. apply IH.
  - destruct f; [cbn in Hn|]; lia.
  - destruct g; [cbn in Hm|]; lia.
  - split; [apply Z.div_pos; lia|apply Z.div_lt_upper_bound; lia].
  - apply Z.div_lt_upper_bound; lia.
Qed.

Lemma print_nat_10 n : 0 < n -> print_nat (10 * n) = (print_nat n ++ [digit 0])%list.
Proof.
  intros Hn. unfold print_nat at 1. cbn [print_digits]. rewrite (proj2 (Z.ltb_ge (10 * n) 10)) by lia.
  replace (10 * n / 10) with n by (rewrite Z.mul_comm, Z.div_mul; lia).
  replace (10 * n mod 10) with 0 by (rewrite Z.mul_comm, Z.mod_mul; lia).
  rewrite print_digits_app. f_equal. unfold print_nat.
  assert (0 < Z.log2 (10 * n)) by (apply Z.log2_pos; lia).
  apply print_digits_fuel; [lia|lia| |apply print_nat_fuel; lia].
  split; [lia|]. rewrite Z2Nat.id by lia. destruct (Z.log2_spec (10 * n)) as [_ Hl]; [lia|].
  rewrite Z.pow_succ_r in Hl by lia. pose proof (Z.pow_le_mono_l 2 10 (Z.log2 (10 * n)) ltac:(lia)). lia.
Qed.

Lemma print_nat_million n : 0 < n -> print_nat (n * 10 ^ 6) = (print_nat n ++ repeat (digit 0) 6)%list.
Proof.
  intros Hn. replace (n * 10 ^ 6) with (10 * (10 * (10 * (10 * (10 * (10 * n)))))) by lia.
  rewrite !print_nat_10 by lia. rewrite <- !app_assoc. done.
Qed.

(** The fixed-point text of a whole number. *)
Lemma format_fixed_whole n : 0 < n < 2 ^ 53 ->
  to_bytes (format_fixed 6 (f64_of_Z n)) = (print_nat n ++ byte_of_Z 46 :: repeat (digit 0) 6)%list.
Proof.
  intros Hn. destruct n as [|n|]; [lia| |lia]. rewrite f64_of_Z_exact by lia. cbn [format_fixed].
  pose proof (digits2_bound n 53 ltac:(lia) ltac:(lia)) as Hd. pose proof (Pos2Z.is_pos (digits2_pos n)).
  destruct (norm_mant_spec n Hd) as [Hm _].
  match goal with |- context [digits_padded 7 ?v] => assert (v = Zpos n * 10 ^ 6) as -> end.
  { destruct (Z.leb_spec 0 (Zpos (digits2_pos n) - 53)).
    - rewrite Hm. replace (53 - Zpos (digits2_pos n)) with 0 by lia. replace (Zpos (digits2_pos n) - 53) with 0 by lia. cbn. lia.
    - rewrite Hm. replace (- (Zpos (digits2_pos n) - 53)) with (53 - Zpos (digits2_pos n)) by lia.
      set (k := 53 - Zpos (digits2_pos n)). assert (0 < 2 ^ k) by (apply Z.pow_pos_nonneg; lia).
      replace (Zpos n * 2 ^ k * 10 ^ Z.of_nat 6) with (Zpos n * 10 ^ 6 * 2 ^ k) by (cbn; lia).
      unfold div_even. rewrite Z.div_mul, Z.mod_mul by lia. by rewrite (proj2 (Z.ltb_lt _ _)) by lia. }
  unfold digits_padded. rewrite print_nat_million by lia. pose proof (print_nat_ne (Zpos n)) as Hne.
  set (w := print_nat (Zpos n)) in *.
  assert (0 < length w)%nat by (destruct w; [done|]; cbn; lia).
  rewrite !length_app, !repeat_length. replace (7 - (length w + 6))%nat with 0%nat by lia.
  rewrite !Nat.add_0_l. replace (length w + 6 - 6)%nat with (length w) by lia.
  cbn [repeat app Nat.eqb]. rewrite take_app_length, drop_app_length. rewrite !to_bytes_app, !to_of_bytes. done.
Qed.

Lemma strip_same c l : strip_all [[c]] (c :: l) = strip_all [[c]] l.
Proof. unfold strip_all. cbn. by rewrite Ascii.eqb_refl. Qed.
Lemma strip_other c d l : c <> d -> strip_all [[c]] (d :: l) = d :: l.
Proof. intros Hc. unfold strip_all. cbn. by destruct (Ascii.eqb_spec c d). Qed.

Lemma stringify_whole n : 0 <= n < 2 ^ 53 -> stringify (AFloat (f64_of_Z n)) = Itoa n.
Proof.
  intros Hn. destruct (Z.eq_dec n 0) as [->|Hn0]; [vm_compute; reflexivity|].
  unfold stringify, TrimRight, Itoa. rewrite (proj2 (Z.ltb_ge n 0)) by lia. rewrite format_fixed_whole by lia. f_equal.
  rewrite rev_app_distr. change (rev (byte_of_Z 46 :: repeat (digit 0) 6)) with (repeat (digit 0) 6 ++ [byte_of_Z 46])%list.
  cbn [repeat app]. rewrite !strip_same, strip_other by (by vm_compute).
  rewrite to_of_bytes, rev_involutive, strip_same. destruct (rev (print_nat n)) as [|c l] eqn:E.
  - apply (f_equal (@rev ascii)) in E. rewrite rev_involutive in E. by apply print_nat_ne in E.
  - rewrite strip_other; [by rewrite <- E, rev_involutive|]. intros <-.
    pose proof (print_nat_digits n ltac:(lia)) as Hd. rewrite Forall_forall in Hd.
    destruct (Hd (byte_of_Z 46)) as [d Hv]; [|by vm_compute in Hv].
    rewrite list_elem_of_In, in_rev, E. by left.
Qed.

(** ** Times of backfill jobs *)

Lemma ends_app (a b z : bytes) : (exists mid, b = mid ++ z)%list -> exists mid, (a ++ b = mid ++ z)%list.
Proof. intros [mid ->]. exists (a ++ mid)%list. by rewrite app_assoc. Qed.
Lemma ends_cons c (b z : bytes) : (exists mid, b = mid ++ z)%list -> exists mid, (c :: b = mid ++ z)%list.
Proof. intros [mid ->]. by exists (c :: mid). Qed.

Lemma FormatRFC3339_ends t : year4_ok t ->
  exists d mid, FormatRFC3339 t = of_bytes (digit d :: mid ++ [byte_of_Z 90])%list /\ 0 <= d < 10.
Proof.
  intros Hy. unfold FormatRFC3339. destruct (date_of_days (day_of t)) as [[y m] d] eqn:E.
  pose proof (year4_ok_year t y m d Hy E) as Hr. rewrite fmt_year_pad4 by lia.
  set (sec := sec_of_day t). exists (y / 1000).
  assert (exists mid, to_bytes (pad4 y +:+ "-" +:+ pad2 m +:+ "-" +:+ pad2 d +:+ "T" +:+ pad2 (sec / 3600) +:+ ":" +:+
            pad2 (sec / 60 mod 60) +:+ ":" +:+ pad2 (sec mod 60) +:+ "Z") = digit (y / 1000) :: mid ++ [byte_of_Z 90])%list as [mid Hmid].
  { rewrite !to_bytes_app. unfold pad4 at 1. rewrite to_of_bytes. cbn [app].
    match goal with |- exists mid, _ :: ?l = _ => assert (exists mid, l = mid ++ [byte_of_Z 90])%list as [mid ->]; [|by exists mid] end.
    repeat first [ by exists [] | apply ends_cons | apply ends_app ]. }
  exists mid. split; [apply to_bytes_inj; by rewrite to_of_bytes|].
  split; [apply Z.div_pos; lia|apply Z.div_lt_upper_bound; lia].
Qed.

Lemma FormatRFC3339_trim t : year4_ok t -> TrimSpace (FormatRFC3339 t) = FormatRFC3339 t.
Proof. intros Hy. destruct (FormatRFC3339_ends t Hy) as (d & mid & -> & Hd). apply TrimSpace_solid; [by apply solid_digit|done]. Qed.

Lemma parse_digits_bad c l acc : c ∈ l -> digit_val c = None -> parse_digits acc l = None.
Proof.
  intros Hin Hc. revert acc. induction l as [|x l IH]; intros acc; [by apply not_elem_of_nil in Hin|]. cbn [parse_digits].
  apply elem_of_cons in Hin as [<-|Hin]; [by rewrite Hc|]. destruct (digit_val x); [by apply IH|done].
Qed.

Lemma FormatRFC3339_not_int t : year4_ok t -> ParseInt (FormatRFC3339 t) = None.
Proof.
  intros Hy. destruct (FormatRFC3339_ends t Hy) as (d & mid & -> & Hd). unfold ParseInt. rewrite to_of_bytes.
  assert (is_digit (digit d)) as Hi by (eexists; by apply digit_val_digit).
  rewrite !is_digit_not_sign by (done || lia). rewrite (parse_digits_bad (byte_of_Z 90)); [done| |done].
  right. rewrite elem_of_app. right. left.
Qed.

(** Ids and settings small enough to be exact as floats. *)
Definition exact_id (z : Z) : Prop := 0 <= z < 2 ^ 53.

Lemma dec_any_int z : exact_id z -> dec_any (JInt z) = Some (AFloat (f64_of_Z z)).
Proof. intros Hz. cbn [dec_any]. unfold fresh, dec_float. cbv zeta. by rewrite f64_of_Z_finite. Qed.

Lemma backfill_metadata_map r bucket :
  let e := bf_EndpointMetadata r in
  exact_id (rm_EndpointID e) -> exact_id (rm_RequestWeight e) -> exact_id (rm_TimeoutMS e) -> exact_id (bf_ParentGapID r) ->
  exists m, Unmarshal dec_map (snd (backfillMetadata r bucket)) = Some m /\
    map_get m "start_time" = AString (FormatRFC3339 bucket) /\
    map_get m "end_time" = AString (FormatRFC3339 (Add bucket (duration_of (bf_IntervalSeconds r) Second))) /\
    map_get m "limit" = ANil.
Proof.
  intros e H1 H2 H3 H4. unfold backfillMetadata, checkpoint_map. cbn [snd Unmarshal]. fold e.
  apply dec_any_int in H1, H2, H3, H4. revert H1 H2 H3 H4.
  generalize (FormatRFC3339 bucket) (FormatRFC3339 (bf_Start r)) (FormatRFC3339 (bf_End r))
    (FormatRFC3339 (Add bucket (duration_of (bf_IntervalSeconds r) Second))) (rm_EndpointID e) (rm_RequestWeight e)
    (rm_TimeoutMS e) (bf_ParentGapID r) (rm_RequiresEndpoint e) (rm_EndpointName e) (rm_EndpointDataType e).
  intros s1 s2 s3 s4 i1 i2 i3 i4 b n1 n2 H1 H2 H3 H4.
  set (v := json_map _). vm_compute in v. unfold v, dec_map.
  cbn [dec_any map fst snd] in *. rewrite H1, H2, H3, H4. eexists. split; [cbn; reflexivity|]. done.
Qed.

Lemma digit_plain d c : 0 <= d < 10 -> digit_val c = None -> digit d <> c.
Proof. intros Hd Hc <-. by rewrite digit_val_digit in Hc. Qed.

Lemma digits_brace_free l : Forall is_digit l -> brace_free (of_bytes l).
Proof.
  intros Hl. rewrite Forall_forall in Hl. unfold brace_free. rewrite to_of_bytes.
  split; intros [d Hd]%Hl; vm_compute in Hd; done.
Qed.

Lemma pad2_brace_free n : 0 <= n < 100 -> brace_free (pad2 n).
Proof.
  intros Hn. apply digits_brace_free. repeat constructor; eexists; apply digit_val_digit; divlia.
Qed.
Lemma pad4_brace_free n : 0 <= n < 10000 -> brace_free (pad4 n).
Proof.
  intros Hn. apply digits_brace_free. repeat constructor; eexists; apply digit_val_digit; divlia.
Qed.

Lemma FormatRFC3339_brace_free t : year4_ok t -> brace_free (FormatRFC3339 t).
Proof.
  intros Ht. unfold FormatRFC3339. destruct (date_of_days (day_of t)) as [[y m] d] eqn:Et.
  pose proof (year4_ok_year _ _ _ _ Ht Et). pose proof (days_of_date_of_days _ _ _ _ Et) as (Hm & Hd & _).
  pose proof (sec_of_day_range t). rewrite fmt_year_pad4 by lia.
  repeat apply brace_free_app; first [ apply pad4_brace_free; lia | apply pad2_brace_free; divlia
    | split; apply (bool_decide_unpack _); vm_compute; done ].
Qed.

Lemma append_nil_r s : s +:+ "" = s.
Proof. apply to_bytes_inj. by rewrite to_bytes_app, app_nil_r. Qed.

(** A template that is one placeholder. *)
Lemma single_hole `{MapOrder} p n v :
  value_of p n = Some v -> brace_free n -> brace_free v -> replaceTemplate (hole_text n) p = Ok v.
Proof.
  intros Hv Hn Hb. replace (hole_text n) with (render [Hole n]) by apply append_nil_r.
  rewrite replaceTemplate_substitute.
  - cbn [substitute]. rewrite Hv. by rewrite append_nil_r.
  - constructor; [|constructor]. split; [done|]. intros w. rewrite Hv. by intros [= <-].
Qed.

Lemma named_brace_free_name p n : n ∈ map fst (named p) -> brace_free n.
Proof.
  intros (kv & -> & Hin)%list_elem_of_fmap. pose proof (named_brace_free p) as Hf. rewrite Forall_forall in Hf. by apply Hf.
Qed.

(** the bounds of a backfill bucket reach the exchange as RFC 3339 text: the metadata of a
    backfill job, read back by the request builder, puts [FormatRFC3339] of the bucket wherever a
    template says [{{start_time}}] or [{{end_time}}], and that text is not an integer, while the
    seeded templates pass it as the exchanges' epoch parameters. *)
Theorem backfill_times_are_text `{MapOrder} r bucket symbol :
  let e := bf_EndpointMetadata r in
  let until := Add bucket (duration_of (bf_IntervalSeconds r) Second) in
  let p := placeholdersFromJob (backfill_job r bucket) symbol in
  exact_id (rm_EndpointID e) -> exact_id (rm_RequestWeight e) -> exact_id (rm_TimeoutMS e) -> exact_id (bf_ParentGapID r) ->
  year4_ok bucket -> year4_ok until ->
  replaceTemplate "{{start_time}}" p = Ok (FormatRFC3339 bucket) /\
  replaceTemplate "{{end_time}}" p = Ok (FormatRFC3339 until) /\
  ParseInt (FormatRFC3339 bucket) = None /\ ParseInt (FormatRFC3339 until) = None.
Proof.
  intros e until p H1 H2 H3 H4 Hb Hu.
  destruct (backfill_metadata_map r bucket H1 H2 H3 H4) as (m & Hm & Hs & He & Hl).
  assert (ph_StartTime p = FormatRFC3339 bucket /\ ph_EndTime p = FormatRFC3339 until) as [Es Ee].
  { unfold p, placeholdersFromJob, backfill_job. destruct (backfillMetadata r bucket) as [c md]. cbn [snd job_Metadata] in *.
    rewrite Hm. cbn [ph_StartTime ph_EndTime]. rewrite Hs, He. cbn [stringify]. by rewrite !FormatRFC3339_trim. }
  split_and!; [| |by apply FormatRFC3339_not_int..].
  - apply (single_hole p "start_time"); [cbn; by rewrite Es|apply (named_brace_free_name p "start_time"); cbn; set_solver|].
    by apply FormatRFC3339_brace_free.
  - apply (single_hole p "end_time"); [cbn; by rewrite Ee|apply (named_brace_free_name p "end_time"); cbn; set_solver|].
    by apply FormatRFC3339_brace_free.
Qed.

(** ** Examples and witnesses *)

Definition demo_job : Job :=
  MkJob 1 "mexc" "kline" "all" 1 "0G_USDT" "Min5" "k" JobStatusRunning 1 0 None None 0 3 ""
    (raw_of_bytes (quoted "{'start_time':'1710000000','end_time':'1710000300','limit':200}")) "realtime" 0 RawEmpty.
Definition demo_symbol : Symbol := MkSymbol 1 "0G" "0G" "USDT" "perpetual" 1 true [].
Definition demo_placeholders : RequestPlaceholders := placeholdersFromJob demo_job demo_symbol.

Example placeholders_test : demo_placeholders = MkPlaceholders "0G_USDT" "0G" "USDT" "Min5" "1710000000" "1710000300" "200".
Proof. vm_compute. reflexivity. Qed.

Example query_test :
  Encode <$> match @buildQuery backward_order (raw_of_bytes (quoted "{'interval':'{{period}}','start':'{{start_time}}','x':' ','limit':'{{limit}}'}")) demo_placeholders with
             | Ok q => Some q | Err _ => None end
  = Some "interval=Min5&limit=200&start=1710000000".
Proof. vm_compute. reflexivity. Qed.

Example path_test :
  @replacePathTemplate forward_order "/markets/{{source_symbol}}" (MkPlaceholders "ABC/USDT" "" "" "" "" "" "") = Ok "/markets/ABC%2FUSDT".
Proof. vm_compute. reflexivity. Qed.

(** A value that looks like a placeholder is substituted again or not, depending on the map's order. *)
Example braces_depend_on_order :
  let p := MkPlaceholders "" "" "" "5m" "" "" "{{period}}" in
  @replaceTemplate backward_order "{{limit}}" p = Ok "5m" /\
  is_ok (@replaceTemplate forward_order "{{limit}}" p) = false.
Proof. vm_compute. done. Qed.

Lemma template_substitution_witness :
  let l := [Text "/kline/"; Hole "source_symbol"; Text "?i="; Hole "period"] in
  Forall (safe_segment demo_placeholders) l /\
  @replaceTemplate backward_order (render l) demo_placeholders = Ok "/kline/0G_USDT?i=Min5".
Proof.
  assert (Forall (safe_segment demo_placeholders)
            [Text "/kline/"; Hole "source_symbol"; Text "?i="; Hole "period"]) as Hs.
  { repeat constructor; try (apply (bool_decide_unpack _); vm_compute; done);
      revert v H; intros v H; vm_compute in H; injection H as <-; apply (bool_decide_unpack _); vm_compute; done. }
  split; [exact Hs|]. exact (@template_substitution backward_order demo_placeholders _ Hs).
Defined.

Lemma path_substitution_witness :
  Forall wf_segment [Text "/markets/"; Hole "source_symbol"] /\
  @replacePathTemplate forward_order "/markets/{{source_symbol}}" (MkPlaceholders "ABC/USDT" "" "" "" "" "" "") = Ok "/markets/ABC%2FUSDT".
Proof.
  assert (Forall wf_segment [Text "/markets/"; Hole "source_symbol"]) as Hs by (repeat constructor; apply (bool_decide_unpack _); vm_compute; done).
  split; [exact Hs|]. exact (proj1 (@path_substitution forward_order (MkPlaceholders "ABC/USDT" "" "" "" "" "" "") _ Hs)).
Defined.

Definition demo_backfill : BackfillRequest :=
  MkBackfillRequest "binance" "kline" "all" 1 "BTCUSDT" "5m" (UnixMilli 1779710400000) (UnixMilli 1779714000000) 300 1000 3
    (MkRuntimeMetadata 7 "klines" "kline" true 1 10000 f64_zero 0) 3 10 0 0.

Lemma backfill_times_are_text_witness :
  @replaceTemplate forward_order "{{start_time}}" (placeholdersFromJob (backfill_job demo_backfill (UnixMilli 1779710400000)) demo_symbol)
  = Ok "2026-05-25T12:00:00Z".
Proof.
  rewrite (proj1 (@backfill_times_are_text forward_order demo_backfill (UnixMilli 1779710400000) demo_symbol
    ltac:(split; vm_compute; [discriminate|reflexivity]) ltac:(split; vm_compute; [discriminate|reflexivity])
    ltac:(split; vm_compute; [discriminate|reflexivity]) ltac:(split; vm_compute; [discriminate|reflexivity])
    ltac:(split; vm_compute; [discriminate|reflexivity]) ltac:(split; vm_compute; [discriminate|reflexivity]))).
  vm_compute. reflexivity.
Defined.
