(* ===== verification/Resp.v ===== *)
(** * The Redis protocol ([internal/realtime/redis.go])

    [writeRESP] and [readRESP]: requests as arrays of bulk strings, replies with their nesting.  A
    connection delivers bytes and then an end ([io.EOF] or a network error).  [make] panics for a
    size beyond the address space of linux/amd64; running out of memory below that is not modelled. *)

From Stdlib Require Import Ascii.
From S2P Require Import Prelude GoString GoError GoOutcome GoStrconv.

(** What the reader gets after the last byte. *)
Inductive conn_end := ConnEOF | ConnError (e : error).
Definition io_EOF : error := Sentinel "EOF" "EOF".
Definition io_ErrUnexpectedEOF : error := Sentinel "ErrUnexpectedEOF" "unexpected EOF".
Definition end_error (e : conn_end) : error := match e with ConnEOF => io_EOF | ConnError e => e end.
(** [io.ReadFull] after [got] of its bytes. *)
Definition short_read (e : conn_end) (got : bytes) : error :=
  match e, got with ConnEOF, _ :: _ => io_ErrUnexpectedEOF | _, _ => end_error e end.

Definition CRLF : bytes := [byte_of_Z 13; byte_of_Z 10].
Definition bulk (arg : bytes) : bytes :=
  (byte_of_Z 36 :: to_bytes (Itoa (Z.of_nat (length arg))) ++ CRLF ++ arg ++ CRLF)%list.
Definition writeRESP (args : list bytes) : bytes :=
  (byte_of_Z 42 :: to_bytes (Itoa (Z.of_nat (length args))) ++ CRLF ++ concat (map bulk args))%list.

Inductive redisReply : Type :=
| MkReply (data : bytes) (integer : Z) (array : list redisReply) (nil : bool).
Definition rr_data (r : redisReply) : bytes := let 'MkReply d _ _ _ := r in d.
Definition rr_nil (r : redisReply) : bool := let 'MkReply _ _ _ n := r in n.
Definition data_reply (d : bytes) : redisReply := MkReply d 0 [] false.
Definition nil_reply : redisReply := MkReply [] 0 [] true.

(** The address space of the runtime, and the size of a [redisReply]. *)
Definition max_alloc : Z := 2 ^ 48.
Definition sizeof_redisReply : Z := 64.
Definition make_ok (elem_size n : Z) : bool := (0 <=? n) && (n * elem_size <=? max_alloc).

Fixpoint read_until (z : Z) (l : bytes) : option (bytes * bytes) :=
  match l with
  | c :: l' => if byte_is c z then Some ([], l') else (fun r => (c :: fst r, snd r)) <$> read_until z l'
  | [] => None
  end.

Section reader.
Context (stop : conn_end).

Definition readLine (l : bytes) : outcome (string * bytes) :=
  match read_until 10 l with
  | Some (line, rest) => Value (TrimSuffix (of_bytes line) (of_bytes [byte_of_Z 13]), rest)
  | None => Fail (end_error stop)
  end.

(** A size line: [readLine], then [strconv.Atoi]. *)
Definition read_size (l : bytes) : outcome (Z * bytes) :=
  r ← readLine l;
  match ParseInt (fst r) with
  | Some size => Value (size, snd r)
  | None => Fail (Atoi_error (fst r))
  end.

(** [io.ReadFull(reader, value)] for [n] bytes. *)
Definition read_full (n : Z) (l : bytes) : outcome (bytes * bytes) :=
  if n <=? Z.of_nat (length l) then Value (take (Z.to_nat n) l, drop (Z.to_nat n) l) else Fail (short_read stop l).

Definition read_bulk (l : bytes) : outcome (redisReply * bytes) :=
  r ← read_size l;
  let size := fst r in
  if size <? 0 then Value (nil_reply, snd r) else
  if negb (make_ok 1 (wrap64 (size + 2))) then Panic else
  v ← read_full (size + 2) (snd r);
  Value (data_reply (take (Z.to_nat size) (fst v)), snd v).

(** [readRESP] and the loop over the items of an array; [n] is fuel and [None] means it ran out.
    Every reply consumes its prefix byte, so twice the length of the input is enough. *)
Fixpoint read_reply (n : nat) (l : bytes) {struct n} : option (outcome (redisReply * bytes)) :=
  match n with
  | O => None
  | S n =>
    match l with
    | [] => Some (Fail (end_error stop))
    | prefix :: l' =>
      if byte_is prefix 43 then Some (r ← readLine l'; Value (data_reply (to_bytes (fst r)), snd r)) else
      if byte_is prefix 45 then Some (r ← readLine l'; Fail (ErrorString ("redis error: " +:+ fst r))) else
      if byte_is prefix 58 then
        Some (r ← readLine l';
              match ParseInt (fst r) with
              | Some v => Value (MkReply [] v [] false, snd r)
              | None => Fail (ParseInt_error (fst r))
              end)
      else if byte_is prefix 36 then Some (read_bulk l')
      else if byte_is prefix 42 then
        match read_size l' with
        | Value (size, rest) =>
          if size <? 0 then Some (Value (nil_reply, rest)) else
          if negb (make_ok sizeof_redisReply size) then Some Panic else
          (fun o => r ← o; Value (MkReply [] 0 (fst r) false, snd r)) <$> read_items n size rest
        | Fail e => Some (Fail e)
        | Panic => Some Panic
        end
      else Some (Fail (ErrorString ("unsupported redis response prefix '" +:+ of_bytes [prefix] +:+ "'")))
    end
  end
with read_items (n : nat) (size : Z) (l : bytes) {struct n} : option (outcome (list redisReply * bytes)) :=
  match n with
  | O => None
  | S n =>
    if size <=? 0 then Some (Value ([], l)) else
    match read_reply n l with
    | Some (Value (item, rest)) =>
      (fun o => r ← o; Value (item :: fst r, snd r)) <$> read_items n (size - 1) rest
    | Some (Fail e) => Some (Fail e)
    | Some Panic => Some Panic
    | None => None
    end
  end.

Definition reply_fuel (l : bytes) : nat := S (2 * length l).
Definition readRESP (l : bytes) : outcome (redisReply * bytes) :=
  default Panic (read_reply (reply_fuel l) l).
End reader.

(** ** Every input has a reply *)

Lemma read_until_spec z l line rest :
  read_until z l = Some (line, rest) -> exists c, l = (line ++ c :: rest)%list /\ Z_of_byte c = z.
Proof.
  revert line. induction l as [|c l IH]; intros line; cbn [read_until]; [done|]. destruct (byte_is c z) eqn:E.
  - intros [= <- <-]. exists c. split; [done|]. by apply Z.eqb_eq.
  - destruct (read_until z l) as [[k r]|]; [|done]. intros [= <- <-]. destruct (IH k eq_refl) as (d & -> & Hd).
    by exists d.
Qed.

Section reading.
Context (stop : conn_end).

Lemma readLine_suffix l line rest : readLine stop l = Value (line, rest) -> exists a c, l = (a ++ c :: rest)%list.
Proof.
  unfold readLine. destruct (read_until 10 l) as [[k r]|] eqn:E; [|done]. intros [= _ <-].
  apply read_until_spec in E as (c & -> & _). by exists k, c.
Qed.

Lemma read_size_suffix l size rest : read_size stop l = Value (size, rest) -> exists a c, l = (a ++ c :: rest)%list.
Proof.
  unfold read_size. intros H. inv_value. destruct x as [line r]. simplify_eq/=. eauto using readLine_suffix.
Qed.

Lemma readLine_no_panic l : readLine stop l <> Panic.
Proof. unfold readLine. by destruct (read_until 10 l) as [[??]|]. Qed.
Lemma read_size_no_panic l : read_size stop l <> Panic.
Proof.
  unfold read_size. apply bind_no_panic; [apply readLine_no_panic|]. intros r. by destruct (ParseInt (fst r)).
Qed.

Lemma read_bulk_suffix l r rest : read_bulk stop l = Value (r, rest) -> exists a c, l = (a ++ c :: rest)%list.
Proof.
  unfold read_bulk. intros H. inv_value.
  - destruct x as [size k]. simplify_eq/=. eauto using read_size_suffix.
  - destruct x as [size k], x0 as [v k']. simplify_eq/=.
    destruct (read_size_suffix _ _ _ H0) as (a & c & ->). unfold read_full in H1. inv_value. simplify_eq. bool_to_prop.
    exists (a ++ c :: take (Z.to_nat (size + 2) - 1) k)%list.
    destruct (lookup_lt_is_Some_2 k (Z.to_nat (size + 2) - 1)) as [d Hd]; [lia|]. exists d.
    rewrite <- app_assoc. cbn [app]. do 2 f_equal. rewrite <- (take_drop_middle _ _ _ Hd) at 1. do 3 f_equal. lia.
Qed.

(** A reply consumes at least its prefix byte. *)
Lemma read_reply_suffix n :
  (forall l r rest, read_reply stop n l = Some (Value (r, rest)) -> exists c a, l = (c :: a ++ rest)%list) /\
  (forall size l r rest, read_items stop n size l = Some (Value (r, rest)) -> exists a, l = (a ++ rest)%list).
Proof.
  induction n as [|n [IHr IHi]]; [done|]. split.
  - intros [|c l] r rest; [done|]. cbn [read_reply]. intros H. exists c.
    assert (forall line, readLine stop l = Value (line, rest) -> exists a, c :: l = c :: a ++ rest) as Hline.
    { intros line (a & d & ->)%readLine_suffix. exists (a ++ [d])%list. by rewrite <- app_assoc. }
    repeat match goal with
    | H : (if ?b then _ else _) = Some _ |- _ => destruct b
    end; try (injection H as H).
    + inv_value. destruct x as [line k]. simplify_eq/=. eauto.
    + inv_value.
    + inv_value. destruct x as [line k]. simplify_eq/=. eauto.
    + destruct (read_bulk_suffix _ _ _ H) as (a & d & ->). exists (a ++ [d])%list. by rewrite <- app_assoc.
    + destruct (read_size stop l) as [[size k]|e|] eqn:E; [|done..].
      destruct (read_size_suffix _ _ _ E) as (a & d & ->).
      destruct (size <? 0); [injection H as <- <-; exists (a ++ [d])%list; by rewrite <- app_assoc|].
      destruct (make_ok _ _); [|done]. cbn [negb] in H.
      destruct (read_items stop n size k) as [[[items k']|e|]|] eqn:Ei; try done. injection H as <- <-.
      destruct (IHi _ _ _ _ Ei) as [b ->]. exists (a ++ d :: b)%list. by rewrite <- app_assoc.
    + done.
  - intros size l r rest. cbn [read_items]. destruct (size <=? 0); [intros [= <- <-]; by exists []|].
    destruct (read_reply stop n l) as [[[item k]|e|]|] eqn:E; try done.
    destruct (read_items stop n (size - 1) k) as [[[items k']|e|]|] eqn:Ei; try done. intros [= <- <-].
    destruct (IHr _ _ _ E) as (c & a & ->), (IHi _ _ _ _ Ei) as [b ->]. exists (c :: a ++ b)%list. cbn [app].
    by rewrite <- app_assoc.
Qed.

Lemma read_fuel n :
  (forall l, (2 * length l < n)%nat -> read_reply stop n l <> None) /\
  (forall size l, (2 * length l + 1 < n)%nat -> read_items stop n size l <> None).
Proof.
  induction n as [|n [IHr IHi]]; [split; intros; lia|]. split.
  - intros [|c l] Hl; [done|]. cbn [read_reply]. cbn [length] in Hl.
    repeat match goal with |- context [if byte_is ?b ?z then _ else _] => destruct (byte_is b z); [done|] end.
    destruct (byte_is c 42); [|done]. destruct (read_size stop l) as [[size k]|e|] eqn:E; [|done..].
    destruct (size <? 0); [done|]. destruct (make_ok _ _); [|done]. cbn [negb].
    destruct (read_size_suffix _ _ _ E) as (a & d & ->). rewrite length_app in Hl. cbn [length] in Hl.
    destruct (read_items stop n size k) eqn:Ei; [done|]. exfalso. refine (IHi size k _ Ei). lia.
  - intros size l Hl. cbn [read_items]. destruct (size <=? 0); [done|].
    destruct (read_reply stop n l) as [[[item k]|e|]|] eqn:E; [|done..|exfalso; refine (IHr l _ E); lia].
    destruct (proj1 (read_reply_suffix n) _ _ _ E) as (c & a & ->). cbn [length] in Hl. rewrite length_app in Hl.
    destruct (read_items stop n (size - 1) k) eqn:Ei; [done|]. exfalso. refine (IHi (size - 1) k _ Ei). lia.
Qed.

(** A line that asks for more memory than a process can address. *)
Definition absurd_size (l : bytes) : Prop :=
  exists a b size rest, l = (a ++ b)%list /\ read_size stop b = Value (size, rest) /\ 2 ^ 42 < size.

Lemma absurd_size_suffix a l : absurd_size l -> absurd_size (a ++ l).
Proof.
  intros (b & c & size & rest & -> & H). exists (a ++ b)%list, c, size, rest. by rewrite app_assoc.
Qed.

Lemma read_panic n :
  (forall l, read_reply stop n l = Some Panic -> absurd_size l) /\
  (forall size l, read_items stop n size l = Some Panic -> absurd_size l).
Proof.
  induction n as [|n [IHr IHi]]; [done|]. split.
  - intros [|c l]; [done|]. cbn [read_reply]. intros H. change (c :: l) with ([c] ++ l)%list. apply absurd_size_suffix.
    repeat match goal with
    | H : (if ?b then _ else _) = Some _ |- _ => destruct b
    end; try (injection H as H); try done.
    1-3: apply bind_Panic in H as [H|[r [_ H]]]; [by apply readLine_no_panic in H|]; by try destruct (ParseInt _).
    + unfold read_bulk in H. apply bind_Panic in H as [H|[[size k] [E H]]]; [by apply read_size_no_panic in H|].
      cbn [fst snd] in H. destruct (Z.ltb_spec size 0); [done|].
      exists [], l, size, k. split_and!; [done|done|]. destruct (make_ok 1 (wrap64 (size + 2))) eqn:Em.
      * cbn [negb] in H. apply bind_Panic in H as [H|[? [_ H]]]; [|done]. unfold read_full in H. by destruct (_ <=? _).
      * apply Z.nle_gt. intros Hs. unfold make_ok in Em. rewrite wrap64_ok in Em by (unfold int64_ok, min_int64, max_int64, two63; lia).
        destruct (Z.leb_spec 0 (size + 2)), (Z.leb_spec ((size + 2) * 1) max_alloc); unfold max_alloc in *; (done || lia).
    + destruct (read_size stop l) as [[size k]|e|] eqn:E; [|done|by apply read_size_no_panic in E].
      destruct (Z.ltb_spec size 0); [done|]. destruct (make_ok _ size) eqn:Em.
      * cbn [negb] in H. destruct (read_items stop n size k) as [[[items k']|e|]|] eqn:Ei; try done.
        destruct (read_size_suffix _ _ _ E) as (a & d & ->). change (d :: k) with ([d] ++ k)%list.
        do 2 apply absurd_size_suffix. eauto.
      * exists [], l, size, k. split_and!; [done|done|]. apply Z.nle_gt. intros Hs. unfold make_ok in Em.
        destruct (Z.leb_spec 0 size), (Z.leb_spec (size * sizeof_redisReply) max_alloc);
          unfold max_alloc, sizeof_redisReply in *; (done || lia).
  - intros size l. cbn [read_items]. destruct (size <=? 0); [done|].
    destruct (read_reply stop n l) as [[[item k]|e|]|] eqn:E; try done; [|intros _; eauto].
    destruct (proj1 (read_reply_suffix n) _ _ _ E) as (c & a & ->).
    destruct (read_items stop n (size - 1) k) as [[[items k']|e|]|] eqn:Ei; try done. intros _.
    rewrite app_comm_cons. apply absurd_size_suffix. eauto.
Qed.

(** More fuel changes nothing, and neither do bytes after a reply. *)
Lemma read_until_extend z l line rest k : read_until z l = Some (line, rest) -> read_until z (l ++ k) = Some (line, rest ++ k)%list.
Proof.
  revert line. induction l as [|c l IH]; intros line; cbn [app read_until]; [done|]. destruct (byte_is c z).
  - by intros [= <- <-].
  - destruct (read_until z l) as [[a b]|]; [|done]. intros [= <- <-]. by rewrite (IH a eq_refl).
Qed.
Lemma readLine_extend l line rest k : readLine stop l = Value (line, rest) -> readLine stop (l ++ k) = Value (line, rest ++ k)%list.
Proof.
  unfold readLine. destruct (read_until 10 l) as [[a b]|] eqn:E; [|done]. rewrite (read_until_extend _ _ _ _ k E). by intros [= <- <-].
Qed.
Lemma read_size_extend l size rest k : read_size stop l = Value (size, rest) -> read_size stop (l ++ k) = Value (size, rest ++ k)%list.
Proof.
  unfold read_size. intros H. inv_value. destruct x as [line r]. simplify_eq/=. rewrite (readLine_extend _ _ _ k H0).
  cbn [mbind outcome_bind fst snd]. by rewrite Heqo.
Qed.
(** The outcome on a longer input: a failure may turn into anything. *)
Definition extends {A} (k : bytes) (o o' : outcome (A * bytes)) : Prop :=
  match o with Value (r, rest) => o' = Value (r, rest ++ k)%list | Fail _ => True | Panic => o' = Panic end.

Lemma line_extend {A} (g : string * bytes -> outcome (A * bytes)) l k :
  (forall line rest, extends k (g (line, rest)) (g (line, rest ++ k)%list)) ->
  extends k (readLine stop l ≫= g) (readLine stop (l ++ k) ≫= g).
Proof.
  intros Hg. destruct (readLine stop l) as [[line rest]|e|] eqn:E; [|done|by apply readLine_no_panic in E].
  rewrite (readLine_extend _ _ _ k E). apply Hg.
Qed.

Lemma read_bulk_extend l k : extends k (read_bulk stop l) (read_bulk stop (l ++ k)).
Proof.
  unfold read_bulk. destruct (read_size stop l) as [[size r]|e|] eqn:E; cbn [mbind outcome_bind]; [|done|by apply read_size_no_panic in E].
  rewrite (read_size_extend _ _ _ k E). cbn [mbind outcome_bind fst snd]. destruct (size <? 0); [done|].
  destruct (make_ok _ _); [|done]. cbn [negb]. unfold read_full. rewrite length_app.
  destruct (Z.leb_spec (size + 2) (Z.of_nat (length r))); [|done]. cbn [mbind outcome_bind extends fst snd].
  destruct (Z.leb_spec (size + 2) (Z.of_nat (length r + length k))); [|lia]. cbn [mbind outcome_bind fst snd].
  by rewrite take_app_le, drop_app_le by lia.
Qed.

Lemma read_extend n m k : (n <= m)%nat ->
  (forall l o, read_reply stop n l = Some o -> match o with Fail _ => True | _ => exists o', read_reply stop m (l ++ k) = Some o' /\ extends k o o' end) /\
  (forall size l o, read_items stop n size l = Some o -> match o with Fail _ => True | _ => exists o', read_items stop m size (l ++ k) = Some o' /\ extends k o o' end).
Proof.
  revert m. induction n as [|n IH]; intros [|m] Hm; [done..|lia|]. destruct (IH m ltac:(lia)) as [IHr IHi]. split.
  - intros [|c l] o; [by intros [= <-]|]. cbn [app read_reply]. intros H.
    assert (forall o', extends k o o' -> match o with Fail _ => True | _ => exists o'', Some o' = Some o'' /\ extends k o o'' end) as Hsome
      by (intros o' Hx; destruct o; [|done|]; eauto).
    destruct (byte_is c 43); [injection H as <-; by apply Hsome, line_extend|].
    destruct (byte_is c 45); [injection H as <-; by apply Hsome, line_extend|].
    destruct (byte_is c 58).
    { injection H as <-. apply Hsome, line_extend. intros line rest. cbn [fst snd]. by destruct (ParseInt line). }
    destruct (byte_is c 36); [injection H as <-; apply Hsome, read_bulk_extend|]. clear Hsome.
    destruct (byte_is c 42); [|by injection H as <-].
    destruct (read_size stop l) as [[size rest]|e|] eqn:E; [|by injection H as <-|by apply read_size_no_panic in E].
    rewrite (read_size_extend _ _ _ k E). destruct (size <? 0); [injection H as <-; by eexists|].
    destruct (make_ok _ _); [|injection H as <-; by eexists]. cbn [negb] in *.
    destruct (read_items stop n size rest) as [oi|] eqn:Ei; [|done]. injection H as <-. specialize (IHi _ _ _ Ei).
    destruct oi as [[items r]|e|]; cbn [mbind outcome_bind fst snd]; [|done|]; destruct IHi as (o' & -> & Hx);
      cbn [extends] in Hx; subst; by eexists.
  - intros size l o. cbn [read_items]. destruct (size <=? 0); [intros [= <-]; by eexists|].
    destruct (read_reply stop n l) as [or|] eqn:E; [|done]. specialize (IHr _ _ E).
    destruct or as [[item r]|e|]; [|by intros [= <-]|].
    + destruct IHr as (o' & -> & Hx). cbn [extends] in Hx. subst o'.
      destruct (read_items stop n (size - 1) r) as [oi|] eqn:Ei; [|done]. intros [= <-]. specialize (IHi _ _ _ Ei).
      destruct oi as [[items r']|e|]; cbn [mbind outcome_bind fst snd]; [|done|]; destruct IHi as (o' & -> & Hx);
        cbn [extends] in Hx; subst; by eexists.
    + intros [= <-]. destruct IHr as (o' & -> & Hx). cbn [extends] in Hx. subst o'. by eexists.
Qed.

(** A reply does not depend on the bytes behind it. *)
Lemma readRESP_extend l k : extends k (readRESP stop l) (readRESP stop (l ++ k)).
Proof.
  unfold readRESP. destruct (read_reply stop (reply_fuel l) l) as [o|] eqn:E.
  - cbn [from_option default id]. destruct (read_extend (reply_fuel l) (reply_fuel (l ++ k)) k) as [Hr _].
    { unfold reply_fuel. rewrite length_app. lia. }
    specialize (Hr _ _ E). destruct o; [|done|]; destruct Hr as (o' & -> & Hx); exact Hx.
  - exfalso. refine (proj1 (read_fuel _) l _ E). unfold reply_fuel. lia.
Qed.

(** the reader of Redis replies returns for every byte sequence: the recursion over nested
    arrays ends within the fuel, a reply that was read leaves a proper suffix of the input, and the
    only panic is an allocation, for a length line above four trillion. *)
Theorem readRESP_total l :
  read_reply stop (reply_fuel l) l = Some (readRESP stop l) /\
  (forall r rest, readRESP stop l = Value (r, rest) -> exists c a, l = (c :: a ++ rest)%list) /\
  (readRESP stop l = Panic -> absurd_size l).
Proof.
  assert (read_reply stop (reply_fuel l) l = Some (readRESP stop l)) as E.
  { unfold readRESP. destruct (read_reply stop (reply_fuel l) l) eqn:E; [done|].
    exfalso. refine (proj1 (read_fuel _) l _ E). unfold reply_fuel. lia. }
  split_and!; [done| |].
  - intros r rest Hr. rewrite Hr in E. by apply read_reply_suffix in E.
  - intros Hr. rewrite Hr in E. by apply read_panic in E.
Qed.
End reading.

(** ** Requests read back *)

Lemma read_until_app z a c rest : Forall (fun b => Z_of_byte b <> z) a -> Z_of_byte c = z ->
  read_until z (a ++ c :: rest) = Some (a, rest).
Proof.
  intros Ha Hc. induction Ha as [|b a Hb Ha IH]; cbn [app read_until]; unfold byte_is.
  - by rewrite Hc, Z.eqb_refl.
  - destruct (Z.eqb_spec (Z_of_byte b) z); [done|]. by rewrite IH.
Qed.

Lemma TrimSuffix_app l k : TrimSuffix (of_bytes (l ++ k)) (of_bytes k) = of_bytes l.
Proof.
  unfold TrimSuffix. rewrite !to_of_bytes, rev_app_distr, match_prefix_app, rev_involutive. done.
Qed.

Section request.
Context (stop : conn_end).

Lemma readLine_CRLF s rest : Forall (fun b => Z_of_byte b <> 10) (to_bytes s) ->
  readLine stop (to_bytes s ++ CRLF ++ rest) = Value (s, rest).
Proof.
  intros Hs. unfold readLine, CRLF. cbn [app]. change (byte_of_Z 13 :: byte_of_Z 10 :: rest) with ([byte_of_Z 13] ++ byte_of_Z 10 :: rest)%list.
  rewrite app_assoc, read_until_app; [|apply Forall_app_2; [done|by constructor]|done].
  by rewrite TrimSuffix_app, of_to_bytes.
Qed.

Lemma Itoa_no_newline z : Forall (fun b => Z_of_byte b <> 10) (to_bytes (Itoa z)).
Proof.
  apply Forall_forall. intros b Hb E. apply (Itoa_free_of z (byte_of_Z 10)); [by intros [? [=]]|done|].
  unfold free_of. by rewrite <- E, byte_of_Z_of_byte.
Qed.

Lemma read_size_Itoa z rest : int64_ok z -> read_size stop (to_bytes (Itoa z) ++ CRLF ++ rest) = Value (z, rest).
Proof.
  intros Hz. unfold read_size. rewrite readLine_CRLF by apply Itoa_no_newline. rewrite Value_bind. cbn [fst snd].
  by rewrite ParseInt_Itoa.
Qed.

(** A slice the process can hold. *)
Definition fits (arg : bytes) : Prop := Z.of_nat (length arg) + 2 <= max_alloc.

Lemma read_bulk_bulk arg rest : fits arg ->
  read_bulk stop (to_bytes (Itoa (Z.of_nat (length arg))) ++ CRLF ++ arg ++ CRLF ++ rest) = Value (data_reply arg, rest).
Proof.
  intros Ha. unfold fits, max_alloc in Ha.
  assert (int64_ok (Z.of_nat (length arg) + 2)) as Hk by (unfold int64_ok, min_int64, max_int64, two63; lia).
  unfold read_bulk. rewrite read_size_Itoa by (unfold int64_ok, min_int64, max_int64, two63 in *; lia).
  rewrite Value_bind. cbn [fst snd]. destruct (Z.ltb_spec (Z.of_nat (length arg)) 0); [lia|].
  rewrite wrap64_ok by done. unfold make_ok, max_alloc.
  destruct (Z.leb_spec 0 (Z.of_nat (length arg) + 2)), (Z.leb_spec ((Z.of_nat (length arg) + 2) * 1) (2 ^ 48)); try lia.
  cbn [andb negb]. unfold read_full. rewrite !length_app. change (length CRLF) with 2%nat.
  destruct (Z.leb_spec (Z.of_nat (length arg) + 2) (Z.of_nat (length arg + (2 + length rest)))); [|lia].
  rewrite Value_bind. cbn [fst snd]. rewrite Nat2Z.id.
  replace (Z.to_nat (Z.of_nat (length arg) + 2)) with (length (arg ++ CRLF)) by (rewrite length_app; change (length CRLF) with 2%nat; lia).
  rewrite app_assoc, take_app_length, drop_app_length, take_app_length. done.
Qed.

Lemma read_reply_bulk n arg rest : fits arg -> (0 < n)%nat ->
  read_reply stop n (bulk arg ++ rest) = Some (Value (data_reply arg, rest)).
Proof.
  intros Ha Hn. destruct n as [|n]; [lia|]. unfold bulk. cbn [app read_reply]. change (byte_is (byte_of_Z 36) 43) with false.
  change (byte_is (byte_of_Z 36) 45) with false. change (byte_is (byte_of_Z 36) 58) with false.
  change (byte_is (byte_of_Z 36) 36) with true. cbv iota. rewrite <- !app_assoc. by rewrite read_bulk_bulk.
Qed.

Lemma read_items_bulks n args rest : Forall fits args -> (length args + 1 < n)%nat ->
  read_items stop n (Z.of_nat (length args)) (concat (map bulk args) ++ rest) = Some (Value (map data_reply args, rest)).
Proof.
  intros Ha. revert n. induction Ha as [|a args Hf Ha IH]; intros [|n] Hn; try (cbn [length] in Hn; lia).
  - done.
  - cbn [length] in Hn. cbn [map concat]. rewrite <- app_assoc.
    cbn [read_items]. cbn [length]. destruct (Z.leb_spec (Z.of_nat (S (length args))) 0); [lia|].
    rewrite read_reply_bulk by (done || lia). replace (Z.of_nat (S (length args)) - 1) with (Z.of_nat (length args)) by lia.
    rewrite IH by lia. done.
Qed.

Lemma bulks_length args : (5 * length args <= length (concat (map bulk args)))%nat.
Proof.
  induction args as [|a args IH]; cbn [map concat length]; [done|]. rewrite length_app.
  assert (5 <= length (bulk a))%nat by (unfold bulk; cbn [length]; rewrite !length_app; change (length CRLF) with 2%nat; lia).
  lia.
Qed.

(** what [writeRESP] sends, [readRESP] reads back: any list of arguments, with any bytes in
    them, separators included, followed by anything, is read as the array of those arguments and
    leaves what follows. *)
Theorem writeRESP_readRESP args rest :
  Forall fits args -> Z.of_nat (length args) <= 2 ^ 42 ->
  readRESP stop (writeRESP args ++ rest) = Value (MkReply [] 0 (map data_reply args) false, rest).
Proof.
  intros Ha Hn. unfold readRESP, reply_fuel, writeRESP. cbn [app read_reply].
  change (byte_is (byte_of_Z 42) 43) with false. change (byte_is (byte_of_Z 42) 45) with false.
  change (byte_is (byte_of_Z 42) 58) with false. change (byte_is (byte_of_Z 42) 36) with false.
  change (byte_is (byte_of_Z 42) 42) with true. cbv iota. rewrite <- !app_assoc.
  rewrite read_size_Itoa by (unfold int64_ok, min_int64, max_int64, two63; lia).
  destruct (Z.ltb_spec (Z.of_nat (length args)) 0); [lia|]. unfold make_ok, sizeof_redisReply, max_alloc.
  destruct (Z.leb_spec 0 (Z.of_nat (length args))), (Z.leb_spec (Z.of_nat (length args) * 64) (2 ^ 48)); try lia.
  cbn [andb negb]. rewrite read_items_bulks; [done|done|]. pose proof (bulks_length args).
  cbn [length]. rewrite !length_app. lia.
Qed.
End request.

Lemma writeRESP_readRESP_witness :
  Forall fits [to_bytes "SET"; to_bytes "k"; CRLF] /\
  readRESP ConnEOF (writeRESP [to_bytes "SET"; to_bytes "k"; CRLF] ++ to_bytes "+OK")
  = Value (MkReply [] 0 (map data_reply [to_bytes "SET"; to_bytes "k"; CRLF]) false, to_bytes "+OK").
Proof.
  assert (Forall fits [to_bytes "SET"; to_bytes "k"; CRLF]) as H by (repeat constructor; done).
  split; [exact H|]. apply (writeRESP_readRESP ConnEOF); [exact H|done].
Defined.

(** ** Examples *)

Definition text (s : string) : bytes := flat_map (fun c => if byte_is c 124 then CRLF else [c]) (to_bytes s).

Example read_nested : readRESP ConnEOF (text "*3|:42|$-1|*1|+OK|rest")
  = Value (MkReply [] 0 [MkReply [] 42 [] false; nil_reply; MkReply [] 0 [data_reply (to_bytes "OK")] false] false, to_bytes "rest").
Proof. vm_compute. reflexivity. Qed.
Example read_errors : map (fun s => readRESP ConnEOF (text s)) ["-ERR x|"; "$5|abc"; ""; "$x|"]
  = [Fail (ErrorString "redis error: ERR x"); Fail io_ErrUnexpectedEOF; Fail io_EOF; Fail (Atoi_error "x")].
Proof. vm_compute. reflexivity. Qed.
(** A length line alone brings the process down. *)
Example read_absurd : readRESP ConnEOF (text "$9223372036854775807|") = Panic.
Proof. vm_compute. reflexivity. Qed.
