(* ===== verification/RealtimeStore.v ===== *)
(** * Latest values: keys and stores ([internal/realtime/keys.go], [store.go])

    The keys of the realtime store, the [Store] interface and what its clients rely on, the store in
    memory with expiry, and the store that falls back from a primary to a second one.  Values are
    byte slices in the code; the stores only copy them, so the model is parametric in their type.
    The clock and the error of the context are inputs of a call. *)

From Stdlib Require Import Ascii.
From S2P Require Import Prelude GoString GoTime GoError GoOutcome.

(** Decide a closed proposition by evaluation. *)
Ltac by_eval := apply (bool_decide_unpack _); vm_compute; exact I.

(** ** Keys *)

Definition KindMarket : string := "market".
Definition KindOpenInterest : string := "oi".
Definition KindFunding : string := "funding".
Definition KindOrderbookImbalance : string := "orderbook_imbalance".
Definition KindAggregate : string := "aggregate".

Definition normalizeExchange (value : string) : string := ToLower (TrimSpace value).
Definition normalizeSourceSymbol (value : string) : string := ToUpper (TrimSpace value).
Definition normalizeStream (value : string) : string := ReplaceAll (ToLower (TrimSpace value)) " " "_".

Definition latestExchangeSymbolKey (kind exchange sourceSymbol : string) : string :=
  "deriv:latest:" +:+ kind +:+ ":" +:+ normalizeExchange exchange +:+ ":" +:+ normalizeSourceSymbol sourceSymbol.
Definition LatestMarketKey : string -> string -> string := latestExchangeSymbolKey KindMarket.
Definition LatestOpenInterestKey : string -> string -> string := latestExchangeSymbolKey KindOpenInterest.
Definition LatestFundingKey : string -> string -> string := latestExchangeSymbolKey KindFunding.
Definition LatestOrderbookImbalanceKey : string -> string -> string := latestExchangeSymbolKey KindOrderbookImbalance.
Definition LatestAggregateKey (symbolID : Z) : string := "deriv:latest:aggregate:" +:+ Itoa symbolID.
Definition WSStateKey (exchange stream : string) : string :=
  "deriv:ws:state:" +:+ normalizeExchange exchange +:+ ":" +:+ normalizeStream stream.
Definition CollectorHealthKey (exchange dataType : string) : string :=
  "deriv:collector:health:" +:+ normalizeExchange exchange +:+ ":" +:+ normalizeStream dataType.

Definition LatestKey (kind exchange sourceSymbol : string) (symbolID : Z) : result error string :=
  let k := ToLower (TrimSpace kind) in
  if (k =? KindMarket)%string then Ok (LatestMarketKey exchange sourceSymbol) else
  if (k =? KindOpenInterest)%string then Ok (LatestOpenInterestKey exchange sourceSymbol) else
  if (k =? KindFunding)%string then Ok (LatestFundingKey exchange sourceSymbol) else
  if (k =? KindOrderbookImbalance)%string then Ok (LatestOrderbookImbalanceKey exchange sourceSymbol) else
  if (k =? KindAggregate)%string then
    if symbolID <=? 0 then Err (ErrorString "symbol_id is required for aggregate latest key") else Ok (LatestAggregateKey symbolID)
  else Err (ErrorString ("unsupported latest kind " +:+ Quote kind)).

(** ** Stores *)

(** The state of the context and the clock during a call. *)
Record Ctx := MkCtx { ctx_err : option error; ctx_now : Time }.

Class Store (S V : Type) := {
  SetRaw : Ctx -> string -> V -> Duration -> S -> outcome unit * S;
  GetRaw : Ctx -> string -> S -> outcome (option V) * S
}.

(** What a store holds, by time and key. *)
Definition View (V : Type) : Type := Time -> string -> option V.
Definition put_view {V} (now : Time) (key : string) (v : V) (life : option Duration) (w : View V) : View V := fun t k =>
  if bool_decide (k = key) then match life with Some d => if t <? now + d then Some v else None | None => Some v end
  else w t k.
(** Two views that no read at [now] or later tells apart. *)
Definition agree {V} (now : Time) (w w' : View V) : Prop := forall t k, now <= t -> w t k = w' t k.

#[export] Instance agree_equiv V now : Equivalence (@agree V now).
Proof.
  split; [intros ????; done|intros ??????; symmetry; auto|].
  intros u v w H1 H2 t k Ht. rewrite H1 by done. auto.
Qed.
#[export] Instance put_view_proper V now at_ key v life : Proper (agree now ==> agree now) (@put_view V at_ key v life).
Proof. intros w w' H t k Ht. unfold put_view. destruct (bool_decide _); [done|auto]. Qed.
Lemma agree_later V now now' (w w' : View V) : now <= now' -> agree now w w' -> agree now' w w'.
Proof. intros Hn H t k Ht. apply H. lia. Qed.

(** What clients rely on: a write that succeeds is seen, for its lifetime, by every later read and
    changes no other key; one that fails did happen or did not; a read returns what is held and
    changes nothing; what expired stays away. *)
Class StoreLaws (S V : Type) `{Store S V} := {
  live : S -> View V;
  life : Duration -> option Duration;
  life_forever ttl : ttl <= 0 -> life ttl = None;
  set_done ctx k v ttl s s' : 0 <= ctx_now ctx ->
    SetRaw ctx k v ttl s = (Value tt, s') -> agree (ctx_now ctx) (live s') (put_view (ctx_now ctx) k v (life ttl) (live s));
  set_failed ctx k v ttl s r s' : 0 <= ctx_now ctx ->
    SetRaw ctx k v ttl s = (r, s') -> r <> Value tt ->
    agree (ctx_now ctx) (live s') (live s) \/
    agree (ctx_now ctx) (live s') (put_view (ctx_now ctx) k v (life ttl) (live s));
  get_done ctx k s o s' : GetRaw ctx k s = (Value o, s') -> o = live s (ctx_now ctx) k;
  get_keeps ctx k s r s' : GetRaw ctx k s = (r, s') -> agree (ctx_now ctx) (live s') (live s)
}.

(** ** [MemoryStore] *)

Record memoryItem V := MkItem { value : V; expiresAt : Time }.
Arguments MkItem {V}. Arguments value {V}. Arguments expiresAt {V}.
Abbreviation MemoryStore V := (gmap string (memoryItem V)).
Definition NewMemoryStore {V} : MemoryStore V := ∅.

Definition Memory_SetRaw {V} (ctx : Ctx) (key : string) (v : V) (ttl : Duration) (s : MemoryStore V) : outcome unit * MemoryStore V :=
  match ctx_err ctx with
  | Some err => (Fail err, s)
  | None =>
    let item := MkItem v (if 0 <? ttl then Add (ctx_now ctx) ttl else 0) in
    (Value tt, <[key := item]> s)
  end.

Definition expired {V} (now : Time) (item : memoryItem V) : bool :=
  negb (IsZero (expiresAt item)) && negb (Before now (expiresAt item)).

Definition Memory_GetRaw {V} (ctx : Ctx) (key : string) (s : MemoryStore V) : outcome (option V) * MemoryStore V :=
  match ctx_err ctx with
  | Some err => (Fail err, s)
  | None =>
    match s !! key with
    | None => (Value None, s)
    | Some item => if expired (ctx_now ctx) item then (Value None, delete key s) else (Value (Some (value item)), s)
    end
  end.

#[export] Instance memory_store V : Store (MemoryStore V) V := {| SetRaw := Memory_SetRaw; GetRaw := Memory_GetRaw |}.

(** ** [FallbackStore] *)

Record FallbackStore (P F : Type) := MkFallback { Primary : option P; Fallback : option F }.
Arguments MkFallback {P F}. Arguments Primary {P F}. Arguments Fallback {P F}.

(** [NewFallbackStore]: a missing store leaves the other one alone. *)
Inductive chosen_store (P F : Type) := OnlyFallback (f : option F) | OnlyPrimary (p : P) | Both (s : FallbackStore P F).
Arguments OnlyFallback {P F}. Arguments OnlyPrimary {P F}. Arguments Both {P F}.
Definition NewFallbackStore {P F} (primary : option P) (fallback : option F) : chosen_store P F :=
  match primary, fallback with
  | None, f => OnlyFallback f
  | Some p, None => OnlyPrimary p
  | Some p, Some f => Both (MkFallback (Some p) (Some f))
  end.

Section fallback.
Context {P F V : Type} `{Store P V} `{Store F V}.

Definition Fallback_SetRaw (ctx : Ctx) (key : string) (v : V) (ttl : Duration) (s : FallbackStore P F)
    : outcome unit * FallbackStore P F :=
  let to_fallback primaryErr p :=
    match Fallback s with
    | None => (match primaryErr with Some e => Fail e | None => Value tt end, MkFallback p None)
    | Some f => let '(r, f') := SetRaw ctx key v ttl f in (r, MkFallback p (Some f'))
    end in
  match Primary s with
  | None => to_fallback None None
  | Some p =>
    match SetRaw ctx key v ttl p with
    | (Value _, p') => (Value tt, MkFallback (Some p') (Fallback s))
    | (Fail e, p') => to_fallback (Some e) (Some p')
    | (Panic, p') => (Panic, MkFallback (Some p') (Fallback s))
    end
  end.

Definition Fallback_GetRaw (ctx : Ctx) (key : string) (s : FallbackStore P F) : outcome (option V) * FallbackStore P F :=
  let from_fallback p :=
    match Fallback s with
    | None => (Value None, MkFallback p None)
    | Some f => let '(r, f') := GetRaw ctx key f in (r, MkFallback p (Some f'))
    end in
  match Primary s with
  | None => from_fallback None
  | Some p =>
    match GetRaw ctx key p with
    | (Value (Some v), p') => (Value (Some v), MkFallback (Some p') (Fallback s))
    | (Value None, p') | (Fail _, p') => from_fallback (Some p')
    | (Panic, p') => (Panic, MkFallback (Some p') (Fallback s))
    end
  end.

#[export] Instance fallback_store : Store (FallbackStore P F) V := {| SetRaw := Fallback_SetRaw; GetRaw := Fallback_GetRaw |}.
End fallback.

(** ** Keys are distinct *)

Definition colon : ascii := byte_of_Z 58.

Definition kinds : list string := [KindMarket; KindOpenInterest; KindFunding; KindOrderbookImbalance].

Lemma LatestKey_shape kind exchange sym id key : LatestKey kind exchange sym id = Ok key ->
  (ToLower (TrimSpace kind) ∈ kinds /\ key = latestExchangeSymbolKey (ToLower (TrimSpace kind)) exchange sym) \/
  (ToLower (TrimSpace kind) = KindAggregate /\ 0 < id /\ key = LatestAggregateKey id).
Proof.
  unfold LatestKey. generalize (ToLower (TrimSpace kind)). intros k. cbv zeta.
  do 4 (match goal with |- context [(k =? ?c)%string] => destruct (String.eqb_spec k c) as [->|] end;
        [intros [= <-]; left; split; [unfold kinds; set_solver|done]|]).
  destruct (String.eqb_spec k KindAggregate) as [->|]; [|done]. destruct (Z.leb_spec id 0); [done|].
  intros [= <-]. by right.
Qed.

Lemma kinds_free k : k ∈ kinds -> free_of colon k /\ k <> KindAggregate.
Proof.
  unfold kinds. rewrite !elem_of_cons, elem_of_nil. intros [->|[->|[->|[->|[]]]]]; (split; [|done]); by_eval.
Qed.

Lemma prefix_cancel (p a b : string) : p +:+ a = p +:+ b -> a = b.
Proof.
  intros E. apply (f_equal to_bytes) in E. rewrite !to_bytes_app in E. apply app_inv_head in E. by apply to_bytes_inj.
Qed.

(** two latest keys are equal exactly when they name the same value: the same kind and, for
    aggregates, the same symbol id, otherwise the same exchange and source symbol up to case and
    surrounding space, provided the exchange names have no colon. *)
Theorem LatestKey_injective k e s i key k' e' s' i' key' :
  free_of colon (normalizeExchange e) -> free_of colon (normalizeExchange e') -> int64_ok i -> int64_ok i' ->
  LatestKey k e s i = Ok key -> LatestKey k' e' s' i' = Ok key' ->
  key = key' <->
  ToLower (TrimSpace k) = ToLower (TrimSpace k') /\
  (if (ToLower (TrimSpace k) =? KindAggregate)%string then i = i'
   else normalizeExchange e = normalizeExchange e' /\ normalizeSourceSymbol s = normalizeSourceSymbol s').
Proof.
  intros He He' Hi Hi' H1 H2.
  assert (free_of colon KindAggregate) as Ha by (by_eval).
  destruct (LatestKey_shape _ _ _ _ _ H1) as [[Hk ->]|(Hk & _ & ->)],
           (LatestKey_shape _ _ _ _ _ H2) as [[Hk' ->]|(Hk' & _ & ->)];
    try rewrite Hk; try rewrite Hk'; unfold latestExchangeSymbolKey, LatestAggregateKey.
  - destruct (kinds_free _ Hk) as [Hf Hn], (kinds_free _ Hk') as [Hf' _].
    destruct (String.eqb_spec (ToLower (TrimSpace k)) KindAggregate); [done|]. split; [|by intros [-> [-> ->]]].
    intros E%prefix_cancel. apply split_first_string_inj in E as [Ek E]; [|done..].
    apply split_first_string_inj in E as [? ?]; done.
  - destruct (kinds_free _ Hk) as [Hf Hn]. split; [|by intros [? _]]. intros E.
    change ("deriv:latest:aggregate:" +:+ Itoa i') with ("deriv:latest:" +:+ KindAggregate +:+ String colon (Itoa i')) in E.
    apply prefix_cancel, split_first_string_inj in E as [? _]; (done || congruence).
  - destruct (kinds_free _ Hk') as [Hf Hn]. split; [|intros [? _]; congruence]. intros E.
    change ("deriv:latest:aggregate:" +:+ Itoa i) with ("deriv:latest:" +:+ KindAggregate +:+ String colon (Itoa i)) in E.
    apply prefix_cancel, split_first_string_inj in E as [? _]; (done || congruence).
  - rewrite String.eqb_refl. split; [|by intros [_ ->]]. intros E%prefix_cancel%Itoa_inj; done.
Qed.

Lemma LatestKey_injective_witness :
  LatestKey " Market " "Binance" "btcusdt" 0 = Ok "deriv:latest:market:binance:BTCUSDT" /\
  LatestKey "oi" "binance" "BTCUSDT" 0 = Ok "deriv:latest:oi:binance:BTCUSDT" /\
  "deriv:latest:market:binance:BTCUSDT" <> "deriv:latest:oi:binance:BTCUSDT".
Proof.
  split; [reflexivity|]. split; [reflexivity|]. intros E.
  pose proof (LatestKey_injective " Market " "Binance" "btcusdt" 0 _ "oi" "binance" "BTCUSDT" 0 _
    ltac:(by_eval) ltac:(by_eval) ltac:(by_eval)
    ltac:(by_eval) eq_refl eq_refl) as [H _].
  by destruct (H E) as [? _].
Defined.

Example colon_collision : LatestMarketKey "a:1" "2" = LatestMarketKey "a" "1:2".
Proof. reflexivity. Qed.

(** ** The memory store keeps the contract *)

Definition memory_live {V} (s : MemoryStore V) : View V := fun t k =>
  match s !! k with Some item => if expired t item then None else Some (value item) | None => None end.
Definition memory_life (ttl : Duration) : option Duration := if 0 <? ttl then Some ttl else None.

#[export] Instance memory_laws V : StoreLaws (MemoryStore V) V.
Proof.
  refine {| live := memory_live; life := memory_life |}.
  - intros ttl Ht. unfold memory_life. by destruct (Z.ltb_spec 0 ttl); [lia|].
  - intros [[e|] now] k v ttl s s' Hn; unfold SetRaw, memory_store, Memory_SetRaw in *; cbn [ctx_err ctx_now] in *; [done|]. intros [= <-] t k' Ht.
    unfold memory_live, put_view, memory_life. unfold Add.
    destruct (bool_decide_reflect (k' = k)) as [->|Hk]; [rewrite lookup_insert_eq|by rewrite lookup_insert_ne by congruence].
    unfold expired, IsZero, Before. cbn [expiresAt value]. destruct (Z.ltb_spec 0 ttl); [|done].
    destruct (Z.eqb_spec (now + ttl) 0), (Z.ltb_spec t (now + ttl)); (done || lia).
  - intros [[e|] now] k v ttl s r s' _; unfold SetRaw, memory_store, Memory_SetRaw in *; cbn [ctx_err ctx_now]; [|by intros [= <- _]].
    intros [= _ <-] _. by left.
  - intros [[e|] now] k s o s'; unfold GetRaw, memory_store, Memory_GetRaw, memory_live in *; cbn [ctx_err ctx_now]; [done|].
    destruct (s !! k) as [item|]; [destruct (expired now item)|]; by intros [= <- _].
  - intros [[e|] now] k s r s'; unfold GetRaw, memory_store, Memory_GetRaw in *; cbn [ctx_err ctx_now]; [by intros [= _ <-]|].
    destruct (s !! k) as [item|] eqn:E; [|by intros [= _ <-]]. destruct (expired now item) eqn:Ex; [|by intros [= _ <-]].
    intros [= _ <-] t k' Ht. unfold memory_live. destruct (decide (k' = k)) as [->|Hk].
    + rewrite lookup_delete_eq, E. unfold expired, Before in *. destruct (IsZero (expiresAt item)); [done|].
      destruct (Z.ltb_spec now (expiresAt item)); [done|]. destruct (Z.ltb_spec t (expiresAt item)); [lia|done].
    + by rewrite lookup_delete_ne by congruence.
Defined.

(** ** Nothing is invented, nothing outlives its time *)

(** An attempted write, and whether it is still due at [t] when a store grants it [life]. *)
Record written V := MkWritten { w_at : Time; w_key : string; w_value : V; w_ttl : Duration }.
Arguments MkWritten {V}. Arguments w_at {V}. Arguments w_key {V}. Arguments w_value {V}. Arguments w_ttl {V}.

Section history.
Context {V : Type}.
Implicit Types (hist : list (written V)) (w : View V).

Definition due (life : Duration -> option Duration) (t : Time) (x : written V) : Prop :=
  w_at x <= t /\ match life (w_ttl x) with Some d => t < w_at x + d | None => True end.

(** Every value of the view was written under its key and is still due. *)
Definition sound_view life (now : Time) hist w : Prop := forall t k v,
  now <= t -> w t k = Some v -> exists x, x ∈ hist /\ w_key x = k /\ w_value x = v /\ due life t x.

Lemma sound_agree life now hist w w' : agree now w w' -> sound_view life now hist w' -> sound_view life now hist w.
Proof. intros Ha Hs t k v Ht Hv. rewrite Ha in Hv by done. eauto. Qed.
Lemma sound_later life now now' hist w : now <= now' -> sound_view life now hist w -> sound_view life now' hist w.
Proof. intros Hn Hs t k v Ht. apply Hs. lia. Qed.
Lemma sound_more life now hist x w : sound_view life now hist w -> sound_view life now (x :: hist) w.
Proof. intros Hs t k v Ht Hv. destruct (Hs t k v Ht Hv) as (y & ? & ?). exists y. split; [by right|done]. Qed.
Lemma sound_put (life : Duration -> option Duration) now hist k v ttl w :
  sound_view life now hist w ->
  sound_view life now (MkWritten now k v ttl :: hist) (put_view now k v (life ttl) w).
Proof.
  intros Hs t k' v' Ht. unfold put_view. destruct (bool_decide_reflect (k' = k)) as [->|Hk].
  - intros Hv. exists (MkWritten now k v ttl). unfold due. cbn [w_at w_key w_value w_ttl].
    destruct (life ttl) as [d|]; [destruct (Z.ltb_spec t (now + d)); [|done]|]; injection Hv as <-;
      (split; [by left|]); done.
  - intros Hv. destruct (Hs t k' v' Ht Hv) as (y & ? & ?). exists y. split; [by right|done].
Qed.

Section store.
Context {S : Type} `{StoreLaws S V}.
Implicit Types s : S.

Definition sound (now : Time) hist s : Prop := sound_view (life (S:=S)) now hist (live s).

Lemma sound_wait now now' hist s : now <= now' -> sound now hist s -> sound now' hist s.
Proof. apply sound_later. Qed.
Lemma sound_extra now hist x s : sound now hist s -> sound now (x :: hist) s.
Proof. apply sound_more. Qed.

(** A write, whatever it returns, keeps a store sound, and so does a read. *)
Lemma set_sound ctx k v ttl s hist now :
  0 <= ctx_now ctx -> now <= ctx_now ctx -> sound now hist s ->
  sound (ctx_now ctx) (MkWritten (ctx_now ctx) k v ttl :: hist) (snd (SetRaw ctx k v ttl s)).
Proof.
  intros Hc Hn Hv. apply (sound_wait _ (ctx_now ctx)) in Hv; [|done].
  destruct (SetRaw ctx k v ttl s) as [r s'] eqn:Hs. cbn [snd].
  assert (agree (ctx_now ctx) (live s') (live s) \/
          agree (ctx_now ctx) (live s') (put_view (ctx_now ctx) k v (life ttl) (live s))) as [Ha|Ha].
  { destruct r as [[]|e|]; [right; by eapply set_done|eapply set_failed; done..]. }
  - eapply sound_agree; [exact Ha|]. by apply sound_more.
  - eapply sound_agree; [exact Ha|]. by apply sound_put.
Qed.
Lemma get_sound ctx k s hist now :
  now <= ctx_now ctx -> sound now hist s -> sound (ctx_now ctx) hist (snd (GetRaw ctx k s)).
Proof.
  intros Hn Hv. destruct (GetRaw ctx k s) as [r s'] eqn:Hg. cbn [snd]. eapply sound_agree; [by eapply get_keeps|].
  by eapply sound_wait.
Qed.
Lemma get_due ctx k s o s' hist v :
  GetRaw ctx k s = (Value o, s') -> o = Some v -> sound (ctx_now ctx) hist s ->
  exists x, x ∈ hist /\ w_key x = k /\ w_value x = v /\ due (life (S:=S)) (ctx_now ctx) x.
Proof. intros Hg -> Hs. apply get_done in Hg. eapply Hs; [|by symmetry]. done. Qed.
End store.
End history.

(** Calls on a store, one after the other. *)
Inductive call V := CSet (ctx : Ctx) (key : string) (v : V) (ttl : Duration) | CGet (ctx : Ctx) (key : string).
Arguments CSet {V}. Arguments CGet {V}.
Definition call_now {V} (c : call V) : Time := match c with CSet ctx _ _ _ | CGet ctx _ => ctx_now ctx end.
Definition run_call {S V} `{Store S V} (s : S) (c : call V) : S :=
  match c with CSet ctx k v ttl => snd (SetRaw ctx k v ttl s) | CGet ctx k => snd (GetRaw ctx k s) end.
Definition writes {V} (calls : list (call V)) : list (written V) :=
  omap (fun c => match c with CSet ctx k v ttl => Some (MkWritten (ctx_now ctx) k v ttl) | CGet _ _ => None end) calls.
(** The clock does not go back, and starts after [now]. *)
Fixpoint clocked {V} (now : Time) (calls : list (call V)) : Prop :=
  match calls with [] => True | c :: cs => now <= call_now c /\ clocked (call_now c) cs end.
Definition last_now {V} (now : Time) (calls : list (call V)) : Time := foldl (fun _ c => call_now c) now calls.

Lemma clocked_snoc {V} now (calls : list (call V)) c :
  clocked now (calls ++ [c]) -> clocked now calls /\ last_now now calls <= call_now c.
Proof.
  revert now. induction calls as [|d cs IH]; intros now; cbn; [by intros [? _]|].
  intros [H1 H2]. destruct (IH _ H2). by split.
Qed.

Section fallback_history.
Context {P F V : Type} `{LP : StoreLaws P V} `{LF : StoreLaws F V}.
(** The longer of the two lifetimes. *)
Definition either_life (t : Time) (x : written V) : Prop := due (life (S:=P)) t x \/ due (life (S:=F)) t x.

Definition sound_store (now : Time) (hist : list (written V)) (s : FallbackStore P F) : Prop :=
  from_option (sound now hist) True (Primary s) /\ from_option (sound now hist) True (Fallback s).

Lemma run_call_sound now hist (s : FallbackStore P F) c :
  0 <= now -> now <= call_now c -> sound_store now hist s ->
  sound_store (call_now c) (match c with CSet ctx k v ttl => MkWritten (ctx_now ctx) k v ttl :: hist | CGet _ _ => hist end)
    (run_call s c).
Proof.
  intros Hz Hn [Hp Hf]. destruct s as [p f]. cbn [Primary Fallback] in *.
  destruct c as [ctx k v ttl|ctx k]; cbn [call_now run_call SetRaw GetRaw fallback_store] in *.
  - unfold Fallback_SetRaw. cbn [Primary Fallback]. set (x := MkWritten (ctx_now ctx) k v ttl).
    assert (from_option (sound (ctx_now ctx) (x :: hist)) True f) as Hf2.
    { destruct f; [|done]. cbn [from_option] in *. apply sound_extra. by eapply sound_wait. }
    assert (forall f0, f = Some f0 -> sound (ctx_now ctx) (x :: hist) (snd (SetRaw ctx k v ttl f0))) as Hset.
    { intros f0 ->. eapply set_sound; [lia|exact Hn|exact Hf]. }
    destruct p as [p|].
    + cbn [from_option] in Hp. assert (sound (ctx_now ctx) (x :: hist) (snd (SetRaw ctx k v ttl p))) as Hp'.
      { eapply set_sound; [lia|exact Hn|exact Hp]. }
      destruct (SetRaw ctx k v ttl p) as [[u|e|] p']; [by split| |by split].
      destruct f as [f|]; [|by split]. specialize (Hset f eq_refl). by destruct (SetRaw ctx k v ttl f).
    + destruct f as [f|]; [|by split]. specialize (Hset f eq_refl). by destruct (SetRaw ctx k v ttl f).
  - unfold Fallback_GetRaw. cbn [Primary Fallback].
    assert (from_option (sound (ctx_now ctx) hist) True f) as Hf2.
    { destruct f; [|done]. cbn [from_option] in *. by eapply sound_wait. }
    assert (forall f0, f = Some f0 -> sound (ctx_now ctx) hist (snd (GetRaw ctx k f0))) as Hget.
    { intros f0 ->. eapply get_sound; [exact Hn|exact Hf]. }
    destruct p as [p|].
    + cbn [from_option] in Hp. assert (sound (ctx_now ctx) hist (snd (GetRaw ctx k p))) as Hp'.
      { eapply get_sound; [exact Hn|exact Hp]. }
      destruct (GetRaw ctx k p) as [[[v|]|e|] p']; [by split| | |by split];
        (destruct f as [f|]; [|by split]); specialize (Hget f eq_refl); by destruct (GetRaw ctx k f).
    + destruct f as [f|]; [|by split]. specialize (Hget f eq_refl). by destruct (GetRaw ctx k f).
Qed.

Lemma run_calls_sound calls now hist (s : FallbackStore P F) :
  0 <= now -> clocked now calls -> sound_store now hist s ->
  sound_store (last_now now calls) (rev (writes calls) ++ hist) (foldl run_call s calls) /\ 0 <= last_now now calls.
Proof.
  revert now hist s. induction calls as [|c calls IH]; intros now hist s Hz Hc Hs; [by split|].
  destruct Hc as [Hn Hc]. pose proof (run_call_sound _ _ _ _ Hz Hn Hs) as Hs'. cbn [foldl last_now].
  destruct (IH (call_now c) _ _ ltac:(lia) Hc Hs') as [H1 H2]. split; [|exact H2].
  destruct c as [ctx k v ttl|]; [|exact H1].
  change (writes (CSet ctx k v ttl :: calls)) with (MkWritten (ctx_now ctx) k v ttl :: writes calls). cbn [rev].
  by rewrite <- app_assoc.
Qed.

(** C40: whatever the two stores refuse and in whatever order, a value read through the fallback
    store was written under that key by an earlier call and its lifetime in one of the stores has
    not run out. *)
Theorem fallback_reads_are_due calls ctx k v (s : FallbackStore P F) s' :
  (forall t key, from_option (fun p => live p t key) None (Primary s) = None /\
                 from_option (fun f => live f t key) None (Fallback s) = None) ->
  clocked 0 (calls ++ [CGet ctx k]) ->
  GetRaw ctx k (foldl run_call s calls) = (Value (Some v), s') ->
  exists x, x ∈ writes calls /\ w_key x = k /\ w_value x = v /\ either_life (ctx_now ctx) x.
Proof.
  intros He [Hc1 Hc2]%clocked_snoc Hg. cbn [call_now] in Hc2.
  assert (sound_store 0 [] s) as Hs.
  { split; [destruct (Primary s) eqn:E|destruct (Fallback s) eqn:E]; cbn [from_option]; try done;
      intros t key w _ Hw; destruct (He t key) as [H1 H2]; rewrite ?E in H1, H2; cbn [from_option] in *; congruence. }
  destruct (run_calls_sound calls 0 [] s ltac:(done) Hc1 Hs) as [[Hp Hf] _]. rewrite app_nil_r in *.
  assert (forall x, x ∈ rev (writes calls) -> x ∈ writes calls) as Hrev by (intros x; by rewrite !list_elem_of_In, <- in_rev).
  destruct (foldl run_call s calls) as [p f]. cbn [Primary Fallback] in *.
  assert (forall f0 p0, f = Some f0 -> (let '(r, f') := GetRaw ctx k f0 in (r, MkFallback p0 (Some f'))) = (Value (Some v), s') ->
            exists x, x ∈ writes calls /\ w_key x = k /\ w_value x = v /\ either_life (ctx_now ctx) x) as Hfrom.
  { intros f0 p0 -> Hr. cbn [from_option] in Hf. destruct (GetRaw ctx k f0) as [r f'] eqn:E. injection Hr as -> _.
    destruct (get_due _ _ _ _ _ _ _ E eq_refl (sound_wait _ _ _ _ Hc2 Hf)) as (x & Hx & ? & ? & ?).
    exists x. split_and!; [auto|done|done|by right]. }
  cbn [GetRaw fallback_store] in Hg. unfold Fallback_GetRaw in Hg. cbn [Primary Fallback] in Hg.
  destruct p as [p|]; [|destruct f as [f|]; [|done]; eapply Hfrom; done].
  destruct (GetRaw ctx k p) as [[[u|]|e|] p'] eqn:E; [|destruct f as [f|]; [|done]; eapply Hfrom; done..|done].
  injection Hg as -> _. cbn [from_option] in Hp.
  destruct (get_due _ _ _ _ _ _ _ E eq_refl (sound_wait _ _ _ _ Hc2 Hp)) as (x & Hx & ? & ? & ?).
  exists x. split_and!; [auto|done|done|by left].
Qed.
End fallback_history.

(** ** With a primary that works the fallback is not used *)

Section transparent.
Context {P F V : Type} `{LP : StoreLaws P V} `{LF : StoreLaws F V}.

Definition succeeds {S} `{Store S V} (s : S) (c : call V) : Prop :=
  match c with
  | CSet ctx k v ttl => exists s', SetRaw ctx k v ttl s = (Value tt, s')
  | CGet ctx k => exists o s', GetRaw ctx k s = (Value o, s')
  end.
(** Every call of the sequence succeeds on this store alone. *)
Fixpoint works {S} `{Store S V} (s : S) (calls : list (call V)) : Prop :=
  match calls with [] => True | c :: cs => succeeds s c /\ works (run_call s c) cs end.

Definition empty_from {S} `{StoreLaws S V} (now : Time) (s : S) : Prop := forall t k, now <= t -> live s t k = None.

Lemma transparent_call now p (f : F) c : now <= call_now c -> succeeds (S:=P) p c -> empty_from now f ->
  exists f', run_call (MkFallback (Some p) (Some f)) c = MkFallback (Some (run_call p c)) (Some f') /\
             empty_from (call_now c) f'.
Proof.
  intros Hn Hs He. assert (empty_from (call_now c) f) as He' by (intros t k Ht; apply He; lia).
  destruct c as [ctx k v ttl|ctx k]; cbn [call_now run_call succeeds SetRaw GetRaw fallback_store] in *.
  - destruct Hs as [p' E]. unfold Fallback_SetRaw. cbn [Primary Fallback]. rewrite E. by exists f.
  - destruct Hs as (o & p' & E). unfold Fallback_GetRaw. cbn [Primary Fallback]. rewrite E. cbn [snd].
    destruct o as [v|]; [by exists f|]. destruct (GetRaw ctx k f) as [r f'] eqn:Ef. exists f'. split; [done|].
    intros t k' Ht. rewrite (get_keeps _ _ _ _ _ Ef) by done. by apply He'.
Qed.

Lemma transparent_calls calls now p (f : F) : clocked now calls -> works (S:=P) p calls -> empty_from now f ->
  exists f', foldl run_call (MkFallback (Some p) (Some f)) calls = MkFallback (Some (foldl run_call p calls)) (Some f') /\
             empty_from (last_now now calls) f'.
Proof.
  revert now p f. induction calls as [|c calls IH]; intros now p f; [intros; by exists f|].
  intros [Hn Hc] [Hs Hw] He. destruct (transparent_call _ _ _ _ Hn Hs He) as (f1 & E & He1). cbn [foldl]. rewrite E.
  by apply IH.
Qed.

(** as long as every call succeeds on the primary, the pair of stores is the primary: a value
    the primary has is returned, one it does not have is not found elsewhere, and nothing appears
    in the fallback. *)
Theorem fallback_transparent calls now p (f : F) ctx k o p' :
  clocked now (calls ++ [CGet ctx k]) -> works (S:=P) p calls -> empty_from now f ->
  GetRaw ctx k (foldl run_call p calls) = (Value o, p') ->
  exists r f', GetRaw ctx k (foldl run_call (MkFallback (Some p) (Some f)) calls) = (r, MkFallback (Some p') (Some f')) /\
    (forall o', r = Value o' -> o' = o) /\ (o <> None -> r = Value o) /\ empty_from (ctx_now ctx) f'.
Proof.
  intros [Hc Hn]%clocked_snoc Hw He Hg. destruct (transparent_calls _ _ _ _ Hc Hw He) as (f1 & E & He1). rewrite E.
  cbn [call_now] in Hn. assert (empty_from (ctx_now ctx) f1) as He2 by (intros t key Ht; apply He1; lia).
  cbn [GetRaw fallback_store]. unfold Fallback_GetRaw. cbn [Primary Fallback]. rewrite Hg. destruct o as [v|].
  - eexists _, _. split_and!; [done|by intros ? [=]|done|done].
  - destruct (GetRaw ctx k f1) as [r f2] eqn:Ef. eexists _, _. split_and!; [done| |done|].
    + intros o' ->. apply get_done in Ef as ->. by apply He2.
    + intros t key Ht. rewrite (get_keeps _ _ _ _ _ Ef) by done. by apply He2.
Qed.
End transparent.

(** ** Examples and witnesses *)

(** A store that fails the calls its schedule says, for the examples. *)
Definition flaky (S : Type) : Type := list bool * S.
#[export] Instance flaky_store S V `{Store S V} : Store (flaky S) V := {|
  SetRaw ctx k v ttl s := match s with
    | (true :: bs, m) => (Fail (ErrorString "primary down"), (bs, m))
    | (bs, m) => let '(r, m') := SetRaw ctx k v ttl m in (r, (tail bs, m'))
    end;
  GetRaw ctx k s := match s with
    | (true :: bs, m) => (Fail (ErrorString "primary down"), (bs, m))
    | (bs, m) => let '(r, m') := GetRaw ctx k m in (r, (tail bs, m'))
    end |}.

Definition at_ (s : Z) : Ctx := MkCtx None (Date 2026 5 25 + s * Second).
Definition demo_pair (schedule : list bool) : FallbackStore (flaky (MemoryStore string)) (MemoryStore string) :=
  MkFallback (Some (schedule, NewMemoryStore)) (Some NewMemoryStore).

(** A write that reached only the fallback is served again, in place of a newer value, once the
    primary fails or has let the newer value expire. *)
Example fallback_serves_old_value :
  let calls := [CSet (at_ 0) "k" "old" 0; CSet (at_ 1) "k" "new" Minute] in
  fst (GetRaw (at_ 2) "k" (foldl run_call (demo_pair [true; false; false]) calls)) = Value (Some "new") /\
  fst (GetRaw (at_ 2) "k" (foldl run_call (demo_pair [true; false; true]) calls)) = Value (Some "old") /\
  fst (GetRaw (at_ 61) "k" (foldl run_call (demo_pair [true; false; false]) calls)) = Value (Some "old").
Proof. vm_compute. done. Qed.

(** Without a fallback the error of the primary is not reported. *)
Example missing_fallback_hides_error :
  fst (GetRaw (at_ 0) "k" (MkFallback (Some ([true], NewMemoryStore)) None
                             : FallbackStore (flaky (MemoryStore string)) (MemoryStore string)))
  = Value None.
Proof. reflexivity. Qed.

Lemma fallback_reads_are_due_witness :
  let s : FallbackStore (MemoryStore string) (MemoryStore string) := MkFallback (Some ∅) (Some ∅) in
  fst (GetRaw (at_ 59) "k" (foldl run_call s [CSet (at_ 0) "k" "v" Minute])) = Value (Some "v") /\
  exists x, x ∈ writes [CSet (at_ 0) "k" "v" Minute] /\ w_key x = "k" /\ w_value x = "v" /\
            either_life (P:=MemoryStore string) (F:=MemoryStore string) (ctx_now (at_ 59)) x.
Proof.
  intros s. split; [reflexivity|]. eapply (fallback_reads_are_due _ (at_ 59) "k" "v" s).
  - intros t key. by split.
  - cbn [app clocked call_now]. unfold at_, ctx_now. vm_compute. done.
  - reflexivity.
Defined.

Lemma fallback_transparent_witness :
  let p : MemoryStore string := ∅ in
  works p [CSet (at_ 0) "k" "v" Minute] /\
  exists r f', GetRaw (at_ 59) "k" (foldl run_call (MkFallback (Some p) (Some (∅ : MemoryStore string))) [CSet (at_ 0) "k" "v" Minute])
    = (r, MkFallback (Some (foldl run_call p [CSet (at_ 0) "k" "v" Minute])) (Some f')) /\
    (forall o', r = Value o' -> o' = Some "v") /\ (Some "v" <> None -> r = Value (Some "v")) /\ empty_from (ctx_now (at_ 59)) f'.
Proof.
  intros p. assert (works p [CSet (at_ 0) "k" "v" Minute]) as Hw by (split; [by eexists|done]). split; [exact Hw|].
  apply (fallback_transparent _ 0 p (∅ : MemoryStore string) (at_ 59) "k" (Some "v")); [|exact Hw|done|reflexivity].
  cbn [app clocked call_now]. unfold at_, ctx_now. vm_compute. done.
Defined.
