(* ===== verification/RedisStore.v ===== *)
(** * The store in Redis ([internal/realtime/redis.go])

    [RedisStore]: one connection per command, with AUTH and SELECT first where they are configured,
    the lifetime rounded to seconds.  The network and the server are a parameter ([Network]): dialling,
    and what arrives on the connection after a request was written.  [RedisServer] states what the
    store relies on of a Redis server: SET, GET, AUTH and SELECT as documented, with connections that
    may break at any byte of a reply, and, when the server has a memory limit with an eviction policy
    (as [docker-compose.yml] and [ApplyMemoryPolicy] configure it), with keys that may be evicted at
    any command.  Deadlines appear as errors of the connection. *)

From Stdlib Require Import Ascii.
From S2P Require Import Prelude GoString GoTime GoFloat GoDuration GoError GoOutcome GoStrconv Resp RealtimeStore.

Record RedisOptions := MkRedisOptions {
  Addr : string; Password : string; DB : Z; MaxMemory : string; EvictionPolicy : string; Timeout : Duration }.

Class Network (N : Type) := {
  net_dial : Ctx -> RedisOptions -> N -> result error unit * N;
  net_write : Ctx -> bytes -> N -> result error bytes * N;
  net_end : Ctx -> N -> conn_end
}.

Record RedisStore (N : Type) := MkRedisStore { options : RedisOptions; net : N }.
Arguments MkRedisStore {N}. Arguments options {N}. Arguments net {N}.

Definition NewRedisStore {N} (o : RedisOptions) (n : N) : RedisStore N :=
  MkRedisStore (MkRedisOptions (Addr o) (Password o) (DB o) (MaxMemory o) (EvictionPolicy o)
                  (if Timeout o <=? 0 then 2 * Second else Timeout o)) n.

Section store.
Context {N : Type} `{Network N}.

(** Write a request and read one reply, with what is left in the buffer of the reader. *)
Definition roundtrip (ctx : Ctx) (args : list bytes) (buf : bytes) (n : N) : outcome (redisReply * bytes) * N :=
  match net_write ctx (writeRESP args) n with
  | (Err e, n') => (Fail e, n')
  | (Ok arrived, n') => (readRESP (net_end ctx n') (buf ++ arrived), n')
  end.

(** The requests of a new connection. *)
Definition preamble (o : RedisOptions) : list (list bytes) :=
  ((if (TrimSpace (Password o) =? "")%string then [] else [[to_bytes "AUTH"; to_bytes (Password o)]]) ++
   (if 0 <? DB o then [[to_bytes "SELECT"; to_bytes (Itoa (DB o))]] else []))%list.

Fixpoint conversation (ctx : Ctx) (reqs : list (list bytes)) (args : list bytes) (buf : bytes) (n : N) : outcome redisReply * N :=
  match reqs with
  | [] =>
    match roundtrip ctx args buf n with
    | (Value (reply, _), n') => (Value reply, n')
    | (Fail e, n') => (Fail e, n')
    | (Panic, n') => (Panic, n')
    end
  | req :: reqs =>
    match roundtrip ctx req buf n with
    | (Value (_, buf'), n') => conversation ctx reqs args buf' n'
    | (Fail e, n') => (Fail e, n')
    | (Panic, n') => (Panic, n')
    end
  end.

Definition command (ctx : Ctx) (args : list bytes) (s : RedisStore N) : outcome redisReply * RedisStore N :=
  let back n := MkRedisStore (options s) n in
  if (TrimSpace (Addr (options s)) =? "")%string then (Fail (ErrorString "redis addr is required"), s) else
  match net_dial ctx (options s) (net s) with
  | (Err e, n) => (Fail (WrapError "dial redis: " e ""), back n)
  | (Ok _, n) => let '(r, n') := conversation ctx (preamble (options s)) args [] n in (r, back n')
  end.

(** [int64(ttl.Round(time.Second).Seconds())], at least one. *)
Definition expire_seconds (ttl : Duration) : Z :=
  let seconds := f64_to_int64 (Seconds (Round ttl Second)) in if seconds <? 1 then 1 else seconds.

Definition set_args (key : string) (v : bytes) (ttl : Duration) : list bytes :=
  ([to_bytes "SET"; to_bytes key; v] ++
   (if 0 <? ttl then [to_bytes "EX"; to_bytes (Itoa (expire_seconds ttl))] else []))%list.

Definition Redis_SetRaw (ctx : Ctx) (key : string) (v : bytes) (ttl : Duration) (s : RedisStore N) : outcome unit * RedisStore N :=
  match command ctx (set_args key v ttl) s with
  | (Value _, s') => (Value tt, s')
  | (Fail e, s') => (Fail e, s')
  | (Panic, s') => (Panic, s')
  end.

Definition get_args (key : string) : list bytes := [to_bytes "GET"; to_bytes key].

Definition Redis_GetRaw (ctx : Ctx) (key : string) (s : RedisStore N) : outcome (option bytes) * RedisStore N :=
  match command ctx (get_args key) s with
  | (Value reply, s') => (Value (if rr_nil reply then None else Some (rr_data reply)), s')
  | (Fail e, s') => (Fail e, s')
  | (Panic, s') => (Panic, s')
  end.

(** [ApplyMemoryPolicy]: one CONFIG SET per option that is given. *)
Definition config_set (name v : string) : list bytes := [to_bytes "CONFIG"; to_bytes "SET"; to_bytes name; to_bytes v].
Definition ApplyMemoryPolicy (ctx : Ctx) (s : RedisStore N) : outcome unit * RedisStore N :=
  let policy s :=
    if (TrimSpace (EvictionPolicy (options s)) =? "")%string then (Value tt, s) else
    match command ctx (config_set "maxmemory-policy" (TrimSpace (EvictionPolicy (options s)))) s with
    | (Value _, s') => (Value tt, s')
    | (Fail e, s') => (Fail e, s')
    | (Panic, s') => (Panic, s')
    end in
  if (TrimSpace (MaxMemory (options s)) =? "")%string then policy s else
  match command ctx (config_set "maxmemory" (TrimSpace (MaxMemory (options s)))) s with
  | (Value _, s') => policy s'
  | (Fail e, s') => (Fail e, s')
  | (Panic, s') => (Panic, s')
  end.

#[export] Instance redis_store : Store (RedisStore N) bytes := {| SetRaw := Redis_SetRaw; GetRaw := Redis_GetRaw |}.
End store.

(** ** What a Redis server does *)

Definition OK_reply : bytes := (to_bytes "+OK" ++ CRLF)%list.
Definition value_reply (o : option bytes) : bytes :=
  match o with Some v => bulk v | None => (to_bytes "$-1" ++ CRLF)%list end.
(** A reply arrives up to some byte. *)
Definition arrives (full : bytes) (r : result error bytes) : Prop :=
  match r with Ok a => exists k, full = (a ++ k)%list | Err _ => True end.
(** Nothing arrives, or the start of an error reply. *)
Definition refused (r : result error bytes) : Prop :=
  match r with Ok a => a = [] \/ exists k, a = byte_of_Z 45 :: k | Err _ => True end.

Definition redis_life (ttl : Duration) : option Duration := if 0 <? ttl then Some (expire_seconds ttl * Second) else None.

(** What is left of the data [w] from [now] on: all of it or, on a server that evicts, any part. *)
Definition leaves {V} (evicting : bool) (now : Time) (v w : View V) : Prop :=
  forall k, (forall t, now <= t -> v t k = w t k) \/ (evicting = true /\ forall t, now <= t -> v t k = None).

(** The data a server holds in the database of the store, and the effect of the four commands on
    it: SET replaces a value and its lifetime and answers OK, or answers an error and changes
    nothing; GET answers what is held and changes nothing; the others change no data.  A server that
    evicts may drop keys with every command, before it answers. *)
Class RedisServer (evicting : bool) (N : Type) `{Network N} := {
  held : N -> View bytes;
  held_fits n t k v : held n t k = Some v -> fits v;
  srv_dial ctx o n : leaves evicting (ctx_now ctx) (held (snd (net_dial ctx o n))) (held n);
  srv_connect ctx o req n r n' : req ∈ preamble o -> net_write ctx (writeRESP req) n = (r, n') ->
    leaves evicting (ctx_now ctx) (held n') (held n) /\ (arrives OK_reply r \/ refused r);
  srv_set ctx k v ttl n r n' : 0 <= ctx_now ctx -> net_write ctx (writeRESP (set_args k v ttl)) n = (r, n') ->
    (leaves evicting (ctx_now ctx) (held n') (put_view (ctx_now ctx) k v (redis_life ttl) (held n)) /\ arrives OK_reply r) \/
    (leaves evicting (ctx_now ctx) (held n') (held n) /\ refused r);
  srv_get ctx k n r n' : net_write ctx (writeRESP (get_args k)) n = (r, n') ->
    leaves evicting (ctx_now ctx) (held n') (held n) /\ (arrives (value_reply (held n' (ctx_now ctx) k)) r \/ refused r)
}.

Section leaves.
Context {V : Type} (evicting : bool) (now : Time).

#[export] Instance leaves_refl : Reflexive (@leaves V evicting now).
Proof. intros v k. by left. Qed.
#[export] Instance leaves_trans : Transitive (@leaves V evicting now).
Proof.
  intros u v w H1 H2 k. destruct (H1 k) as [E1|?]; [|by right]. destruct (H2 k) as [E2|[He E2]].
  - left. intros t Ht. by rewrite E1, E2.
  - right. split; [done|]. intros t Ht. by rewrite E1, E2.
Qed.
Lemma leaves_put k v life (u w : View V) : leaves evicting now u w -> leaves evicting now (put_view now k v life u) (put_view now k v life w).
Proof.
  intros Hl k'. unfold put_view. destruct (bool_decide (k' = k)); [by left|]. destruct (Hl k'); [by left|by right].
Qed.
Lemma leaves_later now' (u w : View V) : now <= now' -> leaves evicting now u w -> leaves evicting now' u w.
Proof. intros Hn Hl k. destruct (Hl k) as [E|[He E]]; [left|right]; (try split; try done); intros t Ht; apply E; lia. Qed.
End leaves.

(** A server that does not evict leaves everything. *)
Lemma leaves_all {V} now (v w : View V) : leaves false now v w <-> agree now v w.
Proof.
  split; [intros Hl t k Ht; destruct (Hl k) as [E|[? _]]; [by apply E|done]|intros Ha k; left; intros t Ht; by apply Ha].
Qed.

(** ** The store keeps the contract of its clients *)

Lemma read_arrived stop full rep a k :
  readRESP stop full = Value (rep, []) -> full = (a ++ k)%list ->
  readRESP stop a = Value (rep, []) \/ exists e, readRESP stop a = Fail e.
Proof.
  intros Hf ->. pose proof (readRESP_extend stop a k) as Hx. rewrite Hf in Hx.
  destruct (readRESP stop a) as [[r rest]|e|]; [left|by right; exists e|done].
  cbn [extends] in Hx. injection Hx as -> Hr. symmetry in Hr. apply app_eq_nil in Hr as [-> _]. done.
Qed.

Lemma read_OK stop : readRESP stop OK_reply = Value (data_reply (to_bytes "OK"), []).
Proof. vm_compute. reflexivity. Qed.

Lemma read_value stop o : (forall v, o = Some v -> fits v) ->
  readRESP stop (value_reply o) = Value (match o with Some v => data_reply v | None => nil_reply end, []).
Proof.
  intros Ho. destruct o as [v|]; [|vm_compute; reflexivity]. unfold readRESP. cbn [value_reply].
  rewrite <- (app_nil_r (bulk v)), read_reply_bulk; [done|auto|]. unfold reply_fuel. lia.
Qed.

Section commands.
Context {evicting : bool} {N : Type} `{RedisServer evicting N}.

(** One request whose full reply is [rep], on a connection with an empty buffer. *)
Lemma roundtrip_reply ctx args n r n' full rep :
  net_write ctx (writeRESP args) n = (r, n') -> arrives full r \/ refused r ->
  (forall stop, readRESP stop full = Value (rep, [])) ->
  (roundtrip ctx args [] n = (Value (rep, []), n') /\ ~ refused r) \/ exists e, roundtrip ctx args [] n = (Fail e, n').
Proof.
  intros Hw Hr Hrep. unfold roundtrip. rewrite Hw. destruct r as [a|e]; [|right; by exists e]. cbn [app].
  assert (refused (Ok a) -> exists e, readRESP (net_end ctx n') a = Fail e) as Hrefused.
  { intros [->|[k ->]]; [by eexists|]. unfold readRESP, reply_fuel. cbn [read_reply].
    change (byte_is (byte_of_Z 45) 43) with false. change (byte_is (byte_of_Z 45) 45) with true. cbv iota.
    destruct (readLine _ k) eqn:E; [by eexists|by eexists|by apply readLine_no_panic in E]. }
  destruct Hr as [[k Hk]|Hr]; [|right; destruct (Hrefused Hr) as [e ->]; by exists e].
  destruct (read_arrived (net_end ctx n') full rep a k (Hrep _) Hk) as [E|[e ->]]; [|right; by exists e].
  left. rewrite E. split; [done|]. intros [e He]%Hrefused. congruence.
Qed.

(** The connection requests leave the data alone and an empty buffer, or end the command. *)
Lemma conversation_connects ctx o reqs args n :
  Forall (fun req => req ∈ preamble o) reqs ->
  exists n1, leaves evicting (ctx_now ctx) (held n1) (held n) /\
    (conversation ctx reqs args [] n = conversation ctx [] args [] n1 \/
     exists e, conversation ctx reqs args [] n = (Fail e, n1)).
Proof.
  intros Hr. revert n. induction Hr as [|req reqs Hq Hr IH]; intros n; [exists n; split; [done|by left]|].
  cbn [conversation]. destruct (net_write ctx (writeRESP req) n) as [r n'] eqn:Ew.
  destruct (srv_connect _ _ _ _ _ _ Hq Ew) as [Ha Hans].
  destruct (roundtrip_reply _ _ _ _ _ _ _ Ew Hans read_OK) as [[-> _]|[e ->]].
  - destruct (IH n') as (n1 & Ha1 & H1). exists n1. split; [by etrans|exact H1].
  - exists n'. split; [done|]. right. by exists e.
Qed.

Lemma command_reaches ctx args (s : RedisStore N) r s' : command ctx args s = (r, s') ->
  exists n1, leaves evicting (ctx_now ctx) (held n1) (held (net s)) /\
    ((exists e, r = Fail e) /\ net s' = n1 \/ conversation ctx [] args [] n1 = (r, net s')).
Proof.
  unfold command. destruct (_ =? _)%string; [intros [= <- <-]; exists (net s); split; [done|left; eauto]|].
  pose proof (srv_dial ctx (options s) (net s)) as Hd. destruct (net_dial ctx (options s) (net s)) as [[u|e] n]; cbn [snd] in Hd.
  - destruct (conversation_connects ctx (options s) (preamble (options s)) args n) as (n1 & Ha & Hc);
      [by apply Forall_forall|]. destruct (conversation ctx (preamble _) args [] n) as [r0 n2] eqn:E. intros [= <- <-].
    exists n1. split; [by etrans|]. destruct Hc as [Hc|[e Hc]]; [right; by rewrite <- Hc|left]. injection Hc as -> ->. eauto.
  - intros [= <- <-]. exists n. split; [done|]. left. eauto.
Qed.

Lemma set_reaches ctx k v ttl (s : RedisStore N) r s' : 0 <= ctx_now ctx -> Redis_SetRaw ctx k v ttl s = (r, s') ->
  leaves evicting (ctx_now ctx) (held (net s')) (put_view (ctx_now ctx) k v (redis_life ttl) (held (net s))) \/
  leaves evicting (ctx_now ctx) (held (net s')) (held (net s)) /\ r <> Value tt.
Proof.
  intros Hn. unfold Redis_SetRaw. destruct (command ctx (set_args k v ttl) s) as [r0 s0] eqn:E.
  destruct (command_reaches _ _ _ _ _ E) as (n1 & Ha & [[[e ->] <-]|Hc]); [intros [= <- <-]; by right|].
  cbn [conversation] in Hc. destruct (net_write ctx (writeRESP (set_args k v ttl)) n1) as [r1 n'] eqn:Ew.
  destruct (srv_set _ _ _ _ _ _ _ Hn Ew) as [[Hp Hans]|[Hp Href]].
  - destruct (roundtrip_reply _ _ _ _ _ _ _ Ew (or_introl Hans) read_OK) as [[Er _]|[e Er]]; rewrite Er in Hc;
      injection Hc as <- Hnet; intros [= <- <-]; left; rewrite <- Hnet; (etrans; [exact Hp|by apply leaves_put]).
  - destruct (roundtrip_reply _ _ _ _ _ _ _ Ew (or_intror Href) read_OK) as [[_ Hno]|[e Er]]; [done|]. rewrite Er in Hc.
    injection Hc as <- Hnet. intros [= <- <-]. right. rewrite <- Hnet. split; [by etrans|done].
Qed.

Lemma get_reaches ctx k (s : RedisStore N) r s' : Redis_GetRaw ctx k s = (r, s') ->
  leaves evicting (ctx_now ctx) (held (net s')) (held (net s)) /\ (r = Value (held (net s') (ctx_now ctx) k) \/ exists e, r = Fail e).
Proof.
  unfold Redis_GetRaw. destruct (command ctx (get_args k) s) as [r0 s0] eqn:E.
  destruct (command_reaches _ _ _ _ _ E) as (n1 & Ha & [[[e ->] <-]|Hc]); [intros [= <- <-]; eauto|].
  cbn [conversation] in Hc. destruct (net_write ctx (writeRESP (get_args k)) n1) as [r1 n'] eqn:Ew.
  destruct (srv_get _ _ _ _ _ Ew) as [Hp Hans].
  destruct (roundtrip_reply _ _ _ _ _ _ _ Ew Hans (fun stop => read_value stop _ (fun v Hv => held_fits _ _ _ _ Hv)))
    as [[Er _]|[e Er]]; rewrite Er in Hc; injection Hc as <- Hnet; intros [= <- <-]; rewrite <- Hnet; (split; [by etrans|]); [left|eauto].
  by destruct (held n' (ctx_now ctx) k).
Qed.
End commands.

(** A server that does not evict keeps the contract. *)
Section laws.
Context {N : Type} `{RedisServer false N}.

#[export] Instance redis_laws : StoreLaws (RedisStore N) bytes.
Proof.
  refine {| live s := held (net s); life := redis_life |}.
  - intros ttl Ht. unfold redis_life. by destruct (Z.ltb_spec 0 ttl); [lia|].
  - intros ctx k v ttl s s' Hn Hs. by destruct (set_reaches _ _ _ _ _ _ _ Hn Hs) as [?%leaves_all|[_ ?]].
  - intros ctx k v ttl s r s' Hn Hs _. destruct (set_reaches _ _ _ _ _ _ _ Hn Hs) as [?%leaves_all|[?%leaves_all _]]; auto.
  - intros ctx k s o s' Hg. destruct (get_reaches _ _ _ _ _ Hg) as [Ha%leaves_all [E|[e E]]]; [|congruence].
    rewrite (Ha _ k) in E by lia. congruence.
  - intros ctx k s r s' Hg. by destruct (get_reaches _ _ _ _ _ Hg) as [?%leaves_all _].
Defined.
End laws.

(** ** Lifetimes *)

Lemma expire_seconds_int64 ttl : int64_ok (expire_seconds ttl).
Proof.
  unfold expire_seconds. assert (int64_ok (f64_to_int64 (Seconds (Round ttl Second)))) as Hi.
  { unfold f64_to_int64. destruct (f64_trunc _) as [z|]; [|by_eval]. destruct (bool_decide_reflect (int64_ok z)); [done|by_eval]. }
  destruct (_ <? 1); [by_eval|done].
Qed.

(** The lifetime on the server: the nearest whole seconds, at least one. *)
Lemma expire_seconds_nearest ttl : 0 < ttl <= max_int64 - Second ->
  (Second / 2 <= ttl -> Z.abs (expire_seconds ttl * Second - ttl) <= Second / 2) /\
  (ttl < Second / 2 -> expire_seconds ttl * Second = Second).
Proof.
  intros Ht. destruct (Round_seconds ttl ltac:(lia)) as (n & E & Hn & Hb). unfold expire_seconds.
  rewrite E, Seconds_whole by done. change (Second / 2) with 500000000 in *. unfold Second in *.
  destruct (Z.ltb_spec n 1); lia.
Qed.

Section lifetime.
Context {evicting : bool} {N : Type} `{RedisServer evicting N}.

(** C39: the lifetime of a value in Redis, against a server that behaves as documented and may evict
    keys at any command.  A value stored with a lifetime expires after [expire_seconds] whole seconds,
    which is the lifetime to within half a second, or one second when the lifetime is shorter than
    half a second.  A later read answers that value or nothing, never anything else; nothing once it
    has expired; and the value as long as it has not, unless the server evicts.  No call panics,
    whatever part of a reply arrives. *)
Theorem redis_lifetime ctx ctx' k v ttl (s : RedisStore N) r1 s1 r2 s2 :
  0 <= ctx_now ctx <= ctx_now ctx' -> 0 < ttl <= max_int64 - Second ->
  SetRaw ctx k v ttl s = (r1, s1) -> GetRaw ctx' k s1 = (r2, s2) ->
  let life := expire_seconds ttl * Second in
  (Second / 2 <= ttl -> Z.abs (life - ttl) <= Second / 2) /\ (ttl < Second / 2 -> life = Second) /\
  r1 <> Panic /\ r2 <> Panic /\
  (r1 = Value tt -> forall o, r2 = Value o ->
   (o = Some v \/ o = None) /\
   (life <= ctx_now ctx' - ctx_now ctx -> o = None) /\
   (ctx_now ctx' - ctx_now ctx < life -> evicting = false -> o = Some v)).
Proof.
  intros Hn Ht Hs Hg. destruct (expire_seconds_nearest ttl Ht) as [Hb1 Hb2]. split; [exact Hb1|]. split; [exact Hb2|].
  assert (r1 <> Panic) as Hp1.
  { cbn [SetRaw redis_store] in Hs. unfold Redis_SetRaw in Hs. destruct (command ctx (set_args k v ttl) s) as [r0 s0] eqn:E.
    intros ->. destruct r0; try done. injection Hs as ->.
    destruct (command_reaches _ _ _ _ _ E) as (n1 & _ & [[[e ?] _]|Hc]); [done|]. cbn [conversation] in Hc.
    destruct (net_write ctx (writeRESP (set_args k v ttl)) n1) as [r n'] eqn:Ew.
    assert (arrives OK_reply r \/ refused r) as Hans by (destruct (srv_set _ _ _ _ _ _ _ (proj1 Hn) Ew) as [[_ ?]|[_ ?]]; auto).
    destruct (roundtrip_reply _ _ _ _ _ _ _ Ew Hans read_OK) as [[Er _]|[e Er]]; by rewrite Er in Hc. }
  split; [exact Hp1|]. pose proof (get_reaches _ _ _ _ _ Hg) as [Hleft Hr2].
  split; [by destruct Hr2 as [->|[e ->]]|].
  intros -> o ->. destruct Hr2 as [[= ->]|[e ?]]; [|done].
  destruct (set_reaches _ _ _ _ _ _ _ (proj1 Hn) Hs) as [Hset|[_ ?]]; [|done].
  apply (leaves_later _ _ (ctx_now ctx')) in Hset; [|lia]. pose proof (leaves_trans _ _ _ _ _ Hleft Hset k) as Hk.
  assert (put_view (ctx_now ctx) k v (redis_life ttl) (held (net s)) (ctx_now ctx') k
          = if ctx_now ctx' <? ctx_now ctx + expire_seconds ttl * Second then Some v else None) as E.
  { unfold put_view. rewrite bool_decide_eq_true_2 by done. unfold redis_life. by destruct (Z.ltb_spec 0 ttl); [|lia]. }
  destruct Hk as [Hk|[Hev Hk]]; rewrite Hk by lia; [rewrite E|].
  - destruct (Z.ltb_spec (ctx_now ctx') (ctx_now ctx + expire_seconds ttl * Second)); split_and!; (auto || lia || done).
  - split_and!; auto. intros _ Hno. congruence.
Qed.
End lifetime.

(** ** A server *)

#[export] Instance fits_dec v : Decision (fits v).
Proof. unfold fits. apply _. Defined.

(** A server in memory that reads requests with the same protocol, refusing those over a gibibyte. *)
Definition srv_view (n : MemoryStore bytes) : View bytes := fun t k =>
  match memory_live n t k with Some v => if bool_decide (fits v) then Some v else None | None => None end.

Definition err_reply : bytes := (to_bytes "-ERR" ++ CRLF)%list.
Definition execute (ctx : Ctx) (args : list bytes) (n : MemoryStore bytes) : bytes * MemoryStore bytes :=
  let put k v ttl := (OK_reply, <[of_bytes k := MkItem v (if 0 <? ttl then Add (ctx_now ctx) ttl else 0)]> n) in
  match args with
  | [c; k] =>
    if (of_bytes c =? "GET")%string then (value_reply (srv_view n (ctx_now ctx) (of_bytes k)), n) else
    if (of_bytes c =? "AUTH")%string || (of_bytes c =? "SELECT")%string then (OK_reply, n) else (err_reply, n)
  | [c; k; v] => if (of_bytes c =? "SET")%string then put k v 0 else (err_reply, n)
  | [c; k; v; ex; secs] =>
    match ParseInt (of_bytes secs) with
    | Some z => if (of_bytes c =? "SET")%string && (of_bytes ex =? "EX")%string && (0 <? z) then put k v (z * Second) else (err_reply, n)
    | None => (err_reply, n)
    end
  | _ => (err_reply, n)
  end.

#[export] Instance server_net : Network (MemoryStore bytes) := {|
  net_dial ctx o n := (Ok tt, n);
  net_write ctx req n :=
    if 2 ^ 30 <? Z.of_nat (length req) then (Ok err_reply, n) else
    match readRESP ConnEOF req with
    | Value (MkReply _ _ items _, []) => let '(a, n') := execute ctx (map rr_data items) n in (Ok a, n')
    | _ => (Ok err_reply, n)
    end;
  net_end ctx n := ConnEOF |}.

Lemma bulk_shorter args a : a ∈ args -> (length a <= length (concat (map bulk args)))%nat.
Proof.
  induction args as [|b args IH]; [by rewrite elem_of_nil|]. rewrite elem_of_cons. cbn [map concat]. rewrite length_app.
  intros [->|Ha]; [|specialize (IH Ha); lia].
  assert (length b <= length (bulk b))%nat by (unfold bulk; cbn [length]; rewrite !length_app; lia). lia.
Qed.

Lemma server_receives ctx args n r n' : (length args <= 5)%nat ->
  net_write ctx (writeRESP args) n = (r, n') ->
  (r = Ok err_reply /\ n' = n) \/ (Forall fits args /\ (let '(a, m) := execute ctx args n in (Ok a, m)) = (r, n')).
Proof.
  intros Hl. cbn [net_write server_net]. destruct (Z.ltb_spec (2 ^ 30) (Z.of_nat (length (writeRESP args)))).
  { intros [= <- <-]. by left. }
  assert (Forall fits args) as Hf.
  { apply Forall_forall. intros a Ha. apply bulk_shorter in Ha. unfold fits, max_alloc.
    assert (length (concat (map bulk args)) <= length (writeRESP args))%nat by (unfold writeRESP; cbn [length]; rewrite !length_app; lia).
    lia. }
  rewrite <- (app_nil_r (writeRESP args)), writeRESP_readRESP by (done || lia).
  rewrite map_map. rewrite (map_ext _ id), map_id by done. right. done.
Qed.

Lemma refused_err : refused (Ok err_reply).
Proof. right. by eexists. Qed.
Lemma arrives_all a : arrives a (Ok a).
Proof. exists []. by rewrite app_nil_r. Qed.

Lemma srv_put ctx k v d n : fits v -> 0 <= ctx_now ctx ->
  agree (ctx_now ctx) (srv_view (<[k := MkItem v (if 0 <? d then Add (ctx_now ctx) d else 0)]> n))
    (put_view (ctx_now ctx) k v (memory_life d) (srv_view n)).
Proof.
  intros Hv Hn t k' Ht. unfold srv_view, put_view.
  pose proof (set_done (MkCtx None (ctx_now ctx)) k v d n _ Hn eq_refl t k' Ht) as E. cbn [live memory_laws ctx_now] in E. rewrite E.
  unfold put_view. cbn [ctx_now life memory_laws]. destruct (bool_decide (k' = k)); [|done].
  destruct (memory_life d) as [x|]; [destruct (t <? ctx_now ctx + x); [|done]|]; by rewrite bool_decide_eq_true_2.
Qed.

#[export] Instance memory_server : RedisServer false (MemoryStore bytes).
Proof.
  refine {| held := srv_view |}.
  - intros n t k v. unfold srv_view. destruct (memory_live n t k) as [u|]; [|done]. destruct (bool_decide_reflect (fits u)) as [Hu|Hu]; [|done].
    intros [= <-]. exact Hu.
  - intros ctx o n. apply leaves_all. done.
  - intros ctx o req n r n' Hq Hw. rewrite leaves_all. assert (exists c a, req = [c; a] /\ (of_bytes c = "AUTH" \/ of_bytes c = "SELECT")) as (c & a & -> & Hc).
    { unfold preamble in Hq. apply elem_of_app in Hq as [Hq|Hq];
        [destruct (_ =? _)%string; [by apply elem_of_nil in Hq|] | destruct (0 <? DB o); [|by apply elem_of_nil in Hq]];
        apply list_elem_of_singleton in Hq as ->; eauto 10. }
    destruct (server_receives ctx [c; a] _ _ _ ltac:(cbn [length]; lia) Hw) as [[-> ->]|[_ E]]; [split; [done|right; apply refused_err]|].
    cbn [execute] in E. destruct Hc as [Hc|Hc]; rewrite Hc in E; cbn [String.eqb] in E; cbn in E; injection E as <- <-; (split; [done|]; left; apply arrives_all).
  - intros ctx k v ttl n r n' Hn Hw. rewrite !leaves_all.
    assert (length (set_args k v ttl) <= 5)%nat as Hl by (unfold set_args; destruct (0 <? ttl); cbn; lia).
    destruct (server_receives ctx _ _ _ _ Hl Hw) as [[-> ->]|[Hf E]]; [right; split; [done|apply refused_err]|]. left.
    unfold set_args, redis_life in *. destruct (0 <? ttl) eqn:Et; cbn [app execute] in *.
    + rewrite !of_to_bytes, ParseInt_Itoa in E by apply expire_seconds_int64.
      assert (0 < expire_seconds ttl) by (unfold expire_seconds; destruct (Z.ltb_spec (f64_to_int64 (Seconds (Round ttl Second))) 1); lia).
      destruct (Z.ltb_spec 0 (expire_seconds ttl)); [|lia]. cbn [String.eqb andb] in E. cbn in E.
      injection E as <- <-. split; [|apply arrives_all].
      replace (Some (expire_seconds ttl * Second)) with (memory_life (expire_seconds ttl * Second)); [apply srv_put; [|done]|].
      * rewrite !Forall_cons in Hf. tauto.
      * unfold memory_life. destruct (Z.ltb_spec 0 (expire_seconds ttl * Second)); [done|unfold Second in *; lia].
    + rewrite !of_to_bytes in E. cbn in E. injection E as <- <-. split; [|apply arrives_all].
      change (@None Duration) with (memory_life 0). apply (srv_put ctx k v 0); [|done]. rewrite !Forall_cons in Hf. tauto.
  - intros ctx k n r n' Hw. rewrite leaves_all. destruct (server_receives ctx (get_args k) _ _ _ ltac:(cbn [get_args length]; lia) Hw) as [[-> ->]|[_ E]];
      [split; [done|right; apply refused_err]|].
    cbn [execute get_args] in E. rewrite !of_to_bytes in E. cbn in E. injection E as <- <-. split; [done|].
    left. apply arrives_all.
Defined.

(** A server short of memory: before a command it drops everything when it holds more than one key. *)
Record Crowded := MkCrowded { kept : MemoryStore bytes }.
Definition evict (m : MemoryStore bytes) : MemoryStore bytes := if (1 <? size m)%nat then ∅ else m.

#[export] Instance crowded_net : Network Crowded := {|
  net_dial ctx o n := (Ok tt, n);
  net_write ctx req n := let '(r, m) := net_write ctx req (evict (kept n)) in (r, MkCrowded m);
  net_end ctx n := ConnEOF |}.

Lemma evict_leaves now m : leaves true now (srv_view (evict m)) (srv_view m).
Proof.
  intros k. unfold evict. destruct (1 <? size m)%nat; [right|by left]. split; [done|]. intros t _.
  unfold srv_view, memory_live. by rewrite lookup_empty.
Qed.
Lemma evict_then now v m w : leaves false now v w -> leaves true now w (srv_view m) -> leaves true now v (srv_view m).
Proof. intros Hv Hw. etrans; [|exact Hw]. intros k. destruct (Hv k) as [Hk|[? _]]; [left; exact Hk|done]. Qed.

#[export] Instance crowded_server : RedisServer true Crowded.
Proof.
  refine {| held n := srv_view (kept n) |}.
  - intros n. exact (held_fits (RedisServer:=memory_server) (kept n)).
  - intros ctx o n. reflexivity.
  - intros ctx o req n r n' Hq Hw. cbn [net_write crowded_net] in Hw.
    destruct (net_write (Network:=server_net) ctx (writeRESP req) (evict (kept n))) as [r0 m] eqn:E. injection Hw as <- <-.
    destruct (srv_connect (RedisServer:=memory_server) ctx o req _ _ _ Hq E) as [Hl Hr]. split; [|exact Hr].
    exact (evict_then _ _ _ _ Hl (evict_leaves _ _)).
  - intros ctx k v ttl n r n' Hn Hw. cbn [net_write crowded_net] in Hw.
    destruct (net_write (Network:=server_net) ctx (writeRESP (set_args k v ttl)) (evict (kept n))) as [r0 m] eqn:E. injection Hw as <- <-.
    destruct (srv_set (RedisServer:=memory_server) ctx k v ttl _ _ _ Hn E) as [[Hl Hr]|[Hl Hr]]; [left|right]; (split; [|exact Hr]).
    + etrans; [|apply leaves_put, evict_leaves]. intros k'. destruct (Hl k') as [Hk|[? _]]; [left; exact Hk|done].
    + exact (evict_then _ _ _ _ Hl (evict_leaves _ _)).
  - intros ctx k n r n' Hw. cbn [net_write crowded_net] in Hw.
    destruct (net_write (Network:=server_net) ctx (writeRESP (get_args k)) (evict (kept n))) as [r0 m] eqn:E. injection Hw as <- <-.
    destruct (srv_get (RedisServer:=memory_server) ctx k _ _ _ E) as [Hl Hr]. split; [|exact Hr].
    exact (evict_then _ _ _ _ Hl (evict_leaves _ _)).
Defined.

(** ** Examples and witnesses *)

Definition demo_redis : RedisStore (MemoryStore bytes) :=
  NewRedisStore (MkRedisOptions "localhost:6379" "secret" 2 "" "" 0) ∅.

Example redis_set_get :
  let s := snd (SetRaw (at_ 0) "k" (to_bytes "v") (1400 * Millisecond) demo_redis) in
  fst (SetRaw (at_ 0) "k" (to_bytes "v") (1400 * Millisecond) demo_redis) = Value tt /\
  fst (GetRaw (at_ 0) "k" s) = Value (Some (to_bytes "v")) /\ fst (GetRaw (at_ 1) "k" s) = Value None /\
  fst (GetRaw (at_ 0) "other" s) = Value None.
Proof. vm_compute. done. Qed.
Example redis_requests : writeRESP (set_args "k" (to_bytes "v") (400 * Millisecond)) = text "*5|$3|SET|$1|k|$1|v|$2|EX|$1|1|".
Proof. vm_compute. reflexivity. Qed.
Example redis_memory_policy :
  fst (ApplyMemoryPolicy (at_ 0) demo_redis) = Value tt /\
  fst (ApplyMemoryPolicy (at_ 0) (NewRedisStore (MkRedisOptions "localhost:6379" "" 0 " 64mb " "allkeys-lru" 0) (∅ : MemoryStore bytes)))
  = Fail (ErrorString "redis error: ERR").
Proof. vm_compute. done. Qed.

Definition demo_crowded : RedisStore Crowded :=
  NewRedisStore (MkRedisOptions "localhost:6379" "" 0 "" "" 0) (MkCrowded ∅).

(** The same write on both servers; on the one short of memory the key is gone after another write. *)
Lemma redis_lifetime_witness :
  let s1 := snd (SetRaw (at_ 0) "k" (to_bytes "v") Minute demo_redis) in
  fst (GetRaw (at_ 59) "k" s1) = Value (Some (to_bytes "v")) /\ fst (GetRaw (at_ 60) "k" s1) = Value None /\
  let c0 := snd (SetRaw (at_ 0) "a" (to_bytes "x") 0 (snd (SetRaw (at_ 0) "b" (to_bytes "y") 0 demo_crowded))) in
  let c1 := snd (SetRaw (at_ 0) "k" (to_bytes "v") Minute c0) in
  let c2 := snd (SetRaw (at_ 1) "other" (to_bytes "w") Minute c1) in
  fst (GetRaw (at_ 1) "k" c1) = Value (Some (to_bytes "v")) /\ fst (GetRaw (at_ 2) "k" c2) = Value None /\
  forall o, fst (GetRaw (at_ 5) "k" c1) = Value o -> o = Some (to_bytes "v") \/ o = None.
Proof.
  intros s1.
  destruct (redis_lifetime (at_ 0) (at_ 60) "k" (to_bytes "v") Minute demo_redis
    (fst (SetRaw (at_ 0) "k" (to_bytes "v") Minute demo_redis)) s1 (fst (GetRaw (at_ 60) "k" s1)) (snd (GetRaw (at_ 60) "k" s1)))
    as (_ & _ & _ & _ & H1); [vm_compute; split; discriminate|vm_compute; split; [reflexivity|discriminate]|apply surjective_pairing..|].
  split; [vm_compute; reflexivity|]. split.
  { destruct (fst (GetRaw (at_ 60) "k" s1)) as [o|e|] eqn:E; [|exfalso; revert E; vm_compute; discriminate..].
    f_equal. apply (H1 ltac:(vm_compute; reflexivity) o eq_refl). vm_compute. discriminate. }
  intros c0 c1 c2. split; [vm_compute; reflexivity|]. split; [vm_compute; reflexivity|].
  destruct (redis_lifetime (at_ 0) (at_ 5) "k" (to_bytes "v") Minute c0
    (fst (SetRaw (at_ 0) "k" (to_bytes "v") Minute c0)) c1 (fst (GetRaw (at_ 5) "k" c1)) (snd (GetRaw (at_ 5) "k" c1)))
    as (_ & _ & _ & _ & H2); [vm_compute; split; discriminate|vm_compute; split; [reflexivity|discriminate]|apply surjective_pairing..|].
  intros o Ho. exact (proj1 (H2 ltac:(vm_compute; reflexivity) o Ho)).
Defined.
