(* ===== verification/RealtimeEvents.v ===== *)
(** * Latest events ([internal/realtime/events.go], [fallback.go], [SetJSON] and [GetJSON])

    Events as JSON in a store: the writer with its defaults, the writer of normalised results, and
    the resolver that serves a stored event while it is fresh and asks the REST fallback otherwise.
    A store of JSON texts is used through [JsonText]; texts are represented by their values where
    only the value matters.  The clock does not advance within a call. *)

From Stdlib Require Import Ascii.
From S2P Require Import Prelude GoString GoTime GoFloat GoError GoOutcome GoJson GoJsonText GoTimeText SchedulerModels Normalizers RealtimeStore.

(** ** JSON texts in a store *)

Class JsonText (V : Type) := {
  json_text : json -> V;
  text_json : V -> RawMessage;
  text_json_text v : text_json (json_text v) = RawJson v
}.
#[export] Instance raw_text : JsonText RawMessage := {| json_text := RawJson; text_json := id; text_json_text _ := eq_refl |}.

Definition marshal_error : error := ErrorString "json: unsupported value".

Section json_store.
Context {S V : Type} `{Store S V} `{JsonText V}.

(** [SetJSON]; [value] is what [json.Marshal] makes of the argument. *)
Definition SetJSON (ctx : Ctx) (key : string) (value : option json) (ttl : Duration) (s : S) : outcome unit * S :=
  match value with
  | None => (Fail marshal_error, s)
  | Some v => SetRaw ctx key (json_text v) ttl s
  end.

(** [GetJSON]: nothing found, or the value decoded into a fresh target. *)
Definition GetJSON {A} (ctx : Ctx) (dec : json -> option A) (key : string) (s : S) : outcome (option A) * S :=
  match GetRaw ctx key s with
  | (Value None, s') => (Value None, s')
  | (Value (Some raw), s') =>
    (match Unmarshal dec (text_json raw) with Some a => Value (Some a) | None => Fail json_error end, s')
  | (Fail e, s') => (Fail e, s')
  | (Panic, s') => (Panic, s')
  end.
End json_store.

(** ** Structs as objects *)

Definition members (l : list (option (list (string * json)))) : option json := (fun m => JObject (concat m)) <$> all_some l.
Definition m_str (name s : string) : option (list (string * json)) := Some [(name, JString s)].
Definition m_str_omit (name s : string) : option (list (string * json)) := if (s =? "")%string then Some [] else m_str name s.
Definition m_int (name : string) (z : Z) : option (list (string * json)) := Some [(name, JInt z)].
Definition m_int_omit (name : string) (z : Z) : option (list (string * json)) := if z =? 0 then Some [] else m_int name z.
Definition m_time (name : string) (t : Time) : option (list (string * json)) := (fun j => [(name, j)]) <$> marshal_time t.
Definition m_float (name : string) (f : float64) : option (list (string * json)) := (fun j => [(name, j)]) <$> marshal_float f.
Definition m_float_omit (name : string) (f : option float64) : option (list (string * json)) :=
  match f with None => Some [] | Some f => m_float name f end.
Definition marshal_raw (r : RawMessage) : option json :=
  match r with RawEmpty => Some JNull | RawInvalid _ => None | RawJson v => Some v end.
Definition m_raw (name : string) (r : RawMessage) : option (list (string * json)) := (fun j => [(name, j)]) <$> marshal_raw r.
Definition m_raw_omit (name : string) (r : RawMessage) : option (list (string * json)) :=
  if raw_is_empty r then Some [] else m_raw name r.

(** ** [LatestEvent] *)

Record LatestEvent := MkEvent {
  ev_Kind : string; ev_Exchange : string; ev_SourceSymbol : string; ev_SymbolID : Z;
  ev_EventTime : Time; ev_ReceivedAt : Time; ev_Payload : RawMessage }.

Definition Key (e : LatestEvent) : result error string := LatestKey (ev_Kind e) (ev_Exchange e) (ev_SourceSymbol e) (ev_SymbolID e).

Definition enc_event (e : LatestEvent) : option json :=
  members [m_str "kind" (ev_Kind e); m_str_omit "exchange" (ev_Exchange e); m_str_omit "source_symbol" (ev_SourceSymbol e);
           m_int_omit "symbol_id" (ev_SymbolID e); m_time "event_time" (ev_EventTime e);
           m_time "received_at" (ev_ReceivedAt e); m_raw "payload" (ev_Payload e)].

Definition dec_event (v : json) : option LatestEvent :=
  kind ← str_field "kind" v; exchange ← str_field "exchange" v; sym ← str_field "source_symbol" v;
  id ← int_field "symbol_id" v; et ← member_of 0 dec_time "event_time" v; ra ← member_of 0 dec_time "received_at" v;
  payload ← raw_field "payload" v;
  mret (MkEvent kind exchange sym id et ra payload).

(** ** [LatestWriter] *)

Record LatestWriter := MkWriter { lw_TTL : Duration }.

(** The event with the defaults of [Write]. *)
Definition with_defaults (now : Time) (e : LatestEvent) : LatestEvent :=
  MkEvent (ev_Kind e) (ev_Exchange e) (ev_SourceSymbol e) (ev_SymbolID e)
    (if IsZero (ev_EventTime e) then now else ev_EventTime e) (if IsZero (ev_ReceivedAt e) then now else ev_ReceivedAt e)
    (if raw_is_empty (ev_Payload e) then RawJson (JObject []) else ev_Payload e).

Section writer.
Context {S V : Type} `{Store S V} `{JsonText V}.

(** A store the writer was not given is left alone. *)
Definition on_store (f : S -> outcome unit * S) (s : option S) : outcome unit * option S :=
  match s with None => (Value tt, None) | Some s => let '(r, s') := f s in (r, Some s') end.

Definition Write (w : LatestWriter) (ctx : Ctx) (event : LatestEvent) : option S -> outcome unit * option S :=
  on_store (fun s =>
    let event := with_defaults (ctx_now ctx) event in
    match Key event with
    | Err e => (Fail e, s)
    | Ok key => SetJSON ctx key (enc_event event) (lw_TTL w) s
    end).

Definition WriteCollectorHealth (w : LatestWriter) (ctx : Ctx) (exchange dataType status : string) (details : list (string * any))
    : option S -> outcome unit * option S :=
  on_store (SetJSON ctx (CollectorHealthKey exchange dataType)
    (t ← marshal_time (ctx_now ctx); d ← marshal_any (AMap details);
     mret (json_map [("exchange", JString (normalizeExchange exchange)); ("data_type", JString (normalizeStream dataType));
                     ("status", JString status); ("observed_at", t); ("details", d)])) (lw_TTL w)).

(** ** [NormalizedWriter] *)

Definition enc_meta (m : SourceMeta) : list (option (list (string * json))) :=
  [m_int "symbol_id" (src_SymbolID m); m_str "exchange" (src_Exchange m); m_str "source_symbol" (src_SourceSymbol m);
   m_int_omit "source_endpoint_id" (src_SourceEndpointID m); m_raw_omit "raw_data" (src_RawData m)].

Definition enc_snapshot (x : NormalizedMarketSnapshot) : option json :=
  members (enc_meta (ms_Meta x) ++
    [m_time "snapshot_time" (ms_SnapshotTime x); m_float_omit "last_price" (ms_LastPrice x); m_float_omit "mark_price" (ms_MarkPrice x);
     m_float_omit "index_price" (ms_IndexPrice x); m_float_omit "bid_price" (ms_BidPrice x); m_float_omit "ask_price" (ms_AskPrice x);
     m_float_omit "volume_24h" (ms_Volume24h x); m_float_omit "quote_volume_24h" (ms_QuoteVolume24h x);
     m_float_omit "price_change_percent_24h" (ms_PriceChangePercent24h x); m_float_omit "open_interest" (ms_OpenInterest x);
     m_float_omit "funding_rate" (ms_FundingRate x)]).

Definition enc_open_interest (x : NormalizedOpenInterest) : option json :=
  members (enc_meta (oi_Meta x) ++
    [m_time "snapshot_time" (oi_SnapshotTime x); m_str_omit "period" (oi_Period x); m_float "open_interest" (oi_OpenInterest x);
     m_float_omit "open_interest_value" (oi_OpenInterestValue x)]).

Definition enc_funding (x : NormalizedFundingSnapshot) : option json :=
  members (enc_meta (fs_Meta x) ++
    [m_time "snapshot_time" (fs_SnapshotTime x); m_float "funding_rate" (fs_FundingRate x);
     m_time "next_funding_time" (fs_NextFundingTime x); m_float_omit "mark_price" (fs_MarkPrice x);
     m_float_omit "index_price" (fs_IndexPrice x)]).

Definition enc_orderbook (x : NormalizedOrderbookImbalance) : option json :=
  members (enc_meta (ob_Meta x) ++
    [m_time "snapshot_time" (ob_SnapshotTime x); m_int "depth_levels" (ob_DepthLevels x); m_float_omit "mid_price" (ob_MidPrice x);
     m_float_omit "spread_bps" (ob_SpreadBPS x); m_float_omit "spread_percent" (ob_SpreadPercent x);
     m_float_omit "bid_notional" (ob_BidNotional x); m_float_omit "ask_notional" (ob_AskNotional x);
     m_float_omit "bid_depth_usd" (ob_BidDepthUSD x); m_float_omit "ask_depth_usd" (ob_AskDepthUSD x);
     m_float_omit "bid_depth_1pct_usd" (ob_BidDepth1PctUSD x); m_float_omit "ask_depth_1pct_usd" (ob_AskDepth1PctUSD x);
     m_float_omit "bid_depth_2pct_usd" (ob_BidDepth2PctUSD x); m_float_omit "ask_depth_2pct_usd" (ob_AskDepth2PctUSD x);
     m_float_omit "bid_depth_5pct_usd" (ob_BidDepth5PctUSD x); m_float_omit "ask_depth_5pct_usd" (ob_AskDepth5PctUSD x);
     m_float_omit "imbalance_ratio" (ob_ImbalanceRatio x); m_float_omit "imbalance_percent" (ob_ImbalancePercent x)]).

Definition writePayload (w : LatestWriter) (ctx : Ctx) (kind : string) (m : SourceMeta) (eventTime : Time) (payload : option json)
    (s : option S) : outcome unit * option S :=
  match payload with
  | None => (Fail (WrapError "marshal realtime payload: " marshal_error ""), s)
  | Some raw => Write w ctx (MkEvent kind (src_Exchange m) (src_SourceSymbol m) (src_SymbolID m) eventTime 0 (RawJson raw)) s
  end.

(** Steps in order, up to the first that fails. *)
Fixpoint in_order (steps : list (option S -> outcome unit * option S)) (s : option S) : outcome unit * option S :=
  match steps with
  | [] => (Value tt, s)
  | f :: fs => match f s with (Value _, s') => in_order fs s' | (r, s') => (r, s') end
  end.

Definition snapshot_steps (w : LatestWriter) (ctx : Ctx) (x : NormalizedMarketSnapshot) : list (option S -> outcome unit * option S) :=
  let m := ms_Meta x in let t := ms_SnapshotTime x in
  ([writePayload w ctx KindMarket m t (enc_snapshot x)] ++
   (match ms_OpenInterest x with
    | Some v => [writePayload w ctx KindOpenInterest m t (enc_open_interest (MkOpenInterest m t "" v None))] | None => [] end) ++
   (match ms_FundingRate x with
    | Some v => [writePayload w ctx KindFunding m t (enc_funding (MkFundingSnapshot m t v 0 (ms_MarkPrice x) (ms_IndexPrice x)))]
    | None => [] end))%list.

Definition NormalizedWriter_Write (w : LatestWriter) (ctx : Ctx) (dataType : string) (result : NormalizedResult) (job : Job)
    : option S -> outcome unit * option S :=
  in_order
    (concat (map (snapshot_steps w ctx) (nr_MarketSnapshots result)) ++
     map (fun x => writePayload w ctx KindOpenInterest (oi_Meta x) (oi_SnapshotTime x) (enc_open_interest x)) (nr_OpenInterest result) ++
     map (fun x => writePayload w ctx KindFunding (fs_Meta x) (fs_SnapshotTime x) (enc_funding x)) (nr_FundingSnapshots result) ++
     map (fun x => writePayload w ctx KindOrderbookImbalance (ob_Meta x) (ob_SnapshotTime x) (enc_orderbook x)) (nr_OrderbookImbalances result) ++
     (if negb (job_Exchange job =? "")%string && negb (dataType =? "")%string
      then [WriteCollectorHealth w ctx (job_Exchange job) dataType "updated" [("job_id", AInt (job_ID job))]] else []))%list.

(** ** [FallbackResolver] *)

Record FallbackResolver := MkResolver { fr_Writer : LatestWriter; fr_MaxAge : Duration }.
Record ResolvedLatest := MkResolved { rl_Event : LatestEvent; rl_Source : string }.

Definition isFresh (r : FallbackResolver) (now : Time) (event : LatestEvent) : bool :=
  let maxAge := if fr_MaxAge r <=? 0 then 30 * Second else fr_MaxAge r in
  let anchor := if IsZero (ev_ReceivedAt event) then ev_EventTime event else ev_ReceivedAt event in
  negb (IsZero anchor) && (Sub now anchor <=? maxAge).

(** What the REST fallback leaves open. *)
Definition completed (kind exchange sourceSymbol : string) (symbolID : Z) (e : LatestEvent) : LatestEvent :=
  MkEvent (if (ev_Kind e =? "")%string then kind else ev_Kind e) (if (ev_Exchange e =? "")%string then exchange else ev_Exchange e)
    (if (ev_SourceSymbol e =? "")%string then sourceSymbol else ev_SourceSymbol e)
    (if ev_SymbolID e =? 0 then symbolID else ev_SymbolID e) (ev_EventTime e) (ev_ReceivedAt e) (ev_Payload e).

(** The answer of the REST fallback, written through; the resolver and its writer work on the same
    store, and [rest] is what the fallback would return. *)
Definition from_rest (r : FallbackResolver) (ctx : Ctx) (rest : option (result error LatestEvent))
    (kind exchange sourceSymbol : string) (symbolID : Z) (s : option S) : outcome ResolvedLatest * option S :=
  match rest with
  | None => (Fail (ErrorString "latest data is stale or missing"), s)
  | Some (Err e) => (Fail e, s)
  | Some (Ok event) =>
    let event := completed kind exchange sourceSymbol symbolID event in
    match Write (fr_Writer r) ctx event s with
    | (Value _, s') => (Value (MkResolved event "rest_fallback"), s')
    | (Fail e, s') => (Fail e, s')
    | (Panic, s') => (Panic, s')
    end
  end.

Definition LatestOrFallback (r : FallbackResolver) (ctx : Ctx) (rest : option (result error LatestEvent))
    (kind exchange sourceSymbol : string) (symbolID : Z) (s : option S) : outcome ResolvedLatest * option S :=
  let from_rest := from_rest r ctx rest kind exchange sourceSymbol symbolID in
  match LatestKey kind exchange sourceSymbol symbolID with
  | Err e => (Fail e, s)
  | Ok key =>
    match s with
    | None => from_rest None
    | Some s0 =>
      match GetJSON ctx dec_event key s0 with
      | (Value o, s1) =>
        match o with
        | Some event => if isFresh r (ctx_now ctx) event then (Value (MkResolved event "redis"), Some s1) else from_rest (Some s1)
        | None => from_rest (Some s1)
        end
      | (Fail e, s1) => (Fail e, Some s1)
      | (Panic, s1) => (Panic, Some s1)
      end
    end
  end.
End writer.

(** ** Events read back *)

(** Evaluate the comparisons of member names. *)
Ltac eval_names :=
  repeat match goal with |- context [EqualFold ?a ?b] =>
    let r := eval vm_compute in (EqualFold a b) in change (EqualFold a b) with r; cbv iota
  end.
Ltac read_members := cbn [member_of app concat map foldl fst snd]; eval_names; cbn [from_option fmap option_fmap option_map].

(** An event a JSON text can carry: times with four-digit years, an [int64], a payload. *)
Definition printable (e : LatestEvent) : Prop :=
  year4_ok (ev_EventTime e) /\ year4_ok (ev_ReceivedAt e) /\ int64_ok (ev_SymbolID e) /\ (exists v, ev_Payload e = RawJson v).

Lemma dec_time_printed t : year4_ok t -> dec_time (JString (FormatRFC3339Nano t)) = Some (Some t).
Proof. intros Ht. unfold dec_time. by rewrite ParseRFC3339_Nano. Qed.
Lemma dec_int_exact z : int64_ok z -> dec_int (JInt z) = Some (Some z).
Proof. intros Hz. cbn [dec_int]. by rewrite bool_decide_eq_true_2. Qed.

Lemma enc_dec_event e : printable e -> exists j, enc_event e = Some j /\ dec_event j = Some e.
Proof.
  intros (Ht & Hr & Hi & [v Hv]). destruct e as [kind exchange sym id et ra payload].
  cbn [ev_EventTime ev_ReceivedAt ev_SymbolID ev_Payload] in *. subst payload.
  unfold enc_event, members, m_str, m_str_omit, m_int_omit, m_int, m_time, m_raw, marshal_raw.
  cbn [ev_Kind ev_Exchange ev_SourceSymbol ev_SymbolID ev_EventTime ev_ReceivedAt ev_Payload].
  rewrite !marshal_time_ok by done. cbn [fmap option_fmap option_map all_some].
  pose proof (dec_time_printed _ Ht) as Et. pose proof (dec_time_printed _ Hr) as Er. pose proof (dec_int_exact _ Hi) as Ei.
  unfold dec_event, str_field, int_field, raw_field.
  destruct (String.eqb_spec exchange "") as [->|Hex], (String.eqb_spec sym "") as [->|Hs], (Z.eqb_spec id 0) as [->|Hid];
    unfold m_str; cbn [all_some fmap option_fmap option_map]; eexists; (split; [reflexivity|]);
    read_members; rewrite ?Et, ?Er, ?Ei; cbn [dec_string dec_raw mbind option_bind from_option fmap option_fmap option_map default];
    read_members; rewrite ?Et, ?Er, ?Ei; reflexivity.
Qed.

Section contract.
Context {S V : Type} `{StoreLaws S V} `{JsonText V}.

Lemma Key_with_defaults now e : Key (with_defaults now e) = Key e.
Proof. done. Qed.

Lemma GetJSON_live {A} ctx (dec : json -> option A) key (s : S) o s' : GetRaw ctx key s = (Value o, s') ->
  GetJSON ctx dec key s =
    (match live s (ctx_now ctx) key with
     | None => Value None
     | Some raw => match Unmarshal dec (text_json raw) with Some a => Value (Some a) | None => Fail json_error end
     end, s').
Proof. intros Hg. unfold GetJSON. rewrite Hg. apply get_done in Hg as <-. by destruct o. Qed.

(** What a successful write leaves in the store. *)
Lemma Write_live w ctx e (s s1 : S) : 0 <= ctx_now ctx -> printable (with_defaults (ctx_now ctx) e) ->
  Write w ctx e (Some s) = (Value tt, Some s1) ->
  exists key j, Key e = Ok key /\ dec_event j = Some (with_defaults (ctx_now ctx) e) /\
    agree (ctx_now ctx) (live s1) (put_view (ctx_now ctx) key (json_text j) (life (lw_TTL w)) (live s)).
Proof.
  intros Hn Hp. unfold Write, on_store. cbv zeta. rewrite Key_with_defaults. destruct (Key e) as [key|err]; [|done].
  destruct (enc_dec_event _ Hp) as (j & Ej & Dj). rewrite Ej. cbn [SetJSON].
  destruct (SetRaw ctx key (json_text j) (lw_TTL w) s) as [r s'] eqn:Es. intros [= -> ->].
  exists key, j. split_and!; [done|done|]. by eapply set_done.
Qed.

(** an event written to a store that keeps its contract is what the resolver returns, with the
    defaults filled in, for every spelling of its names, as long as it has not expired and is fresh:
    the REST fallback is not asked. *)
Theorem latest_event_roundtrip w r ctx ctx' rest e kind exchange sym id (s s1 : S) key o s2 :
  0 <= ctx_now ctx <= ctx_now ctx' -> printable (with_defaults (ctx_now ctx) e) ->
  Write w ctx e (Some s) = (Value tt, Some s1) ->
  Key e = Ok key -> LatestKey kind exchange sym id = Ok key ->
  match life (S:=S) (lw_TTL w) with Some d => ctx_now ctx' < ctx_now ctx + d | None => True end ->
  isFresh r (ctx_now ctx') (with_defaults (ctx_now ctx) e) = true ->
  GetRaw ctx' key s1 = (Value o, s2) ->
  LatestOrFallback r ctx' rest kind exchange sym id (Some s1)
  = (Value (MkResolved (with_defaults (ctx_now ctx) e) "redis"), Some s2).
Proof.
  intros Hn Hp Hw Hk Hk' Hl Hf Hg. destruct (Write_live _ _ _ _ _ (proj1 Hn) Hp Hw) as (key' & j & Ek & Dj & Ha).
  assert (key' = key) as -> by congruence. unfold LatestOrFallback. rewrite Hk', (GetJSON_live _ _ _ _ _ _ Hg).
  rewrite (Ha _ key) by lia. unfold put_view. rewrite bool_decide_eq_true_2 by done.
  assert (forall (x : option V), match life (S:=S) (lw_TTL w) with
            | Some d => if ctx_now ctx' <? ctx_now ctx + d then Some (json_text j) else x
            | None => Some (json_text j) end = Some (json_text j)) as Hlive.
  { intros x. destruct (life (lw_TTL w)) as [d|]; [|done]. destruct (Z.ltb_spec (ctx_now ctx') (ctx_now ctx + d)); [done|lia]. }
  rewrite Hlive, text_json_text. cbn [Unmarshal]. by rewrite Dj, Hf.
Qed.

Definition max_age (r : FallbackResolver) : Duration := if fr_MaxAge r <=? 0 then 30 * Second else fr_MaxAge r.
Definition anchor (e : LatestEvent) : Time := if IsZero (ev_ReceivedAt e) then ev_EventTime e else ev_ReceivedAt e.

(** The event the store holds under a key, if it is fresh. *)
Definition fresh_event (r : FallbackResolver) (now : Time) (key : string) (s : option S) : option LatestEvent :=
  raw ← (s ≫= fun s => live s now key); e ← Unmarshal dec_event (text_json raw); if isFresh r now e then Some e else None.

Lemma from_rest_Value r ctx rest kind exchange sym id (s s' : option S) x :
  from_rest r ctx rest kind exchange sym id s = (Value x, s') ->
  exists e, rest = Some (Ok e) /\ x = MkResolved (completed kind exchange sym id e) "rest_fallback".
Proof.
  unfold from_rest. destruct rest as [[e|e]|]; [|done..]. cbv zeta.
  destruct (Write (fr_Writer r) ctx _ s) as [[u|e'|] st']; [|done..]. intros [= <- _]. by exists e.
Qed.

(** the resolver never serves stale data: what it returns either is in the store under the key
    asked for and was received no longer ago than the maximum age, or is the answer of the REST
    fallback, asked only when the store holds no such event. *)
Theorem resolver_serves_fresh r ctx rest kind exchange sym id (s s' : option S) x :
  LatestOrFallback r ctx rest kind exchange sym id s = (Value x, s') ->
  exists key, LatestKey kind exchange sym id = Ok key /\
  match fresh_event r (ctx_now ctx) key s with
  | Some e => x = MkResolved e "redis" /\ anchor e <> 0 /\ Sub (ctx_now ctx) (anchor e) <= max_age r
  | None => exists e, rest = Some (Ok e) /\ x = MkResolved (completed kind exchange sym id e) "rest_fallback"
  end.
Proof.
  unfold LatestOrFallback. destruct (LatestKey kind exchange sym id) as [key|err]; [|done]. intros Hx. exists key. split; [done|].
  pose proof (fun st => from_rest_Value r ctx rest kind exchange sym id st s' x) as Hrest.
  unfold fresh_event. destruct s as [s0|]; cbn [mbind option_bind]; [|by apply (Hrest None)].
  destruct (GetRaw ctx key s0) as [[o|e|] s1] eqn:Eg; [|unfold GetJSON in Hx; by rewrite Eg in Hx..].
  rewrite (GetJSON_live _ _ _ _ _ _ Eg) in Hx. destruct (live s0 (ctx_now ctx) key) as [raw|]; [|by apply (Hrest (Some s1))].
  cbn [mbind option_bind]. destruct (Unmarshal dec_event (text_json raw)) as [e|]; [|done]. cbn [mbind option_bind].
  destruct (isFresh r (ctx_now ctx) e) eqn:Ef; [|by apply (Hrest (Some s1))]. injection Hx as <- _. split; [done|].
  unfold isFresh in Ef. fold (max_age r) (anchor e) in Ef. apply andb_true_iff in Ef as [Hz Hs]. apply Z.leb_le in Hs.
  split; [|exact Hs]. intros E. unfold IsZero in Hz. by rewrite E in Hz.
Qed.
End contract.

(** ** Examples and witnesses *)

Definition demo_event : LatestEvent := MkEvent "market" "binance" "BTCUSDT" 7 (ctx_now (at_ 0)) 0 (RawJson (JObject [("price", JInt 1)])).
Definition demo_writer : LatestWriter := MkWriter Minute.
Definition demo_resolver : FallbackResolver := MkResolver demo_writer (10 * Second).
Definition demo_store : option (MemoryStore RawMessage) := Some ∅.

(** [TestFallbackResolverUsesRESTWhenRedisIsStale]. *)
Example resolver_uses_rest_when_stale :
  let rest := Some (Ok (MkEvent "" "" "" 0 (ctx_now (at_ 60)) 0 (RawJson (JObject [("price", JInt 2)])))) in
  let s := snd (Write (MkWriter Hour) (at_ 0) demo_event demo_store) in
  let '(r, s') := LatestOrFallback demo_resolver (at_ 60) rest "Market" " BINANCE" "btcusdt" 7 s in
  r = Value (MkResolved (MkEvent "Market" " BINANCE" "btcusdt" 7 (ctx_now (at_ 60)) 0 (RawJson (JObject [("price", JInt 2)]))) "rest_fallback") /\
  fst (LatestOrFallback demo_resolver (at_ 61) None "market" "binance" "BTCUSDT" 0 s')
  = Value (MkResolved (MkEvent "Market" " BINANCE" "btcusdt" 7 (ctx_now (at_ 60)) (ctx_now (at_ 60)) (RawJson (JObject [("price", JInt 2)]))) "redis").
Proof. vm_compute. done. Qed.

(** Writes are not ordered by event time: an event that arrives late replaces a newer one. *)
Example late_event_replaces_newer :
  let newer := MkEvent "market" "binance" "BTCUSDT" 7 (ctx_now (at_ 50)) 0 RawEmpty in
  let s := snd (Write demo_writer (at_ 52) demo_event (snd (Write demo_writer (at_ 51) newer demo_store))) in
  match LatestOrFallback demo_resolver (at_ 53) None "market" "binance" "BTCUSDT" 0 s with
  | (Value x, _) => ev_EventTime (rl_Event x) = ctx_now (at_ 0)
  | _ => False
  end.
Proof. vm_compute. reflexivity. Qed.

Lemma demo_printable : printable (with_defaults (ctx_now (at_ 0)) demo_event).
Proof. unfold printable. split; [|split; [|split]]; [vm_compute; done..|by eexists]. Qed.

Definition demo_after : MemoryStore RawMessage := default ∅ (snd (Write demo_writer (at_ 0) demo_event demo_store)).

Lemma latest_event_roundtrip_witness :
  Write demo_writer (at_ 0) demo_event demo_store = (Value tt, Some demo_after) /\
  LatestOrFallback demo_resolver (at_ 9) None " MARKET" "Binance" "btcusdt" 0 (Some demo_after)
  = (Value (MkResolved (with_defaults (ctx_now (at_ 0)) demo_event) "redis"), Some demo_after).
Proof.
  assert (Write demo_writer (at_ 0) demo_event demo_store = (Value tt, Some demo_after)) as Hw
    by (vm_cast_no_check (@eq_refl _ (@Value unit tt, Some demo_after))).
  split; [exact Hw|].
  apply (latest_event_roundtrip demo_writer demo_resolver (at_ 0) (at_ 9) None demo_event " MARKET" "Binance" "btcusdt" 0 ∅
           demo_after "deriv:latest:market:binance:BTCUSDT" (live demo_after (ctx_now (at_ 9)) "deriv:latest:market:binance:BTCUSDT")).
  - vm_compute. split; discriminate.
  - exact demo_printable.
  - exact Hw.
  - vm_cast_no_check (@eq_refl (result error string) (Ok "deriv:latest:market:binance:BTCUSDT")).
  - vm_cast_no_check (@eq_refl (result error string) (Ok "deriv:latest:market:binance:BTCUSDT")).
  - vm_cast_no_check (eq_refl Lt).
  - vm_cast_no_check (eq_refl true).
  - vm_cast_no_check (@eq_refl _ (GetRaw (at_ 9) "deriv:latest:market:binance:BTCUSDT" demo_after)).
Defined.

Definition demo_answer : ResolvedLatest := MkResolved demo_event "rest_fallback".

Lemma resolver_serves_fresh_witness :
  fst (LatestOrFallback demo_resolver (at_ 9) (Some (Ok demo_event)) "market" "binance" "BTCUSDT" 7 demo_store) = Value demo_answer /\
  exists key, LatestKey "market" "binance" "BTCUSDT" 7 = Ok key /\
  match fresh_event demo_resolver (ctx_now (at_ 9)) key demo_store with
  | Some e => demo_answer = MkResolved e "redis" /\ anchor e <> 0 /\ Sub (ctx_now (at_ 9)) (anchor e) <= max_age demo_resolver
  | None => exists e, Some (@Ok error _ demo_event) = Some (Ok e) /\
              demo_answer = MkResolved (completed "market" "binance" "BTCUSDT" 7 e) "rest_fallback"
  end.
Proof.
  assert (fst (LatestOrFallback demo_resolver (at_ 9) (Some (Ok demo_event)) "market" "binance" "BTCUSDT" 7 demo_store) = Value demo_answer) as Hr
    by (vm_cast_no_check (@eq_refl _ (Value demo_answer))).
  split; [exact Hr|].
  apply (resolver_serves_fresh demo_resolver (at_ 9) (Some (Ok demo_event)) "market" "binance" "BTCUSDT" 7 demo_store
           (snd (LatestOrFallback demo_resolver (at_ 9) (Some (Ok demo_event)) "market" "binance" "BTCUSDT" 7 demo_store))).
  rewrite <- Hr. apply surjective_pairing.
Defined.
