(* ===== verification/RealtimeStreams.v ===== *)
(** * Streams ([internal/realtime/snapshot.go], [reconnect.go])

    The worker that keeps the latest event of every key and flushes them to a sink by buckets, with
    what other goroutines observe while the sink writes, and the bookkeeping of a stream connection:
    its state in the store, heartbeats, staleness and the delay before a reconnection. *)

From Stdlib Require Import Ascii.
From S2P Require Import Prelude GoString GoTime GoFloat GoDuration GoError GoOutcome GoJson GoJsonText GoTimeText Normalizers RealtimeStore RealtimeEvents.

(** ** [SnapshotWorker] *)

Record SnapshotWorker := MkWorker { sw_Bucket : Duration; sw_latest : gmap string LatestEvent }.

Definition NewSnapshotWorker (bucket : Duration) : SnapshotWorker :=
  MkWorker (if bucket <=? 0 then Minute else bucket) ∅.

Definition bucket (w : SnapshotWorker) : Duration := if sw_Bucket w <=? 0 then Minute else sw_Bucket w.

Definition set_latest (w : SnapshotWorker) (m : gmap string LatestEvent) : SnapshotWorker := MkWorker (sw_Bucket w) m.

Definition stamped (now : Time) (e : LatestEvent) : LatestEvent :=
  MkEvent (ev_Kind e) (ev_Exchange e) (ev_SourceSymbol e) (ev_SymbolID e)
    (if IsZero (ev_EventTime e) then now else ev_EventTime e) (ev_ReceivedAt e) (ev_Payload e).

(** An event under its own key; an event without one is dropped. *)
Definition keep_event (m : gmap string LatestEvent) (e : LatestEvent) : gmap string LatestEvent :=
  match Key e with Ok key => <[key := e]> m | Err _ => m end.

Definition Observe (now : Time) (event : LatestEvent) (w : SnapshotWorker) : SnapshotWorker :=
  set_latest w (keep_event (sw_latest w) (stamped now event)).

Section flush.
Context `{MapOrder}.

(** The events of the map, in the order the loop visits them. *)
Definition taken (w : SnapshotWorker) : list LatestEvent := iterate (map snd (map_to_list (sw_latest w))).

(** [Flush]: take the events and empty the map, write them to the sink with the lock released, and
    put them back when the sink fails.  [meanwhile] is what is observed during the write. *)
Definition Flush (sink : option (Time -> list LatestEvent -> option error)) (now : Time) (meanwhile : list (Time * LatestEvent))
    (w : SnapshotWorker) : result error Z * SnapshotWorker :=
  match sink with
  | None => (Ok 0, w)
  | Some write =>
    let events := taken w in
    let w1 := set_latest w ∅ in
    if bool_decide (events = []) then (Ok 0, w1) else
    let w2 := foldl (fun w x => Observe (fst x) (snd x) w) w1 meanwhile in
    match write (Truncate now (bucket w)) events with
    | Some err => (Err err, set_latest w2 (foldl keep_event (sw_latest w2) events))
    | None => (Ok (Z.of_nat (length events)), w2)
    end
  end.
End flush.

(** ** [ReconnectManager] *)

Record StreamState := MkStream {
  st_Exchange : string; st_Stream : string; st_Status : string; st_Attempt : Z; st_LastConnectedAt : Time;
  st_LastMessageAt : Time; st_LastHeartbeatAt : Time; st_LagSeconds : Z; st_LastError : string; st_Subscriptions : Z;
  st_UpdatedAt : Time }.

Definition enc_state (s : StreamState) : option json :=
  members [m_str "exchange" (st_Exchange s); m_str "stream" (st_Stream s); m_str "status" (st_Status s); m_int "attempt" (st_Attempt s);
           m_time "last_connected_at" (st_LastConnectedAt s); m_time "last_message_at" (st_LastMessageAt s);
           m_time "last_heartbeat_at" (st_LastHeartbeatAt s); m_int "lag_seconds" (st_LagSeconds s);
           m_str_omit "last_error" (st_LastError s); m_int "subscriptions" (st_Subscriptions s); m_time "updated_at" (st_UpdatedAt s)].

Definition dec_state (v : json) : option StreamState :=
  ex ← str_field "exchange" v; st ← str_field "stream" v; status ← str_field "status" v; att ← int_field "attempt" v;
  lc ← member_of 0 dec_time "last_connected_at" v; lm ← member_of 0 dec_time "last_message_at" v;
  lh ← member_of 0 dec_time "last_heartbeat_at" v; lag ← int_field "lag_seconds" v; le ← str_field "last_error" v;
  subs ← int_field "subscriptions" v; up ← member_of 0 dec_time "updated_at" v;
  mret (MkStream ex st status att lc lm lh lag le subs up).

Record ReconnectManager := MkManager {
  rm_TTL : Duration; rm_HeartbeatInterval : Duration; rm_StaleAfter : Duration; rm_BackoffMin : Duration; rm_BackoffMax : Duration }.

(** [if d <= 0 { d = fallback }]. *)
Definition or_default (d fallback : Duration) : Duration := if d <=? 0 then fallback else d.

Definition ShouldHeartbeat (m : ReconnectManager) (now : Time) (s : StreamState) : bool :=
  IsZero (st_LastHeartbeatAt s) ||
  negb (Before now (Add (st_LastHeartbeatAt s) (or_default (rm_HeartbeatInterval m) (15 * Second)))).

Definition IsStale (m : ReconnectManager) (now : Time) (s : StreamState) : bool :=
  let last := if IsZero (st_LastMessageAt s) then st_LastConnectedAt s else st_LastMessageAt s in
  IsZero last || negb (Before now (Add last (or_default (rm_StaleAfter m) (30 * Second)))).

Definition BackoffDelay (m : ReconnectManager) (attempt : Z) : Duration :=
  let minDelay := or_default (rm_BackoffMin m) Second in
  let maxDelay := or_default (rm_BackoffMax m) Minute in
  let attempt := if attempt <? 1 then 1 else attempt in
  let multiplier := math_Pow2 (f64_of_Z (attempt - 1)) in
  let delay := f64_to_int64 (fmul (f64_of_Z minDelay) multiplier) in
  if (maxDelay <? delay) || (delay <? 0) then maxDelay else delay.

Section manager.
Context {S V : Type} `{Store S V} `{JsonText V} (m : ReconnectManager).

Definition writeState (ctx : Ctx) (state : StreamState) : option S -> outcome unit * option S :=
  let exchange := normalizeExchange (st_Exchange state) in
  let stream := normalizeStream (st_Stream state) in
  on_store (fun s =>
    if (TrimSpace exchange =? "")%string || (TrimSpace stream =? "")%string
    then (Fail (ErrorString "exchange and stream are required"), s) else
    SetJSON ctx (WSStateKey exchange stream)
      (enc_state (MkStream exchange stream (st_Status state) (st_Attempt state) (st_LastConnectedAt state) (st_LastMessageAt state)
         (st_LastHeartbeatAt state) (st_LagSeconds state) (st_LastError state) (st_Subscriptions state) (st_UpdatedAt state)))
      (or_default (rm_TTL m) (10 * Minute)) s).

Definition Connected (ctx : Ctx) (exchange stream : string) (subscriptions : Z) (s : option S)
    : StreamState * outcome unit * option S :=
  let now := ctx_now ctx in
  let state := MkStream (normalizeExchange exchange) (normalizeStream stream) "connected" 0 now 0 now 0 "" subscriptions now in
  let '(r, s') := writeState ctx state s in (state, r, s').

Definition RecordMessage (ctx : Ctx) (st : StreamState) (eventTime : Time) (s : option S) : StreamState * outcome unit * option S :=
  let now := ctx_now ctx in
  let eventTime := if IsZero eventTime then now else eventTime in
  let lag := f64_to_int64 (Seconds (Sub now eventTime)) in
  let state := MkStream (st_Exchange st) (st_Stream st) "connected" (st_Attempt st) (st_LastConnectedAt st) now (st_LastHeartbeatAt st)
                 (if lag <? 0 then 0 else lag) (st_LastError st) (st_Subscriptions st) now in
  let '(r, s') := writeState ctx state s in (state, r, s').

(** [ping] is what the client answers; no client is an error. *)
Definition Heartbeat (ctx : Ctx) (ping : option (option error)) (st : StreamState) (s : option S)
    : StreamState * outcome unit * option S :=
  let now := ctx_now ctx in
  match ping with
  | None => (st, Fail (ErrorString "subscription client is required"), s)
  | Some (Some err) =>
    let state := MkStream (st_Exchange st) (st_Stream st) "heartbeat_failed" (st_Attempt st) (st_LastConnectedAt st) (st_LastMessageAt st)
                   (st_LastHeartbeatAt st) (st_LagSeconds st) (Error err) (st_Subscriptions st) now in
    let '(r, s') := writeState ctx state s in
    (state, match r with Panic => Panic | _ => Fail err end, s')
  | Some None =>
    let state := MkStream (st_Exchange st) (st_Stream st) "connected" (st_Attempt st) (st_LastConnectedAt st) (st_LastMessageAt st)
                   now (st_LagSeconds st) (st_LastError st) (st_Subscriptions st) now in
    let '(r, s') := writeState ctx state s in (state, r, s')
  end.

Definition Resubscribe (subscribe : option (option error)) : option error :=
  match subscribe with None => Some (ErrorString "subscription client is required") | Some r => r end.

Definition Disconnected (ctx : Ctx) (st : StreamState) (err : option error) (s : option S)
    : StreamState * Duration * outcome unit * option S :=
  let attempt := wrap64 (st_Attempt st + 1) in
  let state := MkStream (st_Exchange st) (st_Stream st) "disconnected" attempt (st_LastConnectedAt st) (st_LastMessageAt st)
                 (st_LastHeartbeatAt st) (st_LagSeconds st) (match err with Some e => Error e | None => st_LastError st end)
                 (st_Subscriptions st) (ctx_now ctx) in
  let delay := BackoffDelay m attempt in
  let '(r, s') := writeState ctx state s in (state, delay, r, s').
End manager.

(** ** What a flush does *)

Definition key_of (e : LatestEvent) : option string := match Key e with Ok k => Some k | Err _ => None end.

(** Every event is stored under its own key. *)
Definition keyed (m : gmap string LatestEvent) : Prop := map_Forall (fun k e => key_of e = Some k) m.

Lemma keep_event_keyed m e : keyed m -> keyed (keep_event m e).
Proof.
  intros Hm. unfold keep_event. destruct (Key e) as [k|] eqn:E; [|done].
  apply map_Forall_insert_2; [|done]. unfold key_of. by rewrite E.
Qed.
Lemma Observe_keyed now e w : keyed (sw_latest w) -> keyed (sw_latest (Observe now e w)).
Proof. apply keep_event_keyed. Qed.
Lemma observes_keyed obs w : keyed (sw_latest w) -> keyed (sw_latest (foldl (fun w x => Observe (fst x) (snd x) w) w obs)).
Proof. revert w. induction obs as [|[now e] obs IH]; intros w Hw; [done|]. apply IH. by apply Observe_keyed. Qed.

(** Putting events with different keys back: each of them wins over what is there. *)
Lemma keep_events_lookup l m k :
  NoDup (map key_of l) -> Forall (fun e => is_Some (key_of e)) l ->
  foldl keep_event m l !! k = match list_find (fun e => key_of e = Some k) l with Some (_, e) => Some e | None => m !! k end.
Proof.
  revert m. induction l as [|e l IH]; intros m Hn Hk; [done|]. cbn [map] in Hn. apply NoDup_cons in Hn as [Hnot Hn].
  apply Forall_cons in Hk as [[k0 He] Hk]. cbn [foldl list_find]. rewrite IH by done.
  assert (keep_event m e = <[k0 := e]> m) as ->.
  { unfold keep_event, key_of in *. destruct (Key e); [by injection He as ->|done]. }
  rewrite He. destruct (decide (Some k0 = Some k)) as [[= ->]|Hne].
  - destruct (list_find _ l) as [[i e']|] eqn:Ef; [|by rewrite lookup_insert_eq].
    exfalso. apply Hnot. apply list_find_Some in Ef as (Hi & Ee & _). rewrite He, <- Ee. apply list_elem_of_fmap_2.
    by eapply list_elem_of_lookup_2.
  - rewrite lookup_insert_ne by congruence. by destruct (list_find _ l) as [[i e']|].
Qed.

Section flushing.
Context `{MapOrder}.

Lemma taken_perm w : taken w ≡ₚ map snd (map_to_list (sw_latest w)).
Proof. apply iterate_perm. Qed.

Lemma taken_in w k e : keyed (sw_latest w) -> (e ∈ taken w /\ key_of e = Some k) <-> sw_latest w !! k = Some e.
Proof.
  intros Hw. rewrite taken_perm, list_elem_of_fmap. split.
  - intros [([k' e'] & -> & Hin) Hk]. apply elem_of_map_to_list in Hin. pose proof (Hw _ _ Hin) as Hk'. cbn [snd] in Hk.
    assert (k = k') as -> by congruence. done.
  - intros Hin. split; [exists (k, e); split; [done|by apply elem_of_map_to_list]|by apply Hw].
Qed.

Lemma taken_keys w : keyed (sw_latest w) ->
  NoDup (map key_of (taken w)) /\ Forall (fun e => is_Some (key_of e)) (taken w).
Proof.
  intros Hw. split.
  - rewrite (Permutation_map key_of (taken_perm w)), map_map.
    assert (map (fun x => key_of (snd x)) (map_to_list (sw_latest w)) = map (fun x => Some (fst x)) (map_to_list (sw_latest w))) as ->.
    { apply map_ext_in. intros [k e] Hin. apply list_elem_of_In, elem_of_map_to_list in Hin. by apply Hw. }
    rewrite <- (map_map fst Some). apply NoDup_fmap_2; [by intros ?? [=]|]. apply NoDup_fst_map_to_list.
  - apply Forall_forall. intros e He. rewrite taken_perm in He. apply list_elem_of_fmap in He as ([k e'] & -> & Hin).
    apply elem_of_map_to_list in Hin. cbn [snd]. exists k. by apply Hw.
Qed.

(** The map after a failed flush: the events taken, over those observed meanwhile. *)
Lemma restored w m : keyed (sw_latest w) -> foldl keep_event m (taken w) = sw_latest w ∪ m.
Proof.
  intros Hw. destruct (taken_keys w Hw) as [Hn Hk]. apply map_eq. intros k. rewrite keep_events_lookup by done.
  destruct (list_find _ (taken w)) as [[i e]|] eqn:Ef.
  - apply list_find_Some in Ef as (Hi & Ee & _).
    rewrite (lookup_union_Some_l _ _ _ e); [done|]. apply taken_in; [done|]. split; [by eapply list_elem_of_lookup_2|done].
  - apply list_find_None in Ef. rewrite lookup_union_r; [done|]. destruct (sw_latest w !! k) as [e|] eqn:E; [|done].
    apply taken_in in E as [He Ek]; [|done]. rewrite Forall_forall in Ef. by destruct (Ef e He).
Qed.

(** a flush hands the sink each key's latest event exactly once, stamped with the start of the
    bucket.  When the sink accepts them only what was observed meanwhile remains; when it fails
    nothing is lost, but an event taken earlier replaces one of the same key observed meanwhile. *)
Theorem flush_takes_latest write now obs w :
  keyed (sw_latest w) -> sw_latest w <> ∅ ->
  let w2 := foldl (fun w x => Observe (fst x) (snd x) w) (set_latest w ∅) obs in
  (forall k e, (e ∈ taken w /\ key_of e = Some k) <-> sw_latest w !! k = Some e) /\ NoDup (map key_of (taken w)) /\
  Flush (Some write) now obs w
  = match write (Truncate now (bucket w)) (taken w) with
    | None => (Ok (Z.of_nat (size (sw_latest w))), w2)
    | Some err => (Err err, set_latest w2 (sw_latest w ∪ sw_latest w2))
    end.
Proof.
  intros Hw Hne w2. split_and!; [intros k e; by apply taken_in|by apply taken_keys|].
  unfold Flush. fold w2. rewrite bool_decide_eq_false_2.
  - destruct (write _ _) eqn:Ew; [by rewrite restored|]. assert (length (taken w) = size (sw_latest w)) as ->; [|done].
    rewrite (Permutation_length (taken_perm w)), length_map. apply length_map_to_list.
  - intros E. apply Hne. apply map_eq. intros k. rewrite lookup_empty. destruct (sw_latest w !! k) as [e|] eqn:Ek; [|done].
    apply taken_in in Ek as [He _]; [|done]. rewrite E in He. by apply elem_of_nil in He.
Qed.

(** A failed flush during which nothing is observed changes nothing. *)
Lemma failed_flush_restores write now w err : keyed (sw_latest w) ->
  write (Truncate now (bucket w)) (taken w) = Some err -> taken w <> [] ->
  Flush (Some write) now [] w = (Err err, w).
Proof.
  intros Hw He Hne. unfold Flush. rewrite bool_decide_eq_false_2 by done. cbn [foldl]. rewrite He, restored by done.
  cbn [set_latest sw_latest]. rewrite map_union_empty. by destruct w.
Qed.
End flushing.

(** ** Delays before a reconnection *)

Lemma or_default_pos d fallback : 0 < fallback -> 0 < or_default d fallback.
Proof. intros Hf. unfold or_default. destruct (Z.leb_spec d 0); lia. Qed.

Lemma BackoffDelay_exact m attempt :
  rm_BackoffMin m < 2 ^ 53 -> rm_BackoffMax m <= max_int64 -> attempt <= 2 ^ 53 ->
  BackoffDelay m attempt
  = Z.min (or_default (rm_BackoffMax m) Minute) (or_default (rm_BackoffMin m) Second * 2 ^ (Z.max 1 attempt - 1)).
Proof.
  intros Hmin Hmax Ha. unfold BackoffDelay. cbv zeta.
  assert ((if attempt <? 1 then 1 else attempt) = Z.max 1 attempt) as -> by (destruct (Z.ltb_spec attempt 1); lia).
  assert (0 < or_default (rm_BackoffMin m) Second < 2 ^ 53) as Hm.
  { split; [by apply or_default_pos|]. unfold or_default. by destruct (_ <=? 0). }
  assert (0 < or_default (rm_BackoffMax m) Minute <= max_int64) as HM.
  { split; [by apply or_default_pos|]. unfold or_default. by destruct (_ <=? 0). }
  rewrite scale_int64 by lia.
  set (d := or_default (rm_BackoffMin m) Second * 2 ^ (Z.max 1 attempt - 1)).
  assert (0 < d) by (apply Z.mul_pos_pos; [lia|]; apply Z.pow_pos_nonneg; lia).
  destruct (Z.leb_spec d max_int64).
  - destruct (Z.ltb_spec (or_default (rm_BackoffMax m) Minute) d), (Z.ltb_spec d 0); cbn [orb]; lia.
  - rewrite orb_comm. change (min_int64 <? 0) with true. cbn [orb]. lia.
Qed.

(** The delays of a connection that is lost again and again, whatever the store answers. *)
Section lost.
Context {S V : Type} `{Store S V} `{JsonText V} (m : ReconnectManager).

Fixpoint lose (losses : list (Ctx * option error)) (st : StreamState) (s : option S) : list Duration * StreamState :=
  match losses with
  | [] => ([], st)
  | (ctx, err) :: ls =>
    let '(st', delay, _, s') := Disconnected m ctx st err s in
    let '(ds, last) := lose ls st' s' in (delay :: ds, last)
  end.

Lemma lose_delays losses st (s : option S) :
  rm_BackoffMin m < 2 ^ 53 -> rm_BackoffMax m <= max_int64 -> 0 <= st_Attempt st ->
  st_Attempt st + Z.of_nat (length losses) <= 2 ^ 53 ->
  fst (lose losses st s)
  = map (fun i => Z.min (or_default (rm_BackoffMax m) Minute)
                    (or_default (rm_BackoffMin m) Second * 2 ^ (st_Attempt st + Z.of_nat i))) (seq 0 (length losses)).
Proof.
  intros Hmin Hmax. revert st s. induction losses as [|[ctx err] ls IH]; intros st s Ha Hl; [done|].
  cbn [length] in Hl. cbn [lose]. unfold Disconnected. cbv zeta.
  match goal with |- context [writeState m ctx ?st' s] => set (st1 := st') end.
  destruct (writeState m ctx st1 s) as [r s'].
  assert (st_Attempt st1 = st_Attempt st + 1) as E1.
  { cbn [st1 st_Attempt]. apply wrap64_ok. unfold int64_ok, min_int64, max_int64, two63. lia. }
  specialize (IH st1 s' ltac:(lia) ltac:(lia)). destruct (lose ls st1 s') as [ds last]. cbn [fst] in IH |- *. rewrite IH, E1.
  cbn [length seq map]. f_equal.
  - change (wrap64 (st_Attempt st + 1)) with (st_Attempt st1). rewrite E1, BackoffDelay_exact by lia. do 3 f_equal; lia.
  - rewrite <- seq_shift, map_map. apply map_ext. intros i. do 3 f_equal. lia.
Qed.

(** after a connection the n-th loss in a row waits the minimum delay times two to the power n,
    capped by the maximum, exactly and for any number of losses: the conversion of the product out
    of binary64 never yields a shorter or negative wait, and store errors do not change it. *)
Theorem reconnect_delays ctx exchange stream subs (s : option S) losses :
  rm_BackoffMin m < 2 ^ 53 -> rm_BackoffMax m <= max_int64 -> Z.of_nat (length losses) <= 2 ^ 53 ->
  let '(st, _, s') := Connected m ctx exchange stream subs s in
  fst (lose losses st s')
  = map (fun i => Z.min (or_default (rm_BackoffMax m) Minute) (or_default (rm_BackoffMin m) Second * 2 ^ Z.of_nat i))
      (seq 0 (length losses)).
Proof.
  intros Hmin Hmax Hl. unfold Connected. cbv zeta.
  match goal with |- context [writeState m ctx ?st' s] => set (st1 := st') end.
  destruct (writeState m ctx st1 s) as [r s'].
  by rewrite (lose_delays losses st1).
Qed.
End lost.

(** ** Stream states read back *)

Definition state_printable (s : StreamState) : Prop :=
  Forall year4_ok [st_LastConnectedAt s; st_LastMessageAt s; st_LastHeartbeatAt s; st_UpdatedAt s] /\
  Forall int64_ok [st_Attempt s; st_LagSeconds s; st_Subscriptions s].

Lemma enc_dec_state s : state_printable s -> exists j, enc_state s = Some j /\ dec_state j = Some s.
Proof.
  intros [(T1 & (T2 & (T3 & (T4 & _)%Forall_cons)%Forall_cons)%Forall_cons)%Forall_cons (I1 & (I2 & (I3 & _)%Forall_cons)%Forall_cons)%Forall_cons].
  destruct s as [ex st status att lc lm lh lag le subs up].
  unfold enc_state, members, m_str, m_str_omit, m_int, m_time. cbn [st_Exchange st_Stream st_Status st_Attempt st_LastConnectedAt
    st_LastMessageAt st_LastHeartbeatAt st_LagSeconds st_LastError st_Subscriptions st_UpdatedAt] in *.
  rewrite !marshal_time_ok by done. cbn [fmap option_fmap option_map all_some].
  pose proof (dec_time_printed _ T1) as E1. pose proof (dec_time_printed _ T2) as E2. pose proof (dec_time_printed _ T3) as E3.
  pose proof (dec_time_printed _ T4) as E4. pose proof (dec_int_exact _ I1) as J1. pose proof (dec_int_exact _ I2) as J2.
  pose proof (dec_int_exact _ I3) as J3. unfold dec_state, str_field, int_field.
  destruct (String.eqb_spec le "") as [->|Hle]; unfold m_str; cbn [all_some fmap option_fmap option_map]; eexists; (split; [reflexivity|]);
    read_members; rewrite ?E1, ?E2, ?E3, ?E4, ?J1, ?J2, ?J3;
    cbn [dec_string mbind option_bind from_option fmap option_fmap option_map default];
    read_members; rewrite ?E1, ?E2, ?E3, ?E4, ?J1, ?J2, ?J3; reflexivity.
Qed.

(** ** Examples and witnesses *)

Definition demo_manager : ReconnectManager := MkManager 0 (10 * Second) (30 * Second) Second (8 * Second).

(** [TestReconnectManagerTracksHeartbeatStaleAndBackoff]. *)
Example reconnect_test :
  let '(st, _, s) := Connected demo_manager (at_ 0) "binance" "ticker" 1 demo_store in
  ShouldHeartbeat demo_manager (ctx_now (at_ 9)) st = false /\ ShouldHeartbeat demo_manager (ctx_now (at_ 10)) st = true /\
  let '(st, _, s) := RecordMessage demo_manager (at_ 10) st (ctx_now (at_ 8)) s in
  st_LagSeconds st = 2 /\ IsStale demo_manager (ctx_now (at_ 41)) st = true /\ BackoffDelay demo_manager 4 = 8 * Second.
Proof. vm_compute. done. Qed.

Definition now0 : Time := ctx_now (at_ 0).
Definition price (p : Z) (t : Time) : LatestEvent := MkEvent "market" "binance" "BTCUSDT" 0 t 0 (RawJson (JObject [("price", JInt p)])).
Definition demo_sw : SnapshotWorker := Observe now0 (price 1 now0) (NewSnapshotWorker 0).
#[local] Existing Instance forward_order.

(** The sink fails while a newer event of the same key arrives: the older one is kept. *)
Example failed_flush_keeps_older :
  let '(r, w) := Flush (Some (fun _ _ => Some (ErrorString "down"))) now0 [(now0, price 2 now0)] demo_sw in
  r = Err (ErrorString "down") /\ map snd (map_to_list (sw_latest w)) = [price 1 now0].
Proof. vm_compute. done. Qed.

Lemma demo_sw_keyed : keyed (sw_latest demo_sw).
Proof. apply Observe_keyed. apply map_Forall_empty. Qed.

Lemma flush_takes_latest_witness :
  Flush (Some (fun _ _ => None)) now0 [] demo_sw = (Ok 1, set_latest demo_sw ∅).
Proof.
  assert (sw_latest demo_sw <> ∅) as Hne by (apply insert_non_empty).
  destruct (flush_takes_latest (fun _ _ => None) now0 [] demo_sw demo_sw_keyed Hne) as (_ & _ & ->).
  cbn [foldl]. f_equal.
Defined.

Lemma reconnect_delays_witness :
  let '(st, _, s') := Connected demo_manager (at_ 0) "binance" "ticker" 1 demo_store in
  fst (lose demo_manager (repeat (at_ 1, None) 5) st s') = map (fun x => x * Second) [1; 2; 4; 8; 8].
Proof.
  exact (reconnect_delays demo_manager (at_ 0) "binance" "ticker" 1 demo_store (repeat (at_ 1, None) 5)
           ltac:(done) ltac:(by_eval) ltac:(by_eval)).
Defined.
