(* ===== verification/Retention.v ===== *)
(** * Retention policies ([internal/retention]: [models.go], [specs.go], [planner.go], [partitions.go])

    The tables retention may touch with their safety minimums, the validation of a policy, the
    plan of a run, and the time ranges of partitions by their names. *)

From Stdlib Require Import Ascii.
From S2P Require Import Prelude GoString GoTime GoFloat GoError GoJson.

(** ** Data *)

Record Policy := MkRetentionPolicy {
  ID : Z; TableName : string; TimeColumn : string; IntervalColumn : string; IntervalValue : string;
  RetentionDays : Z; ChunkSize : Z; Enabled : bool; DryRun : bool; RollupBeforeDelete : bool;
  RollupTargetTable : string; Priority : Z; MaxRowsPerRun : Z; TimeoutSeconds : Z; PartitionStrategy : string;
  MinRetentionDays : Z; Metadata : RawMessage }.

Record PlanItem := MkPlanItem {
  pi_Policy : Policy; pi_CutoffTime : Time; pi_DryRun : bool; pi_UsePartitionDrop : bool;
  pi_RollupTargetInterval : string }.

Record Partition := MkPartition {
  pt_SchemaName : string; pt_TableName : string; pt_RangeStart : Time; pt_RangeEnd : Time }.

Record TableSpec := MkTableSpec {
  ts_Name : string; ts_IDColumn : string; ts_TimeColumns : list string; ts_IntervalColumns : list string;
  ts_MinRetentionDays : Z; ts_PartitionPreferred : bool }.

(** ** Tables *)

Definition spec (name : string) (times intervals : list string) (min : Z) (part : bool) : string * TableSpec :=
  (name, MkTableSpec name "id" times intervals min part).

Definition tableSpecs : gmap string TableSpec := list_to_map [
  spec "derivative_klines" ["open_time"] ["interval"] 7 true;
  spec "derivative_market_snapshots" ["snapshot_time"] [] 7 true;
  spec "open_interest_snapshots" ["snapshot_time"] [] 14 true;
  spec "funding_rate_snapshots" ["snapshot_time"] [] 30 false;
  spec "funding_rate_history" ["funding_time"] [] 365 false;
  spec "long_short_ratio_snapshots" ["snapshot_time"] [] 90 false;
  spec "taker_flow_snapshots" ["snapshot_time"] [] 30 true;
  spec "cvd_snapshots" ["snapshot_time"] [] 30 true;
  spec "derivative_aggregated_snapshots" ["snapshot_time"] [] 14 true;
  spec "liquidation_events" ["event_time"] [] 7 true;
  spec "liquidation_aggregates" ["bucket_time"] ["period"] 30 false;
  spec "orderbook_imbalance_snapshots" ["snapshot_time"] [] 7 true;
  spec "orderbook_depth_snapshots" ["snapshot_time"] [] 1 false;
  spec "exchange_request_logs" ["captured_at"] [] 7 false;
  spec "raw_exchange_payloads" ["captured_at"; "retention_expires_at"] [] 1 false;
  spec "failed_collection_jobs" ["failed_at"] [] 30 false;
  spec "data_collection_runs" ["started_at"] [] 30 false;
  spec "data_quality_issues" ["last_seen_at"] [] 90 false ].

Definition SpecFor (tableName : string) : option TableSpec := tableSpecs !! norm tableName.

Definition refuse (msg : string) : result error TableSpec := Err (ErrorString msg).

Definition ValidatePolicy (p : Policy) : result error TableSpec :=
  let tableName := norm (TableName p) in
  match SpecFor tableName with
  | None => refuse ("retention policy table " +:+ Quote (TableName p) +:+ " is not supported")
  | Some sp =>
    if negb (bool_decide (TimeColumn p ∈ ts_TimeColumns sp)) then
      refuse ("retention policy table " +:+ tableName +:+ " cannot use time column " +:+ Quote (TimeColumn p)) else
    if negb (IntervalColumn p =? "")%string && negb (bool_decide (IntervalColumn p ∈ ts_IntervalColumns sp)) then
      refuse ("retention policy table " +:+ tableName +:+ " cannot use interval column " +:+ Quote (IntervalColumn p)) else
    if negb (IntervalColumn p =? "")%string && (TrimSpace (IntervalValue p) =? "")%string then
      refuse ("retention policy table " +:+ tableName +:+ " interval value is required") else
    if RetentionDays p <=? 0 then refuse ("retention_days must be greater than 0 for " +:+ tableName) else
    let minDays := if MinRetentionDays p >? ts_MinRetentionDays sp then MinRetentionDays p else ts_MinRetentionDays sp in
    if RetentionDays p <? minDays then
      refuse ("retention_days " +:+ Itoa (RetentionDays p) +:+ " is below safety minimum " +:+ Itoa minDays +:+
              " for " +:+ tableName) else
    if ChunkSize p <=? 0 then refuse ("chunk_size must be greater than 0 for " +:+ tableName) else
    if MaxRowsPerRun p <=? 0 then refuse ("max_rows_per_run must be greater than 0 for " +:+ tableName) else
    if TimeoutSeconds p <=? 0 then refuse ("timeout_seconds must be greater than 0 for " +:+ tableName) else
    Ok sp
  end.

(** ** Rollup intervals ([rollup.go]) *)

Record rollupSpec := MkRollupSpec { ru_SourceInterval : string; ru_TargetInterval : string; ru_BucketSeconds : Z }.

Definition klineRollups : gmap string rollupSpec := list_to_map [
  ("1m", MkRollupSpec "1m" "5m" (5 * 60)); ("5m", MkRollupSpec "5m" "15m" (15 * 60));
  ("15m", MkRollupSpec "15m" "1h" (60 * 60)); ("1h", MkRollupSpec "1h" "4h" (4 * 60 * 60));
  ("4h", MkRollupSpec "4h" "1d" (24 * 60 * 60)) ].

Definition klineRollupTarget (sourceInterval : string) : string :=
  match klineRollups !! sourceInterval with Some s => ru_TargetInterval s | None => "" end.

(** ** The plan *)

Definition shouldUsePartitionDrop (p : Policy) (sp : TableSpec) : bool :=
  if (PartitionStrategy p =? "drop")%string then true else
  if (PartitionStrategy p =? "delete")%string then false else
  ts_PartitionPreferred sp.

Definition rollup_field : list (field string) := [fld "rollup_target_interval" dec_string (fun v _ => v)].

Definition rollupTargetInterval (p : Policy) : string :=
  let target := match Metadata p with RawJson v => fst (unmarshal_struct rollup_field v "") | _ => "" end in
  if negb (target =? "")%string then target else klineRollupTarget (IntervalValue p).

(** [sort.SliceStable] by priority, then id. *)
Definition policy_leb (a b : Policy) : bool :=
  if Priority a =? Priority b then ID a <=? ID b else Priority a <=? Priority b.

Definition plan_item (now : Time) (p : Policy) (sp : TableSpec) : PlanItem :=
  MkPlanItem p (AddDate now 0 0 (- RetentionDays p)) (DryRun p) (shouldUsePartitionDrop p sp) (rollupTargetInterval p).

Fixpoint plan_loop (now : Time) (policies : list Policy) : result error (list PlanItem) :=
  match policies with
  | [] => Ok []
  | p :: rest =>
    if negb (Enabled p) then plan_loop now rest else
    let! sp := ValidatePolicy p in
    let! items := plan_loop now rest in
    Ok (plan_item now p sp :: items)
  end.

Definition Plan (now : Time) (policies : list Policy) : result error (list PlanItem) :=
  plan_loop now (stable_sort policy_leb policies).

(** ** Partitions *)

(** A string that ends in [_], four digits, [mid] and two digits: the two numbers. *)
Definition two_digits (a b : ascii) : option Z :=
  match digit_val a, digit_val b with Some x, Some y => Some (10 * x + y) | _, _ => None end.

Definition name_suffix (mid : bytes -> bool) (name : string) : option (Z * Z) :=
  match rev (to_bytes name) with
  | d2 :: d1 :: rest =>
    let n := match rest with
             | c :: rest' => if mid [c] then Some rest'
                             else match rest' with c' :: rest'' => if mid [c'; c] then Some rest'' else None | [] => None end
             | [] => None
             end in
    match n with
    | Some (y4 :: y3 :: y2 :: y1 :: u :: _) =>
      match two_digits y1 y2, two_digits y3 y4, two_digits d1 d2 with
      | Some a, Some b, Some v => if bool_decide (u = byte_of_Z 95) then Some (100 * a + b, v) else None
      | _, _, _ => None
      end
    | _ => None
    end
  | _ => None
  end.

(** The two patterns: [_(\d{4})_(\d{2})$] and [_(\d{4})_w(\d{2})$], case-insensitive. *)
Definition monthly (name : string) : option (Z * Z) := name_suffix (fun l => bool_decide (l = [byte_of_Z 95])) name.
Definition weekly (name : string) : option (Z * Z) :=
  name_suffix (fun l => bool_decide (l = to_bytes "_w") || bool_decide (l = to_bytes "_W")) name.

Definition isoWeekStart (year week : Z) : Time :=
  let jan4 := Date year 1 4 in
  let weekday := if Weekday jan4 =? 0 then 7 else Weekday jan4 in
  let weekOneMonday := AddDate jan4 0 0 (- (weekday - 1)) in
  AddDate weekOneMonday 0 0 ((week - 1) * 7).

Definition ParsePartitionRange (parentTable partitionName : string) : option (Time * Time) :=
  let name := TrimSpace partitionName in
  if negb (parentTable =? "")%string && negb (HasPrefix (ToLower name) (ToLower parentTable +:+ "_")) then None else
  match monthly name with
  | Some (year, month) =>
    if (month <? 1) || (12 <? month) then None else
    let start := Date year month 1 in Some (start, AddDate start 0 1 0)
  | None =>
    match weekly name with
    | Some (year, week) =>
      if (week <? 1) || (53 <? week) then None else
      let start := isoWeekStart year week in Some (start, AddDate start 0 0 7)
    | None => None
    end
  end.

Definition eligible_partition (parentTable : string) (cutoff : Time) (schema name : string) : option Partition :=
  match ParsePartitionRange parentTable name with
  | Some (start, end_) => if After end_ cutoff then None else Some (MkPartition schema name start end_)
  | None => None
  end.

Definition EligiblePartitions (parentTable : string) (names : list string) (cutoff : Time) : list Partition :=
  omap (eligible_partition parentTable cutoff "public") names.

(** ** Validation and planning *)

(** What an accepted policy has. *)
Record policy_ok (p : Policy) (sp : TableSpec) : Prop := {
  ok_table : tableSpecs !! norm (TableName p) = Some sp;
  ok_time : TimeColumn p ∈ ts_TimeColumns sp;
  ok_interval : IntervalColumn p <> "" ->
    IntervalColumn p ∈ ts_IntervalColumns sp /\ TrimSpace (IntervalValue p) <> "";
  ok_days : 0 < RetentionDays p /\ ts_MinRetentionDays sp <= RetentionDays p /\ MinRetentionDays p <= RetentionDays p;
  ok_sizes : 0 < ChunkSize p /\ 0 < MaxRowsPerRun p /\ 0 < TimeoutSeconds p }.

Lemma SpecFor_norm s : SpecFor (norm s) = tableSpecs !! norm s.
Proof. unfold SpecFor. by rewrite norm_idem. Qed.

Lemma ValidatePolicy_ok p sp : ValidatePolicy p = Ok sp <-> policy_ok p sp.
Proof.
  unfold ValidatePolicy. rewrite SpecFor_norm. split.
  - destruct (tableSpecs !! norm (TableName p)) as [sp'|] eqn:E; [|done].
    intros H. unfold refuse in H.
    destruct (bool_decide (TimeColumn p ∈ ts_TimeColumns sp')) eqn:E1; [|done]. cbn [negb] in H.
    destruct (negb (IntervalColumn p =? "")%string && negb (bool_decide (IntervalColumn p ∈ ts_IntervalColumns sp'))) eqn:E2; [done|].
    destruct (negb (IntervalColumn p =? "")%string && (TrimSpace (IntervalValue p) =? "")%string) eqn:E3; [done|].
    destruct (RetentionDays p <=? 0) eqn:E4; [done|].
    destruct (RetentionDays p <? _) eqn:E5 in H; [done|].
    destruct (ChunkSize p <=? 0) eqn:E6; [done|].
    destruct (MaxRowsPerRun p <=? 0) eqn:E7; [done|].
    destruct (TimeoutSeconds p <=? 0) eqn:E8; [done|].
    injection H as ->. bool_to_prop. constructor; [done|done| |destruct (MinRetentionDays p >? ts_MinRetentionDays sp) eqn:G; lia|lia].
    intros Hne. split.
    + destruct E2 as [E2|E2]; bool_to_prop; done.
    + destruct E3 as [E3|E3]; bool_to_prop; done.
  - intros [Ht Hc Hi [Hd1 [Hd2 Hd3]] [Hs1 [Hs2 Hs3]]]. rewrite Ht.
    rewrite (bool_decide_eq_true_2 _ Hc). cbn [negb].
    assert (negb (IntervalColumn p =? "")%string && negb (bool_decide (IntervalColumn p ∈ ts_IntervalColumns sp)) = false
            /\ negb (IntervalColumn p =? "")%string && (TrimSpace (IntervalValue p) =? "")%string = false) as [-> ->].
    { destruct (String.eqb_spec (IntervalColumn p) "") as [|Hne]; [done|]. destruct (Hi Hne) as [Hin Hv].
      rewrite (bool_decide_eq_true_2 _ Hin). by apply String.eqb_neq in Hv as ->. }
    rewrite (proj2 (Z.leb_gt _ _) Hd1).
    assert ((RetentionDays p <? (if MinRetentionDays p >? ts_MinRetentionDays sp then MinRetentionDays p else ts_MinRetentionDays sp)) = false) as ->
      by (apply Z.ltb_ge; destruct (MinRetentionDays p >? ts_MinRetentionDays sp); lia).
    by rewrite (proj2 (Z.leb_gt _ _) Hs1), (proj2 (Z.leb_gt _ _) Hs2), (proj2 (Z.leb_gt _ _) Hs3).
Qed.

(** A step of the plan that keeps at least the days the table and the policy demand. *)
Definition safe_item (now : Time) (it : PlanItem) : Prop :=
  exists sp, policy_ok (pi_Policy it) sp /\ it = plan_item now (pi_Policy it) sp /\
    pi_CutoffTime it = now - RetentionDays (pi_Policy it) * Day /\
    pi_CutoffTime it <= now - Z.max (ts_MinRetentionDays sp) (MinRetentionDays (pi_Policy it)) * Day /\
    1 <= ts_MinRetentionDays sp.

Lemma tableSpecs_min t sp : tableSpecs !! t = Some sp -> 1 <= ts_MinRetentionDays sp.
Proof.
  assert (map_Forall (fun _ sp => 1 <= ts_MinRetentionDays sp) tableSpecs) as H by (apply (bool_decide_unpack _); by vm_compute).
  intros E. exact (H t sp E).
Qed.

Lemma plan_item_safe now p sp : policy_ok p sp -> safe_item now (plan_item now p sp).
Proof.
  intros H. exists sp. split; [exact H|]. split; [done|]. unfold plan_item; cbn [pi_CutoffTime pi_Policy].
  rewrite AddDate_days. pose proof (tableSpecs_min _ _ (ok_table _ _ H)). pose proof (ok_days _ _ H) as [? [??]].
  split; [lia|]. split; [|done]. assert (0 < Day) by done. nia.
Qed.

Lemma plan_loop_ok now ps :
  Forall (fun p => Enabled p = true -> exists sp, policy_ok p sp) ps ->
  exists items, plan_loop now ps = Ok items /\ map pi_Policy items = filter (fun p => Enabled p = true) ps /\
    Forall (safe_item now) items.
Proof.
  induction 1 as [|p ps Hp _ IH]; [by exists []|]. cbn [plan_loop].
  destruct IH as (items & E & Hm & Hs). rewrite filter_cons.
  destruct (Enabled p) eqn:Hen; cbn [negb]; [|exists items; by rewrite decide_False].
  destruct (Hp eq_refl) as [sp Hok]. rewrite (proj2 (ValidatePolicy_ok p sp) Hok), E, decide_True by done.
  exists (plan_item now p sp :: items). split; [done|]. split; [cbn [map]; by rewrite Hm|].
  constructor; [by apply plan_item_safe|done].
Qed.

Lemma plan_loop_err now ps :
  Exists (fun p => Enabled p = true /\ forall sp, ~ policy_ok p sp) ps -> exists e, plan_loop now ps = Err e.
Proof.
  induction 1 as [p ps [Hen Hno]|p ps _ [e IH]]; cbn [plan_loop].
  - rewrite Hen; cbn [negb]. destruct (ValidatePolicy p) as [sp|e] eqn:E; [|by exists e].
    apply ValidatePolicy_ok in E. by destruct (Hno sp).
  - destruct (negb (Enabled p)); [by exists e|]. destruct (ValidatePolicy p) as [sp|e']; [|by exists e'].
    rewrite IH. by exists e.
Qed.

Lemma policy_leb_total a b : policy_leb a b = false -> policy_leb b a = true.
Proof.
  unfold policy_leb. rewrite (Z.eqb_sym (Priority b)). destruct (Priority a =? Priority b) eqn:E; intros H; bool_to_prop; lia.
Qed.

Lemma policy_leb_trans a b c : policy_leb a b = true -> policy_leb b c = true -> policy_leb a c = true.
Proof.
  unfold policy_leb. intros H1 H2.
  destruct (Priority a =? Priority b) eqn:E1, (Priority b =? Priority c) eqn:E2, (Priority a =? Priority c) eqn:E3;
    bool_to_prop; lia.
Qed.

Lemma sorted_filter {A} (R : A -> A -> Prop) (P : A -> Prop) `{!forall x, Decision (P x)} (l : list A) :
  StronglySorted R l -> StronglySorted R (filter P l).
Proof.
  induction 1 as [|x l _ IH Hx]; [constructor|]. rewrite filter_cons. case_decide; [|done].
  constructor; [done|]. apply Forall_forall. intros y [_ Hy]%list_elem_of_filter. by eapply Forall_forall in Hx.
Qed.

(** A retention plan holds the enabled policies, by priority and id, each with a cutoff that
    keeps at least the days its table and its policy demand; one invalid enabled policy refuses
    the whole run. *)
Theorem Plan_spec now ps :
  (Forall (fun p => Enabled p = true -> exists sp, policy_ok p sp) ps ->
   exists items, Plan now ps = Ok items /\
     map pi_Policy items ≡ₚ filter (fun p => Enabled p = true) ps /\
     sorted_by policy_leb (map pi_Policy items) /\ Forall (safe_item now) items) /\
  (Exists (fun p => Enabled p = true /\ forall sp, ~ policy_ok p sp) ps -> exists e, Plan now ps = Err e).
Proof.
  unfold Plan. split; intros H.
  - destruct (plan_loop_ok now (stable_sort policy_leb ps)) as (items & E & Hm & Hs).
    { by rewrite stable_sort_perm. }
    exists items. rewrite Hm. split; [done|]. split; [by rewrite stable_sort_perm|]. split; [|done].
    apply sorted_filter, stable_sort_sorted; [apply policy_leb_total | apply policy_leb_trans].
  - apply plan_loop_err. apply Exists_exists in H as (p & Hp & Hq). apply Exists_exists.
    exists p. by rewrite elem_of_stable_sort.
Qed.

(** ** Partition names *)

(** The names of the tables: lower case, and nothing to trim. *)
Definition plain_name (t : string) : bool :=
  (ToLower t =? t)%string && match to_bytes t with a :: _ => solid a | [] => false end.

Lemma tableSpecs_plain t sp : tableSpecs !! t = Some sp -> plain_name t = true.
Proof.
  assert (map_Forall (fun t _ => plain_name t = true) tableSpecs) as H by (apply (bool_decide_unpack _); by vm_compute).
  intros E. exact (H t sp E).
Qed.

Definition month_partition (t : string) (y m : Z) : string := t +:+ "_" +:+ pad4 y +:+ "_" +:+ pad2 m.
Definition week_partition (t : string) (y w : Z) : string := t +:+ "_" +:+ pad4 y +:+ "_w" +:+ pad2 w.

Lemma append_assoc a b c : a +:+ b +:+ c = (a +:+ b) +:+ c.
Proof. apply to_bytes_inj. by rewrite !to_bytes_app, app_assoc. Qed.

Lemma ToLower_app s t : ToLower (s +:+ t) = ToLower s +:+ ToLower t.
Proof.
  unfold ToLower. apply to_bytes_inj. by rewrite !to_bytes_app, !to_of_bytes, map_app.
Qed.

Lemma two_digits_pad n : 0 <= n < 100 -> two_digits (digit (n / 10)) (digit (n mod 10)) = Some n.
Proof.
  intros Hn. unfold two_digits. rewrite !digit_val_digit by divlia. f_equal. divlia.
Qed.

Lemma pad4_digits y : 0 <= y < 10000 ->
  two_digits (digit (y / 1000)) (digit (y / 100 mod 10)) = Some (y / 100) /\
  two_digits (digit (y / 10 mod 10)) (digit (y mod 10)) = Some (y mod 100).
Proof.
  intros Hy. replace (y / 1000) with (y / 100 / 10) by (rewrite Z.div_div by lia; done).
  rewrite two_digits_pad by divlia. split; [done|].
  replace (y / 10 mod 10) with (y mod 100 / 10) by divlia. replace (y mod 10) with (y mod 100 mod 10) by divlia.
  by rewrite two_digits_pad by divlia.
Qed.

Section names.
Context (t : string) (Ht : plain_name t = true) (y n : Z) (Hy : 0 <= y < 10000) (Hn : 0 <= n < 100).

Lemma plain_trim mid : TrimSpace (t +:+ mid +:+ pad2 n) = t +:+ mid +:+ pad2 n.
Proof using Ht Hn.
  unfold plain_name in Ht. apply andb_true_iff in Ht as [_ H]. destruct (to_bytes t) as [|a l] eqn:E; [done|].
  assert (t +:+ mid +:+ pad2 n = of_bytes (a :: (l ++ to_bytes mid ++ [digit (n / 10)]) ++ [digit (n mod 10)])) as ->.
  { apply to_bytes_inj. rewrite !to_bytes_app, E. unfold pad2. rewrite !to_of_bytes. simpl. by rewrite <- !app_assoc. }
  apply TrimSpace_solid; [done|]. apply solid_digit. clear Hy. divlia.
Qed.

Lemma plain_prefix mid : HasPrefix (ToLower (t +:+ "_" +:+ mid)) (ToLower t +:+ "_") = true.
Proof.
  unfold HasPrefix. rewrite ToLower_app, (ToLower_app "_"). change (ToLower "_") with "_"%string.
  rewrite append_assoc. apply prefix_app.
Qed.

Lemma month_suffix : monthly (month_partition t y n) = Some (y, n).
Proof.
  unfold monthly, name_suffix, month_partition. rewrite !to_bytes_app. unfold pad4, pad2. rewrite !to_of_bytes.
  rewrite !rev_app_distr. cbn [rev app to_bytes String.list_ascii_of_string].
  rewrite (bool_decide_eq_true_2 (_ = [byte_of_Z 95])) by done.
  destruct (pad4_digits y Hy) as [-> ->]. rewrite two_digits_pad by done.
  rewrite bool_decide_eq_true_2 by done. do 2 f_equal. divlia.
Qed.

Lemma week_not_month : monthly (week_partition t y n) = None.
Proof.
  unfold monthly, name_suffix, week_partition. rewrite !to_bytes_app. unfold pad4, pad2. rewrite !to_of_bytes.
  rewrite !rev_app_distr. cbn [rev app to_bytes String.list_ascii_of_string].
  by rewrite !bool_decide_eq_false_2.
Qed.

Lemma week_suffix : weekly (week_partition t y n) = Some (y, n).
Proof.
  unfold weekly, name_suffix, week_partition. rewrite !to_bytes_app. unfold pad4, pad2. rewrite !to_of_bytes.
  rewrite !rev_app_distr. cbn [rev app to_bytes String.list_ascii_of_string].
  rewrite !(bool_decide_eq_false_2 ([_] = _)) by done. cbn [orb].
  rewrite (bool_decide_eq_true_2 (["_"%char; "w"%char] = _)) by done. cbn [orb].
  destruct (pad4_digits y Hy) as [-> ->]. rewrite two_digits_pad by done.
  rewrite bool_decide_eq_true_2 by done. do 2 f_equal. divlia.
Qed.
End names.

Lemma isoWeekStart_eq y w :
  isoWeekStart y w = Date y 1 4 - ((Weekday (Date y 1 4) + 6) mod 7) * Day + (w - 1) * 7 * Day.
Proof.
  unfold isoWeekStart. rewrite !AddDate_days.
  assert (0 <= Weekday (Date y 1 4) < 7) as Hw by (unfold Weekday; apply Z.mod_pos_bound; lia).
  destruct (Z.eqb_spec (Weekday (Date y 1 4)) 0) as [->|]; [done|].
  replace ((Weekday (Date y 1 4) + 6) mod 7) with (Weekday (Date y 1 4) - 1); [lia|].
  replace (Weekday (Date y 1 4) + 6) with (Weekday (Date y 1 4) - 1 + 1 * 7) by lia.
  rewrite Z.mod_add by lia. rewrite Z.mod_small; lia.
Qed.

Lemma isoWeekStart_monday y w : Weekday (isoWeekStart y w) = 1.
Proof.
  rewrite isoWeekStart_eq. unfold Weekday, day_of. unfold Date.
  replace (_ - _ + _) with ((days_of_date y 1 4 - ((days_of_date y 1 4 * Day / Day + 1) mod 7 + 6) mod 7 + (w - 1) * 7) * Day) by lia.
  rewrite !Z.div_mul by done. divlia.
Qed.

(** Partition names and ranges: for every table under retention, the name with a year and month
    is the calendar month (from its first day to the first day of the next), and the name with a
    year and week is the ISO week: it starts on a Monday, lasts seven days, and week one holds the
    fourth of January. *)
Theorem partition_names t sp y n :
  tableSpecs !! t = Some sp -> 0 <= y < 10000 ->
  (1 <= n <= 12 -> ParsePartitionRange t (month_partition t y n) = Some (Date y n 1, Date y (n + 1) 1)) /\
  (1 <= n <= 53 -> exists start,
     ParsePartitionRange t (week_partition t y n) = Some (start, start + 7 * Day) /\ Weekday start = 1 /\
     start <= Date y 1 4 + 7 * (n - 1) * Day < start + 7 * Day).
Proof.
  intros Ht%tableSpecs_plain Hy. unfold ParsePartitionRange. split; intros Hn.
  - assert (TrimSpace (month_partition t y n) = month_partition t y n) as ->.
    { unfold month_partition. rewrite (append_assoc (pad4 y)), (append_assoc "_"). apply (plain_trim t Ht n); lia. }
    rewrite month_suffix by lia. unfold month_partition. rewrite plain_prefix, andb_false_r.
    rewrite (proj2 (Z.ltb_ge n 1)), (proj2 (Z.ltb_ge 12 n)) by lia. cbn [orb]. by rewrite AddDate_month.
  - assert (TrimSpace (week_partition t y n) = week_partition t y n) as ->.
    { unfold week_partition. rewrite (append_assoc (pad4 y)), (append_assoc "_"). apply (plain_trim t Ht n); lia. }
    rewrite week_not_month, week_suffix by lia. unfold week_partition. rewrite plain_prefix, andb_false_r.
    rewrite (proj2 (Z.ltb_ge n 1)), (proj2 (Z.ltb_ge 53 n)) by lia. cbn [orb].
    exists (isoWeekStart y n). rewrite AddDate_days, isoWeekStart_monday, isoWeekStart_eq.
    split; [done|]. split; [done|]. pose proof (Z.mod_pos_bound (Weekday (Date y 1 4) + 6) 7). assert (0 < Day) by done. nia.
Qed.

(** The policy the migrations seed for one-minute klines, taken out of its dry run. *)
Definition kline_policy : Policy :=
  MkRetentionPolicy 1 "derivative_klines" "open_time" "interval" "1m" 14 10000 true false true "derivative_klines" 10 50000
    180 "auto" 7 RawEmpty.
Definition short_policy : Policy :=
  MkRetentionPolicy 2 "cvd_snapshots" "snapshot_time" "" "" 29 10000 true true false "" 5 50000 120 "delete" 1 RawEmpty.

Lemma kline_policy_ok : exists sp, policy_ok kline_policy sp.
Proof. eexists. apply ValidatePolicy_ok. vm_compute. reflexivity. Qed.

Lemma Plan_spec_witness :
  (exists items, Plan (20 * Day) [kline_policy] = Ok items /\
     map pi_Policy items ≡ₚ filter (fun p => Enabled p = true) [kline_policy] /\
     sorted_by policy_leb (map pi_Policy items) /\ Forall (safe_item (20 * Day)) items) /\
  (exists e, Plan (20 * Day) [kline_policy; short_policy] = Err e).
Proof.
  split.
  - apply (proj1 (Plan_spec (20 * Day) [kline_policy])). constructor; [|done]. intros _. apply kline_policy_ok.
  - apply (proj2 (Plan_spec (20 * Day) [kline_policy; short_policy])). apply Exists_cons_tl, Exists_cons_hd.
    split; [done|]. intros sp H%ValidatePolicy_ok. by vm_compute in H.
Defined.

Lemma partition_names_witness :
  ParsePartitionRange "derivative_klines" "derivative_klines_2024_12" = Some (Date 2024 12 1, Date 2025 1 1).
Proof.
  refine (proj1 (partition_names "derivative_klines" _ 2024 12 _ _) _); [by vm_compute|lia|lia].
Defined.
