(* ===== verification/RetentionStore.v ===== *)
(** * The tables retention acts on ([internal/retention]: [sql.go], [store.go])

    Rows are columns by name, a NULL column being absent; a table has its rows, each with the
    physical relation it lives in, and its child partitions.  A statement is built with numbered
    placeholders, as the code builds its SQL, and evaluated with the list of its arguments. *)

From S2P Require Import Prelude GoString GoTime GoFloat GoError GoJson Retention.

(** ** Data *)

(** Column values; [NUMERIC(38, 18)] is the integer of its units in the last place. *)
Inductive value :=
| VNum (n : Z)
| VTime (t : Time)
| VText (s : string)
| VBool (b : bool)
| VJson (j : json).

(** Schema and name of a relation. *)
Abbreviation RelName := (string * string)%type (only parsing).

Record Row := MkRow { home : RelName; cols : gmap string value }.

Definition col_num (r : Row) (c : string) : option Z := match cols r !! c with Some (VNum n) => Some n | _ => None end.
Definition col_time (r : Row) (c : string) : option Time := match cols r !! c with Some (VTime t) => Some t | _ => None end.
Definition col_text (r : Row) (c : string) : option string := match cols r !! c with Some (VText s) => Some s | _ => None end.
Definition col_bool (r : Row) (c : string) : option bool := match cols r !! c with Some (VBool b) => Some b | _ => None end.

(** A child partition and the range of the partition key it holds. *)
Record Child := MkChild { ch_name : RelName; ch_from : Time; ch_to : Time }.

Record Table := MkTableState { t_children : list Child; t_rows : list Row; t_next_id : Z }.

(** [data_cleanup_runs]; the metadata is the value that is encoded as JSON. *)
Record CleanupResult := MkCleanupResult {
  res_PolicyID : Z; res_TableName : string; res_IntervalValue : string; res_DryRun : bool; res_CutoffTime : Time;
  res_RowsMatched : Z; res_RowsDeleted : Z; res_PartitionsMatched : Z; res_PartitionsDropped : Z;
  res_RollupRowsRead : Z; res_RollupRowsWritten : Z; res_Status : string; res_ErrorMessage : string }.

Record CleanupMetadata := MkCleanupMetadata {
  cm_state : string; cm_partition_drop : bool; cm_rollup_target_interval : string; cm_dry_run : bool;
  cm_result : option CleanupResult }.

Record CleanupRun := MkCleanupRun {
  cr_policy_id : Z; cr_table_name : string; cr_status : string; cr_dry_run : bool; cr_cutoff_time : Time;
  cr_started_at : Time; cr_finished_at : option Time; cr_rows_matched : Z; cr_rows_deleted : Z;
  cr_error_message : option string; cr_metadata : CleanupMetadata }.

Record RollupRun := MkRollupRun {
  rr_policy_id : Z; rr_source_table : string; rr_target_table : string; rr_period : string; rr_status : string;
  rr_window_start : Time; rr_window_end : Time; rr_started_at : Time; rr_finished_at : option Time;
  rr_rows_read : Z; rr_rows_written : Z; rr_error_message : option string; rr_metadata : rollupSpec }.

Record DB := MkDB {
  tables : gmap string Table; cleanup_runs : gmap string CleanupRun; rollup_runs : gmap string RollupRun }.

Definition set_tables (ts : gmap string Table) (d : DB) : DB := MkDB ts (cleanup_runs d) (rollup_runs d).
Definition set_cleanup_runs (cr : gmap string CleanupRun) (d : DB) : DB := MkDB (tables d) cr (rollup_runs d).
Definition set_rollup_runs (rr : gmap string RollupRun) (d : DB) : DB := MkDB (tables d) (cleanup_runs d) rr.
Definition set_rows (rows : list Row) (t : Table) : Table := MkTableState (t_children t) rows (t_next_id t).

(** ** Statements ([sql.go]) *)

Inductive cmp := CmpLt | CmpEq.
Record cond := MkCond { c_column : string; c_cmp : cmp; c_arg : Z }.

Definition retentionWhereSQL (p : Policy) (firstArg : Z) : list cond * Z :=
  if (IntervalColumn p =? "")%string then ([MkCond (TimeColumn p) CmpLt firstArg], firstArg + 1)
  else ([MkCond (TimeColumn p) CmpLt firstArg; MkCond (IntervalColumn p) CmpEq (firstArg + 1)], firstArg + 2).

Record CountSQL := MkCountSQL { cs_table : string; cs_where : list cond }.
Record DeleteSQL := MkDeleteSQL {
  ds_table : string; ds_id : string; ds_where : list cond; ds_order : string; ds_limit_arg : Z }.

Definition BuildCountSQL (p : Policy) : result error CountSQL :=
  let! _ := ValidatePolicy p in
  let '(conds, _) := retentionWhereSQL p 1 in
  Ok (MkCountSQL (TableName p) conds).

Definition BuildChunkDeleteSQL (p : Policy) : result error DeleteSQL :=
  let! spec := ValidatePolicy p in
  let '(conds, limitArg) := retentionWhereSQL p 1 in
  Ok (MkDeleteSQL (TableName p) (ts_IDColumn spec) conds (TimeColumn p) limitArg).

Definition retentionArgs (p : Policy) (cutoff : Time) : list value :=
  ([VTime cutoff] ++ (if negb (IntervalColumn p =? "")%string then [VText (IntervalValue p)] else []))%list.

(** ** Evaluation *)

(** The argument of placeholder [$n]. *)
Definition arg (args : list value) (n : Z) : option value := if n <=? 0 then None else args !! Z.to_nat (n - 1).

(** A comparison with NULL, or of values of two types, selects nothing. *)
Definition holds (args : list value) (r : Row) (c : cond) : bool :=
  match c_cmp c, cols r !! c_column c, arg args (c_arg c) with
  | CmpLt, Some (VTime t), Some (VTime u) => t <? u
  | CmpEq, Some (VText s), Some (VText u) => (s =? u)%string
  | _, _, _ => false
  end.

Definition selected (args : list value) (conds : list cond) (r : Row) : bool := forallb (holds args r) conds.

(** [ORDER BY column ASC]: NULLs last. *)
Definition time_leb (column : string) (a b : Row) : bool :=
  match col_time a column, col_time b column with
  | Some t, Some u => t <=? u
  | Some _, None => true
  | None, Some _ => false
  | None, None => true
  end.

(** The order in which a query meets the rows of a table, before it sorts them. *)
Class ScanOrder := { scan : list Row -> list Row; scan_perm : forall l, scan l ≡ₚ l }.

Section store.
Context `{ScanOrder}.

Definition missing (t : string) : error := ErrorString ("pq: relation " +:+ Quote t +:+ " does not exist").

Definition exec_count (q : CountSQL) (args : list value) (d : DB) : result error Z :=
  match tables d !! cs_table q with
  | None => Err (missing (cs_table q))
  | Some t => Ok (Z.of_nat (length (filter (fun r => selected args (cs_where q) r = true) (t_rows t))))
  end.

(** The rows the inner query selects: the first of the sorted ones, up to the limit. *)
Definition chosen (q : DeleteSQL) (args : list value) (limit : nat) (rows : list Row) : list Row :=
  take limit (stable_sort (time_leb (ds_order q)) (filter (fun r => selected args (ds_where q) r = true) (scan rows))).

(** [DELETE ... WHERE id IN (...)]: every row with the id of a chosen one goes. *)
Definition victim (ids : list Z) (c : string) (r : Row) : bool :=
  match col_num r c with Some i => bool_decide (i ∈ ids) | None => false end.

Definition exec_delete (q : DeleteSQL) (args : list value) (d : DB) : result error (DB * Z) :=
  match tables d !! ds_table q, arg args (ds_limit_arg q) with
  | None, _ => Err (missing (ds_table q))
  | Some t, Some (VNum limit) =>
    if limit <? 0 then Err (ErrorString "pq: LIMIT must not be negative") else
    let ids := omap (fun r => col_num r (ds_id q)) (chosen q args (Z.to_nat limit) (t_rows t)) in
    let rest := filter (fun r => victim ids (ds_id q) r = false) (t_rows t) in
    Ok (set_tables (<[ds_table q := set_rows rest t]> (tables d)) d,
        Z.of_nat (length (t_rows t)) - Z.of_nat (length rest))
  | Some _, _ => Err (ErrorString "pq: bind message supplies too few parameters")
  end.

(** ** Store ([store.go])

    [fault] is an error of the database call, [fault_rows] one of [RowsAffected]; a failed
    statement changes nothing. *)

Definition CountEligible (fault : option error) (p : Policy) (cutoff : Time) (d : DB) : result error Z :=
  let! q := BuildCountSQL p in
  let fail e := Err (WrapError ("count eligible rows for " +:+ TableName p +:+ ": ") e "") in
  match fault with
  | Some e => fail e
  | None => match exec_count q (retentionArgs p cutoff) d with Ok n => Ok n | Err e => fail e end
  end.

Definition DeleteChunk (fault fault_rows : option error) (p : Policy) (cutoff : Time) (chunkSize : Z) (d : DB)
    : DB * result error Z :=
  match BuildChunkDeleteSQL p with
  | Err e => (d, Err e)
  | Ok q =>
    let fail d' what e := (d', Err (WrapError (what +:+ TableName p +:+ ": ") e "")) in
    match fault with
    | Some e => fail d "delete chunk for " e
    | None =>
      match exec_delete q (retentionArgs p cutoff ++ [VNum chunkSize])%list d with
      | Err e => fail d "delete chunk for " e
      | Ok (d', n) => match fault_rows with Some e => fail d' "delete rows affected for " e | None => (d', Ok n) end
      end
    end
  end.

(** The children in the catalog, by name. *)
Definition child_leb (a b : Child) : bool := str_leb (snd (ch_name a)) (snd (ch_name b)).
Definition children_of (d : DB) (t : string) : list Child :=
  match tables d !! t with Some tb => stable_sort child_leb (t_children tb) | None => [] end.

Definition ListEligiblePartitions (fault : option error) (p : Policy) (cutoff : Time) (d : DB)
    : result error (list Partition) :=
  let! _ := ValidatePolicy p in
  match fault with
  | Some e => Err (WrapError ("query partitions for " +:+ TableName p +:+ ": ") e "")
  | None => Ok (omap (fun c => eligible_partition (TableName p) cutoff (fst (ch_name c)) (snd (ch_name c)))
                     (children_of d (TableName p)))
  end.

Definition qualifiedPartitionName (pt : Partition) : string :=
  if (pt_SchemaName pt =? "")%string then pt_TableName pt else pt_SchemaName pt +:+ "." +:+ pt_TableName pt.

(** [DROP TABLE IF EXISTS]: the relation goes, with the rows that live in it. *)
Definition drop_relation (rel : RelName) (t : Table) : Table :=
  MkTableState (filter (fun c => ch_name c <> rel) (t_children t)) (filter (fun r => home r <> rel) (t_rows t)) (t_next_id t).

Definition DropPartition (fault : option error) (pt : Partition) (d : DB) : DB * option error :=
  match fault with
  | Some e => (d, Some (WrapError ("drop partition " +:+ qualifiedPartitionName pt +:+ ": ") e ""))
  | None => (set_tables (drop_relation (pt_SchemaName pt, pt_TableName pt) <$> tables d) d, None)
  end.

Definition StartCleanupRun (fault : option error) (runKey : string) (p : Policy) (cutoff : Time) (dryRun : bool)
    (metadata : CleanupMetadata) (wall : Time) (d : DB) : DB * option error :=
  match fault with
  | Some e => (d, Some (WrapError "start cleanup run: " e ""))
  | None =>
    let run := match cleanup_runs d !! runKey with
      | None => MkCleanupRun (ID p) (TableName p) "running" dryRun cutoff wall None 0 0 None metadata
      | Some o => MkCleanupRun (cr_policy_id o) (cr_table_name o) "running" dryRun cutoff wall None (cr_rows_matched o)
                    (cr_rows_deleted o) None metadata
      end in
    (set_cleanup_runs (<[runKey := run]> (cleanup_runs d)) d, None)
  end.

(** [NULLIF(s, '')]. *)
Definition nullif_empty (s : string) : option string := if (s =? "")%string then None else Some s.

Definition FinishCleanupRun (fault : option error) (runKey status : string) (rowsMatched rowsDeleted : Z) (errorMessage : string)
    (metadata : CleanupMetadata) (wall : Time) (d : DB) : DB * option error :=
  match fault with
  | Some e => (d, Some (WrapError "finish cleanup run: " e ""))
  | None =>
    (set_cleanup_runs (alter (fun o =>
       MkCleanupRun (cr_policy_id o) (cr_table_name o) status (cr_dry_run o) (cr_cutoff_time o) (cr_started_at o)
         (Some wall) rowsMatched rowsDeleted (nullif_empty errorMessage) metadata) runKey (cleanup_runs d)) d, None)
  end.
End store.

(** ** Selection *)

(** The rows a policy may remove. *)
Definition eligible (p : Policy) (cutoff : Time) (r : Row) : Prop :=
  (exists t, col_time r (TimeColumn p) = Some t /\ t < cutoff) /\
  (IntervalColumn p = "" \/ col_text r (IntervalColumn p) = Some (IntervalValue p)).

Definition eligibleb (p : Policy) (cutoff : Time) (r : Row) : bool :=
  selected (retentionArgs p cutoff) (fst (retentionWhereSQL p 1)) r.

Lemma selected_more p cutoff extra r :
  selected (retentionArgs p cutoff ++ extra) (fst (retentionWhereSQL p 1)) r = eligibleb p cutoff r.
Proof.
  unfold eligibleb, retentionArgs, retentionWhereSQL, selected.
  by destruct (IntervalColumn p =? "")%string.
Qed.

Lemma eligibleb_spec p cutoff r : eligibleb p cutoff r = true <-> eligible p cutoff r.
Proof.
  unfold eligibleb, eligible, retentionArgs, retentionWhereSQL, selected, col_time, col_text.
  destruct (String.eqb_spec (IntervalColumn p) "") as [->|Hne]; cbn [fst negb app forallb];
    unfold holds; cbn [c_cmp c_column c_arg arg].
  - rewrite andb_true_r. change (arg [VTime cutoff] 1) with (Some (VTime cutoff)).
    destruct (cols r !! TimeColumn p) as [[| t | | |]|]; split; try done; try (by intros [(? & ? & ?) _]).
    + intros H%Z.ltb_lt. eauto.
    + intros [(u & [= <-] & Hu) _]. by apply Z.ltb_lt.
  - change (arg [VTime cutoff; VText (IntervalValue p)] 1) with (Some (VTime cutoff)).
    change (arg [VTime cutoff; VText (IntervalValue p)] (1 + 1)) with (Some (VText (IntervalValue p))).
    rewrite !andb_true_iff. split.
    + intros (Ht & Hs & _). destruct (cols r !! TimeColumn p) as [[| t | | |]|]; try done.
      destruct (cols r !! IntervalColumn p) as [[| | s | |]|]; try done. bool_to_prop. subst. eauto.
    + intros [(t & Ht & Hlt) [He|Hs]]; [done|].
      destruct (cols r !! TimeColumn p) as [[| t' | | |]|]; simplify_eq.
      destruct (cols r !! IntervalColumn p) as [[| | s | |]|]; simplify_eq.
      rewrite String.eqb_refl. split; [by apply Z.ltb_lt|done].
Qed.

Lemma limit_arg p cutoff n :
  arg (retentionArgs p cutoff ++ [VNum n]) (snd (retentionWhereSQL p 1)) = Some (VNum n).
Proof. unfold retentionArgs, retentionWhereSQL. by destruct (IntervalColumn p =? "")%string. Qed.

Lemma time_leb_total c a b : time_leb c a b = false -> time_leb c b a = true.
Proof. unfold time_leb. destruct (col_time a c), (col_time b c); try done. intros H; bool_to_prop; lia. Qed.

Lemma time_leb_trans c x y z : time_leb c x y = true -> time_leb c y z = true -> time_leb c x z = true.
Proof.
  unfold time_leb. destruct (col_time x c), (col_time y c), (col_time z c); try done. intros; bool_to_prop; lia.
Qed.

(** ** Purging

    What a sequence of chunks does to the rows of a table: [k] rows are gone, all of them
    eligible, and no eligible row that is left is older than one that is gone. *)
Definition purged (p : Policy) (cutoff : Time) (k : nat) (rows rows' : list Row) : Prop :=
  exists gone, rows ≡ₚ gone ++ rows' /\ length gone = k /\ Forall (eligible p cutoff) gone /\
    forall g r, g ∈ gone -> r ∈ rows' -> eligible p cutoff r -> time_leb (TimeColumn p) g r = true.

Lemma purged_refl p cutoff rows : purged p cutoff 0 rows rows.
Proof. exists []. split; [done|]. split; [done|]. split; [done|]. by intros g r ?%elem_of_nil. Qed.

Lemma purged_trans p cutoff k1 k2 r0 r1 r2 :
  purged p cutoff k1 r0 r1 -> purged p cutoff k2 r1 r2 -> purged p cutoff (k1 + k2) r0 r2.
Proof.
  intros (g1 & P1 & L1 & E1 & O1) (g2 & P2 & L2 & E2 & O2).
  exists (g1 ++ g2). split; [by rewrite <- app_assoc, <- P2|]. split; [rewrite length_app; lia|].
  split; [by apply Forall_app|]. intros g r [Hg|Hg]%elem_of_app Hr He; [|by eauto].
  apply O1; [done| |done]. rewrite P2. by apply elem_of_app; right.
Qed.

(** Every row has an id, and no two have the same. *)
Definition ids_ok (rows : list Row) : Prop :=
  NoDup (map (fun r => col_num r "id") rows) /\ Forall (fun r => is_Some (col_num r "id")) rows.

#[export] Instance ids_ok_perm : Proper (Permutation ==> iff) ids_ok.
Proof. intros l k Hlk. unfold ids_ok. by rewrite Hlk. Qed.

Lemma ids_ok_app_r l k : ids_ok (l ++ k) -> ids_ok k.
Proof. unfold ids_ok. rewrite map_app, NoDup_app, Forall_app. tauto. Qed.

Lemma purged_ids p cutoff k rows rows' : purged p cutoff k rows rows' -> ids_ok rows -> ids_ok rows'.
Proof. intros (g & P & _) H. rewrite P in H. by apply ids_ok_app_r in H. Qed.

(** Deleting by id removes exactly the chosen rows. *)
Lemma delete_by_id rows chosen rest :
  ids_ok rows -> rows ≡ₚ chosen ++ rest ->
  filter (fun r => victim (omap (fun r => col_num r "id") chosen) "id" r = false) rows ≡ₚ rest.
Proof.
  intros Hids HP. rewrite HP in *. destruct Hids as [Hnd Hsome]. rewrite map_app, NoDup_app in Hnd.
  destruct Hnd as (_ & Hdisj & _). rewrite Forall_app in Hsome. destruct Hsome as [Hc Hr].
  rewrite filter_app, (filter_none _ chosen), (filter_all _ rest); [done| |].
  - rewrite Forall_forall in *. intros r Hin. unfold victim. destruct (Hr r Hin) as [i Hi]. rewrite Hi.
    apply bool_decide_eq_false. intros (r' & Hr' & E)%list_elem_of_omap.
    apply (Hdisj (Some i)); apply list_elem_of_fmap; [by exists r'|by exists r].
  - rewrite Forall_forall in *. intros r Hin. unfold victim. destruct (Hc r Hin) as [i Hi]. rewrite Hi.
    rewrite bool_decide_eq_true_2; [done|]. apply list_elem_of_omap. eauto.
Qed.

(** The rows a policy may remove, in number. *)
Definition count_eligible (p : Policy) (cutoff : Time) (rows : list Row) : nat :=
  length (filter (fun r => eligibleb p cutoff r = true) rows).

#[export] Instance count_eligible_perm p cutoff : Proper (Permutation ==> eq) (count_eligible p cutoff).
Proof. intros l k Hlk. unfold count_eligible. by rewrite Hlk. Qed.

Lemma count_eligible_purged p cutoff k rows rows' :
  purged p cutoff k rows rows' -> count_eligible p cutoff rows = (k + count_eligible p cutoff rows')%nat.
Proof.
  intros (g & P & L & E & _). rewrite P. unfold count_eligible. rewrite filter_app, length_app, filter_all; [lia|].
  eapply Forall_impl; [exact E|]. intros r. by rewrite eligibleb_spec.
Qed.

Lemma tableSpecs_id t sp : tableSpecs !! t = Some sp -> ts_IDColumn sp = "id".
Proof.
  assert (map_Forall (fun _ sp => ts_IDColumn sp = "id") tableSpecs) as H by (apply (bool_decide_unpack _); by vm_compute).
  intros E. exact (H t sp E).
Qed.

Section chunk.
Context `{ScanOrder} (p : Policy) (sp : TableSpec) (Hp : policy_ok p sp) (cutoff : Time).

Definition delete_sql : DeleteSQL :=
  MkDeleteSQL (TableName p) "id" (fst (retentionWhereSQL p 1)) (TimeColumn p) (snd (retentionWhereSQL p 1)).

Lemma BuildChunkDeleteSQL_ok : BuildChunkDeleteSQL p = Ok delete_sql.
Proof.
  unfold BuildChunkDeleteSQL. rewrite (proj2 (ValidatePolicy_ok p sp) Hp).
  unfold delete_sql. destruct (retentionWhereSQL p 1). by rewrite (tableSpecs_id _ _ (ok_table _ _ Hp)).
Qed.

Lemma chosen_purged n rows :
  ids_ok rows ->
  let ids := omap (fun r => col_num r "id") (chosen delete_sql (retentionArgs p cutoff ++ [VNum n])%list (Z.to_nat n) rows) in
  purged p cutoff (Z.to_nat n `min` count_eligible p cutoff rows) rows (filter (fun r => victim ids "id" r = false) rows).
Proof.
  intros Hids ids.
  set (sel := filter (fun r => eligibleb p cutoff r = true) (scan rows)).
  assert (chosen delete_sql (retentionArgs p cutoff ++ [VNum n])%list (Z.to_nat n) rows
          = take (Z.to_nat n) (stable_sort (time_leb (TimeColumn p)) sel)) as Hch.
  { unfold chosen. f_equal. f_equal. unfold sel. apply list_filter_iff. intros r. cbn [ds_where delete_sql]. by rewrite selected_more. }
  set (sorted := stable_sort (time_leb (TimeColumn p)) sel) in *.
  set (others := filter (fun r => ~ eligibleb p cutoff r = true) (scan rows)).
  set (C := take (Z.to_nat n) sorted) in *. set (R := drop (Z.to_nat n) sorted ++ others).
  assert (rows ≡ₚ C ++ R) as HP.
  { unfold C, R. rewrite app_assoc, take_drop. unfold sorted. rewrite stable_sort_perm.
    unfold sel, others. rewrite filter_app_complement. symmetry. apply scan_perm. }
  assert (filter (fun r => victim ids "id" r = false) rows ≡ₚ R) as HR by (unfold ids; rewrite Hch; by apply delete_by_id).
  exists C. split; [by rewrite HR|]. split; [|split].
  - unfold C. rewrite length_take. unfold sorted. rewrite length_stable_sort. unfold count_eligible, sel. by rewrite scan_perm.
  - apply Forall_take. unfold sorted. rewrite stable_sort_perm. apply Forall_forall. intros r [Hr _]%list_elem_of_filter.
    by apply eligibleb_spec.
  - intros g r Hg Hr He. rewrite HR in Hr. apply elem_of_app in Hr as [Hr|Hr].
    + assert (sorted_by (time_leb (TimeColumn p)) (C ++ drop (Z.to_nat n) sorted)) as Hs.
      { unfold C. rewrite take_drop. apply stable_sort_sorted; [apply time_leb_total | apply time_leb_trans]. }
      by apply (StronglySorted_app_1_elem_of _ _ _ _ _ Hs).
    + apply list_elem_of_filter in Hr as [Hr _]. by apply eligibleb_spec in He.
Qed.

(** A chunk without faults. *)
Lemma DeleteChunk_ok n d t :
  tables d !! TableName p = Some t -> ids_ok (t_rows t) -> 0 < n ->
  exists rows', purged p cutoff (Z.to_nat n `min` count_eligible p cutoff (t_rows t)) (t_rows t) rows' /\
    exec_delete delete_sql (retentionArgs p cutoff ++ [VNum n])%list d =
      Ok (set_tables (<[TableName p := set_rows rows' t]> (tables d)) d,
          Z.min n (Z.of_nat (count_eligible p cutoff (t_rows t)))).
Proof.
  intros Ht Hids Hn. eexists. split; [by apply chosen_purged|]. unfold exec_delete. cbn [ds_table delete_sql ds_limit_arg ds_id].
  rewrite Ht, limit_arg. rewrite (proj2 (Z.ltb_ge n 0)) by lia. f_equal. f_equal.
  destruct (chosen_purged n (t_rows t) Hids) as (g & P & L & _). apply Permutation_length in P. rewrite length_app in P.
  cbv zeta in L, P. lia.
Qed.
End chunk.

(** ** Well-formed tables *)

(** Ids are unique and below the sequence; partition names are unique, a row in a partition has
    its time in the partition's range, and that range is what the name says. *)
Record table_ok (column T : string) (t : Table) : Prop := {
  to_ids : ids_ok (t_rows t);
  to_next : forall r i, r ∈ t_rows t -> col_num r "id" = Some i -> i < t_next_id t;
  to_names : NoDup (map ch_name (t_children t));
  to_placed : forall r ch, r ∈ t_rows t -> ch ∈ t_children t -> home r = ch_name ch ->
    exists u, col_time r column = Some u /\ ch_from ch <= u < ch_to ch;
  to_named : forall ch s e, ch ∈ t_children t -> ParsePartitionRange T (snd (ch_name ch)) = Some (s, e) -> ch_to ch <= e }.

(** The same row, possibly with other columns updated. *)
Definition same_row (column : string) (r r' : Row) : Prop :=
  col_num r "id" = col_num r' "id" /\ home r = home r' /\ col_time r column = col_time r' column.

#[export] Instance same_row_equiv column : Equivalence (same_row column).
Proof.
  unfold same_row. split.
  - intros r. done.
  - intros r r' (?&?&?). done.
  - intros r1 r2 r3 (?&?&?) (?&?&?). split_and!; congruence.
Qed.
