(* ===== verification/Rollup.v ===== *)
(** * Kline rollups ([internal/retention/rollup.go])

    Closed klines of one interval before the cutoff are grouped into buckets of the next interval
    and upserted; aggregates follow SQL (NULLs are skipped, an aggregate of none is NULL).  Before
    that PostgreSQL types the parameters of the statement, which lib/pq sends without types. *)

From S2P Require Import Prelude GoString GoTime GoFloat GoError GoJson Retention RetentionStore.

Definition klines : string := "derivative_klines".

(** ** Aggregates *)

Definition agg (f : Z -> Z -> Z) (l : list (option Z)) : option Z :=
  foldr (fun x acc => match x, acc with Some a, Some b => Some (f a b) | Some a, None => Some a | None, _ => acc end) None l.

Definition agg_max := agg Z.max.
Definition agg_min := agg Z.min.
Definition numeric_add (a b : Z) : Z := a + b.
Definition agg_sum := agg numeric_add.

(** ** The types of parameters

    PostgreSQL analyses a statement whose parameters come without types use by use.  A use beside a
    typed operand or in a typed place fixes the type of its parameter, if it has none yet; an argument
    of a function that takes [VARIADIC "any"] gets the type the parameter has by then, perhaps none.
    An item of the select list of [INSERT ... SELECT] is given the type of its column after the list.
    At the end every use must have the type of its parameter. *)

Inductive sqltype := TNumeric | TText | TTimestamptz.
#[export] Instance sqltype_dec : EqDecision sqltype.
Proof. solve_decision. Defined.

(** A use of a parameter, and the type its place gives. *)
Record use := Use { u_param : nat; u_place : option sqltype }.

(** The uses with the types they get, in order, and the types of the parameters at the end. *)
Fixpoint analyse (known : gmap nat sqltype) (uses : list use) : list (nat * option sqltype) * gmap nat sqltype :=
  match uses with
  | [] => ([], known)
  | u :: rest =>
    let type := match known !! u_param u with Some t => Some t | None => u_place u end in
    let '(typed, final) := analyse (match type with Some t => <[u_param u := t]> known | None => known end) rest in
    ((u_param u, type) :: typed, final)
  end.

(** The first use whose type is not that of its parameter. *)
Definition undetermined (uses : list use) : option nat :=
  let '(typed, final) := analyse ∅ uses in
  fst <$> find (fun ut => negb (bool_decide (snd ut = final !! fst ut /\ snd ut <> None))) typed.

Definition prepare (uses : list use) : result error unit :=
  match undetermined uses with
  | Some n => Err (ErrorString ("pq: could not determine data type of parameter $" +:+ Itoa (Z.of_nat n)))
  | None => Ok tt
  end.

(** ** One statement: [UpsertKlineRollup] *)

(** Its uses: twice in the bucket, in the conditions, as arguments of [jsonb_build_object], and in the
    place of ["interval"]. *)
Definition rollup_uses : list use :=
  [Use 1 (Some TNumeric); Use 1 (Some TNumeric); Use 2 (Some TText); Use 3 (Some TTimestamptz);
   Use 2 None; Use 4 None; Use 4 (Some TText)].

(** [WHERE "interval" = $2 AND open_time < $3 AND is_closed = true]. *)
Definition closed_before (interval : string) (cutoff : Time) (r : Row) : bool :=
  bool_decide (col_text r "interval" = Some interval) &&
  match col_time r "open_time" with Some t => t <? cutoff | None => false end &&
  bool_decide (col_bool r "is_closed" = Some true).

Definition eligible_klines (interval : string) (cutoff : Time) (rows : list Row) : list Row :=
  filter (fun r => closed_before interval cutoff r = true) rows.

(** [to_timestamp(floor(extract(epoch FROM t) / s) * s)]. *)
Definition bucket_time (s : Z) (t : Time) : Time :=
  (t - unix_epoch * Second) / (s * Second) * (s * Second) + unix_epoch * Second.

Record group_key := MkGroupKey {
  gk_symbol_id : option Z; gk_exchange : option string; gk_market_type : option string;
  gk_source_symbol : option string; gk_bucket : option Time }.

#[export] Instance group_key_dec : EqDecision group_key.
Proof. solve_decision. Defined.

Definition key_of (s : Z) (r : Row) : group_key :=
  MkGroupKey (col_num r "symbol_id") (col_text r "exchange") (col_text r "market_type") (col_text r "source_symbol")
    (bucket_time s <$> col_time r "open_time").

Record candle := MkCandle {
  cd_key : group_key; cd_close_time : option Time; cd_open : option Z; cd_high : option Z; cd_low : option Z;
  cd_close : option Z; cd_volume : option Z; cd_quote_volume : option Z; cd_trade_count : option Z;
  cd_taker_buy_volume : option Z; cd_taker_buy_quote_volume : option Z; cd_source_rows : Z }.

(** [(array_agg(c ORDER BY open_time ASC))[1]], and the same with [DESC]. *)
Definition first_by_time (c : string) (g : list Row) : option Z :=
  match stable_sort (time_leb "open_time") g with r :: _ => col_num r c | [] => None end.
Definition last_by_time (c : string) (g : list Row) : option Z :=
  match stable_sort (fun a b => time_leb "open_time" b a) g with r :: _ => col_num r c | [] => None end.

Definition candle_of (k : group_key) (g : list Row) : candle :=
  let nums c := map (fun r => col_num r c) g in
  MkCandle k (agg_max (map (fun r => col_time r "close_time") g)) (first_by_time "open_price" g)
    (agg_max (nums "high_price")) (agg_min (nums "low_price")) (last_by_time "close_price" g)
    (agg_sum (nums "volume")) (agg_sum (nums "quote_volume")) (agg_sum (nums "trade_count"))
    (agg_sum (nums "taker_buy_volume")) (agg_sum (nums "taker_buy_quote_volume")) (Z.of_nat (length g)).

(** [GROUP BY]; the groups come in the order of their first rows. *)
Definition grouped (s : Z) (rows : list Row) : list candle :=
  map (fun k => candle_of k (filter (fun r => key_of s r = k) rows)) (remove_dups (map (key_of s) rows)).

(** Setting columns, an absent value being NULL. *)
Definition set_col (cv : string * option value) (m : gmap string value) : gmap string value :=
  match snd cv with Some v => <[fst cv := v]> m | None => delete (fst cv) m end.
Definition set_cols (l : list (string * option value)) (m : gmap string value) : gmap string value := foldr set_col m l.

(** What [DO UPDATE SET] writes: the open price, the market type and the source symbol stay. *)
Definition updated (spec : rollupSpec) (c : candle) : list (string * option value) := [
  ("close_time", VTime <$> cd_close_time c); ("high_price", VNum <$> cd_high c); ("low_price", VNum <$> cd_low c);
  ("close_price", VNum <$> cd_close c); ("volume", VNum <$> cd_volume c); ("quote_volume", VNum <$> cd_quote_volume c);
  ("trade_count", VNum <$> cd_trade_count c); ("taker_buy_volume", VNum <$> cd_taker_buy_volume c);
  ("taker_buy_quote_volume", VNum <$> cd_taker_buy_quote_volume c); ("is_closed", Some (VBool true));
  ("raw_data", Some (VJson (JObject [("rollup", JBool true); ("source_interval", JString (ru_SourceInterval spec));
     ("target_interval", JString (ru_TargetInterval spec)); ("source_rows", JInt (cd_source_rows c))]))) ].

Definition inserted (spec : rollupSpec) (id wall : Z) (c : candle) : list (string * option value) :=
  let k := cd_key c in
  ([("id", Some (VNum id)); ("symbol_id", VNum <$> gk_symbol_id k); ("exchange", VText <$> gk_exchange k);
   ("market_type", VText <$> gk_market_type k); ("source_symbol", VText <$> gk_source_symbol k);
   ("interval", Some (VText (ru_TargetInterval spec))); ("open_time", VTime <$> gk_bucket k);
   ("open_price", VNum <$> cd_open c); ("created_at", Some (VTime wall))] ++ updated spec c)%list.

(** The unique index [(symbol_id, exchange, "interval", open_time)]. *)
Abbreviation conflict_key := (option Z * option string * option string * option Time)%type (only parsing).
Definition row_key (r : Row) : conflict_key :=
  (col_num r "symbol_id", col_text r "exchange", col_text r "interval", col_time r "open_time").
Definition candle_key (spec : rollupSpec) (c : candle) : conflict_key :=
  (gk_symbol_id (cd_key c), gk_exchange (cd_key c), Some (ru_TargetInterval spec), gk_bucket (cd_key c)).

(** Where a new row goes: the table itself, or the partition of its time. *)
Definition route (t : string) (children : list Child) (time : option Time) : result error RelName :=
  match children, time with
  | [], _ => Ok ("public", t)
  | _, Some u =>
    match find (fun c => (ch_from c <=? u) && (u <? ch_to c)) children with
    | Some c => Ok (ch_name c)
    | None => Err (ErrorString "pq: no partition of relation found for row")
    end
  | _, None => Err (ErrorString "pq: no partition of relation found for row")
  end.

Definition put_candle (spec : rollupSpec) (wall : Time) (c : candle) (t : Table) : result error Table :=
  let k := candle_key spec c in
  if existsb (fun r => bool_decide (row_key r = k)) (t_rows t)
  then Ok (set_rows (map (fun r => if bool_decide (row_key r = k) then MkRow (home r) (set_cols (updated spec c) (cols r)) else r)
                         (t_rows t)) t)
  else
    let! rel := route klines (t_children t) (gk_bucket (cd_key c)) in
    Ok (MkTableState (t_children t)
          (t_rows t ++ [MkRow rel (set_cols (inserted spec (t_next_id t) wall c) ∅)])%list (t_next_id t + 1)).

Fixpoint put_candles (spec : rollupSpec) (wall : Time) (cs : list candle) (t : Table) : result error Table :=
  match cs with
  | [] => Ok t
  | c :: rest => let! t' := put_candle spec wall c t in put_candles spec wall rest t'
  end.

(** The parameters are typed before anything is read; a statement may not update a row twice; a
    failed statement changes nothing. *)
Definition exec_rollup (spec : rollupSpec) (cutoff wall : Time) (d : DB) : result error (DB * Z) :=
  match tables d !! klines with
  | None => Err (missing klines)
  | Some t =>
    let! _ := prepare rollup_uses in
    let cs := grouped (ru_BucketSeconds spec) (eligible_klines (ru_SourceInterval spec) cutoff (t_rows t)) in
    if bool_decide (NoDup (map (candle_key spec) cs)) then
      let! t' := put_candles spec wall cs t in
      Ok (set_tables (<[klines := t']> (tables d)) d, Z.of_nat (length cs))
    else Err (ErrorString "pq: ON CONFLICT DO UPDATE command cannot affect row a second time")
  end.

(** ** Store operations *)

Record RollupFaults := MkRollupFaults {
  rf_window : option error; rf_start : option error; rf_exec : option error; rf_rows : option error;
  rf_finish : option error }.
Definition no_rollup_faults : RollupFaults := MkRollupFaults None None None None None.

Definition KlineRollupWindow (fault : option error) (sourceInterval : string) (cutoff : Time) (d : DB)
    : result error (Time * Z) :=
  let fail e := Err (WrapError "query kline rollup window: " e "") in
  match fault, tables d !! klines with
  | Some e, _ => fail e
  | None, None => fail (missing klines)
  | None, Some t =>
    let rows := eligible_klines sourceInterval cutoff (t_rows t) in
    Ok (default cutoff (agg_min (map (fun r => col_time r "open_time") rows)), Z.of_nat (length rows))
  end.

Definition UpsertKlineRollup (fault fault_rows : option error) (spec : rollupSpec) (cutoff wall : Time) (d : DB)
    : DB * result error Z :=
  let fail e := (d, Err (WrapError ("upsert kline rollup " +:+ ru_SourceInterval spec +:+ " to " +:+
                                    ru_TargetInterval spec +:+ ": ") e "")) in
  match fault with
  | Some e => fail e
  | None =>
    match exec_rollup spec cutoff wall d with
    | Err e => fail e
    | Ok (d', n) =>
      match fault_rows with
      | Some e => (d', Err (WrapError "kline rollup rows affected: " e ""))
      | None => (d', Ok n)
      end
    end
  end.

Record RollupResult := MkRollupResult {
  rl_PolicyID : Z; rl_SourceTable : string; rl_TargetTable : string; rl_SourceInterval : string; rl_TargetInterval : string;
  rl_WindowStart : Time; rl_WindowEnd : Time; rl_RowsRead : Z; rl_RowsWritten : Z; rl_DryRun : bool }.

Definition StartRollupRun (fault : option error) (runKey : string) (p : Policy) (res : RollupResult) (metadata : rollupSpec)
    (wall : Time) (d : DB) : DB * option error :=
  match fault with
  | Some e => (d, Some (WrapError "start rollup run: " e ""))
  | None =>
    let run := match rollup_runs d !! runKey with
      | None => MkRollupRun (ID p) (rl_SourceTable res) (rl_TargetTable res) (rl_SourceInterval res) "running"
                  (rl_WindowStart res) (rl_WindowEnd res) wall None 0 0 None metadata
      | Some o => MkRollupRun (rr_policy_id o) (rr_source_table o) (rr_target_table o) (rr_period o) "running"
                    (rl_WindowStart res) (rl_WindowEnd res) wall None (rr_rows_read o) (rr_rows_written o) None metadata
      end in
    (set_rollup_runs (<[runKey := run]> (rollup_runs d)) d, None)
  end.

Definition FinishRollupRun (fault : option error) (runKey status : string) (rowsRead rowsWritten : Z) (errorMessage : string)
    (metadata : rollupSpec) (wall : Time) (d : DB) : DB * option error :=
  match fault with
  | Some e => (d, Some (WrapError "finish rollup run: " e ""))
  | None =>
    (set_rollup_runs (alter (fun o =>
       MkRollupRun (rr_policy_id o) (rr_source_table o) (rr_target_table o) (rr_period o) status (rr_window_start o)
         (rr_window_end o) (rr_started_at o) (Some wall) rowsRead rowsWritten (nullif_empty errorMessage) metadata)
       runKey (rollup_runs d)) d, None)
  end.

Definition RollupRunKey (p : Policy) (cutoff : Time) (targetInterval : string) : string :=
  "rollup:" +:+ Itoa (ID p) +:+ ":" +:+ TableName p +:+ ":" +:+ IntervalValue p +:+ ":" +:+ targetInterval +:+ ":" +:+
  FormatCompact cutoff.

(** ** [RollupEngine.RollupBeforeDelete] *)

Definition zero_rollup : RollupResult := MkRollupResult 0 "" "" "" "" 0 0 0 0 false.

Definition RollupBeforeDelete (hasStore : bool) (f : RollupFaults) (p : Policy) (cutoff : Time) (dryRun : bool)
    (wall : Time) (d : DB) : DB * RollupResult * option error :=
  if negb (TableName p =? klines)%string then
    (d, zero_rollup, Some (ErrorString ("rollup_before_delete is only supported for derivative_klines, got " +:+ TableName p))) else
  match klineRollups !! IntervalValue p with
  | None => (d, zero_rollup, Some (ErrorString ("no kline rollup target for interval " +:+ Quote (IntervalValue p))))
  | Some spec =>
    let res start read written :=
      MkRollupResult (ID p) (TableName p) klines (ru_SourceInterval spec) (ru_TargetInterval spec) start cutoff read written dryRun in
    if negb hasStore then (d, res 0 0 0, Some (ErrorString "retention rollup store is required")) else
    match KlineRollupWindow (rf_window f) (ru_SourceInterval spec) cutoff d with
    | Err e => (d, res 0 0 0, Some e)
    | Ok (windowStart, rowsRead) =>
      if (rowsRead =? 0) || dryRun then (d, res windowStart rowsRead 0, None) else
      let runKey := RollupRunKey p cutoff (ru_TargetInterval spec) in
      match StartRollupRun (rf_start f) runKey p (res windowStart rowsRead 0) spec wall d with
      | (d1, Some e) => (d1, res windowStart rowsRead 0, Some e)
      | (d1, None) =>
        match UpsertKlineRollup (rf_exec f) (rf_rows f) spec cutoff wall d1 with
        | (d2, Err e) =>
          (fst (FinishRollupRun (rf_finish f) runKey "failed" rowsRead 0 (Error e) spec wall d2), res windowStart rowsRead 0, Some e)
        | (d2, Ok rowsWritten) =>
          let '(d3, err) := FinishRollupRun (rf_finish f) runKey "succeeded" rowsRead rowsWritten "" spec wall d2 in
          (d3, res windowStart rowsRead rowsWritten, err)
        end
      end
    end
  end.

(** ** Columns *)

Lemma set_cols_eq k v l m : set_cols ((k, v) :: l) m !! k = v.
Proof. cbn [set_cols foldr]. unfold set_col; cbn [fst snd]. destruct v; by simplify_map_eq. Qed.

Lemma set_cols_ne k k' v l m : k <> k' -> set_cols ((k', v) :: l) m !! k = set_cols l m !! k.
Proof. intros Hk. cbn [set_cols foldr]. unfold set_col; cbn [fst snd]. destruct v; by simplify_map_eq. Qed.

Lemma set_cols_other k l m : k ∉ map fst l -> set_cols l m !! k = m !! k.
Proof.
  induction l as [|[k' v] l IH]; [done|]. intros [Hne Hl]%not_elem_of_cons. rewrite set_cols_ne by done. by apply IH.
Qed.

#[global] Arguments set_cols : simpl never.

Ltac set_cols_lookup := repeat first [rewrite set_cols_eq | rewrite set_cols_ne by done].

Lemma updated_keeps spec c m k :
  k ∈ ["id"; "symbol_id"; "exchange"; "market_type"; "source_symbol"; "interval"; "open_time"; "open_price"; "created_at"] ->
  set_cols (updated spec c) m !! k = m !! k.
Proof.
  intros Hk. apply set_cols_other. rewrite !elem_of_cons in Hk.
  destruct_or! Hk; try (by apply elem_of_nil in Hk); subst; cbn [map fst updated];
    rewrite !not_elem_of_cons; repeat split; try done; apply not_elem_of_nil.
Qed.

(** The key of the row a candle is written to. *)
Definition rolled_row (spec : rollupSpec) (rel : RelName) (id wall : Z) (c : candle) : Row :=
  MkRow rel (set_cols (inserted spec id wall c) ∅).

Lemma option_num (o : option Z) : match VNum <$> o with Some (VNum n) => Some n | _ => None end = o.
Proof. by destruct o. Qed.
Lemma option_text (o : option string) : match VText <$> o with Some (VText n) => Some n | _ => None end = o.
Proof. by destruct o. Qed.
Lemma option_time (o : option Time) : match VTime <$> o with Some (VTime n) => Some n | _ => None end = o.
Proof. by destruct o. Qed.

Lemma rolled_row_cols spec rel id wall c :
  col_num (rolled_row spec rel id wall c) "id" = Some id /\
  row_key (rolled_row spec rel id wall c) = candle_key spec c /\
  col_num (rolled_row spec rel id wall c) "open_price" = cd_open c /\
  col_num (rolled_row spec rel id wall c) "volume" = cd_volume c.
Proof.
  unfold row_key, candle_key, col_num, col_text, col_time, rolled_row, inserted, updated. cbn [cols app].
  set_cols_lookup. by rewrite !option_num, !option_text, !option_time.
Qed.

(** ** The rollup keeps every row *)

Definition rolls (T : string) (t t' : Table) : Prop :=
  table_ok "open_time" T t' /\ t_children t' = t_children t /\
  forall r, r ∈ t_rows t -> exists r', r' ∈ t_rows t' /\ same_row "open_time" r r'.

Lemma updated_same_row spec c r :
  same_row "open_time" r (MkRow (home r) (set_cols (updated spec c) (cols r))).
Proof.
  unfold same_row, col_num, col_time; cbn [cols home].
  rewrite !updated_keeps by (rewrite !elem_of_cons; tauto). done.
Qed.

(** Replacing rows by rows that are the same but for updated columns. *)
Lemma map_same_ok T t (f : Row -> Row) :
  (forall r, same_row "open_time" r (f r)) -> table_ok "open_time" T t -> rolls T t (set_rows (map f (t_rows t)) t).
Proof.
  intros Hf [[Hnd Hsome] Hnext Hnames Hplaced Hnamed]. split; [|split; [done|]].
  - constructor; cbn [t_rows t_next_id t_children set_rows].
    + split.
      * rewrite map_map. erewrite map_ext; [exact Hnd|]. intros r. destruct (Hf r) as (E & _). done.
      * apply Forall_map. eapply Forall_impl; [exact Hsome|]. intros r Hr. cbn. destruct (Hf r) as (E & _). by rewrite <- E.
    + intros r i (r0 & -> & Hr0)%list_elem_of_fmap. destruct (Hf r0) as (E & _). rewrite <- E. by apply Hnext.
    + done.
    + intros r ch (r0 & -> & Hr0)%list_elem_of_fmap Hch Hh. destruct (Hf r0) as (_ & E1 & E2).
      rewrite <- E2. apply (Hplaced r0); [done|done|]. by rewrite E1.
    + done.
  - intros r Hr. exists (f r). split; [|done]. cbn [t_rows set_rows]. by apply list_elem_of_fmap_2.
Qed.

Lemma ids_ok_snoc rows r i :
  ids_ok rows -> col_num r "id" = Some i -> (forall r' j, r' ∈ rows -> col_num r' "id" = Some j -> j < i) ->
  ids_ok (rows ++ [r]).
Proof.
  intros [Hnd Hsome] Hi Hlt. split.
  - rewrite map_app. apply NoDup_app. split; [done|]. split; [|apply NoDup_singleton].
    intros o (r' & -> & Hr')%list_elem_of_fmap. cbn [map]. rewrite list_elem_of_singleton, Hi. intros E.
    specialize (Hlt r' i Hr' E). lia.
  - apply Forall_app. split; [done|]. rewrite Forall_singleton. by rewrite Hi.
Qed.

Lemma route_placed T (children : list Child) (b : option Time) rel ch :
  NoDup (map ch_name children) -> route T children b = Ok rel -> ch ∈ children -> rel = ch_name ch ->
  exists u, b = Some u /\ ch_from ch <= u < ch_to ch.
Proof.
  intros Hnd Hr Hch ->. unfold route in Hr. destruct children as [|c0 cs] eqn:Ec; [by apply elem_of_nil in Hch|].
  destruct b as [u|]; [|done]. rewrite <- Ec in *. clear Ec.
  destruct (find _ children) as [c1|] eqn:Ef; [|done]. injection Hr as Hr. apply find_some in Ef as [Hin Hb].
  apply list_elem_of_In in Hin. assert (c1 = ch) as ->.
  { apply list_elem_of_lookup in Hin as [i Hi], Hch as [j Hj].
    assert (i = j) as ->; [|congruence]. eapply NoDup_lookup; [exact Hnd| |].
    - rewrite list_lookup_fmap, Hi. done.
    - rewrite list_lookup_fmap, Hj. cbn. by rewrite Hr. }
  exists u. split; [done|]. bool_to_prop. lia.
Qed.

Lemma put_candle_rolls T spec wall c t t' :
  table_ok "open_time" T t -> put_candle spec wall c t = Ok t' -> rolls T t t'.
Proof.
  intros Hok. unfold put_candle. destruct (existsb _ _).
  - intros [= <-]. apply map_same_ok; [|done]. intros r. destruct (bool_decide _); [apply updated_same_row|done].
  - destruct (route klines (t_children t) (gk_bucket (cd_key c))) as [rel|] eqn:Er; [|done]. intros [= <-].
    set (nr := rolled_row spec rel (t_next_id t) wall c). change (MkRow rel _) with nr.
    destruct (rolled_row_cols spec rel (t_next_id t) wall c) as (Hid & Hkey & _). fold nr in Hid, Hkey.
    assert (col_time nr "open_time" = gk_bucket (cd_key c)) as Htime by (unfold row_key, candle_key in Hkey; congruence).
    destruct Hok as [Hids Hnext Hnames Hplaced Hnamed]. split; [|split; [done|]].
    + constructor; cbn [t_rows t_next_id t_children]; [by eapply ids_ok_snoc| |done| |done].
      * intros r i [Hr|Hr%list_elem_of_singleton]%elem_of_app Hi; [specialize (Hnext r i Hr Hi)|simplify_eq]; lia.
      * intros r ch [Hr|Hr%list_elem_of_singleton]%elem_of_app Hch Hh; [by apply Hplaced|]. subst r. rewrite Htime.
        by eapply route_placed.
    + intros r Hr. exists r. split; [|done]. cbn [t_rows]. by apply elem_of_app; left.
Qed.

Lemma put_candles_rolls T spec wall cs t t' :
  table_ok "open_time" T t -> put_candles spec wall cs t = Ok t' -> rolls T t t'.
Proof.
  revert t. induction cs as [|c cs IH]; intros t Hok; cbn [put_candles].
  - intros [= <-]. split; [done|]. split; [done|]. intros r Hr. by exists r.
  - destruct (put_candle spec wall c t) as [t1|] eqn:E1; [|done]. intros E2.
    destruct (put_candle_rolls _ _ _ _ _ _ Hok E1) as (Hok1 & Hc1 & Hr1).
    destruct (IH _ Hok1 E2) as (Hok2 & Hc2 & Hr2). split; [done|]. split; [congruence|].
    intros r Hr. destruct (Hr1 r Hr) as (r1 & Hin1 & S1). destruct (Hr2 r1 Hin1) as (r2 & Hin2 & S2).
    exists r2. split; [done|]. by etrans.
Qed.

(** What a rollup does to the tables, whatever fails: nothing, or its candles are put. *)
Lemma RollupBeforeDelete_tables hs f p cutoff dry wall d d' res err :
  RollupBeforeDelete hs f p cutoff dry wall d = (d', res, err) ->
  (tables d' = tables d) \/
  (dry = false /\ TableName p = klines /\ exists t t' spec cs,
     tables d !! klines = Some t /\ put_candles spec wall cs t = Ok t' /\ tables d' = <[klines := t']> (tables d)).
Proof.
  unfold RollupBeforeDelete. intros E.
  destruct (String.eqb_spec (TableName p) klines) as [HT|]; cbn [negb] in E; [|simplify_eq; by left].
  destruct (klineRollups !! IntervalValue p) as [spec|]; [|simplify_eq; by left].
  destruct hs; cbn [negb] in E; [|simplify_eq; by left].
  destruct (KlineRollupWindow _ _ _ _) as [[ws rr]|]; [|simplify_eq; by left].
  destruct ((rr =? 0) || dry) eqn:G; [simplify_eq; by left|]. apply orb_false_iff in G as [_ ->].
  unfold StartRollupRun in E. destruct (rf_start f); [simplify_eq; by left|]. cbv zeta in E.
  set (d1 := set_rollup_runs _ d) in E.
  unfold UpsertKlineRollup, exec_rollup, FinishRollupRun in E. change (tables d1) with (tables d) in E.
  destruct (rf_exec f); [destruct (rf_finish f); simplify_eq; by left|].
  destruct (tables d !! klines) as [t|] eqn:Ht; [|destruct (rf_finish f); simplify_eq; by left].
  destruct (prepare rollup_uses); [|destruct (rf_finish f); simplify_eq; by left].
  destruct (bool_decide _); [|destruct (rf_finish f); simplify_eq; by left].
  destruct (put_candles spec wall _ t) as [t'|] eqn:Ep; [|destruct (rf_finish f); simplify_eq; by left].
  right. split; [done|]. split; [done|]. exists t, t', spec. eexists. split; [done|]. split; [exact Ep|].
  destruct (rf_rows f), (rf_finish f); by simplify_eq.
Qed.

(** ** The statement is refused *)

(** The fourth parameter has no type where [jsonb_build_object] takes it, and is a text at the end. *)
Lemma rollup_unprepared : prepare rollup_uses = Err (ErrorString "pq: could not determine data type of parameter $4").
Proof. vm_compute. reflexivity. Qed.

Definition refusal (spec : rollupSpec) : error :=
  WrapError ("upsert kline rollup " +:+ ru_SourceInterval spec +:+ " to " +:+ ru_TargetInterval spec +:+ ": ")
    (ErrorString "pq: could not determine data type of parameter $4") "".

Lemma exec_rollup_refused spec cutoff wall d t :
  tables d !! klines = Some t -> exec_rollup spec cutoff wall d = Err (ErrorString "pq: could not determine data type of parameter $4").
Proof. intros Ht. unfold exec_rollup. by rewrite Ht, rollup_unprepared. Qed.

Lemma klineRollups_source i spec : klineRollups !! i = Some spec -> ru_SourceInterval spec = i.
Proof.
  intros Hi. assert (map_Forall (fun i spec => ru_SourceInterval spec = i) klineRollups) as Hall; [|exact (Hall i spec Hi)].
  apply (bool_decide_unpack _). vm_compute. exact I.
Qed.

(** A live rollup of a table with a closed row before the cutoff fails, whatever else does, and changes no table. *)
Lemma rollup_refused hs f p cutoff wall d t r :
  tables d !! klines = Some t -> r ∈ t_rows t -> closed_before (IntervalValue p) cutoff r = true ->
  exists d' res e, RollupBeforeDelete hs f p cutoff false wall d = (d', res, Some e) /\ tables d' = tables d.
Proof.
  intros Ht Hr Hc. unfold RollupBeforeDelete. destruct (negb (TableName p =? klines)%string); [by eexists _, _, _|].
  destruct (klineRollups !! IntervalValue p) as [spec|] eqn:Hs; [|by eexists _, _, _].
  apply klineRollups_source in Hs. destruct (negb hs); [by eexists _, _, _|].
  unfold KlineRollupWindow. rewrite Ht, Hs. destruct (rf_window f); [by eexists _, _, _|].
  assert (r ∈ eligible_klines (IntervalValue p) cutoff (t_rows t)) as Hin by by apply list_elem_of_filter.
  destruct (eligible_klines (IntervalValue p) cutoff (t_rows t)) as [|r0 l]; [by apply not_elem_of_nil in Hin|].
  cbn [length Z.of_nat Z.eqb orb]. unfold StartRollupRun. destruct (rf_start f); [by eexists _, _, _|].
  cbv zeta. set (d1 := set_rollup_runs _ d). assert (tables d1 !! klines = Some t) as Ht1 by done.
  unfold UpsertKlineRollup. rewrite (exec_rollup_refused spec cutoff wall d1 t Ht1).
  unfold FinishRollupRun. destruct (rf_exec f), (rf_finish f); by eexists _, _, _.
Qed.

(** Without other failures the run is recorded as failed. *)
Lemma rollup_recorded p cutoff wall d t r spec :
  TableName p = klines -> klineRollups !! IntervalValue p = Some spec ->
  tables d !! klines = Some t -> r ∈ t_rows t -> closed_before (IntervalValue p) cutoff r = true ->
  exists d' res run, RollupBeforeDelete true no_rollup_faults p cutoff false wall d = (d', res, Some (refusal spec)) /\
    rollup_runs d' !! RollupRunKey p cutoff (ru_TargetInterval spec) = Some run /\ rr_status run = "failed" /\
    cleanup_runs d' = cleanup_runs d.
Proof.
  intros HT Hs Ht Hr Hc. unfold RollupBeforeDelete. rewrite HT, Hs. pose proof (klineRollups_source _ _ Hs) as Hi.
  cbn [negb]. unfold KlineRollupWindow. rewrite Ht, Hi. cbn [rf_window no_rollup_faults].
  assert (r ∈ eligible_klines (IntervalValue p) cutoff (t_rows t)) as Hin by by apply list_elem_of_filter.
  destruct (eligible_klines (IntervalValue p) cutoff (t_rows t)) as [|r0 l]; [by apply not_elem_of_nil in Hin|].
  cbn [String.eqb negb length Z.of_nat Z.eqb orb]. rewrite String.eqb_refl. cbn [negb].
  unfold StartRollupRun. cbn [rf_start no_rollup_faults]. cbv zeta. set (d1 := set_rollup_runs _ d).
  assert (tables d1 !! klines = Some t) as Ht1 by done.
  unfold UpsertKlineRollup. cbn [rf_exec no_rollup_faults]. rewrite (exec_rollup_refused spec cutoff wall d1 t Ht1).
  unfold FinishRollupRun. cbn [rf_finish no_rollup_faults]. unfold refusal. rewrite Hi.
  eexists _, _, _. split; [reflexivity|]. cbn [fst rollup_runs set_rollup_runs d1]. rewrite lookup_alter_eq, lookup_insert_eq.
  split; [reflexivity|]. by split.
Qed.

(** ** A sample table *)

(** A closed one-minute kline, [m] minutes into 2024, of volume [v]. *)
Definition minute_row (i m v : Z) : Row :=
  let t := Date 2024 1 1 + m * Minute in
  MkRow ("public", klines) (set_cols
    [("id", Some (VNum i)); ("symbol_id", Some (VNum 1)); ("exchange", Some (VText "binance"));
     ("market_type", Some (VText "perpetual")); ("source_symbol", Some (VText "BTCUSDT")); ("interval", Some (VText "1m"));
     ("open_time", Some (VTime t)); ("close_time", Some (VTime (t + Minute))); ("open_price", Some (VNum 10));
     ("high_price", Some (VNum 12)); ("low_price", Some (VNum 9)); ("close_price", Some (VNum 11));
     ("volume", Some (VNum v)); ("is_closed", Some (VBool true))] ∅).

Definition five_minutes (v0 v1 v2 v3 v4 : Z) : DB :=
  MkDB (<[klines := MkTableState [] [minute_row 1 0 v0; minute_row 2 1 v1; minute_row 3 2 v2; minute_row 4 3 v3; minute_row 5 4 v4] 6]> ∅)
    ∅ ∅.
