(* ===== verification/RetentionEngine.v ===== *)
(** * The retention engine ([internal/retention/engine.go], [metrics.go] and [ListEnabledPolicies])

    One run: the enabled policies are planned, and every item of the plan counts what it may
    remove, rolls it up, and drops partitions or deletes chunks.  Errors of the database (the
    context's deadline included) are inputs, one per call. *)

From S2P Require Import Prelude GoString GoTime GoFloat GoError GoJson Retention RetentionStore Rollup.

(** ** Data *)

Record EngineOptions := MkEngineOptions { opt_MaxRowsPerRun : Z; opt_DiskPressureCritical : bool }.

(** The engine: whether it and its rollups have a store, and its options. *)
Record Engine := MkEngine { e_Store : bool; e_RollupStore : bool; e_Options : EngineOptions }.

Record ItemFaults := MkItemFaults {
  if_start : option error; if_count : option error; if_rollup : RollupFaults; if_partitions : option error;
  if_drop : nat -> option error; if_chunk : nat -> option error; if_chunk_rows : nat -> option error;
  if_finish : option error; if_wall : Time }.
Definition no_item_faults (wall : Time) : ItemFaults :=
  MkItemFaults None None no_rollup_faults None (fun _ => None) (fun _ => None) (fun _ => None) None wall.

Definition zero_result : CleanupResult := MkCleanupResult 0 "" "" false 0 0 0 0 0 0 0 "" "".

Definition with_rows (matched deleted : Z) (r : CleanupResult) : CleanupResult :=
  MkCleanupResult (res_PolicyID r) (res_TableName r) (res_IntervalValue r) (res_DryRun r) (res_CutoffTime r) matched deleted
    (res_PartitionsMatched r) (res_PartitionsDropped r) (res_RollupRowsRead r) (res_RollupRowsWritten r)
    (res_Status r) (res_ErrorMessage r).
Definition with_partitions (matched dropped : Z) (r : CleanupResult) : CleanupResult :=
  MkCleanupResult (res_PolicyID r) (res_TableName r) (res_IntervalValue r) (res_DryRun r) (res_CutoffTime r)
    (res_RowsMatched r) (res_RowsDeleted r) matched dropped (res_RollupRowsRead r) (res_RollupRowsWritten r)
    (res_Status r) (res_ErrorMessage r).
Definition with_rollup (read written : Z) (r : CleanupResult) : CleanupResult :=
  MkCleanupResult (res_PolicyID r) (res_TableName r) (res_IntervalValue r) (res_DryRun r) (res_CutoffTime r)
    (res_RowsMatched r) (res_RowsDeleted r) (res_PartitionsMatched r) (res_PartitionsDropped r) read written
    (res_Status r) (res_ErrorMessage r).
Definition with_failure (msg : string) (r : CleanupResult) : CleanupResult :=
  MkCleanupResult (res_PolicyID r) (res_TableName r) (res_IntervalValue r) (res_DryRun r) (res_CutoffTime r)
    (res_RowsMatched r) (res_RowsDeleted r) (res_PartitionsMatched r) (res_PartitionsDropped r) (res_RollupRowsRead r)
    (res_RollupRowsWritten r) "failed" msg.

(** ** Keys, metadata, budgets *)

Definition CleanupRunKey (p : Policy) (cutoff : Time) : string :=
  let interval := if (IntervalValue p =? "")%string then "all" else IntervalValue p in
  "cleanup:" +:+ Itoa (ID p) +:+ ":" +:+ TableName p +:+ ":" +:+ interval +:+ ":" +:+ FormatCompact cutoff.

Definition cleanupMetadata (item : PlanItem) (state : string) (res : option CleanupResult) : CleanupMetadata :=
  MkCleanupMetadata state (pi_UsePartitionDrop item) (pi_RollupTargetInterval item) (pi_DryRun item) res.

Definition effectiveMaxRows (p : Policy) (optionMax : Z) : Z :=
  let maxRows := if (0 <? optionMax) && (optionMax <? MaxRowsPerRun p) then optionMax else MaxRowsPerRun p in
  if maxRows <=? 0 then ChunkSize p else maxRows.

(** ** Policies in the database *)

Record PolicyRow := MkPolicyRow {
  pr_policy : Policy; pr_interval_column : option string; pr_interval_value : option string;
  pr_rollup_target_table : option string }.

(** [scanRetentionPolicy]: NULL text columns are empty strings. *)
Definition scanRetentionPolicy (r : PolicyRow) : Policy :=
  let p := pr_policy r in
  MkRetentionPolicy (ID p) (TableName p) (TimeColumn p) (default "" (pr_interval_column r)) (default "" (pr_interval_value r))
    (RetentionDays p) (ChunkSize p) (Enabled p) (DryRun p) (Retention.RollupBeforeDelete p)
    (default "" (pr_rollup_target_table r)) (Priority p) (MaxRowsPerRun p) (TimeoutSeconds p) (PartitionStrategy p)
    (MinRetentionDays p) (match Metadata p with RawEmpty => RawJson (JObject []) | m => m end).

Definition policy_row_leb (a b : PolicyRow) : bool :=
  let p := pr_policy a in
  let q := pr_policy b in
  if negb (Priority p =? Priority q) then Priority p <? Priority q else
  if negb (TableName p =? TableName q)%string then str_leb (TableName p) (TableName q) else
  str_leb (default "" (pr_interval_value a)) (default "" (pr_interval_value b)).

Definition ListEnabledPolicies (fault : option error) (rows : list PolicyRow) : result error (list Policy) :=
  match fault with
  | Some e => Err (WrapError "query retention policies: " e "")
  | None => Ok (map scanRetentionPolicy
                  (stable_sort policy_row_leb (filter (fun r => Enabled (pr_policy r) = true) rows)))
  end.

(** ** Metrics ([metrics.go]) *)

Definition Metrics := gmap string float64.

Definition prometheusKey (name : string) (labels : gmap string string) : string :=
  if decide (labels = ∅) then name else
  let keys := stable_sort str_leb (fst <$> map_to_list labels) in
  let dq := of_bytes [byte_of_Z 34] in
  let parts := map (fun k => k +:+ "=" +:+ dq +:+ ReplaceAll (default "" (labels !! k)) dq (of_bytes [byte_of_Z 92; byte_of_Z 34]) +:+ dq) keys in
  name +:+ "{" +:+ Join parts "," +:+ "}".

Definition add_metric (name : string) (labels : gmap string string) (v : float64) (m : Metrics) : Metrics :=
  let key := prometheusKey name labels in
  <[key := fadd (default f64_zero (m !! key)) v]> m.

Definition boolLabel (b : bool) : string := if b then "true" else "false".

Definition Observe (r : CleanupResult) (m : Metrics) : Metrics :=
  let m := add_metric "retention_cleanup_runs_total"
             (<["status" := res_Status r]> (<["dry_run" := boolLabel (res_DryRun r)]> ∅)) (f64_of_Z 1) m in
  let m := add_metric "retention_cleanup_rows_matched_total" ∅ (f64_of_Z (res_RowsMatched r)) m in
  let m := add_metric "retention_cleanup_rows_deleted_total" ∅ (f64_of_Z (res_RowsDeleted r)) m in
  let m := add_metric "retention_cleanup_partitions_dropped_total" ∅ (f64_of_Z (res_PartitionsDropped r)) m in
  let m := add_metric "retention_rollup_rows_read_total" ∅ (f64_of_Z (res_RollupRowsRead r)) m in
  let m := add_metric "retention_rollup_rows_written_total" ∅ (f64_of_Z (res_RollupRowsWritten r)) m in
  if res_DryRun r then add_metric "retention_cleanup_dry_run_total" ∅ (f64_of_Z 1) m else m.

Section engine.
Context `{ScanOrder}.

(** ** Loops of an item *)

(** The partitions, one after the other: the number dropped, and the error that stopped it. *)
Fixpoint drop_loop (f : nat -> option error) (n : nat) (parts : list Partition) (dropped : Z) (d : DB)
    : DB * Z * option error :=
  match parts with
  | [] => (d, dropped, None)
  | pt :: rest =>
    match DropPartition (f n) pt d with
    | (d', Some e) => (d', dropped, Some e)
    | (d', None) => drop_loop f (S n) rest (dropped + 1) d'
    end
  end.

(** The chunked delete: the rows deleted, and the error that stopped it. *)
Fixpoint delete_loop (fuel : nat) (f : ItemFaults) (n : nat) (p : Policy) (cutoff : Time) (maxRows deleted : Z) (d : DB)
    : DB * Z * option error :=
  match fuel with
  | O => (d, deleted, None)
  | S fuel' =>
    if negb (deleted <? maxRows) then (d, deleted, None) else
    let remaining := maxRows - deleted in
    let chunkSize := if remaining <? ChunkSize p then remaining else ChunkSize p in
    if chunkSize <=? 0 then (d, deleted, None) else
    match DeleteChunk (if_chunk f n) (if_chunk_rows f n) p cutoff chunkSize d with
    | (d', Err e) => (d', deleted, Some e)
    | (d', Ok k) =>
      if (k =? 0) || (k <? chunkSize) then (d', deleted + k, None)
      else delete_loop fuel' f (S n) p cutoff maxRows (deleted + k) d'
    end
  end.

(** ** [RunPlanItem] *)

(** The [fail] closure. *)
Definition fail_item (f : ItemFaults) (item : PlanItem) (res : CleanupResult) (e : error) (d : DB)
    : DB * CleanupResult * option error :=
  let res' := with_failure (Error e) res in
  let key := CleanupRunKey (pi_Policy item) (pi_CutoffTime item) in
  (fst (FinishCleanupRun (if_finish f) key "failed" (res_RowsMatched res') (res_RowsDeleted res') (Error e)
          (cleanupMetadata item "failed" (Some res')) (if_wall f) d), res', Some e).

Definition finish_item (f : ItemFaults) (item : PlanItem) (state : string) (rowsDeleted : Z) (res : CleanupResult) (d : DB)
    : DB * CleanupResult * option error :=
  let key := CleanupRunKey (pi_Policy item) (pi_CutoffTime item) in
  let '(d', err) := FinishCleanupRun (if_finish f) key "succeeded" (res_RowsMatched res) rowsDeleted ""
                      (cleanupMetadata item state (Some res)) (if_wall f) d in
  (d', res, err).

(** After the partitions: a dry run ends, any other run deletes in chunks. *)
Definition delete_rows (e : Engine) (f : ItemFaults) (item : PlanItem) (res : CleanupResult) (d : DB)
    : DB * CleanupResult * option error :=
  if pi_DryRun item then finish_item f item "dry_run" 0 res d else
  let maxRows := effectiveMaxRows (pi_Policy item) (opt_MaxRowsPerRun (e_Options e)) in
  match delete_loop (S (Z.to_nat maxRows)) f 0 (pi_Policy item) (pi_CutoffTime item) maxRows 0 d with
  | (d', deleted, Some err) => fail_item f item (with_rows (res_RowsMatched res) deleted res) err d'
  | (d', deleted, None) =>
    let res' := with_rows (res_RowsMatched res) deleted res in
    finish_item f item "succeeded" deleted res' d'
  end.

Definition drop_partitions (e : Engine) (f : ItemFaults) (item : PlanItem) (res : CleanupResult) (d : DB)
    : DB * CleanupResult * option error :=
  if negb (pi_UsePartitionDrop item) then delete_rows e f item res d else
  match ListEligiblePartitions (if_partitions f) (pi_Policy item) (pi_CutoffTime item) d with
  | Err err => fail_item f item res err d
  | Ok parts =>
    let matched := Z.of_nat (length parts) in
    if (0 <? matched) && negb (pi_DryRun item) then
      match drop_loop (if_drop f) 0 parts 0 d with
      | (d', dropped, Some err) => fail_item f item (with_partitions matched dropped res) err d'
      | (d', dropped, None) =>
        let res' := with_partitions matched dropped res in
        finish_item f item "succeeded" (res_RowsDeleted res') res' d'
      end
    else delete_rows e f item (with_partitions matched 0 res) d
  end.

Definition roll_up (e : Engine) (f : ItemFaults) (item : PlanItem) (res : CleanupResult) (d : DB)
    : DB * CleanupResult * option error :=
  if negb (Retention.RollupBeforeDelete (pi_Policy item)) then drop_partitions e f item res d else
  match Rollup.RollupBeforeDelete (e_RollupStore e) (if_rollup f) (pi_Policy item) (pi_CutoffTime item) (pi_DryRun item)
          (if_wall f) d with
  | (d', _, Some err) => fail_item f item res (WrapError "rollup_before_delete failed: " err "") d'
  | (d', rl, None) => drop_partitions e f item (with_rollup (rl_RowsRead rl) (rl_RowsWritten rl) res) d'
  end.

Definition RunPlanItem (e : Engine) (f : ItemFaults) (item : PlanItem) (d : DB) : DB * CleanupResult * option error :=
  let p := pi_Policy item in
  match ValidatePolicy p with
  | Err err => (d, zero_result, Some err)
  | Ok _ =>
    if negb (e_Store e) then (d, zero_result, Some (ErrorString "retention store is required")) else
    let key := CleanupRunKey p (pi_CutoffTime item) in
    let res := MkCleanupResult (ID p) (TableName p) (IntervalValue p) (pi_DryRun item) (pi_CutoffTime item) 0 0 0 0 0 0
                 "succeeded" "" in
    match StartCleanupRun (if_start f) key p (pi_CutoffTime item) (pi_DryRun item) (cleanupMetadata item "started" None)
            (if_wall f) d with
    | (d1, Some err) => (d1, res, Some err)
    | (d1, None) =>
      if opt_DiskPressureCritical (e_Options e) then
        fail_item f item res (ErrorString "cleanup stopped: disk pressure is critical") d1 else
      match CountEligible (if_count f) p (pi_CutoffTime item) d1 with
      | Err err => fail_item f item res err d1
      | Ok rowsMatched => roll_up e f item (with_rows rowsMatched 0 res) d1
      end
    end
  end.

(** ** [RunOnce] *)

(** The loop over the plan: an item that fails does not stop the next; the first error is kept. *)
Fixpoint run_items (e : Engine) (faults : nat -> ItemFaults) (n : nat) (plan : list PlanItem) (m : Metrics) (d : DB)
    : DB * list CleanupResult * Metrics * option error :=
  match plan with
  | [] => (d, [], m, None)
  | item :: rest =>
    let '(d1, res, err) := RunPlanItem e (faults n) item d in
    let '(d2, results, m', err') := run_items e faults (S n) rest (Observe res m) d1 in
    (d2, res :: results, m', match err with Some _ => err | None => err' end)
  end.

Definition RunOnce (e : Engine) (fault : option error) (faults : nat -> ItemFaults) (policies : list PolicyRow) (m : Metrics)
    (now : Time) (d : DB) : DB * result error (list CleanupResult * Metrics * option error) :=
  if negb (e_Store e) then (d, Err (ErrorString "retention store is required")) else
  match ListEnabledPolicies fault policies with
  | Err err => (d, Err err)
  | Ok ps =>
    match Plan now ps with
    | Err err => (d, Err err)
    | Ok plan => let '(d', results, m', err) := run_items e faults 0 plan m d in (d', Ok (results, m', err))
    end
  end.
End engine.

(** ** The chunked delete *)

(** A table with other rows. *)
Definition put_rows (p : Policy) (t : Table) (rows : list Row) (d : DB) : DB :=
  set_tables (<[TableName p := set_rows rows t]> (tables d)) d.

Lemma put_rows_same p t d : tables d !! TableName p = Some t -> put_rows p t (t_rows t) d = d.
Proof.
  intros Ht. unfold put_rows, set_rows. replace (MkTableState _ _ _) with t by (by destruct t).
  rewrite insert_id by done. by destruct d.
Qed.

Lemma put_rows_put p t rows rows' d :
  put_rows p (set_rows rows t) rows' (put_rows p t rows d) = put_rows p t rows' d.
Proof. unfold put_rows, set_tables, set_rows; cbn. by rewrite insert_insert_eq. Qed.

Lemma put_rows_lookup p t rows d : tables (put_rows p t rows d) !! TableName p = Some (set_rows rows t).
Proof. unfold put_rows; cbn. by rewrite lookup_insert_eq. Qed.

Section loops.
Context `{ScanOrder} (p : Policy) (sp : TableSpec) (Hp : policy_ok p sp) (cutoff : Time) (f : ItemFaults) (maxRows : Z).

(** Whatever fails, a loop purges at most its budget. *)
Lemma delete_loop_safe fuel n deleted d t :
  tables d !! TableName p = Some t -> ids_ok (t_rows t) -> deleted <= maxRows ->
  exists k rows' deleted' e, purged p cutoff k (t_rows t) rows' /\ Z.of_nat k <= maxRows - deleted /\
    delete_loop fuel f n p cutoff maxRows deleted d = (put_rows p t rows' d, deleted', e) /\
    deleted <= deleted' <= deleted + Z.of_nat k /\ (e = None -> deleted' = deleted + Z.of_nat k).
Proof.
  revert n deleted d t. induction fuel as [|fuel IH]; intros n deleted d t Ht Hids Hle.
  { exists 0%nat, (t_rows t), deleted, None. rewrite put_rows_same by done. split; [apply purged_refl|]. split; [lia|]. split; [done|]. lia. }
  assert (forall e' : option error, exists k rows' deleted' e, purged p cutoff k (t_rows t) rows' /\ Z.of_nat k <= maxRows - deleted /\
            (d, deleted, e') = (put_rows p t rows' d, deleted', e) /\
            deleted <= deleted' <= deleted + Z.of_nat k /\ (e = None -> deleted' = deleted + Z.of_nat k)) as Hstop.
  { intros e'. exists 0%nat, (t_rows t), deleted, e'. rewrite put_rows_same by done. split; [apply purged_refl|]. split; [lia|].
    split; [done|]. lia. }
  cbn [delete_loop]. destruct (negb (deleted <? maxRows)) eqn:G; [apply Hstop|]. bool_to_prop.
  set (n' := if maxRows - deleted <? ChunkSize p then maxRows - deleted else ChunkSize p).
  assert (n' <= maxRows - deleted) by (unfold n'; destruct (_ <? _) eqn:G2; bool_to_prop; lia).
  destruct (n' <=? 0) eqn:G3; [apply Hstop|]. bool_to_prop.
  unfold DeleteChunk. rewrite (BuildChunkDeleteSQL_ok p sp Hp).
  destruct (if_chunk f n); [apply Hstop|].
  destruct (DeleteChunk_ok p cutoff n' d t Ht Hids ltac:(lia)) as (rows1 & Hpg & ->). fold (put_rows p t rows1 d).
  destruct (if_chunk_rows f n) as [e|].
  - eexists _, rows1, deleted, _. split; [exact Hpg|]. split; [lia|]. split; [done|]. split; [lia|done].
  - set (k1 := Z.min n' (Z.of_nat (count_eligible p cutoff (t_rows t)))).
    destruct ((k1 =? 0) || (k1 <? n')) eqn:G4.
    + eexists _, rows1, _, None. split; [exact Hpg|]. split; [lia|]. split; [done|]. lia.
    + destruct (IH (S n) (deleted + k1) _ _ (put_rows_lookup p t rows1 d)) as (k & rows' & del' & e & Hpg' & Hk & -> & Hd & He).
      { by eapply purged_ids. } { lia. }
      eexists _, rows', del', e. split; [exact (purged_trans _ _ _ _ _ _ _ Hpg Hpg')|]. rewrite put_rows_put. split; [lia|].
      split; [done|]. split; [lia|]. intros ->. specialize (He eq_refl). lia.
Qed.

(** Without faults it purges every eligible row, or its whole budget. *)
Lemma delete_loop_exact fuel n deleted d t :
  (forall i, if_chunk f i = None /\ if_chunk_rows f i = None) ->
  tables d !! TableName p = Some t -> ids_ok (t_rows t) -> deleted <= maxRows ->
  (Z.to_nat (maxRows - deleted) < fuel)%nat ->
  let k := (Z.to_nat (maxRows - deleted) `min` count_eligible p cutoff (t_rows t))%nat in
  exists rows', purged p cutoff k (t_rows t) rows' /\
    delete_loop fuel f n p cutoff maxRows deleted d = (put_rows p t rows' d, deleted + Z.of_nat k, None).
Proof.
  intros Hf. revert n deleted d t. induction fuel as [|fuel IH]; intros n deleted d t Ht Hids Hle Hfuel k; [lia|].
  cbn [delete_loop]. destruct (Hf n) as [-> ->].
  destruct (negb (deleted <? maxRows)) eqn:G; bool_to_prop.
  { exists (t_rows t). rewrite put_rows_same by done. assert (k = 0%nat) as -> by lia. split; [apply purged_refl|].
    by rewrite Z.add_0_r. }
  set (n' := if maxRows - deleted <? ChunkSize p then maxRows - deleted else ChunkSize p).
  pose proof (ok_sizes _ _ Hp) as (Hcs & _).
  assert (0 < n' <= maxRows - deleted) by (unfold n'; destruct (_ <? _) eqn:G2; bool_to_prop; lia).
  rewrite (proj2 (Z.leb_gt n' 0)) by lia.
  unfold DeleteChunk. rewrite (BuildChunkDeleteSQL_ok p sp Hp).
  destruct (DeleteChunk_ok p cutoff n' d t Ht Hids ltac:(lia)) as (rows1 & Hpg & ->). fold (put_rows p t rows1 d).
  pose proof (count_eligible_purged _ _ _ _ _ Hpg) as Hc.
  destruct ((_ =? 0) || (_ <? n')) eqn:G4.
  - exists rows1. assert (Z.to_nat n' `min` count_eligible p cutoff (t_rows t) = k)%nat as E.
    { apply orb_true_iff in G4 as [G4|G4]; bool_to_prop; lia. }
    rewrite E in Hpg. split; [done|]. do 2 f_equal. lia.
  - bool_to_prop.
    destruct (IH (S n) (deleted + Z.min n' (Z.of_nat (count_eligible p cutoff (t_rows t)))) _ _ (put_rows_lookup p t rows1 d))
      as (rows' & Hpg' & ->); [by eapply purged_ids|lia|lia|]. cbn [t_rows set_rows] in Hpg'.
    exists rows'. rewrite put_rows_put. pose proof (purged_trans _ _ _ _ _ _ _ Hpg Hpg') as HT.
    cbn [t_rows set_rows]. match type of HT with purged _ _ ?k' _ _ => assert (k' = k) as E by lia end.
    rewrite E in HT. split; [done|]. do 2 f_equal. lia.
Qed.
End loops.

(** ** Only old rows go *)

(** Between two states: every row is still there (perhaps with columns updated), or it is a row
    of the policy's table whose time is before the cutoff. *)
Definition keeps (p : Policy) (cutoff : Time) (d d' : DB) : Prop :=
  forall T t r, tables d !! T = Some t -> r ∈ t_rows t ->
    (exists t' r', tables d' !! T = Some t' /\ r' ∈ t_rows t' /\ same_row (TimeColumn p) r r') \/
    (T = TableName p /\ exists u, col_time r (TimeColumn p) = Some u /\ u < cutoff).

Record db_ok (p : Policy) (d : DB) : Prop := {
  do_table : forall t, tables d !! TableName p = Some t -> table_ok (TimeColumn p) (TableName p) t;
  do_homes : forall T t t' r ch, T <> TableName p -> tables d !! TableName p = Some t -> tables d !! T = Some t' ->
    r ∈ t_rows t' -> ch ∈ t_children t -> home r <> ch_name ch }.

Lemma keeps_tables p cutoff d d' : tables d' = tables d -> keeps p cutoff d d'.
Proof. intros E T t r Ht Hr. left. exists t, r. rewrite E. split; [done|]. split; [done|reflexivity]. Qed.

Lemma keeps_trans p cutoff d1 d2 d3 : keeps p cutoff d1 d2 -> keeps p cutoff d2 d3 -> keeps p cutoff d1 d3.
Proof.
  intros H1 H2 T t r Ht Hr. destruct (H1 T t r Ht Hr) as [(t' & r' & Ht' & Hr' & Hs)|Hold]; [|by right].
  destruct (H2 T t' r' Ht' Hr') as [(t2 & r2 & Ht2 & Hr2 & Hs2)|(HT & u & Hu & Hlt)].
  - left. exists t2, r2. split; [done|]. split; [done|]. by etrans.
  - right. split; [done|]. exists u. destruct Hs as (_ & _ & ->). done.
Qed.

Lemma db_ok_tables p d d' : tables d' = tables d -> db_ok p d -> db_ok p d'.
Proof. intros E [H1 H2]. split; by rewrite E. Qed.

Lemma fail_item_tables f item res e d : tables (fst (fst (fail_item f item res e d))) = tables d.
Proof. unfold fail_item, FinishCleanupRun. by destruct (if_finish f). Qed.

Lemma finish_item_tables f item s n res d : tables (fst (fst (finish_item f item s n res d))) = tables d.
Proof. unfold finish_item, FinishCleanupRun. by destruct (if_finish f). Qed.

(** The relations of the partitions that are dropped lose their rows, and nothing else does. *)
Lemma drop_loop_rows f parts n dropped d T t :
  tables d !! T = Some t ->
  exists t', tables (fst (fst (drop_loop f n parts dropped d))) !! T = Some t' /\
    forall r, r ∈ t_rows t -> r ∈ t_rows t' \/ exists pt, pt ∈ parts /\ home r = (pt_SchemaName pt, pt_TableName pt).
Proof.
  revert n dropped d t. induction parts as [|pt parts IH]; intros n dropped d t Ht; cbn [drop_loop].
  { exists t. split; [done|]. by left. }
  unfold DropPartition. destruct (f n) as [e|]; [exists t; split; [done|]; by left|].
  set (rel := (pt_SchemaName pt, pt_TableName pt)).
  destruct (IH (S n) (dropped + 1) (set_tables (drop_relation rel <$> tables d) d) (drop_relation rel t)) as (t' & Ht' & Hr).
  { cbn. by rewrite lookup_fmap, Ht. }
  exists t'. split; [done|]. intros r Hin. destruct (decide (home r = rel)) as [Hh|Hh].
  - right. exists pt. split; [|done]. apply elem_of_cons; by left.
  - destruct (Hr r) as [?|(pt' & Hpt & Hh')]; [|by left|].
    + cbn [t_rows drop_relation]. by apply list_elem_of_filter.
    + right. exists pt'. split; [|done]. apply elem_of_cons; by right.
Qed.

Lemma drop_keeps p cutoff fault fl d parts :
  db_ok p d -> ListEligiblePartitions fault p cutoff d = Ok parts ->
  keeps p cutoff d (fst (fst (drop_loop fl 0 parts 0 d))).
Proof.
  intros Hok HL T t r Ht Hr. destruct (drop_loop_rows fl parts 0 0 d T t Ht) as (t' & Ht' & Hrows).
  destruct (Hrows r Hr) as [Hin|(pt & Hpt & Hh)]; [left; exists t', r; done|]. right.
  unfold ListEligiblePartitions in HL. destruct (ValidatePolicy p); [|done]. destruct fault; [done|]. injection HL as <-.
  apply list_elem_of_omap in Hpt as (ch & Hch & He). unfold children_of in Hch.
  destruct (tables d !! TableName p) as [tp|] eqn:Hp; [|by apply elem_of_nil in Hch].
  rewrite elem_of_stable_sort in Hch. unfold eligible_partition in He.
  destruct (ParsePartitionRange (TableName p) (snd (ch_name ch))) as [[s e]|] eqn:Ep; [|done].
  destruct (After e cutoff) eqn:Ha; [done|]. injection He as <-. cbn in Hh. rewrite <- surjective_pairing in Hh.
  unfold After in Ha. bool_to_prop.
  destruct (decide (T = TableName p)) as [->|Hne]; [|by destruct (do_homes _ _ Hok T tp t r ch)].
  assert (t = tp) as -> by congruence. split; [done|]. destruct (do_table _ _ Hok _ Hp) as [_ _ _ Hplaced Hnamed].
  destruct (Hplaced r ch Hr Hch Hh) as (u & Hu & Hlt). specialize (Hnamed ch s e Hch Ep). exists u. split; [done|]. lia.
Qed.

Lemma klines_time_column p sp : policy_ok p sp -> TableName p = klines -> TimeColumn p = "open_time".
Proof.
  intros Hp HT. pose proof (ok_table _ _ Hp) as E. pose proof (ok_time _ _ Hp) as Hin. rewrite HT in E.
  assert (ts_TimeColumns <$> tableSpecs !! norm klines = Some ["open_time"]) as E' by (by vm_compute).
  rewrite E in E'. cbn in E'. injection E' as E'. rewrite E' in Hin. by apply list_elem_of_singleton in Hin.
Qed.

Lemma rollup_keeps hs f p sp cutoff dry wall d d' res err :
  policy_ok p sp -> db_ok p d -> Rollup.RollupBeforeDelete hs f p cutoff dry wall d = (d', res, err) ->
  keeps p cutoff d d' /\ db_ok p d'.
Proof.
  intros Hp Hok E. apply RollupBeforeDelete_tables in E as [E|(_ & HT & t & t' & spec & cs & Ht & Hput & E)].
  { split; [by apply keeps_tables|by eapply db_ok_tables]. }
  pose proof (klines_time_column _ _ Hp HT) as Hc. destruct Hok as [Htab Hhomes]. rewrite HT, Hc in *.
  destruct (put_candles_rolls klines _ _ _ _ _ (Htab t Ht) Hput) as (Hok' & Hch & Hrows). split.
  - intros T t0 r Ht0 Hr. left. rewrite E. destruct (decide (T = klines)) as [->|Hne].
    + simplify_eq. destruct (Hrows r Hr) as (r' & Hr' & Hs). exists t', r'. rewrite lookup_insert_eq. by rewrite Hc.
    + exists t0, r. rewrite lookup_insert_ne by done. done.
  - split; rewrite HT, ?Hc, E.
    + intros t1. rewrite lookup_insert_eq. by intros [= <-].
    + intros T t1 t2 r ch Hne. rewrite lookup_insert_eq, lookup_insert_ne by done. intros [= <-] Ht2 Hr. rewrite Hch.
      by eapply Hhomes.
Qed.

Lemma effectiveMaxRows_bounds p sp n : policy_ok p sp -> 0 < effectiveMaxRows p n <= MaxRowsPerRun p.
Proof.
  intros Hp. pose proof (ok_sizes _ _ Hp) as (? & ? & ?). unfold effectiveMaxRows.
  destruct ((0 <? n) && (n <? MaxRowsPerRun p)) eqn:G; bool_to_prop.
  - rewrite (proj2 (Z.leb_gt n 0)) by lia. lia.
  - rewrite (proj2 (Z.leb_gt (MaxRowsPerRun p) 0)) by lia. lia.
Qed.

Section item.
Context `{ScanOrder} (e : Engine) (f : ItemFaults) (item : PlanItem) (sp : TableSpec) (Hp : policy_ok (pi_Policy item) sp).
Let p := pi_Policy item.
Let cutoff := pi_CutoffTime item.

Lemma purged_keeps k d t rows' :
  tables d !! TableName p = Some t -> purged p cutoff k (t_rows t) rows' -> keeps p cutoff d (put_rows p t rows' d).
Proof.
  intros Ht (gone & P & _ & He & _) T t0 r Ht0 Hr. destruct (decide (T = TableName p)) as [->|Hne].
  - simplify_eq. rewrite P in Hr. apply elem_of_app in Hr as [Hr|Hr].
    + right. split; [done|]. rewrite Forall_forall in He. by destruct (He r Hr) as [? _].
    + left. exists (set_rows rows' t), r. rewrite put_rows_lookup. done.
  - left. exists t0, r. unfold put_rows; cbn. rewrite lookup_insert_ne by done. done.
Qed.

Lemma missing_table_delete_loop fuel n maxRows deleted d :
  tables d !! TableName p = None -> tables (fst (fst (delete_loop fuel f n p cutoff maxRows deleted d))) = tables d.
Proof.
  intros Hn. destruct fuel as [|fuel]; [done|]. cbn [delete_loop].
  destruct (negb _); [done|]. cbv zeta. destruct (_ <=? 0); [done|].
  unfold DeleteChunk. destruct (BuildChunkDeleteSQL p) as [q|] eqn:E; [|done].
  rewrite (BuildChunkDeleteSQL_ok p sp Hp) in E. injection E as <-.
  destruct (if_chunk f n); [done|]. unfold exec_delete. cbn [ds_table delete_sql]. by rewrite Hn.
Qed.

Lemma delete_rows_keeps res d : db_ok p d -> keeps p cutoff d (fst (fst (delete_rows e f item res d))).
Proof.
  intros Hok. unfold delete_rows. destruct (pi_DryRun item); [apply keeps_tables, finish_item_tables|].
  fold p cutoff. set (maxRows := effectiveMaxRows p _).
  pose proof (effectiveMaxRows_bounds p sp (opt_MaxRowsPerRun (e_Options e)) Hp) as Hm. fold maxRows in Hm.
  destruct (tables d !! TableName p) as [t|] eqn:Ht.
  - destruct (delete_loop_safe p sp Hp cutoff f maxRows (S (Z.to_nat maxRows)) 0 0 d t Ht (to_ids _ _ _ (do_table _ _ Hok _ Ht)))
      as (k & rows' & deleted' & err & Hpg & _ & -> & _); [lia|].
    destruct err; (eapply keeps_trans; [by eapply purged_keeps|]); apply keeps_tables;
      [apply fail_item_tables | apply finish_item_tables].
  - pose proof (missing_table_delete_loop (S (Z.to_nat maxRows)) 0 maxRows 0 d Ht) as E.
    destruct (delete_loop _ _ _ _ _ _ _ _) as [[d' del] [err|]]; apply keeps_tables;
      rewrite ?fail_item_tables, ?finish_item_tables; exact E.
Qed.

Lemma drop_partitions_keeps res d : db_ok p d -> keeps p cutoff d (fst (fst (drop_partitions e f item res d))).
Proof.
  intros Hok. unfold drop_partitions. fold p cutoff. destruct (negb _); [by apply delete_rows_keeps|].
  destruct (ListEligiblePartitions (if_partitions f) p cutoff d) as [parts|err] eqn:HL;
    [|apply keeps_tables, fail_item_tables].
  destruct (_ && _); [|by apply delete_rows_keeps].
  pose proof (drop_keeps p cutoff _ (if_drop f) d parts Hok HL) as HK.
  destruct (drop_loop (if_drop f) 0 parts 0 d) as [[d' dropped] [err|]]; (eapply keeps_trans; [exact HK|]); apply keeps_tables;
    [apply fail_item_tables | apply finish_item_tables].
Qed.
End item.

Lemma roll_up_keeps `{ScanOrder} e f item sp res d :
  policy_ok (pi_Policy item) sp -> db_ok (pi_Policy item) d ->
  keeps (pi_Policy item) (pi_CutoffTime item) d (fst (fst (roll_up e f item res d))).
Proof.
  intros Hp Hok. unfold roll_up. destruct (negb _); [by eapply drop_partitions_keeps|].
  destruct (Rollup.RollupBeforeDelete _ _ _ _ _ _ d) as [[d' rl] err] eqn:E.
  destruct (rollup_keeps _ _ _ _ _ _ _ _ _ _ _ Hp Hok E) as [HK Hok'].
  eapply keeps_trans; [exact HK|]. destruct err.
  - apply keeps_tables, fail_item_tables.
  - by eapply drop_partitions_keeps.
Qed.

(** C26: Cleanup removes only old rows.  Whatever the policy asks (rollup, partition drop, chunked
    delete), whatever fails and wherever it stops, every row of every table is still there after an
    item of the plan, perhaps with rolled-up columns, unless it is a row of the policy's table whose
    time is before the item's cutoff. *)
Theorem cleanup_keeps_recent `{ScanOrder} e f item d :
  db_ok (pi_Policy item) d ->
  keeps (pi_Policy item) (pi_CutoffTime item) d (fst (fst (RunPlanItem e f item d))).
Proof.
  intros Hok. unfold RunPlanItem. destruct (ValidatePolicy (pi_Policy item)) as [sp|] eqn:Hv; [|by apply keeps_tables].
  apply ValidatePolicy_ok in Hv. destruct (negb (e_Store e)); [by apply keeps_tables|].
  unfold StartCleanupRun. destruct (if_start f); [by apply keeps_tables|]. cbv zeta.
  set (d1 := set_cleanup_runs _ d).
  assert (tables d1 = tables d) as E1 by done.
  destruct (opt_DiskPressureCritical _); [apply keeps_tables; by rewrite fail_item_tables|].
  destruct (CountEligible _ _ _ d1); [|apply keeps_tables; by rewrite fail_item_tables].
  eapply keeps_trans; [apply (keeps_tables _ _ _ d1 E1)|]. eapply roll_up_keeps; [exact Hv|].
  by eapply db_ok_tables.
Qed.

Lemma exec_count_ok p sp cutoff d t :
  policy_ok p sp -> tables d !! TableName p = Some t ->
  CountEligible None p cutoff d = Ok (Z.of_nat (count_eligible p cutoff (t_rows t))).
Proof.
  intros Hp Ht. unfold CountEligible, BuildCountSQL. rewrite (proj2 (ValidatePolicy_ok p sp) Hp).
  unfold count_eligible, eligibleb. destruct (retentionWhereSQL p 1) as [conds l]. unfold exec_count. cbn [cs_table cs_where fst].
  by rewrite Ht.
Qed.

Lemma delete_rows_exact `{ScanOrder} e wall item sp res d t :
  policy_ok (pi_Policy item) sp -> pi_DryRun item = false ->
  tables d !! TableName (pi_Policy item) = Some t -> ids_ok (t_rows t) ->
  let p := pi_Policy item in
  let k := (Z.to_nat (effectiveMaxRows p (opt_MaxRowsPerRun (e_Options e))) `min`
            count_eligible p (pi_CutoffTime item) (t_rows t))%nat in
  exists rows', purged p (pi_CutoffTime item) k (t_rows t) rows' /\
    delete_rows e (no_item_faults wall) item res d =
      finish_item (no_item_faults wall) item "succeeded" (Z.of_nat k) (with_rows (res_RowsMatched res) (Z.of_nat k) res)
        (put_rows p t rows' d).
Proof.
  intros Hp Hdry Ht Hids p k. unfold delete_rows. rewrite Hdry. fold p. set (maxRows := effectiveMaxRows p _) in *.
  pose proof (effectiveMaxRows_bounds p sp (opt_MaxRowsPerRun (e_Options e)) Hp) as Hm. fold maxRows in Hm.
  destruct (delete_loop_exact p sp Hp (pi_CutoffTime item) (no_item_faults wall) maxRows (S (Z.to_nat maxRows)) 0 0 d t)
    as (rows' & Hpg & ->); [done|done|done|lia|lia|].
  rewrite Z.sub_0_r in *. exists rows'. split; [exact Hpg|]. by rewrite Z.add_0_l.
Qed.

(** C27: A cleanup without faults and rollup removes all the rows its policy selects, or as many as its
    budget allows, oldest first, and records it: the rows matched, the rows deleted and the status of
    the run are what happened.  Partitioned or not, when there is no partition to drop. *)
Theorem cleanup_deletes_oldest `{ScanOrder} e wall item sp d t :
  let p := pi_Policy item in
  let count := count_eligible p (pi_CutoffTime item) (t_rows t) in
  let k := (Z.to_nat (effectiveMaxRows p (opt_MaxRowsPerRun (e_Options e))) `min` count)%nat in
  policy_ok p sp -> e_Store e = true -> opt_DiskPressureCritical (e_Options e) = false ->
  Retention.RollupBeforeDelete p = false -> pi_DryRun item = false ->
  pi_UsePartitionDrop item = false \/ t_children t = [] ->
  tables d !! TableName p = Some t -> ids_ok (t_rows t) ->
  exists rows' d' res run, purged p (pi_CutoffTime item) k (t_rows t) rows' /\
    RunPlanItem e (no_item_faults wall) item d = (d', res, None) /\
    tables d' = <[TableName p := set_rows rows' t]> (tables d) /\
    res_RowsMatched res = Z.of_nat count /\ res_RowsDeleted res = Z.of_nat k /\ res_Status res = "succeeded" /\
    cleanup_runs d' !! CleanupRunKey p (pi_CutoffTime item) = Some run /\ cr_status run = "succeeded" /\
    cr_rows_matched run = Z.of_nat count /\ cr_rows_deleted run = Z.of_nat k /\ cr_finished_at run = Some wall.
Proof.
  intros p count k Hp Hst Hdisk Hroll Hdry Hdrop Ht Hids. unfold RunPlanItem. fold p.
  rewrite (proj2 (ValidatePolicy_ok p sp) Hp), Hst. cbn [negb StartCleanupRun if_start no_item_faults if_count].
  cbv zeta. set (d1 := set_cleanup_runs _ d). assert (tables d1 !! TableName p = Some t) as Ht1 by done.
  rewrite Hdisk, (exec_count_ok p sp _ d1 t Hp Ht1). fold count. unfold roll_up. fold p. rewrite Hroll. cbn [negb].
  set (res0 := with_rows (Z.of_nat count) 0 _).
  assert (exists res1, drop_partitions e (no_item_faults wall) item res0 d1 = delete_rows e (no_item_faults wall) item res1 d1 /\
            res_RowsMatched res1 = Z.of_nat count /\ res_Status res1 = "succeeded") as (res1 & -> & Hm1 & Hs1).
  { unfold drop_partitions. destruct (pi_UsePartitionDrop item) eqn:Hu; cbn [negb]; [|by exists res0].
    destruct Hdrop as [?|Hch]; [done|]. unfold ListEligiblePartitions, children_of. fold p.
    rewrite (proj2 (ValidatePolicy_ok p sp) Hp), Ht1, Hch. by eexists. }
  destruct (delete_rows_exact e wall item sp res1 d1 t Hp Hdry Ht1 Hids) as (rows' & Hpg & ->). fold p count in Hpg |- *. fold k in Hpg |- *.
  unfold finish_item, FinishCleanupRun. cbn [no_item_faults if_finish].
  exists rows'. eexists _, _, _. split; [exact Hpg|]. split; [reflexivity|]. split; [done|].
  split; [exact Hm1|]. split; [done|]. split; [exact Hs1|].
  cbn [cleanup_runs set_cleanup_runs put_rows set_tables d1]. rewrite lookup_alter_eq, lookup_insert_eq. split; [done|].
  cbn. split; [done|]. split; [exact Hm1|]. done.
Qed.

(** ** Dry runs *)

Lemma dry_item_tables `{ScanOrder} e f item d :
  pi_DryRun item = true -> tables (fst (fst (RunPlanItem e f item d))) = tables d.
Proof.
  intros Hdry. unfold RunPlanItem. destruct (ValidatePolicy (pi_Policy item)); [|done].
  destruct (negb (e_Store e)); [done|]. unfold StartCleanupRun. destruct (if_start f); [done|]. cbv zeta.
  set (d1 := set_cleanup_runs _ d). change (tables d) with (tables d1). clearbody d1.
  assert (forall res d2, tables (fst (fst (drop_partitions e f item res d2))) = tables d2) as Hdrop.
  { intros res d2. unfold drop_partitions, delete_rows. rewrite Hdry.
    destruct (negb _); [apply finish_item_tables|]. destruct (ListEligiblePartitions _ _ _ _);
      [cbv zeta; rewrite andb_false_r; apply finish_item_tables | apply fail_item_tables]. }
  destruct (opt_DiskPressureCritical _); [apply fail_item_tables|].
  destruct (CountEligible _ _ _ d1); [|apply fail_item_tables]. unfold roll_up. destruct (negb _); [apply Hdrop|].
  destruct (Rollup.RollupBeforeDelete _ _ _ _ _ _ d1) as [[d2 rl] err] eqn:E.
  apply RollupBeforeDelete_tables in E as [E|(Hno & _)]; [|by rewrite Hdry in Hno].
  destruct err; [rewrite fail_item_tables | rewrite Hdrop]; exact E.
Qed.

Lemma run_items_dry `{ScanOrder} e faults plan n m d :
  Forall (fun it => pi_DryRun it = true) plan ->
  tables (fst (fst (fst (run_items e faults n plan m d)))) = tables d.
Proof.
  intros Hall. revert n m d. induction Hall as [|it plan Hit _ IH]; intros n m d; [done|]. cbn [run_items].
  pose proof (dry_item_tables e (faults n) it d Hit) as E1.
  destruct (RunPlanItem e (faults n) it d) as [[d1 res] err]. specialize (IH (S n) (Observe res m) d1).
  destruct (run_items _ _ _ _ _ d1) as [[[d2 rs] m'] err']. cbn in *. congruence.
Qed.

Lemma plan_loop_items now ps items :
  plan_loop now ps = Ok items -> Forall (fun it => pi_Policy it ∈ ps /\ pi_DryRun it = DryRun (pi_Policy it)) items.
Proof.
  revert items. induction ps as [|p ps IH]; intros items E; cbn [plan_loop] in E; [by simplify_eq|].
  assert (forall l, Forall (fun it => pi_Policy it ∈ ps /\ pi_DryRun it = DryRun (pi_Policy it)) l ->
                    Forall (fun it => pi_Policy it ∈ p :: ps /\ pi_DryRun it = DryRun (pi_Policy it)) l) as Hmono.
  { intros l Hl. eapply Forall_impl; [exact Hl|]. intros it [? ?]. split; [apply elem_of_cons; by right|done]. }
  destruct (negb (Enabled p)); [by apply Hmono, IH|].
  destruct (ValidatePolicy p) as [sp|]; [|done]. destruct (plan_loop now ps) as [its|]; [|done]. injection E as <-.
  constructor; [split; [apply elem_of_cons; by left|done]|by apply Hmono, IH].
Qed.

(** A run whose policies are all dry runs leaves every table as it was, whatever fails: no row is
    deleted, no partition dropped and no rollup written. *)
Theorem dry_run_changes_nothing `{ScanOrder} e fault faults policies m now d :
  Forall (fun r => DryRun (pr_policy r) = true) policies ->
  tables (fst (RunOnce e fault faults policies m now d)) = tables d.
Proof.
  intros Hdry. unfold RunOnce. destruct (negb (e_Store e)); [done|].
  destruct (ListEnabledPolicies fault policies) as [ps|] eqn:EL; [|done].
  destruct (Plan now ps) as [plan|] eqn:EP; [|done].
  assert (Forall (fun it => pi_DryRun it = true) plan) as Hplan.
  { unfold Plan in EP. apply plan_loop_items in EP. eapply Forall_impl; [exact EP|]. intros it [Hin ->].
    rewrite elem_of_stable_sort in Hin. unfold ListEnabledPolicies in EL. destruct fault; [done|]. injection EL as <-.
    apply list_elem_of_fmap in Hin as (r & -> & Hr). rewrite elem_of_stable_sort in Hr.
    apply list_elem_of_filter in Hr as [_ Hr]. rewrite Forall_forall in Hdry. exact (Hdry r Hr). }
  pose proof (run_items_dry e faults plan 0 m d Hplan) as E.
  by destruct (run_items e faults 0 plan m d) as [[[d' rs] m'] err].
Qed.

(** ** Partition drops *)

Lemma drop_loop_gone parts n dropped d :
  exists d', drop_loop (fun _ => None) n parts dropped d = (d', dropped + Z.of_nat (length parts), None) /\
    cleanup_runs d' = cleanup_runs d /\
    forall T t' r, tables d' !! T = Some t' -> r ∈ t_rows t' ->
      (exists t, tables d !! T = Some t /\ r ∈ t_rows t) /\
      forall pt, pt ∈ parts -> home r <> (pt_SchemaName pt, pt_TableName pt).
Proof.
  revert n dropped d. induction parts as [|pt parts IH]; intros n dropped d; cbn [drop_loop].
  { exists d. rewrite Z.add_0_r. split; [done|]. split; [done|]. intros T t' r Ht Hr. split; [by exists t'|].
    by intros pt ?%elem_of_nil. }
  cbn [DropPartition]. set (rel := (pt_SchemaName pt, pt_TableName pt)).
  destruct (IH (S n) (dropped + 1) (set_tables (drop_relation rel <$> tables d) d)) as (d' & -> & Hc & Hrows).
  exists d'. split; [f_equal; f_equal; cbn [length]; lia|]. split; [done|]. intros T t' r Ht Hr.
  destruct (Hrows T t' r Ht Hr) as [(t1 & Ht1 & Hr1) Hne]. cbn [tables set_tables] in Ht1. rewrite lookup_fmap in Ht1.
  destruct (tables d !! T) as [t|] eqn:E; [|done]. injection Ht1 as <-. cbn [t_rows drop_relation] in Hr1.
  apply list_elem_of_filter in Hr1 as [Hh Hin]. split; [by exists t|].
  intros pt' [->|Hpt]%elem_of_cons; [done|by apply Hne].
Qed.

(** Dropping partitions ignores the interval of a policy: when a partition of the table lies before
    the cutoff, a policy for one interval removes every row of that partition, of whatever interval,
    and reports no deleted row. *)
Theorem partition_drop_ignores_interval `{ScanOrder} e wall item sp d t ch start end_ :
  let p := pi_Policy item in
  policy_ok p sp -> e_Store e = true -> opt_DiskPressureCritical (e_Options e) = false ->
  Retention.RollupBeforeDelete p = false -> pi_DryRun item = false -> pi_UsePartitionDrop item = true ->
  tables d !! TableName p = Some t -> ch ∈ t_children t ->
  ParsePartitionRange (TableName p) (snd (ch_name ch)) = Some (start, end_) -> end_ <= pi_CutoffTime item ->
  exists d' res, RunPlanItem e (no_item_faults wall) item d = (d', res, None) /\
    res_RowsDeleted res = 0 /\ 0 < res_PartitionsDropped res /\
    forall T t' r, tables d' !! T = Some t' -> r ∈ t_rows t' -> home r <> ch_name ch.
Proof.
  intros p Hp Hst Hdisk Hroll Hdry Hdrop Ht Hch Hparse Hend. unfold RunPlanItem. fold p.
  rewrite (proj2 (ValidatePolicy_ok p sp) Hp), Hst. cbn [negb StartCleanupRun if_start no_item_faults if_count].
  cbv zeta. set (d1 := set_cleanup_runs _ d). assert (tables d1 !! TableName p = Some t) as Ht1 by done.
  rewrite Hdisk, (exec_count_ok p sp _ d1 t Hp Ht1). unfold roll_up. fold p. rewrite Hroll. cbn [negb].
  unfold drop_partitions, ListEligiblePartitions, children_of. fold p. rewrite Hdrop, (proj2 (ValidatePolicy_ok p sp) Hp), Ht1, Hdry.
  cbn [negb if_partitions no_item_faults if_drop].
  set (parts := omap _ _).
  assert (MkPartition (fst (ch_name ch)) (snd (ch_name ch)) start end_ ∈ parts) as Hin.
  { apply list_elem_of_omap. exists ch. rewrite elem_of_stable_sort. split; [done|]. unfold eligible_partition.
    rewrite Hparse. unfold After. by rewrite (proj2 (Z.ltb_ge (pi_CutoffTime item) end_)) by done. }
  assert (0 < length parts)%nat as Hlen by (destruct parts; [by apply elem_of_nil in Hin|cbn; lia]).
  rewrite (proj2 (Z.ltb_lt 0 (Z.of_nat (length parts)))) by lia. cbn [andb].
  destruct (drop_loop_gone parts 0 0 d1) as (d2 & -> & _ & Hrows).
  unfold finish_item, FinishCleanupRun. cbn [if_finish no_item_faults].
  eexists _, _. split; [reflexivity|]. split; [done|]. split; [cbn; lia|].
  intros T t' r Ht' Hr. destruct (Hrows T t' r Ht' Hr) as [_ Hne]. specialize (Hne _ Hin). cbn in Hne.
  by rewrite <- surjective_pairing in Hne.
Qed.

(** ** Rollups *)

(** C31: a policy with a rollup never deletes anything.  PostgreSQL refuses the rollup statement (its
    fourth parameter has no type where [jsonb_build_object] takes it), so as soon as the table holds
    one closed kline of the policy's interval before the cutoff, every live item of such a policy
    fails, whatever else fails and on whatever database, and leaves every table as it was; without
    other failures the error is that of the statement, and both the cleanup run and the rollup run are
    recorded as failed. *)
Theorem rollup_stops_cleanup `{ScanOrder} e f item d t r :
  let p := pi_Policy item in
  let out := RunPlanItem e f item d in
  Retention.RollupBeforeDelete p = true -> pi_DryRun item = false ->
  tables d !! klines = Some t -> r ∈ t_rows t -> closed_before (IntervalValue p) (pi_CutoffTime item) r = true ->
  tables (fst (fst out)) = tables d /\ is_Some (snd out) /\
  forall wall sp spec, policy_ok p sp -> TableName p = klines -> klineRollups !! IntervalValue p = Some spec ->
    e_Store e = true -> e_RollupStore e = true -> opt_DiskPressureCritical (e_Options e) = false -> f = no_item_faults wall ->
    snd out = Some (WrapError "rollup_before_delete failed: " (refusal spec) "") /\
    (exists run, cleanup_runs (fst (fst out)) !! CleanupRunKey p (pi_CutoffTime item) = Some run /\ cr_status run = "failed" /\
       cr_rows_deleted run = 0) /\
    exists run, rollup_runs (fst (fst out)) !! RollupRunKey p (pi_CutoffTime item) (ru_TargetInterval spec) = Some run /\
      rr_status run = "failed".
Proof.
  intros p out Hroll Hdry Ht Hr Hc. unfold out. split; [|split].
  - unfold RunPlanItem. fold p. destruct (ValidatePolicy p); [|done]. destruct (negb (e_Store e)); [done|].
    unfold StartCleanupRun. destruct (if_start f); [done|]. cbv zeta. set (d1 := set_cleanup_runs _ d). change (tables d) with (tables d1).
    destruct (opt_DiskPressureCritical _); [by rewrite fail_item_tables|].
    destruct (CountEligible _ _ _ d1); [|by rewrite fail_item_tables]. unfold roll_up. fold p. rewrite Hroll, Hdry. cbn [negb].
    destruct (rollup_refused (e_RollupStore e) (if_rollup f) p (pi_CutoffTime item) (if_wall f) d1 t r Ht Hr Hc) as (d' & res & err & -> & <-).
    by rewrite fail_item_tables.
  - unfold RunPlanItem. fold p. destruct (ValidatePolicy p); [|by eexists]. destruct (negb (e_Store e)); [by eexists|].
    unfold StartCleanupRun. destruct (if_start f); [by eexists|]. cbv zeta. set (d1 := set_cleanup_runs _ d).
    destruct (opt_DiskPressureCritical _); [by eexists|].
    destruct (CountEligible _ _ _ d1); [|by eexists]. unfold roll_up. fold p. rewrite Hroll, Hdry. cbn [negb].
    destruct (rollup_refused (e_RollupStore e) (if_rollup f) p (pi_CutoffTime item) (if_wall f) d1 t r Ht Hr Hc) as (d' & res & err & -> & _).
    by eexists.
  - intros wall sp spec Hp HT Hs Hst Hrs Hdisk ->. unfold RunPlanItem. fold p.
    rewrite (proj2 (ValidatePolicy_ok p sp) Hp), Hst. cbn [negb StartCleanupRun if_start no_item_faults if_count].
    cbv zeta. set (d1 := set_cleanup_runs _ d). assert (tables d1 !! TableName p = Some t) as Ht1 by by rewrite HT.
    rewrite Hdisk, (exec_count_ok p sp _ d1 t Hp Ht1). unfold roll_up. fold p. rewrite Hroll, Hdry, Hrs. cbn [negb if_rollup no_item_faults if_wall].
    assert (tables d1 !! klines = Some t) as Ht2 by done.
    destruct (rollup_recorded p (pi_CutoffTime item) wall d1 t r spec HT Hs Ht2 Hr Hc) as (d' & res & run & -> & Hrun & Hst' & Hcl).
    unfold fail_item, FinishCleanupRun. cbn [if_finish no_item_faults fst snd]. fold p. split; [done|]. split.
    + cbn [cleanup_runs set_cleanup_runs]. rewrite Hcl. cbn [d1 cleanup_runs set_cleanup_runs]. rewrite lookup_alter_eq, lookup_insert_eq.
      eexists. split; [reflexivity|]. by split.
    + exists run. by split.
Qed.

(** ** Samples *)

Definition all_orders : ScanOrder := {| scan := fun l => l; scan_perm := fun l => reflexivity l |}.
Definition sample_engine : Engine := MkEngine true true (MkEngineOptions 50000 false).
Definition kline_item (cutoff : Time) : PlanItem := MkPlanItem kline_policy cutoff false true "5m".
(** A partitioned table with a daily kline in January. *)
Definition january : Child := MkChild ("public", "derivative_klines_2024_01") (Date 2024 1 1) (Date 2024 2 1).
Definition daily_row : Row :=
  MkRow ("public", "derivative_klines_2024_01")
    (set_cols [("id", Some (VNum 7)); ("interval", Some (VText "1d")); ("open_time", Some (VTime (Date 2024 1 10)))] ∅).
Definition partitioned : DB := MkDB (<[klines := MkTableState [january] [daily_row] 8]> ∅) ∅ ∅.

Definition minute_policy : Policy :=
  MkRetentionPolicy 1 "derivative_klines" "open_time" "interval" "1m" 14 2 true false false "" 10 50 180 "auto" 7 RawEmpty.
Definition minute_item (cutoff : Time) (drop : bool) : PlanItem := MkPlanItem minute_policy cutoff false drop "5m".

Lemma minute_policy_ok : exists sp, policy_ok minute_policy sp.
Proof. eexists. apply ValidatePolicy_ok. vm_compute. reflexivity. Qed.

Lemma partition_drop_ignores_interval_witness :
  exists d' res, @RunPlanItem all_orders sample_engine (no_item_faults 0) (minute_item (Date 2024 3 1) true) partitioned = (d', res, None) /\
    daily_row ∈ [daily_row] /\ forall T t' r, tables d' !! T = Some t' -> r ∈ t_rows t' -> home r <> ch_name january.
Proof.
  destruct minute_policy_ok as [sp Hp].
  destruct (@partition_drop_ignores_interval all_orders sample_engine 0 (minute_item (Date 2024 3 1) true) sp partitioned
              (MkTableState [january] [daily_row] 8) january (Date 2024 1 1) (Date 2024 2 1)) as (d' & res & E & _ & _ & Hgone);
    [exact Hp|reflexivity|reflexivity|reflexivity|reflexivity|reflexivity|by vm_compute|by apply list_elem_of_singleton
    |by vm_compute|by vm_compute|].
  - exists d', res. split; [exact E|]. split; [by apply list_elem_of_singleton|exact Hgone].
Defined.

Lemma partitioned_ok : db_ok minute_policy partitioned.
Proof.
  split.
  - intros t Ht. unfold partitioned in Ht; cbn [tables] in Ht.
    change (TableName minute_policy) with klines in Ht. rewrite lookup_insert_eq in Ht. injection Ht as <-.
    constructor; cbn [t_rows t_children t_next_id].
    + split; [apply NoDup_singleton|]. rewrite Forall_singleton. by eexists.
    + intros r i ->%list_elem_of_singleton. vm_compute. by intros [= <-].
    + apply NoDup_singleton.
    + intros r ch ->%list_elem_of_singleton ->%list_elem_of_singleton _. exists (Date 2024 1 10). by vm_compute.
    + intros ch s e0 ->%list_elem_of_singleton. vm_compute. by intros [= <- <-].
  - intros T t t' r ch Hne _ Ht. cbn [tables partitioned] in Ht. rewrite lookup_insert_ne in Ht by done.
    by rewrite lookup_empty in Ht.
Qed.

Lemma cleanup_keeps_recent_witness :
  keeps minute_policy (Date 2024 1 11) partitioned
    (fst (fst (@RunPlanItem all_orders sample_engine (no_item_faults 0) (minute_item (Date 2024 1 11) true) partitioned))).
Proof.
  exact (@cleanup_keeps_recent all_orders sample_engine (no_item_faults 0) (minute_item (Date 2024 1 11) true) partitioned
           partitioned_ok).
Defined.

Lemma cleanup_deletes_oldest_witness :
  exists rows' d' res, purged minute_policy (Date 2024 1 1 + 3 * Minute) 3
      [minute_row 1 0 1; minute_row 2 1 2; minute_row 3 2 3; minute_row 4 3 4; minute_row 5 4 5] rows' /\
    @RunPlanItem all_orders sample_engine (no_item_faults 0) (minute_item (Date 2024 1 1 + 3 * Minute) false)
      (five_minutes 1 2 3 4 5) = (d', res, None) /\ res_RowsDeleted res = 3.
Proof.
  destruct minute_policy_ok as [sp Hp].
  destruct (@cleanup_deletes_oldest all_orders sample_engine 0 (minute_item (Date 2024 1 1 + 3 * Minute) false) sp
              (five_minutes 1 2 3 4 5)
              (MkTableState [] [minute_row 1 0 1; minute_row 2 1 2; minute_row 3 2 3; minute_row 4 3 4; minute_row 5 4 5] 6))
    as (rows' & d' & res & run & Hpg & E & _ & _ & Hd & _);
    [exact Hp|reflexivity|reflexivity|reflexivity|reflexivity|by left|by vm_compute| |].
  - split; [|repeat constructor; by eexists]. apply (bool_decide_unpack _). by vm_compute.
  - exists rows', d', res. split; [exact Hpg|]. split; [exact E|]. rewrite Hd. by vm_compute.
Defined.

Lemma dry_run_changes_nothing_witness :
  let rows := [MkPolicyRow (MkRetentionPolicy 1 "derivative_klines" "open_time" "interval" "1m" 14 2 true true true "" 10 50
                 180 "auto" 7 RawEmpty) (Some "interval") (Some "1m") None] in
  tables (fst (@RunOnce all_orders sample_engine None (fun _ => no_item_faults 0) rows ∅ (Date 2024 3 1) partitioned)) =
  tables partitioned.
Proof. apply (@dry_run_changes_nothing all_orders). by repeat constructor. Defined.

Lemma rollup_stops_cleanup_witness :
  let out := @RunPlanItem all_orders sample_engine (no_item_faults 0) (kline_item (Date 2024 1 2)) (five_minutes 1 2 3 4 5) in
  tables (fst (fst out)) = tables (five_minutes 1 2 3 4 5) /\
  snd out = Some (WrapError "rollup_before_delete failed: " (refusal (MkRollupSpec "1m" "5m" (5 * 60))) "").
Proof.
  destruct kline_policy_ok as [sp Hp].
  destruct (@rollup_stops_cleanup all_orders sample_engine (no_item_faults 0) (kline_item (Date 2024 1 2)) (five_minutes 1 2 3 4 5)
              (MkTableState [] [minute_row 1 0 1; minute_row 2 1 2; minute_row 3 2 3; minute_row 4 3 4; minute_row 5 4 5] 6) (minute_row 1 0 1))
    as (E1 & _ & E2); [reflexivity|reflexivity|reflexivity|left|by vm_compute|].
  split; [exact E1|].
  apply (E2 0 sp (MkRollupSpec "1m" "5m" (5 * 60)) Hp eq_refl); reflexivity.
Defined.
