(* ===== verification/PgNumeric.v ===== *)
(** * NUMERIC columns read as floats

    The database sends a [NUMERIC(p, s)] as decimal text with all [s] digits of its scale, and the
    code reads the text with [strconv.ParseFloat].  The float it stores is the decimal, correctly
    rounded. *)

From S2P Require Import Prelude GoString GoTime GoFloat GoFloatSign GoStrconv GoTimeText.
From Stdlib Require Import SpecFloat.

(** The text of the numeric [n / 10^scale]. *)
Definition numeric_text (n : Z) (scale : nat) : string :=
  of_bytes ((if n <? 0 then [byte_of_Z 45] else []) ++ print_nat (Z.abs n / 10 ^ Z.of_nat scale) ++
            match scale with O => [] | _ => byte_of_Z 46 :: digits_of scale (Z.abs n) end)%list.

(** ** Scanning decimal text *)

Lemma is_digit_plain c : is_digit c -> byte_is c 95 = false /\ byte_is c 46 = false /\ byte_is (lower_byte c) 120 = false.
Proof.
  intros [d Hd]. unfold digit_val in Hd. case_match; [|done]. unfold byte_is, lower_byte. bool_to_prop.
  split_and!; try (apply Z.eqb_neq; lia). case_match; bool_to_prop; apply Z.eqb_neq; lia.
Qed.

Lemma scan_mantissa_digits l m frac point digits rest v :
  Forall is_digit l -> l <> [] -> parse_digits m l = Some v ->
  scan_mantissa 10 digit_val m frac point digits (l ++ rest) =
  scan_mantissa 10 digit_val v (if point then frac + Z.of_nat (length l) else frac) point true rest.
Proof.
  intros Hl. revert m frac digits. induction Hl as [|c l Hc Hl IH]; intros m frac digits Hne Hp; [done|].
  pose proof (is_digit_plain c Hc) as (E1 & E2 & _). destruct Hc as [d Hd].
  cbn [app scan_mantissa parse_digits] in *. rewrite Hd in *. rewrite E1, E2.
  destruct l as [|c' l].
  - injection Hp as <-. by destruct point.
  - rewrite (IH _ _ _ ltac:(done) Hp). destruct point; [|done]. f_equal. cbn [length]. lia.
Qed.

(** The value of an unsigned decimal text. *)
Lemma scan_mantissa_decimal ip fp a v :
  Forall is_digit ip -> ip <> [] -> Forall is_digit fp -> parse_digits 0 ip = Some a -> parse_digits a fp = Some v ->
  scan_mantissa 10 digit_val 0 0 false false (ip ++ match fp with [] => [] | _ => byte_of_Z 46 :: fp end)%list
  = MkMantissa v (Z.of_nat (length fp)) (negb (bool_decide (fp = []))) true [].
Proof.
  intros Hi Hne Hf Ha Hv. rewrite (scan_mantissa_digits ip 0 0 false false _ a) by done.
  destruct fp as [|c fp]; [simpl in *; by simplify_eq|].
  change (scan_mantissa 10 digit_val a 0 false true (byte_of_Z 46 :: c :: fp)) with (scan_mantissa 10 digit_val a 0 true true (c :: fp)).
  pose proof (scan_mantissa_digits (c :: fp) a 0 true true [] v Hf ltac:(done) Hv) as H. rewrite app_nil_r in H. by rewrite H.
Qed.

Lemma numeric_digits n scale : 0 <= n ->
  let ip := print_nat (n / 10 ^ Z.of_nat scale) in let fp := digits_of scale n in
  Forall is_digit ip /\ ip <> [] /\ Forall is_digit fp /\ length fp = scale /\
  parse_digits 0 ip = Some (n / 10 ^ Z.of_nat scale) /\ parse_digits (n / 10 ^ Z.of_nat scale) fp = Some n.
Proof.
  intros Hn. assert (0 < 10 ^ Z.of_nat scale) by lia.
  assert (0 <= n / 10 ^ Z.of_nat scale) by (apply Z.div_pos; lia). cbv zeta.
  split_and!; [by apply print_nat_digits|apply print_nat_ne|apply digits_of_digits|apply digits_of_length|
               by apply parse_print_nat|]. rewrite digits_of_spec. f_equal.
  pose proof (Z.div_mod n (10 ^ Z.of_nat scale)). lia.
Qed.

(** ** Rounding *)

Lemma round_aux_opp q e l : SFopp (binary_round_aux prec64 emax64 false q e l) = binary_round_aux prec64 emax64 true q e l.
Proof.
  unfold binary_round_aux. destruct (shr_fexp prec64 emax64 q e l) as [r e'].
  destruct (shr_fexp _ _ _ e' _) as [r' e'']. destruct (shr_m r') as [|p|p]; try done. by destruct (_ <=? _).
Qed.

Lemma f64_dec_opp n s : 0 < n -> 0 < s -> SFopp (f64_dec n (- s)) = f64_dec (- n) (- s).
Proof.
  intros Hn Hs. destruct n as [|p|]; [lia| |lia]. cbn [Z.opp]. unfold f64_dec.
  rewrite (proj2 (Z.leb_gt 0 (- s))) by lia. change (Z.abs (Z.neg p)) with (Z.abs (Z.pos p)).
  destruct (SFdiv_core_binary _ _ _ _ _ _) as [[q ex] l]. apply round_aux_opp.
Qed.

Lemma round_aux_finite s m e l :
  0 <= m -> e <= fexp_lo (Zdigits2 m + e) -> Zdigits2 m + e <= 900 -> is_inf (binary_round_aux prec64 emax64 s m e l) = false.
Proof.
  intros Hm He Hd. destruct (round_aux_value s m e l Hm He) as (r & e3 & m3 & Hr & -> & Hm3 & He3 & _ & Hv).
  destruct m3 as [|p|p]; [done| |lia]. unfold round_result. set (e2 := fexp_lo (Zdigits2 m + e)) in *.
  destruct (Z.leb_spec e3 (emax64 - prec64)) as [|Hgt]; [done|]. exfalso.
  unfold shr_fexp in Hr. rewrite fexp_eq in Hr. fold e2 in Hr.
  pose proof (shr_spec (shr_record_of_loc m l) e (e2 - e)) as Hs. rewrite shr_record_m, Hr in Hs. cbn [fst] in Hs.
  destruct (Hs Hm ltac:(lia)) as [Hsm _]. pose proof (round_nearest_even_bounds (shr_m r) (loc_of_shr_record r)) as Hb.
  pose proof (zdigits_div m (e2 - e) Hm ltac:(lia)) as Hdd. rewrite <- Hsm in Hdd.
  assert (0 <= shr_m r) as Hr0 by (rewrite Hsm; apply Z.div_pos; [lia|apply Z.pow_pos_nonneg; lia]).
  assert (shr_m r < 2 ^ 53) as Hr53 by (apply zdigits_le; [lia..|]; unfold e2, fexp_lo in *; lia).
  assert (2 ^ 54 <= 2 ^ (e3 - e2)) as Hp by (apply Z.pow_le_mono_r; [lia|]; unfold e2, fexp_lo, emax64, prec64 in *; lia).
  assert (2 ^ (e3 - e2) <= Zpos p * 2 ^ (e3 - e2)) by nia. lia.
Qed.

Lemma f64_dec_finite n s : 0 < n < 2 ^ 900 -> 0 < s -> is_inf (f64_dec n (- s)) = false.
Proof.
  intros [Hn Hlt] Hs. destruct n as [|p|]; [lia| |lia]. unfold f64_dec.
  rewrite (proj2 (Z.leb_gt 0 (- s))) by lia. rewrite Z.opp_involutive. change (Z.abs (Z.pos p)) with (Z.pos p).
  assert (0 < 10 ^ s) as H10 by (apply Z.pow_pos_nonneg; lia). destruct (10 ^ s) as [|t|] eqn:Et; [lia| |lia].
  pose proof (fdiv_core_bound p 0 t 0) as H. destruct (SFdiv_core_binary prec64 emax64 (Z.pos p) 0 (Z.pos t) 0) as [[q e] l].
  destruct H as (H1 & H2 & H3). apply round_aux_finite; [done..|].
  assert (Zdigits2 (Z.pos p) <= 900) by (apply zdigits_le; lia). lia.
Qed.

(** ** What the code reads *)

Lemma is_digit_cases c : is_digit c -> exists d, c = digit d /\ d ∈ seqZ 0 10.
Proof.
  intros [d Hd]. unfold digit_val in Hd. case_match; [|done]. injection Hd as Hd. bool_to_prop. exists d.
  split; [|apply elem_of_seqZ; lia]. unfold digit. rewrite <- Hd.
  replace (48 + (Z_of_byte c - 48)) with (Z_of_byte c) by lia. by rewrite byte_of_Z_of_byte.
Qed.

Lemma special_digit c l (neg : bool) : is_digit c -> special ((if neg then [byte_of_Z 45] else []) ++ c :: l)%list = None.
Proof.
  intros (d & -> & Hd)%is_digit_cases. change (seqZ 0 10) with [0; 1; 2; 3; 4; 5; 6; 7; 8; 9] in Hd.
  destruct neg; set_unfold; by repeat destruct Hd as [->|Hd]; [..|subst].
Qed.

Lemma scan_sign_digit c l (neg : bool) : is_digit c -> scan_sign ((if neg then [byte_of_Z 45] else []) ++ c :: l)%list = (neg, c :: l).
Proof.
  intros (d & -> & Hd)%is_digit_cases. change (seqZ 0 10) with [0; 1; 2; 3; 4; 5; 6; 7; 8; 9] in Hd.
  destruct neg; set_unfold; by repeat destruct Hd as [->|Hd]; [..|subst].
Qed.

Lemma parse_magnitude_decimal n scale : 0 <= n -> (0 < scale)%nat ->
  parse_magnitude (print_nat (n / 10 ^ Z.of_nat scale) ++ byte_of_Z 46 :: digits_of scale n)%list
  = Some (f64_dec n (- Z.of_nat scale)).
Proof.
  intros Hn Hs. destruct (numeric_digits n scale Hn) as (H1 & H2 & H3 & H4 & H5 & H6).
  pose proof (scan_mantissa_decimal _ _ _ _ H1 H2 H3 H5 H6) as Hm. rewrite H4 in Hm.
  destruct (digits_of scale n) as [|f fp] eqn:Ef; [simpl in H4; lia|].
  destruct (print_nat (n / 10 ^ Z.of_nat scale)) as [|c ip] eqn:Ei; [done|]. cbn [app] in *.
  unfold parse_magnitude.
  assert (match (ip ++ byte_of_Z 46 :: f :: fp)%list with c1 :: _ :: _ => byte_is c 48 && byte_is (lower_byte c1) 120 | _ => false end = false) as ->.
  { destruct ip as [|c1 ip]; cbn [app]; [by rewrite andb_false_r|].
    inversion H1 as [|? ? _ H1']; inversion H1' as [|? ? Hc1 _]; subst. destruct (is_digit_plain c1 Hc1) as (_ & _ & ->).
    rewrite andb_false_r. by destruct (ip ++ _)%list. }
  rewrite Hm. cbn. by rewrite Z.sub_0_l.
Qed.

Lemma no_underscore l : Forall (fun c => is_digit c \/ c = byte_of_Z 46 \/ c = byte_of_Z 45) l -> existsb (fun c => byte_is c 95) l = false.
Proof.
  induction 1 as [|c l Hc _ IH]; [done|]. cbn [existsb]. rewrite IH, orb_false_r.
  destruct Hc as [Hc|[-> | ->]]; [by apply is_digit_plain|done|done].
Qed.

(** A numeric text is read as its correctly rounded value, without an error. *)
Lemma ParseFloat_decimal n scale : (0 < scale)%nat -> Z.abs n < 2 ^ 900 ->
  ParseFloat (numeric_text n scale) = (f64_dec n (- Z.of_nat scale), None).
Proof.
  intros Hs Hn. unfold ParseFloat, numeric_text. rewrite to_of_bytes.
  destruct scale as [|k]; [lia|]. set (scale := S k) in *.
  destruct (numeric_digits (Z.abs n) scale ltac:(lia)) as (H1 & H2 & H3 & _).
  pose proof (parse_magnitude_decimal (Z.abs n) scale ltac:(lia) Hs) as Hm.
  assert (existsb (fun c => byte_is c 95) ((if n <? 0 then [byte_of_Z 45] else []) ++ print_nat (Z.abs n / 10 ^ Z.of_nat scale) ++
    byte_of_Z 46 :: digits_of scale (Z.abs n))%list = false) as Hu.
  { apply no_underscore. apply Forall_app; split; [|apply Forall_app; split].
    - destruct (n <? 0); [|by constructor]. constructor; [by right; right|constructor].
    - eapply Forall_impl; [done|]. by left.
    - constructor; [by right; left|]. eapply Forall_impl; [done|]. by left. }
  rewrite Hu. destruct (print_nat (Z.abs n / 10 ^ Z.of_nat scale)) as [|c ip]; [done|]. cbn [app] in *.
  inversion H1 as [|? ? Hc _]; subst. rewrite special_digit, scan_sign_digit by done. rewrite Hm. cbn [andb].
  assert (is_inf (f64_dec (Z.abs n) (- Z.of_nat scale)) = false) as ->.
  { destruct (decide (n = 0)) as [->|]; [done|]. apply f64_dec_finite; [|lia].
    split; [lia|done]. }
  f_equal. destruct (Z.ltb_spec n 0); cbn [fneg].
  - rewrite f64_dec_opp by lia. f_equal. lia.
  - f_equal. lia.
Qed.

(** A stored numeric has at most 38 digits. *)
Lemma ParseFloat_numeric n scale : (0 < scale)%nat -> Z.abs n < 10 ^ 38 ->
  ParseFloat (numeric_text n scale) = (f64_dec n (- Z.of_nat scale), None).
Proof. intros Hs Hn. apply ParseFloat_decimal; [done|]. apply (Z.lt_trans _ _ _ Hn). reflexivity. Qed.
