(* ===== verification/ApiQuery.v ===== *)
(** * List options of the API ([internal/api/derivatives/query.go])

    The query string of a request as a lookup from names to values ([url.Values.Get]: the first
    value, empty when there is none), the options it is parsed into, and the page description of an
    answer. *)

From S2P Require Import Prelude GoString GoTime GoFloat GoError GoStrconv GoTimeText.

(** ** Data *)

Definition defaultLimit : Z := 50.
Definition maxLimit : Z := 500.

Record ListOptions := MkOptions {
  Exchange : string; Search : string; Category : string; Interval : string; Period : string;
  StartTime : option Time; EndTime : option Time; Limit : Z; Page : Z; Sort : string; Direction : string;
  MinVolume : option float64; MinOI : option float64; RankMin : option Z; RankMax : option Z }.

(** [dto.go]: [PageMeta] and the generic [PagedResponse]. *)
Record PageMeta := MkPageMeta { pm_Page : Z; pm_Limit : Z; pm_Total : Z; pm_TotalPages : Z; pm_HasNext : bool }.
Record PagedResponse (A : Type) := MkPaged { Data : list A; Meta : PageMeta }.
Arguments MkPaged {A} _ _.
Arguments Data {A} _.
Arguments Meta {A} _.

(** ** Parsing *)

Definition cleanLower (value : string) : string := ToLower (TrimSpace value).

Fixpoint firstNonEmpty (values : list string) : string :=
  match values with
  | [] => ""
  | value :: rest => if negb (TrimSpace value =? "")%string then value else firstNonEmpty rest
  end.

Definition parseOptionalTime (raw : string) : result error (option Time) :=
  let raw := TrimSpace raw in
  if (raw =? "")%string then Ok None else
  match ParseRFC3339 raw with
  | Some parsed => Ok (Some parsed)
  | None =>
    match ParseInt raw with
    | Some seconds => Ok (Some (Unix seconds))
    | None => Err (ParseInt_error raw)
    end
  end.

Definition parseOptionalFloat (raw : string) : result error (option float64) :=
  let raw := TrimSpace raw in
  if (raw =? "")%string then Ok None else
  match ParseFloat raw with
  | (value, None) => Ok (Some value)
  | (_, Some err) => Err err
  end.

Definition parseOptionalInt (raw : string) : result error (option Z) :=
  let raw := TrimSpace raw in
  if (raw =? "")%string then Ok None else
  match ParseInt raw with
  | Some value => Ok (Some value)
  | None => Err (Atoi_error raw)
  end.

(** [if x, err = parse(raw); err != nil { return ListOptions{}, fmt.Errorf(message) }]. *)
Definition or_message {A} (r : result error A) (message : string) : result error A :=
  match r with Ok a => Ok a | Err _ => Err (ErrorString message) end.

(** A positive count: the default when the parameter is blank. *)
Definition positive_param (raw : string) (dflt : Z) (message : string) : result error Z :=
  let raw := TrimSpace raw in
  if (raw =? "")%string then Ok dflt else
  match ParseInt raw with
  | Some n => if n <? 1 then Err (ErrorString message) else Ok n
  | None => Err (ErrorString message)
  end.

Definition ParseListOptions (query : string -> string) : result error ListOptions :=
  let interval := TrimSpace (firstNonEmpty [query "interval"; query "timeframe"]) in
  let period := TrimSpace (query "period") in
  let period := if (period =? "")%string then interval else period in
  let direction := cleanLower (query "direction") in
  let direction := if (direction =? "")%string then "desc" else direction in
  if negb (direction =? "asc")%string && negb (direction =? "desc")%string
  then Err (ErrorString "direction must be asc or desc") else
  let! limit := positive_param (query "limit") defaultLimit "limit must be a positive integer" in
  let limit := if maxLimit <? limit then maxLimit else limit in
  let! page := positive_param (query "page") 1 "page must be a positive integer" in
  let! start := or_message (parseOptionalTime (query "start_time")) "start_time must be RFC3339 or unix seconds" in
  let! end_ := or_message (parseOptionalTime (query "end_time")) "end_time must be RFC3339 or unix seconds" in
  if match start, end_ with Some s, Some e => After s e | _, _ => false end
  then Err (ErrorString "start_time must be before end_time") else
  let! minVolume := or_message (parseOptionalFloat (query "min_volume")) "min_volume must be a number" in
  let! minOI := or_message (parseOptionalFloat (query "min_oi")) "min_oi must be a number" in
  let! rankMin := or_message (parseOptionalInt (query "rank_min")) "rank_min must be an integer" in
  let! rankMax := or_message (parseOptionalInt (query "rank_max")) "rank_max must be an integer" in
  Ok (MkOptions (cleanLower (query "exchange")) (TrimSpace (query "search")) (TrimSpace (query "category"))
        interval period start end_ limit page (cleanLower (query "sort")) direction minVolume minOI rankMin rankMax).

(** ** Paging *)

Definition Offset (o : ListOptions) : Z := wrap64 ((Page o - 1) * Limit o).

Definition PageMeta_of (o : ListOptions) (total : Z) : PageMeta :=
  let totalPages := if 0 <? Limit o then Z.quot (wrap64 (total + Limit o - 1)) (Limit o) else 0 in
  MkPageMeta (Page o) (Limit o) total totalPages (Page o <? totalPages).

(** ** Properties *)

Definition time_ordered (start end_ : option Time) : Prop :=
  match start, end_ with Some s, Some e => s <= e | _, _ => True end.

(** What every parsed request satisfies. *)
Record options_ok (o : ListOptions) : Prop := {
  ok_limit : 1 <= Limit o <= maxLimit;
  ok_page : 1 <= Page o <= max_int64;
  ok_direction : Direction o = "asc" \/ Direction o = "desc";
  ok_times : time_ordered (StartTime o) (EndTime o);
  ok_exchange : cleanLower (Exchange o) = Exchange o;
  ok_texts : TrimSpace (Search o) = Search o /\ TrimSpace (Category o) = Category o /\
             TrimSpace (Interval o) = Interval o /\ TrimSpace (Period o) = Period o;
  ok_period : Period o = "" -> Interval o = "" }.

Lemma positive_param_ok raw d m n : 1 <= d <= max_int64 -> positive_param raw d m = Ok n -> 1 <= n <= max_int64.
Proof.
  intros Hd. unfold positive_param. destruct (_ =? _)%string; [by intros [= <-]|].
  destruct (ParseInt _) as [k|] eqn:E; [|done]. destruct (Z.ltb_spec k 1); [done|]. intros [= <-].
  apply ParseInt_range in E. unfold int64_ok in E. lia.
Qed.

Lemma or_message_ok {A} (r : result error A) m a : or_message r m = Ok a -> r = Ok a.
Proof. by destruct r. Qed.

Lemma cleanLower_idem s : cleanLower (cleanLower s) = cleanLower s.
Proof. apply norm_idem. Qed.

Lemma parseOptionalInt_range raw n : parseOptionalInt raw = Ok (Some n) -> int64_ok n.
Proof.
  unfold parseOptionalInt. case_match; [done|]. destruct (ParseInt _) eqn:E; [|done].
  intros [= <-]. by apply ParseInt_range in E.
Qed.

(** The query string a client sends for given options. *)
Definition time_param (t : option Time) : string := from_option FormatRFC3339Nano "" t.
Definition int_param (n : option Z) : string := from_option Itoa "" n.

Definition query_of (o : ListOptions) (name : string) : string :=
  match name with
  | "exchange" => Exchange o | "search" => Search o | "category" => Category o | "interval" => Interval o
  | "period" => Period o | "start_time" => time_param (StartTime o) | "end_time" => time_param (EndTime o)
  | "limit" => Itoa (Limit o) | "page" => Itoa (Page o) | "sort" => Sort o | "direction" => Direction o
  | "rank_min" => int_param (RankMin o) | "rank_max" => int_param (RankMax o)
  | _ => ""
  end%string.

Lemma TrimSpace_time t : year4_ok t -> TrimSpace (FormatRFC3339Nano t) = FormatRFC3339Nano t.
Proof.
  intros Hy. unfold FormatRFC3339Nano. destruct (date_of_days (day_of t)) as [[y m] d] eqn:E.
  pose proof (year4_ok_year t y m d Hy E) as Hr. rewrite fmt_year_pad4 by lia. cbv zeta.
  assert (exists l, to_bytes (pad4 y) = digit (y / 1000) :: l) as [l Hl] by (unfold pad4; rewrite to_of_bytes; by eexists).
  rewrite <- (of_to_bytes (pad4 y +:+ _)), !to_bytes_app, Hl. change (to_bytes "Z") with [byte_of_Z 90].
  cbn [app]. rewrite !app_assoc. apply TrimSpace_solid; [|done].
  apply solid_digit. split; [apply Z.div_pos; lia|apply Z.div_lt_upper_bound; lia].
Qed.

Lemma parse_time_param t : from_option year4_ok True t -> parseOptionalTime (time_param t) = Ok t.
Proof.
  intros Hy. destruct t as [t|]; [|done]. simpl in Hy. unfold parseOptionalTime, time_param. simpl.
  rewrite TrimSpace_time by done. rewrite ParseRFC3339_Nano by done.
  destruct (String.eqb_spec (FormatRFC3339Nano t) "") as [E|]; [|done].
  pose proof (ParseRFC3339_Nano t Hy) as H. rewrite E in H. done.
Qed.

Lemma Itoa_ne z : (Itoa z =? "")%string = false.
Proof.
  apply String.eqb_neq. intros H. apply (f_equal to_bytes) in H. unfold Itoa in H. rewrite to_of_bytes in H.
  case_match; [done|]. by apply print_nat_ne in H.
Qed.

Lemma parse_int_param n : from_option int64_ok True n -> parseOptionalInt (int_param n) = Ok n.
Proof.
  intros Hn. destruct n as [n|]; [|done]. simpl in Hn. unfold parseOptionalInt, int_param. simpl.
  by rewrite TrimSpace_Itoa, Itoa_ne, ParseInt_Itoa.
Qed.

Lemma parse_positive n d m : 1 <= n <= max_int64 -> positive_param (Itoa n) d m = Ok n.
Proof.
  intros Hn. unfold positive_param. rewrite TrimSpace_Itoa, Itoa_ne, ParseInt_Itoa by (unfold int64_ok, min_int64, two63; lia).
  by rewrite (proj2 (Z.ltb_ge n 1)) by lia.
Qed.

Lemma ParseListOptions_ok q o : ParseListOptions q = Ok o ->
  options_ok o /\ cleanLower (Sort o) = Sort o /\
  from_option int64_ok True (RankMin o) /\ from_option int64_ok True (RankMax o).
Proof.
  unfold ParseListOptions. cbv zeta. set (interval := TrimSpace (firstNonEmpty _)).
  set (period := if (TrimSpace (q "period") =? "")%string then interval else TrimSpace (q "period")).
  set (dir := if (cleanLower (q "direction") =? "")%string then "desc" else cleanLower (q "direction")).
  destruct (negb (dir =? "asc")%string && _) eqn:Hdir; [done|].
  destruct (positive_param (q "limit") _ _) as [limit|] eqn:Hl; [|done].
  destruct (positive_param (q "page") _ _) as [page|] eqn:Hp; [|done].
  destruct (or_message (parseOptionalTime (q "start_time")) _) as [start|]; [|done].
  destruct (or_message (parseOptionalTime (q "end_time")) _) as [end_|]; [|done].
  destruct (match start with Some s => match end_ with Some e => After s e | None => false end | None => false end) eqn:Ht; [done|].
  destruct (or_message (parseOptionalFloat (q "min_volume")) _) as [mv|]; [|done].
  destruct (or_message (parseOptionalFloat (q "min_oi")) _) as [mo|]; [|done].
  destruct (or_message (parseOptionalInt (q "rank_min")) _) as [rmin|] eqn:Hmin; [|done].
  destruct (or_message (parseOptionalInt (q "rank_max")) _) as [rmax|] eqn:Hmax; [|done].
  intros [= <-]. apply positive_param_ok in Hl; [|unfold defaultLimit, max_int64, two63; lia].
  apply positive_param_ok in Hp; [|unfold max_int64, two63; lia]. apply or_message_ok in Hmin, Hmax.
  split_and!; simpl; [| |by destruct rmin; [eapply parseOptionalInt_range|]|by destruct rmax; [eapply parseOptionalInt_range|]].
  2: apply cleanLower_idem.
  split; simpl.
  - unfold maxLimit. destruct (Z.ltb_spec 500 limit); lia.
  - done.
  - destruct (String.eqb_spec dir "asc"); [by left|]. destruct (String.eqb_spec dir "desc"); [by right|done].
  - destruct start, end_; try done. unfold After in Ht. simpl. bool_to_prop. lia.
  - apply cleanLower_idem.
  - split_and!; try apply TrimSpace_idem. subst period. by destruct (TrimSpace (q "period") =? "")%string; apply TrimSpace_idem.
  - subst period. destruct (String.eqb_spec (TrimSpace (q "period")) "") as [E|]; done.
Qed.

(** the list options a request can carry are exactly the well-formed ones.  Whatever the query
    string, parsed options have a limit between 1 and 500, a page of at least 1, a direction that is
    asc or desc, a start no later than the end, and trimmed texts; conversely any well-formed
    options (with times of four-digit years and no float filters) are what the query string naming
    them is parsed into. *)
Theorem ParseListOptions_exact o :
  from_option year4_ok True (StartTime o) -> from_option year4_ok True (EndTime o) ->
  MinVolume o = None -> MinOI o = None ->
  (exists q, ParseListOptions q = Ok o) <->
  options_ok o /\ cleanLower (Sort o) = Sort o /\
  from_option int64_ok True (RankMin o) /\ from_option int64_ok True (RankMax o).
Proof.
  intros Hs He Hv Ho. split; [intros [q Hq]; by eapply ParseListOptions_ok|].
  intros (Hok & Hsort & Hmin & Hmax). exists (query_of o). destruct Hok as [Hl Hp Hd Ht Hx (T1 & T2 & T3 & T4) Hper].
  unfold ParseListOptions, query_of. cbv zeta. cbn [firstNonEmpty].
  rewrite Hx, T1, T2, Hsort, T4.
  assert (TrimSpace (if negb (TrimSpace (Interval o) =? "")%string then Interval o else
           if negb (TrimSpace "" =? "")%string then "" else "") = Interval o) as ->.
  { rewrite T3. by destruct (String.eqb_spec (Interval o) "") as [->|]. }
  rewrite (parse_positive (Limit o)) by (unfold maxLimit, max_int64, two63 in *; lia).
  rewrite (parse_positive (Page o)) by done. rewrite (proj2 (Z.ltb_ge _ _)) by lia.
  rewrite !parse_time_param, !parse_int_param by done. cbn [or_message].
  assert ((match StartTime o with Some s => match EndTime o with Some e => After s e | None => false end | None => false end) = false) as ->.
  { destruct (StartTime o), (EndTime o); try done. apply Z.ltb_ge. done. }
  assert (cleanLower (Direction o) = Direction o) as -> by by destruct Hd as [-> | ->].
  assert ((if (Period o =? "")%string then Interval o else Period o) = Period o) as ->.
  { destruct (String.eqb_spec (Period o) "") as [E|]; [rewrite E; by apply Hper|done]. }
  assert ((if (Direction o =? "")%string then "desc" else Direction o) = Direction o) as -> by by destruct Hd as [-> | ->].
  assert (negb (Direction o =? "asc")%string && negb (Direction o =? "desc")%string = false) as -> by by destruct Hd as [-> | ->].
  change (parseOptionalFloat "") with (@Ok error (option float64) None). cbn [or_message].
  destruct o; simpl in *; by subst.
Qed.

Definition sample_options : ListOptions :=
  MkOptions "binance" "btc" "" "5m" "5m" (Some (Date 2026 5 25)) (Some (Date 2026 5 26)) 500 2 "volume" "asc" None None (Some 1) None.

Lemma ParseListOptions_exact_witness : exists q, ParseListOptions q = Ok sample_options.
Proof.
  apply (ParseListOptions_exact sample_options); [split; vm_compute; (reflexivity || discriminate)|split; vm_compute; (reflexivity || discriminate)|reflexivity|reflexivity|].
  split_and!; [constructor; simpl| | |].
  - split; vm_compute; discriminate.
  - split; vm_compute; discriminate.
  - by left.
  - vm_compute; discriminate.
  - reflexivity.
  - split_and!; reflexivity.
  - discriminate.
  - reflexivity.
  - split; vm_compute; discriminate.
  - exact I.
Defined.
