(* ===== verification/ApiStore.v ===== *)
(** * Statements and rows of the API's repository ([internal/api/derivatives]: [scan.go] and the
    parts its list functions share)

    Tables are lists of rows, columns by name with NULL absent.  A list statement filters a table
    with numbered placeholders, reshapes and sorts the rows, counts them before the page is cut
    ([COUNT( * ) OVER()]), and its columns reach the code as the values of the driver ([lib/pq]:
    [bigint] and [integer] as [int64], [text] as [string], [numeric] and [jsonb] as bytes,
    [timestamptz] as [time.Time]).  [rows.Scan] stores them into typed destinations. *)

From S2P Require Import Prelude GoString GoTime GoFloat GoError GoJson GoStrconv GoTimeText PgNumeric ApiQuery.

(** ** Values *)

(** [SNum n scale] is the numeric [n / 10^scale], as a [NUMERIC(p, scale)] column stores it. *)
Inductive sval :=
| SInt (z : Z)
| SNum (n : Z) (scale : nat)
| SNaN
| SText (s : string)
| SBool (b : bool)
| STime (t : Time)
| SJson (v : json).

Abbreviation row := (gmap string sval) (only parsing).

(** A value of the driver; NULL is [None] of the option it comes in. *)
Inductive dval :=
| DInt (z : Z)
| DFloat (f : float64)
| DBool (b : bool)
| DBytes (s : string)
| DRaw (r : RawMessage)
| DString (s : string)
| DTime (t : Time).

Definition driver (v : sval) : dval :=
  match v with
  | SInt z => DInt z
  | SNum n scale => DBytes (numeric_text n scale)
  | SNaN => DBytes "NaN"
  | SText s => DString s
  | SBool b => DBool b
  | STime t => DTime t
  | SJson j => DRaw (RawJson j)
  end.

(** ** Scan destinations

    A destination takes a driver value or NULL.  Conversions of [database/sql] from types that no
    column the statements select has (a timestamp into a string, say) are refused. *)

Abbreviation dest A := (option dval -> result error A) (only parsing).

Definition type_name (v : option dval) : string :=
  match v with
  | None => "<nil>" | Some (DInt _) => "int64" | Some (DFloat _) => "float64" | Some (DBool _) => "bool"
  | Some (DBytes _) | Some (DRaw _) => "[]uint8" | Some (DString _) => "string" | Some (DTime _) => "time.Time"
  end.
Definition unsupported (v : option dval) (target : string) : error :=
  ErrorString ("unsupported Scan, storing driver.Value type " +:+ type_name v +:+ " into type *" +:+ target).
Definition null_error (target : string) : error := ErrorString ("converting NULL to " +:+ target +:+ " is unsupported").

Definition parse_float (s : string) : result error float64 :=
  match ParseFloat s with (x, None) => Ok x | (_, Some err) => Err err end.
Definition parse_int (s : string) : result error Z :=
  match ParseInt s with Some z => Ok z | None => Err (ParseInt_error s) end.

Definition to_string (v : option dval) : result error string :=
  match v with
  | Some (DString s) | Some (DBytes s) => Ok s
  | None => Err (null_error "string")
  | _ => Err (unsupported v "string")
  end.
(** [kind] is the kind of the field, [int] or [int64]. *)
Definition to_int (kind : string) (v : option dval) : result error Z :=
  match v with
  | Some (DInt z) => Ok z
  | None => Err (null_error kind)
  | _ => Err (unsupported v kind)
  end.
Definition to_float (v : option dval) : result error float64 :=
  match v with
  | Some (DFloat f) => Ok f
  | Some (DBytes s) => parse_float s
  | None => Err (null_error "float64")
  | _ => Err (unsupported v "float64")
  end.
Definition to_bool (v : option dval) : result error bool :=
  match v with
  | Some (DBool b) => Ok b
  | None => Err (ErrorString "sql/driver: couldn't convert <nil> (<nil>) into type bool")
  | _ => Err (unsupported v "bool")
  end.
Definition to_time (v : option dval) : result error Time :=
  match v with Some (DTime t) => Ok t | _ => Err (unsupported v "time.Time") end.
Definition to_raw (v : option dval) : result error RawMessage :=
  match v with Some (DRaw r) => Ok r | _ => Err (unsupported v "json.RawMessage") end.
(** A plain [[]byte] destination takes NULL as nil. *)
Definition to_bytes_dest (v : option dval) : result error RawMessage :=
  match v with None => Ok RawEmpty | _ => to_raw v end.
(** [sql.NullString], [sql.NullInt64], [sql.NullTime]. *)
Definition nullable {A} (d : dest A) (v : option dval) : result error (option A) :=
  match v with None => Ok None | _ => let! a := d v in Ok (Some a) end.

(** [floatScanner.Scan] and [int64Scanner.Scan]; NULL stores a nil pointer. *)
Definition floatDest (v : option dval) : result error (option float64) :=
  match v with
  | None => Ok None
  | Some (DFloat f) => Ok (Some f)
  | Some (DInt z) => Ok (Some (f64_of_Z z))
  | Some (DBytes s) | Some (DString s) => let! x := parse_float s in Ok (Some x)
  | Some _ => Err (ErrorString ("cannot scan " +:+ type_name v +:+ " into float"))
  end.
Definition int64Dest (v : option dval) : result error (option Z) :=
  match v with
  | None => Ok None
  | Some (DInt z) => Ok (Some z)
  | Some (DBytes s) | Some (DString s) => let! z := parse_int s in Ok (Some z)
  | Some _ => Err (ErrorString ("cannot scan " +:+ type_name v +:+ " into int64"))
  end.

Definition nullTimePtr (value : option Time) : option Time := value.

Definition ensureJSON (raw : RawMessage) : RawMessage := if raw_is_empty raw then RawJson (JObject []) else raw.
Definition ensureJSONArray (raw : RawMessage) : RawMessage := if raw_is_empty raw then RawJson (JArray []) else raw.

Fixpoint firstFloat (values : list (option float64)) : option float64 :=
  match values with
  | [] => None
  | Some v :: _ => Some v
  | None :: rest => firstFloat rest
  end.

(** ** [rows.Scan]: destinations left to right; an error names its column. *)
Abbreviation drow := (list (string * option dval)) (only parsing).

Definition scanner (A : Type) : Type := Z -> drow -> result error (A * (Z * drow)).

#[export] Instance scanner_ret : MRet scanner := fun A a i l => Ok (a, (i, l)).
#[export] Instance scanner_bind : MBind scanner := fun A B f m i l =>
  match m i l with Ok (a, (i', l')) => f a i' l' | Err e => Err e end.

Definition column {A} (d : dest A) : scanner A := fun i l =>
  match l with
  | [] => Err (ErrorString "sql: missing column")
  | (name, v) :: l' =>
    match d v with
    | Ok a => Ok (a, (i + 1, l'))
    | Err e => Err (WrapError ("sql: Scan error on column index " +:+ Itoa i +:+ ", name " +:+ Quote name +:+ ": ") e "")
    end
  end.

(** [Scan] first compares the numbers of columns and of destinations [n]. *)
Definition Scan {A} (n : nat) (m : scanner A) (l : drow) : result error A :=
  if negb (length l =? n)%nat
  then Err (ErrorString ("sql: expected " +:+ Itoa (Z.of_nat (length l)) +:+ " destination arguments in Scan, not " +:+ Itoa (Z.of_nat n)))
  else let! r := m 0 l in Ok (fst r).

(** ** Statements *)

(** An argument of a statement. *)
Inductive any := AInt (z : Z) | AFloat (f : float64) | AText (s : string) | ATime (t : Time).

Inductive cmp := CEq | CGe | CLe.
(** [column op $n]. *)
Record clause := MkClause { cl_column : string; cl_op : cmp; cl_arg : Z }.

(** The argument of placeholder [$n]. *)
Definition placeholder (args : list any) (n : Z) : option any := if n <=? 0 then None else args !! Z.to_nat (n - 1).

(** A comparison with NULL, or between types, holds for no row. *)
Definition compares (op : cmp) (v : option sval) (a : option any) : bool :=
  match v, a with
  | Some (SInt x), Some (AInt y) => match op with CEq => x =? y | CGe => y <=? x | CLe => x <=? y end
  | Some (SText x), Some (AText y) => match op with CEq => (x =? y)%string | CGe => str_leb y x | CLe => str_leb x y end
  | Some (STime x), Some (ATime y) => match op with CEq => x =? y | CGe => y <=? x | CLe => x <=? y end
  | _, _ => false
  end.
Definition clause_holds (args : list any) (r : row) (c : clause) : bool :=
  compares (cl_op c) (r !! cl_column c) (placeholder args (cl_arg c)).

(** *** Order *)

Definition sval_rank (v : sval) : Z :=
  match v with SInt _ => 0 | SNum _ _ => 1 | SNaN => 2 | SText _ => 3 | SBool _ => 4 | STime _ => 5 | SJson _ => 6 end.

(** Numerics compare by value, NaN above them all. *)
Definition sval_leb (x y : sval) : bool :=
  match x, y with
  | SInt a, SInt b => a <=? b
  | SNum a s, SNum b t => a * 10 ^ Z.of_nat t <=? b * 10 ^ Z.of_nat s
  | SText a, SText b => str_leb a b
  | SBool a, SBool b => implb a b
  | STime a, STime b => a <=? b
  | _, _ => sval_rank x <=? sval_rank y
  end.

(** One key of [ORDER BY]. *)
Record order_key := MkOrder { ok_column : string; ok_desc : bool; ok_nulls_last : bool }.

Definition key_leb (k : order_key) (a b : row) : bool :=
  match a !! ok_column k, b !! ok_column k with
  | Some x, Some y => if ok_desc k then sval_leb y x else sval_leb x y
  | Some _, None => ok_nulls_last k
  | None, Some _ => negb (ok_nulls_last k)
  | None, None => true
  end.

Fixpoint order_leb (ks : list order_key) (a b : row) : bool :=
  match ks with
  | [] => true
  | k :: ks' => key_leb k a b && (negb (key_leb k b a) || order_leb ks' a b)
  end.

(** [column ASC] puts NULLs last, [column DESC] first. *)
Definition asc (c : string) : order_key := MkOrder c false true.
Definition desc (c : string) : order_key := MkOrder c true false.

(** *** Columns *)

Inductive expr := ECol (c : string) | ECoalesce (c : string) (v : sval) | EConst (v : sval) | ENull.

Definition eval_expr (r : row) (e : expr) : option sval :=
  match e with
  | ECol c => r !! c
  | ECoalesce c v => Some (default v (r !! c))
  | EConst v => Some v
  | ENull => None
  end.

Definition project (cols : list (string * expr)) (r : row) : drow :=
  map (fun x => (fst x, driver <$> eval_expr r (snd x))) cols.

(** *** Evaluation *)

(** A statement of the list functions; [q_shape] is what it does between filter and sort
    ([DISTINCT ON], [GROUP BY]), and limit and offset are placeholders. *)
Record query := MkQuery {
  q_table : string; q_where : list clause; q_shape : list row -> list row; q_order : list order_key;
  q_limit : Z; q_offset : Z; q_select : list (string * expr) }.

(** What may fail: the statement itself, or the iteration after some rows. *)
Record fault := MkFault { query_error : option error; iter_error : option (nat * error) }.
Definition no_fault : fault := MkFault None None.

(** The database: the rows of each table, and the faults of the statement on a table. *)
Record Database := MkDatabase { db_rows : string -> list row; db_fault : string -> fault }.

(** The order in which one statement meets the rows of a table, before it sorts them; what the sort
    leaves tied stays in this order, so every arrangement the server may choose is one of them. *)
Class HeapOrder := { heap : list row -> list row; heap_perm : forall l, heap l ≡ₚ l }.

(** Times a [timestamptz] can hold: from Julian day 0 to the end of the year 294276. *)
Definition timestamptz_ok (t : Time) : bool := (Date (-4713) 11 24 <=? t) && (t <? Date 294277 1 1).
Definition arg_ok (a : any) : bool := match a with ATime t => timestamptz_ok t | _ => true end.

Section evaluation.
Context `{HeapOrder}.

Definition matching (args : list any) (conds : list clause) (rows : list row) : list row :=
  filter (fun r => forallb (clause_holds args r) conds = true) rows.

(** All rows of the answer, before the page is cut. *)
Definition answer (db : Database) (q : query) (args : list any) : list row :=
  stable_sort (order_leb (q_order q)) (q_shape q (matching args (q_where q) (heap (db_rows db (q_table q))))).

(** The page, each row with the count of all of them in front. *)
Definition page_of (rows : list row) (cols : list (string * expr)) (limit offset : Z) : list drow :=
  map (fun r => ("count", Some (DInt (Z.of_nat (length rows)))) :: project cols r)
      (take (Z.to_nat limit) (drop (Z.to_nat offset) rows)).

(** The answer of the server to a statement whose rows are known: its fault if it has one, an error
    for arguments it refuses, and the page. *)
Definition respond (f : fault) (args : list any) (limit offset : Z) (rows : result error (list row)) (cols : list (string * expr))
    : result error (list drow * option (nat * error)) :=
  match query_error f with
  | Some err => Err err
  | None =>
    if negb (forallb arg_ok args) then Err (ErrorString "pq: timestamp out of range") else
    match placeholder args limit, placeholder args offset with
    | Some (AInt limit), Some (AInt offset) =>
      if limit <? 0 then Err (ErrorString "pq: LIMIT must not be negative") else
      if offset <? 0 then Err (ErrorString "pq: OFFSET must not be negative") else
      let! rows := rows in Ok (page_of rows cols limit offset, iter_error f)
    | _, _ => Err (ErrorString "pq: there is no parameter")
    end
  end.

Definition QueryContext (db : Database) (q : query) (args : list any) : result error (list drow * option (nat * error)) :=
  respond (db_fault db (q_table q)) args (q_limit q) (q_offset q) (Ok (answer db q args)) (q_select q).

(** The loop over [rows.Next]: the count of the last row scanned is the total. *)
Fixpoint scan_rows {A} (scan : drow -> result error (Z * A)) (rows : list drow) (total : Z) (items : list A)
    : result error (Z * list A) :=
  match rows with
  | [] => Ok (total, items)
  | r :: rest => let! x := scan r in scan_rows scan rest (fst x) (items ++ [snd x])%list
  end.

(** The texts of the three errors of a list function. *)
Record messages := MkMessages { msg_query : string; msg_scan : string; msg_iterate : string }.
Definition wrap (m : string) (e : error) : error := WrapError (m +:+ ": ") e "".

(** A row is its total and [n] further columns. *)
Definition scan_item {A} (m : messages) (n : nat) (s : scanner A) (l : drow) : result error (Z * A) :=
  match Scan (S n) (total ← column (to_int "int"); item ← s; mret (total, item)) l with
  | Ok x => Ok x
  | Err e => Err (wrap (msg_scan m) e)
  end.

(** The body of a list function after its statement was sent. *)
Definition list_page {A} (sent : result error (list drow * option (nat * error))) (m : messages) (n : nat) (s : scanner A)
    (opts : ListOptions) : result error (PagedResponse A) :=
  match sent with
  | Err e => Err (wrap (msg_query m) e)
  | Ok (rows, iter) =>
    let seen := match iter with Some (k, _) => take k rows | None => rows end in
    let! r := scan_rows (scan_item m n s) seen 0 [] in
    match iter with
    | Some (_, e) => Err (wrap (msg_iterate m) e)
    | None => Ok (MkPaged (snd r) (PageMeta_of opts (fst r)))
    end
  end.
End evaluation.

(** ** The parts of a list function *)

(** The state of [seriesBuilder] and [adminBuilder] that a statement is built from. *)
Record builder := MkBuilder { b_args : list any; b_clauses : list clause }.
Definition empty_builder : builder := MkBuilder [] [].

(** [arg]: append an argument and return its placeholder. *)
Definition arg (b : builder) (value : any) : Z * builder :=
  let args := (b_args b ++ [value])%list in (Z.of_nat (length args), MkBuilder args (b_clauses b)).

(** [b.clauses = append(b.clauses, column+" op "+b.arg(value))]. *)
Definition add_clause (b : builder) (column : string) (op : cmp) (value : any) : builder :=
  let '(n, b') := arg b value in MkBuilder (b_args b') (b_clauses b' ++ [MkClause column op n])%list.

Definition direction (value : string) (column : string) : order_key :=
  if EqualFold value "asc" then asc column else desc column.

Section run.
Context `{HeapOrder}.

(** [LIMIT builder.arg(opts.Limit) OFFSET builder.arg(opts.Offset())], then the loop. *)
Definition run_list {A} (db : Database) (b : builder) (table : string) (shape : list row -> list row) (order : list order_key)
    (cols : list (string * expr)) (m : messages) (n : nat) (s : scanner A) (opts : ListOptions) : result error (PagedResponse A) :=
  let '(limit, b) := arg b (AInt (Limit opts)) in
  let '(offset, b) := arg b (AInt (Offset opts)) in
  list_page (QueryContext db (MkQuery table (b_clauses b) shape order limit offset cols) (b_args b)) m n s opts.
End run.

(** ** What the conditions select *)

(** Every clause refers to an argument that has been appended. *)
Definition builder_wf (b : builder) : Prop := Forall (fun c => 1 <= cl_arg c <= Z.of_nat (length (b_args b))) (b_clauses b).

Definition selects (b : builder) (r : row) : bool := forallb (clause_holds (b_args b) r) (b_clauses b).

Lemma placeholder_app args more n : n <= Z.of_nat (length args) -> placeholder (args ++ more) n = placeholder args n.
Proof. intros Hn. unfold placeholder. case_match; [done|]. bool_to_prop. apply lookup_app_l. lia. Qed.

Lemma placeholder_new args a : placeholder (args ++ [a]) (Z.of_nat (length args) + 1) = Some a.
Proof.
  unfold placeholder. rewrite (proj2 (Z.leb_gt _ _)) by lia.
  replace (Z.to_nat (Z.of_nat (length args) + 1 - 1)) with (length args) by lia. by rewrite list_lookup_middle.
Qed.

Lemma selects_more_args b more r : builder_wf b ->
  forallb (clause_holds (b_args b ++ more) r) (b_clauses b) = selects b r.
Proof.
  unfold builder_wf, selects. intros H. induction H as [|c l Hc _ IH]; [done|]. cbn [forallb]. rewrite IH. f_equal.
  unfold clause_holds. by rewrite placeholder_app by lia.
Qed.

Lemma arg_wf b a : builder_wf b -> builder_wf (snd (arg b a)).
Proof. intros H. eapply Forall_impl; [exact H|]. intros c Hc. cbn in *. rewrite length_app. cbn [length]. lia. Qed.

Lemma add_clause_wf b c op a : builder_wf b -> builder_wf (add_clause b c op a).
Proof.
  intros H. apply Forall_app; split.
  - by apply (arg_wf b a) in H.
  - constructor; [|constructor]. simpl. rewrite length_app. simpl. lia.
Qed.

(** A clause added to the builder restricts the selection by exactly that comparison. *)
Lemma add_clause_selects b c op a r : builder_wf b ->
  selects (add_clause b c op a) r = selects b r && compares op (r !! c) (Some a).
Proof.
  intros H. unfold selects at 1, add_clause. simpl. rewrite forallb_app, selects_more_args by done. simpl.
  rewrite andb_true_r. unfold clause_holds. simpl. rewrite length_app. simpl.
  by rewrite Nat2Z.inj_add, placeholder_new.
Qed.

(** ** The order of an answer *)

Lemma sval_leb_total x y : sval_leb x y = false -> sval_leb y x = true.
Proof.
  destruct x, y; cbn [sval_leb sval_rank]; try done; intros H.
  - bool_to_prop. apply Z.leb_le. lia.
  - bool_to_prop. apply Z.leb_le. lia.
  - by apply str_leb_total.
  - by destruct b, b0.
  - bool_to_prop. apply Z.leb_le. lia.
Qed.

Lemma numeric_leb_trans a b c s t u :
  a * 10 ^ Z.of_nat t <= b * 10 ^ Z.of_nat s -> b * 10 ^ Z.of_nat u <= c * 10 ^ Z.of_nat t ->
  a * 10 ^ Z.of_nat u <= c * 10 ^ Z.of_nat s.
Proof.
  intros H1 H2. assert (0 < 10 ^ Z.of_nat s /\ 0 < 10 ^ Z.of_nat t /\ 0 < 10 ^ Z.of_nat u) as (Hs & Ht & Hu) by lia.
  apply (Z.mul_le_mono_pos_r _ _ (10 ^ Z.of_nat t)); [done|].
  apply (Z.mul_le_mono_pos_r _ _ (10 ^ Z.of_nat u)) in H1; [|done].
  apply (Z.mul_le_mono_pos_r _ _ (10 ^ Z.of_nat s)) in H2; [|done]. lia.
Qed.

Lemma sval_leb_trans x y z : sval_leb x y = true -> sval_leb y z = true -> sval_leb x z = true.
Proof.
  destruct x, y, z; cbn [sval_leb sval_rank]; try done; intros H1 H2; bool_to_prop; try (apply Z.leb_le; lia).
  - apply Z.leb_le. by eapply numeric_leb_trans.
  - by eapply str_leb_trans.
  - by destruct b, b0, b1.
Qed.

Lemma key_leb_total k a b : key_leb k a b = false -> key_leb k b a = true.
Proof.
  unfold key_leb. destruct (a !! _), (b !! _); try done; [|by destruct (ok_nulls_last k)..].
  destruct (ok_desc k); apply sval_leb_total.
Qed.

Lemma key_leb_trans k a b c : key_leb k a b = true -> key_leb k b c = true -> key_leb k a c = true.
Proof.
  unfold key_leb. destruct (a !! _), (b !! _), (c !! _), (ok_nulls_last k); try done.
  all: destruct (ok_desc k); intros; by eapply sval_leb_trans.
Qed.

Lemma order_leb_total ks a b : order_leb ks a b = false -> order_leb ks b a = true.
Proof.
  induction ks as [|k ks IH]; [done|]. cbn [order_leb]. pose proof (key_leb_total k a b) as H1.
  destruct (key_leb k a b), (key_leb k b a); cbn; try done; auto.
Qed.

Lemma order_leb_trans ks a b c : order_leb ks a b = true -> order_leb ks b c = true -> order_leb ks a c = true.
Proof.
  induction ks as [|k ks IH]; [done|]. cbn [order_leb]. intros H1 H2.
  apply andb_true_iff in H1 as [H1 H1'], H2 as [H2 H2']. rewrite (key_leb_trans k a b c) by done. cbn [andb].
  destruct (key_leb k c a) eqn:Hca; [|done]. cbn [negb orb].
  rewrite (key_leb_trans k c a b) in H2' by done. rewrite (key_leb_trans k b c a) in H1' by done. cbn in *. auto.
Qed.

(** ** Typed rows *)

Inductive coltype := TInt | TNumeric | TText | TBool | TTime | TJson.

Definition has_type (t : coltype) (v : sval) : Prop :=
  match t, v with
  | TInt, SInt z => int64_ok z
  | TNumeric, SNum n scale => (0 < scale <= 38)%nat /\ Z.abs n < 10 ^ 38
  | TNumeric, SNaN | TText, SText _ | TBool, SBool _ | TTime, STime _ | TJson, SJson _ => True
  | _, _ => False
  end.

(** The columns of a table, each with its type and whether it is NOT NULL. *)
Abbreviation schema := (list (string * (coltype * bool))) (only parsing).

Definition column_type (sch : schema) (c : string) : option (coltype * bool) :=
  snd <$> find (fun x => (fst x =? c)%string) sch.

Definition row_ok (sch : schema) (r : row) : Prop :=
  forall c t nn, column_type sch c = Some (t, nn) ->
    match r !! c with Some v => has_type t v | None => nn = false end.

(** The check of a row, for concrete tables. *)
Definition value_check (t : coltype) (v : sval) : bool :=
  match t, v with
  | TInt, SInt z => bool_decide (int64_ok z)
  | TNumeric, SNum n scale => (0 <? scale)%nat && (scale <=? 38)%nat && (Z.abs n <? 10 ^ 38)
  | TNumeric, SNaN | TText, SText _ | TBool, SBool _ | TTime, STime _ | TJson, SJson _ => true
  | _, _ => false
  end.
Definition row_check (sch : schema) (r : row) : bool :=
  forallb (fun x => match r !! fst x with Some v => value_check (fst (snd x)) v | None => negb (snd (snd x)) end) sch.

Lemma row_check_ok sch r : row_check sch r = true -> row_ok sch r.
Proof.
  unfold row_check. rewrite forallb_forall. intros H c t nn Hc. unfold column_type in Hc.
  destruct (find _ sch) as [[c' tn]|] eqn:E; [|done]. apply find_some in E as [Hin Heq]. cbn in *. injection Hc as ->.
  apply String.eqb_eq in Heq as ->. specialize (H _ Hin). cbn in H. destruct (r !! c) as [v|]; [|by apply negb_true_iff].
  destruct t, v; cbn in *; try done; bool_to_prop; try done. split; [split; [by apply Nat.ltb_lt|by apply Nat.leb_le]|done].
Qed.

(** A destination that takes whatever the column of a typed row holds. *)
Definition takes {A} (sch : schema) (e : expr) (d : dest A) : Prop :=
  forall r, row_ok sch r -> exists a, d (driver <$> eval_expr r e) = Ok a.

(** A scanner that takes the given columns of every typed row, all of them. *)
Definition scans {A} (sch : schema) (cols : list (string * expr)) (s : scanner A) : Prop :=
  forall r i, row_ok sch r -> exists a i', s i (project cols r) = Ok (a, (i', [])).

Lemma scans_ret {A} sch (a : A) : scans sch [] (mret a).
Proof. intros r i _. by exists a, i. Qed.

Lemma scans_column {A B} sch name e cols (d : dest A) (k : A -> scanner B) :
  takes sch e d -> (forall a, scans sch cols (k a)) -> scans sch ((name, e) :: cols) (column d ≫= k).
Proof.
  intros Hd Hk r i Hr. destruct (Hd r Hr) as [a Ha]. destruct (Hk a r (i + 1) Hr) as (b & i' & Hb).
  exists b, i'. unfold mbind, scanner_bind, column. cbn [project map fst snd]. by rewrite Ha.
Qed.

Section takes.
Context (sch : schema) (c : string).

Local Ltac use_type H := let r := fresh "r" in let Hr := fresh "Hr" in intros r Hr; specialize (Hr _ _ _ H); cbn [eval_expr];
  destruct (r !! c) as [[]|]; cbn [has_type] in Hr; try done; eexists; cbn; try reflexivity.

Lemma takes_string : column_type sch c = Some (TText, true) -> takes sch (ECol c) to_string.
Proof. intros H. use_type H. Qed.
Lemma takes_int kind : column_type sch c = Some (TInt, true) -> takes sch (ECol c) (to_int kind).
Proof. intros H. use_type H. Qed.
Lemma takes_bool : column_type sch c = Some (TBool, true) -> takes sch (ECol c) to_bool.
Proof. intros H. use_type H. Qed.
Lemma takes_time : column_type sch c = Some (TTime, true) -> takes sch (ECol c) to_time.
Proof. intros H. use_type H. Qed.
Lemma takes_raw : column_type sch c = Some (TJson, true) -> takes sch (ECol c) to_raw.
Proof. intros H. use_type H. Qed.
Lemma takes_null_time nn : column_type sch c = Some (TTime, nn) -> takes sch (ECol c) (nullable to_time).
Proof. intros H. use_type H. Qed.
Lemma takes_null_string nn : column_type sch c = Some (TText, nn) -> takes sch (ECol c) (nullable to_string).
Proof. intros H. use_type H. Qed.
Lemma takes_null_int kind nn : column_type sch c = Some (TInt, nn) -> takes sch (ECol c) (nullable (to_int kind)).
Proof. intros H. use_type H. Qed.
Lemma takes_int64 nn : column_type sch c = Some (TInt, nn) -> takes sch (ECol c) int64Dest.
Proof. intros H. use_type H. Qed.

Lemma takes_float : column_type sch c = Some (TNumeric, true) -> takes sch (ECol c) to_float.
Proof.
  intros H. use_type H. unfold parse_float. rewrite ParseFloat_numeric by lia. reflexivity.
Qed.
Lemma takes_float_ptr nn : column_type sch c = Some (TNumeric, nn) -> takes sch (ECol c) floatDest.
Proof.
  intros H. use_type H. unfold parse_float. rewrite ParseFloat_numeric by lia. reflexivity.
Qed.

Lemma takes_coalesce_string nn s : column_type sch c = Some (TText, nn) -> takes sch (ECoalesce c (SText s)) to_string.
Proof. intros H. use_type H. Qed.
Lemma takes_coalesce_int kind nn z : column_type sch c = Some (TInt, nn) -> takes sch (ECoalesce c (SInt z)) (to_int kind).
Proof. intros H. use_type H. Qed.
Lemma takes_coalesce_raw nn j : column_type sch c = Some (TJson, nn) -> takes sch (ECoalesce c (SJson j)) to_raw.
Proof. intros H. use_type H. Qed.
Lemma takes_coalesce_bytes nn j : column_type sch c = Some (TJson, nn) -> takes sch (ECoalesce c (SJson j)) to_bytes_dest.
Proof. intros H. use_type H. Qed.
Lemma takes_const s : takes sch (EConst (SText s)) to_string.
Proof. intros r _. by eexists. Qed.
Lemma takes_null : takes sch ENull (nullable to_time).
Proof. intros r _. by eexists. Qed.
End takes.

Create HintDb scan_db.
#[export] Hint Resolve takes_string takes_int takes_bool takes_time takes_raw takes_null_time takes_null_string takes_null_int
  takes_int64 takes_float takes_float_ptr takes_coalesce_string takes_coalesce_int takes_coalesce_raw takes_coalesce_bytes
  takes_const takes_null eq_refl : scan_db.

(** [solve_scans]: every column of a statement suits its destination. *)
Ltac solve_scans := repeat (apply scans_column; [eauto with scan_db|intros ?]); apply scans_ret.

(** ** The answer of a list function *)

Section answers.
Context `{HeapOrder}.

(** The rows a list function pages through. *)
Definition list_rows (db : Database) (b : builder) (table : string) (shape : list row -> list row) (order : list order_key) : list row :=
  stable_sort (order_leb order) (shape (filter (fun r => selects b r = true) (heap (db_rows db table)))).

Lemma list_rows_sorted db b table shape order : sorted_by (order_leb order) (list_rows db b table shape order).
Proof. apply stable_sort_sorted; [apply order_leb_total|apply order_leb_trans]. Qed.

Lemma list_rows_perm db b table order :
  list_rows db b table id order ≡ₚ filter (fun r => selects b r = true) (db_rows db table).
Proof. unfold list_rows. rewrite stable_sort_perm. unfold id. by rewrite heap_perm. Qed.

(** The item a row is scanned into. *)
Definition scanned {A} (s : scanner A) (cols : list (string * expr)) (r : row) (a : A) : Prop :=
  exists i, s 1 (project cols r) = Ok (a, (i, [])).

(** Every row of a list that consists of typed rows can be scanned. *)
Lemma scans_all {A} sch (s : scanner A) cols rows :
  scans sch cols s -> Forall (row_ok sch) rows -> exists ds, Forall2 (scanned s cols) rows ds.
Proof.
  intros Hs. induction 1 as [|r rows Hr _ [ds IH]]; [by exists []|].
  destruct (Hs r 1 Hr) as (a & i & Ha). exists (a :: ds). constructor; [by exists i|done].
Qed.

Definition slice {A} (opts : ListOptions) (l : list A) : list A := take (Z.to_nat (Limit opts)) (drop (Z.to_nat (Offset opts)) l).

(** The total a page reports: the count of its rows, zero when it has none. *)
Definition reported {A} (page : list A) (total : nat) : Z := match page with [] => 0 | _ => Z.of_nat total end.

Lemma scan_item_ok {A} m n (s : scanner A) cols r a total :
  scanned s cols r a -> length cols = n ->
  scan_item m n s (("count", Some (DInt total)) :: project cols r) = Ok (total, a).
Proof.
  intros [i Hs] Hn. unfold scan_item, Scan. cbn [length]. unfold project at 1. rewrite length_map, Hn, Nat.eqb_refl. cbn [negb].
  unfold mbind, scanner_bind, column at 1. cbn [to_int]. change (0 + 1) with 1. by rewrite Hs.
Qed.

Lemma scan_rows_ok {A} m n (s : scanner A) cols total rows ds t0 items :
  Forall2 (scanned s cols) rows ds -> length cols = n ->
  scan_rows (scan_item m n s) (map (fun r => ("count", Some (DInt total)) :: project cols r) rows) t0 items
  = Ok (match rows with [] => t0 | _ => total end, items ++ ds)%list.
Proof.
  intros Hr Hn. revert t0 items. induction Hr as [|r d rows ds Hd _ IH]; intros t0 items; cbn [map scan_rows].
  - by rewrite app_nil_r.
  - rewrite (scan_item_ok m n s cols r d) by done. cbn [fst snd]. rewrite IH, <- app_assoc. by destruct rows.
Qed.

Lemma Forall2_slice {A B} (P : A -> B -> Prop) opts l k : Forall2 P l k -> Forall2 P (slice opts l) (slice opts k).
Proof. intros. unfold slice. by apply Forall2_take, Forall2_drop. Qed.

(** Without faults, and with rows that scan, the answer is the slice of the rows in the bounds of the
    page; an empty slice reports a total of zero. *)
Lemma list_page_ok {A} limit args rows cols m n (s : scanner A) opts offset ds :
  forallb arg_ok args = true -> limit = Z.of_nat (length args) + 1 -> offset = limit + 1 ->
  0 <= Limit opts -> 0 <= Offset opts -> length cols = n -> Forall2 (scanned s cols) rows ds ->
  list_page (respond no_fault (args ++ [AInt (Limit opts); AInt (Offset opts)]) limit offset (Ok rows) cols) m n s opts
  = Ok (MkPaged (slice opts ds) (PageMeta_of opts (reported (slice opts ds) (length ds)))).
Proof.
  intros Ha -> -> Hl Ho Hn Hr. unfold list_page, respond. cbn [query_error iter_error no_fault].
  rewrite forallb_app, Ha. cbn [forallb arg_ok andb negb].
  assert (placeholder (args ++ [AInt (Limit opts); AInt (Offset opts)]) (Z.of_nat (length args) + 1) = Some (AInt (Limit opts))) as ->.
  { pose proof (placeholder_new args (AInt (Limit opts))) as H1.
    rewrite <- (placeholder_app (args ++ [AInt (Limit opts)]) [AInt (Offset opts)]), <- app_assoc in H1; [done|].
    rewrite length_app. simpl. lia. }
  assert (placeholder (args ++ [AInt (Limit opts); AInt (Offset opts)]) (Z.of_nat (length args) + 1 + 1) = Some (AInt (Offset opts))) as ->.
  { pose proof (placeholder_new (args ++ [AInt (Limit opts)]) (AInt (Offset opts))) as H1. rewrite <- app_assoc, length_app in H1.
    rewrite <- H1. f_equal. simpl. lia. }
  rewrite (proj2 (Z.ltb_ge _ _)) by lia. rewrite (proj2 (Z.ltb_ge (Offset opts) 0)) by lia.
  unfold page_of. fold (slice opts rows). rewrite (scan_rows_ok m n s cols _ _ (slice opts ds)); [|by apply Forall2_slice|done].
  cbn [fst snd app]. rewrite (Forall2_length _ _ _ Hr). do 3 f_equal.
  pose proof (Forall2_slice _ opts _ _ Hr) as Hs. unfold reported. by destruct Hs.
Qed.

Lemma run_list_ok {A} db b table shape order cols m n (s : scanner A) opts ds :
  db_fault db table = no_fault -> builder_wf b -> forallb arg_ok (b_args b) = true ->
  0 <= Limit opts -> 0 <= Offset opts -> length cols = n ->
  Forall2 (scanned s cols) (list_rows db b table shape order) ds ->
  run_list db b table shape order cols m n s opts
  = Ok (MkPaged (slice opts ds) (PageMeta_of opts (reported (slice opts ds) (length ds)))).
Proof.
  intros Hf Hwf Ha Hl Ho Hn Hr. unfold run_list, arg. cbn [b_args b_clauses]. rewrite <- app_assoc. cbn [app].
  rewrite !length_app. cbn [length]. unfold QueryContext. cbn [q_table q_limit q_offset q_select]. rewrite Hf.
  apply (list_page_ok _ (b_args b)); try done; [lia..|].
  replace (answer _ _ _) with (list_rows db b table shape order); [done|].
  unfold answer, list_rows, matching. cbn [q_table q_where q_shape q_order]. do 2 f_equal.
  apply list_filter_iff. intros r. by rewrite selects_more_args.
Qed.
End answers.

(** ** Paging *)

Definition with_page (opts : ListOptions) (p : Z) : ListOptions :=
  MkOptions (Exchange opts) (Search opts) (Category opts) (Interval opts) (Period opts) (StartTime opts) (EndTime opts) (Limit opts) p
    (Sort opts) (Direction opts) (MinVolume opts) (MinOI opts) (RankMin opts) (RankMax opts).

Lemma concat_slices {A} (l : list A) (k n : nat) :
  concat (map (fun i => take k (drop (i * k) l)) (seq 0 n)) = take (n * k) l.
Proof.
  induction n as [|n IH]; [done|]. rewrite seq_S, map_app, concat_app, IH. cbn [map concat]. rewrite app_nil_r.
  rewrite Nat.mul_succ_l. apply take_take_drop.
Qed.

Lemma Offset_exact opts p : options_ok opts -> 1 <= p -> (p - 1) * Limit opts <= max_int64 ->
  Offset (with_page opts p) = (p - 1) * Limit opts.
Proof. intros Ho Hp Hm. unfold Offset. simpl. apply wrap64_ok. destruct (ok_limit _ Ho). unfold int64_ok, min_int64, two63. nia. Qed.

Section paging.
Context `{HeapOrder}.

(** The number of pages of [n] rows. *)
Definition pages (opts : ListOptions) (n : nat) : Z := (Z.of_nat n + Limit opts - 1) / Limit opts.

Lemma page_meta opts p n : options_ok opts -> Z.of_nat n < 2 ^ 62 ->
  PageMeta_of (with_page opts p) (Z.of_nat n) = MkPageMeta p (Limit opts) (Z.of_nat n) (pages opts n) (p <? pages opts n).
Proof.
  intros Ho Hn. destruct (ok_limit _ Ho) as [Hl Hl']. unfold PageMeta_of, pages. cbn [Limit Page with_page]. unfold maxLimit in Hl'.
  rewrite (proj2 (Z.ltb_lt 0 _)) by lia. rewrite wrap64_ok by (unfold int64_ok, min_int64, max_int64, two63; lia).
  by rewrite Z.quot_div_nonneg by lia.
Qed.

End paging.

(** No two rows of the answer tie in the order of the statement, unless they are equal. *)
Definition untied (order : list order_key) (l : list row) : Prop :=
  forall x y, x ∈ l -> y ∈ l -> order_leb order x y = true -> order_leb order y x = true -> x = y.

(** Two sorted arrangements of rows without ties are the same. *)
Lemma untied_unique order l k :
  l ≡ₚ k -> untied order l -> sorted_by (order_leb order) l -> sorted_by (order_leb order) k -> l = k.
Proof.
  intros Hp Hu Hl. revert k Hp. induction Hl as [|x l Hl IH Hx]; intros k Hp Hk; [by apply Permutation_nil in Hp|].
  destruct k as [|y k]; [by apply Permutation_sym, Permutation_nil in Hp|]. inversion Hk as [|? ? Hk' Hy]; subst.
  rewrite Forall_forall in Hx, Hy.
  assert (x = y) as ->.
  { assert (y ∈ x :: l) as Hyl by (rewrite Hp; left). assert (x ∈ y :: k) as Hxk by (rewrite <- Hp; left).
    apply elem_of_cons in Hyl as [->|Hyl]; [done|]. apply elem_of_cons in Hxk as [->|Hxk]; [done|].
    apply Hu; [left|by right|by apply Hx|by apply Hy]. }
  f_equal. apply IH; [|by apply Permutation_cons_inv in Hp|done]. intros a c Ha Hc. apply Hu; by right.
Qed.

(** The server's order of the rows changes which rows tie where, not which rows there are. *)
Lemma list_rows_reordered (met met' : HeapOrder) db b table shape order : (forall l k, l ≡ₚ k -> shape l ≡ₚ shape k) ->
  list_rows (H:=met) db b table shape order ≡ₚ list_rows (H:=met') db b table shape order.
Proof.
  intros Hshape. unfold list_rows. rewrite !stable_sort_perm. apply Hshape.
  by rewrite (heap_perm (HeapOrder:=met)), (heap_perm (HeapOrder:=met')).
Qed.

Lemma scanned_unique {A} (s : scanner A) cols l d1 d2 :
  Forall2 (scanned s cols) l d1 -> Forall2 (scanned s cols) l d2 -> d1 = d2.
Proof.
  intros H1. revert d2. induction H1 as [|x y l d1 [i Hxy] _ IH]; intros d2 H2; [by inversion H2|].
  inversion H2 as [|? z ? d3 [j Hxz] H3]; subst. f_equal; [congruence|by apply IH].
Qed.

(** C15: the pages of a list.  Without faults, whatever the statement and in whatever order the server
    meets the rows of the table, another one for every request: each page of a list is a page of an
    arrangement of its rows that is sorted, holds [Limit] rows, or what is left of them on the last
    page, reports the true total and has a next page exactly when it is not the last; a page past the
    last is empty and reports a total of zero.  When no two different rows tie in the order of the
    statement, the pages are, one after the other, exactly the rows in that order, each once.  (The
    lists of the API sort by time alone: where rows share a time, pages may repeat and omit rows.) *)
Theorem pages_partition {A} (met : Z -> HeapOrder) db b table shape order cols m n (s : scanner A) opts (ds : Z -> list A) :
  options_ok opts -> db_fault db table = no_fault -> builder_wf b -> forallb arg_ok (b_args b) = true -> length cols = n ->
  (forall l k, l ≡ₚ k -> shape l ≡ₚ shape k) ->
  (forall p, Forall2 (scanned s cols) (list_rows (H:=met p) db b table shape order) (ds p)) -> Z.of_nat (length (ds 1)) < 2 ^ 62 ->
  let page p := slice (with_page opts p) (ds p) in
  let total := length (ds 1) in
  (forall p, 1 <= p <= pages opts total ->
     Z.of_nat (length (page p)) = Z.min (Limit opts) (Z.of_nat total - (p - 1) * Limit opts) /\
     run_list (H:=met p) db b table shape order cols m n s (with_page opts p)
     = Ok (MkPaged (page p) (MkPageMeta p (Limit opts) (Z.of_nat total) (pages opts total) (p <? pages opts total)))) /\
  (forall p, pages opts total < p -> 1 <= p -> (p - 1) * Limit opts <= max_int64 ->
     run_list (H:=met p) db b table shape order cols m n s (with_page opts p) = Ok (MkPaged [] (MkPageMeta p (Limit opts) 0 0 false))) /\
  (forall p, list_rows (H:=met p) db b table shape order ≡ₚ list_rows (H:=met 1) db b table shape order /\
     sorted_by (order_leb order) (list_rows (H:=met p) db b table shape order)) /\
  (untied order (list_rows (H:=met 1) db b table shape order) ->
   concat (map (fun i => page (Z.of_nat i + 1)) (seq 0 (Z.to_nat (pages opts total)))) = ds 1).
Proof.
  intros Ho Hf Hwf Ha Hn Hshape Hr Hlen page total. destruct (ok_limit _ Ho) as [Hl Hl'].
  assert (forall p, list_rows (H:=met p) db b table shape order ≡ₚ list_rows (H:=met 1) db b table shape order) as Hperm
    by (intros p; by apply list_rows_reordered).
  assert (forall p, length (ds p) = total) as Htot.
  { intros p. unfold total. rewrite <- (Forall2_length _ _ _ (Hr p)), <- (Forall2_length _ _ _ (Hr 1)). by rewrite Hperm. }
  assert (length (ds 1) = total) as Hone by apply Htot. clearbody total. rewrite Hone in Hlen.
  assert (0 <= pages opts total /\ (pages opts total - 1) * Limit opts < Z.of_nat total \/ pages opts total = 0) as Hpg
    by (unfold pages; destruct total; [right; apply Z.div_small; lia|left; divlia]).
  assert (Z.of_nat total <= pages opts total * Limit opts) as Hup by (unfold pages; divlia).
  assert (Z.of_nat total < 2 ^ 62 -> Z.of_nat total <= max_int64) as Hmax by (unfold max_int64, two63; lia).
  assert (forall p, 1 <= p -> (p - 1) * Limit opts <= max_int64 ->
    page p = take (Z.to_nat (Limit opts)) (drop (Z.to_nat ((p - 1) * Limit opts)) (ds p))) as Hpage.
  { intros p Hp Hb. unfold page, slice. by rewrite Offset_exact by done. }
  assert (forall p, 1 <= p -> (p - 1) * Limit opts <= max_int64 ->
    run_list (H:=met p) db b table shape order cols m n s (with_page opts p)
    = Ok (MkPaged (page p) (PageMeta_of (with_page opts p) (reported (page p) total)))) as Hrun.
  { intros p Hp Hb. rewrite <- (Htot p). apply run_list_ok; try done; cbn [Limit with_page]; [lia|rewrite Offset_exact by done; nia]. }
  split_and!.
  - intros p Hp. assert ((p - 1) * Limit opts < Z.of_nat total) by nia.
    assert (Z.of_nat (length (page p)) = Z.min (Limit opts) (Z.of_nat total - (p - 1) * Limit opts)) as Hsz.
    { rewrite Hpage by lia. rewrite length_take, length_drop, Htot. assert (0 <= (p - 1) * Limit opts) by nia. lia. }
    split; [done|]. rewrite Hrun by lia. do 2 f_equal. rewrite <- page_meta by done. f_equal.
    unfold reported. destruct (page p); [simpl in Hsz; lia|done].
  - intros p Hlast Hp Hb. rewrite Hrun by done.
    assert (page p = []) as -> by (rewrite Hpage, drop_ge by (rewrite ?Htot; nia || done); apply take_nil).
    unfold reported, PageMeta_of. cbn [Limit Page with_page]. do 2 f_equal. rewrite (proj2 (Z.ltb_lt 0 _)) by lia.
    rewrite wrap64_ok by (unfold int64_ok, min_int64, max_int64, two63, maxLimit in *; lia).
    rewrite Z.quot_small by lia. f_equal. apply Z.ltb_ge. lia.
  - intros p. split; [apply Hperm|apply list_rows_sorted].
  - intros Hu.
    assert (forall p, ds p = ds 1) as Hds.
    { intros p. apply (scanned_unique s cols _ _ _ (Hr p)).
      by rewrite <- (untied_unique order _ _ (Permutation_sym (Hperm p)) Hu (list_rows_sorted _ _ _ _ _) (list_rows_sorted _ _ _ _ _)). }
    transitivity (take (Z.to_nat (pages opts total) * Z.to_nat (Limit opts)) (ds 1)); [|apply take_ge; rewrite Hone; nia].
    rewrite <- concat_slices. f_equal. apply map_ext_in. intros i Hi%in_seq. rewrite Hpage by nia. rewrite Hds. do 2 f_equal. nia.
Qed.

(** ** Concrete tables *)

Definition in_place : HeapOrder := {| heap := fun l => l; heap_perm := fun l => Permutation_refl l |}.
Definition backwards : HeapOrder := {| heap := @rev row; heap_perm := fun l => Permutation_sym (Permutation_rev l) |}.

Definition one_table (table : string) (rows : list row) : Database :=
  MkDatabase (fun t => if (t =? table)%string then rows else []) (fun _ => no_fault).

Definition sample_rows : list row := map (fun s => list_to_map [("exchange", SText s)]) ["binance"; "bybit"; "okx"].
Definition sample_page (limit page : Z) : ListOptions := MkOptions "" "" "" "" "" None None limit page "" "desc" None None None None.

Lemma sample_page_ok limit page : 1 <= limit <= 500 -> 1 <= page <= max_int64 -> options_ok (sample_page limit page).
Proof. intros Hl Hp. constructor; try done. by right. Qed.

(** Odd pages are asked when the rows lie in one order, even ones in the other. *)
Definition alternating (p : Z) : HeapOrder := if Z.odd p then in_place else backwards.

Lemma sample_untied : untied [asc "exchange"] (list_rows (H:=alternating 1) (one_table "t" sample_rows) empty_builder "t" id [asc "exchange"]).
Proof.
  intros x y Hx Hy. rewrite list_rows_perm in Hx, Hy. apply list_elem_of_filter in Hx as [_ Hx], Hy as [_ Hy].
  unfold one_table in *. cbn [db_rows String.eqb Ascii.eqb Bool.eqb] in *. unfold sample_rows in *. cbn [map] in Hx, Hy. rewrite !elem_of_cons, elem_of_nil in Hx, Hy.
  destruct Hx as [->|[->|[->|[]]]], Hy as [->|[->|[->|[]]]]; intros H1 H2; first [reflexivity|exfalso].
  all: first [revert H1; clear; vm_compute; discriminate|revert H2; clear; vm_compute; discriminate].
Qed.

Lemma pages_partition_witness :
  let run p := run_list (H:=alternating p) (one_table "t" sample_rows) empty_builder "t" id [asc "exchange"] [("exchange", ECol "exchange")]
                 (MkMessages "q" "s" "i") 1 (x ← column to_string; mret x) (with_page (sample_page 2 1) p) in
  run 2 = Ok (MkPaged ["okx"] (MkPageMeta 2 2 3 2 false)) /\ run 3 = Ok (MkPaged [] (MkPageMeta 3 2 0 0 false)) /\
  concat (map (fun i => slice (with_page (sample_page 2 1) (Z.of_nat i + 1)) ["binance"; "bybit"; "okx"]) (seq 0 2)) = ["binance"; "bybit"; "okx"].
Proof.
  intros run.
  destruct (pages_partition alternating (one_table "t" sample_rows) empty_builder "t" id [asc "exchange"] [("exchange", ECol "exchange")]
              (MkMessages "q" "s" "i") 1 (x ← column to_string; mret x) (sample_page 2 1) (fun _ => ["binance"; "bybit"; "okx"])) as (H1 & H2 & _ & H3).
  - apply sample_page_ok; vm_compute; split; discriminate.
  - reflexivity.
  - constructor.
  - reflexivity.
  - reflexivity.
  - intros l k Hp. exact Hp.
  - intros p. unfold alternating. destruct (Z.odd p); repeat constructor; eexists; reflexivity.
  - reflexivity.
  - split; [|split].
    + destruct (H1 2 ltac:(vm_compute; split; discriminate)) as [_ E]. exact E.
    + exact (H2 3 ltac:(reflexivity) ltac:(discriminate) ltac:(vm_compute; discriminate)).
    + exact (H3 sample_untied).
Defined.

(** The offset of a page is computed in 64 bits: page 2^56 + 1 of 256 rows has offset zero and is
    answered with the rows of the first page. *)
Example huge_page_wraps :
  Offset (sample_page 256 (2 ^ 56 + 1)) = 0 /\ Offset (sample_page 500 (2 ^ 55)) < 0.
Proof. by vm_compute. Qed.
