(* ===== verification/ApiSchema.v ===== *)
(** * The columns the API reads ([migrations])

    For each table the API lists, the columns its statements mention, with their types and NOT NULL
    constraints as the migrations leave them. *)

From S2P Require Import Prelude ApiStore.

Definition req (t : coltype) (c : string) : string * (coltype * bool) := (c, (t, true)).
Definition opt (t : coltype) (c : string) : string * (coltype * bool) := (c, (t, false)).

(** [000003_core_derivative_tables.sql]. *)
Definition derivative_market_snapshots : list (string * (coltype * bool)) :=
  ([req TInt "symbol_id"; req TText "exchange"; req TText "source_symbol"; req TTime "snapshot_time"; req TJson "raw_data"] ++
   map (opt TNumeric) ["last_price"; "mark_price"; "index_price"; "bid_price"; "ask_price"; "volume_24h"; "quote_volume_24h";
                       "open_interest"; "funding_rate"])%list.
Definition derivative_klines : list (string * (coltype * bool)) :=
  ([req TInt "symbol_id"; req TText "exchange"; req TText "interval"; req TTime "open_time"; req TTime "close_time";
    opt TInt "trade_count"; req TBool "is_closed"] ++
   map (req TNumeric) ["open_price"; "high_price"; "low_price"; "close_price"] ++ map (opt TNumeric) ["volume"; "quote_volume"])%list.
Definition open_interest_snapshots : list (string * (coltype * bool)) :=
  [req TInt "symbol_id"; req TText "exchange"; req TTime "snapshot_time"; req TNumeric "open_interest"; opt TNumeric "open_interest_value"].
Definition open_interest_history : list (string * (coltype * bool)) :=
  [req TInt "symbol_id"; req TText "exchange"; req TText "period"; req TTime "timestamp"; req TNumeric "open_interest";
   opt TNumeric "open_interest_value"].
Definition funding_rate_history : list (string * (coltype * bool)) :=
  [req TInt "symbol_id"; req TText "exchange"; req TTime "funding_time"; req TNumeric "funding_rate"; opt TNumeric "realized_rate";
   opt TNumeric "mark_price"].

(** [000004_advanced_derivative_tables.sql], [000010_phase7_advanced_columns.sql]. *)
Definition period_table (time : string) : list (string * (coltype * bool)) :=
  [req TInt "symbol_id"; req TText "exchange"; req TText "period"; req TTime time].
Definition long_short_ratio_snapshots : list (string * (coltype * bool)) :=
  (period_table "snapshot_time" ++ map (opt TNumeric) ["long_account_ratio"; "short_account_ratio"; "long_short_ratio";
                                                       "top_trader_long_ratio"; "top_trader_short_ratio"])%list.
Definition taker_flow_snapshots : list (string * (coltype * bool)) :=
  (period_table "snapshot_time" ++ map (opt TNumeric) ["taker_buy_volume"; "taker_sell_volume"; "taker_buy_quote_volume";
     "taker_sell_quote_volume"; "buy_sell_delta"; "buy_sell_delta_quote"; "buy_sell_ratio"])%list.
Definition cvd_snapshots : list (string * (coltype * bool)) :=
  (period_table "snapshot_time" ++ map (opt TNumeric) ["cvd_value"; "cvd_delta"; "cvd_change"; "cvd_change_percent"])%list.
Definition liquidation_aggregates : list (string * (coltype * bool)) :=
  (period_table "bucket_time" ++ map (req TInt) ["long_liquidation_count"; "short_liquidation_count"] ++
   map (req TNumeric) ["long_liquidation_usd"; "short_liquidation_usd"; "total_liquidation_usd"; "largest_liquidation_usd"])%list.
Definition basis_premium_snapshots : list (string * (coltype * bool)) :=
  ([req TInt "symbol_id"; req TText "exchange"; req TTime "snapshot_time"] ++
   map (opt TNumeric) ["futures_price"; "spot_price"; "mark_price"; "index_price"; "basis_value"; "basis_percent";
                       "annualized_basis_percent"; "funding_rate"])%list.
Definition orderbook_imbalance_snapshots : list (string * (coltype * bool)) :=
  ([req TInt "symbol_id"; req TText "exchange"; req TTime "snapshot_time"; req TInt "depth_levels"] ++
   map (opt TNumeric) ["mid_price"; "spread_percent"; "bid_depth_usd"; "ask_depth_usd"; "imbalance_percent"])%list.
Definition exchange_divergence_snapshots : list (string * (coltype * bool)) :=
  ([req TInt "symbol_id"; req TText "data_type"; req TTime "snapshot_time"; opt TText "strongest_exchange"; opt TText "weakest_exchange";
    req TJson "raw_by_exchange"; req TJson "metadata"] ++
   map (opt TNumeric) ["price_spread_percent"; "oi_spread_percent"; "funding_spread"; "volume_spread_percent"])%list.
(** With [000009_aggregate_snapshot_columns.sql] and [000011_phase8_analytics_layer.sql]. *)
Definition derivative_aggregated_snapshots : list (string * (coltype * bool)) :=
  ([req TInt "symbol_id"; req TTime "snapshot_time"; req TInt "exchange_count"; req TJson "available_exchanges"; req TJson "raw_by_exchange";
    req TJson "window_metrics"; req TJson "anomaly_flags"; req TJson "quality_metadata"] ++
   map (opt TNumeric) ["price_avg"; "price_weighted"; "total_volume_24h"; "total_quote_volume_24h"; "total_open_interest";
     "total_open_interest_value"; "avg_funding_rate"; "total_cvd"; "total_long_liquidation_usd"; "total_short_liquidation_usd";
     "total_liquidation_usd"; "avg_basis_percent"; "avg_orderbook_imbalance_percent"])%list.

(** [000005_monitoring_quality_tables.sql], [000002_scheduler_tables.sql], [000013_phase10_production_hardening.sql]. *)
Definition collector_health : list (string * (coltype * bool)) :=
  [req TText "service_name"; req TText "instance_id"; opt TText "exchange"; opt TText "data_type"; req TText "status";
   req TTime "heartbeat_at"; opt TTime "last_success_at"; opt TTime "last_error_at"; opt TText "error_message"; req TJson "metrics"].
Definition derivative_collection_jobs : list (string * (coltype * bool)) :=
  [req TInt "id"; req TText "exchange"; req TText "data_type"; req TText "tier"; opt TInt "symbol_id"; req TText "source_symbol";
   opt TText "period"; req TText "status"; req TInt "priority"; req TTime "scheduled_at"; req TInt "retry_count"; req TInt "max_retry";
   opt TText "last_error_type"; opt TText "error_message"; req TText "job_mode"].
Definition data_quality_issues : list (string * (coltype * bool)) :=
  [req TText "issue_key"; req TText "severity"; opt TText "exchange"; req TText "data_type"; opt TInt "symbol_id"; opt TText "source_symbol";
   req TText "issue_type"; req TText "status"; req TTime "last_seen_at"; req TJson "details"].
Definition data_gaps : list (string * (coltype * bool)) :=
  [req TText "gap_key"; req TInt "symbol_id"; req TText "exchange"; req TText "data_type"; opt TText "period"; req TTime "gap_start";
   req TTime "gap_end"; req TText "backfill_status"; opt TInt "expected_interval_seconds"; opt TTime "last_observed_at"; req TJson "metadata"].

(** The tables by name. *)
Definition table_schema (table : string) : option (list (string * (coltype * bool))) :=
  snd <$> find (fun x => (fst x =? table)%string)
    [("derivative_market_snapshots", derivative_market_snapshots); ("derivative_klines", derivative_klines);
     ("open_interest_snapshots", open_interest_snapshots); ("open_interest_history", open_interest_history);
     ("funding_rate_history", funding_rate_history); ("long_short_ratio_snapshots", long_short_ratio_snapshots);
     ("taker_flow_snapshots", taker_flow_snapshots); ("cvd_snapshots", cvd_snapshots);
     ("liquidation_aggregates", liquidation_aggregates); ("basis_premium_snapshots", basis_premium_snapshots);
     ("orderbook_imbalance_snapshots", orderbook_imbalance_snapshots); ("exchange_divergence_snapshots", exchange_divergence_snapshots);
     ("derivative_aggregated_snapshots", derivative_aggregated_snapshots); ("collector_health", collector_health);
     ("derivative_collection_jobs", derivative_collection_jobs); ("data_quality_issues", data_quality_issues); ("data_gaps", data_gaps)].

(** Every table holds rows of its schema, and no statement fails. *)
Definition typed_db (db : Database) : Prop :=
  forall table sch, table_schema table = Some sch -> Forall (row_ok sch) (db_rows db table).
Definition healthy_db (db : Database) : Prop := forall table, db_fault db table = no_fault.
