(* ===== verification/ApiSeries.v ===== *)
(** * Time series of a symbol ([internal/api/derivatives/series.go])

    The twelve paged lists of a symbol's data, from the builder of their conditions to the DTOs
    ([dto.go]) scanned from the rows. *)

From S2P Require Import Prelude GoString GoTime GoFloat GoError GoJson ApiQuery ApiStore ApiSchema.

(** ** Data ([dto.go]) *)

Record MarketSnapshotDTO := MkMarketDTO {
  md_Exchange : string; md_SourceSymbol : string; md_SnapshotTime : Time; md_LastPrice : option float64;
  md_MarkPrice : option float64; md_IndexPrice : option float64; md_BidPrice : option float64; md_AskPrice : option float64;
  md_Volume24h : option float64; md_QuoteVolume24h : option float64; md_OpenInterest : option float64;
  md_FundingRate : option float64; md_Raw : RawMessage }.

Record KlineDTO := MkKlineDTO {
  kd_Exchange : string; kd_Interval : string; kd_OpenTime : Time; kd_CloseTime : Time; kd_Open : float64; kd_High : float64;
  kd_Low : float64; kd_Close : float64; kd_Volume : option float64; kd_QuoteVolume : option float64;
  kd_TradeCount : option Z; kd_IsClosed : bool }.

Record OpenInterestDTO := MkOpenInterestDTO {
  od_Exchange : string; od_Period : string; od_Timestamp : Time; od_OpenInterest : float64; od_OpenInterestValue : option float64 }.

Record FundingDTO := MkFundingDTO {
  fd_Exchange : string; fd_Timestamp : Time; fd_FundingRate : float64; fd_RealizedRate : option float64;
  fd_NextFundingTime : option Time; fd_MarkPrice : option float64 }.

Record LongShortRatioDTO := MkLongShortDTO {
  ld_Exchange : string; ld_Period : string; ld_SnapshotTime : Time; ld_LongAccountRatio : option float64;
  ld_ShortAccountRatio : option float64; ld_LongShortRatio : option float64; ld_TopTraderLongRatio : option float64;
  ld_TopTraderShortRatio : option float64 }.

Record TakerFlowDTO := MkTakerFlowDTO {
  td_Exchange : string; td_Period : string; td_SnapshotTime : Time; td_TakerBuyVolume : option float64;
  td_TakerSellVolume : option float64; td_TakerBuyQuoteVolume : option float64; td_TakerSellQuoteVolume : option float64;
  td_BuySellDelta : option float64; td_BuySellDeltaQuote : option float64; td_BuySellRatio : option float64 }.

Record CVDDTO := MkCVDDTO {
  cd_Exchange : string; cd_Period : string; cd_SnapshotTime : Time; cd_CVDValue : option float64; cd_CVDDelta : option float64;
  cd_CVDChange : option float64; cd_CVDChangePercent : option float64 }.

Record LiquidationAggregateDTO := MkLiquidationDTO {
  qd_Exchange : string; qd_Period : string; qd_BucketTime : Time; qd_LongCount : Z; qd_ShortCount : Z;
  qd_LongLiquidationUSD : float64; qd_ShortLiquidationUSD : float64; qd_TotalLiquidationUSD : float64;
  qd_LargestLiquidationUSD : float64 }.

Record BasisDTO := MkBasisDTO {
  bd_Exchange : string; bd_SnapshotTime : Time; bd_FuturesPrice : option float64; bd_SpotPrice : option float64;
  bd_MarkPrice : option float64; bd_IndexPrice : option float64; bd_BasisValue : option float64;
  bd_BasisPercent : option float64; bd_AnnualizedBasisPercent : option float64; bd_FundingRate : option float64 }.

Record OrderbookImbalanceDTO := MkImbalanceDTO {
  id_Exchange : string; id_SnapshotTime : Time; id_DepthLevels : Z; id_MidPrice : option float64;
  id_SpreadPercent : option float64; id_BidDepthUSD : option float64; id_AskDepthUSD : option float64;
  id_ImbalancePercent : option float64 }.

Record ExchangeDivergenceDTO := MkDivergenceDTO {
  xd_DataType : string; xd_SnapshotTime : Time; xd_PriceSpreadPercent : option float64; xd_OISpreadPercent : option float64;
  xd_FundingSpread : option float64; xd_VolumeSpreadPercent : option float64; xd_StrongestExchange : string;
  xd_WeakestExchange : string; xd_RawByExchange : RawMessage; xd_Metadata : RawMessage }.

(** ** The builder *)

(** A clause on an optional bound. *)
Definition add_bound (b : builder) (column : string) (op : cmp) (t : option Time) : builder :=
  match t with Some t => add_clause b column op (ATime t) | None => b end.

Definition newSeriesBuilder (symbolID : Z) (opts : ListOptions) (timeColumn : string) : builder :=
  let b := add_clause empty_builder "symbol_id" CEq (AInt symbolID) in
  add_bound (add_bound b timeColumn CGe (StartTime opts)) timeColumn CLe (EndTime opts).

(** [b.interval(column, value)] and [b.exchange()]. *)
Definition interval (b : builder) (column value : string) : builder :=
  if negb (value =? "")%string then add_clause b column CEq (AText value) else b.
Definition exchange (opts : ListOptions) (b : builder) : builder := interval b "exchange" (Exchange opts).

Definition with_interval (opts : ListOptions) (v : string) : ListOptions :=
  MkOptions (Exchange opts) (Search opts) (Category opts) v (Period opts) (StartTime opts) (EndTime opts) (Limit opts) (Page opts)
    (Sort opts) (Direction opts) (MinVolume opts) (MinOI opts) (RankMin opts) (RankMax opts).
Definition with_period (opts : ListOptions) (v : string) : ListOptions :=
  MkOptions (Exchange opts) (Search opts) (Category opts) (Interval opts) v (StartTime opts) (EndTime opts) (Limit opts) (Page opts)
    (Sort opts) (Direction opts) (MinVolume opts) (MinOI opts) (RankMin opts) (RankMax opts).

(** [if opts.Period == "" { opts.Period = "5m" }]. *)
Definition default_period (opts : ListOptions) : ListOptions :=
  if (Period opts =? "")%string then with_period opts "5m" else opts.

Definition col (c : string) : string * expr := (c, ECol c).

(** ** Scanning *)

Definition scan_market : scanner MarketSnapshotDTO :=
  ex ← column to_string; sym ← column to_string; t ← column to_time; last ← column floatDest; mark ← column floatDest;
  index ← column floatDest; bid ← column floatDest; ask ← column floatDest; vol ← column floatDest; qvol ← column floatDest;
  oi ← column floatDest; rate ← column floatDest; raw ← column to_raw;
  mret (MkMarketDTO ex sym t last mark index bid ask vol qvol oi rate (ensureJSON raw)).

Definition scan_kline : scanner KlineDTO :=
  ex ← column to_string; iv ← column to_string; ot ← column to_time; ct ← column to_time; o ← column to_float;
  h ← column to_float; l ← column to_float; c ← column to_float; v ← column floatDest; qv ← column floatDest;
  tc ← column int64Dest; closed ← column to_bool;
  mret (MkKlineDTO ex iv ot ct o h l c v qv tc closed).

Definition scan_open_interest : scanner OpenInterestDTO :=
  ex ← column to_string; p ← column to_string; t ← column to_time; oi ← column to_float; v ← column floatDest;
  mret (MkOpenInterestDTO ex p t oi v).

Definition scan_funding : scanner FundingDTO :=
  ex ← column to_string; t ← column to_time; rate ← column to_float; realized ← column floatDest;
  next ← column (nullable to_time); mark ← column floatDest;
  mret (MkFundingDTO ex t rate realized (nullTimePtr next) mark).

Definition scan_long_short : scanner LongShortRatioDTO :=
  ex ← column to_string; p ← column to_string; t ← column to_time; la ← column floatDest; sa ← column floatDest;
  ls ← column floatDest; tl ← column floatDest; ts ← column floatDest;
  mret (MkLongShortDTO ex p t la sa ls tl ts).

Definition scan_taker_flow : scanner TakerFlowDTO :=
  ex ← column to_string; p ← column to_string; t ← column to_time; bv ← column floatDest; sv ← column floatDest;
  bq ← column floatDest; sq ← column floatDest; d ← column floatDest; dq ← column floatDest; r ← column floatDest;
  mret (MkTakerFlowDTO ex p t bv sv bq sq d dq r).

Definition scan_cvd : scanner CVDDTO :=
  ex ← column to_string; p ← column to_string; t ← column to_time; v ← column floatDest; d ← column floatDest;
  c ← column floatDest; cp ← column floatDest;
  mret (MkCVDDTO ex p t v d c cp).

Definition scan_liquidation : scanner LiquidationAggregateDTO :=
  ex ← column to_string; p ← column to_string; t ← column to_time; lc ← column (to_int "int64"); sc ← column (to_int "int64");
  l ← column to_float; s ← column to_float; total ← column to_float; largest ← column to_float;
  mret (MkLiquidationDTO ex p t lc sc l s total largest).

Definition scan_basis : scanner BasisDTO :=
  ex ← column to_string; t ← column to_time; f ← column floatDest; s ← column floatDest; m ← column floatDest;
  i ← column floatDest; v ← column floatDest; p ← column floatDest; a ← column floatDest; r ← column floatDest;
  mret (MkBasisDTO ex t f s m i v p a r).

Definition scan_imbalance : scanner OrderbookImbalanceDTO :=
  ex ← column to_string; t ← column to_time; depth ← column (to_int "int"); mid ← column floatDest; spread ← column floatDest;
  b ← column floatDest; a ← column floatDest; i ← column floatDest;
  mret (MkImbalanceDTO ex t depth mid spread b a i).

Definition scan_divergence : scanner ExchangeDivergenceDTO :=
  dt ← column to_string; t ← column to_time; p ← column floatDest; oi ← column floatDest; f ← column floatDest;
  v ← column floatDest; strong ← column to_string; weak ← column to_string; raw ← column to_raw; meta ← column to_raw;
  mret (MkDivergenceDTO dt t p oi f v strong weak (ensureJSON raw) (ensureJSON meta)).

(** ** The lists *)

Definition text_of (r : gmap string sval) (c : string) : option string :=
  match r !! c with Some (SText s) => Some s | _ => None end.

(** The first row of each value of a column. *)
Fixpoint firsts (c : string) (seen : list (option string)) (rows : list (gmap string sval)) : list (gmap string sval) :=
  match rows with
  | [] => []
  | r :: rest => if bool_decide (text_of r c ∈ seen) then firsts c seen rest else r :: firsts c (text_of r c :: seen) rest
  end.

(** [SELECT DISTINCT ON (exchange) ... ORDER BY exchange, snapshot_time DESC]. *)
Definition latest_by_exchange (rows : list (gmap string sval)) : list (gmap string sval) :=
  firsts "exchange" [] (stable_sort (order_leb [asc "exchange"; desc "snapshot_time"]) rows).

Section lists.
Context `{HeapOrder} (db : Database) (symbolID : Z).

Definition market_columns : list (string * expr) :=
  map col ["exchange"; "source_symbol"; "snapshot_time"; "last_price"; "mark_price"; "index_price"; "bid_price"; "ask_price";
           "volume_24h"; "quote_volume_24h"; "open_interest"; "funding_rate"; "raw_data"].
Definition ListMarket (opts : ListOptions) : result error (PagedResponse MarketSnapshotDTO) :=
  let b := exchange opts (newSeriesBuilder symbolID opts "snapshot_time") in
  run_list db b "derivative_market_snapshots" latest_by_exchange [asc "exchange"] market_columns
    (MkMessages "query market snapshots" "scan market snapshot" "iterate market snapshots") 13 scan_market opts.

Definition kline_columns : list (string * expr) :=
  map col ["exchange"; "interval"; "open_time"; "close_time"; "open_price"; "high_price"; "low_price"; "close_price"; "volume";
           "quote_volume"; "trade_count"; "is_closed"].
Definition ListKlinesPage (opts : ListOptions) : result error (PagedResponse KlineDTO) :=
  let opts := if (Interval opts =? "")%string then with_interval opts "5m" else opts in
  let b := interval (exchange opts (newSeriesBuilder symbolID opts "open_time")) "interval" (Interval opts) in
  run_list db b "derivative_klines" id [direction (Direction opts) "open_time"] kline_columns
    (MkMessages "query klines" "scan kline" "iterate klines") 12 scan_kline opts.

Definition open_interest_messages : messages :=
  MkMessages "query open interest" "scan open interest" "iterate open interest".
Definition oi_history_columns : list (string * expr) :=
  map col ["exchange"; "period"; "timestamp"; "open_interest"; "open_interest_value"].
Definition listOpenInterestHistory (opts : ListOptions) : result error (PagedResponse OpenInterestDTO) :=
  let b := interval (exchange opts (newSeriesBuilder symbolID opts "timestamp")) "period" (Period opts) in
  run_list db b "open_interest_history" id [direction (Direction opts) "timestamp"] oi_history_columns
    open_interest_messages 5 scan_open_interest opts.
Definition oi_snapshot_columns : list (string * expr) :=
  [col "exchange"; ("period", EConst (SText "")); col "snapshot_time"; col "open_interest"; col "open_interest_value"].
Definition ListOpenInterestPage (opts : ListOptions) : result error (PagedResponse OpenInterestDTO) :=
  if negb (Period opts =? "")%string then listOpenInterestHistory opts else
  let b := exchange opts (newSeriesBuilder symbolID opts "snapshot_time") in
  run_list db b "open_interest_snapshots" id [direction (Direction opts) "snapshot_time"] oi_snapshot_columns
    open_interest_messages 5 scan_open_interest opts.

Definition funding_columns : list (string * expr) :=
  [col "exchange"; col "funding_time"; col "funding_rate"; col "realized_rate"; ("next_funding_time", ENull); col "mark_price"].
Definition ListFundingPage (opts : ListOptions) : result error (PagedResponse FundingDTO) :=
  let b := exchange opts (newSeriesBuilder symbolID opts "funding_time") in
  run_list db b "funding_rate_history" id [direction (Direction opts) "funding_time"] funding_columns
    (MkMessages "query funding" "scan funding" "iterate funding") 6 scan_funding opts.

(** The lists with a period, 5m by default, over [snapshot_time] or [bucket_time]. *)
Definition period_list {A} (table timeColumn : string) (cols : list (string * expr)) (m : messages) (n : nat) (s : scanner A)
    (opts : ListOptions) : result error (PagedResponse A) :=
  let opts := default_period opts in
  let b := interval (exchange opts (newSeriesBuilder symbolID opts timeColumn)) "period" (Period opts) in
  run_list db b table id [direction (Direction opts) timeColumn] cols m n s opts.

Definition long_short_columns : list (string * expr) :=
  map col ["exchange"; "period"; "snapshot_time"; "long_account_ratio"; "short_account_ratio"; "long_short_ratio";
           "top_trader_long_ratio"; "top_trader_short_ratio"].
Definition ListLongShortRatioPage : ListOptions -> result error (PagedResponse LongShortRatioDTO) :=
  period_list "long_short_ratio_snapshots" "snapshot_time" long_short_columns
    (MkMessages "query long short ratio" "scan long short ratio" "iterate long short ratio") 8 scan_long_short.

Definition taker_flow_columns : list (string * expr) :=
  map col ["exchange"; "period"; "snapshot_time"; "taker_buy_volume"; "taker_sell_volume"; "taker_buy_quote_volume";
           "taker_sell_quote_volume"; "buy_sell_delta"; "buy_sell_delta_quote"; "buy_sell_ratio"].
Definition ListTakerFlowPage : ListOptions -> result error (PagedResponse TakerFlowDTO) :=
  period_list "taker_flow_snapshots" "snapshot_time" taker_flow_columns
    (MkMessages "query taker flow" "scan taker flow" "iterate taker flow") 10 scan_taker_flow.

Definition cvd_columns : list (string * expr) :=
  map col ["exchange"; "period"; "snapshot_time"; "cvd_value"; "cvd_delta"; "cvd_change"; "cvd_change_percent"].
Definition ListCVDPage : ListOptions -> result error (PagedResponse CVDDTO) :=
  period_list "cvd_snapshots" "snapshot_time" cvd_columns (MkMessages "query cvd" "scan cvd" "iterate cvd") 7 scan_cvd.

Definition liquidation_columns : list (string * expr) :=
  map col ["exchange"; "period"; "bucket_time"; "long_liquidation_count"; "short_liquidation_count"; "long_liquidation_usd";
           "short_liquidation_usd"; "total_liquidation_usd"; "largest_liquidation_usd"].
Definition ListLiquidationsPage : ListOptions -> result error (PagedResponse LiquidationAggregateDTO) :=
  period_list "liquidation_aggregates" "bucket_time" liquidation_columns
    (MkMessages "query liquidations" "scan liquidations" "iterate liquidations") 9 scan_liquidation.

(** The lists without a period. *)
Definition basis_columns : list (string * expr) :=
  map col ["exchange"; "snapshot_time"; "futures_price"; "spot_price"; "mark_price"; "index_price"; "basis_value"; "basis_percent";
           "annualized_basis_percent"; "funding_rate"].
Definition ListBasisPage (opts : ListOptions) : result error (PagedResponse BasisDTO) :=
  let b := exchange opts (newSeriesBuilder symbolID opts "snapshot_time") in
  run_list db b "basis_premium_snapshots" id [direction (Direction opts) "snapshot_time"] basis_columns
    (MkMessages "query basis" "scan basis" "iterate basis") 10 scan_basis opts.

Definition imbalance_columns : list (string * expr) :=
  map col ["exchange"; "snapshot_time"; "depth_levels"; "mid_price"; "spread_percent"; "bid_depth_usd"; "ask_depth_usd"; "imbalance_percent"].
Definition ListOrderbookImbalancePage (opts : ListOptions) : result error (PagedResponse OrderbookImbalanceDTO) :=
  let b := exchange opts (newSeriesBuilder symbolID opts "snapshot_time") in
  run_list db b "orderbook_imbalance_snapshots" id [direction (Direction opts) "snapshot_time"] imbalance_columns
    (MkMessages "query orderbook imbalance" "scan orderbook imbalance" "iterate orderbook imbalance") 8 scan_imbalance opts.

Definition divergence_columns : list (string * expr) :=
  [col "data_type"; col "snapshot_time"; col "price_spread_percent"; col "oi_spread_percent"; col "funding_spread";
   col "volume_spread_percent"; ("coalesce", ECoalesce "strongest_exchange" (SText ""));
   ("coalesce", ECoalesce "weakest_exchange" (SText "")); col "raw_by_exchange"; col "metadata"].
Definition ListExchangeDivergencePage (opts : ListOptions) : result error (PagedResponse ExchangeDivergenceDTO) :=
  let b := newSeriesBuilder symbolID opts "snapshot_time" in
  run_list db b "exchange_divergence_snapshots" id [direction (Direction opts) "snapshot_time"] divergence_columns
    (MkMessages "query exchange divergence" "scan exchange divergence" "iterate exchange divergence") 10 scan_divergence opts.

(** The functions that drop the page description. *)
Definition data_of {A} (r : result error (PagedResponse A)) : result error (list A) := let! page := r in Ok (Data page).
Definition ListKlines (opts : ListOptions) : result error (list KlineDTO) := data_of (ListKlinesPage opts).
Definition ListOpenInterest (opts : ListOptions) : result error (list OpenInterestDTO) := data_of (ListOpenInterestPage opts).
Definition ListFunding (opts : ListOptions) : result error (list FundingDTO) := data_of (ListFundingPage opts).
Definition ListTakerFlow (opts : ListOptions) : result error (list TakerFlowDTO) := data_of (ListTakerFlowPage opts).
Definition ListCVD (opts : ListOptions) : result error (list CVDDTO) := data_of (ListCVDPage opts).
Definition ListLiquidations (opts : ListOptions) : result error (list LiquidationAggregateDTO) := data_of (ListLiquidationsPage opts).
Definition ListExchangeDivergence (opts : ListOptions) : result error (list ExchangeDivergenceDTO) := data_of (ListExchangeDivergencePage opts).
End lists.

(** ** Every row of the schema scans *)

Lemma scans_market : scans derivative_market_snapshots market_columns scan_market.
Proof. solve_scans. Qed.
Lemma scans_kline : scans derivative_klines kline_columns scan_kline.
Proof. solve_scans. Qed.
Lemma scans_oi_history : scans open_interest_history oi_history_columns scan_open_interest.
Proof. solve_scans. Qed.
Lemma scans_oi_snapshot : scans open_interest_snapshots oi_snapshot_columns scan_open_interest.
Proof. solve_scans. Qed.
Lemma scans_funding : scans funding_rate_history funding_columns scan_funding.
Proof. solve_scans. Qed.
Lemma scans_long_short : scans long_short_ratio_snapshots long_short_columns scan_long_short.
Proof. solve_scans. Qed.
Lemma scans_taker_flow : scans taker_flow_snapshots taker_flow_columns scan_taker_flow.
Proof. solve_scans. Qed.
Lemma scans_cvd : scans cvd_snapshots cvd_columns scan_cvd.
Proof. solve_scans. Qed.
Lemma scans_liquidation : scans liquidation_aggregates liquidation_columns scan_liquidation.
Proof. solve_scans. Qed.
Lemma scans_basis : scans basis_premium_snapshots basis_columns scan_basis.
Proof. solve_scans. Qed.
Lemma scans_imbalance : scans orderbook_imbalance_snapshots imbalance_columns scan_imbalance.
Proof. solve_scans. Qed.
Lemma scans_divergence : scans exchange_divergence_snapshots divergence_columns scan_divergence.
Proof. solve_scans. Qed.

(** ** What the lists serve *)

(** The rows a list is about: of the symbol, in the time range, of the exchange and of the period asked for. *)
Definition bound_ok (op : cmp) (t : option Time) (v : option sval) : bool :=
  match t with Some t => compares op v (Some (ATime t)) | None => true end.
Definition text_is (value : string) (v : option sval) : bool :=
  if negb (value =? "")%string then compares CEq v (Some (AText value)) else true.
Definition in_series (symbolID : Z) (opts : ListOptions) (timeColumn : string) (r : gmap string sval) : bool :=
  compares CEq (r !! "symbol_id") (Some (AInt symbolID)) &&
  bound_ok CGe (StartTime opts) (r !! timeColumn) && bound_ok CLe (EndTime opts) (r !! timeColumn).

Definition usable_builder (b : builder) : Prop := builder_wf b /\ forallb arg_ok (b_args b) = true.

Lemma usable_clause b c op a : usable_builder b -> arg_ok a = true -> usable_builder (add_clause b c op a).
Proof.
  intros [Hw Ha] Hok. split; [by apply add_clause_wf|]. simpl. rewrite forallb_app, Ha. simpl. by rewrite Hok.
Qed.

Lemma interval_usable b c v : usable_builder b -> usable_builder (interval b c v).
Proof. intros H. unfold interval. case_match; [|done]. by apply usable_clause. Qed.
Lemma interval_selects b c v r : usable_builder b -> selects (interval b c v) r = selects b r && text_is v (r !! c).
Proof. intros [Hw _]. unfold interval, text_is. case_match; [by apply add_clause_selects|by rewrite andb_true_r]. Qed.

Lemma bound_usable b c op t : usable_builder b -> from_option timestamptz_ok true t = true -> usable_builder (add_bound b c op t).
Proof. intros H Ht. destruct t; [|done]. by apply usable_clause. Qed.
Lemma bound_selects b c op t r : usable_builder b -> selects (add_bound b c op t) r = selects b r && bound_ok op t (r !! c).
Proof. intros [Hw _]. destruct t; cbn [add_bound bound_ok]; [by apply add_clause_selects|by rewrite andb_true_r]. Qed.

(** Bounds a [timestamptz] can hold. *)
Definition times_fit (opts : ListOptions) : Prop :=
  from_option timestamptz_ok true (StartTime opts) = true /\ from_option timestamptz_ok true (EndTime opts) = true.

Lemma series_builder symbolID opts timeColumn : times_fit opts ->
  usable_builder (newSeriesBuilder symbolID opts timeColumn) /\
  forall r, selects (newSeriesBuilder symbolID opts timeColumn) r = in_series symbolID opts timeColumn r.
Proof.
  intros [Hs He]. unfold newSeriesBuilder. set (b0 := add_clause empty_builder _ _ _).
  assert (usable_builder b0) as H0 by (apply usable_clause; [split; [constructor|done]|done]).
  assert (usable_builder (add_bound b0 timeColumn CGe (StartTime opts))) as H1 by by apply bound_usable.
  split; [by apply bound_usable|]. intros r. rewrite !bound_selects by done. unfold b0, in_series.
  by rewrite add_clause_selects by constructor.
Qed.

Section serves.
Context `{HeapOrder} (db : Database).

(** The result of a list function: the slice, for the page, of the matching rows in order. *)
Definition serves {A} (table : string) (matches : gmap string sval -> bool) (order : list order_key) (cols : list (string * expr))
    (s : scanner A) (opts : ListOptions) (res : result error (PagedResponse A)) : Prop :=
  exists rows ds,
    rows ≡ₚ filter (fun r => matches r = true) (db_rows db table) /\ sorted_by (order_leb order) rows /\
    Forall2 (scanned s cols) rows ds /\
    res = Ok (MkPaged (slice opts ds) (PageMeta_of opts (reported (slice opts ds) (length ds)))).

Lemma run_list_serves {A} b table sch matches order cols m n (s : scanner A) opts :
  typed_db db -> healthy_db db -> usable_builder b -> 0 <= Limit opts -> 0 <= Offset opts ->
  table_schema table = Some sch -> scans sch cols s -> length cols = n -> (forall r, selects b r = matches r) ->
  serves table matches order cols s opts (run_list db b table id order cols m n s opts).
Proof.
  intros Ht Hh [Hw Ha] Hl Ho Hsch Hsc Hn Hm.
  pose proof (list_rows_perm db b table order) as Hp.
  destruct (scans_all sch s cols (list_rows db b table id order)) as [ds Hds]; [done| |].
  { rewrite Hp. apply Forall_forall. intros r [_ Hr]%list_elem_of_filter. by eapply Forall_forall; [apply (Ht table sch Hsch)|]. }
  exists (list_rows db b table id order), ds. split_and!; [|apply list_rows_sorted|done|by apply run_list_ok].
  rewrite Hp. erewrite list_filter_iff; [done|]. intros r. simpl. by rewrite Hm.
Qed.
End serves.

Definition options_period (opts : ListOptions) : string := if (Period opts =? "")%string then "5m" else Period opts.

(** The builder of most lists: symbol, time range and exchange. *)
Definition of_exchange (symbolID : Z) (opts : ListOptions) (time : string) (r : gmap string sval) : bool :=
  in_series symbolID opts time r && text_is (Exchange opts) (r !! "exchange").

Lemma exchange_builder symbolID opts time : times_fit opts ->
  usable_builder (exchange opts (newSeriesBuilder symbolID opts time)) /\
  forall r, selects (exchange opts (newSeriesBuilder symbolID opts time)) r = of_exchange symbolID opts time r.
Proof.
  intros Hf. destruct (series_builder symbolID opts time Hf) as [Hu Hs].
  split; [by apply interval_usable|]. intros r. unfold exchange. by rewrite interval_selects, Hs by done.
Qed.

(** The same with an equality on one more column. *)
Lemma interval_builder symbolID opts time c v : times_fit opts ->
  usable_builder (interval (exchange opts (newSeriesBuilder symbolID opts time)) c v) /\
  forall r, selects (interval (exchange opts (newSeriesBuilder symbolID opts time)) c v) r
            = of_exchange symbolID opts time r && text_is v (r !! c).
Proof.
  intros Hf. destruct (exchange_builder symbolID opts time Hf) as [Hu Hs].
  split; [by apply interval_usable|]. intros r. by rewrite interval_selects, Hs by done.
Qed.

Lemma period_list_serves `{HeapOrder} {A} db symbolID table sch time cols m n (s : scanner A) opts :
  typed_db db -> healthy_db db -> times_fit opts -> 0 <= Limit opts -> 0 <= Offset opts ->
  table_schema table = Some sch -> scans sch cols s -> length cols = n ->
  serves db table (fun r => of_exchange symbolID opts time r && text_is (options_period opts) (r !! "period"))
    [direction (Direction opts) time] cols s opts (period_list db symbolID table time cols m n s opts).
Proof.
  intros Ht Hh Hf Hl Ho Hsch Hsc Hn. unfold period_list, default_period, options_period. case_match.
  - destruct (interval_builder symbolID opts time "period" "5m" Hf) as [Hu Hs].
    apply (run_list_serves db _ table sch (fun r => of_exchange symbolID opts time r && text_is "5m" (r !! "period")) _ cols m n s
             (with_period opts "5m") Ht Hh Hu Hl Ho Hsch Hsc Hn Hs).
  - destruct (interval_builder symbolID opts time "period" (Period opts) Hf) as [Hu Hs]. by eapply run_list_serves.
Qed.

Section served.
Context `{HeapOrder} (db : Database) (symbolID : Z) (opts : ListOptions).
Hypotheses (Ht : typed_db db) (Hh : healthy_db db) (Hf : times_fit opts) (Hl : 0 <= Limit opts) (Ho : 0 <= Offset opts).

Lemma ListKlinesPage_serves : serves db "derivative_klines"
  (fun r => of_exchange symbolID opts "open_time" r && text_is (if (Interval opts =? "")%string then "5m" else Interval opts) (r !! "interval"))
  [direction (Direction opts) "open_time"] kline_columns scan_kline opts (ListKlinesPage db symbolID opts).
Proof.
  unfold ListKlinesPage. destruct (Interval opts =? "")%string.
  - destruct (interval_builder symbolID opts "open_time" "interval" "5m" Hf) as [Hu Hs].
    apply (run_list_serves db _ "derivative_klines" derivative_klines _ _ kline_columns _ 12 scan_kline (with_interval opts "5m")
             Ht Hh Hu Hl Ho eq_refl scans_kline eq_refl Hs).
  - destruct (interval_builder symbolID opts "open_time" "interval" (Interval opts) Hf) as [Hu Hs].
    by eapply run_list_serves; [..|exact eq_refl|apply scans_kline| |].
Qed.

Lemma ListOpenInterestPage_serves :
  if (Period opts =? "")%string
  then serves db "open_interest_snapshots" (of_exchange symbolID opts "snapshot_time") [direction (Direction opts) "snapshot_time"]
         oi_snapshot_columns scan_open_interest opts (ListOpenInterestPage db symbolID opts)
  else serves db "open_interest_history" (fun r => of_exchange symbolID opts "timestamp" r && text_is (Period opts) (r !! "period"))
         [direction (Direction opts) "timestamp"] oi_history_columns scan_open_interest opts (ListOpenInterestPage db symbolID opts).
Proof.
  unfold ListOpenInterestPage, listOpenInterestHistory. destruct (Period opts =? "")%string; cbn [negb].
  - destruct (exchange_builder symbolID opts "snapshot_time" Hf) as [Hu Hs].
    by eapply run_list_serves; [..|exact eq_refl|apply scans_oi_snapshot| |].
  - destruct (interval_builder symbolID opts "timestamp" "period" (Period opts) Hf) as [Hu Hs].
    by eapply run_list_serves; [..|exact eq_refl|apply scans_oi_history| |].
Qed.

Lemma ListFundingPage_serves : serves db "funding_rate_history" (of_exchange symbolID opts "funding_time")
  [direction (Direction opts) "funding_time"] funding_columns scan_funding opts (ListFundingPage db symbolID opts).
Proof.
  destruct (exchange_builder symbolID opts "funding_time" Hf) as [Hu Hs].
  by eapply run_list_serves; [..|exact eq_refl|apply scans_funding| |].
Qed.

Lemma ListBasisPage_serves : serves db "basis_premium_snapshots" (of_exchange symbolID opts "snapshot_time")
  [direction (Direction opts) "snapshot_time"] basis_columns scan_basis opts (ListBasisPage db symbolID opts).
Proof.
  destruct (exchange_builder symbolID opts "snapshot_time" Hf) as [Hu Hs].
  by eapply run_list_serves; [..|exact eq_refl|apply scans_basis| |].
Qed.

Lemma ListOrderbookImbalancePage_serves : serves db "orderbook_imbalance_snapshots" (of_exchange symbolID opts "snapshot_time")
  [direction (Direction opts) "snapshot_time"] imbalance_columns scan_imbalance opts (ListOrderbookImbalancePage db symbolID opts).
Proof.
  destruct (exchange_builder symbolID opts "snapshot_time" Hf) as [Hu Hs].
  by eapply run_list_serves; [..|exact eq_refl|apply scans_imbalance| |].
Qed.

Lemma ListExchangeDivergencePage_serves : serves db "exchange_divergence_snapshots" (in_series symbolID opts "snapshot_time")
  [direction (Direction opts) "snapshot_time"] divergence_columns scan_divergence opts (ListExchangeDivergencePage db symbolID opts).
Proof.
  destruct (series_builder symbolID opts "snapshot_time" Hf) as [Hu Hs].
  by eapply run_list_serves; [..|exact eq_refl|apply scans_divergence| |].
Qed.

Definition of_period (time : string) (r : gmap string sval) : bool :=
  of_exchange symbolID opts time r && text_is (options_period opts) (r !! "period").

Lemma ListLongShortRatioPage_serves : serves db "long_short_ratio_snapshots" (of_period "snapshot_time")
  [direction (Direction opts) "snapshot_time"] long_short_columns scan_long_short opts (ListLongShortRatioPage db symbolID opts).
Proof. by eapply period_list_serves; [..|exact eq_refl|apply scans_long_short|]. Qed.
Lemma ListTakerFlowPage_serves : serves db "taker_flow_snapshots" (of_period "snapshot_time")
  [direction (Direction opts) "snapshot_time"] taker_flow_columns scan_taker_flow opts (ListTakerFlowPage db symbolID opts).
Proof. by eapply period_list_serves; [..|exact eq_refl|apply scans_taker_flow|]. Qed.
Lemma ListCVDPage_serves : serves db "cvd_snapshots" (of_period "snapshot_time")
  [direction (Direction opts) "snapshot_time"] cvd_columns scan_cvd opts (ListCVDPage db symbolID opts).
Proof. by eapply period_list_serves; [..|exact eq_refl|apply scans_cvd|]. Qed.
Lemma ListLiquidationsPage_serves : serves db "liquidation_aggregates" (of_period "bucket_time")
  [direction (Direction opts) "bucket_time"] liquidation_columns scan_liquidation opts (ListLiquidationsPage db symbolID opts).
Proof. by eapply period_list_serves; [..|exact eq_refl|apply scans_liquidation|]. Qed.
End served.

(** C14: the series lists serve exactly what they are asked for, on every table that satisfies its
    schema: no row fails to scan, and the answer is the page of the rows of the symbol, in the time
    range, of the exchange if one is named and of the period (5m by default where the list has one),
    sorted by time in the direction asked for.  The placeholders of every statement are numbered so
    that each condition compares with its own argument. *)
Theorem series_lists_exact `{HeapOrder} db symbolID opts :
  typed_db db -> healthy_db db -> times_fit opts -> 0 <= Limit opts -> 0 <= Offset opts ->
  let rows := of_exchange symbolID opts in
  let timed := of_period symbolID opts in
  let by_time time := [direction (Direction opts) time] in
  serves db "derivative_klines"
    (fun r => rows "open_time" r && text_is (if (Interval opts =? "")%string then "5m" else Interval opts) (r !! "interval"))
    (by_time "open_time") kline_columns scan_kline opts (ListKlinesPage db symbolID opts) /\
  (if (Period opts =? "")%string
   then serves db "open_interest_snapshots" (rows "snapshot_time") (by_time "snapshot_time") oi_snapshot_columns scan_open_interest opts
          (ListOpenInterestPage db symbolID opts)
   else serves db "open_interest_history" (fun r => rows "timestamp" r && text_is (Period opts) (r !! "period")) (by_time "timestamp")
          oi_history_columns scan_open_interest opts (ListOpenInterestPage db symbolID opts)) /\
  serves db "funding_rate_history" (rows "funding_time") (by_time "funding_time") funding_columns scan_funding opts
    (ListFundingPage db symbolID opts) /\
  serves db "long_short_ratio_snapshots" (timed "snapshot_time") (by_time "snapshot_time") long_short_columns scan_long_short opts
    (ListLongShortRatioPage db symbolID opts) /\
  serves db "taker_flow_snapshots" (timed "snapshot_time") (by_time "snapshot_time") taker_flow_columns scan_taker_flow opts
    (ListTakerFlowPage db symbolID opts) /\
  serves db "cvd_snapshots" (timed "snapshot_time") (by_time "snapshot_time") cvd_columns scan_cvd opts (ListCVDPage db symbolID opts) /\
  serves db "liquidation_aggregates" (timed "bucket_time") (by_time "bucket_time") liquidation_columns scan_liquidation opts
    (ListLiquidationsPage db symbolID opts) /\
  serves db "basis_premium_snapshots" (rows "snapshot_time") (by_time "snapshot_time") basis_columns scan_basis opts
    (ListBasisPage db symbolID opts) /\
  serves db "orderbook_imbalance_snapshots" (rows "snapshot_time") (by_time "snapshot_time") imbalance_columns scan_imbalance opts
    (ListOrderbookImbalancePage db symbolID opts) /\
  serves db "exchange_divergence_snapshots" (in_series symbolID opts "snapshot_time") (by_time "snapshot_time") divergence_columns
    scan_divergence opts (ListExchangeDivergencePage db symbolID opts).
Proof.
  intros Ht Hh Hf Hl Ho rows timed by_time.
  split_and!; [by apply ListKlinesPage_serves|by apply ListOpenInterestPage_serves|by apply ListFundingPage_serves|
    by apply ListLongShortRatioPage_serves|by apply ListTakerFlowPage_serves|by apply ListCVDPage_serves|by apply ListLiquidationsPage_serves|
    by apply ListBasisPage_serves|by apply ListOrderbookImbalancePage_serves|by apply ListExchangeDivergencePage_serves].
Qed.

(** ** The latest snapshot of each exchange *)

Lemma firsts_in c seen rows r : r ∈ firsts c seen rows -> r ∈ rows /\ text_of r c ∉ seen.
Proof.
  revert seen. induction rows as [|x rows IH]; intros seen Hr; [by apply not_elem_of_nil in Hr|]. cbn [firsts] in Hr.
  case_match; bool_to_prop.
  - apply IH in Hr as [Hr Hn]. split; [by right|done].
  - apply elem_of_cons in Hr as [->|Hr]; [split; [by left|done]|]. apply IH in Hr as [Hr Hn]. split; [by right|set_solver].
Qed.

Lemma firsts_nodup c seen rows : NoDup (map (fun r => text_of r c) (firsts c seen rows)).
Proof.
  revert seen. induction rows as [|x rows IH]; intros seen; cbn [firsts map]; [constructor|].
  case_match; [apply IH|]. cbn [map]. constructor; [|apply IH].
  intros (r & Hr1 & Hr2)%list_elem_of_fmap. apply firsts_in in Hr2 as [_ Hn]. apply Hn. rewrite <- Hr1. by left.
Qed.

Lemma firsts_complete c seen rows r : r ∈ rows -> text_of r c ∉ seen ->
  exists r', r' ∈ firsts c seen rows /\ text_of r' c = text_of r c.
Proof.
  revert seen. induction rows as [|x rows IH]; intros seen Hr Hn; [by apply not_elem_of_nil in Hr|]. cbn [firsts].
  apply elem_of_cons in Hr as [<-|Hr].
  - rewrite bool_decide_eq_false_2 by done. exists r. split; [by left|done].
  - case_match; bool_to_prop.
    + destruct (IH seen Hr Hn) as (r' & Hr' & Ht). by exists r'.
    + destruct (decide (text_of r c = text_of x c)) as [E|E]; [exists x; split; [by left|done]|].
      destruct (IH (text_of x c :: seen) Hr) as (r' & Hr' & Ht); [set_solver|]. exists r'. split; [by right|done].
Qed.

(** In a sorted list a first row is not after any row of its group. *)
Lemma firsts_least leb c seen rows r x :
  StronglySorted (fun a b => leb a b = true) rows -> (forall a, leb a a = true) ->
  r ∈ firsts c seen rows -> x ∈ rows -> text_of x c = text_of r c -> leb r x = true.
Proof.
  intros Hs Hrefl. revert seen. induction Hs as [|y rows Hs IH Hy]; intros seen Hr Hx Ht; [by apply not_elem_of_nil in Hr|].
  cbn [firsts] in Hr. case_match; bool_to_prop.
  - apply elem_of_cons in Hx as [->|Hx]; [|by eapply IH]. apply firsts_in in Hr as [_ Hn]. congruence.
  - apply elem_of_cons in Hr as [->|Hr].
    + apply elem_of_cons in Hx as [->|Hx]; [apply Hrefl|]. rewrite Forall_forall in Hy. by apply Hy.
    + apply elem_of_cons in Hx as [->|Hx]; [|by eapply IH]. apply firsts_in in Hr as [_ Hn].
      exfalso. apply Hn. rewrite <- Ht. by left.
Qed.

Lemma order_leb_refl ks r : order_leb ks r r = true.
Proof. destruct (order_leb ks r r) eqn:E; [done|]. rewrite (order_leb_total _ _ _ E) in E. done. Qed.

Lemma same_exchange_newest r x t u : text_of r "exchange" = text_of x "exchange" -> is_Some (text_of r "exchange") ->
  r !! "snapshot_time" = Some (STime t) -> x !! "snapshot_time" = Some (STime u) ->
  order_leb [asc "exchange"; desc "snapshot_time"] r x = true -> u <= t.
Proof.
  intros He [e Hs] Ht Hu.
  assert (forall y, text_of y "exchange" = Some e -> y !! "exchange" = Some (SText e)) as Hx.
  { intros y. unfold text_of. destruct (y !! "exchange") as [[]|]; try done. by intros [= ->]. }
  pose proof (Hx r Hs) as E1. rewrite He in Hs. pose proof (Hx x Hs) as E2.
  cbn [order_leb]. unfold key_leb. cbn [ok_column asc desc ok_desc]. rewrite E1, E2, Ht, Hu. cbn [sval_leb].
  assert (str_leb e e = true) as -> by (destruct (str_leb e e) eqn:E; [done|by rewrite (str_leb_total _ _ E) in E]).
  cbn. rewrite andb_true_iff. intros [H _]. by bool_to_prop.
Qed.

(** the market list holds the newest snapshot of every exchange and nothing else: the rows
    scanned are matching rows of the symbol, one for each exchange that has any, in the order of the
    exchanges, and no matching row of the same exchange is newer. *)
Theorem market_list_newest `{HeapOrder} db symbolID opts :
  typed_db db -> healthy_db db -> times_fit opts -> 0 <= Limit opts -> 0 <= Offset opts ->
  let wanted r := r ∈ db_rows db "derivative_market_snapshots" /\ of_exchange symbolID opts "snapshot_time" r = true in
  exists rows ds,
    ListMarket db symbolID opts = Ok (MkPaged (slice opts ds) (PageMeta_of opts (reported (slice opts ds) (length ds)))) /\
    Forall2 (scanned scan_market market_columns) rows ds /\ sorted_by (order_leb [asc "exchange"]) rows /\
    NoDup (map (fun r => text_of r "exchange") rows) /\
    (forall r, r ∈ rows -> wanted r) /\
    (forall x, wanted x -> exists r t u, r ∈ rows /\ text_of r "exchange" = text_of x "exchange" /\
       r !! "snapshot_time" = Some (STime t) /\ x !! "snapshot_time" = Some (STime u) /\ u <= t).
Proof.
  intros Ht Hh Hf Hl Ho wanted. destruct (exchange_builder symbolID opts "snapshot_time" Hf) as [[Hw Ha] Hs].
  set (b := exchange opts (newSeriesBuilder symbolID opts "snapshot_time")) in *.
  set (ms := filter (fun r => selects b r = true) (heap (db_rows db "derivative_market_snapshots"))).
  set (srt := stable_sort (order_leb [asc "exchange"; desc "snapshot_time"]) ms).
  assert (forall r, r ∈ ms <-> wanted r) as Hms.
  { intros r. unfold ms, wanted. rewrite list_elem_of_filter, heap_perm, Hs. tauto. }
  assert (forall r, r ∈ srt <-> wanted r) as Hsrt by (intros r; unfold srt; by rewrite elem_of_stable_sort).
  assert (forall r, wanted r -> row_ok derivative_market_snapshots r) as Hty.
  { intros r [Hr _]. by eapply Forall_forall; [apply (Ht "derivative_market_snapshots" _ eq_refl)|]. }
  pose (rows := list_rows db b "derivative_market_snapshots" latest_by_exchange [asc "exchange"]).
  assert (rows ≡ₚ firsts "exchange" [] srt) as Hrows by apply stable_sort_perm.
  destruct (scans_all derivative_market_snapshots scan_market market_columns rows) as [ds Hds]; [apply scans_market| |].
  { rewrite Hrows. apply Forall_forall. intros r [Hr _]%firsts_in. by apply Hty, Hsrt. }
  exists rows, ds. split_and!; [by apply run_list_ok|done|apply list_rows_sorted|..].
  - rewrite Hrows. apply firsts_nodup.
  - intros r Hr. rewrite Hrows in Hr. by apply firsts_in in Hr as [Hr%Hsrt _].
  - intros x Hx. destruct (firsts_complete "exchange" [] srt x) as (r & Hr & He); [by apply Hsrt|set_solver|].
    assert (wanted r) as Hwr by by apply firsts_in in Hr as [Hr%Hsrt _].
    assert (forall y, wanted y -> is_Some (text_of y "exchange") /\ exists t, y !! "snapshot_time" = Some (STime t)) as Hcols.
    { intros y Hy. pose proof (Hty y Hy) as Hr'. split.
      - pose proof (Hr' "exchange" TText true eq_refl) as E. unfold text_of. by destruct (y !! "exchange") as [[]|].
      - pose proof (Hr' "snapshot_time" TTime true eq_refl) as E. destruct (y !! "snapshot_time") as [[]|]; try done. by eexists. }
    destruct (Hcols r Hwr) as [Hre [t Hrt]], (Hcols x Hx) as [_ [u Hxu]].
    exists r, t, u. split_and!; [by rewrite Hrows|done..|].
    apply (same_exchange_newest r x); try done. eapply firsts_least; [|apply order_leb_refl|exact Hr|by apply Hsrt|done].
    apply stable_sort_sorted; [apply order_leb_total|apply order_leb_trans].
Qed.

(** ** A concrete database *)

Definition price (n : Z) : sval := SNum (n * 10 ^ 18) 18.
Definition sample_kline (ex : string) (t : Time) : gmap string sval :=
  list_to_map [("symbol_id", SInt 7); ("exchange", SText ex); ("interval", SText "5m"); ("open_time", STime t);
               ("close_time", STime (t + 5 * Minute)); ("open_price", price 100); ("high_price", price 110); ("low_price", price 90);
               ("close_price", SNum 105250000000000000000 18); ("volume", price 3); ("is_closed", SBool true)].
Definition sample_snapshot (ex : string) (t : Time) : gmap string sval :=
  list_to_map [("symbol_id", SInt 7); ("exchange", SText ex); ("source_symbol", SText "BTCUSDT"); ("snapshot_time", STime t);
               ("last_price", price 100); ("raw_data", SJson (JObject []))].

Definition sample_db : Database :=
  MkDatabase
    (fun t => if (t =? "derivative_klines")%string
              then [sample_kline "okx" (Date 2026 5 1); sample_kline "binance" (Date 2026 5 1); sample_kline "okx" (Date 2026 5 2)]
              else if (t =? "derivative_market_snapshots")%string
              then [sample_snapshot "okx" (Date 2026 5 1); sample_snapshot "binance" (Date 2026 5 1); sample_snapshot "okx" (Date 2026 5 2)]
              else [])
    (fun _ => no_fault).

Lemma sample_db_typed : typed_db sample_db.
Proof.
  intros table sch Hs. unfold sample_db. cbn [db_rows].
  destruct (String.eqb_spec table "derivative_klines") as [->|_].
  { injection Hs as <-. apply Forall_forall. intros r Hr. apply row_check_ok.
    repeat (apply elem_of_cons in Hr as [->|Hr]; [vm_cast_no_check (@eq_refl bool true)|]). by apply not_elem_of_nil in Hr. }
  destruct (String.eqb_spec table "derivative_market_snapshots") as [->|_]; [|constructor].
  injection Hs as <-. apply Forall_forall. intros r Hr. apply row_check_ok.
  repeat (apply elem_of_cons in Hr as [->|Hr]; [vm_cast_no_check (@eq_refl bool true)|]). by apply not_elem_of_nil in Hr.
Qed.

Lemma series_lists_exact_witness :
  serves sample_db "derivative_klines"
    (fun r => of_exchange 7 (sample_page 2 1) "open_time" r && text_is "5m" (r !! "interval"))
    [desc "open_time"] kline_columns scan_kline (sample_page 2 1) (ListKlinesPage (H:=in_place) sample_db 7 (sample_page 2 1)).
Proof.
  exact (proj1 (series_lists_exact (H:=in_place) sample_db 7 (sample_page 2 1) sample_db_typed ltac:(done) ltac:(done)
                  ltac:(discriminate) ltac:(discriminate))).
Defined.

Lemma market_list_newest_witness : exists rows ds,
  ListMarket (H:=in_place) sample_db 7 (sample_page 2 1)
  = Ok (MkPaged (slice (sample_page 2 1) ds) (PageMeta_of (sample_page 2 1) (reported (slice (sample_page 2 1) ds) (length ds)))) /\
  Forall2 (scanned scan_market market_columns) rows ds.
Proof.
  destruct (market_list_newest (H:=in_place) sample_db 7 (sample_page 2 1) sample_db_typed ltac:(done) ltac:(done)
              ltac:(discriminate) ltac:(discriminate)) as (rows & ds & H1 & H2 & _).
  exists rows, ds. split; assumption.
Defined.

Definition page_keys (r : result error (PagedResponse KlineDTO)) : option (list (string * Time) * Z) :=
  match r with Ok p => Some (map (fun k => (kd_Exchange k, kd_OpenTime k)) (Data p), pm_Total (Meta p)) | Err _ => None end.

(** The newest market snapshots, one for each exchange. *)
Example sample_market : match ListMarket (H:=in_place) sample_db 7 (sample_page 50 1) with
  | Ok p => map (fun d => (md_Exchange d, md_SnapshotTime d)) (Data p)
            = [("binance", Date 2026 5 1); ("okx", Date 2026 5 2)]
  | Err _ => False end.
Proof. vm_cast_no_check (@eq_refl (list (string * Time)) [("binance", Date 2026 5 1); ("okx", Date 2026 5 2)]). Qed.

(** The lists sort by time alone, and several exchanges share a time: when two requests meet the rows
    in different orders, a row appears on both pages and another on none. *)
Example pages_may_repeat_rows :
  page_keys (ListKlinesPage (H:=in_place) sample_db 7 (with_page (sample_page 2 1) 1))
  = Some ([("okx", Date 2026 5 2); ("okx", Date 2026 5 1)], 3) /\
  page_keys (ListKlinesPage (H:=backwards) sample_db 7 (with_page (sample_page 2 1) 2))
  = Some ([("okx", Date 2026 5 1)], 3).
Proof.
  split; [vm_cast_no_check (@eq_refl _ (Some ([("okx", Date 2026 5 2); ("okx", Date 2026 5 1)], 3)))|
          vm_cast_no_check (@eq_refl _ (Some ([("okx", Date 2026 5 1)], 3)))].
Qed.

(** A page number whose offset overflows is answered with an error or with rows of another page. *)
Example overflowing_page :
  page_keys (ListKlinesPage (H:=in_place) sample_db 7 (with_page (sample_page 256 1) (2 ^ 56 + 1)))
  = page_keys (ListKlinesPage (H:=in_place) sample_db 7 (sample_page 256 1)) /\
  page_keys (ListKlinesPage (H:=in_place) sample_db 7 (with_page (sample_page 500 1) (2 ^ 55))) = None.
Proof. split; vm_compute; reflexivity. Qed.
