(* ===== verification/ApiAdmin.v ===== *)
(** * Administrative lists ([internal/api/derivatives/admin.go])

    Collector health, the health of the exchanges, jobs, quality issues and data gaps. *)

From S2P Require Import Prelude GoString GoTime GoFloat GoError GoJson ApiQuery ApiStore ApiSchema ApiSeries.

(** ** Data ([dto.go]) *)

Record CollectorHealthDTO := MkHealthDTO {
  hd_ServiceName : string; hd_InstanceID : string; hd_Exchange : string; hd_DataType : string; hd_Status : string;
  hd_HeartbeatAt : Time; hd_LastSuccessAt : option Time; hd_LastErrorAt : option Time; hd_ErrorMessage : string;
  hd_Metrics : RawMessage }.

Record ExchangeHealthDTO := MkExchangeHealthDTO {
  eh_Exchange : string; eh_Status : string; eh_LastHeartbeatAt : Time; eh_HealthyCount : Z; eh_DegradedCount : Z;
  eh_UnhealthyCount : Z }.

Record JobDTO := MkJobDTO {
  jd_ID : Z; jd_Exchange : string; jd_DataType : string; jd_Tier : string; jd_SymbolID : Z; jd_SourceSymbol : string;
  jd_Period : string; jd_Status : string; jd_Priority : Z; jd_ScheduledAt : Time; jd_RetryCount : Z; jd_MaxRetry : Z;
  jd_LastErrorType : string; jd_ErrorMessage : string; jd_JobMode : string }.

Record QualityIssueDTO := MkIssueDTO {
  is_IssueKey : string; is_Severity : string; is_Exchange : string; is_DataType : string; is_SymbolID : Z;
  is_SourceSymbol : string; is_IssueType : string; is_Status : string; is_LastSeenAt : Time; is_Details : RawMessage }.

Record DataGapDTO := MkGapDTO {
  gd_GapKey : string; gd_SymbolID : Z; gd_Exchange : string; gd_DataType : string; gd_Period : string; gd_GapStart : Time;
  gd_GapEnd : Time; gd_BackfillStatus : string; gd_ExpectedIntervalSeconds : Z; gd_LastObservedAt : option Time;
  gd_Metadata : RawMessage }.

(** ** The builder *)

Definition newAdminBuilder : builder := empty_builder.

Definition timeRange (opts : ListOptions) (column : string) (b : builder) : builder :=
  add_bound (add_bound b column CGe (StartTime opts)) column CLe (EndTime opts).

(** [if value != "" { clauses = append(clauses, column+" = "+arg(value)) }]. *)
Definition equals (column value : string) (b : builder) : builder := interval b column value.

(** [COALESCE(column, default)]; its name in the result is that of the function. *)
Definition coalesce (c : string) (v : sval) : string * expr := ("coalesce", ECoalesce c v).

(** ** Scanning *)

Definition scan_health : scanner CollectorHealthDTO :=
  service ← column to_string; inst ← column to_string; ex ← column to_string; dt ← column to_string; st ← column to_string;
  beat ← column to_time; ok ← column (nullable to_time); bad ← column (nullable to_time); msg ← column to_string;
  metrics ← column to_raw;
  mret (MkHealthDTO service inst ex dt st beat (nullTimePtr ok) (nullTimePtr bad) msg (ensureJSON metrics)).

Definition exchangeHealthStatus (unhealthy degraded : Z) : string :=
  if 0 <? unhealthy then "unhealthy" else if 0 <? degraded then "degraded" else "healthy".

Definition scan_exchange_health : scanner ExchangeHealthDTO :=
  ex ← column to_string; beat ← column to_time; h ← column (to_int "int"); d ← column (to_int "int"); u ← column (to_int "int");
  mret (MkExchangeHealthDTO ex (exchangeHealthStatus u d) beat h d u).

Definition scan_job : scanner JobDTO :=
  jid ← column (to_int "int64"); ex ← column to_string; dt ← column to_string; tier ← column to_string; sid ← column (to_int "int64");
  sym ← column to_string; p ← column to_string; st ← column to_string; prio ← column (to_int "int"); at_ ← column to_time;
  retry ← column (to_int "int"); maxr ← column (to_int "int"); et ← column to_string; msg ← column to_string; mode ← column to_string;
  mret (MkJobDTO jid ex dt tier sid sym p st prio at_ retry maxr et msg mode).

Definition scan_issue : scanner QualityIssueDTO :=
  key ← column to_string; sev ← column to_string; ex ← column to_string; dt ← column to_string; sid ← column (to_int "int64");
  sym ← column to_string; ty ← column to_string; st ← column to_string; seen ← column to_time; details ← column to_raw;
  mret (MkIssueDTO key sev ex dt sid sym ty st seen (ensureJSON details)).

Definition scan_gap : scanner DataGapDTO :=
  key ← column to_string; sid ← column (to_int "int64"); ex ← column to_string; dt ← column to_string; p ← column to_string;
  from ← column to_time; to ← column to_time; st ← column to_string; secs ← column (to_int "int"); obs ← column (nullable to_time);
  meta ← column to_raw;
  mret (MkGapDTO key sid ex dt p from to st secs (nullTimePtr obs) (ensureJSON meta)).

(** ** Health of the exchanges: [GROUP BY COALESCE(exchange, 'unknown')] *)

Definition exchange_of (r : gmap string sval) : string :=
  match r !! "exchange" with Some (SText s) => s | _ => "unknown" end.
Definition has_status (statuses : list string) (r : gmap string sval) : bool :=
  match r !! "status" with Some (SText s) => bool_decide (s ∈ statuses) | _ => false end.
Definition heartbeat (r : gmap string sval) : Time := match r !! "heartbeat_at" with Some (STime t) => t | _ => 0 end.

Definition count (P : gmap string sval -> bool) (rows : list (gmap string sval)) : Z :=
  Z.of_nat (length (filter (fun r => P r = true) rows)).

(** The row of one group; [MAX] of its heartbeats, which are not null. *)
Definition health_row (ex : string) (rows : list (gmap string sval)) : gmap string sval :=
  list_to_map [("exchange", SText ex); ("last_heartbeat_at", STime (foldr Z.max (heartbeat (default ∅ (head rows))) (map heartbeat rows)));
               ("healthy_count", SInt (count (has_status ["healthy"]) rows));
               ("degraded_count", SInt (count (has_status ["degraded"]) rows));
               ("unhealthy_count", SInt (count (has_status ["unhealthy"; "stopped"]) rows))].

Definition group_health (rows : list (gmap string sval)) : list (gmap string sval) :=
  map (fun ex => health_row ex (filter (fun r => exchange_of r = ex) rows)) (remove_dups (map exchange_of rows)).

(** ** The lists *)

Section lists.
Context `{HeapOrder} (db : Database).

Definition health_columns : list (string * expr) :=
  [col "service_name"; col "instance_id"; coalesce "exchange" (SText ""); coalesce "data_type" (SText ""); col "status";
   col "heartbeat_at"; col "last_success_at"; col "last_error_at"; coalesce "error_message" (SText ""); col "metrics"].
Definition ListCollectorHealth (opts : ListOptions) : result error (PagedResponse CollectorHealthDTO) :=
  let b := equals "exchange" (Exchange opts) (timeRange opts "heartbeat_at" newAdminBuilder) in
  run_list db b "collector_health" id [direction (Direction opts) "heartbeat_at"] health_columns
    (MkMessages "query collector health" "scan collector health" "iterate collector health") 10 scan_health opts.

Definition exchange_health_columns : list (string * expr) :=
  map col ["exchange"; "last_heartbeat_at"; "healthy_count"; "degraded_count"; "unhealthy_count"].
Definition ListExchangeHealth (opts : ListOptions) : result error (PagedResponse ExchangeHealthDTO) :=
  let b := equals "exchange" (Exchange opts) (timeRange opts "heartbeat_at" newAdminBuilder) in
  run_list db b "collector_health" group_health [asc "exchange"] exchange_health_columns
    (MkMessages "query exchange health" "scan exchange health" "iterate exchange health") 5 scan_exchange_health opts.

Definition job_columns : list (string * expr) :=
  [col "id"; col "exchange"; col "data_type"; col "tier"; coalesce "symbol_id" (SInt 0); col "source_symbol"; coalesce "period" (SText "");
   col "status"; col "priority"; col "scheduled_at"; col "retry_count"; col "max_retry"; coalesce "last_error_type" (SText "");
   coalesce "error_message" (SText ""); col "job_mode"].
Definition ListJobs (opts : ListOptions) : result error (PagedResponse JobDTO) :=
  let b := equals "status" (Category opts) (equals "exchange" (Exchange opts) (timeRange opts "scheduled_at" newAdminBuilder)) in
  run_list db b "derivative_collection_jobs" id [direction (Direction opts) "scheduled_at"; asc "priority"] job_columns
    (MkMessages "query jobs" "scan job" "iterate jobs") 15 scan_job opts.

Definition issue_columns : list (string * expr) :=
  [col "issue_key"; col "severity"; coalesce "exchange" (SText ""); col "data_type"; coalesce "symbol_id" (SInt 0);
   coalesce "source_symbol" (SText ""); col "issue_type"; col "status"; col "last_seen_at"; col "details"].
Definition ListQualityIssues (opts : ListOptions) : result error (PagedResponse QualityIssueDTO) :=
  let b := equals "status" (Category opts) (equals "exchange" (Exchange opts) (timeRange opts "last_seen_at" newAdminBuilder)) in
  run_list db b "data_quality_issues" id [direction (Direction opts) "last_seen_at"] issue_columns
    (MkMessages "query quality issues" "scan quality issue" "iterate quality issues") 10 scan_issue opts.

Definition gap_columns : list (string * expr) :=
  [col "gap_key"; col "symbol_id"; col "exchange"; col "data_type"; coalesce "period" (SText ""); col "gap_start"; col "gap_end";
   col "backfill_status"; coalesce "expected_interval_seconds" (SInt 0); col "last_observed_at"; col "metadata"].
Definition ListDataGaps (opts : ListOptions) : result error (PagedResponse DataGapDTO) :=
  let b := equals "backfill_status" (Category opts) (equals "period" (Period opts)
             (equals "exchange" (Exchange opts) (timeRange opts "gap_start" newAdminBuilder))) in
  run_list db b "data_gaps" id [direction (Direction opts) "gap_start"] gap_columns
    (MkMessages "query data gaps" "scan data gap" "iterate data gaps") 11 scan_gap opts.
End lists.

(** ** What the lists serve *)

Lemma scans_health : scans collector_health health_columns scan_health.
Proof. solve_scans. Qed.
Lemma scans_job : scans derivative_collection_jobs job_columns scan_job.
Proof. solve_scans. Qed.
Lemma scans_issue : scans data_quality_issues issue_columns scan_issue.
Proof. solve_scans. Qed.
Lemma scans_gap : scans data_gaps gap_columns scan_gap.
Proof. solve_scans. Qed.

(** The rows in the time range of a request. *)
Definition in_time (opts : ListOptions) (c : string) (r : gmap string sval) : bool :=
  bound_ok CGe (StartTime opts) (r !! c) && bound_ok CLe (EndTime opts) (r !! c).

(** A builder whose selection is known. *)
Definition builds (b : builder) (matches : gmap string sval -> bool) : Prop :=
  usable_builder b /\ forall r, selects b r = matches r.

Lemma timeRange_builds opts c : times_fit opts -> builds (timeRange opts c newAdminBuilder) (in_time opts c).
Proof.
  intros [Hs He]. unfold timeRange. assert (usable_builder newAdminBuilder) as H0 by (split; [constructor|done]).
  assert (usable_builder (add_bound newAdminBuilder c CGe (StartTime opts))) as H1 by by apply bound_usable.
  split; [by apply bound_usable|]. intros r. by rewrite !bound_selects by done.
Qed.

Lemma equals_builds b matches c v : builds b matches -> builds (equals c v b) (fun r => matches r && text_is v (r !! c)).
Proof.
  intros [Hu Hs]. split; [by apply interval_usable|]. intros r. unfold equals. by rewrite interval_selects, Hs by done.
Qed.

(** the administrative lists serve exactly the rows asked for, on every table that satisfies its
    schema: the page, sorted, of the rows in the time range whose exchange, status (the category of
    the request) and, for gaps, period are the ones named.  Rows with NULL columns are served with
    the defaults of the statement. *)
Theorem admin_lists_exact `{HeapOrder} db opts :
  typed_db db -> healthy_db db -> times_fit opts -> 0 <= Limit opts -> 0 <= Offset opts ->
  let rows c r := in_time opts c r && text_is (Exchange opts) (r !! "exchange") in
  serves db "collector_health" (rows "heartbeat_at") [direction (Direction opts) "heartbeat_at"] health_columns scan_health opts
    (ListCollectorHealth db opts) /\
  serves db "derivative_collection_jobs" (fun r => rows "scheduled_at" r && text_is (Category opts) (r !! "status"))
    [direction (Direction opts) "scheduled_at"; asc "priority"] job_columns scan_job opts (ListJobs db opts) /\
  serves db "data_quality_issues" (fun r => rows "last_seen_at" r && text_is (Category opts) (r !! "status"))
    [direction (Direction opts) "last_seen_at"] issue_columns scan_issue opts (ListQualityIssues db opts) /\
  serves db "data_gaps"
    (fun r => rows "gap_start" r && text_is (Period opts) (r !! "period") && text_is (Category opts) (r !! "backfill_status"))
    [direction (Direction opts) "gap_start"] gap_columns scan_gap opts (ListDataGaps db opts).
Proof.
  intros Ht Hh Hf Hl Ho rows.
  assert (forall c, builds (equals "exchange" (Exchange opts) (timeRange opts c newAdminBuilder)) (rows c)) as He.
  { intros c. apply equals_builds, timeRange_builds, Hf. }
  split_and!.
  - destruct (He "heartbeat_at") as [Hu Hs]. by eapply run_list_serves; [..|exact eq_refl|apply scans_health| |].
  - destruct (equals_builds _ _ "status" (Category opts) (He "scheduled_at")) as [Hu Hs].
    by eapply run_list_serves; [..|exact eq_refl|apply scans_job| |].
  - destruct (equals_builds _ _ "status" (Category opts) (He "last_seen_at")) as [Hu Hs].
    by eapply run_list_serves; [..|exact eq_refl|apply scans_issue| |].
  - destruct (equals_builds _ _ "backfill_status" (Category opts) (equals_builds _ _ "period" (Period opts) (He "gap_start"))) as [Hu Hs].
    by eapply run_list_serves; [..|exact eq_refl|apply scans_gap| |].
Qed.

(** ** The health of an exchange *)

(** What the list says of an exchange from the health rows of its collectors. *)
Definition health_of (ex : string) (rows : list (gmap string sval)) : ExchangeHealthDTO :=
  MkExchangeHealthDTO ex
    (exchangeHealthStatus (count (has_status ["unhealthy"; "stopped"]) rows) (count (has_status ["degraded"]) rows))
    (foldr Z.max (heartbeat (default ∅ (head rows))) (map heartbeat rows))
    (count (has_status ["healthy"]) rows) (count (has_status ["degraded"]) rows) (count (has_status ["unhealthy"; "stopped"]) rows).

Lemma health_row_scanned ex rows : scanned scan_exchange_health exchange_health_columns (health_row ex rows) (health_of ex rows).
Proof.
  unfold scanned, health_row, health_of. set (u := count (has_status ["unhealthy"; "stopped"]) rows).
  set (d := count (has_status ["degraded"]) rows). set (h := count (has_status ["healthy"]) rows).
  set (t := foldr Z.max _ _). clearbody u d h t. eexists. reflexivity.
Qed.

Lemma count_pos P rows : 0 < count P rows <-> exists r, r ∈ rows /\ P r = true.
Proof.
  unfold count. split.
  - intros H. destruct (filter (fun r => P r = true) rows) as [|r l] eqn:E; [simpl in H; lia|].
    assert (r ∈ filter (fun r => P r = true) rows) as Hr by (rewrite E; by left). apply list_elem_of_filter in Hr. naive_solver.
  - intros (r & Hr & HP). assert (r ∈ filter (fun r => P r = true) rows) as Hin by by apply list_elem_of_filter.
    destruct (filter _ _); [by apply not_elem_of_nil in Hin|]. simpl. lia.
Qed.

Lemma health_row_leb ex rows ex' rows' :
  order_leb [asc "exchange"] (health_row ex rows) (health_row ex' rows') = true -> str_leb ex ex' = true.
Proof.
  cbn [order_leb]. unfold key_leb. cbn [ok_column asc].
  assert (forall e l, health_row e l !! "exchange" = Some (SText e)) as E by done. rewrite !E. cbn. by intros [? _]%andb_true_iff.
Qed.

(** the health of the exchanges is a summary of the collectors: one entry for every exchange with a
    health row in the range (those without exchange under "unknown"), in the order of their names;
    its counts are the numbers of rows with each status, and it is unhealthy exactly when some
    collector is unhealthy or stopped, degraded when none is and some is degraded, and healthy
    otherwise, also when every collector is only starting. *)
Theorem exchange_health_summary `{HeapOrder} db opts :
  healthy_db db -> times_fit opts -> 0 <= Limit opts -> 0 <= Offset opts ->
  exists rows exs,
    rows ≡ₚ filter (fun r => in_time opts "heartbeat_at" r && text_is (Exchange opts) (r !! "exchange") = true) (db_rows db "collector_health") /\
    let group ex := filter (fun r => exchange_of r = ex) rows in
    let ds := map (fun ex => health_of ex (group ex)) exs in
    ListExchangeHealth db opts = Ok (MkPaged (slice opts ds) (PageMeta_of opts (reported (slice opts ds) (length ds)))) /\
    NoDup exs /\ sorted_by str_leb exs /\ (forall ex, ex ∈ exs <-> exists r, r ∈ rows /\ exchange_of r = ex) /\
    (forall ex, let some statuses := exists r, r ∈ group ex /\ has_status statuses r = true in
       let status := eh_Status (health_of ex (group ex)) in
       (status = "unhealthy" <-> some ["unhealthy"; "stopped"]) /\
       (status = "degraded" <-> ~ some ["unhealthy"; "stopped"] /\ some ["degraded"])).
Proof.
  intros Hh Hf Hl Ho. destruct (equals_builds _ _ "exchange" (Exchange opts) (timeRange_builds opts "heartbeat_at" Hf)) as [[Hw Ha] Hs].
  set (b := equals "exchange" (Exchange opts) (timeRange opts "heartbeat_at" newAdminBuilder)) in *.
  set (rows := filter (fun r => selects b r = true) (heap (db_rows db "collector_health"))).
  set (group := fun ex => filter (fun r => exchange_of r = ex) rows).
  assert (list_rows db b "collector_health" group_health [asc "exchange"] ≡ₚ map (fun ex => health_row ex (group ex)) (remove_dups (map exchange_of rows)))
    as Hp by apply stable_sort_perm.
  apply Permutation_map_inv in Hp as (exs & Hrows & Hexs).
  assert (NoDup exs) as Hnd by (rewrite <- Hexs; apply NoDup_remove_dups).
  exists rows, exs. split.
  { unfold rows. rewrite heap_perm. erewrite list_filter_iff; [done|]. intros r. simpl. by rewrite Hs. }
  cbv zeta. split_and!.
  - apply (run_list_ok db b "collector_health" group_health [asc "exchange"] exchange_health_columns _ 5 scan_exchange_health opts); try done.
    rewrite Hrows. clear. induction exs as [|ex exs IH]; constructor; [apply health_row_scanned|done].
  - done.
  - pose proof (list_rows_sorted db b "collector_health" group_health [asc "exchange"]) as Hsort. rewrite Hrows in Hsort.
    clear -Hsort. induction exs as [|ex exs IH]; [constructor|]. inversion Hsort as [|? ? H1 H2]; subst. constructor; [by apply IH|].
    apply Forall_forall. intros ex' Hex'. rewrite Forall_forall in H2. apply (health_row_leb ex (group ex) ex' (group ex')), H2. apply list_elem_of_fmap. by exists ex'.
  - intros ex. rewrite <- Hexs, elem_of_remove_dups, list_elem_of_fmap. naive_solver.
  - intros ex. pose proof (count_pos (has_status ["unhealthy"; "stopped"]) (group ex)) as H1.
    pose proof (count_pos (has_status ["degraded"]) (group ex)) as H2. cbn [health_of eh_Status]. unfold exchangeHealthStatus.
    fold (group ex). destruct (Z.ltb_spec 0 (count (has_status ["unhealthy"; "stopped"]) (group ex))).
    + split; [naive_solver|]. split; [done|]. naive_solver.
    + assert (~ exists r, r ∈ group ex /\ has_status ["unhealthy"; "stopped"] r = true) by (rewrite <- H1; lia).
      destruct (Z.ltb_spec 0 (count (has_status ["degraded"]) (group ex))).
      * split; [by split|]. naive_solver.
      * assert (~ exists r, r ∈ group ex /\ has_status ["degraded"] r = true) by (rewrite <- H2; lia).
        split; [by split|]. split; [done|]. tauto.
Qed.

(** ** A concrete database *)

Definition sample_health (ex : option string) (status : string) (t : Time) : gmap string sval :=
  list_to_map ([("service_name", SText "collector"); ("instance_id", SText "a"); ("status", SText status); ("heartbeat_at", STime t);
                ("metrics", SJson (JObject []))] ++ match ex with Some e => [("exchange", SText e)] | None => [] end)%list.
Definition health_db : Database :=
  one_table "collector_health" [sample_health (Some "okx") "healthy" 5; sample_health None "starting" 3; sample_health (Some "okx") "stopped" 9].

Lemma health_db_typed : typed_db health_db.
Proof.
  intros table sch Hs. unfold health_db, one_table. cbn [db_rows].
  destruct (String.eqb_spec table "collector_health") as [->|_]; [|constructor].
  injection Hs as <-. apply Forall_forall. intros r Hr. apply row_check_ok.
  repeat (apply elem_of_cons in Hr as [->|Hr]; [vm_cast_no_check (@eq_refl bool true)|]). by apply not_elem_of_nil in Hr.
Qed.

Lemma admin_lists_exact_witness :
  serves health_db "collector_health" (fun r => in_time (sample_page 2 1) "heartbeat_at" r && text_is "" (r !! "exchange"))
    [desc "heartbeat_at"] health_columns scan_health (sample_page 2 1) (ListCollectorHealth (H:=in_place) health_db (sample_page 2 1)).
Proof.
  exact (proj1 (admin_lists_exact (H:=in_place) health_db (sample_page 2 1) health_db_typed ltac:(done) ltac:(done)
                  ltac:(discriminate) ltac:(discriminate))).
Defined.

Lemma exchange_health_summary_witness : exists rows exs,
  let ds := map (fun ex => health_of ex (filter (fun r => exchange_of r = ex) rows)) exs in
  ListExchangeHealth (H:=in_place) health_db (sample_page 2 1)
  = Ok (MkPaged (slice (sample_page 2 1) ds) (PageMeta_of (sample_page 2 1) (reported (slice (sample_page 2 1) ds) (length ds)))).
Proof.
  destruct (exchange_health_summary (H:=in_place) health_db (sample_page 2 1) ltac:(done) ltac:(done) ltac:(discriminate) ltac:(discriminate))
    as (rows & exs & _ & H & _). exists rows, exs. exact H.
Defined.

Example sample_exchange_health : ListExchangeHealth (H:=in_place) health_db (sample_page 50 1)
  = Ok (MkPaged [MkExchangeHealthDTO "okx" "unhealthy" 9 1 0 1; MkExchangeHealthDTO "unknown" "healthy" 3 0 0 0] (MkPageMeta 1 50 2 1 false)).
Proof. vm_compute. reflexivity. Qed.
