(* ===== verification/PgText.v ===== *)
(** * Text and float operators of the database that the overview uses

    [LIKE] patterns, and the decimal text of a float argument. *)

From S2P Require Import Prelude GoString GoFloat.
From Stdlib Require Import SpecFloat.

(** ** [ILIKE]: [%] is any text, [_] one character, a backslash takes the next byte literally; letters
    are compared without case (for ASCII letters). *)

(** The rest after one UTF-8 character. *)
Fixpoint skip_continuation (l : bytes) : bytes :=
  match l with c :: l' => if (128 <=? Z_of_byte c) && (Z_of_byte c <? 192) then skip_continuation l' else l | [] => [] end.

Fixpoint like (p : bytes) : bytes -> bool :=
  match p with
  | [] => fun s => match s with [] => true | _ => false end
  | c :: p' =>
    if Z_of_byte c =? 37 then
      (fix any s := like p' s || match s with [] => false | _ :: s' => any s' end)
    else if Z_of_byte c =? 95 then
      fun s => match s with [] => false | _ :: s' => like p' (skip_continuation s') end
    else if Z_of_byte c =? 92 then
      match p' with
      | [] => fun _ => false
      | e :: p'' => fun s => match s with x :: s' => Ascii.eqb x e && like p'' s' | [] => false end
      end
    else fun s => match s with x :: s' => Ascii.eqb x c && like p' s' | [] => false end
  end.

Definition ILIKE (s pattern : string) : bool := like (to_bytes (ToLower pattern)) (to_bytes (ToLower s)).

(** A search text without the special bytes matches the texts that contain it. *)
Definition plain (c : Ascii.ascii) : Prop := Z_of_byte c <> 37 /\ Z_of_byte c <> 95 /\ Z_of_byte c <> 92.

Lemma like_any p s : like (byte_of_Z 37 :: p) s = true <-> exists a b, s = (a ++ b)%list /\ like p b = true.
Proof.
  change (like (byte_of_Z 37 :: p)) with (fix any s := like p s || match s with [] => false | _ :: s' => any s' end).
  induction s as [|c s IH].
  - rewrite orb_false_r. split; [intros H; by exists [], []|]. intros (a & b & E & H). symmetry in E. by apply app_eq_nil in E as [-> ->].
  - rewrite orb_true_iff, IH. split.
    + intros [H|(a & b & -> & H)]; [by exists [], (c :: s)|by exists (c :: a), b].
    + intros (a & b & E & H). destruct a as [|x a]; simplify_list_eq; [by left|right; by exists a, b].
Qed.

Lemma like_plain k p s : Forall plain k -> like (k ++ p) s = true <-> exists b, s = (k ++ b)%list /\ like p b = true.
Proof.
  intros Hk. revert s. induction Hk as [|c k [H1 [H2 H3]] _ IH]; intros s; cbn [app].
  - naive_solver.
  - cbn [like]. rewrite (proj2 (Z.eqb_neq _ _) H1), (proj2 (Z.eqb_neq _ _) H2), (proj2 (Z.eqb_neq _ _) H3).
    destruct s as [|x s]; [split; [done|]; intros (b & E & _); done|]. rewrite andb_true_iff, Ascii.eqb_eq, IH. split.
    + intros [-> (b & -> & H)]. by exists b.
    + intros (b & E & H). simplify_list_eq. split; [done|]. by exists b.
Qed.

Lemma to_bytes_ToLower s : to_bytes (ToLower s) = map lower_byte (to_bytes s).
Proof. apply to_of_bytes. Qed.

(** [s ILIKE '%' || search || '%']: the search text occurs in [s], without regard to case. *)
Lemma ILIKE_search s search : Forall plain (to_bytes search) ->
  ILIKE s ("%" +:+ search +:+ "%") = true <-> exists a b, ToLower s = a +:+ ToLower search +:+ b.
Proof.
  intros Hp. unfold ILIKE. rewrite (to_bytes_ToLower ("%" +:+ _)), !to_bytes_app, !map_app.
  change (map lower_byte (to_bytes "%")) with [byte_of_Z 37]. cbn [app]. rewrite like_any.
  assert (Forall plain (map lower_byte (to_bytes search))) as Hl.
  { clear -Hp. induction Hp as [|c l [H1 [H2 H3]] _ IH]; constructor; [|done]. unfold plain, lower_byte.
    destruct ((65 <=? Z_of_byte c) && (Z_of_byte c <=? 90)) eqn:E; [|done]. bool_to_prop.
    rewrite Z_of_byte_of_Z by lia. lia. }
  setoid_rewrite (like_plain (map lower_byte (to_bytes search))); [|done].
  split.
  - intros (a & b & E & c & -> & _). exists (of_bytes a), (of_bytes c). apply to_bytes_inj.
    by rewrite !to_bytes_app, !to_of_bytes, E, to_bytes_ToLower.
  - intros (a & b & E). apply (f_equal to_bytes) in E. rewrite !to_bytes_app, (to_bytes_ToLower search) in E.
    exists (to_bytes a), (map lower_byte (to_bytes search) ++ to_bytes b)%list. split; [done|].
    exists (to_bytes b). split; [done|]. apply (like_any []). exists (to_bytes b), []. by rewrite app_nil_r.
Qed.

Example ilike_1 : ILIKE "BTCUSDT" "%btc%" = true /\ ILIKE "ETHUSDT" "%btc%" = false /\ ILIKE "BTCUSDT" "%b_c%" = true
  /\ ILIKE "BTC_USDT" "%c\_u%" = true /\ ILIKE "BTCXUSDT" "%c\_u%" = false.
Proof. by vm_compute. Qed.

(** ** The decimal text of a float ([strconv.FormatFloat(f, 'f', -1, 64)]): the fewest digits that are
    read back as the same float, the nearest such decimal. *)

(** [10^(k-1) <= num/den < 10^k], from an estimate by binary logarithms. *)
Definition decimal_exponent (num den : Z) : Z :=
  let k := (Z.log2 num - Z.log2 den) * 30103 / 100000 in
  let above j := if 0 <=? j then num <? den * 10 ^ j else num * 10 ^ (- j) <? den in
  if above (k - 1) then k - 1 else if above k then k else if above (k + 1) then k + 1 else k + 2.

(** [num/den] rounded to an integer multiple of [10^e], half to even. *)
Definition round_decimal (num den e : Z) : Z :=
  let '(a, b) := if 0 <=? e then (num, den * 10 ^ e) else (num * 10 ^ (- e), den) in
  let q := a / b in let r := a mod b in
  if 2 * r <? b then q else if b <? 2 * r then q + 1 else if Z.even q then q else q + 1.

Fixpoint shortest_from (p : Z) (n : nat) (f : float64) (num den k : Z) : Z * Z :=
  let m := round_decimal num den (k - p) in
  match n with
  | O => (m, k - p)
  | S n' => if match f64_dec m (k - p), f with
                 | S754_finite _ a e, S754_finite _ b e' => (Z.pos a =? Z.pos b) && (e =? e')
                 | _, _ => false
                 end
            then (m, k - p) else shortest_from (p + 1) n' f num den k
  end.

(** A float argument as the numeric the server compares with: [m * 10^e], or one of the special values. *)
Inductive decimal := Dec (m e : Z) | DecInf (neg : bool) | DecNaN.

Definition decimal_of (f : float64) : decimal :=
  match f with
  | S754_nan => DecNaN
  | S754_infinity s => DecInf s
  | S754_zero _ => Dec 0 0
  | S754_finite s m e =>
    let '(num, den) := if 0 <=? e then (Z.pos m * 2 ^ e, 1) else (Z.pos m, 2 ^ (- e)) in
    let '(d, e10) := shortest_from 1 16 (S754_finite false m e) num den (decimal_exponent num den) in
    Dec (if s then - d else d) e10
  end.

Example decimal_1 : map decimal_of [f64_dec 1 (-1); f64_dec 100 0; f64_dec 123456789 (-3); f64_dec (-25) (-4); f64_dec 1 22]
  = [Dec 1 (-1); Dec 1 2; Dec 123456789 (-3); Dec (-25) (-4); Dec 1 22].
Proof. vm_compute. reflexivity. Qed.
Example decimal_2 : decimal_of (fdiv (f64_of_Z 1) (f64_of_Z 3)) = Dec 3333333333333333 (-16) /\
  decimal_of (fadd (f64_dec 1 (-1)) (f64_dec 2 (-1))) = Dec 30000000000000004 (-17).
Proof. by vm_compute. Qed.
