(* ===== verification/ApiOverview.v ===== *)
(** * Overview, symbols and symbol detail ([internal/api/derivatives/repository.go], [freshness] of [scan.go])

    The overview joins the active symbols with their newest aggregate.  A joined row has the columns
    of the symbol under ["s."] and those of the aggregate under ["latest."]. *)

From S2P Require Import Prelude GoString GoTime GoFloat GoDuration GoError GoJson ApiQuery ApiStore ApiSchema ApiSeries PgText.

(** ** Data ([dto.go]) *)

Record SymbolDTO := MkSymbolDTO {
  sd_ID : Z; sd_Symbol : string; sd_BaseAsset : string; sd_QuoteAsset : string; sd_MarketType : string; sd_Category : string;
  sd_CmcRank : Z; sd_IsActive : bool; sd_Markets : RawMessage }.

Record FreshnessDTO := MkFreshness { fr_SnapshotTime : Time; fr_AgeSeconds : Z; fr_Status : string }.

Record AggregateDTO := MkAggregateDTO {
  ag_SnapshotTime : Time; ag_Price : option float64; ag_PriceAvg : option float64; ag_PriceWeighted : option float64;
  ag_TotalVolume24h : option float64; ag_TotalQuoteVolume24h : option float64; ag_TotalOpenInterest : option float64;
  ag_TotalOpenInterestValue : option float64; ag_AvgFundingRate : option float64; ag_TotalCVD : option float64;
  ag_TotalLongLiquidationUSD : option float64; ag_TotalShortLiquidationUSD : option float64; ag_TotalLiquidationUSD : option float64;
  ag_AvgBasisPercent : option float64; ag_AvgOrderbookImbalancePercent : option float64; ag_ExchangeCount : Z;
  ag_AvailableExchanges : RawMessage; ag_RawByExchange : RawMessage; ag_WindowMetrics : RawMessage; ag_AnomalyFlags : RawMessage;
  ag_Quality : RawMessage; ag_Freshness : FreshnessDTO }.

Record OverviewItem := MkOverviewItem { ov_Symbol : SymbolDTO; ov_Market : AggregateDTO }.

(** ** Freshness; [now] is the clock. *)
Definition freshness (now snapshotTime : Time) : FreshnessDTO :=
  if IsZero snapshotTime then MkFreshness 0 0 "unknown" else
  let age := f64_to_int64 (Seconds (Sub now snapshotTime)) in
  let status := if age <? 0 then "future"
                else if f64_to_int64 (Seconds (15 * Minute)) <? age then "stale"
                else if f64_to_int64 (Seconds (5 * Minute)) <? age then "lagging" else "fresh" in
  MkFreshness snapshotTime age status.

Definition minPositive (value fallback : Z) : Z :=
  if value <=? 0 then fallback else if fallback <? value then fallback else value.

(** ** The symbols table, which the migrations only refer to *)

Definition symbols : list (string * (coltype * bool)) :=
  [req TInt "id"; req TText "symbol"; opt TText "base_asset"; opt TText "quote_asset"; opt TText "market_type"; opt TInt "cmc_rank";
   req TBool "is_active"; opt TJson "markets"].

(** ** One-row queries *)

(** [QueryRowContext(...).Scan]: the first row, [None] for [sql.ErrNoRows]; a fault of the iteration
    matters only before the first row. *)
Definition query_row {A} (f : fault) (rows : list (gmap string sval)) (cols : list (string * expr)) (n : nat) (s : scanner A)
    : result error (option A) :=
  match query_error f with
  | Some err => Err err
  | None =>
    match iter_error f, head (match iter_error f with Some (k, _) => take k rows | None => rows end) with
    | _, Some r => let! a := Scan n s (project cols r) in Ok (Some a)
    | Some (_, err), None => Err err
    | None, None => Ok None
    end
  end.

(** ** [ResolveSymbol] *)

Definition same_lower (c : string) (symbol : string) (r : gmap string sval) : bool :=
  match r !! c with Some (SText s) => (ToLower s =? ToLower symbol)%string | _ => false end.

Definition symbol_columns : list (string * expr) :=
  [col "id"; col "symbol"; col "base_asset"; col "quote_asset"; col "market_type"; col "cmc_rank"; col "is_active";
   ("coalesce", ECoalesce "markets" (SJson (JArray [])))].

Definition symbol_dto (id_ : Z) (sym : string) (base quote mtype : option string) (rank : option Z) (active : bool) (markets : RawMessage)
    : SymbolDTO :=
  MkSymbolDTO id_ sym (default "" base) (default "" quote) (default "" mtype) (default "" mtype) (default 0 rank) active
    (ensureJSONArray markets).

Definition scan_symbol : scanner SymbolDTO :=
  i ← column (to_int "int64"); sym ← column to_string; base ← column (nullable to_string); quote ← column (nullable to_string);
  mtype ← column (nullable to_string); rank ← column (nullable (to_int "int64")); active ← column to_bool; markets ← column to_bytes_dest;
  mret (symbol_dto i sym base quote mtype rank active markets).

(** [ORDER BY is_active DESC, cmc_rank ASC NULLS LAST, symbol ASC]. *)
Definition resolve_order : list order_key := [desc "is_active"; asc "cmc_rank"; asc "symbol"].

Section repository.
Context `{HeapOrder} (db : Database).

Definition resolve_rows (symbol : string) : list (gmap string sval) :=
  stable_sort (order_leb resolve_order)
    (filter (fun r => same_lower "symbol" symbol r || same_lower "base_asset" symbol r = true) (heap (db_rows db "symbols"))).

Definition ResolveSymbol (symbol : string) : result error (SymbolDTO * Z) :=
  let symbol := TrimSpace symbol in
  if (symbol =? "")%string then Err ErrNotFound else
  match query_row (db_fault db "symbols") (take 1 (resolve_rows symbol)) symbol_columns 8 scan_symbol with
  | Ok None => Err ErrNotFound
  | Err err => Err (wrap "resolve symbol" err)
  | Ok (Some dto) => Ok (dto, sd_ID dto)
  end.

(** ** [LatestAggregate] *)

Definition aggregate_columns : list (string * expr) :=
  map col ["snapshot_time"; "price_avg"; "price_weighted"; "total_volume_24h"; "total_quote_volume_24h"; "total_open_interest";
           "total_open_interest_value"; "avg_funding_rate"; "total_cvd"; "total_long_liquidation_usd"; "total_short_liquidation_usd";
           "total_liquidation_usd"; "avg_basis_percent"; "avg_orderbook_imbalance_percent"; "exchange_count"; "available_exchanges";
           "raw_by_exchange"; "window_metrics"; "anomaly_flags"; "quality_metadata"].

Definition scan_aggregate (now : Time) : scanner AggregateDTO :=
  t ← column to_time; avg ← column floatDest; weighted ← column floatDest; vol ← column floatDest; qvol ← column floatDest;
  oi ← column floatDest; oiv ← column floatDest; fund ← column floatDest; cvd ← column floatDest; ll ← column floatDest;
  sl ← column floatDest; tl ← column floatDest; basis ← column floatDest; imb ← column floatDest; n ← column (to_int "int");
  exs ← column to_raw; raw ← column to_raw; win ← column to_raw; flags ← column to_raw; qual ← column to_raw;
  mret (MkAggregateDTO t (firstFloat [weighted; avg]) avg weighted vol qvol oi oiv fund cvd ll sl tl basis imb n
          (ensureJSON exs) (ensureJSON raw) (ensureJSON win) (ensureJSONArray flags) (ensureJSON qual) (freshness now t)).

Definition aggregate_rows (symbolID : Z) : list (gmap string sval) :=
  stable_sort (order_leb [desc "snapshot_time"])
    (filter (fun r => compares CEq (r !! "symbol_id") (Some (AInt symbolID)) = true) (heap (db_rows db "derivative_aggregated_snapshots"))).

Definition LatestAggregate (now : Time) (symbolID : Z) : result error (option AggregateDTO) :=
  match query_row (db_fault db "derivative_aggregated_snapshots") (take 1 (aggregate_rows symbolID)) aggregate_columns 20 (scan_aggregate now) with
  | Ok dto => Ok dto
  | Err err => Err (wrap "query latest aggregate" err)
  end.
End repository.

(** ** [overviewSQL] *)

(** The conditions that are not a comparison of a column. *)
Inductive condition :=
| Compare (c : clause)
| Search3 (arg : Z)
| AtLeast (column : string) (arg : Z)
| OnExchange (arg : Z).

Definition overviewSort (sort : string) : string :=
  if (sort =? "symbol")%string then "s.symbol" else
  if (sort =? "rank")%string || (sort =? "cmc_rank")%string then "s.cmc_rank" else
  if (sort =? "volume")%string then "latest.total_volume_24h" else
  if (sort =? "oi")%string || (sort =? "open_interest")%string then "latest.total_open_interest" else
  if (sort =? "funding")%string then "latest.avg_funding_rate" else
  if (sort =? "price")%string then "COALESCE(latest.price_weighted, latest.price_avg)" else
  if (sort =? "freshness")%string then "latest.snapshot_time" else "s.cmc_rank".

(** [addArg] and the conditions written so far. *)
Record overview := MkOverview { o_args : list any; o_conds : list condition }.
Definition add_cond (o : overview) (value : any) (c : Z -> condition) : overview :=
  let args := (o_args o ++ [value])%list in MkOverview args (o_conds o ++ [c (Z.of_nat (length args))])%list.
Definition when {A} (x : option A) (f : A -> overview -> overview) (o : overview) : overview :=
  match x with Some a => f a o | None => o end.
Definition non_empty (s : string) : option string := if negb (s =? "")%string then Some s else None.

Definition overviewSQL (opts : ListOptions) : overview :=
  let o := MkOverview [] [] in
  let o := when (non_empty (Search opts)) (fun s o => add_cond o (AText ("%" +:+ s +:+ "%")) Search3) o in
  let o := when (non_empty (Category opts)) (fun s o => add_cond o (AText s) (fun n => Compare (MkClause "s.market_type" CEq n))) o in
  let o := when (non_empty (Exchange opts)) (fun s o => add_cond o (AText s) OnExchange) o in
  let o := when (MinVolume opts) (fun f o => add_cond o (AFloat f) (AtLeast "latest.total_volume_24h")) o in
  let o := when (MinOI opts) (fun f o => add_cond o (AFloat f) (AtLeast "latest.total_open_interest")) o in
  let o := when (RankMin opts) (fun z o => add_cond o (AInt z) (fun n => Compare (MkClause "s.cmc_rank" CGe n))) o in
  let o := when (RankMax opts) (fun z o => add_cond o (AInt z) (fun n => Compare (MkClause "s.cmc_rank" CLe n))) o in
  o.

(** [ORDER BY key DIRECTION NULLS LAST, s.symbol ASC]. *)
Definition overview_order (opts : ListOptions) : list order_key :=
  [MkOrder (overviewSort (Sort opts)) (ToUpper (Direction opts) =? "DESC")%string true; asc "s.symbol"].

(** *** Evaluation *)

Definition text_at (r : gmap string sval) (c : string) : option string := match r !! c with Some (SText s) => Some s | _ => None end.
Definition ilike_at (pattern : string) (r : gmap string sval) (c : string) : bool := from_option (fun s => ILIKE s pattern) false (text_at r c).

(** [numeric >= float argument]. *)
Definition at_least (v : option sval) (f : float64) : bool :=
  match v, decimal_of f with
  | Some (SNum n s), Dec m e =>
    if 0 <=? e then m * 10 ^ e * 10 ^ Z.of_nat s <=? n else m * 10 ^ Z.of_nat s <=? n * 10 ^ (- e)
  | Some (SNum _ _), DecInf neg => neg
  | Some SNaN, _ => true
  | _, _ => false
  end.

(** [market->>'exchange']; a value that is not text is not the name of an exchange. *)
Definition market_exchange (m : json) : option string :=
  match m with
  | JObject fields => match find (fun x => (fst x =? "exchange")%string) fields with Some (_, JString s) => Some s | _ => None end
  | _ => None
  end.

(** The elements of the markets column; [None] is the error of [jsonb_array_elements]. *)
Definition markets_of (r : gmap string sval) : option (list json) :=
  match r !! "s.markets" with None => Some [] | Some (SJson (JArray l)) => Some l | Some _ => None end.
Definition on_exchange (ex : string) (r : gmap string sval) : bool :=
  existsb (fun m => bool_decide (ToLower <$> market_exchange m = Some ex)) (default [] (markets_of r)).

Definition condition_holds (args : list any) (r : gmap string sval) (c : condition) : bool :=
  match c with
  | Compare c => clause_holds args r c
  | Search3 n => match placeholder args n with
                 | Some (AText p) => ilike_at p r "s.symbol" || ilike_at p r "s.base_asset" || ilike_at p r "s.quote_asset"
                 | _ => false end
  | AtLeast c n => match placeholder args n with Some (AFloat f) => at_least (r !! c) f | _ => false end
  | OnExchange n => match placeholder args n with Some (AText ex) => on_exchange ex r | _ => false end
  end.

Definition prefixed (p : string) (r : gmap string sval) : gmap string sval := kmap (String.append p) r.

(** [s LEFT JOIN latest], with the computed sort key. *)
Definition joined (s : gmap string sval) (latest : option (gmap string sval)) : gmap string sval :=
  let price := match latest with Some a => match a !! "price_weighted" with Some v => Some v | None => a !! "price_avg" end | None => None end in
  prefixed "s." s ∪ prefixed "latest." (default ∅ latest) ∪
  match price with Some v => {[ "COALESCE(latest.price_weighted, latest.price_avg)" := v ]} | None => ∅ end.

Definition overview_columns : list (string * expr) :=
  ([col "s.id"; col "s.symbol"; col "s.base_asset"; col "s.quote_asset"; col "s.market_type"; col "s.cmc_rank"; col "s.is_active";
    ("coalesce", ECoalesce "s.markets" (SJson (JArray []))); col "latest.snapshot_time"] ++
   map col ["latest.price_avg"; "latest.price_weighted"; "latest.total_volume_24h"; "latest.total_quote_volume_24h";
            "latest.total_open_interest"; "latest.total_open_interest_value"; "latest.avg_funding_rate"; "latest.total_cvd";
            "latest.total_long_liquidation_usd"; "latest.total_short_liquidation_usd"; "latest.total_liquidation_usd";
            "latest.avg_basis_percent"; "latest.avg_orderbook_imbalance_percent"] ++
   [("coalesce", ECoalesce "latest.exchange_count" (SInt 0)); ("coalesce", ECoalesce "latest.available_exchanges" (SJson (JArray [])));
    ("coalesce", ECoalesce "latest.raw_by_exchange" (SJson (JObject []))); ("coalesce", ECoalesce "latest.window_metrics" (SJson (JObject [])));
    ("coalesce", ECoalesce "latest.anomaly_flags" (SJson (JArray []))); ("coalesce", ECoalesce "latest.quality_metadata" (SJson (JObject [])))])%list.

Definition scan_overview (now : Time) : scanner OverviewItem :=
  i ← column (to_int "int64"); sym ← column to_string; base ← column (nullable to_string); quote ← column (nullable to_string);
  mtype ← column (nullable to_string); rank ← column (nullable (to_int "int64")); active ← column to_bool; markets ← column to_bytes_dest;
  t ← column (nullable to_time); avg ← column floatDest; weighted ← column floatDest; vol ← column floatDest; qvol ← column floatDest;
  oi ← column floatDest; oiv ← column floatDest; fund ← column floatDest; cvd ← column floatDest; ll ← column floatDest;
  sl ← column floatDest; tl ← column floatDest; basis ← column floatDest; imb ← column floatDest; n ← column (to_int "int");
  exs ← column to_raw; raw ← column to_raw; win ← column to_raw; flags ← column to_raw; qual ← column to_raw;
  let time := default 0 t in
  let price := match t with Some _ => firstFloat [weighted; avg] | None => None end in
  mret (MkOverviewItem (symbol_dto i sym base quote mtype rank active markets)
          (MkAggregateDTO time price avg weighted vol qvol oi oiv fund cvd ll sl tl basis imb n
             (ensureJSONArray exs) (ensureJSON raw) (ensureJSON win) (ensureJSONArray flags) (ensureJSON qual) (freshness now time))).

Section overview.
Context `{HeapOrder} (db : Database).

Definition id_of (s : gmap string sval) : option Z := match s !! "id" with Some (SInt z) => Some z | _ => None end.
Definition is_active (s : gmap string sval) : bool := match s !! "is_active" with Some (SBool b) => b | _ => false end.

(** [SELECT DISTINCT ON (symbol_id) ... ORDER BY symbol_id, snapshot_time DESC], looked up by symbol. *)
Definition latest_of (s : gmap string sval) : option (gmap string sval) := id_of s ≫= fun i => head (aggregate_rows db i).

Definition joined_rows : list (gmap string sval) :=
  map (fun s => joined s (latest_of s)) (filter (fun s => is_active s = true) (heap (db_rows db "symbols"))).

Definition names_exchange (c : condition) : bool := match c with OnExchange _ => true | _ => false end.
Definition others_hold (o : overview) (r : gmap string sval) : bool :=
  forallb (fun c => names_exchange c || condition_holds (o_args o) r c) (o_conds o).

(** The rows of the statement.  With a condition on the exchange it fails on a symbol, not ruled out by
    the other conditions, whose markets are not an array. *)
Definition overview_rows (opts : ListOptions) : result error (list (gmap string sval)) :=
  let o := overviewSQL opts in
  if existsb names_exchange (o_conds o) && existsb (fun r => others_hold o r && bool_decide (markets_of r = None)) joined_rows
  then Err (ErrorString "pq: cannot extract elements from an object")
  else Ok (stable_sort (order_leb (overview_order opts))
             (filter (fun r => forallb (condition_holds (o_args o) r) (o_conds o) = true) joined_rows)).

Definition list_overview (now : Time) (m : messages) (opts : ListOptions) : result error (PagedResponse OverviewItem) :=
  let o := overviewSQL opts in
  let n := Z.of_nat (length (o_args o)) in
  list_page (respond (db_fault db "symbols") (o_args o ++ [AInt (Limit opts); AInt (Offset opts)])%list (n + 1) (n + 2)
               (overview_rows opts) overview_columns) m 28 (scan_overview now) opts.

Definition ListOverview (now : Time) : ListOptions -> result error (PagedResponse OverviewItem) :=
  list_overview now (MkMessages "query derivative overview" "scan overview" "iterate derivative overview").
Definition ListSymbols (now : Time) : ListOptions -> result error (PagedResponse OverviewItem) :=
  list_overview now (MkMessages "query derivative symbols" "scan overview" "iterate derivative symbols").

(** ** [GetSymbolDetail] *)

Record SymbolDetail := MkDetail {
  dt_Symbol : SymbolDTO; dt_Market : option AggregateDTO; dt_PerExchange : RawMessage; dt_Klines : list KlineDTO;
  dt_OpenInterest : list OpenInterestDTO; dt_Funding : list FundingDTO; dt_LongShortRatio : list LongShortRatioDTO;
  dt_TakerFlow : list TakerFlowDTO; dt_CVD : list CVDDTO; dt_Liquidations : list LiquidationAggregateDTO; dt_Basis : list BasisDTO;
  dt_OrderbookImbalance : list OrderbookImbalanceDTO; dt_ExchangeDivergence : list ExchangeDivergenceDTO }.

Definition with_limit (opts : ListOptions) (limit page : Z) : ListOptions :=
  MkOptions (Exchange opts) (Search opts) (Category opts) (Interval opts) (Period opts) (StartTime opts) (EndTime opts) limit page
    (Sort opts) (Direction opts) (MinVolume opts) (MinOI opts) (RankMin opts) (RankMax opts).

(** [list, _ := r]: nil when the call fails. *)
Definition ignore {A} (r : result error (list A)) : list A := match r with Ok l => l | Err _ => [] end.

Definition GetSymbolDetail (now : Time) (symbol : string) (opts : ListOptions) : result error SymbolDetail :=
  let! resolved := ResolveSymbol db symbol in
  let symbolID := snd resolved in
  let! aggregate := LatestAggregate db now symbolID in
  let opts := with_limit opts (minPositive (Limit opts) 100) 1 in
  Ok (MkDetail (fst resolved) aggregate (from_option ag_RawByExchange RawEmpty aggregate)
        (ignore (ListKlines db symbolID opts)) (ignore (ListOpenInterest db symbolID opts)) (ignore (ListFunding db symbolID opts))
        (ignore (data_of (ListLongShortRatioPage db symbolID opts))) (ignore (ListTakerFlow db symbolID opts))
        (ignore (ListCVD db symbolID opts)) (ignore (ListLiquidations db symbolID opts))
        (ignore (data_of (ListBasisPage db symbolID opts))) (ignore (data_of (ListOrderbookImbalancePage db symbolID opts)))
        (ignore (ListExchangeDivergence db symbolID opts))).
End overview.

(** ** Resolving a symbol *)

Lemma scans_symbol : scans symbols symbol_columns scan_symbol.
Proof. solve_scans. Qed.

Lemma Scan_scans {A} sch cols n (s : scanner A) r : scans sch cols s -> length cols = n -> row_ok sch r ->
  exists a i, s 0 (project cols r) = Ok (a, (i, [])) /\ Scan n s (project cols r) = Ok a.
Proof.
  intros Hs Hn Hr. destruct (Hs r 0 Hr) as (a & i & Ha). exists a, i. split; [done|]. unfold Scan.
  unfold project at 1. rewrite length_map, Hn, Nat.eqb_refl. cbn [negb]. by rewrite Ha.
Qed.

(** The tables of the overview are typed too. *)
Definition typed_symbols (db : Database) : Prop := Forall (row_ok symbols) (db_rows db "symbols").

(** Without faults the lookup finds the first matching row or nothing. *)
Lemma ResolveSymbol_first `{HeapOrder} db name : typed_symbols db -> db_fault db "symbols" = no_fault -> TrimSpace name <> "" ->
  match resolve_rows db (TrimSpace name) with
  | [] => ResolveSymbol db name = Err ErrNotFound
  | r :: _ => exists dto i, ResolveSymbol db name = Ok (dto, sd_ID dto) /\ scan_symbol 0 (project symbol_columns r) = Ok (dto, (i, []))
  end.
Proof.
  intros Ht Hf Hne. unfold ResolveSymbol. rewrite (proj2 (String.eqb_neq _ _) Hne). unfold query_row. rewrite Hf.
  cbn [query_error iter_error no_fault]. destruct (resolve_rows db (TrimSpace name)) as [|r rows] eqn:E; cbn [take head]; [done|].
  destruct (Scan_scans symbols symbol_columns 8 scan_symbol r scans_symbol eq_refl) as (dto & i & Hs1 & Hs2).
  { eapply Forall_forall; [exact Ht|]. assert (r ∈ resolve_rows db (TrimSpace name)) as Hr by (rewrite E; by left).
    unfold resolve_rows in Hr. rewrite elem_of_stable_sort, list_elem_of_filter, heap_perm in Hr. by destruct Hr. }
  exists dto, i. by rewrite Hs2.
Qed.

Lemma ResolveSymbol_ok `{HeapOrder} db name : typed_symbols db -> db_fault db "symbols" = no_fault ->
  match ResolveSymbol db name with Ok _ => True | Err e => e = ErrNotFound end.
Proof.
  intros Ht Hf. destruct (decide (TrimSpace name = "")) as [E|E].
  - unfold ResolveSymbol. by rewrite E.
  - pose proof (ResolveSymbol_first db name Ht Hf E) as H1. destruct (resolve_rows db (TrimSpace name)) as [|r l]; [by rewrite H1|].
    by destruct H1 as (dto & i & -> & _).
Qed.

(** a symbol is resolved to the best match.  Without faults, the name (trimmed) matches the symbols
    whose symbol or base asset equals it without regard to case; the answer is "not found" exactly
    when the name is blank or nothing matches, and otherwise the scanned row that comes first among
    the matches: active ones before inactive, then by rank with unranked last, then by symbol. *)
Theorem resolve_symbol_best `{HeapOrder} db name :
  typed_symbols db -> db_fault db "symbols" = no_fault ->
  let symbol := TrimSpace name in
  let matches r := r ∈ db_rows db "symbols" /\ same_lower "symbol" symbol r || same_lower "base_asset" symbol r = true in
  (ResolveSymbol db name = Err ErrNotFound <-> symbol = "" \/ forall r, ~ matches r) /\
  (ResolveSymbol db name <> Err ErrNotFound ->
   exists r dto i, ResolveSymbol db name = Ok (dto, sd_ID dto) /\ scan_symbol 0 (project symbol_columns r) = Ok (dto, (i, [])) /\
     matches r /\ forall x, matches x -> order_leb resolve_order r x = true).
Proof.
  intros Ht Hf symbol matches.
  assert (forall r, r ∈ resolve_rows db symbol <-> matches r) as Hin.
  { intros r. unfold resolve_rows, matches. rewrite elem_of_stable_sort, list_elem_of_filter, heap_perm. tauto. }
  assert (sorted_by (order_leb resolve_order) (resolve_rows db symbol)) as Hsort
    by (apply stable_sort_sorted; [apply order_leb_total|apply order_leb_trans]).
  destruct (decide (symbol = "")) as [E|Hne].
  { assert (ResolveSymbol db name = Err ErrNotFound) as -> by (unfold ResolveSymbol; fold symbol; by rewrite E).
    split; [split; [by left|done]|done]. }
  pose proof (ResolveSymbol_first db name Ht Hf Hne) as H1. fold symbol in H1.
  destruct (resolve_rows db symbol) as [|r rows] eqn:E.
  - rewrite H1. split; [|done]. split; [intros _; right; intros r Hr%Hin; by apply not_elem_of_nil in Hr|done].
  - destruct H1 as (dto & i & -> & Hs). assert (matches r) as Hr by (apply Hin; by left).
    split; [split; [done|intros [?|Hno]; [done|by destruct (Hno r)]]|]. intros _.
    exists r, dto, i. split_and!; try done. intros x Hx%Hin. inversion Hsort as [|? ? _ Hle]; subst.
    apply elem_of_cons in Hx as [->|Hx]; [apply order_leb_refl|]. rewrite Forall_forall in Hle. by apply Hle.
Qed.

(** ** Joined rows *)

Lemma prefixed_lookup p r c : prefixed p r !! (p +:+ c) = r !! c.
Proof. apply (lookup_kmap (String.append p)). Qed.

Lemma prefixed_other p r k : (forall c, k <> p +:+ c) -> prefixed p r !! k = None.
Proof. intros Hk. apply eq_None_not_Some. intros [v Hv]. apply lookup_kmap_Some in Hv as (c & -> & _); [|apply _]. by apply (Hk c). Qed.

Lemma joined_symbol s l c : joined s l !! ("s." +:+ c) = s !! c.
Proof.
  unfold joined. rewrite !lookup_union, prefixed_lookup, prefixed_other by done.
  assert ((match match l with Some a => match a !! "price_weighted" with Some v => Some v | None => a !! "price_avg" end | None => None end with
    | Some v => {[ "COALESCE(latest.price_weighted, latest.price_avg)" := v ]} | None => ∅ end : gmap string sval) !! ("s." +:+ c) = None) as ->.
  { case_match; [|done]. by apply lookup_singleton_ne. }
  by destruct (s !! c).
Qed.

Lemma joined_latest s l c : joined s l !! ("latest." +:+ c) = l ≫= fun a => a !! c.
Proof.
  unfold joined. rewrite !lookup_union, prefixed_lookup, (prefixed_other "s.") by done.
  assert ((match match l with Some a => match a !! "price_weighted" with Some v => Some v | None => a !! "price_avg" end | None => None end with
    | Some v => {[ "COALESCE(latest.price_weighted, latest.price_avg)" := v ]} | None => ∅ end : gmap string sval) !! ("latest." +:+ c) = None) as ->.
  { case_match; [|done]. by apply lookup_singleton_ne. }
  destruct l as [a|]; simpl; [by destruct (a !! c)|by rewrite lookup_empty].
Qed.

Lemma markets_of_joined s l l' : markets_of (joined s l) = markets_of (joined s l').
Proof. unfold markets_of. by rewrite !(joined_symbol _ _ "markets"). Qed.

(** The columns of a joined row; those of the aggregate are NULL for a symbol without one. *)
Definition joined_schema : list (string * (coltype * bool)) :=
  (map (fun x => ("s." +:+ fst x, snd x)) symbols ++
   map (fun x => ("latest." +:+ fst x, (fst (snd x), false))) derivative_aggregated_snapshots)%list.

Lemma row_ok_Forall sch r : Forall (fun x => match r !! fst x with Some v => has_type (fst (snd x)) v | None => snd (snd x) = false end) sch -> row_ok sch r.
Proof.
  rewrite Forall_forall. intros Hf c t nn Hc. unfold column_type in Hc. destruct (find _ sch) as [[c' tn]|] eqn:E; [|done].
  apply find_some in E as [Hin Heq]. cbn in *. injection Hc as ->. apply String.eqb_eq in Heq as ->.
  by specialize (Hf (c, (t, nn)) ltac:(by apply list_elem_of_In)).
Qed.

Lemma joined_ok s l : row_ok symbols s -> from_option (row_ok derivative_aggregated_snapshots) True l -> row_ok joined_schema (joined s l).
Proof.
  intros Hs Hl. apply row_ok_Forall, Forall_app. split.
  - apply Forall_fmap, Forall_forall. intros [c [t nn]] Hin. cbn [compose fst snd]. rewrite joined_symbol. apply Hs.
    clear -Hin. repeat (apply elem_of_cons in Hin as [[= -> -> ->]|Hin]; [reflexivity|]). by apply not_elem_of_nil in Hin.
  - apply Forall_fmap, Forall_forall. intros [c [t nn]] Hin. cbn [compose fst snd]. rewrite joined_latest.
    destruct l as [a|]; cbn [mbind option_bind]; [|done].
    assert (column_type derivative_aggregated_snapshots c = Some (t, nn)) as Hc.
    { clear -Hin. repeat (apply elem_of_cons in Hin as [[= -> -> ->]|Hin]; [reflexivity|]). by apply not_elem_of_nil in Hin. }
    specialize (Hl c t nn Hc). by destruct (a !! c).
Qed.

Lemma scans_overview now : scans joined_schema overview_columns (scan_overview now).
Proof. solve_scans. Qed.

(** ** What the overview selects *)

(** The conditions of a request, without placeholders. *)
Definition asked {A} (x : option A) (P : A -> bool) : bool := from_option P true x.
Definition wanted (opts : ListOptions) (r : gmap string sval) : bool :=
  asked (non_empty (Search opts)) (fun s => let p := "%" +:+ s +:+ "%" in
    ilike_at p r "s.symbol" || ilike_at p r "s.base_asset" || ilike_at p r "s.quote_asset") &&
  asked (non_empty (Category opts)) (fun s => compares CEq (r !! "s.market_type") (Some (AText s))) &&
  asked (non_empty (Exchange opts)) (fun ex => on_exchange ex r) &&
  asked (MinVolume opts) (fun f => at_least (r !! "latest.total_volume_24h") f) &&
  asked (MinOI opts) (fun f => at_least (r !! "latest.total_open_interest") f) &&
  asked (RankMin opts) (fun z => compares CGe (r !! "s.cmc_rank") (Some (AInt z))) &&
  asked (RankMax opts) (fun z => compares CLe (r !! "s.cmc_rank") (Some (AInt z))).

Definition cond_arg (c : condition) : Z :=
  match c with Compare c => cl_arg c | Search3 n | AtLeast _ n | OnExchange n => n end.
Definition overview_wf (o : overview) : Prop := Forall (fun c => cond_arg c <= Z.of_nat (length (o_args o))) (o_conds o).
Definition all_hold (o : overview) (r : gmap string sval) : bool := forallb (condition_holds (o_args o) r) (o_conds o).

Lemma condition_more_args args more r c : cond_arg c <= Z.of_nat (length args) ->
  condition_holds (args ++ more) r c = condition_holds args r c.
Proof. destruct c; cbn [cond_arg condition_holds]; intros; unfold clause_holds; by rewrite placeholder_app. Qed.

(** What a condition says once its placeholder stands for a value. *)
Definition says (r : gmap string sval) (c : Z -> condition) (v : any) (b : bool) : Prop :=
  forall args n, placeholder args n = Some v -> condition_holds args r (c n) = b.

Lemma add_cond_spec o v c : overview_wf o -> (forall n, cond_arg (c n) = n) ->
  overview_wf (add_cond o v c) /\
  forall r b, says r c v b -> all_hold (add_cond o v c) r = all_hold o r && b.
Proof.
  intros Hw Hc. unfold overview_wf, all_hold, add_cond. cbn [o_args o_conds]. rewrite length_app. cbn [length]. split.
  - apply Forall_app; split; [|repeat constructor; rewrite Hc; lia]. eapply Forall_impl; [exact Hw|]. cbn. lia.
  - intros r b Hb. rewrite forallb_app. cbn [forallb]. rewrite andb_true_r. f_equal.
    + clear -Hw. induction Hw as [|x l Hx _ IH]; [done|]. cbn [forallb]. by rewrite condition_more_args, IH.
    + apply Hb. rewrite Nat2Z.inj_add. apply placeholder_new.
Qed.

Lemma when_spec {A} (x : option A) (value : A -> any) (c : Z -> condition) (P : gmap string sval -> A -> bool) o :
  overview_wf o -> (forall n, cond_arg (c n) = n) -> (forall r a, says r c (value a) (P r a)) ->
  overview_wf (when x (fun a o => add_cond o (value a) c) o) /\
  forall r, all_hold (when x (fun a o => add_cond o (value a) c) o) r = all_hold o r && asked x (P r).
Proof.
  intros Hw Hc Hs. destruct x as [a|]; cbn [when asked from_option].
  - destruct (add_cond_spec o (value a) c Hw Hc) as [H1 H2]. split; [done|]. intros r. by apply H2.
  - split; [done|]. intros r. by rewrite andb_true_r.
Qed.

Lemma overviewSQL_spec opts : overview_wf (overviewSQL opts) /\ forall r, all_hold (overviewSQL opts) r = wanted opts r.
Proof.
  unfold overviewSQL.
  destruct (when_spec (non_empty (Search opts)) (fun s => AText ("%" +:+ s +:+ "%")) Search3
    (fun r s => let p := "%" +:+ s +:+ "%" in ilike_at p r "s.symbol" || ilike_at p r "s.base_asset" || ilike_at p r "s.quote_asset")
    (MkOverview [] [])) as [W1 E1]; [constructor|done|intros r a args n Hp; cbn [condition_holds]; by rewrite Hp|].
  set (o1 := when _ _ _) in W1, E1 |- *.
  destruct (when_spec (non_empty (Category opts)) AText (fun n => Compare (MkClause "s.market_type" CEq n))
    (fun r s => compares CEq (r !! "s.market_type") (Some (AText s))) o1 W1) as [W2 E2];
    [done|intros r a args n Hp; cbn; unfold clause_holds; cbn; by rewrite Hp|]. set (o2 := when _ _ o1) in W2, E2 |- *.
  destruct (when_spec (non_empty (Exchange opts)) AText OnExchange (fun r ex => on_exchange ex r) o2 W2) as [W3 E3];
    [done|intros r a args n Hp; cbn [condition_holds]; by rewrite Hp|]. set (o3 := when _ _ o2) in W3, E3 |- *.
  destruct (when_spec (MinVolume opts) AFloat (AtLeast "latest.total_volume_24h") (fun r f => at_least (r !! "latest.total_volume_24h") f) o3 W3)
    as [W4 E4]; [done|intros r a args n Hp; cbn [condition_holds]; by rewrite Hp|]. set (o4 := when _ _ o3) in W4, E4 |- *.
  destruct (when_spec (MinOI opts) AFloat (AtLeast "latest.total_open_interest") (fun r f => at_least (r !! "latest.total_open_interest") f) o4 W4)
    as [W5 E5]; [done|intros r a args n Hp; cbn [condition_holds]; by rewrite Hp|]. set (o5 := when _ _ o4) in W5, E5 |- *.
  destruct (when_spec (RankMin opts) AInt (fun n => Compare (MkClause "s.cmc_rank" CGe n))
    (fun r z => compares CGe (r !! "s.cmc_rank") (Some (AInt z))) o5 W5) as [W6 E6];
    [done|intros r a args n Hp; cbn; unfold clause_holds; cbn; by rewrite Hp|]. set (o6 := when _ _ o5) in W6, E6 |- *.
  destruct (when_spec (RankMax opts) AInt (fun n => Compare (MkClause "s.cmc_rank" CLe n))
    (fun r z => compares CLe (r !! "s.cmc_rank") (Some (AInt z))) o6 W6) as [W7 E7];
    [done|intros r a args n Hp; cbn; unfold clause_holds; cbn; by rewrite Hp|].
  split; [exact W7|]. intros r. rewrite E7, E6, E5, E4, E3, E2, E1. done.
Qed.

Lemma when_args {A} (x : option A) value c o : (forall a, arg_ok (value a) = true) -> forallb arg_ok (o_args o) = true ->
  forallb arg_ok (o_args (when x (fun a o => add_cond o (value a) c) o)) = true.
Proof. intros Hv Ho. destruct x; [|done]. cbn. rewrite forallb_app, Ho. cbn. by rewrite Hv. Qed.

Lemma overviewSQL_args opts : forallb arg_ok (o_args (overviewSQL opts)) = true.
Proof. unfold overviewSQL. repeat (apply when_args; [done|]). done. Qed.

Lemma aggregate_rows_newest `{HeapOrder} db i a : typed_db db -> head (aggregate_rows db i) = Some a ->
  a ∈ db_rows db "derivative_aggregated_snapshots" /\ a !! "symbol_id" = Some (SInt i) /\
  forall x t u, x ∈ db_rows db "derivative_aggregated_snapshots" -> x !! "symbol_id" = Some (SInt i) ->
    a !! "snapshot_time" = Some (STime t) -> x !! "snapshot_time" = Some (STime u) -> u <= t.
Proof.
  intros Ht Ha.
  assert (forall r, r ∈ aggregate_rows db i <-> r ∈ db_rows db "derivative_aggregated_snapshots" /\ r !! "symbol_id" = Some (SInt i)) as Hin.
  { intros r. unfold aggregate_rows. rewrite elem_of_stable_sort, list_elem_of_filter, heap_perm.
    assert (compares CEq (r !! "symbol_id") (Some (AInt i)) = true <-> r !! "symbol_id" = Some (SInt i)) as ->; [|tauto].
    destruct (r !! "symbol_id") as [[]|]; cbn; try done. rewrite Z.eqb_eq. naive_solver. }
  assert (sorted_by (order_leb [desc "snapshot_time"]) (aggregate_rows db i)) as Hs
    by (apply stable_sort_sorted; [apply order_leb_total|apply order_leb_trans]).
  destruct (aggregate_rows db i) as [|a' l] eqn:E; [done|]. injection Ha as ->.
  destruct (proj1 (Hin a) ltac:(by left)) as [H1 H2]. split_and!; [done..|]. intros x t u Hx1 Hx2 Hat Hxu.
  assert (x ∈ a :: l) as Hx by by apply Hin. inversion Hs as [|? ? _ Hle]; subst. apply elem_of_cons in Hx as [->|Hx]; [simplify_eq; lia|].
  rewrite Forall_forall in Hle. specialize (Hle x Hx). cbn [order_leb] in Hle. unfold key_leb in Hle. cbn [ok_column desc ok_desc] in Hle.
  rewrite Hat, Hxu in Hle. cbn in Hle. apply andb_true_iff in Hle as [Hle _]. by apply Z.leb_le.
Qed.

(** The statement fails only on markets that are not arrays. *)
Lemma overview_rows_ok `{HeapOrder} db opts :
  (Exchange opts = "" \/ Forall (fun s => markets_of (joined s None) <> None) (db_rows db "symbols")) ->
  overview_rows db opts = Ok (stable_sort (order_leb (overview_order opts)) (filter (fun r => all_hold (overviewSQL opts) r = true) (joined_rows db))).
Proof.
  intros Hm. unfold overview_rows. rewrite andb_comm.
  destruct (existsb _ (joined_rows db)) eqn:E; [|done]. destruct (existsb names_exchange _) eqn:Hex; [exfalso|done].
  apply existsb_exists in E as (r & Hr & Hb). apply andb_true_iff in Hb as [_ Hb]. bool_to_prop.
  apply list_elem_of_In in Hr. unfold joined_rows in Hr. apply list_elem_of_fmap in Hr as (s & -> & Hs).
  rewrite list_elem_of_filter, heap_perm in Hs. destruct Hs as [_ Hs].
  destruct Hm as [Hm|Hm].
  - clear -Hm Hex. unfold overviewSQL, non_empty in Hex. rewrite Hm in Hex. cbn [String.eqb negb when] in Hex.
    destruct (negb (Search opts =? "")%string), (negb (Category opts =? "")%string), (MinVolume opts), (MinOI opts), (RankMin opts), (RankMax opts); done.
  - rewrite Forall_forall in Hm. apply (Hm s Hs). by rewrite (markets_of_joined s None (latest_of db s)).
Qed.

(** What a joined row is made of. *)
Lemma joined_rows_in `{HeapOrder} db r : typed_db db -> r ∈ joined_rows db -> exists s l, r = joined s l /\ s ∈ db_rows db "symbols" /\
  from_option (fun a => a ∈ db_rows db "derivative_aggregated_snapshots") True l.
Proof.
  intros Ht Hr. unfold joined_rows in Hr. apply list_elem_of_fmap in Hr as (s & -> & Hs). rewrite list_elem_of_filter, heap_perm in Hs.
  exists s, (latest_of db s). split_and!; [done|by destruct Hs|]. unfold latest_of.
  destruct (id_of s) as [i|]; [|done]. cbn [mbind option_bind]. destruct (head (aggregate_rows db i)) as [a|] eqn:Ea; [|done].
  by apply aggregate_rows_newest in Ea as [Ha _].
Qed.

(** C13: the overview lists exactly the active symbols asked for, each with its newest aggregate.
    Without faults, and with markets that are arrays where an exchange is asked for, both lists are
    the page of the joined rows of the active symbols that satisfy the search, category, exchange,
    volume, open interest and rank conditions of the request, sorted by the chosen column with NULLs
    last and then by symbol; every row scans, also for symbols without an aggregate, and a joined
    aggregate is the newest of its symbol. *)
Theorem overview_exact `{HeapOrder} db now opts :
  typed_db db -> typed_symbols db -> healthy_db db -> 0 <= Limit opts -> 0 <= Offset opts ->
  (Exchange opts = "" \/ Forall (fun s => markets_of (joined s None) <> None) (db_rows db "symbols")) ->
  exists rows ds,
    let page := Ok (MkPaged (slice opts ds) (PageMeta_of opts (reported (slice opts ds) (length ds)))) in
    ListOverview db now opts = page /\ ListSymbols db now opts = page /\
    rows ≡ₚ filter (fun r => wanted opts r = true)
              (map (fun s => joined s (latest_of db s)) (filter (fun s => is_active s = true) (db_rows db "symbols"))) /\
    sorted_by (order_leb (overview_order opts)) rows /\ Forall2 (scanned (scan_overview now) overview_columns) rows ds /\
    (forall s i a, id_of s = Some i -> latest_of db s = Some a ->
       a ∈ db_rows db "derivative_aggregated_snapshots" /\ a !! "symbol_id" = Some (SInt i) /\
       forall x t u, x ∈ db_rows db "derivative_aggregated_snapshots" -> x !! "symbol_id" = Some (SInt i) ->
         a !! "snapshot_time" = Some (STime t) -> x !! "snapshot_time" = Some (STime u) -> u <= t).
Proof.
  intros Ht Hts Hh Hl Ho Hm. destruct (overviewSQL_spec opts) as [Hw Hall].
  set (rows := stable_sort (order_leb (overview_order opts)) (filter (fun r => all_hold (overviewSQL opts) r = true) (joined_rows db))).
  pose proof (overview_rows_ok db opts Hm) as Hrows. fold rows in Hrows.
  destruct (scans_all joined_schema (scan_overview now) overview_columns rows) as [ds Hds]; [apply scans_overview| |].
  { unfold rows. rewrite stable_sort_perm. apply Forall_forall. intros r [_ Hr]%list_elem_of_filter.
    destruct (joined_rows_in db r Ht Hr) as (s & l & -> & Hs & Ha). apply joined_ok; [by eapply Forall_forall in Hts; [|apply Hs]|].
    destruct l as [a|]; [|done]. cbn in Ha |- *. by eapply Forall_forall; [apply (Ht "derivative_aggregated_snapshots" _ eq_refl)|]. }
  assert (forall m, list_overview db now m opts = Ok (MkPaged (slice opts ds) (PageMeta_of opts (reported (slice opts ds) (length ds))))) as Hlist.
  { intros m. unfold list_overview. rewrite (Hh "symbols"), Hrows.
    apply (list_page_ok _ (o_args (overviewSQL opts))); try done; [apply overviewSQL_args|lia]. }
  exists rows, ds. cbv zeta. split_and!; [apply Hlist|apply Hlist| | |done|].
  - unfold rows. rewrite stable_sort_perm. unfold joined_rows. erewrite (list_filter_iff _ (fun r => wanted opts r = true)).
    + apply filter_Permutation, Permutation_map. by rewrite heap_perm.
    + intros r. by rewrite Hall.
  - apply stable_sort_sorted; [apply order_leb_total|apply order_leb_trans].
  - intros s i a Hi Ha. unfold latest_of in Ha. rewrite Hi in Ha. by apply aggregate_rows_newest.
Qed.

(** ** Freshness in whole seconds *)

(** The thresholds: fresh up to five minutes, lagging up to fifteen, then stale. *)
Lemma freshness_whole t n : t <> 0 -> 0 <= n < 2 ^ 33 ->
  freshness (t + n * Second) t
  = MkFreshness t n (if 900 <? n then "stale" else if 300 <? n then "lagging" else "fresh").
Proof.
  intros Ht Hn. unfold freshness, IsZero. rewrite (proj2 (Z.eqb_neq t 0)) by done.
  assert (Sub (t + n * Second) t = n * Second) as -> by (unfold Sub, min_int64, max_int64, two63, Second; lia).
  rewrite Seconds_whole by lia. rewrite (proj2 (Z.ltb_ge n 0)) by lia.
  change (f64_to_int64 (Seconds (15 * Minute))) with 900. by change (f64_to_int64 (Seconds (5 * Minute))) with 300.
Qed.

(** ** The detail of a symbol *)

Lemma scans_aggregate now : scans derivative_aggregated_snapshots aggregate_columns (scan_aggregate now).
Proof. solve_scans. Qed.

Lemma LatestAggregate_ok `{HeapOrder} db now i : typed_db db -> db_fault db "derivative_aggregated_snapshots" = no_fault ->
  exists o, LatestAggregate db now i = Ok o /\
    match head (aggregate_rows db i) with
    | None => o = None
    | Some a => exists d, o = Some d /\ Scan 20 (scan_aggregate now) (project aggregate_columns a) = Ok d
    end.
Proof.
  intros Ht Hf. unfold LatestAggregate, query_row. rewrite Hf. cbn [query_error iter_error no_fault].
  destruct (head (aggregate_rows db i)) as [a|] eqn:E.
  - destruct (aggregate_rows_newest db i a Ht E) as [Ha _].
    destruct (Scan_scans derivative_aggregated_snapshots aggregate_columns 20 (scan_aggregate now) a (scans_aggregate now) eq_refl) as (d & j & _ & Hd).
    { eapply Forall_forall; [apply (Ht "derivative_aggregated_snapshots" _ eq_refl)|done]. }
    exists (Some d). destruct (aggregate_rows db i) as [|x l]; [done|]. injection E as ->. cbn [take head]. rewrite Hd.
    split; [done|]. by exists d.
  - destruct (aggregate_rows db i); [|done]. by exists None.
Qed.

Lemma served_data {A} db table matches order cols (s : scanner A) opts res :
  serves db table matches order cols s opts res -> exists l, data_of res = Ok l.
Proof. intros (rows & ds & _ & _ & _ & ->). by eexists. Qed.

Lemma ignored {A} (r : result error (list A)) : (exists l, r = Ok l) -> r = Ok (ignore r).
Proof. by intros [l ->]. Qed.

(** the detail of a symbol fails only when the symbol is not found.  On a healthy database whose
    tables satisfy their schemas, the detail has the resolved symbol, its newest aggregate if there
    is one, and of every series the first rows, at most one hundred, that the list of that series
    serves for the same request. *)
Theorem symbol_detail_complete `{HeapOrder} db now name opts :
  typed_db db -> typed_symbols db -> healthy_db db -> times_fit opts -> 1 <= Limit opts ->
  match ResolveSymbol db name with
  | Err e => e = ErrNotFound /\ GetSymbolDetail db now name opts = Err ErrNotFound
  | Ok (dto, i) =>
    let o := with_limit opts (Z.min (Limit opts) 100) 1 in
    exists d, GetSymbolDetail db now name opts = Ok d /\ dt_Symbol d = dto /\ LatestAggregate db now i = Ok (dt_Market d) /\
      ListKlines db i o = Ok (dt_Klines d) /\ ListOpenInterest db i o = Ok (dt_OpenInterest d) /\ ListFunding db i o = Ok (dt_Funding d) /\
      data_of (ListLongShortRatioPage db i o) = Ok (dt_LongShortRatio d) /\ ListTakerFlow db i o = Ok (dt_TakerFlow d) /\
      ListCVD db i o = Ok (dt_CVD d) /\ ListLiquidations db i o = Ok (dt_Liquidations d) /\ data_of (ListBasisPage db i o) = Ok (dt_Basis d) /\
      data_of (ListOrderbookImbalancePage db i o) = Ok (dt_OrderbookImbalance d) /\
      ListExchangeDivergence db i o = Ok (dt_ExchangeDivergence d)
  end.
Proof.
  intros Ht Hts Hh Hf Hl. unfold GetSymbolDetail. pose proof (ResolveSymbol_ok db name Hts (Hh "symbols")) as Hr.
  destruct (ResolveSymbol db name) as [[dto i]|e]; [|by rewrite Hr].
  cbv zeta. set (o := with_limit opts (Z.min (Limit opts) 100) 1).
  assert (with_limit opts (minPositive (Limit opts) 100) 1 = o) as ->.
  { unfold o, minPositive. f_equal. rewrite (proj2 (Z.leb_gt _ _)) by lia. destruct (Z.ltb_spec 100 (Limit opts)); lia. }
  destruct (LatestAggregate_ok db now i Ht (Hh _)) as (agg & Hagg & _). cbn [fst snd]. rewrite Hagg. eexists. split; [reflexivity|].
  cbn [dt_Symbol dt_Market dt_Klines dt_OpenInterest dt_Funding dt_LongShortRatio dt_TakerFlow dt_CVD dt_Liquidations dt_Basis
       dt_OrderbookImbalance dt_ExchangeDivergence].
  assert (0 <= Limit o) as Hlo by (cbn; lia). assert (0 <= Offset o) as Hoo by (unfold Offset; cbn; by rewrite wrap64_ok).
  assert (times_fit o) as Hfo by exact Hf.
  split_and!; try done; apply ignored.
  - by eapply served_data, ListKlinesPage_serves.
  - pose proof (ListOpenInterestPage_serves db i o Ht Hh Hfo Hlo Hoo) as H1. case_match; by eapply served_data.
  - by eapply served_data, ListFundingPage_serves.
  - by eapply served_data, ListLongShortRatioPage_serves.
  - by eapply served_data, ListTakerFlowPage_serves.
  - by eapply served_data, ListCVDPage_serves.
  - by eapply served_data, ListLiquidationsPage_serves.
  - by eapply served_data, ListBasisPage_serves.
  - by eapply served_data, ListOrderbookImbalancePage_serves.
  - by eapply served_data, ListExchangeDivergencePage_serves.
Qed.

(** ** A concrete database *)

Definition sample_symbol (i : Z) (sym base : string) (rank : option Z) (active : bool) : gmap string sval :=
  list_to_map ([("id", SInt i); ("symbol", SText sym); ("base_asset", SText base); ("quote_asset", SText "USDT"); ("is_active", SBool active);
                ("markets", SJson (JArray [JObject [("exchange", JString "Binance")]]))] ++
               match rank with Some k => [("cmc_rank", SInt k)] | None => [] end)%list.
Definition sample_aggregate (i : Z) (t : Time) (volume : Z) : gmap string sval :=
  list_to_map [("symbol_id", SInt i); ("snapshot_time", STime t); ("exchange_count", SInt 2); ("total_volume_24h", price volume);
               ("price_avg", price 100); ("available_exchanges", SJson (JArray [])); ("raw_by_exchange", SJson (JObject []));
               ("window_metrics", SJson (JObject [])); ("anomaly_flags", SJson (JArray [])); ("quality_metadata", SJson (JObject []))].

Definition overview_db : Database :=
  MkDatabase
    (fun t => if (t =? "symbols")%string
              then [sample_symbol 1 "ETHUSDT" "ETH" (Some 2) true; sample_symbol 2 "BTCUSDT" "BTC" (Some 1) true;
                    sample_symbol 3 "BTCUSDC" "BTC" None true; sample_symbol 4 "BTCDAI" "BTC" (Some 1) false]
              else if (t =? "derivative_aggregated_snapshots")%string
              then [sample_aggregate 1 (Date 2026 5 1) 7; sample_aggregate 2 (Date 2026 5 1) 3; sample_aggregate 2 (Date 2026 5 2) 5]
              else [])
    (fun _ => no_fault).

Lemma overview_db_typed : typed_db overview_db /\ typed_symbols overview_db.
Proof.
  split.
  - intros table sch Hs. unfold overview_db. cbn [db_rows].
    destruct (String.eqb_spec table "symbols") as [->|_]; [done|].
    destruct (String.eqb_spec table "derivative_aggregated_snapshots") as [->|_]; [|constructor].
    injection Hs as <-. apply Forall_forall. intros r Hr. apply row_check_ok.
    repeat (apply elem_of_cons in Hr as [->|Hr]; [vm_cast_no_check (@eq_refl bool true)|]). by apply not_elem_of_nil in Hr.
  - apply Forall_forall. intros r Hr. apply row_check_ok.
    repeat (apply elem_of_cons in Hr as [->|Hr]; [vm_cast_no_check (@eq_refl bool true)|]). by apply not_elem_of_nil in Hr.
Qed.

Definition search_options : ListOptions :=
  MkOptions "binance" "btc" "" "" "" None None 50 1 "volume" "desc" None None None None.

Lemma overview_exact_witness : exists rows ds,
  ListOverview (H:=in_place) overview_db 0 search_options
  = Ok (MkPaged (slice search_options ds) (PageMeta_of search_options (reported (slice search_options ds) (length ds)))) /\
  Forall2 (scanned (scan_overview 0) overview_columns) rows ds.
Proof.
  destruct (overview_exact (H:=in_place) overview_db 0 search_options (proj1 overview_db_typed) (proj2 overview_db_typed) ltac:(done)
              ltac:(discriminate) ltac:(discriminate)) as (rows & ds & H1 & _ & _ & _ & H2 & _).
  - right. repeat constructor; vm_compute; discriminate.
  - exists rows, ds. split; assumption.
Defined.

Lemma resolve_symbol_best_witness : ResolveSymbol (H:=in_place) overview_db "doge" = Err ErrNotFound.
Proof.
  apply (resolve_symbol_best (H:=in_place) overview_db "doge" (proj2 overview_db_typed) eq_refl).
  right. intros r [Hr Hm].
  repeat (apply elem_of_cons in Hr as [->|Hr]; [revert Hm; vm_compute; discriminate|]). by apply not_elem_of_nil in Hr.
Defined.

Lemma symbol_detail_complete_witness : GetSymbolDetail (H:=in_place) overview_db 0 "doge" search_options = Err ErrNotFound /\
  exists d, GetSymbolDetail (H:=in_place) overview_db 0 "btc" search_options = Ok d /\ sd_ID (dt_Symbol d) = 2.
Proof.
  pose proof (symbol_detail_complete (H:=in_place) overview_db 0 "doge" search_options (proj1 overview_db_typed) (proj2 overview_db_typed)
                ltac:(done) ltac:(done) ltac:(discriminate)) as H1.
  pose proof (symbol_detail_complete (H:=in_place) overview_db 0 "btc" search_options (proj1 overview_db_typed) (proj2 overview_db_typed)
                ltac:(done) ltac:(done) ltac:(discriminate)) as H2.
  split.
  - assert (ResolveSymbol (H:=in_place) overview_db "doge" = Err ErrNotFound) as E by (vm_compute; reflexivity).
    rewrite E in H1. exact (proj2 H1).
  - assert (exists dto, ResolveSymbol (H:=in_place) overview_db "btc" = Ok (dto, 2) /\ sd_ID dto = 2) as (dto & E & Hid)
      by (eexists; split; vm_compute; reflexivity).
    rewrite E in H2. destruct H2 as (d & Hd & Hs & _). exists d. split; [exact Hd|]. rewrite Hs. exact Hid.
Defined.

(** A name is resolved to the active symbol of best rank among its matches. *)
Example resolve_btc : match ResolveSymbol (H:=in_place) overview_db " btc " with Ok (dto, i) => (sd_Symbol dto, i) | Err _ => ("", 0) end = ("BTCUSDT", 2).
Proof. vm_compute. reflexivity. Qed.

(** Sorted by volume, the symbol without an aggregate comes last, with unknown freshness. *)
Example sample_overview :
  match ListOverview (H:=in_place) overview_db (Date 2026 5 2 + 60 * Second) search_options with
  | Ok p => map (fun x => (sd_Symbol (ov_Symbol x), fr_Status (ag_Freshness (ov_Market x)))) (Data p)
  | Err _ => [] end = [("BTCUSDT", "fresh"); ("BTCUSDC", "unknown")].
Proof. vm_compute. reflexivity. Qed.
