(* ===== verification/ApiJson.v ===== *)
(** * The JSON of the API's answers ([internal/api/derivatives/dto.go])

    What [json.NewEncoder(w).Encode] makes of each DTO, by the tags of its fields; [None] is a value
    that has no JSON: a float that is not finite, or a time outside the years 0 to 9999. *)

From S2P Require Import Prelude GoString GoTime GoFloat GoFloatSign GoDuration GoError GoJson GoJsonText GoTimeText RealtimeEvents.
From S2P Require Import PgNumeric ApiQuery ApiStore ApiSchema ApiSeries ApiAdmin ApiOverview.
From Stdlib Require Import SpecFloat.

(** ** Fields *)

Definition m_bool (name : string) (b : bool) : option (list (string * json)) := Some [(name, JBool b)].
Definition m_json (name : string) (j : option json) : option (list (string * json)) := (fun j => [(name, j)]) <$> j.
Definition m_time_omit (name : string) (t : option Time) : option (list (string * json)) :=
  match t with None => Some [] | Some t => m_time name t end.
Definition m_int_ptr (name : string) (z : option Z) : option (list (string * json)) :=
  match z with None => Some [] | Some z => m_int name z end.
Definition enc_list {A} (enc : A -> option json) (l : list A) : option json := JArray <$> all_some (map enc l).
(** A slice with [omitempty]. *)
Definition m_list_omit {A} (name : string) (enc : A -> option json) (l : list A) : option (list (string * json)) :=
  match l with [] => Some [] | _ => m_json name (enc_list enc l) end.

(** ** The DTOs *)

Definition enc_market (x : MarketSnapshotDTO) : option json :=
  members [m_str "exchange" (md_Exchange x); m_str "source_symbol" (md_SourceSymbol x); m_time "snapshot_time" (md_SnapshotTime x);
           m_float_omit "last_price" (md_LastPrice x); m_float_omit "mark_price" (md_MarkPrice x); m_float_omit "index_price" (md_IndexPrice x);
           m_float_omit "bid_price" (md_BidPrice x); m_float_omit "ask_price" (md_AskPrice x); m_float_omit "volume_24h" (md_Volume24h x);
           m_float_omit "quote_volume_24h" (md_QuoteVolume24h x); m_float_omit "open_interest" (md_OpenInterest x);
           m_float_omit "funding_rate" (md_FundingRate x); m_raw_omit "raw" (md_Raw x)].

Definition enc_kline (x : KlineDTO) : option json :=
  members [m_str "exchange" (kd_Exchange x); m_str "interval" (kd_Interval x); m_time "open_time" (kd_OpenTime x);
           m_time "close_time" (kd_CloseTime x); m_float "open" (kd_Open x); m_float "high" (kd_High x); m_float "low" (kd_Low x);
           m_float "close" (kd_Close x); m_float_omit "volume" (kd_Volume x); m_float_omit "quote_volume" (kd_QuoteVolume x);
           m_int_ptr "trade_count" (kd_TradeCount x); m_bool "is_closed" (kd_IsClosed x)].

Definition enc_open_interest_dto (x : OpenInterestDTO) : option json :=
  members [m_str "exchange" (od_Exchange x); m_str_omit "period" (od_Period x); m_time "timestamp" (od_Timestamp x);
           m_float "open_interest" (od_OpenInterest x); m_float_omit "open_interest_value" (od_OpenInterestValue x)].

Definition enc_funding_dto (x : FundingDTO) : option json :=
  members [m_str "exchange" (fd_Exchange x); m_time "timestamp" (fd_Timestamp x); m_float "funding_rate" (fd_FundingRate x);
           m_float_omit "realized_rate" (fd_RealizedRate x); m_time_omit "next_funding_time" (fd_NextFundingTime x);
           m_float_omit "mark_price" (fd_MarkPrice x)].

Definition enc_long_short (x : LongShortRatioDTO) : option json :=
  members [m_str "exchange" (ld_Exchange x); m_str "period" (ld_Period x); m_time "snapshot_time" (ld_SnapshotTime x);
           m_float_omit "long_account_ratio" (ld_LongAccountRatio x); m_float_omit "short_account_ratio" (ld_ShortAccountRatio x);
           m_float_omit "long_short_ratio" (ld_LongShortRatio x); m_float_omit "top_trader_long_ratio" (ld_TopTraderLongRatio x);
           m_float_omit "top_trader_short_ratio" (ld_TopTraderShortRatio x)].

Definition enc_taker_flow (x : TakerFlowDTO) : option json :=
  members [m_str "exchange" (td_Exchange x); m_str "period" (td_Period x); m_time "snapshot_time" (td_SnapshotTime x);
           m_float_omit "taker_buy_volume" (td_TakerBuyVolume x); m_float_omit "taker_sell_volume" (td_TakerSellVolume x);
           m_float_omit "taker_buy_quote_volume" (td_TakerBuyQuoteVolume x); m_float_omit "taker_sell_quote_volume" (td_TakerSellQuoteVolume x);
           m_float_omit "buy_sell_delta" (td_BuySellDelta x); m_float_omit "buy_sell_delta_quote" (td_BuySellDeltaQuote x);
           m_float_omit "buy_sell_ratio" (td_BuySellRatio x)].

Definition enc_cvd (x : CVDDTO) : option json :=
  members [m_str "exchange" (cd_Exchange x); m_str "period" (cd_Period x); m_time "snapshot_time" (cd_SnapshotTime x);
           m_float_omit "cvd_value" (cd_CVDValue x); m_float_omit "cvd_delta" (cd_CVDDelta x); m_float_omit "cvd_change" (cd_CVDChange x);
           m_float_omit "cvd_change_percent" (cd_CVDChangePercent x)].

Definition enc_liquidation (x : LiquidationAggregateDTO) : option json :=
  members [m_str "exchange" (qd_Exchange x); m_str "period" (qd_Period x); m_time "bucket_time" (qd_BucketTime x);
           m_int "long_count" (qd_LongCount x); m_int "short_count" (qd_ShortCount x); m_float "long_liquidation_usd" (qd_LongLiquidationUSD x);
           m_float "short_liquidation_usd" (qd_ShortLiquidationUSD x); m_float "total_liquidation_usd" (qd_TotalLiquidationUSD x);
           m_float "largest_liquidation_usd" (qd_LargestLiquidationUSD x)].

Definition enc_basis (x : BasisDTO) : option json :=
  members [m_str "exchange" (bd_Exchange x); m_time "snapshot_time" (bd_SnapshotTime x); m_float_omit "futures_price" (bd_FuturesPrice x);
           m_float_omit "spot_price" (bd_SpotPrice x); m_float_omit "mark_price" (bd_MarkPrice x); m_float_omit "index_price" (bd_IndexPrice x);
           m_float_omit "basis_value" (bd_BasisValue x); m_float_omit "basis_percent" (bd_BasisPercent x);
           m_float_omit "annualized_basis_percent" (bd_AnnualizedBasisPercent x); m_float_omit "funding_rate" (bd_FundingRate x)].

Definition enc_imbalance (x : OrderbookImbalanceDTO) : option json :=
  members [m_str "exchange" (id_Exchange x); m_time "snapshot_time" (id_SnapshotTime x); m_int "depth_levels" (id_DepthLevels x);
           m_float_omit "mid_price" (id_MidPrice x); m_float_omit "spread_percent" (id_SpreadPercent x);
           m_float_omit "bid_depth_usd" (id_BidDepthUSD x); m_float_omit "ask_depth_usd" (id_AskDepthUSD x);
           m_float_omit "imbalance_percent" (id_ImbalancePercent x)].

Definition enc_divergence (x : ExchangeDivergenceDTO) : option json :=
  members [m_str "data_type" (xd_DataType x); m_time "snapshot_time" (xd_SnapshotTime x);
           m_float_omit "price_spread_percent" (xd_PriceSpreadPercent x); m_float_omit "oi_spread_percent" (xd_OISpreadPercent x);
           m_float_omit "funding_spread" (xd_FundingSpread x); m_float_omit "volume_spread_percent" (xd_VolumeSpreadPercent x);
           m_str_omit "strongest_exchange" (xd_StrongestExchange x); m_str_omit "weakest_exchange" (xd_WeakestExchange x);
           m_raw_omit "raw_by_exchange" (xd_RawByExchange x); m_raw_omit "metadata" (xd_Metadata x)].

Definition enc_health (x : CollectorHealthDTO) : option json :=
  members [m_str "service_name" (hd_ServiceName x); m_str "instance_id" (hd_InstanceID x); m_str_omit "exchange" (hd_Exchange x);
           m_str_omit "data_type" (hd_DataType x); m_str "status" (hd_Status x); m_time "heartbeat_at" (hd_HeartbeatAt x);
           m_time_omit "last_success_at" (hd_LastSuccessAt x); m_time_omit "last_error_at" (hd_LastErrorAt x);
           m_str_omit "error_message" (hd_ErrorMessage x); m_raw_omit "metrics" (hd_Metrics x)].

Definition enc_exchange_health (x : ExchangeHealthDTO) : option json :=
  members [m_str "exchange" (eh_Exchange x); m_str "status" (eh_Status x); m_time "last_heartbeat_at" (eh_LastHeartbeatAt x);
           m_int "healthy_count" (eh_HealthyCount x); m_int "degraded_count" (eh_DegradedCount x); m_int "unhealthy_count" (eh_UnhealthyCount x)].

Definition enc_job (x : JobDTO) : option json :=
  members [m_int "id" (jd_ID x); m_str "exchange" (jd_Exchange x); m_str "data_type" (jd_DataType x); m_str "tier" (jd_Tier x);
           m_int_omit "symbol_id" (jd_SymbolID x); m_str_omit "source_symbol" (jd_SourceSymbol x); m_str_omit "period" (jd_Period x);
           m_str "status" (jd_Status x); m_int "priority" (jd_Priority x); m_time "scheduled_at" (jd_ScheduledAt x);
           m_int "retry_count" (jd_RetryCount x); m_int "max_retry" (jd_MaxRetry x); m_str_omit "last_error_type" (jd_LastErrorType x);
           m_str_omit "error_message" (jd_ErrorMessage x); m_str "job_mode" (jd_JobMode x)].

Definition enc_issue (x : QualityIssueDTO) : option json :=
  members [m_str "issue_key" (is_IssueKey x); m_str "severity" (is_Severity x); m_str_omit "exchange" (is_Exchange x);
           m_str "data_type" (is_DataType x); m_int_omit "symbol_id" (is_SymbolID x); m_str_omit "source_symbol" (is_SourceSymbol x);
           m_str "issue_type" (is_IssueType x); m_str "status" (is_Status x); m_time "last_seen_at" (is_LastSeenAt x);
           m_raw_omit "details" (is_Details x)].

Definition enc_gap (x : DataGapDTO) : option json :=
  members [m_str "gap_key" (gd_GapKey x); m_int "symbol_id" (gd_SymbolID x); m_str "exchange" (gd_Exchange x); m_str "data_type" (gd_DataType x);
           m_str_omit "period" (gd_Period x); m_time "gap_start" (gd_GapStart x); m_time "gap_end" (gd_GapEnd x);
           m_str "backfill_status" (gd_BackfillStatus x); m_int_omit "expected_interval_seconds" (gd_ExpectedIntervalSeconds x);
           m_time_omit "last_observed_at" (gd_LastObservedAt x); m_raw_omit "metadata" (gd_Metadata x)].

(** Fields the repository never sets ([icon], [price_change], [price_change_percent]) are omitted. *)
Definition enc_symbol (x : SymbolDTO) : option json :=
  members [m_int "id" (sd_ID x); m_str "symbol" (sd_Symbol x); m_str "base_asset" (sd_BaseAsset x); m_str "quote_asset" (sd_QuoteAsset x);
           m_str_omit "market_type" (sd_MarketType x); m_str_omit "category" (sd_Category x); m_int_omit "cmc_rank" (sd_CmcRank x);
           m_bool "is_active" (sd_IsActive x); m_raw_omit "markets" (sd_Markets x)].

Definition enc_freshness (x : FreshnessDTO) : option json :=
  members [m_time "snapshot_time" (fr_SnapshotTime x); m_int "age_seconds" (fr_AgeSeconds x); m_str "status" (fr_Status x)].

Definition enc_aggregate (x : AggregateDTO) : option json :=
  members [m_time "snapshot_time" (ag_SnapshotTime x); m_float_omit "price" (ag_Price x); m_float_omit "price_avg" (ag_PriceAvg x);
           m_float_omit "price_weighted" (ag_PriceWeighted x); m_float_omit "total_volume_24h" (ag_TotalVolume24h x);
           m_float_omit "total_quote_volume_24h" (ag_TotalQuoteVolume24h x); m_float_omit "total_open_interest" (ag_TotalOpenInterest x);
           m_float_omit "total_open_interest_value" (ag_TotalOpenInterestValue x); m_float_omit "avg_funding_rate" (ag_AvgFundingRate x);
           m_float_omit "total_cvd" (ag_TotalCVD x); m_float_omit "total_long_liquidation_usd" (ag_TotalLongLiquidationUSD x);
           m_float_omit "total_short_liquidation_usd" (ag_TotalShortLiquidationUSD x);
           m_float_omit "total_liquidation_usd" (ag_TotalLiquidationUSD x); m_float_omit "avg_basis_percent" (ag_AvgBasisPercent x);
           m_float_omit "avg_orderbook_imbalance_percent" (ag_AvgOrderbookImbalancePercent x); m_int "exchange_count" (ag_ExchangeCount x);
           m_raw_omit "available_exchanges" (ag_AvailableExchanges x); m_raw_omit "raw_by_exchange" (ag_RawByExchange x);
           m_raw_omit "window_metrics" (ag_WindowMetrics x); m_raw_omit "anomaly_flags" (ag_AnomalyFlags x);
           m_raw_omit "quality" (ag_Quality x); m_json "freshness" (enc_freshness (ag_Freshness x))].

Definition enc_overview (x : OverviewItem) : option json :=
  members [m_json "symbol" (enc_symbol (ov_Symbol x)); m_json "market" (enc_aggregate (ov_Market x))].

Definition enc_detail (x : SymbolDetail) : option json :=
  members [m_json "symbol" (enc_symbol (dt_Symbol x));
           match dt_Market x with None => Some [] | Some a => m_json "market" (enc_aggregate a) end;
           m_raw_omit "per_exchange" (dt_PerExchange x); m_list_omit "klines" enc_kline (dt_Klines x);
           m_list_omit "open_interest" enc_open_interest_dto (dt_OpenInterest x); m_list_omit "funding" enc_funding_dto (dt_Funding x);
           m_list_omit "long_short_ratio" enc_long_short (dt_LongShortRatio x); m_list_omit "taker_flow" enc_taker_flow (dt_TakerFlow x);
           m_list_omit "cvd" enc_cvd (dt_CVD x); m_list_omit "liquidations" enc_liquidation (dt_Liquidations x);
           m_list_omit "basis" enc_basis (dt_Basis x); m_list_omit "orderbook_imbalance" enc_imbalance (dt_OrderbookImbalance x);
           m_list_omit "exchange_divergence" enc_divergence (dt_ExchangeDivergence x)].

Definition enc_meta_page (m : PageMeta) : option json :=
  members [m_int "page" (pm_Page m); m_int "limit" (pm_Limit m); m_int "total" (pm_Total m); m_int "total_pages" (pm_TotalPages m);
           m_bool "has_next" (pm_HasNext m)].

Definition enc_page {A} (enc : A -> option json) (p : PagedResponse A) : option json :=
  members [m_json "data" (enc_list enc (Data p)); m_json "meta" (enc_meta_page (Meta p))].

(** [APIError] with no details. *)
Definition enc_error (code message : string) : json :=
  JObject [("error", JObject [("code", JString code); ("message", JString message); ("details", JObject [])])].

(** ** Rows whose values have a JSON *)

Definition val_prints (v : sval) : Prop := match v with SNaN => False | STime t => year4_ok t | _ => True end.
Definition row_prints (sch : list (string * (coltype * bool))) (r : gmap string sval) : Prop :=
  row_ok sch r /\ map_Forall (fun _ v => val_prints v) r.

Definition float_prints (f : float64) : Prop := is_Some (marshal_float f).
Definition time_prints (t : Time) : Prop := is_Some (marshal_time t).
Definition raw_prints (r : RawMessage) : Prop := is_Some (marshal_raw r).

Lemma marshal_float_ok f : marshalable f = true -> float_prints f.
Proof. intros H. unfold float_prints, marshal_float. rewrite H. cbn [negb]. repeat case_match; by eexists. Qed.

Lemma f64_dec_prints n s : 0 < s -> Z.abs n < 10 ^ 38 -> float_prints (f64_dec n (- s)).
Proof.
  intros Hs Hn. apply marshal_float_ok.
  assert (forall m, 0 < m < 10 ^ 38 -> marshalable (f64_dec m (- s)) = true) as Hpos.
  { intros m [Hm Hm2]. assert (10 ^ 38 < 2 ^ 900) as Hb by done.
    pose proof (f64_dec_finite m s (conj Hm (Z.lt_trans _ _ _ Hm2 Hb)) Hs) as Hinf. clear Hb.
    assert (is_nan (f64_dec m (- s)) = false) as Hnan.
    { destruct m as [|p|]; [lia| |lia]. unfold f64_dec. rewrite (proj2 (Z.leb_gt 0 (- s))) by lia. rewrite Z.opp_involutive.
      assert (0 < 10 ^ s) as H10 by (apply Z.pow_pos_nonneg; lia). destruct (10 ^ s) as [|t|] eqn:Et; [lia| |lia].
      change (Z.abs (Z.pos p)) with (Z.pos p). pose proof (fdiv_core_bound p 0 t 0) as H.
      destruct (SFdiv_core_binary prec64 emax64 (Z.pos p) 0 (Z.pos t) 0) as [[q e] l]. destruct H as (H1 & H2 & _).
      destruct (round_aux_spec (Z.pos p <? 0) q e l H1 H2) as [_ Hr]. by destruct (binary_round_aux _ _ _ _ _ _). }
    by destruct (f64_dec m (- s)). }
  destruct (Z.lt_trichotomy n 0) as [Hlt|[->|Hgt]]; [|done|apply Hpos; lia].
  replace n with (- - n) by lia. rewrite <- f64_dec_opp by lia. specialize (Hpos (- n) ltac:(lia)). by destruct (f64_dec (- n) (- s)).
Qed.

Lemma year4_prints t : year4_ok t -> time_prints t.
Proof. intros H. unfold time_prints. rewrite marshal_time_ok by done. by eexists. Qed.

(** A destination that takes the column of every such row and stores a value with a property. *)
Definition gives {A} (sch : list (string * (coltype * bool))) (e : expr) (d : option dval -> result error A) (Q : A -> Prop) : Prop :=
  forall r, row_prints sch r -> exists a, d (driver <$> eval_expr r e) = Ok a /\ Q a.

Definition yields {A} (sch : list (string * (coltype * bool))) (cols : list (string * expr)) (s : scanner A) (Q : A -> Prop) : Prop :=
  forall r i, row_prints sch r -> exists a i', s i (project cols r) = Ok (a, (i', [])) /\ Q a.

Lemma yields_ret {A} sch (a : A) (Q : A -> Prop) : Q a -> yields sch [] (mret a) Q.
Proof. intros Ha r i _. by exists a, i. Qed.

Lemma yields_column {A B} sch name e cols (d : option dval -> result error A) (k : A -> scanner B) Q R :
  gives sch e d Q -> (forall a, Q a -> yields sch cols (k a) R) -> yields sch ((name, e) :: cols) (column d ≫= k) R.
Proof.
  intros Hd Hk r i Hr. destruct (Hd r Hr) as (a & Ha & HQ). destruct (Hk a HQ r (i + 1) Hr) as (b & i' & Hb & HR).
  exists b, i'. split; [|done]. unfold mbind, scanner_bind, column. cbn [project map fst snd]. by rewrite Ha.
Qed.

Section gives.
Context (sch : list (string * (coltype * bool))) (c : string).

Local Ltac use_type H := let r := fresh "r" in let Hr := fresh "Hr" in let Hp := fresh "Hp" in
  intros r [Hr Hp]; specialize (Hr _ _ _ H); specialize (Hp c); cbn [eval_expr];
  destruct (r !! c) as [[]|]; cbn [has_type] in Hr; try done; specialize (Hp _ eq_refl); cbn in Hp; try done.
Local Ltac plain := eexists; split; [reflexivity|exact I].

Lemma gives_string : column_type sch c = Some (TText, true) -> gives sch (ECol c) to_string (fun _ => True).
Proof. intros H. use_type H. plain. Qed.
Lemma gives_int kind : column_type sch c = Some (TInt, true) -> gives sch (ECol c) (to_int kind) (fun _ => True).
Proof. intros H. use_type H. plain. Qed.
Lemma gives_bool : column_type sch c = Some (TBool, true) -> gives sch (ECol c) to_bool (fun _ => True).
Proof. intros H. use_type H. plain. Qed.
Lemma gives_time : column_type sch c = Some (TTime, true) -> gives sch (ECol c) to_time time_prints.
Proof. intros H. use_type H. eexists; split; [reflexivity|by apply year4_prints]. Qed.
Lemma gives_raw : column_type sch c = Some (TJson, true) -> gives sch (ECol c) to_raw raw_prints.
Proof. intros H. use_type H. eexists; split; [reflexivity|by eexists]. Qed.
Lemma gives_float : column_type sch c = Some (TNumeric, true) -> gives sch (ECol c) to_float float_prints.
Proof.
  intros H. use_type H. cbn. unfold parse_float. rewrite ParseFloat_numeric by lia. eexists; split; [reflexivity|apply f64_dec_prints; lia].
Qed.
Lemma gives_null_string nn : column_type sch c = Some (TText, nn) -> gives sch (ECol c) (nullable to_string) (fun _ => True).
Proof. intros H r Hr. destruct (takes_null_string sch c nn H r (proj1 Hr)) as [a Ha]. by exists a. Qed.
Lemma gives_null_int kind nn : column_type sch c = Some (TInt, nn) -> gives sch (ECol c) (nullable (to_int kind)) (fun _ => True).
Proof. intros H r Hr. destruct (takes_null_int sch c kind nn H r (proj1 Hr)) as [a Ha]. by exists a. Qed.
Lemma gives_int64 nn : column_type sch c = Some (TInt, nn) -> gives sch (ECol c) int64Dest (fun _ => True).
Proof. intros H r Hr. destruct (takes_int64 sch c nn H r (proj1 Hr)) as [a Ha]. by exists a. Qed.

Lemma gives_null_time nn : column_type sch c = Some (TTime, nn) -> gives sch (ECol c) (nullable to_time) (from_option time_prints True).
Proof.
  intros H r [Hr Hp]. specialize (Hr _ _ _ H). specialize (Hp c). cbn [eval_expr].
  destruct (r !! c) as [[]|]; cbn [has_type] in Hr; try done; [specialize (Hp _ eq_refl)|]; eexists; (split; [reflexivity|]); [by apply year4_prints|done].
Qed.
Lemma gives_float_ptr nn : column_type sch c = Some (TNumeric, nn) -> gives sch (ECol c) floatDest (from_option float_prints True).
Proof.
  intros H r [Hr Hp]. specialize (Hr _ _ _ H). specialize (Hp c). cbn [eval_expr].
  destruct (r !! c) as [[]|]; cbn [has_type] in Hr; try done; [|by specialize (Hp _ eq_refl)|by eexists].
  cbn. unfold parse_float. rewrite ParseFloat_numeric by lia. eexists; split; [reflexivity|apply f64_dec_prints; lia].
Qed.

Lemma gives_coalesce_string nn s : column_type sch c = Some (TText, nn) -> gives sch (ECoalesce c (SText s)) to_string (fun _ => True).
Proof. intros H r Hr. destruct (takes_coalesce_string sch c nn s H r (proj1 Hr)) as [a Ha]. by exists a. Qed.
Lemma gives_coalesce_int kind nn z : column_type sch c = Some (TInt, nn) -> gives sch (ECoalesce c (SInt z)) (to_int kind) (fun _ => True).
Proof. intros H r Hr. destruct (takes_coalesce_int sch c kind nn z H r (proj1 Hr)) as [a Ha]. by exists a. Qed.
Lemma gives_coalesce_raw nn j : column_type sch c = Some (TJson, nn) -> gives sch (ECoalesce c (SJson j)) to_raw raw_prints.
Proof.
  intros H r [Hr _]. specialize (Hr _ _ _ H). cbn [eval_expr]. destruct (r !! c) as [[]|]; cbn [has_type] in Hr; try done;
  eexists; (split; [reflexivity|by eexists]).
Qed.
Lemma gives_coalesce_bytes nn j : column_type sch c = Some (TJson, nn) -> gives sch (ECoalesce c (SJson j)) to_bytes_dest raw_prints.
Proof.
  intros H r [Hr _]. specialize (Hr _ _ _ H). cbn [eval_expr]. destruct (r !! c) as [[]|]; cbn [has_type] in Hr; try done;
  eexists; (split; [reflexivity|by eexists]).
Qed.
Lemma gives_const s : gives sch (EConst (SText s)) to_string (fun _ => True).
Proof. intros r _. by eexists. Qed.
Lemma gives_null : gives sch ENull (nullable to_time) (from_option time_prints True).
Proof. intros r _. by eexists. Qed.
End gives.

Create HintDb gives_db.
#[export] Hint Resolve gives_string gives_int gives_bool gives_time gives_raw gives_float gives_null_string gives_null_int gives_int64
  gives_null_time gives_float_ptr gives_coalesce_string gives_coalesce_int gives_coalesce_raw gives_coalesce_bytes gives_const gives_null
  eq_refl : gives_db.

(** *** Members that print *)

Lemma all_some_prints {A} (l : list (option A)) : Forall is_Some l -> is_Some (all_some l).
Proof. induction 1 as [|x l [a ->] _ [r IH]]; cbn; [by eexists|]. rewrite IH. by eexists. Qed.
Lemma members_prints l : Forall is_Some l -> is_Some (members l).
Proof. intros H. apply fmap_is_Some, all_some_prints, H. Qed.

Lemma m_time_prints name t : time_prints t -> is_Some (m_time name t).
Proof. intros H. by apply fmap_is_Some. Qed.
Lemma m_float_prints name f : float_prints f -> is_Some (m_float name f).
Proof. intros H. by apply fmap_is_Some. Qed.
Lemma m_json_prints name j : is_Some j -> is_Some (m_json name j).
Proof. intros H. by apply fmap_is_Some. Qed.
Lemma m_str_prints name s : is_Some (m_str name s).
Proof. by eexists. Qed.
Lemma m_int_prints name z : is_Some (m_int name z).
Proof. by eexists. Qed.
Lemma m_bool_prints name b : is_Some (m_bool name b).
Proof. by eexists. Qed.
Lemma m_str_omit_prints name s : is_Some (m_str_omit name s).
Proof. unfold m_str_omit. case_match; by eexists. Qed.
Lemma m_int_omit_prints name z : is_Some (m_int_omit name z).
Proof. unfold m_int_omit. case_match; by eexists. Qed.
Lemma m_int_ptr_prints name z : is_Some (m_int_ptr name z).
Proof. destruct z; by eexists. Qed.
Lemma m_float_omit_prints name f : from_option float_prints True f -> is_Some (m_float_omit name f).
Proof. destruct f; [apply m_float_prints|by eexists]. Qed.
Lemma m_time_omit_prints name t : from_option time_prints True t -> is_Some (m_time_omit name t).
Proof. destruct t; [apply m_time_prints|by eexists]. Qed.
Lemma m_raw_omit_prints name r : raw_prints r -> is_Some (m_raw_omit name r).
Proof. intros H. unfold m_raw_omit. case_match; [by eexists|by apply fmap_is_Some]. Qed.
Lemma ensureJSON_prints r : raw_prints r -> raw_prints (ensureJSON r).
Proof. intros H. unfold ensureJSON. case_match; [by eexists|done]. Qed.
Lemma ensureJSONArray_prints r : raw_prints r -> raw_prints (ensureJSONArray r).
Proof. intros H. unfold ensureJSONArray. case_match; [by eexists|done]. Qed.
Lemma firstFloat_prints a b : from_option float_prints True a -> from_option float_prints True b ->
  from_option float_prints True (firstFloat [a; b]).
Proof. by destruct a, b. Qed.

Create HintDb print_db.
#[export] Hint Resolve m_time_prints m_float_prints m_json_prints m_str_prints m_int_prints m_bool_prints m_str_omit_prints m_int_omit_prints
  m_int_ptr_prints m_float_omit_prints m_time_omit_prints m_raw_omit_prints ensureJSON_prints ensureJSONArray_prints firstFloat_prints
  members_prints List.Forall_cons List.Forall_nil : print_db.

(** [solve_yields enc]: every row of a statement is scanned into a value with a JSON. *)
Ltac solve_yields enc :=
  repeat (eapply yields_column; [solve [eauto with gives_db]|intros ? ?]); apply yields_ret; unfold enc; apply members_prints;
  repeat (constructor; [solve [eauto with print_db]|]); constructor.

Abbreviation prints enc := (fun x => is_Some (enc x)) (only parsing).

Lemma yields_market : yields derivative_market_snapshots market_columns scan_market (prints enc_market).
Proof. solve_yields enc_market. Qed.
Lemma yields_kline : yields derivative_klines kline_columns scan_kline (prints enc_kline).
Proof. solve_yields enc_kline. Qed.
Lemma yields_oi_history : yields open_interest_history oi_history_columns scan_open_interest (prints enc_open_interest_dto).
Proof. solve_yields enc_open_interest_dto. Qed.
Lemma yields_oi_snapshot : yields open_interest_snapshots oi_snapshot_columns scan_open_interest (prints enc_open_interest_dto).
Proof. solve_yields enc_open_interest_dto. Qed.
Lemma yields_funding : yields funding_rate_history funding_columns scan_funding (prints enc_funding_dto).
Proof. solve_yields enc_funding_dto. Qed.
Lemma yields_long_short : yields long_short_ratio_snapshots long_short_columns scan_long_short (prints enc_long_short).
Proof. solve_yields enc_long_short. Qed.
Lemma yields_taker_flow : yields taker_flow_snapshots taker_flow_columns scan_taker_flow (prints enc_taker_flow).
Proof. solve_yields enc_taker_flow. Qed.
Lemma yields_cvd : yields cvd_snapshots cvd_columns scan_cvd (prints enc_cvd).
Proof. solve_yields enc_cvd. Qed.
Lemma yields_liquidation : yields liquidation_aggregates liquidation_columns scan_liquidation (prints enc_liquidation).
Proof. solve_yields enc_liquidation. Qed.
Lemma yields_basis : yields basis_premium_snapshots basis_columns scan_basis (prints enc_basis).
Proof. solve_yields enc_basis. Qed.
Lemma yields_imbalance : yields orderbook_imbalance_snapshots imbalance_columns scan_imbalance (prints enc_imbalance).
Proof. solve_yields enc_imbalance. Qed.
Lemma yields_divergence : yields exchange_divergence_snapshots divergence_columns scan_divergence (prints enc_divergence).
Proof. solve_yields enc_divergence. Qed.
Lemma yields_health : yields collector_health health_columns scan_health (prints enc_health).
Proof. solve_yields enc_health. Qed.
Lemma yields_job : yields derivative_collection_jobs job_columns scan_job (prints enc_job).
Proof. solve_yields enc_job. Qed.
Lemma yields_issue : yields data_quality_issues issue_columns scan_issue (prints enc_issue).
Proof. solve_yields enc_issue. Qed.
Lemma yields_gap : yields data_gaps gap_columns scan_gap (prints enc_gap).
Proof. solve_yields enc_gap. Qed.

Lemma freshness_prints now t : time_prints t -> is_Some (enc_freshness (freshness now t)).
Proof.
  intros Ht. unfold freshness. case_match; unfold enc_freshness; apply members_prints; eauto 8 with print_db.
Qed.
#[export] Hint Resolve freshness_prints : print_db.

Lemma symbol_dto_prints i s b q m r a j : raw_prints j -> is_Some (enc_symbol (symbol_dto i s b q m r a j)).
Proof.
  intros Hj. unfold enc_symbol. apply members_prints. cbn [symbol_dto sd_Markets].
  repeat (constructor; [solve [eauto with print_db]|]). constructor.
Qed.
Lemma yields_symbol : yields symbols symbol_columns scan_symbol (prints enc_symbol).
Proof. repeat (eapply yields_column; [solve [eauto with gives_db]|intros ? ?]); apply yields_ret. by apply symbol_dto_prints. Qed.
Lemma yields_aggregate now : yields derivative_aggregated_snapshots aggregate_columns (scan_aggregate now) (prints enc_aggregate).
Proof. solve_yields enc_aggregate. Qed.

Lemma zero_time_prints : time_prints 0.
Proof. by eexists. Qed.
Lemma default_time_prints t : from_option time_prints True t -> time_prints (default 0 t).
Proof. destruct t; [done|intros _; apply zero_time_prints]. Qed.
Lemma price_prints (t : option Time) a b : from_option float_prints True a -> from_option float_prints True b ->
  from_option float_prints True (match t with Some _ => firstFloat [a; b] | None => None end).
Proof. destruct t; [apply firstFloat_prints|done]. Qed.
#[export] Hint Resolve default_time_prints price_prints : print_db.

Lemma yields_overview now : yields joined_schema overview_columns (scan_overview now) (prints enc_overview).
Proof.
  repeat (eapply yields_column; [solve [eauto with gives_db]|intros ? ?]); apply yields_ret. unfold enc_overview.
  apply members_prints. cbn [ov_Symbol ov_Market].
  constructor; [by apply m_json_prints, symbol_dto_prints|]. constructor; [|constructor]. apply m_json_prints. unfold enc_aggregate. apply members_prints.
  repeat (constructor; [solve [eauto with print_db]|]). constructor.
Qed.

(** ** Pages of printable rows *)

(** Every value a printable database holds has a JSON: no NaN, and times of the years 0 to 9999. *)
Record prints_db (db : Database) : Prop := {
  prints_tables : forall table sch, table_schema table = Some sch -> Forall (row_prints sch) (db_rows db table);
  prints_symbols : Forall (row_prints symbols) (db_rows db "symbols") }.

Lemma prints_typed db : prints_db db -> typed_db db /\ typed_symbols db.
Proof.
  intros [Ht Hs]. split; [intros table sch E; eapply Forall_impl; [by apply Ht|]|eapply Forall_impl; [exact Hs|]]; by intros r [? _].
Qed.

Lemma yields_all {A} sch cols (s : scanner A) Q rows : yields sch cols s Q -> Forall (row_prints sch) rows ->
  exists ds, Forall2 (scanned s cols) rows ds /\ Forall Q ds.
Proof.
  intros Hy. induction 1 as [|r rows Hr _ (ds & H1 & H2)]; [by exists []|].
  destruct (Hy r 1 Hr) as (a & i & Ha & HQ). exists (a :: ds). split; constructor; try done. by exists i.
Qed.

Lemma slice_Forall {A} (P : A -> Prop) opts l : Forall P l -> Forall P (slice opts l).
Proof. intros. unfold slice. by apply Forall_take, Forall_drop. Qed.

Lemma enc_list_prints {A} (enc : A -> option json) l : Forall (fun x => is_Some (enc x)) l -> is_Some (enc_list enc l).
Proof. intros H. apply fmap_is_Some, all_some_prints, Forall_fmap, H. Qed.
Lemma enc_page_prints {A} (enc : A -> option json) p : Forall (fun x => is_Some (enc x)) (Data p) -> is_Some (enc_page enc p).
Proof.
  intros H. apply members_prints. constructor; [by apply m_json_prints, enc_list_prints|]. constructor; [|constructor].
  apply m_json_prints, members_prints. repeat (constructor; [solve [eauto with print_db]|]). constructor.
Qed.
Lemma m_list_omit_prints {A} name (enc : A -> option json) l : Forall (fun x => is_Some (enc x)) l -> is_Some (m_list_omit name enc l).
Proof. intros H. unfold m_list_omit. destruct l; [by eexists|]. by apply m_json_prints, enc_list_prints. Qed.

(** The list succeeds with items that print. *)
Definition answers {A} (enc : A -> option json) (res : result error (PagedResponse A)) : Prop :=
  exists p, res = Ok p /\ Forall (fun x => is_Some (enc x)) (Data p).

Section answers.
Context `{HeapOrder} (db : Database) (opts : ListOptions).
Hypotheses (Hp : prints_db db) (Hh : healthy_db db) (Hl : 0 <= Limit opts) (Ho : 0 <= Offset opts) (Hf : times_fit opts).

Lemma run_list_answers {A} (enc : A -> option json) b table sch shape order cols m n (s : scanner A) :
  table_schema table = Some sch -> usable_builder b -> yields sch cols s (fun x => is_Some (enc x)) -> length cols = n ->
  (forall l r, r ∈ shape l -> r ∈ l) -> answers enc (run_list db b table shape order cols m n s opts).
Proof.
  intros Hsch [Hw Ha] Hy Hn Hsub.
  destruct (yields_all sch cols s (fun x => is_Some (enc x)) (list_rows db b table shape order)) as (ds & Hds & HQ); [done| |].
  { unfold list_rows. rewrite stable_sort_perm. apply Forall_forall. intros r Hr%Hsub. rewrite list_elem_of_filter, heap_perm in Hr.
    eapply Forall_forall; [by apply (prints_tables db Hp table)|]. by destruct Hr. }
  eexists. split; [by apply run_list_ok|]. by apply slice_Forall.
Qed.
End answers.

Lemma interval_usable_builder symbolID o time c v : times_fit o ->
  usable_builder (interval (exchange o (newSeriesBuilder symbolID o time)) c v).
Proof. intros Hf. by destruct (interval_builder symbolID o time c v Hf). Qed.
Lemma exchange_usable_builder symbolID o time : times_fit o -> usable_builder (exchange o (newSeriesBuilder symbolID o time)).
Proof. intros Hf. by destruct (exchange_builder symbolID o time Hf). Qed.
Lemma series_usable_builder symbolID o time : times_fit o -> usable_builder (newSeriesBuilder symbolID o time).
Proof. intros Hf. by destruct (series_builder symbolID o time Hf). Qed.
Lemma admin_usable_builder o time v : times_fit o -> usable_builder (equals "exchange" v (timeRange o time newAdminBuilder)).
Proof. intros Hf. by destruct (equals_builds _ _ "exchange" v (timeRange_builds o time Hf)). Qed.

Section answered.
Context `{HeapOrder} (db : Database) (opts : ListOptions).
Hypotheses (Hp : prints_db db) (Hh : healthy_db db) (Hl : 0 <= Limit opts) (Ho : 0 <= Offset opts) (Hf : times_fit opts).

Local Ltac answer lem yield := eapply run_list_answers; [done..|exact eq_refl|by apply lem|apply yield|done|done].

Section series.
Context (symbolID : Z).

Lemma market_answers : answers enc_market (ListMarket db symbolID opts).
Proof.
  eapply run_list_answers; [done..|exact eq_refl|by apply exchange_usable_builder|apply yields_market|done|].
  intros l r Hr. apply firsts_in in Hr as [Hr _]. by rewrite elem_of_stable_sort in Hr.
Qed.
Lemma klines_answers : answers enc_kline (ListKlinesPage db symbolID opts).
Proof. unfold ListKlinesPage. case_match; answer interval_usable_builder yields_kline. Qed.
Lemma open_interest_answers : answers enc_open_interest_dto (ListOpenInterestPage db symbolID opts).
Proof.
  unfold ListOpenInterestPage, listOpenInterestHistory. case_match.
  - answer interval_usable_builder yields_oi_history.
  - answer exchange_usable_builder yields_oi_snapshot.
Qed.
Lemma funding_answers : answers enc_funding_dto (ListFundingPage db symbolID opts).
Proof. answer exchange_usable_builder yields_funding. Qed.
Lemma basis_answers : answers enc_basis (ListBasisPage db symbolID opts).
Proof. answer exchange_usable_builder yields_basis. Qed.
Lemma imbalance_answers : answers enc_imbalance (ListOrderbookImbalancePage db symbolID opts).
Proof. answer exchange_usable_builder yields_imbalance. Qed.
Lemma divergence_answers : answers enc_divergence (ListExchangeDivergencePage db symbolID opts).
Proof. answer series_usable_builder yields_divergence. Qed.

Lemma period_list_answers {A} (enc : A -> option json) table sch time cols m n (s : scanner A) :
  table_schema table = Some sch -> yields sch cols s (fun x => is_Some (enc x)) -> length cols = n ->
  answers enc (period_list db symbolID table time cols m n s opts).
Proof.
  intros Hsch Hy Hn. unfold period_list, default_period.
  case_match; (eapply run_list_answers; [done..|exact Hsch|by apply interval_usable_builder|exact Hy|done|done]).
Qed.
Lemma long_short_answers : answers enc_long_short (ListLongShortRatioPage db symbolID opts).
Proof. unfold ListLongShortRatioPage. eapply period_list_answers; [exact eq_refl|apply yields_long_short|done]. Qed.
Lemma taker_flow_answers : answers enc_taker_flow (ListTakerFlowPage db symbolID opts).
Proof. unfold ListTakerFlowPage. eapply period_list_answers; [exact eq_refl|apply yields_taker_flow|done]. Qed.
Lemma cvd_answers : answers enc_cvd (ListCVDPage db symbolID opts).
Proof. unfold ListCVDPage. eapply period_list_answers; [exact eq_refl|apply yields_cvd|done]. Qed.
Lemma liquidations_answers : answers enc_liquidation (ListLiquidationsPage db symbolID opts).
Proof. unfold ListLiquidationsPage. eapply period_list_answers; [exact eq_refl|apply yields_liquidation|done]. Qed.
End series.

Lemma collector_health_answers : answers enc_health (ListCollectorHealth db opts).
Proof. answer admin_usable_builder yields_health. Qed.
Lemma jobs_answers : answers enc_job (ListJobs db opts).
Proof.
  eapply run_list_answers; [done..|exact eq_refl|by apply interval_usable, admin_usable_builder|apply yields_job|done|done].
Qed.
Lemma issues_answers : answers enc_issue (ListQualityIssues db opts).
Proof.
  eapply run_list_answers; [done..|exact eq_refl|by apply interval_usable, admin_usable_builder|apply yields_issue|done|done].
Qed.
Lemma gaps_answers : answers enc_gap (ListDataGaps db opts).
Proof.
  eapply run_list_answers; [done..|exact eq_refl|by apply interval_usable, interval_usable, admin_usable_builder|apply yields_gap|done|done].
Qed.

(** The rows of the groups carry the latest of times that print. *)
Lemma heartbeat_prints r : row_prints collector_health r -> year4_ok (heartbeat r).
Proof.
  intros [Hr Hv]. unfold heartbeat. specialize (Hr "heartbeat_at" TTime true eq_refl). specialize (Hv "heartbeat_at").
  destruct (r !! "heartbeat_at") as [[]|]; cbn in Hr; try done. exact (Hv _ eq_refl).
Qed.

Lemma latest_prints d l : year4_ok d -> Forall year4_ok l -> year4_ok (foldr Z.max d l).
Proof. intros Hd. induction 1 as [|x l Hx _ IH]; [done|]. cbn [foldr]. by destruct (Z.max_spec x (foldr Z.max d l)) as [[_ ->]|[_ ->]]. Qed.

Lemma health_of_prints ex rows : Forall (row_prints collector_health) rows -> is_Some (enc_exchange_health (health_of ex rows)).
Proof.
  intros Hr. assert (year4_ok (foldr Z.max (heartbeat (default ∅ (head rows))) (map heartbeat rows))) as Ht.
  { apply latest_prints; [|apply Forall_fmap; eapply Forall_impl; [exact Hr|apply heartbeat_prints]].
    destruct Hr as [|r l Hr _]; [by vm_compute|by apply heartbeat_prints]. }
  apply members_prints. unfold health_of. cbn [eh_LastHeartbeatAt].
  repeat (constructor; [solve [eauto using year4_prints with print_db]|]). constructor.
Qed.

Lemma exchange_health_answers : answers enc_exchange_health (ListExchangeHealth db opts).
Proof.
  destruct (admin_usable_builder opts "heartbeat_at" (Exchange opts) Hf) as [Hw Ha].
  set (b := equals "exchange" (Exchange opts) (timeRange opts "heartbeat_at" newAdminBuilder)) in *.
  set (rows := filter (fun r => selects b r = true) (heap (db_rows db "collector_health"))).
  assert (Forall (row_prints collector_health) rows) as Hrows.
  { apply Forall_forall. intros r [_ Hr]%list_elem_of_filter. rewrite heap_perm in Hr.
    eapply Forall_forall; [by apply (prints_tables db Hp "collector_health" _ eq_refl)|done]. }
  assert (list_rows db b "collector_health" group_health [asc "exchange"]
    ≡ₚ map (fun ex => health_row ex (filter (fun r => exchange_of r = ex) rows)) (remove_dups (map exchange_of rows))) as Hperm
    by apply stable_sort_perm.
  apply Permutation_map_inv in Hperm as (exs & Hlist & _).
  set (ds := map (fun ex => health_of ex (filter (fun r => exchange_of r = ex) rows)) exs).
  exists (MkPaged (slice opts ds) (PageMeta_of opts (reported (slice opts ds) (length ds)))). split.
  - apply (run_list_ok db b "collector_health" group_health [asc "exchange"] exchange_health_columns _ 5 scan_exchange_health opts); try done.
    rewrite Hlist. clear. induction exs as [|ex exs IH]; constructor; [apply health_row_scanned|done].
  - apply slice_Forall, Forall_fmap, Forall_forall. intros ex _. apply health_of_prints, Forall_forall.
    intros r [_ Hr]%list_elem_of_filter. by eapply Forall_forall in Hrows.
Qed.

Lemma joined_prints s l : row_prints symbols s -> from_option (row_prints derivative_aggregated_snapshots) True l -> row_prints joined_schema (joined s l).
Proof.
  intros [Hs1 Hs2] Hla. split; [apply joined_ok; [done|by destruct l; [destruct Hla|]]|].
  assert (forall p (m : gmap string sval), map_Forall (fun _ v => val_prints v) m -> map_Forall (fun _ v => val_prints v) (prefixed p m)) as Hpre.
  { intros p m Hm k v Hk. unfold prefixed in Hk. apply lookup_kmap_Some in Hk as (c & -> & Hc); [|apply _]. by apply (Hm c). }
  unfold joined. repeat apply map_Forall_union_2; [by apply Hpre|apply Hpre|].
  - destruct l as [a|]; [by destruct Hla|apply map_Forall_empty].
  - destruct l as [a|]; [|apply map_Forall_empty]. destruct Hla as [_ Ha]. destruct (a !! "price_weighted") eqn:E1; [|destruct (a !! "price_avg") eqn:E2].
    + apply map_Forall_singleton. by apply (Ha "price_weighted").
    + apply map_Forall_singleton. by apply (Ha "price_avg").
    + apply map_Forall_empty.
Qed.

Lemma list_overview_answers now m :
  (Exchange opts = "" \/ Forall (fun s => markets_of (joined s None) <> None) (db_rows db "symbols")) ->
  answers enc_overview (list_overview db now m opts).
Proof.
  intros Hm. unfold list_overview. rewrite (Hh "symbols"), (overview_rows_ok db opts Hm).
  edestruct (yields_all joined_schema overview_columns (scan_overview now) (fun x => is_Some (enc_overview x))) as (ds & Hds & HQ);
    [apply yields_overview| |].
  2: { eexists. split; [apply (list_page_ok _ (o_args (overviewSQL opts))); try done; [apply overviewSQL_args|lia]|by apply slice_Forall]. }
  rewrite stable_sort_perm. apply Forall_forall. intros r [_ Hr]%list_elem_of_filter.
  destruct (joined_rows_in db r (proj1 (prints_typed db Hp)) Hr) as (s & l & -> & Hs & Ha).
  apply joined_prints; [by eapply Forall_forall; [apply (prints_symbols db Hp)|]|]. destruct l as [a|]; [|done]. cbn in Ha |- *.
  by eapply Forall_forall; [apply (prints_tables db Hp "derivative_aggregated_snapshots" _ eq_refl)|].
Qed.

Lemma yields_Scan {A} sch cols n (s : scanner A) Q r : yields sch cols s Q -> length cols = n -> row_prints sch r ->
  exists a, Scan n s (project cols r) = Ok a /\ Q a.
Proof.
  intros Hy Hn Hr. destruct (Hy r 0 Hr) as (a & i & Ha & HQ). exists a. split; [|done]. unfold Scan.
  unfold project at 1. rewrite length_map, Hn, Nat.eqb_refl. cbn [negb]. by rewrite Ha.
Qed.

(** A resolved symbol prints, and the only error is that there is none. *)
Lemma ResolveSymbol_prints name :
  match ResolveSymbol db name with Ok (dto, i) => is_Some (enc_symbol dto) | Err e => e = ErrNotFound end.
Proof.
  unfold ResolveSymbol. destruct (TrimSpace name =? "")%string; [done|]. unfold query_row. rewrite (Hh "symbols"). cbn [query_error iter_error no_fault].
  destruct (resolve_rows db (TrimSpace name)) as [|r rows] eqn:E; cbn [take head]; [done|].
  destruct (yields_Scan symbols symbol_columns 8 scan_symbol (fun x => is_Some (enc_symbol x)) r) as (dto & -> & Hd); [apply yields_symbol|done| |done].
  assert (r ∈ resolve_rows db (TrimSpace name)) as Hr by (rewrite E; by left).
  unfold resolve_rows in Hr. rewrite elem_of_stable_sort, list_elem_of_filter, heap_perm in Hr.
  eapply Forall_forall; [apply (prints_symbols db Hp)|]. by destruct Hr.
Qed.

Lemma LatestAggregate_prints now i : exists o, LatestAggregate db now i = Ok o /\ from_option (fun a => is_Some (enc_aggregate a)) True o /\
  raw_prints (from_option ag_RawByExchange RawEmpty o).
Proof.
  unfold LatestAggregate, query_row. rewrite (Hh _). cbn [query_error iter_error no_fault].
  destruct (aggregate_rows db i) as [|r rows] eqn:E; cbn [take head]; [exists None; split_and!; [done..|by eexists]|].
  destruct (yields_Scan derivative_aggregated_snapshots aggregate_columns 20 (scan_aggregate now)
              (fun x => is_Some (enc_aggregate x) /\ raw_prints (ag_RawByExchange x)) r) as (d & -> & Hd); [|done| |by exists (Some d)].
  - repeat (eapply yields_column; [solve [eauto with gives_db]|intros ? ?]); apply yields_ret. split; [|by apply ensureJSON_prints].
    unfold enc_aggregate. apply members_prints. repeat (constructor; [solve [eauto with print_db]|]); constructor.
  - destruct (aggregate_rows_newest db i r (proj1 (prints_typed db Hp))) as [Hr _]; [by rewrite E|].
    by eapply Forall_forall; [apply (prints_tables db Hp "derivative_aggregated_snapshots" _ eq_refl)|].
Qed.

Lemma ignored_prints {A} (enc : A -> option json) res : answers enc res -> Forall (fun x => is_Some (enc x)) (ignore (data_of res)).
Proof. by intros (p & -> & Hd). Qed.
End answered.

Lemma detail_answers `{HeapOrder} db now name opts : prints_db db -> healthy_db db -> times_fit opts -> 1 <= Limit opts ->
  match GetSymbolDetail db now name opts with Ok d => is_Some (enc_detail d) | Err e => e = ErrNotFound end.
Proof.
  intros Hp Hh Hf Hl. unfold GetSymbolDetail. pose proof (ResolveSymbol_prints db Hp Hh name) as Hr.
  destruct (ResolveSymbol db name) as [[dto i]|e]; [|done]. cbn [fst snd].
  destruct (LatestAggregate_prints db Hp Hh now i) as (o & -> & Ho & Hraw). cbv zeta.
  set (o' := with_limit opts (minPositive (Limit opts) 100) 1).
  assert (0 <= Limit o') as Hlo by (cbn; unfold minPositive; repeat case_match; bool_to_prop; lia).
  assert (0 <= Offset o') as Hoo by (unfold Offset; cbn; by rewrite wrap64_ok).
  assert (times_fit o') as Hfo by exact Hf.
  apply members_prints. cbn [dt_Symbol dt_Market dt_PerExchange dt_Klines dt_OpenInterest dt_Funding dt_LongShortRatio dt_TakerFlow dt_CVD
    dt_Liquidations dt_Basis dt_OrderbookImbalance dt_ExchangeDivergence].
  constructor; [by apply m_json_prints|]. constructor; [destruct o; [by apply m_json_prints|by eexists]|].
  constructor; [by apply m_raw_omit_prints|].
  repeat (constructor; [apply m_list_omit_prints, ignored_prints;
    auto using klines_answers, open_interest_answers, funding_answers, long_short_answers, taker_flow_answers, cvd_answers,
      liquidations_answers, basis_answers, imbalance_answers, divergence_answers|]).
  constructor.
Qed.
