(* ===== verification/ApiHandlers.v ===== *)
(** * The HTTP handlers of the API ([internal/api/derivatives]: [handler.go], [realtime_handler.go])

    A request is its path in segments, as [http.ServeMux] matches it, and its query.  A response is
    its status and the JSON written; the body is [None] when the encoder failed, which happens after
    the status was written.  The deadline of a request shows in the faults of the database and in the
    context of the store. *)

From S2P Require Import Prelude GoString GoTime GoFloat GoError GoOutcome GoJson GoJsonText ApiQuery ApiStore ApiSchema ApiSeries ApiAdmin.
From S2P Require Import ApiOverview RealtimeStore RealtimeEvents RealtimeStreams ApiJson.

(** ** Responses *)

Record Response := MkResponse { r_status : Z; r_body : option json }.

Definition StatusOK : Z := 200.
Definition StatusBadRequest : Z := 400.
Definition StatusNotFound : Z := 404.
Definition StatusInternalServerError : Z := 500.
Definition StatusServiceUnavailable : Z := 503.
Definition StatusGatewayTimeout : Z := 504.

(** [body] is what the encoder makes of the value. *)
Definition writeAPIJSON (status : Z) (body : option json) : Response := MkResponse status body.
Definition writeAPIError (status : Z) (code message : string) : Response := writeAPIJSON status (Some (enc_error code message)).

Definition errorStatus (err : error) : Z * string :=
  if errors_Is err ErrNotFound then (StatusNotFound, "not_found") else
  if errors_Is err DeadlineExceeded then (StatusGatewayTimeout, "timeout") else
  if Contains (ToLower (Error err)) "not found" then (StatusNotFound, "not_found") else
  (StatusInternalServerError, "internal_error").

(** [status, code := errorStatus(err); writeAPIError(w, status, code, err.Error(), nil)]. *)
Definition error_response (err : error) : Response := let '(status, code) := errorStatus err in writeAPIError status code (Error err).

(** ** Handlers *)

(** [r.PathValue] and [r.URL.Query().Get]. *)
Record Request := MkRequest { PathValue : string -> string; Query : string -> string }.
Definition handler : Type := Request -> Response.

Definition withOptions (fn : ListOptions -> result error (option json)) : handler := fun r =>
  match ParseListOptions (Query r) with
  | Err err => writeAPIError StatusBadRequest "bad_request" (Error err)
  | Ok opts =>
    match fn opts with
    | Err err => error_response err
    | Ok body => writeAPIJSON StatusOK body
    end
  end.

(** The value a repository function returns, with its encoding. *)
Definition encoded {A} (enc : A -> option json) (r : result error A) : result error (option json) := let! a := r in Ok (enc a).

Section handlers.
Context `{HeapOrder} (db : Database) (now : Time).

Definition withSymbol (fn : Z -> ListOptions -> result error (option json)) : handler := fun r =>
  withOptions (fun opts => let! s := ResolveSymbol db (PathValue r "symbol") in fn (snd s) opts) r.

Definition overview : handler := withOptions (fun opts => encoded (enc_page enc_overview) (ListOverview db now opts)).
Definition h_symbols : handler := withOptions (fun opts => encoded (enc_page enc_overview) (ListSymbols db now opts)).
Definition symbolDetail : handler := fun r =>
  withOptions (fun opts => encoded enc_detail (GetSymbolDetail db now (PathValue r "symbol") opts)) r.

Definition market : handler := withSymbol (fun i opts => encoded (enc_page enc_market) (ListMarket db i opts)).
Definition klines : handler := withSymbol (fun i opts => encoded (enc_page enc_kline) (ListKlinesPage db i opts)).
Definition openInterest : handler := withSymbol (fun i opts => encoded (enc_page enc_open_interest_dto) (ListOpenInterestPage db i opts)).
Definition funding : handler := withSymbol (fun i opts => encoded (enc_page enc_funding_dto) (ListFundingPage db i opts)).
Definition longShortRatio : handler := withSymbol (fun i opts => encoded (enc_page enc_long_short) (ListLongShortRatioPage db i opts)).
Definition takerFlow : handler := withSymbol (fun i opts => encoded (enc_page enc_taker_flow) (ListTakerFlowPage db i opts)).
Definition cvd : handler := withSymbol (fun i opts => encoded (enc_page enc_cvd) (ListCVDPage db i opts)).
Definition liquidations : handler := withSymbol (fun i opts => encoded (enc_page enc_liquidation) (ListLiquidationsPage db i opts)).
Definition basis : handler := withSymbol (fun i opts => encoded (enc_page enc_basis) (ListBasisPage db i opts)).
Definition orderbookImbalance : handler := withSymbol (fun i opts => encoded (enc_page enc_imbalance) (ListOrderbookImbalancePage db i opts)).
Definition exchangeDivergence : handler := withSymbol (fun i opts => encoded (enc_page enc_divergence) (ListExchangeDivergencePage db i opts)).

Definition collectorHealth : handler := withOptions (fun opts => encoded (enc_page enc_health) (ListCollectorHealth db opts)).
Definition exchangeHealth : handler := withOptions (fun opts => encoded (enc_page enc_exchange_health) (ListExchangeHealth db opts)).
Definition jobs : handler := withOptions (fun opts => encoded (enc_page enc_job) (ListJobs db opts)).
Definition qualityIssues : handler := withOptions (fun opts => encoded (enc_page enc_issue) (ListQualityIssues db opts)).
Definition dataGaps : handler := withOptions (fun opts => encoded (enc_page enc_gap) (ListDataGaps db opts)).
End handlers.

(** ** Routes *)

(** A segment of a pattern: a literal, or a wildcard that matches any non-empty segment. *)
Inductive segment := Lit (s : string) | Wild (name : string).

Definition under (segs : list segment) : list segment := Lit "api" :: Lit "v1" :: Lit "derivatives" :: segs.
Definition of_symbol (name : string) : list segment := under [Lit "symbols"; Wild "symbol"; Lit name].

(** The values of the wildcards when a path matches a pattern. *)
Fixpoint match_path (pattern : list segment) (path : list string) : option (list (string * string)) :=
  match pattern, path with
  | [], [] => Some []
  | Lit s :: pattern, x :: path => if (s =? x)%string then match_path pattern path else None
  | Wild name :: pattern, x :: path => if (x =? "")%string then None else (fun l => (name, x) :: l) <$> match_path pattern path
  | _, _ => None
  end.
Definition path_value (l : list (string * string)) (name : string) : string :=
  default "" (snd <$> find (fun x => (fst x =? name)%string) l).

(** The first route that matches, with the values of its wildcards. *)
Fixpoint find_route {A} (routes : list (list segment * A)) (path : list string) : option (list (string * string) * A) :=
  match routes with
  | [] => None
  | (pattern, h) :: rest => match match_path pattern path with Some l => Some (l, h) | None => find_route rest path end
  end.

Definition Register `{HeapOrder} (db : Database) (now : Time) : list (list segment * handler) :=
  [(under [Lit "overview"], overview db now); (under [Lit "symbols"], h_symbols db now);
   (under [Lit "symbols"; Wild "symbol"], symbolDetail db now);
   (of_symbol "market", market db); (of_symbol "klines", klines db); (of_symbol "open-interest", openInterest db);
   (of_symbol "funding", funding db); (of_symbol "long-short-ratio", longShortRatio db); (of_symbol "taker-flow", takerFlow db);
   (of_symbol "cvd", cvd db); (of_symbol "liquidations", liquidations db); (of_symbol "basis", basis db);
   (of_symbol "orderbook-imbalance", orderbookImbalance db); (of_symbol "exchange-divergence", exchangeDivergence db);
   (under [Lit "health"; Lit "collectors"], collectorHealth db); (under [Lit "health"; Lit "exchanges"], exchangeHealth db);
   (under [Lit "jobs"], jobs db); (under [Lit "quality"; Lit "issues"], qualityIssues db); (under [Lit "quality"; Lit "gaps"], dataGaps db)].

(** [None]: no pattern matches, and the mux answers itself. *)
Definition ServeHTTP `{HeapOrder} (db : Database) (now : Time) (path : list string) (query : string -> string) : option Response :=
  (fun x => snd x (MkRequest (path_value (fst x)) query)) <$> find_route (Register db now) path.

(** ** Realtime *)

(** [badRequestError] is told from the other errors by its type. *)
Inductive failure := BadRequest (message : string) | Failed (err : error).

Section realtime.
Context {S V : Type} `{Store S V} `{JsonText V}.

(** A handler of the realtime store; [None] is a panic, on which the server drops the connection. *)
Definition rt_handler : Type := Ctx -> (string -> string) -> option S -> option Response * option S.

(** [withRealtime] around the function of the handler, with what its result encodes to. *)
Definition withRealtime (fn : Ctx -> (string -> string) -> S -> option (failure + option json) * S) : rt_handler := fun ctx path_of s =>
  match s with
  | None => (Some (writeAPIError StatusServiceUnavailable "unavailable" "realtime store is not configured"), None)
  | Some s =>
    let '(r, s') := fn ctx path_of s in
    (match r with
     | None => None
     | Some (inl (BadRequest message)) => Some (writeAPIError StatusBadRequest "bad_request" message)
     | Some (inl (Failed err)) => Some (error_response err)
     | Some (inr body) => Some (writeAPIJSON StatusOK body)
     end, Some s')
  end.

(** [GetJSON], [ErrNotFound] when there is nothing, and the value found. *)
Definition read_json {A} (dec : json -> option A) (enc : A -> option json) (ctx : Ctx) (key : string) (s : S)
    : option (failure + option json) * S :=
  let '(r, s') := GetJSON ctx dec key s in
  (match r with
   | Value (Some a) => Some (inr (enc a))
   | Value None => Some (inl (Failed ErrNotFound))
   | Fail err => Some (inl (Failed err))
   | Panic => None
   end, s').

Definition readLatest : Ctx -> string -> S -> option (failure + option json) * S := read_json dec_event enc_event.

Definition latestExchangeSymbol : rt_handler := withRealtime (fun ctx path_of s =>
  match LatestKey (path_of "kind") (path_of "exchange") (path_of "source_symbol") 0 with
  | Err err => (Some (inl (BadRequest (Error err))), s)
  | Ok key => readLatest ctx key s
  end).

Definition latestAggregate : rt_handler := withRealtime (fun ctx path_of s =>
  match ParseInt (path_of "symbol_id") with
  | Some symbolID =>
    if symbolID <=? 0 then (Some (inl (BadRequest "symbol_id must be a positive integer")), s)
    else readLatest ctx (LatestAggregateKey symbolID) s
  | None => (Some (inl (BadRequest "symbol_id must be a positive integer")), s)
  end).

Definition wsState : rt_handler := withRealtime (fun ctx path_of s =>
  read_json dec_state enc_state ctx (WSStateKey (path_of "exchange") (path_of "stream")) s).

Definition RegisterRealtime : list (list segment * rt_handler) :=
  [(under [Lit "realtime"; Lit "latest"; Wild "kind"; Wild "exchange"; Wild "source_symbol"], latestExchangeSymbol);
   (under [Lit "realtime"; Lit "aggregate"; Wild "symbol_id"], latestAggregate);
   (under [Lit "realtime"; Lit "ws-state"; Wild "exchange"; Wild "stream"], wsState)].

Definition ServeRealtime (ctx : Ctx) (path : list string) (s : option S) : option (option Response * option S) :=
  (fun x => snd x ctx (path_value (fst x)) s) <$> find_route RegisterRealtime path.
End realtime.

(** ** Routing *)

Lemma find_route_Some {A} (routes : list (list segment * A)) path l h :
  find_route routes path = Some (l, h) -> exists pattern, (pattern, h) ∈ routes /\ match_path pattern path = Some l.
Proof.
  induction routes as [|[p h'] routes IH]; cbn [find_route]; [done|]. destruct (match_path p path) as [l'|] eqn:E.
  - intros [= -> ->]. exists p. split; [by left|done].
  - intros H. destruct (IH H) as (p' & Hin & Hm). exists p'. split; [by right|done].
Qed.

Lemma find_route_None {A} (routes : list (list segment * A)) path :
  find_route routes path = None -> Forall (fun x => match_path (fst x) path = None) routes.
Proof.
  induction routes as [|[p h'] routes IH]; cbn [find_route]; [constructor|]. destruct (match_path p path) as [l'|] eqn:E; [done|].
  intros H. constructor; [done|by apply IH].
Qed.

(** Two patterns some path could match. *)
Fixpoint overlap (p q : list segment) : bool :=
  match p, q with
  | [], [] => true
  | Lit s :: p, Lit t :: q => (s =? t)%string && overlap p q
  | _ :: p, _ :: q => overlap p q
  | _, _ => false
  end.

Lemma overlap_complete p q path l k : match_path p path = Some l -> match_path q path = Some k -> overlap p q = true.
Proof.
  revert q path l k. induction p as [|[s|s] p IH]; intros [|[t|t] q] [|x path] l k; cbn [match_path overlap]; try done.
  - destruct (String.eqb_spec s x) as [->|]; [|done]. destruct (String.eqb_spec t x) as [->|]; [|done].
    intros H1 H2. rewrite String.eqb_refl. by eapply IH.
  - destruct (String.eqb_spec s x) as [->|]; [|done]. destruct (x =? "")%string; [done|].
    intros H1 (k' & H2 & _)%fmap_Some. by eapply IH.
  - destruct (x =? "")%string; [done|]. destruct (String.eqb_spec t x) as [->|]; [|done].
    intros (l' & H1 & _)%fmap_Some H2. by eapply IH.
  - destruct (x =? "")%string; [done|]. intros (l' & H1 & _)%fmap_Some (k' & H2 & _)%fmap_Some. by eapply IH.
Qed.

(** No two patterns of a list overlap. *)
Fixpoint separate (ps : list (list segment)) : bool :=
  match ps with
  | [] => true
  | p :: ps => forallb (fun q => negb (overlap p q) && negb (overlap q p)) ps && separate ps
  end.

Lemma separate_sound ps i j p q : separate ps = true -> ps !! i = Some p -> ps !! j = Some q -> overlap p q = true -> i = j.
Proof.
  revert i j. induction ps as [|x ps IH]; intros i j; cbn [separate]; [done|]. rewrite andb_true_iff, forallb_forall. intros [Hx Hs].
  destruct i as [|i], j as [|j]; cbn [lookup list_lookup]; [done|..].
  - intros [= ->] Hq Ho. specialize (Hx q). rewrite Ho in Hx. discriminate Hx. by apply list_elem_of_In, list_elem_of_lookup_2 with j.
  - intros Hp [= ->] Ho. specialize (Hx p). rewrite Ho, andb_false_r in Hx. discriminate Hx. by apply list_elem_of_In, list_elem_of_lookup_2 with i.
  - intros Hp Hq Ho. f_equal. by eapply IH.
Qed.

(** The symbol a path names. *)
Definition symbol_of_path (path : list string) : option string :=
  match path with _ :: _ :: _ :: s :: sym :: _ => if (s =? "symbols")%string then Some sym else None | _ => None end.

(** ** Every request is answered *)

Section answered.
Context `{HeapOrder} (db : Database) (now : Time).
Hypotheses (Hp : prints_db db) (Hh : healthy_db db).

(** What the options of a request must satisfy beyond being parsed: times the database can hold, a
    page whose offset does not overflow, and, where an exchange is asked for, markets that are arrays. *)
Definition fits (opts : ListOptions) : Prop :=
  times_fit opts /\ (Page opts - 1) * Limit opts <= max_int64 /\
  (Exchange opts = "" \/ Forall (fun s => markets_of (joined s None) <> None) (db_rows db "symbols")).

Lemma fits_bounds opts : options_ok opts -> fits opts -> 0 <= Limit opts /\ 0 <= Offset opts.
Proof.
  intros Ho (_ & Hm & _). destruct (ok_limit _ Ho), (ok_page _ Ho). split; [lia|]. unfold Offset.
  rewrite wrap64_ok; [nia|]. unfold int64_ok, min_int64, two63. nia.
Qed.

Lemma encoded_page {A} (enc : A -> option json) res : answers enc res -> exists j, encoded (enc_page enc) res = Ok (Some j).
Proof. intros (p & -> & Hd). destruct (enc_page_prints enc p Hd) as [j Hj]. exists j. cbn [encoded]. by rewrite Hj. Qed.

(** The answer to a request of a symbol that may be missing. *)
Definition proper (q : string -> string) (sym : option string) (resp : Response) : Prop :=
  match ParseListOptions q with
  | Err err => resp = writeAPIError StatusBadRequest "bad_request" (Error err)
  | Ok _ =>
    match ResolveSymbol db <$> sym with
    | Some (Err err) => err = ErrNotFound /\ resp = writeAPIError StatusNotFound "not_found" "not found"
    | _ => exists j, resp = MkResponse StatusOK (Some j)
    end
  end.

Lemma withOptions_proper fn r : (forall opts, ParseListOptions (Query r) = Ok opts -> exists j, fn opts = Ok (Some j)) ->
  proper (Query r) None (withOptions fn r).
Proof.
  intros Hfn. unfold proper, withOptions. destruct (ParseListOptions (Query r)) as [opts|err]; [|done].
  destruct (Hfn opts eq_refl) as [j ->]. by exists j.
Qed.

Lemma withSymbol_proper fn r : (forall i opts, ParseListOptions (Query r) = Ok opts -> exists j, fn i opts = Ok (Some j)) ->
  proper (Query r) (Some (PathValue r "symbol")) (withSymbol db fn r).
Proof.
  intros Hfn. unfold proper, withSymbol, withOptions. destruct (ParseListOptions (Query r)) as [opts|err]; [|done].
  cbn [fmap option_fmap option_map]. pose proof (ResolveSymbol_prints db Hp Hh (PathValue r "symbol")) as Hr.
  destruct (ResolveSymbol db (PathValue r "symbol")) as [[dto i]|err]; [|by subst].
  cbn [snd]. destruct (Hfn i opts eq_refl) as [j ->]. by exists j.
Qed.

Lemma symbolDetail_proper r : (forall opts, ParseListOptions (Query r) = Ok opts -> times_fit opts /\ 1 <= Limit opts) ->
  proper (Query r) (Some (PathValue r "symbol")) (symbolDetail db now r).
Proof.
  intros Hopts. unfold proper, symbolDetail, withOptions. destruct (ParseListOptions (Query r)) as [opts|err]; [|done].
  destruct (Hopts opts eq_refl) as [Hf Hl]. cbn [fmap option_fmap option_map].
  pose proof (detail_answers db now (PathValue r "symbol") opts Hp Hh Hf Hl) as Hd.
  pose proof (ResolveSymbol_prints db Hp Hh (PathValue r "symbol")) as Hr.
  unfold GetSymbolDetail in *. destruct (ResolveSymbol db (PathValue r "symbol")) as [[dto i]|err]; [|by subst].
  cbn [fst snd] in *. destruct (LatestAggregate_prints db Hp Hh now i) as (o & Ho & _). rewrite Ho in *.
  destruct Hd as [j Hj]. exists j. cbn [encoded]. by rewrite Hj.
Qed.
End answered.

(** Peel the literals of a matched pattern off the path. *)
Local Ltac peel path := destruct path as [|? path]; [done|]; cbn [match_path];
  match goal with |- (if (?s =? ?x)%string then _ else _) = _ -> _ => destruct (String.eqb_spec s x) as [<-|]; [|done] end.

Lemma plain_path a path l : match_path (under [Lit a]) path = Some l -> symbol_of_path path = None.
Proof. unfold under. do 4 peel path. by destruct path. Qed.
Lemma plain_path2 a b path l : match_path (under [Lit a; Lit b]) path = Some l -> a <> "symbols" -> symbol_of_path path = None.
Proof. unfold under. do 4 peel path. destruct path; [done|]. intros _ Ha. cbn. by rewrite (proj2 (String.eqb_neq _ _) Ha). Qed.
Lemma symbol_path path l : match_path (under [Lit "symbols"; Wild "symbol"]) path = Some l ->
  symbol_of_path path = Some (path_value l "symbol").
Proof. unfold under. do 4 peel path. destruct path as [|e path]; [done|]. cbn [match_path]. case_match; [done|]. by intros (k & _ & ->)%fmap_Some. Qed.
Lemma of_symbol_path name path l : match_path (of_symbol name) path = Some l -> symbol_of_path path = Some (path_value l "symbol").
Proof.
  unfold of_symbol, under. do 4 peel path. destruct path as [|e path]; [done|]. cbn [match_path]. case_match; [done|].
  by intros (k & _ & ->)%fmap_Some.
Qed.

(** Every route parses its options first. *)
Lemma withOptions_bad fn r :
  (r_status (withOptions fn r) = StatusBadRequest <-> exists err, ParseListOptions (Query r) = Err err) /\
  forall err, ParseListOptions (Query r) = Err err -> withOptions fn r = writeAPIError StatusBadRequest "bad_request" (Error err).
Proof.
  unfold withOptions. destruct (ParseListOptions (Query r)) as [opts|err].
  - split; [|done]. split; [|by intros [? ?]]. destruct (fn opts) as [body|e]; [done|]. unfold error_response, errorStatus.
    by repeat case_match; simplify_eq.
  - split; [|by intros ? [= <-]]. split; [by exists err|done].
Qed.

Lemma Register_withOptions `{HeapOrder} db now x r : x ∈ Register db now -> exists fn, snd x r = withOptions fn r.
Proof.
  intros Hin. unfold Register in Hin. repeat (apply elem_of_cons in Hin as [->|Hin]; [by eexists|]). by apply not_elem_of_nil in Hin.
Qed.

(** C12: what the API answers.  Whatever the database and its faults, a path is answered by at most one
    route, and a routed request is answered 400, with the parser's message, exactly when its query does
    not parse.  Let the query parse.  On typed tables without faults, when the tables hold only values
    with a JSON (no NaN, no time outside the years 0 to 9999) and the query fits (its times fit a
    timestamp, its offset fits 64 bits and, when it asks for an exchange, the markets of the symbols are
    arrays), the answer is 404 exactly when the path names a symbol that is not found, and 200 with a
    JSON body in every other case: no list fails, no row fails to scan and nothing fails to encode. *)
Theorem api_answers `{HeapOrder} db now path q :
  (prints_db db -> healthy_db db -> (forall opts, ParseListOptions q = Ok opts -> fits db opts) ->
   match ServeHTTP db now path q with
   | None => Forall (fun x => match_path (fst x) path = None) (Register db now)
   | Some resp => proper db q (symbol_of_path path) resp
   end) /\
  (forall resp, ServeHTTP db now path q = Some resp ->
     (r_status resp = StatusBadRequest <-> exists err, ParseListOptions q = Err err) /\
     forall err, ParseListOptions q = Err err -> resp = writeAPIError StatusBadRequest "bad_request" (Error err)) /\
  (forall i j x y, Register db now !! i = Some x -> Register db now !! j = Some y ->
     is_Some (match_path (fst x) path) -> is_Some (match_path (fst y) path) -> i = j).
Proof.
  split; [intros Hp Hh Hq|split].
  - unfold ServeHTTP. destruct (find_route (Register db now) path) as [[l h]|] eqn:E; [|by apply find_route_None].
    apply find_route_Some in E as (pattern & Hin & Hm). cbn [fmap option_fmap option_map fst snd].
    remember (MkRequest (path_value l) q) as r eqn:Er. assert (Query r = q /\ PathValue r = path_value l) as [<- Hv] by by subst.
    clear Er.
    assert (forall opts, ParseListOptions (Query r) = Ok opts ->
      1 <= Limit opts /\ 0 <= Limit opts /\ 0 <= Offset opts /\ times_fit opts /\
      (Exchange opts = "" \/ Forall (fun s => markets_of (joined s None) <> None) (db_rows db "symbols"))) as Hopts.
    { intros opts Ho. destruct (ParseListOptions_ok _ _ Ho) as [Hok _]. specialize (Hq opts Ho).
      destruct (fits_bounds db opts Hok Hq). destruct (ok_limit _ Hok), Hq as (? & _ & ?). by split_and!. }
    unfold Register in Hin. repeat (apply elem_of_cons in Hin as [[= -> ->]|Hin]); [..|by apply not_elem_of_nil in Hin];
      first [rewrite (plain_path _ _ _ Hm); apply withOptions_proper; intros opts Ho
            |rewrite (plain_path2 _ _ _ _ Hm) by done; apply withOptions_proper; intros opts Ho
            |rewrite (of_symbol_path _ _ _ Hm), <- Hv; apply withSymbol_proper; [done..|]; intros i opts Ho
            |rewrite (symbol_path _ _ Hm), <- Hv; apply symbolDetail_proper; [done..|]; intros opts Ho];
      destruct (Hopts opts Ho) as (Hl1 & Hl & Hof & Ht & Hmk); first [by split|apply encoded_page];
      auto using list_overview_answers, market_answers, klines_answers, open_interest_answers, funding_answers, long_short_answers,
        taker_flow_answers, cvd_answers, liquidations_answers, basis_answers, imbalance_answers, divergence_answers,
        collector_health_answers, exchange_health_answers, jobs_answers, issues_answers, gaps_answers.
    all: by apply list_overview_answers.
  - unfold ServeHTTP. intros resp E. destruct (find_route (Register db now) path) as [[l h]|] eqn:Ef; [|done].
    apply find_route_Some in Ef as (pattern & Hin & _). injection E as <-. cbn [fst snd].
    destruct (Register_withOptions db now (pattern, h) (MkRequest (path_value l) q) Hin) as [fn Hfn]. cbn [snd] in Hfn. rewrite Hfn.
    apply (withOptions_bad fn (MkRequest (path_value l) q)).
  - intros i j x y Hi Hj [l Hl] [k Hk]. apply (separate_sound (map fst (Register db now)) i j (fst x) (fst y)); [done|..].
    + change (map fst (Register db now)) with (fst <$> Register db now). rewrite list_lookup_fmap. by rewrite Hi.
    + change (map fst (Register db now)) with (fst <$> Register db now). rewrite list_lookup_fmap. by rewrite Hj.
    + by eapply overlap_complete.
Qed.

(** ** A database that fails *)

(** The database on which every statement fails with an error. *)
Definition failing (db : Database) (err : error) : Database := MkDatabase (db_rows db) (fun _ => MkFault (Some err) None).

Section failing.
Context `{HeapOrder} (db : Database) (now : Time) (err : error).

(** A repository function that passes the error on with a prefix. *)
Definition passes {A} (r : result error A) : Prop := exists m, r = Err (wrap m err).

Lemma run_list_passes {A} b table shape order cols m n (s : scanner A) opts :
  passes (run_list (failing db err) b table shape order cols m n s opts).
Proof. by eexists. Qed.
Lemma list_overview_passes m opts : passes (list_overview (failing db err) now m opts).
Proof. by eexists. Qed.
Lemma ResolveSymbol_passes name : TrimSpace name <> "" -> passes (ResolveSymbol (failing db err) name).
Proof. intros Hn. exists "resolve symbol". unfold ResolveSymbol. by rewrite (proj2 (String.eqb_neq _ _) Hn). Qed.

Lemma passes_encoded {A} (enc : A -> option json) r : passes r -> passes (encoded enc r).
Proof. intros [m ->]. by exists m. Qed.

Lemma withOptions_passes fn r opts : ParseListOptions (Query r) = Ok opts -> passes (fn opts) ->
  exists m, withOptions fn r = error_response (wrap m err).
Proof. intros Ho [m Hm]. exists m. unfold withOptions. by rewrite Ho, Hm. Qed.
Lemma withSymbol_passes fn r opts : ParseListOptions (Query r) = Ok opts -> TrimSpace (PathValue r "symbol") <> "" ->
  exists m, withSymbol (failing db err) fn r = error_response (wrap m err).
Proof.
  intros Ho Hs. apply (withOptions_passes _ _ opts); [done|]. destruct (ResolveSymbol_passes _ Hs) as [m ->]. by exists m.
Qed.
Lemma symbolDetail_passes r opts : ParseListOptions (Query r) = Ok opts -> TrimSpace (PathValue r "symbol") <> "" ->
  exists m, symbolDetail (failing db err) now r = error_response (wrap m err).
Proof.
  intros Ho Hs. apply (withOptions_passes _ _ opts); [done|]. apply passes_encoded. unfold GetSymbolDetail.
  destruct (ResolveSymbol_passes _ Hs) as [m ->]. by exists m.
Qed.
End failing.

(** The status is that of the error itself: a prefix changes neither sentinel. *)
Lemma errors_Is_wrap m err t : (forall p e s, same_error t (WrapError p e s) = false) -> errors_Is (wrap m err) t = errors_Is err t.
Proof. intros Ht. unfold errors_Is, wrap. cbn [chain existsb]. by rewrite Ht. Qed.

(** C16: a failing database never looks like data.  When every statement fails with an error, each path
    of the API with a query that parses (and a symbol that is not blank) answers with that error: its
    text behind a prefix that names the statement, 504 when it is the deadline of the request, 404
    only when it says "not found", and 500 otherwise. *)
Theorem api_reports_faults `{HeapOrder} db now err path q opts resp :
  ServeHTTP (failing db err) now path q = Some resp -> ParseListOptions q = Ok opts ->
  from_option (fun sym => TrimSpace sym <> "") True (symbol_of_path path) ->
  exists m, resp = error_response (wrap m err) /\
    (errors_Is err DeadlineExceeded = true -> errors_Is err ErrNotFound = false ->
       resp = writeAPIError StatusGatewayTimeout "timeout" (m +:+ ": " +:+ Error err)) /\
    (errors_Is err ErrNotFound = false -> errors_Is err DeadlineExceeded = false ->
       Contains (ToLower (m +:+ ": " +:+ Error err)) "not found" = false ->
       resp = writeAPIError StatusInternalServerError "internal_error" (m +:+ ": " +:+ Error err)).
Proof.
  intros Hs Hq Hsym. assert (exists m, resp = error_response (wrap m err)) as [m ->].
  { unfold ServeHTTP in Hs. destruct (find_route (Register (failing db err) now) path) as [[l h]|] eqn:E; [|done].
    injection Hs as <-. apply find_route_Some in E as (pattern & Hin & Hm). cbn [fst snd].
    remember (MkRequest (path_value l) q) as r eqn:Er. assert (Query r = q /\ PathValue r = path_value l) as [<- Hv] by by subst. clear Er.
    unfold Register in Hin. repeat (apply elem_of_cons in Hin as [[= -> ->]|Hin]); [..|by apply not_elem_of_nil in Hin];
      first [by apply (withOptions_passes err _ _ opts Hq), passes_encoded, run_list_passes
            |by apply (withOptions_passes err _ _ opts Hq), passes_encoded, list_overview_passes
            |rewrite (of_symbol_path _ _ _ Hm), <- Hv in Hsym; by apply (withSymbol_passes db err _ _ opts)
            |rewrite (symbol_path _ _ Hm), <- Hv in Hsym; by apply (symbolDetail_passes db now err _ opts)]. }
  exists m. assert (Error (wrap m err) = m +:+ ": " +:+ Error err) as HE.
  { apply to_bytes_inj. cbn [wrap Error]. by rewrite !to_bytes_app, app_nil_r, <- !app_assoc. }
  split_and!; [done|..]; unfold error_response, errorStatus; rewrite !errors_Is_wrap, HE by done; [by intros -> ->|by intros -> -> ->].
Qed.

(** ** The realtime endpoints *)

Definition realtime_path (segs : list string) : list string := "api" :: "v1" :: "derivatives" :: "realtime" :: segs.

Lemma lit_match s pattern path : match_path (Lit s :: pattern) (s :: path) = match_path pattern path.
Proof. cbn [match_path]. by rewrite String.eqb_refl. Qed.
Lemma lit_other s x pattern path : s <> x -> match_path (Lit s :: pattern) (x :: path) = None.
Proof. intros Hs. cbn [match_path]. by rewrite (proj2 (String.eqb_neq _ _) Hs). Qed.
Lemma wild_match n x pattern path : x <> "" -> match_path (Wild n :: pattern) (x :: path) = (fun l => (n, x) :: l) <$> match_path pattern path.
Proof. intros Hx. cbn [match_path]. by rewrite (proj2 (String.eqb_neq _ _) Hx). Qed.

Section realtime_reads.
Context {S V : Type} `{StoreLaws S V} `{JsonText V}.

(** What a key answers: the value that is held, or that there is none. *)
Lemma read_json_live {A} (dec : json -> option A) enc ctx key (s : S) o s' v a :
  GetRaw ctx key s = (Value o, s') -> live s (ctx_now ctx) key = Some (json_text v) -> dec v = Some a ->
  read_json dec enc ctx key s = (Some (inr (enc a)), s').
Proof.
  intros Hg Hl Hd. unfold read_json. rewrite (GetJSON_live _ _ _ _ _ _ Hg), Hl, text_json_text. cbn [Unmarshal]. by rewrite Hd.
Qed.
Lemma read_json_none {A} (dec : json -> option A) enc ctx key (s : S) o s' :
  GetRaw ctx key s = (Value o, s') -> live s (ctx_now ctx) key = None ->
  read_json dec enc ctx key s = (Some (inl (Failed ErrNotFound)), s').
Proof. intros Hg Hl. unfold read_json. by rewrite (GetJSON_live _ _ _ _ _ _ Hg), Hl. Qed.

(** The routes of the realtime API. *)
Lemma serve_latest ctx kind exchange sym s : kind <> "" -> exchange <> "" -> sym <> "" ->
  ServeRealtime (S:=S) (V:=V) ctx (realtime_path ["latest"; kind; exchange; sym]) s
  = Some (latestExchangeSymbol ctx (path_value [("kind", kind); ("exchange", exchange); ("source_symbol", sym)]) s).
Proof.
  intros Hk He Hs. unfold ServeRealtime, RegisterRealtime, under, realtime_path. cbn [find_route].
  rewrite !lit_match, !wild_match by done. reflexivity.
Qed.
Lemma serve_aggregate ctx id s : id <> "" ->
  ServeRealtime (S:=S) (V:=V) ctx (realtime_path ["aggregate"; id]) s = Some (latestAggregate ctx (path_value [("symbol_id", id)]) s).
Proof.
  intros Hi. unfold ServeRealtime, RegisterRealtime, under, realtime_path. cbn [find_route].
  rewrite !lit_match, lit_other, !wild_match by done. reflexivity.
Qed.
Lemma serve_state ctx exchange stream s : exchange <> "" -> stream <> "" ->
  ServeRealtime (S:=S) (V:=V) ctx (realtime_path ["ws-state"; exchange; stream]) s
  = Some (wsState ctx (path_value [("exchange", exchange); ("stream", stream)]) s).
Proof.
  intros He Hs. unfold ServeRealtime, RegisterRealtime, under, realtime_path. cbn [find_route].
  rewrite !lit_match, lit_other, lit_other, !wild_match by done. reflexivity.
Qed.

(** Whether a value written at [now] is still held at a later time. *)
Definition alive (ttl : Duration) (now t : Time) : bool := match life (S:=S) ttl with Some d => t <? now + d | None => true end.

Lemma put_view_alive ttl now t key (v : V) w : put_view now key v (life (S:=S) ttl) w t key = if alive ttl now t then Some v else None.
Proof. unfold put_view, alive. rewrite bool_decide_eq_true_2 by done. by destruct (life ttl). Qed.

(** C17: an event that was written is what the realtime API answers.  After a successful write to a
    store that keeps its contract, the latest endpoint with any spelling of the event's names, or the
    aggregate endpoint with its symbol, answers 200 with the event, defaults filled in, for as long as
    the event lives, and 404 from then on; the read changes nothing in the store. *)
Theorem realtime_serves_written w ctx ctx' e (s s1 s2 : S) key o :
  0 <= ctx_now ctx <= ctx_now ctx' -> printable (with_defaults (ctx_now ctx) e) ->
  Write w ctx e (Some s) = (Value tt, Some s1) -> Key e = Ok key -> GetRaw ctx' key s1 = (Value o, s2) ->
  let resp := if alive (lw_TTL w) (ctx_now ctx) (ctx_now ctx') then MkResponse StatusOK (enc_event (with_defaults (ctx_now ctx) e))
              else writeAPIError StatusNotFound "not_found" "not found" in
  is_Some (enc_event (with_defaults (ctx_now ctx) e)) /\
  (forall kind exchange sym, kind <> "" -> exchange <> "" -> sym <> "" -> LatestKey kind exchange sym 0 = Ok key ->
     ServeRealtime ctx' (realtime_path ["latest"; kind; exchange; sym]) (Some s1) = Some (Some resp, Some s2)) /\
  (forall id i, ParseInt id = Some i -> 0 < i -> LatestAggregateKey i = key ->
     ServeRealtime ctx' (realtime_path ["aggregate"; id]) (Some s1) = Some (Some resp, Some s2)) /\
  agree (ctx_now ctx') (live s2) (live s1).
Proof.
  intros Hn Hp Hw Hk Hg resp. destruct (Write_live _ _ _ _ _ (proj1 Hn) Hp Hw) as (key' & j & Ek & Dj & Ha).
  assert (key' = key) as -> by congruence.
  assert (live s1 (ctx_now ctx') key = if alive (lw_TTL w) (ctx_now ctx) (ctx_now ctx') then Some (json_text j) else None) as Hlive
    by (rewrite (Ha _ key) by lia; apply put_view_alive).
  assert (readLatest ctx' key s1 = (Some (if alive (lw_TTL w) (ctx_now ctx) (ctx_now ctx')
      then inr (enc_event (with_defaults (ctx_now ctx) e)) else inl (Failed ErrNotFound)), s2)) as Hread.
  { unfold readLatest. destruct (alive _ _ _); [by eapply read_json_live|by eapply read_json_none]. }
  split_and!.
  - destruct (enc_dec_event _ Hp) as (j' & -> & _). by eexists.
  - intros kind exchange sym H1' H2' H3' Hkey. rewrite serve_latest by done. f_equal. unfold latestExchangeSymbol, withRealtime, path_value.
    cbn. rewrite Hkey, Hread. unfold resp. by destruct (alive _ _ _).
  - intros id i Hi Hpos Hkey. assert (id <> "") by (intros ->; by vm_compute in Hi). rewrite serve_aggregate by done. f_equal.
    unfold latestAggregate, withRealtime, path_value. cbn [find fst snd String.eqb fmap option_fmap option_map default].
    cbn. rewrite Hi, (proj2 (Z.leb_gt i 0)) by done. rewrite Hkey, Hread. unfold resp. by destruct (alive _ _ _).
  - by eapply get_keeps.
Qed.

(** The state of a stream that was written is answered the same way. *)
Lemma ws_state_served m ctx ctx' st exchange stream (s s1 s2 : S) o :
  let st' := MkStream (normalizeExchange (st_Exchange st)) (normalizeStream (st_Stream st)) (st_Status st) (st_Attempt st)
               (st_LastConnectedAt st) (st_LastMessageAt st) (st_LastHeartbeatAt st) (st_LagSeconds st) (st_LastError st)
               (st_Subscriptions st) (st_UpdatedAt st) in
  0 <= ctx_now ctx <= ctx_now ctx' -> state_printable st' -> writeState m ctx st (Some s) = (Value tt, Some s1) ->
  exchange <> "" -> stream <> "" -> WSStateKey exchange stream = WSStateKey (st_Exchange st') (st_Stream st') ->
  GetRaw ctx' (WSStateKey exchange stream) s1 = (Value o, s2) ->
  alive (or_default (rm_TTL m) (10 * Minute)) (ctx_now ctx) (ctx_now ctx') = true ->
  is_Some (enc_state st') /\
  ServeRealtime ctx' (realtime_path ["ws-state"; exchange; stream]) (Some s1) = Some (Some (MkResponse StatusOK (enc_state st')), Some s2).
Proof.
  intros st' Hn Hp Hw He Hs Hkey Hg Hal. destruct (enc_dec_state _ Hp) as (j & Ej & Dj). split; [by rewrite Ej|].
  unfold writeState, on_store in Hw. destruct (_ || _); [done|]. fold st' in Hw. rewrite Ej in Hw. cbn [SetJSON] in Hw.
  destruct (SetRaw _ _ _ _ _) as [r s'] eqn:Es. injection Hw as -> ->. apply set_done in Es as Ha; [|lia].
  rewrite serve_state by done. f_equal. unfold wsState, withRealtime, path_value. cbn.
  rewrite (read_json_live dec_state enc_state ctx' (WSStateKey exchange stream) s1 o s2 j st'); [done|done| |done].
  rewrite (Ha _ (WSStateKey exchange stream)) by lia. rewrite Hkey, put_view_alive. by rewrite Hal.
Qed.
End realtime_reads.

(** ** Concrete requests *)

Definition val_check (v : sval) : bool :=
  match v with
  | SNaN => false
  | STime t => (days_of_date 0 1 1 * Day <=? t) && (t <? days_of_date 10000 1 1 * Day)
  | _ => true
  end.
Definition print_check (sch : list (string * (coltype * bool))) (r : gmap string sval) : bool :=
  row_check sch r && forallb (fun x => val_check (snd x)) (map_to_list r).

Lemma print_check_ok sch r : print_check sch r = true -> row_prints sch r.
Proof.
  unfold print_check. rewrite andb_true_iff, forallb_forall. intros [H1 H2]. split; [by apply row_check_ok|].
  intros c v Hc. specialize (H2 (c, v)). cbn in H2. rewrite <- list_elem_of_In, elem_of_map_to_list in H2. specialize (H2 Hc).
  destruct v; try done. cbn in *. apply andb_true_iff in H2 as [?%Z.leb_le ?%Z.ltb_lt]. by split.
Qed.

Lemma overview_db_prints : prints_db overview_db.
Proof.
  split.
  - intros table sch Hs. unfold overview_db. cbn [db_rows].
    destruct (String.eqb_spec table "symbols") as [->|_]; [done|].
    destruct (String.eqb_spec table "derivative_aggregated_snapshots") as [->|_]; [|constructor].
    injection Hs as <-. apply Forall_forall. intros r Hr. apply print_check_ok.
    repeat (apply elem_of_cons in Hr as [->|Hr]; [vm_cast_no_check (@eq_refl bool true)|]). by apply not_elem_of_nil in Hr.
  - apply Forall_forall. intros r Hr. apply print_check_ok.
    repeat (apply elem_of_cons in Hr as [->|Hr]; [vm_cast_no_check (@eq_refl bool true)|]). by apply not_elem_of_nil in Hr.
Qed.

Definition no_query : string -> string := fun _ => "".
Definition derivatives_path (segs : list string) : list string := "api" :: "v1" :: "derivatives" :: segs.

Lemma no_query_fits opts : ParseListOptions no_query = Ok opts -> fits overview_db opts.
Proof.
  intros Ho. assert (opts = MkOptions "" "" "" "" "" None None 50 1 "" "desc" None None None None) as ->
    by (revert Ho; vm_compute; by intros [= ->]).
  split_and!; [done|by vm_compute|by left].
Qed.

Lemma api_answers_witness :
  (exists j, ServeHTTP (H:=in_place) overview_db 0 (derivatives_path ["symbols"; "btc"; "klines"]) no_query = Some (MkResponse 200 (Some j))) /\
  ServeHTTP (H:=in_place) overview_db 0 (derivatives_path ["symbols"; "doge"]) no_query
  = Some (writeAPIError 404 "not_found" "not found").
Proof.
  split.
  - destruct (api_answers (H:=in_place) overview_db 0 (derivatives_path ["symbols"; "btc"; "klines"]) no_query) as [H1 _].
    specialize (H1 overview_db_prints ltac:(done) no_query_fits).
    assert (proper (H:=in_place) overview_db no_query (Some "btc")
              (klines (H:=in_place) overview_db (MkRequest (path_value [("symbol", "btc")]) no_query))) as H2 by exact H1.
    assert (exists d i, ResolveSymbol (H:=in_place) overview_db "btc" = Ok (d, i)) as (d & i & E) by (do 2 eexists; vm_compute; reflexivity).
    assert (exists o, ParseListOptions no_query = Ok o) as (o & Eo) by (eexists; vm_compute; reflexivity).
    unfold proper in H2. rewrite Eo in H2. cbn [fmap option_fmap option_map] in H2. rewrite E in H2. destruct H2 as [j Hj]. exists j.
    exact (f_equal Some Hj).
  - destruct (api_answers (H:=in_place) overview_db 0 (derivatives_path ["symbols"; "doge"]) no_query) as [H1 _].
    specialize (H1 overview_db_prints ltac:(done) no_query_fits).
    assert (proper (H:=in_place) overview_db no_query (Some "doge")
              (symbolDetail (H:=in_place) overview_db 0 (MkRequest (path_value [("symbol", "doge")]) no_query))) as H2 by exact H1.
    assert (ResolveSymbol (H:=in_place) overview_db "doge" = Err ErrNotFound) as E by (vm_compute; reflexivity).
    assert (exists o, ParseListOptions no_query = Ok o) as (o & Eo) by (eexists; vm_compute; reflexivity).
    unfold proper in H2. rewrite Eo in H2. cbn [fmap option_fmap option_map] in H2. rewrite E in H2. exact (f_equal Some (proj2 H2)).
Defined.

Lemma api_reports_faults_witness : exists m,
  ServeHTTP (H:=in_place) (failing overview_db DeadlineExceeded) 0 (derivatives_path ["jobs"]) no_query
  = Some (writeAPIError 504 "timeout" (m +:+ ": " +:+ "context deadline exceeded")).
Proof.
  destruct (ServeHTTP (H:=in_place) (failing overview_db DeadlineExceeded) 0 (derivatives_path ["jobs"]) no_query) as [resp|] eqn:E;
    [|exfalso; revert E; vm_compute; discriminate].
  assert (exists o, ParseListOptions no_query = Ok o) as (o & Eo) by (eexists; vm_compute; reflexivity).
  destruct (api_reports_faults (H:=in_place) overview_db 0 DeadlineExceeded (derivatives_path ["jobs"]) no_query o resp E Eo I) as (m & _ & Hm & _).
  exists m. exact (f_equal Some (Hm eq_refl eq_refl)).
Defined.

Lemma realtime_serves_written_witness :
  ServeRealtime (at_ 5) (realtime_path ["latest"; "Market"; "BINANCE"; "btcusdt"]) (Some demo_after)
  = Some (Some (MkResponse 200 (enc_event (with_defaults (ctx_now (at_ 0)) demo_event))), Some demo_after).
Proof.
  destruct (realtime_serves_written demo_writer (at_ 0) (at_ 5) demo_event ∅ demo_after demo_after "deriv:latest:market:binance:BTCUSDT"
              (memory_live demo_after (ctx_now (at_ 5)) "deriv:latest:market:binance:BTCUSDT")
              ltac:(vm_compute; split; discriminate) demo_printable ltac:(vm_compute; reflexivity) ltac:(vm_compute; reflexivity)
              ltac:(vm_compute; reflexivity)) as (_ & H1 & _).
  rewrite (H1 "Market" "BINANCE" "btcusdt" ltac:(done) ltac:(done) ltac:(done) ltac:(vm_compute; reflexivity)).
  assert (alive (S:=MemoryStore RawMessage) (lw_TTL demo_writer) (ctx_now (at_ 0)) (ctx_now (at_ 5)) = true) as -> by (vm_compute; reflexivity).
  reflexivity.
Defined.

(** The status is written before the body is encoded: a volume that is NaN has no JSON, and the answer
    is 200 without a body. *)
Definition nan_db : Database :=
  MkDatabase (fun t => if (t =? "symbols")%string then [sample_symbol 7 "BTCUSDT" "BTC" (Some 1) true]
                       else if (t =? "derivative_klines")%string then [<["volume" := SNaN]> (sample_kline "okx" (Date 2026 5 1))] else [])
             (fun _ => no_fault).
Example nan_has_no_body :
  ServeHTTP (H:=in_place) nan_db 0 (derivatives_path ["symbols"; "btc"; "klines"]) no_query = Some (MkResponse 200 None).
Proof. vm_compute. reflexivity. Qed.

(** No two patterns of the API overlap, the realtime ones included. *)
Example patterns_separate : separate (map fst (Register (H:=in_place) nan_db 0) ++
  map fst (RegisterRealtime (S:=MemoryStore RawMessage) (V:=RawMessage)))%list = true.
Proof. reflexivity. Qed.
