(* ===== verification/AggregateQuality.v ===== *)
(** * Options and quality of the aggregates ([internal/repositories]: [aggregate_options.go], [aggregate_quality.go])

    The windows of the analytics, the record of which exchanges went into an aggregate, and the test
    for raw data that says it is degraded. *)

From S2P Require Import Prelude GoString GoTime GoFloat GoDuration GoJson GoJsonText GoTimeText RealtimeEvents.

(** ** Options *)

Record AggregationWindow := MkWindow { w_Label : string; w_Duration : Duration }.
Record AggregateOptions := MkAggregateOptions { MaxSnapshotAge : Duration; Windows : list AggregationWindow }.

Definition defaultAggregationWindows : list AggregationWindow :=
  [MkWindow "5m" (5 * Minute); MkWindow "15m" (15 * Minute); MkWindow "1h" Hour; MkWindow "4h" (4 * Hour); MkWindow "24h" (24 * Hour)].

Definition normalizeAggregateOptions (options : AggregateOptions) : AggregateOptions :=
  MkAggregateOptions (if MaxSnapshotAge options <=? 0 then 10 * Minute else MaxSnapshotAge options)
    (match Windows options with [] => defaultAggregationWindows | ws => ws end).

(** ** Quality metadata *)

(** The maps keep their keys in order of first insertion; [Marshal] sorts them. *)
Record aggregateQualityMetadata := MkQuality {
  q_MaxSnapshotAgeSeconds : Z; q_SnapshotTime : Time; q_StaleCutoff : Time; q_IncludedExchanges : list string;
  q_SkippedExchanges : list (string * list string); q_InvalidFields : list (string * list string) }.

Definition newAggregateQualityMetadata (snapshotTime staleCutoff : Time) (maxAge : Duration) : aggregateQualityMetadata :=
  MkQuality (f64_to_int64 (Seconds maxAge)) snapshotTime staleCutoff [] [] [].

(** [m[key] = append(m[key], value)]. *)
Definition append_to (key value : string) (m : list (string * list string)) : list (string * list string) :=
  let old := default [] (snd <$> find (fun x => (fst x =? key)%string) m) in
  assoc_set key (old ++ [value])%list m.

Definition Include (exchange : string) (q : aggregateQualityMetadata) : aggregateQualityMetadata :=
  MkQuality (q_MaxSnapshotAgeSeconds q) (q_SnapshotTime q) (q_StaleCutoff q) (q_IncludedExchanges q ++ [exchange])%list
    (q_SkippedExchanges q) (q_InvalidFields q).
Definition Skip (exchange reason : string) (q : aggregateQualityMetadata) : aggregateQualityMetadata :=
  MkQuality (q_MaxSnapshotAgeSeconds q) (q_SnapshotTime q) (q_StaleCutoff q) (q_IncludedExchanges q)
    (append_to exchange reason (q_SkippedExchanges q)) (q_InvalidFields q).
Definition Invalid (exchange field : string) (q : aggregateQualityMetadata) : aggregateQualityMetadata :=
  MkQuality (q_MaxSnapshotAgeSeconds q) (q_SnapshotTime q) (q_StaleCutoff q) (q_IncludedExchanges q)
    (q_SkippedExchanges q) (append_to exchange field (q_InvalidFields q)).

Definition enc_strings (l : list string) : json := JArray (map JString l).
(** A nil slice is [null]. *)
Definition enc_included (l : list string) : json := match l with [] => JNull | _ => enc_strings l end.
Definition m_map_omit (name : string) (m : list (string * list string)) : option (list (string * json)) :=
  Some (match m with [] => [] | _ => [(name, json_map (map (fun x => (fst x, enc_strings (snd x))) m))] end).

Definition enc_quality (q : aggregateQualityMetadata) : option json :=
  members [m_int "max_snapshot_age_seconds" (q_MaxSnapshotAgeSeconds q); m_time "snapshot_time" (q_SnapshotTime q);
           m_time "stale_cutoff" (q_StaleCutoff q); Some [("included_exchanges", enc_included (q_IncludedExchanges q))];
           m_map_omit "skipped_exchanges" (q_SkippedExchanges q); m_map_omit "invalid_fields" (q_InvalidFields q)].

(** [raw, _ := json.Marshal(value)]: nil when the value has no JSON. *)
Definition marshalled (j : option json) : RawMessage := match j with Some v => RawJson v | None => RawEmpty end.
Definition Marshal (q : aggregateQualityMetadata) : RawMessage := marshalled (enc_quality q).

(** ** Degraded raw data *)

Definition degradedStatus (value : any) : bool :=
  match value with
  | AString text => bool_decide (ToLower (TrimSpace text) ∈ ["degraded"; "failed"; "invalid"; "unhealthy"])
  | _ => false
  end.
Definition boolValue (value : any) : bool := match value with ABool b => b | _ => false end.

(** What the loop tests of one member before it looks inside. *)
Definition member_degraded (key : string) (item : any) : bool :=
  let normalizedKey := ToLower (TrimSpace key) in
  if bool_decide (normalizedKey ∈ ["quality_status"; "data_quality"; "normalized_status"; "status"; "health"]) then degradedStatus item
  else if bool_decide (normalizedKey ∈ ["degraded"; "failed"]) then boolValue item else false.

(** The loops return at the first hit, so the order of a map does not matter. *)
Fixpoint anyMarkedDegraded (value : any) : bool :=
  match value with
  | AMap l => existsb (fun m => member_degraded (fst m) (snd m) || anyMarkedDegraded (snd m)) l
  | ASlice l => existsb anyMarkedDegraded l
  | _ => false
  end.

Definition rawJSONMarkedDegraded (raw : RawMessage) : bool :=
  if raw_is_empty raw then false else
  match Unmarshal dec_any raw with
  | None => false
  | Some value => anyMarkedDegraded value
  end.

(** ** What counts as degraded *)

(** A status word under a status key, or a true flag. *)
Definition says_degraded (key : string) (item : any) : Prop :=
  let k := ToLower (TrimSpace key) in
  (k ∈ ["quality_status"; "data_quality"; "normalized_status"; "status"; "health"] /\
   exists s, item = AString s /\ ToLower (TrimSpace s) ∈ ["degraded"; "failed"; "invalid"; "unhealthy"]) \/
  (k ∈ ["degraded"; "failed"] /\ item = ABool true).

(** Such a member anywhere in the value, in whatever order its maps are walked. *)
Inductive Degraded : any -> Prop :=
| degraded_here l key item : (key, item) ∈ l -> says_degraded key item -> Degraded (AMap l)
| degraded_member l key item : (key, item) ∈ l -> Degraded item -> Degraded (AMap l)
| degraded_element l item : item ∈ l -> Degraded item -> Degraded (ASlice l).

Lemma member_degraded_iff key item : member_degraded key item = true <-> says_degraded key item.
Proof.
  unfold member_degraded, says_degraded. set (k := ToLower (TrimSpace key)).
  destruct (bool_decide_reflect (k ∈ ["quality_status"; "data_quality"; "normalized_status"; "status"; "health"])) as [H1|H1].
  - assert (k ∉ ["degraded"; "failed"]) as H2 by (intros H2; repeat (apply elem_of_cons in H1 as [H1|H1]); repeat (apply elem_of_cons in H2 as [H2|H2]); congruence || by apply not_elem_of_nil in H1 || by apply not_elem_of_nil in H2).
    destruct item as [| | | |s| |]; cbn [degradedStatus]; try (split; [done|by intros [(_ & s & ? & _)|[? _]]]).
    rewrite bool_decide_eq_true. split; [intros Hs; left; split; [done|by exists s]|].
    intros [(_ & s' & [= <-] & Hs)|[? _]]; done.
  - destruct (bool_decide_reflect (k ∈ ["degraded"; "failed"])) as [H2|H2].
    + destruct item as [|b| | | | |]; cbn [boolValue]; try (split; [done|intros [[? _]|[_ ?]]; done]).
      destruct b; split; try done; [by right|]. by intros [[? _]|[_ ?]].
    + split; [done|]. by intros [[? _]|[? _]].
Qed.

Lemma any_nested_ind (P : any -> Prop) :
  P ANil -> (forall b, P (ABool b)) -> (forall f, P (AFloat f)) -> (forall z, P (AInt z)) -> (forall s, P (AString s)) ->
  (forall l, Forall P l -> P (ASlice l)) -> (forall l, Forall (fun m => P (snd m)) l -> P (AMap l)) -> forall v, P v.
Proof.
  intros Hn Hb Hf Hz Hs Hl Hm. fix IH 1. intros [|b|f|z|s|l|l]; [done|apply Hb|apply Hf|apply Hz|apply Hs|apply Hl|apply Hm].
  - induction l as [|x l IHl]; constructor; [apply IH|exact IHl].
  - induction l as [|[k x] l IHl]; constructor; [apply IH|exact IHl].
Qed.

(** the test for degraded raw data finds exactly the values that say so.  The recursive walk over the
    decoded value answers true if and only if somewhere in it, at any depth, a member has a status key
    with a degraded status word or a degraded/failed flag that is true (keys and words without regard
    to case and surrounding space); in particular the order of the members does not matter. *)
Theorem degraded_anywhere (v : any) : anyMarkedDegraded v = true <-> Degraded v.
Proof.
  induction v as [| | | | |l IH|l IH] using any_nested_ind; cbn [anyMarkedDegraded];
    try (split; [done|intros Hd; inversion Hd]).
  - rewrite Forall_forall in IH. rewrite existsb_exists. setoid_rewrite <- list_elem_of_In. split.
    + intros (x & Hx & Hd). eapply degraded_element; [exact Hx|]. by apply IH.
    + intros Hd. inversion Hd as [| |l' x Hx Hdx]; subst. exists x. split; [done|]. by apply IH.
  - rewrite Forall_forall in IH. rewrite existsb_exists. setoid_rewrite <- list_elem_of_In. setoid_rewrite orb_true_iff. split.
    + intros ([k x] & Hx & [Hd%member_degraded_iff|Hd]); [by eapply degraded_here|].
      eapply degraded_member; [exact Hx|]. by apply (IH _ Hx).
    + intros Hd. inversion Hd as [l' k x Hx Hd'|l' k x Hx Hd'|]; subst; exists (k, x); split; try done; cbn [fst snd].
      * left. by apply member_degraded_iff.
      * right. by apply (IH _ Hx).
Qed.
