(* ===== verification/PgAggregate.v ===== *)
(** * Aggregates and storage of NUMERIC

    [SUM], [AVG], [MIN] and [MAX] of the numeric values of a group as the database computes them
    (sums are exact; a quotient is rounded half away from zero at the scale the server selects), and
    the numeric a [NUMERIC(p, s)] column keeps of a float it is given. *)

From S2P Require Import Prelude GoString GoTime GoFloat GoError PgNumeric ApiStore PgText.
From Stdlib Require Import SpecFloat.

(** ** Sums *)

(** Anything that is not a number is NaN, which absorbs. *)
Definition num_add (a b : sval) : sval :=
  match a, b with
  | SNum n s, SNum m t => let k := Nat.max s t in SNum (n * 10 ^ Z.of_nat (k - s) + m * 10 ^ Z.of_nat (k - t)) k
  | _, _ => SNaN
  end.

(** NULLs are left out before; the sum of nothing is NULL. *)
Definition pg_sum (l : list sval) : option sval := match l with [] => None | x :: r => Some (foldl num_add x r) end.

(** [CASE WHEN x >= 0 THEN x ELSE 0 END]: NaN is above zero, NULL is not. *)
Definition nonneg_or_zero (v : option sval) : sval :=
  match v with Some (SNum n s) => if 0 <=? n then SNum n s else SNum 0 0 | Some SNaN => SNaN | _ => SNum 0 0 end.

(** ** Averages *)

Definition round_half_away (a b : Z) : Z := Z.sgn a * ((2 * Z.abs a + b) / (2 * b)).

(** The position and value of the first digit of [n / 10^s] in base 10000. *)
Definition base_digit (n : Z) (s : nat) : Z * Z :=
  if n =? 0 then (0, 0) else
  let w := (decimal_exponent (Z.abs n) (10 ^ Z.of_nat s) - 1) / 4 in
  let e := 4 * w + Z.of_nat s in
  (w, if 0 <=? e then Z.abs n / 10 ^ e else Z.abs n * 10 ^ (- e)).

(** [select_div_scale]: at least sixteen significant digits, and the scale of the dividend. *)
Definition div_scale (n : Z) (s : nat) (d : Z) : nat :=
  let '(w1, d1) := base_digit n s in
  let '(w2, d2) := base_digit d 0 in
  let q := if d1 <=? d2 then w1 - w2 - 1 else w1 - w2 in
  Z.to_nat (Z.min 1000 (Z.max (16 - q * 4) (Z.of_nat s))).

Definition pg_div (n : Z) (s : nat) (d : Z) : sval :=
  let r := div_scale n s d in SNum (round_half_away (n * 10 ^ Z.of_nat r) (10 ^ Z.of_nat s * d)) r.

Definition pg_avg (l : list sval) : option sval :=
  match pg_sum l with
  | Some (SNum n s) => Some (pg_div n s (Z.of_nat (length l)))
  | v => v
  end.

(** NaN is above every number. *)
Definition pg_min (l : list sval) : option sval :=
  match l with [] => None | x :: r => Some (foldl (fun a b => if sval_leb a b then a else b) x r) end.
Definition pg_max (l : list sval) : option sval :=
  match l with [] => None | x :: r => Some (foldl (fun a b => if sval_leb b a then a else b) x r) end.

Example avg_1 : pg_avg [SNum 1 0; SNum 2 0] = Some (SNum 15000000000000000 16) /\
  pg_avg [SNum 1 0; SNum 1 0; SNum 2 0] = Some (SNum 13333333333333333 16) /\
  pg_avg [SNum 100000 0; SNum 100001 0] = Some (SNum 100000500000000000 12) /\ pg_avg [] = None.
Proof. by vm_compute. Qed.

(** ** Columns *)

(** What a column [NUMERIC(p, s)] keeps of a float: its shortest decimal text rounded to the scale,
    half away from zero, and an error for more digits than the precision has room for. *)
Definition numeric_column (p s : nat) (f : float64) : result error sval :=
  match decimal_of f with
  | DecNaN => Ok SNaN
  | DecInf _ => Err (ErrorString "pq: numeric field overflow")
  | Dec m e =>
    let n := if 0 <=? e + Z.of_nat s then m * 10 ^ (e + Z.of_nat s) else round_half_away m (10 ^ (- (e + Z.of_nat s))) in
    if 10 ^ Z.of_nat p <=? Z.abs n then Err (ErrorString "pq: numeric field overflow") else Ok (SNum n s)
  end.

(** ** Values that can be read

    An aggregate of stored numerics is read as a float without an error. *)

Definition stored_num (v : sval) : Prop := match v with SNum n s => (s <= 38)%nat /\ Z.abs n < 10 ^ 38 /\ ((0 < s)%nat \/ n = 0) | SNaN => True | _ => False end.

(** The sum of [j] of them. *)
Definition summed (j : Z) (v : sval) : Prop :=
  match v with
  | SNum n s => (s <= 38)%nat /\ Z.abs n * 10 ^ Z.of_nat (38 - s) <= j * 10 ^ 76 /\ ((0 < s)%nat \/ n = 0)
  | SNaN => True
  | _ => False
  end.

Lemma stored_summed v : stored_num v -> summed 1 v.
Proof.
  destruct v as [|n s| | | | |]; try done. intros (Hs & Hn & H0). split_and!; [done| |done].
  assert (10 ^ Z.of_nat (38 - s) <= 10 ^ 38) by (apply Z.pow_le_mono_r; lia).
  assert (0 < 10 ^ Z.of_nat (38 - s)) by (apply Z.pow_pos_nonneg; lia).
  change (10 ^ 76) with (10 ^ 38 * 10 ^ 38). nia.
Qed.

Lemma pow10_pos (n : nat) : 0 < 10 ^ Z.of_nat n.
Proof. apply Z.pow_pos_nonneg; lia. Qed.
Lemma abs_sum_le n m A B C N M X : 0 < A -> 0 < B -> 0 < C ->
  Z.abs n * (A * C) <= N * X -> Z.abs m * (B * C) <= M * X -> Z.abs (n * A + m * B) * C <= (N + M) * X.
Proof.
  intros HA HB HC Hn Hm. assert (Z.abs (n * A + m * B) <= Z.abs n * A + Z.abs m * B).
  { etransitivity; [apply Z.abs_triangle|]. rewrite !Z.abs_mul, (Z.abs_eq A), (Z.abs_eq B) by lia. lia. }
  nia.
Qed.
Lemma scale_split s k : (s <= k <= 38)%nat -> 10 ^ Z.of_nat (k - s) * 10 ^ Z.of_nat (38 - k) = 10 ^ Z.of_nat (38 - s).
Proof. intros H. rewrite <- Z.pow_add_r by lia. f_equal. lia. Qed.

Lemma num_add_summed i j a b : summed i a -> summed j b -> summed (i + j) (num_add a b).
Proof.
  destruct a as [|n sa| | | | |], b as [|m sb| | | | |]; try done. cbn [num_add summed].
  intros (Hs & Hn & H0) (Ht & Hm & H1). set (k := Nat.max sa sb).
  assert (sa <= k <= 38)%nat as Hk by lia. assert (sb <= k <= 38)%nat as Hk' by lia.
  split_and!; [lia| |].
  - pose proof (scale_split sa k Hk) as E1. pose proof (scale_split sb k Hk') as E2.
    rewrite <- E1 in Hn. rewrite <- E2 in Hm. apply abs_sum_le; auto using pow10_pos.
  - destruct (decide (0 < k)%nat) as [|Hz]; [by left|right]. assert (sa = 0%nat /\ sb = 0%nat) as [-> ->] by lia.
    destruct H0 as [?| ->]; [lia|]. destruct H1 as [?| ->]; [lia|]. lia.
Qed.

Lemma sum_summed k l v : Forall (summed k) l -> pg_sum l = Some v -> summed (k * Z.of_nat (length l)) v.
Proof.
  destruct l as [|x l]; [done|]. intros [Hx Hl]%Forall_cons [= <-].
  assert (forall i a, summed i a -> summed (i + k * Z.of_nat (length l)) (foldl num_add a l)) as Hgen.
  { induction Hl as [|y l Hy _ IH]; intros i a Ha; cbn [foldl length]; [by rewrite Z.mul_0_r, Z.add_0_r|].
    replace (i + k * Z.of_nat (S (length l))) with ((i + k) + k * Z.of_nat (length l)) by lia.
    by apply IH, num_add_summed. }
  replace (k * Z.of_nat (length (x :: l))) with (k + k * Z.of_nat (length l)) by (cbn [length]; lia). by apply Hgen.
Qed.
Lemma stored_sum_summed l v : Forall stored_num l -> pg_sum l = Some v -> summed (Z.of_nat (length l)) v.
Proof. intros Hl Hv. rewrite <- (Z.mul_1_l (Z.of_nat _)). apply sum_summed; [|done]. by eapply Forall_impl; [exact Hl|apply stored_summed]. Qed.

Lemma base_digit_low n s : (s <= 38)%nat -> -10 <= fst (base_digit n s).
Proof.
  intros Hs. unfold base_digit. case_match; [done|]. cbn [fst].
  assert (Z.log2 (10 ^ Z.of_nat s) <= 126).
  { change 126 with (Z.log2 (10 ^ 38)). apply Z.log2_le_mono, Z.pow_le_mono_r; lia. }
  pose proof (Z.log2_nonneg (Z.abs n)). unfold decimal_exponent. repeat case_match; divlia.
Qed.
Lemma base_digit_high d : 0 < d < 2 ^ 62 -> fst (base_digit d 0) <= 5.
Proof.
  intros Hd. unfold base_digit. case_match; [done|]. cbn [fst].
  assert (Z.log2 (Z.abs d) <= 62). { change 62 with (Z.log2 (2 ^ 62)). apply Z.log2_le_mono. lia. }
  change (Z.log2 (10 ^ Z.of_nat 0)) with 0. unfold decimal_exponent. change (Z.log2 (10 ^ Z.of_nat 0)) with 0. repeat case_match; divlia.
Qed.

Lemma div_scale_bound n s d : (s <= 38)%nat -> (0 < s)%nat \/ n = 0 -> 0 < d < 2 ^ 62 -> (0 < div_scale n s d <= 84)%nat.
Proof.
  intros Hs H0 Hd. unfold div_scale. pose proof (base_digit_low n s Hs) as H1. pose proof (base_digit_high d Hd) as H2.
  assert (n = 0 -> base_digit n s = (0, 0)) as Hz by by intros ->.
  assert (-1 <= fst (base_digit d 0)) as H3.
  { unfold base_digit. case_match; [done|]. cbn [fst]. pose proof (Z.log2_nonneg (Z.abs d)). change (10 ^ Z.of_nat 0) with 1.
    unfold decimal_exponent. change (Z.log2 1) with 0. repeat case_match; divlia. }
  destruct (base_digit n s) as [w1 d1], (base_digit d 0) as [w2 d2]. cbn [fst] in *.
  destruct H0 as [H0|H0]; [|injection (Hz H0) as -> ->]; repeat case_match; lia.
Qed.

Lemma round_half_away_le a b : 0 < b -> Z.abs (round_half_away a b) <= Z.abs a + 1.
Proof.
  intros Hb. unfold round_half_away. rewrite Z.abs_mul. assert (0 <= (2 * Z.abs a + b) / (2 * b) <= Z.abs a + 1).
  { split; [apply Z.div_pos; lia|]. apply Z.div_le_upper_bound; [lia|nia]. }
  assert (Z.abs (Z.sgn a) <= 1) by lia. rewrite (Z.abs_eq ((2 * Z.abs a + b) / (2 * b))) by lia. nia.
Qed.

(** A value read as a float. *)
Definition num_float (v : sval) : float64 := match v with SNum n s => f64_dec n (- Z.of_nat s) | _ => S754_nan end.

Lemma read_num n s : ((0 < s)%nat \/ n = 0) -> Z.abs n < 2 ^ 900 -> to_float (Some (driver (SNum n s))) = Ok (num_float (SNum n s)).
Proof.
  intros Hs Hn. cbn [driver to_float num_float]. unfold parse_float. destruct s as [|s].
  - destruct Hs as [?| ->]; [lia|]. reflexivity.
  - rewrite ParseFloat_decimal; [done|lia|done].
Qed.

Lemma small_900 j : j < 2 ^ 62 -> j * 10 ^ 76 < 2 ^ 900.
Proof. intros Hj. apply (Z.lt_le_trans _ (2 ^ 62 * 10 ^ 76)); [|by apply Z.leb_le; vm_compute].
  by apply (proj1 (Z.mul_lt_mono_pos_r (10 ^ 76) j (2 ^ 62) eq_refl)). Qed.

Lemma read_summed j v : summed j v -> j < 2 ^ 62 -> to_float (Some (driver v)) = Ok (num_float v).
Proof.
  intros Hs Hj. destruct v as [|n s| | | | |]; try done.
  destruct Hs as (Hs & Hn & H0). apply read_num; [done|]. eapply Z.le_lt_trans; [|apply (small_900 _ Hj)].
  etransitivity; [|exact Hn]. pose proof (pow10_pos (38 - s)). nia.
Qed.
Lemma read_sum k l v : Forall (summed k) l -> k * Z.of_nat (length l) < 2 ^ 62 -> pg_sum l = Some v ->
  to_float (Some (driver v)) = Ok (num_float v).
Proof. intros Hl Hlen Hv. by eapply read_summed; [eapply sum_summed|]. Qed.

Lemma read_avg l v : Forall stored_num l -> Z.of_nat (length l) < 2 ^ 62 -> pg_avg l = Some v ->
  to_float (Some (driver v)) = Ok (num_float v).
Proof.
  intros Hl Hlen. unfold pg_avg. destruct (pg_sum l) as [x|] eqn:E; [|done].
  pose proof (stored_sum_summed l x Hl E) as Hs. destruct x as [|n s| | | | |]; try done; [|by intros [= <-]].
  intros [= <-]. destruct Hs as (Hs & Hn & H0). unfold pg_div.
  assert (0 < Z.of_nat (length l) < 2 ^ 62) as Hd by (destruct l; [done|cbn [length] in *; lia]).
  pose proof (div_scale_bound n s _ Hs H0 Hd) as [Hr1 Hr2]. set (r := div_scale n s (Z.of_nat (length l))) in *. clearbody r.
  apply read_num; [by left|]. eapply Z.le_lt_trans; [apply round_half_away_le; pose proof (pow10_pos s); nia|].
  rewrite Z.abs_mul, (Z.abs_eq (10 ^ _)) by (pose proof (pow10_pos r); lia).
  assert (10 ^ Z.of_nat r <= 10 ^ 84) as Hp by (apply Z.pow_le_mono_r; lia).
  assert (Z.abs n <= 2 ^ 62 * 10 ^ 76) as Hn'.
  { etransitivity; [|etransitivity; [exact Hn|apply Z.mul_le_mono_nonneg_r; [by apply Z.leb_le; vm_compute|lia]]]. pose proof (pow10_pos (38 - s)). nia. }
  apply (Z.le_lt_trans _ (2 ^ 62 * 10 ^ 76 * 10 ^ 84 + 1)); [|by apply Z.ltb_lt; vm_compute].
  apply Z.add_le_mono_r. apply Z.mul_le_mono_nonneg; [lia|done|pose proof (pow10_pos r); lia|done].
Qed.

Lemma pick_stored (f : sval -> sval -> bool) l x : Forall stored_num l -> stored_num x ->
  stored_num (foldl (fun a b => if f a b then a else b) x l).
Proof. intros Hl. revert x. induction Hl as [|y l Hy _ IH]; intros x Hx; cbn [foldl]; [done|]. apply IH. by destruct (f x y). Qed.

Lemma read_stored v : stored_num v -> to_float (Some (driver v)) = Ok (num_float v).
Proof.
  destruct v as [|n s| | | | |]; try done. intros (Hs & Hn & H0). apply read_num; [done|].
  apply (Z.lt_trans _ _ _ Hn). reflexivity.
Qed.
Lemma read_min l v : Forall stored_num l -> pg_min l = Some v -> to_float (Some (driver v)) = Ok (num_float v).
Proof. destruct l as [|x l]; [done|]. intros [Hx Hl]%Forall_cons [= <-]. by apply read_stored, pick_stored. Qed.
Lemma read_max l v : Forall stored_num l -> pg_max l = Some v -> to_float (Some (driver v)) = Ok (num_float v).
Proof. destruct l as [|x l]; [done|]. intros [Hx Hl]%Forall_cons [= <-]. apply read_stored. by apply (pick_stored (fun a b => sval_leb b a)). Qed.
