(* ===== verification/GoMath.v ===== *)
(** * Go's math package

    [math.Abs], [math.Max], [math.Sqrt] and [math.Log] on float64.  [Log] follows the algorithm of the
    library, operation by operation, with products and sums rounded separately (amd64). *)

From S2P Require Import Prelude GoFloat GoFloatSign.

Definition math_Max (x y : float64) : float64 :=
  match x, y with
  | S754_infinity false, _ | _, S754_infinity false => S754_infinity false
  | S754_nan, _ | _, S754_nan => S754_nan
  | S754_zero s, S754_zero _ => if s then y else x
  | _, _ => if fgt x y then x else y
  end.

Definition math_Sqrt (x : float64) : float64 := SFsqrt prec64 emax64 x.

(** ** [math.Log] *)

Definition Ln2Hi : float64 := f64_dec 69314718036912381649 (-20).
Definition Ln2Lo : float64 := f64_dec 190821492927058770002 (-30).
Definition L1 : float64 := f64_dec 6666666666666735130 (-19).
Definition L2 : float64 := f64_dec 3999999999940941908 (-19).
Definition L3 : float64 := f64_dec 2857142874366239149 (-19).
Definition L4 : float64 := f64_dec 2222219843214978396 (-19).
Definition L5 : float64 := f64_dec 1818357216161805012 (-19).
Definition L6 : float64 := f64_dec 1531383769920937332 (-19).
Definition L7 : float64 := f64_dec 1479819860511658591 (-19).
(** [Sqrt2 / 2], the constant [1.41421356237309504880168872420969807856967187537694807317667974 / 2]. *)
Definition HalfSqrt2 : float64 := f64_dec 7071067811865475244008443621048490392848359376884740 (-52).

Definition Log (x : float64) : float64 :=
  match x with
  | S754_nan => S754_nan
  | S754_infinity s => if s then S754_nan else x
  | S754_zero _ => S754_infinity true
  | S754_finite true _ _ => S754_nan
  | S754_finite false _ _ =>
    let one := f64_of_Z 1 in let two := f64_of_Z 2 in
    let '(f1, ki) := SFfrexp prec64 emax64 x in
    let '(f1, ki) := if flt f1 HalfSqrt2 then (fmul f1 two, ki - 1) else (f1, ki) in
    let f := fsub f1 one in
    let k := f64_of_Z ki in
    let s := fdiv f (fadd two f) in
    let s2 := fmul s s in
    let s4 := fmul s2 s2 in
    let t1 := fmul s2 (fadd L1 (fmul s4 (fadd L3 (fmul s4 (fadd L5 (fmul s4 L7)))))) in
    let t2 := fmul s4 (fadd L2 (fmul s4 (fadd L4 (fmul s4 L6)))) in
    let R := fadd t1 t2 in
    let hfsq := fmul (fmul (f64_dec 5 (-1)) f) f in
    fsub (fmul k Ln2Hi) (fsub (fsub hfsq (fadd (fmul s (fadd hfsq R)) (fmul k Ln2Lo))) f)
  end.

(** The logarithms of 1, 2, 10 and 1/2 as the library gives them. *)
Example log_values :
  Log (f64_of_Z 1) = f64_zero /\ Log (f64_of_Z 2) = f64_dec 693147180559945309 (-18) /\
  Log (f64_of_Z 10) = f64_dec 2302585092994046 (-15) /\ Log (f64_dec 5 (-1)) = f64_dec (-693147180559945309) (-18) /\
  Log f64_zero = S754_infinity true /\ Log (f64_of_Z (-1)) = S754_nan.
Proof. by vm_compute. Qed.

Example sqrt_values : math_Sqrt (f64_of_Z 4) = f64_of_Z 2 /\ math_Sqrt (f64_of_Z 2) = f64_dec 14142135623730951 (-16) /\
  math_Sqrt (f64_of_Z (-4)) = S754_nan.
Proof. by vm_compute. Qed.

(** ** Laws *)

Lemma math_Max_cases x y : is_nan x = false -> is_nan y = false ->
  (math_Max x y = x \/ math_Max x y = y) /\ fle x (math_Max x y) = true /\ fle y (math_Max x y) = true.
Proof.
  intros Hx Hy.
  assert (forall z w, is_nan z = false -> is_nan w = false -> (if fgt z w then z else w) = z \/ (if fgt z w then z else w) = w) as Hc
    by (intros; case_match; auto).
  assert (fle x (if fgt x y then x else y) = true /\ fle y (if fgt x y then x else y) = true) as Hd.
  { destruct (fgt x y) eqn:E; unfold fgt in E.
    - split; [by apply fle_refl|by apply flt_fle].
    - split; [by apply flt_false_fle|by apply fle_refl]. }
  destruct x as [sx|[]| |sx mx ex], y as [sy|[]| |sy my ey]; try discriminate; try (split; [by apply Hc|exact Hd]);
    try (split; [by left|by destruct sx]); try (split; [by right|by destruct sy]); try (split; [by (left + right)|done]).
  cbn [math_Max]. destruct sx; split; auto.
Qed.
