(* ===== verification/AggregateModels.v ===== *)
(** * Data of the aggregates ([internal/aggregation/models.go]) and the JSON of the window metrics *)

From S2P Require Import Prelude GoString GoTime GoFloat GoJson GoJsonText GoTimeText RealtimeEvents AggregateQuality.

Record DerivativeAggregateSnapshot := MkAggregate {
  da_SymbolID : Z; da_SnapshotTime : Time; da_ExchangeCount : Z;
  da_PriceAvg : option float64; da_PriceWeighted : option float64;
  da_TotalVolume24h : option float64; da_TotalQuoteVolume24h : option float64;
  da_TotalOpenInterest : option float64; da_TotalOpenInterestValue : option float64;
  da_AvgFundingRate : option float64; da_MinFundingRate : option float64; da_MaxFundingRate : option float64;
  da_TotalTakerBuyVolume : option float64; da_TotalTakerSellVolume : option float64; da_TotalBuySellDelta : option float64;
  da_TotalCVD : option float64;
  da_TotalLongLiquidationUSD : option float64; da_TotalShortLiquidationUSD : option float64; da_TotalLiquidationUSD : option float64;
  da_AvgBasisPercent : option float64; da_AvgOrderbookImbalancePercent : option float64;
  da_TotalBidDepthUSD : option float64; da_TotalAskDepthUSD : option float64;
  da_AvailableExchanges : RawMessage; da_RawByExchange : RawMessage; da_WindowMetrics : RawMessage; da_Metrics : RawMessage;
  da_QualityMetadata : RawMessage; da_AnomalyFlags : RawMessage }.

Record AnalyticsWindowMetric := MkWindowMetric {
  wm_Window : string; wm_StartTime : Time; wm_EndTime : Time;
  wm_PriceChange : option float64; wm_PriceChangePct : option float64; wm_VolumeChange : option float64; wm_OIChange : option float64;
  wm_FundingAvg : option float64; wm_FundingMin : option float64; wm_FundingMax : option float64;
  wm_TakerDelta : option float64; wm_CVDChange : option float64; wm_LiquidationSumUSD : option float64;
  wm_BasisAvg : option float64; wm_BasisMin : option float64; wm_BasisMax : option float64; wm_Quality : RawMessage }.

Record MarketStructureSnapshot := MkStructure {
  ms_SymbolID : Z; ms_Exchange : string; ms_MarketType : string; ms_SourceSymbol : string; ms_Period : string; ms_SnapshotTime : Time;
  ms_TrendDirection : string; ms_StructureState : string; ms_LastSwingHigh : option float64; ms_LastSwingLow : option float64;
  ms_SupportLevels : RawMessage; ms_ResistanceLevels : RawMessage; ms_PricePosition : option float64; ms_Metadata : RawMessage }.

Record VolatilitySnapshot := MkVolatility {
  vo_SymbolID : Z; vo_Exchange : string; vo_MarketType : string; vo_SourceSymbol : string; vo_Period : string; vo_SnapshotTime : Time;
  vo_RealizedVolatility : option float64; vo_RealizedVolatilityPercent : option float64; vo_ATR : option float64; vo_ATRPercent : option float64;
  vo_HighPrice : option float64; vo_LowPrice : option float64; vo_ClosePrice : option float64;
  vo_RangePercent24h : option float64; vo_RangePercent7d : option float64; vo_RawData : RawMessage }.

Record ExchangeDivergenceSnapshot := MkDivergence {
  dv_SymbolID : Z; dv_DataType : string; dv_SnapshotTime : Time; dv_ReferenceExchange : string; dv_ComparedExchange : string;
  dv_ReferenceValue : option float64; dv_ComparedValue : option float64; dv_DivergenceAbs : option float64; dv_DivergenceBPS : option float64;
  dv_PriceMin : option float64; dv_PriceMax : option float64; dv_PriceSpreadPercent : option float64;
  dv_OIMin : option float64; dv_OIMax : option float64; dv_OISpreadPercent : option float64;
  dv_FundingMin : option float64; dv_FundingMax : option float64; dv_FundingSpread : option float64;
  dv_VolumeMin : option float64; dv_VolumeMax : option float64; dv_VolumeSpreadPercent : option float64;
  dv_StrongestExchange : string; dv_WeakestExchange : string; dv_RawByExchange : RawMessage; dv_Metadata : RawMessage }.

Record AnalyticsSnapshotSet := MkAnalyticsSet {
  an_MarketStructures : list MarketStructureSnapshot; an_Volatility : list VolatilitySnapshot; an_Divergence : option ExchangeDivergenceSnapshot }.

(** ** JSON *)

(** [json.Marshal] of a [map[string]any]: the members, each with its JSON or none. *)
Definition map_json (l : list (string * option json)) : option json :=
  json_map <$> all_some (map (fun m => (fun v => (fst m, v)) <$> snd m) l).

Definition mustJSON (value : option json) : RawMessage := marshalled value.

Definition enc_window_metric (m : AnalyticsWindowMetric) : option json :=
  members [m_str "window" (wm_Window m); m_time "start_time" (wm_StartTime m); m_time "end_time" (wm_EndTime m);
           m_float_omit "price_change" (wm_PriceChange m); m_float_omit "price_change_percent" (wm_PriceChangePct m);
           m_float_omit "volume_change" (wm_VolumeChange m); m_float_omit "oi_change" (wm_OIChange m);
           m_float_omit "funding_avg" (wm_FundingAvg m); m_float_omit "funding_min" (wm_FundingMin m);
           m_float_omit "funding_max" (wm_FundingMax m); m_float_omit "taker_delta" (wm_TakerDelta m);
           m_float_omit "cvd_change" (wm_CVDChange m); m_float_omit "liquidation_sum_usd" (wm_LiquidationSumUSD m);
           m_float_omit "basis_avg" (wm_BasisAvg m); m_float_omit "basis_min" (wm_BasisMin m); m_float_omit "basis_max" (wm_BasisMax m);
           m_raw_omit "quality" (wm_Quality m)].
(** The slice is made with [make], so it is never nil. *)
Definition enc_window_metrics (l : list AnalyticsWindowMetric) : option json := JArray <$> all_some (map enc_window_metric l).
