(* ===== verification/Analytics.v ===== *)
(** * Analytics of candles and exchanges (the pure part of [internal/repositories/aggregate_analytics.go])

    Market structure and volatility of a window of candles, the divergence of exchanges, and the flags of
    unusual values.  A slice of candles is a list; a pointer to a float is an option. *)

From S2P Require Import Prelude GoString GoTime GoFloat GoFloatSign GoMath GoJson GoJsonText RealtimeEvents AggregateQuality AggregateModels.

Record aggregateCandle := MkCandle { c_OpenTime : Time; c_Open : float64; c_High : float64; c_Low : float64; c_Close : float64 }.

Record exchangeMetric := MkMetric {
  em_Exchange : string; em_Price : option float64; em_Volume : option float64; em_OpenInterest : option float64; em_FundingRate : option float64 }.

Definition len {A} (l : list A) : Z := Z.of_nat (length l).

(** ** Candles *)

Definition filterCandles (candles : list aggregateCandle) (start end_ : Time) : list aggregateCandle :=
  List.filter (fun c => ((c_OpenTime c =? start) || (start <? c_OpenTime c)) && ((c_OpenTime c =? end_) || (c_OpenTime c <? end_))) candles.

(** The loop over the highs and lows that several functions share. *)
Definition widen_high (high : float64) (c : aggregateCandle) : float64 := if fgt (c_High c) high then c_High c else high.
Definition widen_low (low : float64) (c : aggregateCandle) : float64 := if flt (c_Low c) low then c_Low c else low.

(** On a slice that is not empty: [first] is its first candle. *)
Definition candleRange (first : aggregateCandle) (candles : list aggregateCandle) : float64 * float64 * float64 :=
  (foldl widen_high (c_High first) candles, foldl widen_low (c_Low first) candles, c_Close (List.last candles first)).

Definition hundred : float64 := f64_of_Z 100.
Definition is_zero (x : float64) : bool := feq x f64_zero.

Definition rangePercent (candles : list aggregateCandle) : option float64 :=
  match candles with
  | [] => None
  | first :: _ =>
    let '(high, low, closePrice) := candleRange first candles in
    if is_zero closePrice then None else Some (fmul (fdiv (fsub high low) closePrice) hundred)
  end.

(** *** Levels *)

(** [sort.Float64s]: NaN below every number; the order among equal values (the two zeros) is not
    observable here but for the sign of a zero. *)
Definition float_leb (x y : float64) : bool := is_nan x || fle x y.
Definition Float64s (l : list float64) : list float64 := stable_sort float_leb l.
Definition ReverseFloat64s (l : list float64) : list float64 := stable_sort (fun x y => float_leb y x) l.

Definition tolerance : float64 := f64_dec 1 (-9).
Definition near (a b : float64) : bool := flt (fabs (fsub a b)) tolerance.

Fixpoint unique_loop (values result : list float64) (limit : nat) : list float64 :=
  match values with
  | [] => result
  | value :: rest =>
    if match List.rev result with prev :: _ => near prev value | [] => false end then unique_loop rest result limit else
    let result := (result ++ [value])%list in
    if (length result =? limit)%nat then result else unique_loop rest result limit
  end.
Definition uniqueRounded (values : list float64) (limit : nat) : list float64 := unique_loop values [] limit.

Definition supportLevels (candles : list aggregateCandle) (limit : nat) : list float64 := uniqueRounded (Float64s (map c_Low candles)) limit.
Definition resistanceLevels (candles : list aggregateCandle) (limit : nat) : list float64 :=
  uniqueRounded (ReverseFloat64s (map c_High candles)) limit.

(** *** True range and realised volatility *)

Definition true_range (prevClose : option float64) (c : aggregateCandle) : float64 :=
  let r := fsub (c_High c) (c_Low c) in
  match prevClose with
  | None => r
  | Some p => math_Max (math_Max r (fabs (fsub (c_High c) p))) (fabs (fsub (c_Low c) p))
  end.
Fixpoint true_range_sum (prevClose : option float64) (candles : list aggregateCandle) (sum : float64) : float64 :=
  match candles with
  | [] => sum
  | c :: rest => true_range_sum (Some (c_Close c)) rest (fadd sum (true_range prevClose c))
  end.
Definition averageTrueRange (candles : list aggregateCandle) : option float64 :=
  match candles with
  | [] => None
  | _ => Some (fdiv (true_range_sum None candles f64_zero) (f64_of_Z (len candles)))
  end.

(** The returns between neighbours whose closes are both positive. *)
Fixpoint log_returns (candles : list aggregateCandle) : list float64 :=
  match candles with
  | c :: ((c' :: _) as rest) =>
    let prev := c_Close c in let current := c_Close c' in
    if fle prev f64_zero || fle current f64_zero then log_returns rest else Log (fdiv current prev) :: log_returns rest
  | _ => []
  end.
Definition realizedVolatility (candles : list aggregateCandle) : option float64 :=
  if len candles <? 2 then None else
  let returns := log_returns candles in
  if len returns <? 2 then None else
  let mean := fdiv (foldl fadd f64_zero returns) (f64_of_Z (len returns)) in
  let variance := foldl (fun v x => let diff := fsub x mean in fadd v (fmul diff diff)) f64_zero returns in
  let variance := fdiv variance (f64_of_Z (len returns - 1)) in
  Some (fmul (math_Sqrt variance) (math_Sqrt (f64_of_Z (len returns)))).

(** ** Snapshots of a window *)

Definition enc_floats (l : list float64) : option json := JArray <$> all_some (map marshal_float l).
Definition int_json (n : Z) : option json := Some (JInt n).

Definition trend (priceChangePct : float64) : string :=
  if fgt priceChangePct (f64_dec 2 (-1)) then "bullish"
  else if flt priceChangePct (f64_dec (-2) (-1)) then "bearish" else "sideways".
Definition structure (rangePct priceChangePct : float64) : string :=
  if flt rangePct (f64_of_Z 1) then "compression"
  else if fgt rangePct (f64_of_Z 5) || fgt (fabs priceChangePct) (f64_of_Z 3) then "expansion" else "ranging".

Definition computeMarketStructure (symbolID : Z) (period : string) (snapshotTime : Time) (candles : list aggregateCandle) : MarketStructureSnapshot :=
  let unknown metadata := MkStructure symbolID "aggregate" "" "" period snapshotTime "unknown" "unknown" None None
                            (RawJson (JArray [])) (RawJson (JArray [])) None metadata in
  let insufficient := unknown (mustJSON (map_json [("reason", Some (JString "insufficient_candles")); ("candles", int_json (len candles))])) in
  if len candles <? 2 then insufficient else
  match candles with
  | [] => insufficient
  | first :: _ =>
    let last := List.last candles first in
    let high := foldl widen_high (c_High first) candles in
    let low := foldl widen_low (c_Low first) candles in
    let priceChangePct := if negb (is_zero (c_Close first))
                          then fmul (fdiv (fsub (c_Close last) (c_Close first)) (c_Close first)) hundred else f64_zero in
    let rangePct := if negb (is_zero (c_Close last)) then fmul (fdiv (fsub high low) (c_Close last)) hundred else f64_zero in
    let position := if fgt high low then Some (fmul (fdiv (fsub (c_Close last) low) (fsub high low)) hundred) else None in
    MkStructure symbolID "aggregate" "" "" period snapshotTime (trend priceChangePct) (structure rangePct priceChangePct)
      (Some high) (Some low) (mustJSON (enc_floats (supportLevels candles 3))) (mustJSON (enc_floats (resistanceLevels candles 3)))
      position
      (mustJSON (map_json [("candles", int_json (len candles)); ("price_change_percent", marshal_float priceChangePct);
                           ("range_percent", marshal_float rangePct); ("non_signal", Some (JBool true))]))
  end.

Definition computeVolatility (symbolID : Z) (period : string) (snapshotTime : Time) (candles candles24h candles7d : list aggregateCandle)
    : VolatilitySnapshot :=
  let raw := mustJSON (map_json [("candles", int_json (len candles)); ("non_signal", Some (JBool true))]) in
  match candles with
  | [] => MkVolatility symbolID "aggregate" "" "" period snapshotTime None None None None None None None None None raw
  | first :: _ =>
    let '(high, low, closePrice) := candleRange first candles in
    let atr := averageTrueRange candles in
    let atrPercent := match atr with
                      | Some a => if negb (is_zero closePrice) then Some (fmul (fdiv a closePrice) hundred) else None
                      | None => None end in
    let realized := realizedVolatility candles in
    MkVolatility symbolID "aggregate" "" "" period snapshotTime realized ((fun v => fmul v hundred) <$> realized) atr atrPercent
      (Some high) (Some low) (Some closePrice) (rangePercent candles24h) (rangePercent candles7d) raw
  end.

(** ** Exchanges *)

(** [(minValue, minExchange)] and [(maxValue, maxExchange)] so far. *)
Definition minMax_step (pick : exchangeMetric -> option float64) (st : option (float64 * string) * option (float64 * string)) (item : exchangeMetric)
    : option (float64 * string) * option (float64 * string) :=
  match pick item with
  | None => st
  | Some value =>
    (if match fst st with None => true | Some (m, _) => flt value m end then Some (value, em_Exchange item) else fst st,
     if match snd st with None => true | Some (m, _) => fgt value m end then Some (value, em_Exchange item) else snd st)
  end.
Definition minMaxMetric (items : list exchangeMetric) (pick : exchangeMetric -> option float64) : option float64 * option float64 * string * string :=
  let st := foldl (minMax_step pick) (None, None) items in
  (fst <$> fst st, fst <$> snd st, from_option snd "" (fst st), from_option snd "" (snd st)).

Definition spreadPercent (minValue maxValue : option float64) : option float64 :=
  match minValue, maxValue with
  | Some lo, Some hi => if is_zero lo then None else Some (fmul (fdiv (fsub hi lo) lo) hundred)
  | _, _ => None
  end.
Definition simpleSpread (minValue maxValue : option float64) : option float64 :=
  match minValue, maxValue with Some lo, Some hi => Some (fsub hi lo) | _, _ => None end.

Definition enc_metric (m : exchangeMetric) : option json :=
  members [m_str "exchange" (em_Exchange m); m_float_omit "price" (em_Price m); m_float_omit "volume_24h" (em_Volume m);
           m_float_omit "open_interest" (em_OpenInterest m); m_float_omit "funding_rate" (em_FundingRate m)].

(** The body of [BuildExchangeDivergenceSnapshot] once the metrics are loaded; [seconds] is the maximal
    age of a snapshot. *)
Definition computeDivergence (symbolID : Z) (snapshotTime : Time) (seconds : Z) (metrics : list exchangeMetric) : option ExchangeDivergenceSnapshot :=
  if len metrics <? 2 then None else
  let '(priceMin, priceMax, weakest, strongest) := minMaxMetric metrics em_Price in
  let '(oiMin, oiMax, _, _) := minMaxMetric metrics em_OpenInterest in
  let '(fundingMin, fundingMax, _, _) := minMaxMetric metrics em_FundingRate in
  let '(volumeMin, volumeMax, _, _) := minMaxMetric metrics em_Volume in
  let diff := simpleSpread priceMin priceMax in
  let bps := match priceMin, diff with
             | Some lo, Some d => Some (if is_zero lo then f64_zero else fmul (fdiv d lo) (f64_of_Z 10000))
             | _, _ => None end in
  let both (v : option float64) := match priceMin, priceMax with Some _, Some _ => v | _, _ => None end in
  Some (MkDivergence symbolID "market_summary" snapshotTime "aggregate" "all"
          (both priceMin) (both priceMax) diff bps priceMin priceMax (spreadPercent priceMin priceMax)
          oiMin oiMax (spreadPercent oiMin oiMax) fundingMin fundingMax (simpleSpread fundingMin fundingMax)
          volumeMin volumeMax (spreadPercent volumeMin volumeMax) strongest weakest
          (mustJSON (map_json (foldl (fun m i => assoc_set (em_Exchange i) (enc_metric i) m) [] metrics)))
          (mustJSON (map_json [("exchange_count", int_json (len metrics)); ("max_snapshot_age_seconds", int_json seconds);
                               ("quality_filtering_applied", Some (JBool true)); ("non_signal_analytics_layer", Some (JBool true))]))).

(** ** Flags *)

Record anomalyFlag := MkFlag { fl_Name : string; fl_Window : string; fl_Severity : string; fl_Value : float64 }.
Definition enc_flag (f : anomalyFlag) : option json :=
  members [m_str "name" (fl_Name f); m_str_omit "window" (fl_Window f); m_str "severity" (fl_Severity f); m_float "value" (fl_Value f)].

Definition flag_if (test : float64 -> bool) (name window : string) (v : option float64) : list anomalyFlag :=
  match v with Some x => if test x then [MkFlag name window "info" x] else [] | None => [] end.
Definition window_flags (m : AnalyticsWindowMetric) : list anomalyFlag :=
  (flag_if (fun x => fge x (f64_of_Z 1000000)) "large_liquidation_cluster" (wm_Window m) (wm_LiquidationSumUSD m) ++
   flag_if (fun x => fge (fabs x) (f64_of_Z 1)) "elevated_basis" (wm_Window m) (wm_BasisAvg m) ++
   flag_if (fun x => fge x (f64_dec 1 (-3))) "positive_funding_extreme" (wm_Window m) (wm_FundingMax m) ++
   flag_if (fun x => fle x (f64_dec (-1) (-3))) "negative_funding_extreme" (wm_Window m) (wm_FundingMin m))%list.
Definition anomaly_flags (snapshot : DerivativeAggregateSnapshot) (windows : list AnalyticsWindowMetric) : list anomalyFlag :=
  (flat_map window_flags windows ++
   flag_if (fun x => fge (fabs x) (f64_of_Z 50)) "orderbook_imbalance" "" (da_AvgOrderbookImbalancePercent snapshot))%list.
(** A nil slice is [null]. *)
Definition buildAnomalyFlags (snapshot : DerivativeAggregateSnapshot) (windows : list AnalyticsWindowMetric) : RawMessage :=
  match anomaly_flags snapshot windows with
  | [] => RawJson JNull
  | flags => mustJSON (JArray <$> all_some (map enc_flag flags))
  end.

(** ** Extremes *)

(** [le v e] says that [v] is no better than the extreme [e]; [better] is the comparison of a loop
    that looks for it. *)
Class Extreme (better : float64 -> float64 -> bool) (le : float64 -> float64 -> bool) := {
  extreme_refl x : is_nan x = false -> le x x = true;
  extreme_trans x y z : le x y = true -> le y z = true -> le x z = true;
  extreme_better v x : better v x = true -> le x v = true;
  extreme_worse v x : is_nan v = false -> is_nan x = false -> better v x = false -> le v x = true }.

#[export] Instance extreme_high : Extreme fgt fle.
Proof.
  split; [apply fle_refl|apply fle_trans|intros; by apply flt_fle|intros v x Hv Hx Hb; by apply flt_false_fle].
Qed.
#[export] Instance extreme_low : Extreme flt (fun v e => fle e v).
Proof.
  split; [apply fle_refl|intros x y z H1 H2; by eapply fle_trans|intros; by apply flt_fle|intros v x Hv Hx Hb; by apply flt_false_fle].
Qed.

Section extreme.
Context {A} (f : A -> float64) (better le : float64 -> float64 -> bool) `{!Extreme better le}.

Definition extreme_step (x : float64) (a : A) : float64 := if better (f a) x then f a else x.

Lemma extreme_fold l x : is_nan x = false -> Forall (fun a => is_nan (f a) = false) l ->
  let e := foldl extreme_step x l in
  is_nan e = false /\ le x e = true /\ Forall (fun a => le (f a) e = true) l /\ (e = x \/ exists a, a ∈ l /\ f a = e).
Proof.
  intros Hx Hl. revert x Hx. induction Hl as [|a l Ha Hl IH]; intros x Hx; cbn [foldl].
  { split_and!; [done|by apply extreme_refl|done|by left]. }
  assert (is_nan (extreme_step x a) = false) as Hs by (unfold extreme_step; by case_match).
  destruct (IH _ Hs) as (He & Hle & Hall & Hat). assert (le x (extreme_step x a) = true /\ le (f a) (extreme_step x a) = true) as [H1 H2].
  { unfold extreme_step. destruct (better (f a) x) eqn:E.
    - split; [by apply extreme_better|by apply extreme_refl].
    - split; [by apply extreme_refl|by apply extreme_worse]. }
  split_and!; [done|by eapply extreme_trans| |].
  - constructor; [by eapply extreme_trans|done].
  - destruct Hat as [Hat|(b & Hb & Hfb)]; [|right; exists b; split; [by right|done]].
    rewrite Hat. unfold extreme_step. case_match; [right; exists a; split; [by left|done]|by left].
Qed.
End extreme.

(** The range of candles: the highest high and the lowest low, both attained. *)
Definition priced (c : aggregateCandle) : Prop := is_nan (c_High c) = false /\ is_nan (c_Low c) = false.
Lemma candle_extremes first rest : Forall priced (first :: rest) ->
  let candles := first :: rest in
  let high := foldl widen_high (c_High first) candles in let low := foldl widen_low (c_Low first) candles in
  (exists c, c ∈ candles /\ c_High c = high) /\ (forall c, c ∈ candles -> fle (c_High c) high = true) /\
  (exists c, c ∈ candles /\ c_Low c = low) /\ (forall c, c ∈ candles -> fle low (c_Low c) = true).
Proof.
  intros Hp candles high low. pose proof Hp as [[Hh Hl] _]%Forall_cons.
  destruct (extreme_fold c_High fgt fle candles (c_High first) Hh) as (_ & _ & H1 & H2); [by eapply Forall_impl; [exact Hp|]; intros c []|].
  destruct (extreme_fold c_Low flt (fun v e => fle e v) candles (c_Low first) Hl) as (_ & _ & H3 & H4); [by eapply Forall_impl; [exact Hp|]; intros c []|].
  rewrite Forall_forall in H1, H3. split_and!.
  - destruct H2 as [H2|H2]; [|exact H2]. exists first. split; [by left|by symmetry].
  - exact H1.
  - destruct H4 as [H4|H4]; [|exact H4]. exists first. split; [by left|by symmetry].
  - exact H3.
Qed.

(** ** Levels *)

(** Neighbouring levels are apart. *)
Definition spaced (l : list float64) : Prop := forall i a b, l !! i = Some a -> l !! S i = Some b -> near a b = false.

Lemma spaced_snoc l v : spaced l -> (forall p, last l = Some p -> near p v = false) -> spaced (l ++ [v]).
Proof.
  intros Hl Hv i a b Ha Hb. destruct (decide (S i < length l)%nat) as [Hi|Hi].
  - rewrite lookup_app_l in Ha, Hb by lia. by eapply Hl.
  - assert (S i = length l) as Hi'.
    { apply lookup_lt_Some in Hb. rewrite length_app in Hb. cbn [length] in Hb. lia. }
    rewrite lookup_app_l in Ha by lia. rewrite Hi', list_lookup_middle in Hb by done. injection Hb as <-. apply Hv.
    rewrite last_lookup. by replace (pred (length l)) with i by lia.
Qed.

Lemma last_rev {A} (l : list A) : last l = match List.rev l with p :: _ => Some p | [] => None end.
Proof. induction l as [|x l _] using rev_ind; [done|]. rewrite rev_app_distr. cbn. apply last_snoc. Qed.

Lemma unique_loop_spec values : forall result limit, (length result < limit)%nat -> spaced result ->
  exists more, unique_loop values result limit = (result ++ more)%list /\ more `sublist_of` values /\ spaced (result ++ more) /\
    (length (result ++ more) <= limit)%nat /\
    ((length (result ++ more) < limit)%nat -> forall v, v ∈ values -> v ∈ more \/ exists l, l ∈ (result ++ more)%list /\ near l v = true).
Proof.
  induction values as [|v values IH]; intros result limit Hlen Hs; cbn [unique_loop].
  { exists []. rewrite app_nil_r. split_and!; try done; [lia|]. intros _ v Hv. by apply not_elem_of_nil in Hv. }
  pose proof (last_rev result) as Hlast. destruct (match List.rev result with prev :: _ => near prev v | [] => false end) eqn:E.
  - destruct (IH result limit Hlen Hs) as (more & -> & Hsub & Hsp & Hle & Hcov). exists more. split_and!; try done; [by constructor|].
    intros Hlt w [->|Hw]%elem_of_cons; [|by apply Hcov]. right. destruct (List.rev result) as [|p r]; [done|].
    exists p. split; [|done]. apply elem_of_app. left. by apply last_Some_elem_of.
  - assert (spaced (result ++ [v])) as Hs'.
    { apply spaced_snoc; [done|]. intros p Hp. rewrite Hlast in Hp. destruct (List.rev result); [done|]. by injection Hp as <-. }
    destruct (Nat.eqb_spec (length (result ++ [v])) limit) as [El|El].
    + exists [v]. split_and!; try done; [by constructor; apply sublist_nil_l|lia|lia].
    + destruct (IH (result ++ [v])%list limit) as (more & -> & Hsub & Hsp & Hle & Hcov); [rewrite length_app in *; cbn [length] in *; lia|done|].
      exists (v :: more). rewrite <- app_assoc in *. cbn [app] in *. split_and!; try done; [by constructor|].
      intros Hlt w [->|Hw]%elem_of_cons; [left; by left|]. destruct (Hcov Hlt w Hw) as [?|?]; [left; by right|by right].
Qed.

(** The levels of a list of values: at most [limit] of them, best first by [le], apart from each other,
    the first being the best of all, and when there is room for more every value is near a level. *)
Record levels_of (le : float64 -> float64 -> bool) (values : list float64) (limit : nat) (l : list float64) : Prop := {
  levels_at_most : (length l <= limit)%nat;
  levels_from : forall v, v ∈ l -> v ∈ values;
  levels_sorted : StronglySorted (fun x y => le x y = true) l;
  levels_apart : spaced l;
  levels_best : values <> [] -> exists b, head l = Some b /\ forall v, v ∈ values -> le b v = true;
  levels_cover : (length l < limit)%nat -> forall v, v ∈ values -> exists x, x ∈ l /\ (x = v \/ near x v = true) }.

Lemma StronglySorted_sub {A} (R : A -> A -> Prop) l k : l `sublist_of` k -> StronglySorted R k -> StronglySorted R l.
Proof.
  induction 1 as [|x l k Hsub IH|x l k Hsub IH]; intros Hs; [constructor| |]; inversion Hs as [|? ? Hk Hall]; subst; [|by apply IH].
  constructor; [by apply IH|]. rewrite Forall_forall in *. intros y Hy. apply Hall. by eapply elem_of_submseteq, sublist_submseteq.
Qed.

Lemma uniqueRounded_levels leb values limit : (forall x y, leb x y = false -> leb y x = true) ->
  (forall x y z, leb x y = true -> leb y z = true -> leb x z = true) -> (0 < limit)%nat ->
  levels_of leb values limit (uniqueRounded (stable_sort leb values) limit).
Proof.
  intros Htot Htr Hlim. pose proof (stable_sort_sorted leb Htot Htr values) as Hs.
  unfold uniqueRounded. set (vs := stable_sort leb values) in *.
  destruct (unique_loop_spec vs [] limit) as (more & E & Hsub & Hsp & Hle & Hcov); [done|by intros i a b Ha|].
  assert (forall v, v ∈ vs <-> v ∈ values) as Hin by (intros v; apply elem_of_stable_sort).
  rewrite E. cbn [app] in *. split; try done.
  - intros v Hv. apply Hin. by eapply elem_of_submseteq, sublist_submseteq.
  - by eapply StronglySorted_sub.
  - intros Hne. destruct vs as [|b rest] eqn:Evs; [by destruct Hne; apply Permutation_nil; rewrite <- (stable_sort_perm leb values); unfold vs in Evs; rewrite Evs|].
    exists b. split.
    + cbn [unique_loop List.rev] in E. cbn [app length] in E. destruct (Nat.eqb_spec 1 limit).
      * by rewrite <- E.
      * destruct (unique_loop_spec rest [b] limit) as (m' & E' & _); [cbn [length]; lia|by intros [] ? ? ? ?|]. by rewrite <- E, E'.
    + intros v Hv%Hin. inversion Hs as [|? ? _ Hall]; subst. apply elem_of_cons in Hv as [->|Hv].
      * destruct (leb b b) eqn:Eb; [done|]. pose proof (Htot b b Eb). congruence.
      * rewrite Forall_forall in Hall. by apply Hall.
  - intros Hlt v Hv%Hin. destruct (Hcov Hlt v Hv) as [H1|(x & Hx & Hn)]; [exists v; auto|exists x; auto].
Qed.

Lemma float_leb_total x y : float_leb x y = false -> float_leb y x = true.
Proof.
  unfold float_leb. destruct (is_nan x) eqn:Hx, (is_nan y) eqn:Hy; cbn [orb]; try done. intros Hf.
  destruct (flt y x) eqn:E; [by apply flt_fle|]. by rewrite (flt_false_fle y x) in Hf.
Qed.
Lemma float_leb_trans x y z : float_leb x y = true -> float_leb y z = true -> float_leb x z = true.
Proof.
  unfold float_leb. destruct (is_nan x); cbn [orb]; [done|]. intros H1. rewrite (fle_nan_r _ _ H1). cbn [orb]. intros H2. by eapply fle_trans.
Qed.

Lemma supportLevels_spec candles limit : (0 < limit)%nat -> levels_of float_leb (map c_Low candles) limit (supportLevels candles limit).
Proof. intros. apply uniqueRounded_levels; [apply float_leb_total|apply float_leb_trans|done]. Qed.
Lemma resistanceLevels_spec candles limit : (0 < limit)%nat ->
  levels_of (fun x y => float_leb y x) (map c_High candles) limit (resistanceLevels candles limit).
Proof.
  intros. apply uniqueRounded_levels; [intros x y; apply float_leb_total|intros x y z ? ?; by eapply float_leb_trans|done].
Qed.

(** C11: the market structure of a window is that of its candles.  With at least two candles whose highs and
    lows are numbers, the swing high is the high of a candle and no candle goes above it, the swing low
    likewise below; the support levels are at most three lows, lowest first, starting with the lowest of
    all, neighbours at least 1e-9 apart, and if there are fewer than three every low is within 1e-9 of a
    level; the resistance levels are the same of the highs, highest first. *)
Theorem market_structure_spec symbolID period t candles :
  2 <= len candles -> Forall priced candles ->
  let s := computeMarketStructure symbolID period t candles in
  exists high low sup res,
    ms_LastSwingHigh s = Some high /\ ms_LastSwingLow s = Some low /\
    (exists c, c ∈ candles /\ c_High c = high) /\ (forall c, c ∈ candles -> fle (c_High c) high = true) /\
    (exists c, c ∈ candles /\ c_Low c = low) /\ (forall c, c ∈ candles -> fle low (c_Low c) = true) /\
    ms_SupportLevels s = mustJSON (enc_floats sup) /\ levels_of float_leb (map c_Low candles) 3 sup /\
    ms_ResistanceLevels s = mustJSON (enc_floats res) /\ levels_of (fun x y => float_leb y x) (map c_High candles) 3 res.
Proof.
  intros Hlen Hp. unfold computeMarketStructure. rewrite (proj2 (Z.ltb_ge _ _) Hlen). destruct candles as [|first rest]; [done|].
  destruct (candle_extremes first rest Hp) as (H1 & H2 & H3 & H4).
  exists (foldl widen_high (c_High first) (first :: rest)), (foldl widen_low (c_Low first) (first :: rest)).
  exists (supportLevels (first :: rest) 3), (resistanceLevels (first :: rest) 3).
  split_and!; try done; [apply supportLevels_spec|apply resistanceLevels_spec]; lia.
Qed.

Definition sample_candle (t o h l c : Z) : aggregateCandle := MkCandle t (f64_of_Z o) (f64_of_Z h) (f64_of_Z l) (f64_of_Z c).
Definition sample_candles : list aggregateCandle :=
  [sample_candle 0 100 110 95 105; sample_candle 300 105 112 101 111; sample_candle 600 111 111 95 96; sample_candle 900 96 99 90 91].

Lemma market_structure_spec_witness :
  ms_LastSwingHigh (computeMarketStructure 7 "1h" 900 sample_candles) = Some (f64_of_Z 112) /\
  (exists high low sup res, ms_LastSwingHigh (computeMarketStructure 7 "1h" 900 sample_candles) = Some high /\
     ms_LastSwingLow (computeMarketStructure 7 "1h" 900 sample_candles) = Some low /\
     (exists c, c ∈ sample_candles /\ c_High c = high) /\ (exists c, c ∈ sample_candles /\ c_Low c = low) /\
     levels_of float_leb (map c_Low sample_candles) 3 sup /\ levels_of (fun x y => float_leb y x) (map c_High sample_candles) 3 res).
Proof.
  split; [by vm_compute|].
  destruct (market_structure_spec 7 "1h" 900 sample_candles) as (high & low & sup & res & H1 & H2 & H3 & _ & H5 & _ & _ & H8 & _ & H10);
    [by vm_compute|repeat constructor|]. by exists high, low, sup, res.
Defined.

(** The levels, the trend and the state of the sample. *)
Example sample_structure : let s := computeMarketStructure 7 "1h" 900 sample_candles in
  ms_TrendDirection s = "bearish" /\ ms_StructureState s = "expansion" /\
  ms_SupportLevels s = RawJson (JArray [JInt 90; JInt 95; JInt 101]) /\ ms_ResistanceLevels s = RawJson (JArray [JInt 112; JInt 111; JInt 110]) /\
  ms_PricePosition s = Some (f64_dec 4545454545454546 (-15)).
Proof. by vm_compute. Qed.

(** ** Divergence of exchanges *)

(** [o] is the best value that [pick] finds among the items, with the exchange it is from. *)
Definition best_of (le : float64 -> float64 -> bool) (pick : exchangeMetric -> option float64) (items : list exchangeMetric)
    (o : option (float64 * string)) : Prop :=
  match o with
  | None => forall i, i ∈ items -> pick i = None
  | Some (v, ex) => (exists i, i ∈ items /\ pick i = Some v /\ em_Exchange i = ex) /\ forall i w, i ∈ items -> pick i = Some w -> le w v = true
  end.

Definition measured (pick : exchangeMetric -> option float64) (i : exchangeMetric) : Prop := from_option (fun v => is_nan v = false) True (pick i).

Lemma best_of_step better le `{!Extreme better le} pick items i v o :
  Forall (measured pick) (items ++ [i]) -> best_of le pick items o -> pick i = Some v ->
  best_of le pick (items ++ [i]) (if match o with None => true | Some (m, _) => better v m end then Some (v, em_Exchange i) else o).
Proof.
  intros [Hm [Hi _]%Forall_cons]%Forall_app Ho Hv. unfold measured in Hi. rewrite Hv in Hi. cbn in Hi.
  destruct o as [[m ex]|]; cbn [best_of] in Ho.
  - destruct Ho as [(j & Hj & Hjm & Hex) Hall]. assert (is_nan m = false) as Hmn.
    { rewrite Forall_forall in Hm. specialize (Hm j Hj). unfold measured in Hm. by rewrite Hjm in Hm. }
    destruct (better v m) eqn:E; cbn [best_of]; (split; [|intros k w [Hk|Hk%list_elem_of_singleton]%elem_of_app Hw]).
    + exists i. split; [apply elem_of_app; right; by left|done].
    + eapply extreme_trans; [by eapply Hall|by apply extreme_better].
    + subst k. assert (w = v) as -> by congruence. by apply extreme_refl.
    + exists j. split; [apply elem_of_app; by left|done].
    + by eapply Hall.
    + subst k. assert (w = v) as -> by congruence. by apply extreme_worse.
  - cbn [best_of]. split; [exists i; split; [apply elem_of_app; right; by left|done]|].
    intros k w [Hk|Hk%list_elem_of_singleton]%elem_of_app Hw; [by rewrite Ho in Hw|]. subst k. assert (w = v) as -> by congruence. by apply extreme_refl.
Qed.

Lemma minMax_best pick items : Forall (measured pick) items ->
  let st := foldl (minMax_step pick) (None, None) items in
  best_of (fun v e => fle e v) pick items (fst st) /\ best_of fle pick items (snd st).
Proof.
  induction items as [|i items IH] using rev_ind; intros Hm; [by split; intros i Hi%not_elem_of_nil|].
  rewrite foldl_snoc. destruct (IH (proj1 (proj1 (Forall_app _ _ _) Hm))) as [Hlo Hhi].
  set (st := foldl (minMax_step pick) (None, None) items) in *. unfold minMax_step. destruct (pick i) as [v|] eqn:E.
  - cbn [fst snd]. split; [by apply (best_of_step flt (fun v e => fle e v))|by apply (best_of_step fgt fle)].
  - assert (forall le o, best_of le pick items o -> best_of le pick (items ++ [i]) o) as Hk.
    { intros le [[m ex]|]; cbn [best_of].
      - intros [(j & Hj & ?) Hall]. split; [exists j; split; [apply elem_of_app; by left|done]|].
        intros k w [Hk|Hk%list_elem_of_singleton]%elem_of_app Hw; [by eapply Hall|congruence].
      - intros Hall k [Hk|Hk%list_elem_of_singleton]%elem_of_app; [by apply Hall|congruence]. }
    cbn [fst snd]. by split; apply Hk.
Qed.

(** the divergence snapshot names the extremes of the exchanges.  There is one exactly when at least two
    exchanges have metrics.  Its lowest and highest price are prices of the weakest and the strongest
    exchange and no exchange is outside them (both are absent exactly when no exchange has a price); the
    reference and compared value repeat them and the divergence is their difference; open interest,
    funding and volume are bounded in the same way. *)
Theorem divergence_extremes symbolID t seconds metrics :
  Forall (fun i => measured em_Price i /\ measured em_OpenInterest i /\ measured em_FundingRate i /\ measured em_Volume i) metrics ->
  match computeDivergence symbolID t seconds metrics with
  | None => len metrics < 2
  | Some d =>
    2 <= len metrics /\
    (exists lo hi, best_of (fun v e => fle e v) em_Price metrics lo /\ best_of fle em_Price metrics hi /\
       dv_PriceMin d = fst <$> lo /\ dv_PriceMax d = fst <$> hi /\
       dv_WeakestExchange d = from_option snd "" lo /\ dv_StrongestExchange d = from_option snd "" hi) /\
    dv_ReferenceValue d = dv_PriceMin d /\ dv_ComparedValue d = dv_PriceMax d /\ dv_DivergenceAbs d = simpleSpread (dv_PriceMin d) (dv_PriceMax d) /\
    (exists lo hi, best_of (fun v e => fle e v) em_OpenInterest metrics lo /\ best_of fle em_OpenInterest metrics hi /\
       dv_OIMin d = fst <$> lo /\ dv_OIMax d = fst <$> hi) /\
    (exists lo hi, best_of (fun v e => fle e v) em_FundingRate metrics lo /\ best_of fle em_FundingRate metrics hi /\
       dv_FundingMin d = fst <$> lo /\ dv_FundingMax d = fst <$> hi) /\
    (exists lo hi, best_of (fun v e => fle e v) em_Volume metrics lo /\ best_of fle em_Volume metrics hi /\
       dv_VolumeMin d = fst <$> lo /\ dv_VolumeMax d = fst <$> hi)
  end.
Proof.
  intros Hm. unfold computeDivergence. destruct (Z.ltb_spec (len metrics) 2) as [Hl|Hl]; [done|].
  assert (forall pick, Forall (measured pick) metrics -> let st := foldl (minMax_step pick) (None, None) metrics in
    best_of (fun v e => fle e v) pick metrics (fst st) /\ best_of fle pick metrics (snd st)) as Hb by (intros; by apply minMax_best).
  assert (forall pick, (forall i, measured em_Price i /\ measured em_OpenInterest i /\ measured em_FundingRate i /\ measured em_Volume i -> measured pick i) ->
    Forall (measured pick) metrics) as Hpick by (intros pick Hi; eapply Forall_impl; [exact Hm|exact Hi]).
  destruct (Hb em_Price) as [Hp1 Hp2]; [apply Hpick; tauto|]. destruct (Hb em_OpenInterest) as [Ho1 Ho2]; [apply Hpick; tauto|].
  destruct (Hb em_FundingRate) as [Hf1 Hf2]; [apply Hpick; tauto|]. destruct (Hb em_Volume) as [Hv1 Hv2]; [apply Hpick; tauto|].
  unfold minMaxMetric. cbn [dv_PriceMin dv_PriceMax dv_ReferenceValue dv_ComparedValue dv_DivergenceAbs dv_WeakestExchange dv_StrongestExchange
    dv_OIMin dv_OIMax dv_FundingMin dv_FundingMax dv_VolumeMin dv_VolumeMax].
  set (p := foldl (minMax_step em_Price) (None, None) metrics) in *.
  assert (fst p = None <-> snd p = None) as Hnone.
  { split; intros E; rewrite E in *; cbn [best_of] in *; [destruct (snd p) as [[v ex]|]; [|done]|destruct (fst p) as [[v ex]|]; [|done]].
    - destruct Hp2 as [(i & Hi & Hv & _) _]. by rewrite Hp1 in Hv. - destruct Hp1 as [(i & Hi & Hv & _) _]. by rewrite Hp2 in Hv. }
  split_and!; [done|by exists (fst p), (snd p)| | |done|by eexists _, _|by eexists _, _|by eexists _, _].
  - destruct (fst p), (snd p); try done. by specialize (proj2 Hnone eq_refl).
  - destruct (fst p), (snd p); try done. by specialize (proj1 Hnone eq_refl).
Qed.

Definition sample_metrics : list exchangeMetric :=
  [MkMetric "binance" (Some (f64_of_Z 100)) (Some (f64_of_Z 7)) None None; MkMetric "okx" (Some (f64_of_Z 103)) None (Some (f64_of_Z 5)) None;
   MkMetric "bybit" None (Some (f64_of_Z 3)) None None].

Lemma divergence_extremes_witness : exists d, computeDivergence 7 0 600 sample_metrics = Some d /\ dv_WeakestExchange d = "binance" /\
  dv_StrongestExchange d = "okx" /\ dv_DivergenceBPS d = Some (f64_of_Z 300) /\
  exists lo hi, best_of (fun v e => fle e v) em_Volume sample_metrics lo /\ best_of fle em_Volume sample_metrics hi /\
    dv_VolumeMin d = fst <$> lo /\ dv_VolumeMax d = fst <$> hi.
Proof.
  pose proof (divergence_extremes 7 0 600 sample_metrics ltac:(repeat constructor)) as H.
  destruct (computeDivergence 7 0 600 sample_metrics) as [d|] eqn:E; [|by vm_compute in H].
  exists d. destruct H as (_ & _ & _ & _ & _ & _ & _ & H). injection E as <-. by split_and!; [reflexivity|vm_compute..|].
Defined.
