(* ===== verification/AggregateReads.v ===== *)
(** * Reading side of the aggregate repository ([internal/repositories]: [aggregate.go], [aggregate_analytics.go])

    The statements over the tables of the store, the loops over their rows, and the aggregates and
    analytics built from them. *)

From S2P Require Import Prelude GoString GoTime GoFloat GoDuration GoError GoJson GoJsonText PgNumeric ApiStore ApiSchema ApiSeries ApiOverview RealtimeEvents AggregateQuality PgAggregate AggregateModels Analytics.

Abbreviation row := (gmap string sval) (only parsing).

(** ** Conditions of the statements *)

Definition is_symbol (symbolID : Z) (r : row) : bool := match r !! "symbol_id" with Some (SInt z) => z =? symbolID | _ => false end.
Definition time_in (c : string) (P : Time -> bool) (r : row) : bool := match r !! c with Some (STime t) => P t | _ => false end.

(** [raw_data->>'key']: NULL for a value that is no object, a missing member and null.  The text of a
    value other than a string is none of the words below, so only strings need their text. *)
Definition arrow (r : row) (key : string) : option json :=
  match r !! "raw_data" with
  | Some (SJson j) => match member j key with Some JNull => None | v => v end
  | _ => None
  end.
(** [lower(COALESCE(raw_data->>'quality_status', raw_data->>'status', raw_data->>'normalized_status', 'ok'))
    NOT IN ('degraded', 'failed', 'invalid', 'unhealthy')]. *)
Definition coalesce {A} (l : list (option A)) : option A := head (omap id l).
Definition quality_ok (r : row) : bool :=
  match coalesce [arrow r "quality_status"; arrow r "status"; arrow r "normalized_status"] with
  | Some (JString s) => negb (bool_decide (ToLower s ∈ ["degraded"; "failed"; "invalid"; "unhealthy"]))
  | _ => true
  end.

(** ** Answers of the server *)

(** A statement that answers one row of computed values. *)
Definition one_row {A} (f : fault) (args : list any) (vals : list (string * option sval)) (s : scanner A) : result error A :=
  match query_error f with
  | Some err => Err err
  | None =>
    if negb (forallb arg_ok args) then Err (ErrorString "pq: timestamp out of range") else
    match iter_error f with
    | Some (O, err) => Err err
    | _ => Scan (length vals) s (map (fun x => (fst x, driver <$> snd x)) vals)
    end
  end.

Fixpoint scan_each {A} (scan : drow -> result error A) (rows : list drow) : result error (list A) :=
  match rows with
  | [] => Ok []
  | r :: rest => let! a := scan r in let! l := scan_each scan rest in Ok (a :: l)
  end.

(** A statement that answers rows, and the loop that scans them; what the loop does with a row has no
    effect on the next, so the rows are scanned first. *)
Definition many_rows {A} (f : fault) (args : list any) (m : messages) (rows : list drow) (n : nat) (s : scanner A) : result error (list A) :=
  match query_error f with
  | Some err => Err (wrap (msg_query m) err)
  | None =>
    if negb (forallb arg_ok args) then Err (wrap (msg_query m) (ErrorString "pq: timestamp out of range")) else
    let seen := match iter_error f with Some (k, _) => take k rows | None => rows end in
    let! l := scan_each (fun r => match Scan n s r with Ok a => Ok a | Err e => Err (wrap (msg_scan m) e) end) seen in
    match iter_error f with Some (_, e) => Err (wrap (msg_iterate m) e) | None => Ok l end
  end.

(** [sql.NullFloat64]. *)
Definition nullFloat : option dval -> result error (option float64) := nullable to_float.
Definition one_float : scanner (option float64) := column nullFloat.
Definition three_floats : scanner (option float64 * option float64 * option float64) :=
  a ← column nullFloat; b ← column nullFloat; c ← column nullFloat; mret (a, b, c).

(** The parameter of [$2 - interval '5 minutes'] comes without a type; an operand of unknown type
    has the type of the other one, whatever the difference is compared with. *)
Inductive sqltype := TypeTimestamptz | TypeInterval.
Definition unknown_operand (other : sqltype) : sqltype := other.
Definition minus_param : sqltype := unknown_operand TypeInterval.

Section reads.
Context `{HeapOrder} (db : Database) (options : AggregateOptions).

Definition table (name : string) : list row := heap (db_rows db name).
Definition values (c : string) (rows : list row) : list sval := omap (fun r => r !! c) rows.
Definition cutoff (t : Time) : Time := Add t (- MaxSnapshotAge options).

(** [SELECT DISTINCT ON (exchange) ... WHERE symbol_id = $1 AND snapshot_time <= $2 AND snapshot_time >= $3 ...]. *)
Definition fresh (symbolID : Z) (at_ : Time) (r : row) : bool :=
  is_symbol symbolID r && time_in "snapshot_time" (fun t => (t <=? at_) && (cutoff at_ <=? t)) r.
Definition latest (name : string) (keep : row -> bool) (symbolID : Z) (at_ : Time) : list row :=
  latest_by_exchange (List.filter (fun r => fresh symbolID at_ r && keep r) (table name)).
Definition always (r : row) : bool := true.
Definition latest_args (symbolID : Z) (at_ : Time) : list any := [AInt symbolID; ATime at_; ATime (cutoff at_)].

Definition zero_num : sval := SNum 0 0.
(** [COALESCE(SUM(...), 0)]. *)
Definition coalesce_sum (l : list sval) : string * option sval := ("coalesce", Some (default zero_num (pg_sum l))).
Definition nonneg_values (c : string) (rows : list row) : list sval := map (fun r => nonneg_or_zero (r !! c)) rows.
Definition avg_of (c : string) (rows : list row) : string * option sval := ("avg", pg_avg (values c rows)).
Definition min_of (c : string) (rows : list row) : string * option sval := ("min", pg_min (values c rows)).
Definition max_of (c : string) (rows : list row) : string * option sval := ("max", pg_max (values c rows)).

(** A failed one-row statement is wrapped with its message. *)
Definition wrapped {A} (m : string) (r : result error A) : result error A := match r with Ok a => Ok a | Err e => Err (wrap m e) end.

(** ** Market rows *)

Record marketRow := MkMarketRow {
  mr_exchange : string; mr_lastPrice : option float64; mr_markPrice : option float64; mr_volume : option float64;
  mr_quoteVolume : option float64; mr_openInterest : option float64; mr_fundingRate : option float64; mr_rawData : RawMessage;
  mr_snapshotAt : Time }.

(** [price := lastPrice; if !price.Valid { price = markPrice }]. *)
Definition row_price (r : marketRow) : option float64 := match mr_lastPrice r with Some p => Some p | None => mr_markPrice r end.

Definition latest_columns : list (string * expr) :=
  map col ["exchange"; "last_price"; "mark_price"; "volume_24h"; "quote_volume_24h"; "open_interest"; "funding_rate"; "raw_data"; "snapshot_time"].
Definition scan_latest : scanner marketRow :=
  ex ← column to_string; last ← column nullFloat; mark ← column nullFloat; vol ← column nullFloat; qvol ← column nullFloat;
  oi ← column nullFloat; fund ← column nullFloat; raw ← column to_raw; t ← column to_time;
  mret (MkMarketRow ex last mark vol qvol oi fund raw t).

Definition latest_market (cols : list (string * expr)) (m : messages) (s : scanner marketRow) (symbolID : Z) (at_ : Time)
    : result error (list marketRow) :=
  many_rows (db_fault db "derivative_market_snapshots") (latest_args symbolID at_) m
    (map (project cols) (latest "derivative_market_snapshots" always symbolID at_)) (length cols) s.

(** ** [BuildLatest] *)

(** The variables of the loop. *)
Record totals := MkTotals {
  t_exchanges : list string; t_raw : list (string * RawMessage); t_quality : aggregateQualityMetadata;
  t_priceSum : float64; t_priceCount : Z; t_weightedNumerator : float64; t_weightedDenom : float64;
  t_totalVolume : float64; t_totalQuoteVolume : float64; t_totalOI : float64; t_totalOIValue : float64; t_hasOIValue : bool;
  t_fundingSum : float64; t_fundingCount : Z; t_minFunding : option float64; t_maxFunding : option float64 }.

Definition positive (x : float64) : bool := fgt x f64_zero.
Definition non_negative (x : float64) : bool := fge x f64_zero.
(** [if x.Valid && ok(x.Float64) { sum += x.Float64 } else if x.Valid { quality.Invalid(exchange, field) }]. *)
Definition add_valid (ok : float64 -> bool) (x : option float64) (sum : float64) : float64 :=
  match x with Some v => if ok v then fadd sum v else sum | None => sum end.
Definition note_invalid (ok : float64 -> bool) (exchange field : string) (x : option float64) (q : aggregateQualityMetadata) : aggregateQualityMetadata :=
  match x with Some v => if ok v then q else Invalid exchange field q | None => q end.
Definition keeps (ok : float64 -> bool) (x : option float64) : option float64 := match x with Some v => if ok v then Some v else None | None => None end.

Definition valid (x : option float64) : bool := match x with Some _ => true | None => false end.

Definition lower_to (v : float64) (m : option float64) : option float64 := match m with None => Some v | Some x => Some (if flt v x then v else x) end.
Definition raise_to (v : float64) (m : option float64) : option float64 := match m with None => Some v | Some x => Some (if fgt v x then v else x) end.

Definition add_row (staleCutoff : Time) (st : totals) (r : marketRow) : totals :=
  let ex := mr_exchange r in
  let skip reason := MkTotals (t_exchanges st) (t_raw st) (Skip ex reason (t_quality st)) (t_priceSum st) (t_priceCount st)
    (t_weightedNumerator st) (t_weightedDenom st) (t_totalVolume st) (t_totalQuoteVolume st) (t_totalOI st) (t_totalOIValue st)
    (t_hasOIValue st) (t_fundingSum st) (t_fundingCount st) (t_minFunding st) (t_maxFunding st) in
  if Before (mr_snapshotAt r) staleCutoff then skip "stale_snapshot" else
  if rawJSONMarkedDegraded (mr_rawData r) then skip "degraded_raw_data" else
  let price := row_price r in
  let q := Include ex (t_quality st) in
  let q := note_invalid positive ex "price" price q in
  let q := note_invalid non_negative ex "volume_24h" (mr_volume r) q in
  let q := note_invalid non_negative ex "quote_volume_24h" (mr_quoteVolume r) q in
  let q := note_invalid non_negative ex "open_interest" (mr_openInterest r) q in
  let '(num, den) := match keeps positive price, keeps positive (mr_quoteVolume r) with
                     | Some p, Some v => (fadd (t_weightedNumerator st) (fmul p v), fadd (t_weightedDenom st) v)
                     | _, _ => (t_weightedNumerator st, t_weightedDenom st) end in
  let '(oiValue, hasOI) := match keeps non_negative (mr_openInterest r), keeps positive price with
                           | Some oi, Some p => (fadd (t_totalOIValue st) (fmul oi p), true)
                           | _, _ => (t_totalOIValue st, t_hasOIValue st) end in
  let '(fsum, fcount, fmin, fmax) := match mr_fundingRate r with
                                     | Some v => (fadd (t_fundingSum st) v, t_fundingCount st + 1, lower_to v (t_minFunding st), raise_to v (t_maxFunding st))
                                     | None => (t_fundingSum st, t_fundingCount st, t_minFunding st, t_maxFunding st) end in
  MkTotals (t_exchanges st ++ [ex])%list (assoc_set ex (ensureJSON (mr_rawData r)) (t_raw st)) q
    (add_valid positive price (t_priceSum st)) (if valid (keeps positive price) then t_priceCount st + 1 else t_priceCount st) num den
    (add_valid non_negative (mr_volume r) (t_totalVolume st)) (add_valid non_negative (mr_quoteVolume r) (t_totalQuoteVolume st))
    (add_valid non_negative (mr_openInterest r) (t_totalOI st)) oiValue hasOI fsum fcount fmin fmax.

Definition no_totals (q : aggregateQualityMetadata) : totals :=
  MkTotals [] [] q f64_zero 0 f64_zero f64_zero f64_zero f64_zero f64_zero f64_zero false f64_zero 0 None None.

(** The snapshot after the loop, its advanced fields still nil; a nil slice of exchanges is [null]. *)
Definition of_totals (symbolID : Z) (snapshotTime : Time) (st : totals) : DerivativeAggregateSnapshot :=
  MkAggregate symbolID snapshotTime (len (t_exchanges st))
    (if 0 <? t_priceCount st then Some (fdiv (t_priceSum st) (f64_of_Z (t_priceCount st))) else None)
    (if positive (t_weightedDenom st) then Some (fdiv (t_weightedNumerator st) (t_weightedDenom st)) else None)
    (Some (t_totalVolume st)) (Some (t_totalQuoteVolume st)) (Some (t_totalOI st))
    (if t_hasOIValue st then Some (t_totalOIValue st) else None)
    (if 0 <? t_fundingCount st then Some (fdiv (t_fundingSum st) (f64_of_Z (t_fundingCount st))) else None)
    (t_minFunding st) (t_maxFunding st)
    None None None None None None None None None None None
    (RawJson (enc_included (t_exchanges st))) (marshalled (map_json (map (fun x => (fst x, marshal_raw (snd x))) (t_raw st))))
    RawEmpty RawEmpty RawEmpty RawEmpty.

(** *** [enrichAdvanced] *)

Definition latest_row {A} (name : string) (vals : list row -> list (string * option sval)) (s : scanner A) (m : string) (symbolID : Z) (at_ : Time)
    : result error A :=
  wrapped m (one_row (db_fault db name) (latest_args symbolID at_) (vals (latest name always symbolID at_)) s).

Definition taker_flow_values (rows : list row) : list (string * option sval) :=
  [coalesce_sum (nonneg_values "taker_buy_volume" rows); coalesce_sum (nonneg_values "taker_sell_volume" rows);
   coalesce_sum (values "buy_sell_delta" rows)].
Definition cvd_values (rows : list row) : list (string * option sval) := [coalesce_sum (values "cvd_value" rows)].
Definition basis_values (rows : list row) : list (string * option sval) := [avg_of "basis_percent" rows].
Definition orderbook_values (rows : list row) : list (string * option sval) :=
  [avg_of "imbalance_percent" rows; coalesce_sum (nonneg_values "bid_depth_usd" rows); coalesce_sum (nonneg_values "ask_depth_usd" rows)].

(** The rows of the last five minutes; a difference of intervals cannot be compared with the bucket,
    so the type of the parameter decides whether the statement is accepted. *)
Definition liquidation_values (rows : list row) : list (string * option sval) :=
  [coalesce_sum (nonneg_values "long_liquidation_usd" rows); coalesce_sum (nonneg_values "short_liquidation_usd" rows);
   coalesce_sum (nonneg_values "total_liquidation_usd" rows)].
Definition last_five_minutes (symbolID : Z) (at_ : Time) (r : row) : bool :=
  is_symbol symbolID r && time_in "bucket_time" (fun t => (Add at_ (- (5 * Minute)) <=? t) && (t <=? at_)) r.
Definition liquidation_row (symbolID : Z) (at_ : Time) : result error (option float64 * option float64 * option float64) :=
  wrapped "query aggregate liquidation"
    match minus_param with
    | TypeInterval => Err (ErrorString "pq: operator does not exist: timestamp with time zone >= interval")
    | TypeTimestamptz =>
      one_row (db_fault db "liquidation_aggregates") [AInt symbolID; ATime at_]
        (liquidation_values (List.filter (last_five_minutes symbolID at_) (table "liquidation_aggregates"))) three_floats
    end.

Definition enrichAdvanced (s : DerivativeAggregateSnapshot) : result error DerivativeAggregateSnapshot :=
  let id := da_SymbolID s in let t := da_SnapshotTime s in
  let! taker := latest_row "taker_flow_snapshots" taker_flow_values three_floats "query aggregate taker flow" id t in
  let! cvd := latest_row "cvd_snapshots" cvd_values one_float "query aggregate cvd" id t in
  let! liq := liquidation_row id t in
  let! basis := latest_row "basis_premium_snapshots" basis_values one_float "query aggregate basis" id t in
  let! book := latest_row "orderbook_imbalance_snapshots" orderbook_values three_floats "query aggregate orderbook" id t in
  let '(takerBuy, takerSell, takerDelta) := taker in
  let '(longLiq, shortLiq, totalLiq) := liq in
  let '(avgImbalance, bidDepth, askDepth) := book in
  Ok (MkAggregate id t (da_ExchangeCount s) (da_PriceAvg s) (da_PriceWeighted s) (da_TotalVolume24h s) (da_TotalQuoteVolume24h s)
        (da_TotalOpenInterest s) (da_TotalOpenInterestValue s) (da_AvgFundingRate s) (da_MinFundingRate s) (da_MaxFundingRate s)
        takerBuy takerSell takerDelta cvd longLiq shortLiq totalLiq basis avgImbalance bidDepth askDepth
        (da_AvailableExchanges s) (da_RawByExchange s) (da_WindowMetrics s) (da_Metrics s) (da_QualityMetadata s) (da_AnomalyFlags s)).

(** ** [BuildWindowMetrics] *)

Record marketAggregatePoint := MkPoint { mp_Price : option float64; mp_Volume : option float64; mp_OpenInterest : option float64; mp_ExchangeCount : Z }.

Definition point_columns : list (string * expr) :=
  map col ["exchange"; "last_price"; "mark_price"; "volume_24h"; "open_interest"; "raw_data"].
Definition scan_point : scanner marketRow :=
  ex ← column to_string; last ← column nullFloat; mark ← column nullFloat; vol ← column nullFloat; oi ← column nullFloat; raw ← column to_raw;
  mret (MkMarketRow ex last mark vol None oi None raw 0).

(** The variables of the loop of [marketAggregateAt]. *)
Record point_totals := MkPointTotals {
  p_priceSum : float64; p_priceCount : Z; p_totalVolume : float64; p_hasVolume : bool; p_totalOI : float64; p_hasOI : bool; p_exchangeCount : Z }.
Definition add_point (st : point_totals) (r : marketRow) : point_totals :=
  if rawJSONMarkedDegraded (mr_rawData r) then st else
  MkPointTotals (add_valid positive (row_price r) (p_priceSum st)) (if valid (keeps positive (row_price r)) then p_priceCount st + 1 else p_priceCount st)
    (add_valid non_negative (mr_volume r) (p_totalVolume st)) (if valid (keeps non_negative (mr_volume r)) then true else p_hasVolume st)
    (add_valid non_negative (mr_openInterest r) (p_totalOI st)) (if valid (keeps non_negative (mr_openInterest r)) then true else p_hasOI st)
    (p_exchangeCount st + 1).
Definition point_of (st : point_totals) : marketAggregatePoint :=
  MkPoint (if 0 <? p_priceCount st then Some (fdiv (p_priceSum st) (f64_of_Z (p_priceCount st))) else None)
    (if p_hasVolume st then Some (p_totalVolume st) else None) (if p_hasOI st then Some (p_totalOI st) else None) (p_exchangeCount st).
Definition no_points : point_totals := MkPointTotals f64_zero 0 f64_zero false f64_zero false 0.

Definition marketAggregateAt (symbolID : Z) (at_ : Time) : result error marketAggregatePoint :=
  let! rows := latest_market point_columns
    (MkMessages "query aggregate market point" "scan aggregate market point" "iterate aggregate market point") scan_point symbolID at_ in
  Ok (point_of (foldl add_point no_points rows)).

(** [WHERE symbol_id = $1 AND time > $2 AND time <= $3 AND lower(...) NOT IN (...)]. *)
Definition in_window (time : string) (symbolID : Z) (start end_ : Time) (r : row) : bool :=
  is_symbol symbolID r && time_in time (fun t => (start <? t) && (t <=? end_)) r && quality_ok r.
Definition window_row {A} (name time : string) (vals : list row -> list (string * option sval)) (s : scanner A) (m : string)
    (symbolID : Z) (start end_ : Time) : result error A :=
  wrapped m (one_row (db_fault db name) [AInt symbolID; ATime start; ATime end_]
    (vals (List.filter (in_window time symbolID start end_) (table name))) s).

Definition stats_values (c : string) (rows : list row) : list (string * option sval) := [avg_of c rows; min_of c rows; max_of c rows].
Definition windowFundingStats := window_row "funding_rate_snapshots" "snapshot_time" (stats_values "funding_rate") three_floats "query funding window stats".
Definition windowBasisStats := window_row "basis_premium_snapshots" "snapshot_time" (stats_values "basis_percent") three_floats "query basis window stats".

Definition num_sub (a b : sval) : sval := num_add a (match b with SNum n s => SNum (- n) s | v => v end).
Definition taker_delta (r : row) : sval :=
  match r !! "buy_sell_delta_quote", r !! "buy_sell_delta" with
  | Some v, _ => v
  | None, Some v => v
  | None, None =>
    match r !! "taker_buy_quote_volume", r !! "taker_sell_quote_volume", r !! "taker_buy_volume", r !! "taker_sell_volume" with
    | Some b, Some s, _, _ => num_sub b s
    | _, _, Some b, Some s => num_sub b s
    | _, _, _, _ => zero_num
    end
  end.
Definition windowTakerDelta := window_row "taker_flow_snapshots" "snapshot_time" (fun rows => [coalesce_sum (map taker_delta rows)]) one_float
  "query taker delta window".
Definition windowLiquidationSum := window_row "liquidation_aggregates" "bucket_time"
  (fun rows => [coalesce_sum (nonneg_values "total_liquidation_usd" rows)]) one_float "query liquidation window".

Definition cvdAggregateAt (symbolID : Z) (at_ : Time) : result error (option float64) :=
  wrapped "query cvd aggregate point" (one_row (db_fault db "cvd_snapshots") (latest_args symbolID at_)
    (cvd_values (latest "cvd_snapshots" quality_ok symbolID at_)) one_float).

Definition change (now before : option float64) : option float64 :=
  match now, before with Some a, Some b => Some (fsub a b) | _, _ => None end.
Definition age_seconds : Z := f64_to_int64 (Seconds (MaxSnapshotAge options)).

Definition window_metric (symbolID : Z) (snapshotTime : Time) (current : marketAggregatePoint) (cvdNow : option float64) (w : AggregationWindow)
    : result error AnalyticsWindowMetric :=
  let start := Add snapshotTime (- w_Duration w) in
  let! previous := marketAggregateAt symbolID start in
  let! funding := windowFundingStats symbolID start snapshotTime in
  let! takerDelta := windowTakerDelta symbolID start snapshotTime in
  let! cvdStart := cvdAggregateAt symbolID start in
  let! liquidation := windowLiquidationSum symbolID start snapshotTime in
  let! basis := windowBasisStats symbolID start snapshotTime in
  let '(fundingAvg, fundingMin, fundingMax) := funding in
  let '(basisAvg, basisMin, basisMax) := basis in
  let priceChange := change (mp_Price current) (mp_Price previous) in
  let pct := match priceChange, mp_Price previous with
             | Some c, Some p => if is_zero p then None else Some (fmul (fdiv c p) hundred)
             | _, _ => None end in
  Ok (MkWindowMetric (w_Label w) start snapshotTime priceChange pct (change (mp_Volume current) (mp_Volume previous))
        (change (mp_OpenInterest current) (mp_OpenInterest previous)) fundingAvg fundingMin fundingMax takerDelta (change cvdNow cvdStart)
        liquidation basisAvg basisMin basisMax
        (mustJSON (map_json [("current_exchange_count", int_json (mp_ExchangeCount current));
                             ("previous_exchange_count", int_json (mp_ExchangeCount previous));
                             ("max_snapshot_age_seconds", int_json age_seconds)]))).

Fixpoint each {A B} (f : A -> result error B) (l : list A) : result error (list B) :=
  match l with
  | [] => Ok []
  | x :: rest => let! b := f x in let! r := each f rest in Ok (b :: r)
  end.

Definition BuildWindowMetrics (symbolID : Z) (snapshotTime : Time) : result error (list AnalyticsWindowMetric) :=
  let! current := marketAggregateAt symbolID snapshotTime in
  let! cvdNow := cvdAggregateAt symbolID snapshotTime in
  each (window_metric symbolID snapshotTime current cvdNow) (Windows options).

(** ** [BuildLatest]; [now] is the clock. *)
Definition with_windows (s : DerivativeAggregateSnapshot) (metrics : list AnalyticsWindowMetric) (quality : RawMessage) : DerivativeAggregateSnapshot :=
  MkAggregate (da_SymbolID s) (da_SnapshotTime s) (da_ExchangeCount s) (da_PriceAvg s) (da_PriceWeighted s) (da_TotalVolume24h s)
    (da_TotalQuoteVolume24h s) (da_TotalOpenInterest s) (da_TotalOpenInterestValue s) (da_AvgFundingRate s) (da_MinFundingRate s)
    (da_MaxFundingRate s) (da_TotalTakerBuyVolume s) (da_TotalTakerSellVolume s) (da_TotalBuySellDelta s) (da_TotalCVD s)
    (da_TotalLongLiquidationUSD s) (da_TotalShortLiquidationUSD s) (da_TotalLiquidationUSD s) (da_AvgBasisPercent s)
    (da_AvgOrderbookImbalancePercent s) (da_TotalBidDepthUSD s) (da_TotalAskDepthUSD s) (da_AvailableExchanges s) (da_RawByExchange s)
    (marshalled (enc_window_metrics metrics)) (marshalled (map_json [("windows", enc_window_metrics metrics)])) quality
    (buildAnomalyFlags s metrics).

Definition collect (symbolID : Z) (snapshotTime : Time) (rows : list marketRow) : totals :=
  foldl (add_row (cutoff snapshotTime))
    (no_totals (newAggregateQualityMetadata snapshotTime (cutoff snapshotTime) (MaxSnapshotAge options))) rows.

Definition BuildLatest (now : Time) (symbolID : Z) (snapshotTime : Time) : result error DerivativeAggregateSnapshot :=
  let snapshotTime := if IsZero snapshotTime then now else snapshotTime in
  let! rows := latest_market latest_columns
    (MkMessages "query latest market snapshots" "scan latest market snapshot" "iterate latest market snapshots") scan_latest symbolID snapshotTime in
  let st := collect symbolID snapshotTime rows in
  let! result := enrichAdvanced (of_totals symbolID snapshotTime st) in
  let! windowMetrics := BuildWindowMetrics symbolID snapshotTime in
  Ok (with_windows result windowMetrics (Marshal (t_quality st))).

(** ** Analytics *)

Definition interval_is (s : string) (r : row) : bool := match r !! "interval" with Some (SText i) => (i =? s)%string | _ => false end.
Definition above_zero (v : option sval) : bool := match v with Some (SNum n _) => 0 <? n | Some SNaN => true | _ => false end.
Definition candle_row (symbolID : Z) (start end_ : Time) (r : row) : bool :=
  is_symbol symbolID r && interval_is "5m" r && time_in "open_time" (fun t => (start <=? t) && (t <=? end_)) r &&
  match r !! "is_closed" with Some (SBool b) => b | _ => false end &&
  above_zero (r !! "open_price") && above_zero (r !! "high_price") && above_zero (r !! "low_price") && above_zero (r !! "close_price") &&
  quality_ok r.

(** [GROUP BY open_time ORDER BY open_time ASC]. *)
Definition open_times (rows : list row) : list Time :=
  stable_sort Z.leb (remove_dups (omap (fun r => match r !! "open_time" with Some (STime t) => Some t | _ => None end) rows)).
(** [::float8]. *)
Definition float8 (v : option sval) : option dval := (fun x => DFloat (num_float x)) <$> v.
Definition candle_values (rows : list row) (t : Time) : drow :=
  let group := List.filter (time_in "open_time" (Z.eqb t)) rows in
  [("open_time", Some (DTime t)); ("avg", float8 (pg_avg (values "open_price" group))); ("max", float8 (pg_max (values "high_price" group)));
   ("min", float8 (pg_min (values "low_price" group))); ("avg", float8 (pg_avg (values "close_price" group)))].
Definition scan_candle : scanner aggregateCandle :=
  t ← column to_time; o ← column to_float; h ← column to_float; l ← column to_float; c ← column to_float; mret (MkCandle t o h l c).

Definition loadAggregateCandles (symbolID : Z) (start end_ : Time) : result error (list aggregateCandle) :=
  let rows := List.filter (candle_row symbolID start end_) (table "derivative_klines") in
  many_rows (db_fault db "derivative_klines") [AInt symbolID; ATime start; ATime end_]
    (MkMessages "query aggregate candles" "scan aggregate candle" "iterate aggregate candles")
    (map (candle_values rows) (open_times rows)) 5 scan_candle.

Definition metric_columns : list (string * expr) :=
  map col ["exchange"; "last_price"; "mark_price"; "volume_24h"; "open_interest"; "funding_rate"; "raw_data"].
Definition scan_metric : scanner marketRow :=
  ex ← column to_string; last ← column nullFloat; mark ← column nullFloat; vol ← column nullFloat; oi ← column nullFloat;
  fund ← column nullFloat; raw ← column to_raw; mret (MkMarketRow ex last mark vol None oi fund raw 0).
Definition metric_of (r : marketRow) : exchangeMetric :=
  MkMetric (mr_exchange r) (keeps positive (row_price r)) (keeps non_negative (mr_volume r)) (keeps non_negative (mr_openInterest r)) (mr_fundingRate r).
Definition latestExchangeMetrics (symbolID : Z) (snapshotTime : Time) : result error (list exchangeMetric) :=
  let! rows := latest_market metric_columns
    (MkMessages "query latest exchange metrics" "scan latest exchange metrics" "iterate latest exchange metrics") scan_metric symbolID snapshotTime in
  Ok (map metric_of (List.filter (fun r => negb (rawJSONMarkedDegraded (mr_rawData r))) rows)).

Definition BuildMarketStructureSnapshots (symbolID : Z) (snapshotTime : Time) : result error (list MarketStructureSnapshot) :=
  let! candles := loadAggregateCandles symbolID (Add snapshotTime (- (24 * Hour))) snapshotTime in
  Ok (map (fun w => computeMarketStructure symbolID (w_Label w) snapshotTime
                      (filterCandles candles (Add snapshotTime (- w_Duration w)) snapshotTime)) (Windows options)).

Definition BuildVolatilitySnapshots (symbolID : Z) (snapshotTime : Time) : result error (list VolatilitySnapshot) :=
  let! candles7d := loadAggregateCandles symbolID (Add snapshotTime (- (7 * 24 * Hour))) snapshotTime in
  let candles24h := filterCandles candles7d (Add snapshotTime (- (24 * Hour))) snapshotTime in
  Ok (map (fun w => computeVolatility symbolID (w_Label w) snapshotTime
                      (filterCandles candles7d (Add snapshotTime (- w_Duration w)) snapshotTime) candles24h candles7d) (Windows options)).

Definition BuildExchangeDivergenceSnapshot (symbolID : Z) (snapshotTime : Time) : result error (option ExchangeDivergenceSnapshot) :=
  let! metrics := latestExchangeMetrics symbolID snapshotTime in
  Ok (computeDivergence symbolID snapshotTime age_seconds metrics).

Definition BuildAnalytics (symbolID : Z) (snapshotTime : Time) : result error AnalyticsSnapshotSet :=
  let! structures := BuildMarketStructureSnapshots symbolID snapshotTime in
  let! volatility := BuildVolatilitySnapshots symbolID snapshotTime in
  let! divergence := BuildExchangeDivergenceSnapshot symbolID snapshotTime in
  Ok (MkAnalyticsSet structures volatility divergence).
End reads.
