(* ===== verification/AggregateWrites.v ===== *)
(** * Writing side of the aggregate repository ([internal/repositories]: [aggregate.go], [aggregate_analytics.go])

    The upserts of the aggregate and of the analytics, and the repository as the store the aggregate
    executor works with. *)

From S2P Require Import Prelude GoString GoTime GoFloat GoError GoJson GoJsonText PgNumeric ApiStore ApiSchema ApiSeries ApiOverview RealtimeEvents AggregateQuality PgAggregate AggregateModels Analytics AggregateReads Collector.

(** ** What a column keeps of a parameter; [None] is NULL. *)

Abbreviation stored := (result error (option sval)) (only parsing).

Definition pq (text : string) : error := ErrorString ("pq: " +:+ text).
Definition bigint (z : Z) : stored := Ok (Some (SInt z)).
Definition integer (z : Z) : stored := if (- 2 ^ 31 <=? z) && (z <? 2 ^ 31) then Ok (Some (SInt z)) else Err (pq "integer out of range").
Definition timestamptz (t : Time) : stored := if timestamptz_ok t then Ok (Some (STime t)) else Err (pq "timestamp out of range").
Definition text (s : string) : stored := Ok (Some (SText s)).
(** [nullableText], and [NULLIF($n, '')]. *)
Definition nullableText (s : string) : stored := Ok (if (s =? "")%string then None else Some (SText s)).
(** [CHECK (column = lower(column))]. *)
Definition lower_text (s : string) : stored :=
  if (ToLower s =? s)%string then text s else Err (pq "new row violates check constraint").
(** [nullableFloat] into [NUMERIC(p, s)]. *)
Definition numeric (p s : nat) (f : option float64) : stored :=
  match f with None => Ok None | Some f => let! v := numeric_column p s f in Ok (Some v) end.
Definition amount : option float64 -> stored := numeric 38 18.
Definition percent : option float64 -> stored := numeric 18 10.
(** [ensureJSON] into [JSONB]. *)
Definition jsonb (r : RawMessage) : stored :=
  match ensureJSON r with RawJson j => Ok (Some (SJson j)) | _ => Err (pq "invalid input syntax for type json") end.

(** ** [INSERT ... ON CONFLICT (key) DO UPDATE SET column = EXCLUDED.column ...] *)

Fixpoint assignments (l : list (string * stored)) : result error (list (string * option sval)) :=
  match l with
  | [] => Ok []
  | (c, v) :: rest => let! x := v in let! r := assignments rest in Ok ((c, x) :: r)
  end.

Definition assign (r : gmap string sval) (a : string * option sval) : gmap string sval :=
  match snd a with Some v => <[fst a := v]> r | None => delete (fst a) r end.

Definition key_eqb (a b : option sval) : bool :=
  match a, b with
  | Some (SInt x), Some (SInt y) => x =? y
  | Some (SText x), Some (SText y) => (x =? y)%string
  | Some (STime x), Some (STime y) => x =? y
  | _, _ => false
  end.
Definition conflicts (key : list string) (new old : gmap string sval) : bool := forallb (fun c => key_eqb (new !! c) (old !! c)) key.

Definition upsert_row (key : list string) (set : list (string * option sval)) (rows : list (gmap string sval)) : list (gmap string sval) :=
  let new := foldl assign ∅ set in
  if existsb (conflicts key new) rows then map (fun old => if conflicts key new old then foldl assign old set else old) rows
  else (rows ++ [new])%list.

Definition with_rows (db : Database) (name : string) (rows : list (gmap string sval)) : Database :=
  MkDatabase (fun n => if (n =? name)%string then rows else db_rows db n) (db_fault db).

(** [REFERENCES symbols(id)]. *)
Definition has_symbol (db : Database) (symbolID : Z) : bool :=
  existsb (fun s => key_eqb (s !! "id") (Some (SInt symbolID))) (db_rows db "symbols").

(** What may befall one statement: an error, and whether its row was written all the same (the
    connection may be lost after the server has done its work). *)
Abbreviation mishap := (option (bool * error)) (only parsing).

Definition exec_upsert (fault : mishap) (db : Database) (name : string) (key : list string) (symbolID : Z)
    (set : list (string * stored)) (m : string) : Database * option error :=
  match fault, assignments set with
  | Some (false, e), _ | _, Err e => (db, Some (wrap m e))
  | _, Ok set =>
    if has_symbol db symbolID
    then (with_rows db name (upsert_row key set (db_rows db name)), (fun f => wrap m (snd f)) <$> fault)
    else (db, Some (wrap m (pq "insert or update on table violates foreign key constraint")))
  end.

(** ** The aggregate *)

Definition aggregate_key : list string := ["symbol_id"; "snapshot_time"].
Definition aggregate_set (s : DerivativeAggregateSnapshot) : list (string * stored) :=
  [("symbol_id", bigint (da_SymbolID s)); ("snapshot_time", timestamptz (da_SnapshotTime s)); ("exchange_count", integer (da_ExchangeCount s));
   ("weighted_price", amount (da_PriceWeighted s)); ("price_avg", amount (da_PriceAvg s)); ("price_weighted", amount (da_PriceWeighted s));
   ("total_volume_24h", amount (da_TotalVolume24h s)); ("total_quote_volume_24h", amount (da_TotalQuoteVolume24h s));
   ("total_open_interest", amount (da_TotalOpenInterest s)); ("total_open_interest_value", amount (da_TotalOpenInterestValue s));
   ("avg_funding_rate", percent (da_AvgFundingRate s)); ("min_funding_rate", percent (da_MinFundingRate s));
   ("max_funding_rate", percent (da_MaxFundingRate s)); ("available_exchanges", jsonb (da_AvailableExchanges s));
   ("raw_by_exchange", jsonb (da_RawByExchange s)); ("raw_data", jsonb (da_RawByExchange s));
   ("total_taker_buy_volume", amount (da_TotalTakerBuyVolume s)); ("total_taker_sell_volume", amount (da_TotalTakerSellVolume s));
   ("total_buy_sell_delta", amount (da_TotalBuySellDelta s)); ("total_cvd", amount (da_TotalCVD s));
   ("total_long_liquidation_usd", amount (da_TotalLongLiquidationUSD s)); ("total_short_liquidation_usd", amount (da_TotalShortLiquidationUSD s));
   ("total_liquidation_usd", amount (da_TotalLiquidationUSD s)); ("avg_basis_percent", percent (da_AvgBasisPercent s));
   ("avg_orderbook_imbalance_percent", percent (da_AvgOrderbookImbalancePercent s)); ("total_bid_depth_usd", amount (da_TotalBidDepthUSD s));
   ("total_ask_depth_usd", amount (da_TotalAskDepthUSD s)); ("window_metrics", jsonb (da_WindowMetrics s)); ("metrics", jsonb (da_Metrics s));
   ("quality_metadata", jsonb (da_QualityMetadata s)); ("anomaly_flags", jsonb (da_AnomalyFlags s))].

(** A count is not negative, so the check of the column holds. *)
Definition Upsert (fault : mishap) (db : Database) (s : DerivativeAggregateSnapshot) : Database * option error :=
  exec_upsert fault db "derivative_aggregated_snapshots" aggregate_key (da_SymbolID s) (aggregate_set s) "upsert aggregate snapshot".

(** ** The analytics *)

Definition window_key : list string := ["symbol_id"; "exchange"; "period"; "snapshot_time"].

Definition structure_set (i : MarketStructureSnapshot) : list (string * stored) :=
  [("symbol_id", bigint (ms_SymbolID i)); ("exchange", lower_text (ms_Exchange i)); ("market_type", nullableText (ms_MarketType i));
   ("source_symbol", nullableText (ms_SourceSymbol i)); ("period", text (ms_Period i)); ("snapshot_time", timestamptz (ms_SnapshotTime i));
   ("trend", text (ms_TrendDirection i)); ("support_price", amount (ms_LastSwingLow i)); ("resistance_price", amount (ms_LastSwingHigh i));
   ("breakout_state", text (ms_StructureState i)); ("trend_direction", text (ms_TrendDirection i)); ("structure_state", text (ms_StructureState i));
   ("last_swing_high", amount (ms_LastSwingHigh i)); ("last_swing_low", amount (ms_LastSwingLow i)); ("support_levels", jsonb (ms_SupportLevels i));
   ("resistance_levels", jsonb (ms_ResistanceLevels i)); ("price_position", percent (ms_PricePosition i)); ("metadata", jsonb (ms_Metadata i))].
Definition upsertMarketStructure (fault : mishap) (db : Database) (i : MarketStructureSnapshot) : Database * option error :=
  exec_upsert fault db "market_structure_snapshots" window_key (ms_SymbolID i) (structure_set i) "upsert market structure snapshot".

Definition volatility_set (i : VolatilitySnapshot) : list (string * stored) :=
  [("symbol_id", bigint (vo_SymbolID i)); ("exchange", lower_text (vo_Exchange i)); ("market_type", nullableText (vo_MarketType i));
   ("source_symbol", nullableText (vo_SourceSymbol i)); ("period", text (vo_Period i)); ("snapshot_time", timestamptz (vo_SnapshotTime i));
   ("realized_volatility", percent (vo_RealizedVolatility i)); ("realized_volatility_percent", percent (vo_RealizedVolatilityPercent i));
   ("atr", amount (vo_ATR i)); ("atr_percent", percent (vo_ATRPercent i)); ("high_price", amount (vo_HighPrice i));
   ("low_price", amount (vo_LowPrice i)); ("close_price", amount (vo_ClosePrice i)); ("range_percent_24h", percent (vo_RangePercent24h i));
   ("range_percent_7d", percent (vo_RangePercent7d i)); ("raw_data", jsonb (vo_RawData i))].
Definition upsertVolatility (fault : mishap) (db : Database) (i : VolatilitySnapshot) : Database * option error :=
  exec_upsert fault db "volatility_snapshots" window_key (vo_SymbolID i) (volatility_set i) "upsert volatility snapshot".

Definition divergence_key : list string := ["symbol_id"; "data_type"; "reference_exchange"; "compared_exchange"; "snapshot_time"].
Definition divergence_set (i : ExchangeDivergenceSnapshot) : list (string * stored) :=
  [("symbol_id", bigint (dv_SymbolID i)); ("data_type", text (dv_DataType i)); ("snapshot_time", timestamptz (dv_SnapshotTime i));
   ("reference_exchange", lower_text (dv_ReferenceExchange i)); ("compared_exchange", lower_text (dv_ComparedExchange i));
   ("reference_value", amount (dv_ReferenceValue i)); ("compared_value", amount (dv_ComparedValue i)); ("divergence_abs", amount (dv_DivergenceAbs i));
   ("divergence_bps", numeric 18 8 (dv_DivergenceBPS i)); ("price_min", amount (dv_PriceMin i)); ("price_max", amount (dv_PriceMax i));
   ("price_spread_percent", percent (dv_PriceSpreadPercent i)); ("oi_min", amount (dv_OIMin i)); ("oi_max", amount (dv_OIMax i));
   ("oi_spread_percent", percent (dv_OISpreadPercent i)); ("funding_min", percent (dv_FundingMin i)); ("funding_max", percent (dv_FundingMax i));
   ("funding_spread", percent (dv_FundingSpread i)); ("volume_min", amount (dv_VolumeMin i)); ("volume_max", amount (dv_VolumeMax i));
   ("volume_spread_percent", percent (dv_VolumeSpreadPercent i)); ("strongest_exchange", nullableText (dv_StrongestExchange i));
   ("weakest_exchange", nullableText (dv_WeakestExchange i)); ("raw_by_exchange", jsonb (dv_RawByExchange i)); ("metadata", jsonb (dv_Metadata i));
   ("metrics", jsonb (dv_Metadata i)); ("quality_metadata", jsonb (dv_Metadata i))].
Definition upsertExchangeDivergence (fault : mishap) (db : Database) (i : ExchangeDivergenceSnapshot) : Database * option error :=
  exec_upsert fault db "exchange_divergence_snapshots" divergence_key (dv_SymbolID i) (divergence_set i) "upsert exchange divergence snapshot".

(** The loops stop at the first error; what was written before stays.  [faults] tells what befalls the
    n-th statement. *)
Fixpoint upsert_each {A} (put : mishap -> Database -> A -> Database * option error) (faults : nat -> mishap) (n : nat) (l : list A)
    (db : Database) : Database * option error :=
  match l with
  | [] => (db, None)
  | x :: rest => match put (faults n) db x with (db, None) => upsert_each put faults (S n) rest db | failed => failed end
  end.
Definition UpsertAnalytics (faults : nat -> mishap) (db : Database) (set : AnalyticsSnapshotSet) : Database * option error :=
  let s := length (an_MarketStructures set) in
  match upsert_each upsertMarketStructure faults 0 (an_MarketStructures set) db with
  | (db, Some e) => (db, Some e)
  | (db, None) =>
    let v := length (an_Volatility set) in
    match upsert_each upsertVolatility faults s (an_Volatility set) db with
    | (db, Some e) => (db, Some e)
    | (db, None) =>
      match an_Divergence set with Some d => upsertExchangeDivergence (faults (s + v)%nat) db d | None => (db, None) end
    end
  end.

(** ** The store of the aggregate executor *)

(** [faults] tells what befalls the upsert of the aggregate, and the statements of the analytics. *)
Definition aggregate_store `{HeapOrder} (options : AggregateOptions) (now : Time) (fault : mishap) (faults : nat -> mishap)
    : AggregateStore Database DerivativeAggregateSnapshot AnalyticsSnapshotSet :=
  let options := normalizeAggregateOptions options in
  MkAggregateStore _ _ _ (fun db => BuildLatest db options now) da_ExchangeCount (Upsert fault)
    (Some (fun db => BuildAnalytics db options, UpsertAnalytics faults)).
