(* ===== verification/AggregateSpec.v ===== *)
(** * What the aggregates are

    The loop of [BuildLatest] computes the aggregates of the exchanges in use from plain lists of their
    values; the statements it reads never fail on a typed and healthy database; the aggregate covers
    the newest fresh snapshot of every exchange. *)

From S2P Require Import Prelude GoString GoTime GoFloat GoFloatSign GoDuration GoError GoJson GoJsonText PgNumeric ApiQuery ApiStore ApiSchema ApiSeries ApiOverview RealtimeEvents AggregateQuality PgAggregate AggregateModels Analytics AggregateReads.

(** ** Reference aggregates *)

Definition fsum (l : list float64) : float64 := foldl fadd f64_zero l.
Definition mean (l : list float64) : option float64 := match l with [] => None | _ => Some (fdiv (fsum l) (f64_of_Z (len l))) end.

Definition degraded_row (r : marketRow) : bool := rawJSONMarkedDegraded (mr_rawData r).
Definition in_use (rows : list marketRow) : list marketRow := List.filter (fun r => negb (degraded_row r)) rows.
Definition left_out (rows : list marketRow) : list marketRow := List.filter degraded_row rows.

Definition prices (rows : list marketRow) : list float64 := omap (fun r => keeps positive (row_price r)) rows.
(** Price and quote volume of the exchanges that have both. *)
Definition weighted (rows : list marketRow) : list (float64 * float64) :=
  omap (fun r => match keeps positive (row_price r), keeps positive (mr_quoteVolume r) with Some p, Some v => Some (p, v) | _, _ => None end) rows.
Definition volumes (rows : list marketRow) : list float64 := omap (fun r => keeps non_negative (mr_volume r)) rows.
Definition quote_volumes (rows : list marketRow) : list float64 := omap (fun r => keeps non_negative (mr_quoteVolume r)) rows.
Definition interests (rows : list marketRow) : list float64 := omap (fun r => keeps non_negative (mr_openInterest r)) rows.
(** Open interest times price. *)
Definition interest_values (rows : list marketRow) : list float64 :=
  omap (fun r => match keeps non_negative (mr_openInterest r), keeps positive (row_price r) with Some oi, Some p => Some (fmul oi p) | _, _ => None end) rows.
Definition fundings (rows : list marketRow) : list float64 := omap mr_fundingRate rows.

(** The fields of a row that are out of range. *)
Definition invalid_fields (r : marketRow) : list string :=
  let bad (ok : float64 -> bool) (x : option float64) (field : string) := match x with Some v => if ok v then [] else [field] | None => [] end in
  (bad positive (row_price r) "price" ++ bad non_negative (mr_volume r) "volume_24h" ++
   bad non_negative (mr_quoteVolume r) "quote_volume_24h" ++ bad non_negative (mr_openInterest r) "open_interest")%list.

(** The state of the loop after some rows. *)
Record loop_state (q0 : aggregateQualityMetadata) (rows : list marketRow) (st : totals) : Prop := {
  ls_exchanges : t_exchanges st = map mr_exchange (in_use rows);
  ls_raw : t_raw st = map (fun r => (mr_exchange r, ensureJSON (mr_rawData r))) (in_use rows);
  ls_included : q_IncludedExchanges (t_quality st) = map mr_exchange (in_use rows);
  ls_skipped : q_SkippedExchanges (t_quality st) = map (fun r => (mr_exchange r, ["degraded_raw_data"])) (left_out rows);
  ls_invalid : q_InvalidFields (t_quality st) = omap (fun r => match invalid_fields r with [] => None | l => Some (mr_exchange r, l) end) (in_use rows);
  ls_quality : q_MaxSnapshotAgeSeconds (t_quality st) = q_MaxSnapshotAgeSeconds q0 /\ q_SnapshotTime (t_quality st) = q_SnapshotTime q0 /\
               q_StaleCutoff (t_quality st) = q_StaleCutoff q0;
  ls_price : t_priceSum st = fsum (prices (in_use rows)) /\ t_priceCount st = len (prices (in_use rows));
  ls_weighted : t_weightedNumerator st = fsum (map (fun x => fmul (fst x) (snd x)) (weighted (in_use rows))) /\
                t_weightedDenom st = fsum (map snd (weighted (in_use rows)));
  ls_volume : t_totalVolume st = fsum (volumes (in_use rows)) /\ t_totalQuoteVolume st = fsum (quote_volumes (in_use rows));
  ls_interest : t_totalOI st = fsum (interests (in_use rows)) /\ t_totalOIValue st = fsum (interest_values (in_use rows)) /\
                t_hasOIValue st = match interest_values (in_use rows) with [] => false | _ => true end;
  ls_funding : t_fundingSum st = fsum (fundings (in_use rows)) /\ t_fundingCount st = len (fundings (in_use rows)) /\
               t_minFunding st = foldl (fun m v => lower_to v m) None (fundings (in_use rows)) /\
               t_maxFunding st = foldl (fun m v => raise_to v m) None (fundings (in_use rows)) }.

Lemma fsum_app l k : fsum (l ++ k) = foldl fadd (fsum l) k.
Proof. apply foldl_app. Qed.
Lemma len_app {A} (l k : list A) : len (l ++ k) = len l + len k.
Proof. unfold len. rewrite length_app. lia. Qed.

Lemma omap_snoc {A B} (f : A -> option B) l x : omap f (l ++ [x]) = (omap f l ++ match f x with Some b => [b] | None => [] end)%list.
Proof. rewrite omap_app. by cbn. Qed.

Lemma assoc_set_new {A} k (v : A) l : k ∉ map fst l -> assoc_set k v l = (l ++ [(k, v)])%list.
Proof.
  induction l as [|[k' v'] l IH]; [done|]. cbn [map fst assoc_set app]. intros Hn. apply not_elem_of_cons in Hn as [Hne Hn].
  rewrite (proj2 (String.eqb_neq _ _) Hne). by rewrite IH.
Qed.
Lemma assoc_set_last {A} k (v w : A) l : k ∉ map fst l -> assoc_set k v (l ++ [(k, w)]) = (l ++ [(k, v)])%list.
Proof.
  induction l as [|[k' v'] l IH]; cbn [map fst assoc_set app]; [by rewrite String.eqb_refl|]. intros Hn. apply not_elem_of_cons in Hn as [Hne Hn].
  rewrite (proj2 (String.eqb_neq _ _) Hne). by rewrite IH.
Qed.
Lemma find_new {A} k (l : list (string * A)) : k ∉ map fst l -> find (fun x => (fst x =? k)%string) l = None.
Proof.
  induction l as [|[k' v'] l IH]; [done|]. cbn [map fst find]. intros Hn. apply not_elem_of_cons in Hn as [Hne Hn].
  rewrite (proj2 (String.eqb_neq _ _)) by congruence. by apply IH.
Qed.

Lemma find_last {A} k (v : A) l : k ∉ map fst l -> find (fun x => (fst x =? k)%string) (l ++ [(k, v)]) = Some (k, v).
Proof.
  induction l as [|[k' v'] l IH]; cbn [map fst find app]; [by rewrite String.eqb_refl|]. intros Hn. apply not_elem_of_cons in Hn as [Hne Hn].
  rewrite (proj2 (String.eqb_neq _ _)) by congruence. by apply IH.
Qed.

(** The entry of the last key, when it has any values. *)
Definition last_entry (k : string) (l : list string) : list (string * list string) := match l with [] => [] | _ => [(k, l)] end.
Lemma append_to_last k v l m : k ∉ map fst m -> append_to k v (m ++ last_entry k l) = (m ++ last_entry k (l ++ [v]))%list.
Proof.
  intros Hn. unfold append_to. assert (last_entry k (l ++ [v]) = [(k, (l ++ [v])%list)]) as -> by by destruct l.
  destruct l as [|x l]; cbn [last_entry].
  - rewrite app_nil_r, find_new by done. cbn [app fmap option_fmap option_map default]. by rewrite assoc_set_new.
  - rewrite find_last by done. cbn. by rewrite assoc_set_last.
Qed.

Lemma note_invalid_last ok ex field x q m l : q_InvalidFields q = (m ++ last_entry ex l)%list -> ex ∉ map fst m ->
  q_InvalidFields (note_invalid ok ex field x q) = (m ++ last_entry ex (l ++ match x with Some v => if ok v then [] else [field] | None => [] end))%list.
Proof.
  intros Hq Hn. unfold note_invalid. destruct x as [v|]; [|by rewrite app_nil_r]. destruct (ok v); [by rewrite app_nil_r|].
  cbn [Invalid q_InvalidFields]. by rewrite Hq, append_to_last.
Qed.
(** Noting an invalid field touches nothing else. *)
Lemma note_invalid_other ok ex field x q : q_IncludedExchanges (note_invalid ok ex field x q) = q_IncludedExchanges q /\
  q_SkippedExchanges (note_invalid ok ex field x q) = q_SkippedExchanges q /\
  q_MaxSnapshotAgeSeconds (note_invalid ok ex field x q) = q_MaxSnapshotAgeSeconds q /\
  q_SnapshotTime (note_invalid ok ex field x q) = q_SnapshotTime q /\ q_StaleCutoff (note_invalid ok ex field x q) = q_StaleCutoff q.
Proof. unfold note_invalid. destruct x as [v|]; [|done]. by destruct (ok v). Qed.

Lemma in_use_snoc rows r : in_use (rows ++ [r]) = (in_use rows ++ if degraded_row r then [] else [r])%list.
Proof. unfold in_use. rewrite List.filter_app. cbn [List.filter]. by destruct (degraded_row r). Qed.
Lemma left_out_snoc rows r : left_out (rows ++ [r]) = (left_out rows ++ if degraded_row r then [r] else [])%list.
Proof. unfold left_out. rewrite List.filter_app. cbn [List.filter]. by destruct (degraded_row r). Qed.
Lemma exchanges_of_filter (P : marketRow -> bool) rows ex : ex ∈ map mr_exchange (List.filter P rows) -> ex ∈ map mr_exchange rows.
Proof. intros (r & -> & Hr%list_elem_of_In)%list_elem_of_fmap. apply filter_In in Hr as [Hr _]. apply list_elem_of_fmap. exists r. by rewrite list_elem_of_In. Qed.

Lemma loop_invalid_keys rows ex : ex ∉ map mr_exchange rows ->
  ex ∉ map fst (omap (fun r => match invalid_fields r with [] => None | l => Some (mr_exchange r, l) end) (in_use rows)).
Proof.
  intros Hn ([k l] & -> & Hl)%list_elem_of_fmap. apply Hn. apply list_elem_of_omap in Hl as (r & Hr & E).
  destruct (invalid_fields r); [done|]. injection E as <- <-. eapply exchanges_of_filter. apply list_elem_of_fmap. by exists r.
Qed.

Lemma add_valid_keeps ok x s : add_valid ok x s = match keeps ok x with Some v => fadd s v | None => s end.
Proof. unfold add_valid, keeps. destruct x as [v|]; [|done]. by destruct (ok v). Qed.

(** What including a row and noting its invalid fields does to the quality. *)
Lemma notes r q0 : mr_exchange r ∉ map fst (q_InvalidFields q0) ->
  let ex := mr_exchange r in
  let q := note_invalid non_negative ex "open_interest" (mr_openInterest r) (note_invalid non_negative ex "quote_volume_24h" (mr_quoteVolume r)
    (note_invalid non_negative ex "volume_24h" (mr_volume r) (note_invalid positive ex "price" (row_price r) (Include ex q0)))) in
  q_IncludedExchanges q = (q_IncludedExchanges q0 ++ [ex])%list /\ q_SkippedExchanges q = q_SkippedExchanges q0 /\
  q_MaxSnapshotAgeSeconds q = q_MaxSnapshotAgeSeconds q0 /\ q_SnapshotTime q = q_SnapshotTime q0 /\ q_StaleCutoff q = q_StaleCutoff q0 /\
  q_InvalidFields q = (q_InvalidFields q0 ++ last_entry ex (invalid_fields r))%list.
Proof.
  intros Hn ex q.
  pose proof (note_invalid_last positive ex "price" (row_price r) (Include ex q0) (q_InvalidFields q0) [] (eq_sym (app_nil_r _)) Hn) as A1.
  pose proof (note_invalid_last non_negative ex "volume_24h" (mr_volume r) _ _ _ A1 Hn) as A2.
  pose proof (note_invalid_last non_negative ex "quote_volume_24h" (mr_quoteVolume r) _ _ _ A2 Hn) as A3.
  pose proof (note_invalid_last non_negative ex "open_interest" (mr_openInterest r) _ _ _ A3 Hn) as A4.
  assert (forall P : aggregateQualityMetadata -> Prop, P (Include ex q0) ->
    (forall ok f x y, P y -> P (note_invalid ok ex f x y)) -> P q) as Hall by (intros P H1 H2; unfold q; by repeat apply H2).
  split_and!; [apply (Hall (fun y => q_IncludedExchanges y = _))|apply (Hall (fun y => q_SkippedExchanges y = _))|
    apply (Hall (fun y => q_MaxSnapshotAgeSeconds y = _))|apply (Hall (fun y => q_SnapshotTime y = _))|apply (Hall (fun y => q_StaleCutoff y = _))|];
    try done; try (intros ok f x y <-; by destruct (note_invalid_other ok ex f x y) as (? & ? & ? & ? & ?)).
  unfold q. rewrite A4. unfold invalid_fields. by rewrite !app_assoc.
Qed.

(** One more row, of another exchange and not stale. *)
Lemma add_row_step cutoff q0 rows st r : loop_state q0 rows st -> mr_exchange r ∉ map mr_exchange rows -> Before (mr_snapshotAt r) cutoff = false ->
  loop_state q0 (rows ++ [r]) (add_row cutoff st r).
Proof.
  intros [Hex Hraw Hinc Hskip Hinv Hq Hp Hw Hv Hi Hf] Hn Hb. unfold add_row. rewrite Hb. fold (degraded_row r).
  pose proof (in_use_snoc rows r) as Eu. pose proof (left_out_snoc rows r) as El. destruct (degraded_row r).
  { rewrite app_nil_r in Eu. split; rewrite ?Eu, ?El; try done. cbn [t_quality Skip q_SkippedExchanges]. rewrite Hskip.
    rewrite <- (app_nil_r (map _ (left_out rows))) at 1. rewrite (append_to_last (mr_exchange r) "degraded_raw_data" []); [by rewrite map_app|].
    rewrite map_map. cbn [fst]. intros H1%exchanges_of_filter. done. }
  rewrite app_nil_r in El. destruct Hq as (Hq1 & Hq2 & Hq3), Hp as [Hp1 Hp2], Hw as [Hw1 Hw2], Hv as [Hv1 Hv2], Hi as (Hi1 & Hi2 & Hi3), Hf as (Hf1 & Hf2 & Hf3 & Hf4).
  set (u := in_use rows) in *.
  pose proof (loop_invalid_keys rows (mr_exchange r) Hn) as Hk. fold u in Hk. rewrite <- Hinv in Hk.
  rewrite !add_valid_keeps.
  assert (let q := note_invalid non_negative (mr_exchange r) "open_interest" (mr_openInterest r)
    (note_invalid non_negative (mr_exchange r) "quote_volume_24h" (mr_quoteVolume r)
    (note_invalid non_negative (mr_exchange r) "volume_24h" (mr_volume r)
    (note_invalid positive (mr_exchange r) "price" (row_price r) (Include (mr_exchange r) (t_quality st))))) in
    q_IncludedExchanges q = (q_IncludedExchanges (t_quality st) ++ [mr_exchange r])%list /\ q_SkippedExchanges q = q_SkippedExchanges (t_quality st) /\
    q_MaxSnapshotAgeSeconds q = q_MaxSnapshotAgeSeconds (t_quality st) /\ q_SnapshotTime q = q_SnapshotTime (t_quality st) /\
    q_StaleCutoff q = q_StaleCutoff (t_quality st) /\
    q_InvalidFields q = (q_InvalidFields (t_quality st) ++ last_entry (mr_exchange r) (invalid_fields r))%list) as Hnote by by apply notes.
  cbn zeta in Hnote. set (q := note_invalid _ _ "open_interest" _ _) in *. clearbody q. destruct Hnote as (N1 & N2 & N3 & N4 & N5 & N6).
  destruct (keeps positive (row_price r)) as [p|] eqn:E1, (keeps positive (mr_quoteVolume r)) as [v|] eqn:E2,
    (keeps non_negative (mr_openInterest r)) as [oi|] eqn:E3, (mr_fundingRate r) as [fr|] eqn:E4; cbn [valid].
  all: split; cbn [t_exchanges t_raw t_quality t_priceSum t_priceCount t_weightedNumerator t_weightedDenom t_totalVolume t_totalQuoteVolume
    t_totalOI t_totalOIValue t_hasOIValue t_fundingSum t_fundingCount t_minFunding t_maxFunding]; rewrite ?Eu, ?El.
  all: unfold prices, weighted, volumes, quote_volumes, interests, interest_values, fundings in *.
  all: rewrite ?map_app, ?omap_snoc; cbv beta; rewrite ?E1, ?E2, ?E3, ?E4; cbn [map fst snd]; rewrite ?app_nil_r.
  all: rewrite ?Hex, ?N1, ?N2, ?N6, ?Hinc, ?Hskip, ?Hinv, ?map_app, ?fsum_app, ?len_app, ?foldl_app; cbn [map foldl fst snd].
  all: try done; try (by split_and!; congruence); try (by destruct (invalid_fields r)).
  all: try (rewrite assoc_set_new; [by rewrite Hraw|]; rewrite Hraw, map_map; cbn [fst]; by intros H1%exchanges_of_filter).
  all: try (split; [congruence|]; rewrite Hp2; done).
  all: try (destruct (keeps non_negative (mr_volume r)), (keeps non_negative (mr_quoteVolume r)); cbn [foldl]; split; congruence).
  all: try (split_and!; [congruence..|]; by case_match).
  all: split_and!; try congruence; by rewrite Hf2.
Qed.

Lemma collect_loop options symbolID t rows : NoDup (map mr_exchange rows) -> Forall (fun r => cutoff options t <= mr_snapshotAt r) rows ->
  loop_state (newAggregateQualityMetadata t (cutoff options t) (MaxSnapshotAge options)) rows (collect options symbolID t rows).
Proof.
  unfold collect. induction rows as [|r rows IH] using rev_ind; intros Hn Hf; [by split|].
  rewrite map_app in Hn. apply NoDup_app in Hn as (Hn & Hd & _). apply Forall_app in Hf as [Hf [Hr _]%Forall_cons]. rewrite foldl_snoc.
  apply add_row_step; [by apply IH| |].
  - intros He. apply (Hd _ He). by left.
  - unfold Before. by apply Z.ltb_ge.
Qed.

(** ** The extremes of the funding rates *)

Definition extreme_of (le : float64 -> float64 -> bool) (l : list float64) (o : option float64) : Prop :=
  match o with None => l = [] | Some e => e ∈ l /\ Forall (fun v => le v e = true) l end.

Lemma foldl_extreme better le `{!Extreme better le} l : Forall (fun v => is_nan v = false) l ->
  extreme_of le l (foldl (fun m v => match m with None => Some v | Some x => Some (if better v x then v else x) end) None l).
Proof.
  destruct l as [|x l]; [done|]. intros [Hx Hl]%Forall_cons. cbn [foldl].
  assert (forall y k, foldl (fun m v => match m with None => Some v | Some x => Some (if better v x then v else x) end) (Some y) k =
    Some (foldl (extreme_step id better) y k)) as -> by (intros y k; revert y; induction k as [|v k IH]; intros y; cbn [foldl]; [done|apply IH]).
  destruct (extreme_fold id better le l x Hx Hl) as (_ & H1 & H2 & H3). cbn [extreme_of]. split; [|by constructor].
  destruct H3 as [->|(a & Ha & <-)]; [by left|by right].
Qed.

(** ** The reference aggregate of some rows *)
Record aggregates_of (options : AggregateOptions) (t : Time) (rows : list marketRow) (s : DerivativeAggregateSnapshot) : Prop := {
  ag_time : da_SnapshotTime s = t;
  ag_count : da_ExchangeCount s = len (in_use rows);
  ag_price : da_PriceAvg s = mean (prices (in_use rows));
  ag_weighted : da_PriceWeighted s = let w := weighted (in_use rows) in
    if positive (fsum (map snd w)) then Some (fdiv (fsum (map (fun x => fmul (fst x) (snd x)) w)) (fsum (map snd w))) else None;
  ag_volume : da_TotalVolume24h s = Some (fsum (volumes (in_use rows)));
  ag_quote_volume : da_TotalQuoteVolume24h s = Some (fsum (quote_volumes (in_use rows)));
  ag_interest : da_TotalOpenInterest s = Some (fsum (interests (in_use rows)));
  ag_interest_value : da_TotalOpenInterestValue s = match interest_values (in_use rows) with [] => None | l => Some (fsum l) end;
  ag_funding : da_AvgFundingRate s = mean (fundings (in_use rows));
  ag_extremes : Forall (fun v => is_nan v = false) (fundings (in_use rows)) ->
    extreme_of (fun v e => fle e v) (fundings (in_use rows)) (da_MinFundingRate s) /\ extreme_of fle (fundings (in_use rows)) (da_MaxFundingRate s);
  ag_available : da_AvailableExchanges s = RawJson (enc_included (map mr_exchange (in_use rows)));
  ag_raw : da_RawByExchange s = marshalled (map_json (map (fun r => (mr_exchange r, marshal_raw (ensureJSON (mr_rawData r)))) (in_use rows)));
  ag_quality : da_QualityMetadata s = Marshal (MkQuality (age_seconds options) t (cutoff options t) (map mr_exchange (in_use rows))
    (map (fun r => (mr_exchange r, ["degraded_raw_data"])) (left_out rows))
    (omap (fun r => match invalid_fields r with [] => None | l => Some (mr_exchange r, l) end) (in_use rows))) }.

Lemma mean_loop l : (if 0 <? len l then Some (fdiv (fsum l) (f64_of_Z (len l))) else None) = mean l.
Proof. by destruct l. Qed.

Lemma aggregate_reference options symbolID t rows metrics :
  NoDup (map mr_exchange rows) -> Forall (fun r => cutoff options t <= mr_snapshotAt r) rows ->
  let st := collect options symbolID t rows in
  aggregates_of options t rows (with_windows (of_totals symbolID t st) metrics (Marshal (t_quality st))).
Proof.
  intros Hn Hf. destruct (collect_loop options symbolID t rows Hn Hf) as [Hex Hraw Hinc Hskip Hinv (Hq1 & Hq2 & Hq3) [Hp1 Hp2] [Hw1 Hw2] [Hv1 Hv2] (Hi1 & Hi2 & Hi3) (Hf1 & Hf2 & Hf3 & Hf4)].
  cbv zeta. set (st := collect options symbolID t rows) in *. split;
    cbn [with_windows of_totals da_SnapshotTime da_ExchangeCount da_PriceAvg da_PriceWeighted da_TotalVolume24h da_TotalQuoteVolume24h da_TotalOpenInterest
      da_TotalOpenInterestValue da_AvgFundingRate da_MinFundingRate da_MaxFundingRate da_AvailableExchanges da_RawByExchange da_QualityMetadata].
  - done.
  - rewrite Hex. unfold len. by rewrite length_map.
  - rewrite Hp1, Hp2. apply mean_loop.
  - by rewrite Hw1, Hw2.
  - by rewrite Hv1.
  - by rewrite Hv2.
  - by rewrite Hi1.
  - rewrite Hi3, Hi2. by destruct (interest_values (in_use rows)).
  - rewrite Hf1, Hf2. apply mean_loop.
  - intros Hnan. rewrite Hf3, Hf4. split; [by apply (foldl_extreme flt (fun v e => fle e v))|by apply (foldl_extreme fgt fle)].
  - by rewrite Hex.
  - rewrite Hraw. by rewrite map_map.
  - f_equal. rewrite <- Hinc, <- Hskip, <- Hinv. destruct (t_quality st). cbn in *. by subst.
Qed.

(** ** The statements do not fail *)

(** The table of the funding windows, which the API does not list. *)
Definition funding_rate_snapshots : list (string * (coltype * bool)) :=
  [req TInt "symbol_id"; req TText "exchange"; req TTime "snapshot_time"; req TNumeric "funding_rate"].

(** Typed tables of fewer than 2^61 rows, and no faults. *)
Record usable_db (db : Database) : Prop := {
  usable_typed : typed_db db;
  usable_funding : Forall (row_ok funding_rate_snapshots) (db_rows db "funding_rate_snapshots");
  usable_size : forall name, len (db_rows db name) < 2 ^ 61;
  usable_healthy : healthy_db db }.

(** Rows taken from a table. *)
Definition taken (sch : list (string * (coltype * bool))) (rows : list (gmap string sval)) : Prop :=
  Forall (row_ok sch) rows /\ len rows < 2 ^ 61.

Lemma has_type_stored v : has_type TNumeric v -> stored_num v.
Proof. destruct v; try done. cbn. intros [? ?]. split_and!; [lia|done|left; lia]. Qed.

Lemma values_stored sch c nn rows : column_type sch c = Some (TNumeric, nn) -> Forall (row_ok sch) rows -> Forall stored_num (values c rows).
Proof.
  intros Hc Hr. apply Forall_forall. intros v (r & Hin & Hv)%list_elem_of_omap. rewrite Forall_forall in Hr. specialize (Hr r Hin c _ _ Hc).
  rewrite Hv in Hr. by apply has_type_stored.
Qed.
Lemma nonneg_stored sch c nn rows : column_type sch c = Some (TNumeric, nn) -> Forall (row_ok sch) rows -> Forall stored_num (nonneg_values c rows).
Proof.
  intros Hc Hr. apply Forall_forall. intros v (r & -> & Hin)%list_elem_of_fmap. rewrite Forall_forall in Hr. specialize (Hr r Hin c _ _ Hc).
  destruct (r !! c) as [[]|]; try done; cbn in *; try (split_and!; [lia|done|by right]).
  destruct Hr as [Hs Hz]. case_match; cbn; split_and!; try done; try lia; by right.
Qed.
Lemma length_values c rows : (length (values c rows) <= length rows)%nat.
Proof. unfold values. induction rows as [|r rows IH]; cbn; [lia|]. case_match; cbn; lia. Qed.

(** A value that a nullable float takes, and the float it stores. *)
Definition readable (v : option sval) : Prop := nullFloat (driver <$> v) = Ok (num_float <$> v).
Lemma readable_some v : to_float (Some (driver v)) = Ok (num_float v) -> readable (Some v).
Proof. intros Hv. unfold readable, nullFloat, nullable. cbn [fmap option_fmap option_map]. by rewrite Hv. Qed.

Lemma readable_sum k l : Forall (summed k) l -> k * len l < 2 ^ 62 -> readable (snd (coalesce_sum l)).
Proof.
  intros Hl Hlen. apply readable_some. cbn [snd coalesce_sum]. destruct (pg_sum l) as [v|] eqn:E; [|done]. by eapply read_sum.
Qed.
Lemma readable_stored_sum l : Forall stored_num l -> len l < 2 ^ 61 -> readable (snd (coalesce_sum l)).
Proof. intros Hl Hlen. apply (readable_sum 1); [by eapply Forall_impl; [exact Hl|apply stored_summed]|lia]. Qed.
Lemma readable_avg c sch nn rows : column_type sch c = Some (TNumeric, nn) -> taken sch rows -> readable (snd (avg_of c rows)).
Proof.
  intros Hc [Hr Hl]. cbn [snd avg_of]. destruct (pg_avg (values c rows)) as [v|] eqn:E; [|done]. apply readable_some.
  eapply read_avg; [by eapply values_stored| |exact E]. pose proof (length_values c rows). unfold len in Hl. lia.
Qed.
Lemma readable_min c sch nn rows : column_type sch c = Some (TNumeric, nn) -> taken sch rows -> readable (snd (min_of c rows)).
Proof.
  intros Hc [Hr _]. cbn [snd min_of]. destruct (pg_min (values c rows)) as [v|] eqn:E; [|done]. apply readable_some.
  eapply read_min; [by eapply values_stored|exact E].
Qed.
Lemma readable_max c sch nn rows : column_type sch c = Some (TNumeric, nn) -> taken sch rows -> readable (snd (max_of c rows)).
Proof.
  intros Hc [Hr _]. cbn [snd max_of]. destruct (pg_max (values c rows)) as [v|] eqn:E; [|done]. apply readable_some.
  eapply read_max; [by eapply values_stored|exact E].
Qed.
Lemma readable_nonneg c sch nn rows : column_type sch c = Some (TNumeric, nn) -> taken sch rows -> readable (snd (coalesce_sum (nonneg_values c rows))).
Proof.
  intros Hc [Hr Hl]. apply readable_stored_sum; [by eapply nonneg_stored|]. unfold len, nonneg_values. by rewrite length_map.
Qed.
Lemma readable_values c sch nn rows : column_type sch c = Some (TNumeric, nn) -> taken sch rows -> readable (snd (coalesce_sum (values c rows))).
Proof.
  intros Hc [Hr Hl]. apply readable_stored_sum; [by eapply values_stored|]. pose proof (length_values c rows). unfold len in *. lia.
Qed.

(** The delta of a row is a stored value or the difference of two. *)
Lemma summed_mono j k v : j <= k -> summed j v -> summed k v.
Proof. intros Hjk. destruct v as [|n s| | | | |]; try done. intros (Hs & Hn & H0). split_and!; [done| |done]. nia. Qed.
Lemma num_sub_summed a b : stored_num a -> stored_num b -> summed 2 (num_sub a b).
Proof.
  intros Ha Hb. unfold num_sub. change 2 with (1 + 1). apply num_add_summed; [by apply stored_summed|].
  destruct b as [|n s| | | | |]; try done. destruct Hb as (? & ? & ?). apply stored_summed. split_and!; [done|by rewrite Z.abs_opp|lia].
Qed.
Lemma taker_delta_summed r : row_ok taker_flow_snapshots r -> summed 2 (taker_delta r).
Proof.
  intros Hr.
  assert (forall c v, r !! c = Some v -> column_type taker_flow_snapshots c = Some (TNumeric, false) -> stored_num v) as Hs.
  { intros c v Hv Hc. specialize (Hr c _ _ Hc). rewrite Hv in Hr. by apply has_type_stored. }
  assert (forall v, stored_num v -> summed 2 v) as Hm by (intros v Hv; apply (summed_mono 1); [lia|by apply stored_summed]).
  unfold taker_delta. destruct (r !! "buy_sell_delta_quote") as [v1|] eqn:E1; [by apply Hm, (Hs _ _ E1 eq_refl)|].
  destruct (r !! "buy_sell_delta") as [v2|] eqn:E2; [by apply Hm, (Hs _ _ E2 eq_refl)|].
  destruct (r !! "taker_buy_quote_volume") as [v3|] eqn:E3, (r !! "taker_sell_quote_volume") as [v4|] eqn:E4;
    [by apply num_sub_summed; [apply (Hs _ _ E3 eq_refl)|apply (Hs _ _ E4 eq_refl)]|..].
  all: destruct (r !! "taker_buy_volume") as [v5|] eqn:E5, (r !! "taker_sell_volume") as [v6|] eqn:E6;
    [by apply num_sub_summed; [apply (Hs _ _ E5 eq_refl)|apply (Hs _ _ E6 eq_refl)]|..].
  all: by vm_compute; split_and!; [lia|discriminate|right].
Qed.

(** *** Columns of typed rows *)

Section columns.
Context (sch : list (string * (coltype * bool))) (r : gmap string sval) (Hr : row_ok sch r).

Definition time_of (r : gmap string sval) (c : string) : Time := match r !! c with Some (STime t) => t | _ => 0 end.
Definition raw_of (r : gmap string sval) (c : string) : RawMessage := match r !! c with Some (SJson j) => RawJson j | _ => RawEmpty end.
Definition name_of (r : gmap string sval) (c : string) : string := default "" (text_of r c).
Definition float_of (r : gmap string sval) (c : string) : option float64 := num_float <$> r !! c.

Lemma column_text c : column_type sch c = Some (TText, true) -> to_string (driver <$> r !! c) = Ok (name_of r c).
Proof. intros Hc. specialize (Hr c _ _ Hc). unfold name_of, text_of. destruct (r !! c) as [[]|]; done. Qed.
Lemma column_time c : column_type sch c = Some (TTime, true) -> to_time (driver <$> r !! c) = Ok (time_of r c).
Proof. intros Hc. specialize (Hr c _ _ Hc). unfold time_of. destruct (r !! c) as [[]|]; done. Qed.
Lemma column_json c : column_type sch c = Some (TJson, true) -> to_raw (driver <$> r !! c) = Ok (raw_of r c).
Proof. intros Hc. specialize (Hr c _ _ Hc). unfold raw_of. destruct (r !! c) as [[]|]; done. Qed.
Lemma column_num c nn : column_type sch c = Some (TNumeric, nn) -> nullFloat (driver <$> r !! c) = Ok (float_of r c).
Proof.
  intros Hc. specialize (Hr c _ _ Hc). unfold float_of. destruct (r !! c) as [v|]; [|done]. apply readable_some, read_stored, has_type_stored, Hr.
Qed.
End columns.

Lemma column_bind {A B} (d : option dval -> result error A) (k : A -> scanner B) i name v l a : d v = Ok a ->
  (column d ≫= k) i ((name, v) :: l) = k a (i + 1) l.
Proof. intros E. unfold mbind, scanner_bind, column. by rewrite E. Qed.

(** Reading typed columns one after the other. *)
Ltac read_columns Hr :=
  cbn [project map fst snd col eval_expr];
  repeat (erewrite column_bind; [|first [by eapply (column_text _ _ Hr)|by eapply (column_time _ _ Hr)|by eapply (column_json _ _ Hr)|by eapply (column_num _ _ Hr)]]).

Definition market_row (r : gmap string sval) : marketRow :=
  MkMarketRow (name_of r "exchange") (float_of r "last_price") (float_of r "mark_price") (float_of r "volume_24h") (float_of r "quote_volume_24h")
    (float_of r "open_interest") (float_of r "funding_rate") (raw_of r "raw_data") (time_of r "snapshot_time").
Definition point_row (r : gmap string sval) : marketRow :=
  MkMarketRow (name_of r "exchange") (float_of r "last_price") (float_of r "mark_price") (float_of r "volume_24h") None
    (float_of r "open_interest") None (raw_of r "raw_data") 0.
Definition metric_row (r : gmap string sval) : marketRow :=
  MkMarketRow (name_of r "exchange") (float_of r "last_price") (float_of r "mark_price") (float_of r "volume_24h") None
    (float_of r "open_interest") (float_of r "funding_rate") (raw_of r "raw_data") 0.

(** The scan of every typed row gives [row]. *)
Definition scans_to {A} (sch : list (string * (coltype * bool))) (cols : list (string * expr)) (s : scanner A) (row : gmap string sval -> A) : Prop :=
  forall r, row_ok sch r -> Scan (length cols) s (project cols r) = Ok (row r).

Lemma scan_latest_row : scans_to derivative_market_snapshots latest_columns scan_latest market_row.
Proof. intros r Hr. unfold Scan, latest_columns, scan_latest. read_columns Hr. reflexivity. Qed.
Lemma scan_point_row : scans_to derivative_market_snapshots point_columns scan_point point_row.
Proof. intros r Hr. unfold Scan, point_columns, scan_point. read_columns Hr. reflexivity. Qed.
Lemma scan_metric_row : scans_to derivative_market_snapshots metric_columns scan_metric metric_row.
Proof. intros r Hr. unfold Scan, metric_columns, scan_metric. read_columns Hr. reflexivity. Qed.

(** *** Rows of the statements *)

Lemma taken_incl sch rows rows' : taken sch rows -> (forall r, r ∈ rows' -> r ∈ rows) -> (length rows' <= length rows)%nat -> taken sch rows'.
Proof.
  intros [Hr Hl] Hin Hlen. split; [|unfold len in *; lia]. rewrite Forall_forall in *. auto.
Qed.
Lemma taken_filter sch P rows : taken sch rows -> taken sch (List.filter P rows).
Proof.
  intros Ht. eapply taken_incl; [exact Ht|intros r Hr; rewrite list_elem_of_In in *; by apply filter_In in Hr as [? _]|apply List.filter_length_le].
Qed.
Lemma length_firsts c seen rows : (length (firsts c seen rows) <= length rows)%nat.
Proof. revert seen. induction rows as [|r rows IH]; intros seen; cbn [firsts length]; [done|]. case_match; cbn [length]; [etransitivity; [apply IH|lia]|]. by apply le_n_S. Qed.
Lemma latest_by_exchange_in rows r : r ∈ latest_by_exchange rows -> r ∈ rows.
Proof. intros [Hr _]%firsts_in. by rewrite elem_of_stable_sort in Hr. Qed.
Lemma taken_distinct sch rows : taken sch rows -> taken sch (latest_by_exchange rows).
Proof.
  intros Ht. eapply taken_incl; [exact Ht|apply latest_by_exchange_in|]. etransitivity; [apply length_firsts|]. by rewrite length_stable_sort.
Qed.

Section statements.
Context `{HeapOrder} (db : Database) (options : AggregateOptions) (Hdb : usable_db db).

Lemma taken_table name sch : table_schema name = Some sch -> taken sch (table db name).
Proof.
  intros Hs. assert (table db name ≡ₚ db_rows db name) as Hp by apply heap_perm. split.
  - rewrite Hp. by apply (usable_typed db Hdb).
  - unfold len. rewrite Hp. apply (usable_size db Hdb).
Qed.
Lemma taken_funding : taken funding_rate_snapshots (table db "funding_rate_snapshots").
Proof.
  assert (table db "funding_rate_snapshots" ≡ₚ db_rows db "funding_rate_snapshots") as Hp by apply heap_perm. split.
  - rewrite Hp. apply (usable_funding db Hdb).
  - unfold len. rewrite Hp. apply (usable_size db Hdb).
Qed.
Lemma taken_latest name sch keep symbolID t : table_schema name = Some sch -> taken sch (latest db options name keep symbolID t).
Proof. intros Hs. by apply taken_distinct, taken_filter, taken_table. Qed.

(** The times a statement at [t] sends. *)
Definition fits (t : Time) : Prop := timestamptz_ok t = true /\ timestamptz_ok (cutoff options t) = true.

Lemma one_row_ok {A} name args vals (s : scanner A) : forallb arg_ok args = true ->
  one_row (db_fault db name) args vals s = Scan (length vals) s (map (fun x => (fst x, driver <$> snd x)) vals).
Proof. intros Ha. unfold one_row. rewrite (usable_healthy db Hdb). cbn [no_fault query_error iter_error]. by rewrite Ha. Qed.

Lemma scan_one x : readable (snd x) -> Scan 1 one_float (map (fun x => (fst x, driver <$> snd x)) [x]) = Ok (num_float <$> snd x).
Proof. intros E. unfold Scan, one_float, column. cbn [map length Nat.eqb negb]. by rewrite E. Qed.
Lemma scan_three x y z : readable (snd x) -> readable (snd y) -> readable (snd z) ->
  Scan 3 three_floats (map (fun x => (fst x, driver <$> snd x)) [x; y; z]) = Ok (num_float <$> snd x, num_float <$> snd y, num_float <$> snd z).
Proof.
  intros E1 E2 E3. unfold Scan, three_floats. cbn [map length Nat.eqb negb]. by rewrite !(column_bind _ _ _ _ _ _ _ E1), (column_bind _ _ _ _ _ _ _ E2), (column_bind _ _ _ _ _ _ _ E3).
Qed.

Lemma many_rows_ok {A} name args m cols (s : scanner A) sch row rows : forallb arg_ok args = true -> scans_to sch cols s row -> Forall (row_ok sch) rows ->
  many_rows (db_fault db name) args m (map (project cols) rows) (length cols) s = Ok (map row rows).
Proof.
  intros Ha Hs Hr. unfold many_rows. rewrite (usable_healthy db Hdb). cbn [no_fault query_error iter_error]. rewrite Ha. cbn [negb].
  assert (scan_each (fun r => match Scan (length cols) s r with Ok a => Ok a | Err e => Err (wrap (msg_scan m) e) end) (map (project cols) rows) = Ok (map row rows)) as ->; [|done].
  induction Hr as [|r rows Hr _ IH]; [done|]. cbn [map scan_each]. by rewrite Hs, IH.
Qed.

Lemma latest_market_ok cols m s row symbolID t : fits t -> scans_to derivative_market_snapshots cols s row ->
  latest_market db options cols m s symbolID t = Ok (map row (latest db options "derivative_market_snapshots" always symbolID t)).
Proof.
  intros [H1 H2] Hs. unfold latest_market. apply (many_rows_ok _ _ _ _ _ derivative_market_snapshots); [|done|].
  - cbn. by rewrite H1, H2.
  - by apply (taken_latest "derivative_market_snapshots").
Qed.

Lemma latest_row_three name vals m symbolID t sch f1 f2 f3 : fits t -> table_schema name = Some sch ->
  (forall rows, vals rows = [f1 rows; f2 rows; f3 rows]) -> (forall rows, taken sch rows -> readable (snd (f1 rows)) /\ readable (snd (f2 rows)) /\ readable (snd (f3 rows))) ->
  exists x, latest_row db options name vals three_floats m symbolID t = Ok x.
Proof.
  intros [H1 H2] Hs Hv Hr. unfold latest_row. rewrite one_row_ok by (cbn; by rewrite H1, H2). rewrite Hv.
  destruct (Hr _ (taken_latest name sch always symbolID t Hs)) as (R1 & R2 & R3). rewrite scan_three by done. by eexists.
Qed.
Lemma latest_row_one name vals m symbolID t sch f : fits t -> table_schema name = Some sch ->
  (forall rows, vals rows = [f rows]) -> (forall rows, taken sch rows -> readable (snd (f rows))) ->
  exists x, latest_row db options name vals one_float m symbolID t = Ok x.
Proof.
  intros [H1 H2] Hs Hv Hr. unfold latest_row. rewrite one_row_ok by (cbn; by rewrite H1, H2). rewrite Hv.
  rewrite scan_one by (by eapply Hr, taken_latest). by eexists.
Qed.

Lemma window_row_three name time vals m symbolID start end_ sch f1 f2 f3 : timestamptz_ok start = true -> timestamptz_ok end_ = true -> taken sch (table db name) ->
  (forall rows, vals rows = [f1 rows; f2 rows; f3 rows]) -> (forall rows, taken sch rows -> readable (snd (f1 rows)) /\ readable (snd (f2 rows)) /\ readable (snd (f3 rows))) ->
  exists x, window_row db name time vals three_floats m symbolID start end_ = Ok x.
Proof.
  intros H1 H2 Ht Hv Hr. unfold window_row. rewrite one_row_ok by (cbn; by rewrite H1, H2). rewrite Hv.
  destruct (Hr _ (taken_filter _ (in_window time symbolID start end_) _ Ht)) as (R1 & R2 & R3). rewrite scan_three by done. by eexists.
Qed.
Lemma window_row_one name time vals m symbolID start end_ sch f : timestamptz_ok start = true -> timestamptz_ok end_ = true -> taken sch (table db name) ->
  (forall rows, vals rows = [f rows]) -> (forall rows, taken sch rows -> readable (snd (f rows))) ->
  exists x, window_row db name time vals one_float m symbolID start end_ = Ok x.
Proof.
  intros H1 H2 Ht Hv Hr. unfold window_row. rewrite one_row_ok by (cbn; by rewrite H1, H2). rewrite Hv.
  rewrite scan_one by (by eapply Hr, taken_filter). by eexists.
Qed.
End statements.

(** *** The operations *)

Ltac readables :=
  let rows := fresh "rows" in let Hrows := fresh "Hrows" in intros rows Hrows; cbv beta; split_and?;
  first [eapply readable_nonneg; [|exact Hrows]; reflexivity|eapply readable_values; [|exact Hrows]; reflexivity|
         eapply readable_avg; [|exact Hrows]; reflexivity|eapply readable_min; [|exact Hrows]; reflexivity|
         eapply readable_max; [|exact Hrows]; reflexivity].

(** All times of an aggregation at [t] fit a timestamp. *)
Record times_ok (options : AggregateOptions) (t : Time) : Prop := {
  times_at : fits options t;
  times_windows : Forall (fun w => fits options (Add t (- w_Duration w))) (Windows options);
  times_day : timestamptz_ok (Add t (- (24 * Hour))) = true;
  times_week : timestamptz_ok (Add t (- (7 * 24 * Hour))) = true }.

Section operations.
Context `{HeapOrder} (db : Database) (options : AggregateOptions) (Hdb : usable_db db).

Lemma marketAggregateAt_ok symbolID t : fits options t -> marketAggregateAt db options symbolID t =
  Ok (point_of (foldl add_point no_points (map point_row (latest db options "derivative_market_snapshots" always symbolID t)))).
Proof. intros Hf. unfold marketAggregateAt. by rewrite (latest_market_ok db options Hdb _ _ _ point_row) by (done || apply scan_point_row). Qed.

Lemma cvdAggregateAt_ok symbolID t : fits options t -> exists x, cvdAggregateAt db options symbolID t = Ok x.
Proof.
  intros [H1 H2]. unfold cvdAggregateAt. rewrite one_row_ok by (done || cbn; by rewrite H1, H2). unfold cvd_values.
  rewrite scan_one by (eapply readable_values; [|by apply (taken_latest db options Hdb "cvd_snapshots" cvd_snapshots)]; reflexivity). by eexists.
Qed.

Lemma window_metric_ok symbolID t current cvdNow w : fits options t -> fits options (Add t (- w_Duration w)) ->
  exists m, window_metric db options symbolID t current cvdNow w = Ok m.
Proof.
  intros [Ht _] Hs. unfold window_metric. rewrite marketAggregateAt_ok by done.
  destruct (cvdAggregateAt_ok symbolID _ Hs) as [cvd ->]. pose proof Hs as [Hs' _].
  destruct (window_row_three db Hdb "funding_rate_snapshots" "snapshot_time" (stats_values "funding_rate") "query funding window stats" symbolID _ _ _ _ _ _ Hs' Ht
    (taken_funding db Hdb) (fun _ => eq_refl)) as [[[f1 f2] f3] Hf]; [readables|].
  destruct (window_row_three db Hdb "basis_premium_snapshots" "snapshot_time" (stats_values "basis_percent") "query basis window stats" symbolID _ _ _ _ _ _ Hs' Ht
    (taken_table db Hdb "basis_premium_snapshots" _ eq_refl) (fun _ => eq_refl)) as [[[b1 b2] b3] Hb]; [readables|].
  destruct (window_row_one db Hdb "liquidation_aggregates" "bucket_time" (fun rows => [coalesce_sum (nonneg_values "total_liquidation_usd" rows)]) "query liquidation window" symbolID _ _ _ _ Hs' Ht
    (taken_table db Hdb "liquidation_aggregates" _ eq_refl) (fun _ => eq_refl)) as [l Hl]; [readables|].
  destruct (window_row_one db Hdb "taker_flow_snapshots" "snapshot_time" (fun rows => [coalesce_sum (map taker_delta rows)]) "query taker delta window" symbolID _ _ _ _ Hs' Ht
    (taken_table db Hdb "taker_flow_snapshots" _ eq_refl) (fun _ => eq_refl)) as [d Hd].
  { intros rows [Hr Hlen]. apply (readable_sum 2).
    - apply Forall_map. eapply Forall_impl; [exact Hr|]. intros r Hrow. by apply taker_delta_summed.
    - unfold len in *. rewrite length_map. lia. }
  unfold windowFundingStats, windowBasisStats, windowTakerDelta, windowLiquidationSum. rewrite Hf, Hb, Hl, Hd. by eexists.
Qed.

Lemma each_ok {A B} (f : A -> result error B) l : (forall x, x ∈ l -> exists b, f x = Ok b) -> exists r, each f l = Ok r /\ Forall2 (fun x b => f x = Ok b) l r.
Proof.
  induction l as [|x l IH]; intros Hl; [by exists []|]. destruct (Hl x ltac:(by left)) as [b Hb].
  destruct IH as (r & Hr & Hf); [intros y Hy; apply Hl; by right|]. exists (b :: r). cbn [each]. rewrite Hb, Hr. split; [done|by constructor].
Qed.

Lemma BuildWindowMetrics_ok symbolID t : times_ok options t -> exists l, BuildWindowMetrics db options symbolID t = Ok l.
Proof.
  intros [Ht Hw _ _]. unfold BuildWindowMetrics. rewrite marketAggregateAt_ok by done. destruct (cvdAggregateAt_ok symbolID t Ht) as [cvd ->].
  edestruct (each_ok (window_metric db options symbolID t (point_of (foldl add_point no_points (map point_row (latest db options "derivative_market_snapshots" always symbolID t)))) cvd)
    (Windows options)) as (l & -> & _); [|by eexists].
  intros w Hin. rewrite Forall_forall in Hw. apply window_metric_ok; [done|by apply Hw].
Qed.

(** *** Candles *)

Lemma scan_each_ok {A} (f : drow -> result error A) l : Forall (fun r => exists a, f r = Ok a) l -> exists r, scan_each f l = Ok r.
Proof. induction 1 as [|x l [a Ha] _ [r IH]]; [by exists []|]. exists (a :: r). cbn [scan_each]. by rewrite Ha, IH. Qed.


(** A group of candles has a row, and all its prices are there. *)
Lemma group_value (agg : list sval -> option sval) c rows t : (forall l, l <> [] -> is_Some (agg l)) ->
  Forall (fun r => above_zero (r !! c) = true) rows -> t ∈ open_times rows ->
  is_Some (agg (values c (List.filter (time_in "open_time" (Z.eqb t)) rows))).
Proof.
  intros Hagg Hc Ht. apply Hagg. unfold open_times in Ht. rewrite elem_of_stable_sort, elem_of_remove_dups in Ht.
  apply list_elem_of_omap in Ht as (r & Hr & Et).
  destruct (List.filter (time_in "open_time" (Z.eqb t)) rows) as [|x g] eqn:E.
  - assert (r ∈ List.filter (time_in "open_time" (Z.eqb t)) rows) as Hin; [|rewrite E in Hin; by apply not_elem_of_nil in Hin].
    rewrite list_elem_of_In in *. apply filter_In. split; [done|]. unfold time_in. destruct (r !! "open_time") as [[]|]; try done.
    injection Et as ->. apply Z.eqb_refl.
  - assert (x ∈ rows) as Hx.
    { assert (In x (List.filter (time_in "open_time" (Z.eqb t)) rows)) as Hin by (rewrite E; by left). apply filter_In in Hin as [Hin _]. by apply list_elem_of_In. }
    rewrite Forall_forall in Hc. specialize (Hc x Hx). cbn. by destruct (x !! c).
Qed.

Lemma loadAggregateCandles_ok symbolID start end_ : timestamptz_ok start = true -> timestamptz_ok end_ = true ->
  exists l, loadAggregateCandles db symbolID start end_ = Ok l.
Proof.
  intros H1 H2. unfold loadAggregateCandles, many_rows. rewrite (usable_healthy db Hdb). cbn [no_fault query_error iter_error].
  assert (forallb arg_ok [AInt symbolID; ATime start; ATime end_] = true) as -> by (cbn; by rewrite H1, H2). cbn [negb].
  set (rows := List.filter (candle_row symbolID start end_) (table db "derivative_klines")).
  assert (Forall (fun r => above_zero (r !! "open_price") = true /\ above_zero (r !! "high_price") = true /\ above_zero (r !! "low_price") = true /\
    above_zero (r !! "close_price") = true) rows) as Hp.
  { apply Forall_forall. intros r Hr. unfold rows in Hr. rewrite list_elem_of_In in Hr. apply filter_In in Hr as [_ Hr].
    unfold candle_row in Hr. rewrite !andb_true_iff in Hr. tauto. }
  edestruct (scan_each_ok (fun r => match Scan 5 scan_candle r with Ok a => Ok a | Err e => Err (wrap "scan aggregate candle" e) end)
    (map (candle_values rows) (open_times rows))) as [l Hl]; [|cbn [msg_scan]; rewrite Hl; by eexists].
  apply Forall_forall. intros d (t & -> & Ht)%list_elem_of_fmap.
  assert (forall l, l <> [] -> is_Some (pg_avg l)) as Havg by (intros [|x l] ?; [done|]; unfold pg_avg; cbn [pg_sum]; repeat case_match; by eexists).
  assert (forall l, l <> [] -> is_Some (pg_max l)) as Hmax by (intros [|x l] ?; [done|]; by eexists).
  assert (forall l, l <> [] -> is_Some (pg_min l)) as Hmin by (intros [|x l] ?; [done|]; by eexists).
  destruct (group_value pg_avg "open_price" rows t Havg) as [o Ho]; [eapply Forall_impl; [exact Hp|]; cbn; tauto|done|].
  destruct (group_value pg_max "high_price" rows t Hmax) as [h Hh]; [eapply Forall_impl; [exact Hp|]; cbn; tauto|done|].
  destruct (group_value pg_min "low_price" rows t Hmin) as [lo Hlo]; [eapply Forall_impl; [exact Hp|]; cbn; tauto|done|].
  destruct (group_value pg_avg "close_price" rows t Havg) as [c Hc]; [eapply Forall_impl; [exact Hp|]; cbn; tauto|done|].
  unfold candle_values. rewrite Ho, Hh, Hlo, Hc. by eexists.
Qed.

Lemma BuildAnalytics_ok symbolID t : times_ok options t -> exists a, BuildAnalytics db options symbolID t = Ok a.
Proof.
  intros [[Ht Hc] _ Hd Hw]. unfold BuildAnalytics, BuildMarketStructureSnapshots, BuildVolatilitySnapshots, BuildExchangeDivergenceSnapshot, latestExchangeMetrics.
  destruct (loadAggregateCandles_ok symbolID _ _ Hd Ht) as [l1 ->]. destruct (loadAggregateCandles_ok symbolID _ _ Hw Ht) as [l2 ->].
  rewrite (latest_market_ok db options Hdb _ _ _ metric_row) by (done || apply scan_metric_row). by eexists.
Qed.
End operations.

(** ** The newest fresh snapshot of every exchange *)

Lemma latest_newest `{HeapOrder} db options symbolID t : typed_db db ->
  let rows := latest db options "derivative_market_snapshots" always symbolID t in
  let wanted r := r ∈ db_rows db "derivative_market_snapshots" /\ fresh options symbolID t r = true in
  NoDup (map (fun r => name_of r "exchange") rows) /\ (forall r, r ∈ rows -> wanted r) /\
  (forall x, wanted x -> exists r, r ∈ rows /\ name_of r "exchange" = name_of x "exchange" /\ time_of x "snapshot_time" <= time_of r "snapshot_time").
Proof.
  intros Ht rows wanted.
  set (ms := List.filter (fun r => fresh options symbolID t r && always r) (table db "derivative_market_snapshots")) in *.
  assert (forall r, r ∈ ms <-> wanted r) as Hms.
  { intros r. unfold ms, wanted. rewrite list_elem_of_In, filter_In, <- list_elem_of_In, andb_true_r. unfold table. by rewrite heap_perm. }
  assert (forall r, wanted r -> row_ok derivative_market_snapshots r) as Hty.
  { intros r [Hr _]. by eapply Forall_forall; [apply (Ht "derivative_market_snapshots" _ eq_refl)|]. }
  assert (forall y, wanted y -> text_of y "exchange" = Some (name_of y "exchange") /\ y !! "snapshot_time" = Some (STime (time_of y "snapshot_time"))) as Hcols.
  { intros y Hy. pose proof (Hty y Hy) as Hr'. split.
    - pose proof (Hr' "exchange" TText true eq_refl) as E. unfold name_of, text_of. by destruct (y !! "exchange") as [[]|].
    - pose proof (Hr' "snapshot_time" TTime true eq_refl) as E. unfold time_of. by destruct (y !! "snapshot_time") as [[]|]. }
  assert (forall r, r ∈ rows -> wanted r) as Hin by (intros r Hr; apply Hms; by apply latest_by_exchange_in).
  split_and!; [|done|].
  - apply (NoDup_fmap_1 Some). assert (map Some (map (fun r => name_of r "exchange") rows) = map (fun r => text_of r "exchange") rows) as E.
    { rewrite map_map. apply map_ext_in. intros r Hr. symmetry. apply Hcols, Hin. by apply list_elem_of_In. }
    change (NoDup (map Some (map (fun r => name_of r "exchange") rows))). rewrite E. apply (firsts_nodup "exchange" []).
  - intros x Hx. set (srt := stable_sort (order_leb [asc "exchange"; desc "snapshot_time"]) ms).
    destruct (firsts_complete "exchange" [] srt x) as (r & Hr & He); [unfold srt; rewrite elem_of_stable_sort; by apply Hms|set_solver|].
    assert (wanted r) as Hwr by (apply Hin; exact Hr). destruct (Hcols r Hwr) as [E1 E2], (Hcols x Hx) as [E3 E4].
    exists r. split_and!; [exact Hr|congruence|]. apply (same_exchange_newest r x); try done.
    eapply firsts_least; [|apply order_leb_refl|exact Hr|unfold srt; rewrite elem_of_stable_sort; by apply Hms|done].
    apply stable_sort_sorted; [apply order_leb_total|apply order_leb_trans].
Qed.

(** the market stage of [BuildLatest] covers the newest fresh snapshot of every exchange.  On typed
    tables without faults its statement succeeds; the rows it reads are fresh snapshots of the symbol,
    one per exchange that has any and none of them older than another of its exchange; and the loop
    computes the reference aggregate of those rows: the exchanges whose raw data does not say it is
    degraded, counted, with mean price, volume-weighted price, totals, open-interest value and funding
    mean and extremes over the values in range, every other exchange recorded as skipped with reason
    degraded_raw_data (never as stale), and the fields out of range listed per exchange. *)
Theorem market_stage_exact `{HeapOrder} db options symbolID t metrics :
  usable_db db -> fits options t ->
  let latest_rows := latest db options "derivative_market_snapshots" always symbolID t in
  let wanted r := r ∈ db_rows db "derivative_market_snapshots" /\ fresh options symbolID t r = true in
  (exists rows, latest_market db options latest_columns
      (MkMessages "query latest market snapshots" "scan latest market snapshot" "iterate latest market snapshots") scan_latest symbolID t = Ok rows /\
    rows = map market_row latest_rows /\
    let st := collect options symbolID t rows in
    aggregates_of options t rows (with_windows (of_totals symbolID t st) metrics (Marshal (t_quality st)))) /\
  NoDup (map (fun r => name_of r "exchange") latest_rows) /\ (forall r, r ∈ latest_rows -> wanted r) /\
  (forall x, wanted x -> exists r, r ∈ latest_rows /\ name_of r "exchange" = name_of x "exchange" /\
     time_of x "snapshot_time" <= time_of r "snapshot_time").
Proof.
  intros Hdb Hfit latest_rows wanted. pose proof (latest_newest db options symbolID t (usable_typed db Hdb)) as (Hn & Hin & Hall).
  split_and!; [|exact Hn|exact Hin|exact Hall]. exists (map market_row latest_rows).
  rewrite (latest_market_ok db options Hdb _ _ _ market_row) by (done || apply scan_latest_row). split; [done|]. split; [done|].
  apply aggregate_reference.
  - rewrite map_map. exact Hn.
  - apply Forall_map, Forall_forall. intros r [_ Hr]%Hin. unfold fresh in Hr. rewrite andb_true_iff in Hr. destruct Hr as [_ Hr].
    cbn [market_row mr_snapshotAt]. unfold time_of. unfold time_in in Hr. destruct (r !! "snapshot_time") as [[]|]; try done.
    rewrite andb_true_iff in Hr. destruct Hr as [_ Hr]. by apply Z.leb_le in Hr.
Qed.

(** ** A concrete database *)

Definition tables_db (l : list (string * list (gmap string sval))) : Database :=
  MkDatabase (fun n => default [] (snd <$> find (fun x => (fst x =? n)%string) l)) (fun _ => no_fault).
Definition tables_check (l : list (string * list (gmap string sval))) : bool :=
  forallb (fun x => match table_schema (fst x) with Some sch => forallb (row_check sch) (snd x) | None => true end &&
                    (len (snd x) <? 2 ^ 61)) l.

Lemma tables_usable l : tables_check l = true -> Forall (row_ok funding_rate_snapshots) (db_rows (tables_db l) "funding_rate_snapshots") ->
  usable_db (tables_db l).
Proof.
  intros Hc Hf. unfold tables_check in Hc. rewrite forallb_forall in Hc.
  assert (forall name x, find (fun x => (fst x =? name)%string) l = Some x -> In x l /\ fst x = name) as Hfind.
  { intros name x Hx. apply find_some in Hx as [Hin He]. by apply String.eqb_eq in He. }
  split; [|done| |done].
  - intros name sch Hs. cbn [tables_db db_rows]. destruct (find _ l) as [x|] eqn:E; [|constructor]. apply Hfind in E as [Hin <-].
    specialize (Hc x Hin). rewrite Hs in Hc. apply andb_true_iff in Hc as [Hc _]. rewrite forallb_forall in Hc. cbn.
    apply Forall_forall. intros r Hr. apply row_check_ok, Hc. by apply list_elem_of_In.
  - intros name. cbn [tables_db db_rows]. destruct (find _ l) as [x|] eqn:E; [|done]. apply Hfind in E as [Hin _].
    specialize (Hc x Hin). apply andb_true_iff in Hc as [_ Hc]. by apply Z.ltb_lt in Hc.
Qed.

Definition noon : Time := Date 2026 5 1.
Definition snapshot_of (ex : string) (t : Time) (p : Z) (raw : json) : gmap string sval :=
  list_to_map [("symbol_id", SInt 7); ("exchange", SText ex); ("source_symbol", SText "BTCUSDT"); ("snapshot_time", STime t); ("raw_data", SJson raw);
               ("last_price", price p); ("volume_24h", price 10); ("quote_volume_24h", price (10 * p)); ("open_interest", price 3);
               ("funding_rate", SNum 1000000 10)].
Definition candle_of (ex : string) (t : Time) (o h l c : Z) : gmap string sval :=
  list_to_map [("symbol_id", SInt 7); ("exchange", SText ex); ("interval", SText "5m"); ("open_time", STime t); ("close_time", STime (t + 5 * Minute));
               ("open_price", price o); ("high_price", price h); ("low_price", price l); ("close_price", price c); ("is_closed", SBool true)].
Definition aggregate_tables : list (string * list (gmap string sval)) :=
  [("derivative_market_snapshots",
    [snapshot_of "binance" noon 100 (JObject []); snapshot_of "binance" (noon - Minute) 90 (JObject []);
     snapshot_of "okx" noon 102 (JObject [("status", JString "Degraded")]); snapshot_of "bybit" (noon - Minute) 101 (JObject []);
     snapshot_of "gate" (noon - Hour) 99 (JObject [])]);
   ("derivative_klines", [candle_of "binance" (noon - 5 * Minute) 100 110 90 105; candle_of "okx" (noon - 5 * Minute) 101 109 89 104;
                          candle_of "okx" noon 101 109 91 103]);
   ("symbols", [list_to_map [("id", SInt 7); ("symbol", SText "BTCUSDT"); ("is_active", SBool true)]])].
Definition aggregate_db : Database := tables_db aggregate_tables.
Definition aggregate_options : AggregateOptions := normalizeAggregateOptions (MkAggregateOptions 0 []).

Lemma aggregate_db_usable : usable_db aggregate_db.
Proof. apply tables_usable; [vm_cast_no_check (@eq_refl bool true)|constructor]. Qed.
Lemma aggregate_times : times_ok aggregate_options noon.
Proof. split; [by vm_compute|repeat constructor|by vm_compute..]. Qed.

Example market_stage_sample : exists rows,
  latest_market (H:=in_place) aggregate_db aggregate_options latest_columns (MkMessages "" "" "") scan_latest 7 noon = Ok rows /\
  map mr_exchange (in_use rows) = ["binance"; "bybit"] /\ mean (prices (in_use rows)) = Some (f64_dec 1005 (-1)).
Proof. eexists. split; [vm_compute; reflexivity|]. split; vm_compute; reflexivity. Qed.
