(* ===== verification/AggregatePublish.v ===== *)
(** * Publishing aggregates

    That PostgreSQL lets no aggregate job through; what the upserts of the aggregate repository leave
    in the tables, that a repeated or resumed write changes nothing more, and that the API serves what
    was upserted. *)

From S2P Require Import Prelude GoString GoTime GoFloat GoDuration GoError GoJson GoJsonText PgNumeric PgText SchedulerModels ApiQuery ApiStore ApiSchema ApiSeries ApiOverview RealtimeEvents AggregateQuality PgAggregate AggregateModels Analytics AggregateReads AggregateWrites AggregateSpec Worker Collector.

(** ** Assignments *)

(** A row that holds the assigned values. *)
Definition holds (set : list (string * option sval)) (r : gmap string sval) : Prop := forall c v, (c, v) ∈ set -> r !! c = v.

Lemma assign_lookup r c c' v : assign r (c, v) !! c' = if decide (c = c') then v else r !! c'.
Proof. unfold assign. cbn [fst snd]. destruct v, (decide (c = c')) as [->|]; by simplify_map_eq. Qed.

Lemma foldl_assign_other set r c : c ∉ map fst set -> foldl assign r set !! c = r !! c.
Proof.
  revert r. induction set as [|[c' v] set IH]; intros r Hn; [done|]. cbn [map fst foldl] in *. apply not_elem_of_cons in Hn as [Hne Hn].
  rewrite IH by done. rewrite assign_lookup. by rewrite decide_False.
Qed.
Lemma foldl_assign_holds set r : NoDup (map fst set) -> holds set (foldl assign r set).
Proof.
  revert r. induction set as [|[c' v'] set IH]; intros r Hn c v Hin; [by apply not_elem_of_nil in Hin|]. cbn [map fst foldl] in *.
  apply NoDup_cons in Hn as [Hnot Hn]. apply elem_of_cons in Hin as [[= -> ->]|Hin]; [|by apply IH].
  rewrite foldl_assign_other, assign_lookup by done. by rewrite decide_True.
Qed.
Lemma holds_foldl set r : holds set r -> foldl assign r set = r.
Proof.
  intros Hr. induction set as [|[c v] set IH]; [done|]. cbn [foldl].
  assert (assign r (c, v) = r) as ->.
  { apply map_eq. intros c'. rewrite assign_lookup. case_decide; [|done]. subst. symmetry. apply Hr. by left. }
  apply IH. intros c' v' Hin. apply Hr. by right.
Qed.

(** ** Upserts *)

Section upsert.
Context (key : list string) (set : list (string * option sval)).
Context (Hnd : NoDup (map fst set)) (Hkey : forall c, c ∈ key -> exists v, (c, Some v) ∈ set /\ key_eqb (Some v) (Some v) = true).

Definition new_row : gmap string sval := foldl assign ∅ set.

(** The key of any row that holds the values is the key of the new one. *)
Lemma conflicts_holds r : holds set r -> conflicts key new_row r = true.
Proof.
  intros Hr. unfold conflicts, new_row. apply forallb_forall. intros c Hc%list_elem_of_In. destruct (Hkey c Hc) as (v & Hv & Hk).
  by rewrite (Hr _ _ Hv), (foldl_assign_holds set ∅ Hnd _ _ Hv).
Qed.

Lemma upsert_row_holds rows r : r ∈ upsert_row key set rows -> conflicts key new_row r = true -> holds set r.
Proof.
  unfold upsert_row. fold new_row. destruct (existsb (conflicts key new_row) rows) eqn:E.
  - intros (old & -> & _)%list_elem_of_fmap Hc. destruct (conflicts key new_row old) eqn:Eo; [by apply foldl_assign_holds|congruence].
  - intros [Hr|Hr%list_elem_of_singleton]%elem_of_app Hc; [|subst r; by apply foldl_assign_holds].
    assert (existsb (conflicts key new_row) rows = true) as E'; [|congruence]. apply existsb_exists. exists r. by rewrite <- list_elem_of_In.
Qed.

Lemma upsert_row_there rows : exists r, r ∈ upsert_row key set rows /\ holds set r.
Proof.
  unfold upsert_row. fold new_row. destruct (existsb (conflicts key new_row) rows) eqn:E.
  - apply existsb_exists in E as (old & Hin & Hc). exists (foldl assign old set). split; [|by apply foldl_assign_holds].
    apply list_elem_of_fmap. exists old. rewrite list_elem_of_In, Hc. done.
  - exists new_row. split; [apply elem_of_app; right; by left|by apply foldl_assign_holds].
Qed.

(** Rows of other keys are as before. *)
Lemma upsert_row_other rows r : conflicts key new_row r = false -> r ∈ upsert_row key set rows <-> r ∈ rows.
Proof.
  intros Hc. unfold upsert_row. fold new_row. destruct (existsb (conflicts key new_row) rows) eqn:E.
  - rewrite list_elem_of_fmap. split.
    + intros (old & -> & Hin). destruct (conflicts key new_row old) eqn:Eo; [|done]. rewrite conflicts_holds in Hc; [done|by apply foldl_assign_holds].
    + intros Hin. exists r. by rewrite Hc.
  - rewrite elem_of_app, list_elem_of_singleton. split; [|by left]. intros [?| ->]; [done|].
    rewrite conflicts_holds in Hc; [done|by apply foldl_assign_holds].
Qed.

(** The values are there already: an upsert changes nothing. *)
Definition settled (rows : list (gmap string sval)) : Prop :=
  existsb (conflicts key new_row) rows = true /\ forall r, r ∈ rows -> conflicts key new_row r = true -> holds set r.

Lemma settled_upsert rows : settled rows -> upsert_row key set rows = rows.
Proof.
  intros [He Hall]. unfold upsert_row. fold new_row. rewrite He. rewrite <- (map_id rows) at 2. apply map_ext_in.
  intros r Hr%list_elem_of_In. destruct (conflicts key new_row r) eqn:E; [|done]. by apply holds_foldl, Hall.
Qed.
Lemma upsert_settled rows : settled (upsert_row key set rows).
Proof.
  split; [|intros r Hr Hc; by eapply upsert_row_holds]. destruct (upsert_row_there rows) as (r & Hr & Hh).
  apply existsb_exists. exists r. rewrite <- list_elem_of_In. split; [done|by apply conflicts_holds].
Qed.
End upsert.

(** Another upsert, whose key differs, leaves the values settled. *)
Lemma key_eqb_trans a b c : key_eqb a b = true -> key_eqb a c = true -> key_eqb b c = true.
Proof.
  destruct a as [[]|], b as [[]|], c as [[]|]; cbn [key_eqb]; try done; intros H1 H2; bool_to_prop; subst; try apply Z.eqb_refl.
  apply String.eqb_refl.
Qed.
Lemma key_eqb_sym a b : key_eqb a b = true -> key_eqb b a = true.
Proof. destruct a as [[]|], b as [[]|]; cbn [key_eqb]; try done; intros H1; bool_to_prop; subst; try apply Z.eqb_refl. apply String.eqb_refl. Qed.

Lemma settled_other key set set' rows : NoDup (map fst set) -> NoDup (map fst set') ->
  (forall c, c ∈ key -> exists v, (c, Some v) ∈ set /\ key_eqb (Some v) (Some v) = true) ->
  (forall c, c ∈ key -> exists v, (c, Some v) ∈ set' /\ key_eqb (Some v) (Some v) = true) ->
  conflicts key (new_row set) (new_row set') = false -> settled key set rows -> settled key set (upsert_row key set' rows).
Proof.
  intros Hn Hn' Hk Hk' Hne [He Hall].
  assert (forall r, conflicts key (new_row set) r = true -> conflicts key (new_row set') r = false) as Hdis.
  { intros r Hr. apply not_true_iff_false. intros Hr'. rewrite <- not_true_iff_false in Hne. apply Hne.
    unfold conflicts in *. rewrite forallb_forall in *. intros c Hc. apply key_eqb_trans with (r !! c); apply key_eqb_sym; auto. }
  split.
  - apply existsb_exists in He as (r & Hr & Hc). apply existsb_exists. exists r. split; [|done]. rewrite <- list_elem_of_In in *.
    apply (upsert_row_other key set' Hn' Hk'); [by apply Hdis|done].
  - intros r Hr Hc. apply Hall; [|done]. apply (upsert_row_other key set' Hn' Hk'); [by apply Hdis|done].
Qed.

(** ** The aggregate *)

Lemma assignments_values l set : assignments l = Ok set -> Forall2 (fun a b => fst a = fst b /\ snd a = Ok (snd b)) l set.
Proof.
  revert set. induction l as [|[c [v|e]] l IH]; intros set Hs; cbn [assignments] in Hs; [by injection Hs as <-| |done].
  destruct (assignments l) as [r|] eqn:E; [|done]. injection Hs as <-. constructor; [done|]. by apply IH.
Qed.
Lemma assignments_keys l set : assignments l = Ok set -> map fst set = map fst l.
Proof. intros Hs%assignments_values. induction Hs as [|a b l set [H1 _] _ IH]; [done|]. cbn [map]. by rewrite H1, IH. Qed.
Lemma assignments_in l set c x v : assignments l = Ok set -> (c, x) ∈ l -> x = Ok v -> (c, v) ∈ set.
Proof.
  intros Hs%assignments_values Hin ->. induction Hs as [|[c1 x1] [c2 x2] l set [H1 H2] _ IH]; [by apply not_elem_of_nil in Hin|].
  cbn [fst snd] in *. apply elem_of_cons in Hin as [[= <- <-]|Hin]; [|right; by apply IH]. subst. injection H2 as <-. by left.
Qed.
(** What was assigned to a column whose value is known to have been accepted. *)
Lemma assignments_get l set c x : assignments l = Ok set -> (c, x) ∈ l -> exists v, x = Ok v /\ (c, v) ∈ set.
Proof.
  intros Hs Hin. pose proof Hs as Hf%assignments_values. assert (exists v, x = Ok v) as [v ->].
  { clear Hs. induction Hf as [|[c1 x1] [c2 x2] l set [H1 H2] _ IH]; [by apply not_elem_of_nil in Hin|].
    cbn [fst snd] in *. apply elem_of_cons in Hin as [[= -> ->]|Hin]; [by exists x2|by apply IH]. }
  exists v. split; [done|]. by eapply assignments_in.
Qed.

Lemma aggregate_nodup s : NoDup (map fst (aggregate_set s)).
Proof. cbn [map aggregate_set fst]. refine (bool_decide_unpack _ _). vm_compute. exact I. Qed.

Lemma aggregate_keyed s set : assignments (aggregate_set s) = Ok set ->
  forall c, c ∈ aggregate_key -> exists v, (c, Some v) ∈ set /\ key_eqb (Some v) (Some v) = true.
Proof.
  intros Hs c Hc. unfold aggregate_key in Hc. apply elem_of_cons in Hc as [->|Hc]; [|apply elem_of_cons in Hc as [->|Hc]; [|by apply not_elem_of_nil in Hc]].
  - exists (SInt (da_SymbolID s)). split; [|apply Z.eqb_refl]. eapply assignments_in; [exact Hs|by left|done].
  - destruct (assignments_get _ _ "snapshot_time" (timestamptz (da_SnapshotTime s)) Hs) as (v & Hv & Hin); [right; by left|].
    unfold timestamptz in Hv. case_match; [|done]. injection Hv as <-. exists (STime (da_SnapshotTime s)). split; [done|apply Z.eqb_refl].
Qed.

(** The value a column keeps of a float, read back. *)
Definition kept (x : result error (option sval)) : option float64 := match x with Ok v => num_float <$> v | Err _ => None end.
Definition kept_json (r : RawMessage) : RawMessage := ensureJSON r.

(** The answer of the API for a stored aggregate. *)
Definition served (clock : Time) (s : DerivativeAggregateSnapshot) : AggregateDTO :=
  MkAggregateDTO (da_SnapshotTime s) (firstFloat [kept (amount (da_PriceWeighted s)); kept (amount (da_PriceAvg s))])
    (kept (amount (da_PriceAvg s))) (kept (amount (da_PriceWeighted s))) (kept (amount (da_TotalVolume24h s))) (kept (amount (da_TotalQuoteVolume24h s)))
    (kept (amount (da_TotalOpenInterest s))) (kept (amount (da_TotalOpenInterestValue s))) (kept (percent (da_AvgFundingRate s)))
    (kept (amount (da_TotalCVD s))) (kept (amount (da_TotalLongLiquidationUSD s))) (kept (amount (da_TotalShortLiquidationUSD s)))
    (kept (amount (da_TotalLiquidationUSD s))) (kept (percent (da_AvgBasisPercent s))) (kept (percent (da_AvgOrderbookImbalancePercent s)))
    (da_ExchangeCount s) (kept_json (da_AvailableExchanges s)) (kept_json (da_RawByExchange s)) (kept_json (da_WindowMetrics s))
    (kept_json (da_AnomalyFlags s)) (kept_json (da_QualityMetadata s)) (freshness clock (da_SnapshotTime s)).

(** Columns of a row that holds the values. *)
Lemma numeric_column_stored p sc f v : (p <= 38)%nat -> (0 < sc <= 38)%nat -> numeric_column p sc f = Ok v -> stored_num v.
Proof.
  intros Hp Hs. unfold numeric_column. destruct (decimal_of f) as [m e|neg|]; [|done|by intros [= <-]].
  destruct (10 ^ Z.of_nat p <=? Z.abs _) eqn:E; [done|]. intros [= <-]. bool_to_prop. split_and!; [lia| |left; lia].
  eapply Z.lt_le_trans; [exact E|]. apply Z.pow_le_mono_r; lia.
Qed.
Lemma floatDest_stored v : stored_num v -> floatDest (Some (driver v)) = Ok (Some (num_float v)).
Proof.
  intros Hv. pose proof (read_stored v Hv) as E. destruct v as [|n sc| | | | |]; try done.
  cbn [driver to_float floatDest] in *. by rewrite E.
Qed.
Lemma numeric_read p sc f v : (p <= 38)%nat -> (0 < sc <= 38)%nat -> numeric p sc f = Ok v -> floatDest (driver <$> v) = Ok (kept (numeric p sc f)).
Proof.
  intros Hp Hs E. unfold kept. rewrite E. unfold numeric in E. destruct f as [f|]; [|by injection E as <-].
  destruct (numeric_column p sc f) as [x|] eqn:Ex; [|done]. injection E as <-. apply floatDest_stored. by eapply numeric_column_stored.
Qed.
Lemma jsonb_read r v : jsonb r = Ok v -> to_raw (driver <$> v) = Ok (ensureJSON r).
Proof. unfold jsonb. destruct (ensureJSON r); try done. by intros [= <-]. Qed.
Lemma ensureJSON_twice r : ensureJSON (ensureJSON r) = ensureJSON r.
Proof. by destruct r. Qed.
Lemma ensureJSONArray_ensured r : ensureJSONArray (ensureJSON r) = ensureJSON r.
Proof. by destruct r. Qed.

Section stored_row.
Context (s : DerivativeAggregateSnapshot) (set : list (string * option sval)) (r : gmap string sval).
Context (Hset : assignments (aggregate_set s) = Ok set) (Hr : holds set r).

Lemma stored_column c x : (c, x) ∈ aggregate_set s -> exists v, x = Ok v /\ r !! c = v.
Proof. intros Hin. destruct (assignments_get _ _ _ _ Hset Hin) as (v & Hv & Hin'). exists v. split; [done|by apply Hr]. Qed.

Lemma stored_numeric c p sc f : (p <= 38)%nat -> (0 < sc <= 38)%nat -> (c, numeric p sc f) ∈ aggregate_set s ->
  floatDest (driver <$> r !! c) = Ok (kept (numeric p sc f)).
Proof. intros Hp Hs Hin. destruct (stored_column _ _ Hin) as (v & Hv & ->). by apply numeric_read. Qed.
Lemma stored_amount c f : (c, amount f) ∈ aggregate_set s -> floatDest (driver <$> r !! c) = Ok (kept (amount f)).
Proof. apply stored_numeric; lia. Qed.
Lemma stored_percent c f : (c, percent f) ∈ aggregate_set s -> floatDest (driver <$> r !! c) = Ok (kept (percent f)).
Proof. apply stored_numeric; lia. Qed.
Lemma stored_json c x : (c, jsonb x) ∈ aggregate_set s -> to_raw (driver <$> r !! c) = Ok (ensureJSON x).
Proof. intros Hin. destruct (stored_column _ _ Hin) as (v & Hv & ->). by apply jsonb_read. Qed.
Lemma stored_count : to_int "int" (driver <$> r !! "exchange_count") = Ok (da_ExchangeCount s).
Proof.
  destruct (stored_column "exchange_count" (integer (da_ExchangeCount s))) as (v & Hv & ->); [do 2 right; by left|].
  unfold integer in Hv. case_match; [|done]. by injection Hv as <-.
Qed.
Lemma stored_time : r !! "snapshot_time" = Some (STime (da_SnapshotTime s)).
Proof.
  destruct (stored_column "snapshot_time" (timestamptz (da_SnapshotTime s))) as (v & Hv & ->); [right; by left|].
  unfold timestamptz in Hv. case_match; [|done]. by injection Hv as <-.
Qed.
Lemma stored_symbol : r !! "symbol_id" = Some (SInt (da_SymbolID s)).
Proof. destruct (stored_column "symbol_id" (bigint (da_SymbolID s))) as (v & [= <-] & ->); [by left|done]. Qed.

Local Ltac member := repeat first [by left|right].

Lemma stored_scan clock : Scan 20 (scan_aggregate clock) (project aggregate_columns r) = Ok (served clock s).
Proof.
  unfold Scan, aggregate_columns, scan_aggregate. cbn [project map fst snd col eval_expr]. rewrite stored_time.
  erewrite (column_bind to_time); [|reflexivity].
  repeat (erewrite column_bind; [|first [apply stored_count|eapply stored_amount; solve [member]|eapply stored_percent; solve [member]|eapply stored_json; solve [member]]]).
  unfold mret, scanner_ret, served, kept_json. cbn [length Nat.eqb negb].
  by rewrite !ensureJSON_twice, ensureJSONArray_ensured.
Qed.
End stored_row.

(** ** The job *)

Definition aggregated (db : Database) : list (gmap string sval) := db_rows db "derivative_aggregated_snapshots".

(** The newest row of the symbol after the upsert is the stored one. *)
Lemma LatestAggregate_stored `{HeapOrder} db clock s set rows : db_fault db "derivative_aggregated_snapshots" = no_fault ->
  assignments (aggregate_set s) = Ok set -> aggregated db = upsert_row aggregate_key set rows -> Forall (row_ok derivative_aggregated_snapshots) rows ->
  (forall x, x ∈ rows -> is_symbol (da_SymbolID s) x = true -> time_of x "snapshot_time" <= da_SnapshotTime s) ->
  LatestAggregate db clock (da_SymbolID s) = Ok (Some (served clock s)).
Proof.
  intros Hf Hset Hrows Hty Hnew. pose proof (aggregate_keyed s set Hset) as Hk.
  assert (NoDup (map fst set)) as Hnd by (rewrite (assignments_keys _ _ Hset); apply aggregate_nodup).
  set (l := aggregate_rows db (da_SymbolID s)).
  assert (forall r, r ∈ l <-> r ∈ aggregated db /\ r !! "symbol_id" = Some (SInt (da_SymbolID s))) as Hl.
  { intros r. unfold l, aggregate_rows. rewrite elem_of_stable_sort, list_elem_of_filter, heap_perm. fold (aggregated db).
    assert (compares CEq (r !! "symbol_id") (Some (AInt (da_SymbolID s))) = true <-> r !! "symbol_id" = Some (SInt (da_SymbolID s))) as ->; [|tauto].
    destruct (r !! "symbol_id") as [[]|]; cbn [compares]; try done. rewrite Z.eqb_eq. split; [by intros ->|by intros [= ->]]. }
  destruct (upsert_row_there aggregate_key set Hnd rows) as (r & Hr & Hh). rewrite <- Hrows in Hr.
  assert (r ∈ l) as Hrl by (apply Hl; split; [done|by eapply stored_symbol]).
  assert (sorted_by (order_leb [desc "snapshot_time"]) l) as Hs by (apply stable_sort_sorted; [apply order_leb_total|apply order_leb_trans]).
  destruct l as [|r0 rest] eqn:El; [by apply not_elem_of_nil in Hrl|].
  assert (holds set r0) as Hh0.
  { destruct (proj1 (Hl r0) ltac:(by left)) as [Hin Hsym]. rewrite Hrows in Hin.
    apply (upsert_row_holds aggregate_key set Hnd rows); [done|]. destruct (conflicts aggregate_key (new_row set) r0) eqn:Ec; [done|].
    rewrite (upsert_row_other aggregate_key set Hnd Hk) in Hin by done. rewrite Forall_forall in Hty. pose proof (Hty r0 Hin "snapshot_time" TTime true eq_refl) as Ht0.
    assert (time_of r0 "snapshot_time" <= da_SnapshotTime s) as Hle by (apply Hnew; [done|unfold is_symbol; rewrite Hsym; apply Z.eqb_refl]).
    unfold time_of in Hle. destruct (r0 !! "snapshot_time") as [[]|] eqn:Et; try done.
    assert (da_SnapshotTime s <= t) as Hge.
    { inversion Hs as [|? ? _ Hall]; subst. apply elem_of_cons in Hrl as [<-|Hrl].
      - rewrite (stored_time s set r Hset Hh) in Et. injection Et as ->. lia.
      - rewrite Forall_forall in Hall. specialize (Hall r Hrl). cbn [order_leb] in Hall. unfold key_leb in Hall. cbn [desc ok_column ok_desc] in Hall.
        rewrite Et, (stored_time s set r Hset Hh) in Hall. cbn [sval_leb] in Hall. apply andb_true_iff in Hall as [Hall _]. by apply Z.leb_le in Hall. }
    assert (t = da_SnapshotTime s) as -> by lia. rewrite <- Ec. unfold conflicts, new_row. cbn [forallb aggregate_key].
    rewrite Hsym, Et, (stored_symbol s set _ Hset (foldl_assign_holds set ∅ Hnd)), (stored_time s set _ Hset (foldl_assign_holds set ∅ Hnd)).
    cbn [key_eqb]. by rewrite !Z.eqb_refl. }
  unfold LatestAggregate. fold l. unfold query_row. rewrite Hf. cbn [no_fault query_error iter_error]. fold l in El. rewrite El. cbn [take head].
  by rewrite (stored_scan s set r0 Hset Hh0).
Qed.

(** C8: a stored aggregate is what the API serves.  Whatever aggregate is upserted (its numbers in or
    out of range, its texts, counts and JSON of any kind), when the upsert reports success - which is
    when every value fits its column and the symbol is known - and no stored aggregate of the symbol
    is later, the latest aggregate the API answers is that one, each number as its column keeps it;
    the rows of other symbols and other times are as they were; and upserting it again changes
    nothing.  An upsert that fails before its row is written changes nothing either. *)
Theorem aggregate_served `{HeapOrder} fault db s db' err clock :
  Upsert fault db s = (db', err) ->
  typed_db db -> db_fault db "derivative_aggregated_snapshots" = no_fault ->
  (forall x, x ∈ aggregated db -> is_symbol (da_SymbolID s) x = true -> time_of x "snapshot_time" <= da_SnapshotTime s) ->
  (err = None <-> fault = None /\ (exists set, assignments (aggregate_set s) = Ok set) /\ has_symbol db (da_SymbolID s) = true) /\
  (err = None ->
     LatestAggregate db' clock (da_SymbolID s) = Ok (Some (served clock s)) /\
     (forall x, is_symbol (da_SymbolID s) x = false \/ (exists t, x !! "snapshot_time" = Some (STime t) /\ t <> da_SnapshotTime s) ->
        x ∈ aggregated db' <-> x ∈ aggregated db) /\
     (forall n, db_rows (fst (Upsert None db' s)) n = db_rows db' n)) /\
  (err <> None -> fault = None \/ (exists e, fault = Some (false, e)) -> db' = db).
Proof.
  intros E Hty Hf Hnew. unfold Upsert, exec_upsert in E. split; [|split].
  { destruct fault as [[[] e]|], (assignments (aggregate_set s)) as [set|], (has_symbol db (da_SymbolID s)); simplify_eq/=; naive_solver. }
  - intros ->. destruct fault as [[[] e]|]; cbn [fmap option_fmap option_map] in E.
    { by destruct (assignments (aggregate_set s)); [destruct (has_symbol db (da_SymbolID s))|]. }
    { done. }
    destruct (assignments (aggregate_set s)) as [set|] eqn:Hset; [|done]. destruct (has_symbol db (da_SymbolID s)) eqn:Hs; [|done].
    injection E as <-. set (rows := db_rows db "derivative_aggregated_snapshots").
    pose proof (aggregate_keyed s set Hset) as Hk.
    assert (NoDup (map fst set)) as Hnd by (rewrite (assignments_keys _ _ Hset); apply aggregate_nodup).
    split; [|split].
    + by apply (LatestAggregate_stored _ clock s set rows); [|..|apply (Hty "derivative_aggregated_snapshots")|].
    + intros x Hx. unfold aggregated. cbn [with_rows db_rows String.eqb Ascii.eqb Bool.eqb].
      apply (upsert_row_other aggregate_key set Hnd Hk). unfold conflicts, new_row. cbn [forallb aggregate_key].
      rewrite (stored_symbol s set _ Hset (foldl_assign_holds set ∅ Hnd)), (stored_time s set _ Hset (foldl_assign_holds set ∅ Hnd)).
      destruct Hx as [Hx|(t & Hx & Hne)].
      * unfold is_symbol in Hx. destruct (x !! "symbol_id") as [[]|]; cbn [key_eqb]; try done. by rewrite Z.eqb_sym, Hx.
      * rewrite Hx. cbn [key_eqb]. rewrite (proj2 (Z.eqb_neq _ _)) by congruence. apply andb_false_r.
    + intros n. unfold Upsert, exec_upsert. rewrite Hset.
      change (has_symbol (with_rows db "derivative_aggregated_snapshots" _) (da_SymbolID s)) with (has_symbol db (da_SymbolID s)).
      rewrite Hs. cbn [fst with_rows db_rows String.eqb Ascii.eqb Bool.eqb].
      rewrite (settled_upsert aggregate_key set _ (upsert_settled aggregate_key set Hnd Hk rows)). by destruct (String.eqb_spec n "derivative_aggregated_snapshots") as [->|].
  - intros He [->|[e ->]]; [|by injection E as <- _].
    destruct (assignments (aggregate_set s)) as [set|]; [|by injection E as <- _].
    destruct (has_symbol db (da_SymbolID s)); [by injection E as <- <-|by injection E as <- _].
Qed.

(** C9: PostgreSQL rejects the aggregate job.  With the type PostgreSQL gives the parameter of
    [$2 - interval '5 minutes'] (an operand of unknown type has the type of the other), every aggregate
    job fails and writes nothing, whatever the database holds. *)
Theorem postgres_rejects_aggregates `{HeapOrder} db log options fault faults now report_at health svc inst job :
  let done_ := AggregateExecute (aggregate_store options now fault faults) health svc inst (db, log) now report_at job in
  fst (fst done_) = db /\ is_Some (snd done_).
Proof.
  assert (forall opts i t, exists e, BuildLatest db opts now i t = Err e) as Hb.
  { intros opts i t. unfold BuildLatest. destruct (latest_market _ _ _ _ _ _ _); [|by eexists]. unfold enrichAdvanced.
    destruct (latest_row _ _ "taker_flow_snapshots" _ _ _ _ _); [|by eexists]. destruct (latest_row _ _ "cvd_snapshots" _ _ _ _ _); [|by eexists].
    by eexists. }
  unfold AggregateExecute. destruct (job_SymbolID job <=? 0); [split; [done|by eexists]|].
  cbn [aggregate_store as_BuildLatest fst]. edestruct Hb as [e ->]. unfold agg_degraded, agg_report. destruct health; cbn [negb fst snd]; split; (done || by eexists).
Qed.

(** ** Resuming the analytics *)

(** Databases with the same rows and faults. *)
#[export] Instance database_equiv : Equiv Database := fun a b => (forall n, db_rows a n = db_rows b n) /\ (forall n, db_fault a n = db_fault b n).
#[export] Instance database_equivalence : Equivalence (≡@{Database}).
Proof.
  split; [done|by intros a b [H1 H2]; split; intros n; [rewrite H1|rewrite H2]|].
  intros a b c [H1 H2] [H3 H4]. split; intros n; [by rewrite H1|by rewrite H2].
Qed.

(** One upsert as data. *)
Record op := MkOp { op_table : string; op_key : list string; op_symbol : Z; op_set : list (string * result error (option sval)); op_message : string }.
Definition exec (fault : option (bool * error)) (db : Database) (o : op) : Database * option error :=
  exec_upsert fault db (op_table o) (op_key o) (op_symbol o) (op_set o) (op_message o).
Definition run (faults : nat -> option (bool * error)) (n : nat) (ops : list op) (db : Database) : Database * option error :=
  upsert_each exec faults n ops db.
(** No statement fails. *)
Definition calm : nat -> option (bool * error) := fun _ => None.

Definition same (a b : Database * option error) : Prop := fst a ≡ fst b /\ snd a = snd b.

Lemma has_symbol_proper a b i : a ≡ b -> has_symbol a i = has_symbol b i.
Proof. intros [H1 _]. unfold has_symbol. by rewrite H1. Qed.
Lemma with_rows_proper a b n rows : a ≡ b -> with_rows a n rows ≡ with_rows b n rows.
Proof. intros [H1 H2]. split; [|exact H2]. intros m. cbn [with_rows db_rows]. by rewrite H1. Qed.
Lemma exec_proper fault a b o : a ≡ b -> same (exec fault a o) (exec fault b o).
Proof.
  intros Hab. pose proof Hab as [H1 H2]. unfold exec, exec_upsert. rewrite H1, (has_symbol_proper a b) by done.
  destruct fault as [[[] e]|], (assignments (op_set o)); try by split.
  all: destruct (has_symbol b (op_symbol o)); [|by split]; (split; [by apply with_rows_proper|done]).
Qed.
Lemma run_proper faults n ops a b : a ≡ b -> same (run faults n ops a) (run faults n ops b).
Proof.
  revert n a b. induction ops as [|o ops IH]; intros n a b Hab; [by split|]. unfold run in *. cbn [upsert_each].
  destruct (exec_proper (faults n) a b o Hab) as [H1 H2]. destruct (exec (faults n) a o) as [a1 e1], (exec (faults n) b o) as [b1 e2]. cbn [fst snd] in *. subst e2.
  destruct e1; [by split|by apply IH].
Qed.
Lemma run_app faults n ops ops' db :
  run faults n (ops ++ ops') db = match run faults n ops db with (db1, None) => run faults (n + length ops) ops' db1 | failed => failed end.
Proof.
  revert n db. induction ops as [|o ops IH]; intros n db; [cbn; by rewrite Nat.add_0_r|]. unfold run in *. cbn [app upsert_each length].
  destruct (exec (faults n) db o) as [db1 [e|]]; [done|]. rewrite IH. by replace (S n + length ops)%nat with (n + S (length ops))%nat by lia.
Qed.
(** Without failures the numbers of the statements do not matter. *)
Lemma run_calm n m ops db : run calm n ops db = run calm m ops db.
Proof.
  revert n m db. induction ops as [|o ops IH]; intros n m db; [done|]. unfold run in *. cbn [upsert_each]. unfold calm at 1 3.
  destruct (exec None db o) as [db1 [e|]]; [done|apply IH].
Qed.

(** Upserts as the repository makes them: distinct columns, the key among them, not into the symbols. *)
Record op_ok (o : op) : Prop := {
  ok_nodup : NoDup (map fst (op_set o));
  ok_keyed : forall set, assignments (op_set o) = Ok set -> forall c, c ∈ op_key o -> exists v, (c, Some v) ∈ set /\ key_eqb (Some v) (Some v) = true;
  ok_table : op_table o <> "symbols" }.
(** Upserts into one table have the same key columns and different keys. *)
Definition apart (o o' : op) : Prop := op_table o = op_table o' -> op_key o = op_key o' /\
  forall set set', assignments (op_set o) = Ok set -> assignments (op_set o') = Ok set' -> conflicts (op_key o) (new_row set) (new_row set') = false.

Definition op_settled (db : Database) (o : op) : Prop :=
  has_symbol db (op_symbol o) = true /\ exists set, assignments (op_set o) = Ok set /\ settled (op_key o) set (db_rows db (op_table o)).

Lemma settled_exec db o : op_settled db o -> same (exec None db o) (db, None).
Proof.
  intros (Hs & set & Hset & Hst). unfold exec, exec_upsert. rewrite Hset, Hs. split; [|done]. split; [|done].
  intros n. cbn [fst with_rows db_rows]. rewrite (settled_upsert _ _ _ Hst). by destruct (String.eqb_spec n (op_table o)) as [->|].
Qed.
Lemma settled_run db ops : Forall (op_settled db) ops -> same (run calm 0 ops db) (db, None).
Proof.
  induction 1 as [|o ops Ho _ IH]; [by split|]. unfold run in *. cbn [upsert_each]. unfold calm at 1.
  destruct (settled_exec db o Ho) as [H1 H2]. destruct (exec None db o) as [d e]. cbn [fst snd] in *. subst e.
  destruct (run_proper calm 1 ops d db H1) as [H3 H4]. fold (run calm 1 ops d). rewrite (run_calm 1 0 ops db) in H3, H4. fold (run calm 0 ops db) in IH.
  destruct IH as [H5 H6]. split; [by rewrite H3|by rewrite H4].
Qed.

(** A statement that did its work without or despite an error. *)
Definition did (db : Database) (o : op) (db' : Database) : Prop := exec None db o = (db', None).

Lemma did_settles db o db' : op_ok o -> did db o db' -> op_settled db' o.
Proof.
  intros [Hn Hk Ht] He. unfold did, exec, exec_upsert in He.
  destruct (assignments (op_set o)) as [set|] eqn:Hset; [|done]. destruct (has_symbol db (op_symbol o)) eqn:Hs; [|done]. injection He as <-. split.
  - unfold has_symbol in *. cbn [with_rows db_rows]. by rewrite (proj2 (String.eqb_neq _ _)) by congruence.
  - exists set. split; [done|]. cbn [with_rows db_rows]. rewrite String.eqb_refl. apply upsert_settled; [by rewrite (assignments_keys _ _ Hset)|by apply Hk].
Qed.
Lemma did_keeps db o o' db' : op_ok o -> op_ok o' -> apart o o' -> op_settled db o -> did db o' db' -> op_settled db' o.
Proof.
  intros Ho Ho' Hap (Hs & set & Hset & Hst) He. unfold did, exec, exec_upsert in He.
  destruct (assignments (op_set o')) as [set'|] eqn:Hset'; [|done]. destruct (has_symbol db (op_symbol o')); [|done]. injection He as <-. split.
  - unfold has_symbol in *. cbn [with_rows db_rows]. by rewrite (proj2 (String.eqb_neq _ _)) by (intros E; by apply (ok_table _ Ho')).
  - exists set. split; [done|]. cbn [with_rows db_rows]. destruct (String.eqb_spec (op_table o) (op_table o')) as [E|]; [|done].
    destruct (Hap E) as [Hkey Hne]. rewrite E in Hst. rewrite <- Hkey. pose proof (ok_keyed _ Ho' _ Hset') as Hk'. rewrite <- Hkey in Hk'.
    apply settled_other; [rewrite (assignments_keys _ _ Hset); apply (ok_nodup _ Ho)|rewrite (assignments_keys _ _ Hset'); apply (ok_nodup _ Ho')|
      by apply (ok_keyed _ Ho)|done|by apply Hne|done].
Qed.

(** After a sequence without errors all its rows are settled. *)
Lemma run_settles ops db db' : Forall op_ok ops -> ForallOrdPairs apart ops -> run calm 0 ops db = (db', None) -> Forall (op_settled db') ops.
Proof.
  revert db'. induction ops as [|o ops IH] using rev_ind; intros db' Hok Hap Hr; [constructor|].
  apply Forall_app in Hok as [Hok [Ho _]%Forall_cons]. rewrite run_app in Hr.
  destruct (run calm 0 ops db) as [db1 [e|]] eqn:E1; [done|]. unfold run in Hr. cbn [upsert_each] in Hr. unfold calm at 1 in Hr.
  destruct (exec None db1 o) as [db2 [e|]] eqn:E2; [done|]. injection Hr as <-.
  assert (ForallOrdPairs apart ops /\ Forall (fun x => apart x o) ops) as [Hap1 Hap2].
  { clear -Hap. induction ops as [|x ops IH]; [by split; constructor|]. cbn [app] in Hap. inversion Hap as [|? ? Hx Hrest]; subst.
    apply Forall_app in Hx as [Hx [Hxo _]%Forall_cons]. destruct (IH Hrest). split; by constructor. }
  specialize (IH db1 Hok Hap1 eq_refl). apply Forall_app. split; [|constructor; [by eapply did_settles|constructor]].
  rewrite Forall_forall in *. intros x Hx. eapply did_keeps; [by apply Hok|exact Ho|by apply Hap2|by apply IH|exact E2].
Qed.

(** The part of a sequence whose rows were written before it stopped. *)
Lemma run_prefix faults n ops db db' e :
  run faults n ops db = (db', e) -> exists ops1 ops2, ops = (ops1 ++ ops2)%list /\ run calm 0 ops1 db = (db', None).
Proof.
  revert n db. induction ops as [|o ops IH]; intros n db Hr; [by injection Hr as <- _; exists [], []|]. unfold run in *. cbn [upsert_each] in Hr.
  destruct (exec (faults n) db o) as [db1 [e1|]] eqn:E.
  - injection Hr as <- _. unfold exec, exec_upsert in E.
    assert (db1 = db \/ did db o db1) as [->|Hd].
    { unfold did, exec, exec_upsert. destruct (faults n) as [[[] e2]|], (assignments (op_set o)); try (left; congruence).
      all: destruct (has_symbol db (op_symbol o)); simplify_eq/=; by auto. }
    + by exists [], (o :: ops).
    + exists [o], ops. split; [done|]. cbn [upsert_each]. unfold calm. unfold did in Hd. by rewrite Hd.
  - destruct (IH _ _ Hr) as (ops1 & ops2 & -> & Hp). exists (o :: ops1), ops2. split; [done|]. cbn [upsert_each]. unfold calm at 1.
    assert (exec None db o = (db1, None)) as ->.
    { unfold exec, exec_upsert in *. destruct (faults n) as [[[] e2]|], (assignments (op_set o)); simplify_eq/=; try done.
      all: destruct (has_symbol db (op_symbol o)); by simplify_eq/=. }
    rewrite <- Hp. exact (run_calm 1 0 ops1 db1).
Qed.

Lemma run_resumed faults ops db : Forall op_ok ops -> ForallOrdPairs apart ops ->
  same (run calm 0 ops (fst (run faults 0 ops db))) (run calm 0 ops db).
Proof.
  intros Hok Hap. destruct (run faults 0 ops db) as [db1 e] eqn:E. cbn [fst]. destruct (run_prefix faults 0 ops db db1 e E) as (ops1 & ops2 & -> & Hp).
  apply Forall_app in Hok as [Hok1 _]. assert (ForallOrdPairs apart ops1) as Hap1.
  { clear -Hap. induction ops1 as [|x ops1 IH]; [constructor|]. cbn [app] in Hap. inversion Hap as [|? ? Hx Hrest]; subst.
    apply Forall_app in Hx as [Hx _]. constructor; [done|by apply IH]. }
  destruct (settled_run db1 ops1 (run_settles ops1 db db1 Hok1 Hap1 Hp)) as [H3 H4].
  rewrite !run_app, Hp. destruct (run calm 0 ops1 db1) as [d1 e1]. cbn [fst snd] in *. subst e1. by apply run_proper.
Qed.

(** *** The upserts of the analytics *)

Definition structure_op (i : MarketStructureSnapshot) : op :=
  MkOp "market_structure_snapshots" window_key (ms_SymbolID i) (structure_set i) "upsert market structure snapshot".
Definition volatility_op (i : VolatilitySnapshot) : op :=
  MkOp "volatility_snapshots" window_key (vo_SymbolID i) (volatility_set i) "upsert volatility snapshot".
Definition divergence_op (i : ExchangeDivergenceSnapshot) : op :=
  MkOp "exchange_divergence_snapshots" divergence_key (dv_SymbolID i) (divergence_set i) "upsert exchange divergence snapshot".
Definition analytics_ops (set : AnalyticsSnapshotSet) : list op :=
  (map structure_op (an_MarketStructures set) ++ map volatility_op (an_Volatility set) ++
   match an_Divergence set with Some d => [divergence_op d] | None => [] end)%list.

Lemma upsert_each_map {A} (put : option (bool * error) -> Database -> A -> Database * option error) (f : A -> op) faults n l db :
  (forall fault db x, put fault db x = exec fault db (f x)) -> upsert_each put faults n l db = run faults n (map f l) db.
Proof.
  intros Hp. unfold run. revert n db. induction l as [|x l IH]; intros n db; [done|]. cbn [map upsert_each]. rewrite Hp.
  destruct (exec (faults n) db (f x)) as [d [e|]]; [done|apply IH].
Qed.

Lemma UpsertAnalytics_run faults db set : UpsertAnalytics faults db set = run faults 0 (analytics_ops set) db.
Proof.
  unfold UpsertAnalytics, analytics_ops. rewrite run_app, (upsert_each_map upsertMarketStructure structure_op) by done.
  destruct (run faults 0 (map structure_op (an_MarketStructures set)) db) as [db1 [e|]]; [done|].
  rewrite run_app, (upsert_each_map upsertVolatility volatility_op) by done. rewrite !length_map. cbn [Nat.add].
  destruct (run faults _ (map volatility_op (an_Volatility set)) db1) as [db2 [e|]]; [done|].
  destruct (an_Divergence set) as [d|]; [|done]. unfold run. cbn [upsert_each]. unfold upsertExchangeDivergence.
  change (exec (faults ?n) db2 (divergence_op d)) with (exec_upsert (faults n) db2 "exchange_divergence_snapshots" divergence_key (dv_SymbolID d) (divergence_set d) "upsert exchange divergence snapshot").
  by destruct (exec_upsert _ _ _ _ _ _ _) as [db3 [e|]].
Qed.

(** The key columns that are assigned. *)
Lemma keyed_value l set c x : assignments l = Ok set -> (c, x) ∈ l ->
  (forall v, x = Ok v -> exists y, v = Some y /\ key_eqb (Some y) (Some y) = true) -> exists v, (c, Some v) ∈ set /\ key_eqb (Some v) (Some v) = true.
Proof. intros Hs Hin Hx. destruct (assignments_get _ _ _ _ Hs Hin) as (v & Hv & Hin'). destruct (Hx v Hv) as (y & -> & Hy). by exists y. Qed.
Lemma bigint_keyed z v : bigint z = Ok v -> exists y, v = Some y /\ key_eqb (Some y) (Some y) = true.
Proof. intros [= <-]. exists (SInt z). split; [done|apply Z.eqb_refl]. Qed.
Lemma text_keyed s v : text s = Ok v -> exists y, v = Some y /\ key_eqb (Some y) (Some y) = true.
Proof. intros [= <-]. exists (SText s). split; [done|apply String.eqb_refl]. Qed.
Lemma lower_text_keyed s v : lower_text s = Ok v -> exists y, v = Some y /\ key_eqb (Some y) (Some y) = true.
Proof. unfold lower_text. case_match; [apply text_keyed|done]. Qed.
Lemma time_keyed t v : timestamptz t = Ok v -> exists y, v = Some y /\ key_eqb (Some y) (Some y) = true.
Proof. unfold timestamptz. case_match; [|done]. intros [= <-]. exists (STime t). split; [done|apply Z.eqb_refl]. Qed.

Local Ltac member := repeat first [by left|right].
Local Ltac solve_op_ok :=
  split; [refine (bool_decide_unpack _ _); vm_compute; exact I| |done];
  let set := fresh "set" in let Hs := fresh "Hs" in let c := fresh "c" in let Hc := fresh "Hc" in intros set Hs c Hc; cbn [op_key op_set] in *;
  repeat (apply elem_of_cons in Hc as [->|Hc]; [
    first [eapply keyed_value; [exact Hs|solve [member]|apply bigint_keyed]|eapply keyed_value; [exact Hs|solve [member]|apply text_keyed]|
           eapply keyed_value; [exact Hs|solve [member]|apply lower_text_keyed]|eapply keyed_value; [exact Hs|solve [member]|apply time_keyed]]|]);
  by apply not_elem_of_nil in Hc.

Lemma structure_op_ok i : op_ok (structure_op i).
Proof. solve_op_ok. Qed.
Lemma volatility_op_ok i : op_ok (volatility_op i).
Proof. solve_op_ok. Qed.
Lemma divergence_op_ok i : op_ok (divergence_op i).
Proof. solve_op_ok. Qed.

(** Rows of different periods have different keys. *)
Lemma period_apart o o' p p' : op_ok o -> op_ok o' -> op_key o = op_key o' -> "period" ∈ op_key o -> ("period", text p) ∈ op_set o -> ("period", text p') ∈ op_set o' -> p <> p' -> apart o o'.
Proof.
  intros Ho Ho' Hkey Hin Hp Hp' Hne _. split; [done|]. intros set set' Hs Hs'.
  assert (forall l st q, assignments l = Ok st -> NoDup (map fst l) -> ("period", text q) ∈ l -> new_row st !! "period" = Some (SText q)) as Hget.
  { intros l st q Hl Hnd Hq. destruct (assignments_get _ _ _ _ Hl Hq) as (v & [= <-] & Hv). apply foldl_assign_holds; [by rewrite (assignments_keys _ _ Hl)|done]. }
  apply not_true_iff_false. unfold conflicts. rewrite forallb_forall. intros Hall. specialize (Hall "period" (proj1 (list_elem_of_In _ _) Hin)).
  rewrite (Hget _ _ p Hs (ok_nodup _ Ho) Hp), (Hget _ _ p' Hs' (ok_nodup _ Ho') Hp') in Hall. cbn [key_eqb] in Hall. by apply String.eqb_eq in Hall.
Qed.

Lemma pairs_app {A} (R : A -> A -> Prop) l k : ForallOrdPairs R l -> ForallOrdPairs R k -> (forall x y, x ∈ l -> y ∈ k -> R x y) -> ForallOrdPairs R (l ++ k).
Proof.
  induction 1 as [|x l Hx Hl IH]; intros Hk Hxy; [done|]. cbn [app]. constructor.
  - apply Forall_app. split; [done|]. apply Forall_forall. intros y Hy. apply Hxy; [by left|done].
  - apply IH; [done|]. intros a b Ha Hb. apply Hxy; [by right|done].
Qed.
Lemma pairs_map {A B C} (f : A -> B) (g : A -> C) (R : B -> B -> Prop) l : (forall x y, g x <> g y -> R (f x) (f y)) -> NoDup (map g l) -> ForallOrdPairs R (map f l).
Proof.
  intros Hf. induction l as [|x l IH]; intros Hn; [constructor|]. cbn [map] in *. apply NoDup_cons in Hn as [Hnot Hn]. constructor; [|by apply IH].
  apply Forall_map, Forall_forall. intros y Hy. apply Hf. intros E. apply Hnot. rewrite E. apply list_elem_of_fmap. by exists y.
Qed.

Lemma analytics_ops_ok set : Forall op_ok (analytics_ops set).
Proof.
  unfold analytics_ops. rewrite !Forall_app. split_and!; [apply Forall_map, Forall_true, structure_op_ok|apply Forall_map, Forall_true, volatility_op_ok|].
  destruct (an_Divergence set); [|constructor]. constructor; [apply divergence_op_ok|constructor].
Qed.
Lemma analytics_ops_apart set : NoDup (map ms_Period (an_MarketStructures set)) -> NoDup (map vo_Period (an_Volatility set)) -> ForallOrdPairs apart (analytics_ops set).
Proof.
  intros H1 H2. unfold analytics_ops. apply pairs_app; [|apply pairs_app|].
  - apply (pairs_map _ ms_Period); [|done]. intros x y Hne. apply (period_apart _ _ (ms_Period x) (ms_Period y)); try done; try apply structure_op_ok; cbn; member.
  - apply (pairs_map _ vo_Period); [|done]. intros x y Hne. apply (period_apart _ _ (vo_Period x) (vo_Period y)); try done; try apply volatility_op_ok; cbn; member.
  - destruct (an_Divergence set); repeat constructor.
  - intros x y (i & -> & _)%list_elem_of_fmap Hy. destruct (an_Divergence set); [|by apply not_elem_of_nil in Hy]. by apply list_elem_of_singleton in Hy as ->.
  - intros x y (i & -> & _)%list_elem_of_fmap [Hy|Hy]%elem_of_app; [by apply list_elem_of_fmap in Hy as (j & -> & _)|].
    destruct (an_Divergence set); [|by apply not_elem_of_nil in Hy]. by apply list_elem_of_singleton in Hy as ->.
Qed.

(** The analytics of one build have a row per window. *)
Lemma built_periods `{HeapOrder} db options i t set :
  BuildAnalytics db options i t = Ok set ->
  map ms_Period (an_MarketStructures set) = map w_Label (Windows options) /\ map vo_Period (an_Volatility set) = map w_Label (Windows options).
Proof.
  unfold BuildAnalytics, BuildMarketStructureSnapshots, BuildVolatilitySnapshots. intros E.
  destruct (loadAggregateCandles db i _ t) as [c1|]; [|done]. destruct (loadAggregateCandles db i (Add t (- (7 * 24 * Hour))) t) as [c2|]; [|done].
  destruct (BuildExchangeDivergenceSnapshot _ _ _ _); [|done]. injection E as <-. cbn [an_MarketStructures an_Volatility]. rewrite !map_map.
  split; apply map_ext; intros w.
  - unfold computeMarketStructure. by repeat case_match.
  - unfold computeVolatility. by repeat case_match.
Qed.

(** C10: an interrupted write of the analytics can be resumed.  Take the analytics built from any
    database over windows with distinct labels (the default ones are distinct).  Whatever befalls each
    statement of a first attempt - it fails before its row is written, or the row is written and the
    answer lost; any statement, between two rows of one table as well - or whatever value does not
    fit, a repetition in which no statement fails by itself ends with the same error or success and the
    same rows as if the first attempt had not been made; in particular repeating a successful write
    changes nothing. *)
Theorem analytics_resumed `{HeapOrder} source options i t set faults db :
  BuildAnalytics source options i t = Ok set -> NoDup (map w_Label (Windows options)) ->
  let resumed := UpsertAnalytics calm (fst (UpsertAnalytics faults db set)) set in
  let undisturbed := UpsertAnalytics calm db set in
  snd resumed = snd undisturbed /\ forall table, db_rows (fst resumed) table = db_rows (fst undisturbed) table.
Proof.
  intros [E1 E2]%built_periods Hnd. rewrite !UpsertAnalytics_run.
  destruct (run_resumed faults (analytics_ops set) db (analytics_ops_ok set)
    (analytics_ops_apart set ltac:(by rewrite E1) ltac:(by rewrite E2))) as [[Hr _] He]. done.
Qed.

(** ** A concrete job *)

(** The aggregate of the market stage over the concrete database. *)
Definition aggregate_built : DerivativeAggregateSnapshot :=
  match latest_market (H:=in_place) aggregate_db aggregate_options latest_columns (MkMessages "" "" "") scan_latest 7 noon with
  | Ok rows => let st := collect aggregate_options 7 noon rows in with_windows (of_totals 7 noon st) [] (Marshal (t_quality st))
  | Err _ => of_totals 0 0 (no_totals (newAggregateQualityMetadata 0 0 0))
  end.
Definition aggregate_stored : Database := fst (Upsert None aggregate_db aggregate_built).

Lemma aggregate_served_witness :
  LatestAggregate (H:=in_place) aggregate_stored noon 7 = Ok (Some (served noon aggregate_built)) /\ da_ExchangeCount aggregate_built = 2.
Proof.
  split; [|vm_compute; reflexivity].
  assert (Upsert None aggregate_db aggregate_built = (aggregate_stored, None)) as E.
  { unfold aggregate_stored. rewrite (surjective_pairing (Upsert None aggregate_db aggregate_built)) at 1. f_equal; vm_compute; reflexivity. }
  apply (aggregate_served (H:=in_place) None aggregate_db aggregate_built aggregate_stored None noon E);
    [apply (usable_typed _ aggregate_db_usable)|reflexivity| |reflexivity].
  intros x Hx. exfalso. revert Hx. apply not_elem_of_nil.
Defined.

Definition analytics_built : AnalyticsSnapshotSet :=
  match BuildAnalytics (H:=in_place) aggregate_db aggregate_options 7 noon with Ok a => a | Err _ => MkAnalyticsSet [] [] None end.
(** The connection is lost at the third statement, between two rows of the market structures; its row
    was written. *)
Definition broken : nat -> option (bool * error) := fun n => if (n =? 2)%nat then Some (true, ErrorString "pq: connection lost") else None.

Lemma analytics_resumed_witness :
  is_Some (snd (UpsertAnalytics broken aggregate_db analytics_built)) /\
  length (db_rows (fst (UpsertAnalytics broken aggregate_db analytics_built)) "market_structure_snapshots") = 3%nat /\
  let resumed := UpsertAnalytics calm (fst (UpsertAnalytics broken aggregate_db analytics_built)) analytics_built in
  snd resumed = None /\ length (db_rows (fst resumed) "market_structure_snapshots") = 5%nat.
Proof.
  split; [eexists; vm_compute; reflexivity|]. split; [vm_compute; reflexivity|].
  destruct (analytics_resumed (H:=in_place) aggregate_db aggregate_options 7 noon analytics_built broken aggregate_db) as [He Hr].
  { vm_compute. reflexivity. }
  { refine (bool_decide_unpack _ _). vm_compute. exact I. }
  cbv zeta. rewrite He, Hr. split; vm_compute; reflexivity.
Defined.

(** Rows of two periods of one exchange both enter the delta of a window. *)
Definition flow_of (period : string) (delta : Z) : gmap string sval :=
  list_to_map [("symbol_id", SInt 7); ("exchange", SText "binance"); ("period", SText period); ("snapshot_time", STime noon); ("buy_sell_delta", price delta)].
Example periods_add_up :
  windowTakerDelta (H:=in_place) (tables_db [("taker_flow_snapshots", [flow_of "5m" 10; flow_of "15m" 30])]) 7 (noon - Hour) noon = Ok (Some (f64_of_Z 40)).
Proof. vm_compute. reflexivity. Qed.
(** Without flags the stored JSON is null, and the API serves it as it is. *)
Example no_flags_is_null : da_AnomalyFlags aggregate_built = RawJson JNull /\ ag_AnomalyFlags (served noon aggregate_built) = RawJson JNull.
Proof. split; vm_compute; reflexivity. Qed.
