(* ===== verification/Config.v ===== *)
(** * Configuration ([internal/config/config.go])

    The configuration record, [Load] from an environment (a function from variable names to their
    values, empty when unset), [Validate], the PostgreSQL address and the Redis address.  Proved:
    what a validated configuration guarantees and which defect each refusal reports; that the
    defaults are valid, so that the six PostgreSQL variables are the only ones an installation must
    set; that a reader of URLs finds in the PostgreSQL address exactly the configured credentials,
    host, database and mode. *)

From Stdlib Require Import Ascii.
From S2P Require Import Prelude GoString GoTime GoFloat GoFloatSign GoError GoStrconv GoUrl Normalizers.

(** ** Data *)

Record PostgresConfig := MkPostgres {
  pg_Host : string; pg_Port : string; pg_User : string; pg_Password : string; pg_Database : string; pg_SSLMode : string;
  pg_MaxOpenConns : Z; pg_MaxIdleConns : Z; pg_ConnMaxLifetime : Duration; pg_ConnMaxIdleTime : Duration }.

Record RedisConfig := MkRedis {
  rd_Host : string; rd_Port : string; rd_Password : string; rd_DB : Z; rd_MaxMemory : string; rd_EvictionPolicy : string }.

Record RealtimeConfig := MkRealtime {
  rt_LatestTTL : Duration; rt_StreamStaleAfter : Duration; rt_HeartbeatInterval : Duration;
  rt_ReconnectMin : Duration; rt_ReconnectMax : Duration; rt_SnapshotBucket : Duration }.

Record RateLimitConfig := MkRateLimit {
  rl_RequestsPerSecond : Z; rl_Burst : Z; rl_Timeout : Duration;
  rl_CircuitBreakerFailureLimit : Z; rl_CircuitBreakerCooldown : Duration }.

Record LiquidationConfig := MkLiquidation { lq_MinUSD : float64 }.
Record AnalyticsConfig := MkAnalytics { an_MaxSnapshotAge : Duration }.
Record RetentionConfig := MkRetention {
  rt_MaxRowsPerRun : Z; rt_TableTimeout : Duration; rt_DiskPressureCritical : bool }.

Record HardeningConfig := MkHardening {
  hd_MaxFutureSkew : Duration; hd_FundingMin : float64; hd_FundingMax : float64; hd_RestartJobTimeout : Duration;
  hd_RealtimeLagPause : Duration; hd_BackfillMaxJobs : Z; hd_BackoffBase : Duration; hd_BackoffMax : Duration;
  hd_BackoffJitterMax : Duration }.

Record Config := MkConfig {
  cf_AppEnv : string; cf_AppPort : string; cf_HTTPAddr : string; cf_Postgres : PostgresConfig; cf_Redis : RedisConfig;
  cf_Realtime : RealtimeConfig; cf_CollectionMode : string; cf_WorkerConcurrency : Z; cf_RateLimit : RateLimitConfig;
  cf_Liquidation : LiquidationConfig; cf_Analytics : AnalyticsConfig; cf_Retention : RetentionConfig;
  cf_Hardening : HardeningConfig; cf_SupportedExchanges : list string }.

(** ** Reading the environment *)

(** [os.Getenv]. *)
Abbreviation Environment := (string -> string) (only parsing).

Section environment.
Context (env : Environment).

Definition getenv (key fallback : string) : string :=
  let value := TrimSpace (env key) in
  if (value =? "")%string then fallback else value.

Definition getenvInt (key : string) (fallback : Z) : Z :=
  let value := TrimSpace (env key) in
  if (value =? "")%string then fallback else
  match ParseInt value with Some parsed => parsed | None => fallback end.

Definition getenvFloat (key : string) (fallback : float64) : float64 :=
  let value := TrimSpace (env key) in
  if (value =? "")%string then fallback else
  match ParseFloat value with (parsed, None) => parsed | (_, Some _) => fallback end.

Definition getenvDurationSeconds (key : string) (fallbackSeconds : Z) : Duration :=
  wrap64 (getenvInt key fallbackSeconds * Second).

Definition getenvBool (key : string) (fallback : bool) : bool :=
  let value := ToLower (TrimSpace (env key)) in
  if (value =? "")%string then fallback else
  if bool_decide (value ∈ ["1"; "true"; "yes"; "y"; "on"]) then true else
  if bool_decide (value ∈ ["0"; "false"; "no"; "n"; "off"]) then false else fallback.

Definition comma : ascii := byte_of_Z 44.

Definition parseCSV (value : string) : list string :=
  List.filter (fun item => negb (item =? "")%string) (map (fun part => ToLower (TrimSpace part)) (Split value comma)).

Definition Load : Config :=
  let appPort := getenv "APP_PORT" "8080" in
  MkConfig
    (getenv "APP_ENV" "local")
    appPort
    (getenv "HTTP_ADDR" (":" +:+ appPort))
    (MkPostgres (env "POSTGRES_HOST") (env "POSTGRES_PORT") (env "POSTGRES_USER") (env "POSTGRES_PASSWORD")
       (env "POSTGRES_DB") (env "POSTGRES_SSLMODE")
       (getenvInt "POSTGRES_MAX_OPEN_CONNS" 20)
       (getenvInt "POSTGRES_MAX_IDLE_CONNS" 10)
       (getenvDurationSeconds "POSTGRES_CONN_MAX_LIFETIME_SECONDS" 1800)
       (getenvDurationSeconds "POSTGRES_CONN_MAX_IDLE_SECONDS" 300))
    (MkRedis (getenv "REDIS_HOST" "redis") (getenv "REDIS_PORT" "6379") (env "REDIS_PASSWORD") (getenvInt "REDIS_DB" 0)
       (getenv "REDIS_MAX_MEMORY" "") (getenv "REDIS_EVICTION_POLICY" "allkeys-lru"))
    (MkRealtime
       (getenvDurationSeconds "REALTIME_LATEST_TTL_SECONDS" 600)
       (getenvDurationSeconds "REALTIME_STREAM_STALE_SECONDS" 30)
       (getenvDurationSeconds "REALTIME_HEARTBEAT_SECONDS" 15)
       (getenvDurationSeconds "REALTIME_RECONNECT_MIN_SECONDS" 1)
       (getenvDurationSeconds "REALTIME_RECONNECT_MAX_SECONDS" 60)
       (getenvDurationSeconds "REALTIME_SNAPSHOT_BUCKET_SECONDS" 60))
    (getenv "COLLECTION_MODE" "tiered")
    (getenvInt "WORKER_CONCURRENCY" 4)
    (MkRateLimit
       (getenvInt "RATE_LIMIT_REQUESTS_PER_SECOND" 5)
       (getenvInt "RATE_LIMIT_BURST" 10)
       (getenvDurationSeconds "RATE_LIMIT_TIMEOUT_SECONDS" 10)
       (getenvInt "CIRCUIT_BREAKER_FAILURE_LIMIT" 5)
       (getenvDurationSeconds "CIRCUIT_BREAKER_COOLDOWN_SECONDS" 30))
    (MkLiquidation (getenvFloat "LIQUIDATION_MIN_USD" (f64_of_Z 1000)))
    (MkAnalytics (getenvDurationSeconds "ANALYTICS_MAX_SNAPSHOT_AGE_SECONDS" 600))
    (MkRetention
       (getenvInt "RETENTION_MAX_ROWS_PER_RUN" 50000)
       (getenvDurationSeconds "RETENTION_TABLE_TIMEOUT_SECONDS" 120)
       (getenvBool "RETENTION_DISK_PRESSURE_CRITICAL" false))
    (MkHardening
       (getenvDurationSeconds "DATA_MAX_FUTURE_SKEW_SECONDS" 120)
       (getenvFloat "FUNDING_SANITY_MIN" (f64_dec (-5) (-2)))
       (getenvFloat "FUNDING_SANITY_MAX" (f64_dec 5 (-2)))
       (getenvDurationSeconds "RECOVERY_RUNNING_JOB_TIMEOUT_SECONDS" 900)
       (getenvDurationSeconds "BACKFILL_REALTIME_LAG_PAUSE_SECONDS" 300)
       (getenvInt "BACKFILL_MAX_JOBS_PER_RUN" 1000)
       (getenvDurationSeconds "RETRY_BACKOFF_BASE_SECONDS" 30)
       (getenvDurationSeconds "RETRY_BACKOFF_MAX_SECONDS" 900)
       (getenvDurationSeconds "RETRY_BACKOFF_JITTER_MAX_SECONDS" 15))
    (parseCSV (getenv "SUPPORTED_EXCHANGES" "binance,okx,bybit,bitget,gate,mexc")).
End environment.

(** ** Validation *)

Definition required (c : Config) : list (string * string) :=
  let p := cf_Postgres c in
  [ ("POSTGRES_HOST", pg_Host p); ("POSTGRES_PORT", pg_Port p); ("POSTGRES_USER", pg_User p);
    ("POSTGRES_PASSWORD", pg_Password p); ("POSTGRES_DB", pg_Database p); ("POSTGRES_SSLMODE", pg_SSLMode p) ].

Definition blank (s : string) : bool := (TrimSpace s =? "")%string.

(** The variables reported missing: the required ones in the order the map is walked, then the list
    of exchanges. *)
Definition missing `{MapOrder} (c : Config) : list string :=
  map fst (List.filter (fun kv => blank (snd kv)) (iterate (required c))) ++
  match cf_SupportedExchanges c with [] => ["SUPPORTED_EXCHANGES"] | _ => [] end.

Definition Validate `{MapOrder} (c : Config) : option error :=
  let fail msg := Some (ErrorString msg) in
  let p := cf_Postgres c in let r := cf_Realtime c in let h := cf_Hardening c in
  if cf_WorkerConcurrency c <? 1 then fail "WORKER_CONCURRENCY must be greater than 0" else
  if pg_MaxOpenConns p <? 1 then fail "POSTGRES_MAX_OPEN_CONNS must be greater than 0" else
  if pg_MaxIdleConns p <? 0 then fail "POSTGRES_MAX_IDLE_CONNS must be greater than or equal to 0" else
  if rl_RequestsPerSecond (cf_RateLimit c) <? 1 then fail "RATE_LIMIT_REQUESTS_PER_SECOND must be greater than 0" else
  if rl_Burst (cf_RateLimit c) <? 1 then fail "RATE_LIMIT_BURST must be greater than 0" else
  if an_MaxSnapshotAge (cf_Analytics c) <=? 0 then fail "ANALYTICS_MAX_SNAPSHOT_AGE_SECONDS must be greater than 0" else
  if rt_MaxRowsPerRun (cf_Retention c) <? 1 then fail "RETENTION_MAX_ROWS_PER_RUN must be greater than 0" else
  if rt_TableTimeout (cf_Retention c) <=? 0 then fail "RETENTION_TABLE_TIMEOUT_SECONDS must be greater than 0" else
  if rt_LatestTTL r <=? 0 then fail "REALTIME_LATEST_TTL_SECONDS must be greater than 0" else
  if rt_StreamStaleAfter r <=? 0 then fail "REALTIME_STREAM_STALE_SECONDS must be greater than 0" else
  if rt_HeartbeatInterval r <=? 0 then fail "REALTIME_HEARTBEAT_SECONDS must be greater than 0" else
  if (rt_ReconnectMin r <=? 0) || (rt_ReconnectMax r <=? 0) || (rt_ReconnectMax r <? rt_ReconnectMin r)
  then fail "realtime reconnect durations must be positive and ordered" else
  if rt_SnapshotBucket r <=? 0 then fail "REALTIME_SNAPSHOT_BUCKET_SECONDS must be greater than 0" else
  if hd_MaxFutureSkew h <=? 0 then fail "DATA_MAX_FUTURE_SKEW_SECONDS must be greater than 0" else
  if fge (hd_FundingMin h) (hd_FundingMax h) then fail "FUNDING_SANITY_MIN must be less than FUNDING_SANITY_MAX" else
  if hd_RestartJobTimeout h <=? 0 then fail "RECOVERY_RUNNING_JOB_TIMEOUT_SECONDS must be greater than 0" else
  if hd_BackfillMaxJobs h <? 1 then fail "BACKFILL_MAX_JOBS_PER_RUN must be greater than 0" else
  if (hd_BackoffBase h <=? 0) || (hd_BackoffMax h <=? 0) then fail "retry backoff durations must be greater than 0" else
  match missing c with
  | [] => None
  | m => fail ("missing required environment variables: " +:+ Join m ", ")
  end.

(** ** Addresses *)

Definition DSN (c : PostgresConfig) : string :=
  let user := if (pg_Password c =? "")%string then (pg_User c, None) else (pg_User c, Some (pg_Password c)) in
  URL_String (MkURL "postgres" (Some user) (JoinHostPort (pg_Host c) (pg_Port c)) (pg_Database c)
                (Encode [("sslmode", pg_SSLMode c)])).

Definition Addr (c : RedisConfig) : string := JoinHostPort (rd_Host c) (rd_Port c).

(** ** The PostgreSQL address *)

(** What a client reads from a [postgres://] URL, in the order of [url.Parse]: the query after the
    first question mark, the authority before the first slash, the user information before the last
    at sign, the password after the first colon, and the parts decoded. *)
Record Dsn := MkDsn {
  dsn_user : string; dsn_password : string; dsn_host : string; dsn_port : string; dsn_database : string; dsn_sslmode : string }.

Definition read_dsn (s : string) : option Dsn :=
  rest ← match_prefix (to_bytes "postgres://") (to_bytes s);
  let '(front, query) := cut (byte_of_Z 63) rest in
  let '(authority, path) := cut (byte_of_Z 47) front in
  '(userinfo, hostport) ← cut_last (byte_of_Z 64) authority;
  let '(user, password) := cut (byte_of_Z 58) userinfo in
  '(host, port) ← SplitHostPort hostport;
  mode ← query ≫= match_prefix (to_bytes "sslmode=");
  Some (MkDsn (of_bytes (pct_decode user)) (of_bytes (pct_decode (default [] password))) (of_bytes host) (of_bytes port)
          (of_bytes (pct_decode (default [] path))) (of_bytes (query_decode mode))).

(** Hosts and ports whose bytes stand for themselves: no byte a host must escape, no bracket in the
    host and no colon in the port. *)
Definition plain_host (h : string) : Prop :=
  Forall (fun c => host_keep c = true) (to_bytes h) /\ byte_of_Z 91 ∉ to_bytes h.
Definition plain_port (p : string) : Prop :=
  Forall (fun c => host_keep c = true) (to_bytes p) /\ byte_of_Z 58 ∉ to_bytes p.

#[export] Instance plain_host_dec h : Decision (plain_host h) := _.
#[export] Instance plain_port_dec p : Decision (plain_port p) := _.

Lemma JoinHostPort_kept h p : plain_host h -> plain_port p ->
  Forall (fun c => host_keep c = true) (to_bytes (JoinHostPort h p)).
Proof.
  intros [Hh _] [Hp _]. unfold JoinHostPort. case_bool_decide; rewrite !to_bytes_app, !Forall_app; split_and!; try done;
    repeat constructor.
Qed.

Lemma SplitHostPort_Join h p : plain_host h -> plain_port p ->
  SplitHostPort (to_bytes (JoinHostPort h p)) = Some (to_bytes h, to_bytes p).
Proof.
  intros [_ Hh] [_ Hp]. unfold JoinHostPort, SplitHostPort. case_bool_decide as Hc; rewrite !to_bytes_app.
  - change (to_bytes "]:") with [byte_of_Z 93; byte_of_Z 58]. change (to_bytes "[") with [byte_of_Z 91].
    replace ([byte_of_Z 91] ++ to_bytes h ++ [byte_of_Z 93; byte_of_Z 58] ++ to_bytes p)%list
      with ((byte_of_Z 91 :: to_bytes h ++ [byte_of_Z 93]) ++ byte_of_Z 58 :: to_bytes p)%list
      by (cbn; by rewrite <-app_assoc).
    rewrite cut_last_here by done. cbn [Z.eqb]. change (Z_of_byte (byte_of_Z 91) =? 91) with true. cbn iota.
    by rewrite removelast_last.
  - change (to_bytes ":") with [byte_of_Z 58]. cbn [app]. rewrite cut_last_here by done.
    destruct (to_bytes h) as [|c l]; [done|]. destruct (Z.eqb_spec (Z_of_byte c) 91) as [E|]; [|done].
    exfalso. apply Hh. rewrite <-(byte_of_Z_of_byte c), E. left.
Qed.

(** User information is read back, and holds no separator. *)
Definition user_of (c : PostgresConfig) : bytes :=
  Userinfo_String (pg_User c) (if (pg_Password c =? "")%string then None else Some (pg_Password c)).

Lemma user_of_free c b : user_keep b = false -> alphanum b = false -> b <> byte_of_Z 37 -> b <> byte_of_Z 58 ->
  b ∉ user_of c.
Proof.
  intros. unfold user_of, Userinfo_String. destruct (_ && _); [apply not_elem_of_nil|].
  rewrite not_elem_of_app. split; [by apply escape_free|].
  destruct (pg_Password c =? "")%string; [apply not_elem_of_nil|]. apply not_elem_of_cons. split; [done|by apply escape_free].
Qed.

Lemma cut_user_of c :
  let '(u, p) := cut (byte_of_Z 58) (user_of c) in
  pct_decode u = to_bytes (pg_User c) /\ pct_decode (default [] p) = to_bytes (pg_Password c).
Proof.
  unfold user_of, Userinfo_String. destruct (String.eqb_spec (pg_Password c) "") as [E|E].
  - rewrite E. cbn [default]. destruct (String.eqb_spec (pg_User c) "") as [->|Eu]; [done|]. cbn [andb].
    rewrite app_nil_r, cut_nowhere by (by apply escape_free). by rewrite pct_decode_escape.
  - cbn [default id]. replace (pg_Password c =? "")%string with false by (symmetry; by apply String.eqb_neq).
    rewrite andb_false_r, cut_here by (by apply escape_free). cbn [default id]. by rewrite !pct_decode_escape.
Qed.

(** The path of an address holds no question mark and decodes to the database. *)
Definition path_of (database : string) : bytes :=
  match EscapedPath database with [] => [] | c :: _ =>
    if Z_of_byte c =? 47 then EscapedPath database else byte_of_Z 47 :: EscapedPath database end.

Lemma EscapedPath_free database : byte_of_Z 63 ∉ EscapedPath database.
Proof.
  unfold EscapedPath. destruct (String.eqb_spec database "*") as [->|]; [|by apply escape_free].
  by apply (bool_decide_unpack _).
Qed.

Lemma EscapedPath_decode database : pct_decode (EscapedPath database) = to_bytes database.
Proof.
  unfold EscapedPath. destruct (String.eqb_spec database "*") as [->|]; [done|]. by apply pct_decode_escape.
Qed.

Lemma path_of_shape database : HasPrefix database "/" = false ->
  (database = "" /\ path_of database = []) \/ path_of database = byte_of_Z 47 :: EscapedPath database.
Proof.
  intros Hs. unfold path_of. destruct (EscapedPath database) as [|c l] eqn:E.
  - left. split; [|done]. pose proof (EscapedPath_decode database) as D. rewrite E in D. symmetry in D.
    by apply (to_bytes_inj database "").
  - right. destruct (Z.eqb_spec (Z_of_byte c) 47) as [Ec|]; [|done]. exfalso.
    pose proof (EscapedPath_decode database) as D. rewrite E in D. cbn [pct_decode] in D. rewrite Ec in D. cbn in D.
    destruct database as [|d database]; [done|]. cbn in D. injection D as -> _.
    assert (d = byte_of_Z 47) as -> by (by rewrite <-(byte_of_Z_of_byte d), Ec). cbn in Hs. by destruct database.
Qed.

Lemma DSN_eq c : plain_host (pg_Host c) -> plain_port (pg_Port c) ->
  to_bytes (DSN c)
  = (to_bytes "postgres://" ++ (user_of c ++ byte_of_Z 64 :: to_bytes (JoinHostPort (pg_Host c) (pg_Port c))) ++
     path_of (pg_Database c) ++ byte_of_Z 63 :: to_bytes "sslmode=" ++ to_bytes (QueryEscape (pg_SSLMode c)))%list.
Proof.
  intros Hh Hp. unfold DSN, URL_String. rewrite to_of_bytes. cbn [u_Scheme u_User u_Host u_Path u_RawQuery].
  rewrite (escape_id host_keep) by (by apply JoinHostPort_kept).
  assert (Encode [("sslmode", pg_SSLMode c)] = "sslmode=" +:+ QueryEscape (pg_SSLMode c)) as -> by done.
  replace ("sslmode=" +:+ QueryEscape (pg_SSLMode c) =? "")%string with false by done. rewrite to_bytes_app.
  unfold user_of. destruct (pg_Password c =? "")%string; cbn iota; rewrite <-!app_assoc; reflexivity.
Qed.

(** C21: connection address.  Whatever the user name, password, database and mode contain (spaces, at
    signs, slashes, colons, percent signs, any byte), a reader of URLs takes the address apart into
    exactly the configured values: the escapes keep every separator out of every part.  The host and
    port must be ones a URL can carry, and the database must not begin with a slash. *)
Theorem dsn_roundtrip c :
  plain_host (pg_Host c) -> plain_port (pg_Port c) -> HasPrefix (pg_Database c) "/" = false ->
  read_dsn (DSN c)
  = Some (MkDsn (pg_User c) (pg_Password c) (pg_Host c) (pg_Port c) (pg_Database c) (pg_SSLMode c)).
Proof.
  intros Hh Hp Hd. unfold read_dsn. rewrite (DSN_eq c Hh Hp), match_prefix_app. cbn [mbind option_bind].
  pose proof (JoinHostPort_kept _ _ Hh Hp) as Hk. rewrite Forall_forall in Hk.
  assert (forall b, host_keep b = false -> b ∉ to_bytes (JoinHostPort (pg_Host c) (pg_Port c))) as Hj
    by (intros b Hb Hin; apply Hk in Hin; congruence).
  assert (forall b, user_keep b = false -> host_keep b = false -> alphanum b = false -> b <> byte_of_Z 37 ->
            b <> byte_of_Z 58 -> b <> byte_of_Z 64 ->
            b ∉ (user_of c ++ byte_of_Z 64 :: to_bytes (JoinHostPort (pg_Host c) (pg_Port c)))%list) as Ha.
  { intros b ??????. rewrite not_elem_of_app, not_elem_of_cons. split_and!; [by apply user_of_free|done|by apply Hj]. }
  rewrite app_assoc, cut_here; last first.
  { rewrite not_elem_of_app. split; [by apply Ha|].
    destruct (path_of_shape _ Hd) as [[-> ->]| ->]; [apply not_elem_of_nil|].
    apply not_elem_of_cons. split; [done|apply EscapedPath_free]. }
  destruct (cut (byte_of_Z 47) _) as [auth path] eqn:Ec.
  assert (auth = user_of c ++ byte_of_Z 64 :: to_bytes (JoinHostPort (pg_Host c) (pg_Port c)) /\
          pct_decode (default [] path) = to_bytes (pg_Database c))%list as [-> Edb].
  { destruct (path_of_shape _ Hd) as [[Ed Ep]|Ep]; rewrite Ep in Ec.
    - rewrite app_nil_r, cut_nowhere in Ec by (by apply Ha). injection Ec as <- <-. by rewrite Ed.
    - rewrite cut_here in Ec by (by apply Ha). injection Ec as <- <-. cbn [default id]. by rewrite EscapedPath_decode. }
  rewrite cut_last_here by (by apply Hj). cbn [mbind option_bind]. pose proof (cut_user_of c) as Hu.
  destruct (cut (byte_of_Z 58) (user_of c)) as [u p]. destruct Hu as [-> ->].
  rewrite SplitHostPort_Join by done. cbn [mbind option_bind]. rewrite Edb, match_prefix_app. cbn [mbind option_bind].
  by rewrite query_decode_escape, !of_to_bytes.
Qed.

Definition sample_postgres : PostgresConfig :=
  MkPostgres "2001:db8::1" "5432" "ops@team" "p@ss:w/rd?#%20" "crypto ultimate" "verify-full" 20 10 (1800 * Second) (300 * Second).

Lemma dsn_roundtrip_witness :
  DSN sample_postgres
  = "postgres://ops%40team:p%40ss%3Aw%2Frd%3F%23%2520@[2001:db8::1]:5432/crypto%20ultimate?sslmode=verify-full" /\
  read_dsn (DSN sample_postgres)
  = Some (MkDsn "ops@team" "p@ss:w/rd?#%20" "2001:db8::1" "5432" "crypto ultimate" "verify-full").
Proof.
  split; [vm_compute; reflexivity|].
  refine (dsn_roundtrip sample_postgres _ _ _); [refine (bool_decide_unpack _ _); vm_compute; exact I..|reflexivity].
Defined.

(** ** What validation guarantees *)

(** The numbers a service can run with. *)
Record sound_numbers (c : Config) : Prop := MkSound {
  sn_workers : 1 <= cf_WorkerConcurrency c;
  sn_open : 1 <= pg_MaxOpenConns (cf_Postgres c);
  sn_idle : 0 <= pg_MaxIdleConns (cf_Postgres c);
  sn_rps : 1 <= rl_RequestsPerSecond (cf_RateLimit c);
  sn_burst : 1 <= rl_Burst (cf_RateLimit c);
  sn_age : 0 < an_MaxSnapshotAge (cf_Analytics c);
  sn_rows : 1 <= rt_MaxRowsPerRun (cf_Retention c);
  sn_timeout : 0 < rt_TableTimeout (cf_Retention c);
  sn_ttl : 0 < rt_LatestTTL (cf_Realtime c);
  sn_stale : 0 < rt_StreamStaleAfter (cf_Realtime c);
  sn_heartbeat : 0 < rt_HeartbeatInterval (cf_Realtime c);
  sn_reconnect : 0 < rt_ReconnectMin (cf_Realtime c) <= rt_ReconnectMax (cf_Realtime c);
  sn_bucket : 0 < rt_SnapshotBucket (cf_Realtime c);
  sn_skew : 0 < hd_MaxFutureSkew (cf_Hardening c);
  sn_funding : fge (hd_FundingMin (cf_Hardening c)) (hd_FundingMax (cf_Hardening c)) = false;
  sn_restart : 0 < hd_RestartJobTimeout (cf_Hardening c);
  sn_jobs : 1 <= hd_BackfillMaxJobs (cf_Hardening c);
  sn_backoff : 0 < hd_BackoffBase (cf_Hardening c) /\ 0 < hd_BackoffMax (cf_Hardening c) }.

Lemma Permutation_filter_bool {A} (f : A -> bool) l k : l ≡ₚ k -> List.filter f l ≡ₚ List.filter f k.
Proof.
  induction 1 as [|x l k _ IH|x y l|l k m _ IH1 _ IH2]; cbn; [done|..].
  - destruct (f x); [by constructor|done].
  - destruct (f x), (f y); try done. constructor.
  - by etrans.
Qed.

Section validation.
Context `{MapOrder}.

(** Sound numbers leave only missing variables to report; other numbers are refused. *)
Lemma Validate_sound c : sound_numbers c ->
  Validate c = match missing c with
               | [] => None
               | m => Some (ErrorString ("missing required environment variables: " +:+ Join m ", "))
               end.
Proof.
  intros []. unfold Validate. rewrite sn_funding0.
  repeat match goal with
  | |- context [?a <? ?b] => destruct (Z.ltb_spec a b); [lia|]
  | |- context [?a <=? ?b] => destruct (Z.leb_spec a b); [lia|]
  end.
  reflexivity.
Qed.

Lemma Validate_None c : Validate c = None -> sound_numbers c /\ missing c = [].
Proof.
  unfold Validate. intros Hv.
  repeat match type of Hv with
  | (if ?b then _ else _) = None => destruct b eqn:?; [discriminate Hv|]
  end.
  destruct (missing c) eqn:?; [|discriminate Hv]. bool_to_prop. split; [|done]. constructor; try lia; try done.
Qed.

Definition postgres_variables : list string :=
  ["POSTGRES_HOST"; "POSTGRES_PORT"; "POSTGRES_USER"; "POSTGRES_PASSWORD"; "POSTGRES_DB"; "POSTGRES_SSLMODE"].

Lemma required_Load env : required (Load env) = map (fun k => (k, env k)) postgres_variables.
Proof. reflexivity. Qed.

Lemma missing_Load env : cf_SupportedExchanges (Load env) <> [] ->
  missing (Load env) ≡ₚ List.filter (fun k => blank (env k)) postgres_variables.
Proof.
  intros He. unfold missing. rewrite required_Load. destruct (cf_SupportedExchanges (Load env)); [done|]. rewrite app_nil_r.
  rewrite (Permutation_map fst (Permutation_filter_bool _ _ _ (iterate_perm _ _))).
  unfold postgres_variables. cbn [map List.filter snd]. repeat (destruct (blank (env _)); cbn [map fst]). all: reflexivity.
Qed.
End validation.

(** A setting that is not used: unset, blank, or not a number. *)
Definition unread_int (env : Environment) (k : string) : Prop :=
  blank (env k) = true \/ ParseInt (TrimSpace (env k)) = None.
Definition unread_float (env : Environment) (k : string) : Prop :=
  blank (env k) = true \/ is_Some (snd (ParseFloat (TrimSpace (env k)))).

#[export] Instance unread_int_dec env k : Decision (unread_int env k).
Proof. unfold unread_int. apply _. Defined.
#[export] Instance unread_float_dec env k : Decision (unread_float env k).
Proof. unfold unread_float. apply _. Defined.

Lemma getenvInt_unread env k d : unread_int env k -> getenvInt env k d = d.
Proof. unfold unread_int, blank, getenvInt. intros [-> | ->]; [done|]. by destruct (_ =? _)%string. Qed.
Lemma getenvFloat_unread env k d : unread_float env k -> getenvFloat env k d = d.
Proof.
  unfold unread_float, blank, getenvFloat. intros [-> |[e E]]; [done|]. destruct (_ =? _)%string; [done|].
  destruct (ParseFloat _) as [x o]. cbn in E. by subst.
Qed.
Lemma getenv_blank env k d : blank (env k) = true -> getenv env k d = d.
Proof. unfold blank, getenv. by intros ->. Qed.

Definition checked_settings : list string :=
  [ "WORKER_CONCURRENCY"; "POSTGRES_MAX_OPEN_CONNS"; "POSTGRES_MAX_IDLE_CONNS"; "RATE_LIMIT_REQUESTS_PER_SECOND";
    "RATE_LIMIT_BURST"; "ANALYTICS_MAX_SNAPSHOT_AGE_SECONDS"; "RETENTION_MAX_ROWS_PER_RUN";
    "RETENTION_TABLE_TIMEOUT_SECONDS"; "REALTIME_LATEST_TTL_SECONDS"; "REALTIME_STREAM_STALE_SECONDS";
    "REALTIME_HEARTBEAT_SECONDS"; "REALTIME_RECONNECT_MIN_SECONDS"; "REALTIME_RECONNECT_MAX_SECONDS";
    "REALTIME_SNAPSHOT_BUCKET_SECONDS"; "DATA_MAX_FUTURE_SKEW_SECONDS"; "RECOVERY_RUNNING_JOB_TIMEOUT_SECONDS";
    "BACKFILL_MAX_JOBS_PER_RUN"; "RETRY_BACKOFF_BASE_SECONDS"; "RETRY_BACKOFF_MAX_SECONDS" ].

Lemma sound_Load env :
  Forall (unread_int env) checked_settings -> Forall (unread_float env) ["FUNDING_SANITY_MIN"; "FUNDING_SANITY_MAX"] ->
  sound_numbers (Load env).
Proof.
  intros Hi Hf. unfold checked_settings in Hi.
  repeat (apply Forall_cons in Hi as [? Hi]). repeat (apply Forall_cons in Hf as [? Hf]).
  constructor; cbn [Load cf_WorkerConcurrency cf_Postgres pg_MaxOpenConns pg_MaxIdleConns cf_RateLimit rl_RequestsPerSecond
    rl_Burst cf_Analytics an_MaxSnapshotAge cf_Retention rt_MaxRowsPerRun rt_TableTimeout cf_Realtime rt_LatestTTL
    rt_StreamStaleAfter rt_HeartbeatInterval rt_ReconnectMin rt_ReconnectMax rt_SnapshotBucket cf_Hardening hd_MaxFutureSkew
    hd_FundingMin hd_FundingMax hd_RestartJobTimeout hd_BackfillMaxJobs hd_BackoffBase hd_BackoffMax];
    unfold getenvDurationSeconds; rewrite ?getenvInt_unread, ?getenvFloat_unread by assumption; clear;
    first [vm_compute; reflexivity | vm_compute; congruence | split; vm_compute; congruence].
Qed.

(** C22: starting with defaults.  With every setting that validation checks unset, blank or unreadable,
    and no exchange list, the loaded configuration is refused exactly for the blank ones among the
    six PostgreSQL variables, each named once whatever order the map is walked in; when none is
    blank it is accepted.  An unreadable number is therefore never reported: the service runs with
    the default in its place. *)
Theorem defaults_valid `{MapOrder} env :
  Forall (unread_int env) checked_settings -> Forall (unread_float env) ["FUNDING_SANITY_MIN"; "FUNDING_SANITY_MAX"] ->
  blank (env "SUPPORTED_EXCHANGES") = true ->
  let absent := List.filter (fun k => blank (env k)) postgres_variables in
  exists l, l ≡ₚ absent /\
  Validate (Load env) = match l with
                        | [] => None
                        | _ => Some (ErrorString ("missing required environment variables: " +:+ Join l ", "))
                        end.
Proof.
  intros Hi Hf He absent. exists (missing (Load env)). split.
  - apply missing_Load. cbn. rewrite getenv_blank by done. discriminate.
  - rewrite Validate_sound by (by apply sound_Load). by destruct (missing (Load env)).
Qed.

(** Only the PostgreSQL variables are set, the port with blanks around it, and one number is mistyped. *)
Definition sample_env : Environment := fun k =>
  match list_to_map (M := gmap string string) [("POSTGRES_HOST", "db"); ("POSTGRES_PORT", " 5432 "); ("POSTGRES_USER", "u"); ("POSTGRES_DB", "d");
                 ("POSTGRES_SSLMODE", "disable"); ("WORKER_CONCURRENCY", "eight")] !! k with
  | Some v => v | None => "" end.

Lemma defaults_valid_witness :
  exists l, l ≡ₚ ["POSTGRES_PASSWORD"] /\
  Validate (H := forward_order) (Load sample_env) = match l with
    | [] => None
    | _ => Some (ErrorString ("missing required environment variables: " +:+ Join l ", "))
    end.
Proof.
  refine (defaults_valid (H := forward_order) sample_env _ _ _).
  - refine (bool_decide_unpack _ _). vm_compute. exact I.
  - refine (bool_decide_unpack _ _). vm_compute. exact I.
  - vm_compute. reflexivity.
Defined.

(** ** What validation lets through *)

(** A bound that is not a number passes validation, since no comparison with it holds. *)
Theorem nan_bounds_accepted `{MapOrder} c x :
  sound_numbers c -> missing c = [] -> is_nan x = true ->
  Validate (MkConfig (cf_AppEnv c) (cf_AppPort c) (cf_HTTPAddr c) (cf_Postgres c) (cf_Redis c) (cf_Realtime c)
    (cf_CollectionMode c) (cf_WorkerConcurrency c) (cf_RateLimit c) (cf_Liquidation c) (cf_Analytics c) (cf_Retention c)
    (MkHardening (hd_MaxFutureSkew (cf_Hardening c)) x x (hd_RestartJobTimeout (cf_Hardening c))
       (hd_RealtimeLagPause (cf_Hardening c)) (hd_BackfillMaxJobs (cf_Hardening c)) (hd_BackoffBase (cf_Hardening c))
       (hd_BackoffMax (cf_Hardening c)) (hd_BackoffJitterMax (cf_Hardening c)))
    (cf_SupportedExchanges c)) = None.
Proof.
  intros Hs Hm Hx. rewrite Validate_sound.
  - change (missing _) with (missing c). by rewrite Hm.
  - destruct Hs. constructor; try done. cbn. by destruct x.
Qed.

(** Seconds are multiplied at 64 bits: a setting of 18446744074 seconds, six centuries, is a timeout of
    less than a third of a second, and is accepted as positive. *)
Example seconds_wrap :
  getenvDurationSeconds (fun _ => "18446744074") "RETENTION_TABLE_TIMEOUT_SECONDS" 120 = 290448384.
Proof. vm_compute. reflexivity. Qed.

(** Exchange names are trimmed, lowered and never empty. *)
Lemma parseCSV_norm s : Forall (fun x => x = norm x /\ x <> "") (parseCSV s).
Proof.
  unfold parseCSV. apply Forall_forall. intros x Hx.
  apply list_elem_of_In, filter_In in Hx as [Hx Hne%negb_true_iff%String.eqb_neq]. split; [|done].
  apply in_map_iff in Hx as (y & <- & _). change (ToLower (TrimSpace y)) with (norm y). by rewrite norm_idem.
Qed.
