(* ===== verification/Monitoring.v ===== *)
(** * Health reports, request log and collection runs ([internal/repositories]: [collector_health.go],
    [request_log.go], [collection_run.go])

    The statements that record what the collectors do, on the tables of the database.  The health
    report is an insert that does nothing on a conflict followed by an update; its table is proved to
    implement a finite map from scopes to the last reported state ([health_refines]), also when the
    second statement fails and the report is repeated. *)

From S2P Require Import Prelude GoString GoTime GoFloat GoError GoJson SchedulerModels ApiStore ApiSchema Collector AggregateWrites AggregatePublish.

(** ** What the columns keep *)

Definition check_error : error := pq "new row violates check constraint".
(** [nullableTime]. *)
Definition nullableTime (t : Time) : result error (option sval) := if IsZero t then Ok None else timestamptz t.
(** [NULLIF($n, '')] into a column with [CHECK (column IS NULL OR column = lower(column))]. *)
Definition nullable_lower (s : string) : result error (option sval) := if (s =? "")%string then Ok None else lower_text s.
(** [CHECK (column IN (...))]. *)
Definition one_of (l : list string) (s : string) : result error (option sval) := if bool_decide (s ∈ l) then text s else Err check_error.
(** [INTEGER] with [CHECK (column >= 0)]. *)
Definition count_column (z : Z) : result error (option sval) := let! v := integer z in if z <? 0 then Err check_error else Ok v.
(** [nullableStatusCode]. *)
Definition nullableStatusCode (v : option Z) : result error (option sval) := match v with None => Ok None | Some z => integer z end.

(** The text of a column, empty for NULL: [COALESCE(column, '')]. *)
Definition text_or (r : gmap string sval) (c : string) : string := match r !! c with Some (SText s) => s | _ => "" end.

(** ** Collector health *)

Definition health_statuses : list string := ["starting"; "healthy"; "degraded"; "unhealthy"; "stopped"].

Definition with_heartbeat (now : Time) (h : CollectorHealth) : CollectorHealth :=
  if IsZero (ch_HeartbeatAt h) then
    MkHealth (ch_ServiceName h) (ch_InstanceID h) (ch_Exchange h) (ch_DataType h) (ch_Status h) now (ch_LastSuccessAt h)
      (ch_LastErrorAt h) (ch_ErrorMessage h) (ch_Metrics h)
  else h.

Definition health_insert (now : Time) (h : CollectorHealth) : list (string * result error (option sval)) :=
  [("service_name", text (ch_ServiceName h)); ("instance_id", text (ch_InstanceID h)); ("exchange", nullable_lower (ch_Exchange h));
   ("data_type", nullableText (ch_DataType h)); ("status", one_of health_statuses (ch_Status h));
   ("heartbeat_at", timestamptz (ch_HeartbeatAt h)); ("last_success_at", nullableTime (ch_LastSuccessAt h));
   ("last_error_at", nullableTime (ch_LastErrorAt h)); ("error_message", nullableText (ch_ErrorMessage h));
   ("metrics", jsonb (ch_Metrics h)); ("updated_at", timestamptz now)].

(** [COALESCE($n, column)] leaves the column alone when the parameter is NULL. *)
Definition coalesce_time (c : string) (t : Time) : list (string * result error (option sval)) :=
  if IsZero t then [] else [(c, timestamptz t)].
Definition health_update (now : Time) (h : CollectorHealth) : list (string * result error (option sval)) :=
  ([("status", one_of health_statuses (ch_Status h)); ("heartbeat_at", timestamptz (ch_HeartbeatAt h))] ++
   coalesce_time "last_success_at" (ch_LastSuccessAt h) ++ coalesce_time "last_error_at" (ch_LastErrorAt h) ++
   [("error_message", nullableText (ch_ErrorMessage h)); ("metrics", jsonb (ch_Metrics h)); ("updated_at", timestamptz now)])%list.

(** The unique index on [(service_name, instance_id, COALESCE(exchange, ''), COALESCE(data_type, ''))]. *)
Abbreviation scope := (string * string * string * string)%type (only parsing).
Definition scope_of (r : gmap string sval) : scope :=
  (text_or r "service_name", text_or r "instance_id", text_or r "exchange", text_or r "data_type").
Definition health_scope (h : CollectorHealth) : scope :=
  (ch_ServiceName h, ch_InstanceID h, ch_Exchange h, ch_DataType h).

Definition insert_health (new : gmap string sval) (rows : list (gmap string sval)) : list (gmap string sval) :=
  if existsb (fun r => bool_decide (scope_of r = scope_of new)) rows then rows else (rows ++ [new])%list.
Definition update_health (k : scope) (set : list (string * option sval)) (rows : list (gmap string sval)) : list (gmap string sval) :=
  map (fun r => if bool_decide (scope_of r = k) then foldl assign r set else r) rows.

(** [CollectorHealthRepository.Upsert]; the failures of its two statements are inputs. *)
Definition UpsertHealth (db : Database) (now : Time) (insert_fault update_fault : option error) (health : CollectorHealth)
    : Database * option error :=
  let h := with_heartbeat now health in
  match insert_fault, assignments (health_insert now h) with
  | Some e, _ | None, Err e => (db, Some (wrap "insert collector health" e))
  | None, Ok set =>
    let rows := insert_health (foldl assign ∅ set) (db_rows db "collector_health") in
    let db := with_rows db "collector_health" rows in
    match update_fault, assignments (health_update now h) with
    | Some e, _ | None, Err e => (db, Some (wrap "update collector health" e))
    | None, Ok set => (with_rows db "collector_health" (update_health (health_scope h) set rows), None)
    end
  end.

(** ** Request log *)

Definition has_endpoint (db : Database) (id : Z) : bool :=
  existsb (fun s => key_eqb (s !! "id") (Some (SInt id))) (db_rows db "exchange_api_endpoints").

(** [NULLIF($2, 0)] makes the endpoint's parameter a 32-bit [integer]. *)
Definition request_log_set (l : RequestLog) : list (string * result error (option sval)) :=
  [("exchange", lower_text (rl_Exchange l)); ("endpoint_id", let! id := integer (rl_EndpointID l) in Ok (if rl_EndpointID l =? 0 then None else id));
   ("data_type", text (rl_DataType l)); ("source_symbol", nullableText (rl_SourceSymbol l));
   ("request_url", nullableText (rl_RequestURL l)); ("request_path", nullableText (rl_RequestPath l));
   ("status_code", nullableStatusCode (rl_StatusCode l)); ("error_type", nullableText (rl_ErrorType l));
   ("duration_ms", count_column (rl_DurationMS l)); ("retry_count", count_column (rl_RetryCount l));
   ("rate_limited", Ok (Some (SBool (rl_RateLimited l)))); ("captured_at", timestamptz (rl_CapturedAt l));
   ("metadata", jsonb (rl_Metadata l))].

Definition InsertRequestLog (db : Database) (fault : option error) (l : RequestLog) : Database * option error :=
  let m := "insert request log" in
  match fault, assignments (request_log_set l) with
  | Some e, _ | None, Err e => (db, Some (wrap m e))
  | None, Ok set =>
    if (rl_EndpointID l =? 0) || has_endpoint db (rl_EndpointID l) then
      (with_rows db "exchange_request_logs" (db_rows db "exchange_request_logs" ++ [foldl assign ∅ set])%list, None)
    else (db, Some (wrap m (pq "insert or update on table violates foreign key constraint")))
  end.

(** ** Collection runs *)

Record CollectionRun := MkRun {
  cr_RunKey : string; cr_ServiceName : string; cr_Exchange : string; cr_DataType : string; cr_Status : string; cr_StartedAt : Time;
  cr_FinishedAt : Time; cr_SymbolsPlanned : Z; cr_SymbolsSucceeded : Z; cr_SymbolsFailed : Z; cr_JobsCreated : Z;
  cr_Metadata : RawMessage }.

Definition run_statuses : list string := ["running"; "succeeded"; "failed"; "cancelled"].

Definition run_insert (r : CollectionRun) (started : Time) : list (string * result error (option sval)) :=
  [("run_key", text (cr_RunKey r)); ("service_name", text (cr_ServiceName r)); ("exchange", nullable_lower (cr_Exchange r));
   ("data_type", nullableText (cr_DataType r)); ("status", one_of run_statuses (cr_Status r)); ("started_at", timestamptz started);
   ("symbols_planned", count_column (cr_SymbolsPlanned r)); ("symbols_succeeded", count_column (cr_SymbolsSucceeded r));
   ("symbols_failed", count_column (cr_SymbolsFailed r)); ("jobs_created", count_column (cr_JobsCreated r));
   ("metadata", jsonb (cr_Metadata r))].
(** [DO UPDATE SET] of [Start]. *)
Definition run_conflict (r : CollectionRun) (started : Time) : list (string * result error (option sval)) :=
  [("status", one_of run_statuses (cr_Status r)); ("started_at", timestamptz started); ("metadata", jsonb (cr_Metadata r))].

Definition run_is (key : string) (r : gmap string sval) : bool := key_eqb (r !! "run_key") (Some (SText key)).
Definition update_runs (key : string) (set : list (string * option sval)) (rows : list (gmap string sval)) : list (gmap string sval) :=
  map (fun r => if run_is key r then foldl assign r set else r) rows.

Definition StartRun (db : Database) (now : Time) (fault : option error) (run : CollectionRun) : Database * option error :=
  let started := if IsZero (cr_StartedAt run) then now else cr_StartedAt run in
  let m := "start collection run" in
  let rows := db_rows db "data_collection_runs" in
  match fault, assignments (run_insert run started), assignments (run_conflict run started) with
  | Some e, _, _ | None, Err e, _ | None, _, Err e => (db, Some (wrap m e))
  | None, Ok new, Ok set =>
    (with_rows db "data_collection_runs"
       (if existsb (run_is (cr_RunKey run)) rows then update_runs (cr_RunKey run) set rows
        else (rows ++ [foldl assign ∅ new])%list), None)
  end.

Definition run_finish (now : Time) (status : string) (metadata : RawMessage) : list (string * result error (option sval)) :=
  [("status", one_of run_statuses status); ("finished_at", timestamptz now); ("metadata", jsonb metadata)].

(** [Finish]; a key without a run updates no row and reports nothing. *)
Definition FinishRun (db : Database) (now : Time) (fault : option error) (runKey status : string) (metadata : RawMessage)
    : Database * option error :=
  let m := "finish collection run" in
  let rows := db_rows db "data_collection_runs" in
  match fault, jsonb metadata with
  | Some e, _ | None, Err e => (db, Some (wrap m e))
  | None, Ok _ =>
    if negb (existsb (run_is runKey) rows) then (db, None) else
    match assignments (run_finish now status metadata) with
    | Err e => (db, Some (wrap m e))
    | Ok set => (with_rows db "data_collection_runs" (update_runs runKey set rows), None)
    end
  end.

(** ** Assigned columns *)

(** The last value a list of assignments gives a column. *)
Fixpoint last_assigned (l : list (string * option sval)) (c : string) : option (option sval) :=
  match l with
  | [] => None
  | (k, v) :: l' =>
    match last_assigned l' c with Some x => Some x | None => if (k =? c)%string then Some v else None end
  end.

Lemma foldl_assign_lookup l r c :
  foldl assign r l !! c = match last_assigned l c with Some v => v | None => r !! c end.
Proof.
  revert r. induction l as [|[k v] l IH]; intros r; [done|]. cbn [foldl last_assigned]. rewrite IH.
  destruct (last_assigned l c); [done|]. rewrite assign_lookup. destruct (String.eqb_spec k c); by case_decide.
Qed.

Lemma assignments_app l k a b : assignments l = Ok a -> assignments k = Ok b -> assignments (l ++ k) = Ok (a ++ b)%list.
Proof.
  revert a. induction l as [|[c v] l IH]; intros a; cbn [assignments app]; [by intros [= <-]|].
  destruct v as [v|]; [|done]. destruct (assignments l) as [a'|]; [|done]. intros [= <-] Hb. by rewrite (IH a' eq_refl Hb).
Qed.

(** ** Tables with a unique key

    A list of rows whose keys are distinct is a finite map; an insert of a new key and an update of
    the rows with a key are its insert and its alter. *)
Section keyed.
Context {K : Type} `{Countable K} (key : gmap string sval -> K).

Definition kmap (rows : list (gmap string sval)) : gmap K (gmap string sval) := list_to_map (map (fun r => (key r, r)) rows).

Lemma kmap_lookup rows k r : NoDup (map key rows) -> kmap rows !! k = Some r <-> r ∈ rows /\ key r = k.
Proof.
  intros Hn. unfold kmap. rewrite <-elem_of_list_to_map by (by rewrite map_map). rewrite list_elem_of_fmap.
  split; [intros (x & [= -> ->] & Hr); done|intros [Hr <-]; by exists r].
Qed.

Lemma kmap_lookup_None rows k : kmap rows !! k = None <-> k ∉ map key rows.
Proof. unfold kmap. rewrite <-not_elem_of_list_to_map. by rewrite map_map. Qed.

Lemma kmap_app rows r : NoDup (map key rows) -> key r ∉ map key rows -> kmap (rows ++ [r]) = <[key r := r]> (kmap rows).
Proof.
  intros Hn Hr. unfold kmap. rewrite map_app. cbn. apply list_to_map_snoc. by rewrite map_map.
Qed.

Definition keys_update (k : K) (f : gmap string sval -> gmap string sval) (rows : list (gmap string sval)) : list (gmap string sval) :=
  map (fun r => if bool_decide (key r = k) then f r else r) rows.

Lemma keys_update_keys k f rows : (forall r, key (f r) = key r) -> map key (keys_update k f rows) = map key rows.
Proof. intros Hf. unfold keys_update. rewrite map_map. apply map_ext. intros r. by case_bool_decide. Qed.

Lemma kmap_update k f rows : NoDup (map key rows) -> (forall r, key (f r) = key r) ->
  kmap (keys_update k f rows) = alter f k (kmap rows).
Proof.
  intros Hn Hf. apply map_eq. intros k'. apply option_eq. intros r.
  rewrite kmap_lookup by (by rewrite keys_update_keys). unfold keys_update. rewrite list_elem_of_fmap.
  destruct (decide (k' = k)) as [->|Hk].
  - rewrite lookup_alter_eq, fmap_Some. setoid_rewrite kmap_lookup; [|done]. split.
    + intros [(x & -> & Hx) E]. destruct (decide (key x = k)) as [Ek|Ek].
      * exists x. by rewrite bool_decide_true.
      * by rewrite bool_decide_false in E.
    + intros (x & [Hx Ek] & ->). split; [|by rewrite Hf]. exists x. by rewrite bool_decide_true.
  - rewrite lookup_alter_ne, kmap_lookup by done. split.
    + intros [(x & -> & Hx) E]. destruct (decide (key x = k)) as [Ek|Ek].
      * rewrite bool_decide_true, Hf in E by done. congruence.
      * by rewrite bool_decide_false in * by done.
    + intros [Hr <-]. split; [|done]. exists r. by rewrite bool_decide_false.
Qed.

(** An insert that does nothing on a conflict. *)
Definition keys_insert (new : gmap string sval) (rows : list (gmap string sval)) : list (gmap string sval) :=
  if existsb (fun r => bool_decide (key r = key new)) rows then rows else (rows ++ [new])%list.

Lemma existsb_key k rows : existsb (fun r => bool_decide (key r = k)) rows = bool_decide (k ∈ map key rows).
Proof.
  apply eq_true_iff_eq. rewrite existsb_exists, bool_decide_eq_true, list_elem_of_fmap. split.
  - intros (r & Hr & E%bool_decide_eq_true). exists r. by rewrite list_elem_of_In.
  - intros (r & -> & Hr). exists r. rewrite <-list_elem_of_In. split; [done|by apply bool_decide_true].
Qed.

Lemma keys_insert_nodup new rows : NoDup (map key rows) -> NoDup (map key (keys_insert new rows)).
Proof.
  intros Hn. unfold keys_insert. rewrite existsb_key. case_bool_decide as Hk; [done|]. rewrite map_app. cbn.
  apply NoDup_app. split_and!; [done|by intros x Hx ->%list_elem_of_singleton|apply NoDup_singleton].
Qed.

Lemma kmap_insert new rows : NoDup (map key rows) ->
  kmap (keys_insert new rows) = match kmap rows !! key new with Some _ => kmap rows | None => <[key new := new]> (kmap rows) end.
Proof.
  intros Hn. unfold keys_insert. rewrite existsb_key. case_bool_decide as Hk.
  - destruct (kmap rows !! key new) eqn:E; [done|]. by apply kmap_lookup_None in E.
  - rewrite (proj2 (kmap_lookup_None rows (key new))) by done. by apply kmap_app.
Qed.
End keyed.

(** ** Health: the abstract table *)

Record HealthState := MkState {
  hs_status : string; hs_heartbeat : option Time; hs_success : option Time; hs_error : option Time; hs_message : string;
  hs_metrics : option sval }.

Definition time_of (r : gmap string sval) (c : string) : option Time := match r !! c with Some (STime t) => Some t | _ => None end.
Definition health_view (r : gmap string sval) : HealthState :=
  MkState (text_or r "status") (time_of r "heartbeat_at") (time_of r "last_success_at") (time_of r "last_error_at")
    (text_or r "error_message") (r !! "metrics").
Definition health_map (rows : list (gmap string sval)) : gmap scope HealthState :=
  list_to_map (map (fun r => (scope_of r, health_view r)) rows).

(** A report: the latest status, heartbeat, message and metrics, and the times of the last success and
    the last error, which a report without them does not touch. *)
Definition known (t : Time) (old : option Time) : option Time := if IsZero t then old else Some t.
Definition report (now : Time) (m : gmap scope HealthState) (health : CollectorHealth) : gmap scope HealthState :=
  let h := with_heartbeat now health in
  let old := m !! health_scope h in
  <[health_scope h :=
    MkState (ch_Status h) (Some (ch_HeartbeatAt h)) (known (ch_LastSuccessAt h) (old ≫= hs_success))
      (known (ch_LastErrorAt h) (old ≫= hs_error)) (ch_ErrorMessage h)
      (match ensureJSON (ch_Metrics h) with RawJson j => Some (SJson j) | _ => None end)]> m.

(** Reports the table accepts. *)
Definition report_ok (now : Time) (h : CollectorHealth) : Prop :=
  ToLower (ch_Exchange h) = ch_Exchange h /\ ch_Status h ∈ health_statuses /\
  Forall (fun t => timestamptz_ok t = true) [now; ch_HeartbeatAt h; ch_LastSuccessAt h; ch_LastErrorAt h] /\
  match ensureJSON (ch_Metrics h) with RawJson _ => True | _ => False end.

(** ** Health: the statements on accepted reports *)

Definition text_value (s : string) : option sval := if (s =? "")%string then None else Some (SText s).
Definition time_value (t : Time) : option sval := if IsZero t then None else Some (STime t).

Lemma nullable_lower_ok s : ToLower s = s -> nullable_lower s = Ok (text_value s).
Proof.
  intros H. unfold nullable_lower, text_value, lower_text. destruct (_ =? "")%string; [done|]. rewrite H. by rewrite String.eqb_refl.
Qed.
Lemma nullableTime_ok t : timestamptz_ok t = true -> nullableTime t = Ok (time_value t).
Proof. intros H. unfold nullableTime, time_value, timestamptz. destruct (IsZero t); [done|]. by rewrite H. Qed.
Lemma one_of_ok l s : s ∈ l -> one_of l s = Ok (Some (SText s)).
Proof. intros H. unfold one_of. by rewrite bool_decide_true. Qed.
Lemma timestamptz_ok_eq t : timestamptz_ok t = true -> timestamptz t = Ok (Some (STime t)).
Proof. intros H. unfold timestamptz. by rewrite H. Qed.
Lemma coalesce_time_ok c t : timestamptz_ok t = true ->
  assignments (coalesce_time c t) = Ok (if IsZero t then [] else [(c, Some (STime t))]).
Proof. intros H. unfold coalesce_time. destruct (IsZero t); [done|]. cbn. by rewrite timestamptz_ok_eq. Qed.

Create Rewrite HintDb columns.
#[export] Hint Rewrite nullable_lower_ok nullableTime_ok one_of_ok timestamptz_ok_eq coalesce_time_ok using done : columns.

Section accepted.
Context (now : Time) (h : CollectorHealth) (j : json).
Hypothesis (Hok : report_ok now h) (Hj : ensureJSON (ch_Metrics h) = RawJson j).

Definition inserted_columns : list (string * option sval) :=
  [("service_name", Some (SText (ch_ServiceName h))); ("instance_id", Some (SText (ch_InstanceID h)));
   ("exchange", text_value (ch_Exchange h)); ("data_type", text_value (ch_DataType h)); ("status", Some (SText (ch_Status h)));
   ("heartbeat_at", Some (STime (ch_HeartbeatAt h))); ("last_success_at", time_value (ch_LastSuccessAt h));
   ("last_error_at", time_value (ch_LastErrorAt h)); ("error_message", text_value (ch_ErrorMessage h));
   ("metrics", Some (SJson j)); ("updated_at", Some (STime now))].
Definition updated_columns : list (string * option sval) :=
  ([("status", Some (SText (ch_Status h))); ("heartbeat_at", Some (STime (ch_HeartbeatAt h)))] ++
   (if IsZero (ch_LastSuccessAt h) then [] else [("last_success_at", Some (STime (ch_LastSuccessAt h)))]) ++
   (if IsZero (ch_LastErrorAt h) then [] else [("last_error_at", Some (STime (ch_LastErrorAt h)))]) ++
   [("error_message", text_value (ch_ErrorMessage h)); ("metrics", Some (SJson j)); ("updated_at", Some (STime now))])%list.

Lemma insert_assignments : assignments (health_insert now h) = Ok inserted_columns.
Proof.
  destruct Hok as (He & Hs & Ht & _). repeat (apply Forall_cons in Ht as [? Ht]).
  unfold health_insert, jsonb, nullableText. rewrite Hj. autorewrite with columns. reflexivity.
Qed.
Lemma update_assignments : assignments (health_update now h) = Ok updated_columns.
Proof.
  destruct Hok as (He & Hs & Ht & _). repeat (apply Forall_cons in Ht as [? Ht]).
  unfold health_update, updated_columns. repeat apply assignments_app; autorewrite with columns; try reflexivity.
  cbn. unfold jsonb, nullableText. rewrite Hj. autorewrite with columns. reflexivity.
Qed.

Definition new_health : gmap string sval := foldl assign ∅ inserted_columns.

Lemma text_value_or s : match text_value s with Some (SText x) => x | _ => "" end = s.
Proof. unfold text_value. by destruct (String.eqb_spec s "") as [->|]. Qed.

Lemma new_health_scope : scope_of new_health = health_scope h.
Proof. unfold scope_of, text_or, new_health. rewrite !foldl_assign_lookup. cbn. by rewrite !text_value_or. Qed.

Lemma updated_scope r : scope_of (foldl assign r updated_columns) = scope_of r.
Proof.
  unfold scope_of, text_or. rewrite !foldl_assign_lookup. unfold updated_columns.
  by destruct (IsZero (ch_LastSuccessAt h)), (IsZero (ch_LastErrorAt h)).
Qed.

(** What a row shows after the update, from what it showed before. *)
Definition updated_state (success error : option Time) : HealthState :=
  MkState (ch_Status h) (Some (ch_HeartbeatAt h)) (known (ch_LastSuccessAt h) success) (known (ch_LastErrorAt h) error)
    (ch_ErrorMessage h) (Some (SJson j)).

Lemma updated_view r : health_view (foldl assign r updated_columns) = updated_state (time_of r "last_success_at") (time_of r "last_error_at").
Proof.
  unfold health_view, text_or, time_of, updated_state, known. rewrite !foldl_assign_lookup. unfold updated_columns.
  destruct (IsZero (ch_LastSuccessAt h)), (IsZero (ch_LastErrorAt h)); cbn; by rewrite text_value_or.
Qed.

Lemma updated_new : health_view (foldl assign new_health updated_columns) = updated_state None None.
Proof.
  rewrite updated_view. unfold time_of, new_health. rewrite !foldl_assign_lookup. cbn. unfold time_value, updated_state, known.
  by destruct (IsZero (ch_LastSuccessAt h)), (IsZero (ch_LastErrorAt h)).
Qed.
End accepted.

(** ** Health: refinement *)

Lemma health_map_view rows : health_map rows = health_view <$> kmap scope_of rows.
Proof. unfold health_map, kmap. by rewrite <-list_to_map_fmap, <-list_fmap_compose. Qed.

Lemma update_health_scopes k set rows : (forall r, scope_of (foldl assign r set) = scope_of r) ->
  map scope_of (update_health k set rows) = map scope_of rows.
Proof. apply (keys_update_keys scope_of k (fun r => foldl assign r set)). Qed.

Lemma health_map_report new set k rows (state : option Time -> option Time -> HealthState) :
  scope_of new = k -> (forall r, scope_of (foldl assign r set) = scope_of r) -> NoDup (map scope_of rows) ->
  (forall r, health_view (foldl assign r set) = state (time_of r "last_success_at") (time_of r "last_error_at")) ->
  health_view (foldl assign new set) = state None None ->
  health_map (update_health k set (insert_health new rows))
  = <[k := let old := health_map rows !! k in state (old ≫= hs_success) (old ≫= hs_error)]> (health_map rows).
Proof.
  intros <- Hset Hn Hold Hfresh. rewrite !health_map_view.
  change (update_health (scope_of new) set) with (keys_update scope_of (scope_of new) (fun r => foldl assign r set)).
  change (insert_health new) with (keys_insert scope_of new).
  rewrite kmap_update, kmap_insert by (done || by apply keys_insert_nodup). rewrite lookup_fmap.
  destruct (kmap scope_of rows !! scope_of new) as [r|] eqn:E; cbn.
  - rewrite alter_alt, E, fmap_insert, Hold. done.
  - rewrite alter_insert_eq, fmap_insert. by rewrite Hfresh.
Qed.

Definition health_rows (db : Database) : list (gmap string sval) := db_rows db "collector_health".

Lemma health_rows_with db rows : health_rows (with_rows db "collector_health" rows) = rows.
Proof. reflexivity. Qed.

Lemma UpsertHealth_eq db now h j : report_ok now (with_heartbeat now h) ->
  ensureJSON (ch_Metrics (with_heartbeat now h)) = RawJson j ->
  let h' := with_heartbeat now h in
  let rows := insert_health (new_health now h' j) (health_rows db) in
  forall f1 f2, UpsertHealth db now f1 f2 h =
  match f1, f2 with
  | Some e, _ => (db, Some (wrap "insert collector health" e))
  | None, Some e => (with_rows db "collector_health" rows, Some (wrap "update collector health" e))
  | None, None => (with_rows (with_rows db "collector_health" rows) "collector_health"
                     (update_health (health_scope h') (updated_columns now h' j) rows), None)
  end.
Proof.
  intros Hok Hj h' rows f1 f2. unfold UpsertHealth. rewrite (insert_assignments _ _ j), (update_assignments _ _ j) by done.
  destruct f1, f2; reflexivity.
Qed.

Lemma report_ok_json now h : report_ok now h -> exists j, ensureJSON (ch_Metrics h) = RawJson j.
Proof. intros (_ & _ & _ & H). destruct (ensureJSON (ch_Metrics h)); try done. by eexists. Qed.

(** One accepted report on the table. *)
Lemma UpsertHealth_refines db now h : NoDup (map scope_of (health_rows db)) -> report_ok now (with_heartbeat now h) ->
  let r := UpsertHealth db now None None h in
  snd r = None /\ NoDup (map scope_of (health_rows (fst r))) /\
  health_map (health_rows (fst r)) = report now (health_map (health_rows db)) h.
Proof.
  intros Hn Hok. destruct (report_ok_json _ _ Hok) as [j Hj]. cbn zeta. rewrite (UpsertHealth_eq db now h j Hok Hj). cbn [fst snd].
  rewrite health_rows_with. split; [done|]. split.
  - rewrite update_health_scopes by apply updated_scope. by apply (keys_insert_nodup scope_of).
  - rewrite (health_map_report _ _ _ _ (updated_state (with_heartbeat now h) j) (new_health_scope now _ j) (updated_scope now _ j) Hn); [|apply updated_view|apply updated_new].
    unfold report, updated_state. by rewrite Hj.
Qed.

(** A report over one that was interrupted. *)
Lemma insert_health_twice new rows : insert_health new (insert_health new rows) = insert_health new rows.
Proof.
  unfold insert_health at 1. replace (existsb _ (insert_health new rows)) with true; [done|]. symmetry. apply existsb_exists.
  unfold insert_health. destruct (existsb _ rows) eqn:E.
  - by apply existsb_exists in E.
  - exists new. split; [apply in_or_app; right; by left|by apply bool_decide_true].
Qed.

Lemma repeated_report db now f1 f2 h : NoDup (map scope_of (health_rows db)) -> report_ok now (with_heartbeat now h) ->
  health_map (health_rows (fst (UpsertHealth (fst (UpsertHealth db now f1 f2 h)) now None None h)))
  = report now (health_map (health_rows db)) h.
Proof.
  intros Hn Hok. destruct (report_ok_json _ _ Hok) as [j Hj]. destruct f1 as [e|].
  - change (fst (UpsertHealth db now (Some e) f2 h)) with db. apply (UpsertHealth_refines db now h Hn Hok).
  - destruct f2 as [e|].
    + rewrite <-(proj2 (proj2 (UpsertHealth_refines db now h Hn Hok))).
      rewrite !(UpsertHealth_eq _ now h j Hok Hj). cbn [fst]. by rewrite !health_rows_with, insert_health_twice.
    + destruct (UpsertHealth_refines db now h Hn Hok) as (_ & Hn1 & Hm1).
      rewrite (proj2 (proj2 (UpsertHealth_refines _ now h Hn1 Hok))), Hm1. unfold report. rewrite lookup_insert_eq. cbn.
      rewrite insert_insert_eq. f_equal. unfold known.
      by destruct (IsZero (ch_LastSuccessAt (with_heartbeat now h))), (IsZero (ch_LastErrorAt (with_heartbeat now h))).
Qed.

(** Reports in sequence, each at its time. *)
Definition report_each (db : Database) (l : list (Time * CollectorHealth)) : Database :=
  foldl (fun db th => fst (UpsertHealth db (fst th) None None (snd th))) db l.

(** C18: health reports.  The two statements of a report implement one update of a finite map from
    (service, instance, exchange, data type) to the state last reported: after any sequence of
    accepted reports there is one row per scope, it shows the status, heartbeat, message and metrics
    of the last report and the times of the last success and of the last error, which a report
    without them leaves alone.  A report that was interrupted by a failure of either statement and is
    repeated has the effect of one report. *)
Theorem health_refines db l now f1 f2 h :
  NoDup (map scope_of (health_rows db)) -> Forall (fun th => report_ok (fst th) (with_heartbeat (fst th) (snd th))) l ->
  report_ok now (with_heartbeat now h) ->
  let db' := report_each db l in
  NoDup (map scope_of (health_rows db')) /\
  health_map (health_rows db') = foldl (fun m th => report (fst th) m (snd th)) (health_map (health_rows db)) l /\
  health_map (health_rows (fst (UpsertHealth (fst (UpsertHealth db' now f1 f2 h)) now None None h)))
  = report now (health_map (health_rows db')) h.
Proof.
  intros Hn Hl Hok. assert (NoDup (map scope_of (health_rows (report_each db l))) /\
    health_map (health_rows (report_each db l)) = foldl (fun m th => report (fst th) m (snd th)) (health_map (health_rows db)) l) as [Hn' Hm].
  { revert db Hn. induction Hl as [|[t g] l Hg _ IH]; intros db Hn; [done|]. unfold report_each. cbn [foldl fst snd].
    destruct (UpsertHealth_refines db t g Hn Hg) as (_ & Hn1 & Hm1). destruct (IH _ Hn1) as [Hn2 Hm2].
    split; [exact Hn2|]. unfold report_each in Hm2. by rewrite Hm2, Hm1. }
  cbn zeta. split_and!; [done|done|]. by apply repeated_report.
Qed.

Definition sample_report (status : string) (at_ : Time) (message : string) : CollectorHealth :=
  MkHealth "collector-service" "host-1" "okx" "kline" status at_ (if (status =? "healthy")%string then at_ else 0)
    (if (status =? "healthy")%string then 0 else at_) message RawEmpty.
Definition t0 : Time := Date 2024 1 1.

Lemma health_refines_witness :
  let db := MkDatabase (fun _ => []) (fun _ => no_fault) in
  let db' := report_each db [(t0, sample_report "healthy" t0 ""); (t0 + Minute, sample_report "degraded" (t0 + Minute) "timeout")] in
  NoDup (map scope_of (health_rows db')) /\
  health_map (health_rows db') !! ("collector-service", "host-1", "okx", "kline")
  = Some (MkState "degraded" (Some (t0 + Minute)) (Some t0) (Some (t0 + Minute)) "timeout" (Some (SJson (JObject [])))).
Proof.
  intros db db'.
  destruct (health_refines db
    [(t0, sample_report "healthy" t0 ""); (t0 + Minute, sample_report "degraded" (t0 + Minute) "timeout")]
    (t0 + Hour) (Some (pq "connection reset")) None (sample_report "healthy" (t0 + Hour) "")) as (Hn & Hm & _).
  - constructor.
  - repeat (apply Forall_cons; split; [split_and!; [reflexivity|refine (bool_decide_unpack _ _); vm_compute; exact I|refine (bool_decide_unpack _ _); vm_compute; exact I|exact I]|]).
    constructor.
  - split_and!; [reflexivity|refine (bool_decide_unpack _ _); vm_compute; exact I|refine (bool_decide_unpack _ _); vm_compute; exact I|exact I].
  - split; [exact Hn|]. unfold db'. rewrite Hm. vm_compute. reflexivity.
Defined.

(** ** The collector's reports and logs are accepted *)

Section collector.
Context {S : Type} (c : Collector S).

Lemma reportHealth_accepted w job status message at_ now :
  ToLower (job_Exchange job) = job_Exchange job -> status ∈ health_statuses ->
  timestamptz_ok now = true -> timestamptz_ok at_ = true ->
  exists l, w_health (reportHealth c w job status message at_) = (w_health w ++ l)%list /\
            Forall (fun h => report_ok now (with_heartbeat now h)) l.
Proof.
  intros He Hs Hnow Hat. unfold reportHealth. destruct (c_Health c); cbn [negb].
  - eexists. split; [reflexivity|]. constructor; [|constructor].
    assert (timestamptz_ok 0 = true) as H0 by reflexivity.
    unfold with_heartbeat. cbn [ch_HeartbeatAt]. destruct (IsZero at_); (split_and!; [done|done| |done]); cbn;
      repeat (apply Forall_cons; split; [by repeat case_match|]); constructor.
  - exists []. by rewrite app_nil_r.
Qed.

(** Whatever happens to a job, the reports its execution makes are ones the health table accepts. *)
Theorem collector_reports_accepted w t job now :
  ToLower (job_Exchange job) = job_Exchange job -> timestamptz_ok now = true ->
  timestamptz_ok (at_now t) = true -> timestamptz_ok (at_report t) = true ->
  exists l, w_health (fst (Execute c w t job)) = (w_health w ++ l)%list /\
            Forall (fun h => report_ok now (with_heartbeat now h)) l.
Proof.
  intros He Hnow Ha Hr.
  assert (forall w endpoint req resp d a, w_health (logRequest c w endpoint job req resp d a) = w_health w) as Hlog
    by (intros; unfold logRequest; by destruct (c_Logs c)).
  assert (forall w' status message at_, w_health w' = w_health w -> status ∈ health_statuses -> timestamptz_ok at_ = true ->
            exists l, w_health (reportHealth c w' job status message at_) = (w_health w ++ l)%list /\
                      Forall (fun h => report_ok now (with_heartbeat now h)) l) as Hrep
    by (intros w' status message at_ <- Hs Hat; by apply reportHealth_accepted).
  unfold Execute.
  repeat (case_match; cbn [fst]; try (apply Hrep; [by rewrite ?Hlog|by apply (bool_decide_unpack _)|done])).
Qed.
End collector.

(** ** Collection runs *)

Definition run_keys (db : Database) : list string := map (fun r => text_or r "run_key") (db_rows db "data_collection_runs").

Lemma run_is_text key r : run_is key r = true -> text_or r "run_key" = key.
Proof. unfold run_is, text_or. destruct (r !! "run_key") as [[]|]; cbn; try done. apply String.eqb_eq. Qed.

Lemma update_runs_keys key set rows : last_assigned set "run_key" = None ->
  map (fun r => text_or r "run_key") (update_runs key set rows) = map (fun r => text_or r "run_key") rows.
Proof.
  intros H. unfold update_runs. rewrite map_map. apply map_ext. intros r. destruct (run_is key r); [|done].
  unfold text_or. by rewrite foldl_assign_lookup, H.
Qed.

Lemma last_assigned_None set c : c ∉ map fst set -> last_assigned set c = None.
Proof.
  induction set as [|[k v] set IH]; [done|]. cbn [map fst last_assigned]. rewrite not_elem_of_cons. intros [Hk Hs].
  rewrite IH by done. by destruct (String.eqb_spec k c).
Qed.

(** The key column holds a text in every row. *)
Definition keyed_runs (db : Database) : Prop :=
  Forall (fun r => r !! "run_key" = Some (SText (text_or r "run_key"))) (db_rows db "data_collection_runs").

Lemma existsb_run_is key rows :
  Forall (fun r : gmap string sval => r !! "run_key" = Some (SText (text_or r "run_key"))) rows ->
  existsb (run_is key) rows = false -> key ∉ map (fun r => text_or r "run_key") rows.
Proof.
  intros Hk E Hin. apply list_elem_of_fmap in Hin as (r & -> & Hr). rewrite Forall_forall in Hk.
  apply not_true_iff_false in E. apply E, existsb_exists. exists r. split; [by apply list_elem_of_In|].
  unfold run_is. rewrite (Hk r Hr). cbn. apply String.eqb_refl.
Qed.

(** Starting and finishing runs keeps one row per run key. *)
Lemma runs_unique db now fault run key status metadata : keyed_runs db -> NoDup (run_keys db) ->
  NoDup (run_keys (fst (StartRun db now fault run))) /\ NoDup (run_keys (fst (FinishRun db now fault key status metadata))).
Proof.
  intros Hk Hn. split.
  - unfold StartRun. destruct fault; [done|].
    destruct (assignments (run_insert _ _)) as [new|] eqn:Ei; [|done].
    destruct (assignments (run_conflict _ _)) as [set|] eqn:Ec; [|done]. cbn [fst].
    unfold run_keys. cbn [with_rows db_rows]. rewrite String.eqb_refl.
    destruct (existsb _ _) eqn:Ex.
    + rewrite update_runs_keys; [done|]. apply last_assigned_None. rewrite (assignments_keys _ _ Ec).
      by apply (bool_decide_unpack _).
    + rewrite map_app. apply NoDup_app. split_and!; [done| |repeat constructor; apply not_elem_of_nil].
      intros x Hx ->%list_elem_of_singleton. apply existsb_run_is in Ex; [|done]. apply Ex.
      replace (cr_RunKey run) with (text_or (foldl assign ∅ new) "run_key"); [done|].
      pose proof (assignments_in _ _ "run_key" _ _ Ei ltac:(left) eq_refl) as Hin.
      pose proof (foldl_assign_holds new ∅ ltac:(rewrite (assignments_keys _ _ Ei); by apply (bool_decide_unpack _)) _ _ Hin) as Hl.
      unfold text_or. by rewrite Hl.
  - unfold FinishRun. destruct fault; [done|]. destruct (jsonb metadata); [|done]. destruct (negb _); [done|].
    destruct (assignments _) as [set|] eqn:Ef; [|done]. unfold run_keys. cbn [fst with_rows db_rows]. rewrite String.eqb_refl.
    rewrite update_runs_keys; [done|]. apply last_assigned_None. rewrite (assignments_keys _ _ Ef). by apply (bool_decide_unpack _).
Qed.

(** A run that is started again under its key keeps the time it finished and the counts of its first start. *)
Definition sample_run (at_ : Time) (planned : Z) : CollectionRun :=
  MkRun "k" "collector-service" "okx" "kline" "running" at_ 0 planned 0 0 0 RawEmpty.
Example restarted_run :
  let db := MkDatabase (fun _ => []) (fun _ => no_fault) in
  let db := fst (StartRun db t0 None (sample_run t0 10)) in
  let db := fst (FinishRun db (t0 + Hour) None "k" "succeeded" RawEmpty) in
  let db := fst (StartRun db (t0 + 2 * Hour) None (sample_run (t0 + 2 * Hour) 99)) in
  map (fun r => (text_or r "status", time_of r "started_at", time_of r "finished_at", r !! "symbols_planned")) (db_rows db "data_collection_runs")
  = [("running", Some (t0 + 2 * Hour), Some (t0 + Hour), Some (SInt 10))].
Proof. vm_compute. reflexivity. Qed.
