(* ===== verification/DataGaps.v ===== *)
(** * Gap detection ([internal/repositories/data_gaps.go])

    The data gap row and its key, the upsert, the kline detector (a window function over the open times
    of every series) and the stale detector.  PostgreSQL's [md5] and the text of a timestamp are
    parameters.  Proved: the kline detector records exactly the pairs of consecutive candles more than
    two intervals apart, keeps the backfill status of gaps it knew, and leaves other rows alone. *)

From S2P Require Import Prelude GoString GoTime GoFloat GoDuration Sha1 GoError GoJson ApiStore ApiSchema AggregateReads AggregateWrites AggregatePublish Monitoring.

(** [md5(text)] and [timestamptz::text] in the session's time zone. *)
Class PgFunctions := { md5 : string -> string; time_text : Time -> string }.

(** ** Gaps *)

Record DataGap := MkGap {
  dg_SymbolID : Z; dg_Exchange : string; dg_DataType : string; dg_Period : string; dg_GapStart : Time; dg_GapEnd : Time;
  dg_ExpectedIntervalSeconds : Z; dg_LastObservedAt : Time; dg_Metadata : RawMessage }.

Definition DataGapKey (g : DataGap) : string :=
  hex_EncodeToString (sha1_Sum (Itoa (dg_SymbolID g) +:+ "|" +:+ dg_Exchange g +:+ "|" +:+ dg_DataType g +:+ "|" +:+ dg_Period g +:+ "|" +:+
    FormatRFC3339 (dg_GapStart g) +:+ "|" +:+ FormatRFC3339 (dg_GapEnd g))).

(** A proposed row: its key and its columns. *)
Record proposed := MkProposed {
  pr_key : string; pr_symbol : Z; pr_exchange : string; pr_type : string; pr_period : option sval; pr_start : Time; pr_end : Time;
  pr_expected : option sval; pr_observed : option sval; pr_metadata : sval }.

(** The columns of [INSERT], with the defaults of [detected_at] and [backfill_status]. *)
Definition gap_insert (now : Time) (g : proposed) : list (string * option sval) :=
  [("gap_key", Some (SText (pr_key g))); ("symbol_id", Some (SInt (pr_symbol g))); ("exchange", Some (SText (pr_exchange g)));
   ("data_type", Some (SText (pr_type g))); ("period", pr_period g); ("gap_start", Some (STime (pr_start g)));
   ("gap_end", Some (STime (pr_end g))); ("expected_interval_seconds", pr_expected g); ("last_observed_at", pr_observed g);
   ("metadata", Some (pr_metadata g)); ("detected_at", Some (STime now)); ("backfill_status", Some (SText "pending"))].
(** [DO UPDATE SET]. *)
Definition gap_conflict (now : Time) (g : proposed) : list (string * option sval) :=
  [("gap_end", Some (STime (pr_end g))); ("detected_at", Some (STime now)); ("expected_interval_seconds", pr_expected g);
   ("last_observed_at", pr_observed g); ("metadata", Some (pr_metadata g))].

Definition gap_key_of (r : gmap string sval) : string := text_or r "gap_key".
Definition put_gap (now : Time) (rows : list (gmap string sval)) (g : proposed) : list (gmap string sval) :=
  if existsb (fun r => bool_decide (gap_key_of r = pr_key g)) rows
  then keys_update gap_key_of (pr_key g) (fun r => foldl assign r (gap_conflict now g)) rows
  else (rows ++ [foldl assign ∅ (gap_insert now g)])%list.

(** The constraints of the table on a row: lower-case exchange, ends in order, a known symbol. *)
Definition gap_refused (db : Database) (g : proposed) : option error :=
  if negb (ToLower (pr_exchange g) =? pr_exchange g)%string || (pr_end g <? pr_start g) then Some check_error else
  if negb (has_symbol db (pr_symbol g)) then Some (pq "insert or update on table violates foreign key constraint") else None.

(** One statement that proposes several rows: the first refusal fails it, and so does a key proposed
    twice. *)
Definition put_gaps (db : Database) (now : Time) (l : list proposed) (m : string) : Database * option error :=
  match omap (gap_refused db) l with
  | e :: _ => (db, Some (wrap m e))
  | [] =>
    if negb (bool_decide (NoDup (map pr_key l)))
    then (db, Some (wrap m (pq "ON CONFLICT DO UPDATE command cannot affect row a second time")))
    else (with_rows db "data_gaps" (foldl (put_gap now) (db_rows db "data_gaps") l), None)
  end.

(** [DataGapRepository.Upsert]; [clock] is the database's [now()]. *)
Definition UpsertGap (db : Database) (clock : Time) (fault : option error) (gap : DataGap) : Database * option error :=
  let m := "upsert data gap" in
  match fault, assignments [("gap_start", timestamptz (dg_GapStart gap)); ("gap_end", timestamptz (dg_GapEnd gap));
                            ("expected", integer (dg_ExpectedIntervalSeconds gap)); ("last_observed_at", nullableTime (dg_LastObservedAt gap));
                            ("metadata", jsonb (dg_Metadata gap))] with
  | Some e, _ | None, Err e => (db, Some (wrap m e))
  | None, Ok set =>
    put_gaps db clock
      [MkProposed (DataGapKey gap) (dg_SymbolID gap) (dg_Exchange gap) (dg_DataType gap) (text_value (dg_Period gap)) (dg_GapStart gap)
         (dg_GapEnd gap) (if dg_ExpectedIntervalSeconds gap =? 0 then None else Some (SInt (dg_ExpectedIntervalSeconds gap)))
         (time_value (dg_LastObservedAt gap))
         (match ensureJSON (dg_Metadata gap) with RawJson j => SJson j | _ => SJson (JObject []) end)] m
  end.

(** [jsonb_build_object('source_symbol', source_symbol, 'detector', name)]. *)
Definition detector_json (r : gmap string sval) (name : string) : sval :=
  SJson (JObject [("detector", JString name); ("source_symbol", JString (text_or r "source_symbol"))]).

Definition int_of (r : gmap string sval) (c : string) : Z := match r !! c with Some (SInt z) => z | _ => 0 end.
Definition time_at (r : gmap string sval) (c : string) : Time := match r !! c with Some (STime t) => t | _ => 0 end.

(** [PARTITION BY symbol_id, exchange]. *)
Definition series_of (r : gmap string sval) : Z * string := (int_of r "symbol_id", text_or r "exchange").
Definition partitions (rows : list (gmap string sval)) : list (list (gmap string sval)) :=
  map (fun k => List.filter (fun r => bool_decide (series_of r = k)) rows) (remove_dups (map series_of rows)).

(** [LAG(...) OVER (... ORDER BY open_time)]: each row of a partition with the row before it. *)
Definition with_previous (l : list (gmap string sval)) : list (option (gmap string sval) * gmap string sval) :=
  zip (None :: map Some l) l.

Section detectors.
Context `{HeapOrder} `{PgFunctions} (db : Database).

Definition kline_rows (interval : string) (start end_ : Time) : list (gmap string sval) :=
  List.filter (fun r => interval_is interval r && time_in "open_time" (fun t => (start <=? t) && (t <=? end_)) r)
    (heap (db_rows db "derivative_klines")).

Definition kline_key (r : gmap string sval) (interval : string) (previous : Time) : string :=
  md5 (Itoa (int_of r "symbol_id") +:+ text_or r "exchange" +:+ "kline" +:+ interval +:+ time_text previous +:+ time_text (time_at r "open_time")).

Definition kline_gaps (interval : string) (start end_ : Time) (seconds : Z) : list proposed :=
  flat_map (fun l => omap (fun pr =>
    match fst pr with
    | Some p =>
      let r := snd pr in
      if seconds * Second * 2 <? time_at r "open_time" - time_at p "open_time" then
        Some (MkProposed (kline_key r interval (time_at p "open_time")) (int_of r "symbol_id") (text_or r "exchange") "kline"
                (Some (SText interval)) (time_at p "open_time") (time_at r "open_time") (Some (SInt seconds))
                (Some (STime (time_at p "open_time"))) (detector_json r "kline_gap"))
      else None
    | None => None
    end) (with_previous (stable_sort (order_leb [asc "open_time"]) l)))
    (partitions (kline_rows interval start end_)).

(** [InsertKlineGaps]; [wall] is [time.Now()], [clock] the database's [now()]. *)
Definition InsertKlineGaps (clock wall : Time) (fault : option error) (interval : string) (expectedInterval lookback : Duration) (now : Time)
    : Database * option error :=
  let now := if IsZero now then wall else now in
  let start := Add now (wrap64 (- lookback)) in
  let seconds := f64_to_int64 (Seconds expectedInterval) in
  let m := "insert kline gaps" in
  match fault, assignments [("start", timestamptz start); ("end", timestamptz now); ("seconds", integer seconds)] with
  | Some e, _ | None, Err e => (db, Some (wrap m e))
  | None, Ok _ => put_gaps db clock (kline_gaps interval start now seconds) m
  end.

(** ** Stale series *)

Record latestStaleSpec := MkStaleSpec { ss_TableName : string; ss_TimeColumn : string }.

Definition staleSpec (dataType : string) : option latestStaleSpec :=
  if bool_decide (dataType ∈ ["ticker"; "market_snapshot"]) then Some (MkStaleSpec "derivative_market_snapshots" "snapshot_time") else
  if (dataType =? "open_interest")%string then Some (MkStaleSpec "open_interest_snapshots" "snapshot_time") else
  if (dataType =? "funding")%string then Some (MkStaleSpec "funding_rate_snapshots" "snapshot_time") else
  if (dataType =? "aggregated_snapshot")%string then Some (MkStaleSpec "derivative_aggregated_snapshots" "snapshot_time") else None.

(** What the server makes of [$3], which the statement first casts to text and then stores as a time. *)
Inductive param_type := ParamText | ParamTimestamptz.

(** The tables with a column for the exchange and the symbol of a row. *)
Definition per_exchange (table : string) : bool :=
  bool_decide (table ∈ ["derivative_market_snapshots"; "open_interest_snapshots"; "funding_rate_snapshots"]).

(** [SELECT DISTINCT ON (symbol_id, exchange) ... ORDER BY symbol_id, exchange, time DESC]. *)
Definition latest_rows (spec : latestStaleSpec) : list (gmap string sval) :=
  omap (fun l => head (stable_sort (order_leb [desc (ss_TimeColumn spec)]) l)) (partitions (heap (db_rows db (ss_TableName spec)))).

Definition stale_gaps (spec : latestStaleSpec) (dataType : string) (staleBefore now : Time) (seconds : Z) : list proposed :=
  omap (fun r =>
    let observed := time_at r (ss_TimeColumn spec) in
    if observed <? staleBefore then
      Some (MkProposed
              (md5 (Itoa (int_of r "symbol_id") +:+ text_or r "exchange" +:+ dataType +:+ time_text observed +:+ time_text now))
              (int_of r "symbol_id") (text_or r "exchange") dataType None observed now (Some (SInt seconds)) (Some (STime observed))
              (detector_json r "stale_latest"))
    else None) (latest_rows spec).

Definition InsertStaleLatestGaps (param3 : param_type) (clock wall : Time) (fault : option error) (dataType : string)
    (expectedInterval : Duration) (now : Time) : Database * option error :=
  let now := if IsZero now then wall else now in
  match staleSpec dataType with
  | None => (db, Some (ErrorString ("unsupported stale data type " +:+ Quote dataType)))
  | Some spec =>
    let staleBefore := Add now (wrap64 (-2 * expectedInterval)) in
    let seconds := f64_to_int64 (Seconds expectedInterval) in
    let m := "insert stale latest gaps" in
    match fault with
    | Some e => (db, Some (wrap m e))
    | None =>
      if negb (per_exchange (ss_TableName spec)) then (db, Some (wrap m (pq "column does not exist"))) else
      match param3 with
      | ParamText => (db, Some (wrap m (pq "column is of type timestamp with time zone but expression is of type text")))
      | ParamTimestamptz =>
        match assignments [("before", timestamptz staleBefore); ("now", timestamptz now); ("seconds", integer seconds)] with
        | Err e => (db, Some (wrap m e))
        | Ok _ => put_gaps db clock (stale_gaps spec dataType staleBefore now seconds) m
        end
      end
    end
  end.
End detectors.

(** ** Writing proposed rows *)

(** What a proposed row makes of the row stored under its key. *)
Definition gap_row (now : Time) (old : option (gmap string sval)) (g : proposed) : gmap string sval :=
  match old with Some r => foldl assign r (gap_conflict now g) | None => foldl assign ∅ (gap_insert now g) end.

Lemma gap_conflict_key now g r : gap_key_of (foldl assign r (gap_conflict now g)) = gap_key_of r.
Proof. unfold gap_key_of, text_or. by rewrite foldl_assign_lookup. Qed.
Lemma gap_insert_key now g : gap_key_of (foldl assign ∅ (gap_insert now g)) = pr_key g.
Proof. unfold gap_key_of, text_or. by rewrite foldl_assign_lookup. Qed.

Lemma put_gap_map now rows g : NoDup (map gap_key_of rows) ->
  NoDup (map gap_key_of (put_gap now rows g)) /\
  kmap gap_key_of (put_gap now rows g) = <[pr_key g := gap_row now (kmap gap_key_of rows !! pr_key g) g]> (kmap gap_key_of rows).
Proof.
  intros Hn. unfold put_gap. rewrite existsb_key. case_bool_decide as Hk.
  - rewrite keys_update_keys by apply gap_conflict_key. split; [done|].
    rewrite kmap_update, alter_alt by (done || apply gap_conflict_key).
    destruct (kmap gap_key_of rows !! pr_key g) eqn:E; [done|]. by apply kmap_lookup_None in E.
  - rewrite (proj2 (kmap_lookup_None gap_key_of rows (pr_key g))) by done. cbn [gap_row]. split.
    + rewrite map_app. cbn [map]. rewrite gap_insert_key. apply NoDup_app.
      split_and!; [done|by intros x Hx ->%list_elem_of_singleton|apply NoDup_singleton].
    + rewrite kmap_app; rewrite ?gap_insert_key; done.
Qed.

Lemma put_all_map now l rows : NoDup (map gap_key_of rows) -> NoDup (map pr_key l) ->
  let rows' := foldl (put_gap now) rows l in
  NoDup (map gap_key_of rows') /\
  (forall g, g ∈ l -> kmap gap_key_of rows' !! pr_key g = Some (gap_row now (kmap gap_key_of rows !! pr_key g) g)) /\
  (forall k, k ∉ map pr_key l -> kmap gap_key_of rows' !! k = kmap gap_key_of rows !! k).
Proof.
  revert rows. induction l as [|g l IH]; intros rows Hn Hl; cbn zeta.
  - split_and!; [done|by intros g Hg%elem_of_nil|done].
  - cbn [map] in Hl. apply NoDup_cons in Hl as [Hg Hl]. destruct (put_gap_map now rows g Hn) as [Hn1 Hm1].
    destruct (IH _ Hn1 Hl) as (Hn2 & Hin & Hout). cbn [foldl]. split_and!; [done| |].
    + intros g' [->|Hg']%elem_of_cons.
      * rewrite Hout, Hm1 by done. apply lookup_insert_eq.
      * rewrite Hin, Hm1 by done. rewrite lookup_insert_ne; [done|]. intros E. apply Hg. rewrite E.
        apply list_elem_of_fmap. by exists g'.
    + cbn [map]. intros k Hk%not_elem_of_cons. destruct Hk as [Hk1 Hk2]. rewrite Hout, Hm1 by done. by rewrite lookup_insert_ne.
Qed.

(** ** Consecutive rows *)

Lemma map_bind {A B C} (g : B -> C) (f : A -> list B) l : map g (l ≫= f) = l ≫= (fun x => map g (f x)).
Proof. induction l as [|x l IH]; [done|]. csimpl. by rewrite map_app, IH. Qed.


Lemma List_filter_sublist {A} (f : A -> bool) l : List.filter f l `sublist_of` l.
Proof. induction l as [|x l IH]; cbn; [constructor|]. destruct (f x); by constructor. Qed.

Lemma map_omap_sublist {A B C} (f : A -> option B) (g : B -> C) (h : A -> C) l :
  (forall x y, x ∈ l -> f x = Some y -> g y = h x) -> map g (omap f l) `sublist_of` map h l.
Proof.
  induction l as [|x l IH]; intros Hf; cbn; [constructor|].
  assert (map g (omap f l) `sublist_of` map h l) as Hs by (apply IH; intros z y Hz; apply Hf; by right).
  destruct (f x) as [y|] eqn:E; [|by constructor]. cbn. rewrite (Hf x y ltac:(left) E). by constructor.
Qed.

Lemma zip_previous {A} (o : option A) (l : list A) p r :
  (Some p, r) ∈ zip (o :: map Some l) l <-> (o = Some p /\ head l = Some r) \/ exists l1 l2, l = (l1 ++ p :: r :: l2)%list.
Proof.
  revert o. induction l as [|y l IH]; intros o.
  - cbn [map]. rewrite elem_of_nil. split; [done|]. intros [[_ ?]|(l1 & l2 & E)]; [done|]. by destruct l1.
  - change (zip (o :: map Some (y :: l)) (y :: l)) with ((o, y) :: zip (Some y :: map Some l) l).
    rewrite elem_of_cons, IH. cbn [head]. split.
    + intros [[= -> ->]|[[[= ->] Hh]|(l1 & l2 & ->)]]; [by left| |].
      * right. destruct l as [|z l]; [done|]. injection Hh as ->. by exists [], l.
      * right. by exists (y :: l1), l2.
    + intros [[-> [= ->]]|([|x l1] & l2 & [= -> ->])]; [by left| |].
      * right. left. done.
      * right. right. by exists l1, l2.
Qed.

Lemma with_previous_snd l : map snd (with_previous l) = l.
Proof.
  unfold with_previous. generalize (@None (gmap string sval)). induction l as [|y l IH]; intros o; [done|].
  change (y :: map snd (zip (Some y :: map Some l) l) = y :: l). f_equal. apply IH.
Qed.

(** In a strictly sorted list the neighbours are the pairs with nothing between them. *)
Lemma neighbours {A} (f : A -> Z) (l : list A) p r : StronglySorted (fun x y => f x < f y) l ->
  (exists l1 l2, l = (l1 ++ p :: r :: l2)%list) <->
  p ∈ l /\ r ∈ l /\ f p < f r /\ forall z, z ∈ l -> ~ f p < f z < f r.
Proof.
  intros Hs. split.
  - intros (l1 & l2 & ->). split_and!.
    + apply elem_of_app. right. left.
    + apply elem_of_app. right. right. left.
    + apply StronglySorted_app_1_r in Hs. apply StronglySorted_inv in Hs as [_ Hs]. by apply Forall_cons in Hs as [? _].
    + intros z Hz [Hpz Hzr]. apply elem_of_app in Hz as [Hz|Hz].
      * pose proof (StronglySorted_app_1_elem_of _ _ _ z p Hs Hz ltac:(left)) as Hlt. cbn in Hlt. lia.
      * apply StronglySorted_app_1_r in Hs. apply elem_of_cons in Hz as [->|Hz]; [lia|].
        apply StronglySorted_inv in Hs as [Hs _]. apply elem_of_cons in Hz as [->|Hz]; [lia|].
        apply StronglySorted_inv in Hs as [_ Hs]. rewrite Forall_forall in Hs. apply Hs in Hz. lia.
  - intros (Hp & Hr & Hpr & Hno). apply list_elem_of_split in Hp as (l1 & l2 & ->). exists l1.
    assert (r ∈ l2) as Hr2.
    { apply elem_of_app in Hr as [Hr|Hr].
      - pose proof (StronglySorted_app_1_elem_of _ _ _ r p Hs Hr ltac:(left)) as Hlt. cbn in Hlt. lia.
      - apply elem_of_cons in Hr as [->|Hr]; [lia|done]. }
    apply StronglySorted_app_1_r in Hs. apply StronglySorted_inv in Hs as [Hs Hpl]. destruct l2 as [|y l2]; [by apply elem_of_nil in Hr2|].
    exists l2. apply elem_of_cons in Hr2 as [->|Hr2]; [done|]. exfalso.
    apply StronglySorted_inv in Hs as [_ Hy]. rewrite Forall_forall in Hpl, Hy.
    apply (Hno y); [apply elem_of_app; right; right; left|]. split; [apply Hpl; left|by apply Hy].
Qed.

(** ** The kline detector *)

(** The rows of [derivative_klines] as the migrations constrain them: typed columns, lower-case exchange,
    a known symbol, and a unique index on symbol, exchange, interval and open time. *)
Record candle_ok (db : Database) (r : gmap string sval) : Prop := MkCandleOk {
  co_symbol : r !! "symbol_id" = Some (SInt (int_of r "symbol_id"));
  co_exchange : r !! "exchange" = Some (SText (text_or r "exchange"));
  co_interval : r !! "interval" = Some (SText (text_or r "interval"));
  co_time : r !! "open_time" = Some (STime (time_at r "open_time"));
  co_lower : ToLower (text_or r "exchange") = text_or r "exchange";
  co_known : has_symbol db (int_of r "symbol_id") = true }.

Definition open_time (r : gmap string sval) : Time := time_at r "open_time".

Record klines_ok (db : Database) : Prop := MkKlinesOk {
  ko_rows : Forall (candle_ok db) (db_rows db "derivative_klines");
  ko_unique : NoDup (map (fun r => (series_of r, text_or r "interval", open_time r)) (db_rows db "derivative_klines")) }.

(** A candle of a series in the window. *)
Definition candle (db : Database) (interval : string) (start end_ : Time) (s : Z * string) (r : gmap string sval) : Prop :=
  r ∈ db_rows db "derivative_klines" /\ series_of r = s /\ text_or r "interval" = interval /\ start <= open_time r <= end_.

(** Two candles of a series with none between them, more than two intervals apart. *)
Definition is_gap (db : Database) (interval : string) (start end_ : Time) (seconds : Z) (p r : gmap string sval) : Prop :=
  candle db interval start end_ (series_of r) p /\ candle db interval start end_ (series_of r) r /\
  seconds * Second * 2 < open_time r - open_time p /\ open_time p < open_time r /\
  forall z, candle db interval start end_ (series_of r) z -> ~ open_time p < open_time z < open_time r.

Section kline_detector.
Context `{HeapOrder} `{PgFunctions} (db : Database) (interval : string) (start end_ : Time) (seconds : Z).
Hypothesis Hok : klines_ok db.

Lemma elem_of_kline_rows r : r ∈ kline_rows db interval start end_ <-> candle db interval start end_ (series_of r) r.
Proof.
  unfold kline_rows, candle. rewrite list_elem_of_In, filter_In, <-list_elem_of_In. rewrite heap_perm.
  split.
  - intros [Hr Hf]. pose proof (ko_rows _ Hok) as HF. rewrite Forall_forall in HF. destruct (HF r Hr).
    apply andb_true_iff in Hf as [Hi Ht]. unfold interval_is in Hi. unfold time_in in Ht. rewrite co_interval0 in Hi. rewrite co_time0 in Ht.
    apply String.eqb_eq in Hi. unfold open_time. bool_to_prop. done.
  - intros (Hr & _ & Hi & Ht). split; [done|]. pose proof (ko_rows _ Hok) as HF. rewrite Forall_forall in HF. destruct (HF r Hr).
    unfold interval_is, time_in. rewrite co_interval0, co_time0, Hi, String.eqb_refl. unfold open_time in Ht. cbn.
    apply andb_true_iff. split; apply Z.leb_le; lia.
Qed.

Lemma kline_row_ok r : r ∈ kline_rows db interval start end_ -> candle_ok db r.
Proof.
  intros (Hr & _)%elem_of_kline_rows. pose proof (ko_rows _ Hok) as HF. rewrite Forall_forall in HF. by apply HF.
Qed.

Lemma order_open_time a b : candle_ok db a -> candle_ok db b ->
  order_leb [asc "open_time"] a b = (open_time a <=? open_time b).
Proof.
  intros Ha Hb. cbn [order_leb]. unfold key_leb. cbn [ok_column ok_desc ok_nulls_last asc].
  rewrite (co_time _ _ Ha), (co_time _ _ Hb). cbn [sval_leb]. by rewrite orb_true_r, andb_true_r.
Qed.

Lemma kline_rows_unique : NoDup (map (fun r => (series_of r, open_time r)) (kline_rows db interval start end_)).
Proof.
  assert (NoDup (kline_rows db interval start end_)) as Hnd.
  { unfold kline_rows. apply NoDup_ListNoDup, List.NoDup_filter, NoDup_ListNoDup. rewrite heap_perm.
    apply (NoDup_fmap_1 (fun r => (series_of r, text_or r "interval", open_time r))). apply (ko_unique _ Hok). }
  apply NoDup_fmap_2_strong; [|done]. intros x y Hx Hy E.
  pose proof (f_equal fst E) as Es. pose proof (f_equal snd E) as Et. cbn [fst snd] in Es, Et.
  apply elem_of_kline_rows in Hx as (Hx & _ & Ix & _), Hy as (Hy & _ & Iy & _).
  apply list_elem_of_lookup in Hx as [i Hi], Hy as [k Hk]. pose proof (ko_unique _ Hok) as Hu.
  assert (i = k) as <-; [|congruence]. eapply (NoDup_lookup _ i k (series_of x, text_or x "interval", open_time x) Hu).
  - by rewrite list_lookup_fmap, Hi.
  - rewrite list_lookup_fmap, Hk. cbn [fmap option_fmap option_map]. by rewrite Es, Et, Ix, Iy.
Qed.

(** One series, sorted. *)
Definition series_rows (k : Z * string) : list (gmap string sval) :=
  stable_sort (order_leb [asc "open_time"]) (List.filter (fun r => bool_decide (series_of r = k)) (kline_rows db interval start end_)).

Lemma elem_of_series k r : r ∈ series_rows k <-> candle db interval start end_ k r.
Proof.
  unfold series_rows. rewrite elem_of_stable_sort, list_elem_of_In, filter_In, <-list_elem_of_In, bool_decide_eq_true.
  rewrite elem_of_kline_rows. unfold candle. naive_solver.
Qed.

Lemma series_unique k : NoDup (map open_time (series_rows k)).
Proof.
  assert (NoDup (map (fun r => (series_of r, open_time r)) (series_rows k))) as Hn.
  { unfold series_rows. rewrite (Permutation_map _ (stable_sort_perm _ _)).
    eapply sublist_NoDup; [apply kline_rows_unique|]. apply fmap_sublist. apply List_filter_sublist. }
  apply (NoDup_fmap_1 (fun t => (k, t))). rewrite <-list_fmap_compose.
  replace ((fun t => (k, t)) ∘ open_time <$> series_rows k) with (map (fun r => (series_of r, open_time r)) (series_rows k)); [done|].
  apply map_ext_in. intros r Hr%list_elem_of_In. apply elem_of_series in Hr as (_ & <- & _). done.
Qed.

Lemma series_sorted k : StronglySorted (fun x y => open_time x < open_time y) (series_rows k).
Proof.
  assert (Forall (candle_ok db) (series_rows k)) as Hall.
  { apply Forall_forall. intros r Hr. apply kline_row_ok, elem_of_kline_rows. apply elem_of_series in Hr as Hc.
    destruct Hc as (? & <- & ? & ?). unfold candle. split_and!; try done; lia. }
  assert (StronglySorted (fun x y => order_leb [asc "open_time"] x y = true) (series_rows k)) as Hs
    by (apply stable_sort_sorted; [apply order_leb_total|apply order_leb_trans]).
  pose proof (series_unique k) as Hu. revert Hs Hall Hu. generalize (series_rows k). intros l.
  induction l as [|x l IH]; intros Hs Hall Hu; constructor.
  - apply StronglySorted_inv in Hs as [Hs _]. apply Forall_cons in Hall as [_ Hall]. cbn in Hu. apply NoDup_cons in Hu as [_ Hu]. by apply IH.
  - apply StronglySorted_inv in Hs as [_ Hs]. apply Forall_cons in Hall as [Hx Hall]. cbn in Hu. apply NoDup_cons in Hu as [Hnx _].
    rewrite Forall_forall in Hs, Hall |- *. intros y Hy. pose proof (Hs y Hy) as Hle. rewrite order_open_time in Hle by auto.
    assert (open_time x <> open_time y) by (intros E; apply Hnx; rewrite E; by apply list_elem_of_fmap_2). bool_to_prop. lia.
Qed.


(** The proposed rows, series by series. *)
Definition gap_between (p r : gmap string sval) : proposed :=
  MkProposed (kline_key r interval (open_time p)) (int_of r "symbol_id") (text_or r "exchange") "kline" (Some (SText interval))
    (open_time p) (open_time r) (Some (SInt seconds)) (Some (STime (open_time p))) (detector_json r "kline_gap").
Definition series_gaps (k : Z * string) : list proposed :=
  omap (fun pr => match fst pr with
                  | Some p => if seconds * Second * 2 <? open_time (snd pr) - open_time p then Some (gap_between p (snd pr)) else None
                  | None => None
                  end) (with_previous (series_rows k)).

Lemma kline_gaps_series : kline_gaps db interval start end_ seconds
  = remove_dups (map series_of (kline_rows db interval start end_)) ≫= series_gaps.
Proof.
  unfold kline_gaps, partitions. induction (remove_dups _) as [|k ks IH]; [done|]. cbn [map flat_map]. rewrite IH. done.
Qed.

Lemma elem_of_series_gaps k g : g ∈ series_gaps k <->
  exists p r, series_of r = k /\ is_gap db interval start end_ seconds p r /\ g = gap_between p r.
Proof.
  unfold series_gaps. rewrite list_elem_of_omap.
  assert (forall p r, (Some p, r) ∈ with_previous (series_rows k) <->
            candle db interval start end_ k p /\ candle db interval start end_ k r /\ open_time p < open_time r /\
            forall z, candle db interval start end_ k z -> ~ open_time p < open_time z < open_time r) as Hpair.
  { intros p r. unfold with_previous. rewrite zip_previous. rewrite (neighbours open_time) by apply series_sorted.
    setoid_rewrite elem_of_series. naive_solver. }
  split.
  - intros ([[p|] r] & Hpr & Hg); cbn [fst snd] in Hg; [|done]. apply Hpair in Hpr as (Hp & Hr & Hlt & Hno).
    destruct (Z.ltb_spec (seconds * Second * 2) (open_time r - open_time p)) as [Hw|]; [|done]. injection Hg as <-.
    pose proof (proj1 (proj2 Hr)) as E. exists p, r. unfold is_gap. rewrite E. by split_and!.
  - intros (p & r & E & (Hp & Hr & Hw & Hlt & Hno) & ->). rewrite E in Hp, Hr, Hno. exists (Some p, r).
    split; [by apply Hpair|]. cbn [fst snd]. by rewrite (proj2 (Z.ltb_lt _ _) Hw).
Qed.

Lemma elem_of_kline_gaps g : g ∈ kline_gaps db interval start end_ seconds <->
  exists p r, is_gap db interval start end_ seconds p r /\ g = gap_between p r.
Proof.
  rewrite kline_gaps_series, list_elem_of_bind. setoid_rewrite elem_of_series_gaps. split.
  - intros (k & (p & r & _ & Hg & ->) & _). eauto.
  - intros (p & r & Hg & ->). exists (series_of r). split; [eauto|]. apply elem_of_remove_dups, list_elem_of_fmap.
    exists r. split; [done|]. apply elem_of_kline_rows, Hg.
Qed.

(** A gap is proposed once: its series and its end identify it. *)
Definition gap_place (g : proposed) : (Z * string) * Time := (pr_symbol g, pr_exchange g, pr_end g).

Lemma kline_gaps_nodup : NoDup (map gap_place (kline_gaps db interval start end_ seconds)).
Proof.
  rewrite kline_gaps_series.
  rewrite map_bind.
  assert (forall k x, x ∈ map gap_place (series_gaps k) -> fst x = k) as Hfst.
  { intros k x (g & -> & (p & r & <- & _ & ->)%elem_of_series_gaps)%list_elem_of_fmap. done. }
  apply NoDup_bind; [| |apply NoDup_remove_dups].
  - intros k1 k2 x _ _ H1%Hfst H2%Hfst. congruence.
  - intros k _. eapply sublist_NoDup; [|apply (map_omap_sublist _ gap_place (fun pr => (series_of (snd pr), open_time (snd pr))))].
    + rewrite <-(map_map snd (fun r => (series_of r, open_time r))), with_previous_snd.
      apply (NoDup_fmap_1 snd). rewrite <-list_fmap_compose. apply series_unique.
    + intros [[p|] r] g _; cbn [fst snd]; [|done]. case_match; [|done]. by intros [= <-].
Qed.
End kline_detector.

(** A time between two elements of a sorted list, and equal to none, lies between neighbours. *)
Lemma neighbours_around {A} (f : A -> Z) (t : Z) (l : list A) : StronglySorted (fun x y => f x < f y) l ->
  (exists x, x ∈ l /\ f x < t) -> (exists y, y ∈ l /\ t < f y) -> (forall z, z ∈ l -> f z <> t) ->
  exists l1 p r l2, l = (l1 ++ p :: r :: l2)%list /\ f p < t < f r.
Proof.
  induction l as [|a l IH]; intros Hs (x & Hx & Hxt) (y & Hy & Hyt) Hne; [by apply elem_of_nil in Hx|].
  apply StronglySorted_inv in Hs as [Hs Ha]. rewrite Forall_forall in Ha.
  assert (f a < t) as Hat by (apply elem_of_cons in Hx as [->|Hx%Ha]; [done|lia]).
  assert (y ∈ l) as Hyl by (apply elem_of_cons in Hy as [->|]; [lia|done]).
  destruct l as [|b l]; [by apply elem_of_nil in Hyl|]. destruct (Z.lt_trichotomy (f b) t) as [Hb|[Hb|Hb]].
  - destruct IH as (l1 & p & r & l2 & -> & Hpr); [done|exists b; split; [left|done]|by exists y|intros z Hz; apply Hne; by right|].
    by exists (a :: l1), p, r, l2.
  - destruct (Hne b); [right; left|done].
  - by exists [], a, b, l.
Qed.

Definition gap_rows (db : Database) : list (gmap string sval) := db_rows db "data_gaps".
Definition window_start (now : Time) (lookback : Duration) : Time := Add now (wrap64 (- lookback)).
Definition interval_seconds (d : Duration) : Z := f64_to_int64 (Seconds d).

Section kline_theorem.
Context `{HeapOrder} `{PgFunctions} (db : Database) (interval : string) (expected lookback : Duration) (now : Time).

Abbreviation start := (window_start now lookback) (only parsing).
Abbreviation seconds := (interval_seconds expected) (only parsing).

(** The inputs the statement accepts, and a digest that tells the gaps of the window apart. *)
Record detectable : Prop := MkDetectable {
  de_klines : klines_ok db;
  de_gaps : NoDup (map gap_key_of (gap_rows db));
  de_now : IsZero now = false /\ timestamptz_ok now = true;
  de_start : timestamptz_ok start = true;
  de_seconds : 0 <= seconds < 2 ^ 31;
  de_digest : forall p r p' r', is_gap db interval start now seconds p r -> is_gap db interval start now seconds p' r' ->
    kline_key r interval (open_time p) = kline_key r' interval (open_time p') ->
    series_of r = series_of r' /\ open_time r = open_time r' }.

Lemma NoDup_keys : detectable -> NoDup (map pr_key (kline_gaps db interval start now seconds)).
Proof.
  intros [Hk _ _ _ _ Hd]. pose proof (kline_gaps_nodup db interval start now seconds Hk) as Hn.
  apply NoDup_fmap_2_strong; [|by apply NoDup_fmap_1 in Hn].
  intros g g' Hg Hg' E. assert (gap_place g = gap_place g') as Ep.
  { apply elem_of_kline_gaps in Hg as (p & r & Hpr & ->), Hg' as (p' & r' & Hpr' & ->); [|done..].
    cbn [pr_key gap_between] in E. destruct (Hd _ _ _ _ Hpr Hpr' E) as [Es Et]. unfold gap_place. cbn.
    unfold series_of in Es. by injection Es as -> ->; rewrite Et. }
  apply list_elem_of_lookup in Hg as [i Hi], Hg' as [k Hk'].
  assert (i = k) as <-; [|congruence]. apply (NoDup_lookup _ i k (gap_place g) Hn); rewrite list_lookup_fmap; [by rewrite Hi|].
  rewrite Hk'. cbn. by rewrite Ep.
Qed.

Lemma kline_gaps_accepted : klines_ok db -> omap (gap_refused db) (kline_gaps db interval start now seconds) = [].
Proof.
  intros Hk. apply elem_of_nil_inv. intros e (g & Hg & Hr)%list_elem_of_omap.
  apply elem_of_kline_gaps in Hg as (p & r & (Hp & Hc & Hw & Hlt & _) & ->); [|done].
  pose proof (ko_rows _ Hk) as HF. rewrite Forall_forall in HF. destruct (HF r (proj1 Hc)).
  unfold gap_refused in Hr. cbn [gap_between pr_exchange pr_start pr_end pr_symbol] in Hr.
  rewrite co_lower0, String.eqb_refl, co_known0 in Hr. cbn [negb orb] in Hr.
  destruct (Z.ltb_spec (open_time r) (open_time p)); [lia|done].
Qed.

Lemma InsertKlineGaps_eq clock wall : detectable ->
  InsertKlineGaps db clock wall None interval expected lookback now
  = (with_rows db "data_gaps" (foldl (put_gap clock) (gap_rows db) (kline_gaps db interval start now seconds)), None).
Proof.
  intros Hd. pose proof (NoDup_keys Hd) as Hn. destruct Hd as [Hk _ [Hz Hnow] Hstart Hsec _].
  unfold InsertKlineGaps. rewrite Hz. fold (window_start now lookback) (interval_seconds expected).
  unfold timestamptz, integer. rewrite Hnow, Hstart. replace ((_ <=? _) && (_ <? _)) with true by (symmetry; apply andb_true_iff; split; [apply Z.leb_le|apply Z.ltb_lt]; lia).
  cbn [assignments]. unfold put_gaps. rewrite kline_gaps_accepted by done. by rewrite bool_decide_true.
Qed.

(** What a stored gap shows of its detection. *)
Definition shows_gap (g p r : gmap string sval) : Prop :=
  time_of g "gap_end" = Some (open_time r) /\ time_of g "last_observed_at" = Some (open_time p) /\
  g !! "expected_interval_seconds" = Some (SInt seconds) /\ g !! "metadata" = Some (detector_json r "kline_gap").

(** C19: kline gaps.  Over a look-back window, the detector stores for every two consecutive candles of a
    series that lie more than two intervals apart one gap, from the first to the second: a gap it did
    not know is pending and starts at the first candle, one it knew keeps its start and its backfill
    status; no other stored gap changes.  Every instant between two candles of a series of the window
    that is more than one interval away from each of its candles lies inside a stored gap; of the time
    before the first and after the last candle of a series in the window no gap is detected, however
    long the series has been silent. *)
Theorem kline_gaps_exact clock wall : detectable ->
  let r := InsertKlineGaps db clock wall None interval expected lookback now in
  let old := kmap gap_key_of (gap_rows db) in let new := kmap gap_key_of (gap_rows (fst r)) in
  snd r = None /\ NoDup (map gap_key_of (gap_rows (fst r))) /\
  (forall p c, is_gap db interval start now seconds p c ->
     exists g, new !! kline_key c interval (open_time p) = Some g /\ shows_gap g p c /\
       match old !! kline_key c interval (open_time p) with
       | Some o => g !! "backfill_status" = o !! "backfill_status" /\ g !! "gap_start" = o !! "gap_start"
       | None => g !! "backfill_status" = Some (SText "pending") /\ time_of g "gap_start" = Some (open_time p) /\ series_of g = series_of c
       end) /\
  (forall k, (forall p c, is_gap db interval start now seconds p c -> k <> kline_key c interval (open_time p)) -> new !! k = old !! k) /\
  (forall s t, (exists a, candle db interval start now s a /\ open_time a < t) -> (exists b, candle db interval start now s b /\ t < open_time b) ->
     (forall z, candle db interval start now s z -> seconds * Second < Z.abs (open_time z - t)) ->
     exists p c, is_gap db interval start now seconds p c /\ series_of c = s /\ open_time p < t < open_time c) /\
  (forall s t, (forall z, candle db interval start now s z -> open_time z <= t) \/ (forall z, candle db interval start now s z -> t <= open_time z) ->
     forall p c, is_gap db interval start now seconds p c -> series_of c = s -> open_time c <= t \/ t <= open_time p).
Proof.
  intros Hd. pose proof (NoDup_keys Hd) as Hnk. cbn zeta. rewrite InsertKlineGaps_eq by done. cbn [fst snd].
  destruct Hd as [Hk Hg _ _ Hsec _]. destruct (put_all_map clock _ (gap_rows db) Hg Hnk) as (Hn & Hin & Hout).
  change (gap_rows (with_rows db "data_gaps" ?rows)) with rows.
  split_and!; [done|exact Hn| | | |].
  - intros p c Hpc. pose proof (Hin (gap_between interval seconds p c)) as E. cbn [pr_key gap_between] in E.
    rewrite E by (apply elem_of_kline_gaps; [done|eauto]). clear E. eexists. split; [done|]. split.
    + unfold shows_gap, time_of. destruct (kmap gap_key_of (gap_rows db) !! _) as [o|]; cbn [gap_row]; rewrite !foldl_assign_lookup; by split_and!.
    + destruct (kmap gap_key_of (gap_rows db) !! _) as [o|]; cbn [gap_row].
      * rewrite !foldl_assign_lookup. done.
      * unfold time_of, series_of, int_of, text_or. rewrite !foldl_assign_lookup. done.
  - intros k Hk'. apply Hout. intros (g & -> & Hg')%list_elem_of_fmap.
    apply elem_of_kline_gaps in Hg' as (p & c & Hpc & ->); [|done]. by apply (Hk' p c Hpc).
  - intros s t (a & Ha & Hat) (b & Hb & Hbt) Hfar. setoid_rewrite <-(elem_of_series db interval start now Hk s) in Hfar.
    destruct (neighbours_around open_time t (series_rows db interval start now s)) as (l1 & p & c & l2 & E & Ht);
      [by apply series_sorted|exists a; by rewrite elem_of_series|exists b; by rewrite elem_of_series| |].
    { intros z Hz Ez. specialize (Hfar z Hz). rewrite Ez, Z.sub_diag in Hfar. unfold Second in Hfar. cbn in Hfar. lia. }
    destruct (proj1 (neighbours open_time _ p c (series_sorted db interval start now Hk s)) (ex_intro _ l1 (ex_intro _ l2 E)))
      as (Hp & Hc & Hlt & Hno).
    pose proof (Hfar p Hp) as Fp. pose proof (Hfar c Hc) as Fc. setoid_rewrite elem_of_series in Hno; [|done].
    apply elem_of_series in Hp, Hc; [|done..]. pose proof (proj1 (proj2 Hc)) as Es. exists p, c. unfold is_gap. rewrite Es.
    split_and!; try done; lia.
  - intros s t [Ht|Ht] p c (Hp & Hc & _) <-; [left; exact (Ht c Hc)|right; exact (Ht p Hp)].
Qed.
End kline_theorem.

(** ** Examples *)

Definition sample_candle (t : Time) : gmap string sval :=
  list_to_map [("symbol_id", SInt 1); ("exchange", SText "okx"); ("interval", SText "5m"); ("open_time", STime t); ("source_symbol", SText "BTC-USDT")].
Definition candles_db (l : list Time) : Database :=
  MkDatabase (fun n => if (n =? "derivative_klines")%string then map sample_candle l else
                       if (n =? "symbols")%string then [{[ "id" := SInt 1 ]}] else []) (fun _ => no_fault).
Definition plain_text : PgFunctions := {| md5 s := s; time_text := Itoa |}.

Definition holed : Database := candles_db [t0; t0 + 5 * Minute; t0 + 30 * Minute].
Definition sample_now : Time := t0 + Hour.

Lemma holed_detectable : @detectable plain_text holed "5m" (5 * Minute) Hour sample_now.
Proof.
  constructor.
  - constructor.
    + repeat (apply Forall_cons; split; [constructor; reflexivity|]). constructor.
    + refine (bool_decide_unpack _ _). vm_compute. exact I.
  - constructor.
  - split; reflexivity.
  - reflexivity.
  - split; vm_compute; congruence.
  - intros p r p' r' (Hp & Hr & Hw & _) (Hp' & Hr' & Hw' & _) _.
    assert (forall p r, candle holed "5m" (window_start sample_now Hour) sample_now (series_of r) p ->
              candle holed "5m" (window_start sample_now Hour) sample_now (series_of r) r ->
              interval_seconds (5 * Minute) * Second * 2 < open_time r - open_time p ->
              series_of r = (1, "okx") /\ open_time r = t0 + 30 * Minute) as Hu.
    { clear. intros p r (Hp & _) (Hr & _) Hw. cbn in Hp, Hr. repeat (rewrite elem_of_cons in Hp; rewrite elem_of_cons in Hr).
      rewrite elem_of_nil in Hp, Hr.
      destruct Hr as [->|[->|[->|[]]]]; destruct Hp as [->|[->|[->|[]]]]; try (split; reflexivity);
        exfalso; revert Hw; vm_compute; congruence. }
    destruct (Hu _ _ Hp Hr Hw) as [-> ->], (Hu _ _ Hp' Hr' Hw') as [-> ->]. done.
Qed.

Lemma candle_sample l start end_ t : t ∈ l -> start <= t <= end_ ->
  candle (candles_db l) "5m" start end_ (1, "okx") (sample_candle t).
Proof. intros Hl Ht. split_and!; [apply (list_elem_of_fmap_2 sample_candle), Hl|reflexivity|reflexivity|apply Ht|apply Ht]. Qed.

Lemma kline_gaps_exact_witness :
  let r := InsertKlineGaps (H:=in_place) (H0:=plain_text) holed t0 t0 None "5m" (5 * Minute) Hour sample_now in
  snd r = None /\
  exists g, g ∈ gap_rows (fst r) /\ g !! "backfill_status" = Some (SText "pending") /\ time_of g "gap_start" = Some (t0 + 5 * Minute) /\
            time_of g "gap_end" = Some (t0 + 30 * Minute).
Proof.
  destruct (kline_gaps_exact (H:=in_place) (H0:=plain_text) holed "5m" (5 * Minute) Hour sample_now t0 t0 holed_detectable)
    as (He & Hn & Hin & _).
  split; [exact He|].
  destruct (Hin (sample_candle (t0 + 5 * Minute)) (sample_candle (t0 + 30 * Minute))) as (g & Hg & (Hend & _) & Hs & Hstart & _).
  - split_and!; [apply candle_sample; [apply (bool_decide_unpack _); exact I|split; vm_compute; congruence]..|reflexivity|reflexivity|].
    intros z (Hz & _). apply list_elem_of_fmap in Hz as (t & -> & Ht). change (open_time (sample_candle ?x)) with x.
    repeat (apply elem_of_cons in Ht as [->|Ht]; [unfold Minute, Second; lia|]). by apply elem_of_nil in Ht.
  - exists g. apply kmap_lookup in Hg as [Hg _]; [|exact Hn]. split_and!; [exact Hg|exact Hs|exact Hstart|exact Hend].
Defined.

(** One missing candle leaves its neighbours exactly two intervals apart, and is not a gap; two missing
    candles are. *)
Example one_missing_candle :
  kline_gaps (H:=in_place) (H0:=plain_text) (candles_db [t0; t0 + 5 * Minute; t0 + 15 * Minute]) "5m" t0 sample_now 300 = [] /\
  length (kline_gaps (H:=in_place) (H0:=plain_text) (candles_db [t0; t0 + 5 * Minute; t0 + 20 * Minute]) "5m" t0 sample_now 300) = 1%nat.
Proof. split; vm_compute; reflexivity. Qed.

(** In general: as long as no two candles in a row of a series are missing, nothing is reported. *)
Lemma single_misses_unreported `{HeapOrder} `{PgFunctions} db interval start end_ seconds : klines_ok db ->
  (forall r, candle db interval start end_ (series_of r) r -> forall p, candle db interval start end_ (series_of r) p -> open_time p < open_time r ->
     exists z, candle db interval start end_ (series_of r) z /\ open_time p <= open_time z < open_time r /\ open_time r - open_time z <= 2 * (seconds * Second)) ->
  kline_gaps db interval start end_ seconds = [].
Proof.
  intros Hk Hdense. apply elem_of_nil_inv. intros g (p & r & (Hp & Hr & Hw & Hlt & Hno) & _)%elem_of_kline_gaps; [|done].
  destruct (Hdense r Hr p Hp Hlt) as (z & Hz & [Hpz Hzr] & Hd). apply (Hno z Hz). lia.
Qed.

(** The stale detector, as PostgreSQL types its parameters, never stores anything: a supported data type
    is an error of the statement, another one an error before it. *)
Theorem stale_gaps_rejected `{HeapOrder} `{PgFunctions} db clock wall fault dataType expected now :
  let r := InsertStaleLatestGaps db ParamText clock wall fault dataType expected now in
  fst r = db /\ is_Some (snd r).
Proof.
  unfold InsertStaleLatestGaps. destruct (staleSpec dataType) as [spec|]; [|by eexists]. destruct fault; [by eexists|].
  destruct (per_exchange _); by eexists.
Qed.

(** With a time as its third parameter it would store the series not updated for two intervals; the
    aggregated snapshots, which have no exchange, are an error either way. *)
Example stale_aggregates_rejected db clock wall expected now : is_Some (snd
  (InsertStaleLatestGaps (H:=in_place) (H0:=plain_text) db ParamTimestamptz clock wall None "aggregated_snapshot" expected now)).
Proof. by eexists. Qed.

(** The key of a stale gap holds the time of the run: a series that stays stale gets a new row each run. *)
Definition stale_db : Database :=
  MkDatabase (fun n => if (n =? "open_interest_snapshots")%string
                       then [list_to_map [("symbol_id", SInt 1); ("exchange", SText "okx"); ("snapshot_time", STime t0); ("source_symbol", SText "BTC")]]
                       else if (n =? "symbols")%string then [{[ "id" := SInt 1 ]}] else []) (fun _ => no_fault).
Example stale_rows_accumulate :
  let detect db now := fst (InsertStaleLatestGaps (H:=in_place) (H0:=plain_text) db ParamTimestamptz now now None "open_interest" Minute now) in
  map (fun g => (time_of g "gap_start", time_of g "gap_end")) (gap_rows (detect (detect stale_db (t0 + Hour)) (t0 + 2 * Hour)))
  = [(Some t0, Some (t0 + Hour)); (Some t0, Some (t0 + 2 * Hour))].
Proof. vm_compute. reflexivity. Qed.
