(* ===== verification/Metrics.v ===== *)
(** * Metrics ([internal/observability/metrics.go], [Prometheus] of [internal/retention/metrics.go])

    The four groups of statements behind [/metrics], and the text format their results are written in.
    A reader of the text format is defined; the written text reads back as the samples it was written
    from, and the samples are the counts of the tables. *)

From S2P Require Import Prelude GoString GoTime GoFloat GoFloatSign GoError GoStrconv GoJson GoTimeText PgNumeric ApiStore PgText PgAggregate AggregateReads AggregateWrites RetentionEngine Monitoring GoUrl.
From Stdlib Require Import SpecFloat Ascii.

(** ** Numbers ([%.3f], [%.0f]) *)

(** The quotient rounded to the nearest integer, to the even one when there are two. *)
Definition round_half_even (a b : Z) : Z :=
  let q := a / b in let r := a mod b in
  if (b <? 2 * r) || ((2 * r =? b) && Z.odd q) then q + 1 else q.

Definition FormatFixed (prec : nat) (x : float64) : string :=
  match x with
  | S754_nan => "NaN"
  | S754_infinity s => if s then "-Inf" else "+Inf"
  | S754_zero s => (if s then "-" else "") +:+ numeric_text 0 prec
  | S754_finite s m e =>
    let scaled := Z.pos m * 10 ^ Z.of_nat prec in
    let n := if 0 <=? e then scaled * 2 ^ e else round_half_even scaled (2 ^ (- e)) in
    (if s then "-" else "") +:+ numeric_text n prec
  end.

(** ** [writeMetric] *)

Definition dquote : ascii := byte_of_Z 34.
Definition backslash : ascii := byte_of_Z 92.
Definition newline : ascii := byte_of_Z 10.

Definition escape_label (v : string) : string := ReplaceAll v (of_bytes [dquote]) (of_bytes [backslash; dquote]).

(** Labels are a map; they are written in key order. *)
Definition sorted_labels (labels : list (string * string)) : list (string * string) :=
  stable_sort (fun x y => str_leb (fst x) (fst y)) labels.
Definition label_text (kv : string * string) : string :=
  fst kv +:+ "=" +:+ of_bytes [dquote] +:+ escape_label (snd kv) +:+ of_bytes [dquote].

Definition writeMetric (name : string) (labels : list (string * string)) (value : float64) : string :=
  name +:+ match labels with [] => "" | _ => "{" +:+ Join (map label_text (sorted_labels labels)) "," +:+ "}" end +:+ " " +:+
  FormatFixed 3 value +:+ of_bytes [newline].

(** ** The statements *)

Section metrics.
Context `{HeapOrder} (db : Database) (now : Time).

Definition text_eq (c v : string) (r : gmap string sval) : bool := match r !! c with Some (SText s) => (s =? v)%string | _ => false end.

(** [COALESCE(NULLIF(error_type, ''), COALESCE(status_code::text, 'unknown'))]. *)
Definition request_status (r : gmap string sval) : string :=
  if negb (text_or r "error_type" =? "")%string then text_or r "error_type" else
  match r !! "status_code" with Some (SInt z) => Itoa z | _ => "unknown" end.
Definition request_key (r : gmap string sval) : string * string * string := (text_or r "exchange", text_or r "data_type", request_status r).

(** [captured_at >= now() - interval '24 hours']. *)
Definition recent_requests : list (gmap string sval) :=
  List.filter (time_in "captured_at" (fun t => now - 24 * Hour <=? t)) (heap (db_rows db "exchange_request_logs")).

Definition num_of_int (v : sval) : sval := match v with SInt z => SNum z 0 | _ => v end.
Definition count_where (p : gmap string sval -> bool) (rows : list (gmap string sval)) : Z := Z.of_nat (length (List.filter p rows)).
Definition is_true (c : string) (r : gmap string sval) : bool := match r !! c with Some (SBool b) => b | _ => false end.

(** One row per group, in the order the server finds them. *)
Definition request_groups : list (gmap string sval) :=
  heap (map (fun k : string * string * string =>
    let '(exchange, dataType, status) := k in
    let rows := List.filter (fun r => bool_decide (request_key r = k)) recent_requests in
    list_to_map [("exchange", SText exchange); ("data_type", SText dataType); ("status", SText status);
      ("total", SInt (Z.of_nat (length rows)));
      ("avg_duration_ms", default (SNum 0 0) (pg_avg (map num_of_int (values "duration_ms" rows))));
      ("rate_limited_total", SInt (count_where (is_true "rate_limited") rows))])
    (remove_dups (map request_key recent_requests))).

(** What a loop writes for a row, or the error of its scan. *)
Definition request_columns : list (string * expr) :=
  map (fun c => (c, ECol c)) ["exchange"; "data_type"; "status"; "total"; "avg_duration_ms"; "rate_limited_total"].
Definition scan_request : scanner string :=
  exchange ← column to_string; dataType ← column to_string; status ← column to_string; total ← column (to_int "int64");
  avgDuration ← column to_float; rateLimited ← column (to_int "int64");
  mret (writeMetric "requests_total" [("exchange", exchange); ("data_type", dataType); ("status", status)] (f64_of_Z total) +:+
        writeMetric "request_duration_ms" [("exchange", exchange); ("data_type", dataType); ("status", status)] avgDuration +:+
        writeMetric "rate_limited_total" [("exchange", exchange); ("data_type", dataType)] (f64_of_Z rateLimited)).

Definition concat_text (l : list string) : string := foldr (fun a b => a +:+ b) "" l.

Definition writeRequestMetrics : result error string :=
  let! l := many_rows (db_fault db "exchange_request_logs") [] (MkMessages "query request metrics" "scan request metrics" "iterate request metrics")
    (map (project request_columns) request_groups) 6 scan_request in
  Ok (concat_text l).

Definition job_groups : list (gmap string sval) :=
  let rows := heap (db_rows db "derivative_collection_jobs") in
  heap (map (fun s => list_to_map [("status", SText s); ("count", SInt (count_where (text_eq "status" s) rows))])
            (remove_dups (map (fun r => text_or r "status") rows))).
Definition scan_job : scanner string :=
  status ← column to_string; count ← column (to_int "int64"); mret (writeMetric ("jobs_" +:+ status) [] (f64_of_Z count)).
Definition writeJobMetrics : result error string :=
  let! l := many_rows (db_fault db "derivative_collection_jobs") [] (MkMessages "query job metrics" "scan job metrics" "iterate job metrics")
    (map (project [("status", ECol "status"); ("count", ECol "count")]) job_groups) 2 scan_job in
  Ok (concat_text l).

(** [column <> 'v']. *)
Definition text_ne (c v : string) (r : gmap string sval) : bool := match r !! c with Some (SText s) => negb (s =? v)%string | _ => false end.
Definition count_row (table : string) (p : gmap string sval -> bool) : result error Z :=
  one_row (db_fault db table) [] [("count", Some (SInt (count_where p (db_rows db table))))] (column (to_int "int64")).

Definition writeQualityMetrics : result error string :=
  let! qualityIssues := wrapped "query quality issue metrics" (count_row "data_quality_issues" (text_ne "status" "resolved")) in
  let! gaps := wrapped "query data gap metrics" (count_row "data_gaps" (text_ne "backfill_status" "completed")) in
  Ok (writeMetric "data_quality_issues_total" [] (f64_of_Z qualityIssues) +:+ writeMetric "data_gaps_total" [] (f64_of_Z gaps)).

(** The sum of bigints is a numeric, whose text is stored into an [int64]. *)
Definition to_int64_text (v : option dval) : result error Z :=
  match v with
  | Some (DInt z) => Ok z
  | Some (DBytes s) =>
    match ParseInt s with
    | Some z => Ok z
    | None => Err (WrapError ("converting driver.Value type []uint8 (" +:+ Quote s +:+ ") to a int64: ") (ParseInt_error s) "")
    end
  | _ => to_int "int64" v
  end.
Definition deleted_sum : sval := default (SNum 0 0) (pg_sum (map num_of_int (values "rows_deleted" (db_rows db "data_cleanup_runs")))).

Definition writeCleanupMetrics : result error string :=
  let! rowsDeleted := wrapped "query cleanup metrics"
    (one_row (db_fault db "data_cleanup_runs") [] [("coalesce", Some deleted_sum)] (column to_int64_text)) in
  Ok (writeMetric "cleanup_rows_deleted_total" [] (f64_of_Z rowsDeleted) +:+
      writeMetric "rows_inserted_total" [("source", "collection_runs")] f64_zero +:+
      writeMetric "circuit_breaker_state" [("state", "in_memory")] f64_zero).

Definition Prometheus : result error string :=
  let! requests := writeRequestMetrics in
  let! jobs := writeJobMetrics in
  let! quality := writeQualityMetrics in
  let! cleanup := writeCleanupMetrics in
  Ok (requests +:+ jobs +:+ quality +:+ cleanup).
End metrics.

(** [Metrics.Prometheus] of the retention run. *)
Definition retention_Prometheus (m : RetentionEngine.Metrics) : string :=
  concat_text (map (fun k => k +:+ " " +:+ FormatFixed 0 (default f64_zero (m !! k)) +:+ of_bytes [newline])
                 (stable_sort str_leb (fst <$> map_to_list m))).

(** ** Numbers: properties *)

Lemma round_half_even_exact q b : 0 < b -> round_half_even (q * b) b = q.
Proof.
  intros Hb. unfold round_half_even. rewrite Z.div_mul, Z.mod_mul by lia.
  destruct (Z.ltb_spec b (2 * 0)); [lia|]. destruct (Z.eqb_spec (2 * 0) b); [lia|done].
Qed.

(** A count is written exactly. *)
Lemma FormatFixed_count prec n : 0 <= n < 2 ^ 53 -> FormatFixed prec (f64_of_Z n) = numeric_text (n * 10 ^ Z.of_nat prec) prec.
Proof.
  intros Hn. destruct n as [|n|]; [done| |lia]. rewrite f64_of_Z_exact by lia. unfold FormatFixed.
  assert (Zpos (digits2_pos n) <= 53) as Hd by (apply digits2_bound; lia).
  pose proof (norm_mant_spec n Hd) as [Hm _]. rewrite Hm.
  destruct (Z.leb_spec 0 (Zpos (digits2_pos n) - 53)).
  - replace (Zpos (digits2_pos n)) with 53 by lia. cbn [Z.sub Z.opp Z.add Z.pos_sub]. change (53 - 53) with 0.
    rewrite !Z.pow_0_r, !Z.mul_1_r. done.
  - replace (- (Zpos (digits2_pos n) - 53)) with (53 - Zpos (digits2_pos n)) by lia.
    rewrite <-Z.mul_assoc, (Z.mul_comm (2 ^ _)), Z.mul_assoc, round_half_even_exact by (apply Z.pow_pos_nonneg; lia). done.
Qed.

(** The number of decimal digits of a machine integer, as it is estimated. *)
Definition digits_ok (b : Z) : bool :=
  let k := b * 30103 / 100000 in
  ((k <? 2) || (10 ^ (k - 2) <=? 2 ^ b)) && (2 ^ (b + 1) <=? 10 ^ (k + 2)) && (0 <=? k).

Lemma digits_all_ok b : 0 <= b < 80 -> digits_ok b = true.
Proof.
  intros Hb. assert (forallb digits_ok (seqZ 0 80) = true) as H by (vm_compute; reflexivity).
  rewrite forallb_forall in H. apply H, list_elem_of_In, elem_of_seqZ. lia.
Qed.

Lemma decimal_exponent_int n : 0 < n < 2 ^ 80 -> n < 10 ^ decimal_exponent n 1 /\ (0 < decimal_exponent n 1 -> 10 ^ (decimal_exponent n 1 - 1) <= n).
Proof.
  intros Hn. unfold decimal_exponent. change (Z.log2 1) with 0. rewrite Z.sub_0_r. set (k := Z.log2 n * 30103 / 100000).
  assert (0 <= Z.log2 n < 80) as Hl by (split; [apply Z.log2_nonneg|apply Z.log2_lt_pow2; lia]).
  pose proof (digits_all_ok _ Hl) as Hok. unfold digits_ok in Hok. fold k in Hok. bool_to_prop.
  pose proof (Z.log2_spec n ltac:(lia)) as [Hlow Hhigh]. rewrite <-Z.add_1_r in Hhigh.
  assert (forall j, (if 0 <=? j then n <? 1 * 10 ^ j else n * 10 ^ (- j) <? 1) = true <-> (0 <= j /\ n < 10 ^ j)) as Habove.
  { intros j. destruct (Z.leb_spec 0 j).
    - rewrite Z.ltb_lt, Z.mul_1_l. tauto.
    - rewrite Z.ltb_lt. pose proof (Z.pow_pos_nonneg 10 (- j) ltac:(lia) ltac:(lia)). split; [nia|lia]. }
  destruct (if 0 <=? k - 1 then _ else _) eqn:E1.
  { apply Habove in E1 as [? ?]. split; [done|]. intros Hpos. replace (k - 1 - 1) with (k - 2) by lia.
    match goal with Hor : _ = true \/ _ = true |- _ => destruct Hor as [Hk|Hk] end; bool_to_prop; [lia|lia]. }
  apply not_true_iff_false in E1. rewrite Habove in E1.
  destruct (if 0 <=? k then _ else _) eqn:E2.
  { apply Habove in E2 as [? ?]. split; [done|]. intros Hpos. lia. }
  apply not_true_iff_false in E2. rewrite Habove in E2.
  destruct (if 0 <=? k + 1 then _ else _) eqn:E3.
  { apply Habove in E3 as [? ?]. split; [done|]. intros Hpos. replace (k + 1 - 1) with k by lia. lia. }
  apply not_true_iff_false in E3. rewrite Habove in E3. split; [lia|]. intros Hpos. replace (k + 2 - 1) with (k + 1) by lia. lia.
Qed.

(** ** Sums and averages of integers *)

Definition sum_Z (l : list Z) : Z := foldr Z.add 0 l.

Lemma foldl_num_add_int l n : foldl num_add (SNum n 0) (map (fun z => SNum z 0) l) = SNum (n + sum_Z l) 0.
Proof.
  revert n. induction l as [|z l IH]; intros n; cbn [map foldl sum_Z foldr]; [by rewrite Z.add_0_r|].
  cbn [num_add Nat.max Nat.sub]. change (10 ^ Z.of_nat 0) with 1. rewrite !Z.mul_1_r, IH. unfold sum_Z. f_equal. lia.
Qed.

Lemma pg_sum_int l : default (SNum 0 0) (pg_sum (map (fun z => SNum z 0) l)) = SNum (sum_Z l) 0.
Proof. destruct l as [|z l]; [done|]. cbn [map pg_sum default]. unfold id. by rewrite foldl_num_add_int. Qed.

Lemma sum_Z_bound l b : Forall (fun z => 0 <= z < b) l -> 0 <= sum_Z l /\ (l <> [] -> sum_Z l < b * Z.of_nat (length l)).
Proof.
  induction 1 as [|z l Hz _ [IH1 IH2]]; [done|]. cbn [sum_Z foldr length]. fold (sum_Z l). split; [lia|]. intros _.
  destruct l as [|y l]; [cbn; lia|]. specialize (IH2 ltac:(done)). lia.
Qed.

Lemma div_scale_int n d : 0 <= n < 2 ^ 31 * d -> 0 < d < 2 ^ 40 -> (0 < div_scale n 0 d <= 84)%nat.
Proof.
  intros Hn Hd. unfold div_scale.
  assert (fst (base_digit d 0) = (decimal_exponent d 1 - 1) / 4) as Ed.
  { unfold base_digit. destruct (Z.eqb_spec d 0); [lia|]. cbn [fst]. by rewrite Z.abs_eq by lia. }
  destruct (decimal_exponent_int d) as [Hdu Hdl]; [lia|].
  assert (0 < decimal_exponent d 1) as Hdp.
  { destruct (Z.le_gt_cases (decimal_exponent d 1) 0) as [Hle|]; [|done]. destruct (Z.eq_dec (decimal_exponent d 1) 0) as [E|].
    - rewrite E in Hdu. cbn in Hdu. lia.
    - rewrite Z.pow_neg_r in Hdu by lia. lia. }
  pose proof (base_digit_high d ltac:(lia)) as Hh.
  assert (0 <= fst (base_digit n 0) <= fst (base_digit d 0) + 3) as Hw.
  { rewrite Ed. unfold base_digit. destruct (Z.eqb_spec n 0); cbn [fst].
    - split; [lia|]. pose proof (Z.div_pos (decimal_exponent d 1 - 1) 4). lia.
    - rewrite Z.abs_eq by lia. change (10 ^ Z.of_nat 0) with 1. destruct (decimal_exponent_int n) as [Hnu Hnl]; [lia|].
      assert (0 < decimal_exponent n 1) as Hnp.
      { destruct (Z.le_gt_cases (decimal_exponent n 1) 0) as [Hle|]; [|done]. destruct (Z.eq_dec (decimal_exponent n 1) 0) as [E|].
        - rewrite E in Hnu. cbn in Hnu. lia.
        - rewrite Z.pow_neg_r in Hnu by lia. lia. }
      specialize (Hnl Hnp). assert (10 ^ (decimal_exponent n 1 - 1) < 10 ^ (10 + decimal_exponent d 1)) as Hlt.
      { rewrite Z.pow_add_r by lia. lia. }
      apply Z.pow_lt_mono_r_iff in Hlt; [|lia|lia].
      split; [apply Z.div_pos; lia|]. apply Z.lt_succ_r, Z.div_lt_upper_bound; [lia|].
      pose proof (Z.div_mod (decimal_exponent d 1 - 1) 4 ltac:(lia)). pose proof (Z.mod_pos_bound (decimal_exponent d 1 - 1) 4). lia. }
  assert (0 <= fst (base_digit d 0)) as Hw2 by (rewrite Ed; apply Z.div_pos; lia).
  destruct (base_digit n 0) as [w1 d1], (base_digit d 0) as [w2 d2]. cbn [fst] in *. destruct (d1 <=? d2); lia.
Qed.

(** The average of durations in milliseconds can be read as a float. *)
Lemma avg_int_readable l : Forall (fun z => 0 <= z < 2 ^ 31) l -> Z.of_nat (length l) < 2 ^ 40 ->
  let v := default (SNum 0 0) (pg_avg (map (fun z => SNum z 0) l)) in to_float (Some (driver v)) = Ok (num_float v).
Proof.
  intros Hl Hlen. destruct l as [|z l].
  - apply (read_num 0 0); [by right|done].
  - cbn zeta. unfold pg_avg. change (pg_sum (map _ (z :: l))) with (Some (foldl num_add (SNum z 0) (map (fun z => SNum z 0) l))).
    rewrite foldl_num_add_int. cbn [default]. rewrite length_map. unfold pg_div.
    destruct (sum_Z_bound _ _ Hl) as [H0 H1]. specialize (H1 ltac:(done)). change (z + sum_Z l) with (sum_Z (z :: l)).
    set (n := sum_Z (z :: l)) in *. set (d := Z.of_nat (length (z :: l))) in *. assert (0 < d) by (subst d; cbn; lia).
    pose proof (div_scale_int n d ltac:(lia) ltac:(lia)) as Hs. apply read_num; [left; lia|].
    eapply Z.le_lt_trans; [apply round_half_away_le; cbn; lia|].
    assert (10 ^ Z.of_nat (div_scale n 0 d) <= 10 ^ 84) by (apply Z.pow_le_mono_r; lia).
    assert (0 < 10 ^ Z.of_nat (div_scale n 0 d)) by (apply Z.pow_pos_nonneg; lia).
    rewrite Z.abs_eq by nia. assert (2 ^ 31 * 2 ^ 40 * 10 ^ 84 + 1 < 2 ^ 900) by (vm_compute; reflexivity). nia.
Qed.

(** ** Reading the text format

    A line is a name, perhaps labels in braces, a space and a value; in a label value a backslash
    escapes the byte after it. *)

Fixpoint unquote (l : bytes) : option (bytes * bytes) :=
  match l with
  | [] => None
  | c :: l' =>
    if Ascii.eqb c dquote then Some ([], l') else
    if Ascii.eqb c backslash then match l' with d :: l'' => prod_map (cons d) id <$> unquote l'' | [] => None end
    else prod_map (cons c) id <$> unquote l'
  end.

Fixpoint read_labels (fuel : nat) (l : bytes) : option (list (bytes * bytes) * bytes) :=
  match fuel with
  | O => None
  | S fuel =>
    match cut (byte_of_Z 61) l with
    | (k, Some (q :: r)) =>
      if negb (Ascii.eqb q dquote) then None else
      '(v, r) ← unquote r;
      match r with
      | c :: r' =>
        if Z_of_byte c =? 44 then prod_map (cons (k, v)) id <$> read_labels fuel r' else
        if Z_of_byte c =? 125 then Some ([(k, v)], r') else None
      | [] => None
      end
    | _ => None
    end
  end.

Definition name_end (c : ascii) : bool := (Z_of_byte c =? 123) || (Z_of_byte c =? 32).
Fixpoint read_name (l : bytes) : bytes * bytes :=
  match l with
  | [] => ([], [])
  | c :: l' => if name_end c then ([], l) else prod_map (cons c) id (read_name l')
  end.

(** Name, labels and the text of the value. *)
Abbreviation reading := (string * list (string * string) * string)%type (only parsing).
Definition texts (l : list (bytes * bytes)) : list (string * string) := map (prod_map of_bytes of_bytes) l.

Definition read_line (l : bytes) : option reading :=
  let '(name, rest) := read_name l in
  match rest with
  | c :: rest' =>
    if Z_of_byte c =? 32 then Some (of_bytes name, [], of_bytes rest') else
    '(labels, r) ← read_labels (length rest') rest';
    match r with
    | s :: value => if Z_of_byte s =? 32 then Some (of_bytes name, texts labels, of_bytes value) else None
    | [] => None
    end
  | [] => None
  end.

Definition read_text (s : string) : option (list reading) := mapM read_line (removelast (split_bytes newline (to_bytes s))).

(** A sample that is written. *)
Record sample := MkSample { sm_name : string; sm_labels : list (string * string); sm_value : float64 }.
Definition write_sample (s : sample) : string := writeMetric (sm_name s) (sm_labels s) (sm_value s).
Definition reading_of (s : sample) : reading := (sm_name s, sorted_labels (sm_labels s), FormatFixed 3 (sm_value s)).

(** Names without braces, spaces and newlines; keys without equals signs; label values without
    backslashes and newlines. *)
Definition clean_value (v : string) : Prop := (backslash ∉ to_bytes v) /\ (newline ∉ to_bytes v).
Definition clean_sample (s : sample) : Prop :=
  Forall (fun c => name_end c = false /\ c <> newline) (to_bytes (sm_name s)) /\
  Forall (fun kv => (byte_of_Z 61 ∉ to_bytes (fst kv)) /\ (newline ∉ to_bytes (fst kv)) /\ clean_value (snd kv)) (sm_labels s).

#[export] Instance clean_value_dec v : Decision (clean_value v) := _.
#[export] Instance clean_sample_dec s : Decision (clean_sample s).
Proof. unfold clean_sample. apply _. Defined.

(** *** Label values *)

Definition label_byte (c : ascii) : bytes := if Ascii.eqb c dquote then [backslash; dquote] else [c].

Lemma replace_dquote fuel l : (length l < fuel)%nat -> replace_loop fuel [dquote] [backslash; dquote] l = flat_map label_byte l.
Proof.
  revert l. induction fuel as [|fuel IH]; intros l Hl; [lia|]. cbn [replace_loop]. destruct l as [|c l]; [done|].
  cbn [match_prefix length] in *. cbn [flat_map]. unfold label_byte at 1. rewrite (Ascii.eqb_sym dquote c).
  destruct (Ascii.eqb c dquote); cbn [app]; by rewrite IH by lia.
Qed.

Lemma escape_label_bytes v : to_bytes (escape_label v) = flat_map label_byte (to_bytes v).
Proof.
  unfold escape_label, ReplaceAll. rewrite !to_of_bytes. apply replace_dquote.
  clear. induction v as [|c v IH]; cbn; [lia|]. cbn in IH. lia.
Qed.

Lemma unquote_escape l rest : backslash ∉ l -> unquote (flat_map label_byte l ++ dquote :: rest) = Some (l, rest).
Proof.
  induction l as [|c l IH]; intros Hl; [done|]. rewrite not_elem_of_cons in Hl. destruct Hl as [Hc Hl]. cbn [flat_map].
  unfold label_byte at 1. destruct (Ascii.eqb_spec c dquote) as [->|Hq]; cbn [app unquote].
  - change (Ascii.eqb backslash dquote) with false. change (Ascii.eqb backslash backslash) with true. cbn iota. by rewrite IH.
  - rewrite (proj2 (Ascii.eqb_neq c dquote) Hq). destruct (Ascii.eqb_spec c backslash); [congruence|]. by rewrite IH.
Qed.

Lemma escape_newline l : newline ∉ l -> newline ∉ flat_map label_byte l.
Proof.
  induction l as [|c l IH]; intros Hl; [done|]. rewrite not_elem_of_cons in Hl. destruct Hl as [Hc Hl]. cbn [flat_map].
  rewrite not_elem_of_app. split; [|by apply IH]. unfold label_byte. destruct (Ascii.eqb c dquote).
  - by apply (bool_decide_unpack _).
  - by rewrite list_elem_of_singleton.
Qed.

(** *** Labels *)

Definition clean_label (kv : string * string) : Prop :=
  (byte_of_Z 61 ∉ to_bytes (fst kv)) /\ (newline ∉ to_bytes (fst kv)) /\ clean_value (snd kv).
Definition labels_bytes (l : list (string * string)) : bytes := to_bytes (Join (map label_text l) ",").
Definition pairs (l : list (string * string)) : list (bytes * bytes) := map (prod_map to_bytes to_bytes) l.

Lemma label_text_bytes k v : to_bytes (label_text (k, v)) = (to_bytes k ++ byte_of_Z 61 :: dquote :: flat_map label_byte (to_bytes v) ++ [dquote])%list.
Proof. unfold label_text. cbn [fst snd]. rewrite !to_bytes_app, escape_label_bytes. done. Qed.

Lemma labels_bytes_cons kv kv' l : labels_bytes (kv :: kv' :: l) = (to_bytes (label_text kv) ++ byte_of_Z 44 :: labels_bytes (kv' :: l))%list.
Proof. unfold labels_bytes. cbn [map Join]. rewrite !to_bytes_app. done. Qed.

Lemma read_labels_written l rest fuel : l <> [] -> Forall clean_label l -> (length l <= fuel)%nat ->
  read_labels fuel (labels_bytes l ++ byte_of_Z 125 :: rest) = Some (pairs l, rest).
Proof.
  intros Hne Hl. revert fuel. induction Hl as [|[k v] l [Hk [_ [Hv _]]] Hl IH]; intros fuel Hf; [done|].
  destruct fuel as [|fuel]; [cbn in Hf; lia|]. cbn [length fst snd] in *. cbn [read_labels].
  destruct l as [|kv' l].
  - unfold labels_bytes. cbn [map Join]. rewrite label_text_bytes, <-app_assoc. cbn [app]. rewrite cut_here by done.
    change (Ascii.eqb dquote dquote) with true. cbn [negb]. rewrite <-app_assoc. cbn [app]. rewrite unquote_escape by done. reflexivity.
  - rewrite labels_bytes_cons, label_text_bytes, <-!app_assoc. cbn [app]. rewrite cut_here by done.
    change (Ascii.eqb dquote dquote) with true. cbn [negb]. rewrite <-app_assoc. cbn [app]. rewrite unquote_escape by done.
    cbn [mbind option_bind]. change (Z_of_byte (byte_of_Z 44) =? 44) with true. cbn iota. rewrite IH by (done || cbn in *; lia). reflexivity.
Qed.

Lemma labels_newline l : Forall clean_label l -> newline ∉ labels_bytes l.
Proof.
  induction 1 as [|[k v] l [Hk [Hkn [Hv Hvn]]] Hl IH]; [apply not_elem_of_nil|]. cbn [fst snd] in *.
  assert (newline ∉ to_bytes (label_text (k, v))) as Hone.
  { rewrite label_text_bytes, not_elem_of_app, !not_elem_of_cons, not_elem_of_app, list_elem_of_singleton.
    split_and!; [done|discriminate|discriminate|by apply escape_newline|discriminate]. }
  destruct l as [|kv' l]; [done|]. rewrite labels_bytes_cons, not_elem_of_app, not_elem_of_cons. split_and!; [done|discriminate|done].
Qed.

Lemma texts_pairs l : texts (pairs l) = l.
Proof. unfold texts, pairs. rewrite map_map. rewrite <-(map_id l) at 2. apply map_ext. intros [k v]. cbn. by rewrite !of_to_bytes. Qed.

Lemma sorted_labels_clean l : Forall clean_label l -> Forall clean_label (sorted_labels l).
Proof. intros H. unfold sorted_labels. by rewrite stable_sort_perm. Qed.
Lemma sorted_labels_nil l : sorted_labels l = [] -> l = [].
Proof. unfold sorted_labels. intros E. pose proof (stable_sort_perm (fun x y => str_leb (fst x) (fst y)) l) as P. rewrite E in P. by apply Permutation_nil in P. Qed.

(** *** Lines *)

Lemma numeric_text_plain n s : Forall (fun c => c <> newline) (to_bytes (numeric_text n s)).
Proof.
  unfold numeric_text. rewrite to_of_bytes. assert (forall l, Forall is_digit l -> Forall (fun c => c <> newline) l) as Hd.
  { intros l Hl. eapply Forall_impl; [exact Hl|]. intros c [d Hc] ->. done. }
  rewrite !Forall_app. split_and!.
  - destruct (n <? 0); repeat constructor. discriminate.
  - apply Hd, print_nat_digits. apply Z.div_pos; [lia|]. apply Z.pow_pos_nonneg; lia.
  - destruct s; [constructor|]. constructor; [discriminate|]. apply Hd, digits_of_digits.
Qed.

Lemma FormatFixed_newline p x : newline ∉ to_bytes (FormatFixed p x).
Proof.
  assert (forall n s, newline ∉ to_bytes (numeric_text n s)) as Hn.
  { intros n s Hin. pose proof (numeric_text_plain n s) as HF. rewrite Forall_forall in HF. by apply (HF _ Hin). }
  destruct x as [s|s| |s m e]; unfold FormatFixed; try destruct s; rewrite ?to_bytes_app, ?not_elem_of_app;
    try (split; [by apply (bool_decide_unpack _)|apply Hn]); by apply (bool_decide_unpack _).
Qed.

Lemma read_name_written n c rest : Forall (fun c => name_end c = false /\ c <> newline) n -> name_end c = true ->
  read_name (n ++ c :: rest) = (n, c :: rest).
Proof.
  intros Hn Hc. induction Hn as [|x n [Hx _] _ IH]; cbn [app read_name]; [by rewrite Hc|]. rewrite Hx, IH. done.
Qed.

(** The line of a sample, without its end. *)
Definition line_of (s : sample) : bytes :=
  (to_bytes (sm_name s) ++
   match sm_labels s with [] => [] | _ => byte_of_Z 123 :: labels_bytes (sorted_labels (sm_labels s)) ++ [byte_of_Z 125] end ++
   byte_of_Z 32 :: to_bytes (FormatFixed 3 (sm_value s)))%list.

Lemma write_sample_line s : to_bytes (write_sample s) = (line_of s ++ [newline])%list.
Proof.
  unfold write_sample, writeMetric, line_of. rewrite !to_bytes_app, to_of_bytes.
  destruct (sm_labels s) as [|kv l]; cbn iota.
  - rewrite <-!app_assoc. done.
  - rewrite !to_bytes_app. fold (labels_bytes (sorted_labels (kv :: l))).
    change (to_bytes "{") with [byte_of_Z 123]. change (to_bytes "}") with [byte_of_Z 125]. change (to_bytes " ") with [byte_of_Z 32].
    cbn [app]. rewrite <-!app_assoc. cbn [app]. by rewrite <-!app_assoc.
Qed.

Lemma read_line_written s : clean_sample s -> read_line (line_of s) = Some (reading_of s).
Proof.
  intros [Hn Hl]. unfold read_line, line_of, reading_of. destruct (sm_labels s) as [|kv l] eqn:El.
  - cbn [app]. rewrite read_name_written by done. change (Z_of_byte (byte_of_Z 32) =? 32) with true. cbn iota.
    by rewrite !of_to_bytes.
  - cbn [app]. rewrite read_name_written by done. change (Z_of_byte (byte_of_Z 123) =? 32) with false. cbn iota.
    rewrite <-app_assoc. cbn [app]. rewrite read_labels_written.
    + cbn [mbind option_bind]. change (Z_of_byte (byte_of_Z 32) =? 32) with true. cbn iota. by rewrite !of_to_bytes, texts_pairs.
    + intros E%sorted_labels_nil. done.
    + by apply sorted_labels_clean.
    + rewrite length_app. assert (forall l, (length l <= S (length (labels_bytes l)))%nat) as Hlen.
      { clear. induction l as [|kv [|kv' l] IH]; [cbn; lia|cbn; lia|]. rewrite labels_bytes_cons, length_app. cbn [length] in *. lia. }
      pose proof (Hlen (sorted_labels (kv :: l))). cbn [length]. lia.
Qed.

Lemma line_newline s : clean_sample s -> newline ∉ line_of s.
Proof.
  intros [Hn Hl]. unfold line_of. rewrite !not_elem_of_app, not_elem_of_cons. split_and!.
  - intros Hin. rewrite Forall_forall in Hn. by apply Hn in Hin as [_ ?].
  - destruct (sm_labels s) as [|kv l]; [apply not_elem_of_nil|]. rewrite not_elem_of_cons, not_elem_of_app, list_elem_of_singleton.
    split_and!; [discriminate|apply labels_newline; by apply sorted_labels_clean|discriminate].
  - discriminate.
  - apply FormatFixed_newline.
Qed.

Lemma split_lines (ls : list bytes) : Forall (fun l => newline ∉ l) ls ->
  split_bytes newline (concat (map (fun l => l ++ [newline]) ls)) = (ls ++ [[]])%list.
Proof.
  induction 1 as [|l ls Hl _ IH]; [done|]. cbn [map concat app].
  rewrite <-app_assoc. cbn [app]. revert Hl. induction l as [|c l IHl]; intros Hl; cbn [app split_bytes].
  - rewrite Ascii.eqb_refl. by rewrite IH.
  - rewrite not_elem_of_cons in Hl. destruct Hl as [Hc Hl]. rewrite (proj2 (Ascii.eqb_neq c newline)) by congruence.
    by rewrite IHl.
Qed.

Lemma concat_text_bytes l : to_bytes (concat_text l) = concat (map to_bytes l).
Proof. induction l as [|s l IH]; [done|]. change (concat_text (s :: l)) with (s +:+ concat_text l). cbn [map concat]. by rewrite to_bytes_app, IH. Qed.

(** The written text reads back. *)
Lemma read_written l : Forall clean_sample l -> read_text (concat_text (map write_sample l)) = Some (map reading_of l).
Proof.
  intros Hl. unfold read_text. rewrite concat_text_bytes, map_map, (map_ext _ (fun s => line_of s ++ [newline])%list) by apply write_sample_line.
  rewrite <-(map_map line_of (fun l => l ++ [newline])%list), split_lines, removelast_last.
  - clear -Hl. induction Hl as [|s l Hs _ IH]; [done|]. cbn [map mapM]. rewrite read_line_written by done. cbn [mbind option_bind].
    by rewrite IH.
  - apply Forall_map. eapply Forall_impl; [exact Hl|]. intros s. apply line_newline.
Qed.

(** ** What the metrics say *)

Lemma concat_text_app l k : concat_text (l ++ k) = concat_text l +:+ concat_text k.
Proof. apply to_bytes_inj. by rewrite to_bytes_app, !concat_text_bytes, map_app, concat_app. Qed.
Lemma concat_text_flat {A} (f : A -> list string) l : concat_text (map (fun x => concat_text (f x)) l) = concat_text (flat_map f l).
Proof.
  induction l as [|x l IH]; [done|]. cbn [map flat_map]. rewrite concat_text_app, <-IH. done.
Qed.
Lemma append_empty s : s +:+ "" = s.
Proof. apply to_bytes_inj. rewrite to_bytes_app. apply app_nil_r. Qed.

Lemma scan_each_samples {A B} (scan : drow -> result error A) (f : B -> drow) (g : B -> A) l :
  (forall x, x ∈ l -> scan (f x) = Ok (g x)) -> scan_each scan (map f l) = Ok (map g l).
Proof.
  induction l as [|x l IH]; intros H; [done|]. cbn [map scan_each]. rewrite H by left. rewrite IH; [done|].
  intros y Hy. apply H. by right.
Qed.

(** A server answers its groups in some order. *)
Lemma heap_map `{HeapOrder} {A} (f : A -> gmap string sval) l : exists k, heap (map f l) = map f k /\ k ≡ₚ l.
Proof.
  pose proof (heap_perm (map f l)) as P. apply Permutation_map_inv in P as (k & E & P). by exists k.
Qed.

Definition int_column (r : gmap string sval) (c : string) : Z := match r !! c with Some (SInt z) => z | _ => 0 end.

Section exact.
Context `{HeapOrder} (db : Database) (now : Time).

Definition group_of (k : string * string * string) : list (gmap string sval) :=
  List.filter (fun r => bool_decide (request_key r = k)) (recent_requests db now).
Definition durations (rows : list (gmap string sval)) : list Z :=
  omap (fun r => match r !! "duration_ms" with Some (SInt z) => Some z | _ => None end) rows.
Definition average (l : list Z) : float64 := num_float (default (SNum 0 0) (pg_avg (map (fun z => SNum z 0) l))).

(** The samples of a group of requests; a count is written with three zeros behind it. *)
Definition counted (name : string) (labels : list (string * string)) (n : Z) : reading := (name, labels, numeric_text (n * 10 ^ Z.of_nat 3) 3).
Definition request_readings (k : string * string * string) : list reading :=
  let '(exchange, dataType, status) := k in
  let labels := [("data_type", dataType); ("exchange", exchange); ("status", status)] in
  [counted "requests_total" labels (Z.of_nat (length (group_of k)));
   ("request_duration_ms", labels, FormatFixed 3 (average (durations (group_of k))));
   counted "rate_limited_total" [("data_type", dataType); ("exchange", exchange)] (count_where (is_true "rate_limited") (group_of k))].
Definition job_reading (s : string) : reading :=
  counted ("jobs_" +:+ s) [] (count_where (text_eq "status" s) (heap (db_rows db "derivative_collection_jobs"))).
Definition table_readings : list reading :=
  [counted "data_quality_issues_total" [] (count_where (text_ne "status" "resolved") (db_rows db "data_quality_issues"));
   counted "data_gaps_total" [] (count_where (text_ne "backfill_status" "completed") (db_rows db "data_gaps"));
   counted "cleanup_rows_deleted_total" [] (sum_Z (map (fun r => int_column r "rows_deleted") (db_rows db "data_cleanup_runs")));
   counted "rows_inserted_total" [("source", "collection_runs")] 0;
   counted "circuit_breaker_state" [("state", "in_memory")] 0].

(** The tables as their constraints leave them, with texts the format can carry. *)
Record measurable : Prop := MkMeasurable {
  me_fault : forall table, db_fault db table = no_fault;
  me_size : Forall (fun table => Z.of_nat (length (db_rows db table)) < 2 ^ 40)
              ["exchange_request_logs"; "derivative_collection_jobs"; "data_quality_issues"; "data_gaps"];
  me_requests : Forall (fun r => match r !! "duration_ms" with None => True | Some (SInt z) => 0 <= z < 2 ^ 31 | _ => False end /\
                                 clean_value (text_or r "exchange") /\ clean_value (text_or r "data_type") /\ clean_value (request_status r))
                  (db_rows db "exchange_request_logs");
  me_jobs : Forall (fun r => Forall (fun c => name_end c = false /\ c <> newline) (to_bytes (text_or r "status"))) (db_rows db "derivative_collection_jobs");
  me_cleanups : Forall (fun r => r !! "rows_deleted" = Some (SInt (int_column r "rows_deleted")) /\ 0 <= int_column r "rows_deleted") (db_rows db "data_cleanup_runs");
  me_deleted : sum_Z (map (fun r => int_column r "rows_deleted") (db_rows db "data_cleanup_runs")) < 2 ^ 53 }.
Hypothesis Hm : measurable.

Lemma count_where_bound p rows : 0 <= count_where p rows <= Z.of_nat (length rows).
Proof. unfold count_where. pose proof (filter_length_le p rows). lia. Qed.

Lemma heap_length rows : length (heap rows) = length rows.
Proof. apply Permutation_length, heap_perm. Qed.

Lemma group_length k : Z.of_nat (length (group_of k)) < 2 ^ 40.
Proof.
  pose proof (me_size Hm) as Hs. apply Forall_cons in Hs as [Hs _].
  unfold group_of, recent_requests. pose proof (filter_length_le (fun r => bool_decide (request_key r = k)) (recent_requests db now)) as H1.
  pose proof (filter_length_le (time_in "captured_at" (fun t => now - 24 * Hour <=? t)) (heap (db_rows db "exchange_request_logs"))) as H2.
  rewrite heap_length in H2. unfold recent_requests in H1. lia.
Qed.

Lemma recent_ok r : r ∈ recent_requests db now -> r ∈ db_rows db "exchange_request_logs".
Proof. unfold recent_requests. rewrite list_elem_of_In, filter_In, <-list_elem_of_In, heap_perm. tauto. Qed.

Lemma durations_ok k :
  map num_of_int (values "duration_ms" (group_of k)) = map (fun z => SNum z 0) (durations (group_of k)) /\
  Forall (fun z => 0 <= z < 2 ^ 31) (durations (group_of k)) /\ Z.of_nat (length (durations (group_of k))) < 2 ^ 40.
Proof.
  assert (Forall (fun r : gmap string sval => match r !! "duration_ms" with None => True | Some (SInt z) => 0 <= z < 2 ^ 31 | _ => False end) (group_of k)) as Hg.
  { apply Forall_forall. intros r Hr. unfold group_of in Hr. apply list_elem_of_In, filter_In in Hr as [Hr _].
    apply list_elem_of_In, recent_ok in Hr. pose proof (me_requests Hm) as HF. rewrite Forall_forall in HF. by apply HF. }
  assert (length (durations (group_of k)) <= length (group_of k))%nat as Hlen.
  { unfold durations. clear. induction (group_of k) as [|r l IH]; [done|]. cbn. destruct (r !! "duration_ms") as [[]|]; cbn; lia. }
  pose proof (group_length k). split_and!; [| |lia].
  - clear -Hg. unfold values, durations. induction Hg as [|r l Hr _ IH]; [done|]. cbn.
    destruct (r !! "duration_ms") as [[]|]; cbn; try done. f_equal. exact IH.
  - clear -Hg. unfold durations. induction Hg as [|r l Hr _ IH]; [constructor|]. cbn. destruct (r !! "duration_ms") as [[]|]; cbn; try done. by constructor.
Qed.

(** *** Requests *)

Definition request_samples (k : string * string * string) : list sample :=
  let '(exchange, dataType, status) := k in
  let labels := [("exchange", exchange); ("data_type", dataType); ("status", status)] in
  [MkSample "requests_total" labels (f64_of_Z (Z.of_nat (length (group_of k))));
   MkSample "request_duration_ms" labels (average (durations (group_of k)));
   MkSample "rate_limited_total" [("exchange", exchange); ("data_type", dataType)] (f64_of_Z (count_where (is_true "rate_limited") (group_of k)))].

Lemma request_samples_readings k : map reading_of (request_samples k) = request_readings k.
Proof.
  destruct k as [[e d] s]. unfold request_samples, request_readings, reading_of, counted. cbn [map sm_name sm_labels sm_value].
  pose proof (group_length (e, d, s)). pose proof (count_where_bound (is_true "rate_limited") (group_of (e, d, s))).
  rewrite !FormatFixed_count by lia. reflexivity.
Qed.

Definition request_row (k : string * string * string) : gmap string sval :=
  let '(exchange, dataType, status) := k in
  list_to_map [("exchange", SText exchange); ("data_type", SText dataType); ("status", SText status);
    ("total", SInt (Z.of_nat (length (group_of k))));
    ("avg_duration_ms", default (SNum 0 0) (pg_avg (map num_of_int (values "duration_ms" (group_of k)))));
    ("rate_limited_total", SInt (count_where (is_true "rate_limited") (group_of k)))].

Lemma scan_request_row k : Scan 6 scan_request (project request_columns (request_row k)) = Ok (concat_text (map write_sample (request_samples k))).
Proof.
  destruct k as [[e d] s]. destruct (durations_ok (e, d, s)) as (Ed & Hd & Hl). pose proof (avg_int_readable _ Hd Hl) as Ha. cbn zeta in Ha.
  unfold request_row. rewrite Ed. unfold request_samples, average. cbn [map].
  change (concat_text [?a; ?b; ?c]) with (a +:+ b +:+ c +:+ ""). rewrite append_empty.
  set (avg := default _ _) in *. clearbody avg. set (g := group_of _). clearbody g.
  match goal with |- Scan 6 _ ?l = _ => assert (l = [("exchange", Some (DString e)); ("data_type", Some (DString d)); ("status", Some (DString s));
    ("total", Some (DInt (Z.of_nat (length g)))); ("avg_duration_ms", Some (driver avg));
    ("rate_limited_total", Some (DInt (count_where (is_true "rate_limited") g)))]) as -> by reflexivity end.
  unfold Scan. cbn [length Nat.eqb negb].
  unfold scan_request, mbind, scanner_bind, column, mret, scanner_ret. cbn [to_string to_int]. rewrite Ha. reflexivity.
Qed.

Lemma clean_requests k : k ∈ map request_key (recent_requests db now) -> Forall clean_sample (request_samples k).
Proof.
  intros (r & -> & Hr%recent_ok)%list_elem_of_fmap. pose proof (me_requests Hm) as HF. rewrite Forall_forall in HF.
  destruct (HF r Hr) as (_ & He & Hd & Hs). unfold request_samples, request_key.
  repeat (apply Forall_cons; split; [split; [by apply (bool_decide_unpack _)|];
    repeat (apply Forall_cons; split; [split_and!; cbn [fst snd]; [by apply (bool_decide_unpack _)|by apply (bool_decide_unpack _)|first [exact He|exact Hd|exact Hs]]|]); constructor|]).
  constructor.
Qed.

Lemma requests_exact : exists ks, ks ≡ₚ remove_dups (map request_key (recent_requests db now)) /\
  writeRequestMetrics db now = Ok (concat_text (map write_sample (flat_map request_samples ks))) /\
  Forall clean_sample (flat_map request_samples ks) /\ map reading_of (flat_map request_samples ks) = flat_map request_readings ks.
Proof.
  destruct (heap_map request_row (remove_dups (map request_key (recent_requests db now)))) as (ks & E & P). exists ks. split; [done|]. split_and!.
  - unfold writeRequestMetrics, many_rows. rewrite (me_fault Hm). cbn [query_error iter_error no_fault forallb negb].
    assert (request_groups db now = map request_row ks) as -> by (rewrite <-E; unfold request_groups; f_equal; apply map_ext; by intros [[??] ?]).
    rewrite map_map. rewrite (scan_each_samples _ _ (fun k => concat_text (map write_sample (request_samples k)))); [|intros k _; by rewrite scan_request_row].
    f_equal. rewrite (concat_text_flat (fun k => map write_sample (request_samples k))). f_equal. clear. induction ks as [|k ks IH]; [done|]. cbn [flat_map]. by rewrite IH, map_app.
  - assert (Forall (fun k => k ∈ map request_key (recent_requests db now)) ks) as Hk.
    { apply Forall_forall. intros k. rewrite P. by rewrite elem_of_remove_dups. }
    clear -Hk Hm. induction Hk as [|k ks Hk _ IH]; [constructor|]. cbn [flat_map]. apply Forall_app. split; [by apply clean_requests|done].
  - clear -Hm. induction ks as [|k ks IH]; [done|]. cbn [flat_map]. by rewrite map_app, IH, request_samples_readings.
Qed.

(** *** Jobs *)

Definition job_sample (st : string) : sample :=
  MkSample ("jobs_" +:+ st) [] (f64_of_Z (count_where (text_eq "status" st) (heap (db_rows db "derivative_collection_jobs")))).
Definition job_row (st : string) : gmap string sval :=
  list_to_map [("status", SText st); ("count", SInt (count_where (text_eq "status" st) (heap (db_rows db "derivative_collection_jobs"))))].

Lemma scan_job_row st :
  Scan 2 scan_job (project [("status", ECol "status"); ("count", ECol "count")] (job_row st)) = Ok (write_sample (job_sample st)).
Proof.
  unfold job_row, job_sample. set (n := count_where _ _). clearbody n.
  match goal with |- Scan 2 _ ?l = _ => assert (l = [("status", Some (DString st)); ("count", Some (DInt n))]) as -> by reflexivity end.
  reflexivity.
Qed.

Lemma job_sample_reading st : reading_of (job_sample st) = job_reading st.
Proof.
  unfold job_sample, job_reading, reading_of, counted. cbn [sm_name sm_labels sm_value].
  pose proof (me_size Hm) as Hs. apply Forall_cons in Hs as [_ Hs]. apply Forall_cons in Hs as [Hs _].
  pose proof (count_where_bound (text_eq "status" st) (heap (db_rows db "derivative_collection_jobs"))) as Hb. rewrite heap_length in Hb.
  by rewrite FormatFixed_count by lia.
Qed.

Lemma jobs_exact : exists js, js ≡ₚ remove_dups (map (fun r => text_or r "status") (heap (db_rows db "derivative_collection_jobs"))) /\
  writeJobMetrics db = Ok (concat_text (map write_sample (map job_sample js))) /\ Forall clean_sample (map job_sample js) /\
  map reading_of (map job_sample js) = map job_reading js.
Proof.
  destruct (heap_map job_row (remove_dups (map (fun r => text_or r "status") (heap (db_rows db "derivative_collection_jobs"))))) as (js & E & P).
  exists js. split; [done|]. split_and!.
  - unfold writeJobMetrics, many_rows. rewrite (me_fault Hm). cbn [query_error iter_error no_fault forallb negb].
    change (job_groups db) with (heap (map job_row (remove_dups (map (fun r => text_or r "status") (heap (db_rows db "derivative_collection_jobs")))))).
    rewrite E, map_map, (scan_each_samples _ _ (fun st => write_sample (job_sample st))); [by rewrite map_map|intros st _; by rewrite scan_job_row].
  - apply Forall_map, Forall_forall. intros st Hst. rewrite P, elem_of_remove_dups in Hst.
    apply list_elem_of_fmap in Hst as (r & -> & Hr). rewrite heap_perm in Hr.
    pose proof (me_jobs Hm) as HF. rewrite Forall_forall in HF. split; [|constructor]. cbn [sm_name job_sample].
    rewrite to_bytes_app. apply Forall_app. split; [by apply (bool_decide_unpack _)|by apply HF].
  - rewrite map_map. apply map_ext. apply job_sample_reading.
Qed.

(** *** Single rows *)

Definition table_samples : list sample :=
  [MkSample "data_quality_issues_total" [] (f64_of_Z (count_where (text_ne "status" "resolved") (db_rows db "data_quality_issues")));
   MkSample "data_gaps_total" [] (f64_of_Z (count_where (text_ne "backfill_status" "completed") (db_rows db "data_gaps")));
   MkSample "cleanup_rows_deleted_total" [] (f64_of_Z (sum_Z (map (fun r => int_column r "rows_deleted") (db_rows db "data_cleanup_runs"))));
   MkSample "rows_inserted_total" [("source", "collection_runs")] f64_zero;
   MkSample "circuit_breaker_state" [("state", "in_memory")] f64_zero].

Lemma deleted_values : map num_of_int (values "rows_deleted" (db_rows db "data_cleanup_runs"))
  = map (fun z => SNum z 0) (map (fun r => int_column r "rows_deleted") (db_rows db "data_cleanup_runs")) /\
  0 <= sum_Z (map (fun r => int_column r "rows_deleted") (db_rows db "data_cleanup_runs")).
Proof.
  pose proof (me_cleanups Hm) as Hc. clear Hm. unfold values. induction Hc as [|r l [E Hr] _ [IH1 IH2]]; [done|]. cbn. rewrite E. cbn.
  split; [by rewrite IH1|]. unfold sum_Z in IH2. lia.
Qed.

Lemma ParseInt_numeric n : 0 <= n < 2 ^ 53 -> ParseInt (numeric_text n 0) = Some n.
Proof.
  intros Hn. replace (numeric_text n 0) with (Itoa n); [apply ParseInt_Itoa; unfold int64_ok, min_int64, max_int64, two63; lia|].
  unfold numeric_text, Itoa. destruct (Z.ltb_spec n 0); [lia|]. cbn [app]. by rewrite Z.abs_eq, Z.div_1_r, app_nil_r by lia.
Qed.

Lemma tables_exact : exists q c, writeQualityMetrics db = Ok q /\ writeCleanupMetrics db = Ok c /\
  q +:+ c = concat_text (map write_sample table_samples).
Proof.
  destruct deleted_values as [Ev H0]. pose proof (me_deleted Hm) as Hd.
  unfold writeQualityMetrics, writeCleanupMetrics, count_row, one_row. rewrite !(me_fault Hm). cbn [query_error iter_error no_fault forallb negb].
  eexists _, _. split; [reflexivity|]. split.
  - unfold deleted_sum. rewrite Ev, pg_sum_int. unfold Scan. cbn [length map fst snd Nat.eqb negb column fmap option_fmap option_map driver to_int64_text].
    rewrite ParseInt_numeric by lia. reflexivity.
  - apply to_bytes_inj. rewrite concat_text_bytes. cbn [map table_samples concat]. rewrite !to_bytes_app, <-!app_assoc, app_nil_r. reflexivity.
Qed.

Lemma table_samples_readings : map reading_of table_samples = table_readings.
Proof.
  pose proof (me_size Hm) as Hs. apply Forall_cons in Hs as [_ Hs]. apply Forall_cons in Hs as [_ Hs].
  apply Forall_cons in Hs as [Hq Hs]. apply Forall_cons in Hs as [Hg _].
  pose proof (count_where_bound (text_ne "status" "resolved") (db_rows db "data_quality_issues")).
  pose proof (count_where_bound (text_ne "backfill_status" "completed") (db_rows db "data_gaps")).
  destruct deleted_values as [_ Hdel]. pose proof (me_deleted Hm).
  unfold table_samples, table_readings, reading_of, counted. cbn [map sm_name sm_labels sm_value].
  rewrite !FormatFixed_count by lia. reflexivity.
Qed.

Lemma table_samples_clean : Forall clean_sample table_samples.
Proof.
  repeat (apply Forall_cons; split; [split; cbn [sm_name sm_labels]; by apply (bool_decide_unpack _)|]). constructor.
Qed.

(** C20: metrics.  Without faults the metrics text is produced, and a reader of the text format finds in
    it exactly: for every exchange, data type and status among the requests of the last 24 hours their
    number, average duration and number of rate-limited ones; for every status the number of jobs; the
    open quality issues, the open gaps and the sum of the rows deleted by cleanups; all counts exact to
    the digit, whatever quotes the texts contain.  The texts must be free of backslashes and newlines,
    which the code does not escape. *)
Theorem metrics_exact :
  exists text ks js, Prometheus db now = Ok text /\
    ks ≡ₚ remove_dups (map request_key (recent_requests db now)) /\
    js ≡ₚ remove_dups (map (fun r => text_or r "status") (heap (db_rows db "derivative_collection_jobs"))) /\
    read_text text = Some (flat_map request_readings ks ++ map job_reading js ++ table_readings)%list.
Proof.
  destruct requests_exact as (ks & Pk & Ek & Ck & Rk), jobs_exact as (js & Pj & Ej & Cj & Rj), tables_exact as (q & c & Eq & Ec & Et).
  exists (concat_text (map write_sample (flat_map request_samples ks ++ map job_sample js ++ table_samples))%list), ks, js. split_and!; [|done|done|].
  - unfold Prometheus. rewrite Ek, Ej, Eq, Ec. f_equal. by rewrite !map_app, !concat_text_app, <-Et.
  - rewrite read_written by (rewrite !Forall_app; split_and!; [done|done|apply table_samples_clean]).
    by rewrite !map_app, Rk, Rj, table_samples_readings.
Qed.
End exact.

(** ** Examples *)

Definition sample_request (status : option Z) (errorType : string) (duration : Z) (limited : bool) : gmap string sval :=
  foldl assign ∅ [("exchange", Some (SText "okx")); ("data_type", Some (SText "kline")); ("status_code", SInt <$> status);
    ("error_type", text_value errorType); ("duration_ms", Some (SInt duration)); ("rate_limited", Some (SBool limited)); ("captured_at", Some (STime t0))].
Definition measured_db : Database :=
  MkDatabase (fun n => if (n =? "exchange_request_logs")%string
                       then [sample_request (Some 200) "" 120 false; sample_request (Some 429) "" 30 true; sample_request (Some 200) "" 121 false]
                       else if (n =? "derivative_collection_jobs")%string then [{[ "status" := SText "pending" ]}]
                       else if (n =? "data_cleanup_runs")%string then [{[ "rows_deleted" := SInt 7 ]}; {[ "rows_deleted" := SInt 5 ]}] else [])
    (fun _ => no_fault).

Lemma measured : measurable measured_db.
Proof.
  constructor.
  - done.
  - repeat (apply Forall_cons; split; [vm_compute; reflexivity|]). constructor.
  - repeat (apply Forall_cons; split; [split; [vm_compute; split; congruence|split; [|split]; refine (bool_decide_unpack _ _); vm_compute; exact I]|]). constructor.
  - refine (bool_decide_unpack _ _). vm_compute. exact I.
  - repeat (apply Forall_cons; split; [split; [reflexivity|vm_compute; congruence]|]). constructor.
  - vm_compute. reflexivity.
Qed.

Lemma metrics_exact_witness : exists text ks js, Prometheus (H:=in_place) measured_db (t0 + Hour) = Ok text /\
  ks ≡ₚ [("okx", "kline", "200"); ("okx", "kline", "429")] /\ js ≡ₚ ["pending"] /\
  read_text text = Some (flat_map (request_readings (H:=in_place) measured_db (t0 + Hour)) ks ++ map (job_reading (H:=in_place) measured_db) js ++
                         table_readings measured_db)%list.
Proof.
  destruct (metrics_exact (H:=in_place) measured_db (t0 + Hour) measured) as (text & ks & js & E & Pk & Pj & R).
  exists text, ks, js. split_and!; [exact E| | |exact R].
  - etransitivity; [exact Pk|]. vm_compute. apply Permutation_swap.
  - exact Pj.
Defined.

(** The series [rate_limited_total] has no label for the status its group has: two statuses of one
    exchange and data type give two samples of the same series. *)
Example duplicate_series :
  map (fun r => fst r) (filter (fun r : reading => fst (fst r) = "rate_limited_total")
    (flat_map (request_readings (H:=in_place) measured_db (t0 + Hour)) [("okx", "kline", "200"); ("okx", "kline", "429")]))
  = [("rate_limited_total", [("data_type", "kline"); ("exchange", "okx")]); ("rate_limited_total", [("data_type", "kline"); ("exchange", "okx")])].
Proof. vm_compute. reflexivity. Qed.

(** A backslash at the end of a label value swallows the closing quote. *)
Example backslash_unread :
  read_text (writeMetric "requests_total" [("status", of_bytes [backslash])] (f64_of_Z 1)) = None.
Proof. vm_compute. reflexivity. Qed.
