(* ===== verification/Services.v ===== *)
(** * The batch services ([cmd/scheduler-service], [cmd/collector-service], [cmd/retention-service],
      [internal/database], [internal/logger])

    Each main loads and validates the configuration, opens the database, builds its component from
    the configuration, runs it once and exits.  A run is the state it leaves, the lines it logged and
    its exit code.  Proved: validation makes every fallback of the components inert; the limiter of a
    collector run; that the circuit breaker of a run cannot open when the batch is smaller than its
    threshold; what happens to jobs of an exchange that is not configured; that running the scheduler
    again inserts nothing. *)

From S2P Require Import Prelude GoString GoTime GoFloat GoFloatSign GoError GoOutcome GoJson GoTimeText.
From S2P Require Import Retention RetentionStore RetentionEngine Metrics.
From S2P Require Import Limiter CircuitBreaker Symbols Endpoints SchedulerModels Planner JobStore Worker SchedulerQueries.
From S2P Require Import Normalizers Hardening Writer Collector Config.

(** ** The logger *)

(** A field value: a nil interface, a value with its JSON, or one the encoder refuses. *)
Inductive value := Nil | Encodes (j : json) | Refused (err : error).
#[export] Instance value_is_nil (v : value) : Decision (v = Nil).
Proof. destruct v; [by left|by right..]. Defined.

Definition Fields : Type := gmap string value.

(** A line written: a record, or the text the logger falls back on when the record has no JSON. *)
Inductive line := LogRecord (r : json) | MarshalFailed (service : string) (err : error).

(** The members of a record in key order, the way the encoder walks a map, up to the first refusal. *)
Fixpoint encode_fields (l : list (string * value)) : result error (list (string * json)) :=
  match l with
  | [] => Ok []
  | (k, v) :: l =>
    match v with
    | Refused err => Err err
    | Encodes j => let! r := encode_fields l in Ok ((k, j) :: r)
    | Nil => let! r := encode_fields l in Ok ((k, JNull) :: r)
    end
  end.

Definition log_text (s : string) : value := Encodes (JString s).
Definition log_int (z : Z) : value := Encodes (JInt z).
Definition log_time (t : Time) : value :=
  match marshal_time t with Some j => Encodes j | None => Refused json_error end.

(** The fields every record starts from; fields of the caller replace them. *)
Definition log_base (service level message : string) (now : Time) : Fields :=
  list_to_map [("ts", log_text (FormatRFC3339Nano now)); ("level", log_text level);
               ("service", log_text service); ("message", log_text message)].

Definition log_write (service level message : string) (fields : Fields) (now : Time) : line :=
  let record := filter (fun kv => snd kv <> Nil) fields ∪ log_base service level message now in
  match encode_fields (stable_sort (fun x y => str_leb (fst x) (fst y)) (map_to_list record)) with
  | Ok members => LogRecord (JObject members)
  | Err err => MarshalFailed service err
  end.

Definition log_Info (service message : string) (fields : Fields) (now : Time) : line :=
  log_write service "info" message fields now.
Definition log_Error (service message : string) (err : option error) (fields : Fields) (now : Time) : line :=
  let fields := match err with Some e => <["error" := log_text (Error e)]> fields | None => fields end in
  log_write service "error" message fields now.

(** ** Runs *)

Record run (A : Type) := MkRun { r_state : A; r_log : list line; r_exit : Z }.
Arguments MkRun {A}. Arguments r_state {A}. Arguments r_log {A}. Arguments r_exit {A}.

(** [log.Fatal]: an error line and exit code 1. *)
Definition fatal {A} (service message : string) (err : error) (fields : Fields) (now : Time) (s : A) (log : list line) : run A :=
  MkRun s (log ++ [log_Error service message (Some err) fields now]) 1.

(** ** The database handle *)

(** [database/sql] and the driver: opening a handle and pinging the server. *)
Class SqlDriver (H : Type) := {
  sql_Open : string -> result error H;
  sql_Ping : H -> option error
}.

Record Options := MkOptions {
  o_MaxOpenConns : Z; o_MaxIdleConns : Z; o_ConnMaxLifetime : Duration; o_ConnMaxIdleTime : Duration }.

(** The limits of a pool: no limit of open connections is 0, no idle connection is -1. *)
Record Pool (H : Type) := MkPool {
  p_handle : H; p_open : Z; p_idle : Z; p_lifetime : Duration; p_idletime : Duration; p_closed : bool }.
Arguments MkPool {H}. Arguments p_handle {H}. Arguments p_open {H}. Arguments p_idle {H}.
Arguments p_lifetime {H}. Arguments p_idletime {H}. Arguments p_closed {H}.

Section pool.
Context {H : Type} `{SqlDriver H}.

(** [sql.Open]'s pool: two idle connections, no other limit. *)
Definition new_pool (h : H) : Pool H := MkPool h 0 2 0 0 false.

Definition SetMaxIdleConns (n : Z) (p : Pool H) : Pool H :=
  let idle := if 0 <? n then n else -1 in
  let idle := if (0 <? p_open p) && (p_open p <? Z.max 0 idle) then p_open p else idle in
  MkPool (p_handle p) (p_open p) idle (p_lifetime p) (p_idletime p) (p_closed p).
Definition SetMaxOpenConns (n : Z) (p : Pool H) : Pool H :=
  let open := if n <? 0 then 0 else n in
  let p' := MkPool (p_handle p) open (p_idle p) (p_lifetime p) (p_idletime p) (p_closed p) in
  if (0 <? open) && (open <? Z.max 0 (p_idle p)) then SetMaxIdleConns n p' else p'.
Definition SetConnMaxLifetime (d : Duration) (p : Pool H) : Pool H :=
  MkPool (p_handle p) (p_open p) (p_idle p) (Z.max 0 d) (p_idletime p) (p_closed p).
Definition SetConnMaxIdleTime (d : Duration) (p : Pool H) : Pool H :=
  MkPool (p_handle p) (p_open p) (p_idle p) (p_lifetime p) (Z.max 0 d) (p_closed p).
Definition Close (p : Pool H) : Pool H :=
  MkPool (p_handle p) (p_open p) (p_idle p) (p_lifetime p) (p_idletime p) true.

(** The limits a pool ends with: never more idle connections than open ones. *)
Definition limited (opts : Options) (h : H) : Pool H :=
  SetConnMaxIdleTime (o_ConnMaxIdleTime opts) (SetConnMaxLifetime (o_ConnMaxLifetime opts)
    (SetMaxIdleConns (o_MaxIdleConns opts) (SetMaxOpenConns (o_MaxOpenConns opts) (new_pool h)))).

Lemma limited_pool opts h :
  p_closed (limited opts h) = false /\
  (1 <= o_MaxOpenConns opts -> 0 <= o_MaxIdleConns opts ->
   p_open (limited opts h) = o_MaxOpenConns opts /\
   Z.max 0 (p_idle (limited opts h)) = Z.min (o_MaxIdleConns opts) (o_MaxOpenConns opts)).
Proof.
  destruct opts as [n m lt it]. unfold limited, SetMaxOpenConns, SetMaxIdleConns.
  cbn [o_MaxOpenConns o_MaxIdleConns o_ConnMaxLifetime o_ConnMaxIdleTime new_pool p_open p_idle p_handle p_lifetime p_idletime p_closed].
  split; [by repeat case_match|]. intros Hn Hm. rewrite (proj2 (Z.ltb_ge n 0)), (proj2 (Z.ltb_lt 0 n)) by lia. cbn [andb].
  destruct (Z.ltb_spec n (Z.max 0 2)); cbn; destruct (Z.ltb_spec 0 m); cbn; rewrite (proj2 (Z.ltb_lt 0 n)) by lia; cbn [andb].
  all: repeat case_match; cbn; bool_to_prop; lia.
Qed.

(** [OpenPostgres]: its result, and the pool it made as it is left. *)
Definition OpenPostgres (dsn : string) (opts : Options) : result error (Pool H) * option (Pool H) :=
  match sql_Open dsn with
  | Err e => (Err (WrapError "open postgres: " e ""), None)
  | Ok h =>
    let p := limited opts h in
    match sql_Ping (p_handle p) with
    | Some e => (Err (WrapError "ping postgres: " e ""), Some (Close p))
    | None => (Ok p, Some p)
    end
  end.

Definition pool_options (c : PostgresConfig) : Options :=
  MkOptions (pg_MaxOpenConns c) (pg_MaxIdleConns c) (pg_ConnMaxLifetime c) (pg_ConnMaxIdleTime c).

(** A pool is handed out open or not at all. *)
Lemma OpenPostgres_no_leak dsn opts :
  match OpenPostgres dsn opts with
  | (Ok p, made) => made = Some p /\ p_closed p = false
  | (Err _, made) => from_option p_closed true made = true
  end.
Proof.
  unfold OpenPostgres. destruct (sql_Open dsn) as [h|e]; [|done]. cbv zeta. destruct (sql_Ping _); [done|].
  split; [done|]. apply limited_pool.
Qed.

(** ** Starting a service *)

(** The beginning of each main: its configuration and database, or the line it dies with. *)
Definition start `{MapOrder} (service : string) (env : Environment) (now : Time) : result line (Config * Pool H) :=
  let cfg := Load env in
  match Validate cfg with
  | Some e => Err (log_Error service "invalid config" (Some e) ∅ now)
  | None =>
    match fst (OpenPostgres (DSN (cf_Postgres cfg)) (pool_options (cf_Postgres cfg))) with
    | Err e => Err (log_Error service "failed to open postgres" (Some e) ∅ now)
    | Ok p => Ok (cfg, p)
    end
  end.

Lemma start_Ok `{MapOrder} service env now cfg p :
  start service env now = Ok (cfg, p) ->
  cfg = Load env /\ Validate cfg = None /\ p_closed p = false /\
  p_open p = pg_MaxOpenConns (cf_Postgres cfg) /\ Z.max 0 (p_idle p) = Z.min (pg_MaxIdleConns (cf_Postgres cfg)) (p_open p).
Proof.
  unfold start. generalize (Load env) as c. intros c. destruct (Validate c) as [e|] eqn:Ev; [done|].
  destruct (Validate_None _ Ev) as [Hs _].
  pose proof (OpenPostgres_no_leak (DSN (cf_Postgres c)) (pool_options (cf_Postgres c))) as Hl.
  destruct (OpenPostgres _ _) as [[q|e] made] eqn:E; [|done]. intros [= <- <-]. destruct Hl as [-> Hc].
  unfold OpenPostgres in E. destruct (sql_Open _) as [h|]; [|done]. cbv zeta in E. destruct (sql_Ping _); [done|].
  injection E as <-. destruct (proj2 (limited_pool (pool_options (cf_Postgres c)) h) (sn_open _ Hs) (sn_idle _ Hs)) as [Ho Hi].
  split_and!; [done..|]. by rewrite Hi, Ho.
Qed.
End pool.

(** ** The scheduler service *)

(** [RecoverInterrupted] when one of its two statements fails: the first one's effect stays. *)
Definition recover_with (f1 f2 : option error) (db : scheduler_db) (now : Time) (timeout : Duration)
    : scheduler_db * result error (Z * Z) :=
  match f1 with
  | Some e => (db, Err (WrapError "recover running jobs: " e ""))
  | None =>
    let '(db', counts) := RecoverInterrupted db now timeout in
    match f2 with
    | Some e => (MkDB (db_jobs db') (db_next_id db') (db_failed db') (db_runs db) (db_symbol_ids db') (db_gap_ids db') (db_endpoint_ids db'),
                 Err (WrapError "recover collection runs: " e ""))
    | None => (db', Ok counts)
    end
  end.

Section services.
Context `{MapOrder} {Conn : Type} `{SqlDriver Conn}.

Definition plan_fields (r : PlanResult) : Fields :=
  map_fold (fun key count fields => <["skip_" +:+ key := log_int count]> fields)
    (list_to_map [("attempted", log_int (AttemptedJobs r)); ("inserted", log_int (InsertedJobs r));
                  ("skipped", log_int (Z.of_nat (size (Skipped r))))]) (Skipped r).

(** [now] is the clock of the log, of the database and of the planner. *)
Definition scheduler_service `{PlannerStores} (env : Environment) (f1 f2 : option error) (now : Time) (db : scheduler_db)
    : run scheduler_db :=
  let service := "scheduler-service" in
  match start service env now with
  | Err l => MkRun db [l] 1
  | Ok (cfg, _) =>
    let '(db, recovered) := recover_with f1 f2 db now (hd_RestartJobTimeout (cf_Hardening cfg)) in
    let log := match recovered with
               | Err e => [log_Error service "failed to recover interrupted jobs" (Some e) ∅ now]
               | Ok (jobs, runs) =>
                 if (0 <? jobs) || (0 <? runs)
                 then [log_Info service "recovered interrupted work"
                         (list_to_map [("running_jobs_reset", log_int jobs); ("collection_runs_interrupted", log_int runs)]) now]
                 else []
               end in
    match RunAt db now with
    | (db, (_, Some e)) => fatal service "planner failed" e ∅ now db log
    | (db, (r, None)) => MkRun db (log ++ [log_Info service "scheduler completed" (plan_fields r) now]) 0
    end
  end.

(** ** The collector service *)

Definition exchange_budget (c : RateLimitConfig) : Budget :=
  MkBudget (f64_of_Z (rl_RequestsPerSecond c)) f64_zero (rl_Burst c) 0 (100 * Millisecond).

(** The loop over the exchanges: each is configured or an error is logged. *)
Fixpoint configure_all (c : RateLimitConfig) (now : Time) (exchanges : list string) (l : Limiter) : Limiter * list line :=
  match exchanges with
  | [] => (l, [])
  | x :: rest =>
    let '(l, err) := Configure l now x (exchange_budget c) in
    let '(l', log) := configure_all c now rest l in
    (l', match err with
         | Some e => log_Error "collector-service" "failed to configure rate limiter" (Some e) {[ "exchange" := log_text x ]} now :: log
         | None => log
         end)
  end.

Definition circuit_settings (c : RateLimitConfig) : CircuitSettings :=
  MkCircuitSettings (rl_CircuitBreakerFailureLimit c) (rl_CircuitBreakerCooldown c) 1.

Definition instance_id (env : Environment) : string := if (env "HOSTNAME" =? "")%string then "default" else env "HOSTNAME".

(** [NewAdvancedRepository]'s floor. *)
Definition liquidation_floor (minUSD : float64) : float64 := if fle minUSD f64_zero then f64_of_Z 1000 else minUSD.

Definition service_writer (cfg : Config) : RepositoryWriter :=
  MkWriter true true true true true true (liquidation_floor (lq_MinUSD (cf_Liquidation cfg)))
    (MkValidationConfig (hd_MaxFutureSkew (cf_Hardening cfg)) (hd_FundingMin (cf_Hardening cfg)) (hd_FundingMax (cf_Hardening cfg))).

Definition service_collector {D : Type} (env : Environment) (eps : list Endpoint) (syms : list symbol_row)
    (adapter : string -> result error ExchangeAdapter) (write : ResultWriter D) : Collector D :=
  MkCollector D (Endpoints.GetByID eps) (Endpoints.ResolveActive eps) (Symbols.GetSymbolByID syms) adapter write true true
    "collector-service" (instance_id env).

(** The executors of the router, over the state [W] they act on. *)
Definition service_router {W : Type} (collect aggregate : W -> Job -> W * option error) : gmap string (W -> Job -> W * option error) :=
  list_to_map [("*", collect); ("aggregated_snapshot", aggregate)].

(** The retry policy is the configured one, there is no progress callback, and the job store records
    failures in detail. *)
Definition service_worker (cfg : Config) : Worker :=
  MkWorker (cf_WorkerConcurrency cfg) None
    (MkRetryPolicy (hd_BackoffBase (cf_Hardening cfg)) (hd_BackoffMax (cf_Hardening cfg)) (hd_BackoffJitterMax (cf_Hardening cfg)))
    false true.

(** What a worker starts from: a new breaker and a new limiter in every run. *)
Definition service_state (cfg : Config) (now : Time) (db : scheduler_db) : worker_state :=
  MkWS db (Some (NewCircuitBreaker (circuit_settings (cf_RateLimit cfg))))
    (Some (fst (configure_all (cf_RateLimit cfg) now (cf_SupportedExchanges cfg) NewLimiter))) [].

(** [None]: the run has not ended, since a wait of the limiter has not. *)
Definition collector_service (env : Environment) (now : Time) (locked : gset Z) (envs : Job -> job_env) (db : scheduler_db)
    : worker_state * option (list line * Z) :=
  let service := "collector-service" in
  match start service env now with
  | Err l => (MkWS db None None [], Some ([l], 1))
  | Ok (cfg, _) =>
    let log := snd (configure_all (cf_RateLimit cfg) now (cf_SupportedExchanges cfg) NewLimiter) in
    let '(st, (processed, o)) := Worker.RunOnce (service_worker cfg) (service_state cfg now db) now locked envs in
    let fields : Fields := {[ "processed" := log_int processed ]} in
    (st, match o with
         | Blocked => None
         | Returned (Some e) => Some (log ++ [log_Error service "worker failed" (Some e) fields now], 1)
         | Returned None => Some (log ++ [log_Info service "collector completed" fields now], 0)
         end)
  end.

(** ** The retention service *)

Definition service_engine (cfg : Config) : RetentionEngine.Engine :=
  MkEngine true true (MkEngineOptions (rt_MaxRowsPerRun (cf_Retention cfg)) (rt_DiskPressureCritical (cf_Retention cfg))).

Definition retention_service `{ScanOrder} (env : Environment) (fault : option error) (faults : nat -> ItemFaults)
    (policies : list PolicyRow) (now finished : Time) (d : DB) : run DB :=
  let service := "retention-service" in
  match start service env now with
  | Err l => MkRun d [l] 1
  | Ok (cfg, _) =>
    let results (n : nat) := ("results", log_int (Z.of_nat n)) in
    let failed (n : nat) (started : Time) e :=
      [log_Error service "retention engine finished with error" (Some e)
         (list_to_map [results n; ("started", log_time started)]) now] in
    match RetentionEngine.RunOnce (service_engine cfg) fault faults policies ∅ now d with
    | (d, Err e) => MkRun d (failed 0%nat 0 e) 1
    | (d, Ok (rs, _, Some e)) => MkRun d (failed (length rs) now e) 1
    | (d, Ok (rs, m, None)) =>
      MkRun d [log_Info service "retention completed"
        (list_to_map [results (length rs); ("started", log_time now); ("finished", log_time finished);
                      ("metrics", log_text (retention_Prometheus m))]) now] 0
    end
  end.
End services.

(** ** Validated settings are the ones in force *)

(** The components have fallbacks for settings they cannot use; validation makes those of the writer,
    the worker, the recovery and the retention engine inert. *)
Theorem validated_settings `{MapOrder} cfg :
  Validate cfg = None ->
  validation (service_writer cfg) = w_Validation (service_writer cfg) /\
  (if w_BatchSize (service_worker cfg) <=? 0 then 10 else w_BatchSize (service_worker cfg)) = cf_WorkerConcurrency cfg /\
  (forall db now, RecoverInterrupted db now (hd_RestartJobTimeout (cf_Hardening cfg)) =
     let cutoff := now - hd_RestartJobTimeout (cf_Hardening cfg) in
     let db' := update_where db (stale cutoff) (recover_row now cutoff) in
     (MkDB (db_jobs db') (db_next_id db) (db_failed db)
        (map (fun r => if stale_run cutoff r then recover_run now cutoff r else r) (db_runs db))
        (db_symbol_ids db) (db_gap_ids db) (db_endpoint_ids db),
      (Z.of_nat (length (filter (fun r => stale cutoff r = true) (db_jobs db))),
       Z.of_nat (length (filter (fun r => stale_run cutoff r = true) (db_runs db)))))) /\
  (forall p, 0 < MaxRowsPerRun p -> effectiveMaxRows p (opt_MaxRowsPerRun (e_Options (service_engine cfg)))
     = Z.min (MaxRowsPerRun p) (rt_MaxRowsPerRun (cf_Retention cfg))).
Proof.
  intros Hv. apply Validate_None in Hv as [Hs _]. split_and!.
  - unfold validation, effective_config. cbn [service_writer w_Validation MaxFutureSkew FundingMin FundingMax].
    rewrite (proj2 (Z.leb_gt _ _)) by apply (sn_skew _ Hs). destruct (feq _ f64_zero && feq _ f64_zero) eqn:E; [|done].
    apply andb_prop in E as [E1 E2]. exfalso. pose proof (sn_funding _ Hs) as Hf. revert E1 E2 Hf. clear.
    generalize (hd_FundingMin (cf_Hardening cfg)), (hd_FundingMax (cf_Hardening cfg)). intros x y.
    by destruct x as [[]|[]| |[]], y as [[]|[]| |[]].
  - cbn [service_worker w_BatchSize]. pose proof (sn_workers _ Hs). by rewrite (proj2 (Z.leb_gt _ _)) by lia.
  - intros db now. unfold RecoverInterrupted. by rewrite (proj2 (Z.leb_gt _ _)) by apply (sn_restart _ Hs).
  - intros p Hp. unfold effectiveMaxRows. cbn [service_engine e_Options opt_MaxRowsPerRun]. pose proof (sn_rows _ Hs).
    rewrite (proj2 (Z.ltb_lt 0 (rt_MaxRowsPerRun _))) by lia. cbn [andb]. destruct (Z.ltb_spec (rt_MaxRowsPerRun (cf_Retention cfg)) (MaxRowsPerRun p));
      rewrite (proj2 (Z.leb_gt _ _)) by lia; lia.
Qed.

(** ** The limiter of a run *)

Lemma Configure_supported l now x c :
  norm x <> "" -> 1 <= rl_RequestsPerSecond c < 2 ^ 53 ->
  Configure l now x (exchange_budget c) = (<[norm x := newBucket (configure_budget (exchange_budget c)) now]> l, None).
Proof.
  intros Hx Hr. unfold Configure. rewrite (proj2 (String.eqb_neq _ _) Hx).
  destruct (fle (RequestsPerSecond (exchange_budget c)) f64_zero) eqn:E; [|done].
  apply fle_not_flt in E. change f64_zero with (f64_of_Z 0) in E. cbn [exchange_budget RequestsPerSecond] in E.
  rewrite flt_of_Z in E by lia. bool_to_prop. lia.
Qed.

Lemma configure_all_spec c now exchanges l :
  1 <= rl_RequestsPerSecond c < 2 ^ 53 -> Forall (fun x => x = norm x /\ x <> "") exchanges ->
  snd (configure_all c now exchanges l) = [] /\
  forall k, fst (configure_all c now exchanges l) !! k =
    if bool_decide (k ∈ exchanges) then Some (newBucket (configure_budget (exchange_budget c)) now) else l !! k.
Proof.
  intros Hr. revert l. induction exchanges as [|x xs IH]; intros l Hx; [split; [done|]; intros k; by rewrite bool_decide_false by set_solver|].
  apply Forall_cons in Hx as [[Hn Hne] Hx]. cbn [configure_all]. rewrite Configure_supported by (rewrite <- ?Hn; done).
  destruct (IH (<[norm x := newBucket (configure_budget (exchange_budget c)) now]> l) Hx) as [Hlog Hl].
  destruct (configure_all c now xs _) as [l' log]. cbn [fst snd] in *. split; [done|]. intros k. rewrite Hl, <- Hn.
  destruct (decide (k ∈ xs)); [by rewrite !bool_decide_true by set_solver|]. rewrite (bool_decide_false (k ∈ xs)) by done.
  destruct (decide (k = x)) as [->|Hk].
  - rewrite bool_decide_true by set_solver. apply lookup_insert_eq.
  - rewrite bool_decide_false by set_solver. by apply lookup_insert_ne.
Qed.

(** Rates up to ten thousand requests per second, checked one by one. *)
Definition rate_ok (n : Z) : bool :=
  let r := f64_of_Z n in let m := fmul r (f64_of_Z 60) in
  valid_binary prec64 emax64 r && flt f64_zero r && valid_binary prec64 emax64 m && nonneg m && negb (is_inf m) &&
  flt f64_zero (fdiv m (f64_of_Z 60)).

Lemma rates_ok n : 1 <= n <= 10000 -> rate_ok n = true.
Proof.
  intros Hn. assert (forallb rate_ok (seqZ 1 10000) = true) as Ha by (vm_compute; reflexivity).
  rewrite forallb_forall in Ha. apply Ha, list_elem_of_In, elem_of_seqZ. lia.
Qed.

Lemma exchange_budget_ok c :
  1 <= rl_RequestsPerSecond c <= 10000 -> 1 <= rl_Burst c < 2 ^ 53 -> budget_ok (configure_budget (exchange_budget c)).
Proof.
  intros Hr Hb. pose proof (rates_ok _ Hr) as Ho. unfold rate_ok in Ho. bool_to_prop.
  unfold configure_budget, budget_ok. cbn [exchange_budget RequestsPerSecond RequestsPerMinute Burst JitterMin JitterMax].
  rewrite fle_refl by done. rewrite (proj2 (Z.leb_gt _ _)) by lia. unfold fvalid. split_and!; (done || lia || idtac).
Qed.

(** the limiter of a collector run.  With a validated configuration of at most ten thousand requests
    per second, configuring the exchanges logs nothing: the limiter holds exactly one full bucket per
    supported exchange, with the configured rate, sixty times it per minute and the configured burst,
    and is well formed.  Nothing of an earlier run enters it. *)
Theorem collector_limiter_ready `{MapOrder} env now :
  let c := Load env in
  Validate c = None -> rl_RequestsPerSecond (cf_RateLimit c) <= 10000 -> rl_Burst (cf_RateLimit c) < 2 ^ 53 ->
  let b := configure_budget (exchange_budget (cf_RateLimit c)) in
  let '(l, log) := configure_all (cf_RateLimit c) now (cf_SupportedExchanges c) NewLimiter in
  log = [] /\ limiter_ok l /\ Burst b = rl_Burst (cf_RateLimit c) /\
  forall k, l !! k = if bool_decide (k ∈ cf_SupportedExchanges c) then Some (newBucket b now) else None.
Proof.
  intros c Hv Hr Hb b. destruct (Validate_None _ Hv) as [Hs _]. pose proof (sn_rps _ Hs). pose proof (sn_burst _ Hs).
  destruct (configure_all_spec (cf_RateLimit c) now (cf_SupportedExchanges c) NewLimiter) as [Hlog Hl];
    [lia|apply parseCSV_norm|].
  destruct (configure_all _ _ _ _) as [l log]. cbn [fst snd] in *. split; [done|]. split_and!; [|unfold b, configure_budget;
    cbn [exchange_budget Limiter.Burst]; by rewrite (proj2 (Z.leb_gt _ _)) by lia|intros k; rewrite Hl; by case_bool_decide].
  intros k v. rewrite Hl. case_bool_decide; [|done]. intros [= <-]. by apply newBucket_ok, exchange_budget_ok.
Qed.

(** ** The breaker of a run *)

(** Every circuit is closed, with at most [k] failures, and the threshold is [T]. *)
Definition quiet (T k : Z) (st : worker_state) : Prop :=
  exists b, ws_breaker st = Some b /\ FailureThreshold (settings b) = T /\
    map_Forall (fun _ c => state c = CircuitClosed /\ 0 <= failures c <= k) (states b).

Lemma quiet_stateFor k (b : CircuitBreaker) key : 0 <= k ->
  map_Forall (fun _ c => state c = CircuitClosed /\ 0 <= failures c <= k) (states b) ->
  state (stateFor b key) = CircuitClosed /\ 0 <= failures (stateFor b key) <= k.
Proof.
  intros Hk Hb. unfold stateFor. destruct (states b !! Key_String key) as [c|] eqn:E; [exact (Hb _ _ E)|]. cbn. split; [done|lia].
Qed.

Lemma quiet_store T k st b key c :
  ws_breaker st = Some (CircuitBreaker.store b key c) -> FailureThreshold (settings b) = T ->
  map_Forall (fun _ c => state c = CircuitClosed /\ 0 <= failures c <= k) (states b) ->
  state c = CircuitClosed /\ 0 <= failures c <= k -> quiet T k st.
Proof. intros E HT Hb Hc. exists (CircuitBreaker.store b key c). split_and!; [done..|]. cbn. by apply map_Forall_insert_2. Qed.

Lemma quiet_same T k st st' : ws_breaker st' = ws_breaker st -> quiet T k st -> quiet T k st'.
Proof. intros E (b & Hb & H'). exists b. by rewrite E. Qed.

Lemma quiet_mono T k k' st : k <= k' -> quiet T k st -> quiet T k' st.
Proof.
  intros Hk (b & Hb & HT & Hm). exists b. split_and!; [done..|]. eapply map_Forall_impl; [exact Hm|]. intros ? ? [? ?]. split; [done|lia].
Qed.

Lemma retry_breaker w st env job err rec :
  ws_breaker (fst (retryOrDeadLetter w st env job err rec)) = ws_breaker st /\
  ws_limiter (fst (retryOrDeadLetter w st env job err rec)) = ws_limiter st.
Proof.
  unfold retryOrDeadLetter. destruct (classifyExecutionError err) as [kind _]. destruct (dead_letter_due job rec); [|done].
  destruct (if w_Detailed w then _ else _). done.
Qed.

Lemma progress_same w st job status :
  ws_breaker (progress w st job status) = ws_breaker st /\ ws_limiter (progress w st job status) = ws_limiter st.
Proof. unfold progress. by case_match. Qed.

Lemma allow_quiet T k st env key : 0 <= k -> quiet T k st -> quiet T k (fst (breaker_allow st env key)).
Proof.
  intros Hk (b & Hb & HT & Hm). unfold breaker_allow. rewrite Hb. destruct (quiet_stateFor k b key Hk Hm) as [Hs Hf].
  unfold Allow. destruct (env_ctx env); [by exists b|]. rewrite Hs. by eapply (quiet_store _ _ _ b key (stateFor b key)).
Qed.

Lemma execute_quiet T k w st env key job : 0 <= k -> k + 1 < T <= max_int64 ->
  quiet T k st -> quiet T (k + 1) (fst (execute_job w st env key job)).
Proof.
  intros Hk HT (b & Hb & HT' & Hm). unfold execute_job. destruct (quiet_stateFor k b key Hk Hm) as [Hs Hf].
  assert (map_Forall (fun _ c => state c = CircuitClosed /\ 0 <= failures c <= k + 1) (states b)) as Hm'.
  { eapply map_Forall_impl; [exact Hm|]. intros ? ? [? ?]. split; [done|lia]. }
  assert (forall s0, ws_breaker (progress w s0 job JobStatusRunning) = ws_breaker s0) as Hp by (intros; apply progress_same).
  destruct (env_exec env) as [err|].
  - destruct (classifyExecutionError err) as [kind rec].
    eapply quiet_same; [apply retry_breaker|].
    eapply (quiet_store T (k + 1) _ b key (MkCircuit CircuitClosed (failures (stateFor b key) + 1) kind _ _)); [|done..|split; [done|cbn; lia]].
    cbn [breaker_record ws_breaker]. rewrite Hp, Hb. cbn [fmap option_fmap option_map]. unfold RecordFailure.
    rewrite Hs, HT', wrap64_ok by (unfold int64_ok, max_int64, min_int64, two63 in *; lia).
    rewrite bool_decide_false by done. cbn [orb]. by rewrite (proj2 (Z.leb_gt _ _)) by lia.
  - eapply quiet_same; [apply progress_same|].
    eapply (quiet_store T (k + 1) _ b key (MkCircuit CircuitClosed 0 "" _ _)); [|done..|split; [done|cbn; lia]].
    cbn [breaker_record ws_breaker set_db]. rewrite Hp, Hb. cbn [fmap option_fmap option_map]. unfold RecordSuccess. by rewrite Hs.
Qed.

(** The same state without its breaker. *)
Definition unguarded (st : worker_state) : worker_state := MkWS (ws_db st) None (ws_limiter st) (ws_progress st).

Lemma retry_unguarded w st env job err rec :
  retryOrDeadLetter w (unguarded st) env job err rec
  = (unguarded (fst (retryOrDeadLetter w st env job err rec)), snd (retryOrDeadLetter w st env job err rec)).
Proof.
  unfold retryOrDeadLetter. destruct (classifyExecutionError err) as [kind _]. destruct (dead_letter_due job rec); [|done].
  cbn [unguarded ws_db]. by destruct (if w_Detailed w then _ else _).
Qed.

Lemma progress_unguarded w st job status : progress w (unguarded st) job status = unguarded (progress w st job status).
Proof. unfold progress. by case_match. Qed.

Lemma record_unguarded st f : unguarded (breaker_record st f) = breaker_record (unguarded st) f.
Proof. done. Qed.

Lemma execute_unguarded w st env key job :
  execute_job w (unguarded st) env key job
  = (unguarded (fst (execute_job w st env key job)), snd (execute_job w st env key job)).
Proof.
  unfold execute_job. rewrite !progress_unguarded. destruct (env_exec env) as [err|].
  - destruct (classifyExecutionError err) as [kind rec]. by rewrite <- record_unguarded, retry_unguarded.
  - rewrite <- record_unguarded. cbn [fst snd]. f_equal. by rewrite <- progress_unguarded.
Qed.

Lemma wait_unguarded st env key m :
  limiter_wait (unguarded st) env key m = (unguarded (fst (limiter_wait st env key m)), snd (limiter_wait st env key m)).
Proof.
  unfold limiter_wait. cbn [unguarded ws_limiter]. destruct (ws_limiter st) as [l|] eqn:E; [|done].
  destruct (rm_RequiresEndpoint m); [|done]. by destruct (Wait _ _ _ _).
Qed.

Lemma wait_breaker st env key m : ws_breaker (fst (limiter_wait st env key m)) = ws_breaker st.
Proof.
  unfold limiter_wait. destruct (ws_limiter st) as [l|] eqn:E; [|done].
  destruct (rm_RequiresEndpoint m); [|done]. by destruct (Wait _ _ _ _).
Qed.

(** With a quiet breaker, a job is processed as it would be without one. *)
Lemma process_unguarded T k w st env job :
  0 <= k -> k + 1 < T <= max_int64 -> quiet T k st -> env_ctx env = None ->
  process w (unguarded st) env job = (unguarded (fst (process w st env job)), snd (process w st env job)) /\
  quiet T (k + 1) (fst (process w st env job)).
Proof.
  intros Hk HT Hq Hctx. unfold process.
  pose proof (allow_quiet T k st env (job_key job) Hk Hq) as Hq1.
  assert (exists st1, breaker_allow st env (job_key job) = (st1, None) /\ unguarded st1 = unguarded st) as (st1 & E1 & Eu).
  { destruct Hq as (b & Hb & _ & Hm). unfold breaker_allow, Allow. rewrite Hb, Hctx.
    rewrite (proj1 (quiet_stateFor k b _ Hk Hm)). by eexists. }
  rewrite E1 in *. cbn [fst] in Hq1. change (breaker_allow (unguarded st) env (job_key job)) with (unguarded st, None : option error).
  cbv beta iota. rewrite <- Eu, wait_unguarded.
  pose proof (quiet_same T k st1 (fst (limiter_wait st1 env (job_key job) (RuntimeMetadataFromJob job)))
    (wait_breaker _ _ _ _) Hq1) as Hq2.
  destruct (limiter_wait st1 env _ _) as [st2 o]. cbn [fst snd] in *.
  destruct o as [[err|]|].
  - rewrite retry_unguarded. pose proof (proj1 (retry_breaker w st2 env job err true)) as Hr.
    destruct (retryOrDeadLetter w st2 env job err true) as [st3 e]. cbn [fst snd] in *. split; [done|].
    eapply quiet_same; [exact Hr|]. eapply quiet_mono; [|exact Hq2]. lia.
  - rewrite execute_unguarded. pose proof (execute_quiet T k w st2 env (job_key job) job Hk HT Hq2) as He.
    destruct (execute_job w st2 env (job_key job) job) as [st3 e]. by split.
  - split; [done|]. eapply quiet_mono; [|exact Hq2]. lia.
Qed.

Lemma run_jobs_unguarded T w envs jobs k n st :
  0 <= k -> k + Z.of_nat (length jobs) < T <= max_int64 -> quiet T k st -> (forall j, env_ctx (envs j) = None) ->
  run_jobs w (unguarded st) envs jobs n
  = (unguarded (fst (run_jobs w st envs jobs n)), snd (run_jobs w st envs jobs n)).
Proof.
  revert k n st. induction jobs as [|job jobs IH]; intros k n st Hk HT Hq Hc; [done|]. cbn [length] in HT. cbn [run_jobs].
  destruct (process_unguarded T k w st (envs job) job Hk ltac:(lia) Hq (Hc job)) as [-> Hq'].
  destruct (process w st (envs job) job) as [st' o]. cbn [fst snd] in *. destruct o as [[e|]|]; [done| |done].
  apply (IH (k + 1)); [lia|lia|done|done].
Qed.

(** The number of failures that opens a circuit. *)
Definition threshold (c : RateLimitConfig) : Z :=
  if rl_CircuitBreakerFailureLimit c <=? 0 then 5 else rl_CircuitBreakerFailureLimit c.

Lemma claimed_length db now locked limit db' jobs :
  ClaimPendingJobs db now locked limit = (db', Ok jobs) -> Z.of_nat (length jobs) <= Z.max 0 limit.
Proof.
  unfold ClaimPendingJobs. case_match; [done|]. intros [= <- <-]. rewrite length_map. unfold selected. rewrite length_take. lia.
Qed.

(** C24: the circuit breaker of a collector run.  A run starts with closed circuits and ends after one
    batch, so when the batch is smaller than the failure limit no circuit can open: whatever the jobs,
    their failures and their times, the run is the one without a breaker, in the rows it writes, the
    limiter, the jobs it processes and its result. *)
Theorem breaker_inert `{MapOrder} cfg now db locked envs :
  Validate cfg = None -> cf_WorkerConcurrency cfg < threshold (cf_RateLimit cfg) <= max_int64 ->
  (forall j, env_ctx (envs j) = None) ->
  let out st := Worker.RunOnce (service_worker cfg) st now locked envs in
  let st := service_state cfg now db in
  out (unguarded st) = (unguarded (fst (out st)), snd (out st)).
Proof.
  intros Hv HT Hc. cbv zeta. destruct (Validate_None _ Hv) as [Hs _]. pose proof (sn_workers _ Hs). unfold Worker.RunOnce.
  cbn [service_worker w_BatchSize]. rewrite (proj2 (Z.leb_gt _ _)) by lia. cbn [unguarded ws_db service_state].
  destruct (ClaimPendingJobs db now locked _) as [db' [jobs|e]] eqn:E; [|done]. apply claimed_length in E.
  change (set_db (unguarded (service_state cfg now db)) db') with (unguarded (set_db (service_state cfg now db) db')).
  apply (run_jobs_unguarded (threshold (cf_RateLimit cfg)) _ _ _ 0); [lia|lia| |done].
  eexists. split_and!; [reflexivity|done|]. cbn. apply map_Forall_empty.
Qed.

(** ** Jobs of an exchange that is not configured *)

Lemma reserve_keys l now draw x weight k : is_Some (fst (reserve l now draw x weight) !! k) <-> is_Some (l !! k).
Proof.
  unfold reserve. destruct (l !! x) as [b|] eqn:E; [|done]. destruct (bucket_reserve b now weight) as [b' d]. cbn [fst].
  destruct (decide (x = k)) as [->|Hk].
  - change (is_Some ((<[k := b']> (l : gmap string bucket)) !! k) <-> is_Some (l !! k)). rewrite lookup_insert_eq, E.
    split; intros _; eauto.
  - change (is_Some ((<[x := b']> (l : gmap string bucket)) !! k) <-> is_Some (l !! k)). by rewrite lookup_insert_ne.
Qed.

Lemma wait_loop_keys turns l x weight k : is_Some (fst (wait_loop turns l x weight) !! k) <-> is_Some (l !! k).
Proof.
  revert l. induction turns as [|t turns IH]; intros l; cbn [wait_loop]; [done|].
  pose proof (reserve_keys l (turn_now t) (turn_draw t) x weight k) as Hr.
  destruct (reserve _ _ _ _ _) as [l' [[d j]|e]]; cbn [fst] in Hr; [|done]. destruct (_ <=? 0); [done|].
  destruct (turn_done t); [done|]. by rewrite IH.
Qed.

(** The limiter of a state knows exactly the exchanges [xs]. *)
Definition limits (xs : list string) (st : worker_state) : Prop :=
  exists l, ws_limiter st = Some l /\ forall k, is_Some (l !! k) <-> k ∈ xs.

Lemma limits_same xs st st' : ws_limiter st' = ws_limiter st -> limits xs st -> limits xs st'.
Proof. intros E (l & Hl & H'). exists l. by rewrite E. Qed.

Lemma allow_same st env key :
  ws_limiter (fst (breaker_allow st env key)) = ws_limiter st /\ ws_db (fst (breaker_allow st env key)) = ws_db st.
Proof. unfold breaker_allow. destruct (ws_breaker st); [|done]. by destruct (Allow _ _ _ _) as [? [? ?]]. Qed.

Lemma wait_limits xs st env key m : limits xs st -> limits xs (fst (limiter_wait st env key m)).
Proof.
  intros (l & Hl & Hk). unfold limiter_wait. rewrite Hl. destruct (rm_RequiresEndpoint m); [|by exists l].
  destruct (Wait l (env_turns env) key (rm_RequestWeight m)) as [l' o] eqn:E. exists l'. split; [done|]. intros k.
  rewrite <- Hk. unfold Wait in E. destruct (_ =? "")%string; [by simplify_eq|].
  rewrite <- (wait_loop_keys (env_turns env) l (norm (key_Exchange key))
    (if rm_RequestWeight m <=? 0 then 1 else rm_RequestWeight m)). by rewrite E.
Qed.

Lemma process_limits xs w st env job : limits xs st -> limits xs (fst (process w st env job)).
Proof.
  intros Hl. unfold process. pose proof (allow_same st env (job_key job)) as [Ha _].
  destruct (breaker_allow st env (job_key job)) as [st1 [err|]]; cbn [fst] in Ha; apply (limits_same xs st st1 Ha) in Hl.
  { pose proof (retry_breaker w st1 env job err true) as [_ Hr]. destruct (retryOrDeadLetter _ _ _ _ _ _). by eapply limits_same. }
  apply (wait_limits xs st1 env (job_key job) (RuntimeMetadataFromJob job)) in Hl.
  destruct (limiter_wait st1 env _ _) as [st2 [[err|]|]]; cbn [fst] in Hl; [| |done].
  - pose proof (retry_breaker w st2 env job err true) as [_ Hr]. destruct (retryOrDeadLetter _ _ _ _ _ _). by eapply limits_same.
  - assert (ws_limiter (fst (execute_job w st2 env (job_key job) job)) = ws_limiter st2) as He.
    { unfold execute_job. destruct (env_exec env) as [err|].
      - destruct (classifyExecutionError err) as [kind rec]. rewrite (proj2 (retry_breaker _ _ _ _ _ _)).
        cbn [breaker_record ws_limiter]. apply progress_same.
      - cbn [fst]. rewrite (proj2 (progress_same _ _ _ _)). cbn [set_db breaker_record ws_limiter]. apply progress_same. }
    destruct (execute_job w st2 env _ _). by eapply limits_same.
Qed.

(** The states a run of the collector goes through. *)
Definition step_of (w : Worker) (st st' : worker_state) : Prop := exists env job, st' = fst (process w st env job).

Definition no_budget (job : Job) : error :=
  ErrorString ("rate limit budget for " +:+ norm (job_Exchange job) +:+ " is not configured").

(** C25: jobs of an exchange that is not supported.  The planner knows nothing of [SUPPORTED_EXCHANGES]; in
    a run of the collector, whatever was processed before, a job that needs an endpoint of another
    exchange never reaches its executor: what happens to it does not depend on it.  The attempt is
    recorded as a failure, for the missing budget unless its circuit refused it first, and the job is
    retried until it is dead-lettered.  A job that needs no endpoint (an aggregated snapshot) passes the
    limiter untouched: unless its circuit refuses it, it is executed. *)
Theorem unsupported_never_collected `{MapOrder} env now db st job je :
  let cfg := Load env in let w := service_worker cfg in
  Validate cfg = None -> rl_RequestsPerSecond (cf_RateLimit cfg) < 2 ^ 53 ->
  rtc (step_of w) (service_state cfg now db) st ->
  norm (job_Exchange job) <> "" -> norm (job_Exchange job) ∉ cf_SupportedExchanges cfg -> env_turns je <> [] ->
  if rm_RequiresEndpoint (RuntimeMetadataFromJob job) then
    exists st1 err, ws_db st1 = ws_db st /\ (snd (breaker_allow st je (job_key job)) = None -> err = no_budget job) /\
    forall x, let je := MkEnv (env_ctx je) (env_allow_now je) (env_turns je) x (env_fail_now je) (env_now je) (env_db_now je) in
    process w st je job
    = (fst (retryOrDeadLetter w st1 je job err true), Returned (snd (retryOrDeadLetter w st1 je job err true)))
  else
    snd (breaker_allow st je (job_key job)) = None ->
    process w st je job
    = (fst (execute_job w (fst (breaker_allow st je (job_key job))) je (job_key job) job),
       Returned (snd (execute_job w (fst (breaker_allow st je (job_key job))) je (job_key job) job))).
Proof.
  intros cfg w Hv Hr Hst Hne Hns Ht. destruct (rm_RequiresEndpoint (RuntimeMetadataFromJob job)) eqn:Hreq.
  2: { intros Hb. unfold process. destruct (breaker_allow st je (job_key job)) as [st1 o]. cbn [fst snd] in *. subst o.
       unfold limiter_wait. rewrite Hreq. destruct (ws_limiter st1); by destruct (execute_job _ _ _ _ _). } destruct (Validate_None _ Hv) as [Hs _]. pose proof (sn_rps _ Hs).
  assert (limits (cf_SupportedExchanges cfg) st) as Hl.
  { apply (rtc_ind_r (limits (cf_SupportedExchanges cfg)) (service_state cfg now db)) in Hst; [done| |].
    - destruct (configure_all_spec (cf_RateLimit cfg) now (cf_SupportedExchanges cfg) NewLimiter) as [_ Hk]; [lia|apply parseCSV_norm|].
      eexists. split; [reflexivity|]. intros k. rewrite Hk. case_bool_decide as Hin.
      + split; eauto.
      + split; [|done]. intros Hx. destruct (is_Some_None Hx).
    - intros s1 s2 _ (e & j & ->) IH. by apply process_limits. }
  pose proof (allow_same st je (job_key job)) as [Ha Hdb].
  destruct (breaker_allow st je (job_key job)) as [st1 [err|]] eqn:Eb; cbn [fst] in Ha, Hdb.
  - exists st1, err. split_and!; [done|done|]. intros x je'. unfold process. change (breaker_allow st je' (job_key job)) with (breaker_allow st je (job_key job)).
    rewrite Eb. by destruct (retryOrDeadLetter _ _ _ _ _ _).
  - destruct Hl as (l & El & Hk). rewrite El in Ha. exists st1, (no_budget job). split_and!; [done|done|]. intros x je'. unfold process.
    change (breaker_allow st je' (job_key job)) with (breaker_allow st je (job_key job)). rewrite Eb. unfold limiter_wait.
    rewrite Ha, Hreq. change (env_turns je') with (env_turns je). unfold Wait. cbn [job_key key_Exchange].
    rewrite (proj2 (String.eqb_neq _ _) Hne). destruct (env_turns je) as [|t turns]; [done|]. cbn [wait_loop]. unfold reserve.
    destruct (l !! norm (job_Exchange job)) eqn:E; [exfalso; apply Hns, Hk; eauto|].
    rewrite <- Ha. assert (MkWS (ws_db st1) (ws_breaker st1) (ws_limiter st1) (ws_progress st1) = st1) as -> by (by destruct st1).
    fold (no_budget job). by destruct (retryOrDeadLetter _ _ _ _ _ _).
Qed.

(** ** Running the scheduler again *)

Lemma insert_known_job db job db' n :
  insert_job db job = Ok (db', n) -> has_key db (job_IdempotencyKey job) = true -> db_jobs db' = db_jobs db /\ n = 0.
Proof.
  unfold insert_job. intros E Hk. rewrite Hk in E. repeat case_match; by simplify_eq.
Qed.

Lemma insert_known_jobs db jobs k db' n :
  insert_loop db jobs k = Ok (db', n) -> list_to_set (map job_IdempotencyKey jobs) ⊆ keys db -> db_jobs db' = db_jobs db /\ n = k.
Proof.
  revert db k. induction jobs as [|job jobs IH]; intros db k E Hs; cbn [insert_loop] in E; [by simplify_eq|].
  destruct (insert_job db job) as [[db1 m]|] eqn:E1; [|done]. apply insert_known_job in E1 as [Hj ->].
  - apply IH in E as [Hj' ->].
    + rewrite Hj'. split; [done|lia].
    + unfold keys in *. rewrite Hj. cbn [map list_to_set] in Hs. set_solver.
  - rewrite has_key_keys. apply bool_decide_true. cbn [map list_to_set] in Hs. set_solver.
Qed.

Lemma recover_with_keys f1 f2 db now timeout : keys (fst (recover_with f1 f2 db now timeout)) = keys db.
Proof.
  assert (forall p now cutoff, keys (update_where db p (recover_row now cutoff)) = keys db) as Hk.
  { intros p n c. unfold keys. f_equal. cbn. rewrite map_map. apply map_ext. intros r. by destruct (p r). }
  unfold recover_with, RecoverInterrupted. destruct f1; [done|]. destruct f2; apply Hk.
Qed.

(** A run that ends with code 0 left the jobs of its bucket in the table. *)
Lemma scheduler_stores `{MapOrder} `{SqlDriver Conn} `{PlannerStores} env f1 f2 now db policies :
  ListActivePolicies = Ok policies -> Forall cacheable policies ->
  r_exit (scheduler_service (Conn := Conn) env f1 f2 now db) = 0 ->
  exists js, all_jobs now policies = Ok js /\
    list_to_set (map job_IdempotencyKey js) ⊆ keys (r_state (scheduler_service (Conn := Conn) env f1 f2 now db)).
Proof.
  intros Hl Hc. unfold scheduler_service. destruct (start _ _ _) as [[cfg p]|l]; [|done].
  destruct (recover_with _ _ _ _ _) as [db1 rec]. pose proof (RunAt_stores policies Hl Hc db1 now) as Hs.
  destruct (RunAt db1 now) as [db2 [r [e|]]]; [done|]. intros _. destruct (Hs eq_refl) as (js & Hj & _ & Hk). by exists js.
Qed.

(** C23: running the scheduler again.  After a run of the scheduler service that exits with code 0, another
    run while every policy is in the same bucket, whatever the recovery did or failed to do in either,
    plans the same jobs and adds no row: when it exits with code 0, the job table is exactly what its own
    recovery made of it. *)
Theorem scheduler_reruns `{MapOrder} `{SqlDriver Conn} `{PlannerStores} env f1 f2 g1 g2 now now' db policies :
  ListActivePolicies = Ok policies -> Forall cacheable policies ->
  Forall (fun p => ScheduledBucket now (pol_IntervalSeconds p) = ScheduledBucket now' (pol_IntervalSeconds p)) policies ->
  let first := scheduler_service (Conn := Conn) env f1 f2 now db in
  let second := scheduler_service (Conn := Conn) env g1 g2 now' (r_state first) in
  r_exit first = 0 -> r_exit second = 0 ->
  db_jobs (r_state second)
  = db_jobs (fst (recover_with g1 g2 (r_state first) now' (hd_RestartJobTimeout (cf_Hardening (Load env))))).
Proof.
  intros Hl Hc Hb first second Hx. destruct (scheduler_stores env f1 f2 now db policies Hl Hc Hx) as (js & Ej & Hk).
  unfold second. clear second. revert Hk. fold first. generalize (r_state first). clear -Hl Hc Hb Ej. intros db1 Hk.
  unfold scheduler_service. destruct (start _ _ _) as [[cfg p]|l] eqn:Es; [|done]. apply start_Ok in Es as [-> _].
  pose proof (recover_with_keys g1 g2 db1 now' (hd_RestartJobTimeout (cf_Hardening (Load env)))) as Hr.
  destruct (recover_with _ _ _ _ _) as [db2 rec]. cbn [fst] in *.
  destruct (RunAt_eq db2 now' policies Hl Hc) as (r & _ & ->). rewrite <- (all_jobs_bucket now now' policies Hb), Ej.
  destruct js as [|j js]; [done|]. cbn [InsertJobs repo_JobStore]. unfold repo_InsertJobs.
  destruct (insert_loop db2 (j :: js) 0) as [[db3 n]|e] eqn:El; [|done]. intros _.
  apply insert_known_jobs in El as [E _]; [exact E|]. by rewrite Hr.
Qed.

(** ** Sample runs *)

(** Only the PostgreSQL variables and the list of exchanges are set. *)
Definition service_env (exchanges : string) : Environment := fun k =>
  match list_to_map (M := gmap string string) [("POSTGRES_HOST", "db"); ("POSTGRES_PORT", "5432"); ("POSTGRES_USER", "u");
    ("POSTGRES_PASSWORD", "p"); ("POSTGRES_DB", "d"); ("POSTGRES_SSLMODE", "disable"); ("SUPPORTED_EXCHANGES", exchanges)] !! k with
  | Some v => v | None => "" end.

(** A driver whose server answers. *)
#[export] Instance answering : SqlDriver unit := {| sql_Open _ := Ok tt; sql_Ping _ := None |}.

(** A job whose exchange answers with an error; the limiter grants it at once. *)
Definition failing_env (err : option error) : job_env :=
  MkEnv None demo_time [MkTurn demo_time 0 None] err demo_time demo_time demo_time.

#[local] Instance sample_order : MapOrder := forward_order.

Lemma collector_limiter_ready_witness :
  let c := Load (service_env " OKX,binance") in
  let '(l, log) := configure_all (cf_RateLimit c) demo_time (cf_SupportedExchanges c) NewLimiter in
  log = [] /\ limiter_ok l /\ is_Some (l !! "okx") /\ l !! "bybit" = None.
Proof.
  pose proof (collector_limiter_ready (service_env " OKX,binance") demo_time eq_refl) as Hw. cbv zeta in *.
  destruct (configure_all _ _ _ _) as [l log]. destruct Hw as (Hlog & Hok & _ & Hl); [vm_compute; congruence|vm_compute; reflexivity|].
  split_and!; [exact Hlog|exact Hok|..]; rewrite Hl; [|vm_compute; reflexivity]. eexists. vm_compute. reflexivity.
Defined.

Lemma breaker_inert_witness :
  let cfg := Load (service_env "") in
  let out st := Worker.RunOnce (service_worker cfg) st demo_time ∅ (fun _ => failing_env (Some DeadlineExceeded)) in
  out (unguarded (service_state cfg demo_time demo_planned))
  = (unguarded (fst (out (service_state cfg demo_time demo_planned))), snd (out (service_state cfg demo_time demo_planned))) /\
  snd (out (service_state cfg demo_time demo_planned)) = (1, Returned None).
Proof.
  cbv zeta. split; [|vm_compute; reflexivity].
  pose proof (breaker_inert (Load (service_env "")) demo_time demo_planned ∅ (fun _ => failing_env (Some DeadlineExceeded))) as Hw.
  cbv zeta in Hw. apply Hw; [vm_compute; reflexivity| |intros _; reflexivity]. split; [vm_compute; reflexivity|vm_compute; congruence].
Defined.

(** The planned job is one of binance; the collector supports okx alone. *)
Definition planned_job : Job := match demo_claimed with j :: _ => j | [] => demo_job 0 end.

Lemma unsupported_never_collected_witness :
  let st := service_state (Load (service_env "okx")) demo_time demo_planned in
  snd (process (service_worker (Load (service_env "okx"))) st (failing_env None) planned_job) = Returned None /\
  map jr_error_message (db_jobs (ws_db (fst (process (service_worker (Load (service_env "okx"))) st (failing_env None) planned_job))))
  = [Some "rate limit budget for binance is not configured"].
Proof.
  pose proof (unsupported_never_collected (service_env "okx") demo_time demo_planned
    (service_state (Load (service_env "okx")) demo_time demo_planned) planned_job (failing_env None)) as H.
  destruct H as (st1 & err & Hdb & Herr & Hx).
  - vm_compute. reflexivity.
  - vm_compute. reflexivity.
  - apply rtc_refl.
  - vm_compute. discriminate.
  - refine (bool_decide_unpack _ _). vm_compute. exact I.
  - discriminate.
  - cbv zeta. specialize (Hx None). cbv zeta in Hx. change (MkEnv _ _ _ None _ _ _) with (failing_env None) in Hx. rewrite Hx.
    rewrite Herr by (vm_compute; reflexivity). unfold retryOrDeadLetter. cbn [fst snd]. rewrite Hdb.
    split; vm_compute; reflexivity.
Defined.

Lemma scheduler_reruns_witness :
  let first := @scheduler_service _ unit _ demo_stores (service_env "") None None demo_time demo_db in
  let second := @scheduler_service _ unit _ demo_stores (service_env "") (Some DeadlineExceeded) None (demo_time + 40 * Second) (r_state first) in
  length (db_jobs (r_state first)) = 1%nat /\ db_jobs (r_state second) = db_jobs (r_state first).
Proof.
  split; [vm_compute; reflexivity|].
  rewrite (@scheduler_reruns _ unit _ demo_stores (service_env "") None None (Some DeadlineExceeded) None demo_time
    (demo_time + 40 * Second) demo_db [demo_policy] eq_refl demo_cacheable); [reflexivity|..].
  - constructor; [vm_compute; reflexivity|constructor].
  - vm_compute. reflexivity.
  - vm_compute. reflexivity.
Defined.

(** Five failures in a row open a circuit, and the default batch is four. *)
Example default_breaker : (threshold (cf_RateLimit (Load (service_env ""))), cf_WorkerConcurrency (Load (service_env ""))) = (5, 4).
Proof. vm_compute. reflexivity. Qed.

(** Fields of the caller replace those of the record. *)
Example reserved_fields :
  log_Info "api-service" "started" (<["level" := log_text "debug"]> ∅) 0
  = LogRecord (JObject [("level", JString "debug"); ("message", JString "started"); ("service", JString "api-service");
                        ("ts", JString "0001-01-01T00:00:00Z")]).
Proof. vm_compute. reflexivity. Qed.
