(* ===== verification/ApiService.v ===== *)
(** * The API service ([cmd/api-service/main.go])

    The choice of the realtime store, the handlers the service adds to those of [ApiHandlers], and the
    table of all its routes.  Patterns of this table overlap ([/symbols/top] and [/symbols/{id}]), so
    dispatch is modelled as [http.ServeMux] does it: among the patterns a path matches, the most
    specific.  A body is the value handed to the encoder; a nil slice is told from an empty one, since
    it is written as [null]. *)

From Stdlib Require Import Ascii.
From S2P Require Import Prelude GoString GoTime GoFloat GoError GoOutcome GoStrconv GoJson GoJsonText.
From S2P Require Import ApiQuery ApiStore ApiSchema ApiSeries ApiAdmin ApiOverview RealtimeStore RealtimeEvents RealtimeStreams ApiJson ApiHandlers.
From S2P Require Import RedisStore Symbols Endpoints Normalizers Config Metrics.

(** ** [fmt.Sscanf(s, "%d", &x)] *)

Definition newline_byte : ascii := byte_of_Z 10.

(** Blanks are skipped, except a newline, which is an error, as anything else that is no number. *)
Definition scan_blanks : list bytes := filter (fun p => p <> [newline_byte]) unicode_space.

(** A sign, the digits, and nothing is asked of what follows them. *)
Definition Sscanf_d (s : string) : option Z :=
  let l := strip_all scan_blanks (to_bytes s) in
  let '(sign, l) := match l with
                    | c :: l' => if byte_is c 43 || byte_is c 45 then ([c], l') else ([], l)
                    | [] => ([], [])
                    end in
  let '(digits, _) := span_digits l in
  if bool_decide (digits = []) then None else ParseInt (of_bytes (sign ++ digits)).

(** ** Answers *)

Inductive payload :=
| PStrings (members : list (string * string))
| PSymbols (l : option (list Symbol))
| PSymbol (s : Symbol)
| PMarkets (l : list SymbolMarket)
| PEndpoints (l : option (list Endpoint))
| PEndpoint (e : Endpoint)
| PError (code message : string)
| PText (s : string).

(** [None]: the handler leaves the content type to the server, which guesses from the body. *)
Record answer := MkAnswer { a_status : Z; a_type : option string; a_body : payload }.

Definition StatusText (status : Z) : string :=
  if status =? StatusBadRequest then "Bad Request" else
  if status =? StatusNotFound then "Not Found" else "Internal Server Error".

Definition writeJSON (status : Z) (body : payload) : answer := MkAnswer status (Some "application/json") body.
Definition writeError (status : Z) (message : string) : answer := writeJSON status (PError (StatusText status) message).

(** A slice that [append] started from nil. *)
Definition appended {A} (l : list A) : option (list A) := match l with [] => None | _ => Some l end.

(** ** The tables the handlers read, and the error of their queries when the database is out *)

Record tables := MkTables {
  t_symbols : list symbol_row; t_has_watchlist : bool; t_endpoints : list Endpoint; t_fault : option error }.

Definition queried {A} (t : tables) (what : string) (r : result error A) : result error A :=
  match t_fault t with Some e => Err (WrapError what e "") | None => r end.

Definition or_500 {A} (r : result error A) (body : A -> payload) : answer :=
  match r with
  | Err e => writeError StatusInternalServerError (Error e)
  | Ok a => writeJSON StatusOK (body a)
  end.

Section handlers.
Context (t : tables) (path query : string -> string).

Definition h_symbols_list : answer :=
  or_500 (queried t "query symbols: " (ListActiveSymbols (t_symbols t))) (fun l => PSymbols (appended l)).

Definition h_symbol : answer :=
  match Sscanf_d (path "id") with
  | None => writeError StatusBadRequest "invalid symbol id"
  | Some id =>
    if id <=? 0 then writeError StatusBadRequest "invalid symbol id" else
    match queried t "query symbols: " (Symbols.GetSymbolByID (t_symbols t) id) with
    | Err e => writeError StatusNotFound (Error e)
    | Ok s => writeJSON StatusOK (PSymbol s)
    end
  end.

Definition top_limit (raw : string) : Z :=
  if (raw =? "")%string then 50 else
  match Sscanf_d raw with Some n => if n <? 1 then 50 else n | None => 50 end.

Definition h_symbols_top : answer :=
  or_500 (queried t "query symbols: " (ListTopSymbols (t_symbols t) (top_limit (query "limit")))) (fun l => PSymbols (appended l)).

Definition h_symbols_watchlist : answer :=
  or_500 (queried t "check column symbols.is_watchlist: " (ListWatchlistSymbols (t_symbols t) (t_has_watchlist t)))
    (fun l => PSymbols (if t_has_watchlist t then appended l else Some l)).

Definition h_symbols_exchange : answer :=
  let exchange := path "exchange" in
  or_500 (if (norm exchange =? "")%string then ListSymbolsByExchange (t_symbols t) exchange
          else queried t "query symbols: " (ListSymbolsByExchange (t_symbols t) exchange)) (fun l => PSymbols (Some l)).

Definition h_symbols_markets (supportedExchanges : list string) : answer :=
  or_500 (queried t "query symbols: " (ListActiveSymbolMarkets (t_symbols t) supportedExchanges)) PMarkets.

Definition h_endpoints : answer :=
  let exchange := path "exchange" in let dataType := path "data_type" in
  or_500 (if (norm exchange =? "")%string || (TrimSpace dataType =? "")%string
          then ListActiveByExchangeDataType (t_endpoints t) exchange dataType
          else queried t "query endpoints: " (ListActiveByExchangeDataType (t_endpoints t) exchange dataType))
    (fun l => PEndpoints (appended l)).

Definition h_endpoint : answer :=
  let exchange := path "exchange" in let marketType := path "market_type" in
  let dataType := path "data_type" in let name := path "name" in
  let r := ResolveActive (t_endpoints t) exchange marketType dataType name in
  match (if (norm exchange =? "")%string || (TrimSpace marketType =? "")%string || (TrimSpace dataType =? "")%string
            || (TrimSpace name =? "")%string then r else queried t "query endpoints: " r) with
  | Ok e => writeJSON StatusOK (PEndpoint e)
  | Err e => writeError (if errors_Is e ErrEndpointUnavailable then StatusNotFound else StatusInternalServerError) (Error e)
  end.

(** [pg.Ping] of the health check. *)
Definition h_healthz (ping : option error) : answer :=
  match ping with
  | Some e => MkAnswer StatusServiceUnavailable None (PStrings [("status", "unhealthy"); ("error", Error e)])
  | None => writeJSON StatusOK (PStrings [("status", "ok")])
  end.

Definition h_readyz : answer := writeJSON StatusOK (PStrings [("status", "ready")]).

Definition h_metrics (text : result error string) : answer :=
  match text with
  | Err e => MkAnswer StatusInternalServerError None (PText ("# error: " +:+ Error e +:+ of_bytes [newline_byte]))
  | Ok s => MkAnswer StatusOK (Some "text/plain; version=0.0.4") (PText s)
  end.
End handlers.

(** ** Dispatch *)

(** Every path of [p] is a path of [q]. *)
Fixpoint covers (q p : list segment) : bool :=
  match q, p with
  | [], [] => true
  | Wild _ :: q, _ :: p => covers q p
  | Lit s :: q, Lit t :: p => (s =? t)%string && covers q p
  | _, _ => false
  end.

Definition strictly (q p : list segment) : bool := covers q p && negb (covers p q).

(** Registering both makes [ServeMux] panic: some path matches both and neither is more specific. *)
Definition conflict (p q : list segment) : bool := overlap p q && negb (strictly p q) && negb (strictly q p).

Fixpoint registers (patterns : list (list segment)) : bool :=
  match patterns with
  | [] => true
  | p :: rest => forallb (fun q => negb (conflict p q)) rest && registers rest
  end.

(** The most specific of the patterns that match, with the values of its wildcards. *)
Fixpoint mux_match {A} (routes : list (list segment * A)) (path : list string)
    : option (list segment * list (string * string) * A) :=
  match routes with
  | [] => None
  | (p, h) :: rest =>
    match match_path p path, mux_match rest path with
    | Some l, Some (q, k, g) => if covers q p then Some (p, l, h) else Some (q, k, g)
    | Some l, None => Some (p, l, h)
    | None, r => r
    end
  end.

Lemma covers_trans p q r : covers r q = true -> covers q p = true -> covers r p = true.
Proof.
  revert q r. induction p as [|x p IH]; intros [|[t|m] q] [|[s|n] r]; cbn [covers]; try done; destruct x as [u|u]; try done.
  - intros [Hs%String.eqb_eq Hr]%andb_prop [Ht%String.eqb_eq Hq]%andb_prop. subst. rewrite String.eqb_refl. by eapply IH.
  - intros Hr [_ Hq]%andb_prop. by eapply IH.
  - intros Hr Hq. by eapply IH.
  - intros Hr Hq. by eapply IH.
Qed.

Lemma covers_refl p : covers p p = true.
Proof. induction p as [|[s|n] p IH]; cbn [covers]; [done| |done]. by rewrite String.eqb_refl. Qed.

(** A path that matches some pattern is served by the most specific of them, when registration does not
    panic: the one whose paths are paths of every other pattern it matches. *)
Lemma mux_match_spec {A} (routes : list (list segment * A)) path :
  registers (map fst routes) = true ->
  match mux_match routes path with
  | None => Forall (fun r => match_path (fst r) path = None) routes
  | Some (p, l, h) =>
    (p, h) ∈ routes /\ match_path p path = Some l /\
    Forall (fun r => is_Some (match_path (fst r) path) -> covers (fst r) p = true) routes
  end.
Proof.
  induction routes as [|[p h] routes IH]; cbn [registers map mux_match]; [constructor|].
  intros [Hp Hr]%andb_prop. specialize (IH Hr). rewrite forallb_forall in Hp.
  destruct (match_path p path) as [l|] eqn:El.
  2: { destruct (mux_match routes path) as [[[q k] g]|]; [|by constructor]. destruct IH as (Hin & Hm & Hf).
       split; [by right|]. split; [done|]. constructor; [|done]. cbn [fst]. rewrite El. by intros []. }
  destruct (mux_match routes path) as [[[q k] g]|].
  2: { split; [by left|]. split; [done|]. constructor; [intros _; apply covers_refl|].
       eapply Forall_impl; [exact IH|]. intros r Hn. rewrite Hn. by intros []. }
  destruct IH as (Hin & Hm & Hf). destruct (covers q p) eqn:Ec.
  - split; [by left|]. split; [done|]. constructor; [intros _; apply covers_refl|].
    eapply Forall_impl; [exact Hf|]. intros r Hc Hx. eapply covers_trans; eauto.
  - split; [by right|]. split; [done|]. constructor; [|done]. intros _. cbn [fst].
    assert (negb (conflict p q) = true) as Hn.
    { apply Hp, in_map_iff. exists (q, g). split; [done|]. by apply list_elem_of_In. }
    unfold conflict, strictly in Hn. rewrite (overlap_complete p q path l k El Hm), Ec in Hn. cbn [andb negb] in Hn.
    destruct (covers p q); [done|]. discriminate Hn.
Qed.

(** ** The service *)

(** [main]'s Redis options. *)
Definition redis_options (c : RedisConfig) : RedisOptions :=
  MkRedisOptions (Config.Addr c) (rd_Password c) (rd_DB c) (rd_MaxMemory c) (rd_EvictionPolicy c) (2 * Second).

(** The realtime store: Redis with memory behind it when Redis takes the memory policy, else memory alone.
    [None]: applying the policy panicked. *)
Definition choose_store {N} `{Network N} (ctx : Ctx) (c : RedisConfig) (n : N)
    : option (chosen_store (RedisStore N) (MemoryStore bytes)) :=
  match ApplyMemoryPolicy ctx (NewRedisStore (redis_options c) n) with
  | (Fail _, _) => Some (OnlyFallback (Some NewMemoryStore))
  | (Value _, redis) => Some (NewFallbackStore (Some redis) (Some NewMemoryStore))
  | (Panic, _) => None
  end.

Definition listen_addr (cfg : Config) : string := if (cf_HTTPAddr cfg =? "")%string then ":8080" else cf_HTTPAddr cfg.

Definition own_handler : Type := (string -> string) -> (string -> string) -> answer.

(** [main]'s own routes, then [registerSymbolHandlers] and [registerEndpointHandlers]. *)
Definition own_routes (t : tables) (supportedExchanges : list string) (ping : option error) (metrics : result error string)
    : list (list segment * own_handler) :=
  [([Lit "healthz"], fun _ _ => h_healthz ping);
   ([Lit "readyz"], fun _ _ => h_readyz);
   ([Lit "metrics"], fun _ _ => h_metrics metrics);
   ([Lit "symbols"], fun _ _ => h_symbols_list t);
   ([Lit "symbols"; Wild "id"], fun path _ => h_symbol t path);
   ([Lit "symbols"; Lit "top"], fun _ query => h_symbols_top t query);
   ([Lit "symbols"; Lit "watchlist"], fun _ _ => h_symbols_watchlist t);
   ([Lit "symbols"; Lit "exchange"; Wild "exchange"], fun path _ => h_symbols_exchange t path);
   ([Lit "symbols"; Lit "markets"], fun _ _ => h_symbols_markets t supportedExchanges);
   ([Lit "endpoints"; Wild "exchange"; Wild "data_type"], fun path _ => h_endpoints t path);
   ([Lit "endpoints"; Wild "exchange"; Wild "market_type"; Wild "data_type"; Wild "name"], fun path _ => h_endpoint t path)].

Inductive target (S : Type) := Own (h : own_handler) | Derivative (h : handler) | Realtime (h : rt_handler (S := S)).
Arguments Own {S}. Arguments Derivative {S}. Arguments Realtime {S}.

Inductive reply := OwnReply (a : answer) | ApiReply (r : Response) | Dropped.

Section service.
Context `{HeapOrder} {S V : Type} `{Store S V} `{JsonText V}.
Context (db : Database) (now : Time) (t : tables) (supportedExchanges : list string) (ping : option error).

Definition service_routes : list (list segment * target S) :=
  (map (prod_map id Own) (own_routes t supportedExchanges ping (Prometheus db now)) ++
   map (prod_map id Derivative) (Register db now) ++ map (prod_map id Realtime) RegisterRealtime)%list.

(** One GET request. *)
Definition serve (ctx : Ctx) (path : list string) (query : string -> string) (s : option S) : option (reply * option S) :=
  match mux_match service_routes path with
  | None => None
  | Some (_, values, Own h) => Some (OwnReply (h (path_value values) query), s)
  | Some (_, values, Derivative h) => Some (ApiReply (h (MkRequest (path_value values) query)), s)
  | Some (_, values, Realtime h) =>
    let '(r, s') := h ctx (path_value values) s in
    Some (match r with Some r => ApiReply r | None => Dropped end, s')
  end.

(** dispatch.  Registering the routes of the service does not panic, and every path is served by the
    most specific of the patterns it matches, whatever the order they are registered in: the one whose
    paths are paths of every other pattern it matches.  A path that matches none is not served. *)
Theorem service_dispatch path :
  registers (map fst service_routes) = true /\
  match mux_match service_routes path with
  | None => Forall (fun r => match_path (fst r) path = None) service_routes
  | Some (p, l, h) =>
    (p, h) ∈ service_routes /\ match_path p path = Some l /\
    Forall (fun r => is_Some (match_path (fst r) path) -> covers (fst r) p = true) service_routes
  end.
Proof.
  assert (registers (map fst service_routes) = true) as Hr by reflexivity.
  split; [exact Hr|]. exact (mux_match_spec service_routes path Hr).
Qed.
End service.

(** ** Symbols by number *)

(** A text that goes on with something else than a digit. *)
Definition no_digit (s : string) : Prop := match to_bytes s with [] => True | c :: _ => ~ is_digit c end.
#[export] Instance no_digit_dec s : Decision (no_digit s).
Proof. unfold no_digit, is_digit. destruct (to_bytes s); apply _. Defined.

Lemma span_digits_app ds l : Forall is_digit ds -> match l with [] => True | c :: _ => ~ is_digit c end ->
  span_digits (ds ++ l) = (ds, l).
Proof.
  intros Hd Hl. induction Hd as [|c ds Hc _ IH]; cbn [app span_digits].
  - destruct l as [|c l]; [done|]. cbn [span_digits]. by rewrite bool_decide_false.
  - rewrite bool_decide_true by done. by rewrite IH.
Qed.

(** The number in front is what is read, whatever follows it. *)
Lemma Sscanf_d_Itoa n s : 0 <= n -> int64_ok n -> no_digit s -> Sscanf_d (Itoa n +:+ s) = Some n.
Proof.
  intros Hn Hi Hs. unfold Sscanf_d.
  assert (to_bytes (Itoa n) = print_nat n) as Hb.
  { unfold Itoa. rewrite (proj2 (Z.ltb_ge n 0)) by lia. apply to_of_bytes. }
  rewrite to_bytes_app, Hb. pose proof (print_nat_digits n Hn) as Hd.
  assert (exists c l, print_nat n = c :: l) as (c & l & E) by (pose proof (print_nat_ne n); destruct (print_nat n); [done|eauto]).
  rewrite E in *. cbn [app]. apply Forall_cons in Hd as [Hc Hl].
  rewrite strip_all_fix.
  2: { apply strip_one_first, Forall_forall. intros p [_ Hp]%list_elem_of_filter.
       pose proof (proj1 (solid_spec c (is_digit_solid c Hc))) as Hf. rewrite Forall_forall in Hf. by apply Hf. }
  unfold byte_is. assert ((Z_of_byte c =? 43) = false /\ (Z_of_byte c =? 45) = false) as [-> ->].
  { destruct Hc as [d Hd]. unfold digit_val in Hd. case_match eqn:Hx; [|done]. bool_to_prop. split; apply Z.eqb_neq; lia. }
  cbn [orb]. rewrite app_comm_cons, span_digits_app by (first [by constructor|exact Hs]).
  rewrite bool_decide_false by done. cbn [app]. rewrite <- Hb, of_to_bytes. by apply ParseInt_Itoa.
Qed.

Lemma digit_head n s : 0 <= n -> exists c l, to_bytes (Itoa n +:+ s) = c :: l /\ is_digit c.
Proof.
  intros Hn. unfold Itoa. rewrite (proj2 (Z.ltb_ge n 0)) by lia. rewrite to_bytes_app, to_of_bytes.
  pose proof (print_nat_digits n Hn) as Hd. pose proof (print_nat_ne n) as Hne.
  destruct (print_nat n) as [|c l]; [done|]. apply Forall_cons in Hd as [Hc _]. by exists c, (l ++ to_bytes s)%list.
Qed.

(** The routes of [ApiHandlers] are all under [/api/v1/derivatives]. *)
Lemma derivative_routes `{HeapOrder} {S V : Type} `{Store S V} `{JsonText V} (db : Database) now (p : list segment) (h : target S) :
  (p, h) ∈ (map (prod_map id Derivative) (Register db now) ++ map (prod_map id Realtime) RegisterRealtime)%list ->
  hd_error p = Some (Lit "api").
Proof.
  assert (Forall (fun q => hd_error q = Some (Lit "api")) (map fst (Register db now))) as Hr1 by repeat constructor.
  assert (Forall (fun q => hd_error q = Some (Lit "api")) (map fst (RegisterRealtime (S := S)))) as Hr2 by repeat constructor.
  rewrite Forall_forall in Hr1, Hr2.
  intros [Hin|Hin]%elem_of_app; apply list_elem_of_fmap in Hin as ([q g] & [= -> ->] & Hin); [apply Hr1|apply Hr2];
    apply list_elem_of_fmap; by exists (q, g).
Qed.

(** symbols by number.  The path [/symbols/] followed by a positive number in range, and by anything that
    does not start with a digit, is answered for the symbol of that number: 200 with the symbol when the
    table has it, and otherwise 404, which is also the answer when the database is out. *)
Theorem symbol_served `{HeapOrder} {S V : Type} `{Store S V} `{JsonText V} (db : Database) now t supported ping
    (ctx : Ctx) query (s : option S) n rest :
  0 < n -> int64_ok n -> no_digit rest ->
  serve (V := V) db now t supported ping ctx ["symbols"; Itoa n +:+ rest] query s
  = Some (OwnReply match t_fault t, Symbols.GetSymbolByID (t_symbols t) n with
                   | Some e, _ => writeError StatusNotFound ("query symbols: " +:+ Error e)
                   | None, Err e => writeError StatusNotFound (Error e)
                   | None, Ok x => writeJSON StatusOK (PSymbol x)
                   end, s).
Proof.
  intros Hn Hi Hr. destruct (digit_head n rest ltac:(lia)) as (c & l & Eb & Hc).
  assert (forall x, match to_bytes x with [] => True | d :: _ => ~ is_digit d end -> (x =? Itoa n +:+ rest)%string = false) as Hx.
  { intros x Hx. apply String.eqb_neq. intros ->. rewrite Eb in Hx. done. }
  assert ((Itoa n +:+ rest =? "")%string = false) as He.
  { apply String.eqb_neq. intros E. by rewrite E in Eb. }
  unfold serve. pose proof (mux_match_spec (service_routes db now t supported ping) ["symbols"; Itoa n +:+ rest] eq_refl) as Hd.
  assert (forall (q : list segment) (h : target S), (q, h) ∈ service_routes db now t supported ping ->
            is_Some (match_path q ["symbols"; Itoa n +:+ rest]) ->
            (q, h) = ([Lit "symbols"; Wild "id"], Own (fun path _ => h_symbol t path))) as Hq.
  { intros q h Hin [l' Hm]. unfold service_routes in Hin. apply elem_of_app in Hin as [Hin|Hin].
    - unfold own_routes in Hin. cbn [map prod_map fst snd id] in Hin.
      repeat (apply elem_of_cons in Hin as [[= -> ->]|Hin]; [try done; exfalso; cbn [match_path] in Hm; rewrite ?Hx in Hm by
        (intros [? Hz]; vm_compute in Hz; discriminate Hz); done|]). by apply elem_of_nil in Hin.
    - apply derivative_routes in Hin. destruct q as [|x q]; [done|]. injection Hin as ->. discriminate Hm. }
  destruct (mux_match _ _) as [[[q l'] h]|].
  2: { exfalso. rewrite Forall_forall in Hd. specialize (Hd ([Lit "symbols"; Wild "id"], Own (fun path _ => h_symbol t path))).
       cbn [fst match_path] in Hd. rewrite He in Hd. discriminate Hd. unfold service_routes, own_routes. cbn [map prod_map fst snd id app].
       do 4 right. by left. }
  destruct Hd as (Hin & Hm & _). pose proof (Hq q h Hin (mk_is_Some _ _ Hm)) as [= -> ->].
  cbn [match_path] in Hm. rewrite He in Hm. injection Hm as <-.
  unfold h_symbol. cbn [path_value find fst snd String.eqb Ascii.eqb Bool.eqb default]. 
  change (path_value [("id", Itoa n +:+ rest)] "id") with (Itoa n +:+ rest).
  rewrite Sscanf_d_Itoa by (done || lia). rewrite (proj2 (Z.leb_gt n 0)) by lia. unfold queried.
  destruct (t_fault t); [|by destruct (Symbols.GetSymbolByID _ _)]. cbn [Error]. by rewrite append_empty.
Qed.

(** ** Examples *)

Definition sample_tables (fault : option error) : tables :=
  MkTables [MkSymbolRow 12 "BTC" (Some "BTC") None None (Some 1) false false RawEmpty] false [] fault.
Definition btc : Symbol := MkSymbol 12 "BTC" "BTC" "" "" 1 false [].
Definition answers (t : tables) (path : list string) : option reply :=
  fst <$> serve (H := in_place) (S := MemoryStore RawMessage) (V := RawMessage) nan_db 0 t [] None (MkCtx None 0) path (fun _ => "") None.

Lemma symbol_served_witness :
  answers (sample_tables None) ["symbols"; "12abc"] = Some (OwnReply (writeJSON StatusOK (PSymbol btc))).
Proof.
  unfold answers. change "12abc" with (Itoa 12 +:+ "abc").
  rewrite (symbol_served (H := in_place) (S := MemoryStore RawMessage) (V := RawMessage) nan_db 0 (sample_tables None) [] None
    (MkCtx None 0) (fun _ => "") None 12 "abc").
  - reflexivity.
  - reflexivity.
  - apply (bool_decide_unpack _). vm_compute. exact I.
  - apply (bool_decide_unpack _). vm_compute. exact I.
Defined.

(** No active symbol: [null] from one list, [[]] from another; a database that is out is reported as a
    symbol that is not there; a page of symbols is no symbol. *)
Example lists_differ :
  (answers (sample_tables None) ["symbols"], answers (sample_tables None) ["symbols"; "exchange"; "okx"]) =
  (Some (OwnReply (writeJSON StatusOK (PSymbols None))), Some (OwnReply (writeJSON StatusOK (PSymbols (Some []))))).
Proof. vm_compute. reflexivity. Qed.
Example outage_not_found :
  answers (sample_tables (Some DeadlineExceeded)) ["symbols"; "12"]
  = Some (OwnReply (writeError StatusNotFound "query symbols: context deadline exceeded")).
Proof. vm_compute. reflexivity. Qed.
Example literal_first :
  (answers (sample_tables None) ["symbols"; "top"], answers (sample_tables None) ["symbols"; "tops"], answers (sample_tables None) ["symbols"; "top"; "1"])
  = (Some (OwnReply (writeJSON StatusOK (PSymbols None))), Some (OwnReply (writeError StatusBadRequest "invalid symbol id")), None).
Proof. vm_compute. reflexivity. Qed.
